(* ===== verification/_CoqProject ===== *)
-Q . S2P
Prelude.v
Effects.v
Budget.v
Policy.v
TaskContracts.v
TaskStore.v
TaskScheduler.v
TaskContext.v
Outbox.v
Execution.v
PyNumbers.v
Recovery.v
Monitoring.v
Vocabulary.v
Knowledge.v
KnowledgeRead.v
Network.v
CpeJoin.v
EnrichmentState.v
EnrichmentRole.v
Intent.v
Admission.v
Handoff.v
InvestigationState.v
Retrieval.v
Capability.v
Sandbox.v
Perception.v
InvestigationRole.v
Watch.v
