(* ===== verification/Prelude.v ===== *)
(** * SecFusionAgent: a verification development of the agent runtime

    SecFusionAgent (src/) is a Python backend that collects security intelligence from configured sources
    and lets bounded agent roles investigate incidents over it.  What the repository builds itself, beside
    parsers and network clients, is a durable runtime: contracts and contexts of tasks, their runs and
    events, budgets, policies, capabilities, execution guards, recovery jobs, source scheduling, the
    evidence-backed knowledge base and the event-sourced state of investigation cases.  This development
    models that runtime as executable definitions translated from the Python source and proves what each
    part promises.

    ** How the parts interact

    A request is parsed for the identifiers it names (Intent); the compiler of its kind makes a contract of it, which is
    admitted when the policy permits it (Admission).  A task contract, a context manifest and an execution envelope are
    created for a run and stored (TaskContracts, TaskStore).  A queued run is claimed and dispatched to a role handler (TaskScheduler);
    the handler works under a loop guard and an execution row (Execution), asks for tools through the
    capability broker (Capability), which consults the policy engine (Policy) and the budget ledger
    (Budget), runs programs in leased sandboxes (Sandbox), and changes its case by patches (InvestigationState).  Run events go through an outbox to a
    Redis stream (Outbox); the event of a finished child run wakes its waiting parent (TaskScheduler).
    A running parent delegates child runs and reads their results (Handoff).
    Results are gated by the context they were computed on (TaskContext).  Runs that are lost are announced
    again or closed by periodic jobs (Recovery).  Independently, sources are scheduled, collected and
    recovered (Monitoring); processors write what they find in the observations as claims and relations of a
    closed vocabulary (Vocabulary, Knowledge), one of them joins what an asset runs with the configurations stored
    of vulnerabilities (CpeJoin), and a role run works through what is not yet known about a vulnerability: which
    questions are open is computed from the stored facts (EnrichmentState), a planner picks operators for them and
    the role executes and records them round by round (EnrichmentRole); what is stored is read object by object (KnowledgeRead) or browsed as a
    network, page by page (Network), always with its evidence; an investigation perceives it through
    planned reads whose result is recorded once in the log of its case (Retrieval, Perception), in a loop in which a planner
    chooses whether to perceive, to delegate, to patch the case, to wait or to stop, within the turns of its budget
    (InvestigationRole); and the changes of the knowledge base invalidate case state (InvestigationState) and wake the
    investigations that parked to wait for them (Watch).

    ** The files

    - [Prelude], this file: Python strings, dicts, sorting, sums over lists, and the lemmas the components
      share; automation ([by_decide], the hint database [secfusion]).
    - [Effects]: exceptions ([exn], [result]), the state-and-exception monad [prog] with its weakest
      preconditions ([wp]) and invariant reasoning ([preserves]), transactions ([atomic]) and views of a
      part of a store ([Embeds], [zoom]).
    - [Budget]: packages/runtime/budget.  Accounts and reservations; [reserve], [commit], [release],
      [create_account], [close_child_account], [snapshot] are the methods of [BudgetGovernor].
    - [Policy]: packages/runtime/policy.  [evaluate], [combine_deny_overrides], [obligations_satisfied], over the shell
      patterns of the standard library ([fnmatchcase]).
    - [TaskContracts]: packages/task_runtime/contracts.  The contract models with their validators, the
      table of run transitions, delegation and envelope attenuation, dependency stop reasons.
    - [TaskStore]: packages/task_runtime/storage.  Every function of service.py over the five tables.
    - [TaskScheduler]: packages/task_runtime/scheduler.  Wake-up of parents, dispatch to role handlers.
    - [TaskContext]: packages/task_runtime/context (contracts.py, service.py).
    - [Outbox]: packages/shared/outbox and packages/task_runtime/events: both dispatch loops, the consumer.
    - [Execution]: packages/runtime/execution (loop.py, service.py).
    - [PyNumbers]: conversions and arithmetic of Python that the scheduling code relies on.
    - [Recovery]: packages/runtime/execution/recovery.py, over [TaskStore] and [Execution] together.
    - [Monitoring]: packages/monitoring (scheduler, run_service, acquisition, storage) and the parts of
      packages/sources it uses.
    - [Vocabulary]: packages/intelligence/knowledge (vocabulary.py, identity.py, contracts.py).
    - [Knowledge]: packages/intelligence/knowledge/write.py over storage/knowledge_models.py; [apply] is
      [EvidenceBackedKnowledgeWriter.apply].
    - [KnowledgeRead]: packages/intelligence/knowledge/read.py over the same store.
    - [Network]: packages/intelligence/knowledge/network.py over the same store; [get_object_network], its cursors and
      the Base64 they are written in.
    - [CpeJoin]: packages/enrichment/assets (cpe_join.py, [map_asset_observation] of service.py); [enrich] is
      [AssetCPEApplicabilityJoinService.enrich], over [Knowledge].
    - [EnrichmentState]: packages/enrichment/runtime (state.py, state_models.py), over [Knowledge] and [TaskStore]; [build]
      is [EnrichmentStateBuilder.build].
    - [EnrichmentRole]: packages/enrichment/runtime (operators.py, executor.py, role.py) and the parser of references of
      graph/github_references.py; [run] is [EnrichmentRoleRuntime.run] with all its transactions, [OperatorExecutor] is
      the interface of the executor it calls and [default_executor] discharges it.
    - [Intent]: packages/task_runtime/admission/parser.py; [parse] is [TaskIntentParser.parse], [findall] the search of
      Python's regular expressions.
    - [Admission]: packages/task_runtime/admission (service.py, question.py), the contracts of enrichment and investigation
      (runtime/admission.py and runtime/tasks.py of each) and apps/task_admission.py; [admit_request] is
      [TaskContractService.admit], [CompilesContracts] the interface of its compilers.
    - [Handoff]: packages/task_runtime/context/handoff.py, over [TaskStore] and [TaskContext].
    - [InvestigationState]: packages/investigation/state (contracts, service, world_change) and cases.
    - [Retrieval]: packages/intelligence/retrieval (contracts.py, operators.py) over current knowledge; the five classes of
      operators are the definitions [lexical_search], [dense_search], [neighbors], [for_target] and those beside them.
    - [Capability]: packages/runtime/capability (contracts, registry, observations, broker).
    - [Sandbox]: packages/runtime/sandbox (contracts.py, broker.py), over the table of [Execution]; [create_sandbox],
      [exec_sandbox], [export_sandbox] and [destroy_sandbox] are the methods of [SandboxBroker].
    - [Perception]: packages/investigation/perception (contracts.py, planner.py, assembly.py, runtime.py, audit.py), over
      [Retrieval] and [InvestigationState]; [plan] is [PerceptionPlanner.plan], [execute] is [PerceptionRuntime.execute] and
      [record] is [PerceptionAuditService.record].
    - [InvestigationRole]: packages/investigation/runtime (contracts.py, role.py, the answers of planner.py) and
      packages/runtime/read.py, over [TaskStore], [InvestigationState] and [Perception] together; [run] is
      [InvestigationRoleRuntime.run] with all its transactions, [Collaborators] the interface of the planner and the ports it
      calls, and [model_planner] discharges it for the planner that is shipped ([model_next_action]).
    - [Watch]: packages/investigation/runtime/watch.py, apps/watch_runtime.py and the reaction to knowledge changes of
      apps/worker/tasks.py; [spawn_for_world_change] is [WatchWakeService.spawn_for_world_change], [Admits] the interface of
      its admission, and [runtime_admit], [RuntimeWatchWakeAdmission.admit], discharges it.

    ** What is shown

    - Money: in every history the open reservations and the committed spend of an account stay within its
      limit but for declared overruns; a reservation is decided exactly by what is left; closing a child
      account settles it against its parent ([ledger_within_limits], [reserve_decision],
      [close_child_settles]).
    - Authority: the policy engine permits exactly when an applying rule does and none denies, whatever the
      order of the rules, and grants what all of them require; effects and depth of delegation chains are bounded by the root contract and the
      scopes of child executions by the root envelope; no tool is called without the envelope, contract,
      policy, obligations, binding and budget that allow it, and at most once per request, and no sandbox
      without the envelope, profile, limits and policy that allow it, no program outside its lease
      ([evaluate_decision], [evaluate_permutation], [delegation_chain_bounded],
      [delegation_tree_bounded], [handoff_depth_halved], [child_envelope_attenuates], [invoke_authorized],
      [invoke_exactly_once], [sandbox_created_authorized], [sandbox_history], [exec_once]).
    - Admission: the parser finds exactly the identifiers, references and targets of a request; a contract is admitted only as requested and
      permitted, reaches its role as it was bound, and the background run of a processing run is started once
      ([parse_spec], [admission_authorized], [contracts_read_back], [background_run_once]).
    - Integrity of the stores: invariants over all histories of operations ([task_store_wf],
      [broker_history], [single_scheduled_run], [case_history_sound], [knowledge_history]), immutability of versions, events and
      ended runs ([task_history_monotone]), and the refinement of the replayed log by the stored projection
      ([projection_matches_history]).
    - Progress and concurrency: one claimer per run, no double wake-up, and exactly which events of a child requeue its
      parent (one handled before the parent waits does not, and is lost); events published in
      order, loops that terminate and stop for lack of progress exactly when there was none, recovery that touches exactly the stale rows ([claim_single_winner],
      [wake_at_most_once], [wake_required], [dispatch_in_order], [dispatch_outbox_spec],
      [bounded_loop_terminates], [delegation_depth_total], [result_stays_valid], [expire_stale_spec], [recover_queued_spec], [schedule_due_spec],
      [failure_backoff], [adaptive_pacing]).
    - Evidence: a claim is in one bucket at a time, confirmed claims cite evidence and rest on no inference,
      a patch is applied once and only on the revision it was drafted for, a change of the knowledge base
      leaves no stale claim confirmed ([claims_exclusive], [confirmed_evidenced], [apply_patch_spec],
      [apply_patch_once], [world_change_invalidates]).
    - Knowledge: every stored fact is typed by the vocabulary and evidenced, a run is applied once, what is
      current after a run is told exactly, and a read shows exactly that with its evidence
      ([knowledge_history], [apply_once], [claims_superseded], [object_read]).  A network view shows exactly the
      relations among its nodes, requests are refused for the stated reasons only, and following the cursors finds
      every neighbour once, in rank order ([network_view], [network_refused], [network_browse]).  An asset is currently
      declared affected by exactly the vulnerabilities of which a whole stored configuration matches it; ranges are intervals of the order of
      zero-padded versions ([enrich_affected], [version_range], [configuration_monotone]).
    - Enrichment: the status of a dimension is exactly what the current facts and the recorded attempts say, and every
      stored status is founded on stored facts ([build_spec], [enrichment_history]).  A run of the enrichment role ends,
      calls no operator twice whatever the operators do, and says what the stored knowledge supports
      ([role_run_ends], [role_outcome]).
    - Perception: every ranked read returns exactly the best rows it selects, none twice, whatever the order of storage, the
      vector search raises exactly when a distance does, and
      the passages bound to evidence are the ones the chunks cite ([retrieval_top_k], [passages_agree]); a plan is well
      formed and, where embeddings can be compared, runs to a percept within its bounds ([planned_perception]); what is assembled is the best of what was
      found and the requirement is met exactly when it says so ([assemble_spec], [evidence_shared]); a document is read
      page by page, each page naming the offset of the next, to the last valid one ([document_walk]); a perception is recorded once ([perception_recorded_once]).
    - Investigation: whatever its planner answers, a run returns what its row and its needs say, and one that raises is failed
      with its reason ([investigation_outcome]); it
      changes no case but its own and keeps every store sound ([investigation_confined]), and asks its planner within the
      turns its budget leaves, giving up exactly when its limit of observations in a row brought no progress
      ([investigation_bounded]); what the model answers is bound to the frame
      it was asked in ([planner_answers_bound]).  What each change does to a watch is told exactly, a run is made once, and a
      parked watch gets one wake: one that was refused or skipped is not made up for
      ([watch_wakes], [watch_woken_once], [parked_watch_due]); with the admission that is shipped none is ever woken
      ([shipped_watch_stuck]).

    ** Conventions

    A pydantic model or a table row is a [Record]; an enum is an [Inductive] with a [_value] function; a
    validator is the [validate_] or [make_] function that returns the value or the exception.  A method on
    an open SQLAlchemy session is a [prog] over a store record of the tables it touches: a table is a [gmap]
    by primary key or a list in insertion order.  A row lock makes a method one atomic step, so concurrent
    use of a store is a sequence of method calls: each component has a type of operations, a function that
    runs a list of them, and theorems for all lists.  The transaction of a caller is [atomic].  The clock and
    uuid4 are arguments of an operation; uuid5, sha256, the model, the tools, Redis and the broker are
    parameters of the definitions that use them.  A column named [*_json] holds the object whose dump it
    stores.  A [Decimal] is an integer of its column's scale, an instant an integer of microseconds (with
    its awareness where code compares the two kinds), a timeout or an interval likewise.  The text of an
    exception is abbreviated where nothing reads it; its class is kept.

    ** Bounds and fuel

    Integers are Python's and unbounded, so they are [Z]; the bounds the code relies on are stated where
    they are used (the years of [datetime], the 53 bits of a float quotient and the grammar of [int] in
    [PyNumbers]).  Loops over rows and iterations are structural over the list they go through.  Two
    definitions have fuel.  The scanner of shell patterns ([Policy.tokens]) is given the length of the
    pattern, and every step consumes at least one character.  The walk up the parents of a run
    ([Handoff.depth_loop]) is given one more than the number of stored runs ([depth_fuel]): every step but the
    last puts a stored run among those it has seen, and a run seen twice ends it ([delegation_depth_total]).
    The rounds of an enrichment run ([EnrichmentRole.run_rounds]) are bounded by [max_rounds] as in the code; every round
    that does not end the run attempts an operator that was not attempted before, so the shipped bound of eight is more
    than the seven operators need ([role_run_ends]).  The iterations of an investigation
    ([InvestigationRole.run_iterations]) are structural over the window of turns, as the [range] of the code is.
    [Network.browse], which is not code but the client of a theorem, is given one request more than the 200 nodes
    a view may have: every page that has a cursor adds at least one ([network_browse]).  [Perception.read_pages] is such
    a client too, which reads the offset of its next page in the message of the last: it is given more requests than the
    object has chunks, and every page it goes on from has at least one ([document_walk]).  The trace in the store of an
    investigation ([InvestigationRole.World]) is not code either: no definition reads it, only theorems do.

    ** Not modelled

    Collectors, parsers, HTTP, Redis and the object store (input and output), the text ranking and vector distance of the
    database and the external observation port of a perception; the retrieval context and index builder of
    packages/intelligence/retrieval; the experience of investigations, their skills and capability context; the
    prompts and calls of the language model, up to its answer; the data mapping of
    packages/intelligence (normalization, documents, projections, which write rows of their own) and the provider adapters of packages/sources; FastAPI and Celery wiring; database
    migrations, benchmarks and scripts.  Where a modelled part calls one of these it is a parameter. *)

From stdpp Require Export base decidable list gmap sets strings sorting.
From Stdlib Require Export ZArith Lia.
From Stdlib Require Import Ascii DecimalString DecimalN.

#[export] Set Default Goal Selector "!".

Declare Scope secfusion_scope.
Delimit Scope secfusion_scope with sf.
Open Scope secfusion_scope.
Open Scope stdpp_scope.
Open Scope Z_scope.

#[local] Set Warnings "-register-all".

Create HintDb secfusion.

(** ** Python strings

    A [str] is a sequence of code points; the model keeps those below 256. *)

(** [str.isspace] for the code points below 256: TAB..CR, FS..US, SPACE, NEL, NBSP. *)
Definition py_space (c : ascii) : bool :=
  let n := nat_of_ascii c in
  ((9 <=? n) && (n <=? 13) || (28 <=? n) && (n <=? 32) || (n =? 133) || (n =? 160))%nat.

Fixpoint drop_while {A} (p : A → bool) (l : list A) : list A :=
  match l with
  | [] => []
  | x :: l' => if p x then drop_while p l' else l
  end.

Definition chars (s : string) : list ascii := String.list_ascii_of_string s.
Definition of_chars (l : list ascii) : string := String.string_of_list_ascii l.

(** [s.strip()] *)
Definition py_strip (s : string) : string :=
  of_chars (rev (drop_while py_space (rev (drop_while py_space (chars s))))).

(** [not s.strip()] *)
Definition py_blank (s : string) : bool := bool_decide (py_strip s = ""%string).

Definition slen (s : string) : Z := Z.of_nat (String.length s).

(** [s.startswith(p)] and, in the same pass, [s[len(p):]]. *)
Fixpoint strip_prefix (p s : string) : option string :=
  match p, s with
  | EmptyString, _ => Some s
  | String _ _, EmptyString => None
  | String a p', String b s' => if ascii_dec a b then strip_prefix p' s' else None
  end.

(** [s.startswith(p)] *)
Definition startswith (p s : string) : bool := match strip_prefix p s with Some _ => true | None => false end.

(** [s[:n]] *)
Definition str_take (n : nat) (s : string) : string := String.substring 0 n s.

(** [s.split(sep)] *)
Fixpoint split_on (sep : ascii) (s : string) : list string :=
  match s with
  | EmptyString => [""%string]
  | String c s' =>
      if bool_decide (c = sep) then ""%string :: split_on sep s'
      else match split_on sep s' with
           | [] => [String c EmptyString]
           | w :: ws => String c w :: ws
           end
  end.

(** [s.rpartition(sep)] for a one-character separator: [None] when it is absent. *)
Fixpoint rpartition (sep : ascii) (s : string) : option (string * string) :=
  match s with
  | EmptyString => None
  | String c s' =>
      match rpartition sep s' with
      | Some (l, r) => Some (String c l, r)
      | None => if ascii_dec c sep then Some (EmptyString, s') else None
      end
  end.

(** [str(n)] for a natural number and [int(text)] for a text of decimal digits. *)
Definition str_of_N (n : N) : string := NilZero.string_of_uint (N.to_uint n).
Definition int_of_digits (s : string) : option N := N.of_uint <$> NilZero.uint_of_string s.

(** [str(z)] for an integer. *)
Definition str_of_Z (z : Z) : string :=
  if z <? 0 then String.append "-" (str_of_N (Z.to_N (- z))) else str_of_N (Z.to_N z).

(** A Python [float]: the finite ones are [m * 2 ^ e]. *)
Inductive pyfloat :=
| Finite (m e : Z)
| Infinite (negative : bool)
| NaN.

#[export] Instance pyfloat_eq_dec : EqDecision pyfloat.
Proof. solve_decision. Defined.

(** [JsonValue] *)
Inductive json :=
| JNull
| JBool (b : bool)
| JInt (z : Z)
| JFloat (f : pyfloat)
| JStr (s : string)
| JArr (items : list json)
| JObj (fields : list (string * json)).

#[export] Instance json_eq_dec : EqDecision json.
Proof.
  refine (fix go (x y : json) : Decision (x = y) :=
    let _ : EqDecision json := @go in
    match x, y with
    | JNull, JNull => left eq_refl
    | JBool b1, JBool b2 => cast_if (decide (b1 = b2))
    | JInt z1, JInt z2 => cast_if (decide (z1 = z2))
    | JFloat t1, JFloat t2 => cast_if (decide (t1 = t2))
    | JStr s1, JStr s2 => cast_if (decide (s1 = s2))
    | JArr l1, JArr l2 => cast_if (decide (l1 = l2))
    | JObj d1, JObj d2 => cast_if (decide (d1 = d2))
    | _, _ => right _
    end); congruence.
Defined.

(** Whether a JSON value is true in Python, and [str] of it; [str] of a container or a float is the parameter. *)
Definition truthy (j : json) : bool :=
  match j with
  | JNull => false
  | JBool b => b
  | JInt z => negb (z =? 0)
  | JFloat (Finite m _) => negb (m =? 0)
  | JFloat _ => true
  | JStr s => negb (bool_decide (s = ""%string))
  | JArr l => negb (bool_decide (l = []))
  | JObj d => negb (bool_decide (d = []))
  end.
Definition py_str (py_repr : json → string) (j : json) : string :=
  match j with
  | JNull => "None" | JBool true => "True" | JBool false => "False"
  | JInt z => str_of_Z z | JStr s => s | _ => py_repr j
  end.

(** ** Sorted lists of strings: [sorted(set(l))] *)

Definition sorted_set (l : list string) : list string := merge_sort String.le (remove_dups l).

(** ** Sums *)

Definition sumZ {A} (f : A → Z) (l : list A) : Z := foldr (λ x acc, f x + acc) 0 l.

(** ** Dictionaries with an order: association lists *)

Fixpoint dict_get {A} (k : string) (d : list (string * A)) : option A :=
  match d with
  | [] => None
  | (k', v) :: d' => if decide (k = k') then Some v else dict_get k d'
  end.

(** [d[k] = v]: a present key keeps its place. *)
Fixpoint dict_set {A} (k : string) (v : A) (d : list (string * A)) : list (string * A) :=
  match d with
  | [] => [(k, v)]
  | (k', v') :: d' => if decide (k = k') then (k, v) :: d' else (k', v') :: dict_set k v d'
  end.

(** [{key(x): x for x in l}]: a later element replaces an earlier one with the same key. *)
Definition dict_by {K A} `{Countable K} (key : A → K) (l : list A) : gmap K A :=
  foldl (λ d x, <[key x := x]> d) ∅ l.

(** [sorted(l, key=...)]: stable insertion. *)
Section py_sorted.
Context {A : Type} (le : A → A → Prop) `{!RelDecision le}.
Fixpoint py_insert (x : A) (l : list A) : list A :=
  match l with
  | [] => [x]
  | y :: l' => if decide (le x y) then x :: l else y :: py_insert x l'
  end.
Definition py_sorted (l : list A) : list A := foldr py_insert [] l.
End py_sorted.

(** The first element with an answer, and the answer: [a or b or ...]. *)
Fixpoint first_some {A B} (f : A → option B) (l : list A) : option B :=
  match l with [] => None | x :: l' => match f x with Some y => Some y | None => first_some f l' end end.

(** [list(dict.fromkeys(l))]: the first of equal elements stays. *)
Definition from_keys (l : list string) : list string := reverse (remove_dups (reverse l)).

(** [l[:n]]: a negative bound counts from the end. *)
Definition py_take {A} (n : Z) (l : list A) : list A :=
  take (Z.to_nat (if n <? 0 then Z.of_nat (length l) + n else n)) l.

(** Update of the rows of a table that satisfy a test. *)
Definition update_where {A} (p : A → bool) (f : A → A) (l : list A) : list A :=
  (λ x, if p x then f x else x) <$> l.

(** Proves a closed decidable proposition by running its decision procedure. *)
Ltac by_decide := apply (bool_decide_unpack _); vm_compute; exact I.

(** ** Lemmas on searches and orders *)

Lemma first_some_Some {A B} (f : A → option B) l y : first_some f l = Some y → ∃ x, x ∈ l ∧ f x = Some y.
Proof.
  induction l as [|x l IH]; simpl; [done|]. destruct (f x) as [z|] eqn:E.
  - intros [= ->]. exists x. split; [by left|done].
  - intros (x'&?&?)%IH. exists x'. split; [by right|done].
Qed.

Lemma first_some_is_Some {A B} (f : A → option B) l x : x ∈ l → is_Some (f x) → is_Some (first_some f l).
Proof.
  intros Hx [y Hy]. induction l as [|x' l IH]; simpl; [by apply not_elem_of_nil in Hx|].
  destruct (f x') as [z|] eqn:E; [by exists z|]. apply elem_of_cons in Hx as [->|Hx]; [congruence|by apply IH].
Qed.

Lemma elem_of_from_keys x l : x ∈ from_keys l ↔ x ∈ l.
Proof. unfold from_keys. by rewrite elem_of_reverse, elem_of_remove_dups, elem_of_reverse. Qed.

Lemma from_keys_NoDup l : NoDup (from_keys l).
Proof. unfold from_keys. rewrite reverse_Permutation. apply NoDup_remove_dups. Qed.

(** ** Lemmas on strings *)

Lemma chars_of_chars l : chars (of_chars l) = l.
Proof. apply String.list_ascii_of_string_of_list_ascii. Qed.

Lemma of_chars_chars s : of_chars (chars s) = s.
Proof. apply String.string_of_list_ascii_of_string. Qed.

Lemma strip_prefix_app p s : strip_prefix p (String.append p s) = Some s.
Proof. induction p as [|a p IH]; simpl; [done|]. by destruct (ascii_dec a a). Qed.

Lemma strip_prefix_Some p s r : strip_prefix p s = Some r → s = String.append p r.
Proof.
  revert s; induction p as [|a p IH]; intros [|b s]; simpl; try naive_solver.
  destruct (ascii_dec a b) as [->|]; [|done]. intros H. by rewrite (IH _ H).
Qed.

Lemma rpartition_app sep l r :
  rpartition sep r = None →
  rpartition sep (String.append l (String sep r)) = Some (l, r).
Proof.
  intros Hr. induction l as [|c l IH]; simpl.
  - rewrite Hr. by destruct (ascii_dec sep sep).
  - by rewrite IH.
Qed.

Lemma rpartition_Some sep s l r :
  rpartition sep s = Some (l, r) → s = String.append l (String sep r).
Proof.
  revert l r; induction s as [|c s IH]; simpl; [done|]. intros l r.
  destruct (rpartition sep s) as [[l' r']|] eqn:E.
  - intros [= <- <-]. simpl. by rewrite (IH l' r').
  - destruct (ascii_dec c sep) as [->|]; [|done]. by intros [= <- <-].
Qed.

(** Decimal digits contain no [@]. *)
Lemma rpartition_str_of_N n : rpartition "@" (str_of_N n) = None.
Proof.
  assert (∀ d, rpartition "@" (NilEmpty.string_of_uint d) = None) as H.
  { intros d. by induction d as [|d IH|d IH|d IH|d IH|d IH|d IH|d IH|d IH|d IH|d IH];
      simpl; rewrite ?IH. }
  unfold str_of_N, NilZero.string_of_uint. destruct (N.to_uint n) eqn:E; [done|..]; apply H.
Qed.

Lemma int_of_digits_str n : int_of_digits (str_of_N n) = Some n.
Proof.
  unfold int_of_digits, str_of_N. rewrite NilZero.usu.
  - simpl. by rewrite DecimalN.Unsigned.of_to.
  - destruct n as [|p]; simpl; [done|]. intros H.
    assert (N.of_uint (Pos.to_uint p) = 0%N) as H0 by by rewrite H.
    change (Pos.to_uint p) with (N.to_uint (N.pos p)) in H0.
    by rewrite DecimalN.Unsigned.of_to in H0.
Qed.

Lemma int_of_digits_minus s : int_of_digits (String "-" s) = None.
Proof.
  unfold int_of_digits. simpl. by destruct (NilEmpty.uint_of_string s).
Qed.

(** ** Lemmas on stripping *)

Section drop_while.
Context {A : Type} (p : A → bool).
Implicit Types l : list A.

Lemma drop_while_idem l : drop_while p (drop_while p l) = drop_while p l.
Proof. induction l as [|x l IH]; simpl; [done|]. destruct (p x) eqn:E; [done|]. simpl. by rewrite E. Qed.

(** What is dropped from the right does not uncover anything to drop on the left. *)
Lemma drop_while_rev l :
  drop_while p l = l → drop_while p (rev (drop_while p (rev l))) = rev (drop_while p (rev l)).
Proof.
  intros Hl. assert (∃ dropped, l = rev (drop_while p (rev l)) ++ dropped) as [d Hd].
  { assert (∀ m, ∃ pre, m = pre ++ drop_while p m) as Hsplit.
    { induction m as [|x m [pre Hpre]]; [by exists []|]. simpl.
      destruct (p x); [exists (x :: pre); by rewrite Hpre at 1|by exists []]. }
    destruct (Hsplit (rev l)) as [pre Hpre]. exists (rev pre).
    by rewrite <- rev_app_distr, <- Hpre, rev_involutive. }
  destruct (rev (drop_while p (rev l))) as [|x m]; [done|]. simpl in Hd.
  rewrite Hd in Hl. simpl in *. destruct (p x); [|done].
  exfalso. assert (length (drop_while p (m ++ d)) ≤ length (m ++ d))%nat as Hlen.
  { clear. induction (m ++ d) as [|y l IH]; simpl; [done|]. destruct (p y); simpl; lia. }
  rewrite Hl in Hlen. simpl in Hlen. lia.
Qed.
End drop_while.

Lemma py_strip_idem s : py_strip (py_strip s) = py_strip s.
Proof.
  unfold py_strip. rewrite chars_of_chars.
  rewrite (drop_while_rev py_space (drop_while py_space (chars s)) (drop_while_idem _ _)).
  by rewrite rev_involutive, drop_while_idem.
Qed.

Lemma drop_while_nil {A} (p : A → bool) l : drop_while p l = [] → Forall (λ x, p x = true) l.
Proof. induction l as [|x l IH]; simpl; [constructor|]. destruct (p x) eqn:E; [|done]. by constructor; auto. Qed.

Lemma py_blank_cons c s : py_space c = false → py_blank (String c s) = false.
Proof.
  intros Hc. apply bool_decide_eq_false. unfold py_strip. cbn [chars String.list_ascii_of_string drop_while].
  rewrite Hc. intros H.
  apply (f_equal chars) in H. rewrite chars_of_chars in H.
  apply (f_equal (@length _)) in H. rewrite length_rev in H.
  apply length_zero_iff_nil, drop_while_nil, (proj1 (Forall_forall _ _)) with (x := c) in H; [congruence|].
  rewrite list_elem_of_In, <- in_rev. by left.
Qed.

Lemma slen_app s t : slen (String.append s t) = slen s + slen t.
Proof.
  unfold slen. induction s as [|c s IH]; [done|].
  change (String.append (String c s) t) with (String c (String.append s t)).
  cbn [String.length]. rewrite !Nat2Z.inj_succ. lia.
Qed.

(** ** Lemmas on sorted sets *)

Lemma elem_of_sorted_set x l : x ∈ sorted_set l ↔ x ∈ l.
Proof. unfold sorted_set. by rewrite merge_sort_Permutation, elem_of_remove_dups. Qed.

Lemma sorted_set_NoDup l : NoDup (sorted_set l).
Proof. unfold sorted_set. rewrite merge_sort_Permutation. apply NoDup_remove_dups. Qed.

Lemma sorted_set_sorted l : StronglySorted String.le (sorted_set l).
Proof. apply (StronglySorted_merge_sort _). Qed.

(** [sorted(set(l))] depends on the set of elements only. *)
Lemma sorted_set_ext l1 l2 : (∀ x, x ∈ l1 ↔ x ∈ l2) → sorted_set l1 = sorted_set l2.
Proof.
  intros H. apply (StronglySorted_unique String.le); auto using sorted_set_sorted.
  apply NoDup_Permutation; auto using sorted_set_NoDup.
  intros x. by rewrite !elem_of_sorted_set.
Qed.

Lemma sorted_set_idem l : sorted_set (sorted_set l) = sorted_set l.
Proof. apply sorted_set_ext. intros x. apply elem_of_sorted_set. Qed.

Lemma sorted_set_nil l : sorted_set l = [] ↔ l = [].
Proof.
  split; [|by intros ->]. intros H. destruct l as [|x l]; [done|].
  assert (x ∈ sorted_set (x :: l)) as Hx by (rewrite elem_of_sorted_set; set_solver).
  rewrite H in Hx. set_solver.
Qed.

(** ** Lemmas on lists *)

Lemma NoDup_fmap_eq {A B} (f : A → B) (l : list A) x y :
  NoDup (f <$> l) → x ∈ l → y ∈ l → f x = f y → x = y.
Proof.
  intros Hnd [i Hi]%list_elem_of_lookup [j Hj]%list_elem_of_lookup Hf.
  assert (i = j) as ->; [|congruence].
  eapply NoDup_lookup; [done| |]; rewrite list_lookup_fmap, ?Hi, ?Hj; simpl; [done|by rewrite Hf].
Qed.

Lemma filter_nil_elem {A} (p : A → bool) (l : list A) x :
  filter (λ x, p x) l = [] → x ∈ l → p x = false.
Proof.
  intros H Hx. destruct (p x) eqn:E; [|done].
  assert (x ∈ filter (λ x, p x) l) as Hin by (apply list_elem_of_filter; by rewrite E).
  rewrite H in Hin. set_solver.
Qed.

Lemma seqZ_snoc n : 0 ≤ n → seqZ 1 (n + 1) = seqZ 1 n ++ [n + 1].
Proof.
  intros Hn. rewrite seqZ_app by lia. f_equal. by rewrite (Z.add_comm 1 n).
Qed.

Lemma StronglySorted_take {A} (R : A → A → Prop) n l : StronglySorted R l → StronglySorted R (take n l).
Proof.
  revert n. induction l as [|x l IH]; intros [|n] Hs; simpl; try constructor.
  - apply IH. by apply StronglySorted_inv in Hs as [].
  - apply StronglySorted_inv in Hs as [_ Hall]. by apply Forall_take.
Qed.

Section py_sorted_lemmas.
Context {A : Type} (le : A → A → Prop) `{!RelDecision le}.

Lemma py_insert_Permutation x l : py_insert le x l ≡ₚ x :: l.
Proof.
  induction l as [|y l IH]; simpl; [done|]. destruct (decide (le x y)); [done|].
  rewrite IH. apply Permutation_swap.
Qed.

Lemma py_sorted_Permutation l : py_sorted le l ≡ₚ l.
Proof.
  induction l as [|x l IH]; [done|]. unfold py_sorted. cbn [foldr].
  rewrite py_insert_Permutation. by constructor.
Qed.

Lemma StronglySorted_py_sorted `{!Total le, !Transitive le} l : StronglySorted le (py_sorted le l).
Proof.
  assert (∀ x k, StronglySorted le k → StronglySorted le (py_insert le x k)) as Hins.
  { intros x k. induction k as [|y k IH]; intros Hk; simpl; [by constructor|].
    apply StronglySorted_inv in Hk as [Hk Hy]. destruct (decide (le x y)) as [Hxy|Hxy].
    - constructor; [by constructor|]. constructor; [done|]. eapply Forall_impl; [exact Hy|]. intros z. by etrans.
    - constructor; [by apply IH|]. rewrite py_insert_Permutation. constructor; [|done].
      by destruct (total le x y). }
  induction l as [|x l IH]; [constructor|]. by apply Hins.
Qed.
End py_sorted_lemmas.

(** ** Lemmas on dictionaries *)

Lemma dict_get_None {A} r (q : list (string * A)) : r ∉ q.*1 → dict_get r q = None.
Proof.
  induction q as [|[k x] q IH]; simpl; [done|]. intros H. rewrite decide_False by set_solver.
  apply IH. set_solver.
Qed.

Lemma dict_get_Some_elem {A} r (q : list (string * A)) x : dict_get r q = Some x → (r, x) ∈ q.
Proof.
  induction q as [|[k y] q IH]; simpl; [done|].
  destruct (decide (r = k)) as [->|]; [intros [= ->]; set_solver|]. intros ?%IH. set_solver.
Qed.

Lemma dict_get_elem {A} k (v : A) d : NoDup d.*1 → (k, v) ∈ d → dict_get k d = Some v.
Proof.
  induction d as [|[k' v'] d IH]; intros Hnd Hin; [by apply not_elem_of_nil in Hin|]. simpl.
  apply NoDup_cons in Hnd as [Hk Hnd]. apply elem_of_cons in Hin as [[= <- <-]|Hin]; [by rewrite decide_True|].
  rewrite decide_False; [by apply IH|]. intros ->. apply Hk. by apply (list_elem_of_fmap_2 fst _ (k', v)).
Qed.

Lemma dict_get_set {A} k k' (v : A) d : dict_get k (dict_set k' v d) = if decide (k = k') then Some v else dict_get k d.
Proof.
  induction d as [|[k2 v2] d IH]; simpl; [done|]. destruct (decide (k' = k2)) as [->|]; simpl.
  - by destruct (decide (k = k2)).
  - destruct (decide (k = k2)) as [->|]; [by rewrite decide_False|done].
Qed.

Lemma dict_by_lookup {K A} `{Countable K} (key : A → K) l k x :
  dict_by key l !! k = Some x → key x = k ∧ x ∈ l.
Proof.
  unfold dict_by. assert (∀ (l : list A) (d : gmap K A), (∀ k x, d !! k = Some x → key x = k) →
    ∀ k x, foldl (λ d x, <[key x := x]> d) d l !! k = Some x → key x = k ∧ (d !! k = Some x ∨ x ∈ l)) as Hgen.
  { clear. intros l. induction l as [|y l IH]; intros d Hd k x Hx; simpl in Hx; [split; [by apply Hd|by left]|].
    apply IH in Hx as [Hk [Hx|Hx]].
    - split; [done|]. rewrite lookup_insert in Hx. case_decide; [|by left]. right. injection Hx as ->.
      apply list_elem_of_here.
    - split; [done|]. right. by apply elem_of_cons; right.
    - intros k' z. rewrite lookup_insert. case_decide; [by intros [= <-]|apply Hd]. }
  intros Hx. destruct (Hgen l ∅ ltac:(intros ? ?; by rewrite lookup_empty) k x Hx) as [Hk [Hx'|Hx']]; [|done].
  by rewrite lookup_empty in Hx'.
Qed.

Lemma dict_by_NoDup {K A} `{Countable K} (key : A → K) (l : list A) x :
  NoDup (key <$> l) → x ∈ l → dict_by key l !! key x = Some x.
Proof.
  unfold dict_by. assert (∀ (l : list A) (d : gmap K A), NoDup (key <$> l) → ∀ x, x ∈ l ∨ d !! key x = Some x ∧ key x ∉ key <$> l →
    foldl (λ d x, <[key x := x]> d) d l !! key x = Some x) as Hgen; [|intros; apply Hgen; by auto].
  clear. intros l. induction l as [|y l IH]; intros d Hnd x Hx; csimpl in *; [by destruct Hx as [?%not_elem_of_nil|[? _]]|].
  apply NoDup_cons in Hnd as [Hy Hnd]. apply IH; [done|]. rewrite elem_of_cons in Hx. destruct Hx as [[->|Hx]|[Hd Hx]].
  - right. split; [by rewrite lookup_insert_eq|done].
  - by left.
  - right. rewrite not_elem_of_cons in Hx. destruct Hx as [Hne Hx]. split; [|done]. by rewrite lookup_insert_ne.
Qed.

(** ** Lemmas on sums and updates *)

Section sums.
Context {A : Type}.
Implicit Types (f g : A → Z) (l : list A).

Lemma sumZ_app f l1 l2 : sumZ f (l1 ++ l2) = sumZ f l1 + sumZ f l2.
Proof. induction l1 as [|x l1 IH]; simpl; lia. Qed.

Lemma sumZ_ext f g l : (∀ x, x ∈ l → f x = g x) → sumZ f l = sumZ g l.
Proof.
  induction l as [|x l IH]; simpl; [done|]. intros H.
  rewrite (H x), IH; set_solver.
Qed.

Lemma sumZ_le f g l : (∀ x, x ∈ l → f x ≤ g x) → sumZ f l ≤ sumZ g l.
Proof.
  induction l as [|x l IH]; simpl; [done|]. intros H.
  pose proof (H x ltac:(set_solver)). specialize (IH ltac:(set_solver)). lia.
Qed.

Lemma sumZ_nonneg f l : (∀ x, x ∈ l → 0 ≤ f x) → 0 ≤ sumZ f l.
Proof.
  induction l as [|x l IH]; simpl; [done|]. intros H.
  pose proof (H x ltac:(set_solver)). specialize (IH ltac:(set_solver)). lia.
Qed.

Lemma sumZ_zero f l : (∀ x, x ∈ l → f x = 0) → sumZ f l = 0.
Proof.
  intros H. rewrite (sumZ_ext f (λ _, 0)); [|done]. induction l; simpl; set_solver.
Qed.

Lemma sumZ_plus f g l : sumZ (λ x, f x + g x) l = sumZ f l + sumZ g l.
Proof. induction l as [|x l IH]; simpl; lia. Qed.

Lemma sumZ_filter (P : A → Prop) `{∀ x, Decision (P x)} f l :
  sumZ f (filter P l) = sumZ (λ x, if bool_decide (P x) then f x else 0) l.
Proof.
  induction l as [|x l IH]; [done|]. rewrite filter_cons. simpl.
  case_decide; [rewrite bool_decide_eq_true_2 by done|rewrite bool_decide_eq_false_2 by done];
    simpl; lia.
Qed.

Lemma sumZ_perm f l1 l2 : l1 ≡ₚ l2 → sumZ f l1 = sumZ f l2.
Proof. induction 1; simpl; lia. Qed.
End sums.

#[export] Instance sumZ_Permutation {A} (f : A → Z) : Proper ((≡ₚ) ==> (=)) (sumZ f).
Proof. intros l1 l2. apply sumZ_perm. Qed.

Lemma NoDup_snoc {A} (l : list A) x : NoDup l → x ∉ l → NoDup (l ++ [x]).
Proof. intros Hl Hx. apply NoDup_app. split; [done|]. split; [set_solver|apply NoDup_singleton]. Qed.
Lemma NoDup_fmap_snoc {A B} (f : A → B) (l : list A) x :
  NoDup (f <$> l) → (∀ y, y ∈ l → f y ≠ f x) → NoDup (f <$> l ++ [x]).
Proof.
  intros Hl Hx. rewrite fmap_app. apply NoDup_app. split; [done|]. split; [|apply NoDup_singleton].
  intros y (z&->&Hz)%list_elem_of_fmap [E|[]%not_elem_of_nil]%elem_of_cons. by apply (Hx z).
Qed.

Section update_where.
Context {A : Type}.
Implicit Types (p : A → bool) (h : A → A) (f : A → Z) (l : list A).

Lemma sumZ_update_where p h f l :
  sumZ f (update_where p h l) = sumZ (λ x, if p x then f (h x) else f x) l.
Proof. induction l as [|x l IH]; simpl; [done|]. rewrite IH. by destruct (p x). Qed.

Lemma elem_of_update_where p h l y :
  y ∈ update_where p h l ↔ ∃ x, x ∈ l ∧ y = if p x then h x else x.
Proof. unfold update_where. rewrite list_elem_of_fmap. naive_solver. Qed.

Lemma fmap_update_where {B} (g : A → B) p h l :
  (∀ x, x ∈ l → p x → g (h x) = g x) → g <$> update_where p h l = g <$> l.
Proof.
  intros H. induction l as [|x l IH]; csimpl; [done|].
  rewrite IH by set_solver. f_equal. specialize (H x ltac:(set_solver)).
  destruct (p x); [by apply H|done].
Qed.

(** An update of the row just added. *)
Lemma update_where_last {K} `{EqDecision K} (key : A → K) (f : A → A) (l : list A) x :
  key x ∉ (key <$> l) → update_where (λ y, bool_decide (key y = key x)) f (l ++ [x]) = l ++ [f x].
Proof.
  intros Hx. unfold update_where. rewrite fmap_app. csimpl. rewrite bool_decide_eq_true_2 by done. f_equal.
  rewrite <- (list_fmap_id l) at 2. apply list_fmap_ext. intros i y Hy.
  rewrite bool_decide_eq_false_2; [done|]. intros E. apply Hx. rewrite <- E. apply list_elem_of_fmap_2.
  by eapply list_elem_of_lookup_2.
Qed.

Lemma length_update_where p h l : length (update_where p h l) = length l.
Proof. apply length_fmap. Qed.
End update_where.
