(* ===== verification/Effects.v ===== *)
(** * Effects: exceptions, the state-and-exception monad, transactions

    The services of the repository are methods over an open SQLAlchemy session.  A service call is
    modelled as a [prog S A]: a function from the store [S] (the rows the session sees) to a result
    and a new store.  A raised exception carries the store along, because the rows a Python method
    has already mutated stay mutated when it raises; only the transaction boundary
    ([async with session.begin()]) discards them, which is [atomic]. *)

From S2P Require Export Prelude.

(** The exception classes the modelled code raises.  Messages are the constant part of the
    f-string; interpolated values that a property needs are separate arguments. *)
Inductive exn :=
| ValueError (msg : string)
| LookupError (msg : string) (key : string)
| RuntimeError (msg : string)
| TypeError (msg : string)
| PermissionError (msg : string)
| IntegrityError (key : string)
| BudgetExceeded (resource : string) (requested remaining : Z)
| StateRevisionConflict (base current : Z)
| StatePatchRejected (msg : string)
| EvidenceNeedResolutionRejected (msg : string)
| OtherException (cls : string) (msg : string).

#[export] Instance exn_eq_dec : EqDecision exn.
Proof. solve_decision. Defined.

(** [type(exc).__name__] *)
Definition type_name (e : exn) : string :=
  match e with
  | ValueError _ => "ValueError"
  | LookupError _ _ => "LookupError"
  | RuntimeError _ => "RuntimeError"
  | TypeError _ => "TypeError"
  | PermissionError _ => "PermissionError"
  | IntegrityError _ => "IntegrityError"
  | BudgetExceeded _ _ _ => "BudgetExceeded"
  | StateRevisionConflict _ _ => "StateRevisionConflict"
  | StatePatchRejected _ => "StatePatchRejected"
  | EvidenceNeedResolutionRejected _ => "EvidenceNeedResolutionRejected"
  | OtherException cls _ => cls
  end.

Inductive result (A : Type) :=
| Ok (a : A)
| Err (e : exn).
Arguments Ok {A} a.
Arguments Err {A} e.

Definition is_ok {A} (r : result A) : bool := match r with Ok _ => true | Err _ => false end.

#[export] Instance result_ret : MRet result := λ A a, Ok a.
#[export] Instance result_bind : MBind result := λ A B f r,
  match r with Ok a => f a | Err e => Err e end.

#[export] Instance result_eq_dec {A} `{EqDecision A} : EqDecision (result A).
Proof. solve_decision. Defined.

(** [if c: raise e] in code without state. *)
Definition raise_when (c : bool) (e : exn) : result unit := if c then Err e else Ok tt.

(** [[f(x) for x in l]] where [f] may raise. *)
Fixpoint try_map {A B} (f : A → result B) (l : list A) : result (list B) :=
  match l with [] => Ok [] | x :: l' => y ← f x; ys ← try_map f l'; Ok (y :: ys) end.

(** ** The monad *)

Definition prog (S A : Type) : Type := S → result A * S.

#[export] Instance prog_ret {S} : MRet (prog S) := λ A a s, (Ok a, s).
#[export] Instance prog_bind {S} : MBind (prog S) := λ A B k m s,
  match m s with
  | (Ok a, s') => k a s'
  | (Err e, s') => (Err e, s')
  end.

Section prog.
Context {S : Type}.

Definition get_store : prog S S := λ s, (Ok s, s).
Definition raise {A} (e : exn) : prog S A := λ s, (Err e, s).
Definition gets {A} (f : S → A) : prog S A := λ s, (Ok (f s), s).
Definition modify (f : S → S) : prog S unit := λ s, (Ok tt, f s).
Definition lift {A} (r : result A) : prog S A := λ s, (r, s).

(** [if c: raise e] *)
Definition check (c : bool) (e : exn) : prog S unit := λ s, if c then (Err e, s) else (Ok tt, s).

(** [if o is None: raise e] *)
Definition require {A} (o : option A) (e : exn) : prog S A := λ s,
  match o with Some a => (Ok a, s) | None => (Err e, s) end.

(** [try: m except: h]: the store changes made before the exception stay. *)
Definition try_catch {A} (m : prog S A) (h : exn → prog S A) : prog S A := λ s,
  match m s with
  | (Ok a, s') => (Ok a, s')
  | (Err e, s') => h e s'
  end.

(** [async with session.begin(): m]: commit on return, roll back on an exception. *)
Definition atomic {A} (m : prog S A) : prog S A := λ s,
  match m s with
  | (Ok a, s') => (Ok a, s')
  | (Err e, _) => (Err e, s)
  end.

(** [for x in l: m x], collecting the values. *)
Fixpoint for_each {A B} (l : list A) (m : A → prog S B) : prog S (list B) :=
  match l with
  | [] => mret []
  | x :: l' => y ← m x; ys ← for_each l' m; mret (y :: ys)
  end.
End prog.

(** ** Components of a larger store *)

(** [Embeds S T]: the store [S] holds the tables [T] of one component. *)
Class Embeds (S T : Type) := {
  view : S → T;
  set_view : T → S → S;
  view_set : ∀ t s, view (set_view t s) = t;
  set_view_view : ∀ s, set_view (view s) s = s;
  set_view_set : ∀ t t' s, set_view t (set_view t' s) = set_view t s
}.

Definition zoom {S T A} `{Embeds S T} (m : prog T A) : prog S A := λ s,
  let '(r, t) := m (view s) in (r, set_view t s).

#[export] Program Instance embeds_fst {S T} : Embeds (S * T) S := {|
  view := fst; set_view := λ x s, (x, s.2) |}.
Solve Obligations with by intros; destruct_and?; repeat match goal with p : _ * _ |- _ => destruct p end.

#[export] Program Instance embeds_snd {S T} : Embeds (S * T) T := {|
  view := snd; set_view := λ x s, (s.1, x) |}.
Solve Obligations with by intros; repeat match goal with p : _ * _ |- _ => destruct p end.

(** ** Weakest preconditions *)

(** [wp m s Q]: running [m] from [s] ends in a result and a store that satisfy [Q]. *)
Definition wp {S A} (m : prog S A) (s : S) (Q : result A → S → Prop) : Prop := Q (m s).1 (m s).2.

(** [preserves I m]: the invariant [I] of the store survives [m], also when [m] raises. *)
Definition preserves {S A} (I : S → Prop) (m : prog S A) : Prop := ∀ s, I s → I (m s).2.

Section wp.
Context {S : Type}.
Implicit Types (s : S).

Lemma wp_unfold {A} (m : prog S A) s Q r s' : m s = (r, s') → Q r s' → wp m s Q.
Proof. unfold wp. by intros ->. Qed.

Lemma wp_run {A} (m : prog S A) s Q r s' : wp m s Q → m s = (r, s') → Q r s'.
Proof. unfold wp. by intros ? H; rewrite H in *. Qed.

Lemma wp_ret {A} (a : A) s (Q : result A → S → Prop) : Q (Ok a) s → wp (mret a) s Q.
Proof. done. Qed.

Lemma wp_bind {A B} (m : prog S A) (k : A → prog S B) s Q :
  wp m s (λ r s', match r with Ok a => wp (k a) s' Q | Err e => Q (Err e) s' end) →
  wp (m ≫= k) s Q.
Proof.
  unfold wp, mbind, prog_bind. by destruct (m s) as [[a|e] s'].
Qed.

Lemma wp_raise {A} e s (Q : result A → S → Prop) : Q (Err e) s → wp (raise e) s Q.
Proof. done. Qed.

Lemma wp_gets {A} (f : S → A) s (Q : result A → S → Prop) : Q (Ok (f s)) s → wp (gets f) s Q.
Proof. done. Qed.

Lemma wp_get_store s (Q : result S → S → Prop) : Q (Ok s) s → wp get_store s Q.
Proof. done. Qed.

Lemma wp_modify f s (Q : result unit → S → Prop) : Q (Ok tt) (f s) → wp (modify f) s Q.
Proof. done. Qed.

Lemma wp_lift {A} (r : result A) s (Q : result A → S → Prop) : Q r s → wp (lift r) s Q.
Proof. done. Qed.

Lemma wp_check c e s (Q : result unit → S → Prop) :
  (c = true → Q (Err e) s) → (c = false → Q (Ok tt) s) → wp (check c e) s Q.
Proof. unfold wp, check. destruct c; auto. Qed.

Lemma wp_require {A} (o : option A) e s (Q : result A → S → Prop) :
  (o = None → Q (Err e) s) → (∀ a, o = Some a → Q (Ok a) s) → wp (require o e) s Q.
Proof. unfold wp, require. destruct o as [a|]; [intros _ H; by apply H|auto]. Qed.

Lemma wp_mono {A} (m : prog S A) s (P Q : result A → S → Prop) :
  wp m s P → (∀ r s', P r s' → Q r s') → wp m s Q.
Proof. unfold wp. auto. Qed.

Lemma wp_true {A} (m : prog S A) s : wp m s (λ _ _, True).
Proof. done. Qed.

Lemma wp_atomic {A} (m : prog S A) s Q :
  wp m s (λ r s', match r with Ok a => Q (Ok a) s' | Err e => Q (Err e) s end) →
  wp (atomic m) s Q.
Proof. unfold wp, atomic. by destruct (m s) as [[a|e] s']. Qed.

Lemma wp_try_catch {A} (m : prog S A) h s Q :
  wp m s (λ r s', match r with Ok a => Q (Ok a) s' | Err e => wp (h e) s' Q end) →
  wp (try_catch m h) s Q.
Proof. unfold wp, try_catch. by destruct (m s) as [[a|e] s']. Qed.
End wp.

Section preserves.
Context {S : Type} (I : S → Prop).

Lemma preserves_wp {A} (m : prog S A) : (∀ s, I s → wp m s (λ _, I)) → preserves I m.
Proof. done. Qed.

Lemma preserves_ret {A} (a : A) : preserves I (mret a).
Proof. by intros s. Qed.
Lemma preserves_raise {A} e : preserves I (raise (A:=A) e).
Proof. by intros s. Qed.
Lemma preserves_gets {A} (f : S → A) : preserves I (gets f).
Proof. by intros s. Qed.
Lemma preserves_get_store : preserves I get_store.
Proof. by intros s. Qed.
Lemma preserves_lift {A} (r : result A) : preserves I (lift r).
Proof. by intros s. Qed.
Lemma preserves_check c e : preserves I (check c e).
Proof. intros s. unfold check. by destruct c. Qed.
Lemma preserves_require {A} (o : option A) e : preserves I (require o e).
Proof. intros s. unfold require. by destruct o. Qed.
Lemma preserves_modify f : (∀ s, I s → I (f s)) → preserves I (modify f).
Proof. intros H s. apply H. Qed.

Lemma preserves_bind {A B} (m : prog S A) (k : A → prog S B) :
  preserves I m → (∀ a, preserves I (k a)) → preserves I (m ≫= k).
Proof.
  intros Hm Hk s Hs. specialize (Hm s Hs). unfold mbind, prog_bind.
  destruct (m s) as [[a|e] s']; [|done]. by apply Hk.
Qed.

Lemma preserves_atomic {A} (m : prog S A) : preserves I m → preserves I (atomic m).
Proof.
  intros Hm s Hs. specialize (Hm s Hs). unfold atomic. by destruct (m s) as [[a|e] s'].
Qed.

Lemma preserves_try_catch {A} (m : prog S A) h :
  preserves I m → (∀ e, preserves I (h e)) → preserves I (try_catch m h).
Proof.
  intros Hm Hh s Hs. specialize (Hm s Hs). unfold try_catch.
  destruct (m s) as [[a|e] s']; [done|]. by apply Hh.
Qed.

Lemma preserves_for_each {A B} (l : list A) (m : A → prog S B) :
  (∀ x, x ∈ l → preserves I (m x)) → preserves I (for_each l m).
Proof.
  induction l as [|x l IH]; intros Hm; simpl; [apply preserves_ret|].
  apply preserves_bind; [apply Hm; set_solver|]. intros y.
  apply preserves_bind; [apply IH; set_solver|]. intros ys. apply preserves_ret.
Qed.
End preserves.

#[export] Hint Resolve preserves_ret preserves_raise preserves_gets preserves_get_store preserves_lift preserves_check
  preserves_require preserves_bind preserves_atomic : secfusion.

(** A program that only touches one component keeps the other components. *)
Lemma preserves_zoom {S T A} `{Embeds S T} (I : S → Prop) (m : prog T A) :
  (∀ s, I s → I (set_view (m (view s)).2 s)) → preserves I (zoom m).
Proof. intros H' s Hs. specialize (H' s Hs). unfold zoom. by destruct (m (view s)). Qed.

Lemma Forall2_impl_elem {A B} (P Q : A → B → Prop) l k :
  Forall2 P l k → (∀ x y, x ∈ l → P x y → Q x y) → Forall2 Q l k.
Proof.
  intros H HPQ. induction H as [|x y l k Hxy H IH]; constructor.
  - apply HPQ; [apply list_elem_of_here|done].
  - apply IH. intros. apply HPQ; [by apply list_elem_of_further|done].
Qed.

(** ** Inversion of runs that return *)

Section inversion.
Context {S : Type}.
Implicit Types (s : S).

Lemma bind_Ok {A B} (m : prog S A) (k : A → prog S B) s b s' :
  (m ≫= k) s = (Ok b, s') → ∃ a s1, m s = (Ok a, s1) ∧ k a s1 = (Ok b, s').
Proof. unfold mbind, prog_bind. destruct (m s) as [[a|e] s1]; naive_solver. Qed.

Lemma ret_Ok {A} (a b : A) s s' : mret (M:=prog S) a s = (Ok b, s') → b = a ∧ s' = s.
Proof. by intros [= -> ->]. Qed.

Lemma check_Ok c e s u s' : check c e s = (Ok u, s') → c = false ∧ s' = s.
Proof. unfold check. destruct c; naive_solver. Qed.

Lemma require_Ok {A} (o : option A) e s a s' :
  require o e s = (Ok a, s') → o = Some a ∧ s' = s.
Proof. unfold require. destruct o; naive_solver. Qed.

Lemma gets_Ok {A} (f : S → A) s a s' : gets f s = (Ok a, s') → a = f s ∧ s' = s.
Proof. by intros [= -> ->]. Qed.

Lemma get_store_Ok s a s' : get_store s = (Ok a, s') → a = s ∧ s' = s.
Proof. by intros [= -> ->]. Qed.

Lemma modify_Ok f s u s' : modify (S:=S) f s = (Ok u, s') → s' = f s.
Proof. by intros [= _ ->]. Qed.

Lemma lift_Ok {A} (r : result A) s a s' : lift r s = (Ok a, s') → r = Ok a ∧ s' = s.
Proof. by intros [= -> ->]. Qed.

Lemma raise_Ok {A} e s (a : A) s' : raise e s = (Ok a, s') → False.
Proof. done. Qed.

(** A transaction either returns with the store of its body or leaves the store alone. *)
Lemma atomic_cases {A} (m : prog S A) s :
  (∃ a s', m s = (Ok a, s') ∧ atomic m s = (Ok a, s')) ∨
  (∃ e s', m s = (Err e, s') ∧ atomic m s = (Err e, s)).
Proof. unfold atomic. destruct (m s) as [[a|e] s']; eauto. Qed.

(** An invariant that every returning run keeps survives the transaction. *)
Lemma preserves_atomic_Ok {A} (I : S → Prop) (m : prog S A) :
  (∀ s a s', I s → m s = (Ok a, s') → I s') → preserves I (atomic m).
Proof.
  intros H s Hs. destruct (atomic_cases m s) as [(a&s'&Hm&->)|(e&s'&_&->)]; simpl; eauto.
Qed.
End inversion.

(** The step relation that says nothing, for stores without a part to frame. *)
Definition any_step {S} (s s' : S) : Prop := True.
#[export] Instance any_step_preorder {S} : PreOrder (@any_step S).
Proof. by split. Qed.

(** A loop whose body works on one row at a time: [row k] is what the store says about key [k].  Each
    element finds its row as it was before the loop, and leaves it as it is after the loop. *)
Section rows.
Context {S A B X : Type} (I : S → Prop) (E : S → S → Prop) `{!PreOrder E} (key : A → string)
  (row : string → S → X) (body : A → prog S B) (post : A → S → B → S → Prop).

Lemma for_each_rows l s bs s' :
  (∀ a s b s', a ∈ l → I s → body a s = (Ok b, s') →
    I s' ∧ E s s' ∧ post a s b s' ∧ ∀ k, k ≠ key a → row k s' = row k s) →
  NoDup (key <$> l) → I s → for_each l body s = (Ok bs, s') →
  I s' ∧ E s s' ∧ (∀ k, k ∉ (key <$> l) → row k s' = row k s) ∧
  Forall2 (λ a b, ∃ s1 s2, I s1 ∧ E s s1 ∧ E s2 s' ∧ post a s1 b s2 ∧
    row (key a) s1 = row (key a) s ∧ row (key a) s' = row (key a) s2) l bs.
Proof.
  intros Hbody. revert s bs. induction l as [|a l IH]; intros s bs Hnd Hs H.
  { apply ret_Ok in H as [-> ->]. split_and!; [done|done|done|constructor]. }
  rewrite fmap_cons, NoDup_cons in Hnd. destruct Hnd as [Ha Hnd].
  cbn [for_each] in H. apply bind_Ok in H as (b&s1&Hb&H). apply bind_Ok in H as (bs'&s2&Hbs&H).
  apply ret_Ok in H as [-> ->].
  destruct (Hbody a s b s1 (list_elem_of_here _ _) Hs Hb) as (Hs1&He1&Hp&Hrow1).
  destruct (IH ltac:(intros; eapply Hbody; [by apply list_elem_of_further|done..]) s1 bs' Hnd Hs1 Hbs)
    as (Hs2&He2&Hrow2&Hall).
  split; [done|]. split; [by etrans|]. split.
  - intros k Hk. rewrite fmap_cons in Hk. rewrite Hrow2, Hrow1; [done|..]; intros ?; apply Hk; set_solver.
  - constructor.
    + exists s, s1. split_and!; try done. by apply Hrow2.
    + eapply Forall2_impl_elem; [exact Hall|]. intros x y Hx (t1&t2&?&?&?&?&Hr&?). exists t1, t2.
      split_and!; try done; [by etrans|]. rewrite Hr. apply Hrow1. intros Heq. apply Ha. rewrite <- Heq.
      by apply list_elem_of_fmap_2.
Qed.
End rows.

(** A loop that returns: an invariant [P] of the store and a preorder [R] every round moves along. *)
Lemma for_each_steps {S A B} (P : S → Prop) (R : S → S → Prop) `{!PreOrder R} (l : list A) (m : A → prog S B) s ys s' :
  (∀ x s a s', x ∈ l → P s → m x s = (Ok a, s') → P s' ∧ R s s') →
  P s → for_each l m s = (Ok ys, s') → P s' ∧ R s s'.
Proof.
  revert s ys. induction l as [|x l IH]; intros s ys Hm HP H; cbn [for_each] in H.
  - apply ret_Ok in H as [_ ->]. by split.
  - apply bind_Ok in H as (y&s1&H1&H). apply bind_Ok in H as (ys'&s2&H2&H). apply ret_Ok in H as [_ ->].
    destruct (Hm x s y s1 (list_elem_of_here _ _) HP H1) as [HP1 R1].
    destruct (IH s1 ys' ltac:(intros ? ? ? ? Hx; apply Hm; by apply list_elem_of_further) HP1 H2) as [HP2 R2].
    split; [done|by etrans].
Qed.

Lemma raise_when_Ok c e u : raise_when c e = Ok u → c = false.
Proof. by destruct c. Qed.

Lemma result_bind_Ok {A B} (m : result A) (k : A → result B) b :
  m ≫= k = Ok b → ∃ a, m = Ok a ∧ k a = Ok b.
Proof. destruct m; naive_solver. Qed.

Lemma wp_zoom_view {S T A} `{Embeds S T} (m : prog T A) s (Q : result A → S → Prop) :
  (∀ r t, m (view s) = (r, t) → Q r (set_view t s)) → wp (zoom m) s Q.
Proof. intros H'. unfold wp, zoom. destruct (m (view s)) as [r t] eqn:E. by apply H'. Qed.

Lemma zoom_Ok {S T A} `{Embeds S T} (m : prog T A) s a s' :
  zoom m s = (Ok a, s') → ∃ t, m (view s) = (Ok a, t) ∧ s' = set_view t s.
Proof. unfold zoom. destruct (m (view s)) as [r t]. intros [= -> <-]. by exists t. Qed.

(** ** Programs that only read *)

Create HintDb reading.

Definition reads {S A} (m : prog S A) : Prop := ∀ s, (m s).2 = s.

Lemma reads_bind {S A B} (m : prog S A) (k : A → prog S B) : reads m → (∀ a, reads (k a)) → reads (m ≫= k).
Proof.
  intros Hm Hk s. unfold mbind, prog_bind. pose proof (Hm s) as Hs. destruct (m s) as [[a|e] s1]; cbn in *; subst; [apply Hk|done].
Qed.
Lemma reads_zoom {S T A} `{Embeds S T} (m : prog T A) : reads m → reads (zoom m).
Proof.
  intros Hm s. unfold zoom. pose proof (Hm (view s)) as Hs. destruct (m (view s)) as [r t]. cbn in *. subst. apply set_view_view.
Qed.
Lemma reads_for_each {S A B} (l : list A) (m : A → prog S B) : (∀ x, reads (m x)) → reads (for_each l m).
Proof.
  intros Hm. induction l as [|x l IH]; [done|]. cbn [for_each]. apply reads_bind; [apply Hm|]. intros b.
  apply reads_bind; [apply IH|]. by intros bs s.
Qed.
Lemma reads_require {S A} (o : option A) e : reads (S:=S) (require o e).
Proof. intros s. by destruct o. Qed.
Lemma reads_check {S} c e : reads (S:=S) (check c e).
Proof. intros s. unfold check. by destruct c. Qed.
Lemma reads_lift {S A} (r : result A) : reads (S:=S) (lift r).
Proof. done. Qed.
Lemma reads_ret {S A} (a : A) : reads (S:=S) (mret a).
Proof. done. Qed.
Lemma reads_get_store {S} : reads (S:=S) get_store.
Proof. done. Qed.
#[export] Hint Resolve reads_bind reads_zoom reads_for_each reads_require reads_check reads_lift reads_ret reads_get_store : reading.
#[export] Hint Extern 2 (reads (match ?x with _ => _ end)) => destruct x : reading.

Lemma try_map_Forall2 {A B} (f : A → result B) l ys : try_map f l = Ok ys → Forall2 (λ x y, f x = Ok y) l ys.
Proof.
  revert ys. induction l as [|x l IH]; intros ys H; simpl in H; [injection H as <-; constructor|].
  apply result_bind_Ok in H as (y&Hy&H). apply result_bind_Ok in H as (ys'&Hys&[= <-]). constructor; [done|by apply IH].
Qed.
Lemma try_map_total {A B} (f : A → result B) l : (∀ x, x ∈ l → ∃ y, f x = Ok y) → ∃ ys, try_map f l = Ok ys.
Proof.
  induction l as [|x l IH]; intros H; [by exists []|]. destruct (H x (list_elem_of_here _ _)) as [y Hy].
  destruct IH as [ys Hys]; [intros z Hz; by apply H, list_elem_of_further|]. exists (y :: ys). simpl. by rewrite Hy, Hys.
Qed.

(** Decomposes a hypothesis [m s = (Ok a, s')]. *)
Ltac prog_inv H :=
  lazymatch type of H with
  | (_ ≫= _) _ = (Ok _, _) =>
      let a := fresh "v" in let s1 := fresh "st" in let H1 := fresh "Hrun" in
      apply bind_Ok in H as (a & s1 & H1 & H); cbv beta in H; prog_inv H1; prog_inv H
  | mret _ _ = (Ok _, _) => apply ret_Ok in H as [? ->]; try subst
  | check _ _ _ = (Ok _, _) => let Hc := fresh "Hcheck" in apply check_Ok in H as [Hc ->]
  | require _ _ _ = (Ok _, _) => let Hc := fresh "Hreq" in apply require_Ok in H as [Hc ->]
  | gets _ _ = (Ok _, _) => apply gets_Ok in H as [-> ->]
  | get_store _ = (Ok _, _) => apply get_store_Ok in H as [-> ->]
  | modify _ _ = (Ok _, _) => apply modify_Ok in H as ->
  | lift _ _ = (Ok _, _) => let Hc := fresh "Hlift" in apply lift_Ok in H as [Hc ->]
  | raise _ _ = (Ok _, _) => exfalso; exact (raise_Ok _ _ _ _ H)
  | _ => idtac
  end.

(** [wp] steps: one rule per construct, side conditions introduced. *)
Ltac wp_step :=
  lazymatch goal with
  | |- wp (_ ≫= _) _ _ => apply wp_bind
  | |- wp (mret _) _ _ => apply wp_ret
  | |- wp (raise _) _ _ => apply wp_raise
  | |- wp get_store _ _ => apply wp_get_store
  | |- wp (gets _) _ _ => apply wp_gets
  | |- wp (modify _) _ _ => apply wp_modify
  | |- wp (lift _) _ _ => apply wp_lift
  | |- wp (check _ _) _ _ => apply wp_check; intros ?
  | |- wp (require _ _) _ _ => apply wp_require; [intros ?|intros ? ?]
  | |- wp (atomic _) _ _ => apply wp_atomic
  | |- wp (match ?x with _ => _ end) _ _ => destruct x eqn:?
  | |- match ?r with Ok _ => _ | Err _ => _ end => destruct r eqn:?
  end.
Ltac wp_go := repeat (wp_step; cbv beta iota).

(** Runs a program whose guards are decided by the hypotheses. *)
Ltac run_step :=
  unfold mbind, prog_bind, mret, prog_ret, raise, gets, get_store, modify, check, require, lift; cbv beta iota.
