(* ===== verification/Budget.v ===== *)
(** * Budget: packages/runtime/budget (contracts.py, service.py)

    [BudgetGovernor] keeps a ledger of accounts and reservations.  [BudgetDB] is the two tables
    [budget_accounts] and [budget_reservations] (packages/runtime/storage/models.py); every method
    is a [prog BudgetDB].  The row locks ([with_for_update]) make a method one atomic step, so a
    history of the ledger is a sequence of method calls ([budget_op], [run_op]), each inside the
    transaction its caller opens ([atomic]).

    A [Decimal] is a multiple of 10^-6, the scale of the NUMERIC(24,6) columns, counted in units of
    that scale, with the exponent it is written with (two Decimals of the same value and different
    exponents have different texts, and [create_account] compares texts).  The 28-digit precision
    of the decimal context is not reached by sums of columns of 24 digits. *)

From S2P Require Import Prelude.
From S2P Require Import Effects.

(** ** contracts.py *)

Inductive BudgetResource :=
| WALL_SECONDS | MODEL_TOKENS | AGENT_TURNS | TOOL_CALLS | RPC_CALLS | RETRIES
| EXTERNAL_COST | BYTES_READ | CONCURRENCY | RECURSION_DEPTH.

Definition BudgetResource_value (r : BudgetResource) : string :=
  match r with
  | WALL_SECONDS => "wall_seconds"
  | MODEL_TOKENS => "model_tokens"
  | AGENT_TURNS => "agent_turns"
  | TOOL_CALLS => "tool_calls"
  | RPC_CALLS => "rpc_calls"
  | RETRIES => "retries"
  | EXTERNAL_COST => "external_cost"
  | BYTES_READ => "bytes_read"
  | CONCURRENCY => "concurrency"
  | RECURSION_DEPTH => "recursion_depth"
  end.

(** A Decimal: its value in units of 10^-6 and the exponent of its written form. *)
Record Decimal := mkDecimal { dec_units : Z; dec_exponent : Z }.

#[export] Instance Decimal_eq_dec : EqDecision Decimal.
Proof. solve_decision. Defined.

(** [BudgetLimits]: the dict [quantities] in its insertion order. *)
Record BudgetLimits := mkBudgetLimits { quantities : list (string * Decimal) }.

(** [BudgetLimits.validate_quantities] *)
Fixpoint validate_quantities (value : list (string * Decimal)) : result unit :=
  match value with
  | [] => Ok tt
  | (resource, quantity) :: rest =>
      if py_blank resource then Err (ValueError "budget resource cannot be empty")
      else if dec_units quantity <? 0 then Err (ValueError "budget limit cannot be negative")
      else validate_quantities rest
  end.

Definition make_BudgetLimits (value : list (string * Decimal)) : result BudgetLimits :=
  _ ← validate_quantities value; mret (mkBudgetLimits value).

Inductive BudgetReservationStatus := RESERVED | COMMITTED | RELEASED.

#[export] Instance BudgetReservationStatus_eq_dec : EqDecision BudgetReservationStatus.
Proof. solve_decision. Defined.

Record BudgetReservation := mkBudgetReservation {
  br_reservation_id : string;
  br_account_id : string;
  br_resource_type : string;
  br_amount_reserved : Z;
  br_amount_committed : Z;
  br_status : BudgetReservationStatus
}.

(** ** Tables (packages/runtime/storage/models.py) *)

Record BudgetAccountModel := mkBudgetAccountModel {
  acc_account_id : string;
  acc_parent_account_id : option string;
  acc_task_run_id : option string;
  acc_limits : list (string * Decimal);
  acc_status : string;
  acc_created_at : Z;
  acc_closed_at : option Z
}.

Record BudgetReservationModel := mkBudgetReservationModel {
  res_reservation_id : string;
  res_reservation_group_id : string;
  res_account_id : string;
  res_child_account_id : option string;
  res_resource_type : string;
  res_amount_reserved : Z;
  res_amount_committed : Z;
  res_status : BudgetReservationStatus;
  res_created_at : Z;
  res_updated_at : Z
}.

Record BudgetDB := mkBudgetDB {
  accounts : gmap string BudgetAccountModel;
  reservations : list BudgetReservationModel
}.

Definition set_accounts (f : gmap string BudgetAccountModel → gmap string BudgetAccountModel)
  (db : BudgetDB) : BudgetDB := mkBudgetDB (f (accounts db)) (reservations db).
Definition set_reservations (f : list BudgetReservationModel → list BudgetReservationModel)
  (db : BudgetDB) : BudgetDB := mkBudgetDB (accounts db) (f (reservations db)).

(** ** Views (service.py) *)

Record BudgetAccountView := mkBudgetAccountView {
  av_account_id : string;
  av_parent_account_id : option string;
  av_task_run_id : option string;
  av_limits : BudgetLimits;
  av_status : string
}.

Record BudgetSnapshot := mkBudgetSnapshot {
  snap_account_id : string;
  snap_limits : list (string * Decimal);
  snap_reserved : gmap string Z;
  snap_committed : gmap string Z;
  snap_remaining : gmap string Z
}.

Record BudgetReservationGroup := mkBudgetReservationGroup {
  grp_reservation_group_id : string;
  grp_account_id : string;
  grp_reservations : list BudgetReservation;
  grp_replay : bool
}.

(** Order of [sorted(d.items())] for a dict: the keys are distinct, so the key decides. *)
Definition key_le {A} (x y : string * A) : Prop := String.le x.1 y.1.
#[export] Instance key_le_dec {A} : RelDecision (@key_le A).
Proof. intros x y. apply String.le_dec. Defined.

(** [_serialize_limits] *)
Definition serialize_limits (limits : BudgetLimits) : list (string * Decimal) :=
  merge_sort key_le (quantities limits).

(** [_account_view]: building [BudgetLimits] runs its validator again. *)
Definition account_view (model : BudgetAccountModel) : result BudgetAccountView :=
  limits ← make_BudgetLimits (acc_limits model);
  mret (mkBudgetAccountView (acc_account_id model) (acc_parent_account_id model)
    (acc_task_run_id model) limits (acc_status model)).

(** [_reservation_view] *)
Definition reservation_view (model : BudgetReservationModel) : BudgetReservation :=
  mkBudgetReservation (res_reservation_id model) (res_account_id model)
    (res_resource_type model) (res_amount_reserved model) (res_amount_committed model)
    (res_status model).

(** The dict of a list of pairs. *)
Definition dict_of (l : list (string * Z)) : gmap string Z := list_to_map l.

(** Rows of one reservation group of one account. *)
Definition in_group (account_id group : string) (r : BudgetReservationModel) : bool :=
  bool_decide (res_account_id r = account_id) && bool_decide (res_reservation_group_id r = group).

Definition has_status (st : BudgetReservationStatus) (r : BudgetReservationModel) : bool :=
  bool_decide (res_status r = st).

(** [d[k] = d.get(k, Decimal("0")) + x] *)
Definition add_amount (d : gmap string Z) (k : string) (x : Z) : gmap string Z :=
  <[k := default 0 (d !! k) + x]> d.

(** [BudgetGovernor.snapshot], the loop over the account's rows. *)
Definition tally (st : BudgetReservationStatus) (amount : BudgetReservationModel → Z)
  (rows : list BudgetReservationModel) : gmap string Z :=
  foldl (λ d row, if has_status st row then add_amount d (res_resource_type row) (amount row) else d)
    ∅ rows.

(** [BudgetGovernor.snapshot] *)
Definition snapshot (account_id : string) : prog BudgetDB BudgetSnapshot :=
  db ← get_store;
  account ← require (accounts db !! account_id) (LookupError "budget account not found" account_id);
  let rows := filter (λ r, res_account_id r = account_id) (reservations db) in
  let reserved := tally RESERVED res_amount_reserved rows in
  let committed := tally COMMITTED res_amount_committed rows in
  let remaining := dict_of ((λ '(resource, limit),
    (resource, Z.max 0 (dec_units limit - default 0 (reserved !! resource)
                        - default 0 (committed !! resource)))) <$> acc_limits account) in
  mret (mkBudgetSnapshot account_id (acc_limits account) reserved committed remaining).

(** The loop that compares every requested amount with what remains. *)
Fixpoint check_remaining (remaining : gmap string Z) (requested : list (string * Z)) : result unit :=
  match requested with
  | [] => Ok tt
  | (resource, amount) :: rest =>
      let left := default 0 (remaining !! resource) in
      if left <? amount then Err (BudgetExceeded resource amount left)
      else check_remaining remaining rest
  end.

(** [session.add] of new rows and [session.flush]: a primary key that exists is refused. *)
Definition add_reservations (rows : list BudgetReservationModel) : prog BudgetDB unit :=
  db ← get_store;
  check (negb (bool_decide (NoDup (res_reservation_id <$> rows ++ reservations db))))
    (IntegrityError "budget_reservations.reservation_id");;
  modify (set_reservations (λ l, l ++ rows)).

(** [BudgetGovernor._lock_group]: the rows of the group ordered by resource type. *)
Definition resource_le (x y : BudgetReservationModel) : Prop :=
  String.le (res_resource_type x) (res_resource_type y).
#[export] Instance resource_le_dec : RelDecision resource_le.
Proof. intros x y. apply String.le_dec. Defined.

Definition lock_group (account_id group : string) : prog BudgetDB (list BudgetReservationModel) :=
  db ← get_store;
  let rows := merge_sort resource_le (filter (λ r, in_group account_id group r) (reservations db)) in
  check (bool_decide (rows = [])) (LookupError "budget reservation group not found" group);;
  mret rows.

(** Assignments to the columns of a row object. *)
Definition set_committed (amount now : Z) (r : BudgetReservationModel) : BudgetReservationModel :=
  mkBudgetReservationModel (res_reservation_id r) (res_reservation_group_id r) (res_account_id r)
    (res_child_account_id r) (res_resource_type r) (res_amount_reserved r) amount COMMITTED
    (res_created_at r) now.
Definition set_released (now : Z) (r : BudgetReservationModel) : BudgetReservationModel :=
  mkBudgetReservationModel (res_reservation_id r) (res_reservation_group_id r) (res_account_id r)
    (res_child_account_id r) (res_resource_type r) (res_amount_reserved r) (res_amount_committed r)
    RELEASED (res_created_at r) now.

(** Row objects mutated by a method, written back to the table by primary key. *)
Definition write_back (rows tbl : list BudgetReservationModel) : list BudgetReservationModel :=
  (λ r, from_option snd r (list_find (λ x, res_reservation_id x = res_reservation_id r) rows)) <$> tbl.

(** The loop of [commit]: [before] are the rows already mutated.  [Ok true] is the early return of a
    replay, [Ok false] the end of the loop. *)
Fixpoint commit_rows (now : Z) (consumed : gmap string Z) (allow_overrun : bool)
  (before todo : list BudgetReservationModel) : result bool * list BudgetReservationModel :=
  match todo with
  | [] => (Ok false, before)
  | model :: rest =>
      let models := before ++ todo in
      if bool_decide (res_status model ≠ RESERVED) then
        let prior := dict_of ((λ r, (res_resource_type r, res_amount_committed r)) <$> models) in
        if forallb (has_status COMMITTED) models
           && forallb (λ '(resource, amount), default 0 (prior !! resource) =? amount)
                (map_to_list consumed)
        then (Ok true, models)
        else (Err (ValueError "budget reservation group is no longer reservable"), models)
      else
        let amount := default 0 (consumed !! res_resource_type model) in
        if (amount <? 0) || ((res_amount_reserved model <? amount) && negb allow_overrun)
        then (Err (ValueError "committed amount exceeds reservation"), models)
        else commit_rows now consumed allow_overrun (before ++ [set_committed amount now model]) rest
  end.

Section BudgetGovernor.
(** [uuid.uuid5(NAMESPACE_URL, name)] as a function of the name. *)
Context (uuid5_url : string → string).

(** [_stable_id] *)
Definition stable_id (value : string) : string := uuid5_url ("secfusion:" +:+ value).

(** One new row of [reserve]. *)
Definition new_reservation (now : Z) (account_id group : string) (child : option string)
  (rq : string * Z) : BudgetReservationModel :=
  mkBudgetReservationModel
    (stable_id ("budget-reservation:" +:+ account_id +:+ ":" +:+ group +:+ ":" +:+ rq.1))
    group account_id child rq.1 rq.2 0 RESERVED now now.

(** [BudgetGovernor.reserve] *)
Definition reserve (now : Z) (account_id group : string) (requested : list (string * Z))
  (child : option string) : prog BudgetDB BudgetReservationGroup :=
  check (bool_decide (requested = [])) (ValueError "budget reservation requires quantities");;
  check (existsb (λ rq, rq.2 <=? 0) requested)
    (ValueError "budget reservation quantities must be positive");;
  db ← get_store;
  account ← require (accounts db !! account_id) (LookupError "budget account not found" account_id);
  check (bool_decide (acc_status account ≠ "active"%string))
    (ValueError "budget account is not active");;
  let existing := filter (λ r, in_group account_id group r) (reservations db) in
  if bool_decide (existing ≠ []) then
    let actual := dict_of ((λ r, (res_resource_type r, res_amount_reserved r)) <$> existing) in
    check (bool_decide (actual ≠ dict_of requested)
           || bool_decide ((list_to_set (res_child_account_id <$> existing) : gset (option string))
                           ≠ {[child]}))
      (ValueError "budget reservation group identity is immutable");;
    mret (mkBudgetReservationGroup group account_id (reservation_view <$> existing) true)
  else
    snap ← snapshot account_id;
    lift (check_remaining (snap_remaining snap) requested);;
    let models := new_reservation now account_id group child <$> merge_sort key_le requested in
    add_reservations models;;
    mret (mkBudgetReservationGroup group account_id (reservation_view <$> models) false).

(** [BudgetGovernor.commit] *)
Definition commit (now : Z) (account_id group : string) (consumed : gmap string Z)
  (allow_overrun : bool) : prog BudgetDB BudgetReservationGroup :=
  models ← lock_group account_id group;
  check (negb (bool_decide (dom consumed ⊆ (list_to_set (res_resource_type <$> models) : gset string))))
    (ValueError "commit contains resource not present in reservation");;
  let '(outcome, models') := commit_rows now consumed allow_overrun [] models in
  modify (set_reservations (write_back models'));;
  replay ← lift outcome;
  mret (mkBudgetReservationGroup group account_id (reservation_view <$> models') replay).

(** [BudgetGovernor.release] *)
Definition release (now : Z) (account_id group : string) : prog BudgetDB BudgetReservationGroup :=
  models ← lock_group account_id group;
  if forallb (has_status RELEASED) models then
    mret (mkBudgetReservationGroup group account_id (reservation_view <$> models) true)
  else
    check (existsb (has_status COMMITTED) models)
      (ValueError "committed reservation cannot be released");;
    let models' := set_released now <$> models in
    modify (set_reservations (write_back models'));;
    mret (mkBudgetReservationGroup group account_id (reservation_view <$> models') false).

(** [BudgetGovernor.create_account], the checks against the parent. *)
Definition check_parent (limits : BudgetLimits) (parent_account_id : string) : prog BudgetDB unit :=
  db ← get_store;
  parent ← require (accounts db !! parent_account_id)
    (LookupError "parent budget account not found" parent_account_id);
  check (bool_decide (acc_status parent ≠ "active"%string))
    (ValueError "parent budget account is not active");;
  snap ← snapshot parent_account_id;
  lift (check_remaining (snap_remaining snap) (prod_map id dec_units <$> quantities limits)).

Definition child_group (account_id : string) : string := "child-allocation:" +:+ account_id.

(** [BudgetGovernor.create_account] *)
Definition create_account (now : Z) (account_id : string) (limits : BudgetLimits)
  (task_run_id parent_account_id : option string) : prog BudgetDB BudgetAccountView :=
  db ← get_store;
  match accounts db !! account_id with
  | Some existing =>
      check (bool_decide ((list_to_map (acc_limits existing) : gmap string Decimal)
                          ≠ list_to_map (serialize_limits limits))
             || bool_decide (acc_task_run_id existing ≠ task_run_id)
             || bool_decide (acc_parent_account_id existing ≠ parent_account_id))
        (ValueError "budget account identity is immutable");;
      lift (account_view existing)
  | None =>
      from_option (check_parent limits) (mret tt) parent_account_id;;
      let model := mkBudgetAccountModel account_id parent_account_id task_run_id
                     (serialize_limits limits) "active" now None in
      modify (set_accounts (<[account_id := model]>));;
      match parent_account_id with
      | Some parent =>
          if bool_decide (quantities limits = []) then mret tt
          else reserve now parent (child_group account_id)
                 (prod_map id dec_units <$> quantities limits) (Some account_id);; mret tt
      | None => mret tt
      end;;
      lift (account_view model)
  end.

(** [child.status = "closed"; child.closed_at = now] *)
Definition set_closed (now : Z) (a : BudgetAccountModel) : BudgetAccountModel :=
  mkBudgetAccountModel (acc_account_id a) (acc_parent_account_id a) (acc_task_run_id a)
    (acc_limits a) "closed" (acc_created_at a) (Some now).

(** [BudgetGovernor.close_child_account] *)
Definition close_child_account (now : Z) (account_id : string) : prog BudgetDB BudgetAccountView :=
  db ← get_store;
  child ← require (accounts db !! account_id) (LookupError "budget account not found" account_id);
  parent ← require (acc_parent_account_id child)
    (ValueError "close_child_account requires a child budget account");
  if bool_decide (acc_status child = "closed"%string) then lift (account_view child)
  else
    snap ← snapshot account_id;
    commit now parent (child_group account_id) (snap_committed snap) true;;
    modify (set_accounts (<[account_id := set_closed now child]>));;
    lift (account_view (set_closed now child)).

(** ** Histories *)

Inductive budget_op :=
| OpCreate (now : Z) (account_id : string) (limits : BudgetLimits)
    (task_run_id parent_account_id : option string)
| OpReserve (now : Z) (account_id group : string) (requested : list (string * Z))
    (child : option string)
| OpCommit (now : Z) (account_id group : string) (consumed : gmap string Z) (allow_overrun : bool)
| OpRelease (now : Z) (account_id group : string)
| OpClose (now : Z) (account_id : string).

(** A method call inside its caller's transaction: the store after it. *)
Definition run_op (op : budget_op) (db : BudgetDB) : BudgetDB :=
  match op with
  | OpCreate now a l t p => (atomic (create_account now a l t p) db).2
  | OpReserve now a g q c => (atomic (reserve now a g q c) db).2
  | OpCommit now a g q o => (atomic (commit now a g q o) db).2
  | OpRelease now a g => (atomic (release now a g) db).2
  | OpClose now a => (atomic (close_child_account now a) db).2
  end.

Definition empty_db : BudgetDB := mkBudgetDB ∅ [].
End BudgetGovernor.

(** ** Amounts of an account and a resource *)

Definition row_of (a r : string) (row : BudgetReservationModel) : bool :=
  bool_decide (res_account_id row = a) && bool_decide (res_resource_type row = r).

(** Sum over the rows of account [a] and resource [r] in status [st]. *)
Definition amount_in (st : BudgetReservationStatus) (f : BudgetReservationModel → Z)
  (db : BudgetDB) (a r : string) : Z :=
  sumZ (λ row, if row_of a r row && has_status st row then f row else 0) (reservations db).

Definition reserved_of : BudgetDB → string → string → Z := amount_in RESERVED res_amount_reserved.
Definition committed_of : BudgetDB → string → string → Z := amount_in COMMITTED res_amount_committed.

(** How far committed rows went past their reservation. *)
Definition overrun_of : BudgetDB → string → string → Z :=
  amount_in COMMITTED (λ row, Z.max 0 (res_amount_committed row - res_amount_reserved row)).

Definition limit_of (db : BudgetDB) (a r : string) : Z :=
  from_option (λ acc, default 0 (dec_units <$> dict_get r (acc_limits acc))) 0 (accounts db !! a).

(** ** [snapshot] reads the ledger *)

Lemma tally_lookup st f rows r :
  default 0 (tally st f rows !! r) =
  sumZ (λ row, if bool_decide (res_resource_type row = r) && has_status st row then f row else 0) rows.
Proof.
  unfold tally. rewrite <-(Z.add_0_l (sumZ _ _)).
  change 0 with (default 0 ((∅ : gmap string Z) !! r)) at 2.
  generalize (∅ : gmap string Z) as d. induction rows as [|row rows IH]; intros d; simpl; [lia|].
  rewrite IH. unfold has_status, add_amount. case_bool_decide as Hst; simpl; [|rewrite andb_false_r; lia].
  destruct (decide (res_resource_type row = r)) as [<-|Hr].
  - rewrite lookup_insert_eq, bool_decide_eq_true_2 by done. simpl. lia.
  - rewrite lookup_insert_ne, bool_decide_eq_false_2 by done. simpl. lia.
Qed.

Lemma tally_amount_in st f db a r :
  default 0 (tally st f (filter (λ row, res_account_id row = a) (reservations db)) !! r) =
  amount_in st f db a r.
Proof.
  rewrite tally_lookup, sumZ_filter. apply sumZ_ext. intros row _. unfold row_of.
  by repeat case_bool_decide.
Qed.

Lemma lookup_dict_of_fmap (l : list (string * Decimal)) (g : string → Decimal → Z) r :
  dict_of ((λ '(k, d), (k, g k d)) <$> l) !! r = g r <$> dict_get r l.
Proof.
  unfold dict_of. induction l as [|[k d] l IH]; simpl; [done|].
  destruct (decide (r = k)) as [->|]; [by rewrite lookup_insert_eq|].
  by rewrite lookup_insert_ne.
Qed.

Lemma dict_of_lookup l r : dict_of l !! r = dict_get r l.
Proof.
  unfold dict_of. induction l as [|[k d] l IH]; simpl; [done|].
  destruct (decide (r = k)) as [->|]; [by rewrite lookup_insert_eq|]. by rewrite lookup_insert_ne.
Qed.

(** What [snapshot] answers, in terms of the ledger's sums. *)
Lemma snapshot_run db a acc :
  accounts db !! a = Some acc →
  ∃ snap, snapshot a db = (Ok snap, db) ∧ snap_account_id snap = a ∧
    snap_limits snap = acc_limits acc ∧
    (∀ r, default 0 (snap_reserved snap !! r) = reserved_of db a r) ∧
    (∀ r, default 0 (snap_committed snap !! r) = committed_of db a r) ∧
    (∀ r, snap_remaining snap !! r =
      (λ l, Z.max 0 (dec_units l - reserved_of db a r - committed_of db a r))
        <$> dict_get r (acc_limits acc)).
Proof.
  intros Hacc. unfold snapshot. run_step. rewrite Hacc. eexists. split; [done|]. simpl.
  split_and!; [done..| | |]; intros r; [apply tally_amount_in..|].
  rewrite (lookup_dict_of_fmap _ (λ resource limit, _)). f_equal.
  by rewrite !tally_amount_in.
Qed.

Lemma check_remaining_Ok remaining q u :
  check_remaining remaining q = Ok u →
  ∀ r x, (r, x) ∈ q → x ≤ default 0 (remaining !! r).
Proof.
  induction q as [|[r x] q IH]; simpl; [set_solver|].
  destruct (_ <? x) eqn:E; [done|]. intros H r' x' [[= <- <-]|Hin]%elem_of_cons; [lia|eauto].
Qed.

(** ** What a returning call did *)

(** Decides the boolean guards a returning run has passed. *)
Ltac guards :=
  repeat match goal with
  | H : bool_decide _ = true |- _ => apply bool_decide_eq_true_1 in H
  | H : bool_decide _ = false |- _ => apply bool_decide_eq_false_1 in H
  | H : negb _ = false |- _ => apply negb_false_iff in H
  | H : negb _ = true |- _ => apply negb_true_iff in H
  | H : _ || _ = false |- _ => apply orb_false_iff in H as [??]
  | H : _ && _ = true |- _ => apply andb_true_iff in H as [??]
  | H : ¬ (_ ≠ _) |- _ => apply dec_stable in H
  end.

Section runs.
Context (uuid5_url : string → string).

Lemma check_remaining_run db a acc q snap st' u :
  accounts db !! a = Some acc → snapshot a db = (Ok snap, st') →
  check_remaining (snap_remaining snap) q = Ok u →
  st' = db ∧ ∀ r x, (r, x) ∈ q → 0 < x →
    x ≤ limit_of db a r - reserved_of db a r - committed_of db a r.
Proof.
  intros Hacc Hrun Hc. destruct (snapshot_run db a acc Hacc) as (snap'&Hrun'&_&_&_&_&Hrem).
  rewrite Hrun in Hrun'. injection Hrun' as -> ->. split; [done|]. intros r x Hin Hx.
  pose proof (check_remaining_Ok _ _ _ Hc r x Hin) as Hle. rewrite Hrem in Hle.
  unfold limit_of. rewrite Hacc. simpl. destruct (dict_get r (acc_limits acc)); simpl in *; lia.
Qed.

(** A returning [reserve] is a replay, which keeps the store, or appends the rows of a new group
    whose amounts fit in what remains. *)
Lemma reserve_Ok now a g q c db grp db' :
  reserve uuid5_url now a g q c db = (Ok grp, db') →
  (db' = db ∧ grp_replay grp = true) ∨
  ∃ acc, accounts db !! a = Some acc ∧ acc_status acc = "active"%string ∧
    grp_replay grp = false ∧
    (∀ row, row ∈ reservations db → in_group a g row = false) ∧
    (∀ r x, (r, x) ∈ q → 0 < x ∧ x ≤ limit_of db a r - reserved_of db a r - committed_of db a r) ∧
    let rows := new_reservation uuid5_url now a g c <$> merge_sort key_le q in
    NoDup (res_reservation_id <$> rows ++ reservations db) ∧
    db' = set_reservations (λ l, l ++ rows) db.
Proof.
  intros H. unfold reserve in H. prog_inv H. destruct (bool_decide _) eqn:Hex in H.
  { prog_inv H. auto. }
  prog_inv H. right. guards.
  destruct (check_remaining_run _ _ _ _ _ _ _ Hreq Hrun Hlift) as [-> Hfit].
  unfold add_reservations in Hrun0. prog_inv Hrun0. guards.
  eexists; split_and!; try done.
  - intros row. by apply filter_nil_elem.
  - intros r x Hin. assert (0 < x) as Hx; [|eauto].
    destruct (Z.leb_spec x 0); [|lia]. rewrite <-not_true_iff_false in Hcheck0.
    destruct Hcheck0. apply existsb_exists. exists (r, x).
    rewrite <-list_elem_of_In. split; [done|simpl; lia].
Qed.

(** [write_back] of mapped group rows is an update of the group in place. *)
Lemma write_back_group (p : BudgetReservationModel → bool) f tbl models :
  NoDup (res_reservation_id <$> tbl) →
  (∀ r, res_reservation_id (f r) = res_reservation_id r) →
  models ≡ₚ filter (λ r, p r) tbl →
  write_back (f <$> models) tbl = update_where p f tbl.
Proof.
  intros Hnd Hid Hperm. apply list_fmap_ext. intros i r Hr%list_elem_of_lookup_2.
  assert (∀ x, x ∈ models ↔ p x ∧ x ∈ tbl) as Hmem
    by (intros x; by rewrite Hperm, list_elem_of_filter).
  destruct (list_find _ _) as [[j y]|] eqn:E; simpl.
  - apply list_find_Some in E as (Hy&Hyid&_). apply list_elem_of_lookup_2 in Hy.
    apply list_elem_of_fmap in Hy as (x&->&[Hp Hx]%Hmem). rewrite Hid in Hyid.
    assert (x = r) as -> by by apply (NoDup_fmap_eq res_reservation_id tbl).
    by destruct (p r).
  - destruct (p r) eqn:Hp; [|done]. apply list_find_None in E.
    rewrite Forall_forall in E. destruct (E (f r)); [|by rewrite Hid].
    apply list_elem_of_fmap. exists r. split; [done|]. apply Hmem. by rewrite Hp.
Qed.

Definition commit_row (now : Z) (consumed : gmap string Z) (r : BudgetReservationModel) :=
  set_committed (default 0 (consumed !! res_resource_type r)) now r.

(** The loop of [commit] that runs to its end committed every row, each within its reservation
    unless overruns are allowed. *)
Lemma commit_rows_false now consumed o before todo rows :
  commit_rows now consumed o before todo = (Ok false, rows) →
  rows = before ++ (commit_row now consumed <$> todo) ∧
  ∀ r, r ∈ todo → res_status r = RESERVED ∧
    0 ≤ default 0 (consumed !! res_resource_type r) ∧
    (default 0 (consumed !! res_resource_type r) ≤ res_amount_reserved r ∨ o = true).
Proof.
  revert before. induction todo as [|m todo IH]; intros before; simpl.
  { intros [= <-]. rewrite app_nil_r. split; [done|set_solver]. }
  destruct (bool_decide _) eqn:Hst; [destruct (_ && _); naive_solver|].
  destruct (_ || _) eqn:Hc; [naive_solver|]. intros H.
  destruct (IH _ H) as [-> Hall]. rewrite <-app_assoc. split; [done|].
  intros r [->|Hr]%elem_of_cons; [|auto]. guards. split; [done|].
  apply andb_false_iff in H1 as [H1|H1%negb_false_iff]; (split; [lia|]); [left; lia|auto].
Qed.

(** A replay from the first row on keeps the rows. *)
Lemma commit_rows_true now consumed o todo rows :
  (∀ r r', r ∈ todo → r' ∈ todo → res_status r = res_status r') →
  commit_rows now consumed o [] todo = (Ok true, rows) →
  rows = todo ∧ ∀ r, r ∈ todo → res_status r ≠ RESERVED.
Proof.
  assert (∀ todo before rows, (∀ r, r ∈ todo → res_status r = RESERVED) →
    commit_rows now consumed o before todo = (Ok true, rows) → False) as Hres.
  { clear. induction todo as [|m todo IH]; intros before rows Hall; simpl; [done|].
    rewrite bool_decide_eq_false_2 by (intros []; apply Hall; set_solver).
    destruct (_ || _); [done|]. apply IH. set_solver. }
  intros Hsame H. destruct todo as [|m todo]; [done|].
  destruct (decide (res_status m = RESERVED)) as [Hm|Hm].
  - exfalso. eapply (Hres (m :: todo)); [|done]. intros r Hr. rewrite <-Hm. apply Hsame; set_solver.
  - simpl in H. rewrite bool_decide_eq_true_2 in H by done. destruct (_ && _); simplify_eq.
    split; [done|]. intros r Hr. rewrite (Hsame r m); [done|done|set_solver].
Qed.
End runs.

(** ** The ledger invariant *)

(** What a row takes from its account's limit: its reservation while it is open, the spend up to
    the reservation once committed, nothing once released. *)
Definition contribution (r : BudgetReservationModel) : Z :=
  match res_status r with
  | RESERVED => res_amount_reserved r
  | COMMITTED => Z.min (res_amount_committed r) (res_amount_reserved r)
  | RELEASED => 0
  end.

Definition spent (db : BudgetDB) (a r : string) : Z :=
  sumZ (λ row, if row_of a r row then contribution row else 0) (reservations db).

Lemma spent_eq db a r :
  spent db a r = reserved_of db a r + committed_of db a r - overrun_of db a r.
Proof.
  unfold spent, reserved_of, committed_of, overrun_of, amount_in.
  induction (reservations db) as [|row l IH]; simpl; [done|]. rewrite IH.
  unfold contribution, has_status. destruct (row_of a r row), (res_status row); simpl; lia.
Qed.

Definition same_group (x y : BudgetReservationModel) : Prop :=
  res_account_id x = res_account_id y ∧ res_reservation_group_id x = res_reservation_group_id y.

(** The columns of the table's unique constraint. *)
Definition row_key (r : BudgetReservationModel) : string * string * string :=
  (res_account_id r, res_reservation_group_id r, res_resource_type r).

Record budget_inv (db : BudgetDB) : Prop := mk_budget_inv {
  inv_key : ∀ a acc, accounts db !! a = Some acc → acc_account_id acc = a;
  inv_limits : ∀ a acc, accounts db !! a = Some acc → validate_quantities (acc_limits acc) = Ok tt;
  inv_ids : NoDup (res_reservation_id <$> reservations db);
  inv_account : ∀ row, row ∈ reservations db → is_Some (accounts db !! res_account_id row);
  inv_amounts : ∀ row, row ∈ reservations db → 0 < res_amount_reserved row ∧ 0 ≤ res_amount_committed row;
  inv_group : ∀ x y, x ∈ reservations db → y ∈ reservations db → same_group x y → res_status x = res_status y;
  inv_unique : NoDup (row_key <$> reservations db);
  inv_solvent : ∀ a r, spent db a r ≤ limit_of db a r
}.

Lemma in_group_same a g x y : in_group a g x → in_group a g y → same_group x y.
Proof. unfold in_group, same_group. rewrite !andb_True, !bool_decide_spec. naive_solver. Qed.

Lemma same_group_in_group a g x y : same_group x y → in_group a g x = in_group a g y.
Proof. unfold in_group. by intros [-> ->]. Qed.

(** Updating the rows of one group in place keeps the invariant when no row takes more. *)
Lemma inv_update_group a g f db :
  budget_inv db →
  (∀ x, x ∈ reservations db → in_group a g x →
     res_reservation_id (f x) = res_reservation_id x ∧ same_group (f x) x ∧
     res_resource_type (f x) = res_resource_type x ∧
     res_amount_reserved (f x) = res_amount_reserved x ∧
     0 ≤ res_amount_committed (f x) ∧ contribution (f x) ≤ contribution x) →
  (∃ st, ∀ x, res_status (f x) = st) →
  budget_inv (set_reservations (update_where (in_group a g) f) db).
Proof.
  intros [Hkey Hlim Hids Hacc Ham Hgr Huniq Hsol] Hf [st Hst].
  assert (∀ y, y ∈ update_where (in_group a g) f (reservations db) →
    ∃ x, x ∈ reservations db ∧ same_group y x ∧ res_amount_reserved y = res_amount_reserved x ∧
      0 ≤ res_amount_committed y ∧ res_status y = if in_group a g x then st else res_status x) as Hy.
  { intros y (x&Hx&->)%elem_of_update_where. exists x. specialize (Hf x Hx).
    destruct (in_group a g x); [|split_and!; try done; by apply Ham].
    destruct Hf as (?&?&?&?&?&?); [done|]. by rewrite Hst. }
  constructor; simpl; [done|done| | | | | |].
  - rewrite fmap_update_where; [done|]. intros x Hx Hp. by apply Hf.
  - intros y (x&Hx&[-> _]&_)%Hy. auto.
  - intros y (x&Hx&_&->&?&_)%Hy. split; [apply Ham|]; done.
  - intros y1 y2 (x1&Hx1&[H1 H1']&_&_&->)%Hy (x2&Hx2&[H2 H2']&_&_&->)%Hy [Hg Hg'].
    assert (same_group x1 x2) as Hs by (split; congruence).
    rewrite (same_group_in_group a g x1 x2 Hs). destruct (in_group a g x2); [done|]. auto.
  - rewrite fmap_update_where; [done|]. intros x Hx Hp. unfold row_key.
    by destruct (Hf x Hx Hp) as (_&[-> ->]&->&_).
  - intros a' r. etransitivity; [|apply (Hsol a' r)]. unfold spent. simpl.
    rewrite sumZ_update_where. apply sumZ_le. intros x Hx. specialize (Hf x Hx).
    destruct (in_group a g x); [|done]. destruct Hf as (_&[Ha _]&Hr&_&_&Hc); [done|].
    unfold row_of. rewrite Ha, Hr. destruct (_ && _); lia.
Qed.

Lemma set_reservations_id db : set_reservations (λ l, l) db = db.
Proof. by destruct db. Qed.

Lemma write_back_id (p : BudgetReservationModel → bool) tbl models :
  NoDup (res_reservation_id <$> tbl) → models ≡ₚ filter (λ r, p r) tbl → write_back models tbl = tbl.
Proof.
  intros Hnd Hp. rewrite <-(list_fmap_id models), (write_back_group p id) by done.
  unfold update_where. rewrite <-(list_fmap_id tbl) at 2. apply list_fmap_ext. intros i x _. by destruct (p x).
Qed.

Lemma set_write_back_id (p : BudgetReservationModel → bool) db models :
  NoDup (res_reservation_id <$> reservations db) →
  models ≡ₚ filter (λ r, p r) (reservations db) →
  set_reservations (write_back models) db = db.
Proof. intros. unfold set_reservations. rewrite (write_back_id p) by done. by destruct db. Qed.

Section invariant.
Context (uuid5_url : string → string).

(** A returning [commit] in a well-formed ledger: a replay, or the group's rows committed. *)
Lemma commit_Ok now a g consumed o db grp db' :
  budget_inv db → commit now a g consumed o db = (Ok grp, db') →
  (db' = db ∧ grp_replay grp = true ∧
   ∀ r, r ∈ reservations db → in_group a g r → res_status r ≠ RESERVED) ∨
  (let sorted := merge_sort resource_le (filter (λ r, in_group a g r) (reservations db)) in
   grp = mkBudgetReservationGroup g a (reservation_view <$> (commit_row now consumed <$> sorted)) false ∧
   sorted ≠ [] ∧ dom consumed ⊆ (list_to_set (res_resource_type <$> sorted) : gset string) ∧
   db' = set_reservations (update_where (in_group a g) (commit_row now consumed)) db ∧
   ∀ r, r ∈ reservations db → in_group a g r → res_status r = RESERVED ∧
     0 ≤ default 0 (consumed !! res_resource_type r) ∧
     (default 0 (consumed !! res_resource_type r) ≤ res_amount_reserved r ∨ o = true)).
Proof.
  intros Hinv H. unfold commit, lock_group in H. prog_inv H.
  set (models := merge_sort resource_le _) in *.
  assert (models ≡ₚ filter (λ r, in_group a g r) (reservations db)) as Hperm
    by apply merge_sort_Permutation.
  assert (∀ x, x ∈ models ↔ in_group a g x ∧ x ∈ reservations db) as Hmem
    by (intros x; by rewrite Hperm, list_elem_of_filter).
  destruct (commit_rows _ _ _ _ _) as [outcome rows] eqn:Hrows. prog_inv H.
  match type of Hrows with _ = (Ok ?b, _) => destruct b end.
  - left. apply commit_rows_true in Hrows as [-> Hst].
    + split_and!; [|done|intros r Hr Hg; apply Hst; by apply Hmem].
      apply (set_write_back_id (in_group a g)); [apply Hinv|done].
    + intros x y [Hx Hx']%Hmem [Hy Hy']%Hmem. apply (inv_group db Hinv); try done.
      by apply (in_group_same a g).
  - right. apply commit_rows_false in Hrows as [-> Hall]. simpl.
    guards. split_and!; [done|done|done| |intros r Hr Hg; apply Hall; by apply Hmem].
    unfold set_reservations. f_equal. apply (write_back_group (in_group a g)); [apply Hinv|done..].
Qed.

Lemma release_Ok now a g db grp db' :
  budget_inv db → release now a g db = (Ok grp, db') →
  (db' = db ∧ grp_replay grp = true) ∨
  (grp_replay grp = false ∧ db' = set_reservations (update_where (in_group a g) (set_released now)) db ∧
   ∀ r, r ∈ reservations db → in_group a g r → res_status r = RESERVED).
Proof.
  intros Hinv H. unfold release, lock_group in H. prog_inv H.
  set (models := merge_sort resource_le _) in *.
  assert (models ≡ₚ filter (λ r, in_group a g r) (reservations db)) as Hperm
    by apply merge_sort_Permutation.
  assert (∀ x, x ∈ models ↔ in_group a g x ∧ x ∈ reservations db) as Hmem
    by (intros x; by rewrite Hperm, list_elem_of_filter).
  destruct (forallb _ _) eqn:Hrel in H; prog_inv H; [by left|]. right.
  split_and!; [done| |].
  - unfold set_reservations. f_equal. apply write_back_group; [apply Hinv|done..].
  - intros r Hr Hg. destruct (res_status r) eqn:Hst; [done|exfalso..].
    + assert (existsb (has_status COMMITTED) models = true); [|congruence].
      apply existsb_exists. exists r. rewrite <-list_elem_of_In, Hmem. split; [done|].
      unfold has_status. by rewrite Hst.
    + assert (forallb (has_status RELEASED) models = true); [|congruence].
      apply forallb_forall. intros x [Hx Hx']%list_elem_of_In%Hmem.
      unfold has_status. apply bool_decide_eq_true_2. rewrite <-Hst.
      apply (inv_group db Hinv); try done. by apply (in_group_same a g).
Qed.

Lemma inv_commit now a g consumed o db grp db' :
  budget_inv db → commit now a g consumed o db = (Ok grp, db') → budget_inv db'.
Proof.
  intros Hinv H. destruct (commit_Ok _ _ _ _ _ _ _ _ Hinv H) as [(->&_)|(_&_&_&->&Hall)]; [done|].
  apply inv_update_group; [done| |by exists COMMITTED].
  intros x Hx Hg. destruct (Hall x Hx Hg) as (Hst&Hc&_).
  split_and!; try done. unfold contribution. rewrite Hst. simpl. lia.
Qed.

Lemma inv_release now a g db grp db' :
  budget_inv db → release now a g db = (Ok grp, db') → budget_inv db'.
Proof.
  intros Hinv H. destruct (release_Ok _ _ _ _ _ _ Hinv H) as [[-> _]|(_&->&Hall)]; [done|].
  apply inv_update_group; [done| |by exists RELEASED].
  intros x Hx Hg. destruct (inv_amounts db Hinv x Hx). unfold contribution at 2.
  rewrite (Hall x Hx Hg). split_and!; try done. unfold contribution. simpl. lia.
Qed.

Lemma elem_of_new_rows now a g c q row :
  row ∈ new_reservation uuid5_url now a g c <$> merge_sort key_le q →
  ∃ rx, rx ∈ q ∧ row = new_reservation uuid5_url now a g c rx.
Proof.
  intros (rx&->&Hin)%list_elem_of_fmap. exists rx. by rewrite merge_sort_Permutation in Hin.
Qed.

(** The new rows take the requested amounts from their account and nothing from the others. *)
Lemma spent_new_rows now a g c q a' r :
  NoDup q.*1 →
  sumZ (λ row, if row_of a' r row then contribution row else 0)
    (new_reservation uuid5_url now a g c <$> merge_sort key_le q) =
  if decide (a = a') then default 0 (dict_get r q) else 0.
Proof.
  intros Hnd. rewrite (sumZ_perm _ _ (new_reservation uuid5_url now a g c <$> q))
    by by rewrite merge_sort_Permutation.
  unfold row_of. induction q as [|[k x] q IH]; csimpl; [by case_decide|].
  apply NoDup_cons in Hnd as [Hk Hnd]. rewrite IH by done. destruct (decide (a = a')) as [->|].
  - rewrite bool_decide_eq_true_2 by done. simpl.
    destruct (decide (r = k)) as [->|]; [|rewrite bool_decide_eq_false_2 by congruence; lia].
    rewrite bool_decide_eq_true_2, dict_get_None by done. unfold contribution. simpl. lia.
  - by rewrite bool_decide_eq_false_2.
Qed.

Lemma overrun_nonneg db a r : 0 ≤ overrun_of db a r.
Proof. apply sumZ_nonneg. intros row _. destruct (_ && _); lia. Qed.

Lemma inv_reserve now a g q c db grp db' :
  budget_inv db → NoDup q.*1 → reserve uuid5_url now a g q c db = (Ok grp, db') → budget_inv db'.
Proof.
  intros Hinv Hnd H.
  destruct (reserve_Ok _ _ _ _ _ _ _ _ _ H) as [[-> _]|(acc&Hacc&_&_&Hnew&Hfit&Hids&->)]; [done|].
  set (rows := new_reservation _ _ _ _ _ <$> _) in *.
  assert (∀ row, row ∈ rows → res_account_id row = a ∧ in_group a g row ∧
    0 < res_amount_reserved row ∧ res_amount_committed row = 0 ∧ res_status row = RESERVED) as Hrows.
  { intros row ([r x]&Hin&->)%elem_of_new_rows. destruct (Hfit r x Hin).
    unfold in_group. simpl. by rewrite !bool_decide_eq_true_2. }
  destruct Hinv as [Hkey Hlim Hids0 Hac Ham Hgr Huniq Hsol].
  constructor; simpl; [done|done| | | | | |].
  - rewrite fmap_app in *. by rewrite Permutation_app_comm.
  - intros row [?|Hr]%elem_of_app; [auto|]. apply Hrows in Hr as [-> _]. by rewrite Hacc.
  - intros row [?|Hr]%elem_of_app; [auto|]. apply Hrows in Hr. naive_solver lia.
  - intros x y [Hx|Hx]%elem_of_app [Hy|Hy]%elem_of_app Hs; [by apply Hgr|exfalso..|].
    + apply Hrows in Hy as (_&Hy&_). rewrite <-(same_group_in_group _ _ _ _ Hs), Hnew in Hy; done.
    + apply Hrows in Hx as (_&Hx&_). rewrite (same_group_in_group _ _ _ _ Hs), Hnew in Hx; done.
    + apply Hrows in Hx, Hy. destruct Hx as (_&_&_&_&->), Hy as (_&_&_&_&->). done.
  - rewrite fmap_app. apply NoDup_app. split_and!; [done| |].
    + intros k (x&->&Hx)%list_elem_of_fmap (y&Heq&Hy)%list_elem_of_fmap.
      injection Heq as Ha Hg _. apply Hrows in Hy as (_&Hy&_).
      rewrite <-(same_group_in_group a g x y), Hnew in Hy; done.
    + unfold rows. rewrite merge_sort_Permutation, <-list_fmap_compose.
      apply (NoDup_fmap_2_strong _); [|by eapply NoDup_fmap_1].
      intros [r1 x1] [r2 x2] Hin1 Hin2 [= ->].
      by apply (NoDup_fmap_eq fst q).
  - intros a' r. unfold spent. simpl. rewrite sumZ_app. unfold rows.
    rewrite spent_new_rows by done. specialize (Hsol a' r). fold (spent db a' r).
    destruct (decide (a = a')) as [->|]; [|unfold limit_of in *; simpl; lia].
    destruct (dict_get r q) as [x|] eqn:Hq; simpl; [|unfold limit_of in *; simpl; lia].
    destruct (Hfit r x) as [_ Hx]; [by apply dict_get_Some_elem|].
    rewrite spent_eq. pose proof (overrun_nonneg db a' r).
    change (limit_of (set_reservations _ db) a' r) with (limit_of db a' r). lia.
Qed.

Lemma validate_quantities_Ok l :
  validate_quantities l = Ok tt → ∀ r d, (r, d) ∈ l → py_blank r = false ∧ 0 ≤ dec_units d.
Proof.
  induction l as [|[r d] l IH]; simpl; [set_solver|].
  destruct (py_blank r) eqn:Hb; [done|]. destruct (_ <? 0) eqn:Hd; [done|].
  intros H r' d' [[= -> ->]|Hin]%elem_of_cons; [split; [done|lia]|by apply (IH H)].
Qed.

Lemma account_view_Ok m v : account_view m = Ok v → validate_quantities (acc_limits m) = Ok tt.
Proof.
  unfold account_view, make_BudgetLimits. intros H.
  apply result_bind_Ok in H as (l&H&_). by apply result_bind_Ok in H as ([]&H&_).
Qed.

Lemma limit_of_insert db m r a :
  limit_of (set_accounts <[acc_account_id m := m]> db) a r =
  if decide (acc_account_id m = a) then default 0 (dec_units <$> dict_get r (acc_limits m))
  else limit_of db a r.
Proof. unfold limit_of. simpl. rewrite lookup_insert. by case_decide. Qed.

(** Writing an account keeps the invariant when its limits cover what is already taken. *)
Lemma inv_set_account m db :
  budget_inv db → validate_quantities (acc_limits m) = Ok tt →
  (∀ r, spent db (acc_account_id m) r ≤ default 0 (dec_units <$> dict_get r (acc_limits m))) →
  budget_inv (set_accounts <[acc_account_id m := m]> db).
Proof.
  intros [Hkey Hlim Hids Hacc Ham Hgr Huniq Hsol] Hv Hs.
  constructor; simpl; try done.
  - intros a acc. rewrite lookup_insert_Some. naive_solver.
  - intros a acc. rewrite lookup_insert_Some. naive_solver.
  - intros row Hrow. apply lookup_insert_is_Some'. auto.
  - intros a r. rewrite limit_of_insert. case_decide as Ha; [rewrite <-Ha; apply Hs|apply Hsol].
Qed.

Lemma spent_no_account db a r : budget_inv db → accounts db !! a = None → spent db a r = 0.
Proof.
  intros Hinv Ha. apply sumZ_zero. intros row Hrow. unfold row_of.
  destruct (inv_account db Hinv row Hrow) as [acc Hacc].
  rewrite bool_decide_eq_false_2; [done|]. intros <-. congruence.
Qed.

Lemma check_parent_Ok limits p db u db' : check_parent limits p db = (Ok u, db') → db' = db.
Proof.
  unfold check_parent. intros H. prog_inv H.
  destruct (snapshot_run _ _ _ Hreq) as (snap&Hs&_). congruence.
Qed.

Lemma inv_create now a limits t p db v db' :
  budget_inv db → NoDup (quantities limits).*1 →
  create_account uuid5_url now a limits t p db = (Ok v, db') → budget_inv db'.
Proof.
  intros Hinv Hnd H. unfold create_account in H. prog_inv H.
  destruct (accounts db !! a) as [existing|] eqn:Hex; [by prog_inv H|].
  apply bind_Ok in H as (u&db1&Hpar&H).
  assert (db1 = db) as -> by (destruct p; simpl in *; [by eapply check_parent_Ok|by prog_inv Hpar]).
  set (m := mkBudgetAccountModel _ _ _ _ _ _ _) in *.
  apply bind_Ok in H as ([]&db1&Hmod&H). apply modify_Ok in Hmod as ->.
  apply bind_Ok in H as ([]&db2&Hres&H). apply lift_Ok in H as [Hv ->].
  assert (budget_inv (set_accounts <[a := m]> db)) as Hinv1.
  { apply (inv_set_account m); [done|by eapply account_view_Ok|]. intros r.
    rewrite spent_no_account by done. apply account_view_Ok in Hv.
    destruct (dict_get r (acc_limits m)) as [d|] eqn:Hd; simpl; [|done].
    apply dict_get_Some_elem in Hd. by eapply validate_quantities_Ok. }
  destruct p as [p|]; [|by prog_inv Hres]. destruct (bool_decide _) in Hres; [by prog_inv Hres|].
  apply bind_Ok in Hres as (grp&db3&Hres&Hret). prog_inv Hret.
  eapply inv_reserve; [exact Hinv1| |exact Hres].
  by rewrite <-list_fmap_compose.
Qed.

Lemma commit_accounts now a g consumed o db : accounts (commit now a g consumed o db).2 = accounts db.
Proof.
  apply (preserves_wp (λ s, accounts s = accounts db)); [|done]. intros s Hs. unfold commit, lock_group.
  wp_go; done.
Qed.

Lemma inv_close now a db v db' :
  budget_inv db → close_child_account now a db = (Ok v, db') → budget_inv db'.
Proof.
  intros Hinv H. unfold close_child_account in H. prog_inv H.
  destruct (bool_decide _) in H; [by prog_inv H|]. prog_inv H.
  destruct (snapshot_run _ _ _ Hreq) as (snap&Hs&_). rewrite Hrun in Hs. injection Hs as -> ->.
  pose proof (inv_commit _ _ _ _ _ _ _ _ Hinv Hrun0) as Hinv1.
  pose proof (commit_accounts now v1 (child_group a) (snap_committed snap) true db) as Hacc.
  rewrite Hrun0 in Hacc. simpl in Hacc.
  rewrite <-(inv_key db Hinv a v0 Hreq) at 1.
  change (acc_account_id v0) with (acc_account_id (set_closed now v0)).
  apply inv_set_account; [done|by eapply account_view_Ok|]. intros r. simpl.
  pose proof (inv_solvent _ Hinv1 a r) as Hle. unfold limit_of in Hle.
  rewrite Hacc, Hreq in Hle. by rewrite (inv_key db Hinv a v0 Hreq).
Qed.
(** *** Committed rows *)

Lemma commit_rows_true_committed now consumed o before todo rows :
  commit_rows now consumed o before todo = (Ok true, rows) → ∀ r, r ∈ rows → res_status r = COMMITTED.
Proof.
  revert before. induction todo as [|m rest IH]; intros before H; simpl in H; [done|].
  case_bool_decide.
  - destruct (_ && _) eqn:Hall in H; [|done]. injection H as <-. apply andb_true_iff in Hall as [Hall _].
    intros r Hr%list_elem_of_In. apply (proj1 (forallb_forall _ _) Hall) in Hr. by apply bool_decide_eq_true in Hr.
  - destruct (_ || _) in H; [done|]. by eapply IH.
Qed.

(** A returning [commit] leaves the group committed, and there is a group. *)
Lemma commit_committed now a g consumed o db grp db' :
  budget_inv db → commit now a g consumed o db = (Ok grp, db') →
  ∃ row, row ∈ reservations db' ∧ in_group a g row ∧ res_status row = COMMITTED.
Proof.
  intros Hinv H. destruct (commit_Ok _ _ _ _ _ _ _ _ Hinv H) as [(Hdb&Hgrp&_)|(_&Hne&_&->&_)].
  - rewrite Hdb. clear Hdb. unfold commit, lock_group in H. prog_inv H. set (models := merge_sort resource_le _) in *.
    assert (∀ x, x ∈ models ↔ in_group a g x ∧ x ∈ reservations db) as Hmem.
    { intros x. unfold models. by rewrite merge_sort_Permutation, list_elem_of_filter. }
    destruct (commit_rows _ _ _ _ _) as [outcome rows] eqn:Hrows. prog_inv H. simpl in Hgrp.
    rewrite Hgrp in Hrows. pose proof (commit_rows_true_committed _ _ _ _ _ _ Hrows) as Hall.
    assert (rows = models) as ->.
    { apply commit_rows_true in Hrows as [-> _]; [done|]. intros x y [Hx Hx']%Hmem [Hy Hy']%Hmem.
      apply (inv_group db Hinv); try done. by apply (in_group_same a g). }
    guards. destruct models as [|m l]; [done|]. destruct (proj1 (Hmem m) (list_elem_of_here _ _)).
    exists m. split; [done|]. split; [done|]. apply Hall, list_elem_of_here.
  - destruct (merge_sort _ _) as [|m l] eqn:Hs; [done|].
    assert (m ∈ merge_sort resource_le (filter (λ r, in_group a g r) (reservations db))) as Hm
      by (rewrite Hs; apply list_elem_of_here).
    rewrite merge_sort_Permutation, list_elem_of_filter in Hm. destruct Hm as [Hg Hm].
    exists (commit_row now consumed m). split; [|done]. apply elem_of_update_where. exists m.
    split; [done|]. by destruct (in_group a g m).
Qed.

Lemma commit_keeps_committed now a g consumed o db grp db' row :
  budget_inv db → row ∈ reservations db → res_status row = COMMITTED →
  commit now a g consumed o db = (Ok grp, db') → row ∈ reservations db'.
Proof.
  intros Hinv Hrow Hst H. destruct (commit_Ok _ _ _ _ _ _ _ _ Hinv H) as [(->&_)|(_&_&_&->&Hall)]; [done|].
  apply elem_of_update_where. exists row. split; [done|].
  destruct (in_group a g row) eqn:Hg; [|done].
  destruct (Hall row Hrow ltac:(by rewrite Hg)) as [? _]. congruence.
Qed.

Lemma reserve_keeps_rows now a g q c db grp db' row :
  row ∈ reservations db → reserve uuid5_url now a g q c db = (Ok grp, db') → row ∈ reservations db'.
Proof.
  intros Hrow H. destruct (reserve_Ok _ _ _ _ _ _ _ _ _ H) as [[-> _]|(_&_&_&_&_&_&_&->)]; [done|].
  apply elem_of_app. by left.
Qed.

(** No call changes or removes a committed row. *)
Lemma committed_stable op db row :
  budget_inv db → row ∈ reservations db → res_status row = COMMITTED → row ∈ reservations (run_op uuid5_url op db).
Proof.
  intros Hinv Hrow Hst.
  destruct op as [now a l t p|now a g q c|now a g q o|now a g|now a]; simpl;
    match goal with |- context [atomic ?m db] => destruct (atomic_cases m db) as [(v&s'&H&->)|(e&s'&_&->)] end;
    simpl; try done.
  - unfold create_account in H. prog_inv H. destruct (accounts db !! a); [by prog_inv H|].
    apply bind_Ok in H as (u&db1&Hpar&H).
    assert (db1 = db) as -> by (destruct p; simpl in *; [by eapply check_parent_Ok|by prog_inv Hpar]).
    apply bind_Ok in H as ([]&db1&Hmod&H). apply modify_Ok in Hmod as ->.
    apply bind_Ok in H as ([]&db2&Hres&H). apply lift_Ok in H as [_ ->].
    destruct p as [p|]; [|by prog_inv Hres]. destruct (bool_decide _) in Hres; [by prog_inv Hres|].
    apply bind_Ok in Hres as (grp&db3&Hres&Hret). prog_inv Hret. by eapply reserve_keeps_rows in Hres.
  - by eapply reserve_keeps_rows.
  - by eapply commit_keeps_committed.
  - destruct (release_Ok _ _ _ _ _ _ Hinv H) as [[-> _]|(_&->&Hall)]; [done|].
    apply elem_of_update_where. exists row. split; [done|]. destruct (in_group a g row) eqn:Hg; [|done].
    specialize (Hall row Hrow ltac:(by rewrite Hg)). congruence.
  - unfold close_child_account in H. prog_inv H. destruct (bool_decide _) in H; [by prog_inv H|]. prog_inv H.
    destruct (snapshot_run _ _ _ Hreq) as (snap&Hs&_). rewrite Hrun in Hs. injection Hs as -> ->. simpl.
    eapply commit_keeps_committed; [exact Hinv|done|done|exact Hrun0].
Qed.
End invariant.

(** ** Properties *)

(** Dicts have distinct keys. *)
Definition op_wf (op : budget_op) : Prop :=
  match op with
  | OpCreate _ _ limits _ _ => NoDup (quantities limits).*1
  | OpReserve _ _ _ requested _ => NoDup requested.*1
  | _ => True
  end.

#[export] Instance op_wf_dec op : Decision (op_wf op).
Proof. destruct op; simpl; apply _. Defined.

Lemma inv_empty : budget_inv empty_db.
Proof.
  constructor; simpl; try (intros ?; set_solver); try constructor; try set_solver.
Qed.

Lemma inv_run_op uuid5_url op db : op_wf op → budget_inv db → budget_inv (run_op uuid5_url op db).
Proof.
  intros Hwf Hdb. destruct op as [now a l t p|now a g q c|now a g q o|now a g|now a];
    refine (preserves_atomic_Ok budget_inv _ _ db Hdb); intros s v s' Hs Hrun.
  - by eapply inv_create.
  - by eapply inv_reserve.
  - by eapply inv_commit.
  - by eapply inv_release.
  - by eapply inv_close.
Qed.

Lemma inv_history uuid5_url ops db :
  Forall op_wf ops → budget_inv db → budget_inv (foldl (flip (run_op uuid5_url)) db ops).
Proof.
  revert db; induction ops as [|op ops IH]; simpl; [done|]. intros db [Hop Hops]%Forall_cons Hdb.
  apply IH; [done|]. by apply inv_run_op.
Qed.

(** C1.  In every history of the ledger (accounts created, quantities reserved, committed with or
    without overrun, released, child accounts closed, calls that raise rolled back), the open
    reservations and the committed spend of a resource of an account never exceed the account's
    limit by more than what was committed past its own reservation. *)
Theorem ledger_within_limits (uuid5_url : string → string) (ops : list budget_op) (a r : string) :
  Forall op_wf ops →
  let db := foldl (flip (run_op uuid5_url)) empty_db ops in
  reserved_of db a r + committed_of db a r ≤ limit_of db a r + overrun_of db a r.
Proof.
  intros Hops. simpl.
  pose proof (inv_solvent _ (inv_history uuid5_url ops _ Hops inv_empty) a r) as H.
  rewrite spent_eq in H. lia.
Qed.

Definition sample_limits : BudgetLimits :=
  mkBudgetLimits [("tool_calls"%string, mkDecimal 5000000 0); ("model_tokens"%string, mkDecimal 9000000 0)].

Definition sample_ops : list budget_op :=
  [ OpCreate 1 "root" sample_limits None None;
    OpReserve 2 "root" "call-1" [("tool_calls"%string, 2000000)] None;
    OpCommit 3 "root" "call-1" {["tool_calls"%string := 1000000]} false;
    OpReserve 4 "root" "call-2" [("tool_calls"%string, 4500000)] None ].

Lemma ledger_within_limits_witness :
  let db := foldl (flip (run_op id)) empty_db sample_ops in
  committed_of db "root" "tool_calls" = 1000000 ∧ reserved_of db "root" "tool_calls" = 0 ∧
  reserved_of db "root" "tool_calls" + committed_of db "root" "tool_calls"
    ≤ limit_of db "root" "tool_calls" + overrun_of db "root" "tool_calls".
Proof.
  split; [vm_compute; reflexivity|]. split; [vm_compute; reflexivity|].
  apply (ledger_within_limits id sample_ops "root" "tool_calls").
  by_decide.
Defined.

Lemma amounts_new_rows uuid5_url now a g c q db a' r :
  NoDup q.*1 →
  let db' := set_reservations (λ l, l ++ (new_reservation uuid5_url now a g c <$> merge_sort key_le q)) db in
  reserved_of db' a' r = reserved_of db a' r + (if decide (a = a') then default 0 (dict_get r q) else 0) ∧
  committed_of db' a' r = committed_of db a' r.
Proof.
  intros Hnd. unfold reserved_of, committed_of, amount_in. simpl. rewrite !sumZ_app. split.
  - f_equal. rewrite <-(spent_new_rows uuid5_url now a g c q a' r Hnd). apply sumZ_ext.
    intros row (rx&_&->)%elem_of_new_rows. unfold has_status, contribution. simpl.
    by rewrite andb_true_r.
  - rewrite (sumZ_zero _ (_ <$> _)); [lia|]. intros row (rx&_&->)%elem_of_new_rows.
    unfold has_status. simpl. by rewrite andb_false_r.
Qed.

Lemma amount_in_nonneg st f db a r :
  (∀ row, row ∈ reservations db → 0 ≤ f row) → 0 ≤ amount_in st f db a r.
Proof. intros H. apply sumZ_nonneg. intros row Hrow. specialize (H row Hrow). by destruct (_ && _). Qed.

Lemma used_nonneg db a r : budget_inv db → 0 ≤ reserved_of db a r + committed_of db a r.
Proof.
  intros Hinv. apply Z.add_nonneg_nonneg; apply amount_in_nonneg; intros row Hrow;
    pose proof (inv_amounts _ Hinv row Hrow); lia.
Qed.

Lemma check_remaining_Err remaining q e :
  check_remaining remaining q = Err e →
  ∃ r x, (r, x) ∈ q ∧ default 0 (remaining !! r) < x ∧
    e = BudgetExceeded r x (default 0 (remaining !! r)).
Proof.
  induction q as [|[r x] q IH]; simpl; [done|]. destruct (_ <? x) eqn:E.
  - intros [= <-]. exists r, x. split_and!; [set_solver|lia|done].
  - intros (r'&x'&Hin&H)%IH. exists r', x'. set_solver.
Qed.

(** C2.  [reserve] of a new group on an active account decides exactly on what is left: when every
    requested amount fits in limit minus open reservations minus committed spend, the group is
    recorded, the open reservations grow by the request and nothing else changes; when one does not
    fit, [BudgetExceeded] names such a resource with what is left of it, and nothing is recorded. *)
Theorem reserve_decision (uuid5_url : string → string) now a g q c db acc :
  budget_inv db →
  accounts db !! a = Some acc → acc_status acc = "active"%string →
  q ≠ [] → NoDup q.*1 → (∀ r x, (r, x) ∈ q → 0 < x) →
  filter (λ row, in_group a g row) (reservations db) = [] →
  NoDup (res_reservation_id <$>
         (new_reservation uuid5_url now a g c <$> merge_sort key_le q) ++ reservations db) →
  let left r := Z.max 0 (limit_of db a r - reserved_of db a r - committed_of db a r) in
  ((∀ r x, (r, x) ∈ q → x ≤ left r) →
   ∃ grp db', reserve uuid5_url now a g q c db = (Ok grp, db') ∧ grp_replay grp = false ∧
     accounts db' = accounts db ∧
     ∀ a' r, committed_of db' a' r = committed_of db a' r ∧
       reserved_of db' a' r = reserved_of db a' r +
         (if decide (a = a') then default 0 (dict_get r q) else 0)) ∧
  ((∃ r x, (r, x) ∈ q ∧ left r < x) →
   ∃ r x, (r, x) ∈ q ∧ left r < x ∧
     reserve uuid5_url now a g q c db = (Err (BudgetExceeded r x (left r)), db)).
Proof.
  intros Hinv Hacc Hact Hne Hnd Hpos Hnew Hids left.
  destruct (snapshot_run db a acc Hacc) as (snap&Hsnap&_&_&_&_&Hrem).
  assert (∀ r, default 0 (snap_remaining snap !! r) = left r) as Hleft.
  { intros r. rewrite Hrem. unfold left, limit_of. rewrite Hacc. simpl.
    pose proof (used_nonneg db a r Hinv). destruct (dict_get r (acc_limits acc)); simpl; lia. }
  assert (Hrun : reserve uuid5_url now a g q c db =
    match check_remaining (snap_remaining snap) q with
    | Ok _ => (Ok (mkBudgetReservationGroup g a (reservation_view <$>
          (new_reservation uuid5_url now a g c <$> merge_sort key_le q)) false),
        set_reservations (λ l, l ++ (new_reservation uuid5_url now a g c <$> merge_sort key_le q)) db)
    | Err e => (Err e, db)
    end).
  { unfold reserve, add_reservations. run_step. rewrite bool_decide_eq_false_2 by done.
    assert (existsb (λ rq, rq.2 <=? 0) q = false) as ->.
    { apply not_true_iff_false. intros ([r x]&Hin&Hx)%existsb_exists.
      apply list_elem_of_In, Hpos in Hin. simpl in Hx. lia. }
    rewrite Hacc, Hact, bool_decide_eq_false_2 by (intros []; done).
    rewrite Hnew, bool_decide_eq_false_2, Hsnap by (intros []; done).
    destruct (check_remaining _ _); [|done].
    by rewrite bool_decide_eq_true_2. }
  split.
  - intros Hfit. destruct (check_remaining _ _) as [u|e] eqn:Hc.
    + eexists _, _. split; [exact Hrun|]. split_and!; [done..|]. intros a' r.
      destruct (amounts_new_rows uuid5_url now a g c q db a' r Hnd). done.
    + exfalso. destruct (check_remaining_Err _ _ _ Hc) as (r&x&Hin&Hlt&_).
      rewrite Hleft in Hlt. specialize (Hfit r x Hin). lia.
  - intros (r&x&Hin&Hlt). destruct (check_remaining _ _) as [u|e] eqn:Hc.
    + exfalso. pose proof (check_remaining_Ok _ _ _ Hc r x Hin). rewrite Hleft in *. lia.
    + destruct (check_remaining_Err _ _ _ Hc) as (r'&x'&Hin'&Hlt'&->).
      rewrite Hleft in *. exists r', x'. done.
Qed.

Definition sample_db : BudgetDB := foldl (flip (run_op id)) empty_db (take 3 sample_ops).

Lemma sample_db_inv : budget_inv sample_db.
Proof. apply inv_history; [|apply inv_empty]. by_decide. Qed.

Lemma reserve_decision_witness :
  ∃ grp db', reserve id 5 "root" "call-3" [("tool_calls"%string, 4000000)] None sample_db = (Ok grp, db').
Proof.
  destruct (accounts sample_db !! "root"%string) as [acc|] eqn:Hacc; [|vm_compute in Hacc; discriminate].
  refine (match proj1 (reserve_decision id 5 "root" "call-3" [("tool_calls"%string, 4000000)] None
    sample_db acc sample_db_inv Hacc _ _ _ _ _ _) _ with
    ex_intro _ grp (ex_intro _ db' (conj H _)) => ex_intro _ grp (ex_intro _ db' H) end).
  - vm_compute in Hacc. by injection Hacc as <-.
  - done.
  - by_decide.
  - intros r x Hin%list_elem_of_singleton. by injection Hin as -> ->.
  - by vm_compute.
  - by_decide.
  - intros r x Hin%list_elem_of_singleton. injection Hin as -> ->. by vm_compute.
Defined.

Lemma dict_of_perm l1 l2 : NoDup l1.*1 → l1 ≡ₚ l2 → dict_of l1 = dict_of l2.
Proof. intros. by apply list_to_map_proper. Qed.

Lemma filter_group_new uuid5_url now a g c q (l : list BudgetReservationModel) :
  filter (λ row, in_group a g row) l = [] →
  filter (λ row, in_group a g row) (l ++ (new_reservation uuid5_url now a g c <$> q)) =
  new_reservation uuid5_url now a g c <$> q.
Proof.
  intros Hl. rewrite filter_app, Hl. simpl. induction q as [|rx q IH]; csimpl; [done|].
  rewrite filter_cons, decide_True by (unfold in_group; simpl; by rewrite !bool_decide_eq_true_2).
  by rewrite IH.
Qed.

(** [reserve] is idempotent: once it has returned, the same request for the same group returns
    the same reservations, marked as a replay, and leaves the ledger as it is, at any later time. *)
Theorem reserve_replay (uuid5_url : string → string) now now' a g q c db grp db' :
  NoDup q.*1 →
  reserve uuid5_url now a g q c db = (Ok grp, db') →
  reserve uuid5_url now' a g q c db' =
    (Ok (mkBudgetReservationGroup g a (grp_reservations grp) true), db').
Proof.
  intros Hnd H. pose proof H as Hrun. unfold reserve in H. prog_inv H.
  destruct (bool_decide (_ ≠ [])) eqn:Hex in H.
  - prog_inv H. unfold reserve. run_step. rewrite Hcheck, Hcheck0, Hreq, Hcheck1, Hex.
    by rewrite Hcheck2.
  - prog_inv H. guards. unfold add_reservations in Hrun1. prog_inv Hrun1.
    destruct (snapshot_run _ _ _ Hreq) as (snap&Hs&_). rewrite Hrun0 in Hs. injection Hs as -> ->.
    unfold reserve. run_step. simpl.
    rewrite bool_decide_eq_false_2, Hcheck0 by done. unfold set_reservations; simpl. rewrite Hreq. simpl.
    rewrite (bool_decide_eq_false_2 (acc_status _ ≠ _)) by (intros []; done).
    rewrite filter_group_new by done.
    assert (merge_sort key_le q ≡ₚ q) as Hp by apply merge_sort_Permutation.
    rewrite bool_decide_eq_true_2.
    2: { intros Hnil%fmap_nil_inv. rewrite Hnil in Hp. by apply Permutation_nil_l in Hp. }
    rewrite bool_decide_eq_false_2, bool_decide_eq_false_2; [done| |].
    + intros []. apply set_eq. intros o. rewrite elem_of_list_to_set, elem_of_singleton.
      rewrite <-list_fmap_compose, list_elem_of_fmap. simpl. split; [naive_solver|].
      intros ->. destruct q as [|rx q]; [done|]. exists rx. rewrite Hp. set_solver.
    + intros []. rewrite <-list_fmap_compose. symmetry. apply dict_of_perm; [done|].
      rewrite Hp. simpl. rewrite (list_fmap_ext _ id), list_fmap_id; [done|]. by intros ? [] ?.
Qed.

Lemma reserve_replay_witness :
  reserve id 9 "root" "call-3" [("tool_calls"%string, 4000000)] None
    (reserve id 5 "root" "call-3" [("tool_calls"%string, 4000000)] None sample_db).2 =
  (Ok (mkBudgetReservationGroup "call-3" "root"
     [mkBudgetReservation "secfusion:budget-reservation:root:call-3:tool_calls" "root" "tool_calls"
        4000000 0 RESERVED] true),
   (reserve id 5 "root" "call-3" [("tool_calls"%string, 4000000)] None sample_db).2).
Proof.
  destruct (reserve id 5 "root" "call-3" [("tool_calls"%string, 4000000)] None sample_db)
    as [r db'] eqn:Hrun.
  assert (Hr : r = Ok (mkBudgetReservationGroup "call-3" "root"
    [mkBudgetReservation "secfusion:budget-reservation:root:call-3:tool_calls" "root" "tool_calls"
      4000000 0 RESERVED] false)).
  { change r with ((r, db').1). rewrite <-Hrun. by vm_compute. }
  rewrite Hr in Hrun. simpl.
  refine (reserve_replay id 5 9 "root" "call-3" _ None sample_db _ db' _ Hrun). by_decide.
Defined.

(** ** Replay of commits, settlement of child accounts *)

Lemma filter_update_where_group a g f (l : list BudgetReservationModel) :
  (∀ x, in_group a g (f x) = in_group a g x) →
  filter (λ r, in_group a g r) (update_where (in_group a g) f l) =
  f <$> filter (λ r, in_group a g r) l.
Proof.
  intros Hf. unfold update_where. induction l as [|x l IH]; csimpl; [done|].
  destruct (in_group a g x) eqn:E.
  - rewrite !filter_cons_True by (rewrite ?Hf; by rewrite E). csimpl. by rewrite IH.
  - rewrite !filter_cons_False by (rewrite E; auto). done.
Qed.

(** Sorting the committed rows by resource is committing the sorted rows. *)
Lemma sort_commit_rows now consumed a g db :
  budget_inv db →
  let rows := filter (λ r, in_group a g r) (reservations db) in
  merge_sort resource_le (commit_row now consumed <$> rows) =
  commit_row now consumed <$> merge_sort resource_le rows.
Proof.
  intros Hinv rows.
  assert (Transitive resource_le) by (intros x y z; unfold resource_le; apply transitivity).
  assert (Total resource_le) by (intros x y; unfold resource_le; apply total; apply _).
  apply (StronglySorted_unique_strong resource_le).
  - intros x1 x2 Hx1 Hx2 Hle1 Hle2.
    rewrite merge_sort_Permutation in Hx1.
    apply list_elem_of_fmap in Hx1 as (y1&->&[Hg1 Hy1]%list_elem_of_filter).
    apply list_elem_of_fmap in Hx2 as (y2&->&Hy2). rewrite merge_sort_Permutation in Hy2.
    apply list_elem_of_filter in Hy2 as [Hg2 Hy2].
    destruct (in_group_same _ _ _ _ Hg1 Hg2) as [Ha Hg].
    f_equal. apply (NoDup_fmap_eq row_key (reservations db)); [apply Hinv|done..|].
    unfold row_key. rewrite Ha, Hg. f_equal. by apply (anti_symm String.le).
  - by apply StronglySorted_merge_sort.
  - pose proof (StronglySorted_merge_sort resource_le rows) as Hs.
    clear -Hs. induction Hs as [|x l Hs IH Hall]; csimpl; constructor; [done|].
    by rewrite Forall_fmap.
  - by rewrite !merge_sort_Permutation.
Qed.

Lemma commit_rows_committed now consumed o rows :
  rows ≠ [] → (∀ x, x ∈ rows → res_status x = COMMITTED) →
  (∀ r amount, consumed !! r = Some amount →
     default 0 (dict_get r ((λ x, (res_resource_type x, res_amount_committed x)) <$> rows)) = amount) →
  commit_rows now consumed o [] rows = (Ok true, rows).
Proof.
  intros Hne Hall Hprior. destruct rows as [|m rows]; [done|]. cbn [commit_rows app].
  rewrite bool_decide_eq_true_2 by (rewrite Hall; [done|set_solver]).
  rewrite (proj2 (forallb_forall (has_status COMMITTED) _)).
  2: { intros x Hx%list_elem_of_In. apply bool_decide_eq_true_2. by apply Hall. }
  rewrite (proj2 (forallb_forall _ _)); [done|].
  intros [r amount] Hin%list_elem_of_In%elem_of_map_to_list.
  apply Z.eqb_eq. rewrite dict_of_lookup. by apply Hprior.
Qed.

(** [commit] is idempotent: after it has returned, committing the same amounts for the same
    group returns the same rows, marked as a replay, whatever the overrun flag, and changes
    nothing. *)
Theorem commit_replay now now' a g consumed o o' db grp db' :
  budget_inv db →
  commit now a g consumed o db = (Ok grp, db') → grp_replay grp = false →
  commit now' a g consumed o' db' =
    (Ok (mkBudgetReservationGroup g a (grp_reservations grp) true), db').
Proof.
  intros Hinv H Hnew. pose proof (inv_commit _ _ _ _ _ _ _ _ Hinv H) as Hinv'.
  destruct (commit_Ok _ _ _ _ _ _ _ _ Hinv H) as [(_&?&_)|(->&Hne&Hdom&->&_)]; [congruence|].
  simpl in *. set (sorted := merge_sort resource_le _) in *.
  assert (Hsort : merge_sort resource_le (filter (λ r, in_group a g r)
    (update_where (in_group a g) (commit_row now consumed) (reservations db))) =
    commit_row now consumed <$> sorted).
  { rewrite filter_update_where_group by done. by apply sort_commit_rows. }
  unfold commit, lock_group. run_step. simpl. rewrite Hsort.
  rewrite bool_decide_eq_false_2 by (by intros ?%fmap_nil_inv).
  rewrite bool_decide_eq_true_2 by (by rewrite <-list_fmap_compose). simpl.
  rewrite commit_rows_committed; [..|by intros ?%fmap_nil_inv|by intros x (y&->&_)%list_elem_of_fmap|].
  2: { intros r amount Hin. assert (r ∈ res_resource_type <$> sorted) as Hr.
       { apply elem_of_dom_2, Hdom in Hin. by apply elem_of_list_to_set in Hin. }
       revert Hr. generalize sorted as rows. clear -Hin.
       induction rows as [|x rows IH]; csimpl; [set_solver|]. intros Hr.
       case_decide as E; simpl; [by rewrite <-E, Hin|]. apply IH. set_solver. }
  f_equal. apply (set_write_back_id (in_group a g)); [apply Hinv'|].
  rewrite <-Hsort. apply merge_sort_Permutation.
Qed.

Definition sample_reserved : BudgetDB :=
  foldl (flip (run_op id)) empty_db (take 2 sample_ops).

Lemma commit_replay_witness :
  let db' := (commit 3 "root" "call-1" {["tool_calls"%string := 1000000]} false sample_reserved).2 in
  (commit 8 "root" "call-1" {["tool_calls"%string := 1000000]} true db').2 = db'.
Proof.
  destruct (commit 3 "root" "call-1" {["tool_calls"%string := 1000000]} false sample_reserved)
    as [r db'] eqn:Hrun. simpl.
  destruct r as [grp|e]; [|apply (f_equal fst) in Hrun; vm_compute in Hrun; discriminate].
  assert (Hinv : budget_inv sample_reserved) by (apply inv_history; [by_decide|apply inv_empty]).
  assert (Hnew : grp_replay grp = false).
  { apply (f_equal fst) in Hrun. vm_compute in Hrun. by injection Hrun as <-. }
  rewrite (commit_replay 3 8 "root" "call-1" _ false true sample_reserved grp db' Hinv Hrun Hnew).
  reflexivity.
Defined.

(** The allocation a group of the account holds of a resource. *)
Definition in_group_resource (a g r : string) (row : BudgetReservationModel) : bool :=
  in_group a g row && bool_decide (res_resource_type row = r).
Definition allocated (db : BudgetDB) (a g r : string) : Z :=
  sumZ (λ row, if in_group_resource a g r row then res_amount_reserved row else 0) (reservations db).

(** A group has at most one row of a resource. *)
Lemma sumZ_group_resource a g r k l :
  NoDup (row_key <$> l) → (k ≠ 0 → ∃ row, row ∈ l ∧ in_group_resource a g r row) →
  sumZ (λ row, if in_group_resource a g r row then k else 0) l = k.
Proof.
  assert (∀ row, in_group_resource a g r row ↔ row_key row = (a, g, r)) as Hkey.
  { intros row. unfold in_group_resource, in_group, row_key.
    rewrite !andb_True, !bool_decide_spec. naive_solver. }
  induction l as [|x l IH]; csimpl.
  { intros _ H. destruct (decide (k = 0)) as [->|Hk]; [done|]. destruct (H Hk). set_solver. }
  intros [Hx Hnd]%NoDup_cons H. destruct (in_group_resource a g r x) eqn:E.
  - rewrite sumZ_zero; [lia|]. intros y Hy. destruct (in_group_resource a g r y) eqn:Ey; [|done].
    destruct Hx. apply Is_true_true, Hkey in E, Ey. rewrite E, <-Ey. by apply list_elem_of_fmap_2.
  - rewrite IH; [done|done|]. intros Hk. destruct (H Hk) as (row&[->|Hrow]%elem_of_cons&Hr); [|eauto].
    by rewrite E in Hr.
Qed.

(** What a returning [commit] of an open group does to the ledger. *)
Lemma commit_amounts now a g consumed o db grp db' :
  budget_inv db → commit now a g consumed o db = (Ok grp, db') → grp_replay grp = false →
  ∀ r, committed_of db' a r = committed_of db a r + default 0 (consumed !! r) ∧
       reserved_of db' a r = reserved_of db a r - allocated db a g r.
Proof.
  intros Hinv H Hnew r.
  destruct (commit_Ok _ _ _ _ _ _ _ _ Hinv H) as [(_&?&_)|(_&_&Hdom&->&Hall)]; [congruence|].
  unfold committed_of, reserved_of, amount_in, allocated. simpl. rewrite !sumZ_update_where. split.
  - rewrite <-(sumZ_group_resource a g r (default 0 (consumed !! r)) (reservations db));
      [|apply Hinv|].
    + rewrite <-sumZ_plus. apply sumZ_ext. intros x Hx. specialize (Hall x Hx).
      unfold in_group_resource, in_group, row_of, has_status in *. simpl.
      repeat case_bool_decide; simplify_eq/=; try done; try lia; (destruct Hall; [done|congruence]).
    + intros Hk. destruct (consumed !! r) as [x|] eqn:Hr; [|done].
      apply elem_of_dom_2, Hdom, elem_of_list_to_set, list_elem_of_fmap in Hr as (row&->&Hrow).
      rewrite merge_sort_Permutation in Hrow. apply list_elem_of_filter in Hrow as [Hg Hrow].
      exists row. split; [done|]. apply andb_True. split; [done|by apply bool_decide_spec].
  - match goal with |- ?A = ?B - ?C => enough (A + C = B) by lia end.
    rewrite <-sumZ_plus. apply sumZ_ext. intros x Hx. specialize (Hall x Hx).
    unfold in_group_resource, in_group, row_of, has_status in *. simpl.
    repeat case_bool_decide; simpl in *; try done; try lia; destruct Hall; done.
Qed.

(** C3.  Closing a child account settles it against its parent: the parent's committed spend of
    every resource grows by exactly what the child has committed (also past the allocation), the
    whole allocation leaves the parent's open reservations, and the closed child refuses every
    further reservation. *)
Theorem close_child_settles (uuid5_url : string → string) now c p child row v db db' :
  budget_inv db →
  accounts db !! c = Some child → acc_parent_account_id child = Some p →
  acc_status child ≠ "closed"%string →
  row ∈ reservations db → in_group p (child_group c) row → res_status row = RESERVED →
  close_child_account now c db = (Ok v, db') →
  (∀ r, committed_of db' p r = committed_of db p r + committed_of db c r ∧
        reserved_of db' p r = reserved_of db p r - allocated db p (child_group c) r) ∧
  acc_status <$> (accounts db' !! c) = Some "closed"%string ∧
  ∀ now' g q ch, (reserve uuid5_url now' c g q ch db').2 = db' ∧
    is_ok (reserve uuid5_url now' c g q ch db').1 = false.
Proof.
  intros Hinv Hc Hp Hopen Hrow Hg Hst H. unfold close_child_account in H. prog_inv H.
  rewrite Hc in Hreq. injection Hreq as <-. rewrite Hp in Hreq0. injection Hreq0 as <-.
  rewrite bool_decide_eq_false_2 in H by done. prog_inv H.
  destruct (snapshot_run _ _ _ Hc) as (snap&Hs&_&_&_&Hcom&_). rewrite Hrun in Hs. injection Hs as -> ->.
  match type of Hrun0 with _ = (Ok ?g, _) => rename g into grp end.
  assert (grp_replay grp = false) as Hnew.
  { destruct (commit_Ok _ _ _ _ _ _ _ _ Hinv Hrun0) as [(_&_&Hno)|(->&_)]; [|done].
    by destruct (Hno row). }
  split_and!.
  - intros r. rewrite <-Hcom. exact (commit_amounts _ _ _ _ _ _ _ _ Hinv Hrun0 Hnew r).
  - simpl. by rewrite lookup_insert_eq.
  - intros now' g q ch. unfold reserve. run_step.
    destruct (bool_decide (q = [])); [done|]. destruct (existsb _ _); [done|]. simpl.
    rewrite lookup_insert_eq. by rewrite bool_decide_eq_true_2.
Qed.

Definition sample_child_ops : list budget_op :=
  [ OpCreate 1 "root" sample_limits None None;
    OpCreate 2 "child" (mkBudgetLimits [("tool_calls"%string, mkDecimal 3000000 0)]) None (Some "root"%string);
    OpReserve 3 "child" "call-1" [("tool_calls"%string, 2000000)] None;
    OpCommit 4 "child" "call-1" {["tool_calls"%string := 4000000]} true ].

Definition sample_child_db : BudgetDB := foldl (flip (run_op id)) empty_db sample_child_ops.

(** The child spends 4 of the 3 calls allotted to it: closing it charges 4 to the parent. *)
Lemma close_child_settles_witness :
  let db' := (close_child_account 9 "child" sample_child_db).2 in
  committed_of db' "root" "tool_calls" = 4000000 ∧ reserved_of db' "root" "tool_calls" = 0.
Proof.
  assert (Hinv : budget_inv sample_child_db) by (apply inv_history; [by_decide|apply inv_empty]).
  destruct (close_child_account 9 "child" sample_child_db) as [[v|e] db'] eqn:Hrun;
    [|apply (f_equal fst) in Hrun; vm_compute in Hrun; discriminate].
  destruct (accounts sample_child_db !! "child"%string) as [child|] eqn:Hc;
    [|vm_compute in Hc; discriminate].
  destruct (reservations sample_child_db) as [|row rows] eqn:Hrows; [vm_compute in Hrows; discriminate|].
  assert (Hchild : acc_parent_account_id child = Some "root"%string ∧ acc_status child = "active"%string).
  { clear -Hc. vm_compute in Hc. injection Hc as <-. split; reflexivity. }
  assert (Hrow : row ∈ reservations sample_child_db) by (rewrite Hrows; apply list_elem_of_here).
  assert (Hg : in_group "root" (child_group "child") row ∧ res_status row = RESERVED).
  { clear -Hrows. vm_compute in Hrows. injection Hrows as <- <-. split; [exact I|reflexivity]. }
  destruct Hchild as [Hp Ha], Hg as [Hg Hs].
  assert (Hopen : acc_status child ≠ "closed"%string) by (rewrite Ha; discriminate).
  destruct (close_child_settles id 9 "child" "root" child row v sample_child_db db'
    Hinv Hc Hp Hopen Hrow Hg Hs Hrun) as [H _].
  cbv zeta. cbn [snd]. destruct (H "tool_calls"%string) as [-> ->]. split; vm_compute; reflexivity.
Defined.

(** A child account created without limits holds no allocation of its parent, and
    [close_child_account] on it always raises and leaves the ledger unchanged: such an account stays
    open for ever. *)
Theorem close_unallocated_child_raises now c p child db :
  accounts db !! c = Some child → acc_parent_account_id child = Some p →
  acc_status child ≠ "closed"%string →
  filter (λ row, in_group p (child_group c) row) (reservations db) = [] →
  close_child_account now c db =
    (Err (LookupError "budget reservation group not found" (child_group c)), db).
Proof.
  intros Hc Hp Hopen Hnone. unfold close_child_account. run_step.
  rewrite Hc, Hp, bool_decide_eq_false_2 by done.
  destruct (snapshot_run _ _ _ Hc) as (snap&->&_).
  unfold commit, lock_group. run_step. by rewrite Hnone.
Qed.

Definition sample_stuck_db : BudgetDB := foldl (flip (run_op id)) empty_db
  [ OpCreate 1 "root" sample_limits None None;
    OpCreate 2 "child" (mkBudgetLimits []) None (Some "root"%string) ].

Lemma close_unallocated_child_raises_witness :
  is_ok (close_child_account 9 "child" sample_stuck_db).1 = false.
Proof.
  destruct (accounts sample_stuck_db !! "child"%string) as [child|] eqn:Hc;
    [|vm_compute in Hc; discriminate].
  rewrite (close_unallocated_child_raises 9 "child" "root" child sample_stuck_db Hc);
    [reflexivity| | |by vm_compute]; vm_compute in Hc; by injection Hc as <-.
Defined.
