(* ===== verification/Policy.v ===== *)
(** * Policy: packages/runtime/policy (contracts.py, engine.py, loader.py)

    The policy decision point: rules matched by shell patterns ([fnmatch.fnmatchcase]), decisions
    combined with deny-overrides, obligations of the matched rules, and the check that the caller
    fulfilled them. *)

From S2P Require Import Prelude.
From S2P Require Import Effects.
From Stdlib Require Import Ascii.

(** ** fnmatch.fnmatchcase (Python standard library) *)

Module Glob.
Inductive token :=
| Star
| AnyChar
| Lit (c : ascii)
| Class (negated : bool) (ranges : list (ascii * ascii)).

(** [[stuff]]: [a-b] is a range, any other character stands for itself. *)
Fixpoint ranges (stuff : list ascii) : list (ascii * ascii) :=
  match stuff with
  | lo :: (("-"%char :: hi :: rest) as tail) => (lo, hi) :: ranges rest
  | c :: tail => (c, c) :: ranges tail
  | [] => []
  end.

(** The characters up to the closing bracket and the rest of the pattern. *)
Fixpoint upto_bracket (p : list ascii) : option (list ascii * list ascii) :=
  match p with
  | [] => None
  | c :: p' =>
      if ascii_dec c "]" then Some ([], p')
      else match upto_bracket p' with
           | Some (stuff, rest) => Some (c :: stuff, rest)
           | None => None
           end
  end.

(** A closing bracket right after the opening (or its negation) stands for itself. *)
Definition class_body (p : list ascii) : option (list ascii * list ascii) :=
  match p with
  | "]"%char :: p' =>
      match upto_bracket p' with
      | Some (stuff, rest) => Some ("]"%char :: stuff, rest)
      | None => None
      end
  | _ => upto_bracket p
  end.

Definition parse_class (p : list ascii) : option (token * list ascii) :=
  match p with
  | "!"%char :: p' =>
      match class_body p' with
      | Some (stuff, rest) => Some (Class true (ranges stuff), rest)
      | None => None
      end
  | _ =>
      match class_body p with
      | Some (stuff, rest) => Some (Class false (ranges stuff), rest)
      | None => None
      end
  end.

(** Tokens of a pattern; every token consumes a character, so the pattern's length is enough
    fuel. *)
Fixpoint tokens (fuel : nat) (p : list ascii) : list token :=
  match fuel, p with
  | O, _ | _, [] => []
  | S fuel', c :: p' =>
      if ascii_dec c "*" then Star :: tokens fuel' p'
      else if ascii_dec c "?" then AnyChar :: tokens fuel' p'
      else if ascii_dec c "[" then
        match parse_class p' with
        | Some (t, rest) => t :: tokens fuel' rest
        | None => Lit c :: tokens fuel' p'
        end
      else Lit c :: tokens fuel' p'
  end.

Definition in_range (c : ascii) (r : ascii * ascii) : bool :=
  (nat_of_ascii r.1 <=? nat_of_ascii c)%nat && (nat_of_ascii c <=? nat_of_ascii r.2)%nat.

Definition accepts (t : token) (c : ascii) : bool :=
  match t with
  | Star => false
  | AnyChar => true
  | Lit d => bool_decide (c = d)
  | Class negated rs => xorb negated (existsb (in_range c) rs)
  end.

Fixpoint matches (ts : list token) (s : list ascii) : bool :=
  match ts with
  | [] => match s with [] => true | _ => false end
  | Star :: ts' =>
      (fix star (s : list ascii) : bool :=
         matches ts' s || match s with [] => false | _ :: s' => star s' end) s
  | t :: ts' => match s with [] => false | c :: s' => accepts t c && matches ts' s' end
  end.

(** The language of a token list, independently of how it is searched. *)
Inductive lang : list token → list ascii → Prop :=
| lang_nil : lang [] []
| lang_star ts s1 s2 : lang ts s2 → lang (Star :: ts) (s1 ++ s2)
| lang_char t ts c s : t ≠ Star → accepts t c = true → lang ts s → lang (t :: ts) (c :: s).

(** A pattern describes the strings of the language of its tokens. *)
Definition describes (pattern value : string) : Prop :=
  lang (tokens (String.length pattern) (chars pattern)) (chars value).
End Glob.

(** [fnmatchcase(value, pattern)] *)
Definition fnmatchcase (value pattern : string) : bool :=
  Glob.matches (Glob.tokens (String.length pattern) (chars pattern)) (chars value).

(** ** contracts.py *)

Inductive PolicyDecisionPoint :=
| TASK_ADMISSION | TASK_DELEGATION | CAPABILITY_VISIBILITY | CAPABILITY_INVOCATION
| CREDENTIAL_ISSUANCE | NETWORK_EGRESS | SANDBOX_SELECTION | SIDE_EFFECT_COMMIT
| OBSERVATION_PROMOTION | STATE_PATCH_COMMIT | CHILD_EXECUTION | WATCH_RESUME.

#[export] Instance PolicyDecisionPoint_eq_dec : EqDecision PolicyDecisionPoint.
Proof. solve_decision. Defined.

Inductive Authorization := PERMIT | DENY | INDETERMINATE.

#[export] Instance Authorization_eq_dec : EqDecision Authorization.
Proof. solve_decision. Defined.

Record PolicyObligation := mkPolicyObligation { po_kind : string; po_parameters : list (string * json) }.

(** [PolicyObligation.validate_kind] *)
Definition validate_obligation (o : PolicyObligation) : result PolicyObligation :=
  if py_blank (po_kind o) then Err (ValueError "PolicyObligation kind cannot be empty") else Ok o.

Record PolicyRequest := mkPolicyRequest {
  decision_point : PolicyDecisionPoint;
  principal : string;
  action : string;
  resource : string;
  context : list (string * json)
}.

Definition has_key (k : string) (d : list (string * json)) : bool := bool_decide (k ∈ d.*1).

(** [PolicyRequest.validate_request] *)
Definition validate_request (r : PolicyRequest) : result PolicyRequest :=
  if py_blank (principal r) || py_blank (action r) || py_blank (resource r)
  then Err (ValueError "PolicyRequest principal/action/resource cannot be empty")
  else if bool_decide (decision_point r = TASK_ADMISSION) then
    if negb (has_key "intent_ref" (context r))
    then Err (ValueError "task_admission PolicyRequest context requires intent_ref") else Ok r
  else if negb (has_key "task_contract_id" (context r)) || negb (has_key "task_run_id" (context r))
  then Err (ValueError "PolicyRequest context requires task_contract_id and task_run_id")
  else Ok r.

Lemma validate_request_Ok r r' : validate_request r = Ok r' → r' = r.
Proof.
  unfold validate_request. destruct (_ || _ || _); [done|]. destruct (bool_decide _).
  - destruct (negb _); [done|]. by intros [= <-].
  - destruct (_ || _); [done|]. by intros [= <-].
Qed.

Record PolicyDecision := mkPolicyDecision {
  authorization : Authorization;
  constraints : list PolicyObligation;
  obligations : list PolicyObligation;
  advice : list string;
  matched_policy_ids : list string;
  determining_policy_ids : list string;
  policy_revision : string;
  expires_at : option Z
}.

(** [PolicyDecision.validate_revision] *)
Definition validate_revision (d : PolicyDecision) : result PolicyDecision :=
  if py_blank (policy_revision d)
  then Err (ValueError "PolicyDecision policy_revision cannot be empty") else Ok d.

(** [obligations_satisfied] *)
Definition obligations_satisfied (decision : PolicyDecision) (fulfilled : gset string) : bool :=
  if bool_decide (authorization decision ≠ PERMIT) then false
  else bool_decide ((list_to_set (po_kind <$> obligations decision) : gset string) ⊆ fulfilled).

Definition is_auth (a : Authorization) (d : PolicyDecision) : bool :=
  bool_decide (authorization d = a).

(** [combine_deny_overrides] *)
Definition combine_deny_overrides (decisions : list PolicyDecision) (revision : string) : PolicyDecision :=
  let matched := sorted_set (mjoin (matched_policy_ids <$> decisions)) in
  let determining ds := sorted_set (mjoin (determining_policy_ids <$> ds)) in
  let all_advice := mjoin (advice <$> decisions) in
  let denies := filter (is_auth DENY) decisions in
  let indeterminate := filter (is_auth INDETERMINATE) decisions in
  let permits := filter (is_auth PERMIT) decisions in
  if bool_decide (denies ≠ []) then
    mkPolicyDecision DENY [] [] all_advice matched (determining denies) revision None
  else if bool_decide (indeterminate ≠ []) then
    mkPolicyDecision INDETERMINATE [] [] all_advice matched (determining indeterminate) revision None
  else if bool_decide (permits ≠ []) then
    mkPolicyDecision PERMIT (mjoin (constraints <$> permits)) (mjoin (obligations <$> permits))
      all_advice matched (determining permits) revision None
  else
    mkPolicyDecision DENY [] [] ["implicit_deny"%string] matched [] revision None.

(** ** engine.py *)

Record RuntimePolicyRule := mkRuntimePolicyRule {
  rule_policy_id : string;
  rule_policy_revision : string;
  decision_points : list PolicyDecisionPoint;
  principal_patterns : list string;
  action_patterns : list string;
  resource_patterns : list string;
  rule_authorization : option Authorization;
  rule_constraints : list PolicyObligation;
  rule_obligations : list PolicyObligation;
  rule_advice : list string
}.

(** [_matches_any] *)
Definition matches_any (value : string) (patterns : list string) : bool :=
  existsb (fnmatchcase value) patterns.

(** [RuntimePolicyRule.matches] *)
Definition rule_matches (request : PolicyRequest) (rule : RuntimePolicyRule) : bool :=
  bool_decide (decision_point request ∈ decision_points rule)
  && matches_any (principal request) (principal_patterns rule)
  && matches_any (action request) (action_patterns rule)
  && matches_any (resource request) (resource_patterns rule).

Record StaticPolicyEngine := mkStaticPolicyEngine {
  engine_revision : string;
  engine_rules : list RuntimePolicyRule
}.

(** [StaticPolicyEngine.__init__] *)
Definition make_engine (revision : string) (rules : list RuntimePolicyRule) : result StaticPolicyEngine :=
  if py_blank revision then Err (ValueError "policy_revision cannot be empty")
  else if existsb (λ rule, bool_decide (rule_policy_revision rule ≠ revision)) rules
  then Err (ValueError "policy rule revision does not match engine revision")
  else Ok (mkStaticPolicyEngine revision rules).

(** The decision one rule stands for, when it authorizes anything. *)
Definition rule_decision (revision : string) (rule : RuntimePolicyRule) : option PolicyDecision :=
  (λ a, mkPolicyDecision a [] [] [] [rule_policy_id rule] [rule_policy_id rule] revision None)
    <$> rule_authorization rule.

(** [StaticPolicyEngine.evaluate] *)
Definition evaluate (engine : StaticPolicyEngine) (request : PolicyRequest) : PolicyDecision :=
  let matched := filter (rule_matches request) (engine_rules engine) in
  let combined := combine_deny_overrides (omap (rule_decision (engine_revision engine)) matched)
                    (engine_revision engine) in
  let ids := sorted_set (rule_policy_id <$> matched) in
  if bool_decide (authorization combined = PERMIT) then
    mkPolicyDecision (authorization combined) (mjoin (rule_constraints <$> matched))
      (mjoin (rule_obligations <$> matched)) (mjoin (rule_advice <$> matched)) ids
      (determining_policy_ids combined) (policy_revision combined) (expires_at combined)
  else
    mkPolicyDecision (authorization combined) (constraints combined) (obligations combined)
      (advice combined) ids (determining_policy_ids combined) (policy_revision combined)
      (expires_at combined).

Section decision_ref.
(** [sha256(json.dumps({"request": .., "decision": ..})).hexdigest()] *)
Context (hexdigest : PolicyRequest → PolicyDecision → string).

(** [StaticPolicyEngine.decision_ref] *)
Definition decision_ref (engine : StaticPolicyEngine) (request : PolicyRequest)
  (decision : PolicyDecision) : string :=
  "policy-decision:" +:+ engine_revision engine +:+ ":" +:+ str_take 32 (hexdigest request decision).
End decision_ref.

(** loader.py: [load_runtime_policy] after the catalog's JSON has been validated. *)
Record RuntimePolicyCatalog := mkRuntimePolicyCatalog {
  catalog_revision : string;
  catalog_rules : list RuntimePolicyRule
}.
Definition load_runtime_policy (catalog : RuntimePolicyCatalog) : result StaticPolicyEngine :=
  make_engine (catalog_revision catalog) (catalog_rules catalog).

(** ** Shell patterns: the search finds exactly the language *)

Lemma matches_lang ts s : Glob.matches ts s = true ↔ Glob.lang ts s.
Proof.
  revert s; induction ts as [|t ts IH]; intros s.
  { destruct s; split; [constructor|done|done|inversion 1]. }
  assert (t = Glob.Star ∨ t ≠ Glob.Star) as [->|Ht] by (destruct t; auto).
  - simpl. induction s as [|c s IHs].
    + rewrite orb_false_r, IH. split.
      * intros H. by apply (Glob.lang_star ts []).
      * inversion 1 as [|? s1 s2 H'|]; subst; try done. by destruct s1, s2.
    + rewrite orb_true_iff, IH, IHs. split.
      * intros [H|H]; [by apply (Glob.lang_star ts [])|].
        inversion H as [|? s1 s2 H'|]; subst; try done. by apply (Glob.lang_star ts (c :: s1)).
      * inversion 1 as [|? s1 s2 H'|]; subst; try done. destruct s1 as [|c' s1]; simpl in *.
        -- left. by subst.
        -- right. simplify_eq/=. by constructor.
  - destruct s as [|c s].
    + destruct t; simpl; split; try done; inversion 1; simplify_eq/=; done.
    + assert (Glob.matches (t :: ts) (c :: s) = Glob.accepts t c && Glob.matches ts s) as ->
        by by destruct t.
      rewrite andb_true_iff, IH. split; [intros []; by constructor|].
      inversion 1; simplify_eq/=; done.
Qed.

(** ** Combining decisions *)

Implicit Types (ds : list PolicyDecision).

Lemma elem_of_filter_auth a d ds : d ∈ filter (is_auth a) ds ↔ authorization d = a ∧ d ∈ ds.
Proof. rewrite list_elem_of_filter. unfold is_auth. by rewrite bool_decide_spec. Qed.

Lemma filter_auth_nil a ds : filter (is_auth a) ds = [] ↔ ∀ d, d ∈ ds → authorization d ≠ a.
Proof.
  split.
  - intros H d Hd Ha. assert (d ∈ filter (is_auth a) ds) as Hin by by apply elem_of_filter_auth.
    rewrite H in Hin. by apply not_elem_of_nil in Hin.
  - intros H. destruct (filter (is_auth a) ds) as [|d l] eqn:E; [done|].
    assert (d ∈ filter (is_auth a) ds) as [Ha Hd]%elem_of_filter_auth
      by (rewrite E; apply list_elem_of_here).
    by destruct (H d Hd).
Qed.

(** The verdict of the deny-overrides combination, from the verdicts alone. *)
Definition verdict (auths : list Authorization) : Authorization :=
  if bool_decide (DENY ∈ auths) then DENY
  else if bool_decide (INDETERMINATE ∈ auths) then INDETERMINATE
  else if bool_decide (PERMIT ∈ auths) then PERMIT else DENY.

Lemma filter_auth_nonempty a ds :
  bool_decide (filter (is_auth a) ds ≠ []) = bool_decide (a ∈ authorization <$> ds).
Proof.
  apply bool_decide_ext. rewrite filter_auth_nil, list_elem_of_fmap. split.
  - intros H. destruct (decide (Exists (λ d, authorization d = a) ds)) as [[d [? ?]]%Exists_exists|Hn];
      [by exists d|].
    destruct H. intros d Hd Ha. apply Hn, Exists_exists. by exists d.
  - intros (d&->&Hd) H. by apply (H d).
Qed.

Lemma combine_authorization ds rev :
  authorization (combine_deny_overrides ds rev) = verdict (authorization <$> ds).
Proof.
  unfold combine_deny_overrides, verdict. cbv zeta. rewrite !filter_auth_nonempty.
  repeat case_bool_decide; done.
Qed.


Lemma verdict_permit auths : verdict auths = PERMIT ↔
  PERMIT ∈ auths ∧ ∀ a, a ∈ auths → a = PERMIT.
Proof.
  unfold verdict. split.
  - repeat case_bool_decide; try done. intros _. split; [done|]. by intros [] ?.
  - intros [HP Hall]. rewrite !bool_decide_eq_false_2 by (intros Hin; by apply Hall in Hin).
    by rewrite bool_decide_eq_true_2.
Qed.

(** Deny-overrides is a join: the verdict of a list is a function of the verdicts of its parts. *)
Lemma verdict_ext l1 l2 : (∀ a, a ∈ l1 ↔ a ∈ l2) → verdict l1 = verdict l2.
Proof. intros H. unfold verdict. rewrite !(bool_decide_ext _ _ (H _)). done. Qed.

Lemma determining_mem a ds x :
  x ∈ mjoin (determining_policy_ids <$> filter (is_auth a) ds) ↔
  ∃ d, d ∈ ds ∧ authorization d = a ∧ x ∈ determining_policy_ids d.
Proof.
  rewrite list_elem_of_join. setoid_rewrite list_elem_of_fmap. split.
  - intros (l&Hx&d&->&[Ha Hd]%elem_of_filter_auth). eauto.
  - intros (d&Hd&Ha&Hx). exists (determining_policy_ids d). split; [done|]. exists d.
    by rewrite elem_of_filter_auth.
Qed.

(** The determining policies are those that gave the verdict. *)
Lemma combine_determining ds rev x :
  x ∈ determining_policy_ids (combine_deny_overrides ds rev) ↔
  ∃ d, d ∈ ds ∧ authorization d = verdict (authorization <$> ds) ∧ x ∈ determining_policy_ids d.
Proof.
  unfold combine_deny_overrides, verdict. cbv zeta. rewrite !filter_auth_nonempty.
  repeat case_bool_decide; simpl; rewrite ?elem_of_sorted_set, ?determining_mem; try done.
  split; [intros H2; by apply not_elem_of_nil in H2|]. intros (d&Hd&Ha&_).
  destruct H. rewrite <- Ha. by apply list_elem_of_fmap_2.
Qed.

(** ** Properties of the engine *)

(** A rule of the engine speaks about a request: it names the decision point, and each of the three
    strings is in the language of one of its patterns. *)
Record applies (engine : StaticPolicyEngine) (request : PolicyRequest) (rule : RuntimePolicyRule) : Prop := {
  ap_rule : rule ∈ engine_rules engine;
  ap_point : decision_point request ∈ decision_points rule;
  ap_principal : ∃ p, p ∈ principal_patterns rule ∧ Glob.describes p (principal request);
  ap_action : ∃ p, p ∈ action_patterns rule ∧ Glob.describes p (action request);
  ap_resource : ∃ p, p ∈ resource_patterns rule ∧ Glob.describes p (resource request)
}.

Lemma matches_any_describes value patterns :
  matches_any value patterns = true ↔ ∃ p, p ∈ patterns ∧ Glob.describes p value.
Proof.
  unfold matches_any, Glob.describes. rewrite existsb_exists. split; intros (p&Hp&Hm); exists p.
  - split; [by apply list_elem_of_In|by apply matches_lang].
  - split; [by apply list_elem_of_In|by apply matches_lang].
Qed.

Lemma elem_of_matched engine request rule :
  rule ∈ filter (rule_matches request) (engine_rules engine) ↔ applies engine request rule.
Proof.
  rewrite list_elem_of_filter, Is_true_true. unfold rule_matches.
  rewrite !andb_true_iff, bool_decide_eq_true, !matches_any_describes.
  split; [intros ((((?&?)&?)&?)&?); by split|by intros []].
Qed.



Definition matched_auths (request : PolicyRequest) (rules : list RuntimePolicyRule) :=
  omap rule_authorization (filter (rule_matches request) rules).

Lemma rule_decision_auths rev (l : list RuntimePolicyRule) :
  authorization <$> omap (rule_decision rev) l = omap rule_authorization l.
Proof.
  induction l as [|r l IH]; [done|]. csimpl. unfold rule_decision at 1.
  destruct (rule_authorization r); csimpl; [by f_equal|done].
Qed.

Lemma evaluate_authorization engine request :
  authorization (evaluate engine request) =
  verdict (matched_auths request (engine_rules engine)).
Proof.
  unfold evaluate, matched_auths. cbv zeta. rewrite combine_authorization, rule_decision_auths.
  by case_bool_decide.
Qed.

Lemma elem_of_matched_auths engine request a :
  a ∈ matched_auths request (engine_rules engine) ↔
  ∃ rule, applies engine request rule ∧ rule_authorization rule = Some a.
Proof.
  unfold matched_auths. rewrite list_elem_of_omap. by setoid_rewrite elem_of_matched.
Qed.

Lemma evaluate_matched_ids engine request :
  matched_policy_ids (evaluate engine request) =
  sorted_set (rule_policy_id <$> filter (rule_matches request) (engine_rules engine)).
Proof. unfold evaluate. cbv zeta. by case_bool_decide. Qed.

Lemma evaluate_determining engine request x :
  x ∈ determining_policy_ids (evaluate engine request) ↔
  ∃ rule, applies engine request rule ∧ rule_policy_id rule = x ∧
    rule_authorization rule = Some (authorization (evaluate engine request)).
Proof.
  assert (determining_policy_ids (evaluate engine request) = determining_policy_ids
    (combine_deny_overrides (omap (rule_decision (engine_revision engine))
      (filter (rule_matches request) (engine_rules engine))) (engine_revision engine))) as ->
    by (unfold evaluate; cbv zeta; by case_bool_decide).
  rewrite combine_determining, evaluate_authorization, rule_decision_auths.
  fold (matched_auths request (engine_rules engine)). setoid_rewrite list_elem_of_omap.
  setoid_rewrite elem_of_matched. unfold rule_decision. split.
  - intros (d&(rule&Hm&Hd)&Ha&Hx). exists rule. destruct (rule_authorization rule) as [a|]; [|done].
    simpl in Hd. injection Hd as <-. simpl in Ha, Hx. apply list_elem_of_singleton in Hx. by rewrite Ha.
  - intros (rule&Hm&<-&Ha). eexists. split; [exists rule; rewrite Ha; by split|].
    simpl. split; [done|]. apply list_elem_of_here.
Qed.

Lemma obligations_satisfied_elem decision fulfilled :
  obligations_satisfied decision fulfilled = true ↔
  authorization decision = PERMIT ∧
  ∀ o, o ∈ obligations decision → po_kind o ∈ fulfilled.
Proof.
  unfold obligations_satisfied. case_bool_decide as Ha; [naive_solver|].
  rewrite bool_decide_eq_true. split.
  - intros H. split; [done|]. intros o Ho. apply H, elem_of_list_to_set.
    by apply list_elem_of_fmap_2.
  - intros [_ H] k. rewrite elem_of_list_to_set, list_elem_of_fmap. intros (o&->&Ho). by apply H.
Qed.

Lemma rule_decisions_advice rev (l : list RuntimePolicyRule) :
  mjoin (advice <$> omap (rule_decision rev) l) = [].
Proof.
  induction l as [|r l IH]; [done|]. csimpl. unfold rule_decision at 1.
  by destruct (rule_authorization r).
Qed.

(** What an evaluation grants besides its verdict, from the matched rules. *)
Lemma evaluate_lists revision rules request :
  let d := evaluate (mkStaticPolicyEngine revision rules) request in
  let matched := filter (rule_matches request) rules in
  let auths := matched_auths request rules in
  constraints d = (if bool_decide (verdict auths = PERMIT) then mjoin (rule_constraints <$> matched) else []) ∧
  obligations d = (if bool_decide (verdict auths = PERMIT) then mjoin (rule_obligations <$> matched) else []) ∧
  advice d = (if bool_decide (verdict auths = PERMIT) then mjoin (rule_advice <$> matched)
              else if bool_decide (auths = []) then ["implicit_deny"%string] else []).
Proof.
  cbv zeta. unfold evaluate, matched_auths. simpl. rewrite combine_authorization, rule_decision_auths.
  case_bool_decide as HP; [done|]. revert HP. unfold combine_deny_overrides, verdict. cbv zeta.
  rewrite !filter_auth_nonempty, !rule_decision_auths, !rule_decisions_advice. simpl.
  generalize (omap rule_authorization (filter (rule_matches request) rules)) as auths. intros auths.
  case_bool_decide as H1; simpl.
  { intros _. split_and!; try done. rewrite bool_decide_eq_false_2; [done|]. intros ->. by apply not_elem_of_nil in H1. }
  case_bool_decide as H2; simpl.
  { intros _. split_and!; try done. rewrite bool_decide_eq_false_2; [done|]. intros ->. by apply not_elem_of_nil in H2. }
  case_bool_decide as H3; [done|]. intros _. split_and!; try done.
  rewrite bool_decide_eq_true_2; [done|]. destruct auths as [|[] auths]; [done|..];
    exfalso; [apply H3|apply H1|apply H2]; apply list_elem_of_here.
Qed.

Lemma evaluate_determining_sorted engine request :
  determining_policy_ids (evaluate engine request) =
  sorted_set (determining_policy_ids (evaluate engine request)).
Proof.
  unfold evaluate, combine_deny_overrides; cbv zeta.
  repeat case_bool_decide; simpl; by rewrite ?sorted_set_idem.
Qed.

Definition sample_rule (id : string) (points : list PolicyDecisionPoint) (actions : list string)
  (a : option Authorization) (obls : list PolicyObligation) : RuntimePolicyRule :=
  mkRuntimePolicyRule id "r1" points ["*"%string] actions ["*"%string] a [] obls [].
Definition sample_engine : StaticPolicyEngine := mkStaticPolicyEngine "r1"
  [sample_rule "allow-read" [CAPABILITY_INVOCATION] ["invoke:*"%string] (Some PERMIT) [];
   sample_rule "audit" [CAPABILITY_INVOCATION] ["*"%string] None [mkPolicyObligation "audit_log" []];
   sample_rule "deny-write" [CAPABILITY_INVOCATION] ["invoke:[wd]*"%string] (Some DENY) []].
Definition sample_request (action : string) : PolicyRequest :=
  mkPolicyRequest CAPABILITY_INVOCATION "agent:1" action "cap:x" [].

Example read_is_permitted :
  authorization (evaluate sample_engine (sample_request "invoke:read")) = PERMIT ∧
  authorization (evaluate sample_engine (sample_request "invoke:write")) = DENY ∧
  authorization (evaluate sample_engine (sample_request "list")) = DENY.
Proof. by vm_compute. Qed.


(** [StaticPolicyEngine.evaluate]: the order of the rules in the catalog does not matter: a
    permuted catalog gives the same verdict, the same matched and determining policies and the same
    obligations and constraints up to their order. *)
Theorem evaluate_permutation revision rules1 rules2 request :
  rules1 ≡ₚ rules2 →
  let d1 := evaluate (mkStaticPolicyEngine revision rules1) request in
  let d2 := evaluate (mkStaticPolicyEngine revision rules2) request in
  authorization d1 = authorization d2 ∧
  matched_policy_ids d1 = matched_policy_ids d2 ∧
  determining_policy_ids d1 = determining_policy_ids d2 ∧
  constraints d1 ≡ₚ constraints d2 ∧ obligations d1 ≡ₚ obligations d2 ∧ advice d1 ≡ₚ advice d2.
Proof.
  intros Hp. cbv zeta.
  assert (filter (rule_matches request) rules1 ≡ₚ filter (rule_matches request) rules2) as Hf
    by by rewrite Hp.
  assert (matched_auths request rules1 ≡ₚ matched_auths request rules2) as Ha
    by (unfold matched_auths; by rewrite Hf).
  assert (verdict (matched_auths request rules1) = verdict (matched_auths request rules2)) as Hv
    by (apply verdict_ext; intros a; by rewrite Ha).
  assert (authorization (evaluate (mkStaticPolicyEngine revision rules1) request) =
          authorization (evaluate (mkStaticPolicyEngine revision rules2) request)) as Hauth
    by by rewrite !evaluate_authorization.
  destruct (evaluate_lists revision rules1 request) as (->&->&->).
  destruct (evaluate_lists revision rules2 request) as (->&->&->).
  split; [done|]. split; [|split].
  - rewrite !evaluate_matched_ids. apply sorted_set_ext. intros x. simpl. by rewrite Hf.
  - rewrite evaluate_determining_sorted, (evaluate_determining_sorted (mkStaticPolicyEngine _ rules2)).
    apply sorted_set_ext. intros x. rewrite !evaluate_determining, Hauth.
    split; intros (rule&[Hin ????]&?); exists rule; simpl in *.
    + split; [|done]. split; simpl; [by rewrite <- Hp|done..].
    + split; [|done]. split; simpl; [by rewrite Hp|done..].
  - rewrite Hv. assert (bool_decide (matched_auths request rules1 = []) =
      bool_decide (matched_auths request rules2 = [])) as ->
      by (apply bool_decide_ext; split; intros E; rewrite E in Ha; by apply Permutation_nil).
    case_bool_decide; [|done]. split_and!; by rewrite Hf.
Qed.

Lemma evaluate_permutation_witness :
  authorization (evaluate sample_engine (sample_request "invoke:read")) =
  authorization (evaluate (mkStaticPolicyEngine "r1" (rev (engine_rules sample_engine)))
    (sample_request "invoke:read")).
Proof.
  apply (evaluate_permutation "r1" (engine_rules sample_engine) (rev (engine_rules sample_engine))).
  apply Permutation_rev.
Defined.

(** [obligations_satisfied] over an engine's decision: when the caller's check passes, the
    engine permitted the request, no matching rule denied it, and the obligations of every matching
    rule (also of rules that only attach obligations) are fulfilled. *)
Theorem obligations_satisfied_enforces engine request fulfilled :
  obligations_satisfied (evaluate engine request) fulfilled = true →
  (∃ rule, applies engine request rule ∧ rule_authorization rule = Some PERMIT) ∧
  ∀ rule, applies engine request rule →
    rule_authorization rule ≠ Some DENY ∧ rule_authorization rule ≠ Some INDETERMINATE ∧
    ∀ o, o ∈ rule_obligations rule → po_kind o ∈ fulfilled.
Proof.
  rewrite obligations_satisfied_elem. intros [Ha Ho]. destruct engine as [revision rules].
  destruct (evaluate_lists revision rules request) as (_&Hl&_). rewrite Hl in Ho.
  rewrite evaluate_authorization in Ha. simpl in Ha. rewrite bool_decide_eq_true_2 in Ho by done.
  apply verdict_permit in Ha as [Hex Hall].
  pose proof (elem_of_matched_auths (mkStaticPolicyEngine revision rules) request) as Hm. simpl in Hm.
  split; [by apply Hm|]. intros rule Hrule.
  assert (∀ a, rule_authorization rule = Some a → a = PERMIT) as Hp
    by (intros a E; apply Hall, Hm; eauto).
  split_and!; [by intros E%Hp|by intros E%Hp|].
  intros o Hin. apply Ho, list_elem_of_join. exists (rule_obligations rule). split; [done|].
  apply list_elem_of_fmap_2. by apply (elem_of_matched (mkStaticPolicyEngine revision rules)).
Qed.

Lemma obligations_satisfied_enforces_witness :
  obligations_satisfied (evaluate sample_engine (sample_request "invoke:read")) {["audit_log"%string]} = true ∧
  ∃ rule, applies sample_engine (sample_request "invoke:read") rule ∧
    rule_authorization rule = Some PERMIT.
Proof.
  assert (obligations_satisfied (evaluate sample_engine (sample_request "invoke:read"))
    {["audit_log"%string]} = true) as H by by vm_compute.
  split; [exact H|]. exact (proj1 (obligations_satisfied_enforces _ _ _ H)).
Defined.
