(* ===== verification/TaskContracts.v ===== *)
(** * TaskContracts: packages/task_runtime/contracts

    The data contracts of the task runtime (models.py), execution envelopes (execution.py), the
    delegation check (conformance.py), dependency stop reasons (dependencies.py) and the canonical
    roles (roles.py).  A pydantic model is a Record; constructing one runs its field constraints
    and its validators, which is the [make_] or [validate_] function of the record.  An instant is
    a [datetime]: microseconds since the epoch and whether it carries a time zone. *)

From S2P Require Import Prelude.
From S2P Require Import Effects.

(** ** models.py *)

Inductive TaskKind :=
| LOOKUP | RETRIEVE | VERIFY_VERSION_FIX | RESOLVE_CONFLICT | INVESTIGATE_RELATION
| INVESTIGATE_INCIDENT | WATCH_INCIDENT | RESEARCH_INSIGHT | ASSESS_NORMATIVE_APPLICABILITY
| OBSERVE_LIVE_ASSET | ENRICHMENT.

#[export] Instance TaskKind_eq_dec : EqDecision TaskKind.
Proof. solve_decision. Defined.

Definition TaskKind_value (k : TaskKind) : string :=
  match k with
  | LOOKUP => "lookup"
  | RETRIEVE => "retrieve"
  | VERIFY_VERSION_FIX => "verify_version_fix"
  | RESOLVE_CONFLICT => "resolve_conflict"
  | INVESTIGATE_RELATION => "investigate_relation"
  | INVESTIGATE_INCIDENT => "investigate_incident"
  | WATCH_INCIDENT => "watch_incident"
  | RESEARCH_INSIGHT => "research_insight"
  | ASSESS_NORMATIVE_APPLICABILITY => "assess_normative_applicability"
  | OBSERVE_LIVE_ASSET => "observe_live_asset"
  | ENRICHMENT => "enrichment"
  end.

Inductive ExecutionProfile :=
| PROFILE_DIRECT | PROFILE_RETRIEVE | PROFILE_VERIFY | PROFILE_INVESTIGATE | PROFILE_WATCH.

#[export] Instance ExecutionProfile_eq_dec : EqDecision ExecutionProfile.
Proof. solve_decision. Defined.

Inductive EffectCeiling := READ_ONLY | INTERNAL_STATE | EXTERNAL_SIDE_EFFECT.

#[export] Instance EffectCeiling_eq_dec : EqDecision EffectCeiling.
Proof. solve_decision. Defined.

(** [_EFFECT_RANK] *)
Definition EFFECT_RANK (e : EffectCeiling) : Z :=
  match e with READ_ONLY => 0 | INTERNAL_STATE => 1 | EXTERNAL_SIDE_EFFECT => 2 end.

Definition effect_within_ceiling (effect ceiling : EffectCeiling) : bool :=
  EFFECT_RANK effect <=? EFFECT_RANK ceiling.

Record DelegationCeiling := mkDelegationCeiling {
  dc_allowed : bool;
  max_depth : Z;
  allowed_task_kinds : list TaskKind;
  child_effect_ceiling : EffectCeiling
}.

Definition default_DelegationCeiling : DelegationCeiling := mkDelegationCeiling false 0 [] READ_ONLY.

(** The [ge=0] of [max_depth] and [DelegationCeiling.validate_disabled_shape]. *)
Definition validate_disabled_shape (self : DelegationCeiling) : result DelegationCeiling :=
  if max_depth self <? 0 then Err (ValueError "max_depth must be greater than or equal to 0")
  else if negb (dc_allowed self)
          && (negb (max_depth self =? 0) || negb (bool_decide (allowed_task_kinds self = []))
              || bool_decide (child_effect_ceiling self ≠ READ_ONLY))
  then Err (ValueError "disabled delegation cannot grant depth, task kinds, or elevated effects")
  else if dc_allowed self && (max_depth self <? 1)
  then Err (ValueError "enabled delegation requires max_depth >= 1")
  else Ok self.

Inductive CancellationSemantics := CANCELLABLE | TERMINAL_ONLY | REQUIRES_RECONCILIATION.

#[export] Instance CancellationSemantics_eq_dec : EqDecision CancellationSemantics.
Proof. solve_decision. Defined.

Record TaskIntent := mkTaskIntent {
  raw_request : option string;
  trigger_ref : option string;
  parsed_identifiers : list string;
  candidate_task_kind : option TaskKind;
  candidate_targets : list string;
  temporal_expression : option string;
  requested_output : list (string * json);
  requested_actions : list string;
  ti_context_refs : list string
}.

(** [not s] for an optional string. *)
Definition falsy (s : option string) : bool :=
  match s with None => true | Some s => bool_decide (s = ""%string) end.

Definition require_request_or_trigger (self : TaskIntent) : result TaskIntent :=
  if falsy (raw_request self) && falsy (trigger_ref self)
  then Err (ValueError "TaskIntent requires raw_request or trigger_ref") else Ok self.

Record TaskContract := mkTaskContract {
  tc_id : string;
  contract_revision : Z;
  tc_principal : string;
  on_behalf_of : option string;
  task_kind : TaskKind;
  target_resources : list string;
  desired_state : list (string * json);
  evidence_contract : list (string * json);
  output_contract : list (string * json);
  temporal_contract : list (string * json);
  effect_ceiling : EffectCeiling;
  delegation_ceiling : DelegationCeiling;
  completion_predicate : list (string * json);
  cancellation_semantics : CancellationSemantics;
  tc_policy_revision : string
}.

Definition is_nil {A} (l : list A) : bool := match l with [] => true | _ => false end.

(** The [ge=1] of [contract_revision], the nested [DelegationCeiling] and
    [TaskContract.validate_execution_contract]. *)
Definition validate_execution_contract (self : TaskContract) : result TaskContract :=
  if contract_revision self <? 1
  then Err (ValueError "contract_revision must be greater than or equal to 1")
  else
    _ ← validate_disabled_shape (delegation_ceiling self);
    if py_blank (tc_principal self) then Err (ValueError "TaskContract principal cannot be empty")
    else if is_nil (desired_state self)
    then Err (ValueError "TaskContract desired_state cannot be empty")
    else if is_nil (completion_predicate self)
    then Err (ValueError "TaskContract completion_predicate cannot be empty")
    else if py_blank (tc_policy_revision self)
    then Err (ValueError "TaskContract policy_revision cannot be empty")
    else if dc_allowed (delegation_ceiling self)
            && negb (effect_within_ceiling (child_effect_ceiling (delegation_ceiling self))
                      (effect_ceiling self))
    then Err (ValueError "delegated child effect ceiling exceeds parent task effect ceiling")
    else Ok self.

Inductive TaskRunStatus :=
| SUBMITTED | QUEUED | RUNNING | WAITING_INPUT | WAITING_DEPENDENCY | BLOCKED | COMPLETED
| FAILED | CANCELLED | TIMED_OUT.

#[export] Instance TaskRunStatus_eq_dec : EqDecision TaskRunStatus.
Proof. solve_decision. Defined.

Definition TaskRunStatus_value (s : TaskRunStatus) : string :=
  match s with
  | SUBMITTED => "submitted"
  | QUEUED => "queued"
  | RUNNING => "running"
  | WAITING_INPUT => "waiting_input"
  | WAITING_DEPENDENCY => "waiting_dependency"
  | BLOCKED => "blocked"
  | COMPLETED => "completed"
  | FAILED => "failed"
  | CANCELLED => "cancelled"
  | TIMED_OUT => "timed_out"
  end.

Definition all_statuses : list TaskRunStatus :=
  [SUBMITTED; QUEUED; RUNNING; WAITING_INPUT; WAITING_DEPENDENCY; BLOCKED; COMPLETED; FAILED;
   CANCELLED; TIMED_OUT].

Definition TERMINAL_TASK_RUN_STATUSES : list TaskRunStatus :=
  [BLOCKED; COMPLETED; FAILED; CANCELLED; TIMED_OUT].

Definition is_terminal (s : TaskRunStatus) : bool := bool_decide (s ∈ TERMINAL_TASK_RUN_STATUSES).

Definition TASK_RUN_TRANSITIONS (s : TaskRunStatus) : list TaskRunStatus :=
  match s with
  | SUBMITTED => [QUEUED; CANCELLED; BLOCKED]
  | QUEUED => [RUNNING; CANCELLED; BLOCKED; TIMED_OUT]
  | RUNNING => [WAITING_INPUT; WAITING_DEPENDENCY; BLOCKED; COMPLETED; FAILED; CANCELLED; TIMED_OUT]
  | WAITING_INPUT => [QUEUED; CANCELLED; BLOCKED; TIMED_OUT]
  | WAITING_DEPENDENCY => [QUEUED; CANCELLED; BLOCKED; TIMED_OUT]
  | BLOCKED | COMPLETED | FAILED | CANCELLED | TIMED_OUT => []
  end.

Definition can_transition_task_run (current target : TaskRunStatus) : bool :=
  bool_decide (target ∈ TASK_RUN_TRANSITIONS current).

Record TaskRun := mkTaskRun {
  tr_run_id : string;
  tr_task_contract_id : string;
  tr_case_id : option string;
  tr_parent_run_id : option string;
  tr_role_id : string;
  tr_role_version : string;
  tr_context_manifest_ref : string;
  tr_status : TaskRunStatus;
  tr_base_context_revision : Z;
  tr_execution_envelope_ref : string;
  tr_result_ref : option string;
  tr_stop_reason : option string
}.

(** The field constraints of [TaskRun]. *)
Definition make_TaskRun (self : TaskRun) : result TaskRun :=
  if tr_base_context_revision self <? 1
  then Err (ValueError "base_context_revision must be greater than or equal to 1")
  else if match tr_stop_reason self with Some s => 128 <? slen s | None => false end
  then Err (ValueError "stop_reason should have at most 128 characters")
  else Ok self.

Record RoleProfile := mkRoleProfile {
  role_id : string;
  version : string;
  accepts_task_kinds : list TaskKind;
  state_model : string;
  planner_profile : string;
  skill_scope : list string;
  seed_skill_refs : list string;
  mandatory_guard_refs : list string;
  capability_preferences : list string;
  default_execution_profile : ExecutionProfile;
  delegation_rules : list (list (string * json))
}.

Definition accepts (self : RoleProfile) (kind : TaskKind) : bool :=
  bool_decide (kind ∈ accepts_task_kinds self).

Record ContextManifest := mkContextManifest {
  context_id : string;
  context_revision : Z;
  parent_context_id : option string;
  cm_task_contract_ref : string;
  role_ref : string;
  case_ref : option string;
  knowledge_revision : option Z;
  investigation_state_ref : option string;
  enrichment_state_refs : list string;
  evidence_refs : list string;
  object_refs : list string;
  relation_refs : list string;
  retrieval_invocation_refs : list string;
  query_intent : option (list (string * json));
  query_intent_model_ref : option string;
  trajectory_checkpoint_ref : option string;
  skill_selection_refs : list string;
  experience_pattern_refs : list string;
  policy_context_ref : string;
  capability_envelope_ref : string;
  cm_budget_ref : string;
  cache_hint : option string
}.

(** The field constraints of [ContextManifest]. *)
Definition make_ContextManifest (self : ContextManifest) : result ContextManifest :=
  if context_revision self <? 1
  then Err (ValueError "context_revision must be greater than or equal to 1")
  else if match knowledge_revision self with Some r => r <? 0 | None => false end
  then Err (ValueError "knowledge_revision must be greater than or equal to 0")
  else Ok self.

Inductive TaskEventType :=
| TASK_CREATED | TASK_STARTED | TASK_PATCHED | CONTEXT_UPDATED | EVIDENCE_FOUND | KNOWLEDGE_CHANGED
| ENRICHMENT_STATE_CHANGED | INVESTIGATION_STATE_CHANGED | TASK_BLOCKED | NEED_INPUT | NEED_CONTEXT
| BUDGET_WARNING | ARTIFACT_PRODUCED | PROGRESS | TASK_COMPLETED | TASK_FAILED | TASK_CANCELED.

#[export] Instance TaskEventType_eq_dec : EqDecision TaskEventType.
Proof. solve_decision. Defined.

Definition TaskEventType_value (t : TaskEventType) : string :=
  match t with
  | TASK_CREATED => "TaskCreated"
  | TASK_STARTED => "TaskStarted"
  | TASK_PATCHED => "TaskPatched"
  | CONTEXT_UPDATED => "ContextUpdated"
  | EVIDENCE_FOUND => "EvidenceFound"
  | KNOWLEDGE_CHANGED => "KnowledgeChanged"
  | ENRICHMENT_STATE_CHANGED => "EnrichmentStateChanged"
  | INVESTIGATION_STATE_CHANGED => "InvestigationStateChanged"
  | TASK_BLOCKED => "TaskBlocked"
  | NEED_INPUT => "NeedInput"
  | NEED_CONTEXT => "NeedContext"
  | BUDGET_WARNING => "BudgetWarning"
  | ARTIFACT_PRODUCED => "ArtifactProduced"
  | PROGRESS => "Progress"
  | TASK_COMPLETED => "TaskCompleted"
  | TASK_FAILED => "TaskFailed"
  | TASK_CANCELED => "TaskCanceled"
  end.

Record TaskEvent := mkTaskEvent {
  te_event_id : string;
  te_task_run_id : string;
  te_parent_run_id : option string;
  te_seq : Z;
  te_event_type : TaskEventType;
  te_producer : string;
  te_base_context_revision : Z;
  te_payload_ref : string;
  te_idempotency_key : string;
  te_emitted_at : Z
}.

#[export] Instance TaskEvent_eq_dec : EqDecision TaskEvent.
Proof. solve_decision. Defined.

(** [for value, label in ...: if not value.strip(): raise ValueError(...)] *)
Fixpoint reject_blank (prefix : string) (fields : list (string * string)) : result unit :=
  match fields with
  | [] => Ok tt
  | (value, label) :: rest =>
      if py_blank value then Err (ValueError (prefix +:+ " " +:+ label +:+ " cannot be empty"))
      else reject_blank prefix rest
  end.

(** The field constraints of [TaskEvent] and [TaskEvent.validate_non_empty_identity]. *)
Definition validate_non_empty_identity (self : TaskEvent) : result TaskEvent :=
  if (te_seq self <? 1) || (te_base_context_revision self <? 1)
  then Err (ValueError "Input should be greater than or equal to 1")
  else
    _ ← reject_blank "TaskEvent" [(te_producer self, "producer"%string);
          (te_payload_ref self, "payload_ref"%string);
          (te_idempotency_key self, "idempotency_key"%string)];
    mret self.

(** ** execution.py *)

Record datetime := mkDatetime { dt_us : Z; dt_aware : bool }.

Record ExecutionEnvelope := mkExecutionEnvelope {
  execution_id : string;
  parent_execution_id : option string;
  ee_task_contract_id : string;
  ee_task_run_id : string;
  ee_case_id : option string;
  role_revision : string;
  context_manifest_revision : Z;
  execution_profile : ExecutionProfile;
  capability_scope : list string;
  deadline_at : datetime;
  ee_budget_ref : string;
  ee_policy_revision : string;
  identity_scope : list string;
  network_policy : string;
  side_effect_policy : string;
  sandbox_profile_revision : string;
  trace_context : list (string * json)
}.

#[export] Instance datetime_eq_dec : EqDecision datetime.
Proof. solve_decision. Defined.
#[export] Instance ExecutionEnvelope_eq_dec : EqDecision ExecutionEnvelope.
Proof. solve_decision. Defined.

(** The [ge=1] of [context_manifest_revision] and [ExecutionEnvelope.validate_envelope]. *)
Definition validate_envelope (self : ExecutionEnvelope) : result ExecutionEnvelope :=
  if context_manifest_revision self <? 1
  then Err (ValueError "context_manifest_revision must be greater than or equal to 1")
  else if negb (dt_aware (deadline_at self))
  then Err (ValueError "ExecutionEnvelope deadline_at must be timezone-aware")
  else
    _ ← reject_blank "ExecutionEnvelope" [(execution_id self, "execution_id"%string);
          (ee_task_contract_id self, "task_contract_id"%string);
          (ee_task_run_id self, "task_run_id"%string);
          (role_revision self, "role_revision"%string);
          (ee_budget_ref self, "budget_ref"%string);
          (ee_policy_revision self, "policy_revision"%string);
          (network_policy self, "network_policy"%string);
          (side_effect_policy self, "side_effect_policy"%string);
          (sandbox_profile_revision self, "sandbox_profile_revision"%string)];
    mret self.

(** [set(l1) <= set(l2)] *)
Definition subset_of (l1 l2 : list string) : bool := forallb (λ x, bool_decide (x ∈ l2)) l1.

Definition validate_child_execution_envelope (parent child : ExecutionEnvelope) : list string :=
  (if bool_decide (parent_execution_id child ≠ Some (execution_id parent))
   then ["parent_execution_mismatch"%string] else [])
  ++ (if dt_us (deadline_at child) >? dt_us (deadline_at parent)
      then ["child_deadline_exceeds_parent"%string] else [])
  ++ (if negb (subset_of (capability_scope child) (capability_scope parent))
      then ["child_capability_scope_exceeds_parent"%string] else [])
  ++ (if negb (subset_of (identity_scope child) (identity_scope parent))
      then ["child_identity_scope_exceeds_parent"%string] else []).

(** Durations in microseconds. *)
Definition bounded_timeout_seconds (envelope : ExecutionEnvelope) (now : datetime)
  (action_timeout : Z) : result Z :=
  if negb (dt_aware now) then Err (ValueError "bounded timeout requires timezone-aware now")
  else
    let remaining := dt_us (deadline_at envelope) - dt_us now in
    if remaining <=? 0 then Ok 0 else Ok (Z.min action_timeout remaining).

(** ** conformance.py *)

Record DelegationCheck := mkDelegationCheck { check_allowed : bool; reason : option string }.

Definition denied (why : string) : DelegationCheck := mkDelegationCheck false (Some why).

Definition validate_child_contract (parent child : TaskContract) : DelegationCheck :=
  let ceiling := delegation_ceiling parent in
  let child_ceiling := delegation_ceiling child in
  if negb (dc_allowed ceiling) then denied "delegation_not_allowed"
  else if negb (bool_decide (task_kind child ∈ allowed_task_kinds ceiling))
  then denied "child_task_kind_not_allowed"
  else if negb (effect_within_ceiling (effect_ceiling child) (child_effect_ceiling ceiling))
  then denied "exceeds_parent_effect_ceiling"
  else if dc_allowed child_ceiling && (max_depth ceiling <=? 1)
  then denied "exceeds_parent_delegation_ceiling"
  else if dc_allowed child_ceiling && (max_depth child_ceiling >=? max_depth ceiling)
  then denied "exceeds_parent_delegation_ceiling"
  else if dc_allowed child_ceiling
          && negb (effect_within_ceiling (child_effect_ceiling child_ceiling)
                    (child_effect_ceiling ceiling))
  then denied "exceeds_parent_effect_ceiling"
  else mkDelegationCheck true None.

Definition canonical_role_profiles : list (string * list TaskKind) :=
  [("EnrichmentRole"%string, [ENRICHMENT]);
   ("InvestigationRole"%string,
    [VERIFY_VERSION_FIX; RESOLVE_CONFLICT; INVESTIGATE_RELATION; INVESTIGATE_INCIDENT;
     WATCH_INCIDENT; ASSESS_NORMATIVE_APPLICABILITY; OBSERVE_LIVE_ASSET])].

(** ** dependencies.py *)

Definition TASK_DEPENDENCY_PREFIX : string := "task_dependency:".
Definition LEGACY_DEPENDENCY_PREFIXES : list string := ["delegated_enrichment:"%string].

Definition task_dependency_reason (child_run_id : string) : result string :=
  let child_run_id := py_strip child_run_id in
  if bool_decide (child_run_id = ""%string) then Err (ValueError "child_run_id cannot be empty")
  else Ok (TASK_DEPENDENCY_PREFIX +:+ child_run_id).

Fixpoint first_prefix (prefixes : list string) (stop_reason : string) : option string :=
  match prefixes with
  | [] => None
  | prefix :: rest =>
      match strip_prefix prefix stop_reason with
      | Some tail =>
          let child_run_id := py_strip tail in
          if bool_decide (child_run_id = ""%string) then None else Some child_run_id
      | None => first_prefix rest stop_reason
      end
  end.

Definition dependency_run_id (stop_reason : option string) : option string :=
  match stop_reason with
  | None => None
  | Some stop_reason => first_prefix (TASK_DEPENDENCY_PREFIX :: LEGACY_DEPENDENCY_PREFIXES) stop_reason
  end.

(** ** roles.py *)

Definition DecisionRole : RoleProfile := mkRoleProfile "DecisionRole" "1" [LOOKUP; RETRIEVE]
  "M4.LightweightContext" "decision-v1" ["reasoning"%string] [] [] [] PROFILE_DIRECT [].

Definition EnrichmentRole : RoleProfile := mkRoleProfile "EnrichmentRole" "1" [ENRICHMENT]
  "M3.EnrichmentState" "enrichment-v1" ["enrichment"%string] [] [] [] PROFILE_INVESTIGATE
  [[("allow_investigation"%string, JBool false); ("allow_operator_children"%string, JBool true)]].

Definition InvestigationRole : RoleProfile := mkRoleProfile "InvestigationRole" "1"
  [VERIFY_VERSION_FIX; RESOLVE_CONFLICT; INVESTIGATE_RELATION; INVESTIGATE_INCIDENT;
   WATCH_INCIDENT; ASSESS_NORMATIVE_APPLICABILITY; OBSERVE_LIVE_ASSET]
  "M4.InvestigationState" "investigation-v1" ["investigation"%string] [] [] [] PROFILE_INVESTIGATE
  [[("allow_enrichment"%string, JBool true); ("allow_child_execution"%string, JBool true)]].

Definition canonical_roles : list (string * RoleProfile) :=
  (λ role, (role_id role, role)) <$> [DecisionRole; EnrichmentRole; InvestigationRole].

(** ** The life cycle of a task run *)

Definition task_run_step (s t : TaskRunStatus) : Prop := can_transition_task_run s t = true.

#[export] Instance task_run_step_dec s t : Decision (task_run_step s t).
Proof. unfold task_run_step. apply _. Defined.

(** A path to [t] that goes through the dispatch of the run. *)
Lemma running_reachable s : is_terminal s = false → rtc task_run_step s RUNNING.
Proof.
  intros Hs. assert (rtc task_run_step QUEUED RUNNING) as HQ by by apply rtc_once.
  destruct s; try done; try (by apply (rtc_l _ _ QUEUED)).
Qed.

Lemma terminal_stuck s t : is_terminal s = true → rtc task_run_step s t → t = s.
Proof. intros Hs Ht. inversion Ht as [|? u ? Hu]; subst; [done|]. by destruct s, u. Qed.

(** [TASK_RUN_TRANSITIONS]: the terminal statuses are exactly those without exits, a terminal run
    stays what it is along every path, no path enters [submitted], and every run that has not ended
    can still be run, requeued and brought to each of the terminal statuses. *)
Theorem task_run_lifecycle s :
  (is_terminal s = true ↔ TASK_RUN_TRANSITIONS s = []) ∧
  (is_terminal s = true → ∀ t, rtc task_run_step s t → t = s) ∧
  (∀ t, tc task_run_step s t → t ≠ SUBMITTED) ∧
  (is_terminal s = false → ∀ t, t ≠ SUBMITTED → rtc task_run_step s t).
Proof.
  split; [by destruct s|]. split; [intros Hs t; by apply terminal_stuck|]. split.
  - intros t Ht. assert (∃ u, task_run_step u t) as [u Hu].
    { induction Ht as [x y H|x y z H ? IH]; [by exists x|done]. }
    intros ->. by destruct u.
  - intros Hs t Ht. transitivity RUNNING; [by apply running_reachable|].
    destruct t; try done; try (by apply rtc_once).
    by apply (rtc_l _ _ WAITING_INPUT), rtc_once.
Qed.

Lemma task_run_lifecycle_witness :
  rtc task_run_step WAITING_DEPENDENCY TIMED_OUT ∧ (∀ t, rtc task_run_step BLOCKED t → t = BLOCKED).
Proof.
  split.
  - by apply (proj2 (proj2 (proj2 (task_run_lifecycle WAITING_DEPENDENCY)))).
  - by apply (proj1 (proj2 (task_run_lifecycle BLOCKED))).
Defined.

(** ** Delegation *)

Lemma effect_within_ceiling_trans a b c :
  effect_within_ceiling a b = true → effect_within_ceiling b c = true →
  effect_within_ceiling a c = true.
Proof. unfold effect_within_ceiling. lia. Qed.

(** A chain of delegations below [parent]: each contract was accepted as a child of the previous. *)
Fixpoint delegation_chain (parent : TaskContract) (children : list TaskContract) : Prop :=
  match children with
  | [] => True
  | child :: rest =>
      check_allowed (validate_child_contract parent child) = true ∧ delegation_chain child rest
  end.

(** What the check of one delegation establishes. *)
Lemma child_allowed parent child :
  check_allowed (validate_child_contract parent child) = true ↔
  let ceiling := delegation_ceiling parent in
  let child_ceiling := delegation_ceiling child in
  dc_allowed ceiling = true ∧ task_kind child ∈ allowed_task_kinds ceiling ∧
  effect_within_ceiling (effect_ceiling child) (child_effect_ceiling ceiling) = true ∧
  (dc_allowed child_ceiling = true →
    1 < max_depth ceiling ∧ max_depth child_ceiling < max_depth ceiling ∧
    effect_within_ceiling (child_effect_ceiling child_ceiling) (child_effect_ceiling ceiling) = true).
Proof.
  unfold validate_child_contract. cbv zeta.
  destruct (dc_allowed (delegation_ceiling parent)); simpl; [|naive_solver].
  case_bool_decide; simpl; [|naive_solver].
  destruct (effect_within_ceiling (effect_ceiling child) _); simpl; [|naive_solver].
  destruct (dc_allowed (delegation_ceiling child)); simpl; [|naive_solver].
  destruct (Z.leb_spec (max_depth (delegation_ceiling parent)) 1); simpl; [naive_solver lia|].
  rewrite Z.geb_leb.
  destruct (Z.leb_spec (max_depth (delegation_ceiling parent)) (max_depth (delegation_ceiling child)));
    simpl; [naive_solver lia|].
  destruct (effect_within_ceiling (child_effect_ceiling _) _); simpl; naive_solver.
Qed.

(** Below a delegation that may itself delegate. *)
Lemma delegation_chain_below parent children :
  dc_allowed (delegation_ceiling parent) = true → 1 ≤ max_depth (delegation_ceiling parent) →
  delegation_chain parent children →
  Z.of_nat (length children) ≤ max_depth (delegation_ceiling parent) ∧
  Forall (λ c, effect_within_ceiling (effect_ceiling c)
                 (child_effect_ceiling (delegation_ceiling parent)) = true) children.
Proof.
  revert parent; induction children as [|child rest IH]; intros parent Ha Hd; [simpl; split; [lia|done]|].
  cbn [delegation_chain]. intros [(_&_&He&Hc)%child_allowed Hrest].
  destruct rest as [|grandchild rest].
  { simpl. split; [lia|by repeat constructor]. }
  assert (dc_allowed (delegation_ceiling child) = true) as Hca
    by by destruct Hrest as [[? _]%child_allowed _].
  destruct (Hc Hca) as (H1&H2&H3).
  assert (1 ≤ max_depth (delegation_ceiling child) ∨ max_depth (delegation_ceiling child) < 1)
    as [Hcd|Hcd] by lia.
  - destruct (IH child Hca Hcd Hrest) as [Hl He']. split; [cbn [length] in *; lia|].
    constructor; [done|]. eapply Forall_impl; [exact He'|]. intros c Hx. cbv beta in Hx.
    by eapply effect_within_ceiling_trans.
  - destruct rest as [|c rest]; [|].
    + split; [simpl; lia|]. destruct Hrest as [(_&_&Hg&_)%child_allowed _].
      repeat constructor; [done|]. by eapply effect_within_ceiling_trans.
    + destruct Hrest as [(_&_&_&Hg)%child_allowed [[Hga _]%child_allowed _]].
      destruct (Hg Hga). lia.
Qed.

Lemma validated_contract root root' :
  validate_execution_contract root = Ok root' →
  0 ≤ max_depth (delegation_ceiling root) ∧ 1 ≤ contract_revision root ∧
  (dc_allowed (delegation_ceiling root) = true →
    1 ≤ max_depth (delegation_ceiling root) ∧
    effect_within_ceiling (child_effect_ceiling (delegation_ceiling root)) (effect_ceiling root) = true).
Proof.
  unfold validate_execution_contract. destruct (Z.ltb_spec (contract_revision root) 1); [done|].
  intros (dc&Hdc&Hc)%result_bind_Ok. revert Hdc Hc. unfold validate_disabled_shape.
  destruct (Z.ltb_spec (max_depth (delegation_ceiling root)) 0); [done|].
  destruct (dc_allowed (delegation_ceiling root)); simpl; [|naive_solver lia].
  destruct (Z.ltb_spec (max_depth (delegation_ceiling root)) 1); [done|]. intros _ Hc.
  split_and!; try lia. intros _. split; [lia|].
  destruct (effect_within_ceiling _ _); [done|]. simpl in Hc.
  by repeat (destruct (py_blank _) || destruct (is_nil _)).
Qed.

(** The bound of a delegation chain below a validated contract. *)
Lemma delegation_chain_limits root children :
  validate_execution_contract root = Ok root →
  delegation_chain root children →
  Z.of_nat (length children) ≤ max_depth (delegation_ceiling root) ∧
  Forall (λ c, effect_within_ceiling (effect_ceiling c) (effect_ceiling root) = true) children.
Proof.
  intros (Hnn&_&Hroot)%validated_contract Hchain.
  destruct children as [|child rest]; [by split|].
  assert (dc_allowed (delegation_ceiling root) = true) as Ha
    by by destruct Hchain as [[? _]%child_allowed _].
  destruct (Hroot Ha) as [Hd He].
  destruct (delegation_chain_below root (child :: rest) Ha Hd Hchain) as [Hl Hf].
  split; [done|]. eapply Forall_impl; [exact Hf|]. intros c Hc. cbv beta in Hc.
  by eapply effect_within_ceiling_trans.
Qed.

(** [validate_child_contract] along a chain of delegations from a validated root contract:
    delegation ends after at most [max_depth] of the root, and no contract of the chain has effects
    above the root's ceiling. *)
Theorem delegation_chain_bounded root children :
  validate_execution_contract root = Ok root →
  delegation_chain root children →
  Z.of_nat (length children) ≤ max_depth (delegation_ceiling root) ∧
  Forall (λ c, effect_within_ceiling (effect_ceiling c) (effect_ceiling root) = true) children.
Proof. apply delegation_chain_limits. Qed.

Definition sample_contract (id : string) (kind : TaskKind) (effect : EffectCeiling)
  (ceiling : DelegationCeiling) : TaskContract :=
  mkTaskContract id 1 "user:1" None kind [] [("goal"%string, JStr "x")] [] [] [] effect ceiling
    [("done"%string, JBool true)] CANCELLABLE "policy-1".
Definition sample_root : TaskContract := sample_contract "root" INVESTIGATE_INCIDENT INTERNAL_STATE
  (mkDelegationCeiling true 2 [ENRICHMENT] INTERNAL_STATE).
Definition sample_child : TaskContract := sample_contract "child" ENRICHMENT INTERNAL_STATE
  (mkDelegationCeiling true 1 [ENRICHMENT] READ_ONLY).
Definition sample_grandchild : TaskContract :=
  sample_contract "grandchild" ENRICHMENT READ_ONLY default_DelegationCeiling.

Lemma delegation_chain_bounded_witness :
  delegation_chain sample_root [sample_child; sample_grandchild] ∧
  Forall (λ c, effect_within_ceiling (effect_ceiling c) (effect_ceiling sample_root) = true)
    [sample_child; sample_grandchild].
Proof.
  assert (delegation_chain sample_root [sample_child; sample_grandchild]) as H by by vm_compute.
  split; [exact H|]. apply (delegation_chain_bounded sample_root); [by vm_compute|exact H].
Defined.

(** ** Child execution envelopes *)

Lemma subset_of_spec l1 l2 : subset_of l1 l2 = true ↔ l1 ⊆ l2.
Proof.
  unfold subset_of. rewrite forallb_forall. split; intros H x Hx.
  - apply (bool_decide_eq_true (x ∈ l2)), H. by apply list_elem_of_In.
  - apply bool_decide_eq_true, H. by apply list_elem_of_In.
Qed.

(** [child] runs inside the bounds of [parent]. *)
Record envelope_within (parent child : ExecutionEnvelope) : Prop := {
  within_deadline : dt_us (deadline_at child) ≤ dt_us (deadline_at parent);
  within_capabilities : capability_scope child ⊆ capability_scope parent;
  within_identities : identity_scope child ⊆ identity_scope parent
}.

#[export] Instance envelope_within_preorder : PreOrder envelope_within.
Proof.
  split; [by intros e; split|]. intros e1 e2 e3 [] []. split; [lia|set_solver|set_solver].
Qed.

Lemma validate_child_envelope_nil parent child :
  validate_child_execution_envelope parent child = [] ↔
  parent_execution_id child = Some (execution_id parent) ∧ envelope_within parent child.
Proof.
  unfold validate_child_execution_envelope. rewrite !app_nil.
  assert (∀ (b : bool) (s : string), (if b then [s] else []) = [] ↔ b = false) as Hif
    by (by intros [] s).
  rewrite !Hif, !negb_false_iff, !subset_of_spec, bool_decide_eq_false.
  split.
  - intros (Hp&Hd&Hc&Hi). split; [by apply dec_stable|]. split; [lia|done|done].
  - intros [Hp [Hd Hc Hi]]. split_and!; try done; [naive_solver|lia].
Qed.

(** A chain of child executions below [parent], each accepted by the check. *)
Fixpoint envelope_chain (parent : ExecutionEnvelope) (children : list ExecutionEnvelope) : Prop :=
  match children with
  | [] => True
  | child :: rest => validate_child_execution_envelope parent child = [] ∧ envelope_chain child rest
  end.

Lemma envelope_chain_within parent children :
  envelope_chain parent children → Forall (envelope_within parent) children.
Proof.
  revert parent; induction children as [|child rest IH]; intros parent; simpl; [done|].
  intros [[_ Hw]%validate_child_envelope_nil Hrest]. constructor; [done|].
  eapply Forall_impl; [by apply IH|]. intros e He. by transitivity child.
Qed.

Lemma validate_envelope_Ok e e' : validate_envelope e = Ok e' → e' = e.
Proof.
  unfold validate_envelope. case_match; [done|]. case_match; [done|].
  intros (?&_&[= <-])%result_bind_Ok. done.
Qed.

Lemma bounded_timeout_range envelope now action t :
  bounded_timeout_seconds envelope now action = Ok t →
  t ≤ Z.max 0 (dt_us (deadline_at envelope) - dt_us now) ∧
  (0 ≤ action → 0 ≤ t ≤ action).
Proof.
  unfold bounded_timeout_seconds. destruct (dt_aware now); simpl; [|done].
  destruct (Z.leb_spec (dt_us (deadline_at envelope) - dt_us now) 0); intros [= <-]; lia.
Qed.

(** [validate_child_execution_envelope] and [bounded_timeout_seconds]: along a chain of accepted
    child executions the capabilities and identities of every descendant are among the root's, and
    an action of any descendant is never given a timeout that outlives the root's deadline. *)
Theorem child_envelope_attenuates root children e now action t :
  envelope_chain root children → e ∈ children →
  bounded_timeout_seconds e now action = Ok t →
  capability_scope e ⊆ capability_scope root ∧ identity_scope e ⊆ identity_scope root ∧
  (dt_us now + t ≤ dt_us (deadline_at root) ∨ t ≤ 0) ∧
  (0 ≤ action → 0 ≤ t ≤ action).
Proof.
  intros Hchain He Ht. apply bounded_timeout_range in Ht as [Ht Ha].
  pose proof (proj1 (Forall_forall _ _) (envelope_chain_within _ _ Hchain) e He) as [Hd Hc Hi].
  split_and!; [done|done|lia|done].
Qed.

Definition sample_envelope (id : string) (parent : option string) (scope : list string)
  (deadline : Z) : ExecutionEnvelope :=
  mkExecutionEnvelope id parent "task" "run" None "InvestigationRole@1" 1 PROFILE_INVESTIGATE scope
    (mkDatetime deadline true) "budget" "policy-1" ["id:1"%string] "none" "none" "sandbox@1" [].

Lemma child_envelope_attenuates_witness :
  let root := sample_envelope "e0" None ["cap:a"%string; "cap:b"%string] 1000 in
  let child := sample_envelope "e1" (Some "e0"%string) ["cap:b"%string] 900 in
  let grandchild := sample_envelope "e2" (Some "e1"%string) ["cap:b"%string] 900 in
  bounded_timeout_seconds grandchild (mkDatetime 850 true) 400 = Ok 50 ∧
  (850 + 50 ≤ dt_us (deadline_at root) ∨ 50 ≤ 0).
Proof.
  intros root child grandchild. split; [by vm_compute|].
  apply (child_envelope_attenuates root [child; grandchild] grandchild (mkDatetime 850 true) 400);
    [by vm_compute|apply list_elem_of_further, list_elem_of_here|by vm_compute].
Defined.

(** ** Dependency stop reasons *)

Lemma first_prefix_stripped prefixes s id :
  first_prefix prefixes s = Some id → py_strip id = id ∧ id ≠ ""%string.
Proof.
  induction prefixes as [|p prefixes IH]; simpl; [done|].
  destruct (strip_prefix p s) as [tail|]; [|done]. case_bool_decide; [done|].
  intros [= <-]. by rewrite py_strip_idem.
Qed.

Lemma dependency_reason_reads id reason :
  task_dependency_reason id = Ok reason → py_strip id = id → dependency_run_id (Some reason) = Some id.
Proof.
  unfold task_dependency_reason. intros H Hid. rewrite Hid in H. case_bool_decide; [done|].
  injection H as <-. unfold dependency_run_id. cbn [first_prefix].
  rewrite strip_prefix_app, Hid. by rewrite bool_decide_eq_false_2.
Qed.

(** [task_dependency_reason] and [dependency_run_id] are inverse: the reason made for a child run
    names that child (up to surrounding white space), a blank id is refused, and whatever
    [dependency_run_id] reads from a stop reason is a stripped, non-empty id. *)
Theorem dependency_reason_roundtrip id :
  (py_strip id = ""%string → is_ok (task_dependency_reason id) = false) ∧
  (py_strip id ≠ ""%string → ∃ reason, task_dependency_reason id = Ok reason ∧
    dependency_run_id (Some reason) = Some (py_strip id) ∧
    slen reason = 16 + slen (py_strip id)) ∧
  (∀ reason id', dependency_run_id (Some reason) = Some id' → py_strip id' = id' ∧ id' ≠ ""%string).
Proof.
  unfold task_dependency_reason. split; [|split].
  - by intros ->.
  - intros H. rewrite bool_decide_eq_false_2 by done. eexists. split; [done|].
    split; [|by rewrite slen_app]. unfold dependency_run_id. cbn [first_prefix].
    rewrite strip_prefix_app, py_strip_idem. by rewrite bool_decide_eq_false_2.
  - intros reason id' H. by eapply first_prefix_stripped.
Qed.

Lemma dependency_reason_roundtrip_witness :
  dependency_run_id (Some "task_dependency:run-7"%string) = Some "run-7"%string ∧
  dependency_run_id (Some "delegated_enrichment: run-7 "%string) = Some "run-7"%string ∧
  ∃ reason, task_dependency_reason " run-7" = Ok reason ∧
    dependency_run_id (Some reason) = Some (py_strip " run-7").
Proof.
  split; [by vm_compute|]. split; [by vm_compute|].
  assert (py_strip " run-7" ≠ ""%string) as H by by_decide.
  destruct (proj1 (proj2 (dependency_reason_roundtrip " run-7")) H) as (reason&H1&H2&_).
  by exists reason.
Defined.
