(* ===== verification/TaskStore.v ===== *)
(** * TaskStore: packages/task_runtime/storage (models.py, service.py)

    Versioned task contracts and context manifests, task runs, the per-run event log and the outbox
    rows of the events.  [TaskDB] is the five tables; a service function is a [prog TaskDB].  The
    row lock on a run ([with_for_update]) makes a call one atomic step; its caller opens the
    transaction ([atomic]).

    A status or event-type column holds the enum member itself (every writer stores [.value] of a
    member, every reader parses it back).  The [*_json] columns hold the pydantic object whose
    [model_dump] they store.  Fresh uuid4 texts and the current time are arguments. *)

From S2P Require Import Prelude.
From S2P Require Import Effects.
From S2P Require Import TaskContracts.
From Stdlib Require Import Ascii.

(** ** models.py *)

Record TaskContractVersionModel := mkTaskContractVersionModel {
  task_contract_version_id : string;
  tcv_task_contract_id : string;
  tcv_contract_revision : Z;
  tcv_principal : string;
  tcv_on_behalf_of : option string;
  tcv_task_kind : TaskKind;
  tcv_effect_ceiling : EffectCeiling;
  tcv_policy_revision : string;
  contract_json : TaskContract;
  tcv_content_hash : string;
  tcv_created_at : Z
}.

Record ContextManifestVersionModel := mkContextManifestVersionModel {
  context_manifest_version_id : string;
  cmv_context_id : string;
  cmv_context_revision : Z;
  cmv_parent_context_id : option string;
  cmv_task_contract_version_id : string;
  cmv_role_ref : string;
  cmv_case_ref : option string;
  cmv_knowledge_revision : option Z;
  manifest_json : ContextManifest;
  cmv_content_hash : string;
  cmv_created_at : Z
}.

Record TaskRunModel := mkTaskRunModel {
  run_id : string;
  run_contract_version_id : string;
  run_task_contract_id : string;
  run_task_contract_revision : Z;
  run_context_manifest_version_id : string;
  run_context_id : string;
  run_context_revision : Z;
  run_case_id : option string;
  parent_run_id : option string;
  run_role_id : string;
  run_role_version : string;
  status : TaskRunStatus;
  base_context_revision : Z;
  execution_envelope_ref : string;
  result_ref : option string;
  stop_reason : option string;
  created_at : Z;
  updated_at : Z;
  finished_at : option Z
}.

Record TaskEventModel := mkTaskEventModel {
  event_id : string;
  task_run_id : string;
  ev_parent_run_id : option string;
  seq : Z;
  event_type : TaskEventType;
  producer : string;
  ev_base_context_revision : Z;
  payload_ref : string;
  idempotency_key : string;
  emitted_at : Z
}.

Inductive delivery_status := PENDING | DELIVERED.

#[export] Instance delivery_status_eq_dec : EqDecision delivery_status.
Proof. solve_decision. Defined.

Record TaskEventDeliveryModel := mkTaskEventDeliveryModel {
  dl_event_id : string;
  stream_name : string;
  dl_status : delivery_status;
  attempts : Z;
  available_at : Z;
  delivered_at : option Z;
  redis_message_id : option string;
  last_error : option string
}.

Record TaskDB := mkTaskDB {
  contract_versions : list TaskContractVersionModel;
  manifest_versions : list ContextManifestVersionModel;
  task_runs : gmap string TaskRunModel;
  task_events : list TaskEventModel;
  task_event_deliveries : list TaskEventDeliveryModel
}.

Definition empty_TaskDB : TaskDB := mkTaskDB [] [] ∅ [] [].

Definition add_contract_version (r : TaskContractVersionModel) (db : TaskDB) : TaskDB :=
  mkTaskDB (contract_versions db ++ [r]) (manifest_versions db) (task_runs db) (task_events db)
    (task_event_deliveries db).
Definition add_manifest_version (r : ContextManifestVersionModel) (db : TaskDB) : TaskDB :=
  mkTaskDB (contract_versions db) (manifest_versions db ++ [r]) (task_runs db) (task_events db)
    (task_event_deliveries db).
Definition put_run (r : TaskRunModel) (db : TaskDB) : TaskDB :=
  mkTaskDB (contract_versions db) (manifest_versions db) (<[run_id r := r]> (task_runs db))
    (task_events db) (task_event_deliveries db).
Definition add_event (e : TaskEventModel) (d : TaskEventDeliveryModel) (db : TaskDB) : TaskDB :=
  mkTaskDB (contract_versions db) (manifest_versions db) (task_runs db) (task_events db ++ [e])
    (task_event_deliveries db ++ [d]).

(** ** Views and references *)

Record PersistResult := mkPersistResult { ref : string; pr_replay : bool }.
Record TaskEventAppendResult := mkTaskEventAppendResult { ap_event : TaskEvent; ap_replay : bool }.

(** [f"{identity}@{revision}"] *)
Definition versioned_ref (identity : string) (revision : Z) : string :=
  identity +:+ "@" +:+ str_of_Z revision.

Definition task_contract_ref (contract : TaskContract) : string :=
  versioned_ref (tc_id contract) (contract_revision contract).
Definition context_manifest_ref (manifest : ContextManifest) : string :=
  versioned_ref (context_id manifest) (context_revision manifest).

(** [_split_ref] *)
Definition split_ref (ref : string) : result (string * Z) :=
  match rpartition "@"%char ref with
  | None => Err (ValueError "invalid versioned reference")
  | Some (identity, revision_text) =>
      if bool_decide (identity = ""%string) then Err (ValueError "invalid versioned reference")
      else match int_of_digits revision_text with
           | None => Err (ValueError "invalid versioned reference")
           | Some revision => Ok (identity, Z.of_N revision)
           end
  end.

(** [_event_for_transition] *)
Definition event_for_transition (target : TaskRunStatus) : TaskEventType :=
  match target with
  | RUNNING => TASK_STARTED
  | WAITING_INPUT => NEED_INPUT
  | WAITING_DEPENDENCY => NEED_CONTEXT
  | BLOCKED => TASK_BLOCKED
  | COMPLETED => TASK_COMPLETED
  | FAILED | TIMED_OUT => TASK_FAILED
  | CANCELLED => TASK_CANCELED
  | SUBMITTED | QUEUED => TASK_PATCHED
  end.

(** [_task_run_view] *)
Definition task_run_view (model : TaskRunModel) : result TaskRun :=
  make_TaskRun (mkTaskRun (run_id model) (run_task_contract_id model) (run_case_id model)
    (parent_run_id model) (run_role_id model) (run_role_version model)
    (versioned_ref (run_context_id model) (run_context_revision model)) (status model)
    (base_context_revision model) (execution_envelope_ref model) (result_ref model)
    (stop_reason model)).

(** The object [_task_event_view] validates. *)
Definition event_view (model : TaskEventModel) : TaskEvent :=
  mkTaskEvent (event_id model) (task_run_id model) (ev_parent_run_id model) (seq model)
    (event_type model) (producer model) (ev_base_context_revision model) (payload_ref model)
    (idempotency_key model) (emitted_at model).

(** [_task_event_view] *)
Definition task_event_view (model : TaskEventModel) : result TaskEvent :=
  validate_non_empty_identity (event_view model).

(** ** Event log *)

Definition run_events (run : string) (db : TaskDB) : list TaskEventModel :=
  filter (λ e, bool_decide (task_run_id e = run)) (task_events db).

(** [select(func.max(seq))], [0] when the run has no events. *)
Definition max_seq (events : list TaskEventModel) : Z := foldr (λ e acc, Z.max (seq e) acc) 0 events.

Definition find_event (run key : string) (db : TaskDB) : option TaskEventModel :=
  find (λ e, bool_decide (task_run_id e = run) && bool_decide (idempotency_key e = key))
    (task_events db).

Definition lookup_run (id : string) : prog TaskDB TaskRunModel :=
  db ← get_store; require (task_runs db !! id) (LookupError "task run not found" id).

Definition append_task_event (new_event_id task_run_id : string) (event_type : TaskEventType)
  (producer : string) (base_context_revision : Z) (payload_ref idempotency_key stream_name : string)
  (instant : Z) : prog TaskDB TaskEventAppendResult :=
  run ← lookup_run task_run_id;
  db ← get_store;
  match find_event task_run_id idempotency_key db with
  | Some existing => event ← lift (task_event_view existing); mret (mkTaskEventAppendResult event true)
  | None =>
      let seq := max_seq (run_events task_run_id db) + 1 in
      let event := mkTaskEventModel new_event_id task_run_id (parent_run_id run) seq event_type
                     producer base_context_revision payload_ref idempotency_key instant in
      let delivery := mkTaskEventDeliveryModel new_event_id stream_name PENDING 0 instant None None None in
      _ ← check (bool_decide (new_event_id ∈ event_id <$> task_events db)) (IntegrityError new_event_id);
      _ ← modify (add_event event delivery);
      view ← lift (task_event_view event);
      mret (mkTaskEventAppendResult view false)
  end.

(** [order_by(seq)] *)
Definition seq_le (e1 e2 : TaskEventModel) : Prop := seq e1 ≤ seq e2.
#[export] Instance seq_le_dec e1 e2 : Decision (seq_le e1 e2).
Proof. unfold seq_le. apply _. Defined.

Definition list_task_events (task_run_id : string) : prog TaskDB (list TaskEvent) :=
  db ← get_store;
  for_each (merge_sort seq_le (run_events task_run_id db))
    (λ model, lift (task_event_view model)).

Definition get_task_event (id : string) : prog TaskDB TaskEvent :=
  db ← get_store;
  model ← require (find (λ e, bool_decide (event_id e = id)) (task_events db))
            (LookupError "task event not found" id);
  lift (task_event_view model).

Definition get_task_run (id : string) : prog TaskDB TaskRun :=
  model ← lookup_run id; lift (task_run_view model).

(** ** Versioned contracts and manifests *)

Definition is_contract_version (id : string) (revision : Z) (m : TaskContractVersionModel) : bool :=
  bool_decide (tcv_task_contract_id m = id) && (tcv_contract_revision m =? revision).
Definition is_manifest_version (id : string) (revision : Z) (m : ContextManifestVersionModel) : bool :=
  bool_decide (cmv_context_id m = id) && (cmv_context_revision m =? revision).

(** [_contract_from_ref] *)
Definition contract_from_ref (ref : string) : prog TaskDB TaskContractVersionModel :=
  id_revision ← lift (split_ref ref);
  db ← get_store;
  require (find (is_contract_version id_revision.1 id_revision.2) (contract_versions db))
    (LookupError "task contract not found" ref).

(** [_context_from_ref] *)
Definition context_from_ref (ref : string) : prog TaskDB ContextManifestVersionModel :=
  id_revision ← lift (split_ref ref);
  db ← get_store;
  require (find (is_manifest_version id_revision.1 id_revision.2) (manifest_versions db))
    (LookupError "context manifest not found" ref).

Definition get_contract_version (id : string) (db : TaskDB) : option TaskContractVersionModel :=
  find (λ m, bool_decide (task_contract_version_id m = id)) (contract_versions db).
Definition get_manifest_version (id : string) (db : TaskDB) : option ContextManifestVersionModel :=
  find (λ m, bool_decide (context_manifest_version_id m = id)) (manifest_versions db).

Definition get_context_manifest (ref : string) : prog TaskDB ContextManifest :=
  model ← context_from_ref ref; mret (manifest_json model).

Definition get_task_context (id : string) : prog TaskDB ContextManifest :=
  run ← lookup_run id;
  db ← get_store;
  model ← require (get_manifest_version (run_context_manifest_version_id run) db)
            (RuntimeError "task run references missing context manifest version");
  mret (manifest_json model).

Definition get_task_contract_for_run (id : string) : prog TaskDB TaskContract :=
  run ← lookup_run id;
  db ← get_store;
  contract ← require (get_contract_version (run_contract_version_id run) db)
               (RuntimeError "task run references missing task contract version");
  mret (contract_json contract).

Section digests.
(** [uuid5(NAMESPACE_URL, text)] and the SHA-256 of the canonical JSON of a contract's and of a
    manifest's [model_dump] ([_digest]). *)
Context (uuid5 : string → string) (contract_digest : TaskContract → string)
  (manifest_digest : ContextManifest → string).

(** [_stable_id] *)
Definition stable_id (value : string) : string := uuid5 ("secfusion:" +:+ value).

Definition new_contract_version (contract : TaskContract) (now : Z) : TaskContractVersionModel :=
  mkTaskContractVersionModel (stable_id ("task-contract:" +:+ task_contract_ref contract))
    (tc_id contract) (contract_revision contract) (tc_principal contract) (on_behalf_of contract)
    (task_kind contract) (effect_ceiling contract) (tc_policy_revision contract) contract
    (contract_digest contract) now.

Definition persist_task_contract (contract : TaskContract) (now : Z) : prog TaskDB PersistResult :=
  db ← get_store;
  let ref := task_contract_ref contract in
  match find (is_contract_version (tc_id contract) (contract_revision contract))
          (contract_versions db) with
  | Some existing =>
      _ ← check (bool_decide (tcv_content_hash existing ≠ contract_digest contract))
            (ValueError "task contract revision is immutable");
      mret (mkPersistResult ref true)
  | None =>
      let row := new_contract_version contract now in
      _ ← check (bool_decide (task_contract_version_id row ∈ task_contract_version_id <$> contract_versions db))
            (IntegrityError (task_contract_version_id row));
      _ ← modify (add_contract_version row);
      mret (mkPersistResult ref false)
  end.

Definition new_manifest_version (contract : TaskContractVersionModel) (manifest : ContextManifest)
  (now : Z) : ContextManifestVersionModel :=
  mkContextManifestVersionModel (stable_id ("context-manifest:" +:+ context_manifest_ref manifest))
    (context_id manifest) (context_revision manifest) (parent_context_id manifest)
    (task_contract_version_id contract) (role_ref manifest) (case_ref manifest)
    (knowledge_revision manifest) manifest (manifest_digest manifest) now.

Definition persist_context_manifest (manifest : ContextManifest) (now : Z) : prog TaskDB PersistResult :=
  contract ← contract_from_ref (cm_task_contract_ref manifest);
  db ← get_store;
  let ref := context_manifest_ref manifest in
  match find (is_manifest_version (context_id manifest) (context_revision manifest))
          (manifest_versions db) with
  | Some existing =>
      _ ← check (bool_decide (cmv_content_hash existing ≠ manifest_digest manifest))
            (ValueError "context manifest revision is immutable");
      mret (mkPersistResult ref true)
  | None =>
      let row := new_manifest_version contract manifest now in
      _ ← check (bool_decide (context_manifest_version_id row ∈ context_manifest_version_id <$> manifest_versions db))
            (IntegrityError (context_manifest_version_id row));
      _ ← modify (add_manifest_version row);
      mret (mkPersistResult ref false)
  end.

(** ** Task runs *)

(** The checks [create_task_run] makes on its parent. *)
Definition check_parent_run (contract : TaskContract) (parent_id : string) : prog TaskDB unit :=
  db ← get_store;
  parent ← require (task_runs db !! parent_id) (LookupError "parent task run not found" parent_id);
  _ ← check (bool_decide (status parent ≠ RUNNING))
        (ValueError "child task can only be created from a running parent");
  parent_contract ← require (get_contract_version (run_contract_version_id parent) db)
    (RuntimeError "parent task run references missing task contract version");
  let delegation := validate_child_contract (contract_json parent_contract) contract in
  check (negb (check_allowed delegation)) (ValueError (default "delegation_denied"%string (reason delegation))).

Definition new_run (id : string) (contract_model : TaskContractVersionModel)
  (context_model : ContextManifestVersionModel) (contract : TaskContract)
  (manifest : ContextManifest) (role : RoleProfile) (envelope : string)
  (case_id parent : option string) (instant : Z) : TaskRunModel :=
  mkTaskRunModel id (task_contract_version_id contract_model) (tc_id contract)
    (contract_revision contract) (context_manifest_version_id context_model) (context_id manifest)
    (context_revision manifest) case_id parent (role_id role) (version role) SUBMITTED
    (context_revision manifest) envelope None None instant instant None.

Definition create_task_run (contract : TaskContract) (manifest : ContextManifest)
  (role : RoleProfile) (envelope stream_name : string) (case_id parent : option string)
  (run_id' : option string) (uuid_run uuid_event producer : string) (instant : Z)
  : prog TaskDB TaskRun :=
  _ ← check (negb (accepts role (task_kind contract))) (ValueError "role does not accept task kind");
  _ ← check (bool_decide (cm_task_contract_ref manifest ≠ task_contract_ref contract))
        (ValueError "ContextManifest task_contract_ref does not match TaskContract");
  _ ← check (bool_decide (role_ref manifest ≠ role_id role +:+ "@" +:+ version role))
        (ValueError "ContextManifest role_ref does not match RoleProfile");
  _ ← (match parent with
       | Some parent_id => check_parent_run contract parent_id
       | None => mret tt
       end);
  _ ← persist_task_contract contract instant;
  _ ← persist_context_manifest manifest instant;
  contract_model ← contract_from_ref (task_contract_ref contract);
  context_model ← context_from_ref (context_manifest_ref manifest);
  let resolved_run_id := if falsy run_id' then uuid_run else default uuid_run run_id' in
  db ← get_store;
  _ ← check (bool_decide (is_Some (task_runs db !! resolved_run_id)))
        (ValueError "task run already exists");
  let model := new_run resolved_run_id contract_model context_model contract manifest role envelope
                 case_id parent instant in
  _ ← modify (put_run model);
  _ ← append_task_event uuid_event resolved_run_id TASK_CREATED producer (context_revision manifest)
        ("task-run:" +:+ resolved_run_id) ("task-created:" +:+ resolved_run_id) stream_name instant;
  lift (task_run_view model).

Definition set_status (s : TaskRunStatus) (instant : Z) (m : TaskRunModel) : TaskRunModel :=
  mkTaskRunModel (run_id m) (run_contract_version_id m) (run_task_contract_id m)
    (run_task_contract_revision m) (run_context_manifest_version_id m) (run_context_id m)
    (run_context_revision m) (run_case_id m) (parent_run_id m) (run_role_id m) (run_role_version m)
    s (base_context_revision m) (execution_envelope_ref m) (result_ref m) (stop_reason m)
    (created_at m) instant (finished_at m).

Definition claim_queued_task_run (id stream_name uuid_event producer : string) (instant : Z)
  : prog TaskDB (option TaskRun) :=
  model ← lookup_run id;
  if bool_decide (status model ≠ QUEUED) then mret None
  else
    let model := set_status RUNNING instant model in
    _ ← modify (put_run model);
    _ ← append_task_event uuid_event id TASK_STARTED producer (run_context_revision model)
          ("role-claim:" +:+ run_role_id model +:+ "@" +:+ run_role_version model)
          ("role-claim:" +:+ id +:+ ":" +:+ str_of_Z (run_context_revision model)) stream_name instant;
    view ← lift (task_run_view model);
    mret (Some view).

Definition set_context (context_model : ContextManifestVersionModel) (manifest : ContextManifest)
  (instant : Z) (m : TaskRunModel) : TaskRunModel :=
  mkTaskRunModel (run_id m) (run_contract_version_id m) (run_task_contract_id m)
    (run_task_contract_revision m) (context_manifest_version_id context_model) (context_id manifest)
    (context_revision manifest) (run_case_id m) (parent_run_id m) (run_role_id m) (run_role_version m)
    (status m) (context_revision manifest) (execution_envelope_ref m) (result_ref m) (stop_reason m)
    (created_at m) instant (finished_at m).

Definition update_task_context (id : string) (manifest : ContextManifest)
  (stream_name uuid_event producer : string) (instant : Z) : prog TaskDB TaskRun :=
  model ← lookup_run id;
  _ ← check (is_terminal (status model)) (ValueError "terminal task run is immutable");
  _ ← check (bool_decide (cm_task_contract_ref manifest ≠
               versioned_ref (run_task_contract_id model) (run_task_contract_revision model)))
        (ValueError "updated context must reference the same task contract revision");
  _ ← check (bool_decide (role_ref manifest ≠ run_role_id model +:+ "@" +:+ run_role_version model))
        (ValueError "updated context must preserve the TaskRun role revision");
  _ ← (if bool_decide (context_id manifest = run_context_id model)
       then check (context_revision manifest <=? run_context_revision model)
              (ValueError "updated context revision must advance monotonically")
       else check (bool_decide (parent_context_id manifest ≠ Some (run_context_id model)))
              (ValueError "forked context must name the current context as parent_context_id"));
  _ ← persist_context_manifest manifest instant;
  context_model ← context_from_ref (context_manifest_ref manifest);
  let model := set_context context_model manifest instant model in
  _ ← modify (put_run model);
  _ ← append_task_event uuid_event id CONTEXT_UPDATED producer (context_revision manifest)
        ("context:" +:+ context_manifest_ref manifest)
        ("context-updated:" +:+ context_manifest_ref manifest) stream_name instant;
  lift (task_run_view model).

Definition set_transition (target : TaskRunStatus) (result stop : option string) (instant : Z)
  (m : TaskRunModel) : TaskRunModel :=
  mkTaskRunModel (run_id m) (run_contract_version_id m) (run_task_contract_id m)
    (run_task_contract_revision m) (run_context_manifest_version_id m) (run_context_id m)
    (run_context_revision m) (run_case_id m) (parent_run_id m) (run_role_id m) (run_role_version m)
    target (base_context_revision m) (execution_envelope_ref m) result stop (created_at m) instant
    (if is_terminal target then Some instant else finished_at m).

Definition transition_task_run (id : string) (target : TaskRunStatus)
  (payload_ref idempotency_key stream_name producer : string) (result stop : option string)
  (uuid_event : string) (instant : Z) : prog TaskDB TaskRun :=
  _ ← check (match stop with Some s => 128 <? slen s | None => false end)
        (ValueError "task stop_reason exceeds storage contract (128 characters)");
  model ← lookup_run id;
  _ ← check (is_terminal (status model)) (ValueError "terminal task run is immutable");
  _ ← check (negb (can_transition_task_run (status model) target))
        (ValueError "invalid task run transition");
  let model := set_transition target result stop instant model in
  _ ← modify (put_run model);
  _ ← append_task_event uuid_event id (event_for_transition target) producer
        (run_context_revision model) payload_ref idempotency_key stream_name instant;
  lift (task_run_view model).
End digests.

(** ** Lookups *)

Lemma find_app {A} (p : A → bool) l1 l2 :
  find p (l1 ++ l2) = match find p l1 with Some x => Some x | None => find p l2 end.
Proof. induction l1 as [|x l1 IH]; simpl; [done|]. by destruct (p x). Qed.

Lemma find_elem {A} (p : A → bool) l x : find p l = Some x → x ∈ l ∧ p x = true.
Proof. intros [? ?]%find_some. by rewrite list_elem_of_In. Qed.

Lemma find_None_elem {A} (p : A → bool) l x : find p l = None → x ∈ l → p x = false.
Proof. intros H ?%list_elem_of_In. by apply (find_none p l). Qed.

Lemma find_NoDup {A B} `{EqDecision B} (f : A → B) (p : A → bool) l x :
  NoDup (f <$> l) → (∀ y, y ∈ l → p y = true ↔ f y = f x) → x ∈ l → find p l = Some x.
Proof.
  intros Hnd Hp Hx. destruct (find p l) as [y|] eqn:E.
  - apply find_elem in E as [Hy Hpy]. f_equal. apply (NoDup_fmap_eq f l); try done. by apply Hp.
  - pose proof (find_None_elem p l x E Hx) as Hf. by rewrite (proj2 (Hp x Hx) eq_refl) in Hf.
Qed.

Lemma is_contract_version_true id rev m :
  is_contract_version id rev m = true ↔ tcv_task_contract_id m = id ∧ tcv_contract_revision m = rev.
Proof. unfold is_contract_version. rewrite andb_true_iff, bool_decide_eq_true, Z.eqb_eq. done. Qed.

Lemma is_manifest_version_true id rev m :
  is_manifest_version id rev m = true ↔ cmv_context_id m = id ∧ cmv_context_revision m = rev.
Proof. unfold is_manifest_version. rewrite andb_true_iff, bool_decide_eq_true, Z.eqb_eq. done. Qed.

Lemma find_event_Some run key db e :
  find_event run key db = Some e →
  e ∈ run_events run db ∧ idempotency_key e = key.
Proof.
  intros [He Hp]%find_elem. apply andb_true_iff in Hp as [H1 H2].
  apply bool_decide_eq_true in H2. unfold run_events. rewrite list_elem_of_filter.
  by rewrite Is_true_true.
Qed.

Lemma find_event_None run key db :
  find_event run key db = None → key ∉ idempotency_key <$> run_events run db.
Proof.
  intros H (e&->&[Hr He]%list_elem_of_filter)%list_elem_of_fmap.
  apply (find_None_elem _ _ e H) in He. apply bool_decide_spec in Hr.
  by rewrite !bool_decide_eq_true_2 in He.
Qed.

Lemma run_events_add run e d db :
  run_events run (add_event e d db) =
  run_events run db ++ (if bool_decide (task_run_id e = run) then [e] else []).
Proof. unfold run_events. simpl. rewrite filter_app, filter_cons. by repeat case_bool_decide. Qed.

(** ** References *)

Lemma split_versioned identity revision k :
  split_ref (versioned_ref identity revision) = Ok k → k = (identity, revision).
Proof.
  unfold split_ref, versioned_ref, str_of_Z. destruct (Z.ltb_spec revision 0).
  - change ("@" +:+ String.append "-" (str_of_N (Z.to_N (- revision))))
      with (String "@" (String "-" (str_of_N (Z.to_N (- revision))))).
    rewrite rpartition_app; [|simpl; by rewrite rpartition_str_of_N].
    case_bool_decide; [done|]. by rewrite int_of_digits_minus.
  - change ("@" +:+ str_of_N (Z.to_N revision)) with (String "@" (str_of_N (Z.to_N revision))).
    rewrite rpartition_app by apply rpartition_str_of_N. case_bool_decide; [done|].
    rewrite int_of_digits_str. intros [= <-]. by rewrite Z2N.id.
Qed.

Lemma split_ref_versioned identity revision :
  identity ≠ ""%string → 0 ≤ revision → split_ref (versioned_ref identity revision) = Ok (identity, revision).
Proof.
  intros Hi Hr. unfold split_ref, versioned_ref, str_of_Z. destruct (Z.ltb_spec revision 0); [lia|].
  change ("@" +:+ str_of_N (Z.to_N revision)) with (String "@" (str_of_N (Z.to_N revision))).
  rewrite rpartition_app by apply rpartition_str_of_N.
  rewrite bool_decide_eq_false_2 by done. rewrite int_of_digits_str. by rewrite Z2N.id.
Qed.

(** [_split_ref] inverts [f"{identity}@{revision}"] for every non-empty identity (also one that
    contains [@]) and every non-negative revision, and what it reads from any text is the part before the
    last [@] and a non-negative integer. *)
Theorem split_ref_roundtrip identity revision :
  identity ≠ ""%string → 0 ≤ revision →
  split_ref (versioned_ref identity revision) = Ok (identity, revision) ∧
  (∀ text i r, split_ref text = Ok (i, r) →
    i ≠ ""%string ∧ 0 ≤ r ∧ ∃ digits, text = i +:+ "@" +:+ digits ∧ int_of_digits digits = Some (Z.to_N r)).
Proof.
  intros Hi Hr. split.
  - by apply split_ref_versioned.
  - unfold split_ref. intros text i r. destruct (rpartition "@" text) as [[l d]|] eqn:E; [|done].
    case_bool_decide; [done|]. destruct (int_of_digits d) as [n|] eqn:En; [|done].
    intros [= <- <-]. split; [done|]. split; [lia|]. exists d.
    split; [by apply rpartition_Some in E|]. by rewrite N2Z.id.
Qed.

Lemma split_ref_roundtrip_witness :
  split_ref (versioned_ref "ctx@tenant" 12) = Ok ("ctx@tenant"%string, 12) ∧
  is_ok (split_ref "ctx@") = false ∧ is_ok (split_ref "@3") = false.
Proof.
  split; [|by vm_compute].
  apply (split_ref_roundtrip "ctx@tenant" 12); [by_decide|lia].
Defined.

(** ** The invariant of the store *)

Definition contract_key (m : TaskContractVersionModel) : string * Z :=
  (tcv_task_contract_id m, tcv_contract_revision m).
Definition manifest_key (m : ContextManifestVersionModel) : string * Z :=
  (cmv_context_id m, cmv_context_revision m).

Section invariant.
Context (uuid5 : string → string) (contract_digest : TaskContract → string)
  (manifest_digest : ContextManifest → string).

Record contract_row_ok (m : TaskContractVersionModel) : Prop := {
  cro_id : tcv_task_contract_id m = tc_id (contract_json m);
  cro_revision : tcv_contract_revision m = contract_revision (contract_json m);
  cro_hash : tcv_content_hash m = contract_digest (contract_json m);
  cro_kind : tcv_task_kind m = task_kind (contract_json m)
}.

Record manifest_row_ok (m : ContextManifestVersionModel) : Prop := {
  mro_id : cmv_context_id m = context_id (manifest_json m);
  mro_revision : cmv_context_revision m = context_revision (manifest_json m);
  mro_hash : cmv_content_hash m = manifest_digest (manifest_json m)
}.

(** The rows a run points to exist and say what the run's own columns say. *)
Record run_row_ok (db : TaskDB) (r : TaskRunModel) : Prop := {
  rro_contract : ∃ m, get_contract_version (run_contract_version_id r) db = Some m ∧
    contract_key m = (run_task_contract_id r, run_task_contract_revision r);
  rro_manifest : ∃ m, get_manifest_version (run_context_manifest_version_id r) db = Some m ∧
    manifest_key m = (run_context_id r, run_context_revision r);
  rro_base : base_context_revision r = run_context_revision r;
  rro_parent : ∀ p, parent_run_id r = Some p → is_Some (task_runs db !! p)
}.

Record task_wf (db : TaskDB) : Prop := {
  wf_run_key : ∀ k r, task_runs db !! k = Some r → run_id r = k;
  wf_contracts : Forall contract_row_ok (contract_versions db);
  wf_contract_ids : NoDup (task_contract_version_id <$> contract_versions db);
  wf_contract_keys : NoDup (contract_key <$> contract_versions db);
  wf_manifests : Forall manifest_row_ok (manifest_versions db);
  wf_manifest_ids : NoDup (context_manifest_version_id <$> manifest_versions db);
  wf_manifest_keys : NoDup (manifest_key <$> manifest_versions db);
  wf_runs : ∀ k r, task_runs db !! k = Some r → run_row_ok db r;
  wf_event_runs : ∀ e, e ∈ task_events db →
    ∃ r, task_runs db !! task_run_id e = Some r ∧ ev_parent_run_id e = parent_run_id r;
  wf_event_ids : NoDup (event_id <$> task_events db);
  wf_seqs : ∀ run, seq <$> run_events run db = seqZ 1 (Z.of_nat (length (run_events run db)));
  wf_event_keys : ∀ run, NoDup (idempotency_key <$> run_events run db);
  wf_deliveries : dl_event_id <$> task_event_deliveries db = event_id <$> task_events db
}.

Lemma empty_wf : task_wf empty_TaskDB.
Proof. split; try by constructor. all: simpl; intros; try done; by apply not_elem_of_nil in H. Qed.

(** ** Runs that return *)

Lemma lookup_run_Ok id db r db' :
  lookup_run id db = (Ok r, db') → task_runs db !! id = Some r ∧ db' = db.
Proof. unfold lookup_run. intros H. by prog_inv H. Qed.

(** Reading a run changes nothing. *)
Lemma get_task_run_Ok id db v db' :
  get_task_run id db = (Ok v, db') →
  db' = db ∧ ∃ r, task_runs db !! id = Some r ∧ task_run_view r = Ok v ∧ tr_status v = status r.
Proof.
  unfold get_task_run, lookup_run. intros H. prog_inv H. split; [done|].
  eexists. split; [done|]. split; [done|]. unfold task_run_view, make_TaskRun in Hlift.
  repeat case_match; simplify_eq/=; done.
Qed.

Lemma persist_contract_Ok c now db r db' :
  persist_task_contract uuid5 contract_digest c now db = (Ok r, db') →
  ref r = task_contract_ref c ∧
  ((pr_replay r = true ∧ db' = db ∧ ∃ m, m ∈ contract_versions db ∧
      contract_key m = (tc_id c, contract_revision c) ∧ tcv_content_hash m = contract_digest c) ∨
   (pr_replay r = false ∧ db' = add_contract_version (new_contract_version uuid5 contract_digest c now) db ∧
      ((tc_id c, contract_revision c) ∉ (contract_key <$> contract_versions db)) ∧
      task_contract_version_id (new_contract_version uuid5 contract_digest c now)
        ∉ (task_contract_version_id <$> contract_versions db))).
Proof.
  unfold persist_task_contract. intros H. apply bind_Ok in H as (s0&s1&H0&H). prog_inv H0.
  destruct (find _ (contract_versions db)) as [m|] eqn:E.
  - prog_inv H. simpl. split; [done|]. left. apply find_elem in E as [Hin Hm].
    apply is_contract_version_true in Hm as [<- <-].
    apply bool_decide_eq_false, dec_stable in Hcheck. naive_solver.
  - prog_inv H. simpl. split; [done|]. right. split; [done|]. split; [done|].
    apply bool_decide_eq_false in Hcheck. split; [|done].
    intros (m&Hk&Hin)%list_elem_of_fmap. apply (find_None_elem _ _ m E) in Hin.
    assert (is_contract_version (tc_id c) (contract_revision c) m = true) as Ht
      by (apply is_contract_version_true; by injection Hk).
    by rewrite Ht in Hin.
Qed.

Lemma contract_from_ref_Ok text db m db' :
  contract_from_ref text db = (Ok m, db') →
  db' = db ∧ m ∈ contract_versions db ∧ split_ref text = Ok (contract_key m).
Proof.
  unfold contract_from_ref. intros H. prog_inv H. destruct v as [i r]. simpl in *.
  apply find_elem in Hreq as [Hin [<- <-]%is_contract_version_true]. done.
Qed.

Lemma context_from_ref_Ok text db m db' :
  context_from_ref text db = (Ok m, db') →
  db' = db ∧ m ∈ manifest_versions db ∧ split_ref text = Ok (manifest_key m).
Proof.
  unfold context_from_ref. intros H. prog_inv H. destruct v as [i r]. simpl in *.
  apply find_elem in Hreq as [Hin [<- <-]%is_manifest_version_true]. done.
Qed.

Lemma persist_manifest_Ok c now db r db' :
  persist_context_manifest uuid5 manifest_digest c now db = (Ok r, db') →
  ref r = context_manifest_ref c ∧
  ∃ cm, cm ∈ contract_versions db ∧ split_ref (cm_task_contract_ref c) = Ok (contract_key cm) ∧
  ((pr_replay r = true ∧ db' = db ∧ ∃ m, m ∈ manifest_versions db ∧
      manifest_key m = (context_id c, context_revision c) ∧ cmv_content_hash m = manifest_digest c) ∨
   (pr_replay r = false ∧ db' = add_manifest_version (new_manifest_version uuid5 manifest_digest cm c now) db ∧
      ((context_id c, context_revision c) ∉ (manifest_key <$> manifest_versions db)) ∧
      context_manifest_version_id (new_manifest_version uuid5 manifest_digest cm c now)
        ∉ (context_manifest_version_id <$> manifest_versions db))).
Proof.
  unfold persist_context_manifest. intros H. apply bind_Ok in H as (cm&s1&H0&H).
  apply contract_from_ref_Ok in H0 as (->&Hcm&Hsplit).
  apply bind_Ok in H as (s0&s1&H0&H). prog_inv H0.
  destruct (find _ (manifest_versions db)) as [m|] eqn:E.
  - prog_inv H. simpl. split; [done|]. exists cm. split; [done|]. split; [done|]. left.
    apply find_elem in E as [Hin Hm]. apply is_manifest_version_true in Hm as [<- <-].
    apply bool_decide_eq_false, dec_stable in Hcheck. naive_solver.
  - prog_inv H. simpl. split; [done|]. exists cm. split; [done|]. split; [done|]. right.
    split; [done|]. split; [done|]. apply bool_decide_eq_false in Hcheck. split; [|done].
    intros (m&Hk&Hin)%list_elem_of_fmap. apply (find_None_elem _ _ m E) in Hin.
    assert (is_manifest_version (context_id c) (context_revision c) m = true) as Ht
      by (apply is_manifest_version_true; by injection Hk).
    by rewrite Ht in Hin.
Qed.

Definition appended (new_id : string) (run : TaskRunModel) (id : string) (ty : TaskEventType)
  (prod : string) (base : Z) (payload key : string) (instant : Z) (db : TaskDB) : TaskEventModel :=
  mkTaskEventModel new_id id (parent_run_id run) (max_seq (run_events id db) + 1) ty prod base
    payload key instant.

Lemma append_Ok new_id id ty prod base payload key stream instant db r db' :
  append_task_event new_id id ty prod base payload key stream instant db = (Ok r, db') →
  ∃ run, task_runs db !! id = Some run ∧
  ((ap_replay r = true ∧ db' = db ∧ ∃ e, find_event id key db = Some e ∧ ap_event r = event_view e) ∨
   (let e := appended new_id run id ty prod base payload key instant db in
    ap_replay r = false ∧ find_event id key db = None ∧ (new_id ∉ (event_id <$> task_events db)) ∧
    ap_event r = event_view e ∧
    db' = add_event e (mkTaskEventDeliveryModel new_id stream PENDING 0 instant None None None) db)).
Proof.
  unfold append_task_event. intros H. apply bind_Ok in H as (run&s1&H0&H).
  apply lookup_run_Ok in H0 as [Hrun ->]. exists run. split; [done|].
  assert (∀ e v, task_event_view e = Ok v → v = event_view e) as Hview.
  { unfold task_event_view, validate_non_empty_identity. intros e v. case_match; [done|].
    intros (?&_&[= <-])%result_bind_Ok. done. }
  apply bind_Ok in H as (s0&s1&H0&H). prog_inv H0.
  destruct (find_event id key db) as [e|] eqn:E.
  - prog_inv H. left. split; [done|]. split; [done|]. exists e. split; [done|]. by apply Hview.
  - prog_inv H. right. cbv zeta. apply bool_decide_eq_false in Hcheck.
    split_and!; try done. by apply Hview.
Qed.

(** ** The invariant is preserved *)

Lemma get_contract_version_app id db r m :
  get_contract_version id db = Some m → get_contract_version id (add_contract_version r db) = Some m.
Proof. unfold get_contract_version. simpl. rewrite find_app. by intros ->. Qed.

Lemma get_manifest_version_app id db r m :
  get_manifest_version id db = Some m → get_manifest_version id (add_manifest_version r db) = Some m.
Proof. unfold get_manifest_version. simpl. rewrite find_app. by intros ->. Qed.

Lemma get_contract_version_elem db m :
  task_wf db → m ∈ contract_versions db → get_contract_version (task_contract_version_id m) db = Some m.
Proof.
  intros Hwf Hm. apply (find_NoDup task_contract_version_id); [by apply wf_contract_ids| |done].
  intros y _. apply bool_decide_eq_true.
Qed.

Lemma get_manifest_version_elem db m :
  task_wf db → m ∈ manifest_versions db →
  get_manifest_version (context_manifest_version_id m) db = Some m.
Proof.
  intros Hwf Hm. apply (find_NoDup context_manifest_version_id); [by apply wf_manifest_ids| |done].
  intros y _. apply bool_decide_eq_true.
Qed.

Lemma add_contract_version_wf db m :
  task_wf db → contract_row_ok m → contract_key m ∉ (contract_key <$> contract_versions db) →
  task_contract_version_id m ∉ (task_contract_version_id <$> contract_versions db) →
  task_wf (add_contract_version m db).
Proof.
  intros [] Hm Hk Hid. split; simpl; try done.
  - rewrite Forall_app. by rewrite Forall_singleton.
  - rewrite fmap_app. apply NoDup_app. split; [done|]. split; [|apply NoDup_singleton].
    intros x Hx ->%list_elem_of_singleton. done.
  - rewrite fmap_app. apply NoDup_app. split; [done|]. split; [|apply NoDup_singleton].
    intros x Hx ->%list_elem_of_singleton. done.
  - intros k r Hr. destruct (wf_runs0 k r Hr) as [(c&Hc&?) ? ? ?]. split; try done.
    exists c. split; [by apply get_contract_version_app|done].
Qed.

Lemma add_manifest_version_wf db m :
  task_wf db → manifest_row_ok m → manifest_key m ∉ (manifest_key <$> manifest_versions db) →
  context_manifest_version_id m ∉ (context_manifest_version_id <$> manifest_versions db) →
  task_wf (add_manifest_version m db).
Proof.
  intros [] Hm Hk Hid. split; simpl; try done.
  - rewrite Forall_app. by rewrite Forall_singleton.
  - rewrite fmap_app. apply NoDup_app. split; [done|]. split; [|apply NoDup_singleton].
    intros x Hx ->%list_elem_of_singleton. done.
  - rewrite fmap_app. apply NoDup_app. split; [done|]. split; [|apply NoDup_singleton].
    intros x Hx ->%list_elem_of_singleton. done.
  - intros k r Hr. destruct (wf_runs0 k r Hr) as [? (c&Hc&?) ? ?]. split; try done.
    exists c. split; [by apply get_manifest_version_app|done].
Qed.

(** A run row is added, or replaced by one with the same parent. *)
Lemma put_run_wf db r :
  task_wf db → run_row_ok db r →
  (∀ old, task_runs db !! run_id r = Some old → parent_run_id r = parent_run_id old) →
  task_wf (put_run r db).
Proof.
  intros [] Hr Hold. assert (∀ r', run_row_ok db r' → run_row_ok (put_run r db) r') as Hmono.
  { intros r' []. split; try done. intros p Hp. simpl.
    destruct (decide (run_id r = p)) as [->|]; [rewrite lookup_insert_eq; by eexists|].
    rewrite lookup_insert_ne by done. by apply rro_parent0. }
  split; simpl; try done.
  - intros k r'. rewrite lookup_insert_Some. intros [[<- <-]|[_ ?]]; auto.
  - intros k r'. rewrite lookup_insert_Some. intros [[<- <-]|[_ H]]; [by apply Hmono|].
    by apply Hmono, (wf_runs0 k).
  - intros e He. destruct (wf_event_runs0 e He) as (r'&Hr'&Hp).
    destruct (decide (run_id r = task_run_id e)) as [Heq|].
    + exists r. rewrite Heq, lookup_insert_eq. rewrite Hp. split; [done|].
      symmetry. apply Hold. by rewrite Heq.
    + exists r'. by rewrite lookup_insert_ne.
Qed.

Lemma max_seq_seqZ l n : seq <$> l = seqZ 1 n → 0 ≤ n → max_seq l = n.
Proof.
  revert n. induction l as [|e l IH] using rev_ind; intros n H Hn.
  - symmetry in H. apply (f_equal length) in H. rewrite length_seqZ in H. simpl in *. lia.
  - assert (Z.of_nat (length (l ++ [e])) = n) as Hlen.
    { apply (f_equal length) in H. rewrite length_fmap, length_seqZ in H. lia. }
    rewrite length_app in Hlen. simpl in Hlen.
    assert (max_seq (l ++ [e]) = Z.max (max_seq l) (Z.max (seq e) 0)) as ->.
    { clear. unfold max_seq. induction l as [|x l IH]; simpl; [lia|]. rewrite IH. lia. }
    rewrite fmap_app in H. replace n with ((n - 1) + 1) in H by lia.
    rewrite seqZ_snoc in H by lia. apply app_inj_1 in H as [H1 H2];
      [|rewrite length_fmap, length_seqZ; lia].
    rewrite (IH (n - 1)) by (done || lia). injection H2 as ->. lia.
Qed.

Lemma max_seq_count db run : task_wf db → max_seq (run_events run db) = Z.of_nat (length (run_events run db)).
Proof. intros Hwf. apply max_seq_seqZ; [by apply wf_seqs|lia]. Qed.

Lemma add_event_wf db run new_id id ty prod base payload key stream instant :
  task_wf db → task_runs db !! id = Some run → find_event id key db = None →
  new_id ∉ (event_id <$> task_events db) →
  task_wf (add_event (appended new_id run id ty prod base payload key instant db)
             (mkTaskEventDeliveryModel new_id stream PENDING 0 instant None None None) db).
Proof.
  intros Hwf Hrun Hfind Hnew. pose proof (max_seq_count db id Hwf) as Hmax.
  destruct Hwf. split; try done.
  - intros k r Hr. destruct (wf_runs0 k r Hr). by split.
  - simpl. intros e [He| ->%list_elem_of_singleton]%elem_of_app; [by apply wf_event_runs0|].
    by exists run.
  - simpl. rewrite fmap_app. apply NoDup_app. split; [done|]. split; [|apply NoDup_singleton].
    intros x Hx ->%list_elem_of_singleton. done.
  - intros run'. rewrite run_events_add. simpl. case_bool_decide as Hid; [|by rewrite app_nil_r].
    subst run'. rewrite fmap_app, wf_seqs0, length_app, Nat2Z.inj_add. cbn [length].
    rewrite seqZ_snoc by lia. csimpl. by rewrite Hmax.
  - intros run'. rewrite run_events_add. simpl. case_bool_decide as Hid; [|by rewrite app_nil_r].
    subst run'. rewrite fmap_app. apply NoDup_app. split; [done|]. split; [|apply NoDup_singleton].
    intros x Hx ->%list_elem_of_singleton. by apply find_event_None in Hfind.
  - simpl. rewrite !fmap_app, wf_deliveries0. done.
Qed.

Lemma append_wf new_id id ty prod base payload key stream instant db r db' :
  task_wf db →
  append_task_event new_id id ty prod base payload key stream instant db = (Ok r, db') →
  task_wf db'.
Proof.
  intros Hwf (run&Hrun&[(_&->&_)|(_&Hf&Hn&_&->)])%append_Ok; [done|]. by apply add_event_wf.
Qed.

Lemma persist_contract_wf c now db r db' :
  task_wf db → persist_task_contract uuid5 contract_digest c now db = (Ok r, db') → task_wf db'.
Proof.
  intros Hwf (_&[(_&->&_)|(_&->&Hk&Hid)])%persist_contract_Ok; [done|].
  by apply add_contract_version_wf.
Qed.

Lemma persist_manifest_wf c now db r db' :
  task_wf db → persist_context_manifest uuid5 manifest_digest c now db = (Ok r, db') → task_wf db'.
Proof.
  intros Hwf (_&cm&_&_&[(_&->&_)|(_&->&Hk&Hid)])%persist_manifest_Ok; [done|].
  by apply add_manifest_version_wf.
Qed.

Lemma persist_manifest_versions c now db r db' :
  persist_context_manifest uuid5 manifest_digest c now db = (Ok r, db') →
  task_runs db' = task_runs db ∧ contract_versions db' = contract_versions db.
Proof. by intros (_&cm&_&_&[(_&->&_)|(_&->&_)])%persist_manifest_Ok. Qed.

(** ** Operations *)

Inductive task_op :=
| PersistContract (contract : TaskContract) (instant : Z)
| PersistManifest (manifest : ContextManifest) (instant : Z)
| CreateTaskRun (contract : TaskContract) (manifest : ContextManifest) (role : RoleProfile)
    (envelope stream : string) (case_id parent run_id : option string)
    (uuid_run uuid_event producer : string) (instant : Z)
| ClaimQueuedTaskRun (id stream uuid_event producer : string) (instant : Z)
| UpdateTaskContext (id : string) (manifest : ContextManifest) (stream uuid_event producer : string)
    (instant : Z)
| TransitionTaskRun (id : string) (target : TaskRunStatus) (payload key stream producer : string)
    (result stop : option string) (uuid_event : string) (instant : Z)
| AppendTaskEvent (uuid_event id : string) (ty : TaskEventType) (producer : string) (base : Z)
    (payload key stream : string) (instant : Z).

(** One call, in the transaction its caller opens. *)
Definition run_op (op : task_op) : prog TaskDB unit :=
  atomic
    match op with
    | PersistContract c t => _ ← persist_task_contract uuid5 contract_digest c t; mret tt
    | PersistManifest m t => _ ← persist_context_manifest uuid5 manifest_digest m t; mret tt
    | CreateTaskRun c m role env stream case parent rid ur ue prod t =>
        _ ← create_task_run uuid5 contract_digest manifest_digest c m role env stream case parent rid ur ue prod t;
        mret tt
    | ClaimQueuedTaskRun id stream ue prod t => _ ← claim_queued_task_run id stream ue prod t; mret tt
    | UpdateTaskContext id m stream ue prod t =>
        _ ← update_task_context uuid5 manifest_digest id m stream ue prod t; mret tt
    | TransitionTaskRun id target payload key stream prod result stop ue t =>
        _ ← transition_task_run id target payload key stream prod result stop ue t; mret tt
    | AppendTaskEvent ue id ty prod base payload key stream t =>
        _ ← append_task_event ue id ty prod base payload key stream t; mret tt
    end.

(** A history of the store. *)
Definition run_ops (ops : list task_op) (db : TaskDB) : TaskDB :=
  foldl (λ db op, (run_op op db).2) db ops.

(** ** What one call can change

    [db_extends db db']: versions, events and outbox rows are only appended, no run disappears,
    a run keeps its identity and moves along the transition table, and an ended run keeps every
    column. *)
Record run_extends (r r' : TaskRunModel) : Prop := {
  re_identity : (run_id r', run_contract_version_id r', run_task_contract_id r',
                 run_task_contract_revision r', parent_run_id r', run_role_id r', run_case_id r', created_at r') =
                (run_id r, run_contract_version_id r, run_task_contract_id r,
                 run_task_contract_revision r, parent_run_id r, run_role_id r, run_case_id r, created_at r);
  re_status : rtc task_run_step (status r) (status r');
  re_terminal : is_terminal (status r) = true → r' = r
}.

Record db_extends (db db' : TaskDB) : Prop := {
  de_contracts : contract_versions db `prefix_of` contract_versions db';
  de_manifests : manifest_versions db `prefix_of` manifest_versions db';
  de_events : task_events db `prefix_of` task_events db';
  de_deliveries : task_event_deliveries db `prefix_of` task_event_deliveries db';
  de_runs : ∀ k r, task_runs db !! k = Some r → ∃ r', task_runs db' !! k = Some r' ∧ run_extends r r'
}.

#[export] Instance run_extends_preorder : PreOrder run_extends.
Proof.
  split; [by intros r; split|]. intros r1 r2 r3 [Hi1 Hs1 Ht1] [Hi2 Hs2 Ht2]. split; [congruence| |].
  - by transitivity (status r2).
  - intros Ht. specialize (Ht1 Ht). subst r2. auto.
Qed.

#[export] Instance db_extends_preorder : PreOrder db_extends.
Proof.
  split.
  - intros db. split; try done. intros k r Hr. by exists r.
  - intros db1 db2 db3 [? ? ? ? H1] [? ? ? ? H2]. split; try by etrans.
    intros k r Hr. destruct (H1 k r Hr) as (r2&Hr2&He2). destruct (H2 k r2 Hr2) as (r3&Hr3&He3).
    exists r3. split; [done|]. by transitivity r2.
Qed.

Lemma add_contract_version_extends m db : db_extends db (add_contract_version m db).
Proof. split; try done; [by eexists|]. intros k r Hr. by exists r. Qed.
Lemma add_manifest_version_extends m db : db_extends db (add_manifest_version m db).
Proof. split; try done; [by eexists|]. intros k r Hr. by exists r. Qed.
Lemma add_event_extends e d db : db_extends db (add_event e d db).
Proof. split; try done; [by eexists|by eexists|]. intros k r Hr. by exists r. Qed.
Lemma put_run_extends r db :
  (∀ old, task_runs db !! run_id r = Some old → run_extends old r) → db_extends db (put_run r db).
Proof.
  intros H. split; try done. intros k old Hold. simpl. destruct (decide (run_id r = k)) as [<-|].
  - exists r. rewrite lookup_insert_eq. auto.
  - exists old. by rewrite lookup_insert_ne.
Qed.

Lemma append_extends new_id id ty prod base payload key stream instant db r db' :
  append_task_event new_id id ty prod base payload key stream instant db = (Ok r, db') →
  db_extends db db' ∧ task_runs db' = task_runs db ∧
  contract_versions db' = contract_versions db ∧ manifest_versions db' = manifest_versions db.
Proof.
  intros (run&_&[(_&->&_)|(_&_&_&_&->)])%append_Ok; split; [done..|apply add_event_extends|done].
Qed.

Lemma persist_contract_extends c now db r db' :
  persist_task_contract uuid5 contract_digest c now db = (Ok r, db') → db_extends db db'.
Proof.
  intros (_&[(_&->&_)|(_&->&_)])%persist_contract_Ok; [done|apply add_contract_version_extends].
Qed.

Lemma persist_manifest_extends c now db r db' :
  persist_context_manifest uuid5 manifest_digest c now db = (Ok r, db') → db_extends db db'.
Proof.
  intros (_&cm&_&_&[(_&->&_)|(_&->&_)])%persist_manifest_Ok;
    [done|apply add_manifest_version_extends].
Qed.

(** ** Every call keeps the invariant and only extends the store *)

Definition good_step (db db' : TaskDB) : Prop := task_wf db' ∧ db_extends db db'.

Lemma put_append_good db r new_id ty prod base payload key stream instant v db' :
  task_wf db → run_row_ok db r →
  (∀ old, task_runs db !! run_id r = Some old → run_extends old r) →
  append_task_event new_id (run_id r) ty prod base payload key stream instant (put_run r db)
    = (Ok v, db') →
  good_step db db' ∧ task_runs db' = <[run_id r := r]> (task_runs db) ∧
  contract_versions db' = contract_versions db.
Proof.
  intros Hwf Hr Hold Happ.
  assert (task_wf (put_run r db)) as Hwf'.
  { apply put_run_wf; [done..|]. intros old Ho. destruct (Hold old Ho) as [Hid _ _]. congruence. }
  pose proof (append_wf _ _ _ _ _ _ _ _ _ _ _ _ Hwf' Happ) as Hwf''.
  apply append_extends in Happ as (He&->&->&_). split; [|done]. split; [done|].
  transitivity (put_run r db); [by apply put_run_extends|done].
Qed.

Lemma check_parent_run_Ok c p db u db' :
  check_parent_run c p db = (Ok u, db') →
  db' = db ∧ ∃ parent pc, task_runs db !! p = Some parent ∧ status parent = RUNNING ∧
    get_contract_version (run_contract_version_id parent) db = Some pc ∧
    check_allowed (validate_child_contract (contract_json pc) c) = true.
Proof.
  unfold check_parent_run. intros H. prog_inv H.
  apply bool_decide_eq_false, dec_stable in Hcheck. apply negb_false_iff in Hcheck0.
  split; [done|]. eauto 10.
Qed.

Lemma persist_contract_hash c now db r db' m :
  task_wf db → persist_task_contract uuid5 contract_digest c now db = (Ok r, db') →
  m ∈ contract_versions db' → contract_key m = (tc_id c, contract_revision c) →
  tcv_content_hash m = contract_digest c ∧ task_runs db' = task_runs db.
Proof.
  intros Hwf Hp Hm Hk. pose proof (wf_contract_keys _ (persist_contract_wf _ _ _ _ _ Hwf Hp)) as Hnd.
  apply persist_contract_Ok in Hp as (_&[(_&->&m'&Hm'&Hk'&Hh)|(_&->&_)]); (split; [|done]).
  - by rewrite (NoDup_fmap_eq _ _ m m' Hnd Hm Hm' ltac:(congruence)).
  - rewrite (NoDup_fmap_eq _ _ m (new_contract_version uuid5 contract_digest c now) Hnd Hm); try done.
    simpl. apply elem_of_app. right. apply list_elem_of_here.
Qed.

(** What a created run is: a new, submitted run whose contract row has the key and the digest of the given
    contract, accepted by the delegation check against the parent's contract. *)
Lemma create_good c m role env stream case parent rid ur ue prod t db v db' :
  task_wf db →
  create_task_run uuid5 contract_digest manifest_digest c m role env stream case parent rid ur ue prod t db
    = (Ok v, db') →
  good_step db db' ∧ ∃ r cm,
    task_runs db !! run_id r = None ∧ task_runs db' = <[run_id r := r]> (task_runs db) ∧
    status r = SUBMITTED ∧ parent_run_id r = parent ∧
    get_contract_version (run_contract_version_id r) db' = Some cm ∧
    tcv_content_hash cm = contract_digest c ∧
    (∃ d, persist_task_contract uuid5 contract_digest c t db = (Ok d.1, d.2) ∧
      contract_versions db' = contract_versions d.2) ∧
    (run_id r = (if falsy rid then ur else default ur rid) ∧ run_role_id r = role_id role ∧
      contract_key cm = (tc_id c, contract_revision c)) ∧
    ∀ p, parent = Some p → ∃ pr pc, task_runs db !! p = Some pr ∧ status pr = RUNNING ∧
      get_contract_version (run_contract_version_id pr) db = Some pc ∧
      check_allowed (validate_child_contract (contract_json pc) c) = true.
Proof.
  unfold create_task_run. intros Hwf H. prog_inv H.
  assert (st = db ∧ ∀ p, parent = Some p → ∃ pr pc, task_runs db !! p = Some pr ∧
    status pr = RUNNING ∧ get_contract_version (run_contract_version_id pr) db = Some pc ∧
    check_allowed (validate_child_contract (contract_json pc) c) = true) as [-> Hparent].
  { destruct parent as [p|]; [|by prog_inv Hrun].
    apply check_parent_run_Ok in Hrun as (->&Hp). split; [done|]. by intros ? [= <-]. }
  rename Hrun0 into Hpc, Hrun1 into Hpm, Hrun2 into Hcm, Hrun3 into Hmm, Hrun4 into Happ.
  pose proof (persist_contract_wf _ _ _ _ _ Hwf Hpc) as Hwf1.
  pose proof (persist_manifest_wf _ _ _ _ _ Hwf1 Hpm) as Hwf2.
  pose proof (persist_manifest_versions _ _ _ _ _ Hpm) as [Hruns Hvers].
  assert (db_extends db st1) as Hext
    by (transitivity st0; [by eapply persist_contract_extends|by eapply persist_manifest_extends]).
  apply contract_from_ref_Ok in Hcm as (->&Hcm&Hck). apply context_from_ref_Ok in Hmm as (->&Hmm&Hmk).
  apply split_versioned in Hck, Hmk. apply bool_decide_eq_false, eq_None_not_Some in Hcheck2.
  set (rid' := if falsy rid then ur else default ur rid) in *.
  pose proof Hcm as Hcm0. rewrite Hvers in Hcm0.
  destruct (persist_contract_hash _ _ _ _ _ _ Hwf Hpc Hcm0 Hck) as [Hhash Hruns0].
  eapply (put_append_good st1 (new_run rid' v6 v7 c m role env case parent t)) in Happ
    as ([Hwf3 Hext3]&Hruns3&Hvers3); [|done| |by intros old Ho; simplify_eq/=].
  - split; [split; [done|by transitivity st1]|].
    exists (new_run rid' v6 v7 c m role env case parent t), v6.
    split_and!; try done.
    + simpl. by rewrite <- Hruns0, <- Hruns.
    + by rewrite Hruns3, Hruns, Hruns0.
    + simpl. apply get_contract_version_elem; [done|]. by rewrite Hvers3.
    + exists (v4, st0). split; [done|]. by rewrite Hvers3, Hvers.
  - split; simpl.
    + exists v6. split; [by apply get_contract_version_elem|done].
    + exists v7. split; [by apply get_manifest_version_elem|done].
    + done.
    + intros p Hp. destruct (Hparent p Hp) as (r&_&Hr&_). destruct (de_runs _ _ Hext p r Hr) as (r2&?&_).
      by exists r2.
Qed.

Lemma persist_manifest_hash c now db r db' m :
  task_wf db → persist_context_manifest uuid5 manifest_digest c now db = (Ok r, db') →
  m ∈ manifest_versions db' → manifest_key m = (context_id c, context_revision c) → cmv_content_hash m = manifest_digest c.
Proof.
  intros Hwf Hp Hm Hk. pose proof (wf_manifest_keys _ (persist_manifest_wf _ _ _ _ _ Hwf Hp)) as Hnd.
  apply persist_manifest_Ok in Hp as (_&cm&_&_&[(_&->&m'&Hm'&Hk'&Hh)|(_&->&_)]).
  - by rewrite (NoDup_fmap_eq _ _ m m' Hnd Hm Hm' ltac:(congruence)).
  - rewrite (NoDup_fmap_eq _ _ m (new_manifest_version uuid5 manifest_digest cm c now) Hnd Hm); try done.
    simpl. apply elem_of_app. right. apply list_elem_of_here.
Qed.

(** The columns of a created run beside those of its identity, and the context it points to. *)
Lemma create_columns c m role env stream case parent rid ur ue prod t db v db' :
  task_wf db →
  create_task_run uuid5 contract_digest manifest_digest c m role env stream case parent rid ur ue prod t db = (Ok v, db') →
  ∃ r mm, task_runs db' !! (if falsy rid then ur else default ur rid) = Some r ∧
    (run_case_id r, execution_envelope_ref r, created_at r, result_ref r, stop_reason r) = (case, env, t, None, None) ∧
    get_manifest_version (run_context_manifest_version_id r) db' = Some mm ∧
    manifest_key mm = (context_id m, context_revision m) ∧ cmv_content_hash mm = manifest_digest m.
Proof.
  unfold create_task_run. intros Hwf H. prog_inv H.
  assert (st = db) as ->.
  { destruct parent as [p|]; [|by prog_inv Hrun]. by apply check_parent_run_Ok in Hrun as (->&_). }
  rename Hrun0 into Hpc, Hrun1 into Hpm, Hrun2 into Hcm, Hrun3 into Hmm, Hrun4 into Happ.
  pose proof (persist_contract_wf _ _ _ _ _ Hwf Hpc) as Hwf1.
  pose proof (persist_manifest_wf _ _ _ _ _ Hwf1 Hpm) as Hwf2.
  apply contract_from_ref_Ok in Hcm as (->&Hcm&_). apply context_from_ref_Ok in Hmm as (->&Hmm&Hmk).
  apply split_versioned in Hmk. pose proof (persist_manifest_hash _ _ _ _ _ _ Hwf1 Hpm Hmm Hmk) as Hhash.
  apply append_extends in Happ as (_&Hruns&_&Hvers). cbn in Hruns, Hvers.
  set (rid' := if falsy rid then ur else default ur rid) in *.
  exists (new_run rid' v6 v7 c m role env case parent t), v7. rewrite Hruns, lookup_insert_eq. split; [done|]. split; [done|].
  split; [|by split]. pose proof (get_manifest_version_elem _ _ Hwf2 Hmm) as Hg. unfold get_manifest_version in *. by rewrite Hvers.
Qed.
Lemma run_extends_status r r' :
  (run_id r', run_contract_version_id r', run_task_contract_id r', run_task_contract_revision r',
   parent_run_id r', run_role_id r', run_case_id r', created_at r') =
  (run_id r, run_contract_version_id r, run_task_contract_id r, run_task_contract_revision r,
   parent_run_id r, run_role_id r, run_case_id r, created_at r) →
  status r' = status r ∨ task_run_step (status r) (status r') →
  is_terminal (status r) = false → run_extends r r'.
Proof.
  intros Hid Hs Ht. split; [done| |by rewrite Ht].
  destruct Hs as [->|Hs]; [done|by apply rtc_once].
Qed.

Lemma claim_good id stream ue prod t db v db' :
  task_wf db → claim_queued_task_run id stream ue prod t db = (Ok v, db') →
  good_step db db' ∧ contract_versions db' = contract_versions db ∧
  ∃ r, task_runs db !! id = Some r ∧
    if v is Some _ then status r = QUEUED ∧ task_runs db' = <[id := set_status RUNNING t r]> (task_runs db)
    else status r ≠ QUEUED ∧ db' = db.
Proof.
  unfold claim_queued_task_run. intros Hwf H. apply bind_Ok in H as (r&s1&Hr&H).
  apply lookup_run_Ok in Hr as [Hr ->]. pose proof (wf_run_key _ Hwf _ _ Hr) as Hid.
  case_bool_decide as Hq; [prog_inv H; split; [done|split; [done|by exists r]]|]. prog_inv H.
  eapply (put_append_good db (set_status RUNNING t r)) in Hrun as (Hg&Hruns&Hvers);
    [split; [done|split; [done|by exists r]]|done| |].
  - destruct (wf_runs _ Hwf _ _ Hr). by split.
  - simpl. intros old Ho. assert (old = r) as -> by congruence.
    apply run_extends_status; [done| |by rewrite Hq]. right. by rewrite Hq.
Qed.

Lemma transition_good id target payload key stream prod result stop ue t db v db' :
  task_wf db →
  transition_task_run id target payload key stream prod result stop ue t db = (Ok v, db') →
  good_step db db' ∧ contract_versions db' = contract_versions db ∧
  ∃ r, task_runs db !! id = Some r ∧
    task_runs db' = <[id := set_transition target result stop t r]> (task_runs db).
Proof.
  unfold transition_task_run. intros Hwf H. apply bind_Ok in H as (u&s0&H0&H). prog_inv H0.
  apply bind_Ok in H as (r&s1&Hr&H). apply lookup_run_Ok in Hr as [Hr ->]. prog_inv H.
  pose proof (wf_run_key _ Hwf _ _ Hr) as Hid. apply negb_false_iff in Hcheck1.
  subst id. eapply (put_append_good db (set_transition target result stop t r)) in Hrun
    as (Hg&Hruns&Hvers); [split; [done|split; [done|by exists r]]|done| |].
  - destruct (wf_runs _ Hwf _ _ Hr). by split.
  - simpl. intros old Ho. assert (old = r) as -> by congruence.
    apply run_extends_status; [done|by right|done].
Qed.

Lemma update_good id m stream ue prod t db v db' :
  task_wf db →
  update_task_context uuid5 manifest_digest id m stream ue prod t db = (Ok v, db') →
  good_step db db' ∧ contract_versions db' = contract_versions db ∧
  ∃ r r', task_runs db !! id = Some r ∧ status r' = status r ∧
    run_contract_version_id r' = run_contract_version_id r ∧ parent_run_id r' = parent_run_id r ∧
    task_runs db' = <[id := r']> (task_runs db).
Proof.
  unfold update_task_context. intros Hwf H. apply bind_Ok in H as (r&s1&Hr&H).
  apply lookup_run_Ok in Hr as [Hr ->]. prog_inv H.
  assert (st = db) as ->
    by (destruct (bool_decide (context_id m = run_context_id r)); by prog_inv Hrun).
  pose proof (persist_manifest_wf _ _ _ _ _ Hwf Hrun0) as Hwf1.
  pose proof (persist_manifest_versions _ _ _ _ _ Hrun0) as [Hruns Hvers].
  apply persist_manifest_extends in Hrun0.
  apply context_from_ref_Ok in Hrun1 as (->&Hmm&Hmk). apply split_versioned in Hmk.
  rewrite <- Hruns in Hr. pose proof (wf_run_key _ Hwf1 _ _ Hr) as Hid. subst id.
  eapply (put_append_good st0 (set_context v5 m t r)) in Hrun2 as ([Hwf2 Hext2]&Hruns2&Hvers2); [|done| |].
  - split; [split; [done|by transitivity st0]|]. split; [by rewrite Hvers2|].
    exists r, (set_context v5 m t r). rewrite <- Hruns. done.
  - destruct (wf_runs _ Hwf1 _ _ Hr). split; [done| |done|done].
    exists v5. split; [by apply get_manifest_version_elem|done].
  - simpl. intros old Ho. assert (old = r) as -> by congruence.
    by apply run_extends_status; [|left|].
Qed.

Lemma run_op_good op db : task_wf db → good_step db (run_op op db).2.
Proof.
  intros Hwf. unfold run_op.
  match goal with |- good_step _ (atomic ?m _).2 =>
    destruct (atomic_cases m db) as [(u&s'&Hm&->)|(e&s'&_&->)]; simpl; [|by split] end.
  destruct op; apply bind_Ok in Hm as (x&s1&Hm&Hret); apply ret_Ok in Hret as [_ ->].
  - split; [by eapply persist_contract_wf|by eapply persist_contract_extends].
  - split; [by eapply persist_manifest_wf|by eapply persist_manifest_extends].
  - by apply create_good in Hm as [? _].
  - by apply claim_good in Hm as [? _].
  - by apply update_good in Hm as [? _].
  - by apply transition_good in Hm as [? _].
  - split; [by eapply append_wf|by apply append_extends in Hm as [? _]].
Qed.

Lemma run_ops_good ops db : task_wf db → good_step db (run_ops ops db).
Proof.
  revert db; induction ops as [|op ops IH]; intros db Hwf; [by split|].
  destruct (run_op_good op db Hwf) as [Hwf1 He1]. destruct (IH _ Hwf1) as [Hwf2 He2].
  split; [done|]. by transitivity ((run_op op db).2).
Qed.

(** ** Running runs stay running until they are transitioned *)

Definition transitions (id : string) (op : task_op) : Prop :=
  match op with TransitionTaskRun id' _ _ _ _ _ _ _ _ _ => id' = id | _ => False end.

Lemma run_op_keeps_running op db id r :
  task_wf db → ¬ transitions id op → task_runs db !! id = Some r → status r = RUNNING →
  ∃ r', task_runs (run_op op db).2 !! id = Some r' ∧ status r' = RUNNING.
Proof.
  intros Hwf Hop Hr Hs. unfold run_op.
  match goal with |- ∃ _, task_runs (atomic ?m _).2 !! _ = _ ∧ _ =>
    destruct (atomic_cases m db) as [(u&s'&Hm&->)|(e&s'&_&->)]; simpl; [|by exists r] end.
  destruct op; apply bind_Ok in Hm as (x&s1&Hm&Hret); apply ret_Ok in Hret as [_ ->].
  - apply persist_contract_extends in Hm as He. exists r. split; [|done].
    by apply persist_contract_Ok in Hm as (_&[(_&->&_)|(_&->&_)]).
  - apply persist_manifest_versions in Hm as [-> _]. by exists r.
  - apply create_good in Hm as (_&r'&_&Hn&->&_); [|done]. exists r.
    rewrite lookup_insert_ne; [done|]. by intros Heq; rewrite Heq, Hr in Hn.
  - apply claim_good in Hm as (_&_&r0&Hr0&Hv); [|done].
    destruct x as [v|]; destruct Hv as [Hq ->]; [|by exists r].
    exists r. rewrite lookup_insert_ne; [done|]. intros ->. congruence.
  - apply update_good in Hm as (_&_&r0&r'&Hr0&Hst&_&_&->); [|done].
    destruct (decide (id0 = id)) as [->|].
    + exists r'. rewrite lookup_insert_eq. split; congruence.
    + exists r. by rewrite lookup_insert_ne.
  - apply transition_good in Hm as (_&_&r0&Hr0&->); [|done].
    exists r. by rewrite lookup_insert_ne.
  - apply append_extends in Hm as (_&->&_). by exists r.
Qed.

Lemma run_ops_keeps_running ops db id r :
  task_wf db → Forall (λ op, ¬ transitions id op) ops →
  task_runs db !! id = Some r → status r = RUNNING →
  ∃ r', task_runs (run_ops ops db) !! id = Some r' ∧ status r' = RUNNING.
Proof.
  intros Hwf Hops. revert db r Hwf. induction Hops as [|op ops Hop Hops IH]; intros db r Hwf Hr Hs;
    [by exists r|].
  destruct (run_op_keeps_running op db id r) as (r1&Hr1&Hs1); try done.
  by apply (IH _ r1); [apply run_op_good|..].
Qed.

(** ** Delegation in the store *)

(** The contract a run was created under. *)
Definition contract_of (db : TaskDB) (id : string) : option TaskContract :=
  r ← task_runs db !! id;
  m ← get_contract_version (run_contract_version_id r) db;
  Some (contract_json m).

(** A chain of runs below [parent], each created by the previous one. *)
Fixpoint run_chain (db : TaskDB) (parent : string) (children : list string) : Prop :=
  match children with
  | [] => True
  | child :: rest =>
      (∃ r, task_runs db !! child = Some r ∧ parent_run_id r = Some parent) ∧ run_chain db child rest
  end.

Lemma contract_of_extends db db' id c :
  db_extends db db' → contract_of db id = Some c → contract_of db' id = Some c.
Proof.
  intros Hext Hc. unfold contract_of in *. apply bind_Some in Hc as (r&Hr&Hc).
  apply bind_Some in Hc as (m&Hm&[= <-]).
  destruct (de_runs _ _ Hext _ _ Hr) as (r'&->&[Hid _ _]). simpl.
  assert (run_contract_version_id r' = run_contract_version_id r) as -> by congruence.
  destruct (de_contracts _ _ Hext) as [more Hmore]. unfold get_contract_version in *.
  by rewrite Hmore, find_app, Hm.
Qed.

Section collision_free.
(** The contracts presented to the store: validated objects whose digests do not collide. *)
Context (presented : TaskContract → Prop).
Context (collision_free : ∀ c1 c2, presented c1 → presented c2 →
  contract_digest c1 = contract_digest c2 → c1 = c2).

Definition presents (op : task_op) : Prop :=
  match op with
  | PersistContract c _ => presented c
  | CreateTaskRun c _ _ _ _ _ _ _ _ _ _ _ => presented c
  | _ => True
  end.

Record delegation_ok (db : TaskDB) : Prop := {
  do_wf : task_wf db;
  do_presented : ∀ m, m ∈ contract_versions db → presented (contract_json m);
  do_parent : ∀ k r p, task_runs db !! k = Some r → parent_run_id r = Some p →
    ∃ pc cc, contract_of db p = Some pc ∧ contract_of db k = Some cc ∧
      check_allowed (validate_child_contract pc cc) = true
}.

Lemma persist_contract_presented c now db r db' :
  presented c → (∀ m, m ∈ contract_versions db → presented (contract_json m)) →
  persist_task_contract uuid5 contract_digest c now db = (Ok r, db') →
  ∀ m, m ∈ contract_versions db' → presented (contract_json m).
Proof.
  intros Hc Hdb (_&[(_&->&_)|(_&->&_)])%persist_contract_Ok m; [apply Hdb|].
  simpl. intros [?| ->%list_elem_of_singleton]%elem_of_app; [by apply Hdb|done].
Qed.

(** A step that keeps every run's identity keeps the invariant. *)
Lemma delegation_ok_step db db' :
  delegation_ok db → good_step db db' →
  (∀ m, m ∈ contract_versions db' → presented (contract_json m)) →
  (∀ k r, task_runs db' !! k = Some r → ∃ r0, task_runs db !! k = Some r0) →
  delegation_ok db'.
Proof.
  intros [_ _ Hpar] [Hwf' Hext] Hp Hruns. split; [done|done|].
  intros k r p Hr Hparent. destruct (Hruns k r Hr) as [r0 Hr0].
  destruct (de_runs _ _ Hext k r0 Hr0) as (r1&Hr1&[Hid _ _]).
  assert (r1 = r) as -> by congruence.
  destruct (Hpar k r0 p Hr0) as (pc&cc&Hpc&Hcc&Hok); [congruence|].
  exists pc, cc. split_and!; [by eapply contract_of_extends..|done].
Qed.

Lemma create_delegation_ok c m role env stream case parent rid ur ue prod t db v db' :
  delegation_ok db → presented c →
  create_task_run uuid5 contract_digest manifest_digest c m role env stream case parent rid ur ue prod t db
    = (Ok v, db') →
  delegation_ok db'.
Proof.
  intros Hok Hc Hrun. pose proof (do_wf _ Hok) as Hwf.
  destruct (create_good _ _ _ _ _ _ _ _ _ _ _ _ _ _ _ Hwf Hrun)
    as ([Hwf' Hext]&r&cm&Hnew&Hruns&_&Hpr&Hcm&Hhash&(d&Hd&Hvers)&_&Hparent).
  assert (∀ m0, m0 ∈ contract_versions db' → presented (contract_json m0)) as Hpres.
  { rewrite Hvers. eapply persist_contract_presented; [done|by apply do_presented|done]. }
  split; [done|done|]. intros k r' p. rewrite Hruns, lookup_insert_Some.
  intros [[<- <-]|[Hne Hr']] Hp.
  - rewrite Hpr in Hp. destruct (Hparent p Hp) as (pr&pc&Hpr'&_&Hpc&Hallow).
    exists (contract_json pc), c. split_and!; [| |done].
    + eapply contract_of_extends; [done|]. unfold contract_of. rewrite Hpr'. simpl. by rewrite Hpc.
    + unfold contract_of. rewrite Hruns, lookup_insert_eq. simpl. rewrite Hcm. simpl. f_equal.
      apply find_elem in Hcm as [Hin _]. apply collision_free; [by apply Hpres|done|].
      rewrite <- Hhash. symmetry. by apply (proj1 (Forall_forall _ _) (wf_contracts _ Hwf')).
  - destruct (do_parent _ Hok k r' p Hr' Hp) as (pc&cc&?&?&?). exists pc, cc.
    split_and!; [by eapply contract_of_extends..|done].
Qed.

Lemma run_op_delegation_ok op db : delegation_ok db → presents op → delegation_ok (run_op op db).2.
Proof.
  intros Hok Hop. pose proof (do_wf _ Hok) as Hwf. pose proof (run_op_good op db Hwf) as Hgood.
  revert Hgood. unfold run_op.
  match goal with |- context [atomic ?m _] =>
    destruct (atomic_cases m db) as [(u&s'&Hm&->)|(e&s'&_&->)]; simpl; [|done] end.
  intros Hgood.
  destruct op; apply bind_Ok in Hm as (x&s1&Hm&Hret); apply ret_Ok in Hret as [_ ->].
  - apply delegation_ok_step with db; [done|done| |].
    + eapply persist_contract_presented; [done|by apply do_presented|done].
    + apply persist_contract_Ok in Hm as (_&[(_&->&_)|(_&->&_)]); eauto.
  - apply persist_manifest_versions in Hm as [Hr Hv].
    apply delegation_ok_step with db; [done|done| |]; rewrite ?Hr, ?Hv; [by apply do_presented|eauto].
  - by eapply create_delegation_ok.
  - apply claim_good in Hm as (_&Hv&r0&Hr0&Hc); [|done].
    apply delegation_ok_step with db; [done|done|rewrite Hv; by apply do_presented|].
    intros k r. destruct x; destruct Hc as [_ ->]; [|eauto]. rewrite lookup_insert_Some.
    intros [[<- _]|[_ ?]]; eauto.
  - apply update_good in Hm as (_&Hv&r0&r'&Hr0&_&_&_&Hruns); [|done].
    apply delegation_ok_step with db; [done|done|rewrite Hv; by apply do_presented|].
    intros k r. rewrite Hruns, lookup_insert_Some. intros [[<- _]|[_ ?]]; eauto.
  - apply transition_good in Hm as (_&Hv&r0&Hr0&Hruns); [|done].
    apply delegation_ok_step with db; [done|done|rewrite Hv; by apply do_presented|].
    intros k r. rewrite Hruns, lookup_insert_Some. intros [[<- _]|[_ ?]]; eauto.
  - apply append_extends in Hm as (_&Hr&Hv&_).
    apply delegation_ok_step with db; [done|done| |]; rewrite ?Hr, ?Hv; [by apply do_presented|eauto].
Qed.

Lemma run_ops_delegation_ok ops db :
  delegation_ok db → Forall presents ops → delegation_ok (run_ops ops db).
Proof.
  intros Hok Hops. revert db Hok. induction Hops as [|op ops Hop _ IH]; intros db Hok; [done|].
  simpl. apply IH. by apply run_op_delegation_ok.
Qed.

Lemma run_chain_delegation db id c children :
  delegation_ok db → contract_of db id = Some c → run_chain db id children →
  ∃ contracts, Forall2 (λ k c, contract_of db k = Some c) children contracts ∧
    delegation_chain c contracts.
Proof.
  intros Hok. revert id c. induction children as [|k rest IH]; intros id c Hc; simpl.
  - intros _. exists []. by split; [constructor|].
  - intros [(r&Hr&Hp) Hrest]. destruct (do_parent _ Hok k r id Hr Hp) as (pc&cc&Hpc&Hcc&Hallow).
    assert (pc = c) as -> by congruence. destruct (IH k cc Hcc Hrest) as (cs&Hcs&Hchain).
    exists (cc :: cs). by split; [constructor|].
Qed.
End collision_free.
End invariant.

Lemma db_extends_refl db : db_extends db db.
Proof. split; try done. intros k r Hr. by exists r. Qed.

(** ** Recorded keys *)

Lemma append_key_recorded new_id id ty prod base payload key stream t db r db' :
  append_task_event new_id id ty prod base payload key stream t db = (Ok r, db') →
  is_Some (find_event id key db').
Proof.
  intros (run&_&[(_&->&e&->&_)|(_&Hf&_&_&->)])%append_Ok; [by eexists|].
  unfold find_event in *. simpl. rewrite find_app, Hf. simpl. by rewrite !bool_decide_eq_true_2.
Qed.

Lemma find_event_extends db db' id key e :
  db_extends db db' → find_event id key db = Some e → find_event id key db' = Some e.
Proof.
  intros Hext He. destruct (de_events _ _ Hext) as [more Hmore]. unfold find_event in *.
  by rewrite Hmore, find_app, He.
Qed.

Lemma transition_key_recorded id target payload key stream prod result stop ue t db v db' :
  transition_task_run id target payload key stream prod result stop ue t db = (Ok v, db') →
  is_Some (find_event id key db').
Proof. unfold transition_task_run. intros H. prog_inv H. by eapply append_key_recorded. Qed.

(** A transition whose guards hold and whose key is fresh. *)
Lemma transition_run db id target payload key stream prod result stop ue t r :
  task_runs db !! id = Some r → run_id r = id →
  is_terminal (status r) = false → can_transition_task_run (status r) target = true →
  match stop with Some s => slen s ≤ 128 | None => True end →
  find_event id key db = None → ue ∉ (event_id <$> task_events db) →
  base_context_revision r = run_context_revision r → 1 ≤ run_context_revision r →
  py_blank prod = false → py_blank payload = false → py_blank key = false →
  0 ≤ max_seq (run_events id db) →
  ∃ v, transition_task_run id target payload key stream prod result stop ue t db = (Ok v,
    add_event (appended ue r id (event_for_transition target) prod (run_context_revision r) payload key t db)
      (mkTaskEventDeliveryModel ue stream PENDING 0 t None None None)
      (put_run (set_transition target result stop t r) db)) ∧ tr_status v = target.
Proof.
  intros Hr Hid Ht Hc Hs Hf Hn Hb H1 Hp Hpay Hk Hseq. unfold transition_task_run, append_task_event, lookup_run, require.
  run_step.
  assert (match stop with Some s => 128 <? slen s | None => false end = false) as ->
    by (destruct stop; lia).
  rewrite Hr, Ht, Hc. simpl. rewrite Hid, lookup_insert_eq. unfold find_event in *. simpl. rewrite Hf.
  rewrite bool_decide_eq_false_2 by done.
  change (run_events id (put_run (set_transition target result stop t r) db)) with (run_events id db).
  assert (∀ e, te_producer (event_view e) = prod → te_payload_ref (event_view e) = payload →
    te_idempotency_key (event_view e) = key → 1 ≤ seq e → 1 ≤ ev_base_context_revision e →
    task_event_view e = Ok (event_view e)) as Hview.
  { intros e <- <- <- H2 H3. unfold task_event_view, validate_non_empty_identity. simpl.
    destruct (Z.ltb_spec (seq e) 1); [lia|]. destruct (Z.ltb_spec (ev_base_context_revision e) 1); [lia|].
    simpl in *. by rewrite Hp, Hpay, Hk. }
  rewrite Hview by (done || (simpl; lia)). unfold task_run_view, make_TaskRun. simpl. rewrite Hb.
  destruct (Z.ltb_spec (run_context_revision r) 1); [lia|].
  assert (match stop with Some s => 128 <? slen s | None => false end = false) as ->
    by (destruct stop; lia).
  eexists. split; [done|done].
Qed.

(** ** A concrete history *)

Definition id_uuid5 (s : string) : string := s.

Definition sample_manifest (id contract role : string) (revision : Z) (parent : option string)
  : ContextManifest :=
  mkContextManifest id revision parent contract role None None None [] [] [] [] [] None None None [] []
    "policy:1" "envelope:1" "budget:1" None.

Definition sample_ops : list task_op := [
  CreateTaskRun sample_root (sample_manifest "ctx-root" "root@1" "InvestigationRole@1" 1 None)
    InvestigationRole "env-1" "events" None None (Some "r0"%string) "" "e0" "task-runtime" 10;
  TransitionTaskRun "r0" QUEUED "submit" "k1" "events" "task-runtime" None None "e1" 20;
  ClaimQueuedTaskRun "r0" "events" "e2" "executor" 30;
  CreateTaskRun sample_child (sample_manifest "ctx-child" "child@1" "EnrichmentRole@1" 1 None)
    EnrichmentRole "env-2" "events" None (Some "r0"%string) (Some "r1"%string) "" "e3" "task-runtime" 40;
  TransitionTaskRun "r1" QUEUED "submit" "k1" "events" "task-runtime" None None "e4" 50].

Definition sample_store : TaskDB := run_ops id_uuid5 tc_id context_id sample_ops empty_TaskDB.

Lemma sample_store_wf : task_wf tc_id context_id sample_store.
Proof. apply run_ops_good, empty_wf. Qed.

Example sample_store_runs :
  (status <$> (task_runs sample_store !! "r0"%string), status <$> (task_runs sample_store !! "r1"%string),
   length (task_events sample_store)) = (Some RUNNING, Some QUEUED, 5%nat).
Proof. by vm_compute. Qed.

(** ** Properties of the store *)

(** C8. In every history of the store: contract and manifest versions are unique per (id, revision)
    and their hash is the digest of the stored object; every run points to existing versions that say
    what its columns say, and to an existing parent; the events of a run are numbered 1, 2, 3, ...
    without gaps and have distinct idempotency keys; and the outbox has exactly one row per event. *)
Theorem task_store_wf uuid5 contract_digest manifest_digest ops :
  task_wf contract_digest manifest_digest
    (run_ops uuid5 contract_digest manifest_digest ops empty_TaskDB).
Proof. apply run_ops_good, empty_wf. Qed.

(** C9. Histories are monotone: from any point of a history to any later one, the versions, the event
    log and the outbox are only appended to (a persisted revision is immutable), no run disappears or
    changes its identity, every status change follows [TASK_RUN_TRANSITIONS], and an ended run keeps
    all its columns. *)
Theorem task_history_monotone uuid5 contract_digest manifest_digest ops1 ops2 :
  db_extends (run_ops uuid5 contract_digest manifest_digest ops1 empty_TaskDB)
    (run_ops uuid5 contract_digest manifest_digest (ops1 ++ ops2) empty_TaskDB).
Proof.
  unfold run_ops. rewrite foldl_app.
  apply (run_ops_good uuid5 contract_digest manifest_digest ops2), task_store_wf.
Qed.

(** C10. [claim_queued_task_run]: a claim that returns a run found it queued and leaves it running; as
    long as nobody transitions that run, every later claim, after any other operations of the store
    in any order, returns [None] and changes nothing. *)
Theorem claim_single_winner uuid5 contract_digest manifest_digest db id s ue p t v db1 ops s' ue' p' t' :
  task_wf contract_digest manifest_digest db →
  claim_queued_task_run id s ue p t db = (Ok (Some v), db1) →
  Forall (λ op, ¬ transitions id op) ops →
  (∃ r, task_runs db !! id = Some r ∧ status r = QUEUED) ∧ tr_status v = RUNNING ∧
  let db2 := run_ops uuid5 contract_digest manifest_digest ops db1 in
  claim_queued_task_run id s' ue' p' t' db2 = (Ok None, db2).
Proof.
  intros Hwf Hclaim Hops.
  destruct (claim_good _ _ _ _ _ _ _ _ _ _ Hwf Hclaim) as ([Hwf1 _]&_&r&Hr&Hq&Hruns).
  split; [by exists r|]. split.
  - unfold claim_queued_task_run in Hclaim. apply bind_Ok in Hclaim as (r'&s1&Hr'&Hclaim).
    rewrite bool_decide_eq_false_2 in Hclaim by (apply lookup_run_Ok in Hr' as [? _]; naive_solver).
    prog_inv Hclaim. unfold task_run_view, make_TaskRun in Hlift.
    repeat case_match; simplify_eq/=; done.
  - destruct (run_ops_keeps_running uuid5 contract_digest manifest_digest ops db1 id (set_status RUNNING t r))
      as (r2&Hr2&Hs2); [done|done|by rewrite Hruns, lookup_insert_eq|done|].
    cbv zeta. unfold claim_queued_task_run, lookup_run, require. run_step. rewrite Hr2.
    rewrite bool_decide_eq_true_2; [done|]. by rewrite Hs2.
Qed.

Lemma claim_single_winner_witness :
  let db := sample_store in
  ∃ v db1, claim_queued_task_run "r1" "events" "e5" "worker-a" 60 db = (Ok (Some v), db1) ∧
  let db2 := run_ops id_uuid5 tc_id context_id
    [TransitionTaskRun "r0" WAITING_DEPENDENCY "wait" "k9" "events" "role" None None "e6" 70] db1 in
  claim_queued_task_run "r1" "events" "e7" "worker-b" 80 db2 = (Ok None, db2).
Proof.
  intros db. destruct (claim_queued_task_run "r1" "events" "e5" "worker-a" 60 db) as [r db1] eqn:Hrun.
  destruct r as [[v|]|e]; [|apply (f_equal fst) in Hrun; vm_compute in Hrun; discriminate..].
  exists v, db1. split; [done|].
  apply (claim_single_winner id_uuid5 tc_id context_id db "r1" "events" "e5" "worker-a" 60 v db1);
    [apply run_ops_good, empty_wf|exact Hrun|by repeat constructor; simpl].
Defined.

Lemma append_replay db new_id id ty prod base payload key stream t run e :
  task_runs db !! id = Some run → find_event id key db = Some e →
  append_task_event new_id id ty prod base payload key stream t db =
  (match task_event_view e with
   | Ok view => Ok (mkTaskEventAppendResult view true) | Err x => Err x end, db).
Proof.
  intros Hrun Hf. unfold append_task_event, lookup_run, require. run_step. rewrite Hrun, Hf.
  by destruct (task_event_view e).
Qed.

(** [append_task_event] on every branch: a missing run is a [LookupError]; a key the run has used
    returns the recorded event and changes nothing; otherwise the event gets the next number of the
    run and one pending outbox row, and repeating the call with the same key (whatever its other
    arguments) returns that event and changes nothing. *)
Theorem append_task_event_spec contract_digest manifest_digest db new_id id ty prod base payload key stream t :
  task_wf contract_digest manifest_digest db →
  let call := append_task_event new_id id ty prod base payload key stream t in
  (task_runs db !! id = None → call db = (Err (LookupError "task run not found" id), db)) ∧
  (∀ run, task_runs db !! id = Some run →
    (∀ e, find_event id key db = Some e →
      call db = (match task_event_view e with
                 | Ok view => Ok (mkTaskEventAppendResult view true) | Err x => Err x end, db)) ∧
    (find_event id key db = None → new_id ∉ (event_id <$> task_events db) →
      let e := appended new_id run id ty prod base payload key t db in
      let db' := add_event e (mkTaskEventDeliveryModel new_id stream PENDING 0 t None None None) db in
      seq e = Z.of_nat (length (run_events id db)) + 1 ∧
      (task_event_view e = Ok (event_view e) →
        call db = (Ok (mkTaskEventAppendResult (event_view e) false), db') ∧
        ∀ new_id' ty' prod' base' payload' stream' t',
          append_task_event new_id' id ty' prod' base' payload' key stream' t' db'
            = (Ok (mkTaskEventAppendResult (event_view e) true), db')))).
Proof.
  intros Hwf. cbv zeta. split.
  { intros Hrun. unfold append_task_event, lookup_run, require. run_step. by rewrite Hrun. }
  intros run Hrun. split; [|intros Hf Hnew; split].
  - intros e He. by eapply append_replay.
  - simpl. by rewrite (max_seq_count contract_digest manifest_digest).
  - intros Hview. split.
    + unfold append_task_event, lookup_run, require. run_step. rewrite Hrun, Hf.
      rewrite bool_decide_eq_false_2 by done. fold (appended new_id run id ty prod base payload key t db).
      by rewrite Hview.
    + intros. erewrite append_replay; [by rewrite Hview|done|].
      unfold find_event in *. simpl. rewrite find_app, Hf. simpl. by rewrite !bool_decide_eq_true_2.
Qed.

Lemma append_task_event_spec_witness :
  (append_task_event "e9" "r1" PROGRESS "role" 1 "p" "progress:1" "events" 90 sample_store).1
    = Ok (mkTaskEventAppendResult (mkTaskEvent "e9" "r1" (Some "r0"%string) 3 PROGRESS "role" 1 "p"
            "progress:1" 90) false) ∧
  append_task_event "e9" "nope" PROGRESS "role" 1 "p" "progress:1" "events" 90 sample_store
    = (Err (LookupError "task run not found" "nope"), sample_store).
Proof.
  split; [by vm_compute|].
  assert (task_runs sample_store !! "nope"%string = None) as Hnone by by vm_compute.
  assert (task_wf tc_id context_id sample_store) as Hwf by (apply run_ops_good, empty_wf).
  exact (proj1 (append_task_event_spec tc_id context_id sample_store "e9" "nope" PROGRESS "role" 1 "p"
    "progress:1" "events" 90 Hwf) Hnone).
Defined.

(** Delegation through the store: when the contracts presented to it are validated and their
    digests do not collide, every chain of child runs below a run is at most as long as the
    [max_depth] of that run's contract, and no run of the chain has effects above its ceiling. *)
Theorem delegation_tree_bounded uuid5 contract_digest manifest_digest presented ops root c children :
  (∀ c1 c2, presented c1 → presented c2 → contract_digest c1 = contract_digest c2 → c1 = c2) →
  (∀ c, presented c → validate_execution_contract c = Ok c) →
  Forall (presents presented) ops →
  let db := run_ops uuid5 contract_digest manifest_digest ops empty_TaskDB in
  contract_of db root = Some c → run_chain db root children →
  Z.of_nat (length children) ≤ max_depth (delegation_ceiling c) ∧
  ∀ k, k ∈ children → ∃ ck, contract_of db k = Some ck ∧
    effect_within_ceiling (effect_ceiling ck) (effect_ceiling c) = true.
Proof.
  intros Hcoll Hvalid Hops db Hc Hchain.
  assert (delegation_ok contract_digest manifest_digest presented db) as Hok.
  { apply run_ops_delegation_ok; [done| |done]. split; [apply empty_wf|..].
    - intros m Hm. by apply not_elem_of_nil in Hm.
    - intros k r p Hr. done. }
  destruct (run_chain_delegation _ _ _ db root c children Hok Hc Hchain) as (cs&Hcs&Hdel).
  assert (presented c) as Hp.
  { unfold contract_of in Hc. apply bind_Some in Hc as (r&_&Hc). apply bind_Some in Hc as (m&Hm&[= <-]).
    apply find_elem in Hm as [Hm _]. by apply (do_presented _ _ _ _ Hok). }
  destruct (delegation_chain_limits c cs (Hvalid c Hp) Hdel) as [Hl He].
  split; [by rewrite (Forall2_length _ _ _ Hcs)|].
  intros k [i Hi]%list_elem_of_lookup. destruct (Forall2_lookup_l _ _ _ _ _ Hcs Hi) as (ck&Hck&Hk).
  exists ck. split; [done|]. by apply (Forall_lookup_1 _ _ _ _ He Hck).
Qed.

Lemma delegation_tree_bounded_witness :
  let db := sample_store in
  run_chain db "r0" ["r1"%string] ∧
  ∃ ck, contract_of db "r1" = Some ck ∧
    effect_within_ceiling (effect_ceiling ck) (effect_ceiling sample_root) = true.
Proof.
  intros db. assert (run_chain db "r0" ["r1"%string]) as Hchain.
  { assert (parent_run_id <$> (task_runs db !! "r1"%string) = Some (Some "r0"%string)) as Hr
      by by vm_compute.
    apply fmap_Some in Hr as (r&Hr&Hp). exact (conj (ex_intro _ r (conj Hr (eq_sym Hp))) I). }
  split; [exact Hchain|].
  destruct (delegation_tree_bounded id_uuid5 tc_id context_id (λ c, c = sample_root ∨ c = sample_child)
           sample_ops "r0" sample_root ["r1"%string]) as [_ Heffect];
    [| | |by vm_compute|exact Hchain|exact (Heffect _ (list_elem_of_here _ _))].
  - intros c1 c2 [->| ->] [->| ->]; done.
  - intros c [->| ->]; by vm_compute.
  - unfold sample_ops. rewrite !Forall_cons. simpl. auto 10.
Defined.
