(* ===== verification/TaskScheduler.v ===== *)
(** * TaskScheduler: packages/task_runtime/scheduler (service.py, executor.py)

    [DependencyWakeScheduler] turns an event of a child run into the wake-up of the parent that waits
    for it; [QueuedRoleExecutor] claims a queued run and hands it to its role's handler.  Both work on
    the store of [TaskStore].  A role handler is code the executor is given: any [prog TaskDB unit]. *)

From S2P Require Import Prelude.
From S2P Require Import Effects.
From S2P Require Import TaskContracts.
From S2P Require Import TaskStore.

(** ** service.py *)

Definition DEPENDENCY_WAKE_EVENT_TYPES : list TaskEventType :=
  [ENRICHMENT_STATE_CHANGED; TASK_COMPLETED; TASK_BLOCKED; TASK_FAILED; TASK_CANCELED].

Inductive DependencyWakeDisposition :=
| WAKE_QUEUED | REPLAY | IRRELEVANT_EVENT | NO_PARENT | PARENT_NOT_WAITING | DIFFERENT_DEPENDENCY.

Record DependencyWakeResult := mkDependencyWakeResult {
  source_event_id : string;
  child_run_id : string;
  wake_parent_run_id : option string;
  disposition : DependencyWakeDisposition
}.

#[export] Instance DependencyWakeDisposition_eq_dec : EqDecision DependencyWakeDisposition.
Proof. solve_decision. Defined.

(** [DependencyWakeResult.queued] *)
Definition wake_queued (r : DependencyWakeResult) : bool := bool_decide (disposition r = WAKE_QUEUED).

(** [_wake_idempotency_key] *)
Definition wake_idempotency_key (parent_run_id source_event_id : string) : string :=
  "dependency-wake:" +:+ parent_run_id +:+ ":" +:+ source_event_id.

(** [DependencyWakeScheduler._result] *)
Definition wake_result (event : TaskEvent) (d : DependencyWakeDisposition) : DependencyWakeResult :=
  mkDependencyWakeResult (te_event_id event) (te_task_run_id event) (te_parent_run_id event) d.

(** [DependencyWakeScheduler.process_event] *)
Definition process_event (scheduler_stream : string) (event : TaskEvent) (uuid_event : string) (now : Z)
  : prog TaskDB DependencyWakeResult :=
  if bool_decide (te_event_type event ∉ DEPENDENCY_WAKE_EVENT_TYPES)
  then mret (wake_result event IRRELEVANT_EVENT)
  else match te_parent_run_id event with
  | None => mret (wake_result event NO_PARENT)
  | Some parent_id =>
      let wake_key := wake_idempotency_key parent_id (te_event_id event) in
      db ← get_store;
      if bool_decide (is_Some (find_event parent_id wake_key db))
      then mret (wake_result event REPLAY)
      else match task_runs db !! te_task_run_id event with
      | None => mret (wake_result event NO_PARENT)
      | Some child =>
          if bool_decide (parent_run_id child ≠ Some parent_id)
          then mret (wake_result event NO_PARENT)
          else match task_runs db !! parent_id with
          | None => mret (wake_result event NO_PARENT)
          | Some parent =>
              if bool_decide (status parent ≠ WAITING_DEPENDENCY)
              then mret (wake_result event PARENT_NOT_WAITING)
              else if bool_decide (dependency_run_id (stop_reason parent) ≠ Some (te_task_run_id event))
              then mret (wake_result event DIFFERENT_DEPENDENCY)
              else
                _ ← transition_task_run (run_id parent) QUEUED
                      ("dependency-wake:" +:+ te_task_run_id event +:+ ":"
                        +:+ TaskEventType_value (te_event_type event))
                      wake_key scheduler_stream "task-runtime-scheduler" None None uuid_event now;
                mret (wake_result event WAKE_QUEUED)
          end
      end
  end.

(** ** executor.py *)

Inductive RoleDispatchDisposition := EXECUTED | NOT_QUEUED | UNSUPPORTED_ROLE.

Record RoleDispatchResult := mkRoleDispatchResult {
  rd_run_id : string;
  rd_role_id : string;
  rd_disposition : RoleDispatchDisposition;
  final_status : TaskRunStatus
}.

Definition RoleRunHandler : Type := string → prog TaskDB unit.

Record QueuedRoleExecutor := mkQueuedRoleExecutor {
  handlers : list (string * RoleRunHandler);
  executor_stream : string
}.

(** What [execute] does when the handler raises [exc]. *)
Definition fail_running_run (self : QueuedRoleExecutor) (id : string) (exc : exn) (uuid_event : string)
  (now : Z) : prog TaskDB unit :=
  atomic
    (current ← get_task_run id;
     if bool_decide (tr_status current = RUNNING) then
       let error_type := type_name exc in
       _ ← transition_task_run id FAILED ("role-executor-error:" +:+ error_type)
             ("role-executor-failed:" +:+ id +:+ ":" +:+ error_type) (executor_stream self)
             "task-runtime-executor" None (Some ("role_executor_error:" +:+ error_type)) uuid_event now;
       mret tt
     else mret tt).

(** [QueuedRoleExecutor.execute].  The sessions opened without [begin()] only read. *)
Definition execute (self : QueuedRoleExecutor) (id uuid_claim uuid_fail : string) (now_claim now_fail : Z)
  : prog TaskDB RoleDispatchResult :=
  run ← get_task_run id;
  match dict_get (tr_role_id run) (handlers self) with
  | None => mret (mkRoleDispatchResult id (tr_role_id run) UNSUPPORTED_ROLE (tr_status run))
  | Some handler =>
      claimed ← atomic (claim_queued_task_run id (executor_stream self) uuid_claim
                          "task-runtime-executor" now_claim);
      match claimed with
      | None =>
          current ← get_task_run id;
          mret (mkRoleDispatchResult id (tr_role_id current) NOT_QUEUED (tr_status current))
      | Some claimed =>
          _ ← try_catch (handler id)
                (λ exc, _ ← fail_running_run self id exc uuid_fail now_fail; raise exc);
          final ← get_task_run id;
          mret (mkRoleDispatchResult id (tr_role_id claimed) EXECUTED (tr_status final))
      end
  end.

(** ** Waking a waiting parent *)

(** The conditions under which an event wakes its parent. *)
Record wakes (db : TaskDB) (event : TaskEvent) (parent : TaskRunModel) : Prop := {
  wk_type : te_event_type event ∈ DEPENDENCY_WAKE_EVENT_TYPES;
  wk_child : ∃ child, task_runs db !! te_task_run_id event = Some child ∧
    parent_run_id child = te_parent_run_id event;
  wk_parent : ∃ p, te_parent_run_id event = Some p ∧ task_runs db !! p = Some parent;
  wk_waiting : status parent = WAITING_DEPENDENCY;
  wk_dependency : dependency_run_id (stop_reason parent) = Some (te_task_run_id event)
}.

Definition wake_key (event : TaskEvent) : string :=
  wake_idempotency_key (default ""%string (te_parent_run_id event)) (te_event_id event).

Lemma process_event_cases stream event ue now db r db' :
  process_event stream event ue now db = (Ok r, db') →
  (r = wake_result event (disposition r) ∧ disposition r ≠ WAKE_QUEUED ∧ db' = db) ∨
  (∃ p parent v, r = wake_result event WAKE_QUEUED ∧ te_parent_run_id event = Some p ∧
    wakes db event parent ∧ task_runs db !! p = Some parent ∧
    find_event p (wake_key event) db = None ∧
    transition_task_run (run_id parent) QUEUED
      ("dependency-wake:" +:+ te_task_run_id event +:+ ":" +:+ TaskEventType_value (te_event_type event))
      (wake_key event) stream "task-runtime-scheduler" None None ue now db = (Ok v, db')).
Proof.
  unfold process_event. case_bool_decide as Hty; [intros H; left; prog_inv H; done|].
  unfold wake_key. destruct (te_parent_run_id event) as [p|] eqn:Hp; simpl; [|intros H; left; by prog_inv H].
  intros H. apply bind_Ok in H as (s0&s1&H0&H). prog_inv H0.
  case_bool_decide as Hprior; [left; by prog_inv H|]. apply eq_None_not_Some in Hprior.
  destruct (task_runs db !! te_task_run_id event) as [child|] eqn:Hc; [|left; by prog_inv H].
  case_bool_decide as Hcp; [left; by prog_inv H|].
  destruct (task_runs db !! p) as [parent|] eqn:Hpar; [|left; by prog_inv H].
  case_bool_decide as Hw; [left; by prog_inv H|]. case_bool_decide as Hd; [left; by prog_inv H|].
  apply bind_Ok in H as (v&s2&Ht&H). prog_inv H. right. exists p, parent, v. split_and!; try done.
  split; try done; [by exists child; rewrite Hp|by exists p].
Qed.

(** C35. [DependencyWakeScheduler.process_event]: an event requeues a run only when it is of a waking
    type, comes from a child of that run, and the run is waiting for exactly that child; every other
    outcome leaves the store alone; and once an event has woken its parent, processing it again at
    any later time is a replay without effect. *)
Theorem wake_at_most_once contract_digest manifest_digest stream event ue now db r db1 :
  task_wf contract_digest manifest_digest db →
  process_event stream event ue now db = (Ok r, db1) →
  if wake_queued r then
    (∃ p parent, te_parent_run_id event = Some p ∧ wakes db event parent ∧
      ∃ parent', task_runs db1 !! p = Some parent' ∧ status parent' = QUEUED ∧ stop_reason parent' = None) ∧
    ∀ stream' ue' now' db2, db_extends db1 db2 →
      process_event stream' event ue' now' db2 = (Ok (wake_result event REPLAY), db2)
  else db1 = db.
Proof.
  intros Hwf [(_&Hd&->)|(p&parent&v&->&Hp&Hwakes&Hpar&Hfind&Ht)]%process_event_cases.
  { by assert (wake_queued r = false) as -> by by apply bool_decide_eq_false_2. }
  change (wake_queued (wake_result event WAKE_QUEUED)) with true. cbv iota.
  pose proof (wf_run_key _ _ _ Hwf _ _ Hpar) as Hid. split.
  - exists p, parent. split; [done|]. split; [done|].
    destruct (transition_good contract_digest manifest_digest _ _ _ _ _ _ _ _ _ _ _ _ _ Hwf Ht)
      as (_&_&r&Hr&->). rewrite Hid, lookup_insert_eq. by eexists.
  - intros stream' ue' now' db2 Hext. apply transition_key_recorded in Ht as [e He].
    rewrite Hid in He. apply (find_event_extends _ _ _ _ _ Hext) in He.
    unfold process_event. rewrite bool_decide_eq_false_2 by (destruct Hwakes; naive_solver).
    rewrite Hp. unfold wake_key in He. rewrite Hp in He. run_step. simpl in He. rewrite He.
    by rewrite bool_decide_eq_true_2.
Qed.

(** C36. An event of a waking type that comes from a child of a run and has not woken it yet: the
    run is requeued exactly when it waits, at the time the event is handled, for the child that the
    event is of (its stop reason is the one that [task_dependency_reason] makes for the child).  A run
    that waits for another child or does not wait keeps its row, and no trace of the event is left: a
    run that stops to wait for its child only after the event was handled is not woken by it
    ([wake_up_lost]). *)
Theorem wake_required contract_digest manifest_digest stream event ue now db p parent child reason :
  task_wf contract_digest manifest_digest db →
  te_event_type event ∈ DEPENDENCY_WAKE_EVENT_TYPES →
  task_runs db !! te_task_run_id event = Some child →
  parent_run_id child = Some p → te_parent_run_id event = Some p →
  task_runs db !! p = Some parent →
  py_strip (te_task_run_id event) = te_task_run_id event →
  task_dependency_reason (te_task_run_id event) = Ok reason →
  1 ≤ run_context_revision parent → ue ∉ (event_id <$> task_events db) →
  find_event p (wake_idempotency_key p (te_event_id event)) db = None →
  (status parent = WAITING_DEPENDENCY → stop_reason parent = Some reason →
    ∃ db1, process_event stream event ue now db = (Ok (wake_result event WAKE_QUEUED), db1) ∧
      ∃ parent', task_runs db1 !! p = Some parent' ∧ status parent' = QUEUED) ∧
  (status parent = WAITING_DEPENDENCY → dependency_run_id (stop_reason parent) ≠ Some (te_task_run_id event) →
    process_event stream event ue now db = (Ok (wake_result event DIFFERENT_DEPENDENCY), db)) ∧
  (status parent ≠ WAITING_DEPENDENCY →
    process_event stream event ue now db = (Ok (wake_result event PARENT_NOT_WAITING), db)).
Proof.
  intros Hwf Hty Hc Hcp Hp Hpar Hstrip Hreason Hrev Hue Hfind.
  pose proof (wf_run_key _ _ _ Hwf _ _ Hpar) as Hid.
  assert (∀ db0, db0 = db → process_event stream event ue now db0 =
    if bool_decide (status parent ≠ WAITING_DEPENDENCY)
    then (Ok (wake_result event PARENT_NOT_WAITING), db0)
    else if bool_decide (dependency_run_id (stop_reason parent) ≠ Some (te_task_run_id event))
    then (Ok (wake_result event DIFFERENT_DEPENDENCY), db0)
    else (_ ← transition_task_run p QUEUED
            ("dependency-wake:" +:+ te_task_run_id event +:+ ":" +:+ TaskEventType_value (te_event_type event))
            (wake_idempotency_key p (te_event_id event)) stream "task-runtime-scheduler" None None ue now;
          mret (wake_result event WAKE_QUEUED)) db0) as Hrun.
  { intros ? ->. unfold process_event. rewrite bool_decide_eq_false_2 by naive_solver. rewrite Hp. cbv zeta.
    unfold mbind at 1, prog_bind at 1, get_store. rewrite Hfind, Hc, Hpar. simpl.
    rewrite bool_decide_eq_false_2 by naive_solver. rewrite Hid. by repeat case_bool_decide. }
  specialize (Hrun db eq_refl). rewrite Hrun. split_and!.
  - intros Hst Hstop. rewrite bool_decide_eq_false_2 by naive_solver.
    rewrite bool_decide_eq_false_2 by (rewrite Hstop; intros H; apply H; by apply dependency_reason_reads).
    destruct (transition_run db p QUEUED
      ("dependency-wake:" +:+ te_task_run_id event +:+ ":" +:+ TaskEventType_value (te_event_type event))
      (wake_idempotency_key p (te_event_id event)) stream "task-runtime-scheduler" None None ue now parent)
      as (v&Ht&_); try done; try by rewrite Hst.
    + by apply (rro_base _ _ (wf_runs _ _ _ Hwf _ _ Hpar)).
    + by apply py_blank_cons.
    + by apply py_blank_cons.
    + rewrite (max_seq_count _ _ _ _ Hwf). lia.
    + eexists. split; [unfold mbind, prog_bind; rewrite Ht; reflexivity|].
      simpl. exists (set_transition QUEUED None None now parent). rewrite <- Hid at 1.
      simpl. by rewrite Hid, lookup_insert_eq.
  - intros Hst Hd. rewrite bool_decide_eq_false_2 by naive_solver. by rewrite bool_decide_eq_true_2.
  - intros Hst. by rewrite bool_decide_eq_true_2.
Qed.

Definition waiting_store : TaskDB := run_ops id_uuid5 tc_id context_id
  [TransitionTaskRun "r0" WAITING_DEPENDENCY "wait" "k2" "events" "role" None
     (Some "task_dependency:r1"%string) "e6" 60;
   ClaimQueuedTaskRun "r1" "events" "e7" "executor" 70;
   TransitionTaskRun "r1" COMPLETED "result" "k3" "events" "role" (Some "artifact:1"%string) None "e8" 80]
  sample_store.

Definition child_completed : TaskEvent :=
  mkTaskEvent "e8" "r1" (Some "r0"%string) 4 TASK_COMPLETED "role" 1 "result" "k3" 80.

Lemma waiting_store_wf : task_wf tc_id context_id waiting_store.
Proof. apply run_ops_good, run_ops_good, empty_wf. Qed.

Lemma wake_at_most_once_witness :
  ∃ db1, process_event "events" child_completed "e9" 90 waiting_store
      = (Ok (wake_result child_completed WAKE_QUEUED), db1) ∧
    process_event "events" child_completed "e10" 95 db1 = (Ok (wake_result child_completed REPLAY), db1).
Proof.
  destruct (process_event "events" child_completed "e9" 90 waiting_store) as [r db1] eqn:Hrun.
  assert (r = Ok (wake_result child_completed WAKE_QUEUED)) as ->
    by (pose proof (f_equal fst Hrun) as H; vm_compute in H; symmetry; exact H).
  exists db1. split; [done|].
  apply (proj2 (wake_at_most_once tc_id context_id _ _ _ _ _ _ _ waiting_store_wf Hrun)).
  apply db_extends_refl.
Defined.

(** The same child, whose last event is handled before its parent stops to wait for it. *)
Definition waits_too_late : TaskDB := run_ops id_uuid5 tc_id context_id
  [ClaimQueuedTaskRun "r1" "events" "e7" "executor" 70;
   TransitionTaskRun "r1" COMPLETED "result" "k3" "events" "role" (Some "artifact:1"%string) None "e8" 80]
  sample_store.

Lemma waits_too_late_wf : task_wf tc_id context_id waits_too_late.
Proof. apply run_ops_good, run_ops_good, empty_wf. Qed.

Definition late_child_completed : TaskEvent :=
  mkTaskEvent "e8" "r1" (Some "r0"%string) 4 TASK_COMPLETED "role" 1 "result" "k3" 80.

(** The wake-up is lost: the event of the child is handled while the parent still runs, the parent
    then waits for the child, and the child has ended. *)
Example wake_up_lost :
  let '(answer, db1) := process_event "events" late_child_completed "e9" 90 waits_too_late in
  let '(waits, db2) := transition_task_run "r0" WAITING_DEPENDENCY "wait" "k2" "events" "role" None
                         (Some "task_dependency:r1"%string) "e10" 95 db1 in
  answer = Ok (wake_result late_child_completed PARENT_NOT_WAITING) ∧
  (status <$> task_runs db2 !! "r0"%string) = Some WAITING_DEPENDENCY ∧
  (status <$> task_runs db2 !! "r1"%string) = Some COMPLETED ∧
  bool_decide (wake_key late_child_completed ∈ (idempotency_key <$> task_events db2)) = false.
Proof. vm_compute. split_and!; reflexivity. Qed.

Lemma wake_required_witness :
  (∃ db1, process_event "events" child_completed "e9" 90 waiting_store
      = (Ok (wake_result child_completed WAKE_QUEUED), db1) ∧
    ∃ parent', task_runs db1 !! "r0"%string = Some parent' ∧ status parent' = QUEUED) ∧
  process_event "events" late_child_completed "e9" 90 waits_too_late
    = (Ok (wake_result late_child_completed PARENT_NOT_WAITING), waits_too_late).
Proof.
  assert (task_dependency_reason "r1" = Ok "task_dependency:r1"%string) as Hreason
    by (vm_compute; reflexivity).
  assert (te_event_type child_completed ∈ DEPENDENCY_WAKE_EVENT_TYPES) as Htype by by_decide. split.
  - destruct (task_runs waiting_store !! "r0"%string) as [parent|] eqn:Hp;
      [|vm_compute in Hp; discriminate].
    destruct (task_runs waiting_store !! "r1"%string) as [child|] eqn:Hc;
      [|vm_compute in Hc; discriminate].
    pose proof (f_equal (fmap status) Hp) as Hst. pose proof (f_equal (fmap stop_reason) Hp) as Hstop.
    pose proof (f_equal (fmap parent_run_id) Hc) as Hpar.
    pose proof (f_equal (fmap run_context_revision) Hp) as Hrev.
    vm_compute in Hst, Hstop, Hpar, Hrev. injection Hst as Hst. injection Hstop as Hstop.
    injection Hpar as Hpar. injection Hrev as Hrev.
    assert (1 ≤ run_context_revision parent) as Hrev1 by (change (run_context_revision parent) with
        (match parent with {| run_context_revision := v |} => v end); rewrite <- Hrev; lia).
    assert ("e9"%string ∉ (event_id <$> task_events waiting_store)) as Hfresh by by_decide.
    assert (find_event "r0" (wake_idempotency_key "r0" "e8") waiting_store = None) as Hkey
      by (vm_compute; reflexivity).
    exact (proj1 (wake_required tc_id context_id "events" child_completed "e9" 90 waiting_store "r0" parent
      child "task_dependency:r1" waiting_store_wf Htype Hc (eq_sym Hpar) eq_refl Hp eq_refl
      Hreason Hrev1 Hfresh Hkey) (eq_sym Hst) (eq_sym Hstop)).
  - destruct (task_runs waits_too_late !! "r0"%string) as [parent|] eqn:Hp;
      [|vm_compute in Hp; discriminate].
    destruct (task_runs waits_too_late !! "r1"%string) as [child|] eqn:Hc;
      [|vm_compute in Hc; discriminate].
    pose proof (f_equal (fmap status) Hp) as Hst. pose proof (f_equal (fmap parent_run_id) Hc) as Hpar.
    pose proof (f_equal (fmap run_context_revision) Hp) as Hrev.
    vm_compute in Hst, Hpar, Hrev. injection Hst as Hst. injection Hpar as Hpar. injection Hrev as Hrev.
    assert (1 ≤ run_context_revision parent) as Hrev1 by (change (run_context_revision parent) with
        (match parent with {| run_context_revision := v |} => v end); rewrite <- Hrev; lia).
    assert ("e9"%string ∉ (event_id <$> task_events waits_too_late)) as Hfresh by by_decide.
    assert (find_event "r0" (wake_idempotency_key "r0" "e8") waits_too_late = None) as Hkey
      by (vm_compute; reflexivity).
    assert (status parent ≠ WAITING_DEPENDENCY) as Hrunning 
      by (intros H; pose proof (eq_trans Hst H) as Hcase; discriminate).
    exact (proj2 (proj2 (wake_required tc_id context_id "events" late_child_completed "e9" 90 waits_too_late "r0"
      parent child "task_dependency:r1" waits_too_late_wf
      Htype Hc (eq_sym Hpar) eq_refl Hp eq_refl Hreason Hrev1 Hfresh Hkey)) Hrunning).
Defined.

(** ** Dispatching a queued run *)

Lemma fail_running_run_Ok contract_digest manifest_digest self id exc uf now db u db' :
  task_wf contract_digest manifest_digest db →
  fail_running_run self id exc uf now db = (Ok u, db') →
  ∃ r r', task_runs db !! id = Some r ∧ task_runs db' !! id = Some r' ∧
    if bool_decide (status r = RUNNING)
    then status r' = FAILED ∧ stop_reason r' = Some ("role_executor_error:" +:+ type_name exc)
    else db' = db.
Proof.
  intros Hwf. unfold fail_running_run. match goal with |- context [atomic ?m] =>
    destruct (atomic_cases m db) as [(a&s'&Hm&->)|(e&s'&_&->)]; [|done] end. intros [= -> ->].
  apply bind_Ok in Hm as (v&s1&Hg&Hm). apply get_task_run_Ok in Hg as (->&r&Hr&_&Hst). rewrite Hst in Hm.
  exists r. case_bool_decide.
  - apply bind_Ok in Hm as (w&s2&Ht&Hm). apply ret_Ok in Hm as [_ ->].
    destruct (transition_good contract_digest manifest_digest _ _ _ _ _ _ _ _ _ _ _ _ _ Hwf Ht)
      as (_&_&r0&Hr0&Hruns). eexists. split; [done|]. rewrite Hruns, lookup_insert_eq. done.
  - apply ret_Ok in Hm as [_ ->]. by exists r.
Qed.

(** [QueuedRoleExecutor.execute]: a run of a role without handler, and a run that is not queued,
    are reported without running anything; a queued run is claimed first, and its handler runs on the
    store of the claim; when the handler raises, the exception is raised again and a run the handler
    left running has become failed (or recording the failure itself failed and nothing was changed). *)
Theorem execute_dispatch contract_digest manifest_digest self id uc uf nc nf db run :
  task_wf contract_digest manifest_digest db →
  get_task_run id db = (Ok run, db) →
  let role := tr_role_id run in
  let call := execute self id uc uf nc nf db in
  (dict_get role (handlers self) = None →
    call = (Ok (mkRoleDispatchResult id role UNSUPPORTED_ROLE (tr_status run)), db)) ∧
  (∀ handler, dict_get role (handlers self) = Some handler →
    (tr_status run ≠ QUEUED →
      call = (Ok (mkRoleDispatchResult id role NOT_QUEUED (tr_status run)), db)) ∧
    (∀ v db1, claim_queued_task_run id (executor_stream self) uc "task-runtime-executor" nc db
        = (Ok (Some v), db1) →
      (∀ db2 final, handler id db1 = (Ok tt, db2) → get_task_run id db2 = (Ok final, db2) →
        call = (Ok (mkRoleDispatchResult id (tr_role_id v) EXECUTED (tr_status final)), db2)) ∧
      (∀ exc db2, handler id db1 = (Err exc, db2) → task_wf contract_digest manifest_digest db2 →
        ∃ x db3, call = (Err x, db3) ∧
          ((fail_running_run self id exc uf nf db2).1 = Err x ∧ db3 = db2 ∨
            (fail_running_run self id exc uf nf db2).1 = Ok tt ∧ x = exc ∧
            ∃ r r', task_runs db2 !! id = Some r ∧ task_runs db3 !! id = Some r' ∧
              if bool_decide (status r = RUNNING)
              then status r' = FAILED ∧ stop_reason r' = Some ("role_executor_error:" +:+ type_name exc)
              else db3 = db2)))).
Proof.
  intros Hwf Hget. pose proof (get_task_run_Ok _ _ _ _ Hget) as (_&r&Hr&_&Hst).
  cbv zeta. split.
  { intros Hh. unfold execute, mbind, prog_bind. by rewrite Hget, Hh. }
  intros handler Hh. split.
  - intros Hq. unfold execute, mbind at 1, prog_bind at 1. rewrite Hget, Hh.
    assert (claim_queued_task_run id (executor_stream self) uc "task-runtime-executor" nc db = (Ok None, db))
      as Hc.
    { unfold claim_queued_task_run, lookup_run, require. run_step. rewrite Hr.
      rewrite bool_decide_eq_true_2; [done|congruence]. }
    unfold mbind, prog_bind, atomic. rewrite Hc. by rewrite Hget.
  - intros v db1 Hc. unfold execute, mbind, prog_bind. rewrite Hget, Hh. unfold atomic.
    rewrite Hc. unfold try_catch. split.
    + intros db2 final Hrun Hfin. by rewrite Hrun, Hfin.
    + intros exc db2 Hrun Hwf2. rewrite Hrun.
      destruct (fail_running_run self id exc uf nf db2) as [[[]|e] db3] eqn:Hfail.
      * exists exc, db3. split; [done|]. right. split; [done|]. split; [done|].
        by eapply fail_running_run_Ok.
      * exists e, db3. split; [done|]. left. split; [done|].
        unfold fail_running_run, atomic in Hfail. by repeat case_match; simplify_eq/=.
Qed.

(** A handler that raises. *)
Definition raising_handler : RoleRunHandler := λ id, raise (ValueError "planner failed").

Lemma execute_dispatch_witness :
  let self := mkQueuedRoleExecutor [("EnrichmentRole"%string, raising_handler)] "events" in
  ∃ x db3, execute self "r1" "e10" "e11" 90 95 sample_store = (Err x, db3) ∧
    x = ValueError "planner failed" ∧ ∃ r', task_runs db3 !! "r1"%string = Some r' ∧
      status r' = FAILED ∧ stop_reason r' = Some "role_executor_error:ValueError"%string.
Proof.
  intros self. assert (task_wf tc_id context_id sample_store) as Hwf by (apply run_ops_good, empty_wf).
  destruct (get_task_run "r1" sample_store) as [[run|e] s] eqn:Hget;
    [|apply (f_equal fst) in Hget; vm_compute in Hget; discriminate].
  pose proof (get_task_run_Ok _ _ _ _ Hget) as [-> _].
  assert (tr_role_id run = "EnrichmentRole"%string) as Hrole
    by (apply (f_equal fst) in Hget; vm_compute in Hget; injection Hget as <-; reflexivity).
  destruct (claim_queued_task_run "r1" "events" "e10" "task-runtime-executor" 90 sample_store)
    as [[[v|]|e] db1] eqn:Hc; [|apply (f_equal fst) in Hc; vm_compute in Hc; discriminate..].
  destruct (claim_good _ _ _ _ _ _ _ _ _ _ Hwf Hc) as ([Hwf1 _]&_&r&Hr&_&Hruns).
  assert (dict_get (tr_role_id run) (handlers self) = Some raising_handler) as Hh by by rewrite Hrole.
  destruct (proj2 (proj2 (proj2 (execute_dispatch tc_id context_id self "r1" "e10" "e11" 90 95
    sample_store run Hwf Hget) raising_handler Hh) v db1 Hc) (ValueError "planner failed") db1 eq_refl Hwf1)
    as (x&db3&Hcall&Hcase).
  exists x, db3. split; [exact Hcall|].
  assert ((fail_running_run self "r1" (ValueError "planner failed") "e11" 95 db1).1 = Ok tt) as Hok.
  { assert (db1 = (claim_queued_task_run "r1" "events" "e10" "task-runtime-executor" 90 sample_store).2)
      as -> by (rewrite Hc; reflexivity). vm_compute. reflexivity. }
  rewrite Hok in Hcase. destruct Hcase as [[Hx _]|(_&->&r0&r'&Hr0&Hr'&Hst)]; [discriminate|].
  split; [reflexivity|]. exists r'. split; [exact Hr'|].
  rewrite Hruns, lookup_insert_eq in Hr0. injection Hr0 as <-. exact Hst.
Defined.
