(* ===== verification/TaskContext.v ===== *)
(** * TaskContext: packages/task_runtime/context (contracts.py, service.py)

    Operations on immutable context manifests: deriving a child context, forking, filtering,
    refreshing, merging, comparing, and the gate that decides whether a result computed on one
    revision may still be used on a later one.  [getattr] on the field tuples is an access function of
    an enumerated field ([ref_field], [scalar_field]). *)

From S2P Require Import Prelude.
From S2P Require Import Effects.
From S2P Require Import TaskContracts.

(** ** contracts.py *)

Record ChildContextSpec := mkChildContextSpec {
  sp_context_id : string;
  sp_policy_context_ref : string;
  sp_capability_envelope_ref : string;
  sp_budget_ref : string;
  include_case : bool;
  include_investigation_state : bool;
  include_trajectory_checkpoint : bool;
  sp_evidence_refs : list string;
  sp_object_refs : list string;
  sp_relation_refs : list string;
  sp_enrichment_state_refs : list string;
  sp_skill_selection_refs : list string;
  sp_experience_pattern_refs : list string;
  sp_cache_hint : option string
}.

(** [ChildContextSpec.validate_identity] *)
Definition validate_identity (self : ChildContextSpec) : result ChildContextSpec :=
  _ ← reject_blank "ChildContextSpec" [(sp_context_id self, "context_id"%string);
        (sp_policy_context_ref self, "policy_context_ref"%string);
        (sp_capability_envelope_ref self, "capability_envelope_ref"%string);
        (sp_budget_ref self, "budget_ref"%string)];
  mret self.

Record ContextRefresh := mkContextRefresh {
  rf_context_revision : Z;
  rf_knowledge_revision : option Z;
  rf_investigation_state_ref : option string;
  add_evidence_refs : list string;
  add_object_refs : list string;
  add_relation_refs : list string;
  add_enrichment_state_refs : list string;
  add_skill_selection_refs : list string;
  add_experience_pattern_refs : list string;
  rf_cache_hint : option string
}.

(** The field constraints of [ContextRefresh]. *)
Definition make_ContextRefresh (self : ContextRefresh) : result ContextRefresh :=
  if rf_context_revision self <? 2
  then Err (ValueError "context_revision must be greater than or equal to 2")
  else if match rf_knowledge_revision self with Some r => r <? 0 | None => false end
  then Err (ValueError "knowledge_revision must be greater than or equal to 0")
  else Ok self.

(** [str | int | None] *)
Inductive scalar := SNone | SStr (s : string) | SInt (z : Z).

#[export] Instance scalar_eq_dec : EqDecision scalar.
Proof. solve_decision. Defined.

Definition of_str (s : option string) : scalar := match s with Some s => SStr s | None => SNone end.
Definition of_int (z : option Z) : scalar := match z with Some z => SInt z | None => SNone end.

(** [_AUTHORITY_FIELDS] and [_STATE_SCALAR_FIELDS] *)
Inductive scalar_field :=
| F_task_contract_ref | F_role_ref | F_case_ref | F_policy_context_ref | F_capability_envelope_ref
| F_budget_ref | F_knowledge_revision | F_investigation_state_ref | F_trajectory_checkpoint_ref.

#[export] Instance scalar_field_eq_dec : EqDecision scalar_field.
Proof. solve_decision. Defined.

Definition AUTHORITY_FIELDS : list scalar_field :=
  [F_task_contract_ref; F_role_ref; F_case_ref; F_policy_context_ref; F_capability_envelope_ref;
   F_budget_ref].
Definition STATE_SCALAR_FIELDS : list scalar_field :=
  [F_knowledge_revision; F_investigation_state_ref; F_trajectory_checkpoint_ref].

Definition scalar_field_name (f : scalar_field) : string :=
  match f with
  | F_task_contract_ref => "task_contract_ref"
  | F_role_ref => "role_ref"
  | F_case_ref => "case_ref"
  | F_policy_context_ref => "policy_context_ref"
  | F_capability_envelope_ref => "capability_envelope_ref"
  | F_budget_ref => "budget_ref"
  | F_knowledge_revision => "knowledge_revision"
  | F_investigation_state_ref => "investigation_state_ref"
  | F_trajectory_checkpoint_ref => "trajectory_checkpoint_ref"
  end.

(** [getattr(manifest, field)] *)
Definition scalar_get (f : scalar_field) (m : ContextManifest) : scalar :=
  match f with
  | F_task_contract_ref => SStr (cm_task_contract_ref m)
  | F_role_ref => SStr (role_ref m)
  | F_case_ref => of_str (case_ref m)
  | F_policy_context_ref => SStr (policy_context_ref m)
  | F_capability_envelope_ref => SStr (capability_envelope_ref m)
  | F_budget_ref => SStr (cm_budget_ref m)
  | F_knowledge_revision => of_int (knowledge_revision m)
  | F_investigation_state_ref => of_str (investigation_state_ref m)
  | F_trajectory_checkpoint_ref => of_str (trajectory_checkpoint_ref m)
  end.

(** [_REFERENCE_FIELDS] *)
Inductive ref_field :=
| R_enrichment_state | R_evidence | R_object | R_relation | R_skill_selection | R_experience_pattern.

#[export] Instance ref_field_eq_dec : EqDecision ref_field.
Proof. solve_decision. Defined.

Definition REFERENCE_FIELDS : list ref_field :=
  [R_enrichment_state; R_evidence; R_object; R_relation; R_skill_selection; R_experience_pattern].

Definition ref_field_name (f : ref_field) : string :=
  match f with
  | R_enrichment_state => "enrichment_state_refs"
  | R_evidence => "evidence_refs"
  | R_object => "object_refs"
  | R_relation => "relation_refs"
  | R_skill_selection => "skill_selection_refs"
  | R_experience_pattern => "experience_pattern_refs"
  end.

Definition ref_get (f : ref_field) (m : ContextManifest) : list string :=
  match f with
  | R_enrichment_state => enrichment_state_refs m
  | R_evidence => evidence_refs m
  | R_object => object_refs m
  | R_relation => relation_refs m
  | R_skill_selection => skill_selection_refs m
  | R_experience_pattern => experience_pattern_refs m
  end.

Definition spec_get (f : ref_field) (spec : ChildContextSpec) : list string :=
  match f with
  | R_enrichment_state => sp_enrichment_state_refs spec
  | R_evidence => sp_evidence_refs spec
  | R_object => sp_object_refs spec
  | R_relation => sp_relation_refs spec
  | R_skill_selection => sp_skill_selection_refs spec
  | R_experience_pattern => sp_experience_pattern_refs spec
  end.

Definition refresh_get (f : ref_field) (r : ContextRefresh) : list string :=
  match f with
  | R_enrichment_state => add_enrichment_state_refs r
  | R_evidence => add_evidence_refs r
  | R_object => add_object_refs r
  | R_relation => add_relation_refs r
  | R_skill_selection => add_skill_selection_refs r
  | R_experience_pattern => add_experience_pattern_refs r
  end.

Record ContextScalarChange := mkContextScalarChange {
  field : scalar_field;
  before : scalar;
  after : scalar
}.

(** The dicts [added_refs] and [removed_refs] in insertion order. *)
Record ContextDelta := mkContextDelta {
  base_ref : string;
  current_ref : string;
  scalar_changes : list ContextScalarChange;
  added_refs : list (ref_field * list string);
  removed_refs : list (ref_field * list string)
}.

Definition is_empty (d : ContextDelta) : bool :=
  is_nil (scalar_changes d) && is_nil (added_refs d) && is_nil (removed_refs d).

Record ContextDependencySet := mkContextDependencySet {
  dep_knowledge_revision : bool;
  dep_investigation_state_ref : bool;
  dep_trajectory_checkpoint_ref : bool;
  dep_refs : ref_field → list string
}.

Record ContextResultProvenance := mkContextResultProvenance {
  based_on_context_id : string;
  based_on_context_revision : Z;
  dependencies : ContextDependencySet
}.

Inductive ContextCompatibilityStatus := VALID | REBASE_REQUIRED | STALE | CONFLICT.

#[export] Instance ContextCompatibilityStatus_eq_dec : EqDecision ContextCompatibilityStatus.
Proof. solve_decision. Defined.

Record ContextCompatibility := mkContextCompatibility {
  compat_status : ContextCompatibilityStatus;
  reasons : list string;
  delta : ContextDelta
}.

(** ** service.py *)

(** [_stable_refs] *)
Definition stable_refs (values : list string) : list string := sorted_set values.
(** [_union_refs] *)
Definition union_refs (left right : list string) : list string := sorted_set (left ++ right).
(** [sorted(set(left) - set(right))] *)
Definition sorted_difference (left right : list string) : list string :=
  sorted_set (filter (λ x, x ∉ right) left).
(** [sorted(set(left) & set(right))] *)
Definition sorted_intersection (left right : list string) : list string :=
  sorted_set (filter (λ x, x ∈ right) left).
(** [_context_ref] *)
Definition context_ref (m : ContextManifest) : string :=
  context_id m +:+ "@" +:+ str_of_Z (context_revision m).

(** [_require_subset] *)
Definition require_subset (f : ref_field) (selected available : list string) : result unit :=
  match sorted_difference selected available with
  | [] => Ok tt
  | extra :: _ =>
      Err (ValueError ("context selection expands parent " +:+ ref_field_name f +:+ ": " +:+ extra))
  end.

(** [for field in fields: _require_subset(field, select(field), available(field))] *)
Fixpoint require_all (fields : list ref_field) (select available : ref_field → list string) : result unit :=
  match fields with
  | [] => Ok tt
  | f :: rest => _ ← require_subset f (select f) (available f); require_all rest select available
  end.

(** [_require_subsets] *)
Definition require_subsets (parent : ContextManifest) (spec : ChildContextSpec) : result unit :=
  require_all REFERENCE_FIELDS (λ f, spec_get f spec) (λ f, ref_get f parent).

Definition derive_child_context (parent : ContextManifest) (child_contract : TaskContract)
  (child_role : RoleProfile) (spec : ChildContextSpec) : result ContextManifest :=
  if negb (accepts child_role (task_kind child_contract))
  then Err (ValueError "role does not accept task kind")
  else
    _ ← require_subsets parent spec;
    make_ContextManifest (mkContextManifest (sp_context_id spec) 1 (Some (context_id parent))
      (tc_id child_contract +:+ "@" +:+ str_of_Z (contract_revision child_contract))
      (role_id child_role +:+ "@" +:+ version child_role)
      (if include_case spec then case_ref parent else None)
      (knowledge_revision parent)
      (if include_investigation_state spec then investigation_state_ref parent else None)
      (stable_refs (sp_enrichment_state_refs spec))
      (stable_refs (sp_evidence_refs spec))
      (stable_refs (sp_object_refs spec))
      (stable_refs (sp_relation_refs spec))
      [] None None
      (if include_trajectory_checkpoint spec then trajectory_checkpoint_ref parent else None)
      (stable_refs (sp_skill_selection_refs spec))
      (stable_refs (sp_experience_pattern_refs spec))
      (sp_policy_context_ref spec) (sp_capability_envelope_ref spec) (sp_budget_ref spec)
      (sp_cache_hint spec)).

(** [manifest.model_copy(update=...)] of the fields the service updates. *)
Definition copy_manifest (m : ContextManifest) (id : string) (revision : Z) (parent : option string)
  (knowledge : option Z) (investigation : option string) (refs : ref_field → list string)
  (trajectory hint : option string) : ContextManifest :=
  mkContextManifest id revision parent (cm_task_contract_ref m) (role_ref m) (case_ref m) knowledge
    investigation (refs R_enrichment_state) (refs R_evidence) (refs R_object) (refs R_relation)
    (retrieval_invocation_refs m) (query_intent m) (query_intent_model_ref m) trajectory
    (refs R_skill_selection) (refs R_experience_pattern) (policy_context_ref m)
    (capability_envelope_ref m) (cm_budget_ref m) hint.

Definition fork_context (m : ContextManifest) (new_context_id : string) : ContextManifest :=
  copy_manifest m new_context_id 1 (Some (context_id m)) (knowledge_revision m)
    (investigation_state_ref m) (λ f, ref_get f m) (trajectory_checkpoint_ref m) None.

(** The order in which [filter_context] builds its dict of selections. *)
Definition FILTER_FIELDS : list ref_field :=
  [R_evidence; R_object; R_relation; R_enrichment_state; R_skill_selection; R_experience_pattern].

(** [filter_context]: [select f] is the keyword argument of field [f]. *)
Definition filter_context (m : ContextManifest) (new_context_id : string)
  (select : ref_field → option (list string)) (keep_investigation_state keep_trajectory_checkpoint : bool)
  : result ContextManifest :=
  let selection f := default (ref_get f m) (select f) in
  _ ← require_all FILTER_FIELDS selection (λ f, ref_get f m);
  mret (copy_manifest m new_context_id 1 (Some (context_id m)) (knowledge_revision m)
    (if keep_investigation_state then investigation_state_ref m else None)
    (λ f, stable_refs (selection f))
    (if keep_trajectory_checkpoint then trajectory_checkpoint_ref m else None) None).

Definition refresh_context (m : ContextManifest) (refresh : ContextRefresh) : result ContextManifest :=
  if rf_context_revision refresh <=? context_revision m
  then Err (ValueError "refreshed context revision must advance")
  else
    let knowledge := match rf_knowledge_revision refresh with
                     | None => knowledge_revision m | Some r => Some r end in
    if match knowledge_revision m, knowledge with Some old, Some new => new <? old | _, _ => false end
    then Err (ValueError "knowledge_revision cannot move backwards during refresh")
    else Ok (copy_manifest m (context_id m) (rf_context_revision refresh) (parent_context_id m) knowledge
      (match rf_investigation_state_ref refresh with
       | Some s => Some s | None => investigation_state_ref m end)
      (λ f, union_refs (ref_get f m) (refresh_get f refresh))
      (trajectory_checkpoint_ref m) (rf_cache_hint refresh)).

Definition pin_context (m : ContextManifest) (context_revision knowledge_revision : Z)
  (investigation_state_ref : option string) : result ContextManifest :=
  refresh ← make_ContextRefresh (mkContextRefresh context_revision (Some knowledge_revision)
              investigation_state_ref [] [] [] [] [] [] (cache_hint m));
  refresh_context m refresh.

Definition diff_scalars (base current : ContextManifest) : list ContextScalarChange :=
  omap (λ f, if bool_decide (scalar_get f base ≠ scalar_get f current)
             then Some (mkContextScalarChange f (scalar_get f base) (scalar_get f current)) else None)
    (AUTHORITY_FIELDS ++ STATE_SCALAR_FIELDS).

(** The fields whose sorted difference is not empty, with that difference. *)
Definition diff_refs (left right : ContextManifest) : list (ref_field * list string) :=
  omap (λ f, match sorted_difference (ref_get f left) (ref_get f right) with
             | [] => None | l => Some (f, l) end) REFERENCE_FIELDS.

Definition diff_contexts (base current : ContextManifest) : ContextDelta :=
  mkContextDelta (context_ref base) (context_ref current) (diff_scalars base current)
    (diff_refs current base) (diff_refs base current).

Definition merge_contexts (left right : ContextManifest) (new_context_id : string) (new_revision : Z)
  : result ContextManifest :=
  match find (λ f, bool_decide (scalar_get f left ≠ scalar_get f right))
          (AUTHORITY_FIELDS ++ STATE_SCALAR_FIELDS) with
  | Some f => Err (ValueError ("cannot merge contexts with different " +:+ scalar_field_name f))
  | None =>
      if new_revision <? 1 then Err (ValueError "context_revision must be positive")
      else Ok (copy_manifest left new_context_id new_revision (Some (context_id left))
             (knowledge_revision left) (investigation_state_ref left)
             (λ f, union_refs (ref_get f left) (ref_get f right))
             (trajectory_checkpoint_ref left) None)
  end.

Definition refs_of (f : ref_field) (d : list (ref_field * list string)) : list string :=
  mjoin (snd <$> filter (λ p, p.1 = f) d).

Definition conflict (reason : string) (d : ContextDelta) : ContextCompatibility :=
  mkContextCompatibility CONFLICT [reason] d.

(** The reasons [ContextRevisionGate.evaluate] collects for a result whose dependencies changed. *)
Definition stale_reasons (deps : ContextDependencySet) (d : ContextDelta) : list string :=
  let changed f := bool_decide (f ∈ field <$> scalar_changes d) in
  (if dep_knowledge_revision deps && changed F_knowledge_revision
   then ["knowledge_revision_changed"%string] else [])
  ++ (if dep_investigation_state_ref deps && changed F_investigation_state_ref
      then ["investigation_state_changed"%string] else [])
  ++ (if dep_trajectory_checkpoint_ref deps && changed F_trajectory_checkpoint_ref
      then ["trajectory_checkpoint_changed"%string] else [])
  ++ omap (λ f, match sorted_intersection (dep_refs deps f) (refs_of f (removed_refs d)) with
                | [] => None
                | x :: _ => Some ("dependency_removed:" +:+ ref_field_name f +:+ ":" +:+ x)
                end) REFERENCE_FIELDS.

(** [sorted(set(scalar_map) & set(_AUTHORITY_FIELDS))] *)
Definition authority_changed (d : ContextDelta) : list string :=
  sorted_set (scalar_field_name <$> filter (λ f, f ∈ AUTHORITY_FIELDS) (field <$> scalar_changes d)).

(** [ContextRevisionGate.evaluate] *)
Definition gate_evaluate (base current : ContextManifest) (result : ContextResultProvenance)
  : ContextCompatibility :=
  let d := diff_contexts base current in
  if bool_decide (based_on_context_id result ≠ context_id base)
  then conflict "result_context_id_mismatch" d
  else if negb (based_on_context_revision result =? context_revision base)
  then conflict "result_context_revision_mismatch" d
  else if bool_decide (context_id current ≠ context_id base)
  then conflict "current_context_lineage_changed" d
  else if context_revision current <? context_revision base
  then conflict "current_context_revision_regressed" d
  else if (context_revision current =? context_revision base) && negb (is_empty d)
  then conflict "immutable_revision_content_mismatch" d
  else if context_revision current =? context_revision base
  then mkContextCompatibility VALID [] d
  else match authority_changed d with
  | (_ :: _) as changed =>
      mkContextCompatibility CONFLICT ((λ f, "authority_context_changed:" +:+ f) <$> changed) d
  | [] =>
      match stale_reasons (dependencies result) d with
      | (_ :: _) as reasons => mkContextCompatibility STALE reasons d
      | [] =>
          if is_empty d
          then mkContextCompatibility VALID ["revision_changed_without_semantic_delta"%string] d
          else mkContextCompatibility REBASE_REQUIRED
                 ["context_advanced_without_invalidating_dependencies"%string] d
      end
  end.

(** ** Set operations on references *)

Lemma elem_of_sorted_difference x l1 l2 : x ∈ sorted_difference l1 l2 ↔ x ∈ l1 ∧ x ∉ l2.
Proof. unfold sorted_difference. rewrite elem_of_sorted_set, list_elem_of_filter. naive_solver. Qed.

Lemma elem_of_sorted_intersection x l1 l2 : x ∈ sorted_intersection l1 l2 ↔ x ∈ l1 ∧ x ∈ l2.
Proof. unfold sorted_intersection. rewrite elem_of_sorted_set, list_elem_of_filter. naive_solver. Qed.

Lemma elem_of_union_refs x l1 l2 : x ∈ union_refs l1 l2 ↔ x ∈ l1 ∨ x ∈ l2.
Proof. unfold union_refs. by rewrite elem_of_sorted_set, elem_of_app. Qed.

Lemma nil_no_elem (l : list string) : l = [] ↔ ∀ x, x ∉ l.
Proof.
  split; [by intros -> x; apply not_elem_of_nil|]. destruct l as [|x l]; [done|].
  intros H. destruct (H x). apply list_elem_of_here.
Qed.

Lemma sorted_difference_nil l1 l2 : sorted_difference l1 l2 = [] ↔ l1 ⊆ l2.
Proof.
  rewrite nil_no_elem. setoid_rewrite elem_of_sorted_difference. split.
  - intros H x Hx. destruct (decide (x ∈ l2)); [done|]. by destruct (H x).
  - intros H x [Hx Hn]. by apply Hn, H.
Qed.

Lemma sorted_intersection_nil l1 l2 : sorted_intersection l1 l2 = [] ↔ ∀ x, x ∈ l1 → x ∉ l2.
Proof. rewrite nil_no_elem. setoid_rewrite elem_of_sorted_intersection. naive_solver. Qed.

Lemma all_ref_fields f : f ∈ REFERENCE_FIELDS.
Proof. destruct f; by_decide. Qed.

Lemma all_scalar_fields f : f ∈ AUTHORITY_FIELDS ++ STATE_SCALAR_FIELDS.
Proof. destruct f; by_decide. Qed.

Lemma ref_get_copy f m id r p k i refs t h : ref_get f (copy_manifest m id r p k i refs t h) = refs f.
Proof. by destruct f. Qed.

Lemma authority_copy f m id r p k i refs t h :
  f ∈ AUTHORITY_FIELDS → scalar_get f (copy_manifest m id r p k i refs t h) = scalar_get f m.
Proof. rewrite list_elem_of_In. simpl. intros Hf. by repeat destruct Hf as [<-|Hf]. Qed.

(** [require_all] passes exactly when no field selects anything that is not available. *)
Lemma require_all_Ok fields select available :
  require_all fields select available = Ok tt ↔ ∀ f, f ∈ fields → select f ⊆ available f.
Proof.
  induction fields as [|f fields IH]; simpl.
  { split; [|done]. intros _ f Hf. by apply not_elem_of_nil in Hf. }
  unfold require_subset. setoid_rewrite elem_of_cons.
  destruct (sorted_difference (select f) (available f)) as [|x l] eqn:E.
  - apply sorted_difference_nil in E. unfold mbind, result_bind. rewrite IH. naive_solver.
  - split; [done|]. intros H. exfalso.
    assert (sorted_difference (select f) (available f) = []) as E'
      by (apply sorted_difference_nil; auto). by rewrite E' in E.
Qed.

Lemma require_all_cases fields select available :
  require_all fields select available = Ok tt ∨ ∃ msg, require_all fields select available = Err (ValueError msg).
Proof.
  induction fields as [|f fields IH]; simpl; [by left|]. unfold require_subset.
  destruct (sorted_difference _ _) as [|x l]; [done|]. right. by eexists.
Qed.

(** ** Differences *)

Lemma elem_of_diff_refs f left right l :
  (f, l) ∈ diff_refs left right ↔ l = sorted_difference (ref_get f left) (ref_get f right) ∧ l ≠ [].
Proof.
  unfold diff_refs. rewrite list_elem_of_omap. split.
  - intros (g&_&Hg). destruct (sorted_difference _ _) eqn:E; [done|]. injection Hg as -> <-. by rewrite E.
  - intros [-> Hn]. exists f. split; [apply all_ref_fields|].
    by destruct (sorted_difference _ _).
Qed.

Lemma elem_of_refs_of x f left right :
  x ∈ refs_of f (diff_refs left right) ↔ x ∈ ref_get f left ∧ x ∉ ref_get f right.
Proof.
  unfold refs_of. rewrite list_elem_of_join. rewrite <- elem_of_sorted_difference. split.
  - intros (l&Hx&([g l']&->&[Hg Hin]%list_elem_of_filter)%list_elem_of_fmap). simpl in *. subst g.
    by apply elem_of_diff_refs in Hin as [-> _].
  - intros Hx. exists (sorted_difference (ref_get f left) (ref_get f right)). split; [done|].
    apply list_elem_of_fmap. exists (f, sorted_difference (ref_get f left) (ref_get f right)).
    split; [done|]. apply list_elem_of_filter. split; [done|]. apply elem_of_diff_refs. split; [done|].
    intros E. rewrite E in Hx. by apply not_elem_of_nil in Hx.
Qed.

Lemma elem_of_diff_scalars f base current :
  f ∈ field <$> diff_scalars base current ↔ scalar_get f base ≠ scalar_get f current.
Proof.
  unfold diff_scalars. rewrite list_elem_of_fmap. setoid_rewrite list_elem_of_omap. split.
  - intros (c&->&g&_&Hg). case_bool_decide; [|done]. by injection Hg as <-.
  - intros H. eexists. split; [|exists f; split; [apply all_scalar_fields|by rewrite bool_decide_eq_true_2]].
    done.
Qed.

(** The delta says exactly what changed in the compared fields. *)
Lemma diff_empty base current :
  is_empty (diff_contexts base current) = true ↔
  (∀ f, scalar_get f base = scalar_get f current) ∧
  ∀ f x, x ∈ ref_get f base ↔ x ∈ ref_get f current.
Proof.
  assert (∀ {A} (l : list A), is_nil l = true ↔ l = []) as Hnil by (intros A l; by destruct l).
  unfold is_empty, diff_contexts. simpl. rewrite !andb_true_iff, !Hnil.
  assert (∀ left right, diff_refs left right = [] ↔ ∀ f, ref_get f left ⊆ ref_get f right) as Hrefs.
  { intros left right. split.
    - intros H f. apply sorted_difference_nil.
      destruct (sorted_difference (ref_get f left) (ref_get f right)) as [|x l] eqn:E; [done|].
      assert ((f, x :: l) ∈ diff_refs left right) as Hin by (apply elem_of_diff_refs; by rewrite E).
      rewrite H in Hin. by apply not_elem_of_nil in Hin.
    - intros H. destruct (diff_refs left right) as [|[f l] d] eqn:E; [done|].
      assert ((f, l) ∈ diff_refs left right) as Hin by (rewrite E; apply list_elem_of_here).
      apply elem_of_diff_refs in Hin as [-> Hn]. by destruct Hn; apply sorted_difference_nil. }
  rewrite !Hrefs. split.
  - intros [[Hs H1] H2]. split; [|split; [apply H2|apply H1]].
    intros f. apply dec_stable. rewrite <- elem_of_diff_scalars, Hs. apply not_elem_of_nil.
  - intros [Hs Hr]. split; [split|].
    + destruct (diff_scalars base current) as [|c d] eqn:E; [done|].
      assert (field c ∈ field <$> diff_scalars base current) as Hin
        by (rewrite E; apply list_elem_of_here).
      apply elem_of_diff_scalars in Hin. by destruct Hin.
    + intros f x. apply Hr.
    + intros f x. apply Hr.
Qed.

Lemma authority_changed_nil base current :
  authority_changed (diff_contexts base current) = [] ↔
  ∀ f, f ∈ AUTHORITY_FIELDS → scalar_get f base = scalar_get f current.
Proof.
  unfold authority_changed. rewrite sorted_set_nil. simpl. split.
  - intros H%fmap_nil_inv f Hf. apply dec_stable. rewrite <- elem_of_diff_scalars. intros Hin.
    assert (f ∈ filter (λ f, f ∈ AUTHORITY_FIELDS) (field <$> diff_scalars base current)) as Hx
      by by apply list_elem_of_filter. rewrite H in Hx. by apply not_elem_of_nil in Hx.
  - intros H. destruct (filter _ _) as [|f l] eqn:E; [done|].
    assert (f ∈ filter (λ f, f ∈ AUTHORITY_FIELDS) (field <$> diff_scalars base current)) as [Hf Hin]%list_elem_of_filter
      by (rewrite E; apply list_elem_of_here).
    apply elem_of_diff_scalars in Hin. by destruct Hin; apply H.
Qed.

(** A result's dependencies are intact between two manifests. *)
Record dependencies_intact (deps : ContextDependencySet) (base current : ContextManifest) : Prop := {
  di_knowledge : dep_knowledge_revision deps = true → knowledge_revision base = knowledge_revision current;
  di_investigation : dep_investigation_state_ref deps = true →
    investigation_state_ref base = investigation_state_ref current;
  di_trajectory : dep_trajectory_checkpoint_ref deps = true →
    trajectory_checkpoint_ref base = trajectory_checkpoint_ref current;
  di_refs : ∀ f x, x ∈ dep_refs deps f → x ∈ ref_get f base → x ∈ ref_get f current
}.

Lemma of_int_inj a b : of_int a = of_int b ↔ a = b.
Proof. destruct a, b; naive_solver. Qed.
Lemma of_str_inj a b : of_str a = of_str b ↔ a = b.
Proof. destruct a, b; naive_solver. Qed.

Lemma if_singleton_nil (b : bool) (s : string) : (if b then [s] else []) = [] ↔ b = false.
Proof. by destruct b. Qed.

Lemma omap_nil {A B} (f : A → option B) l : omap f l = [] ↔ ∀ x, x ∈ l → f x = None.
Proof.
  induction l as [|y l IH]; csimpl.
  - split; [|done]. intros _ x Hx. by apply not_elem_of_nil in Hx.
  - setoid_rewrite elem_of_cons. destruct (f y) eqn:E; [|rewrite IH; naive_solver].
    split; [done|]. intros H. rewrite (H y) in E; [done|by left].
Qed.

Lemma stale_reasons_nil deps base current :
  stale_reasons deps (diff_contexts base current) = [] ↔ dependencies_intact deps base current.
Proof.
  unfold stale_reasons. rewrite !app_nil, !if_singleton_nil, omap_nil, !andb_false_iff, !bool_decide_eq_false.
  simpl. rewrite !elem_of_diff_scalars. simpl. rewrite of_int_inj, !of_str_inj.
  assert (∀ (b : bool) (P : Prop), Decision P → (b = false ∨ ¬ ¬ P ↔ (b = true → P))) as Hb.
  { intros b P HP. destruct b; [|naive_solver]. split; [intros [?|?]; [done|]; intros _; by apply dec_stable|].
    intros H. right. intros Hn. by apply Hn, H. }
  rewrite !Hb by apply _. split.
  - intros (Hk&Hi&Ht&Hr). split; try done. intros f x Hx Hbase.
    specialize (Hr f (all_ref_fields f)).
    destruct (sorted_intersection (dep_refs deps f) (refs_of f (diff_refs base current))) eqn:E; [|done].
    destruct (decide (x ∈ ref_get f current)) as [|Hn]; [done|].
    destruct (proj1 (sorted_intersection_nil _ _) E x Hx). by apply elem_of_refs_of.
  - intros [Hk Hi Ht Hr]. split_and!; try done. intros f _.
    assert (sorted_intersection (dep_refs deps f) (refs_of f (diff_refs base current)) = []) as ->; [|done].
    apply sorted_intersection_nil. intros x Hx [Hbase Hn]%elem_of_refs_of. by apply Hn, Hr.
Qed.

Definition usable (c : ContextCompatibility) : bool :=
  bool_decide (compat_status c = VALID) || bool_decide (compat_status c = REBASE_REQUIRED).

(** ** Properties *)

(** A later revision with the same authority and intact dependencies is usable. *)
Lemma revision_gate_usable base current res :
  based_on_context_id res = context_id base → based_on_context_revision res = context_revision base →
  context_id current = context_id base → context_revision base < context_revision current →
  (∀ f, f ∈ AUTHORITY_FIELDS → scalar_get f base = scalar_get f current) →
  dependencies_intact (dependencies res) base current →
  usable (gate_evaluate base current res) = true.
Proof.
  intros H1 H2 H3 H4 Ha Hd. unfold gate_evaluate. cbv zeta.
  rewrite (bool_decide_eq_false_2 (based_on_context_id res ≠ _)), H2, Z.eqb_refl by naive_solver.
  rewrite (bool_decide_eq_false_2 (context_id current ≠ _)) by naive_solver. simpl.
  destruct (Z.ltb_spec (context_revision current) (context_revision base)); [lia|].
  destruct (Z.eqb_spec (context_revision current) (context_revision base)); [lia|]. simpl.
  rewrite (proj2 (authority_changed_nil _ _) Ha), (proj2 (stale_reasons_nil _ _ _) Hd).
  by destruct (is_empty _).
Qed.

(** C37. [ContextRevisionGate.evaluate] is sound and complete: a result is usable (valid, or valid after a
    rebase) on the current context exactly when it was computed on the base manifest, the current
    manifest is a later revision of the same context (or the same revision with the same content),
    no authority field changed, and every dependency the result declares is intact; it is valid
    without a rebase exactly when moreover nothing that is compared changed. *)
Theorem revision_gate_sound_complete base current res :
  let c := gate_evaluate base current res in
  (usable c = true ↔
    based_on_context_id res = context_id base ∧ based_on_context_revision res = context_revision base ∧
    context_id current = context_id base ∧
    (if bool_decide (context_revision current = context_revision base)
     then is_empty (diff_contexts base current) = true
     else context_revision base < context_revision current ∧
       (∀ f, f ∈ AUTHORITY_FIELDS → scalar_get f base = scalar_get f current) ∧
       dependencies_intact (dependencies res) base current)) ∧
  (compat_status c = VALID ↔
    usable c = true ∧ (∀ f, scalar_get f base = scalar_get f current) ∧
    ∀ f x, x ∈ ref_get f base ↔ x ∈ ref_get f current).
Proof.
  cbv zeta. rewrite <- diff_empty.
  destruct (decide (context_revision current = context_revision base)) as [H5|H5];
    [rewrite (bool_decide_eq_true_2 (context_revision current = _)) by done
    |rewrite (bool_decide_eq_false_2 (context_revision current = _)), <- authority_changed_nil,
       <- stale_reasons_nil by done];
    unfold gate_evaluate; cbv zeta;
    (destruct (bool_decide (based_on_context_id res ≠ context_id base)) eqn:H1;
      [apply bool_decide_eq_true in H1; simpl; naive_solver|apply bool_decide_eq_false, dec_stable in H1]);
    (destruct (Z.eqb_spec (based_on_context_revision res) (context_revision base)) as [H2|H2]; simpl;
      [|naive_solver]);
    (destruct (bool_decide (context_id current ≠ context_id base)) eqn:H3;
      [apply bool_decide_eq_true in H3; simpl; naive_solver|apply bool_decide_eq_false, dec_stable in H3]);
    destruct (Z.ltb_spec (context_revision current) (context_revision base)) as [H4|H4]; simpl;
    try (lia || naive_solver lia).
  - rewrite (proj2 (Z.eqb_eq _ _) H5). simpl. destruct (is_empty (diff_contexts base current)); simpl; naive_solver.
  - rewrite (proj2 (Z.eqb_neq _ _) H5). simpl. destruct (authority_changed _); simpl; [|naive_solver].
    destruct (stale_reasons _ _); simpl; [|naive_solver].
    destruct (is_empty _); simpl; naive_solver lia.
Qed.

(** Deriving and filtering only narrow a context: the new manifest's references are, per field,
    among the source manifest's (and sorted without duplicates), a selection outside them is
    refused, the new manifest starts at revision 1 below its source, and case, investigation state
    and trajectory are the source's or absent. *)
Theorem selection_attenuates m :
  (∀ contract role spec child, derive_child_context m contract role spec = Ok child →
    accepts role (task_kind contract) = true ∧
    (∀ f, ref_get f child ⊆ ref_get f m ∧ ref_get f child = sorted_set (spec_get f spec)) ∧
    context_revision child = 1 ∧ parent_context_id child = Some (context_id m) ∧
    (case_ref child = None ∨ case_ref child = case_ref m) ∧
    (investigation_state_ref child = None ∨ investigation_state_ref child = investigation_state_ref m) ∧
    (trajectory_checkpoint_ref child = None ∨ trajectory_checkpoint_ref child = trajectory_checkpoint_ref m) ∧
    retrieval_invocation_refs child = []) ∧
  (∀ contract role spec, (∃ f, ¬ spec_get f spec ⊆ ref_get f m) →
    ∃ msg, derive_child_context m contract role spec = Err (ValueError msg)) ∧
  (∀ id select ki kt, (∀ f, default (ref_get f m) (select f) ⊆ ref_get f m) →
    ∃ child, filter_context m id select ki kt = Ok child ∧
      (∀ f, ref_get f child = sorted_set (default (ref_get f m) (select f))) ∧
      (∀ f, f ∈ AUTHORITY_FIELDS → scalar_get f child = scalar_get f m)) ∧
  (∀ id select ki kt, (∃ f, ¬ default (ref_get f m) (select f) ⊆ ref_get f m) →
    ∃ msg, filter_context m id select ki kt = Err (ValueError msg)).
Proof.
  assert (∀ f, f ∈ FILTER_FIELDS) as Hfilter by (intros f; destruct f; by_decide).
  split; [|split; [|split]].
  - intros contract role spec child. unfold derive_child_context.
    destruct (accepts role (task_kind contract)); simpl; [|done].
    intros ([]&Hreq&H)%result_bind_Ok. pose proof (proj1 (require_all_Ok _ _ _) Hreq) as Hsub. cbv beta in Hsub.
    unfold make_ContextManifest in H. simpl in H. case_match; [done|]. injection H as <-. simpl.
    split; [done|]. split.
    + intros f. assert (ref_get f m ⊆ ref_get f m) by done. specialize (Hsub f (all_ref_fields f)).
      destruct f; simpl in *; (split; [|done]); intros x; unfold stable_refs;
        rewrite elem_of_sorted_set; apply Hsub.
    + split_and!; try done; repeat case_match; auto.
  - intros contract role spec [f Hf]. unfold derive_child_context.
    destruct (accepts role (task_kind contract)); simpl; [|by eexists].
    unfold require_subsets.
    destruct (require_all_cases REFERENCE_FIELDS (λ f, spec_get f spec) (λ f, ref_get f m)) as [H|[msg ->]];
      [|by exists msg].
    destruct Hf. by apply (proj1 (require_all_Ok _ _ _) H), all_ref_fields.
  - intros id select ki kt Hs. unfold filter_context.
    rewrite (proj2 (require_all_Ok FILTER_FIELDS _ _)) by (intros f _; apply Hs).
    eexists. split; [done|]. split; [intros f; by rewrite ref_get_copy|].
    intros f Hf. by apply authority_copy.
  - intros id select ki kt [f Hf]. unfold filter_context.
    destruct (require_all_cases FILTER_FIELDS (λ f, default (ref_get f m) (select f)) (λ f, ref_get f m))
      as [H|[msg ->]]; [|by exists msg].
    destruct Hf. by apply (proj1 (require_all_Ok _ _ _) H), Hfilter.
Qed.

(** [refresh_context] is monotone: it strictly advances the revision of the same context, never moves
    the knowledge revision back, only adds references and keeps the authority fields; so a result
    computed before the refresh is usable after it unless it depends on a knowledge revision or an
    investigation state that the refresh replaced.  A refresh that would go back is refused. *)
Theorem refresh_monotone m refresh :
  (∀ m', refresh_context m refresh = Ok m' →
    context_id m' = context_id m ∧ context_revision m < context_revision m' ∧
    (∀ k, knowledge_revision m = Some k → ∃ k', knowledge_revision m' = Some k' ∧ k ≤ k') ∧
    (∀ f x, x ∈ ref_get f m' ↔ x ∈ ref_get f m ∨ x ∈ refresh_get f refresh) ∧
    (∀ f, f ∈ AUTHORITY_FIELDS → scalar_get f m' = scalar_get f m) ∧
    ∀ deps, (dep_knowledge_revision deps = true → knowledge_revision m' = knowledge_revision m) →
      (dep_investigation_state_ref deps = true → investigation_state_ref m' = investigation_state_ref m) →
      usable (gate_evaluate m m' (mkContextResultProvenance (context_id m) (context_revision m) deps)) = true) ∧
  (rf_context_revision refresh ≤ context_revision m → is_ok (refresh_context m refresh) = false) ∧
  (∀ k k', knowledge_revision m = Some k → rf_knowledge_revision refresh = Some k' → k' < k →
    is_ok (refresh_context m refresh) = false).
Proof.
  unfold refresh_context.
  destruct (Z.leb_spec (rf_context_revision refresh) (context_revision m)) as [Hle|Hlt]; simpl.
  { split; [done|]. by split. }
  set (new := match rf_knowledge_revision refresh with None => knowledge_revision m | Some r => Some r end).
  split; [|split; [lia|]].
  - intros m' H.
    assert (∀ k, knowledge_revision m = Some k → ∃ k', new = Some k' ∧ k ≤ k') as Hk.
    { intros k Hk. rewrite Hk in H. destruct new as [k'|] eqn:E; [|by subst new; destruct (rf_knowledge_revision refresh); congruence].
      exists k'. split; [done|]. destruct (Z.ltb_spec k' k); [done|lia]. }
    case_match; [done|]. injection H as <-. split; [done|]. split; [done|]. split; [done|].
    split; [intros f x; by rewrite ref_get_copy, elem_of_union_refs|].
    split; [intros f Hf; by apply authority_copy|].
    intros deps Hdk Hdi. apply revision_gate_usable; try done.
    + intros f Hf. symmetry. by apply authority_copy.
    + split; [intros ?; symmetry; auto|intros ?; symmetry; auto|done|].
      intros f x _ Hx. rewrite ref_get_copy. apply elem_of_union_refs. by left.
  - intros k k' Hk Hk' Hlt'. unfold new. rewrite Hk, Hk'. by rewrite (proj2 (Z.ltb_lt _ _) Hlt').
Qed.

Definition sample_context (revision : Z) (knowledge : option Z) (evidence : list string) : ContextManifest :=
  mkContextManifest "ctx" revision None "task@1" "InvestigationRole@1" (Some "case:1"%string) knowledge
    None [] evidence [] [] [] None None None [] [] "policy:1" "envelope:1" "budget:1" None.
Definition sample_refresh : ContextRefresh :=
  mkContextRefresh 4 (Some 8) None ["ev:c"%string] [] [] [] [] [] None.
Definition no_dependencies : ContextDependencySet := mkContextDependencySet false false false (λ _, []).

Lemma selection_attenuates_witness :
  let m := sample_context 3 (Some 7) ["ev:a"%string; "ev:b"%string] in
  (∃ child, filter_context m "ctx-2" (λ f, match f with R_evidence => Some ["ev:b"%string] | _ => None end)
     true true = Ok child ∧ ref_get R_evidence child = ["ev:b"%string]) ∧
  ∃ msg, filter_context m "ctx-2" (λ f, match f with R_evidence => Some ["ev:x"%string] | _ => None end)
     true true = Err (ValueError msg).
Proof.
  intros m. destruct (selection_attenuates m) as (_&_&Hok&Hbad). split.
  - destruct (Hok "ctx-2"%string (λ f, match f with R_evidence => Some ["ev:b"%string] | _ => None end) true true)
      as (child&Hchild&Href&_).
    + intros f. destruct f; simpl; try done. intros x ->%list_elem_of_singleton.
      apply list_elem_of_further, list_elem_of_here.
    + exists child. split; [exact Hchild|]. rewrite Href. vm_compute. reflexivity.
  - apply Hbad. exists R_evidence. simpl. intros H. specialize (H "ev:x"%string (list_elem_of_here _ _)).
    apply (bool_decide_pack _) in H. vm_compute in H. exact H.
Defined.

Lemma refresh_monotone_witness :
  let m := sample_context 3 (Some 7) ["ev:a"%string] in
  ∃ m', refresh_context m sample_refresh = Ok m' ∧ context_revision m < context_revision m' ∧
    usable (gate_evaluate m m' (mkContextResultProvenance "ctx" 3 no_dependencies)) = true.
Proof.
  intros m. destruct (refresh_monotone m sample_refresh) as [Hok _].
  destruct (refresh_context m sample_refresh) as [m'|e] eqn:E; [|vm_compute in E; discriminate].
  exists m'. destruct (Hok m' eq_refl) as (_&Hrev&_&_&_&Huse). split; [reflexivity|]. split; [exact Hrev|].
  apply (Huse no_dependencies); discriminate.
Defined.
