(* ===== verification/Outbox.v ===== *)
(** * Outbox: packages/shared/outbox/service.py, packages/task_runtime/events/redis_stream.py

    The two transactional outboxes: [dispatch_pending_events] publishes the rows of [outbox_events]
    to the broker, [dispatch_pending_task_events] publishes the rows of [task_event_deliveries] to a
    Redis stream; and the consumer side that normalises what Redis returns.  The broker and Redis are
    parameters: a publisher is a program on a broker state [R] that returns or raises.  Rows that
    another dispatcher has locked are skipped ([skip_locked]): [locked] says which. *)

From S2P Require Import Prelude.
From S2P Require Import Effects.
From S2P Require Import TaskContracts.
From S2P Require Import TaskStore.

#[local] Set Warnings "-register-all".

(** ** packages/shared/storage/models.py *)

Record OutboxEventModel := mkOutboxEventModel {
  ob_event_id : string;
  topic : string;
  aggregate_id : string;
  payload : list (string * json);
  ob_status : delivery_status;
  ob_attempts : Z;
  ob_available_at : Z;
  ob_delivered_at : option Z;
  ob_last_error : option string
}.

(** [order_by(available_at, event_id)] *)
Definition outbox_le (e1 e2 : OutboxEventModel) : Prop :=
  ob_available_at e1 < ob_available_at e2 ∨
  ob_available_at e1 = ob_available_at e2 ∧ String.le (ob_event_id e1) (ob_event_id e2).
#[export] Instance outbox_le_dec e1 e2 : Decision (outbox_le e1 e2).
Proof. unfold outbox_le. apply _. Defined.

(** A delivery row with its event, in the order of [order_by(task_run_id, seq, event_id)]. *)
Definition delivery_pair : Type := TaskEventDeliveryModel * TaskEventModel.
Definition delivery_le (p1 p2 : delivery_pair) : Prop :=
  task_run_id p1.2 ≠ task_run_id p2.2 ∧ String.le (task_run_id p1.2) (task_run_id p2.2) ∨
  task_run_id p1.2 = task_run_id p2.2 ∧
    (seq p1.2 < seq p2.2 ∨ seq p1.2 = seq p2.2 ∧ String.le (dl_event_id p1.1) (dl_event_id p2.1)).
#[export] Instance delivery_le_dec p1 p2 : Decision (delivery_le p1 p2).
Proof. unfold delivery_le. apply _. Defined.

Section dispatch.
(** The broker's state, the text of an exception ([f"{type(exc).__name__}: {exc}"]), the ISO text of
    an instant, and the publishers. *)
Context {R : Type} (exn_text : exn → string) (isoformat : Z → string)
  (publisher : string → list (string * json) → prog R unit)
  (xadd : string → list (string * string) → prog R string).

(** ** shared/outbox/service.py *)

Definition outbox_failed (exc : exn) (e : OutboxEventModel) : OutboxEventModel :=
  mkOutboxEventModel (ob_event_id e) (topic e) (aggregate_id e) (payload e) (ob_status e)
    (ob_attempts e + 1) (ob_available_at e) (ob_delivered_at e)
    (Some (str_take 4000 (exn_text exc))).
Definition outbox_delivered (instant : Z) (e : OutboxEventModel) : OutboxEventModel :=
  mkOutboxEventModel (ob_event_id e) (topic e) (aggregate_id e) (payload e) DELIVERED
    (ob_attempts e + 1) (ob_available_at e) (Some instant) None.

(** [select ... where pending and available, in event_ids, order by, limit, skip locked] *)
Definition select_outbox (locked : string → bool) (instant : Z) (limit : nat)
  (event_ids : option (list string)) (rows : list OutboxEventModel) : list OutboxEventModel :=
  take limit (merge_sort outbox_le (filter (λ e,
    bool_decide (ob_status e = PENDING) && (ob_available_at e <=? instant)
    && negb (locked (ob_event_id e))
    && match event_ids with Some ids => bool_decide (ob_event_id e ∈ ids) | None => true end) rows)).

Definition set_outbox (id : string) (f : OutboxEventModel → OutboxEventModel)
  : list OutboxEventModel → list OutboxEventModel :=
  update_where (λ e, bool_decide (ob_event_id e = id)) f.

(** The body of the loop: 1 when the event was delivered. *)
Definition publish_event (instant : Z) (event : OutboxEventModel)
  : prog (list OutboxEventModel * R) Z :=
  outcome ← try_catch (_ ← zoom (publisher (topic event) (payload event)); mret (Ok tt))
              (λ exc, mret (Err exc));
  match outcome with
  | Err exc => _ ← zoom (modify (set_outbox (ob_event_id event) (outbox_failed exc))); mret 0
  | Ok _ => _ ← zoom (modify (set_outbox (ob_event_id event) (outbox_delivered instant))); mret 1
  end.

Definition dispatch_pending_events (locked : string → bool) (instant : Z) (limit : nat)
  (event_ids : option (list string)) : prog (list OutboxEventModel * R) Z :=
  if match event_ids with Some [] => true | _ => false end then mret 0
  else
    db ← get_store;
    counts ← for_each (select_outbox locked instant limit event_ids db.1) (publish_event instant);
    mret (sumZ (λ n, n) counts).

(** ** task_runtime/events/redis_stream.py *)

Definition delivery_failed (exc : exn) (d : TaskEventDeliveryModel) : TaskEventDeliveryModel :=
  mkTaskEventDeliveryModel (dl_event_id d) (stream_name d) (dl_status d) (attempts d + 1)
    (available_at d) (delivered_at d) (redis_message_id d) (Some (str_take 4000 (exn_text exc))).
Definition delivery_done (message_id : string) (instant : Z) (d : TaskEventDeliveryModel)
  : TaskEventDeliveryModel :=
  mkTaskEventDeliveryModel (dl_event_id d) (stream_name d) DELIVERED (attempts d + 1)
    (available_at d) (Some instant) (Some message_id) None.

Definition get_event (id : string) (db : TaskDB) : option TaskEventModel :=
  find (λ e, bool_decide (event_id e = id)) (task_events db).

Definition select_deliveries (locked : string → bool) (instant : Z) (limit : nat) (db : TaskDB)
  : list delivery_pair :=
  take limit (merge_sort delivery_le (omap (λ d,
    if bool_decide (dl_status d = PENDING) && (available_at d <=? instant) && negb (locked (dl_event_id d))
    then (λ e, (d, e)) <$> get_event (dl_event_id d) db else None) (task_event_deliveries db))).

(** The fields of the stream entry. *)
Definition stream_fields (event : TaskEventModel) : list (string * string) :=
  [("event_id"%string, event_id event);
   ("task_run_id"%string, task_run_id event);
   ("parent_run_id"%string, default ""%string (ev_parent_run_id event));
   ("seq"%string, str_of_Z (seq event));
   ("event_type"%string, TaskEventType_value (event_type event));
   ("producer"%string, producer event);
   ("base_context_revision"%string, str_of_Z (ev_base_context_revision event));
   ("payload_ref"%string, payload_ref event);
   ("idempotency_key"%string, idempotency_key event);
   ("emitted_at"%string, isoformat (emitted_at event))].

Definition set_delivery (id : string) (f : TaskEventDeliveryModel → TaskEventDeliveryModel)
  (db : TaskDB) : TaskDB :=
  mkTaskDB (contract_versions db) (manifest_versions db) (task_runs db) (task_events db)
    (update_where (λ d, bool_decide (dl_event_id d = id)) f (task_event_deliveries db)).

Definition publish_delivery (instant : Z) (delivery : TaskEventDeliveryModel) : prog (TaskDB * R) Z :=
  db ← get_store;
  event ← require (get_event (dl_event_id delivery) db.1)
            (RuntimeError "task event delivery exists without task event");
  outcome ← try_catch (m ← zoom (xadd (stream_name delivery) (stream_fields event)); mret (Ok m))
              (λ exc, mret (Err exc));
  match outcome with
  | Err exc => _ ← zoom (modify (set_delivery (dl_event_id delivery) (delivery_failed exc))); mret 0
  | Ok message_id =>
      _ ← zoom (modify (set_delivery (dl_event_id delivery) (delivery_done message_id instant))); mret 1
  end.

Definition dispatch_pending_task_events (locked : string → bool) (instant : Z) (limit : nat)
  : prog (TaskDB * R) Z :=
  db ← get_store;
  counts ← for_each (select_deliveries locked instant limit db.1).*1 (publish_delivery instant);
  mret (sumZ (λ n, n) counts).
End dispatch.

(** ** The consumer: what [redis-py] returns, as a Python object *)

Inductive pyobj :=
| PList (items : list pyobj)                (* list or tuple *)
| PDict (fields : list (pyobj * pyobj))
| PBytes (b : string)
| PText (s : string)
| POther.

Record TaskStreamMessage := mkTaskStreamMessage { message_id : string; tm_event_id : string }.

#[export] Instance TaskStreamMessage_eq_dec : EqDecision TaskStreamMessage.
Proof. solve_decision. Defined.

(** [_text]: bytes are kept as their decoded text. *)
Definition text (value : pyobj) : string :=
  match value with PBytes b => b | PText s => s | _ => "" end.

(** [fields.get(key)] for a text or a bytes key; [None] is [POther]. *)
Definition is_text_key (k : string) (p : pyobj * pyobj) : bool :=
  match p.1 with PText s => bool_decide (s = k) | _ => false end.
Definition is_bytes_key (k : string) (p : pyobj * pyobj) : bool :=
  match p.1 with PBytes s => bool_decide (s = k) | _ => false end.
Definition event_value (fields : list (pyobj * pyobj)) : pyobj :=
  match find (is_text_key "event_id") fields with
  | Some p => p.2
  | None => match find (is_bytes_key "event_id") fields with Some p => p.2 | None => POther end
  end.

(** [_normalize_messages] *)
Definition normalize_entry (entry : pyobj) : option TaskStreamMessage :=
  match entry with
  | PList (id :: PDict fields :: _) =>
      let message_id := text id in
      let event_id := text (event_value fields) in
      if bool_decide (message_id ≠ ""%string) && bool_decide (event_id ≠ ""%string)
      then Some (mkTaskStreamMessage message_id event_id) else None
  | _ => None
  end.
Definition normalize_messages (entries : list pyobj) : list TaskStreamMessage :=
  omap normalize_entry entries.

(** [_claimed_messages] *)
Definition claimed_messages (response : pyobj) : list pyobj :=
  match response with PList (_ :: PList messages :: _) => messages | _ => [] end.

(** [_stream_messages] *)
Definition stream_entries (stream_entry : pyobj) : list pyobj :=
  match stream_entry with PList (_ :: PList entries :: _) => entries | _ => [] end.
Definition stream_messages (response : pyobj) : list TaskStreamMessage :=
  match response with
  | PList streams => normalize_messages (mjoin (stream_entries <$> streams))
  | _ => []
  end.

(** [deduped.setdefault(message.message_id, message)] for each message, then [deduped.values()]. *)
Fixpoint dedup_messages (seen : list string) (messages : list TaskStreamMessage) : list TaskStreamMessage :=
  match messages with
  | [] => []
  | m :: rest =>
      if bool_decide (message_id m ∈ seen) then dedup_messages seen rest
      else m :: dedup_messages (message_id m :: seen) rest
  end.

Section consumer.
(** [xgroup_create], [xautoclaim(..., count=limit)] and [xreadgroup(..., count=n)] on Redis. *)
Context {R : Type} (xgroup_create : string → string → prog R unit)
  (xautoclaim : string → string → string → Z → Z → prog R pyobj)
  (xreadgroup : string → string → string → Z → option Z → prog R pyobj)
  (busygroup : exn → bool).

(** A [ResponseError] that says BUSYGROUP is the group that already exists. *)
Definition ensure_task_event_consumer_group (stream_name group_name : string) : prog R unit :=
  try_catch (xgroup_create stream_name group_name)
    (λ exc, if busygroup exc then mret tt else raise exc).

Definition read_task_event_messages (stream_name group_name consumer_name : string)
  (limit claim_idle_ms : Z) (block_ms : option Z) : prog R (list TaskStreamMessage) :=
  _ ← check (limit <? 1) (ValueError "task event consumer limit must be >= 1");
  _ ← check (claim_idle_ms <? 0) (ValueError "task event claim_idle_ms must be >= 0");
  _ ← ensure_task_event_consumer_group stream_name group_name;
  claimed_response ← xautoclaim stream_name group_name consumer_name claim_idle_ms limit;
  let messages := normalize_messages (claimed_messages claimed_response) in
  messages ← (if Z.of_nat (length messages) <? limit then
                fresh_response ← xreadgroup stream_name group_name consumer_name
                                   (limit - Z.of_nat (length messages)) block_ms;
                mret (messages ++ stream_messages fresh_response)
              else mret messages);
  mret (dedup_messages [] messages).
End consumer.

(** ** The publishing loop *)

(** Both outboxes run the same loop: a step publishes one selected row and then updates the rows of
    that key with the outcome.  The lemma gives the table after the whole loop. *)
Section outbox_loop.
Context {T A R O : Type} (key : A → string) (rows : T → list A)
  (set : string → (A → A) → T → T) (app : O → A → A) (count : O → Z)
  (step : A → prog (T * R) Z) (ready : A → T → Prop) (frame : T → T → Prop).
Context `{!PreOrder frame}.
Hypothesis rows_set : ∀ k f t, rows (set k f t) = update_where (λ a, bool_decide (key a = k)) f (rows t).
Hypothesis key_app : ∀ o a, key (app o a) = key a.
Hypothesis ready_set : ∀ a k f t, ready a t → ready a (set k f t).
Hypothesis frame_set : ∀ k f t, frame t (set k f t).
Hypothesis step_spec : ∀ a t r, ready a t →
  ∃ o r', step a (t, r) = (Ok (count o), (set (key a) (app o) t, r')).

Lemma outbox_loop_spec (o0 : O) l t r :
  NoDup (key <$> l) → (∀ a, a ∈ l → ready a t) →
  ∃ outcome t' r', for_each l step (t, r) = (Ok ((λ a, count (outcome (key a))) <$> l), (t', r')) ∧
    rows t' = (λ a, if bool_decide (key a ∈ key <$> l) then app (outcome (key a)) a else a) <$> rows t ∧
    frame t t'.
Proof.
  revert t r. induction l as [|a l IH]; intros t r Hnd Hready.
  { exists (λ _, o0), t, r. split; [done|]. split; [|done]. rewrite <- (list_fmap_id (rows t)) at 1.
    apply list_fmap_ext. by intros i x _. }
  rewrite fmap_cons, NoDup_cons in Hnd. destruct Hnd as [Ha Hnd].
  destruct (step_spec a t r) as (o&r1&Hstep); [apply Hready, list_elem_of_here|].
  destruct (IH (set (key a) (app o) t) r1 Hnd) as (outcome&t'&r'&Hrun&Hrows&Hframe).
  { intros b Hb. by apply ready_set, Hready, list_elem_of_further. }
  exists (λ k, if decide (k = key a) then o else outcome k), t', r'. split; [|split].
  - simpl. unfold mbind, prog_bind. rewrite Hstep, Hrun. unfold mret, prog_ret.
    rewrite decide_True by done. do 2 f_equal. f_equal. apply list_fmap_ext. intros i b Hb.
    apply list_elem_of_lookup_2 in Hb. simpl. rewrite decide_False; [done|].
    intros Heq. apply Ha. rewrite <- Heq. by apply list_elem_of_fmap_2.
  - rewrite Hrows, rows_set. unfold update_where. rewrite <- list_fmap_compose. apply list_fmap_ext.
    intros i b _. unfold compose. cbv beta. rewrite fmap_cons. destruct (decide (key b = key a)) as [Hk|Hk].
    + rewrite (bool_decide_eq_true_2 (key b = key a)) by done. rewrite key_app.
      rewrite bool_decide_eq_false_2 by congruence.
      rewrite bool_decide_eq_true_2 by (rewrite Hk; apply list_elem_of_here). done.
    + rewrite (bool_decide_eq_false_2 (key b = key a)) by done.
      rewrite (bool_decide_ext (key b ∈ key a :: (key <$> l)) (key b ∈ key <$> l)); [|rewrite elem_of_cons; naive_solver].
      done.
  - transitivity (set (key a) (app o) t); [apply frame_set|done].
Qed.
End outbox_loop.

(** ** Deliveries *)

(** Two stores that differ only in their outbox rows. *)
Definition same_but_deliveries (db db' : TaskDB) : Prop :=
  contract_versions db' = contract_versions db ∧ manifest_versions db' = manifest_versions db ∧
  task_runs db' = task_runs db ∧ task_events db' = task_events db.

#[export] Instance same_but_deliveries_preorder : PreOrder same_but_deliveries.
Proof. split; [done|]. unfold same_but_deliveries. intros ? ? ? (?&?&?&?) (?&?&?&?). split_and!; congruence. Qed.

Section dispatch_properties.
Context {R : Type} (exn_text : exn → string) (isoformat : Z → string)
  (publisher : string → list (string * json) → prog R unit)
  (xadd : string → list (string * string) → prog R string).

(** What one reply of Redis does to a row. *)
Definition apply_reply (instant : Z) (reply : result string) (d : TaskEventDeliveryModel)
  : TaskEventDeliveryModel :=
  match reply with
  | Ok message_id => delivery_done message_id instant d
  | Err exc => delivery_failed exn_text exc d
  end.

Lemma publish_delivery_spec instant d db r e :
  get_event (dl_event_id d) db = Some e →
  let reply := xadd (stream_name d) (stream_fields isoformat e) r in
  publish_delivery exn_text isoformat xadd instant d (db, r) =
  (Ok (if is_ok reply.1 then 1 else 0),
   (set_delivery (dl_event_id d) (apply_reply instant reply.1) db, reply.2)).
Proof.
  intros He. unfold publish_delivery, require. run_step. simpl. rewrite He.
  unfold try_catch, zoom. simpl. destruct (xadd _ _ r) as [[m|exc] r']; simpl; done.
Qed.

Lemma delivery_id_reply instant reply d : dl_event_id (apply_reply instant reply d) = dl_event_id d.
Proof. by destruct reply. Qed.

Lemma elem_of_select locked instant limit db p :
  p ∈ select_deliveries locked instant limit db →
  p.1 ∈ task_event_deliveries db ∧ get_event (dl_event_id p.1) db = Some p.2 ∧
  dl_status p.1 = PENDING ∧ available_at p.1 ≤ instant ∧ locked (dl_event_id p.1) = false.
Proof.
  unfold select_deliveries. intros Hp%elem_of_take. destruct Hp as (i&Hp%list_elem_of_lookup_2&_).
  rewrite merge_sort_Permutation in Hp. apply list_elem_of_omap in Hp as (d&Hd&H).
  destruct (bool_decide (dl_status d = PENDING)) eqn:H1; [|done].
  destruct (Z.leb_spec (available_at d) instant); [|done].
  destruct (locked (dl_event_id d)) eqn:H3; [done|]. simpl in H.
  destruct (get_event (dl_event_id d) db) eqn:He; [|done]. injection H as <-.
  apply bool_decide_eq_true in H1. done.
Qed.

Lemma NoDup_select locked instant limit db :
  NoDup (dl_event_id <$> task_event_deliveries db) →
  NoDup (dl_event_id <$> (select_deliveries locked instant limit db).*1).
Proof.
  intros Hnd. unfold select_deliveries. set (sel := omap _ _).
  assert (NoDup (dl_event_id <$> sel.*1)) as Hsel.
  { subst sel. induction (task_event_deliveries db) as [|d l IH]; [constructor|].
    rewrite fmap_cons, NoDup_cons in Hnd. destruct Hnd as [Hd Hnd]. csimpl.
    case_match; [|by apply IH]. csimpl. apply NoDup_cons. split; [|by apply IH].
    match goal with H : (if ?c then _ else _) = Some ?p |- _ =>
      destruct c; [|done]; destruct (get_event (dl_event_id d) db); [|done]; injection H as <- end.
    simpl. intros (q&Hq&((d2,e2)&->&Hin)%list_elem_of_fmap)%list_elem_of_fmap. simpl in Hq.
    apply Hd. rewrite Hq. apply list_elem_of_omap in Hin as (d3&Hd3&H3). case_match; [|done].
    destruct (get_event (dl_event_id d3) db); [|done]. injection H3 as -> ->.
    by apply list_elem_of_fmap_2. }
  rewrite !fmap_take. apply (sublist_NoDup _ (dl_event_id <$> (merge_sort delivery_le sel).*1)).
  - by rewrite merge_sort_Permutation.
  - apply sublist_take.
Qed.
End dispatch_properties.

(** [dispatch_pending_task_events], for any behaviour of Redis: the call returns; it selects at most
    [limit] pending, available, unlocked rows; exactly the selected rows change, each by what Redis
    replied for it: delivered with the message id, or one more attempt with the error and still
    pending; the result counts the delivered rows; and the rest of the store is untouched. *)
Theorem dispatch_task_events_spec {R} exn_text isoformat (xadd : string → list (string * string) → prog R string)
  contract_digest manifest_digest locked instant limit db r :
  task_wf contract_digest manifest_digest db →
  let sel := select_deliveries locked instant limit db in
  (length sel ≤ limit)%nat ∧
  (∀ p, p ∈ sel → p.1 ∈ task_event_deliveries db ∧ dl_status p.1 = PENDING ∧ available_at p.1 ≤ instant ∧
    locked (dl_event_id p.1) = false) ∧
  ∃ (reply : string → result string) db' r',
    dispatch_pending_task_events exn_text isoformat xadd locked instant limit (db, r) =
      (Ok (sumZ (λ p, if is_ok (reply (dl_event_id p.1)) then 1 else 0) sel), (db', r')) ∧
    same_but_deliveries db db' ∧
    task_event_deliveries db' =
      (λ d, if bool_decide (dl_event_id d ∈ dl_event_id <$> sel.*1)
            then apply_reply exn_text instant (reply (dl_event_id d)) d else d) <$> task_event_deliveries db.
Proof.
  intros Hwf sel. split; [unfold sel, select_deliveries; rewrite length_take; lia|].
  split; [intros p (?&_&?&?&?)%elem_of_select; done|].
  destruct (outbox_loop_spec dl_event_id task_event_deliveries set_delivery
    (apply_reply exn_text instant) (λ o, if is_ok o then 1 else 0)
    (publish_delivery exn_text isoformat xadd instant)
    (λ d t, is_Some (get_event (dl_event_id d) t)) same_but_deliveries
    ltac:(done) (delivery_id_reply exn_text instant) ltac:(done) ltac:(done)
    ltac:(intros d t r0 [e He]; eexists _, _; by apply publish_delivery_spec)
    (Ok ""%string) sel.*1 db r) as (reply&db'&r'&Hrun&Hrows&Hframe).
  - apply NoDup_select. rewrite (wf_deliveries _ _ _ Hwf). apply (wf_event_ids _ _ _ Hwf).
  - intros d (p&->&Hp)%list_elem_of_fmap. apply elem_of_select in Hp as (_&He&_). by eexists.
  - exists reply, db', r'. split; [|done]. unfold dispatch_pending_task_events, mbind, prog_bind, get_store.
    simpl. fold sel. rewrite Hrun. unfold mret, prog_ret. do 2 f_equal.
    clear. induction sel as [|p l IH]; [done|]. csimpl. unfold sumZ in *. simpl in *. by rewrite IH.
Qed.

Definition type_name_text (e : exn) : string := "Error".
Definition sample_redis : string → list (string * string) → prog (list (list (string * string))) string :=
  λ stream fields log,
    (if bool_decide (length log = 1%nat) then Err (OtherException "ConnectionError" "timeout") else Ok "1-0"%string,
     log ++ [fields]).

Lemma dispatch_task_events_spec_witness :
  ∃ reply db' r', dispatch_pending_task_events type_name_text str_of_Z sample_redis (λ _, false) 100 3
      (sample_store, []) = (Ok reply, (db', r')) ∧ same_but_deliveries sample_store db'.
Proof.
  destruct (dispatch_task_events_spec type_name_text str_of_Z sample_redis tc_id context_id (λ _, false) 100 3
    sample_store [] sample_store_wf)
    as (_&_&reply&db'&r'&Hrun&Hsame&_).
  eexists _, db', r'. split; [exact Hrun|exact Hsame].
Defined.

(** The order of selection is total and transitive, so sorting sorts. *)
#[export] Instance delivery_le_total : Total delivery_le.
Proof.
  intros [d1 e1] [d2 e2]. unfold delivery_le. simpl.
  destruct (decide (task_run_id e1 = task_run_id e2)) as [Heq|Hne].
  - destruct (Z.lt_trichotomy (seq e1) (seq e2)) as [?|[?|?]]; [left; auto| |right; right; auto].
    destruct (total String.le (dl_event_id d1) (dl_event_id d2)); [left|right]; auto.
  - destruct (total String.le (task_run_id e1) (task_run_id e2)); [left|right]; auto.
Qed.

#[export] Instance delivery_le_trans : Transitive delivery_le.
Proof.
  intros [d1 e1] [d2 e2] [d3 e3]. unfold delivery_le. simpl.
  intros [[H1 L1]|[H1 L1]] [[H2 L2]|[H2 L2]].
  - left. split; [|by transitivity (task_run_id e2)]. intros Heq. apply H1. rewrite <- Heq in L2.
    by apply (anti_symm String.le).
  - left. by rewrite <- H2.
  - left. by rewrite H1.
  - right. split; [congruence|]. destruct L1 as [?|[? ?]], L2 as [?|[? ?]]; try (left; lia).
    right. split; [congruence|]. by transitivity (dl_event_id d2).
Qed.

Lemma StronglySorted_lookup {A} (P : A → A → Prop) l i j x y :
  StronglySorted P l → l !! i = Some x → l !! j = Some y → (i < j)%nat → P x y.
Proof.
  intros H. revert i j. induction H as [|z l Hl IH Hz]; intros i j Hi Hj Hlt; [done|].
  destruct j as [|j]; [lia|]. destruct i as [|i]; simpl in *.
  - injection Hi as <-. by apply (Forall_lookup_1 _ _ _ _ Hz Hj).
  - apply (IH i j); [done..|lia].
Qed.

Section order.
Context (exn_text : exn → string) (isoformat : Z → string)
  (xadd : string → list (string * string) → prog (list (list (string * string))) string).
(** Redis keeps the entries in the order of the calls, also of the calls that raise. *)
Hypothesis xadd_logs : ∀ stream fields log, (xadd stream fields log).2 = log ++ [fields].

Lemma publish_loop_trace instant l db log :
  (∀ p, p ∈ l → get_event (dl_event_id p.1) db = Some p.2) →
  (for_each l.*1 (publish_delivery exn_text isoformat xadd instant) (db, log)).2.2 =
    log ++ (stream_fields isoformat <$> l.*2).
Proof.
  revert db log. induction l as [|p l IH]; intros db log Hl; [simpl; by rewrite app_nil_r|].
  csimpl. unfold mbind, prog_bind.
  rewrite (publish_delivery_spec exn_text isoformat xadd instant p.1 db log p.2)
    by (apply Hl, list_elem_of_here).
  match goal with |- context [for_each _ _ ?st] => pose proof (IH st.1 st.2) as Hrest end.
  simpl in Hrest. rewrite xadd_logs in *.
  match goal with |- context [for_each _ _ ?st] => destruct (for_each l.*1 _ st) as [[ns|e] [db' log']] end;
    simpl in *; (rewrite Hrest, <- app_assoc; [done|]); intros q Hq; apply (Hl q); by apply list_elem_of_further.
Qed.
End order.

Lemma get_event_elem id db e : get_event id db = Some e → e ∈ task_events db ∧ event_id e = id.
Proof. intros [He Hid]%find_elem. by apply bool_decide_eq_true in Hid. Qed.

Lemma wf_event_of_delivery contract_digest manifest_digest db :
  task_wf contract_digest manifest_digest db →
  ∀ d, d ∈ task_event_deliveries db → is_Some (get_event (dl_event_id d) db).
Proof.
  intros Hwf d Hd. apply (list_elem_of_fmap_2 dl_event_id) in Hd. rewrite (wf_deliveries _ _ _ Hwf) in Hd.
  apply list_elem_of_fmap in Hd as (e&He&Hin). unfold get_event.
  destruct (find _ (task_events db)) as [e'|] eqn:E; [by eexists|].
  pose proof (find_None_elem _ _ e E Hin) as Hf. cbv beta in Hf. by rewrite bool_decide_eq_true_2 in Hf.
Qed.

(** [dispatch_pending_task_events] publishes in order: the stream receives exactly the selected
    events, one entry each, and the events of one run in the order of their numbers (also when some
    of the calls fail); with a large enough limit every pending, available, unlocked event is among
    them. *)
Theorem dispatch_in_order exn_text isoformat xadd contract_digest manifest_digest locked instant limit db log :
  (∀ stream fields log, (xadd stream fields log).2 = log ++ [fields]) →
  task_wf contract_digest manifest_digest db →
  let sel := select_deliveries locked instant limit db in
  (dispatch_pending_task_events exn_text isoformat xadd locked instant limit (db, log)).2.2 =
    log ++ (stream_fields isoformat <$> sel.*2) ∧
  (∀ i j p q, (i < j)%nat → sel !! i = Some p → sel !! j = Some q →
    task_run_id p.2 = task_run_id q.2 → seq p.2 < seq q.2) ∧
  ((length (task_event_deliveries db) ≤ limit)%nat → ∀ d, d ∈ task_event_deliveries db →
    dl_status d = PENDING → available_at d ≤ instant → locked (dl_event_id d) = false → d ∈ sel.*1).
Proof.
  intros Hlog Hwf sel. split; [|split].
  - unfold dispatch_pending_task_events, mbind, prog_bind, get_store. simpl. fold sel.
    pose proof (publish_loop_trace exn_text isoformat xadd Hlog instant sel db log) as Htrace.
    destruct (for_each sel.*1 _ (db, log)) as [[ns|e] st]; simpl in *; apply Htrace;
      intros p (_&He&_)%elem_of_select; exact He.
  - intros i j p q Hij Hp Hq Hrun.
    assert (StronglySorted delivery_le sel) as Hsort
      by (apply StronglySorted_take; apply (StronglySorted_merge_sort _)).
    destruct (StronglySorted_lookup _ _ _ _ _ _ Hsort Hp Hq Hij) as [[? _]|[_ [?|[Hseq _]]]]; [done|done|].
    exfalso. pose proof (list_elem_of_lookup_2 _ _ _ Hp) as (_&He1&_)%elem_of_select.
    pose proof (list_elem_of_lookup_2 _ _ _ Hq) as (_&He2&_)%elem_of_select.
    apply get_event_elem in He1 as [He1 Hid1], He2 as [He2 Hid2].
    assert (p.2 = q.2) as Heq.
    { apply (NoDup_fmap_eq seq (run_events (task_run_id p.2) db)); [|apply list_elem_of_filter..|done].
      - rewrite (wf_seqs _ _ _ Hwf). apply NoDup_seqZ.
      - by rewrite Is_true_true, bool_decide_eq_true.
      - by rewrite Is_true_true, bool_decide_eq_true. }
    assert (NoDup (dl_event_id <$> sel.*1)) as Hnd.
    { apply NoDup_select. rewrite (wf_deliveries _ _ _ Hwf). apply (wf_event_ids _ _ _ Hwf). }
    assert (i = j) as ->; [|lia].
    apply (NoDup_lookup _ _ _ (dl_event_id p.1) Hnd); rewrite !list_lookup_fmap.
    + exact (f_equal (λ o, dl_event_id <$> (fst <$> o)) Hp).
    + rewrite <- Hid1, Heq, Hid2. exact (f_equal (λ o, dl_event_id <$> (fst <$> o)) Hq).
  - intros Hlim d Hd Hst Hav Hlock. unfold sel, select_deliveries. rewrite take_ge.
    + destruct (wf_event_of_delivery _ _ db Hwf d Hd) as [e He]. apply list_elem_of_fmap. exists (d, e).
      split; [done|]. rewrite merge_sort_Permutation. apply list_elem_of_omap. exists d. split; [done|].
      rewrite bool_decide_eq_true_2, (proj2 (Z.leb_le _ _) Hav), Hlock by done. simpl. by rewrite He.
    + rewrite merge_sort_Permutation. etrans; [|exact Hlim]. clear.
      induction (task_event_deliveries db) as [|d l IH]; [done|]. csimpl. case_match; simpl; lia.
Qed.

Lemma dispatch_in_order_witness :
  (dispatch_pending_task_events type_name_text str_of_Z sample_redis (λ _, false) 100 10 (sample_store, [])).2.2 =
    stream_fields str_of_Z <$> (select_deliveries (λ _, false) 100 10 sample_store).*2 ∧
  (event_id <$> (select_deliveries (λ _, false) 100 10 sample_store).*2) =
    ["e0"%string; "e1"%string; "e2"%string; "e3"%string; "e4"%string].
Proof.
  split; [|by vm_compute].
  exact (proj1 (dispatch_in_order type_name_text str_of_Z sample_redis tc_id context_id (λ _, false) 100 10
    sample_store [] (λ _ _ _, eq_refl) sample_store_wf)).
Defined.

(** ** The shared outbox *)

Section shared.
Context {R : Type} (exn_text : exn → string) (publisher : string → list (string * json) → prog R unit).

(** What one reply of the broker does to a row. *)
Definition apply_outcome (instant : Z) (reply : result unit) (e : OutboxEventModel) : OutboxEventModel :=
  match reply with Ok _ => outbox_delivered instant e | Err exc => outbox_failed exn_text exc e end.

Lemma publish_event_spec instant e rows r :
  let reply := publisher (topic e) (payload e) r in
  publish_event exn_text publisher instant e (rows, r) =
  (Ok (if is_ok reply.1 then 1 else 0),
   (set_outbox (ob_event_id e) (apply_outcome instant reply.1) rows, reply.2)).
Proof.
  unfold publish_event, try_catch, zoom. run_step. simpl.
  by destruct (publisher _ _ r) as [[[]|exc] r']; simpl.
Qed.

Lemma elem_of_select_outbox locked instant limit ids rows e :
  e ∈ select_outbox locked instant limit ids rows →
  e ∈ rows ∧ ob_status e = PENDING ∧ ob_available_at e ≤ instant ∧ locked (ob_event_id e) = false ∧
  match ids with Some ids => ob_event_id e ∈ ids | None => True end.
Proof.
  unfold select_outbox. intros (i&He%list_elem_of_lookup_2&_)%elem_of_take.
  rewrite merge_sort_Permutation, list_elem_of_filter, Is_true_true, !andb_true_iff in He.
  rewrite bool_decide_eq_true, negb_true_iff, Z.leb_le in He.
  destruct He as [[[[H1 H2] H3] H4] Hin]. split_and!; try done. destruct ids; [|done].
  by apply bool_decide_eq_true in H4.
Qed.

Lemma NoDup_select_outbox locked instant limit ids rows :
  NoDup (ob_event_id <$> rows) → NoDup (ob_event_id <$> select_outbox locked instant limit ids rows).
Proof.
  intros Hnd. unfold select_outbox. rewrite fmap_take.
  eapply sublist_NoDup; [|apply sublist_take]. rewrite merge_sort_Permutation.
  eapply sublist_NoDup; [exact Hnd|]. apply fmap_sublist, sublist_filter.
Qed.
End shared.

(** [dispatch_pending_events], for any behaviour of the broker: the call returns; only pending,
    available, unlocked rows (of the requested events) are published, at most [limit]; exactly those
    rows change, to delivered or to one more attempt with the error, still pending; and the result
    counts the delivered ones. *)
Theorem dispatch_outbox_spec {R} exn_text (publisher : string → list (string * json) → prog R unit)
  locked instant limit event_ids rows r :
  NoDup (ob_event_id <$> rows) → event_ids ≠ Some [] →
  let sel := select_outbox locked instant limit event_ids rows in
  (length sel ≤ limit)%nat ∧
  (∀ e, e ∈ sel → e ∈ rows ∧ ob_status e = PENDING ∧ ob_available_at e ≤ instant ∧
    locked (ob_event_id e) = false ∧ match event_ids with Some ids => ob_event_id e ∈ ids | None => True end) ∧
  ∃ (reply : string → result unit) r',
    dispatch_pending_events exn_text publisher locked instant limit event_ids (rows, r) =
      (Ok (sumZ (λ e, if is_ok (reply (ob_event_id e)) then 1 else 0) sel),
       ((λ e, if bool_decide (ob_event_id e ∈ ob_event_id <$> sel)
              then apply_outcome exn_text instant (reply (ob_event_id e)) e else e) <$> rows, r')).
Proof.
  intros Hnd Hids sel. split; [unfold sel, select_outbox; rewrite length_take; lia|].
  split; [intros e; apply elem_of_select_outbox|].
  destruct (outbox_loop_spec ob_event_id (λ rows, rows) set_outbox
    (apply_outcome exn_text instant) (λ o, if is_ok o then 1 else 0)
    (publish_event exn_text publisher instant) (λ _ _, True) any_step
    ltac:(done) ltac:(by intros []) ltac:(done) ltac:(done)
    ltac:(intros e t r0 _; eexists _, _; by apply publish_event_spec)
    (Ok tt) sel rows r) as (reply&rows'&r'&Hrun&Hrows&_); [by apply NoDup_select_outbox|done|].
  exists reply, r'. unfold dispatch_pending_events.
  assert (match event_ids with Some [] => true | _ => false end = false) as ->
    by (destruct event_ids as [[|]|]; done).
  unfold mbind, prog_bind, get_store. simpl. fold sel. rewrite Hrun, Hrows. unfold mret, prog_ret. do 2 f_equal.
  clear. induction sel as [|p l IH]; [done|]. csimpl. unfold sumZ in *. simpl in *. by rewrite IH.
Qed.

Definition sample_outbox : list OutboxEventModel :=
  [mkOutboxEventModel "a" "collection.requested" "run:1" [] PENDING 0 10 None None;
   mkOutboxEventModel "b" "collection.requested" "run:2" [] DELIVERED 1 10 (Some 11) None;
   mkOutboxEventModel "c" "collection.requested" "run:3" [] PENDING 0 90 None None].
Definition sample_broker : string → list (string * json) → prog Z unit := λ _ _ n, (Ok tt, n + 1).

Lemma dispatch_outbox_spec_witness :
  ∃ reply r', dispatch_pending_events type_name_text sample_broker (λ _, false) 50 100 None (sample_outbox, 0) =
    (Ok reply, r') ∧ reply = 1.
Proof.
  destruct (dispatch_outbox_spec type_name_text sample_broker (λ _, false) 50 100 None sample_outbox 0)
    as (_&_&reply&r'&Hrun); [by_decide|done|].
  eexists _, _. split; [exact Hrun|]. apply (f_equal fst) in Hrun. vm_compute in Hrun. vm_compute. congruence.
Defined.

(** ** The consumer *)

Lemma dedup_messages_spec seen l :
  NoDup (message_id <$> dedup_messages seen l) ∧
  (∀ m, m ∈ dedup_messages seen l → m ∈ l ∧ message_id m ∉ seen) ∧
  (∀ m, m ∈ l → message_id m ∈ seen ∨ message_id m ∈ (message_id <$> dedup_messages seen l)).
Proof.
  revert seen. induction l as [|m l IH]; intros seen; simpl.
  { split_and!; [constructor|intros m Hm; by apply not_elem_of_nil in Hm..]. }
  case_bool_decide as Hs.
  - destruct (IH seen) as (Hnd&Hin&Hall). split; [done|]. split.
    + intros m' [? ?]%Hin. split; [by apply list_elem_of_further|done].
    + intros m' [->|?]%elem_of_cons; [by left|by apply Hall].
  - destruct (IH (message_id m :: seen)) as (Hnd&Hin&Hall). csimpl. split; [|split].
    + apply NoDup_cons. split; [|done]. intros (m'&Hm&[_ Hn]%Hin)%list_elem_of_fmap.
      apply Hn. rewrite Hm. apply list_elem_of_here.
    + intros m' [->|[? Hn]%Hin]%elem_of_cons; [split; [apply list_elem_of_here|done]|].
      split; [by apply list_elem_of_further|]. intros Hx. apply Hn. by apply list_elem_of_further.
    + intros m' [->|Hm]%elem_of_cons; [right; apply list_elem_of_here|].
      destruct (Hall m' Hm) as [[Hx|?]%elem_of_cons|?]; [|by left|].
      * right. rewrite Hx. apply list_elem_of_here.
      * right. by apply list_elem_of_further.
Qed.

Lemma normalize_nonempty entries m :
  m ∈ normalize_messages entries → message_id m ≠ ""%string ∧ tm_event_id m ≠ ""%string.
Proof.
  unfold normalize_messages. rewrite list_elem_of_omap. intros (e&_&He). unfold normalize_entry in He.
  repeat case_match; simplify_eq/=.
  match goal with H : _ && _ = true |- _ => apply andb_true_iff in H as [H1 H2] end.
  by rewrite !bool_decide_eq_true in *.
Qed.

(** [read_task_event_messages]: whatever objects Redis returns, the messages handed to the consumer
    have distinct, non-empty message ids and name an event; every well-formed entry that Redis
    returned is represented; and a limit below 1 or a negative idle time is refused before Redis is
    asked. *)
Theorem read_messages_distinct {R} xgroup xautoclaim xreadgroup busy stream group consumer limit idle block (r : R) :
  (limit < 1 ∨ idle < 0 → ∃ msg, read_task_event_messages xgroup xautoclaim xreadgroup busy stream group
     consumer limit idle block r = (Err (ValueError msg), r)) ∧
  ∀ messages r', read_task_event_messages xgroup xautoclaim xreadgroup busy stream group
     consumer limit idle block r = (Ok messages, r') →
    NoDup (message_id <$> messages) ∧
    (∀ m, m ∈ messages → message_id m ≠ ""%string ∧ tm_event_id m ≠ ""%string) ∧
    ∃ claimed r1 r2, xautoclaim stream group consumer idle limit r1 = (Ok claimed, r2) ∧
      ∀ m, m ∈ normalize_messages (claimed_messages claimed) → message_id m ∈ (message_id <$> messages).
Proof.
  split.
  - intros Hbad. unfold read_task_event_messages, check. run_step.
    destruct (Z.ltb_spec limit 1); [by eexists|]. destruct (Z.ltb_spec idle 0); [by eexists|lia].
  - intros messages r' H. unfold read_task_event_messages in H.
    apply bind_Ok in H as (u1&s1&H1&H). apply bind_Ok in H as (u2&s2&H2&H).
    apply bind_Ok in H as (u3&s3&H3&H). apply bind_Ok in H as (claimed&s4&H4&H). cbv zeta in H.
    apply bind_Ok in H as (all&s5&H5&H). apply ret_Ok in H as [-> _].
    assert (∀ m, m ∈ normalize_messages (claimed_messages claimed) → m ∈ all) as Hclaimed.
    { case_match; [|by apply ret_Ok in H5 as [-> _]].
      apply bind_Ok in H5 as (fresh&s6&_&H5). apply ret_Ok in H5 as [-> _]. intros m Hm.
      apply elem_of_app. by left. }
    assert (∀ m, m ∈ all → message_id m ≠ ""%string ∧ tm_event_id m ≠ ""%string) as Hall.
    { case_match; [|apply ret_Ok in H5 as [-> _]; by apply normalize_nonempty].
      apply bind_Ok in H5 as (fresh&s6&_&H5). apply ret_Ok in H5 as [-> _].
      intros m [Hm|Hm]%elem_of_app; [by eapply normalize_nonempty|].
      unfold stream_messages in Hm. destruct fresh; try by apply not_elem_of_nil in Hm.
      by eapply normalize_nonempty. }
    destruct (dedup_messages_spec [] all) as (Hnd&Hin&Hrep). split; [done|]. split.
    + intros m [Hm _]%Hin. by apply Hall.
    + exists claimed, s3, s4. split; [done|]. intros m Hm%Hclaimed.
      by destruct (Hrep m Hm) as [Hx|Hx]; [by apply not_elem_of_nil in Hx|].
Qed.

Definition sample_claim : pyobj :=
  PList [PBytes "0-0"; PList [PList [PBytes "1-0"; PDict [(PBytes "event_id", PBytes "e1")]];
                              PList [PBytes "1-0"; PDict [(PBytes "event_id", PBytes "e1")]]; POther]; PList []].

Lemma read_messages_distinct_witness :
  let read limit := read_task_event_messages (R:=unit) (λ _ _, raise (OtherException "ResponseError" "BUSYGROUP"))
    (λ _ _ _ _ _, mret sample_claim) (λ _ _ _ _ _, mret (PList [])) (λ _, true) "s" "g" "c" limit 0 None tt in
  (∃ messages, read 10 = (Ok messages, tt) ∧ NoDup (message_id <$> messages)) ∧
  ∃ msg, read 0 = (Err (ValueError msg), tt).
Proof.
  intros read. split.
  - eexists. split; [vm_compute; reflexivity|].
    refine (proj1 (proj2 (read_messages_distinct (R:=unit) (λ _ _, raise (OtherException "ResponseError" "BUSYGROUP"))
      (λ _ _ _ _ _, mret sample_claim) (λ _ _ _ _ _, mret (PList [])) (λ _, true) "s" "g" "c" 10 0 None tt)
      _ tt _)). vm_compute. reflexivity.
  - apply (read_messages_distinct (R:=unit)). left. lia.
Defined.
