(* ===== verification/Execution.v ===== *)
(** * Execution: packages/runtime/execution (loop.py, service.py)

    [BoundedLoop] guards the iterations of a role: a small state machine whose methods return a gate
    and the next state.  [ExecutionRunService] keeps one row per execution envelope; its store is the
    task store (for the foreign key on the task run) beside the table [execution_runs]. *)

From S2P Require Import Prelude.
From S2P Require Import Effects.
From S2P Require Import TaskContracts.
From S2P Require Import TaskStore.

(** ** loop.py *)

Inductive LoopStopReason :=
| GOAL_SATISFIED | EVIDENCE_SUFFICIENT | BUDGET_EXHAUSTED | DEADLINE_REACHED | PROVIDER_BLOCKED
| CAPABILITY_DENIED | POLICY_DENIED | EXTERNAL_FAILURE | NO_PROGRESS | WAITING_FOR_WORLD_UPDATE
| HUMAN_REVIEW_REQUIRED.

#[export] Instance LoopStopReason_eq_dec : EqDecision LoopStopReason.
Proof. solve_decision. Defined.

Record BoundedLoopConfig := mkBoundedLoopConfig {
  loop_id : string;
  bl_execution_id : string;
  max_iterations : Z;
  bl_deadline_at : datetime;
  bl_budget_ref : string;
  no_progress_limit : Z
}.

(** The field constraints of [BoundedLoopConfig] and [validate_deadline]. *)
Definition validate_deadline (self : BoundedLoopConfig) : result BoundedLoopConfig :=
  if (max_iterations self <? 1) || (no_progress_limit self <? 1)
  then Err (ValueError "Input should be greater than or equal to 1")
  else if negb (dt_aware (bl_deadline_at self))
  then Err (ValueError "BoundedLoop deadline_at must be timezone-aware")
  else Ok self.

Record LoopGate := mkLoopGate {
  allowed : bool;
  iteration : Z;
  lg_stop_reason : option LoopStopReason
}.

Record BoundedLoop := mkBoundedLoop {
  config : BoundedLoopConfig;
  completed_iterations : Z;
  last_progress_signature : option string;
  no_progress_count : Z;
  terminal_reason : option LoopStopReason
}.

(** [BoundedLoop.__init__] *)
Definition new_loop (config : BoundedLoopConfig) : BoundedLoop := mkBoundedLoop config 0 None 0 None.

Definition set_terminal (reason : option LoopStopReason) (self : BoundedLoop) : BoundedLoop :=
  mkBoundedLoop (config self) (completed_iterations self) (last_progress_signature self)
    (no_progress_count self) reason.

(** [BoundedLoop.before_iteration] *)
Definition before_iteration (now : datetime) (budget_available : bool) : prog BoundedLoop LoopGate :=
  self ← get_store;
  _ ← check (negb (dt_aware now)) (ValueError "BoundedLoop now must be timezone-aware");
  if bool_decide (terminal_reason self ≠ None)
  then mret (mkLoopGate false (completed_iterations self) (terminal_reason self))
  else
    let reason :=
      if dt_us now >=? dt_us (bl_deadline_at (config self)) then Some DEADLINE_REACHED
      else if negb budget_available then Some BUDGET_EXHAUSTED
      else if completed_iterations self >=? max_iterations (config self) then Some BUDGET_EXHAUSTED
      else if no_progress_count self >=? no_progress_limit (config self) then Some NO_PROGRESS
      else None in
    _ ← modify (set_terminal reason);
    if bool_decide (reason ≠ None)
    then mret (mkLoopGate false (completed_iterations self) reason)
    else mret (mkLoopGate true (completed_iterations self + 1) None).

(** [BoundedLoop.complete_iteration] *)
Definition complete_iteration (progress_signature : option string) : prog BoundedLoop LoopGate :=
  self ← get_store;
  _ ← check (bool_decide (terminal_reason self ≠ None))
        (RuntimeError "cannot complete iteration after loop termination");
  let stalled := bool_decide (progress_signature = None ∨
                              progress_signature = last_progress_signature self) in
  let count := if stalled then no_progress_count self + 1 else 0 in
  let signature := if stalled then last_progress_signature self else progress_signature in
  let reason := if count >=? no_progress_limit (config self) then Some NO_PROGRESS else None in
  let self := mkBoundedLoop (config self) (completed_iterations self + 1) signature count reason in
  _ ← modify (λ _, self);
  mret (mkLoopGate (bool_decide (reason = None)) (completed_iterations self) reason).

(** [BoundedLoop.stop] *)
Definition stop (reason : LoopStopReason) : prog BoundedLoop LoopGate :=
  self ← get_store;
  _ ← modify (set_terminal (Some reason));
  mret (mkLoopGate false (completed_iterations self) (Some reason)).

(** ** packages/runtime/storage/models.py *)

Inductive execution_status := EX_CREATED | EX_RUNNING | EX_COMPLETED | EX_FAILED | EX_CANCELLED | EX_TIMED_OUT | EX_BLOCKED.

#[export] Instance execution_status_eq_dec : EqDecision execution_status.
Proof. solve_decision. Defined.

Definition TERMINAL_EXECUTION_STATUSES : list execution_status :=
  [EX_COMPLETED; EX_FAILED; EX_CANCELLED; EX_TIMED_OUT; EX_BLOCKED].

Record ExecutionRunModel := mkExecutionRunModel {
  xr_execution_id : string;
  xr_parent_execution_id : option string;
  xr_task_run_id : string;
  envelope_json : ExecutionEnvelope;
  xr_status : execution_status;
  xr_stop_reason : option string;
  xr_created_at : Z;
  xr_started_at : option Z;
  xr_finished_at : option Z
}.

Abbreviation ExecutionTable := (gmap string ExecutionRunModel).
Abbreviation RunDB := (TaskDB * ExecutionTable)%type.

(** ** service.py *)

Definition put_execution (m : ExecutionRunModel) (t : ExecutionTable) : ExecutionTable :=
  <[xr_execution_id m := m]> t.

(** [ExecutionRunService.create]; the foreign keys of the row are checked when it is flushed. *)
Definition create_execution (envelope : ExecutionEnvelope) (now : Z) : prog RunDB ExecutionEnvelope :=
  db ← get_store;
  match db.2 !! execution_id envelope with
  | Some existing =>
      _ ← check (bool_decide (envelope_json existing ≠ envelope))
            (ValueError "ExecutionEnvelope identity is immutable");
      lift (validate_envelope (envelope_json existing))
  | None =>
      _ ← (match parent_execution_id envelope with
           | Some parent => check (bool_decide (db.2 !! parent = None)) (LookupError "parent execution not found" parent)
           | None => mret tt
           end);
      _ ← check (bool_decide (task_runs db.1 !! ee_task_run_id envelope = None))
            (IntegrityError (ee_task_run_id envelope));
      let model := mkExecutionRunModel (execution_id envelope) (parent_execution_id envelope)
                     (ee_task_run_id envelope) envelope EX_CREATED None now None None in
      _ ← zoom (modify (put_execution model));
      mret envelope
  end.

(** [ExecutionRunService._lock] *)
Definition lock_execution (id : string) : prog ExecutionTable ExecutionRunModel :=
  t ← get_store; require (t !! id) (LookupError "execution run not found" id).

(** [ExecutionRunService.get] *)
Definition get_execution (id : string) : prog ExecutionTable ExecutionEnvelope :=
  model ← lock_execution id; lift (validate_envelope (envelope_json model)).

Definition set_started (now : Z) (m : ExecutionRunModel) : ExecutionRunModel :=
  mkExecutionRunModel (xr_execution_id m) (xr_parent_execution_id m) (xr_task_run_id m)
    (envelope_json m) EX_RUNNING (xr_stop_reason m) (xr_created_at m) (Some now) (xr_finished_at m).

(** [ExecutionRunService.start] *)
Definition start_execution (id : string) (now : Z) : prog ExecutionTable ExecutionEnvelope :=
  model ← lock_execution id;
  if bool_decide (xr_status model = EX_RUNNING) then lift (validate_envelope (envelope_json model))
  else
    _ ← check (bool_decide (xr_status model ≠ EX_CREATED)) (ValueError "cannot start execution");
    _ ← modify (put_execution (set_started now model));
    lift (validate_envelope (envelope_json model)).

Definition set_finished (st : execution_status) (reason : string) (now : Z) (m : ExecutionRunModel)
  : ExecutionRunModel :=
  mkExecutionRunModel (xr_execution_id m) (xr_parent_execution_id m) (xr_task_run_id m)
    (envelope_json m) st (Some reason) (xr_created_at m) (xr_started_at m) (Some now).

(** [ExecutionRunService.finish] *)
Definition finish_execution (id : string) (st : execution_status) (reason : string) (now : Z)
  : prog ExecutionTable unit :=
  _ ← check (bool_decide (st ∉ TERMINAL_EXECUTION_STATUSES)) (ValueError "invalid terminal execution status");
  _ ← check (128 <? slen reason)
        (ValueError "execution stop_reason exceeds storage contract (128 characters)");
  model ← lock_execution id;
  if bool_decide (xr_status model = st) && bool_decide (xr_finished_at model ≠ None) then mret tt
  else
    _ ← check (bool_decide (xr_status model ∉ [EX_CREATED; EX_RUNNING]))
          (ValueError "execution already terminal");
    modify (put_execution (set_finished st reason now model)).

(** ** The loop is bounded *)

(** One round of a role's loop: ask the gate, and when it opens do an iteration that ends with the
    given progress signature. *)
Definition loop_round (round : datetime * bool * option string) : prog BoundedLoop bool :=
  gate ← before_iteration round.1.1 round.1.2;
  if allowed gate then _ ← complete_iteration round.2; mret true else mret false.

(** The states of a loop with a valid configuration. *)
Record loop_ok (self : BoundedLoop) : Prop := {
  lo_max : 0 ≤ completed_iterations self ≤ max_iterations (config self);
  lo_stalled : 0 ≤ no_progress_count self ≤ no_progress_limit (config self);
  lo_live : terminal_reason self = None → no_progress_count self < no_progress_limit (config self)
}.

Lemma before_iteration_run now budget self :
  dt_aware now = true → loop_ok self →
  ∃ gate self', before_iteration now budget self = (Ok gate, self') ∧
    config self' = config self ∧ completed_iterations self' = completed_iterations self ∧ loop_ok self' ∧
    allowed gate = bool_decide (terminal_reason self' = None) ∧
    (terminal_reason self ≠ None → self' = self) ∧
    (allowed gate = true → self' = self ∧ dt_us now < dt_us (bl_deadline_at (config self)) ∧
      budget = true ∧ completed_iterations self < max_iterations (config self)).
Proof.
  intros Hnow [Hmax Hst Hlive]. unfold before_iteration, check. run_step. rewrite Hnow. simpl.
  destruct self as [cfg done sig stalled term]; simpl in *.
  destruct term as [r|]; simpl.
  { eexists _, _. split; [done|]. simpl. split_and!; try done. }
  specialize (Hlive eq_refl).
  destruct (Z.geb_spec (dt_us now) (dt_us (bl_deadline_at cfg))); simpl;
    [eexists _, _; split; [done|]; simpl; split_and!; try done; try lia|].
  destruct budget; simpl; [|eexists _, _; split; [done|]; simpl; split_and!; try done; try lia].
  destruct (Z.geb_spec done (max_iterations cfg)); simpl;
    [eexists _, _; split; [done|]; simpl; split_and!; try done; try lia|].
  destruct (Z.geb_spec stalled (no_progress_limit cfg)); simpl; [lia|].
  eexists _, _. split; [done|]. simpl. split_and!; try done; try lia.
Qed.

Lemma complete_iteration_run sig self :
  terminal_reason self = None → loop_ok self → completed_iterations self < max_iterations (config self) →
  ∃ gate self', complete_iteration sig self = (Ok gate, self') ∧ config self' = config self ∧
    completed_iterations self' = completed_iterations self + 1 ∧ loop_ok self'.
Proof.
  intros Ht [Hmax Hst Hlive] Hlt. unfold complete_iteration, check. run_step. rewrite Ht. simpl.
  specialize (Hlive Ht). destruct self as [cfg done lsig stalled term]; simpl in *.
  eexists _, _. split; [reflexivity|]. split; [done|]. split; [done|]. split; simpl; [lia| |].
  - case_bool_decide; lia.
  - intros Hn. destruct (Z.geb_spec (if bool_decide (sig = None ∨ sig = lsig) then stalled + 1 else 0)
      (no_progress_limit cfg)); [done|lia].
Qed.

(** ** Progress

    What counts as progress is said of the signatures that the iterations reported, without the
    counter of the loop: an iteration brings nothing new when it has no signature, or the last one
    that was reported before. *)
Definition last_reported (sigs : list (option string)) : option string := last (omap id sigs).

(** [stale] are the last iterations of [sigs], and none of them brought anything new. *)
Definition stale_tail (sigs stale : list (option string)) : Prop :=
  ∃ earlier, sigs = earlier ++ stale ∧ Forall (λ s, s = None ∨ s = last_reported earlier) stale.

Lemma last_reported_snoc sigs s :
  last_reported (sigs ++ [s]) = if s is Some _ then s else last_reported sigs.
Proof.
  unfold last_reported. rewrite omap_app. destruct s; simpl; [by rewrite last_snoc|by rewrite app_nil_r].
Qed.

Lemma last_reported_stale sigs stale :
  Forall (λ s, s = None ∨ s = last_reported sigs) stale → last_reported (sigs ++ stale) = last_reported sigs.
Proof.
  induction stale as [|s stale IH] using rev_ind; [by rewrite app_nil_r|].
  intros [Hst [Hs _]%Forall_cons_1]%Forall_app. rewrite app_assoc, last_reported_snoc, (IH Hst).
  destruct s; [|done]. by destruct Hs.
Qed.

Lemma stale_tail_nil sigs : stale_tail sigs [].
Proof. exists sigs. by rewrite app_nil_r. Qed.

Lemma stale_tail_snoc sigs s stale :
  stale_tail (sigs ++ [s]) (stale ++ [s]) ↔ stale_tail sigs stale ∧ (s = None ∨ s = last_reported sigs).
Proof.
  split.
  - intros (earlier & Heq & [Hst [Hs _]%Forall_cons_1]%Forall_app). rewrite app_assoc in Heq.
    apply app_inj_tail in Heq as [-> _]. split; [by exists earlier|]. by rewrite (last_reported_stale _ _ Hst).
  - intros [(earlier & -> & Hst) Hs]. rewrite (last_reported_stale _ _ Hst) in Hs.
    exists earlier. rewrite app_assoc. split; [done|]. apply Forall_app; split; [done|]. by constructor.
Qed.

Lemma stale_tail_last sigs s stale :
  stale_tail (sigs ++ [s]) stale → stale = [] ∨ ∃ stale', stale = stale' ++ [s].
Proof.
  intros (earlier & Heq & _). destruct stale as [|s' stale' _] using rev_ind; [by left|right].
  rewrite app_assoc in Heq. apply app_inj_tail in Heq as [_ ->]. by exists stale'.
Qed.

(** The loop against the signatures of its iterations so far. *)
Record loop_progress (sigs : list (option string)) (self : BoundedLoop) : Prop := {
  lp_last : last_progress_signature self = last_reported sigs;
  lp_count : ∃ stale, stale_tail sigs stale ∧ Z.of_nat (length stale) = no_progress_count self;
  lp_longest : ∀ stale, stale_tail sigs stale → Z.of_nat (length stale) ≤ no_progress_count self;
  lp_reason : terminal_reason self = Some NO_PROGRESS ↔
    no_progress_limit (config self) ≤ no_progress_count self
}.

Lemma before_iteration_progress sigs now budget self gate self' :
  loop_ok self → loop_progress sigs self → before_iteration now budget self = (Ok gate, self') →
  loop_progress sigs self'.
Proof.
  intros [_ _ Hlive] [Hlast Hcount Hlong Hreason]. unfold before_iteration, check. run_step.
  destruct (dt_aware now); simpl; [|discriminate].
  destruct self as [cfg done sig stalled term]; simpl in *.
  destruct term as [r|]; simpl; [intros [= <- <-]; done|]. specialize (Hlive eq_refl).
  destruct (_ >=? _); simpl; [intros [= <- <-]; split; simpl; try done; split; [done|lia]|].
  destruct budget; simpl; [|intros [= <- <-]; split; simpl; try done; split; [done|lia]].
  destruct (_ >=? _); simpl; [intros [= <- <-]; split; simpl; try done; split; [done|lia]|].
  destruct (Z.geb_spec stalled (no_progress_limit cfg)); simpl; [lia|].
  intros [= <- <-]. by split.
Qed.

Lemma complete_iteration_progress sigs sig self gate self' :
  terminal_reason self = None → 0 < no_progress_limit (config self) →
  loop_progress sigs self → complete_iteration sig self = (Ok gate, self') →
  loop_progress (sigs ++ [sig]) self'.
Proof.
  intros Ht Hlim [Hlast (stale & Hstale & Hlen) Hlong _]. unfold complete_iteration, check. run_step. rewrite Ht. simpl.
  destruct self as [cfg done lsig stalled term]; simpl in *. subst lsig. intros [= <- <-].
  split; simpl; [rewrite last_reported_snoc; case_bool_decide as Hs; [|by destruct sig; naive_solver]|..].
  - destruct Hs as [->|Hs]; [done|]. by destruct sig.
  - case_bool_decide as Hs; [|by exists []; split; [apply stale_tail_nil|]].
    exists (stale ++ [sig]). split; [by apply stale_tail_snoc|]. rewrite length_app. simpl. lia.
  - intros t Htail. destruct (stale_tail_last _ _ _ Htail) as [->|[t' ->]]; [simpl; case_bool_decide; lia|].
    apply stale_tail_snoc in Htail as [Htail Hs]. rewrite bool_decide_true by done.
    specialize (Hlong _ Htail). rewrite length_app. simpl. lia.
  - destruct (Z.geb_spec (if bool_decide (sig = None ∨ sig = last_reported sigs) then stalled + 1 else 0)
      (no_progress_limit cfg)); split; try done; lia.
Qed.

Lemma loop_round_run round self :
  dt_aware round.1.1 = true → loop_ok self →
  ∃ ran self', loop_round round self = (Ok ran, self') ∧ config self' = config self ∧ loop_ok self' ∧
    (terminal_reason self ≠ None → ran = false ∧ self' = self) ∧
    (if ran then completed_iterations self' = completed_iterations self + 1 ∧
       no_progress_count self < no_progress_limit (config self) ∧
       dt_us round.1.1 < dt_us (bl_deadline_at (config self)) ∧ round.1.2 = true
     else terminal_reason self' ≠ None ∧ completed_iterations self' = completed_iterations self) ∧
    ∀ sigs, 0 < no_progress_limit (config self) → loop_progress sigs self →
      loop_progress (sigs ++ (if ran then [round.2] else [])) self'.
Proof.
  intros Hnow Hok. unfold loop_round, mbind, prog_bind.
  destruct (before_iteration_run round.1.1 round.1.2 self Hnow Hok)
    as (gate&s1&Hbefore&Hcfg&Hdone&Hok1&Hallow&Hterm&Hopen). rewrite Hbefore.
  destruct (allowed gate) eqn:Ha.
  - destruct (Hopen eq_refl) as (->&Hdl&Hb&Hlt). symmetry in Hallow. apply bool_decide_eq_true in Hallow.
    destruct (complete_iteration_run round.2 self Hallow Hok Hlt) as (g2&s2&Hcomp&Hcfg2&Hdone2&Hok2). rewrite Hcomp.
    exists true, s2. split_and!; try done; [by apply (lo_live _ Hok)|].
    intros sigs Hlim Hp. exact (complete_iteration_progress _ _ _ _ _ Hallow Hlim Hp Hcomp).
  - symmetry in Hallow. apply bool_decide_eq_false in Hallow. exists false, s1. split_and!; try done.
    + intros Ht. by rewrite (Hterm Ht).
    + intros sigs _ Hp. rewrite app_nil_r. exact (before_iteration_progress _ _ _ _ _ _ Hok Hp Hbefore).
Qed.

(** The signatures of the rounds that did an iteration, in order. *)
Definition reported (rounds : list (datetime * bool * option string)) (ran : list bool) : list (option string) :=
  omap (λ p, if (p.2 : bool) then Some (p.1.2) else None) (zip rounds ran).

Lemma loop_rounds_run rounds sigs self :
  Forall (λ r, dt_aware r.1.1 = true) rounds → loop_ok self →
  0 < no_progress_limit (config self) → loop_progress sigs self →
  ∃ ran self', for_each rounds loop_round self = (Ok ran, self') ∧ config self' = config self ∧ loop_ok self' ∧
    (terminal_reason self' ≠ None ∨
     completed_iterations self' = completed_iterations self + Z.of_nat (length rounds)) ∧
    completed_iterations self' = completed_iterations self + Z.of_nat (length (reported rounds ran)) ∧
    (terminal_reason self ≠ None → self' = self) ∧
    loop_progress (sigs ++ reported rounds ran) self'.
Proof.
  intros Hr. revert sigs self. induction Hr as [|round rounds Hnow Hr IH]; intros sigs self Hok Hlim Hp.
  { exists [], self. simpl. rewrite app_nil_r. split; [done|]. split_and!; try done; try (right; lia); lia. }
  destruct (loop_round_run round self Hnow Hok) as (ran&s1&Hrun&Hcfg&Hok1&Hterm&Hran&Hprog).
  specialize (Hprog sigs Hlim Hp).
  destruct (IH _ s1 Hok1 ltac:(by rewrite Hcfg) Hprog) as (rans&s2&Hrun2&Hcfg2&Hok2&Hend&Hsum&Hterm2&Hprog2).
  exists (ran :: rans), s2. cbn [for_each]. unfold mbind, prog_bind. rewrite Hrun, Hrun2.
  split; [done|]. split; [congruence|]. split; [done|].
  assert (reported (round :: rounds) (ran :: rans) = (if ran then [round.2] else []) ++ reported rounds rans) as ->
    by (by destruct ran).
  rewrite length_app, app_assoc. cbn [length]. split_and!; [| | |done].
  - destruct ran.
    + destruct Hran as [Hd _]. destruct Hend as [?|Hend]; [by left|right; lia].
    + destruct Hran as [Ht _]. left. by rewrite (Hterm2 Ht).
  - destruct ran; destruct Hran as [H1 H2]; simpl; lia.
  - intros Ht. destruct (Hterm Ht) as [_ ->]. by apply Hterm2.
Qed.

(** C39. [BoundedLoop] terminates: however the clock, the budget and the progress signatures behave, a
    role asks its gate without an error, does at most [max_iterations] iterations and has been
    stopped for good after more than [max_iterations] rounds; it is stopped for lack of progress
    exactly when the last [no_progress_limit] iterations brought nothing new (no signature, or the
    one reported last before them), and never more of them than that were done.  An iteration only
    starts before the deadline, with budget left and while fewer than [no_progress_limit] iterations
    in a row brought nothing new; a stopped loop does not change any more. *)
Theorem bounded_loop_terminates cfg rounds :
  validate_deadline cfg = Ok cfg →
  Forall (λ r, dt_aware r.1.1 = true) rounds →
  ∃ ran self, for_each rounds loop_round (new_loop cfg) = (Ok ran, self) ∧
    Z.of_nat (length (reported rounds ran)) = completed_iterations self ∧
    completed_iterations self ≤ max_iterations cfg ∧
    (max_iterations cfg < Z.of_nat (length rounds) → terminal_reason self ≠ None) ∧
    (terminal_reason self = Some NO_PROGRESS ↔
     ∃ stale, stale_tail (reported rounds ran) stale ∧ Z.of_nat (length stale) = no_progress_limit cfg) ∧
    (∀ stale, stale_tail (reported rounds ran) stale → Z.of_nat (length stale) ≤ no_progress_limit cfg) ∧
    ∀ round ran' self', dt_aware round.1.1 = true → loop_round round self = (Ok ran', self') →
      (terminal_reason self ≠ None → ran' = false ∧ self' = self) ∧
      (ran' = true → dt_us round.1.1 < dt_us (bl_deadline_at cfg) ∧ round.1.2 = true ∧
        ∀ stale, stale_tail (reported rounds ran) stale → Z.of_nat (length stale) < no_progress_limit cfg).
Proof.
  intros Hcfg Hrounds.
  assert (1 ≤ max_iterations cfg ∧ 1 ≤ no_progress_limit cfg) as [Hm Hn].
  { unfold validate_deadline in Hcfg. destruct (Z.ltb_spec (max_iterations cfg) 1); [done|].
    by destruct (Z.ltb_spec (no_progress_limit cfg) 1). }
  assert (loop_ok (new_loop cfg)) as Hok by (split; simpl; lia).
  assert (loop_progress [] (new_loop cfg)) as Hp.
  { split; simpl; [done|exists []; split; [apply stale_tail_nil|done]| |split; [done|lia]].
    intros stale (earlier & Heq & _). symmetry in Heq. by apply app_nil in Heq as [_ ->]. }
  destruct (loop_rounds_run rounds [] _ Hrounds Hok ltac:(simpl; lia) Hp)
    as (ran&self&Hrun&Hcfg'&[Hmax Hst Hlive]&Hend&Hsum&_&[_ (stale&Hstale&Hlen) Hlong Hreason]).
  cbn [app] in *. simpl in Hcfg', Hend, Hsum. exists ran, self. rewrite Hcfg' in *.
  split; [done|]. split; [lia|]. split; [lia|].
  split; [intros Hl; destruct Hend; [done|lia]|]. split; [|split].
  - rewrite Hreason. split; [intros Hge; exists stale; split; [done|lia]|].
    intros (t & Ht & Hl). specialize (Hlong _ Ht). lia.
  - intros t Ht. specialize (Hlong _ Ht). lia.
  - intros round ran' self' Hnow Hr.
    destruct (loop_round_run round self Hnow ltac:(split; rewrite ?Hcfg'; done)) as (r2&s2&Hr2&_&_&Ht&Hran&_).
    rewrite Hr in Hr2. injection Hr2 as <- <-. split; [done|]. intros ->. rewrite Hcfg' in Hran.
    destruct Hran as (_&Hc&Hdl&Hb). split_and!; [done..|]. intros t Htail. specialize (Hlong _ Htail). lia.
Qed.

Definition sample_loop : BoundedLoopConfig :=
  mkBoundedLoopConfig "loop" "e0" 3 (mkDatetime 1000 true) "budget" 2.
Definition sample_rounds : list (datetime * bool * option string) :=
  [(mkDatetime 10 true, true, Some "a"%string); (mkDatetime 20 true, true, Some "a"%string);
   (mkDatetime 30 true, true, Some "b"%string); (mkDatetime 40 true, true, Some "c"%string)].

Lemma bounded_loop_terminates_witness :
  ∃ ran self, for_each sample_rounds loop_round (new_loop sample_loop) = (Ok ran, self) ∧
    terminal_reason self ≠ None ∧ completed_iterations self ≤ 3.
Proof.
  assert (Forall (λ r, dt_aware r.1.1 = true) sample_rounds) as Hr by by repeat constructor.
  destruct (bounded_loop_terminates sample_loop sample_rounds eq_refl Hr) as (ran&self&Hrun&_&Hmax&Hterm&_).
  exists ran, self. split; [exact Hrun|]. split; [apply Hterm; reflexivity|exact Hmax].
Defined.

(** ** The life of an execution row *)

Definition is_ended (m : ExecutionRunModel) : bool := bool_decide (xr_status m ∈ TERMINAL_EXECUTION_STATUSES).

Record execution_row_ok (id : string) (m : ExecutionRunModel) : Prop := {
  xo_key : xr_execution_id m = id ∧ execution_id (envelope_json m) = id;
  xo_run : xr_task_run_id m = ee_task_run_id (envelope_json m);
  xo_finished : is_ended m = true ↔ xr_finished_at m ≠ None;
  xo_reason : is_ended m = true ↔ xr_stop_reason m ≠ None;
  xo_started : xr_status m = EX_RUNNING → xr_started_at m ≠ None
}.

(** A row keeps its envelope; its status only moves from created to running to an end; an ended row
    does not change. *)
Record execution_extends (m m' : ExecutionRunModel) : Prop := {
  xe_identity : (xr_execution_id m', xr_parent_execution_id m', xr_task_run_id m', envelope_json m', xr_created_at m')
    = (xr_execution_id m, xr_parent_execution_id m, xr_task_run_id m, envelope_json m, xr_created_at m);
  xe_status : xr_status m' = xr_status m ∨ is_ended m' = true ∨
    xr_status m = EX_CREATED ∧ xr_status m' = EX_RUNNING;
  xe_ended : is_ended m = true → m' = m
}.

#[export] Instance execution_extends_preorder : PreOrder execution_extends.
Proof.
  split; [intros m; split; auto|]. intros m1 m2 m3 [Hi1 Hs1 He1] [Hi2 Hs2 He2]. split; [congruence| |].
  - destruct Hs2 as [Hs2|[?|[Hs2 Hs3]]]; [|by right; left|].
    + destruct Hs1 as [?|[?|[? ?]]]; [left; congruence| |right; right; split; congruence].
      right; left. unfold is_ended in *. by rewrite Hs2.
    + destruct Hs1 as [?|[Hend|[? ?]]]; [right; right; split; congruence| |congruence].
      unfold is_ended in Hend. rewrite Hs2 in Hend. by vm_compute in Hend.
  - intros H. rewrite (He1 H) in He2. by apply He2.
Qed.

Definition table_ok (t : ExecutionTable) : Prop := ∀ id m, t !! id = Some m → execution_row_ok id m.
Definition table_extends (t t' : ExecutionTable) : Prop :=
  ∀ id m, t !! id = Some m → ∃ m', t' !! id = Some m' ∧ execution_extends m m'.

#[export] Instance table_extends_preorder : PreOrder table_extends.
Proof.
  split; [by intros t id m Hm; exists m|]. intros t1 t2 t3 H1 H2 id m Hm.
  destruct (H1 id m Hm) as (m2&Hm2&He2). destruct (H2 id m2 Hm2) as (m3&Hm3&He3).
  exists m3. split; [done|]. by transitivity m2.
Qed.

Lemma put_execution_step t m :
  table_ok t → execution_row_ok (xr_execution_id m) m →
  (∀ old, t !! xr_execution_id m = Some old → execution_extends old m) →
  table_ok (put_execution m t) ∧ table_extends t (put_execution m t).
Proof.
  intros Hok Hm Hold. unfold put_execution. split.
  - intros id m'. rewrite lookup_insert_Some. intros [[<- <-]|[_ ?]]; [done|by apply Hok].
  - intros id old Hid. destruct (decide (xr_execution_id m = id)) as [<-|].
    + exists m. rewrite lookup_insert_eq. auto.
    + exists old. by rewrite lookup_insert_ne.
Qed.

Lemma lock_execution_Ok id t m t' : lock_execution id t = (Ok m, t') → t !! id = Some m ∧ t' = t.
Proof. unfold lock_execution. intros H. by prog_inv H. Qed.

Lemma start_execution_step id now t v t' :
  table_ok t → start_execution id now t = (Ok v, t') → table_ok t' ∧ table_extends t t'.
Proof.
  intros Hok H. unfold start_execution in H. apply bind_Ok in H as (m&s1&Hm&H).
  apply lock_execution_Ok in Hm as [Hm ->]. case_bool_decide; [by prog_inv H|]. prog_inv H.
  apply bool_decide_eq_false, dec_stable in Hcheck. destruct (Hok id m Hm) as [[Hk Hk'] Hr Hf Hre Hst].
  apply put_execution_step; [done| |].
  - unfold is_ended in *. rewrite Hcheck in *. split; simpl; try done; [by rewrite Hk|..]; rewrite <- Hf || rewrite <- Hre; done.
  - simpl. rewrite Hk. intros old Ho. assert (old = m) as -> by congruence. split; [done|by right; right|].
    unfold is_ended. rewrite Hcheck. by intros He; vm_compute in He.
Qed.

Lemma finish_execution_step id st reason now t u t' :
  table_ok t → finish_execution id st reason now t = (Ok u, t') → table_ok t' ∧ table_extends t t'.
Proof.
  intros Hok H. unfold finish_execution in H. apply bind_Ok in H as (u0&s0&H0&H). prog_inv H0.
  apply bind_Ok in H as (u1&s1&H1&H). prog_inv H1. apply bind_Ok in H as (m&s2&Hm&H).
  apply lock_execution_Ok in Hm as [Hm ->]. case_match; [by prog_inv H|]. prog_inv H.
  apply bool_decide_eq_false, dec_stable in Hcheck, Hcheck1. destruct (Hok id m Hm) as [[Hk Hk'] Hr Hf Hre Hst].
  apply put_execution_step; [done| |].
  - split; simpl; [by rewrite Hk|done| | |]; unfold is_ended; simpl; rewrite ?bool_decide_eq_true_2 by done; try done.
    intros ->. by apply (bool_decide_pack _) in Hcheck; vm_compute in Hcheck.
  - simpl. rewrite Hk. intros old Ho. assert (old = m) as -> by congruence.
    split; [done|right; left; by apply bool_decide_eq_true_2|].
    intros He. unfold is_ended in He. apply bool_decide_eq_true in He. exfalso. clear -Hcheck1 He.
    destruct (xr_status m); apply (bool_decide_pack _) in Hcheck1, He; by vm_compute in Hcheck1, He.
Qed.

(** Finishing an active execution. *)
Lemma finish_active id st reason now t m :
  t !! id = Some m → xr_status m ∈ [EX_CREATED; EX_RUNNING] → st ∈ TERMINAL_EXECUTION_STATUSES →
  slen reason ≤ 128 →
  finish_execution id st reason now t = (Ok tt, put_execution (set_finished st reason now m) t).
Proof.
  intros Hm Ha Hst Hr. unfold finish_execution, lock_execution, check, require. run_step.
  rewrite bool_decide_eq_false_2 by (intros Hn; by apply Hn). destruct (Z.ltb_spec 128 (slen reason)); [lia|].
  rewrite Hm. assert (xr_status m ≠ st) as Hne.
  { intros Heq. rewrite Heq in Ha. destruct st; apply (bool_decide_pack _) in Ha, Hst;
      by vm_compute in Ha, Hst. }
  rewrite (bool_decide_eq_false_2 (xr_status m = st)) by done. simpl.
  rewrite bool_decide_eq_false_2 by (intros Hn; by apply Hn). done.
Qed.

Lemma create_execution_step envelope now db v db' :
  table_ok db.2 → create_execution envelope now db = (Ok v, db') →
  db'.1 = db.1 ∧ table_ok db'.2 ∧ table_extends db.2 db'.2.
Proof.
  intros Hok H. unfold create_execution in H. apply bind_Ok in H as (s0&s1&H0&H). prog_inv H0.
  destruct (db.2 !! execution_id envelope) as [m|] eqn:Hm; [by prog_inv H|].
  apply bind_Ok in H as (u0&s2&H0&H).
  assert (s2 = db) as -> by (destruct (parent_execution_id envelope); by prog_inv H0).
  apply bind_Ok in H as (u1&s3&H1&H). prog_inv H1.
  apply bind_Ok in H as (u2&s4&H2&H). apply ret_Ok in H as [_ ->].
  unfold zoom, modify in H2. simpl in H2. injection H2 as _ <-. split; [done|].
  apply put_execution_step; [done|by split|]. simpl. intros old Ho. congruence.
Qed.

Inductive execution_op :=
| CreateExecution (envelope : ExecutionEnvelope) (now : Z)
| StartExecution (id : string) (now : Z)
| FinishExecution (id : string) (st : execution_status) (reason : string) (now : Z).

(** One call, in the transaction its caller opens. *)
Definition run_execution_op (op : execution_op) : prog RunDB unit :=
  atomic match op with
         | CreateExecution envelope now => _ ← create_execution envelope now; mret tt
         | StartExecution id now => _ ← zoom (start_execution id now); mret tt
         | FinishExecution id st reason now => zoom (finish_execution id st reason now)
         end.

Lemma run_execution_op_step op db :
  table_ok db.2 →
  (run_execution_op op db).2.1 = db.1 ∧ table_ok (run_execution_op op db).2.2 ∧
  table_extends db.2 (run_execution_op op db).2.2.
Proof.
  intros Hok. unfold run_execution_op. match goal with |- context [atomic ?m _] =>
    destruct (atomic_cases m db) as [(u&s'&Hm&->)|(e&s'&_&->)]; simpl; [|by split] end.
  destruct op.
  - apply bind_Ok in Hm as (v&s1&Hm&Hret). apply ret_Ok in Hret as [_ ->]. by eapply create_execution_step.
  - apply bind_Ok in Hm as (v&s1&Hm&Hret). apply ret_Ok in Hret as [_ ->]. unfold zoom in Hm.
    destruct (start_execution id now (view db)) as [r t] eqn:Hs. injection Hm as -> <-. simpl in *.
    apply start_execution_step in Hs as [? ?]; done.
  - unfold zoom in Hm. destruct (finish_execution id st reason now (view db)) as [r t] eqn:Hs.
    injection Hm as -> <-. simpl in *. apply finish_execution_step in Hs as [? ?]; done.
Qed.

Definition run_execution_ops (ops : list execution_op) (db : RunDB) : RunDB :=
  foldl (λ db op, (run_execution_op op db).2) db ops.

Lemma run_execution_ops_step ops db :
  table_ok db.2 →
  (run_execution_ops ops db).1 = db.1 ∧ table_ok (run_execution_ops ops db).2 ∧
  table_extends db.2 (run_execution_ops ops db).2.
Proof.
  revert db. induction ops as [|op ops IH]; intros db Hok; [done|].
  destruct (run_execution_op_step op db Hok) as (H1&H2&H3).
  destruct (IH _ H2) as (H4&H5&H6). simpl. split; [congruence|]. split; [done|]. by etrans.
Qed.

(** In every history of the execution service, rows carry the id and the task run of their envelope,
    a finish time and a stop reason exactly when they have ended; from any point to any later one no
    row disappears or changes its envelope, the status only moves from created to running to an end,
    and an ended row never changes again. *)
Theorem execution_history tasks ops1 ops2 :
  let t1 := (run_execution_ops ops1 (tasks, ∅)).2 in
  let t2 := (run_execution_ops (ops1 ++ ops2) (tasks, ∅)).2 in
  table_ok t1 ∧ table_ok t2 ∧ table_extends t1 t2.
Proof.
  cbv zeta. unfold run_execution_ops. rewrite foldl_app.
  fold (run_execution_ops ops1 (tasks, ∅)). fold (run_execution_ops ops2 (run_execution_ops ops1 (tasks, ∅))).
  assert (table_ok (run_execution_ops ops1 (tasks, ∅)).2) as Hok by by apply run_execution_ops_step.
  destruct (run_execution_ops_step ops2 _ Hok) as (_&?&?). done.
Qed.
