(* ===== verification/PyNumbers.v ===== *)
(** * PyNumbers: Python's conversions to [int], true division, floats and datetime arithmetic

    The scheduling code reads numbers from JSON policies and provider responses with [int(value)],
    divides them with [/] and adds the result to an instant.  This file fixes what these operations
    do, errors included: [int] of a float truncates and raises on infinities and NaN, [int] of a text
    follows the grammar of decimal literals, [/] rounds to 53 bits, and instants end with year 9999.
    The scores of retrieved candidates are floats: their comparison, [max] and subtraction are here too, and the
    equality of JSON values, which compares numbers by value. *)

From S2P Require Import Prelude.
From S2P Require Import Effects.
From Stdlib Require Import Ascii.

Definition OverflowError (msg : string) : exn := OtherException "OverflowError" msg.

(** ** [int(value)] *)

Definition int_of_float (f : pyfloat) : result Z :=
  match f with
  | Finite m e => if 0 <=? e then Ok (m * 2 ^ e) else Ok (Z.quot m (2 ^ (- e)))
  | Infinite _ => Err (OverflowError "cannot convert float infinity to integer")
  | NaN => Err (ValueError "cannot convert float NaN to integer")
  end.

Definition digit_value (c : ascii) : option Z :=
  let n := Z.of_nat (nat_of_ascii c) in
  if (48 <=? n) && (n <=? 57) then Some (n - 48) else None.

(** The digits of a literal, with single underscores between them; [digit_before] says that the
    previous character was a digit. *)
Fixpoint int_digits (acc : Z) (digit_before : bool) (l : list ascii) : option Z :=
  match l with
  | [] => if digit_before then Some acc else None
  | c :: l' =>
      match digit_value c with
      | Some d => int_digits (acc * 10 + d) true l'
      | None => if bool_decide (c = "_"%char) && digit_before then int_digits acc false l' else None
      end
  end.

(** ASCII texts are stripped of the six C spaces only, other texts of every [str.isspace] character. *)
Definition c_space (c : ascii) : bool :=
  let n := nat_of_ascii c in ((9 <=? n) && (n <=? 13) || (n =? 32))%nat.
Definition is_ascii (l : list ascii) : bool := forallb (λ c, (nat_of_ascii c <? 128)%nat) l.
Definition int_strip (l : list ascii) : list ascii :=
  let space := if is_ascii l then c_space else py_space in
  rev (drop_while space (rev (drop_while space l))).

(** The largest number of digits [int(text)] converts. *)
Definition INT_MAX_STR_DIGITS : nat := 4300.

Definition int_of_text (s : string) : result Z :=
  let l := int_strip (chars s) in
  let '(sign, body) :=
    match l with
    | c :: l' => if bool_decide (c = "-"%char) then (-1, l')
                 else if bool_decide (c = "+"%char) then (1, l') else (1, l)
    | [] => (1, l)
    end in
  if (INT_MAX_STR_DIGITS <? length (filter (λ c, is_Some (digit_value c)) body))%nat
  then Err (ValueError "Exceeds the limit (4300 digits) for integer string conversion")
  else match int_digits 0 false body with
       | Some n => Ok (sign * n)
       | None => Err (ValueError "invalid literal for int() with base 10")
       end.

(** [int(value)] for a value that is an [int], a [float] or a [str]. *)
Definition int_of_number (v : json) : option (result Z) :=
  match v with
  | JInt z => Some (Ok z)
  | JFloat f => Some (int_of_float f)
  | JStr s => Some (int_of_text s)
  | _ => None
  end.

(** ** True division

    [round_div a b]: the integer nearest to [a / b], halves to even. *)
Definition round_div (a b : Z) : Z :=
  let q := a / b in let r := a mod b in
  if 2 * r <? b then q else if b <? 2 * r then q + 1 else if Z.even q then q else q + 1.

(** The exponent of the last of the 53 bits of [a / b], for positive [a] and [b]. *)
Definition quotient_exponent (a b : Z) : Z :=
  let d := Z.log2 a - Z.log2 b in
  let below := if 0 <=? d then a <? b * 2 ^ d else a * 2 ^ (- d) <? b in
  d - 52 - (if below then 1 else 0).

(** [math.ceil(a / b)] for a natural number [a] and a positive [b]. *)
Definition ceil_true_div (a b : Z) : Z :=
  if a =? 0 then 0
  else
    let e := quotient_exponent a b in
    if 0 <=? e then round_div a (b * 2 ^ e) * 2 ^ e
    else - (- round_div (a * 2 ^ (- e)) b / 2 ^ (- e)).

(** ** Floats: comparison, [max], negation and subtraction

    The two zeros are one value, which no comparison tells apart. *)

(** [m * 2 ^ e] in units of [2 ^ -k], for [k] at least [-e]. *)
Definition float_units (k m e : Z) : Z := m * 2 ^ (e + k).

(** [f < g]: false when one of them is not a number. *)
Definition float_lt (f g : pyfloat) : bool :=
  match f, g with
  | NaN, _ | _, NaN => false
  | Infinite true, Infinite true => false
  | Infinite true, _ => true
  | _, Infinite true => false
  | Infinite false, _ => false
  | _, Infinite false => true
  | Finite m1 e1, Finite m2 e2 =>
      let k := Z.max (- e1) (- e2) in float_units k m1 e1 <? float_units k m2 e2
  end.

(** [max(f, g)]: the first unless the second is greater. *)
Definition float_max (f g : pyfloat) : pyfloat := if float_lt f g then g else f.

(** [-f] *)
Definition float_neg (f : pyfloat) : pyfloat :=
  match f with Finite m e => Finite (- m) e | Infinite b => Infinite (negb b) | NaN => NaN end.

(** The nearest float of an exact value, halves to even; the values it is used for neither overflow nor are
    subnormal. *)
Definition round_float (m e : Z) : pyfloat :=
  let d := Z.log2 (Z.abs m) - 52 in
  if d <=? 0 then Finite m e else Finite (Z.sgn m * round_div (Z.abs m) (2 ^ d)) (e + d).

(** [1.0 - f] *)
Definition one_minus (f : pyfloat) : pyfloat :=
  match f with
  | Finite m e => if 0 <=? e then round_float (1 - m * 2 ^ e) 0 else round_float (2 ^ (- e) - m) e
  | Infinite b => Infinite (negb b)
  | NaN => NaN
  end.

Definition is_nan (f : pyfloat) : bool := match f with NaN => true | _ => false end.

(** The order of the floats, with what is not a number above all others: total, and [<] of Python on numbers. *)
Definition float_le (f g : pyfloat) : Prop :=
  match f, g with
  | _, NaN => True
  | NaN, _ => False
  | _, _ => float_lt g f = false
  end.
#[export] Instance float_le_dec : RelDecision float_le.
Proof. intros [] []; simpl; apply _. Defined.

(** [f == g] *)
Definition float_eq (f g : pyfloat) : bool :=
  negb (is_nan f) && negb (is_nan g) && negb (float_lt f g) && negb (float_lt g f).

(** ** [x == y] for JSON values: numbers and booleans by value, dictionaries whatever their order *)

Definition json_number (j : json) : option pyfloat :=
  match j with
  | JBool b => Some (Finite (if b then 1 else 0) 0)
  | JInt z => Some (Finite z 0)
  | JFloat f => Some f
  | _ => None
  end.

Fixpoint json_same (x y : json) : bool :=
  match x, y with
  | JNull, JNull => true
  | JStr s, JStr t => bool_decide (s = t)
  | JArr l, JArr k =>
      (fix same_items (l k : list json) : bool :=
         match l, k with
         | [], [] => true
         | a :: l', b :: k' => json_same a b && same_items l' k'
         | _, _ => false
         end) l k
  | JObj d, JObj e =>
      (length d =? length e)%nat &&
      (fix same_fields (d : list (string * json)) : bool :=
         match d with
         | [] => true
         | (k, v) :: d' => match dict_get k e with Some w => json_same v w | None => false end && same_fields d'
         end) d
  | _, _ => match json_number x, json_number y with Some f, Some g => float_eq f g | _, _ => false end
  end.

(** A value that equals itself: no [NaN], and the keys of a dictionary are distinct. *)
Fixpoint json_plain (x : json) : bool :=
  match x with
  | JFloat f => negb (is_nan f)
  | JArr l => (fix all (l : list json) : bool := match l with [] => true | a :: l' => json_plain a && all l' end) l
  | JObj d =>
      bool_decide (NoDup d.*1) &&
      (fix all (d : list (string * json)) : bool := match d with [] => true | (k, v) :: d' => json_plain v && all d' end) d
  | _ => true
  end.

(** ** Instants: microseconds since the epoch *)

Definition MAX_INSTANT : Z := 253402300799999999.
Definition MIN_INSTANT : Z := -62135596800000000.

(** [instant + timedelta(seconds=s)] *)
Definition add_seconds (instant s : Z) : result Z :=
  let t := instant + s * 1000000 in
  if (t <? MIN_INSTANT) || (MAX_INSTANT <? t) then Err (OverflowError "date value out of range") else Ok t.

(** [int(instant.timestamp())]; the float is within half a microsecond of the instant until year 2514. *)
Definition timestamp_int (instant : Z) : Z := Z.quot instant 1000000.

(** ** Lemmas *)

Lemma add_seconds_Ok instant s t : add_seconds instant s = Ok t → t = instant + s * 1000000.
Proof. unfold add_seconds. case_match; [done|]. by intros [= <-]. Qed.

Lemma round_div_bounds a b :
  0 < b → 2 * a - b ≤ 2 * b * round_div a b ≤ 2 * a + b.
Proof.
  intros Hb. unfold round_div. pose proof (Z.div_mod a b ltac:(lia)) as Hd.
  pose proof (Z.mod_pos_bound a b Hb).
  assert (∀ q, 2 * b * q = 2 * (b * q)) as H2 by (intros; lia). rewrite H2.
  destruct (Z.ltb_spec (2 * (a mod b)) b); [lia|].
  destruct (Z.ltb_spec b (2 * (a mod b))); [lia|]. destruct (Z.even _); lia.
Qed.

Lemma quotient_exponent_lower a b e :
  0 < a → 0 < b → e = quotient_exponent a b → e < 0 → b * 2 ^ 52 ≤ a * 2 ^ (- e).
Proof.
  intros Ha Hb He Hneg.
  pose proof (Z.log2_spec a Ha) as [La Ua]. pose proof (Z.log2_spec b Hb) as [Lb Ub].
  pose proof (Z.log2_nonneg a). pose proof (Z.log2_nonneg b).
  unfold quotient_exponent in He. set (d := Z.log2 a - Z.log2 b) in *.
  destruct (Z.leb_spec 0 d) as [Hd|Hd].
  - destruct (Z.ltb_spec a (b * 2 ^ d)) as [Hlt|Hge].
    + assert (- e = 53 - d) as -> by lia.
      assert (b < 2 ^ (Z.log2 b + 1)) as Hb' by (rewrite Z.add_1_r; lia).
      assert (2 ^ (Z.log2 b + 1) * 2 ^ 52 = 2 ^ Z.log2 a * 2 ^ (53 - d)) as Heq.
      { rewrite <- !Z.pow_add_r by lia. f_equal. lia. }
      assert (0 < 2 ^ (53 - d)) by (apply Z.pow_pos_nonneg; lia). nia.
    + assert (- e = 52 - d) as -> by lia.
      assert (2 ^ d * 2 ^ (52 - d) = 2 ^ 52) as Heq by (rewrite <- Z.pow_add_r by lia; f_equal; lia).
      assert (0 < 2 ^ (52 - d)) by (apply Z.pow_pos_nonneg; lia). nia.
  - destruct (Z.ltb_spec (a * 2 ^ (- d)) b) as [Hlt|Hge].
    + assert (- e = 53 - d) as -> by lia.
      assert (b < 2 ^ (Z.log2 b + 1)) as Hb' by (rewrite Z.add_1_r; lia).
      assert (2 ^ (Z.log2 b + 1) * 2 ^ 52 = 2 ^ Z.log2 a * 2 ^ (53 - d)) as Heq.
      { rewrite <- !Z.pow_add_r by lia. f_equal. lia. }
      assert (0 < 2 ^ (53 - d)) by (apply Z.pow_pos_nonneg; lia). nia.
    + assert (- e = - d + 52) as -> by lia. rewrite Z.pow_add_r by lia.
      assert (0 < 2 ^ 52) by lia. nia.
Qed.

Lemma quotient_exponent_upper a b e :
  0 < a → 0 < b → e = quotient_exponent a b → 0 ≤ e → b * 2 ^ (52 + e) ≤ a.
Proof.
  intros Ha Hb He Hpos.
  pose proof (Z.log2_spec a Ha) as [La Ua]. pose proof (Z.log2_spec b Hb) as [Lb Ub].
  pose proof (Z.log2_nonneg a). pose proof (Z.log2_nonneg b).
  unfold quotient_exponent in He. set (d := Z.log2 a - Z.log2 b) in *.
  destruct (Z.leb_spec 0 d) as [Hd|Hd].
  - destruct (Z.ltb_spec a (b * 2 ^ d)) as [Hlt|Hge].
    + assert (52 + e = d - 1) as -> by lia.
      assert (2 ^ (Z.log2 b + 1) * 2 ^ (d - 1) = 2 ^ Z.log2 a) as Heq
        by (rewrite <- Z.pow_add_r by lia; f_equal; lia).
      assert (b < 2 ^ (Z.log2 b + 1)) as Hb' by (rewrite Z.add_1_r; lia).
      assert (0 < 2 ^ (d - 1)) by (apply Z.pow_pos_nonneg; lia). nia.
    + by assert (52 + e = d) as -> by lia.
  - exfalso. destruct (a * 2 ^ (- d) <? b); lia.
Qed.

(** Below 2^53 the rounding of the quotient never loses the last step: the ceiling covers [a]. *)
Lemma ceil_true_div_covers a b : 0 ≤ a < 2 ^ 53 → 0 < b → a ≤ b * ceil_true_div a b.
Proof.
  intros [Ha Hlt] Hb. unfold ceil_true_div. destruct (Z.eqb_spec a 0) as [->|Hnz]; [lia|].
  set (e := quotient_exponent a b). destruct (Z.leb_spec 0 e) as [He|He].
  - pose proof (quotient_exponent_upper a b e ltac:(lia) Hb eq_refl He) as Hup.
    rewrite Z.pow_add_r in Hup by lia. assert (0 < 2 ^ e) by (apply Z.pow_pos_nonneg; lia).
    assert (b = 1) as -> by nia. assert (e = 0) as He0.
    { destruct (Z.le_gt_cases e 0) as [|Hgt]; [lia|exfalso].
      assert (2 ^ 1 ≤ 2 ^ e) by (apply Z.pow_le_mono_r; lia). nia. }
    rewrite He0. change (1 * 2 ^ 0) with 1. unfold round_div.
    rewrite Z.mod_1_r, Z.div_1_r. change (2 * 0 <? 1) with true. cbv iota. lia.
  - set (k := 2 ^ (- e)). assert (0 < k) by (apply Z.pow_pos_nonneg; lia).
    pose proof (quotient_exponent_lower a b e ltac:(lia) Hb eq_refl He) as Hlow. fold k in Hlow.
    set (m := round_div (a * k) b). pose proof (round_div_bounds (a * k) b Hb) as Hm. fold m in Hm.
    set (C := - (- m / k)). assert (m ≤ C * k) as HC.
    { unfold C. pose proof (Z.mul_div_le (- m) k ltac:(lia)). lia. }
    destruct (Z.le_gt_cases a (b * C)) as [|Hgt]; [done|exfalso].
    assert (b * C * k ≤ (a - 1) * k) by nia.
    assert (2 * k ≤ b) by nia.
    nia.
Qed.

Lemma float_units_scale k k' m e : - e ≤ k → k ≤ k' → float_units k' m e = float_units k m e * 2 ^ (k' - k).
Proof.
  intros Hk Hk'. unfold float_units. rewrite <- Z.mul_assoc, <- Z.pow_add_r by lia. do 2 f_equal. lia.
Qed.

Lemma float_lt_units k m1 e1 m2 e2 :
  - e1 ≤ k → - e2 ≤ k →
  float_lt (Finite m1 e1) (Finite m2 e2) = true ↔ float_units k m1 e1 < float_units k m2 e2.
Proof.
  intros H1 H2. unfold float_lt. rewrite Z.ltb_lt. set (k0 := Z.max (- e1) (- e2)).
  rewrite (float_units_scale k0 k m1 e1), (float_units_scale k0 k m2 e2) by lia.
  assert (0 < 2 ^ (k - k0)) by (apply Z.pow_pos_nonneg; lia). split; nia.
Qed.

Lemma float_le_finite k m1 e1 m2 e2 :
  - e1 ≤ k → - e2 ≤ k →
  float_le (Finite m1 e1) (Finite m2 e2) ↔ float_units k m1 e1 ≤ float_units k m2 e2.
Proof.
  intros H1 H2. unfold float_le. rewrite <- not_true_iff_false, (float_lt_units k) by done. lia.
Qed.

#[export] Instance float_le_total : Total float_le.
Proof.
  intros f g. destruct f as [m1 e1|[]|], g as [m2 e2|[]|]; try (by left); try (by right).
  rewrite !(float_le_finite (Z.max (- e1) (- e2))) by lia. lia.
Qed.

#[export] Instance float_le_trans : Transitive float_le.
Proof.
  intros f g h. destruct f as [m1 e1|[]|], g as [m2 e2|[]|], h as [m3 e3|[]|]; try done.
  rewrite !(float_le_finite (Z.max (- e1) (Z.max (- e2) (- e3)))) by lia. lia.
Qed.

#[export] Instance float_le_refl : Reflexive float_le.
Proof. intros f. by destruct (total float_le f f). Qed.

Lemma float_le_lt f g : is_nan f = false → is_nan g = false → float_le f g ↔ float_lt g f = false.
Proof. by destruct f, g. Qed.

Lemma float_max_le_l f g : float_le f (float_max f g).
Proof.
  unfold float_max. destruct (float_lt f g) eqn:E; [|done].
  destruct (total float_le f g) as [|H]; [done|]. destruct f, g; try done; unfold float_le in *; congruence.
Qed.

Lemma float_max_le_r f g : is_nan g = false → float_le g (float_max f g) ∨ is_nan f = true.
Proof.
  intros Hg. unfold float_max. destruct (float_lt f g) eqn:E; [by left|].
  destruct f, g; try done; (by right) || (left; exact E).
Qed.

Lemma float_max_is_one f g : float_max f g = f ∨ float_max f g = g.
Proof. unfold float_max. destruct (float_lt f g); auto. Qed.

Lemma float_eq_refl f : is_nan f = false → float_eq f f = true.
Proof.
  intros Hf. unfold float_eq. rewrite Hf. assert (float_lt f f = false) as ->; [|done].
  destruct f as [m e|[]|]; [|done..]. simpl. apply Z.ltb_irrefl.
Qed.

Lemma json_same_refl : ∀ x, json_plain x = true → json_same x x = true.
Proof.
  fix IH 1. intros [| b | z | f | s | l | d] H; cbn [json_same json_number]; try done.
  - by apply float_eq_refl.
  - by apply float_eq_refl.
  - apply float_eq_refl. simpl in H. by destruct (is_nan f).
  - by rewrite bool_decide_eq_true_2.
  - simpl in H. induction l as [|a l IHl]; [done|]. apply andb_true_iff in H as [Ha Hl]. by rewrite (IH a Ha), IHl.
  - simpl in H. apply andb_true_iff in H as [Hnd%bool_decide_eq_true H]. rewrite Nat.eqb_refl. simpl.
    assert (∀ pre, NoDup (pre ++ d).*1 → (fix same_fields (k : list (string * json)) : bool :=
         match k with
         | [] => true
         | (k, v) :: d' => match dict_get k (pre ++ d) with Some w => json_same v w | None => false end && same_fields d'
         end) d = true) as Hgen; [|by apply (Hgen [])].
    revert H. clear Hnd. induction d as [|[k v] d IHd]; intros H pre Hnd; [done|].
    apply andb_true_iff in H as [Hv Hd]. assert (dict_get k (pre ++ (k, v) :: d) = Some v) as ->.
    { clear -Hnd. induction pre as [|[k' v'] pre IHp]; simpl in *; [by rewrite decide_True|].
      apply NoDup_cons in Hnd as [Hk Hnd]. rewrite decide_False; [by apply IHp|]. intros ->. apply Hk.
      rewrite fmap_app. set_solver. }
    rewrite (IH v Hv). simpl. specialize (IHd Hd (pre ++ [(k, v)])). rewrite <- app_assoc in IHd. by apply IHd.
Qed.

(** The grammar on samples. *)
Example int_of_text_samples :
  int_of_text " 900 " = Ok 900 ∧ int_of_text "-1_000" = Ok (-1000) ∧ int_of_text "+007" = Ok 7 ∧
  is_ok (int_of_text "1__0") = false ∧ is_ok (int_of_text "_1") = false ∧
  is_ok (int_of_text "1.5") = false ∧ is_ok (int_of_text "") = false.
Proof. by vm_compute. Qed.

(** [1.0 - 0.1] is [0.9], rounded to 53 bits. *)
Example one_minus_samples :
  one_minus (Finite 3602879701896397 (-55)) = Finite 8106479329266893 (-53) ∧ one_minus (Finite 1 1) = Finite (-1) 0 ∧
  float_lt (Finite 1 (-1)) (Finite 3 (-2)) = true ∧ float_lt NaN NaN = false ∧
  float_max NaN (Finite 1 0) = NaN ∧ float_max (Finite 0 0) NaN = Finite 0 0.
Proof. by vm_compute. Qed.
