(* ===== verification/Recovery.v ===== *)
(** * Recovery: packages/runtime/execution/recovery.py

    The two periodic jobs that keep role runs from being lost: [recover_queued_role_tasks] re-announces
    or closes runs that stay queued, [expire_stale_running_tasks] closes runs that stay running past
    their deadline.  They work on the task store and the execution table together ([RunDB]); the
    service calls of each part are lifted with [zoom].  Fresh event ids are a function [fresh] of the
    run id, and rows another session has locked are skipped ([locked]). *)

From S2P Require Import Prelude.
From S2P Require Import Effects.
From S2P Require Import TaskContracts.
From S2P Require Import TaskStore.
From S2P Require Import Execution.

Definition DISPATCHED_ROLES : list string := ["EnrichmentRole"%string; "InvestigationRole"%string].
Definition EXECUTING_ROLES : list string := "DecisionRole"%string :: DISPATCHED_ROLES.

(** [order_by(updated_at, run_id)] *)
Definition run_le (r1 r2 : TaskRunModel) : Prop :=
  updated_at r1 < updated_at r2 ∨ updated_at r1 = updated_at r2 ∧ String.le (run_id r1) (run_id r2).
#[export] Instance run_le_dec r1 r2 : Decision (run_le r1 r2).
Proof. unfold run_le. apply _. Defined.

(** [select(TaskRunModel).where(status, role_id in roles, updated_at <= threshold)...] *)
Definition is_stale (st : TaskRunStatus) (roles : list string) (threshold : Z) (r : TaskRunModel) : bool :=
  bool_decide (status r = st) && bool_decide (run_role_id r ∈ roles) && (updated_at r <=? threshold).

Definition select_stale (st : TaskRunStatus) (roles : list string) (threshold : Z) (limit : nat)
  (locked : string → bool) (db : TaskDB) : list TaskRunModel :=
  take limit (merge_sort run_le (filter (λ r, is_stale st roles threshold r && negb (locked (run_id r)))
    (map_to_list (task_runs db)).*2)).

Definition is_active (m : ExecutionRunModel) : bool := bool_decide (xr_status m ∈ [EX_CREATED; EX_RUNNING]).

Inductive recovery := RETRIED | CLOSED | SKIPPED.

#[export] Instance recovery_eq_dec : EqDecision recovery.
Proof. solve_decision. Defined.

Section recovery.
Context (fresh : string → string) (instant stale_seconds : Z) (stream_name : string).

Definition threshold : Z := instant - stale_seconds * 1000000.

(** [emitted_at.desc(), seq.desc()], first. *)
Definition later_event (best : option TaskEventModel) (e : TaskEventModel) : option TaskEventModel :=
  match best with
  | None => Some e
  | Some b => if (emitted_at b <? emitted_at e) || (emitted_at b =? emitted_at e) && (seq b <? seq e)
              then Some e else Some b
  end.

Definition is_dispatch_event (e : TaskEventModel) : bool :=
  bool_decide (event_type e = TASK_PATCHED)
  || bool_decide (is_Some (strip_prefix "role-dispatch-recovery:" (payload_ref e))).

Definition last_dispatch_event (run : string) (db : TaskDB) : option TaskEventModel :=
  foldl later_event None (filter (λ e, is_dispatch_event e) (run_events run db)).

Definition get_delivery (id : string) (db : TaskDB) : option TaskEventDeliveryModel :=
  find (λ d, bool_decide (dl_event_id d = id)) (task_event_deliveries db).

(** The last announcement of the run is still on its way, or too recent to repeat. *)
Definition announced_recently (run : string) (db : TaskDB) : bool :=
  match last_dispatch_event run db with
  | None => false
  | Some e =>
      match get_delivery (event_id e) db with
      | Some d =>
          bool_decide (dl_status d = PENDING) || (emitted_at e >? threshold)
          || match delivered_at d with Some t => t >? threshold | None => false end
      | None => emitted_at e >? threshold
      end
  end.

(** [transition_task_run] to an end, and the end of its execution when that is still active. *)
Definition close_run (run : TaskRunModel) (target : TaskRunStatus) (payload key producer reason : string)
  (execution : option ExecutionRunModel) (ended : execution_status) : prog RunDB unit :=
  _ ← zoom (transition_task_run (run_id run) target payload key stream_name producer None (Some reason)
              (fresh (run_id run)) instant);
  match execution with
  | Some x => if is_active x then zoom (finish_execution (xr_execution_id x) ended reason instant) else mret tt
  | None => mret tt
  end.

(** The envelope of the run's execution: the row may be missing or not validate. *)
Definition envelope_of (x : option ExecutionRunModel) : option ExecutionEnvelope :=
  match x with
  | Some x => match validate_envelope (envelope_json x) with Ok e => Some e | Err _ => None end
  | None => None
  end.

(** The body of the loop of [recover_queued_role_tasks]. *)
Definition recover_one (run : TaskRunModel) : prog RunDB recovery :=
  db ← get_store;
  let execution := db.2 !! execution_envelope_ref run in
  match envelope_of execution with
  | Some envelope =>
      if bool_decide (ee_task_run_id envelope ≠ run_id run) then
        _ ← close_run run BLOCKED "role-recovery:execution-envelope-unavailable"
              ("role-recovery:invalid-execution:" +:+ run_id run) "task-runtime-recovery"
              "execution_envelope_unavailable" execution EX_BLOCKED;
        mret CLOSED
      else if dt_us (deadline_at envelope) <=? instant then
        _ ← close_run run TIMED_OUT "role-recovery:deadline-before-start"
              ("role-recovery:deadline:" +:+ run_id run) "task-runtime-recovery"
              "deadline_reached_before_start" execution EX_TIMED_OUT;
        mret CLOSED
      else if announced_recently (run_id run) db.1 then mret SKIPPED
      else
        _ ← zoom (append_task_event (fresh (run_id run)) (run_id run) PROGRESS "task-runtime-recovery"
              (run_context_revision run) ("role-dispatch-recovery:" +:+ run_id run)
              ("role-dispatch-recovery:" +:+ run_id run +:+ ":"
                 +:+ str_of_Z (Z.quot instant 1000000 / stale_seconds)) stream_name instant);
        mret RETRIED
  | None =>
      _ ← close_run run BLOCKED "role-recovery:execution-envelope-unavailable"
            ("role-recovery:invalid-execution:" +:+ run_id run) "task-runtime-recovery"
            "execution_envelope_unavailable" execution EX_BLOCKED;
      mret CLOSED
  end.

Definition with_outcome (o : recovery) (runs : list TaskRunModel) (outcomes : list recovery) : list string :=
  (run_id ∘ fst) <$> filter (λ p, p.2 = o) (zip runs outcomes).

Definition recover_queued_role_tasks (locked : string → bool) (limit : Z)
  : prog RunDB (list string * list string) :=
  _ ← check ((stale_seconds <? 1) || (limit <? 1)) (ValueError "role recovery bounds must be positive");
  db ← get_store;
  let runs := select_stale QUEUED DISPATCHED_ROLES threshold (Z.to_nat limit) locked db.1 in
  outcomes ← for_each runs recover_one;
  mret (with_outcome RETRIED runs outcomes, with_outcome CLOSED runs outcomes).

(** The body of the loop of [expire_stale_running_tasks]. *)
Definition expire_one (run : TaskRunModel) : prog RunDB recovery :=
  db ← get_store;
  match db.2 !! execution_envelope_ref run with
  | None => mret SKIPPED
  | Some execution =>
      if negb (is_active execution) then mret SKIPPED
      else match validate_envelope (envelope_json execution) with
      | Err _ => mret SKIPPED
      | Ok envelope =>
          if bool_decide (ee_task_run_id envelope ≠ run_id run) || (dt_us (deadline_at envelope) >? instant)
          then mret SKIPPED
          else
            _ ← zoom (transition_task_run (run_id run) TIMED_OUT "execution-recovery:deadline-exceeded"
                  ("execution-recovery:deadline:" +:+ run_id run) stream_name "execution-runtime-recovery"
                  None (Some "deadline_exceeded_without_terminal_result"%string) (fresh (run_id run)) instant);
            _ ← zoom (finish_execution (xr_execution_id execution) EX_TIMED_OUT
                  "deadline_exceeded_without_terminal_result" instant);
            mret CLOSED
      end
  end.

Definition expire_stale_running_tasks (locked : string → bool) (limit : Z) : prog RunDB (list string) :=
  _ ← check ((stale_seconds <? 1) || (limit <? 1)) (ValueError "execution recovery bounds must be positive");
  db ← get_store;
  let runs := select_stale RUNNING EXECUTING_ROLES threshold (Z.to_nat limit) locked db.1 in
  outcomes ← for_each runs expire_one;
  mret (with_outcome CLOSED runs outcomes).
End recovery.

(** ** The rows of one run *)

Definition owned_by (k : string) (p : string * ExecutionRunModel) : Prop :=
  ee_task_run_id (envelope_json p.2) = k.
#[export] Instance owned_by_dec k p : Decision (owned_by k p).
Proof. unfold owned_by. apply _. Defined.

(** A run's row and the executions whose envelope names it. *)
Definition run_rows (k : string) (s : RunDB) : option TaskRunModel * ExecutionTable :=
  (task_runs s.1 !! k, filter (owned_by k) s.2).

Definition run_db_ok (contract_digest : TaskContract → string) (manifest_digest : ContextManifest → string)
  (s : RunDB) : Prop := task_wf contract_digest manifest_digest s.1 ∧ table_ok s.2.

Lemma run_rows_execution k s s' id x :
  run_rows k s = run_rows k s' → ee_task_run_id (envelope_json x) = k →
  s.2 !! id = Some x → s'.2 !! id = Some x.
Proof.
  intros [= _ Hf] Hk Hx. assert (filter (owned_by k) s.2 !! id = Some x) as H
    by by apply map_lookup_filter_Some. rewrite Hf in H. by apply map_lookup_filter_Some in H as [? _].
Qed.

(** Replacing an execution of run [k0] does not touch the rows of the other runs. *)
Lemma put_execution_frame k k0 t m old :
  t !! xr_execution_id m = Some old → envelope_json m = envelope_json old →
  ee_task_run_id (envelope_json old) = k0 → k ≠ k0 →
  filter (owned_by k) (put_execution m t) = filter (owned_by k) t.
Proof.
  intros Hold Henv Hk0 Hk. unfold put_execution. apply map_filter_insert_not'.
  - unfold owned_by. simpl. congruence.
  - intros y Hy. rewrite Hold in Hy. injection Hy as <-. unfold owned_by. simpl. congruence.
Qed.

Lemma transition_rows contract_digest manifest_digest id target payload key stream prod result stop ue t
  (s s' : RunDB) v :
  run_db_ok contract_digest manifest_digest s →
  zoom (transition_task_run id target payload key stream prod result stop ue t) s = (Ok v, s') →
  run_db_ok contract_digest manifest_digest s' ∧ s'.2 = s.2 ∧
  (∃ r, task_runs s.1 !! id = Some r ∧
    task_runs s'.1 = <[id := set_transition target result stop t r]> (task_runs s.1)).
Proof.
  intros [Hwf Hok] (t'&Ht&->)%zoom_Ok. simpl in *.
  destruct (transition_good contract_digest manifest_digest _ _ _ _ _ _ _ _ _ _ _ _ _ Hwf Ht)
    as ([Hwf' _]&_&Hr). done.
Qed.

Lemma elem_of_select_stale st roles th limit locked db r :
  r ∈ select_stale st roles th limit locked db →
  (∃ k, task_runs db !! k = Some r) ∧ status r = st ∧ run_role_id r ∈ roles ∧ updated_at r ≤ th.
Proof.
  unfold select_stale. intros (i&Hr%list_elem_of_lookup_2&_)%elem_of_take.
  rewrite merge_sort_Permutation, list_elem_of_filter, Is_true_true, andb_true_iff in Hr.
  destruct Hr as [[Hr _] Hin]. unfold is_stale in Hr.
  rewrite !andb_true_iff, !bool_decide_eq_true, Z.leb_le in Hr. destruct Hr as [[H1 H2] H3].
  apply list_elem_of_fmap in Hin as ([k r']&->&Hin%elem_of_map_to_list). simpl in *.
  split; [by exists k|done].
Qed.

Lemma NoDup_select_stale contract_digest manifest_digest st roles th limit locked db :
  task_wf contract_digest manifest_digest db →
  NoDup (run_id <$> select_stale st roles th limit locked db).
Proof.
  intros Hwf. unfold select_stale. rewrite fmap_take.
  eapply sublist_NoDup; [|apply sublist_take]. rewrite merge_sort_Permutation.
  eapply sublist_NoDup; [|apply fmap_sublist, sublist_filter].
  assert (run_id <$> (map_to_list (task_runs db)).*2 = (map_to_list (task_runs db)).*1) as ->;
    [|apply NoDup_fst_map_to_list].
  rewrite <- list_fmap_compose. apply list_fmap_ext. intros i [k r] Hi%list_elem_of_lookup_2.
  apply elem_of_map_to_list in Hi. simpl. by apply (wf_run_key _ _ _ Hwf).
Qed.

(** With a large enough limit every stale, unlocked run is selected. *)
Lemma select_stale_complete st roles th limit locked db k r :
  (size (task_runs db) ≤ limit)%nat → task_runs db !! k = Some r →
  is_stale st roles th r = true → locked (run_id r) = false →
  r ∈ select_stale st roles th limit locked db.
Proof.
  intros Hlim Hr Hst Hl. unfold select_stale. rewrite take_ge.
  - rewrite merge_sort_Permutation, list_elem_of_filter, Is_true_true, Hst, Hl. split; [done|].
    apply list_elem_of_fmap. exists (k, r). split; [done|]. by apply elem_of_map_to_list.
  - rewrite merge_sort_Permutation. etrans; [apply length_filter|].
    rewrite length_fmap, length_map_to_list. done.
Qed.

(** ** Expiring stale running runs *)

(** The run's own execution is active and past its deadline. *)
Definition overdue (instant : Z) (r : TaskRunModel) (s : RunDB) : Prop :=
  ∃ x, s.2 !! execution_envelope_ref r = Some x ∧ is_active x = true ∧
    validate_envelope (envelope_json x) = Ok (envelope_json x) ∧
    ee_task_run_id (envelope_json x) = run_id r ∧ dt_us (deadline_at (envelope_json x)) ≤ instant.

Lemma overdue_rows instant r s s' :
  run_rows (run_id r) s = run_rows (run_id r) s' → overdue instant r s → overdue instant r s'.
Proof.
  intros Hrows (x&Hx&Ha&Hv&Hk&Hd). exists x. split; [|done]. by eapply run_rows_execution.
Qed.

Section expire.
Context (contract_digest : TaskContract → string) (manifest_digest : ContextManifest → string)
  (fresh : string → string) (instant stale_seconds : Z) (stream : string).

Definition expire_post (r : TaskRunModel) (s : RunDB) (o : recovery) (s' : RunDB) : Prop :=
  match o with
  | CLOSED => overdue instant r s ∧
      (∃ r', task_runs s'.1 !! run_id r = Some r' ∧ status r' = TIMED_OUT) ∧
      ∃ x', s'.2 !! execution_envelope_ref r = Some x' ∧ xr_status x' = EX_TIMED_OUT ∧
        ee_task_run_id (envelope_json x') = run_id r
  | SKIPPED => s' = s ∧ ¬ overdue instant r s
  | RETRIED => False
  end.

Lemma expire_one_spec r s o s' :
  run_db_ok contract_digest manifest_digest s →
  expire_one fresh instant stream r s = (Ok o, s') →
  run_db_ok contract_digest manifest_digest s' ∧ any_step s s' ∧ expire_post r s o s' ∧
  ∀ k, k ≠ run_id r → run_rows k s' = run_rows k s.
Proof.
  intros Hs H. unfold expire_one in H. apply bind_Ok in H as (s0&s1&H0&H). prog_inv H0.
  assert (∀ P : Prop, ¬ overdue instant r s → (mret SKIPPED : prog RunDB recovery) s = (Ok o, s') →
    run_db_ok contract_digest manifest_digest s' ∧ any_step s s' ∧ expire_post r s o s' ∧
    ∀ k, k ≠ run_id r → run_rows k s' = run_rows k s) as Hskip.
  { intros _ Hn Hret. apply ret_Ok in Hret as [-> ->]. done. }
  destruct (s.2 !! execution_envelope_ref r) as [x|] eqn:Hx;
    [|apply (Hskip True); [intros (?&?&_); congruence|done]].
  destruct (is_active x) eqn:Ha; simpl in H;
    [|apply (Hskip True); [intros (?&?&?&_); congruence|done]].
  destruct (validate_envelope (envelope_json x)) as [e|err] eqn:Hv;
    [|apply (Hskip True); [intros (?&?&?&?&_); congruence|done]].
  pose proof (validate_envelope_Ok _ _ Hv) as ->.
  destruct (bool_decide (ee_task_run_id (envelope_json x) ≠ run_id r)) eqn:Hr; simpl in H.
  { apply bool_decide_eq_true in Hr. apply (Hskip True); [intros (?&?&?&?&?&_); congruence|done]. }
  apply bool_decide_eq_false, dec_stable in Hr. rewrite Z.gtb_ltb in H.
  destruct (Z.ltb_spec instant (dt_us (deadline_at (envelope_json x)))) as [Hd|Hd].
  { apply (Hskip True); [|done]. intros (y&Hy&_&_&_&Hle). assert (y = x) as -> by congruence. lia. }
  clear Hskip. apply bind_Ok in H as (v&s2&Ht&H).
  destruct (transition_rows _ _ _ _ _ _ _ _ _ _ _ _ _ _ _ Hs Ht) as ([Hwf2 Hok2]&Hsame&r0&Hr0&Hruns).
  apply bind_Ok in H as (u&s3&Hf&H). apply ret_Ok in H as [-> ->].
  apply zoom_Ok in Hf as (t&Hf&->). simpl in Hf.
  destruct (proj2 Hs _ _ Hx) as [[Hkey _] _ _ _ _].
  assert (finish_execution (xr_execution_id x) EX_TIMED_OUT "deadline_exceeded_without_terminal_result" instant s2.2
    = (Ok tt, put_execution (set_finished EX_TIMED_OUT "deadline_exceeded_without_terminal_result" instant x) s2.2)) as Hf'.
  { apply finish_active; [by rewrite Hsame, Hkey|by apply bool_decide_eq_true in Ha|by_decide|by vm_compute]. }
  destruct (finish_execution_step _ _ _ _ _ _ _ Hok2 Hf) as [Hok3 _].
  rewrite Hf' in Hf. injection Hf as _ <-. split; [by split|]. split; [done|]. split.
  - split; [by exists x|]. simpl. split.
    + eexists. rewrite Hruns, lookup_insert_eq. done.
    + eexists. unfold put_execution. simpl. rewrite Hkey, lookup_insert_eq. done.
  - intros k Hk. unfold run_rows. simpl. rewrite Hruns, lookup_insert_ne by done. f_equal.
    rewrite <- Hsame. eapply put_execution_frame; [by simpl; rewrite Hsame, Hkey|done|done|congruence].
Qed.
End expire.

Lemma elem_of_with_outcome o runs outcomes id :
  id ∈ with_outcome o runs outcomes ↔ ∃ r, run_id r = id ∧ (r, o) ∈ zip runs outcomes.
Proof.
  unfold with_outcome. rewrite list_elem_of_fmap. split.
  - intros ([r o']&->&[Ho Hin]%list_elem_of_filter). simpl in *. subst. by exists r.
  - intros (r&<-&Hin). exists (r, o). split; [done|]. by apply list_elem_of_filter.
Qed.

Lemma Forall2_zip_elem {A B} (P : A → B → Prop) l k x y :
  Forall2 P l k → (x, y) ∈ zip l k → P x y ∧ x ∈ l.
Proof.
  intros H. induction H as [|a b l k Hab H IH]; simpl; [intros Hin; by apply not_elem_of_nil in Hin|].
  intros [[= -> ->]|Hin]%elem_of_cons; [split; [done|apply list_elem_of_here]|].
  destruct (IH Hin). split; [done|by apply list_elem_of_further].
Qed.

Lemma Forall2_zip_ex {A B} (P : A → B → Prop) l k x :
  Forall2 P l k → x ∈ l → ∃ y, (x, y) ∈ zip l k ∧ P x y.
Proof.
  intros H. induction H as [|a b l k Hab H IH]; simpl; [intros Hin; by apply not_elem_of_nil in Hin|].
  intros [->|Hin]%elem_of_cons; [exists b; split; [apply list_elem_of_here|done]|].
  destruct (IH Hin) as (y&?&?). exists y. split; [by apply list_elem_of_further|done].
Qed.

(** [expire_stale_running_tasks], when it returns: every run it closes was running, had not been
    updated for [stale_seconds], and its own active execution was past its deadline; the run and that
    execution are now timed out; every other run keeps its row; and with a large enough limit every
    overdue, stale, unlocked run of an executing role is closed. *)
Theorem expire_stale_spec contract_digest manifest_digest fresh instant stale stream locked limit db closed db' :
  run_db_ok contract_digest manifest_digest db →
  expire_stale_running_tasks fresh instant stale stream locked limit db = (Ok closed, db') →
  run_db_ok contract_digest manifest_digest db' ∧
  (∀ id, id ∈ closed → ∃ r, task_runs db.1 !! id = Some r ∧ status r = RUNNING ∧
    updated_at r ≤ threshold instant stale ∧ overdue instant r db ∧
    (∃ r', task_runs db'.1 !! id = Some r' ∧ status r' = TIMED_OUT) ∧
    ∃ x', db'.2 !! execution_envelope_ref r = Some x' ∧ xr_status x' = EX_TIMED_OUT) ∧
  (∀ id, id ∉ closed → task_runs db'.1 !! id = task_runs db.1 !! id) ∧
  (Z.of_nat (size (task_runs db.1)) ≤ limit → ∀ id r, task_runs db.1 !! id = Some r →
    is_stale RUNNING EXECUTING_ROLES (threshold instant stale) r = true → locked id = false →
    overdue instant r db → id ∈ closed).
Proof.
  intros Hok H. unfold expire_stale_running_tasks in H. apply bind_Ok in H as (u0&s0&H0&H). prog_inv H0.
  apply bind_Ok in H as (s1&s2&H1&H). prog_inv H1. cbv zeta in H.
  apply bind_Ok in H as (outcomes&s3&Hloop&H). apply ret_Ok in H as [-> ->].
  set (runs := select_stale RUNNING EXECUTING_ROLES (threshold instant stale) (Z.to_nat limit) locked db.1) in *.
  assert (∀ r, r ∈ runs → task_runs db.1 !! run_id r = Some r ∧ status r = RUNNING ∧
    updated_at r ≤ threshold instant stale) as Hsel.
  { intros r ((k&Hk)&Hst&_&Hu)%elem_of_select_stale.
    pose proof (wf_run_key _ _ _ (proj1 Hok) _ _ Hk) as Hid. by rewrite Hid. }
  destruct (for_each_rows (run_db_ok contract_digest manifest_digest) any_step run_id run_rows
    (expire_one fresh instant stream) (expire_post instant) runs db outcomes s3) as (Hok'&_&Hrest&Hall);
    [intros r s o s' _; apply expire_one_spec|by eapply NoDup_select_stale, Hok|done|done|].
  split; [done|]. split; [|split].
  - intros id (r&<-&Hin)%elem_of_with_outcome.
    destruct (Forall2_zip_elem _ _ _ _ _ Hall Hin) as [(t1&t2&_&_&_&Hpost&Hrow1&Hrow2) Hr].
    destruct (Hsel r Hr) as (Hrun&Hst&Hu). exists r. split_and!; try done.
    + apply (overdue_rows _ _ t1 db Hrow1), Hpost.
    + destruct Hpost as (_&(r'&Hr'&Hst')&_). exists r'. split; [|done]. injection Hrow2 as -> _. done.
    + destruct Hpost as (_&_&x'&Hx'&Hst'&Hk'). exists x'. split; [|done].
      by eapply run_rows_execution; [symmetry; exact Hrow2| |].
  - intros id Hid. destruct (decide (id ∈ run_id <$> runs)) as [(r&->&Hr)%list_elem_of_fmap|Hn].
    + destruct (Forall2_zip_ex _ _ _ _ Hall Hr) as (o&Hz&t1&t2&_&_&_&Hpost&Hrow1&Hrow2).
      destruct o; [done|destruct Hid; apply elem_of_with_outcome; by exists r|].
      destruct Hpost as [-> _]. rewrite Hrow1 in Hrow2. by injection Hrow2.
    + specialize (Hrest id Hn). by injection Hrest.
  - intros Hlim id r Hr Hstale Hlock Hover. pose proof (wf_run_key _ _ _ (proj1 Hok) _ _ Hr) as Hid. subst id.
    assert (r ∈ runs) as Hin by (eapply select_stale_complete; [lia|done|done|done]).
    destruct (Forall2_zip_ex _ _ _ _ Hall Hin) as (o&Hz&t1&t2&_&_&_&Hpost&Hrow1&_).
    destruct o; [done|apply elem_of_with_outcome; by exists r|].
    destruct Hpost as [_ Hno]. destruct Hno. by apply (overdue_rows _ _ db).
Qed.

(** ** Recovering queued runs *)

(** What a queued run's execution envelope says: [None] leaves it queued. *)
Definition fate (instant : Z) (r : TaskRunModel) (s : RunDB) : option TaskRunStatus :=
  match envelope_of (s.2 !! execution_envelope_ref r) with
  | None => Some BLOCKED
  | Some e => if bool_decide (ee_task_run_id e ≠ run_id r) then Some BLOCKED
              else if dt_us (deadline_at e) <=? instant then Some TIMED_OUT else None
  end.

(** Executions keep their envelopes. *)
Definition same_envelopes (s s' : RunDB) : Prop :=
  ∀ id, envelope_json <$> (s'.2 !! id) = envelope_json <$> (s.2 !! id).
#[export] Instance same_envelopes_preorder : PreOrder same_envelopes.
Proof. split; [done|]. intros s1 s2 s3 H1 H2 id. by rewrite H2, H1. Qed.

Lemma fate_same instant r s s' : same_envelopes s s' → fate instant r s' = fate instant r s.
Proof.
  intros H. unfold fate. specialize (H (execution_envelope_ref r)). unfold envelope_of.
  destruct (s.2 !! _), (s'.2 !! _); simpl in H; try done. injection H as ->. done.
Qed.

Lemma close_finish_envelopes t m st reason now id :
  table_ok t → t !! xr_execution_id m = Some m →
  envelope_json <$> (put_execution (set_finished st reason now m) t !! id) = envelope_json <$> (t !! id).
Proof.
  intros _ Hm. unfold put_execution. simpl. destruct (decide (xr_execution_id m = id)) as [<-|].
  - by rewrite lookup_insert_eq, Hm.
  - by rewrite lookup_insert_ne.
Qed.

Section announced.
Context (contract_digest : TaskContract → string) (manifest_digest : ContextManifest → string)
  (instant stale : Z).

(** Announcements of other runs are not disturbed by a new event. *)
Lemma announced_add_event k e d db :
  task_wf contract_digest manifest_digest db → task_run_id e ≠ k →
  announced_recently instant stale k (add_event e d db) = announced_recently instant stale k db.
Proof.
  intros Hwf Hk. unfold announced_recently, last_dispatch_event.
  rewrite run_events_add, bool_decide_eq_false_2, app_nil_r by done.
  destruct (foldl _ None _) as [b|] eqn:E; [|done].
  assert (b ∈ task_events db) as Hb.
  { assert (∀ l acc, (∀ x, acc = Some x → x ∈ task_events db) → (∀ x, x ∈ l → x ∈ task_events db) →
      ∀ x, foldl later_event acc l = Some x → x ∈ task_events db) as Hfold.
    { induction l as [|y l IH]; simpl; intros acc Hacc Hl x Hx; [by apply Hacc|].
      eapply IH; [|intros z Hz; apply Hl; by apply list_elem_of_further|exact Hx].
      intros z Hz. unfold later_event in Hz. destruct acc as [a|].
      - case_match; injection Hz as <-; [apply Hl, list_elem_of_here|by apply Hacc].
      - injection Hz as <-. apply Hl, list_elem_of_here. }
    eapply Hfold; [| |exact E]; [done|].
    intros x [_ [_ Hx]%list_elem_of_filter]%list_elem_of_filter. done. }
  assert (get_delivery (event_id b) (add_event e d db) = get_delivery (event_id b) db) as ->; [|done].
  unfold get_delivery. simpl. rewrite find_app. destruct (find _ (task_event_deliveries db)) eqn:F; [done|].
  exfalso. apply (list_elem_of_fmap_2 event_id) in Hb. rewrite <- (wf_deliveries _ _ _ Hwf) in Hb.
  apply list_elem_of_fmap in Hb as (d'&Hd&Hin). apply (find_None_elem _ _ d' F) in Hin.
  by rewrite bool_decide_eq_true_2 in Hin.
Qed.

Lemma append_frame k new_id id ty prod base payload key stream t db r db' :
  task_wf contract_digest manifest_digest db → k ≠ id →
  append_task_event new_id id ty prod base payload key stream t db = (Ok r, db') →
  announced_recently instant stale k db' = announced_recently instant stale k db.
Proof.
  intros Hwf Hk (run&_&[(_&->&_)|(_&_&_&_&->)])%append_Ok; [done|]. apply announced_add_event; done.
Qed.

Lemma transition_frame k id target payload key stream prod result stop ue t db v db' :
  task_wf contract_digest manifest_digest db → k ≠ id →
  transition_task_run id target payload key stream prod result stop ue t db = (Ok v, db') →
  announced_recently instant stale k db' = announced_recently instant stale k db.
Proof.
  intros Hwf Hk H. unfold transition_task_run in H. apply bind_Ok in H as (u0&s0&H0&H). prog_inv H0.
  apply bind_Ok in H as (r&s1&Hr&H). apply lookup_run_Ok in Hr as [Hr ->]. prog_inv H.
  match goal with Ha : append_task_event _ _ _ _ _ _ _ _ _ (put_run ?r' ?db0) = _ |- _ =>
    apply append_Ok in Ha as (run&_&[(_&->&_)|(_&_&_&_&->)]) end; [done|].
  apply (announced_add_event k _ _ (put_run _ db)); [|done].
  pose proof (wf_run_key _ _ _ Hwf _ _ Hr) as Hid. apply put_run_wf; [done| |].
  - destruct (wf_runs _ _ _ Hwf _ _ Hr). by split.
  - simpl. rewrite Hid. intros old Ho. congruence.
Qed.
End announced.

Section recover.
Context (contract_digest : TaskContract → string) (manifest_digest : ContextManifest → string)
  (fresh : string → string) (instant stale : Z) (stream : string).

Definition retry_key (id : string) : string :=
  "role-dispatch-recovery:" +:+ id +:+ ":" +:+ str_of_Z (Z.quot instant 1000000 / stale).

Definition recover_post (r : TaskRunModel) (s : RunDB) (o : recovery) (s' : RunDB) : Prop :=
  match o with
  | CLOSED => ∃ st r', fate instant r s = Some st ∧ task_runs s'.1 !! run_id r = Some r' ∧ status r' = st
  | RETRIED => fate instant r s = None ∧ announced_recently instant stale (run_id r) s.1 = false ∧
      task_runs s'.1 = task_runs s.1 ∧ is_Some (find_event (run_id r) (retry_key (run_id r)) s'.1)
  | SKIPPED => s' = s ∧ fate instant r s = None ∧ announced_recently instant stale (run_id r) s.1 = true
  end.

(** A run's row, and whether its last announcement is recent. *)
Definition queue_row (k : string) (s : RunDB) : option TaskRunModel * bool :=
  (task_runs s.1 !! k, announced_recently instant stale k s.1).

Definition step_ok (s s' : RunDB) : Prop := same_envelopes s s' ∧ db_extends s.1 s'.1.
#[export] Instance step_ok_preorder : PreOrder step_ok.
Proof.
  split; [by split|]. intros s1 s2 s3 [H1 H2] [H3 H4]. split; [by etrans|]. by etrans.
Qed.

Lemma close_run_spec r target payload key prod reason x ended s u s' :
  run_db_ok contract_digest manifest_digest s →
  close_run fresh instant stream r target payload key prod reason x ended s = (Ok u, s') →
  x = s.2 !! execution_envelope_ref r → ended ∈ TERMINAL_EXECUTION_STATUSES → slen reason ≤ 128 →
  run_db_ok contract_digest manifest_digest s' ∧ step_ok s s' ∧
  (∃ r', task_runs s'.1 !! run_id r = Some r' ∧ status r' = target) ∧
  ∀ k, k ≠ run_id r → queue_row k s' = queue_row k s.
Proof.
  intros Hs H Hx Hended Hreason. unfold close_run in H. apply bind_Ok in H as (v&s1&Ht&H).
  pose proof Ht as Ht0. apply zoom_Ok in Ht0 as (t1&Ht0&Hs1). simpl in Ht0.
  destruct (transition_good contract_digest manifest_digest _ _ _ _ _ _ _ _ _ _ _ _ _ (proj1 Hs) Ht0)
    as ([_ Hext]&_&r0&Hr0&Hruns).
  destruct (transition_rows _ _ _ _ _ _ _ _ _ _ _ _ _ _ _ Hs Ht) as ([Hwf1 Hok1]&Hsame&_).
  assert (∀ k, k ≠ run_id r → queue_row k s1 = queue_row k s) as Hframe.
  { intros k Hk. unfold queue_row. subst s1. simpl. rewrite Hruns, lookup_insert_ne by done. f_equal.
    eapply transition_frame; [by apply Hs|exact Hk|exact Ht0]. }
  assert (∃ r', task_runs s1.1 !! run_id r = Some r' ∧ status r' = target) as Hr'.
  { subst s1. simpl. rewrite Hruns, lookup_insert_eq. by eexists. }
  assert (step_ok s s1) as Hstep by (subst s1; split; [by intros id|exact Hext]).
  destruct x as [x|]; [|apply ret_Ok in H as [_ ->]; by split].
  destruct (is_active x) eqn:Ha; [|apply ret_Ok in H as [_ ->]; by split].
  apply zoom_Ok in H as (t&Hf&->). simpl in Hf.
  assert (s1.2 !! xr_execution_id x = Some x) as Hx1.
  { destruct (proj2 Hs _ _ (eq_sym Hx)) as [[Hkey _] _ _ _ _]. by rewrite Hkey, Hsame. }
  assert (finish_execution (xr_execution_id x) ended reason instant s1.2
    = (Ok tt, put_execution (set_finished ended reason instant x) s1.2)) as Hf'.
  { apply finish_active; [done|by apply bool_decide_eq_true in Ha|done|done]. }
  destruct (finish_execution_step _ _ _ _ _ _ _ Hok1 Hf) as [Hok2 _].
  rewrite Hf' in Hf. injection Hf as _ <-. split; [by split|]. split; [|done].
  split; [|by apply Hstep]. intros id. simpl. rewrite (close_finish_envelopes s1.2 x) by done.
  by apply Hstep.
Qed.

Lemma recover_one_spec r s o s' :
  run_db_ok contract_digest manifest_digest s →
  recover_one fresh instant stale stream r s = (Ok o, s') →
  run_db_ok contract_digest manifest_digest s' ∧ step_ok s s' ∧ recover_post r s o s' ∧
  ∀ k, k ≠ run_id r → queue_row k s' = queue_row k s.
Proof.
  intros Hs H. unfold recover_one in H. apply bind_Ok in H as (s0&s1&H0&H). prog_inv H0. cbv zeta in H.
  assert (∀ target payload key prod reason ended,
    fate instant r s = Some target → ended ∈ TERMINAL_EXECUTION_STATUSES → slen reason ≤ 128 →
    (_ ← close_run fresh instant stream r target payload key prod reason (s.2 !! execution_envelope_ref r) ended;
     mret CLOSED) s = (Ok o, s') →
    run_db_ok contract_digest manifest_digest s' ∧ step_ok s s' ∧ recover_post r s o s' ∧
    ∀ k, k ≠ run_id r → queue_row k s' = queue_row k s) as Hclose.
  { intros target payload key prod reason ended Hfate Hended Hreason Hrun.
    apply bind_Ok in Hrun as (u&s2&Hc&Hret). apply ret_Ok in Hret as [-> ->].
    destruct (close_run_spec _ _ _ _ _ _ _ _ _ _ _ Hs Hc eq_refl Hended Hreason) as (?&?&(r'&?&?)&?).
    split_and!; try done. by exists target, r'. }
  unfold fate in Hclose. destruct (envelope_of (s.2 !! execution_envelope_ref r)) as [e|] eqn:He.
  2: { eapply Hclose; [reflexivity| | |exact H]; [by_decide|by vm_compute]. }
  case_bool_decide as Hr; [eapply Hclose; [reflexivity| | |exact H]; [by_decide|by vm_compute]|].
  destruct (Z.leb_spec (dt_us (deadline_at e)) instant) as [Hd|Hd];
    [eapply Hclose; [reflexivity| | |exact H]; [by_decide|by vm_compute]|]. clear Hclose.
  assert (fate instant r s = None) as Hfate.
  { unfold fate. rewrite He, bool_decide_eq_false_2 by naive_solver. destruct (Z.leb_spec (dt_us (deadline_at e)) instant); [lia|done]. }
  destruct (announced_recently instant stale (run_id r) s.1) eqn:Hann.
  { apply ret_Ok in H as [-> ->]. split; [done|]. split; [done|]. by split. }
  apply bind_Ok in H as (v&s2&Ha&H). apply ret_Ok in H as [-> ->]. apply zoom_Ok in Ha as (t&Ha&->).
  simpl in Ha. pose proof (append_wf _ _ _ _ _ _ _ _ _ _ _ _ _ _ (proj1 Hs) Ha) as Hwf'.
  pose proof (append_extends _ _ _ _ _ _ _ _ _ _ _ _ Ha) as (Hext&Hruns&_&_).
  split; [split; [done|by apply Hs]|]. split; [by split|]. split.
  - split; [done|]. split; [done|]. split; [done|]. by eapply append_key_recorded.
  - intros k Hk. unfold queue_row. simpl. rewrite Hruns. f_equal.
    eapply append_frame; [by apply Hs|exact Hk|exact Ha].
Qed.
End recover.

(** [recover_queued_role_tasks], when it returns: every run it closes was queued and stale and its
    execution envelope is missing, invalid, not its own (now blocked) or past its deadline (now timed
    out); every run it re-announces was queued and stale, has a live envelope and no recent
    announcement, keeps its row and has the announcement in its log; every other run keeps its row;
    and with a large enough limit no stale, unlocked run of a dispatched role is left without one of
    the two unless its last announcement is recent. *)
Theorem recover_queued_spec contract_digest manifest_digest fresh instant stale stream locked limit db
  retried closed db' :
  run_db_ok contract_digest manifest_digest db →
  recover_queued_role_tasks fresh instant stale stream locked limit db = (Ok (retried, closed), db') →
  run_db_ok contract_digest manifest_digest db' ∧
  (∀ id, id ∈ closed → ∃ r st r', task_runs db.1 !! id = Some r ∧ status r = QUEUED ∧
    updated_at r ≤ threshold instant stale ∧ fate instant r db = Some st ∧
    task_runs db'.1 !! id = Some r' ∧ status r' = st) ∧
  (∀ id, id ∈ retried → ∃ r, task_runs db.1 !! id = Some r ∧ status r = QUEUED ∧
    updated_at r ≤ threshold instant stale ∧ fate instant r db = None ∧
    announced_recently instant stale id db.1 = false ∧ task_runs db'.1 !! id = Some r ∧
    is_Some (find_event id (retry_key instant stale id) db'.1)) ∧
  (∀ id, id ∉ closed → task_runs db'.1 !! id = task_runs db.1 !! id) ∧
  (Z.of_nat (size (task_runs db.1)) ≤ limit → ∀ id r, task_runs db.1 !! id = Some r →
    is_stale QUEUED DISPATCHED_ROLES (threshold instant stale) r = true → locked id = false →
    id ∈ closed ∨ id ∈ retried ∨ announced_recently instant stale id db.1 = true).
Proof.
  intros Hok H. unfold recover_queued_role_tasks in H. apply bind_Ok in H as (u0&s0&H0&H). prog_inv H0.
  apply bind_Ok in H as (s1&s2&H1&H). prog_inv H1. cbv zeta in H.
  apply bind_Ok in H as (outcomes&s3&Hloop&H). apply ret_Ok in H as [[= -> ->] ->].
  set (runs := select_stale QUEUED DISPATCHED_ROLES (threshold instant stale) (Z.to_nat limit) locked db.1) in *.
  assert (∀ r, r ∈ runs → task_runs db.1 !! run_id r = Some r ∧ status r = QUEUED ∧
    updated_at r ≤ threshold instant stale) as Hsel.
  { intros r ((k&Hk)&Hst&_&Hu)%elem_of_select_stale.
    pose proof (wf_run_key _ _ _ (proj1 Hok) _ _ Hk) as Hid. by rewrite Hid. }
  destruct (for_each_rows (run_db_ok contract_digest manifest_digest) step_ok run_id (queue_row instant stale)
    (recover_one fresh instant stale stream) (recover_post instant stale) runs db outcomes s3)
    as (Hok'&_&Hrest&Hall);
    [intros r s o s' _; apply recover_one_spec|by eapply NoDup_select_stale, Hok|done|done|].
  split; [done|]. split; [|split; [|split]].
  - intros id (r&<-&Hin)%elem_of_with_outcome.
    destruct (Forall2_zip_elem _ _ _ _ _ Hall Hin) as [(t1&t2&_&[He1 _]&_&(st&r'&Hf&Hr'&Hst')&_&Hrow2) Hr].
    destruct (Hsel r Hr) as (Hrun&Hst&Hu). exists r, st, r'. rewrite (fate_same _ _ _ _ He1) in Hf.
    injection Hrow2 as -> _. done.
  - intros id (r&<-&Hin)%elem_of_with_outcome.
    destruct (Forall2_zip_elem _ _ _ _ _ Hall Hin) as [(t1&t2&_&[He1 _]&[_ He2]&(Hf&Ha&Hruns&[e He])&Hrow1&Hrow2) Hr].
    destruct (Hsel r Hr) as (Hrun&Hst&Hu). exists r. rewrite (fate_same _ _ _ _ He1) in Hf.
    injection Hrow1 as Hr1 Ha1. injection Hrow2 as Hr2 _. rewrite <- Ha1, Hr2, Hruns, Hr1.
    split_and!; try done. exists e. by eapply find_event_extends.
  - intros id Hid. destruct (decide (id ∈ run_id <$> runs)) as [(r&->&Hr)%list_elem_of_fmap|Hn].
    + destruct (Forall2_zip_ex _ _ _ _ Hall Hr) as (o&Hz&t1&t2&_&_&_&Hpost&Hrow1&Hrow2).
      injection Hrow1 as Hr1 _. injection Hrow2 as Hr2 _. rewrite Hr2, <- Hr1.
      destruct o; [by destruct Hpost as (_&_&->&_)| |by destruct Hpost as [-> _]].
      destruct Hid. apply elem_of_with_outcome. by exists r.
    + specialize (Hrest id Hn). by injection Hrest.
  - intros Hlim id r Hr Hstale Hlock. pose proof (wf_run_key _ _ _ (proj1 Hok) _ _ Hr) as Hid. subst id.
    assert (r ∈ runs) as Hin by (eapply select_stale_complete; [lia|done|done|done]).
    destruct (Forall2_zip_ex _ _ _ _ Hall Hin) as (o&Hz&t1&t2&_&_&_&Hpost&Hrow1&_).
    destruct o; [right; left; apply elem_of_with_outcome; by exists r|left; apply elem_of_with_outcome; by exists r|].
    right; right. destruct Hpost as (_&_&Ha). injection Hrow1 as _ Ha1. by rewrite <- Ha1.
Qed.

(** ** Concrete stores *)

Definition run_envelope (id run : string) (deadline : Z) : ExecutionEnvelope :=
  mkExecutionEnvelope id None "root" run None "EnrichmentRole@1" 1 PROFILE_INVESTIGATE []
    (mkDatetime deadline true) "budget" "policy-1" [] "none" "none" "sandbox@1" [].

(** [r0] is running under the execution [env-1], [r1] is queued under [env-2]. *)
Definition sample_run_db (deadline1 deadline2 : Z) : RunDB :=
  run_execution_ops [CreateExecution (run_envelope "env-1" "r0" deadline1) 5;
                     StartExecution "env-1" 30;
                     CreateExecution (run_envelope "env-2" "r1" deadline2) 45] (sample_store, ∅).

Lemma sample_run_db_ok d1 d2 : run_db_ok tc_id context_id (sample_run_db d1 d2).
Proof.
  destruct (run_execution_ops_step [CreateExecution (run_envelope "env-1" "r0" d1) 5;
    StartExecution "env-1" 30; CreateExecution (run_envelope "env-2" "r1" d2) 45] (sample_store, ∅))
    as (H1&H2&_); [done|]. split; [|exact H2]. unfold sample_run_db. rewrite H1. exact sample_store_wf.
Qed.

Lemma expire_stale_spec_witness :
  let db := sample_run_db 1000 1000 in
  ∃ db', expire_stale_running_tasks (λ id, "x:" +:+ id) 400000000 300 "events" (λ _, false) 10 db
      = (Ok ["r0"%string], db') ∧
    ∃ r', task_runs db'.1 !! "r0"%string = Some r' ∧ status r' = TIMED_OUT.
Proof.
  intros db.
  destruct (expire_stale_running_tasks (λ id, "x:" +:+ id) 400000000 300 "events" (λ _, false) 10 db)
    as [r db'] eqn:Hrun.
  assert (r = Ok ["r0"%string]) as -> by (pose proof (f_equal fst Hrun) as H; vm_compute in H; symmetry; exact H).
  exists db'. split; [reflexivity|].
  destruct (expire_stale_spec tc_id context_id _ _ _ _ _ _ _ _ _ (sample_run_db_ok 1000 1000) Hrun)
    as (_&Hclosed&_).
  destruct (Hclosed "r0"%string (list_elem_of_here _ _)) as (r0&_&_&_&_&Hr'&_). exact Hr'.
Defined.

Lemma recover_queued_spec_witness :
  let db := sample_run_db 1000 1000 in
  ∃ db', recover_queued_role_tasks (λ id, "x:" +:+ id) 400000000 300 "events" (λ _, false) 10 db
      = (Ok ([], ["r1"%string]), db') ∧
    ∃ r', task_runs db'.1 !! "r1"%string = Some r' ∧ status r' = TIMED_OUT.
Proof.
  intros db.
  destruct (recover_queued_role_tasks (λ id, "x:" +:+ id) 400000000 300 "events" (λ _, false) 10 db)
    as [r db'] eqn:Hrun.
  assert (r = Ok ([], ["r1"%string])) as ->
    by (pose proof (f_equal fst Hrun) as H; vm_compute in H; symmetry; exact H).
  exists db'. split; [reflexivity|].
  destruct (recover_queued_spec tc_id context_id _ _ _ _ _ _ _ _ _ _ (sample_run_db_ok 1000 1000) Hrun)
    as (_&Hclosed&_).
  destruct (Hclosed "r1"%string (list_elem_of_here _ _)) as (r0&st&r'&Hr0&_&_&Hfate&Hr'&Hst').
  exists r'. split; [exact Hr'|]. rewrite Hst'.
  assert (Some (fate 400000000 r0 db) = Some (Some TIMED_OUT)) as Hf.
  { transitivity ((λ r, fate 400000000 r db) <$> task_runs db.1 !! "r1"%string);
      [exact (f_equal (fmap (λ r, fate 400000000 r db)) (eq_sym Hr0))|vm_compute; reflexivity]. }
  exact (f_equal (λ o, default BLOCKED (default None o)) (eq_trans (f_equal Some (eq_sym Hfate)) Hf)).
Defined.

(** A queued run whose envelope reference names the execution of another run: recovery blocks the run
    and also ends that other run's execution, while the other run keeps running. *)
Definition crossed_db : RunDB :=
  run_execution_ops [CreateExecution (run_envelope "env-1" "r0" 1000) 5; StartExecution "env-1" 30;
                     CreateExecution (run_envelope "env-2" "r0" 900000000) 45; StartExecution "env-2" 50]
    (sample_store, ∅).

Example recovery_blocks_foreign_execution :
  let db' := (recover_queued_role_tasks (λ id, "x:" +:+ id) 400000000 300 "events" (λ _, false) 10 crossed_db).2 in
  (status <$> task_runs db'.1 !! "r1"%string, xr_status <$> db'.2 !! "env-2"%string,
   status <$> task_runs db'.1 !! "r0"%string) = (Some BLOCKED, Some EX_BLOCKED, Some RUNNING).
Proof. by vm_compute. Qed.
