(* ===== verification/Monitoring.v ===== *)
(** * Monitoring: packages/monitoring (scheduler/service.py, run_service.py, acquisition/service.py, storage)

    The acquisition life cycle: the scheduler queues a run for every due source, a worker starts it and
    completes or fails it, a periodic job requeues runs that were lost, and query-time acquisition
    writes runs of its own.  The store [MonitoringDB] holds the sources, their scheduling state, the runs
    and the shared outbox; run and event ids are functions [fresh_run] and [fresh_event] of the key they
    are made for; a row another session holds is skipped ([locked]). *)

From S2P Require Import Prelude.
From S2P Require Import Effects.
From S2P Require Import TaskStore.
From S2P Require Import Outbox.
From S2P Require Import PyNumbers.

(** ** Tables *)

Abbreviation dict := (list (string * json)).

(** sources/storage/models.py *)
Record SourceModel := mkSourceModel {
  sm_source_id : string;
  sm_adapter_type : string;
  sm_source_class : string;
  sm_authority_scope : list string;
  sm_source_role : string;
  sm_source_family : string;
  sm_upstream_source : option string;
  sm_access_mode : string;
  sm_update_semantics : string;
  sm_discovery_method : dict;
  sm_time_semantics : dict;
  sm_identity_semantics : dict;
  sm_auth_ref : option string;
  sm_rate_limit_policy : dict;
  sm_access_rights : dict;
  sm_retention_mode : string;
  sm_schedule_policy : dict;
  sm_schema_version : string;
  sm_definition_hash : string;
  sm_managed_by : string;
  sm_enabled : bool;
  sm_updated_at : Z
}.

(** monitoring/storage/models.py *)
Record SourceStateModel := mkSourceStateModel {
  ss_source_id : string;
  ss_cursor : dict;
  ss_last_attempt_at : option Z;
  ss_last_success_at : option Z;
  ss_last_change_at : option Z;
  ss_next_due_at : option Z;
  ss_consecutive_failures : Z;
  ss_backoff_until : option Z;
  ss_rate_limit_state : dict
}.

Record AcquisitionRunModel := mkAcquisitionRunModel {
  ar_run_id : string;
  ar_source_id : string;
  ar_trigger : string;
  ar_parent_run_id : option string;
  ar_query_spec : dict;
  ar_status : string;
  ar_cursor_in : dict;
  ar_cursor_out : dict;
  ar_attempt : Z;
  ar_created_at : Z;
  ar_started_at : option Z;
  ar_finished_at : option Z;
  ar_error_code : option string;
  ar_error_detail : option string
}.

Record MonitoringDB := mkMonitoringDB {
  sources : gmap string SourceModel;
  source_states : gmap string SourceStateModel;
  acquisition_runs : gmap string AcquisitionRunModel;
  outbox_events : list OutboxEventModel
}.

Definition with_states (f : gmap string SourceStateModel → gmap string SourceStateModel) (db : MonitoringDB)
  : MonitoringDB :=
  mkMonitoringDB (sources db) (f (source_states db)) (acquisition_runs db) (outbox_events db).
Definition with_runs (f : gmap string AcquisitionRunModel → gmap string AcquisitionRunModel)
  (db : MonitoringDB) : MonitoringDB :=
  mkMonitoringDB (sources db) (source_states db) (f (acquisition_runs db)) (outbox_events db).
Definition with_outbox (f : list OutboxEventModel → list OutboxEventModel) (db : MonitoringDB)
  : MonitoringDB :=
  mkMonitoringDB (sources db) (source_states db) (acquisition_runs db) (f (outbox_events db)).

(** [session.add(AcquisitionRunModel(...))]: the primary key must be new. *)
Definition add_run (r : AcquisitionRunModel) : prog MonitoringDB unit :=
  db ← get_store;
  match acquisition_runs db !! ar_run_id r with
  | Some _ => raise (IntegrityError (ar_run_id r))
  | None => modify (with_runs (insert (ar_run_id r) r))
  end.

(** The event that asks a worker to run [run_id], as both the scheduler and the recovery write it. *)
Definition collection_requested (event_id run_id : string) (instant : Z) : OutboxEventModel :=
  mkOutboxEventModel event_id "collection.requested" run_id [("run_id"%string, JStr run_id)] PENDING 0
    instant None None.

Definition add_event (e : OutboxEventModel) : prog MonitoringDB unit :=
  db ← get_store;
  if bool_decide (ob_event_id e ∈ ob_event_id <$> outbox_events db)
  then raise (IntegrityError (ob_event_id e))
  else modify (with_outbox (λ l, l ++ [e])).

(** ** scheduler/service.py *)

Definition ACTIVE_RUN_STATUSES : list string := ["queued"%string; "running"%string].
Definition run_is_active (r : AcquisitionRunModel) : bool := bool_decide (ar_status r ∈ ACTIVE_RUN_STATUSES).

Definition schedule_interval_seconds (policy : dict) : result Z :=
  let value := default (JInt 900) (dict_get "interval_seconds" policy) in
  match int_of_number value with
  | None => Err (ValueError "schedule_policy.interval_seconds must be numeric")
  | Some parsed =>
      interval ← parsed;
      if interval <=? 0 then Err (ValueError "schedule_policy.interval_seconds must be positive")
      else Ok interval
  end.

(** A source beside its state, in the order of [order_by(next_due_at, source_id)]. *)
Definition source_pair : Type := SourceModel * SourceStateModel.
Definition due_at (p : source_pair) : Z := default 0 (ss_next_due_at p.2).
Definition due_le (p1 p2 : source_pair) : Prop :=
  due_at p1 < due_at p2 ∨ due_at p1 = due_at p2 ∧ String.le (sm_source_id p1.1) (sm_source_id p2.1).
#[export] Instance due_le_dec p1 p2 : Decision (due_le p1 p2).
Proof. unfold due_le. apply _. Defined.

(** The [join] of the two tables. *)
Definition source_rows (db : MonitoringDB) : list source_pair :=
  omap (λ '(id, st), (λ src, (src, st)) <$> sources db !! id) (map_to_list (source_states db)).

Definition has_active_run (id : string) (db : MonitoringDB) : bool :=
  existsb (λ r, bool_decide (ar_source_id r = id) && run_is_active r) (map_to_list (acquisition_runs db)).*2.

Definition is_due (instant : Z) (source_ids : option (list string)) (db : MonitoringDB) (p : source_pair)
  : bool :=
  sm_enabled p.1
  && match ss_next_due_at p.2 with Some t => t <=? instant | None => false end
  && match ss_backoff_until p.2 with Some t => t <=? instant | None => true end
  && negb (has_active_run (ss_source_id p.2) db)
  && match source_ids with Some ids => bool_decide (sm_source_id p.1 ∈ ids) | None => true end.

Definition select_due (instant : Z) (limit : nat) (locked : string → bool)
  (source_ids : option (list string)) (db : MonitoringDB) : list source_pair :=
  take limit (merge_sort due_le (filter (λ p,
    is_due instant source_ids db p && negb (locked (ss_source_id p.2))) (source_rows db))).

Definition set_next_due (t : option Z) (st : SourceStateModel) : SourceStateModel :=
  mkSourceStateModel (ss_source_id st) (ss_cursor st) (ss_last_attempt_at st) (ss_last_success_at st)
    (ss_last_change_at st) t (ss_consecutive_failures st) (ss_backoff_until st) (ss_rate_limit_state st).

Definition queued_run (run_id : string) (p : source_pair) (instant : Z) : AcquisitionRunModel :=
  mkAcquisitionRunModel run_id (sm_source_id p.1) "scheduled" None [] "queued" (ss_cursor p.2) [] 0
    instant None None None None.

Section schedule.
Context (fresh_run fresh_event : string → string).

(** The body of the loop of [schedule_due_sources]. *)
Definition schedule_one (instant : Z) (p : source_pair) : prog MonitoringDB string :=
  interval_seconds ← lift (schedule_interval_seconds (sm_schedule_policy p.1));
  let run_id := fresh_run (sm_source_id p.1) in
  _ ← add_run (queued_run run_id p instant);
  _ ← add_event (collection_requested (fresh_event (sm_source_id p.1)) run_id instant);
  next_due_at ← lift (add_seconds instant interval_seconds);
  _ ← modify (with_states (alter (set_next_due (Some next_due_at)) (ss_source_id p.2)));
  mret run_id.

Definition schedule_due_sources (instant : Z) (limit : nat) (locked : string → bool)
  (source_ids : option (list string)) : prog MonitoringDB (list string) :=
  db ← get_store;
  for_each (select_due instant limit locked source_ids db) (schedule_one instant).
End schedule.

(** ** storage/service.py *)

Definition new_state (source_id : string) (next_due_at : option Z) : SourceStateModel :=
  mkSourceStateModel source_id [] None None None next_due_at 0 None [].

Definition ensure_source_state (instant : Z) (source_id : string) : prog MonitoringDB unit :=
  db ← get_store;
  source ← require (sources db !! source_id) (ValueError "source definition missing");
  let schedule_enabled := bool_decide (dict_get "enabled" (sm_schedule_policy source) ≠ Some (JBool false)) in
  match source_states db !! source_id with
  | None => modify (with_states (insert source_id
              (new_state source_id (if schedule_enabled then Some instant else None))))
  | Some st =>
      if negb schedule_enabled then modify (with_states (insert source_id (set_next_due None st)))
      else match ss_next_due_at st with
           | None => modify (with_states (insert source_id (set_next_due (Some instant) st)))
           | Some _ => mret tt
           end
  end.

Definition ensure_source_states (source_ids : list string) (instant : Z) : prog MonitoringDB unit :=
  _ ← for_each source_ids (ensure_source_state instant); mret tt.

(** ** sources/contracts.py and the mappers *)

Inductive SourceRole := SIGNAL | TELEMETRY | PRIMARY | FORENSIC | AUTHORITY | REFERENCE.
Inductive RetentionMode := HOT_WINDOW | INCIDENT_SIGNAL | SELECTIVE_INDEX | DURABLE_MANAGED | TIME_BOUNDED.
Inductive AcquisitionTrigger := SCHEDULED | ON_DEMAND | INVESTIGATION | REPLAY | PROMOTION.

(** The enum of a value, [None] when no member has it. *)
Definition source_role_of (s : string) : option SourceRole :=
  dict_get s [("signal"%string, SIGNAL); ("telemetry"%string, TELEMETRY); ("primary"%string, PRIMARY);
    ("forensic"%string, FORENSIC); ("authority"%string, AUTHORITY); ("reference"%string, REFERENCE)].
Definition retention_mode_of (s : string) : option RetentionMode :=
  dict_get s [("hot_window"%string, HOT_WINDOW); ("incident_signal"%string, INCIDENT_SIGNAL);
    ("selective_index"%string, SELECTIVE_INDEX); ("durable_managed"%string, DURABLE_MANAGED);
    ("time_bounded"%string, TIME_BOUNDED)].
Definition acquisition_trigger_of (s : string) : option AcquisitionTrigger :=
  dict_get s [("scheduled"%string, SCHEDULED); ("on_demand"%string, ON_DEMAND);
    ("investigation"%string, INVESTIGATION); ("replay"%string, REPLAY); ("promotion"%string, PROMOTION)].
Definition AcquisitionTrigger_value (t : AcquisitionTrigger) : string :=
  match t with
  | SCHEDULED => "scheduled" | ON_DEMAND => "on_demand" | INVESTIGATION => "investigation"
  | REPLAY => "replay" | PROMOTION => "promotion"
  end.

Record SourceDefinition := mkSourceDefinition {
  sd_source_id : string;
  sd_adapter_type : string;
  sd_source_class : string;
  sd_authority_scope : list string;
  sd_source_role : SourceRole;
  sd_source_family : string;
  sd_upstream_source : option string;
  sd_access_mode : string;
  sd_update_semantics : string;
  sd_discovery_method : dict;
  sd_time_semantics : dict;
  sd_identity_semantics : dict;
  sd_auth_ref : option string;
  sd_rate_limit_policy : dict;
  sd_access_rights : dict;
  sd_retention_mode : RetentionMode;
  sd_schedule_policy : dict;
  sd_schema_version : string
}.

Definition source_definition_from_model (model : SourceModel) : result SourceDefinition :=
  match source_role_of (sm_source_role model), retention_mode_of (sm_retention_mode model) with
  | Some role, Some mode =>
      Ok (mkSourceDefinition (sm_source_id model) (sm_adapter_type model) (sm_source_class model)
            (sm_authority_scope model) role (sm_source_family model) (sm_upstream_source model)
            (sm_access_mode model) (sm_update_semantics model) (sm_discovery_method model)
            (sm_time_semantics model) (sm_identity_semantics model) (sm_auth_ref model)
            (sm_rate_limit_policy model) (sm_access_rights model) mode (sm_schedule_policy model)
            (sm_schema_version model))
  | _, _ => Err (ValueError "Input should be a member of the enumeration")
  end.

Record SourceState := mkSourceState {
  sc_cursor : dict;
  sc_last_attempt_at : option Z;
  sc_last_success_at : option Z;
  sc_last_change_at : option Z;
  sc_next_due_at : option Z;
  sc_consecutive_failures : Z;
  sc_backoff_until : option Z;
  sc_rate_limit_state : dict
}.

Definition source_state_from_model (model : SourceStateModel) : SourceState :=
  mkSourceState (ss_cursor model) (ss_last_attempt_at model) (ss_last_success_at model)
    (ss_last_change_at model) (ss_next_due_at model) (ss_consecutive_failures model)
    (ss_backoff_until model) (ss_rate_limit_state model).

(** ** run_service.py *)

Definition TERMINAL_STATUSES : list string :=
  ["success"; "no_change"; "rate_limited"; "auth_failed"; "provider_blocked"; "schema_changed";
   "fetch_failed"; "internal_error"; "dependency_unavailable"]%string.
Definition run_is_terminal (r : AcquisitionRunModel) : bool := bool_decide (ar_status r ∈ TERMINAL_STATUSES).

Record AcquisitionContext := mkAcquisitionContext {
  ac_run_id : string;
  ac_trigger : AcquisitionTrigger;
  ac_source : SourceDefinition;
  ac_state : SourceState
}.

Record AcquisitionFailure := mkAcquisitionFailure {
  af_status : string;
  af_error_code : string;
  af_error_detail : string;
  af_backoff_seconds : Z
}.

Definition put_run (r : AcquisitionRunModel) : prog MonitoringDB unit :=
  modify (with_runs (insert (ar_run_id r) r)).
Definition put_state (st : SourceStateModel) : prog MonitoringDB unit :=
  modify (with_states (insert (ss_source_id st) st)).

Definition set_disabled (instant : Z) (r : AcquisitionRunModel) : AcquisitionRunModel :=
  mkAcquisitionRunModel (ar_run_id r) (ar_source_id r) (ar_trigger r) (ar_parent_run_id r)
    (ar_query_spec r) "internal_error" (ar_cursor_in r) (ar_cursor_out r) (ar_attempt r) (ar_created_at r)
    (ar_started_at r) (Some instant) (Some "source_disabled"%string)
    (Some "source was disabled before the queued run started"%string).
Definition set_running (instant : Z) (r : AcquisitionRunModel) : AcquisitionRunModel :=
  mkAcquisitionRunModel (ar_run_id r) (ar_source_id r) (ar_trigger r) (ar_parent_run_id r)
    (ar_query_spec r) "running" (ar_cursor_in r) (ar_cursor_out r) (ar_attempt r + 1) (ar_created_at r)
    (Some instant) (ar_finished_at r) None None.
Definition set_last_attempt (instant : Z) (st : SourceStateModel) : SourceStateModel :=
  mkSourceStateModel (ss_source_id st) (ss_cursor st) (Some instant) (ss_last_success_at st)
    (ss_last_change_at st) (ss_next_due_at st) (ss_consecutive_failures st) (ss_backoff_until st)
    (ss_rate_limit_state st).
Definition with_cursor (cursor : dict) (s : SourceState) : SourceState :=
  mkSourceState cursor (sc_last_attempt_at s) (sc_last_success_at s) (sc_last_change_at s)
    (sc_next_due_at s) (sc_consecutive_failures s) (sc_backoff_until s) (sc_rate_limit_state s).

Definition start_acquisition_run (run_id : string) (instant : Z)
  : prog MonitoringDB (option AcquisitionContext) :=
  db ← get_store;
  run ← require (acquisition_runs db !! run_id) (LookupError "unknown acquisition run" run_id);
  if run_is_terminal run || bool_decide (ar_status run = "running"%string) then mret None
  else
    _ ← check (bool_decide (ar_status run ≠ "queued"%string)) (RuntimeError "acquisition run has invalid status");
    match sources db !! ar_source_id run, source_states db !! ar_source_id run with
    | Some source, Some state =>
        if negb (sm_enabled source) then _ ← put_run (set_disabled instant run); mret None
        else
          _ ← put_run (set_running instant run);
          _ ← put_state (set_last_attempt instant state);
          let state_contract :=
            with_cursor (ar_cursor_in run) (source_state_from_model (set_last_attempt instant state)) in
          trigger ← require (acquisition_trigger_of (ar_trigger run)) (ValueError "not a valid AcquisitionTrigger");
          definition ← lift (source_definition_from_model source);
          mret (Some (mkAcquisitionContext (ar_run_id run) trigger definition state_contract))
    | _, _ => raise (RuntimeError "source runtime state is incomplete")
    end.

Definition locked_run_and_state (run_id : string) : prog MonitoringDB (AcquisitionRunModel * SourceStateModel) :=
  db ← get_store;
  run ← require (acquisition_runs db !! run_id) (LookupError "unknown acquisition run" run_id);
  state ← require (source_states db !! ar_source_id run) (RuntimeError "source state missing");
  mret (run, state).

(** A number that is usable: [None] for another type or a text that is not a literal; an infinite float
    still raises. *)
Definition nonnegative_int (value : option json) : result (option Z) :=
  match value ≫= int_of_number with
  | None | Some (Err (ValueError _)) => Ok None
  | Some (Err e) => Err e
  | Some (Ok parsed) => Ok (if 0 <=? parsed then Some parsed else None)
  end.

Definition positive_int (value : option json) : result (option Z) :=
  parsed ← nonnegative_int value;
  mret (match parsed with Some n => if 0 <? n then Some n else None | None => None end).

Definition backfill_catchup_seconds (policy : dict) : result (option Z) :=
  match dict_get "catchup_interval_seconds" policy ≫= int_of_number with
  | None | Some (Err (ValueError _)) => Ok None
  | Some (Err e) => Err e
  | Some (Ok interval) => Ok (if 0 <? interval then Some interval else None)
  end.

(** [x or default] for an optional number: zero counts as missing. *)
Definition int_or (x : option Z) (d : Z) : Z :=
  match x with Some n => if n =? 0 then d else n | None => d end.

Definition adaptive_interval (remaining reset_epoch request_cost reserve min_interval reset_safety now : Z) : Z :=
  let seconds_to_reset := Z.max 0 (reset_epoch - now) in
  let available := Z.max 0 (remaining - reserve) in
  if available <? request_cost then Z.max min_interval (seconds_to_reset + reset_safety)
  else
    let runs_before_reset := Z.max 1 (available / request_cost) in
    Z.max min_interval
      (if seconds_to_reset =? 0 then min_interval else ceil_true_div seconds_to_reset runs_before_reset).

Definition adaptive_rate_limit_due_at (policy rate_state : dict) (instant : Z) : result (option Z) :=
  if bool_decide (dict_get "adaptive_schedule" policy ≠ Some (JBool true)) then Ok None
  else
    remaining ← nonnegative_int (dict_get "remaining" rate_state);
    reset_epoch ← nonnegative_int (dict_get "reset_epoch" rate_state);
    request_cost ← positive_int (dict_get "requests_made" rate_state);
    match remaining, reset_epoch, request_cost with
    | Some remaining, Some reset_epoch, Some request_cost =>
        reserve ← nonnegative_int (dict_get "reserve_requests" policy);
        min_interval ← positive_int (dict_get "min_interval_seconds" policy);
        reset_safety ← nonnegative_int (dict_get "reset_safety_seconds" policy);
        due ← add_seconds instant
                (adaptive_interval remaining reset_epoch request_cost (int_or reserve 0)
                   (int_or min_interval 60) (int_or reset_safety 5) (timestamp_int instant));
        Ok (Some due)
    | _, _, _ => Ok None
    end.

Definition set_completed (instant : Z) (next_cursor : dict) (accepted_count : Z) (r : AcquisitionRunModel)
  : AcquisitionRunModel :=
  mkAcquisitionRunModel (ar_run_id r) (ar_source_id r) (ar_trigger r) (ar_parent_run_id r)
    (ar_query_spec r) (if accepted_count =? 0 then "no_change" else "success") (ar_cursor_in r) next_cursor
    (ar_attempt r) (ar_created_at r) (ar_started_at r) (Some instant) (ar_error_code r) (ar_error_detail r).
Definition set_succeeded (instant : Z) (next_cursor : dict) (rate_limit_state : option dict) (changed : bool)
  (st : SourceStateModel) : SourceStateModel :=
  mkSourceStateModel (ss_source_id st) next_cursor (ss_last_attempt_at st) (Some instant)
    (if changed then Some instant else ss_last_change_at st) (ss_next_due_at st) 0 None
    (default (ss_rate_limit_state st) rate_limit_state).

(** The due time after a completed collection, from the quota and the catch-up cadence. *)
Definition completed_due_at (source : SourceModel) (next_cursor : dict) (rate_limit_state : option dict)
  (instant : Z) (current_due_at : option Z) : result (option Z) :=
  adaptive_due_at ← adaptive_rate_limit_due_at (sm_rate_limit_policy source) (default [] rate_limit_state) instant;
  let due_at := match adaptive_due_at with Some t => Some t | None => current_due_at end in
  if bool_decide (dict_get "backfill_pending" next_cursor = Some (JBool true)) then
    catchup_seconds ← backfill_catchup_seconds (sm_schedule_policy source);
    match catchup_seconds with
    | None => Ok due_at
    | Some seconds =>
        catchup_due_at ← add_seconds instant seconds;
        Ok (match adaptive_due_at, due_at with
            | Some t, _ => Some (Z.max t catchup_due_at)
            | None, Some t => Some (if catchup_due_at <? t then catchup_due_at else t)
            | None, None => Some catchup_due_at
            end)
    end
  else Ok due_at.

Definition complete_collection_run (run_id : string) (next_cursor : dict) (rate_limit_state : option dict)
  (accepted_count : Z) (changed : bool) (instant : Z) : prog MonitoringDB unit :=
  rs ← locked_run_and_state run_id;
  let run := rs.1 in let state := rs.2 in
  if run_is_terminal run then mret tt
  else
    _ ← check (bool_decide (ar_status run ≠ "running"%string)) (RuntimeError "cannot complete acquisition run");
    _ ← put_run (set_completed instant next_cursor accepted_count run);
    _ ← put_state (set_succeeded instant next_cursor rate_limit_state changed state);
    db ← get_store;
    match sources db !! ar_source_id run with
    | None => mret tt
    | Some source =>
        due_at ← lift (completed_due_at source next_cursor rate_limit_state instant (ss_next_due_at state));
        put_state (set_next_due due_at (set_succeeded instant next_cursor rate_limit_state changed state))
    end.

(** hot_window.py and hot_cache/contracts.py *)
Record HotNormalizationResult := mkHotNormalizationResult {
  hn_source_id : string;
  hn_external_object_id : string;
  hn_external_revision : option string;
  hn_available_at : Z;
  hn_changed_fields : list string;
  hn_current_projection_ref : string;
  hn_priority_signals : list string
}.
Record HotWindowCollectionResult := mkHotWindowCollectionResult {
  hw_source_id : string;
  hw_accepted : list HotNormalizationResult;
  hw_next_cursor : dict;
  hw_rate_limit_state : dict
}.

Definition complete_hot_window_run (run_id : string) (result : HotWindowCollectionResult) (instant : Z)
  : prog MonitoringDB unit :=
  complete_collection_run run_id (hw_next_cursor result) (Some (hw_rate_limit_state result))
    (Z.of_nat (length (hw_accepted result)))
    (existsb (λ item, bool_decide (hn_changed_fields item ≠ [])) (hw_accepted result)) instant.

Definition set_failed (instant : Z) (failure : AcquisitionFailure) (r : AcquisitionRunModel)
  : AcquisitionRunModel :=
  mkAcquisitionRunModel (ar_run_id r) (ar_source_id r) (ar_trigger r) (ar_parent_run_id r)
    (ar_query_spec r) (af_status failure) (ar_cursor_in r) (ar_cursor_out r) (ar_attempt r) (ar_created_at r)
    (ar_started_at r) (Some instant) (Some (af_error_code failure))
    (Some (str_take 4000 (af_error_detail failure))).
Definition set_backoff (backoff_until : Z) (st : SourceStateModel) : SourceStateModel :=
  mkSourceStateModel (ss_source_id st) (ss_cursor st) (ss_last_attempt_at st) (ss_last_success_at st)
    (ss_last_change_at st)
    (Some (match ss_next_due_at st with Some t => Z.max t backoff_until | None => backoff_until end))
    (ss_consecutive_failures st + 1) (Some backoff_until) (ss_rate_limit_state st).

Definition fail_acquisition_run (run_id : string) (failure : AcquisitionFailure) (instant : Z)
  : prog MonitoringDB unit :=
  rs ← locked_run_and_state run_id;
  let run := rs.1 in let state := rs.2 in
  if run_is_terminal run then mret tt
  else
    _ ← check (bool_decide (ar_status run ≠ "running"%string)) (RuntimeError "cannot fail acquisition run");
    backoff_until ← lift (add_seconds instant (af_backoff_seconds failure));
    _ ← put_state (set_backoff backoff_until state);
    put_run (set_failed instant failure run).

(** sources/errors.py and the artifact store's error; every exception carries its [str(exc)]. *)
Inductive collection_error :=
| ArtifactStoreUnavailable (text : string)
| SourceRateLimited (text : string) (retry_after_seconds : option json)
| SourceAuthFailed (text : string)
| SourceAccessBlocked (text : string)
| SourceSchemaChanged (text : string)
| SourceFetchFailed (text : string)
| OtherError (cls text repr : string).

(** [int(max(0.0, retry_after))] for an int or a float. *)
Definition retry_seconds (v : json) : result (option Z) :=
  match v with
  | JInt n => Ok (Some (Z.max 0 n))
  | JFloat (Finite m e) => if 0 <? m then n ← int_of_float (Finite m e); Ok (Some n) else Ok (Some 0)
  | JFloat (Infinite negative) => if negative then Ok (Some 0) else n ← int_of_float (Infinite negative); Ok (Some n)
  | JFloat NaN => Ok (Some 0)
  | _ => Ok None
  end.

Definition classify_source_failure (exc : collection_error) (consecutive_failures : Z)
  : result AcquisitionFailure :=
  match exc with
  | ArtifactStoreUnavailable text =>
      Ok (mkAcquisitionFailure "dependency_unavailable" "artifact_store_unavailable" text 60)
  | SourceRateLimited text retry_after =>
      seconds ← match retry_after with Some v => retry_seconds v | None => Ok None end;
      Ok (mkAcquisitionFailure "rate_limited" "source_rate_limited" text
            (match seconds with Some n => Z.max (15 * 60) n | None => 15 * 60 end))
  | SourceAuthFailed text =>
      Ok (mkAcquisitionFailure "auth_failed" "source_auth_failed" text (6 * 60 * 60))
  | SourceAccessBlocked text =>
      Ok (mkAcquisitionFailure "provider_blocked" "source_access_blocked" text (24 * 60 * 60))
  | SourceSchemaChanged text =>
      Ok (mkAcquisitionFailure "schema_changed" "source_schema_changed" text (6 * 60 * 60))
  | SourceFetchFailed text =>
      let exponent := Z.min (Z.max consecutive_failures 0) 4 in
      Ok (mkAcquisitionFailure "fetch_failed" "source_fetch_failed" text
            (Z.min (5 * 60 * 2 ^ exponent) (60 * 60)))
  | OtherError cls text repr =>
      Ok (mkAcquisitionFailure "internal_error" cls (if bool_decide (text = ""%string) then repr else text)
            (15 * 60))
  end.

(** The jobs of a run that lost its worker. *)
Definition has_live_delivery (threshold : Z) (run_id : string) (db : MonitoringDB) : bool :=
  existsb (λ e, bool_decide (aggregate_id e = run_id) && bool_decide (topic e = "collection.requested"%string)
    && (bool_decide (ob_status e = PENDING) || (ob_available_at e >? threshold)
        || match ob_delivered_at e with Some t => t >? threshold | None => false end)) (outbox_events db).

(** [coalesce(query_spec["execution_driver"].as_string(), "worker") != "operator"] *)
Definition worker_driven (r : AcquisitionRunModel) : bool :=
  bool_decide (dict_get "execution_driver" (ar_query_spec r) ≠ Some (JStr "operator")).

Definition is_stale_run (threshold : Z) (db : MonitoringDB) (r : AcquisitionRunModel) : bool :=
  worker_driven r
  && (bool_decide (ar_status r = "running"%string)
      && match ar_started_at r with Some t => t <=? threshold | None => false end
      || bool_decide (ar_status r = "queued"%string) && bool_decide (ar_trigger r = "scheduled"%string)
         && (ar_created_at r <=? threshold) && negb (has_live_delivery threshold (ar_run_id r) db)).

(** [order_by(coalesce(started_at, created_at))] *)
Definition stale_le (r1 r2 : AcquisitionRunModel) : Prop :=
  default (ar_created_at r1) (ar_started_at r1) ≤ default (ar_created_at r2) (ar_started_at r2).
#[export] Instance stale_le_dec r1 r2 : Decision (stale_le r1 r2).
Proof. unfold stale_le. apply _. Defined.

Definition select_stale_runs (threshold : Z) (limit : nat) (locked : string → bool)
  (run_ids : option (list string)) (db : MonitoringDB) : list AcquisitionRunModel :=
  take limit (merge_sort stale_le (filter (λ r, is_stale_run threshold db r && negb (locked (ar_run_id r))
    && match run_ids with Some ids => bool_decide (ar_run_id r ∈ ids) | None => true end)
    (map_to_list (acquisition_runs db)).*2)).

Definition set_requeued (r : AcquisitionRunModel) : AcquisitionRunModel :=
  mkAcquisitionRunModel (ar_run_id r) (ar_source_id r) (ar_trigger r) (ar_parent_run_id r)
    (ar_query_spec r) "queued" (ar_cursor_in r) (ar_cursor_out r) (ar_attempt r) (ar_created_at r)
    None (ar_finished_at r) (ar_error_code r) (ar_error_detail r).

(** The body of the loop of [recover_stale_acquisition_runs]. *)
Definition requeue_run (fresh_event : string → string) (instant : Z) (run : AcquisitionRunModel)
  : prog MonitoringDB string :=
  _ ← put_run (set_requeued run);
  _ ← add_event (collection_requested (fresh_event (ar_run_id run)) (ar_run_id run) instant);
  mret (ar_run_id run).

Definition recover_stale_acquisition_runs (fresh_event : string → string) (instant timeout_seconds : Z)
  (limit : nat) (locked : string → bool) (run_ids : option (list string)) : prog MonitoringDB (list string) :=
  threshold ← lift (add_seconds instant (- timeout_seconds));
  db ← get_store;
  for_each (select_stale_runs threshold limit locked run_ids db) (requeue_run fresh_event instant).

(** ** acquisition/service.py

    [AcquisitionService.query] writes its run before and after the call of the adapter, each time in a
    transaction of its own: the two ends are separate operations, anything may happen between them. *)

Definition begin_query (run_id : string) (source : SourceDefinition) (spec : dict)
  (parent_run_id : option string) (trigger : AcquisitionTrigger) (started_at : Z) : prog MonitoringDB unit :=
  db ← get_store;
  _ ← check (bool_decide (sources db !! sd_source_id source = None)) (IntegrityError (sd_source_id source));
  add_run (mkAcquisitionRunModel run_id (sd_source_id source) (AcquisitionTrigger_value trigger) parent_run_id
    [("filters"%string, JObj spec)] "running" [] [] 1 started_at (Some started_at) None None None).

Definition set_query_failed (now : Z) (cls text : string) (r : AcquisitionRunModel) : AcquisitionRunModel :=
  mkAcquisitionRunModel (ar_run_id r) (ar_source_id r) (ar_trigger r) (ar_parent_run_id r)
    (ar_query_spec r) "failed" (ar_cursor_in r) (ar_cursor_out r) (ar_attempt r) (ar_created_at r)
    (ar_started_at r) (Some now) (Some cls) (Some (str_take 4000 text)).
Definition set_query_done (now : Z) (results : Z) (r : AcquisitionRunModel) : AcquisitionRunModel :=
  mkAcquisitionRunModel (ar_run_id r) (ar_source_id r) (ar_trigger r) (ar_parent_run_id r)
    (ar_query_spec r) (if results =? 0 then "no_change" else "success") (ar_cursor_in r)
    [("result_count"%string, JInt results)] (ar_attempt r) (ar_created_at r)
    (ar_started_at r) (Some now) (ar_error_code r) (ar_error_detail r).

Definition end_query (run_id : string) (outcome : Z + string * string) (now : Z) : prog MonitoringDB unit :=
  db ← get_store;
  run ← require (acquisition_runs db !! run_id) (RuntimeError "on-demand acquisition run disappeared");
  put_run (match outcome with
           | inl results => set_query_done now results run
           | inr (cls, text) => set_query_failed now cls text run
           end).

(** ** Integrity *)

(** What no operation of a run ever changes, and how far its attempts go. *)
Record run_extends (r r' : AcquisitionRunModel) : Prop := {
  re_id : ar_run_id r' = ar_run_id r;
  re_source : ar_source_id r' = ar_source_id r;
  re_trigger : ar_trigger r' = ar_trigger r;
  re_parent : ar_parent_run_id r' = ar_parent_run_id r;
  re_query : ar_query_spec r' = ar_query_spec r;
  re_cursor_in : ar_cursor_in r' = ar_cursor_in r;
  re_created : ar_created_at r' = ar_created_at r;
  re_attempt : ar_attempt r ≤ ar_attempt r'
}.
#[export] Instance run_extends_preorder : PreOrder run_extends.
Proof.
  split; [by intros r|]. intros r1 r2 r3 [] []. split; try congruence. lia.
Qed.

Definition is_scheduled (r : AcquisitionRunModel) : bool := bool_decide (ar_trigger r = "scheduled"%string).

(** Every run is queued, running or ended; the times of a row go with its status. *)
Definition run_row_ok (r : AcquisitionRunModel) : Prop :=
  ar_status r = "queued"%string ∧ ar_started_at r = None ∨
  ar_status r = "running"%string ∧ is_Some (ar_started_at r) ∨
  ar_status r ∈ "failed"%string :: TERMINAL_STATUSES ∧ is_Some (ar_finished_at r).

Record monitoring_wf (db : MonitoringDB) : Prop := {
  mw_source : ∀ k s, sources db !! k = Some s → sm_source_id s = k;
  mw_state : ∀ k st, source_states db !! k = Some st → ss_source_id st = k ∧ is_Some (sources db !! k);
  mw_run : ∀ k r, acquisition_runs db !! k = Some r →
    ar_run_id r = k ∧ is_Some (sources db !! ar_source_id r) ∧ run_row_ok r;
  mw_single : ∀ k1 k2 r1 r2, acquisition_runs db !! k1 = Some r1 → acquisition_runs db !! k2 = Some r2 →
    is_scheduled r1 = true → is_scheduled r2 = true → run_is_active r1 = true → run_is_active r2 = true →
    ar_source_id r1 = ar_source_id r2 → k1 = k2
}.

(** A history step: sources and runs stay, runs only extend, and a run that has ended is frozen unless
    it belongs to one of the [queries], whose own caller may still write its end. *)
Record monitoring_step (queries : list string) (db db' : MonitoringDB) : Prop := {
  ms_sources : ∀ k, is_Some (sources db !! k) → is_Some (sources db' !! k);
  ms_runs : ∀ k r, acquisition_runs db !! k = Some r →
    ∃ r', acquisition_runs db' !! k = Some r' ∧ run_extends r r' ∧
      (run_is_terminal r = true → k ∉ queries → r' = r)
}.
#[export] Instance monitoring_step_preorder queries : PreOrder (monitoring_step queries).
Proof.
  split; [intros db; split; [done|intros k r Hr; by exists r]|].
  intros db1 db2 db3 [S1 R1] [S2 R2]. split; [auto|].
  intros k r (r2&H2&E2&F2)%R1. destruct (R2 k r2 H2) as (r3&H3&E3&F3). exists r3.
  split; [done|]. split; [by etrans|]. intros Ht Hk. rewrite (F2 Ht Hk) in *. auto.
Qed.

Definition good_monitoring (queries : list string) (db db' : MonitoringDB) : Prop :=
  monitoring_wf db' ∧ monitoring_step queries db db'.

Lemma good_monitoring_trans queries db1 db2 db3 :
  good_monitoring queries db1 db2 → good_monitoring queries db2 db3 → good_monitoring queries db1 db3.
Proof. intros [_ ?] [? ?]. split; [done|by etrans]. Qed.

Lemma good_monitoring_refl queries db : monitoring_wf db → good_monitoring queries db db.
Proof. by split. Qed.

(** The status of a run after one of its own operations. *)
Record run_next (r r' : AcquisitionRunModel) : Prop := {
  rn_extends : run_extends r r';
  rn_ok : run_row_ok r';
  rn_active : run_is_active r' = true → run_is_active r = true
}.

Lemma put_run_good queries db k r r' :
  monitoring_wf db → acquisition_runs db !! k = Some r → run_next r r' →
  (run_is_terminal r = true → k ∈ queries) →
  good_monitoring queries db (with_runs (insert (ar_run_id r') r') db).
Proof.
  intros [Hs Hst Hr H1] Hk [He Hok Ha] Hterm. destruct (Hr k r Hk) as (Hid&Hsrc&_).
  rewrite (re_id _ _ He), Hid. split.
  - split; simpl; [done|done| |].
    + intros k0 r0. destruct (decide (k0 = k)) as [->|Hne].
      * rewrite lookup_insert_eq. intros [= <-]. by rewrite (re_id _ _ He), (re_source _ _ He).
      * rewrite lookup_insert_ne by done. apply Hr.
    + assert (∀ k0 r0, <[k:=r']> (acquisition_runs db) !! k0 = Some r0 →
        ∃ q, acquisition_runs db !! k0 = Some q ∧ ar_trigger r0 = ar_trigger q ∧
          ar_source_id r0 = ar_source_id q ∧ (run_is_active r0 = true → run_is_active q = true)) as Hback.
      { intros k0 r0. destruct (decide (k0 = k)) as [->|Hne].
        - rewrite lookup_insert_eq. intros [= <-]. exists r. by destruct He.
        - rewrite lookup_insert_ne by done. intros H. by exists r0. }
      intros k1 k2 r1 r2 (q1&Q1&T1&S1&A1)%Hback (q2&Q2&T2&S2&A2)%Hback.
      unfold is_scheduled. rewrite T1, T2, S1, S2. intros ?? ?%A1 ?%A2 ?. by eapply H1.
  - split; [done|]. intros k0 r0 Hr0. simpl. destruct (decide (k0 = k)) as [->|Hne].
    + rewrite lookup_insert_eq. exists r'. assert (r0 = r) as -> by congruence. split; [done|].
      split; [done|]. intros Ht Hq. by destruct (Hq (Hterm Ht)).
    + rewrite lookup_insert_ne by done. exists r0. done.
Qed.

Lemma put_state_good queries db k st :
  monitoring_wf db → ss_source_id st = k → is_Some (sources db !! k) →
  good_monitoring queries db (with_states (insert k st) db).
Proof.
  intros [Hs Hst Hr H1] Hk Hsrc. split.
  - split; simpl; [done| |done|done]. intros k0 st0.
    destruct (decide (k0 = k)) as [->|Hne]; [rewrite lookup_insert_eq; by intros [= <-]|].
    rewrite lookup_insert_ne by done. apply Hst.
  - split; [done|]. intros k0 r0 H0. by exists r0.
Qed.

Lemma outbox_good queries db f : monitoring_wf db → good_monitoring queries db (with_outbox f db).
Proof. intros [Hs Hst Hr H1]. split; [by split|]. split; [done|]. intros k r Hr0. by exists r. Qed.

Lemma has_active_run_false id db k r :
  has_active_run id db = false → acquisition_runs db !! k = Some r → run_is_active r = true →
  ar_source_id r ≠ id.
Proof.
  unfold has_active_run. intros H Hr Ha Heq. apply not_true_iff_false in H. apply H, existsb_exists.
  exists r. split.
  - apply list_elem_of_In, list_elem_of_fmap. exists (k, r). split; [done|]. by apply elem_of_map_to_list.
  - by rewrite Heq, bool_decide_eq_true_2, Ha.
Qed.

(** A new run: its source has no other active scheduled run if it is scheduled itself. *)
Lemma add_run_good queries db r :
  monitoring_wf db → acquisition_runs db !! ar_run_id r = None → is_Some (sources db !! ar_source_id r) →
  run_row_ok r → (is_scheduled r = true → has_active_run (ar_source_id r) db = false) →
  good_monitoring queries db (with_runs (insert (ar_run_id r) r) db).
Proof.
  intros [Hs Hst Hr H1] Hnew Hsrc Hok Hact. split.
  - split; simpl; [done|done| |].
    + intros k0 r0. destruct (decide (k0 = ar_run_id r)) as [->|Hne].
      * rewrite lookup_insert_eq. by intros [= <-].
      * rewrite lookup_insert_ne by done. apply Hr.
    + intros k1 k2 r1 r2.
      destruct (decide (k1 = ar_run_id r)) as [->|N1], (decide (k2 = ar_run_id r)) as [->|N2];
        rewrite ?lookup_insert_eq, ?lookup_insert_ne by done; [done| | |by apply H1].
      * intros [= <-] R2 T1 T2 _ A2 E. by destruct (has_active_run_false _ _ _ _ (Hact T1) R2 A2).
      * intros R1 [= <-] T1 T2 A1 _ E. by destruct (has_active_run_false _ _ _ _ (Hact T2) R1 A1).
  - split; [done|]. intros k0 r0 Hr0. simpl. exists r0. split; [|done].
    rewrite lookup_insert_ne by congruence. done.
Qed.

(** ** Every operation keeps the integrity invariant *)

Lemma run_not_ended r : run_is_terminal r = false → ∀ P : Prop, run_is_terminal r = true → P.
Proof. congruence. Qed.

Lemma run_queued_next instant r :
  ar_status r = "queued"%string → run_next r (set_running instant r) ∧ run_next r (set_disabled instant r).
Proof.
  intros Hq. assert (run_is_active r = true) as Ha by (unfold run_is_active; rewrite Hq; by_decide).
  split; (split; [split; simpl; (done || lia)| |done]).
  - right; left. split; [done|by eexists].
  - right; right. split; [by_decide|by eexists].
Qed.

Lemma run_ended_next r r' :
  run_extends r r' → ar_status r' ∈ "failed"%string :: TERMINAL_STATUSES → is_Some (ar_finished_at r') →
  run_next r r'.
Proof.
  intros He Hst Hf. split; [done|by right; right|]. unfold run_is_active. intros Ha%bool_decide_eq_true.
  exfalso. apply elem_of_cons in Ha. assert (∀ x, x ∈ "failed"%string :: TERMINAL_STATUSES → x ∉ ACTIVE_RUN_STATUSES) as H.
  { apply Forall_forall. by_decide. }
  apply (H _ Hst). by apply elem_of_cons.
Qed.

Lemma run_requeued_next r : run_is_active r = true → run_next r (set_requeued r).
Proof. intros Ha. split; [by split|by left|done]. Qed.

Lemma start_good queries run_id instant db c db' :
  monitoring_wf db → start_acquisition_run run_id instant db = (Ok c, db') → good_monitoring queries db db'.
Proof.
  intros Hwf H. unfold start_acquisition_run in H. apply bind_Ok in H as (s0&s1&H0&H). prog_inv H0.
  apply bind_Ok in H as (run&s1&H0&H). apply require_Ok in H0 as [Hrun ->].
  destruct (run_is_terminal run) eqn:Ht; cbn [orb] in H; [prog_inv H; by apply good_monitoring_refl|].
  destruct (bool_decide (ar_status run = "running"%string)); cbn [orb] in H;
    [prog_inv H; by apply good_monitoring_refl|].
  apply bind_Ok in H as (u&s1&H0&H). apply check_Ok in H0 as [Hq ->].
  apply bool_decide_eq_false, dec_stable in Hq.
  destruct (run_queued_next instant run Hq) as [Hn1 Hn2].
  destruct (sources db !! ar_source_id run) as [source|] eqn:Hs; [|prog_inv H].
  destruct (source_states db !! ar_source_id run) as [state|] eqn:Hst; [|prog_inv H].
  destruct (sm_enabled source); cbn [negb] in H.
  - unfold put_run, put_state in H. prog_inv H.
    pose proof (put_run_good queries db run_id run _ Hwf Hrun Hn1 (run_not_ended _ Ht _)) as Hg.
    eapply good_monitoring_trans; [exact Hg|]. destruct Hg as [Hwf1 _].
    apply put_state_good; [done|done|]. simpl.
    destruct (mw_state _ Hwf _ _ Hst) as [-> ?]. by rewrite Hs.
  - unfold put_run in H. prog_inv H.
    apply (put_run_good queries db run_id run); [done|done|done|by apply run_not_ended].
Qed.

Lemma locked_run_Ok run_id db rs db' :
  locked_run_and_state run_id db = (Ok rs, db') →
  db' = db ∧ acquisition_runs db !! run_id = Some rs.1 ∧ source_states db !! ar_source_id rs.1 = Some rs.2.
Proof. intros H. unfold locked_run_and_state in H. prog_inv H. done. Qed.

Lemma complete_good queries run_id cursor rate count changed instant db u db' :
  monitoring_wf db → complete_collection_run run_id cursor rate count changed instant db = (Ok u, db') →
  good_monitoring queries db db'.
Proof.
  intros Hwf H. unfold complete_collection_run in H.
  apply bind_Ok in H as (rs&s1&H0&H). apply locked_run_Ok in H0 as (->&Hrun&Hst). cbv zeta in H.
  destruct (run_is_terminal rs.1) eqn:Ht; [prog_inv H; by apply good_monitoring_refl|].
  apply bind_Ok in H as (u1&s1&H0&H). apply check_Ok in H0 as [Hq ->].
  destruct (mw_state _ Hwf _ _ Hst) as [Hid Hsrc].
  assert (run_next rs.1 (set_completed instant cursor count rs.1)) as Hn.
  { apply run_ended_next; [by split|simpl; case_match; by_decide|by eexists]. }
  pose proof (put_run_good queries db run_id rs.1 _ Hwf Hrun Hn (run_not_ended _ Ht _)) as Hg.
  unfold put_run in H. apply bind_Ok in H as (u2&s1&H0&H). apply modify_Ok in H0 as ->.
  unfold put_state in H. apply bind_Ok in H as (u3&s1&H0&H). apply modify_Ok in H0 as ->.
  eapply good_monitoring_trans; [exact Hg|]. destruct Hg as [Hwf1 _].
  set (st1 := set_succeeded instant cursor rate changed rs.2) in *.
  assert (∀ t, ss_source_id (set_next_due t st1) = ar_source_id rs.1) as Hkey by (intros; exact Hid).
  pose proof (put_state_good queries _ (ar_source_id rs.1) st1 Hwf1 (Hkey (ss_next_due_at st1)) Hsrc) as Hg2.
  rewrite <- (Hkey (ss_next_due_at st1)) in Hg2 at 1.
  apply bind_Ok in H as (db1&s1&H0&H). apply get_store_Ok in H0 as [-> ->].
  destruct (sources _ !! ar_source_id rs.1) as [source|] in H; [|prog_inv H; exact Hg2].
  apply bind_Ok in H as (t&s1&H0&H). apply lift_Ok in H0 as [_ ->]. apply modify_Ok in H as ->.
  eapply good_monitoring_trans; [exact Hg2|]. destruct Hg2 as [Hwf2 _].
  apply put_state_good; [exact Hwf2|done|]. by rewrite (Hkey t).
Qed.

Lemma fail_good queries run_id failure instant db u db' :
  monitoring_wf db → af_status failure ∈ TERMINAL_STATUSES →
  fail_acquisition_run run_id failure instant db = (Ok u, db') → good_monitoring queries db db'.
Proof.
  intros Hwf Hf H. unfold fail_acquisition_run in H.
  apply bind_Ok in H as (rs&s1&H0&H). apply locked_run_Ok in H0 as (->&Hrun&Hst). cbv zeta in H.
  destruct (run_is_terminal rs.1) eqn:Ht; [prog_inv H; by apply good_monitoring_refl|].
  apply bind_Ok in H as (u1&s1&H0&H). apply check_Ok in H0 as [Hq ->].
  destruct (mw_state _ Hwf _ _ Hst) as [Hid Hsrc].
  apply bind_Ok in H as (t&s1&H0&H). apply lift_Ok in H0 as [_ ->].
  unfold put_state in H. apply bind_Ok in H as (u2&s1&H0&H). apply modify_Ok in H0 as ->.
  apply modify_Ok in H as ->.
  pose proof (put_state_good queries db (ar_source_id rs.1) (set_backoff t rs.2) Hwf Hid Hsrc) as Hg.
  change (ss_source_id (set_backoff t rs.2)) with (ss_source_id rs.2). rewrite Hid.
  eapply good_monitoring_trans; [exact Hg|]. destruct Hg as [Hwf1 _].
  apply (put_run_good queries _ run_id rs.1); [done|done| |by apply run_not_ended].
  apply run_ended_next; [by split|by apply elem_of_cons; right|by eexists].
Qed.

Lemma begin_query_good queries run_id source spec parent trigger instant db u db' :
  monitoring_wf db → trigger ≠ SCHEDULED →
  begin_query run_id source spec parent trigger instant db = (Ok u, db') → good_monitoring queries db db'.
Proof.
  intros Hwf Htr H. unfold begin_query in H. apply bind_Ok in H as (s0&s1&H0&H). prog_inv H0.
  apply bind_Ok in H as (u1&s1&H0&H). apply check_Ok in H0 as [Hs ->].
  apply bool_decide_eq_false, not_eq_None_Some in Hs.
  unfold add_run in H. apply bind_Ok in H as (s0&s1&H0&H). prog_inv H0. cbn [ar_run_id] in H.
  destruct (acquisition_runs db !! run_id) eqn:Hnew; [prog_inv H|]. apply modify_Ok in H as ->.
  set (r := mkAcquisitionRunModel _ _ _ _ _ _ _ _ _ _ _ _ _ _).
  apply (add_run_good queries db r); [done|done|done|by right; left; split; [|eexists]|].
  intros Hsch. exfalso. unfold is_scheduled in Hsch. apply bool_decide_eq_true in Hsch.
  destruct trigger; done.
Qed.

Lemma end_query_good queries run_id outcome now db u db' :
  monitoring_wf db → run_id ∈ queries → end_query run_id outcome now db = (Ok u, db') →
  good_monitoring queries db db'.
Proof.
  intros Hwf Hk H. unfold end_query in H. apply bind_Ok in H as (s0&s1&H0&H). prog_inv H0.
  apply bind_Ok in H as (run&s1&H0&H). apply require_Ok in H0 as [Hrun ->]. apply modify_Ok in H as ->.
  apply (put_run_good queries db run_id run); [done|done| |done].
  destruct outcome as [n|[cls text]]; (apply run_ended_next; [by split| |by eexists]); simpl;
    [case_match; by_decide|by_decide].
Qed.

Lemma ensure_states_good queries ids instant db u db' :
  monitoring_wf db → ensure_source_states ids instant db = (Ok u, db') → good_monitoring queries db db'.
Proof.
  intros Hwf H. unfold ensure_source_states in H. apply bind_Ok in H as (us&s1&H&H1). prog_inv H1.
  revert db us Hwf H. induction ids as [|id ids IH]; intros db us Hwf H; cbn [for_each] in H.
  { prog_inv H. by apply good_monitoring_refl. }
  apply bind_Ok in H as (u1&s2&H1&H). apply bind_Ok in H as (us1&s3&H&H2). apply ret_Ok in H2 as [_ ->].
  assert (good_monitoring queries db s2) as Hg; [|eapply good_monitoring_trans; [exact Hg|]; eapply IH; [apply Hg|exact H]].
  clear H IH. unfold ensure_source_state in H1. apply bind_Ok in H1 as (s0&s4&H0&H1). prog_inv H0.
  apply bind_Ok in H1 as (source&s4&H0&H1). apply require_Ok in H0 as [Hs ->]. cbv zeta in H1.
  destruct (source_states db !! id) as [st|] eqn:Hst.
  - destruct (mw_state _ Hwf _ _ Hst) as [Hid Hsrc].
    destruct (negb _); [apply modify_Ok in H1 as ->; by apply put_state_good|].
    destruct (ss_next_due_at st); [prog_inv H1; by apply good_monitoring_refl|].
    apply modify_Ok in H1 as ->. by apply put_state_good.
  - apply modify_Ok in H1 as ->. apply put_state_good; [done|done|by rewrite Hs].
Qed.

(** ** The scheduler *)

Lemma has_active_run_intro id db :
  (∀ k r, acquisition_runs db !! k = Some r → run_is_active r = true → ar_source_id r ≠ id) →
  has_active_run id db = false.
Proof.
  intros H. apply not_true_iff_false. unfold has_active_run. intros (r&Hr&Hb)%existsb_exists.
  apply list_elem_of_In, list_elem_of_fmap in Hr as ([k r']&->&Hr). apply elem_of_map_to_list in Hr.
  simpl in *. apply andb_true_iff in Hb as [Hs Ha]. apply bool_decide_eq_true in Hs. by apply (H k r').
Qed.

Definition pair_key (p : source_pair) : string := sm_source_id p.1.

(** The rows of one source, as the tables hold them. *)
Definition pair_in (db : MonitoringDB) (p : source_pair) : Prop :=
  sources db !! pair_key p = Some p.1 ∧ source_states db !! pair_key p = Some p.2.

Lemma elem_of_source_rows db p : monitoring_wf db → p ∈ source_rows db ↔ pair_in db p.
Proof.
  intros Hwf. unfold source_rows, pair_in, pair_key. rewrite list_elem_of_omap. split.
  - intros ([id st]&Hin&Hp). apply elem_of_map_to_list in Hin.
    destruct (sources db !! id) as [src|] eqn:Hs; [|done]. simpl in Hp. injection Hp as <-. simpl.
    by rewrite (mw_source _ Hwf _ _ Hs).
  - intros [Hs Hst]. exists (sm_source_id p.1, p.2). split; [by apply elem_of_map_to_list|].
    rewrite Hs. simpl. by destruct p.
Qed.

Lemma NoDup_source_rows db : monitoring_wf db → NoDup (pair_key <$> source_rows db).
Proof.
  intros Hwf. eapply sublist_NoDup; [apply (NoDup_fst_map_to_list (source_states db))|].
  unfold source_rows. induction (map_to_list (source_states db)) as [|[id st] l IH]; [done|]. csimpl.
  destruct (sources db !! id) as [src|] eqn:Hs; csimpl.
  - unfold pair_key at 1. simpl. rewrite (mw_source _ Hwf _ _ Hs). by apply sublist_skip.
  - by apply sublist_cons.
Qed.

Section select_due.
Context (instant : Z) (limit : nat) (locked : string → bool) (source_ids : option (list string))
  (db : MonitoringDB) (Hwf : monitoring_wf db).

Lemma elem_of_select_due p :
  p ∈ select_due instant limit locked source_ids db →
  pair_in db p ∧ is_due instant source_ids db p = true ∧ locked (pair_key p) = false.
Proof.
  unfold select_due. intros (i&Hp%list_elem_of_lookup_2&_)%elem_of_take.
  rewrite merge_sort_Permutation, list_elem_of_filter, Is_true_true, andb_true_iff, negb_true_iff,
    elem_of_source_rows in Hp by done.
  destruct Hp as [[Hd Hl] Hin]. split; [done|]. split; [done|].
  by rewrite (proj1 (mw_state _ Hwf _ _ (proj2 Hin))) in Hl.
Qed.

Lemma NoDup_select_due : NoDup (pair_key <$> select_due instant limit locked source_ids db).
Proof.
  unfold select_due. rewrite fmap_take. eapply sublist_NoDup; [|apply sublist_take].
  rewrite merge_sort_Permutation. eapply sublist_NoDup; [|apply fmap_sublist, sublist_filter].
  by apply NoDup_source_rows.
Qed.

Lemma select_due_complete p :
  (size (source_states db) ≤ limit)%nat → pair_in db p → is_due instant source_ids db p = true →
  locked (pair_key p) = false → p ∈ select_due instant limit locked source_ids db.
Proof.
  intros Hlim Hp Hd Hl. unfold select_due. rewrite take_ge.
  - rewrite merge_sort_Permutation, list_elem_of_filter, Is_true_true, Hd, elem_of_source_rows by done.
    by rewrite (proj1 (mw_state _ Hwf _ _ (proj2 Hp))), Hl.
  - rewrite merge_sort_Permutation. etrans; [apply length_filter|]. etrans; [|exact Hlim].
    unfold source_rows. rewrite <- length_map_to_list.
    induction (map_to_list (source_states db)) as [|[id st] l IH]; [done|]. csimpl.
    destruct (sources db !! id); simpl; lia.
Qed.

Lemma select_due_idle p :
  p ∈ select_due instant limit locked source_ids db → has_active_run (pair_key p) db = false.
Proof.
  intros (Hp&Hd&_)%elem_of_select_due. unfold is_due in Hd. rewrite !andb_true_iff, negb_true_iff in Hd.
  destruct Hd as [[_ Ha] _]. by rewrite (proj1 (mw_state _ Hwf _ _ (proj2 Hp))) in Ha.
Qed.
End select_due.

Section schedule_spec.
Context (fresh_run fresh_event : string → string) (instant : Z).

Definition run_of (p : source_pair) : string := fresh_run (pair_key p).
Definition due_after (p : source_pair) : Z :=
  match schedule_interval_seconds (sm_schedule_policy p.1) with
  | Ok interval => instant + interval * 1000000
  | Err _ => 0
  end.

Definition new_runs (l : list source_pair) : gmap string AcquisitionRunModel :=
  list_to_map ((λ p, (run_of p, queued_run (run_of p) p instant)) <$> l).
Definition new_states (l : list source_pair) : gmap string SourceStateModel :=
  list_to_map ((λ p, (pair_key p, set_next_due (Some (due_after p)) p.2)) <$> l).

(** What scheduling the sources of [l] makes of the tables. *)
Definition scheduled_db (l : list source_pair) (db : MonitoringDB) : MonitoringDB :=
  mkMonitoringDB (sources db) (new_states l ∪ source_states db) (new_runs l ∪ acquisition_runs db)
    (outbox_events db ++ ((λ p, collection_requested (fresh_event (pair_key p)) (run_of p) instant) <$> l)).

Lemma schedule_one_Ok db p id db' :
  monitoring_wf db → pair_in db p → schedule_one fresh_run fresh_event instant p db = (Ok id, db') →
  id = run_of p ∧ acquisition_runs db !! run_of p = None ∧
  is_ok (schedule_interval_seconds (sm_schedule_policy p.1)) = true ∧ db' = scheduled_db [p] db.
Proof.
  intros Hwf [Hs Hst] H. unfold schedule_one in H.
  apply bind_Ok in H as (interval&s1&H0&H). apply lift_Ok in H0 as [Hi ->]. cbv zeta in H.
  apply bind_Ok in H as (u1&s1&H0&H). unfold add_run in H0. apply bind_Ok in H0 as (s0&s2&Hg&H0).
  apply get_store_Ok in Hg as [-> ->]. cbn [ar_run_id queued_run] in H0.
  change (fresh_run (sm_source_id p.1)) with (run_of p) in *.
  destruct (acquisition_runs db !! run_of p) eqn:Hnew; [by apply raise_Ok in H0|].
  apply modify_Ok in H0 as ->.
  apply bind_Ok in H as (u2&s1&H0&H). unfold add_event in H0. apply bind_Ok in H0 as (s0&s2&Hg&H0).
  apply get_store_Ok in Hg as [-> ->]. destruct (bool_decide _) in H0; [by apply raise_Ok in H0|].
  apply modify_Ok in H0 as ->.
  apply bind_Ok in H as (due&s1&H0&H). apply lift_Ok in H0 as [Hdue%add_seconds_Ok ->].
  apply bind_Ok in H as (u3&s1&H0&H). apply modify_Ok in H0 as ->. apply ret_Ok in H as [-> ->].
  split; [done|]. split; [done|]. rewrite Hi. split; [done|].
  unfold scheduled_db, with_states, with_outbox, with_runs. simpl. f_equal.
  - rewrite (proj1 (mw_state _ Hwf _ _ Hst)). unfold new_states. simpl.
    rewrite insert_empty, <- insert_union_singleton_l. apply map_eq. intros k.
    destruct (decide (k = pair_key p)) as [->|Hk].
    + rewrite lookup_alter_eq, lookup_insert_eq, Hst. simpl. unfold due_after. by rewrite Hi, Hdue.
    + by rewrite lookup_alter_ne, lookup_insert_ne.
  - unfold new_runs. simpl. by rewrite insert_empty, <- insert_union_singleton_l.
Qed.

Lemma scheduled_db_good queries db p :
  monitoring_wf db → pair_in db p → has_active_run (pair_key p) db = false →
  acquisition_runs db !! run_of p = None → good_monitoring queries db (scheduled_db [p] db).
Proof.
  intros Hwf [Hs Hst] Hidle Hnew.
  set (r := queued_run (run_of p) p instant). set (db1 := with_runs (insert (ar_run_id r) r) db).
  assert (good_monitoring queries db db1) as H1.
  { apply (add_run_good queries db r); [done|done|exact (mk_is_Some _ _ Hs)|by left|done]. }
  set (st := set_next_due (Some (due_after p)) p.2). set (db2 := with_states (insert (pair_key p) st) db1).
  assert (good_monitoring queries db1 db2) as H2.
  { apply put_state_good; [apply H1|apply (mw_state _ Hwf _ _ Hst)|exact (mk_is_Some _ _ Hs)]. }
  assert (scheduled_db [p] db = with_outbox (λ l, l ++ [collection_requested (fresh_event (pair_key p)) (run_of p) instant]) db2) as ->.
  { unfold scheduled_db, db2, db1, new_states, new_runs, with_outbox, with_states, with_runs. simpl.
    by rewrite !insert_empty, <- !insert_union_singleton_l. }
  eapply good_monitoring_trans; [exact H1|]. eapply good_monitoring_trans; [exact H2|].
  apply outbox_good, H2.
Qed.

Lemma schedule_loop_Ok queries l db ids db' :
  monitoring_wf db → NoDup (pair_key <$> l) →
  (∀ p, p ∈ l → pair_in db p ∧ has_active_run (pair_key p) db = false) →
  for_each l (schedule_one fresh_run fresh_event instant) db = (Ok ids, db') →
  ids = run_of <$> l ∧ db' = scheduled_db l db ∧ good_monitoring queries db db' ∧
  NoDup (run_of <$> l) ∧
  (∀ p, p ∈ l → acquisition_runs db !! run_of p = None ∧
    is_ok (schedule_interval_seconds (sm_schedule_policy p.1)) = true).
Proof.
  revert db ids. induction l as [|p l IH]; intros db ids Hwf Hnd Hl H; cbn [for_each] in H.
  { apply ret_Ok in H as [-> ->]. split; [done|]. split.
    - unfold scheduled_db, new_states, new_runs. simpl. rewrite !map_empty_union, app_nil_r. by destruct db.
    - split; [by apply good_monitoring_refl|]. split; [constructor|]. by intros ? ?%not_elem_of_nil. }
  rewrite fmap_cons, NoDup_cons in Hnd. destruct Hnd as [Hp Hnd].
  destruct (Hl p (list_elem_of_here _ _)) as [Hin Hidle].
  apply bind_Ok in H as (id&s1&H1&H). destruct (schedule_one_Ok _ _ _ _ Hwf Hin H1) as (->&Hnew&Hi&->).
  pose proof (scheduled_db_good queries _ _ Hwf Hin Hidle Hnew) as Hg.
  apply bind_Ok in H as (ids1&s2&H&H2). apply ret_Ok in H2 as [-> ->].
  assert (∀ q, q ∈ l → pair_in (scheduled_db [p] db) q ∧
    has_active_run (pair_key q) (scheduled_db [p] db) = false) as Hl'.
  { intros q Hq. destruct (Hl q (proj2 (elem_of_cons _ _ _) (or_intror Hq))) as [[Qs Qst] Qidle].
    assert (pair_key q ≠ pair_key p) as Hne.
    { intros Heq. apply Hp. rewrite <- Heq. by apply list_elem_of_fmap_2. }
    split; [split; [exact Qs|]|].
    - unfold scheduled_db, new_states. simpl. rewrite insert_empty, <- insert_union_singleton_l.
      by rewrite lookup_insert_ne.
    - apply has_active_run_intro. intros k r. unfold scheduled_db, new_runs. simpl.
      rewrite insert_empty, <- insert_union_singleton_l.
      destruct (decide (k = run_of p)) as [->|Hk].
      + rewrite lookup_insert_eq. intros [= <-] _. done.
      + rewrite lookup_insert_ne by done. by apply has_active_run_false. }
  destruct (IH _ _ (proj1 Hg) Hnd Hl' H) as (->&->&Hg'&Hnd'&Hall).
  assert (∀ q, q ∈ l → run_of q ≠ run_of p ∧ acquisition_runs db !! run_of q = None ∧
    is_ok (schedule_interval_seconds (sm_schedule_policy q.1)) = true) as Hall'.
  { intros q Hq. destruct (Hall q Hq) as [Hn ?]. revert Hn. unfold scheduled_db, new_runs. simpl.
    rewrite insert_empty, <- insert_union_singleton_l.
    destruct (decide (run_of q = run_of p)) as [->|Hne]; [by rewrite lookup_insert_eq|].
    by rewrite lookup_insert_ne. }
  assert (run_of p ∉ (run_of <$> l)) as Hnotin.
  { intros (q&Heq&Hq)%list_elem_of_fmap. by destruct (Hall' q Hq). }
  split; [done|]. split; [|split; [by eapply good_monitoring_trans|split]].
  - unfold scheduled_db. simpl. f_equal.
    + unfold new_states. csimpl. rewrite insert_empty, <- insert_union_singleton_l, <- insert_union_l, insert_union_r; [done|].
      apply not_elem_of_list_to_map. rewrite <- list_fmap_compose. exact Hp.
    + unfold new_runs. csimpl. rewrite insert_empty, <- insert_union_singleton_l, <- insert_union_l, insert_union_r; [done|].
      apply not_elem_of_list_to_map. rewrite <- list_fmap_compose. exact Hnotin.
    + rewrite <- app_assoc. done.
  - rewrite fmap_cons. by constructor.
  - intros q [->|Hq]%elem_of_cons; [done|]. by apply Hall'.
Qed.
End schedule_spec.

(** ** The recovery of lost runs *)

Section recovery_spec.
Context (fresh_event : string → string) (instant : Z).

Definition requeued_runs (l : list AcquisitionRunModel) : gmap string AcquisitionRunModel :=
  list_to_map ((λ r, (ar_run_id r, set_requeued r)) <$> l).

(** What requeuing the runs of [l] makes of the tables. *)
Definition requeued_db (l : list AcquisitionRunModel) (db : MonitoringDB) : MonitoringDB :=
  mkMonitoringDB (sources db) (source_states db) (requeued_runs l ∪ acquisition_runs db)
    (outbox_events db ++
      ((λ r, collection_requested (fresh_event (ar_run_id r)) (ar_run_id r) instant) <$> l)).

Lemma requeue_run_Ok db r id db' :
  requeue_run fresh_event instant r db = (Ok id, db') → id = ar_run_id r ∧ db' = requeued_db [r] db.
Proof.
  unfold requeue_run, put_run. intros H. apply bind_Ok in H as (u&s1&H0&H). apply modify_Ok in H0 as ->.
  apply bind_Ok in H as (u1&s1&H0&H). unfold add_event in H0. apply bind_Ok in H0 as (s0&s2&Hg&H0).
  apply get_store_Ok in Hg as [-> ->]. destruct (bool_decide _) in H0; [by apply raise_Ok in H0|].
  apply modify_Ok in H0 as ->. apply ret_Ok in H as [-> ->]. split; [done|].
  unfold requeued_db, requeued_runs, with_outbox, with_runs. simpl.
  by rewrite insert_empty, <- insert_union_singleton_l.
Qed.

Lemma requeued_db_good queries db k r :
  monitoring_wf db → acquisition_runs db !! k = Some r → run_is_active r = true →
  good_monitoring queries db (requeued_db [r] db).
Proof.
  intros Hwf Hr Ha.
  assert (run_is_terminal r = false) as Ht.
  { apply bool_decide_eq_true in Ha. apply bool_decide_eq_false. intros Ht.
    assert (∀ x, x ∈ ACTIVE_RUN_STATUSES → x ∉ TERMINAL_STATUSES) as H by (apply Forall_forall; by_decide).
    by apply (H _ Ha). }
  pose proof (put_run_good queries db k r _ Hwf Hr (run_requeued_next r Ha) (run_not_ended _ Ht _)) as Hg.
  assert (requeued_db [r] db = with_outbox (λ l, l ++
      [collection_requested (fresh_event (ar_run_id r)) (ar_run_id r) instant])
    (with_runs (insert (ar_run_id (set_requeued r)) (set_requeued r)) db)) as ->.
  { unfold requeued_db, requeued_runs, with_outbox, with_runs. simpl.
    by rewrite insert_empty, <- insert_union_singleton_l. }
  eapply good_monitoring_trans; [exact Hg|]. apply outbox_good, Hg.
Qed.

Lemma requeue_loop_Ok queries l db ids db' :
  monitoring_wf db → NoDup (ar_run_id <$> l) →
  (∀ r, r ∈ l → acquisition_runs db !! ar_run_id r = Some r ∧ run_is_active r = true) →
  for_each l (requeue_run fresh_event instant) db = (Ok ids, db') →
  ids = ar_run_id <$> l ∧ db' = requeued_db l db ∧ good_monitoring queries db db'.
Proof.
  revert db ids. induction l as [|r l IH]; intros db ids Hwf Hnd Hl H; cbn [for_each] in H.
  { apply ret_Ok in H as [-> ->]. split; [done|]. split; [|by apply good_monitoring_refl].
    unfold requeued_db, requeued_runs. simpl. rewrite map_empty_union, app_nil_r. by destruct db. }
  rewrite fmap_cons, NoDup_cons in Hnd. destruct Hnd as [Hp Hnd].
  destruct (Hl r (list_elem_of_here _ _)) as [Hr Ha].
  apply bind_Ok in H as (id&s1&H1&H). destruct (requeue_run_Ok _ _ _ _ H1) as [-> ->].
  pose proof (requeued_db_good queries _ _ _ Hwf Hr Ha) as Hg.
  apply bind_Ok in H as (ids1&s2&H&H2). apply ret_Ok in H2 as [-> ->].
  assert (∀ q, q ∈ l → acquisition_runs (requeued_db [r] db) !! ar_run_id q = Some q ∧ run_is_active q = true) as Hl'.
  { intros q Hq. destruct (Hl q (proj2 (elem_of_cons _ _ _) (or_intror Hq))) as [Q1 Q2]. split; [|done].
    unfold requeued_db, requeued_runs. simpl. rewrite insert_empty, <- insert_union_singleton_l.
    rewrite lookup_insert_ne; [done|]. intros Heq. apply Hp. rewrite Heq. by apply list_elem_of_fmap_2. }
  destruct (IH _ _ (proj1 Hg) Hnd Hl' H) as (->&->&Hg'). split; [done|].
  split; [|by eapply good_monitoring_trans].
  unfold requeued_db. simpl. f_equal.
  - unfold requeued_runs. csimpl. rewrite insert_empty, <- insert_union_singleton_l, <- insert_union_l, insert_union_r; [done|].
    apply not_elem_of_list_to_map. rewrite <- list_fmap_compose. exact Hp.
  - rewrite <- app_assoc. done.
Qed.
End recovery_spec.

Section select_stale_runs.
Context (threshold : Z) (limit : nat) (locked : string → bool) (run_ids : option (list string))
  (db : MonitoringDB) (Hwf : monitoring_wf db).

Definition stale_here (r : AcquisitionRunModel) : bool :=
  is_stale_run threshold db r && negb (locked (ar_run_id r))
  && match run_ids with Some ids => bool_decide (ar_run_id r ∈ ids) | None => true end.

Lemma elem_of_select_stale_runs r :
  r ∈ select_stale_runs threshold limit locked run_ids db →
  acquisition_runs db !! ar_run_id r = Some r ∧ stale_here r = true.
Proof.
  unfold select_stale_runs. intros (i&Hr%list_elem_of_lookup_2&_)%elem_of_take.
  rewrite merge_sort_Permutation, list_elem_of_filter, Is_true_true in Hr. destruct Hr as [Hst Hin].
  apply list_elem_of_fmap in Hin as ([k r']&->&Hin%elem_of_map_to_list).
  split; [|exact Hst]. simpl. by rewrite (proj1 (mw_run _ Hwf _ _ Hin)).
Qed.

Lemma NoDup_select_stale_runs : NoDup (ar_run_id <$> select_stale_runs threshold limit locked run_ids db).
Proof.
  unfold select_stale_runs. rewrite fmap_take. eapply sublist_NoDup; [|apply sublist_take].
  rewrite merge_sort_Permutation. eapply sublist_NoDup; [|apply fmap_sublist, sublist_filter].
  assert (ar_run_id <$> (map_to_list (acquisition_runs db)).*2 = (map_to_list (acquisition_runs db)).*1) as ->;
    [|apply NoDup_fst_map_to_list].
  rewrite <- list_fmap_compose. apply list_fmap_ext. intros i [k r] Hi%list_elem_of_lookup_2.
  apply elem_of_map_to_list in Hi. by apply (mw_run _ Hwf).
Qed.

Lemma select_stale_runs_complete k r :
  (size (acquisition_runs db) ≤ limit)%nat → acquisition_runs db !! k = Some r → stale_here r = true →
  r ∈ select_stale_runs threshold limit locked run_ids db.
Proof.
  intros Hlim Hr Hst. unfold select_stale_runs. rewrite take_ge.
  - rewrite merge_sort_Permutation, list_elem_of_filter, Is_true_true. split; [exact Hst|].
    apply list_elem_of_fmap. exists (k, r). split; [done|]. by apply elem_of_map_to_list.
  - rewrite merge_sort_Permutation. etrans; [apply length_filter|].
    rewrite length_fmap, length_map_to_list. done.
Qed.

Lemma stale_run_active r : stale_here r = true → run_is_active r = true.
Proof.
  unfold stale_here, is_stale_run. rewrite !andb_true_iff, orb_true_iff, !andb_true_iff.
  intros [[[_ [[Hs _]|[[[Hs _] _] _]]] _] _]; apply bool_decide_eq_true in Hs;
    apply bool_decide_eq_true_2; rewrite Hs; by_decide.
Qed.
End select_stale_runs.

Lemma recover_Ok queries fresh_event instant timeout limit locked ids db out db' :
  monitoring_wf db →
  recover_stale_acquisition_runs fresh_event instant timeout limit locked ids db = (Ok out, db') →
  let l := select_stale_runs (instant - timeout * 1000000) limit locked ids db in
  out = ar_run_id <$> l ∧ db' = requeued_db fresh_event instant l db ∧ good_monitoring queries db db'.
Proof.
  intros Hwf H. unfold recover_stale_acquisition_runs in H. apply bind_Ok in H as (t&s1&H0&H).
  apply lift_Ok in H0 as [->%add_seconds_Ok ->]. apply bind_Ok in H as (s0&s1&H0&H).
  apply get_store_Ok in H0 as [-> ->].
  replace (instant + - timeout * 1000000) with (instant - timeout * 1000000) in H by lia.
  apply requeue_loop_Ok; [done|by apply NoDup_select_stale_runs| |exact H].
  intros r [Hr Hst]%elem_of_select_stale_runs; [|done]. split; [done|]. by eapply stale_run_active.
Qed.

(** ** Histories *)

Inductive monitoring_op :=
| OpEnsure (source_ids : list string) (instant : Z)
| OpSchedule (fresh_run fresh_event : string → string) (instant : Z) (limit : nat) (locked : string → bool)
    (source_ids : option (list string))
| OpStart (run_id : string) (instant : Z)
| OpComplete (run_id : string) (next_cursor : dict) (rate_limit_state : option dict) (accepted_count : Z)
    (changed : bool) (instant : Z)
| OpCompleteHot (run_id : string) (result : HotWindowCollectionResult) (instant : Z)
| OpFail (run_id : string) (exc : collection_error) (consecutive_failures : Z) (instant : Z)
| OpRecover (fresh_event : string → string) (instant timeout_seconds : Z) (limit : nat)
    (locked : string → bool) (run_ids : option (list string))
| OpBeginQuery (run_id : string) (source : SourceDefinition) (spec : dict) (parent : option string)
    (trigger : AcquisitionTrigger) (started_at : Z)
| OpEndQuery (run_id : string) (outcome : Z + string * string) (now : Z)
| OpOutbox (rows : list OutboxEventModel → list OutboxEventModel).

(** Each operation is one transaction; the worker's failures come from [classify_source_failure], and
    [OpOutbox] stands for whatever the outbox dispatcher does to its rows. *)
Definition run_monitoring_op (op : monitoring_op) : prog MonitoringDB unit :=
  atomic match op with
  | OpEnsure ids instant => ensure_source_states ids instant
  | OpSchedule fr fe instant limit locked ids =>
      _ ← schedule_due_sources fr fe instant limit locked ids; mret tt
  | OpStart run instant => _ ← start_acquisition_run run instant; mret tt
  | OpComplete run cursor rate count changed instant =>
      complete_collection_run run cursor rate count changed instant
  | OpCompleteHot run result instant => complete_hot_window_run run result instant
  | OpFail run exc failures instant =>
      failure ← lift (classify_source_failure exc failures); fail_acquisition_run run failure instant
  | OpRecover fe instant timeout limit locked ids =>
      _ ← recover_stale_acquisition_runs fe instant timeout limit locked ids; mret tt
  | OpBeginQuery run source spec parent trigger now => begin_query run source spec parent trigger now
  | OpEndQuery run outcome now => end_query run outcome now
  | OpOutbox rows => modify (with_outbox rows)
  end.

Definition run_monitoring_ops (ops : list monitoring_op) (db : MonitoringDB) : MonitoringDB :=
  foldl (λ s op, (run_monitoring_op op s).2) db ops.

(** Query-time acquisition never poses as the scheduler. *)
Definition op_ok (op : monitoring_op) : Prop :=
  match op with OpBeginQuery _ _ _ _ trigger _ => trigger ≠ SCHEDULED | _ => True end.
Definition queries_of (ops : list monitoring_op) : list string :=
  omap (λ op, match op with OpEndQuery run _ _ => Some run | _ => None end) ops.

Lemma classify_terminal exc n failure :
  classify_source_failure exc n = Ok failure → af_status failure ∈ TERMINAL_STATUSES.
Proof.
  destruct exc; simpl; try (intros [= <-]; by_decide).
  intros (s&_&[= <-])%result_bind_Ok. by_decide.
Qed.

Lemma run_monitoring_op_good queries op db :
  monitoring_wf db → op_ok op → (∀ k, k ∈ queries_of [op] → k ∈ queries) →
  good_monitoring queries db (run_monitoring_op op db).2.
Proof.
  intros Hwf Hop Hq. unfold run_monitoring_op.
  match goal with |- context [atomic ?m db] =>
    destruct (atomic_cases m db) as [([]&s'&Hm&->)|(e&s'&_&->)] end; simpl; [|by apply good_monitoring_refl].
  destruct op; simpl in *.
  - by eapply ensure_states_good.
  - apply bind_Ok in Hm as (out&s1&H&Hm). apply ret_Ok in Hm as [_ ->].
    unfold schedule_due_sources in H. apply bind_Ok in H as (s0&s2&H0&H). apply get_store_Ok in H0 as [-> ->].
    apply (schedule_loop_Ok fresh_run fresh_event instant queries) in H as (_&_&Hg&_); [done|done|by apply NoDup_select_due|].
    intros p Hp. split; [by eapply elem_of_select_due|by eapply select_due_idle].
  - apply bind_Ok in Hm as (out&s1&H&Hm). apply ret_Ok in Hm as [_ ->]. by eapply start_good.
  - by eapply complete_good.
  - by eapply complete_good.
  - apply bind_Ok in Hm as (f&s1&H&Hm). apply lift_Ok in H as [H%classify_terminal ->]. by eapply fail_good.
  - apply bind_Ok in Hm as (out&s1&H&Hm). apply ret_Ok in Hm as [_ ->]. by eapply recover_Ok.
  - by eapply begin_query_good.
  - eapply end_query_good; [done| |done]. apply Hq, list_elem_of_here.
  - apply modify_Ok in Hm as ->. by apply outbox_good.
Qed.

Lemma run_monitoring_ops_good queries ops db :
  monitoring_wf db → Forall op_ok ops → (∀ k, k ∈ queries_of ops → k ∈ queries) →
  good_monitoring queries db (run_monitoring_ops ops db).
Proof.
  intros Hwf Hops. revert db Hwf. induction Hops as [|op ops Hop Hops IH]; intros db Hwf Hq; simpl.
  { by apply good_monitoring_refl. }
  assert (good_monitoring queries db (run_monitoring_op op db).2) as Hg.
  { apply run_monitoring_op_good; [done|done|]. intros k. simpl. intros Hk. apply Hq. destruct op; try by apply not_elem_of_nil in Hk.
    apply elem_of_cons in Hk as [->|Hk]; [apply list_elem_of_here|by apply not_elem_of_nil in Hk]. }
  eapply good_monitoring_trans; [exact Hg|]. apply IH; [apply Hg|].
  intros k Hk. apply Hq. simpl. destruct op; try done. by apply elem_of_cons; right.
Qed.

Lemma set_next_due_due t st : ss_next_due_at (set_next_due t st) = t.
Proof. done. Qed.

(** ** A sample: two sources, one of them due, and a query-time run *)

Definition sample_source (id : string) (schedule rate : dict) : SourceModel :=
  mkSourceModel id "rss" "advisory" [] "primary" "vendor" None "public" "append" [] [] [] None rate [] "hot_window"
    schedule "1" "hash" "config" true 0.
Definition sample_monitoring : MonitoringDB :=
  mkMonitoringDB
    {["a"%string := sample_source "a" [("interval_seconds"%string, JStr "600")] [];
      "b"%string := sample_source "b" [] []]}
    {["a"%string := new_state "a" (Some 0); "b"%string := new_state "b" (Some 5000000000)]}
    {["q"%string := mkAcquisitionRunModel "q" "b" "on_demand" None [] "running" [] [] 1 0 (Some 0) None None None]}
    [].

Lemma sample_monitoring_wf : monitoring_wf sample_monitoring.
Proof.
  split.
  - apply map_Forall_lookup. by_decide.
  - intros k st Hk. simpl in Hk. rewrite lookup_insert_Some, lookup_singleton_Some in Hk.
    destruct Hk as [[<- <-]|[_ [<- <-]]]; (split; [done|eexists; reflexivity]).
  - intros k r Hk. simpl in Hk. rewrite lookup_singleton_Some in Hk. destruct Hk as [<- <-].
    split; [done|]. split; [eexists; reflexivity|]. right; left. split; [done|by eexists].
  - intros k1 k2 r1 r2 H1 _. simpl in H1. rewrite lookup_singleton_Some in H1. by destruct H1 as [<- <-].
Qed.

Definition fresh_for (prefix : string) (key : string) : string := prefix +:+ key.

Definition sample_monitoring_ops : list monitoring_op :=
  [OpSchedule (fresh_for "run-") (fresh_for "event-") 1000000 10 (λ _, false) None;
   OpStart "run-a" 2000000;
   OpSchedule (fresh_for "run2-") (fresh_for "event2-") 900000000 10 (λ _, false) None;
   OpFail "run-a" (SourceFetchFailed "reset by peer") 0 3000000;
   OpEndQuery "q" (inl 2) 4000000].

(** ** Properties *)

(** C40. At most one scheduled run per source: in every history of the scheduler, the workers, the
    recovery job, query-time acquisition and the outbox, from any consistent database, a source never
    has two scheduled runs that are queued or running, whatever rows the jobs found locked. *)
Theorem single_scheduled_run ops db source :
  monitoring_wf db → Forall op_ok ops →
  monitoring_wf (run_monitoring_ops ops db) ∧
  (length (filter (λ r, is_scheduled r && run_is_active r && bool_decide (ar_source_id r = source))
    (map_to_list (acquisition_runs (run_monitoring_ops ops db))).*2) ≤ 1)%nat.
Proof.
  intros Hwf Hops. destruct (run_monitoring_ops_good (queries_of ops) ops db Hwf Hops ltac:(done)) as [Hwf' _].
  set (db' := run_monitoring_ops ops db) in *. split; [done|].
  set (l := filter _ _). assert (NoDup (ar_run_id <$> l)) as Hnd.
  { eapply sublist_NoDup; [|apply fmap_sublist, sublist_filter].
    assert (ar_run_id <$> (map_to_list (acquisition_runs db')).*2 = (map_to_list (acquisition_runs db')).*1) as ->;
      [|apply NoDup_fst_map_to_list].
    rewrite <- list_fmap_compose. apply list_fmap_ext. intros i [k r] Hi%list_elem_of_lookup_2.
    apply elem_of_map_to_list in Hi. by apply (mw_run _ Hwf'). }
  assert (∀ r, r ∈ l → acquisition_runs db' !! ar_run_id r = Some r ∧ is_scheduled r = true ∧
    run_is_active r = true ∧ ar_source_id r = source) as Hl.
  { intros r Hr. apply list_elem_of_filter in Hr as [Hb Hin].
    rewrite Is_true_true, !andb_true_iff, bool_decide_eq_true in Hb.
    apply list_elem_of_fmap in Hin as ([k r']&->&Hin%elem_of_map_to_list). simpl in *.
    rewrite (proj1 (mw_run _ Hwf' _ _ Hin)). naive_solver. }
  destruct l as [|r1 [|r2 l']]; simpl; [lia..|exfalso].
  destruct (Hl r1 (list_elem_of_here _ _)) as (L1&T1&A1&S1).
  destruct (Hl r2 (proj2 (elem_of_cons _ _ _) (or_intror (list_elem_of_here _ _)))) as (L2&T2&A2&S2).
  rewrite !fmap_cons in Hnd. apply NoDup_cons in Hnd as [Hn _]. apply Hn.
  rewrite (mw_single _ Hwf' _ _ _ _ L1 L2 T1 T2 A1 A2) by congruence. apply list_elem_of_here.
Qed.

Lemma single_scheduled_run_witness :
  (length (filter (λ r, is_scheduled r && run_is_active r && bool_decide (ar_source_id r = "a"%string))
    (map_to_list (acquisition_runs (run_monitoring_ops sample_monitoring_ops sample_monitoring))).*2) ≤ 1)%nat ∧
  ar_status <$> acquisition_runs (run_monitoring_ops sample_monitoring_ops sample_monitoring) !! "run-a"%string
    = Some "fetch_failed"%string.
Proof.
  split; [|by vm_compute].
  apply (single_scheduled_run sample_monitoring_ops sample_monitoring "a"); [exact sample_monitoring_wf|].
  repeat constructor.
Defined.

(** The life of an acquisition run: over any history its source, trigger, parent, query, input
    cursor and creation never change, its attempts never decrease, and once it has ended its row is
    frozen: late completions, failures, starts and recoveries leave it alone.  The one exception is a
    query-time run, whose end its own caller writes. *)
Theorem acquisition_run_lifecycle ops db k r :
  monitoring_wf db → Forall op_ok ops → acquisition_runs db !! k = Some r →
  ∃ r', acquisition_runs (run_monitoring_ops ops db) !! k = Some r' ∧ run_extends r r' ∧ run_row_ok r' ∧
    (run_is_terminal r = true → k ∉ queries_of ops → r' = r).
Proof.
  intros Hwf Hops Hr.
  destruct (run_monitoring_ops_good (queries_of ops) ops db Hwf Hops ltac:(done)) as [Hwf' [_ Hstep]].
  destruct (Hstep k r Hr) as (r'&Hr'&He&Hf). exists r'. split; [done|]. split; [done|].
  split; [|done]. by apply (mw_run _ Hwf' k).
Qed.

Lemma acquisition_run_lifecycle_witness :
  let db := run_monitoring_ops sample_monitoring_ops sample_monitoring in
  let late := [OpComplete "run-a" [] None 3 true 5000000; OpStart "run-a" 6000000] in
  acquisition_runs (run_monitoring_ops late db) !! "run-a"%string = acquisition_runs db !! "run-a"%string ∧
  is_Some (acquisition_runs db !! "run-a"%string).
Proof.
  set (db := run_monitoring_ops sample_monitoring_ops sample_monitoring).
  set (late := [OpComplete "run-a" [] None 3 true 5000000; OpStart "run-a" 6000000]). cbv zeta.
  assert (monitoring_wf db) as Hwf.
  { apply (run_monitoring_ops_good (queries_of sample_monitoring_ops)); [exact sample_monitoring_wf|repeat constructor|done]. }
  destruct (acquisition_runs db !! "run-a"%string) as [r|] eqn:Hr; [|vm_compute in Hr; discriminate].
  assert (run_is_terminal r = true) as Ht by (vm_compute in Hr; injection Hr as <-; by vm_compute).
  destruct (acquisition_run_lifecycle late db "run-a" r Hwf ltac:(repeat constructor) Hr) as (r'&Hr'&_&_&Hf).
  split; [|by eexists]. rewrite Hr', (Hf Ht); [done|]. apply not_elem_of_nil.
Defined.

(** One tick of the scheduler: the sources it selects are idle, enabled, due and out of backoff,
    and none of those is passed over when the limit leaves room and its row is free.  For each of them,
    in one step, it queues a run that starts from the source's cursor, moves the due time one interval
    ahead, and writes the event that asks a worker for this run; no other row changes.  A scheduled
    source is not selected again while its run is active. *)
Theorem schedule_due_spec fresh_run fresh_event instant limit locked source_ids db ids db' :
  monitoring_wf db →
  schedule_due_sources fresh_run fresh_event instant limit locked source_ids db = (Ok ids, db') →
  let due := select_due instant limit locked source_ids db in
  (∀ p, p ∈ due → pair_in db p ∧ is_due instant source_ids db p = true ∧ locked (pair_key p) = false) ∧
  ((size (source_states db) ≤ limit)%nat → ∀ p, pair_in db p → is_due instant source_ids db p = true →
    locked (pair_key p) = false → p ∈ due) ∧
  ids = run_of fresh_run <$> due ∧ NoDup ids ∧ (∀ id, id ∈ ids → acquisition_runs db !! id = None) ∧
  db' = scheduled_db fresh_run fresh_event instant due db ∧
  (∀ p, p ∈ due → instant < due_after instant p ∧
    ∀ instant' limit' locked' source_ids' q,
      q ∈ select_due instant' limit' locked' source_ids' db' → pair_key q ≠ pair_key p).
Proof.
  intros Hwf H due. unfold schedule_due_sources in H. apply bind_Ok in H as (s0&s1&H0&H).
  apply get_store_Ok in H0 as [-> ->]. fold due in H.
  assert (∀ p, p ∈ due → pair_in db p ∧ is_due instant source_ids db p = true ∧ locked (pair_key p) = false) as Hsel
    by (intros p; by apply elem_of_select_due).
  destruct (schedule_loop_Ok fresh_run fresh_event instant [] due db ids db' Hwf) with (3 := H)
    as (->&->&[Hwf' _]&Hnd&Hall); [by apply NoDup_select_due| |].
  { intros p Hp. split; [by apply Hsel|by eapply select_due_idle]. }
  split; [done|]. split; [intros; by apply select_due_complete|]. split; [done|]. split; [done|].
  split; [intros id (p&->&Hp)%list_elem_of_fmap; by apply Hall|]. split; [done|].
  intros p Hp. split.
  - destruct (Hall p Hp) as [_ Hi]. unfold due_after. unfold schedule_interval_seconds in *.
    destruct (int_of_number _) as [[n|]|]; simpl in *; [|done..]. destruct (Z.leb_spec n 0); [done|lia].
  - intros instant' limit' locked' ids' q Hq Heq.
    pose proof (select_due_idle _ _ _ _ _ Hwf' _ Hq) as Hidle. rewrite Heq in Hidle.
    assert (acquisition_runs (scheduled_db fresh_run fresh_event instant due db) !! run_of fresh_run p
      = Some (queued_run (run_of fresh_run p) p instant)) as Hrun.
    { unfold scheduled_db, new_runs. simpl. apply lookup_union_Some_l, elem_of_list_to_map_1.
      - rewrite <- list_fmap_compose. exact Hnd.
      - by apply (list_elem_of_fmap_2 (λ p, (run_of fresh_run p, queued_run (run_of fresh_run p) p instant))). }
    by destruct (has_active_run_false _ _ _ _ Hidle Hrun).
Qed.

Lemma schedule_due_spec_witness :
  let r := schedule_due_sources (fresh_for "run-") (fresh_for "event-") 1000000 10 (λ _, false) None sample_monitoring in
  r.1 = Ok ["run-a"%string] ∧ NoDup ["run-a"%string].
Proof.
  destruct (schedule_due_sources (fresh_for "run-") (fresh_for "event-") 1000000 10 (λ _, false) None sample_monitoring)
    as [[ids|e] db'] eqn:Hrun.
  - pose proof (f_equal fst Hrun) as Hids. vm_compute in Hids. injection Hids as <-. split; [done|].
    by apply (schedule_due_spec _ _ _ _ _ _ _ _ _ sample_monitoring_wf Hrun).
  - pose proof (f_equal fst Hrun) as Hids. vm_compute in Hids. discriminate.
Defined.

(** A failure only delays: when a worker reports a failure of its running run, the run ends with
    the status of the failure and the source's next due time moves to the later of its normal cadence and
    the backoff, never earlier; the scheduler does not select the source before the backoff has passed.
    The backoff is at least a minute, at least what the provider asked for, and for transport failures
    grows with their number up to an hour. *)
Theorem failure_backoff run_id exc failures failure instant db db' run state :
  monitoring_wf db → classify_source_failure exc failures = Ok failure →
  acquisition_runs db !! run_id = Some run → ar_status run = "running"%string →
  source_states db !! ar_source_id run = Some state →
  fail_acquisition_run run_id failure instant db = (Ok tt, db') →
  let backoff_until := instant + af_backoff_seconds failure * 1000000 in
  acquisition_runs db' !! run_id = Some (set_failed instant failure run) ∧
  (∃ next, source_states db' !! ar_source_id run = Some (set_backoff backoff_until state) ∧
    ss_next_due_at (set_backoff backoff_until state) = Some next ∧ backoff_until ≤ next ∧
    ∀ t, ss_next_due_at state = Some t → t ≤ next) ∧
  (∀ instant' limit locked ids q, instant' < backoff_until →
    q ∈ select_due instant' limit locked ids db' → pair_key q ≠ ar_source_id run) ∧
  60 ≤ af_backoff_seconds failure ∧
  (∀ text seconds, exc = SourceRateLimited text (Some (JInt seconds)) → seconds ≤ af_backoff_seconds failure) ∧
  (∀ text, exc = SourceFetchFailed text → af_backoff_seconds failure ≤ 3600 ∧
    ∀ more later, failures ≤ more → classify_source_failure exc more = Ok later →
      af_backoff_seconds failure ≤ af_backoff_seconds later).
Proof.
  intros Hwf Hclass Hrun Hst Hstate H. cbv zeta.
  pose proof (fail_good [] _ _ _ _ _ _ Hwf (classify_terminal _ _ _ Hclass) H) as [Hwf' _].
  unfold fail_acquisition_run, locked_run_and_state in H. revert H. run_step. rewrite Hrun. cbv beta iota.
  rewrite Hstate. cbn [fst snd]. intros H.
  assert (run_is_terminal run = false) as Ht by (unfold run_is_terminal; rewrite Hst; by vm_compute).
  rewrite Ht, Hst in H. rewrite bool_decide_eq_false_2 in H by (intros Hne; by apply Hne).
  destruct (add_seconds instant (af_backoff_seconds failure)) as [t|e] eqn:Hadd; [|discriminate].
  apply add_seconds_Ok in Hadd as ->. unfold put_state, put_run, modify in H. injection H as <-.
  destruct (mw_run _ Hwf _ _ Hrun) as (Hid&Hsrc&_). destruct (mw_state _ Hwf _ _ Hstate) as [Hsid _].
  set (t := instant + af_backoff_seconds failure * 1000000) in *.
  split; [simpl; by rewrite Hid, lookup_insert_eq|]. split.
  { eexists. split; [simpl; by rewrite Hsid, lookup_insert_eq|]. simpl. split; [done|].
    destruct (ss_next_due_at state) as [t0|]; (split; [lia|]); intros ? [= <-]; lia. }
  split.
  { intros instant' limit locked ids q Hlt Hq Heq.
    apply elem_of_select_due in Hq as ([_ Hq]&Hdue&_); [|exact Hwf']. rewrite Heq in Hq.
    cbn [source_states with_states with_runs ss_source_id set_backoff] in Hq.
    rewrite Hsid, lookup_insert_eq in Hq. injection Hq as Hq.
    unfold is_due in Hdue. rewrite !andb_true_iff, <- Hq in Hdue. destruct Hdue as [[[_ Hb] _] _].
    simpl in Hb. apply Z.leb_le in Hb. lia. }
  assert (∀ n m, n ≤ m → 60 ≤ Z.min (5 * 60 * 2 ^ Z.min (Z.max n 0) 4) (60 * 60)
    ≤ Z.min (5 * 60 * 2 ^ Z.min (Z.max m 0) 4) (60 * 60)) as Hpow.
  { intros n m Hnm. assert (2 ^ Z.min (Z.max n 0) 4 ≤ 2 ^ Z.min (Z.max m 0) 4) by (apply Z.pow_le_mono_r; lia).
    assert (0 < 2 ^ Z.min (Z.max n 0) 4) by (apply Z.pow_pos_nonneg; lia). lia. }
  split; [|split].
  - destruct exc; simpl in Hclass; try (injection Hclass as <-; simpl; lia).
    apply result_bind_Ok in Hclass as (s&_&[= <-]). simpl. destruct s; lia.
  - intros text seconds ->. simpl in Hclass. injection Hclass as <-. simpl. lia.
  - intros text ->. simpl in Hclass. injection Hclass as <-. split; [simpl; lia|].
    intros more later Hmore [= <-]. cbn [af_backoff_seconds]. by apply Hpow.
Qed.

Lemma failure_backoff_witness :
  let db := run_monitoring_ops (take 2 sample_monitoring_ops) sample_monitoring in
  ∃ db', fail_acquisition_run "run-a" (mkAcquisitionFailure "fetch_failed" "source_fetch_failed" "reset" 600) 3000000 db
      = (Ok tt, db') ∧
    ar_status <$> acquisition_runs db' !! "run-a"%string = Some "fetch_failed"%string.
Proof.
  set (db := run_monitoring_ops (take 2 sample_monitoring_ops) sample_monitoring). cbv zeta.
  assert (monitoring_wf db) as Hwf.
  { apply (run_monitoring_ops_good (queries_of (take 2 sample_monitoring_ops)));
      [exact sample_monitoring_wf|repeat constructor|done]. }
  set (failure := mkAcquisitionFailure "fetch_failed" "source_fetch_failed" "reset" 600).
  destruct (fail_acquisition_run "run-a" failure 3000000 db) as [[[]|e] db'] eqn:Hrun;
    [|pose proof (f_equal fst Hrun) as Hr; vm_compute in Hr; discriminate].
  exists db'. split; [done|].
  destruct (acquisition_runs db !! "run-a"%string) as [run|] eqn:Hr; [|vm_compute in Hr; discriminate].
  assert (ar_status run = "running"%string ∧ ar_source_id run = "a"%string) as [Hst Hsrc]
    by (vm_compute in Hr; injection Hr as <-; by vm_compute).
  destruct (source_states db !! "a"%string) as [state|] eqn:Hs; [|vm_compute in Hs; discriminate].
  rewrite <- Hsrc in Hs.
  destruct (failure_backoff "run-a" (SourceFetchFailed "reset") 1 failure 3000000 db db' run state
    Hwf eq_refl Hr Hst Hs Hrun) as [-> _]. done.
Defined.

Lemma nonnegative_int_Ok v n : nonnegative_int v = Ok (Some n) → 0 ≤ n.
Proof.
  unfold nonnegative_int. destruct (v ≫= int_of_number) as [[z|[]]|]; try discriminate.
  intros [= H]. destruct (Z.leb_spec 0 z); naive_solver.
Qed.

Lemma positive_int_Ok v n : positive_int v = Ok (Some n) → 0 < n.
Proof.
  unfold positive_int. intros ([z|]&_&H)%result_bind_Ok; [|discriminate].
  destruct (Z.ltb_spec 0 z); injection H; [lia|done].
Qed.

(** The pace leaves the reserve alone: the runs it allows before the reset cost at most what is left. *)
Lemma adaptive_interval_pace remaining reset_epoch cost reserve min_interval safety now :
  0 ≤ reserve → 0 < cost → 0 < min_interval → 0 ≤ safety → reset_epoch - now < 2 ^ 53 →
  let interval := adaptive_interval remaining reset_epoch cost reserve min_interval safety now in
  min_interval ≤ interval ∧
  ∀ j, 1 ≤ j → now + j * interval < reset_epoch → reserve ≤ remaining - j * cost.
Proof.
  intros Hres Hcost Hmin Hsafe Hbound interval. unfold interval, adaptive_interval. clear interval.
  set (s := Z.max 0 (reset_epoch - now)). set (avail := Z.max 0 (remaining - reserve)).
  destruct (Z.ltb_spec avail cost) as [Hlt|Hge].
  { split; [lia|]. intros j Hj Hj2. nia. }
  assert (avail = remaining - reserve) as Ha by lia.
  set (runs := Z.max 1 (avail / cost)).
  assert (runs * cost ≤ avail) as Hruns.
  { pose proof (Z.mul_div_le avail cost Hcost). assert (1 ≤ avail / cost) by (apply Z.div_le_lower_bound; lia). nia. }
  destruct (Z.eqb_spec s 0) as [Hs|Hs].
  { split; [lia|]. intros j Hj Hj2. nia. }
  assert (s ≤ runs * ceil_true_div s runs) as Hcov by (apply ceil_true_div_covers; lia).
  split; [lia|]. intros j Hj Hj2.
  set (interval := Z.max min_interval (ceil_true_div s runs)) in *.
  assert (j * interval < runs * interval) as Hlt by nia.
  assert (j < runs) by (apply Z.mul_lt_mono_pos_r with interval; lia). nia.
Qed.

(** Adaptive pacing respects the provider's quota: when the quota of a source gives the next due
    time, this is at least the configured minimal interval ahead, and a source that keeps polling at this
    pace, each time at the cost of the last run, never cuts into the reserved requests before the quota
    resets.  The division of the code is a float division; its rounding does no harm below 2^53 seconds. *)
Theorem adaptive_pacing policy rate_state instant due :
  adaptive_rate_limit_due_at policy rate_state instant = Ok (Some due) →
  ∃ remaining reset_epoch cost reserve min_interval safety interval,
    nonnegative_int (dict_get "remaining" rate_state) = Ok (Some remaining) ∧
    nonnegative_int (dict_get "reset_epoch" rate_state) = Ok (Some reset_epoch) ∧
    positive_int (dict_get "requests_made" rate_state) = Ok (Some cost) ∧
    nonnegative_int (dict_get "reserve_requests" policy) = Ok reserve ∧
    positive_int (dict_get "min_interval_seconds" policy) = Ok min_interval ∧
    nonnegative_int (dict_get "reset_safety_seconds" policy) = Ok safety ∧
    due = instant + interval * 1000000 ∧ due ≤ MAX_INSTANT ∧
    (reset_epoch - timestamp_int instant < 2 ^ 53 →
      default 60 min_interval ≤ interval ∧
      (remaining - default 0 reserve < cost → reset_epoch ≤ timestamp_int instant + interval) ∧
      ∀ j, 1 ≤ j → timestamp_int instant + j * interval < reset_epoch →
        default 0 reserve ≤ remaining - j * cost).
Proof.
  unfold adaptive_rate_limit_due_at. destruct (bool_decide _); [discriminate|].
  intros (remaining&H1&H)%result_bind_Ok. apply result_bind_Ok in H as (reset_epoch&H2&H).
  apply result_bind_Ok in H as (cost&H3&H).
  destruct remaining as [remaining|], reset_epoch as [reset_epoch|], cost as [cost|]; try discriminate.
  apply result_bind_Ok in H as (reserve&H4&H). apply result_bind_Ok in H as (mi&H5&H).
  apply result_bind_Ok in H as (safety&H6&H). apply result_bind_Ok in H as (d&H7&[= <-]).
  pose proof (positive_int_Ok _ _ H3) as Hcost.
  assert (int_or reserve 0 = default 0 reserve) as E4.
  { unfold int_or. destruct reserve as [z|]; simpl; [|done]. by destruct (Z.eqb_spec z 0). }
  assert (int_or mi 60 = default 60 mi ∧ 0 < default 60 mi) as [E5 Hmi].
  { unfold int_or. destruct mi as [z|]; simpl; [|done]. pose proof (positive_int_Ok _ _ H5).
    destruct (Z.eqb_spec z 0); lia. }
  assert (0 ≤ default 0 reserve) as Hres by (destruct reserve; simpl; [by apply (nonnegative_int_Ok _ _ H4)|done]).
  assert (0 ≤ int_or safety 5) as Hsafe.
  { unfold int_or. destruct safety as [z|]; [|done]. pose proof (nonnegative_int_Ok _ _ H6). destruct (z =? 0); lia. }
  set (interval := adaptive_interval _ _ _ _ _ _ _) in H7.
  exists remaining, reset_epoch, cost, reserve, mi, safety, interval.
  repeat (split; [assumption|]). split; [by apply add_seconds_Ok in H7|]. split.
  { unfold add_seconds in H7. destruct (_ || _) eqn:Hr in H7; [discriminate|]. injection H7 as <-.
    apply orb_false_iff in Hr as [_ Hr]. lia. }
  intros Hb. rewrite <- E5, <- E4 in *.
  destruct (adaptive_interval_pace remaining reset_epoch cost (int_or reserve 0) (int_or mi 60) (int_or safety 5)
    (timestamp_int instant)) as [Hp1 Hp2]; [done..|]. split; [exact Hp1|]. split; [|exact Hp2].
  intros Hlow. unfold interval, adaptive_interval. rewrite (proj2 (Z.ltb_lt _ _)) by lia. lia.
Qed.

Definition sample_rate_policy : dict :=
  [("adaptive_schedule"%string, JBool true); ("reserve_requests"%string, JInt 10);
   ("min_interval_seconds"%string, JStr "30")].
Definition sample_rate_state : dict :=
  [("remaining"%string, JInt 50); ("reset_epoch"%string, JInt 3600); ("requests_made"%string, JInt 7)].

Lemma adaptive_pacing_witness :
  adaptive_rate_limit_due_at sample_rate_policy sample_rate_state 0 = Ok (Some 720000000) ∧ 720000000 ≤ MAX_INSTANT.
Proof.
  split; [by vm_compute|].
  destruct (adaptive_pacing sample_rate_policy sample_rate_state 0 720000000) as (?&?&?&?&?&?&?&?&?&?&?&?&?&?&H&_);
    [by vm_compute|exact H].
Defined.

Lemma has_live_delivery_app threshold id db e :
  e ∈ outbox_events db → aggregate_id e = id → topic e = "collection.requested"%string →
  ob_status e = PENDING → has_live_delivery threshold id db = true.
Proof.
  intros He Ha Ht Hs. apply existsb_exists. exists e. split; [by apply list_elem_of_In|].
  rewrite !bool_decide_eq_true_2 by done. done.
Qed.

(** No scheduled run is lost: one pass of the recovery selects only runs without a live path to a
    worker - running since before the threshold, or queued by the scheduler with no pending or recent
    delivery - and never a run driven by an operator, and with room in the limit it selects every such
    run whose row is free.  Each of them is queued again and gets a new pending event, attempts and
    inputs unchanged; nothing else changes, and until that event is delivered the run is not recovered a
    second time. *)
Theorem recover_stale_spec fresh_event instant timeout limit locked run_ids db ids db' :
  monitoring_wf db →
  recover_stale_acquisition_runs fresh_event instant timeout limit locked run_ids db = (Ok ids, db') →
  let threshold := instant - timeout * 1000000 in
  let stale := select_stale_runs threshold limit locked run_ids db in
  (∀ r, r ∈ stale → acquisition_runs db !! ar_run_id r = Some r ∧
    stale_here threshold locked run_ids db r = true ∧ run_is_active r = true ∧ worker_driven r = true) ∧
  ((size (acquisition_runs db) ≤ limit)%nat → ∀ k r, acquisition_runs db !! k = Some r →
    stale_here threshold locked run_ids db r = true → r ∈ stale) ∧
  ids = ar_run_id <$> stale ∧ NoDup ids ∧ db' = requeued_db fresh_event instant stale db ∧
  (∀ r, r ∈ stale → acquisition_runs db' !! ar_run_id r = Some (set_requeued r) ∧
    ∀ threshold' locked' run_ids', stale_here threshold' locked' run_ids' db' (set_requeued r) = false).
Proof.
  intros Hwf H threshold stale.
  destruct (recover_Ok [] _ _ _ _ _ _ _ _ _ Hwf H) as (->&->&_). fold threshold. fold stale.
  assert (NoDup (ar_run_id <$> stale)) as Hnd by by apply NoDup_select_stale_runs.
  assert (∀ r, r ∈ stale → acquisition_runs db !! ar_run_id r = Some r ∧
    stale_here threshold locked run_ids db r = true) as Hsel by (intros r; by apply elem_of_select_stale_runs).
  split.
  { intros r Hr. destruct (Hsel r Hr) as [H1 H2]. split; [done|]. split; [done|].
    split; [by eapply stale_run_active|]. unfold stale_here, is_stale_run in H2.
    by apply andb_true_iff in H2 as [[[? _]%andb_true_iff _]%andb_true_iff _]. }
  split; [intros; by eapply select_stale_runs_complete|]. split; [done|]. split; [done|]. split; [done|].
  intros r Hr. split.
  - unfold requeued_db, requeued_runs. simpl. apply lookup_union_Some_l, elem_of_list_to_map_1.
    + rewrite <- list_fmap_compose. exact Hnd.
    + by apply (list_elem_of_fmap_2 (λ r, (ar_run_id r, set_requeued r))).
  - intros threshold' locked' run_ids'. unfold stale_here, is_stale_run. simpl.
    rewrite (has_live_delivery_app threshold' (ar_run_id r) _
      (collection_requested (fresh_event (ar_run_id r)) (ar_run_id r) instant)); [|simpl|done..].
    + by rewrite !andb_false_r.
    + apply elem_of_app. right.
      by apply (list_elem_of_fmap_2 (λ r, collection_requested (fresh_event (ar_run_id r)) (ar_run_id r) instant)).
Qed.

(** A worker that stopped: the run it had started is queued again after fifteen minutes. *)
Definition sample_lost : MonitoringDB :=
  run_monitoring_ops [OpSchedule (fresh_for "run-") (fresh_for "event-") 1000000 10 (λ _, false) None;
    OpStart "run-a" 2000000; OpEndQuery "q" (inl 2) 4000000] sample_monitoring.

Lemma recover_stale_spec_witness :
  let r := recover_stale_acquisition_runs (fresh_for "retry-") 1000000000 900 10 (λ _, false) None sample_lost in
  r.1 = Ok ["run-a"%string] ∧ NoDup ["run-a"%string].
Proof.
  assert (monitoring_wf sample_lost) as Hwf.
  { apply (run_monitoring_ops_good ["q"%string]); [exact sample_monitoring_wf|repeat constructor|done]. }
  destruct (recover_stale_acquisition_runs (fresh_for "retry-") 1000000000 900 10 (λ _, false) None sample_lost)
    as [[ids|e] db'] eqn:Hrun.
  - pose proof (f_equal fst Hrun) as Hids. vm_compute in Hids. injection Hids as <-. split; [done|].
    by apply (recover_stale_spec _ _ _ _ _ _ _ _ _ Hwf Hrun).
  - pose proof (f_equal fst Hrun) as Hids. vm_compute in Hids. discriminate.
Defined.

(** A query-time run that outlives the timeout is requeued for the collection workers: their start hands
    it to the collector with the empty cursor of the query. *)
Example recovery_requeues_query_run :
  let r := recover_stale_acquisition_runs (fresh_for "retry-") 1000000000 900 10 (λ _, false) None sample_monitoring in
  r.1 = Ok ["q"%string] ∧
  ∃ c, (start_acquisition_run "q" 1100000000 r.2).1 = Ok (Some c) ∧ ac_trigger c = ON_DEMAND ∧
    sc_cursor (ac_state c) = [].
Proof. split; [by vm_compute|]. eexists. split; [vm_compute; reflexivity|done]. Qed.

(** A failure gives a due time to a source whose schedule is switched off. *)
Example failure_schedules_disabled_source :
  let db := with_states (insert "a"%string (new_state "a" None))
    (run_monitoring_ops (take 2 sample_monitoring_ops) sample_monitoring) in
  let r := fail_acquisition_run "run-a" (mkAcquisitionFailure "fetch_failed" "x" "y" 300) 3000000 db in
  ss_next_due_at <$> source_states r.2 !! "a"%string = Some (Some 303000000).
Proof. by vm_compute. Qed.
