(* ===== verification/Vocabulary.v ===== *)
(** * Vocabulary: packages/intelligence/knowledge (vocabulary.py, identity.py, contracts.py)

    The closed vocabulary of the knowledge base: which predicates and relation types exist, which object types
    they connect and which qualifiers they need ([CANONICAL_TERMS]), how a term is classified
    ([classify_term]), the identity of objects, and the candidates a processor hands to the writer. *)

From S2P Require Import Prelude.
From S2P Require Import Effects.
From Stdlib Require Import Ascii.

Abbreviation dict := (list (string * json)).

(** ** contracts.py *)

Inductive KnowledgeOrigin := SOURCE_ASSERTED | DETERMINISTIC_DERIVED | SEMANTIC_DERIVED.
#[export] Instance KnowledgeOrigin_eq_dec : EqDecision KnowledgeOrigin.
Proof. solve_decision. Defined.

Record EvidenceAnchor := mkEvidenceAnchor { ea_observation_id : string; ea_artifact_id : option string }.

Record ObjectCandidate := mkObjectCandidate {
  oc_object_type : string;
  oc_canonical_key : string;
  oc_properties : dict;
  oc_identifiers : list (string * list string)
}.

Record ClaimCandidate := mkClaimCandidate {
  cl_predicate : string;
  cl_value : json;
  cl_qualifier : dict;
  cl_locator : dict
}.

Record RelationCandidate := mkRelationCandidate {
  rc_relation_type : string;
  rc_target : ObjectCandidate;
  rc_qualifier : dict;
  rc_locator : dict
}.

Record EnrichmentCandidate := mkEnrichmentCandidate {
  root_object : option ObjectCandidate;
  root_identifiers : list (string * list string);
  ec_claims : list ClaimCandidate;
  ec_relations : list RelationCandidate;
  replace_predicates : list string;
  replace_relation_types : list string
}.

(** ** vocabulary.py *)

Definition VOCABULARY_REVISION : string := "enrichment-v1".

Inductive EnrichmentDimension :=
| IDENTITY | SEVERITY | WEAKNESS | PRODUCT_PACKAGE | VERSION_APPLICABILITY | FIX_REMEDIATION | EXPLOIT_STATE
| EXPLOIT_LIKELIHOOD | ADVISORY_REFERENCE | ASSET_EXPOSURE | RESEARCH_PAPER | INCIDENT_CONTEXT.

Inductive VocabularyScope := SC_CANONICAL | SC_SOURCE_SPECIFIC | SC_EXPLORATORY | SC_UNREGISTERED.
#[export] Instance VocabularyScope_eq_dec : EqDecision VocabularyScope.
Proof. solve_decision. Defined.
Definition VocabularyScope_value (s : VocabularyScope) : string :=
  match s with
  | SC_CANONICAL => "canonical" | SC_SOURCE_SPECIFIC => "source_specific" | SC_EXPLORATORY => "exploratory"
  | SC_UNREGISTERED => "unregistered"
  end.

Inductive term_kind := K_CLAIM | K_RELATION.
#[export] Instance term_kind_eq_dec : EqDecision term_kind.
Proof. solve_decision. Defined.

Record VocabularyTerm := mkVocabularyTerm {
  term_name : string;
  kind : term_kind;
  dimension : EnrichmentDimension;
  benchmarked : bool;
  subject_types : list string;
  target_types : list string;
  required_qualifier_keys : list string
}.

(** [_claim], [_relation] *)
Definition claim_term (name : string) (d : EnrichmentDimension) (benchmarked : bool) (subjects required : list string)
  : VocabularyTerm := mkVocabularyTerm name K_CLAIM d benchmarked subjects [] required.
Definition relation_term (name : string) (d : EnrichmentDimension) (benchmarked : bool)
  (subjects targets required : list string) : VocabularyTerm :=
  mkVocabularyTerm name K_RELATION d benchmarked subjects targets required.

Definition CANONICAL_TERMS : list VocabularyTerm := [
  claim_term "external-identifier" IDENTITY false [] [];
  claim_term "cvss_score" SEVERITY true ["Vulnerability"%string] [];
  claim_term "cvss_vector" SEVERITY true ["Vulnerability"%string] [];
  claim_term "cvss_version" SEVERITY true ["Vulnerability"%string] [];
  claim_term "cvss_severity" SEVERITY true ["Vulnerability"%string] [];
  relation_term "has-weakness" WEAKNESS true ["Vulnerability"%string] ["Weakness"%string] [];
  relation_term "affects-package" PRODUCT_PACKAGE true ["Vulnerability"%string] ["Package"%string] [];
  relation_term "affects-product" PRODUCT_PACKAGE true ["Vulnerability"%string] ["Product"%string] [];
  relation_term "applicability-status" VERSION_APPLICABILITY true ["Vulnerability"%string] ["Product"%string; "Package"%string; "SoftwareVersion"%string] ["state"%string; "source_semantics"%string];
  relation_term "fixed-by" FIX_REMEDIATION true ["Vulnerability"%string] ["Commit"%string] [];
  relation_term "fixed-version" FIX_REMEDIATION true ["Vulnerability"%string] ["SoftwareVersion"%string] [];
  relation_term "release-contains-commit" FIX_REMEDIATION false ["Release"%string] ["Commit"%string] [];
  relation_term "belongs-to-repo" FIX_REMEDIATION false ["Issue"%string; "PullRequest"%string; "Commit"%string; "Release"%string] ["Repo"%string] [];
  relation_term "merged-as" FIX_REMEDIATION false ["PullRequest"%string] ["Commit"%string] [];
  relation_term "head-commit" FIX_REMEDIATION false ["PullRequest"%string] ["Commit"%string] [];
  relation_term "has-parent-commit" FIX_REMEDIATION false ["Commit"%string] ["Commit"%string] [];
  relation_term "references-development-object" FIX_REMEDIATION false ["Vulnerability"%string] ["Issue"%string; "PullRequest"%string; "Commit"%string; "Release"%string] [];
  claim_term "workaround" FIX_REMEDIATION false ["Vulnerability"%string] [];
  claim_term "mitigation" FIX_REMEDIATION false ["Vulnerability"%string] [];
  claim_term "known_exploited" EXPLOIT_STATE true ["Vulnerability"%string] [];
  claim_term "poc_available" EXPLOIT_STATE false ["Vulnerability"%string] [];
  relation_term "has-poc" EXPLOIT_STATE true ["Vulnerability"%string] ["ExploitArtifact"%string] [];
  claim_term "exploit_maturity" EXPLOIT_STATE true ["Vulnerability"%string] [];
  claim_term "attack_condition" EXPLOIT_STATE false ["Vulnerability"%string] [];
  claim_term "epss_probability" EXPLOIT_LIKELIHOOD true ["Vulnerability"%string] [];
  claim_term "epss_percentile" EXPLOIT_LIKELIHOOD true ["Vulnerability"%string] [];
  relation_term "described-by" ADVISORY_REFERENCE true ["Vulnerability"%string] ["Document"%string] [];
  relation_term "vendor-advisory" ADVISORY_REFERENCE true ["Vulnerability"%string] ["Document"%string] [];
  relation_term "asset-runs-product" ASSET_EXPOSURE false ["InternetAsset"%string] ["Product"%string] [];
  relation_term "asset-version" ASSET_EXPOSURE false ["InternetAsset"%string] ["SoftwareVersion"%string] [];
  relation_term "asset-potentially-affected" ASSET_EXPOSURE true ["InternetAsset"%string] ["Vulnerability"%string] [];
  relation_term "discusses-vulnerability" RESEARCH_PAPER true ["ResearchWork"%string; "Document"%string] ["Vulnerability"%string] [];
  relation_term "evaluates-attack" RESEARCH_PAPER false ["ResearchWork"%string; "Document"%string] [] [];
  relation_term "evaluates-defense" RESEARCH_PAPER false ["ResearchWork"%string; "Document"%string] [] [];
  relation_term "supports" RESEARCH_PAPER false ["ResearchWork"%string; "Document"%string] [] [];
  relation_term "contradicts" RESEARCH_PAPER false ["ResearchWork"%string; "Document"%string] [] [];
  relation_term "extends" RESEARCH_PAPER false ["ResearchWork"%string; "Document"%string] [] [];
  relation_term "incident-exploits-vulnerability" INCIDENT_CONTEXT false [] ["Vulnerability"%string] [];
  relation_term "incident-affects-object" INCIDENT_CONTEXT false [] [] []
].

Definition SOURCE_SPECIFIC_CLAIMS : list string :=
  ["status"%string; "title"%string; "description_en"%string; "assigner"%string; "affected_products"%string;
   "references"%string; "exploit_references"%string; "published"%string; "last_modified"%string; "cwes"%string].
Definition SOURCE_SPECIFIC_PREFIXES : list string :=
  ["github_"%string; "osv_"%string; "kev_"%string; "cnvd_"%string; "cnnvd_"%string].
Definition CANONICAL_OBJECT_TYPES : list string :=
  ["Vulnerability"%string; "Product"%string; "Package"%string; "SoftwareVersion"%string; "InternetAsset"%string;
   "Repo"%string; "Issue"%string; "PullRequest"%string; "Commit"%string; "Release"%string; "ResearchWork"%string;
   "Document"%string; "Weakness"%string; "ExploitArtifact"%string].

(** [canonical_term]: the last term of that kind and name. *)
Definition canonical_term (k : term_kind) (name : string) : option VocabularyTerm :=
  find (λ t, bool_decide (kind t = k) && bool_decide (term_name t = name)) (rev CANONICAL_TERMS).

Definition startswith_any (s : string) (prefixes : list string) : bool :=
  existsb (λ p, match strip_prefix p s with Some _ => true | None => false end) prefixes.

(** An optional argument against an optional restriction. *)
Definition type_matches (allowed : list string) (given : option string) : bool :=
  bool_decide (allowed = []) || match given with None => true | Some t => bool_decide (t ∈ allowed) end.
Definition qualifier_matches (required : list string) (given : option (list string)) : bool :=
  match given with
  | None => true
  | Some keys => bool_decide (required = []) || forallb (λ k, bool_decide (k ∈ keys)) required
  end.

Definition classify_term (k : term_kind) (name : string) (origin : KnowledgeOrigin) (subject_type target_type : option string)
  (qualifier_keys : option (list string)) : VocabularyScope :=
  match canonical_term k name with
  | Some term =>
      if type_matches (subject_types term) subject_type && type_matches (target_types term) target_type
         && qualifier_matches (required_qualifier_keys term) qualifier_keys
      then SC_CANONICAL
      else if bool_decide (origin = SEMANTIC_DERIVED) then SC_EXPLORATORY else SC_UNREGISTERED
  | None =>
      if bool_decide (k = K_CLAIM)
         && (bool_decide (name ∈ SOURCE_SPECIFIC_CLAIMS) || startswith_any name SOURCE_SPECIFIC_PREFIXES)
      then SC_SOURCE_SPECIFIC
      else if bool_decide (origin = SEMANTIC_DERIVED) then SC_EXPLORATORY else SC_UNREGISTERED
  end.

Definition classify_object_type (object_type : string) (origin : KnowledgeOrigin) : VocabularyScope :=
  if bool_decide (object_type ∈ CANONICAL_OBJECT_TYPES) then SC_CANONICAL
  else if bool_decide (origin = SEMANTIC_DERIVED) then SC_EXPLORATORY else SC_UNREGISTERED.

Definition vocabulary_metadata (scope : VocabularyScope) : dict :=
  [("vocabulary_revision"%string, JStr VOCABULARY_REVISION);
   ("vocabulary_scope"%string, JStr (VocabularyScope_value scope))].

(** ** identity.py

    [str.lower] and [str.upper] on the code points below 256: letters are 32 apart; the capital of sharp s is
    two letters; micro sign and y with diaeresis, whose capitals are above 255, are left as they are. *)

Definition lower_char (c : ascii) : ascii :=
  let n := nat_of_ascii c in
  if ((65 <=? n) && (n <=? 90) || (192 <=? n) && (n <=? 222) && negb (n =? 215))%nat then ascii_of_nat (n + 32) else c.
Definition upper_char (c : ascii) : list ascii :=
  let n := nat_of_ascii c in
  if (n =? 223)%nat then ["S"%char; "S"%char]
  else if ((97 <=? n) && (n <=? 122) || (224 <=? n) && (n <=? 254) && negb (n =? 247))%nat then [ascii_of_nat (n - 32)]
  else [c].
Definition lower (s : string) : string := of_chars (lower_char <$> chars s).
Definition upper (s : string) : string := of_chars (mjoin (upper_char <$> chars s)).

(** [s.split(":", 1)[1]] of a text with a colon. *)
Fixpoint after_colon (s : string) : string :=
  match s with
  | EmptyString => EmptyString
  | String c s' => if bool_decide (c = ":"%char) then s' else after_colon s'
  end.

Definition canonical_cve_id (value : string) : result string :=
  let normalized := upper (py_strip value) in
  if startswith "CVE-" normalized then Ok normalized else Err (ValueError "not a CVE identifier").

Definition cve_canonical_key (cve_id : string) : result string :=
  id ← canonical_cve_id cve_id; Ok ("cve:" +:+ id).

Section identity.
Context (uuid5_url : string → string).
Definition vulnerability_cve_object_id (cve_id : string) : result string :=
  normalized ← canonical_cve_id cve_id;
  Ok (uuid5_url ("secfusion:object:vulnerability:cve:" +:+ normalized)).
Definition stable_object_id (object_type canonical_key : string) : result string :=
  if bool_decide (object_type = "Vulnerability"%string) && startswith "cve:" (lower canonical_key)
  then vulnerability_cve_object_id (after_colon canonical_key)
  else Ok (uuid5_url ("secfusion:object:" +:+ object_type +:+ ":" +:+ canonical_key)).
End identity.

(** [cpe_product_canonical_key]; [sha256_hex] is [sha256(text.encode()).hexdigest()]. *)
Definition cpe_product_canonical_key (sha256_hex : string → string) (part vendor product : string) : result string :=
  let normalized := (λ s, lower (py_strip s)) <$> [part; vendor; product] in
  if existsb (λ s, bool_decide (s ∈ [""%string; "*"%string; "-"%string])) normalized
  then Err (ValueError "CPE product identity requires concrete part/vendor/product")
  else Ok ("product:cpe23-sha256:" +:+ sha256_hex (String.concat "|" normalized)).
