(* ===== verification/Knowledge.v ===== *)
(** * Knowledge: packages/intelligence/knowledge/write.py and its tables

    The evidence-backed knowledge base: objects with external identifiers, claims about objects and relations
    between them, each linked to the observation it comes from.  [apply] is
    [EvidenceBackedKnowledgeWriter.apply], the writer the enrichment processors share: one processing run of one
    observation, in the caller's transaction, under a new knowledge revision.  [run_knowledge_ops] is a history of
    such runs and of stored observations; normalization/nvd_durable.py and documents/service.py write the same tables
    with code of their own and are not part of it.  The read model is in KnowledgeRead.  [KnowledgeStore] holds the tables of storage/knowledge_models.py with the processing runs, the
    observations they refer to and the outbox.  sha256 of JSON and uuid5 are parameters; the number the
    database gives to a revision is an argument of [apply] (a sequence: no number is given twice). *)

From S2P Require Import Prelude.
From S2P Require Import Effects.
From S2P Require Import TaskStore.
From S2P Require Import Outbox.
From S2P Require Import Vocabulary.

(** ** The tables *)

(** The columns of [observations] the reads use. *)
Record ObservationModel := mkObservationModel {
  obs_source_id : string;
  obs_external_object_id : string;
  obs_external_revision : option string;
  obs_published_at : option Z;
  obs_updated_at : option Z;
  obs_observed_at : Z;
  obs_canonical_url : option string
}.

Inductive run_status := RUN_RUNNING | RUN_SUCCESS.
#[export] Instance run_status_eq_dec : EqDecision run_status.
Proof. solve_decision. Defined.

Record ProcessingRunModel := mkProcessingRunModel {
  pr_run_id : string;
  processor_name : string;
  processor_version : string;
  input_revision_ids : list string;
  pr_attempt : Z;
  pr_status : run_status;
  pr_started_at : Z;
  pr_finished_at : option Z;
  pr_error_code : option string
}.

Record KnowledgeRevisionModel := mkKnowledgeRevisionModel {
  kr_revision : Z;
  kr_cause_processing_run_id : string;
  kr_cause_observation_id : string;
  kr_committed_at : Z
}.

Record ObjectModel := mkObjectModel {
  object_id : string;
  object_type : string;
  canonical_key : string;
  properties : dict;
  ob_created_revision : Z
}.

Record ExternalIdentifierModel := mkExternalIdentifierModel {
  external_identifier_id : string;
  namespace : string;
  xi_value : string;
  xi_object_id : string
}.

Record ClaimModel := mkClaimModel {
  claim_id : string;
  subject_id : string;
  predicate : string;
  cm_value : json;
  cm_qualifier : dict;
  cm_origin : KnowledgeOrigin;
  cm_lifecycle : string;
  cm_processing_run_id : string;
  cm_created_revision : Z;
  cm_superseded_revision : option Z
}.

Record RelationModel := mkRelationModel {
  relation_id : string;
  source_object_id : string;
  relation_type : string;
  target_object_id : string;
  rm_qualifier : dict;
  rm_origin : KnowledgeOrigin;
  rm_lifecycle : string;
  rm_processing_run_id : string;
  rm_created_revision : Z;
  rm_superseded_revision : option Z
}.

Inductive target_kind := T_CLAIM | T_RELATION.
#[export] Instance target_kind_eq_dec : EqDecision target_kind.
Proof. solve_decision. Defined.
Definition target_kind_value (k : target_kind) : string :=
  match k with T_CLAIM => "claim" | T_RELATION => "relation" end.

Record EvidenceLinkModel := mkEvidenceLinkModel {
  evidence_link_id : string;
  el_target_kind : target_kind;
  el_target_id : string;
  el_observation_id : string;
  el_artifact_id : option string;
  el_locator : dict;
  locator_hash : string
}.

Record KnowledgeChangeModel := mkKnowledgeChangeModel {
  change_id : string;
  kc_revision : Z;
  changed_objects : list string;
  changed_claims : list string;
  changed_relations : list string;
  kc_cause_processing_run_id : string;
  kc_cause_observation_id : string;
  kc_committed_at : Z
}.

Record KnowledgeStore := mkKnowledgeStore {
  observations : gmap string ObservationModel;
  processing_runs : gmap string ProcessingRunModel;
  revisions : list KnowledgeRevisionModel;
  objects : list ObjectModel;
  identifiers : list ExternalIdentifierModel;
  claims : list ClaimModel;
  relations : list RelationModel;
  links : list EvidenceLinkModel;
  changes : list KnowledgeChangeModel;
  outbox : list OutboxEventModel
}.

Definition put_processing_run (r : ProcessingRunModel) (s : KnowledgeStore) : KnowledgeStore :=
  mkKnowledgeStore (observations s) (<[pr_run_id r := r]> (processing_runs s)) (revisions s) (objects s) (identifiers s)
    (claims s) (relations s) (links s) (changes s) (outbox s).
Definition set_revisions (l : list KnowledgeRevisionModel) (s : KnowledgeStore) : KnowledgeStore :=
  mkKnowledgeStore (observations s) (processing_runs s) l (objects s) (identifiers s) (claims s) (relations s) (links s)
    (changes s) (outbox s).
Definition set_objects (l : list ObjectModel) (s : KnowledgeStore) : KnowledgeStore :=
  mkKnowledgeStore (observations s) (processing_runs s) (revisions s) l (identifiers s) (claims s) (relations s) (links s)
    (changes s) (outbox s).
Definition set_identifiers (l : list ExternalIdentifierModel) (s : KnowledgeStore) : KnowledgeStore :=
  mkKnowledgeStore (observations s) (processing_runs s) (revisions s) (objects s) l (claims s) (relations s) (links s)
    (changes s) (outbox s).
Definition set_claims (l : list ClaimModel) (s : KnowledgeStore) : KnowledgeStore :=
  mkKnowledgeStore (observations s) (processing_runs s) (revisions s) (objects s) (identifiers s) l (relations s) (links s)
    (changes s) (outbox s).
Definition set_relations (l : list RelationModel) (s : KnowledgeStore) : KnowledgeStore :=
  mkKnowledgeStore (observations s) (processing_runs s) (revisions s) (objects s) (identifiers s) (claims s) l (links s)
    (changes s) (outbox s).
Definition set_links (l : list EvidenceLinkModel) (s : KnowledgeStore) : KnowledgeStore :=
  mkKnowledgeStore (observations s) (processing_runs s) (revisions s) (objects s) (identifiers s) (claims s) (relations s) l
    (changes s) (outbox s).
Definition set_changes (l : list KnowledgeChangeModel) (s : KnowledgeStore) : KnowledgeStore :=
  mkKnowledgeStore (observations s) (processing_runs s) (revisions s) (objects s) (identifiers s) (claims s) (relations s)
    (links s) l (outbox s).
Definition set_outbox (l : list OutboxEventModel) (s : KnowledgeStore) : KnowledgeStore :=
  mkKnowledgeStore (observations s) (processing_runs s) (revisions s) (objects s) (identifiers s) (claims s) (relations s)
    (links s) (changes s) l.

(** ** write.py *)

Record NormalizationResult := mkNormalizationResult {
  nr_observation_id : string;
  knowledge_revision : Z;
  nr_committed_at : Z;
  nr_object_ids : list string;
  nr_claim_ids : list string;
  nr_relation_ids : list string;
  nr_processing_run_id : string
}.

(** [_result] *)
Definition normalization_result (change : KnowledgeChangeModel) (observation_id run_id : string) : NormalizationResult :=
  mkNormalizationResult observation_id (kc_revision change) (kc_committed_at change) (changed_objects change)
    (changed_claims change) (changed_relations change) run_id.

(** [{**d, **e}] *)
Definition dict_merge (d e : dict) : dict := foldl (λ d kv, dict_set kv.1 kv.2 d) d e.

Definition names_of (d : dict) : list string := d.*1.

(** [_validate_candidate_vocabulary] *)
Definition candidate_objects (candidate : EnrichmentCandidate) : list ObjectCandidate :=
  match root_object candidate with Some o => [o] | None => [] end ++ (rc_target <$> ec_relations candidate).
Definition validate_candidate_vocabulary (candidate : EnrichmentCandidate) (origin : KnowledgeOrigin) : result unit :=
  _ ← raise_when (existsb (λ o, bool_decide (classify_object_type (oc_object_type o) origin = SC_UNREGISTERED))
                    (candidate_objects candidate)) (ValueError "unregistered canonical object_type");
  _ ← raise_when (existsb (λ p, bool_decide (classify_term K_CLAIM p origin None None None = SC_UNREGISTERED))
                    ((cl_predicate <$> ec_claims candidate) ++ replace_predicates candidate))
        (ValueError "unregistered canonical claim predicate");
  raise_when (existsb (λ t, bool_decide (classify_term K_RELATION t origin None None None = SC_UNREGISTERED))
                ((rc_relation_type <$> ec_relations candidate) ++ replace_relation_types candidate))
    (ValueError "unregistered canonical relation type").

(** [_validate_candidate_shapes] *)
Definition validate_candidate_shapes (candidate : EnrichmentCandidate) (origin : KnowledgeOrigin) (subject_type : string)
  : result unit :=
  _ ← raise_when (existsb (λ c, bool_decide (classify_term K_CLAIM (cl_predicate c) origin (Some subject_type) None
                                   (Some (names_of (cl_qualifier c))) = SC_UNREGISTERED)) (ec_claims candidate))
        (ValueError "canonical claim subject type mismatch");
  raise_when (existsb (λ r, bool_decide (classify_term K_RELATION (rc_relation_type r) origin (Some subject_type)
                               (Some (oc_object_type (rc_target r))) (Some (names_of (rc_qualifier r))) = SC_UNREGISTERED))
                (ec_relations candidate))
    (ValueError "canonical relation shape mismatch").

(** The facts of one source on one subject that are current. *)
Definition is_current_claim (subject source_id : string) (p : string) (c : ClaimModel) : bool :=
  bool_decide (subject_id c = subject) && bool_decide (predicate c = p) && bool_decide (cm_lifecycle c = "accepted"%string)
  && bool_decide (cm_superseded_revision c = None)
  && bool_decide (dict_get "source_id" (cm_qualifier c) = Some (JStr source_id)).
Definition is_current_relation (subject source_id : string) (t : string) (r : RelationModel) : bool :=
  bool_decide (source_object_id r = subject) && bool_decide (relation_type r = t)
  && bool_decide (rm_lifecycle r = "accepted"%string) && bool_decide (rm_superseded_revision r = None)
  && bool_decide (dict_get "source_id" (rm_qualifier r) = Some (JStr source_id)).

Definition set_claim_superseded (revision : option Z) (c : ClaimModel) : ClaimModel :=
  mkClaimModel (claim_id c) (subject_id c) (predicate c) (cm_value c) (cm_qualifier c) (cm_origin c) (cm_lifecycle c)
    (cm_processing_run_id c) (cm_created_revision c) revision.
Definition set_relation_superseded (revision : option Z) (r : RelationModel) : RelationModel :=
  mkRelationModel (relation_id r) (source_object_id r) (relation_type r) (target_object_id r) (rm_qualifier r)
    (rm_origin r) (rm_lifecycle r) (rm_processing_run_id r) (rm_created_revision r) revision.

(** [_supersede_source_claims], [_supersede_source_relations] *)
Definition supersede_source_claims (subject p source_id : string) (revision : Z) : prog KnowledgeStore unit :=
  modify (λ s, set_claims (update_where (is_current_claim subject source_id p) (set_claim_superseded (Some revision))
                             (claims s)) s).
Definition supersede_source_relations (subject t source_id : string) (revision : Z) : prog KnowledgeStore unit :=
  modify (λ s, set_relations (update_where (is_current_relation subject source_id t)
                                (set_relation_superseded (Some revision)) (relations s)) s).

Definition find_object (t key : string) (s : KnowledgeStore) : option ObjectModel :=
  find (λ o, bool_decide (object_type o = t) && bool_decide (canonical_key o = key)) (objects s).
Definition get_object (id : string) (s : KnowledgeStore) : option ObjectModel :=
  find (λ o, bool_decide (object_id o = id)) (objects s).
Definition find_identifier (ns value : string) (s : KnowledgeStore) : option ExternalIdentifierModel :=
  find (λ x, bool_decide (namespace x = ns) && bool_decide (xi_value x = value)) (identifiers s).

Section writer.
Context (json_hash : json → string) (uuid5_url : string → string).

Definition knowledge_id (value : string) : string := uuid5_url ("secfusion:" +:+ value).

(** [_upsert_identifiers]: one value of one namespace. *)
Definition upsert_identifier (object_id ns value : string) : prog KnowledgeStore unit :=
  s ← get_store;
  match find_identifier ns value s with
  | None =>
      let row := mkExternalIdentifierModel (knowledge_id ("external-id:" +:+ ns +:+ ":" +:+ value)) ns value object_id in
      check (bool_decide (external_identifier_id row ∈ external_identifier_id <$> identifiers s))
        (IntegrityError "external_identifiers");;
      modify (λ s, set_identifiers (identifiers s ++ [row]) s)
  | Some existing => check (bool_decide (xi_object_id existing ≠ object_id)) (ValueError "identifier collision")
  end.
Definition upsert_identifiers (object_id : string) (ids : list (string * list string)) : prog KnowledgeStore unit :=
  for_each (mjoin ((λ nv, (λ v, (nv.1, v)) <$> nv.2) <$> ids)) (λ nv, upsert_identifier object_id nv.1 nv.2);; mret tt.

(** [_upsert_object] *)
Definition set_properties (p : dict) (o : ObjectModel) : ObjectModel :=
  mkObjectModel (object_id o) (object_type o) (canonical_key o) p (ob_created_revision o).
Definition upsert_object (candidate : ObjectCandidate) (revision : Z) : prog KnowledgeStore ObjectModel :=
  s ← get_store;
  obj ← match find_object (oc_object_type candidate) (oc_canonical_key candidate) s with
        | None =>
            id ← lift (stable_object_id uuid5_url (oc_object_type candidate) (oc_canonical_key candidate));
            let row := mkObjectModel id (oc_object_type candidate) (oc_canonical_key candidate) (oc_properties candidate)
                         revision in
            check (bool_decide (id ∈ object_id <$> objects s)) (IntegrityError "objects");;
            modify (λ s, set_objects (objects s ++ [row]) s);;
            mret row
        | Some obj =>
            if bool_decide (oc_properties candidate = []) then mret obj
            else
              let row := set_properties (dict_merge (properties obj) (oc_properties candidate)) obj in
              modify (λ s, set_objects (update_where (λ o, bool_decide (object_id o = object_id obj)) (λ _, row)
                                          (objects s)) s);;
              mret row
        end;
  upsert_identifiers (object_id obj) (oc_identifiers candidate);;
  mret obj.

(** [_add_evidence_link] *)
Definition new_link (k : target_kind) (target : string) (observation : EvidenceAnchor) (locator : dict)
  : EvidenceLinkModel :=
  let hash := json_hash (JObj locator) in
  mkEvidenceLinkModel
    (knowledge_id ("evidence-link:" +:+ target_kind_value k +:+ ":" +:+ target +:+ ":" +:+ ea_observation_id observation
                     +:+ ":" +:+ hash))
    k target (ea_observation_id observation) (ea_artifact_id observation) locator hash.
Definition link_key (l : EvidenceLinkModel) : target_kind * string * string * string :=
  (el_target_kind l, el_target_id l, el_observation_id l, locator_hash l).
Definition add_link (row : EvidenceLinkModel) : prog KnowledgeStore unit :=
  s ← get_store;
  check (bool_decide (evidence_link_id row ∈ evidence_link_id <$> links s)
         || bool_decide (link_key row ∈ link_key <$> links s)) (IntegrityError "evidence_links");;
  modify (λ s, set_links (links s ++ [row]) s).

Definition fingerprint_of_claim (c : ClaimCandidate) : string :=
  json_hash (JObj [("value"%string, cl_value c); ("qualifier"%string, JObj (cl_qualifier c))]).
Definition claim_id_of (root : string) (observation_id : string) (c : ClaimCandidate) : string :=
  knowledge_id ("claim:" +:+ root +:+ ":" +:+ cl_predicate c +:+ ":" +:+ observation_id +:+ ":" +:+ fingerprint_of_claim c).
Definition relation_id_of (root target observation_id : string) (r : RelationCandidate) : string :=
  knowledge_id ("relation:" +:+ root +:+ ":" +:+ rc_relation_type r +:+ ":" +:+ target +:+ ":" +:+ observation_id
                  +:+ ":" +:+ json_hash (JObj (rc_qualifier r))).

(** The qualifier of a stored fact. *)
Definition stored_qualifier (q : dict) (source_id : string) (scope : VocabularyScope) : dict :=
  dict_merge (dict_set "source_id" (JStr source_id) q) (vocabulary_metadata scope).

Definition new_claim (root : ObjectModel) (source_id run_id : string) (observation : EvidenceAnchor)
  (origin : KnowledgeOrigin) (revision : Z) (c : ClaimCandidate) : ClaimModel :=
  mkClaimModel (claim_id_of (object_id root) (ea_observation_id observation) c) (object_id root) (cl_predicate c)
    (cl_value c)
    (stored_qualifier (cl_qualifier c) source_id
       (classify_term K_CLAIM (cl_predicate c) origin (Some (object_type root)) None (Some (names_of (cl_qualifier c)))))
    origin "accepted" run_id revision None.
Definition new_relation (root target : ObjectModel) (source_id run_id : string) (observation : EvidenceAnchor)
  (origin : KnowledgeOrigin) (revision : Z) (r : RelationCandidate) : RelationModel :=
  mkRelationModel (relation_id_of (object_id root) (object_id target) (ea_observation_id observation) r)
    (object_id root) (rc_relation_type r) (object_id target)
    (stored_qualifier (rc_qualifier r) source_id
       (classify_term K_RELATION (rc_relation_type r) origin (Some (object_type root))
          (Some (oc_object_type (rc_target r))) (Some (names_of (rc_qualifier r)))))
    origin "accepted" run_id revision None.

(** The body of the loop over the claims of a candidate. *)
Definition write_claim (replaced : list string) (root : ObjectModel) (source_id run_id : string)
  (observation : EvidenceAnchor) (origin : KnowledgeOrigin) (revision : Z) (c : ClaimCandidate)
  : prog KnowledgeStore string :=
  (if bool_decide (cl_predicate c ∈ replaced) then mret tt
   else supersede_source_claims (object_id root) (cl_predicate c) source_id revision);;
  let row := new_claim root source_id run_id observation origin revision c in
  s ← get_store;
  (if bool_decide (claim_id row ∈ claim_id <$> claims s)
   then modify (λ s, set_claims (update_where (λ x, bool_decide (claim_id x = claim_id row)) (set_claim_superseded None)
                                   (claims s)) s)
   else modify (λ s, set_claims (claims s ++ [row]) s);;
        add_link (new_link T_CLAIM (claim_id row) observation (cl_locator c)));;
  mret (claim_id row).

(** The body of the loop over the relations of a candidate: the target's and the relation's identity. *)
Definition write_relation (root : ObjectModel) (source_id run_id : string) (observation : EvidenceAnchor)
  (origin : KnowledgeOrigin) (revision : Z) (r : RelationCandidate) : prog KnowledgeStore (string * string) :=
  target ← upsert_object (rc_target r) revision;
  let row := new_relation root target source_id run_id observation origin revision r in
  s ← get_store;
  (if bool_decide (relation_id row ∈ relation_id <$> relations s)
   then modify (λ s, set_relations (update_where (λ x, bool_decide (relation_id x = relation_id row))
                                      (set_relation_superseded None) (relations s)) s)
   else modify (λ s, set_relations (relations s ++ [row]) s);;
        add_link (new_link T_RELATION (relation_id row) observation (rc_locator r)));;
  mret (object_id target, relation_id row).

(** [if x not in l: l.append(x)] *)
Definition append_new (l : list string) (x : string) : list string := if bool_decide (x ∈ l) then l else l ++ [x].

Definition run_id_of (name version seed : string) (observation : EvidenceAnchor) : string :=
  knowledge_id ("processing:" +:+ name +:+ ":" +:+ version +:+ ":" +:+ seed +:+ ":" +:+ ea_observation_id observation).

(** The row of the run while it is running: a new one, or the next attempt. *)
Definition started_run (existing : option ProcessingRunModel) (run_id name version : string)
  (observation : EvidenceAnchor) (now : Z) : ProcessingRunModel :=
  match existing with
  | None => mkProcessingRunModel run_id name version [ea_observation_id observation] 1 RUN_RUNNING now None None
  | Some r => mkProcessingRunModel (pr_run_id r) (processor_name r) (processor_version r) (input_revision_ids r)
                (pr_attempt r + 1) RUN_RUNNING now None None
  end.
Definition finished_run (now : Z) (r : ProcessingRunModel) : ProcessingRunModel :=
  mkProcessingRunModel (pr_run_id r) (processor_name r) (processor_version r) (input_revision_ids r) (pr_attempt r)
    RUN_SUCCESS (pr_started_at r) (Some now) (pr_error_code r).

(** The root object of a fresh run. *)
Definition resolve_root (root_object_id : option string) (candidate : EnrichmentCandidate) (revision : Z)
  : prog KnowledgeStore ObjectModel :=
  match root_object_id with
  | None =>
      match root_object candidate with
      | None => raise (ValueError "candidate.root_object is required when root_object_id is absent")
      | Some o => upsert_object o revision
      end
  | Some id => s ← get_store; require (get_object id s) (LookupError "root object not found" id)
  end.

Definition changed_event (change : KnowledgeChangeModel) (root run_id : string) (now : Z) : OutboxEventModel :=
  mkOutboxEventModel (knowledge_id ("outbox:knowledge.changed:" +:+ run_id)) "knowledge.changed" root
    [("revision"%string, JInt (kc_revision change));
     ("object_ids"%string, JArr (JStr <$> changed_objects change));
     ("claim_ids"%string, JArr (JStr <$> changed_claims change));
     ("relation_ids"%string, JArr (JStr <$> changed_relations change))]
    PENDING 0 now None None.

(** The change and the event of a run, and its success. *)
Definition record_change (change : KnowledgeChangeModel) (root run_id : string) (now : Z) : prog KnowledgeStore unit :=
  s ← get_store;
  check (bool_decide (change_id change ∈ change_id <$> changes s)) (IntegrityError "knowledge_changes");;
  modify (λ s, set_changes (changes s ++ [change]) s);;
  check (bool_decide (ob_event_id (changed_event change root run_id now) ∈ ob_event_id <$> outbox s))
    (IntegrityError "outbox_events");;
  modify (λ s, set_outbox (outbox s ++ [changed_event change root run_id now]) s);;
  run ← require (processing_runs s !! run_id) (RuntimeError "processing run disappeared during enrichment");
  modify (put_processing_run (finished_run now run)).

(** The facts of a fresh run: the touched objects, claims and relations. *)
Definition write_facts (source_id run_id : string) (observation : EvidenceAnchor) (candidate : EnrichmentCandidate)
  (origin : KnowledgeOrigin) (revision : Z) (root : ObjectModel)
  : prog KnowledgeStore (list string * list (string * string)) :=
  for_each (replace_predicates candidate) (λ p, supersede_source_claims (object_id root) p source_id revision);;
  for_each (replace_relation_types candidate) (λ t, supersede_source_relations (object_id root) t source_id revision);;
  claim_ids ← for_each (ec_claims candidate)
    (write_claim (replace_predicates candidate) root source_id run_id observation origin revision);
  targets ← for_each (ec_relations candidate) (write_relation root source_id run_id observation origin revision);
  mret (claim_ids, targets).

Definition root_seed (root_object_id : option string) (candidate : EnrichmentCandidate) : option string :=
  match root_object_id with
  | Some id => Some id
  | None => (λ o, oc_object_type o +:+ ":" +:+ oc_canonical_key o) <$> root_object candidate
  end.

(** The run of [apply] that is not a replay. *)
Definition apply_fresh (root_object_id : option string) (source_id : string) (observation : EvidenceAnchor)
  (candidate : EnrichmentCandidate) (name version : string) (origin : KnowledgeOrigin) (run_id : string)
  (revision now : Z) : prog KnowledgeStore NormalizationResult :=
  s ← get_store;
  lift (validate_candidate_vocabulary candidate origin);;
  modify (put_processing_run (started_run (processing_runs s !! run_id) run_id name version observation now));;
  check (bool_decide (revision ∈ kr_revision <$> revisions s)) (IntegrityError "knowledge_revisions");;
  check (bool_decide (observations s !! ea_observation_id observation = None)) (IntegrityError "observations");;
  modify (λ s, set_revisions (revisions s ++ [mkKnowledgeRevisionModel revision run_id (ea_observation_id observation) now])
                 s);;
  root ← resolve_root root_object_id candidate revision;
  upsert_identifiers (object_id root) (root_identifiers candidate);;
  lift (validate_candidate_shapes candidate origin (object_type root));;
  facts ← write_facts source_id run_id observation candidate origin revision root;
  let change := mkKnowledgeChangeModel (knowledge_id ("knowledge-change:" +:+ run_id)) revision
                  (foldl append_new [object_id root] facts.2.*1) facts.1 facts.2.*2 run_id
                  (ea_observation_id observation) now in
  record_change change (object_id root) run_id now;;
  mret (normalization_result change (ea_observation_id observation) run_id).

(** [EvidenceBackedKnowledgeWriter.apply] *)
Definition apply (root_object_id : option string) (source_id : string) (observation : EvidenceAnchor)
  (candidate : EnrichmentCandidate) (name version : string) (origin : KnowledgeOrigin) (revision now : Z)
  : prog KnowledgeStore NormalizationResult :=
  seed ← require (root_seed root_object_id candidate)
           (ValueError "knowledge writer requires root_object_id or candidate.root_object");
  let run_id := run_id_of name version seed observation in
  s ← get_store;
  if bool_decide (pr_status <$> (processing_runs s !! run_id) = Some RUN_SUCCESS) then
    change ← require (find (λ c, bool_decide (kc_cause_processing_run_id c = run_id)) (changes s))
               (RuntimeError "successful enrichment has no knowledge change");
    mret (normalization_result change (ea_observation_id observation) run_id)
  else apply_fresh root_object_id source_id observation candidate name version origin run_id revision now.
End writer.

(** ** Dicts *)

Lemma names_dict_set k k' v (d : dict) : k' ∈ names_of (dict_set k v d) ↔ k' = k ∨ k' ∈ names_of d.
Proof.
  unfold names_of. induction d as [|[k0 v0] d IH]; csimpl; [set_solver|]. destruct (decide (k = k0)) as [->|Hne]; csimpl.
  - rewrite !elem_of_cons. naive_solver.
  - rewrite !elem_of_cons, IH. naive_solver.
Qed.

Lemma names_dict_merge k (d e : dict) : k ∈ names_of (dict_merge d e) ↔ k ∈ names_of d ∨ k ∈ names_of e.
Proof.
  unfold dict_merge. revert d. induction e as [|[k0 v0] e IH]; intros d; simpl; [set_solver|].
  rewrite IH, names_dict_set. unfold names_of. csimpl. rewrite elem_of_cons. naive_solver.
Qed.

Lemma stored_source_id q source scope : dict_get "source_id" (stored_qualifier q source scope) = Some (JStr source).
Proof.
  unfold stored_qualifier, dict_merge, vocabulary_metadata. simpl. rewrite !dict_get_set.
  rewrite !decide_False by done. by rewrite decide_True.
Qed.

Lemma stored_scope_tag q source scope :
  dict_get "vocabulary_scope" (stored_qualifier q source scope) = Some (JStr (VocabularyScope_value scope)).
Proof. unfold stored_qualifier, dict_merge, vocabulary_metadata. simpl. rewrite dict_get_set. by rewrite decide_True. Qed.

(** No term requires one of the qualifiers the writer adds. *)
Lemma required_not_added t :
  t ∈ CANONICAL_TERMS → ∀ k, k ∈ required_qualifier_keys t →
  k ∉ ["source_id"%string; "vocabulary_revision"%string; "vocabulary_scope"%string].
Proof.
  assert (forallb (λ t, forallb (λ k, bool_decide (k ∉ ["source_id"%string; "vocabulary_revision"%string;
    "vocabulary_scope"%string])) (required_qualifier_keys t)) CANONICAL_TERMS = true) as H by (vm_compute; reflexivity).
  intros Ht k Hk. apply list_elem_of_In, (proj1 (forallb_forall _ _) H) in Ht.
  apply list_elem_of_In, (proj1 (forallb_forall _ _) Ht k), bool_decide_eq_true in Hk. done.
Qed.

Lemma canonical_term_elem k name t : canonical_term k name = Some t → t ∈ CANONICAL_TERMS.
Proof. unfold canonical_term. intros [H _]%find_elem. apply list_elem_of_In. apply list_elem_of_In in H. by apply in_rev. Qed.

(** The qualifiers the writer adds do not change how a fact is classified. *)
Lemma classify_stored k name origin st tt q source scope :
  classify_term k name origin st tt (Some (names_of (stored_qualifier q source scope))) =
  classify_term k name origin st tt (Some (names_of q)).
Proof.
  unfold classify_term. destruct (canonical_term k name) as [t|] eqn:Ht; [|done].
  assert (qualifier_matches (required_qualifier_keys t) (Some (names_of (stored_qualifier q source scope))) =
    qualifier_matches (required_qualifier_keys t) (Some (names_of q))) as ->; [|done].
  unfold qualifier_matches. f_equal. apply eq_bool_prop_intro. rewrite !forallb_True, !Forall_forall.
  split; intros H k' Hk'; specialize (H k' Hk'); apply bool_decide_spec in H; apply bool_decide_spec.
  - unfold stored_qualifier in H. rewrite names_dict_merge, names_dict_set in H.
    destruct H as [[->|H]|H]; [|done|]; exfalso; eapply required_not_added; [by eapply canonical_term_elem|done| |by eapply canonical_term_elem|done|].
    + set_solver.
    + revert H. unfold names_of, vocabulary_metadata. set_solver.
  - unfold stored_qualifier. rewrite names_dict_merge, names_dict_set. by left; right.
Qed.

(** ** The invariant *)

Definition object_typed (s : KnowledgeStore) (id t : string) : Prop :=
  ∃ o, o ∈ objects s ∧ object_id o = id ∧ object_type o = t.
Definition revision_known (s : KnowledgeStore) (r : Z) : Prop := r ∈ kr_revision <$> revisions s.

(** A fact has an evidence link to an observation that exists. *)
Definition evidenced (s : KnowledgeStore) (k : target_kind) (id : string) : Prop :=
  ∃ l, l ∈ links s ∧ el_target_kind l = k ∧ el_target_id l = id ∧ is_Some (observations s !! el_observation_id l).

(** A stored qualifier names its source and how the vocabulary classifies its fact, which is registered. *)
Definition classified (k : term_kind) (name : string) (origin : KnowledgeOrigin) (st tt : option string) (q : dict) : Prop :=
  (∃ source, dict_get "source_id" q = Some (JStr source)) ∧
  classify_term k name origin st tt (Some (names_of q)) ≠ SC_UNREGISTERED ∧
  dict_get "vocabulary_scope" q =
    Some (JStr (VocabularyScope_value (classify_term k name origin st tt (Some (names_of q))))).

Record claim_ok (s : KnowledgeStore) (c : ClaimModel) : Prop := {
  co_lifecycle : cm_lifecycle c = "accepted"%string;
  co_typed : ∃ t, object_typed s (subject_id c) t ∧
    classified K_CLAIM (predicate c) (cm_origin c) (Some t) None (cm_qualifier c);
  co_created : revision_known s (cm_created_revision c);
  co_superseded : ∀ r, cm_superseded_revision c = Some r → revision_known s r
}.

Record relation_ok (s : KnowledgeStore) (r : RelationModel) : Prop := {
  ro_lifecycle : rm_lifecycle r = "accepted"%string;
  ro_typed : ∃ st tt, object_typed s (source_object_id r) st ∧ object_typed s (target_object_id r) tt ∧
    classified K_RELATION (relation_type r) (rm_origin r) (Some st) (Some tt) (rm_qualifier r);
  ro_created : revision_known s (rm_created_revision r);
  ro_superseded : ∀ n, rm_superseded_revision r = Some n → revision_known s n
}.

Definition object_key (o : ObjectModel) : string * string := (object_type o, canonical_key o).
Definition identifier_key (x : ExternalIdentifierModel) : string * string := (namespace x, xi_value x).

(** The tables of facts. *)
Record facts_wf (s : KnowledgeStore) : Prop := {
  fw_object_ids : NoDup (object_id <$> objects s);
  fw_object_keys : NoDup (object_key <$> objects s);
  fw_identifier_keys : NoDup (identifier_key <$> identifiers s);
  fw_identifiers : ∀ x, x ∈ identifiers s → ∃ t, object_typed s (xi_object_id x) t;
  fw_claim_ids : NoDup (claim_id <$> claims s);
  fw_claims : ∀ c, c ∈ claims s → claim_ok s c ∧ evidenced s T_CLAIM (claim_id c);
  fw_relation_ids : NoDup (relation_id <$> relations s);
  fw_relations : ∀ r, r ∈ relations s → relation_ok s r ∧ evidenced s T_RELATION (relation_id r);
  fw_link_ids : NoDup (evidence_link_id <$> links s);
  fw_link_keys : NoDup (link_key <$> links s);
  fw_objects : ∀ o, o ∈ objects s → revision_known s (ob_created_revision o)
}.

(** What one step of the writer may change in the tables of facts: objects only gain properties, facts only change
    whether they are superseded, identifiers and links are only added. *)
Record facts_grow (s s' : KnowledgeStore) : Prop := {
  fg_observations : observations s' = observations s;
  fg_runs : processing_runs s' = processing_runs s;
  fg_revisions : revisions s' = revisions s;
  fg_changes : changes s' = changes s;
  fg_outbox : outbox s' = outbox s;
  fg_objects : ∀ o, o ∈ objects s → ∃ o', o' ∈ objects s' ∧ o' = set_properties (properties o') o ∧
    ∀ k, k ∈ names_of (properties o) → k ∈ names_of (properties o');
  fg_identifiers : identifiers s `prefix_of` identifiers s';
  fg_claims : ∀ c, c ∈ claims s → ∃ n, set_claim_superseded n c ∈ claims s';
  fg_relations : ∀ r, r ∈ relations s → ∃ n, set_relation_superseded n r ∈ relations s';
  fg_links : links s `prefix_of` links s'
}.

Lemma set_properties_id o : set_properties (properties o) o = o.
Proof. by destruct o. Qed.
Lemma set_claim_superseded_id c : set_claim_superseded (cm_superseded_revision c) c = c.
Proof. by destruct c. Qed.
Lemma set_relation_superseded_id r : set_relation_superseded (rm_superseded_revision r) r = r.
Proof. by destruct r. Qed.

#[export] Instance facts_grow_preorder : PreOrder facts_grow.
Proof.
  split.
  - intros s. split; try done.
    + intros o Ho. exists o. by rewrite set_properties_id.
    + intros c Hc. exists (cm_superseded_revision c). by rewrite set_claim_superseded_id.
    + intros r Hr. exists (rm_superseded_revision r). by rewrite set_relation_superseded_id.
  - intros s1 s2 s3 [A1 A2 A3 A4 A5 A6 A7 A8 A9 A10] [B1 B2 B3 B4 B5 B6 B7 B8 B9 B10]. split; try congruence; try by etrans.
    + intros o Ho. destruct (A6 o Ho) as (o2&H2&E2&K2). destruct (B6 o2 H2) as (o3&H3&E3&K3). exists o3.
      split; [done|]. split; [|by auto]. etrans; [exact E3|]. by rewrite E2.
    + intros c Hc. destruct (A8 c Hc) as (n&H2). destruct (B8 _ H2) as (n'&H3). by exists n'.
    + intros r Hr. destruct (A9 r Hr) as (n&H2). destruct (B9 _ H2) as (n'&H3). by exists n'.
Qed.

Lemma object_typed_grow s s' id t : facts_grow s s' → object_typed s id t → object_typed s' id t.
Proof.
  intros Hg (o&Ho&<-&<-). destruct (fg_objects _ _ Hg o Ho) as (o'&Ho'&E&_). exists o'. split; [done|]. by rewrite E.
Qed.
Lemma evidenced_grow s s' k id : facts_grow s s' → evidenced s k id → evidenced s' k id.
Proof.
  intros Hg (l&Hl&?&?&?). destruct (fg_links _ _ Hg) as [more Hmore]. exists l. rewrite Hmore, (fg_observations _ _ Hg).
  split; [apply elem_of_app; by left|done].
Qed.
Lemma claim_ok_grow s s' c : facts_grow s s' → claim_ok s c → claim_ok s' c.
Proof.
  intros Hg [H1 (t&H2&H3) H4 H5]. unfold revision_known in *. split; unfold revision_known; rewrite ?(fg_revisions _ _ Hg); try done.
  exists t. split; [by eapply object_typed_grow|done].
Qed.
Lemma relation_ok_grow s s' r : facts_grow s s' → relation_ok s r → relation_ok s' r.
Proof.
  intros Hg [H1 (t&t'&H2&H3&H4) H5 H6]. unfold revision_known in *. split; unfold revision_known; rewrite ?(fg_revisions _ _ Hg); try done.
  exists t, t'. split; [by eapply object_typed_grow|]. split; [by eapply object_typed_grow|done].
Qed.

(** A claim (relation) of the store after a step: an old one, superseded or not, or a new one that is in order. *)
Definition claim_kept (s s' : KnowledgeStore) (c : ClaimModel) : Prop :=
  (∃ c0 n, c0 ∈ claims s ∧ c = set_claim_superseded n c0 ∧
     (n = cm_superseded_revision c0 ∨ ∀ r, n = Some r → revision_known s' r)) ∨
  claim_ok s' c ∧ evidenced s' T_CLAIM (claim_id c).
Definition relation_kept (s s' : KnowledgeStore) (r : RelationModel) : Prop :=
  (∃ r0 n, r0 ∈ relations s ∧ r = set_relation_superseded n r0 ∧
     (n = rm_superseded_revision r0 ∨ ∀ i, n = Some i → revision_known s' i)) ∨
  relation_ok s' r ∧ evidenced s' T_RELATION (relation_id r).

Lemma claim_kept_same s s' c : c ∈ claims s → claim_kept s s' c.
Proof. intros Hc. left. exists c, (cm_superseded_revision c). rewrite set_claim_superseded_id. auto. Qed.
Lemma relation_kept_same s s' r : r ∈ relations s → relation_kept s s' r.
Proof. intros Hr. left. exists r, (rm_superseded_revision r). rewrite set_relation_superseded_id. auto. Qed.

Lemma facts_wf_step s s' :
  facts_wf s → facts_grow s s' →
  NoDup (object_id <$> objects s') → NoDup (object_key <$> objects s') →
  NoDup (identifier_key <$> identifiers s') →
  (∀ x, x ∈ identifiers s' → x ∈ identifiers s ∨ ∃ t, object_typed s' (xi_object_id x) t) →
  NoDup (claim_id <$> claims s') → (∀ c, c ∈ claims s' → claim_kept s s' c) →
  NoDup (relation_id <$> relations s') → (∀ r, r ∈ relations s' → relation_kept s s' r) →
  NoDup (evidence_link_id <$> links s') → NoDup (link_key <$> links s') →
  (∀ o, o ∈ objects s' → o ∈ objects s ∨ revision_known s' (ob_created_revision o)) →
  facts_wf s'.
Proof.
  intros Hwf Hg H1 H2 H3 H4 H5 H6 H7 H8 H9 H10 H11. split; try done.
  - intros x Hx. destruct (H4 x Hx) as [Hx'|?]; [|done]. destruct (fw_identifiers _ Hwf x Hx') as [t Ht]. exists t.
    by eapply object_typed_grow.
  - intros c Hc. destruct (H6 c Hc) as [(c0&n&Hc0&->&Hn)|?]; [|done]. destruct (fw_claims _ Hwf c0 Hc0) as [Hok Hev].
    split; [|by eapply evidenced_grow]. apply (claim_ok_grow _ _ _ Hg) in Hok as [K1 K2 K3 K4]. split; try done.
    simpl. destruct Hn as [->|Hn]; [done|]. apply Hn.
  - intros r Hr. destruct (H8 r Hr) as [(r0&n&Hr0&->&Hn)|?]; [|done]. destruct (fw_relations _ Hwf r0 Hr0) as [Hok Hev].
    split; [|by eapply evidenced_grow]. apply (relation_ok_grow _ _ _ Hg) in Hok as [K1 K2 K3 K4]. split; try done.
    simpl. destruct Hn as [->|Hn]; [done|]. apply Hn.
  - intros o Ho. destruct (H11 o Ho) as [Ho'|?]; [|done]. unfold revision_known. rewrite (fg_revisions _ _ Hg).
    by apply (fw_objects _ Hwf).
Qed.

(** [s'] is a store the step may leave. *)
Definition kept (s s' : KnowledgeStore) : Prop := facts_wf s' ∧ facts_grow s s'.

Lemma kept_trans s1 s2 s3 : facts_grow s1 s2 → kept s2 s3 → kept s1 s3.
Proof. intros H [? ?]. split; [done|by etrans]. Qed.

(** A table that is only changed where rows keep their identity. *)
Ltac keep_tables :=
  match goal with
  | |- ∀ c, c ∈ claims _ → claim_kept _ _ _ => intros ? ?; by apply claim_kept_same
  | |- ∀ c, c ∈ relations _ → relation_kept _ _ _ => intros ? ?; by apply relation_kept_same
  | |- ∀ x, x ∈ identifiers _ → _ ∨ _ => intros ? ?; by left
  | |- ∀ o, o ∈ objects _ → _ ∨ _ => intros ? ?; by left
  | |- _ => idtac
  end.
Ltac grow_rest :=
  match goal with
  | |- ∀ o, o ∈ objects _ → ∃ o', _ => intros o Ho; exists o; by rewrite set_properties_id
  | |- ∀ c, c ∈ claims _ → ∃ n, _ => intros c Hc; exists (cm_superseded_revision c); by rewrite set_claim_superseded_id
  | |- ∀ r, r ∈ relations _ → ∃ n, _ => intros r Hr; exists (rm_superseded_revision r); by rewrite set_relation_superseded_id
  | |- _ `prefix_of` _ => by eexists
  | |- _ => idtac
  end.

Lemma find_None_key {A K} `{EqDecision K} (key : A → K) (p : A → bool) l k :
  (∀ x, p x = true ↔ key x = k) → find p l = None → k ∉ key <$> l.
Proof.
  intros Hp H (x&->&Hx)%list_elem_of_fmap. apply (find_None_elem p l x H) in Hx.
  by rewrite (proj2 (Hp x) eq_refl) in Hx.
Qed.

Section steps.
Context (json_hash : json → string) (uuid5_url : string → string).

Lemma upsert_identifier_kept id ns v s u s' t :
  facts_wf s → object_typed s id t → upsert_identifier uuid5_url id ns v s = (Ok u, s') → kept s s'.
Proof.
  intros Hwf Ht H. unfold upsert_identifier in H. apply bind_Ok in H as (s0&s1&H0&H). apply get_store_Ok in H0 as [-> ->].
  destruct (find_identifier ns v s) as [x|] eqn:Hx; [apply check_Ok in H as [_ ->]; by split|]. cbv zeta in H.
  apply bind_Ok in H as (u1&s1&H0&H). apply check_Ok in H0 as [_ ->]. apply modify_Ok in H as ->.
  set (row := mkExternalIdentifierModel _ _ _ _). set (s1 := set_identifiers _ _).
  assert (facts_grow s s1) as Hg by (split; simpl; grow_rest; done).
  split; [|done]. pose proof Hwf as [? ? ? ? ? ? ? ? ? ? ?]. apply (facts_wf_step s); simpl; keep_tables; try done.
  - rewrite fmap_app. apply NoDup_snoc; [done|]. eapply find_None_key; [|exact Hx].
    intros y. rewrite andb_true_iff, !bool_decide_eq_true. unfold identifier_key. simpl. split; [by intros [-> ->]|by intros [= -> ->]].
  - intros x [?| ->%list_elem_of_singleton]%elem_of_app; [by left|right]. exists t. by eapply object_typed_grow.
Qed.

Lemma upsert_identifiers_kept id ids s u s' t :
  facts_wf s → object_typed s id t → upsert_identifiers uuid5_url id ids s = (Ok u, s') → kept s s'.
Proof.
  intros Hwf Ht H. unfold upsert_identifiers in H. apply bind_Ok in H as (us&s1&H0&H). apply ret_Ok in H as [_ ->].
  apply (for_each_steps (λ s, facts_wf s ∧ object_typed s id t) facts_grow) in H0 as [[? _] ?]; [by split| |by split].
  intros [ns v] s0 a s2 _ [Hwf0 Ht0] Hstep. destruct (upsert_identifier_kept _ _ _ _ _ _ _ Hwf0 Ht0 Hstep) as [? ?].
  split; [split; [done|by eapply object_typed_grow]|done].
Qed.

Lemma upsert_object_kept cand rev s o s' :
  facts_wf s → revision_known s rev → upsert_object uuid5_url cand rev s = (Ok o, s') →
  kept s s' ∧ object_typed s' (object_id o) (object_type o) ∧ object_key o = (oc_object_type cand, oc_canonical_key cand) ∧
  ∃ o', o' ∈ objects s' ∧ object_id o' = object_id o ∧ object_key o' = object_key o.
Proof.
  intros Hwf Hrev H. unfold upsert_object in H. apply bind_Ok in H as (s0&s1&H0&H). apply get_store_Ok in H0 as [-> ->].
  apply bind_Ok in H as (obj&s1&H0&H). apply bind_Ok in H as (u&s2&H1&H). apply ret_Ok in H as [-> ->].
  assert (kept s s1 ∧ obj ∈ objects s1 ∧ object_key obj = (oc_object_type cand, oc_canonical_key cand)) as (Hk&Hobj&Hkey).
  { destruct (find_object _ _ s) as [old|] eqn:Hold.
    - apply find_elem in Hold as [Hin Hk]. apply andb_true_iff in Hk as [K1%bool_decide_eq_true K2%bool_decide_eq_true].
      case_bool_decide as Hp; [apply ret_Ok in H0 as [-> ->]; unfold object_key; by rewrite K1, K2|].
      cbv zeta in H0. apply bind_Ok in H0 as (u0&s3&H2&H0). apply modify_Ok in H2 as ->. apply ret_Ok in H0 as [-> ->].
      set (row := set_properties _ old). set (s3 := set_objects _ _).
      pose proof Hwf as [W1 W2 ? ? ? ? ? ? ? ? W11].
      assert (∀ o, o ∈ objects s → object_id o = object_id old → o = old) as Huniq
        by (intros o Ho E; by apply (NoDup_fmap_eq object_id (objects s))).
      assert (facts_grow s s3) as Hg.
      { split; simpl; grow_rest; try done. intros o Ho.
        exists (if bool_decide (object_id o = object_id old) then row else o). split.
        - apply elem_of_update_where. by exists o.
        - case_bool_decide as E; [|by rewrite set_properties_id]. rewrite (Huniq o Ho E). split; [done|]. intros k Hk.
          apply names_dict_merge. by left. }
      assert (row ∈ objects s3) as Hrow by (apply elem_of_update_where; exists old; by rewrite bool_decide_eq_true_2).
      split; [|split; [done|]]; [|unfold object_key; simpl; by rewrite K1, K2].
      split; [|done]. apply (facts_wf_step s); simpl; keep_tables; try done.
      + rewrite fmap_update_where; [done|]. intros x Hx E%bool_decide_spec. simpl. by rewrite E.
      + rewrite fmap_update_where; [done|]. intros x Hx E%bool_decide_spec. by rewrite (Huniq x Hx E).
      + intros x (x0&Hx0&->)%elem_of_update_where. case_bool_decide; [right; by apply (W11 old)|by left].
    - apply bind_Ok in H0 as (id&s3&H2&H0). apply lift_Ok in H2 as [_ ->]. cbv zeta in H0.
      apply bind_Ok in H0 as (u0&s3&H2&H0). apply check_Ok in H2 as [Hid%bool_decide_eq_false ->].
      apply bind_Ok in H0 as (u1&s3&H2&H0). apply modify_Ok in H2 as ->. apply ret_Ok in H0 as [-> ->].
      set (row := mkObjectModel _ _ _ _ _). set (s3 := set_objects _ _). pose proof Hwf as [W1 W2 ? ? ? ? ? ? ? ? W11].
      assert (facts_grow s s3) as Hg.
      { split; simpl; grow_rest; try done. intros o Ho. exists o. rewrite set_properties_id.
        split; [apply elem_of_app; by left|done]. }
      split; [|split; [apply elem_of_app; right; apply list_elem_of_here|done]].
      split; [|done]. apply (facts_wf_step s); simpl; keep_tables; try done.
      + rewrite fmap_app. by apply NoDup_snoc.
      + rewrite fmap_app. apply NoDup_snoc; [done|]. eapply find_None_key; [|exact Hold].
        intros y. rewrite andb_true_iff, !bool_decide_eq_true. unfold object_key. simpl.
        split; [by intros [-> ->]|by intros [= -> ->]].
      + intros x [?| ->%list_elem_of_singleton]%elem_of_app; [by left|by right]. }
  assert (object_typed s1 (object_id obj) (object_type obj)) as Ht by by exists obj.
  destruct Hk as [Hwf1 Hg1]. destruct (upsert_identifiers_kept _ _ _ _ _ _ Hwf1 Ht H1) as [Hwf2 Hg2].
  split; [split; [done|by etrans]|]. split; [by eapply object_typed_grow|]. split; [done|].
  destruct (fg_objects _ _ Hg2 obj Hobj) as (o'&Ho'&E&_). exists o'. split; [done|].
  unfold object_key. by rewrite E.
Qed.

Lemma is_current_claim_true subject source p c :
  is_current_claim subject source p c = true →
  subject_id c = subject ∧ predicate c = p ∧ cm_superseded_revision c = None ∧
  dict_get "source_id" (cm_qualifier c) = Some (JStr source).
Proof. unfold is_current_claim. rewrite !andb_true_iff, !bool_decide_eq_true. by intros [[[[? ?] _] ?] ?]. Qed.

(** Rewriting of the supersession of some claims, or of some relations. *)
Lemma update_claims_kept p n s :
  facts_wf s → (∀ r, n = Some r → revision_known s r) →
  kept s (set_claims (update_where p (set_claim_superseded n) (claims s)) s).
Proof.
  intros Hwf Hn. set (s' := set_claims _ _). pose proof Hwf as [? ? ? ? ? ? ? ? ? ? ?].
  assert (facts_grow s s') as Hg.
  { split; simpl; grow_rest; try done. intros c Hc.
    exists (if p c then n else cm_superseded_revision c). apply elem_of_update_where. exists c. split; [done|].
    destruct (p c); [done|]. by rewrite set_claim_superseded_id. }
  split; [|done]. apply (facts_wf_step s); simpl; keep_tables; try done.
  - by rewrite fmap_update_where.
  - intros c (c0&Hc0&->)%elem_of_update_where. destruct (p c0); [|by apply claim_kept_same].
    left. exists c0, n. split; [done|]. split; [done|by right].
Qed.

Lemma update_relations_kept p n s :
  facts_wf s → (∀ r, n = Some r → revision_known s r) →
  kept s (set_relations (update_where p (set_relation_superseded n) (relations s)) s).
Proof.
  intros Hwf Hn. set (s' := set_relations _ _). pose proof Hwf as [? ? ? ? ? ? ? ? ? ? ?].
  assert (facts_grow s s') as Hg.
  { split; simpl; grow_rest; try done. intros r Hr.
    exists (if p r then n else rm_superseded_revision r). apply elem_of_update_where. exists r. split; [done|].
    destruct (p r); [done|]. by rewrite set_relation_superseded_id. }
  split; [|done]. apply (facts_wf_step s); simpl; keep_tables; try done.
  - by rewrite fmap_update_where.
  - intros r (r0&Hr0&->)%elem_of_update_where. destruct (p r0); [|by apply relation_kept_same].
    left. exists r0, n. split; [done|]. split; [done|by right].
Qed.

Lemma supersede_claims_kept subject p source rev s u s' :
  facts_wf s → revision_known s rev → supersede_source_claims subject p source rev s = (Ok u, s') → kept s s'.
Proof. intros Hwf Hr ->%modify_Ok. apply update_claims_kept; [done|]. by intros r [= <-]. Qed.
Lemma supersede_relations_kept subject t source rev s u s' :
  facts_wf s → revision_known s rev → supersede_source_relations subject t source rev s = (Ok u, s') → kept s s'.
Proof. intros Hwf Hr ->%modify_Ok. apply update_relations_kept; [done|]. by intros r [= <-]. Qed.

Lemma add_link_Ok row s u s' :
  add_link row s = (Ok u, s') → s' = (set_links (links s ++ [row]) s) ∧
  (evidence_link_id row ∉ (evidence_link_id <$> links s)) ∧ link_key row ∉ (link_key <$> links s).
Proof.
  unfold add_link. intros H. apply bind_Ok in H as (s0&s1&H0&H). apply get_store_Ok in H0 as [-> ->].
  apply bind_Ok in H as (u0&s1&H0&H). apply check_Ok in H0 as [Hc ->]. apply modify_Ok in H as ->.
  apply orb_false_iff in Hc as [H1%bool_decide_eq_false H2%bool_decide_eq_false]. done.
Qed.

Lemma evidenced_new s k id observation locator l :
  is_Some (observations s !! ea_observation_id observation) →
  links s = l ++ [new_link json_hash uuid5_url k id observation locator] → evidenced s k id.
Proof.
  intros Ho Hl. eexists. rewrite Hl. split; [apply elem_of_app; right; apply list_elem_of_here|]. done.
Qed.

Lemma write_claim_kept replaced root source run observation origin rev c s id s' :
  facts_wf s → object_typed s (object_id root) (object_type root) → revision_known s rev →
  is_Some (observations s !! ea_observation_id observation) →
  classify_term K_CLAIM (cl_predicate c) origin (Some (object_type root)) None (Some (names_of (cl_qualifier c)))
    ≠ SC_UNREGISTERED →
  write_claim json_hash uuid5_url replaced root source run observation origin rev c s = (Ok id, s') →
  kept s s'.
Proof.
  intros Hwf Hroot Hrev Hobs Hscope H. unfold write_claim in H.
  apply bind_Ok in H as (u&s1&H0&H). assert (kept s s1) as [Hwf1 Hg1].
  { case_bool_decide; [apply ret_Ok in H0 as [_ ->]; by split|by eapply supersede_claims_kept]. }
  cbv zeta in H. set (row := new_claim _ _ _ _ _ _ _ _ _) in *.
  apply bind_Ok in H as (s0&s2&H1&H). apply get_store_Ok in H1 as [-> ->].
  apply bind_Ok in H as (u1&s2&H1&H). apply ret_Ok in H as [_ ->]. apply (kept_trans s s1); [done|].
  case_bool_decide as Hin; [apply modify_Ok in H1 as ->; by apply update_claims_kept|].
  apply bind_Ok in H1 as (u2&s3&H2&H1). apply modify_Ok in H2 as ->. apply add_link_Ok in H1 as (->&Hl1&Hl2).
  set (link := new_link _ _ _ _ _ _) in *. set (s2 := set_links _ _). pose proof Hwf1 as [? ? ? ? ? ? ? ? ? ? ?].
  assert (facts_grow s1 s2) as Hg.
  { split; simpl; grow_rest; try done. intros c0 Hc0. exists (cm_superseded_revision c0).
    rewrite set_claim_superseded_id. apply elem_of_app. by left. }
  split; [|done]. apply (facts_wf_step s1); simpl in *; keep_tables; try done.
  - rewrite fmap_app. by apply NoDup_snoc.
  - intros c0 [Hc0| ->%list_elem_of_singleton]%elem_of_app; [by apply claim_kept_same|right].
    assert (object_typed s2 (object_id root) (object_type root)) as Ht
      by (eapply object_typed_grow; [|exact Hroot]; by etrans).
    split.
    + split; simpl; [done| | |done].
      * exists (object_type root). split; [done|]. split; [eexists; apply stored_source_id|].
        rewrite classify_stored. split; [done|apply stored_scope_tag].
      * unfold revision_known in *. simpl. by rewrite (fg_revisions _ _ Hg1).
    + apply (evidenced_new _ _ _ observation (cl_locator c) (links s1)); [|done].
      simpl. by rewrite (fg_observations _ _ Hg1).
  - rewrite fmap_app. by apply NoDup_snoc.
  - rewrite fmap_app. by apply NoDup_snoc.
Qed.

Lemma write_relation_kept root source run observation origin rev r s ids s' :
  facts_wf s → object_typed s (object_id root) (object_type root) → revision_known s rev →
  is_Some (observations s !! ea_observation_id observation) →
  classify_term K_RELATION (rc_relation_type r) origin (Some (object_type root)) (Some (oc_object_type (rc_target r)))
    (Some (names_of (rc_qualifier r))) ≠ SC_UNREGISTERED →
  write_relation json_hash uuid5_url root source run observation origin rev r s = (Ok ids, s') →
  kept s s'.
Proof.
  intros Hwf Hroot Hrev Hobs Hscope H. unfold write_relation in H.
  apply bind_Ok in H as (target&s1&H0&H). apply upsert_object_kept in H0 as ([Hwf1 Hg1]&Htarget&Hkey&_); [|done..].
  cbv zeta in H. set (row := new_relation _ _ _ _ _ _ _ _ _ _) in *.
  apply bind_Ok in H as (s0&s2&H1&H). apply get_store_Ok in H1 as [-> ->].
  apply bind_Ok in H as (u1&s2&H1&H). apply ret_Ok in H as [_ ->]. apply (kept_trans s s1); [done|].
  case_bool_decide as Hin; [apply modify_Ok in H1 as ->; by apply update_relations_kept|].
  apply bind_Ok in H1 as (u2&s3&H2&H1). apply modify_Ok in H2 as ->. apply add_link_Ok in H1 as (->&Hl1&Hl2).
  set (link := new_link _ _ _ _ _ _) in *. set (s2 := set_links _ _). pose proof Hwf1 as [? ? ? ? ? ? ? ? ? ? ?].
  assert (facts_grow s1 s2) as Hg.
  { split; simpl; grow_rest; try done. intros r0 Hr0. exists (rm_superseded_revision r0).
    rewrite set_relation_superseded_id. apply elem_of_app. by left. }
  split; [|done]. apply (facts_wf_step s1); simpl in *; keep_tables; try done.
  - rewrite fmap_app. by apply NoDup_snoc.
  - intros r0 [Hr0| ->%list_elem_of_singleton]%elem_of_app; [by apply relation_kept_same|right].
    assert (object_typed s2 (object_id root) (object_type root)) as Ht
      by (eapply object_typed_grow; [|exact Hroot]; by etrans).
    split.
    + split; simpl; [done| | |done].
      * exists (object_type root), (object_type target). split; [done|]. split; [by eapply object_typed_grow|].
        injection Hkey as -> _. split; [eexists; apply stored_source_id|].
        rewrite classify_stored. split; [done|apply stored_scope_tag].
      * unfold revision_known in *. simpl. by rewrite (fg_revisions _ _ Hg1).
    + apply (evidenced_new _ _ _ observation (rc_locator r) (links s1)); [|done].
      simpl. by rewrite (fg_observations _ _ Hg1).
  - rewrite fmap_app. by apply NoDup_snoc.
  - rewrite fmap_app. by apply NoDup_snoc.
Qed.

(** What a run knows while it writes. *)
Record writing (root : ObjectModel) (observation : EvidenceAnchor) (rev : Z) (s : KnowledgeStore) : Prop := {
  wr_wf : facts_wf s;
  wr_root : object_typed s (object_id root) (object_type root);
  wr_revision : revision_known s rev;
  wr_observation : is_Some (observations s !! ea_observation_id observation)
}.

Lemma writing_kept root observation rev s s' :
  writing root observation rev s → kept s s' → writing root observation rev s' ∧ facts_grow s s'.
Proof.
  intros [W1 W2 W3 W4] [Hwf Hg]. split; [|done]. split; [done|by eapply object_typed_grow| |].
  - unfold revision_known in *. by rewrite (fg_revisions _ _ Hg).
  - by rewrite (fg_observations _ _ Hg).
Qed.

Lemma existsb_false_elem {A} (p : A → bool) l x : existsb p l = false → x ∈ l → p x = false.
Proof.
  intros H Hx%list_elem_of_In. destruct (p x) eqn:E; [|done].
  assert (existsb p l = true) by (apply existsb_exists; by exists x). congruence.
Qed.

Lemma validate_shapes_Ok candidate origin t u :
  validate_candidate_shapes candidate origin t = Ok u →
  (∀ c, c ∈ ec_claims candidate → classify_term K_CLAIM (cl_predicate c) origin (Some t) None
     (Some (names_of (cl_qualifier c))) ≠ SC_UNREGISTERED) ∧
  (∀ r, r ∈ ec_relations candidate → classify_term K_RELATION (rc_relation_type r) origin (Some t)
     (Some (oc_object_type (rc_target r))) (Some (names_of (rc_qualifier r))) ≠ SC_UNREGISTERED).
Proof.
  unfold validate_candidate_shapes. intros (u1&H1%raise_when_Ok&H2%raise_when_Ok)%result_bind_Ok. split.
  - intros c Hc. apply (existsb_false_elem _ _ c H1), bool_decide_eq_false in Hc. done.
  - intros r Hr. apply (existsb_false_elem _ _ r H2), bool_decide_eq_false in Hr. done.
Qed.

Lemma write_facts_kept source run observation candidate origin rev root u s facts s' :
  writing root observation rev s → validate_candidate_shapes candidate origin (object_type root) = Ok u →
  write_facts json_hash uuid5_url source run observation candidate origin rev root s = (Ok facts, s') →
  kept s s'.
Proof.
  intros Hs [Hc Hr]%validate_shapes_Ok H. unfold write_facts in H.
  apply bind_Ok in H as (u1&s1&H1&H). apply bind_Ok in H as (u2&s2&H2&H). apply bind_Ok in H as (ids&s3&H3&H).
  apply bind_Ok in H as (targets&s4&H4&H). apply ret_Ok in H as [_ ->].
  apply (for_each_steps (writing root observation rev) facts_grow) in H1 as [Hs1 G1]; [|(clear; intros p s u s' _ Hs H; apply writing_kept; [done|];
    destruct Hs; by eapply supersede_claims_kept)|done].
  apply (for_each_steps (writing root observation rev) facts_grow) in H2 as [Hs2 G2]; [|(clear; intros p s u s' _ Hs H; apply writing_kept; [done|];
    destruct Hs; by eapply supersede_relations_kept)|done].
  apply (for_each_steps (writing root observation rev) facts_grow) in H3 as [Hs3 G3]; [| |done].
  2: { intros c s5 a s6 Hin Hs5 Hstep. apply writing_kept; [done|]. destruct Hs5. eapply write_claim_kept; try done. by apply Hc. }
  apply (for_each_steps (writing root observation rev) facts_grow) in H4 as [Hs4 G4]; [| |done].
  2: { intros r s5 a s6 Hin Hs5 Hstep. apply writing_kept; [done|]. destruct Hs5. eapply write_relation_kept; try done. by apply Hr. }
  split; [by destruct Hs4|]. by rewrite G1, G2, G3, G4.
Qed.
End steps.

(** ** Histories *)

(** The rows a change names exist. *)
Record change_ok (s : KnowledgeStore) (c : KnowledgeChangeModel) : Prop := {
  ch_revision : revision_known s (kc_revision c);
  ch_objects : ∀ id, id ∈ changed_objects c → ∃ t, object_typed s id t;
  ch_claims : ∀ id, id ∈ changed_claims c → id ∈ claim_id <$> claims s;
  ch_relations : ∀ id, id ∈ changed_relations c → id ∈ relation_id <$> relations s
}.

(** The event that announces a change. *)
Definition announces (uuid5_url : string → string) (c : KnowledgeChangeModel) (e : OutboxEventModel) : Prop :=
  ∃ root now, e = changed_event uuid5_url c root (kc_cause_processing_run_id c) now.

Record knowledge_wf (uuid5_url : string → string) (s : KnowledgeStore) : Prop := {
  kw_facts : facts_wf s;
  kw_revisions : NoDup (kr_revision <$> revisions s);
  kw_runs : ∀ id r, processing_runs s !! id = Some r → pr_run_id r = id;
  kw_changes : NoDup (kc_cause_processing_run_id <$> changes s);
  kw_change_ok : ∀ c, c ∈ changes s → change_ok s c;
  kw_success : ∀ id, pr_status <$> (processing_runs s !! id) = Some RUN_SUCCESS ↔
    id ∈ kc_cause_processing_run_id <$> changes s;
  kw_outbox : Forall2 (announces uuid5_url) (changes s) (outbox s)
}.

(** Histories only add: observations, revisions, changes, events, identifiers and links are immutable, objects only
    gain properties, facts only change whether they are superseded, and a run that succeeded stays so. *)
Record knowledge_step (s s' : KnowledgeStore) : Prop := {
  ks_observations : observations s ⊆ observations s';
  ks_revisions : revisions s `prefix_of` revisions s';
  ks_changes : changes s `prefix_of` changes s';
  ks_outbox : outbox s `prefix_of` outbox s';
  ks_identifiers : identifiers s `prefix_of` identifiers s';
  ks_links : links s `prefix_of` links s';
  ks_objects : ∀ o, o ∈ objects s → ∃ o', o' ∈ objects s' ∧ o' = set_properties (properties o') o ∧
    ∀ k, k ∈ names_of (properties o) → k ∈ names_of (properties o');
  ks_claims : ∀ c, c ∈ claims s → ∃ n, set_claim_superseded n c ∈ claims s';
  ks_relations : ∀ r, r ∈ relations s → ∃ n, set_relation_superseded n r ∈ relations s';
  ks_success : ∀ id r, processing_runs s !! id = Some r → pr_status r = RUN_SUCCESS → processing_runs s' !! id = Some r
}.

#[export] Instance knowledge_step_preorder : PreOrder knowledge_step.
Proof.
  split.
  - intros s. split; try done.
    + intros o Ho. exists o. by rewrite set_properties_id.
    + intros c Hc. exists (cm_superseded_revision c). by rewrite set_claim_superseded_id.
    + intros r Hr. exists (rm_superseded_revision r). by rewrite set_relation_superseded_id.
  - intros s1 s2 s3 [A1 A2 A3 A4 A5 A6 A7 A8 A9 A10] [B1 B2 B3 B4 B5 B6 B7 B8 B9 B10]. split; try by etrans.
    + intros o Ho. destruct (A7 o Ho) as (o2&H2&E2&K2). destruct (B7 o2 H2) as (o3&H3&E3&K3). exists o3.
      split; [done|]. split; [|by auto]. etrans; [exact E3|]. by rewrite E2.
    + intros c Hc. destruct (A8 c Hc) as (n&H2). destruct (B8 _ H2) as (n'&H3). by exists n'.
    + intros r Hr. destruct (A9 r Hr) as (n&H2). destruct (B9 _ H2) as (n'&H3). by exists n'.
    + intros id r Hr Hs. apply B10; [by apply A10|done].
Qed.

Lemma claim_id_grow s s' id : facts_grow s s' → id ∈ claim_id <$> claims s → id ∈ claim_id <$> claims s'.
Proof. intros Hg (c&->&Hc)%list_elem_of_fmap. destruct (fg_claims _ _ Hg c Hc) as [n Hn]. apply list_elem_of_fmap. exists (set_claim_superseded n c). done. Qed.
Lemma relation_id_grow s s' id : facts_grow s s' → id ∈ relation_id <$> relations s → id ∈ relation_id <$> relations s'.
Proof. intros Hg (c&->&Hc)%list_elem_of_fmap. destruct (fg_relations _ _ Hg c Hc) as [n Hn]. apply list_elem_of_fmap. exists (set_relation_superseded n c). done. Qed.

Lemma change_ok_grow s s' c : facts_grow s s' → change_ok s c → change_ok s' c.
Proof.
  intros Hg [H1 H2 H3 H4]. split.
  - unfold revision_known in *. by rewrite (fg_revisions _ _ Hg).
  - intros id [t Ht]%H2. exists t. by eapply object_typed_grow.
  - intros id Hid%H3. by eapply claim_id_grow.
  - intros id Hid%H4. by eapply relation_id_grow.
Qed.

(** The values of a loop keep what each round established. *)
Lemma for_each_values {S A B} (P : S → Prop) (R : S → S → Prop) `{!PreOrder R} (Q : A → B → S → Prop)
  (l : list A) (m : A → prog S B) s ys s' :
  (∀ x s a s', x ∈ l → P s → m x s = (Ok a, s') → P s' ∧ R s s' ∧ Q x a s') →
  (∀ x y s s', P s → R s s' → Q x y s → Q x y s') →
  P s → for_each l m s = (Ok ys, s') → Forall2 (λ x y, Q x y s') l ys.
Proof.
  intros Hm HQ. revert s ys. induction l as [|x l IH]; intros s ys HP H; cbn [for_each] in H.
  - apply ret_Ok in H as [-> _]. constructor.
  - apply bind_Ok in H as (y&s1&H1&H). apply bind_Ok in H as (ys'&s2&H2&H). apply ret_Ok in H as [-> ->].
    destruct (Hm x s y s1 (list_elem_of_here _ _) HP H1) as (HP1&R1&Q1).
    assert (∀ x s a s', x ∈ l → P s → m x s = (Ok a, s') → P s' ∧ R s s' ∧ Q x a s') as Hm'
      by (intros ? ? ? ? Hx; apply Hm; by apply list_elem_of_further).
    constructor; [|by apply (IH Hm' s1)].
    apply (HQ x y s1); [done| |done].
    apply (for_each_steps P R l m s1 ys' s2); [|done|done]. intros x' s3 a s4 Hx' HP3 Hs. by destruct (Hm' x' s3 a s4 Hx' HP3 Hs) as (?&?&_).
Qed.

Section runs.
Context (json_hash : json → string) (uuid5_url : string → string).

Lemma write_claim_id replaced root source run observation origin rev c s id s' :
  write_claim json_hash uuid5_url replaced root source run observation origin rev c s = (Ok id, s') →
  id = claim_id_of json_hash uuid5_url (object_id root) (ea_observation_id observation) c ∧ id ∈ claim_id <$> claims s'.
Proof.
  intros H. unfold write_claim in H. apply bind_Ok in H as (u&s1&_&H). cbv zeta in H.
  apply bind_Ok in H as (s0&s2&H1&H). apply get_store_Ok in H1 as [-> ->].
  apply bind_Ok in H as (u1&s2&H1&H). apply ret_Ok in H as [-> ->]. split; [done|].
  case_bool_decide as Hin.
  - apply modify_Ok in H1 as ->. simpl. by rewrite fmap_update_where.
  - apply bind_Ok in H1 as (u2&s3&H2&H1). apply modify_Ok in H2 as ->. apply add_link_Ok in H1 as (->&_). simpl.
    rewrite fmap_app. apply elem_of_app. right. apply list_elem_of_here.
Qed.

Lemma write_relation_id root source run observation origin rev r s ids s' :
  facts_wf s → revision_known s rev →
  write_relation json_hash uuid5_url root source run observation origin rev r s = (Ok ids, s') →
  (∃ t, object_typed s' ids.1 t) ∧ ids.2 ∈ relation_id <$> relations s'.
Proof.
  intros Hwf Hrev H. unfold write_relation in H. apply bind_Ok in H as (target&s1&H0&H).
  apply (upsert_object_kept) in H0 as (_&Ht&_); [|done..]. cbv zeta in H.
  apply bind_Ok in H as (s0&s2&H1&H). apply get_store_Ok in H1 as [-> ->].
  apply bind_Ok in H as (u1&s2&H1&H). apply ret_Ok in H as [-> ->]. simpl.
  case_bool_decide as Hin.
  - apply modify_Ok in H1 as ->. simpl. rewrite fmap_update_where by done. split; [by eexists|done].
  - apply bind_Ok in H1 as (u2&s3&H2&H1). apply modify_Ok in H2 as ->. apply add_link_Ok in H1 as (->&_). simpl.
    split; [by eexists|]. rewrite fmap_app. apply elem_of_app. right. apply list_elem_of_here.
Qed.

(** The rows the facts of a run name. *)
Lemma write_facts_ids source run observation candidate origin rev root u s facts s' :
  writing root observation rev s → validate_candidate_shapes candidate origin (object_type root) = Ok u →
  write_facts json_hash uuid5_url source run observation candidate origin rev root s = (Ok facts, s') →
  facts.1 = claim_id_of json_hash uuid5_url (object_id root) (ea_observation_id observation) <$> ec_claims candidate ∧
  (∀ id, id ∈ facts.1 → id ∈ claim_id <$> claims s') ∧
  (∀ id, id ∈ facts.2.*1 → ∃ t, object_typed s' id t) ∧ (∀ id, id ∈ facts.2.*2 → id ∈ relation_id <$> relations s').
Proof.
  intros Hs [Hc Hr]%validate_shapes_Ok H. unfold write_facts in H.
  apply bind_Ok in H as (u1&s1&H1&H). apply bind_Ok in H as (u2&s2&H2&H). apply bind_Ok in H as (ids&s3&H3&H).
  apply bind_Ok in H as (targets&s4&H4&H). apply ret_Ok in H as [-> ->]. simpl.
  apply (for_each_steps (writing root observation rev) facts_grow) in H1 as [Hs1 _];
    [|clear; intros p s u s' _ Hs H; apply writing_kept; [done|]; destruct Hs; by eapply supersede_claims_kept|done].
  apply (for_each_steps (writing root observation rev) facts_grow) in H2 as [Hs2 _];
    [|clear; intros p s u s' _ Hs H; apply writing_kept; [done|]; destruct Hs; by eapply supersede_relations_kept|done].
  assert (∀ x s a s', x ∈ ec_claims candidate → writing root observation rev s →
    write_claim json_hash uuid5_url (replace_predicates candidate) root source run observation origin rev x s = (Ok a, s') →
    writing root observation rev s' ∧ facts_grow s s') as HC.
  { intros c s5 a s6 Hin Hs5 Hstep. apply writing_kept; [done|]. destruct Hs5. eapply write_claim_kept; try done. by apply Hc. }
  assert (∀ x s a s', x ∈ ec_relations candidate → writing root observation rev s →
    write_relation json_hash uuid5_url root source run observation origin rev x s = (Ok a, s') →
    writing root observation rev s' ∧ facts_grow s s') as HR.
  { intros r s5 a s6 Hin Hs5 Hstep. apply writing_kept; [done|]. destruct Hs5. eapply write_relation_kept; try done. by apply Hr. }
  destruct (for_each_steps _ _ _ _ _ _ _ HC Hs2 H3) as [Hs3 _].
  destruct (for_each_steps _ _ _ _ _ _ _ HR Hs3 H4) as [_ G4].
  pose proof (for_each_values (writing root observation rev) facts_grow
    (λ c id s, id = claim_id_of json_hash uuid5_url (object_id root) (ea_observation_id observation) c ∧
       id ∈ claim_id <$> claims s) _ _ _ _ _
    ltac:(intros x s5 a s6 Hx Hs5 Hstep; split; [|split]; [by eapply HC|by eapply HC|by eapply write_claim_id])
    ltac:(intros x y s5 s6 _ Hg [-> ?]; split; [done|by eapply claim_id_grow]) Hs2 H3) as F3.
  pose proof (for_each_values (writing root observation rev) facts_grow
    (λ _ ids s, (∃ t, object_typed s ids.1 t) ∧ ids.2 ∈ relation_id <$> relations s) _ _ _ _ _
    ltac:(intros x s5 a s6 Hx Hs5 Hstep; split; [|split];
      [by eapply HR|by eapply HR|eapply write_relation_id; [..|exact Hstep]; by destruct Hs5])
    ltac:(intros x y s5 s6 _ Hg [[t ?] ?]; split; [exists t; by eapply object_typed_grow|by eapply relation_id_grow])
    Hs3 H4) as F4.
  split.
  { clear -F3. induction F3 as [|c id l l' [-> _] _ IH]; csimpl; [done|]. by f_equal. }
  split.
  { intros id [i Hi]%list_elem_of_lookup. destruct (Forall2_lookup_r _ _ _ _ _ F3 Hi) as (c&_&_&Hin). by eapply claim_id_grow. }
  split; intros id (p&->&[i Hi]%list_elem_of_lookup)%list_elem_of_fmap;
    destruct (Forall2_lookup_r _ _ _ _ _ F4 Hi) as (r&_&Ht&Hin); done.
Qed.
End runs.

Section writer_runs.
Context (json_hash : json → string) (uuid5_url : string → string).
Abbreviation knowledge_wf := (knowledge_wf uuid5_url).

(** The store once a run has started and got its revision. *)
Definition started (run : ProcessingRunModel) (r : KnowledgeRevisionModel) (s : KnowledgeStore) : KnowledgeStore :=
  set_revisions (revisions s ++ [r]) (put_processing_run run s).

Lemma revision_known_started run r s n : revision_known s n → revision_known (started run r s) n.
Proof. unfold revision_known, started. simpl. rewrite fmap_app. intros H. apply elem_of_app. by left. Qed.

(** The tables of facts do not depend on the others. *)
Lemma facts_wf_tables s s' :
  objects s' = objects s → identifiers s' = identifiers s → claims s' = claims s → relations s' = relations s →
  links s' = links s → (∀ n, revision_known s n → revision_known s' n) →
  (∀ id, is_Some (observations s !! id) → is_Some (observations s' !! id)) → facts_wf s → facts_wf s'.
Proof.
  intros E1 E2 E3 E4 E5 Hr Ho [W1 W2 W3 W4 W5 W6 W7 W8 W9 W10 W11]. unfold object_typed in *.
  assert (∀ k id, evidenced s k id → evidenced s' k id) as Hev.
  { intros k id (l&Hl&?&?&?). exists l. rewrite E5. auto. }
  split; rewrite ?E1, ?E2, ?E3, ?E4, ?E5; unfold object_typed; rewrite ?E1; try done.
  - intros c Hc. destruct (W6 c Hc) as [[K1 K2 K3 K4] He]. split; [|by apply Hev].
    split; unfold object_typed; rewrite ?E1; auto.
  - intros c Hc. destruct (W8 c Hc) as [[K1 K2 K3 K4] He]. split; [|by apply Hev].
    split; unfold object_typed; rewrite ?E1; auto.
  - intros o Ho'. by apply Hr, W11.
Qed.

Lemma change_ok_tables s s' c :
  objects s' = objects s → claims s' = claims s → relations s' = relations s →
  (∀ n, revision_known s n → revision_known s' n) → change_ok s c → change_ok s' c.
Proof.
  intros E1 E2 E3 Hr [H1 H2 H3 H4]. split; unfold object_typed; rewrite ?E1, ?E2, ?E3; auto.
Qed.

Lemma facts_wf_started run r s : facts_wf s → facts_wf (started run r s).
Proof. apply facts_wf_tables; try done. intros n. by apply revision_known_started. Qed.

Lemma change_ok_started run r s c : change_ok s c → change_ok (started run r s) c.
Proof. apply change_ok_tables; try done. intros n. by apply revision_known_started. Qed.

Lemma resolve_root_kept root_object_id candidate rev s root s' :
  facts_wf s → revision_known s rev → resolve_root uuid5_url root_object_id candidate rev s = (Ok root, s') →
  kept s s' ∧ object_typed s' (object_id root) (object_type root).
Proof.
  intros Hwf Hrev H. unfold resolve_root in H. destruct root_object_id as [id|].
  - apply bind_Ok in H as (s0&s1&H0&H). apply get_store_Ok in H0 as [-> ->]. apply require_Ok in H as [Hroot ->].
    split; [by split|]. apply find_elem in Hroot as [Hin Hid]. by exists root.
  - destruct (root_object candidate) as [o|]; [|done]. apply upsert_object_kept in H as (?&?&_); done.
Qed.

Lemma record_change_Ok change root run_id now s u s' :
  record_change uuid5_url change root run_id now s = (Ok u, s') →
  ∃ run, processing_runs s !! run_id = Some run ∧
    s' = put_processing_run (finished_run now run)
           (set_outbox (outbox s ++ [changed_event uuid5_url change root run_id now]) (set_changes (changes s ++ [change]) s)).
Proof.
  unfold record_change. intros H. apply bind_Ok in H as (s0&s1&H0&H). apply get_store_Ok in H0 as [-> ->].
  apply bind_Ok in H as (u1&s1&H0&H). apply check_Ok in H0 as [_ ->].
  apply bind_Ok in H as (u2&s1&H0&H). apply modify_Ok in H0 as ->.
  apply bind_Ok in H as (u3&s1&H0&H). apply check_Ok in H0 as [_ ->].
  apply bind_Ok in H as (u4&s1&H0&H). apply modify_Ok in H0 as ->.
  apply bind_Ok in H as (run&s1&H0&H). apply require_Ok in H0 as [Hrun ->]. apply modify_Ok in H as ->. by exists run.
Qed.

Lemma elem_of_append_new l x y : y ∈ append_new l x ↔ y ∈ l ∨ y = x.
Proof. unfold append_new. case_bool_decide; [set_solver|]. rewrite elem_of_app, list_elem_of_singleton. done. Qed.
Lemma elem_of_foldl_append_new xs l y : y ∈ foldl append_new l xs ↔ y ∈ l ∨ y ∈ xs.
Proof.
  revert l. induction xs as [|x xs IH]; intros l; simpl; [set_solver|]. rewrite IH, elem_of_append_new, elem_of_cons. tauto.
Qed.

(** The store a run leaves when it has written its facts to [s3]. *)
Lemma recorded_wf s s3 r run run_id now change root :
  knowledge_wf s → pr_status <$> (processing_runs s !! run_id) ≠ Some RUN_SUCCESS →
  kr_revision r ∉ kr_revision <$> revisions s → pr_run_id run = run_id → pr_status run = RUN_RUNNING →
  facts_wf s3 → facts_grow (started run r s) s3 → change_ok s3 change → kc_cause_processing_run_id change = run_id →
  let s' := put_processing_run (finished_run now run)
              (set_outbox (outbox s3 ++ [changed_event uuid5_url change root run_id now])
                 (set_changes (changes s3 ++ [change]) s3)) in
  knowledge_wf s' ∧ knowledge_step s s'.
Proof.
  intros [K1 K2 K3 K4 K5 K6 K7] Hst Hrev Hid Hrun Hwf3 Hg Hch Hcause s'.
  pose proof Hg as [G1 G2 G3 G4 G5 G6 G7 G8 G9 G10]. simpl in G1, G2, G3, G4, G5, G6, G7, G8, G9, G10.
  assert (run_id ∉ kc_cause_processing_run_id <$> changes s) as Hfresh by by rewrite <- K6.
  split.
  - split.
    + by apply (facts_wf_tables s3).
    + simpl. rewrite G3, fmap_app. by apply NoDup_snoc.
    + simpl. intros id x. rewrite G2, !lookup_insert_Some. intros [[<- <-]|[_ [[<- <-]|[_ Hx]]]]; [done|done|by apply K3].
    + simpl. rewrite G4, fmap_app. apply NoDup_snoc; [done|]. by rewrite Hcause.
    + simpl. rewrite G4. assert (∀ c, change_ok s3 c → change_ok s' c) as Hok by (intros c; by apply change_ok_tables).
      intros c [Hc| ->%list_elem_of_singleton]%elem_of_app; [|by apply Hok].
      apply Hok. eapply change_ok_grow; [exact Hg|]. by apply change_ok_started, K5.
    + simpl. intros id. rewrite G4, fmap_app, elem_of_app, G2, Hid. simpl. rewrite list_elem_of_singleton, Hcause.
      destruct (decide (run_id = id)) as [<-|Hne]; [rewrite lookup_insert_eq; naive_solver|].
      rewrite !lookup_insert_ne by done. rewrite K6. naive_solver.
    + simpl. rewrite G4, G5. apply Forall2_app; [done|]. constructor; [|done]. exists root, now. by rewrite Hcause.
  - split; simpl; rewrite ?G1, ?G3, ?G4, ?G5; try done; try by eexists.
    intros id x Hx Hsucc. rewrite G2, Hid. assert (run_id ≠ id) as Hne by (intros <-; apply Hst; by rewrite Hx; simpl; f_equal).
    by rewrite !lookup_insert_ne.
Qed.

(** The stages of a fresh run. *)
Definition run_started (candidate_observation : EvidenceAnchor) (name version run_id : string) (rev now : Z)
  (s : KnowledgeStore) : ProcessingRunModel * KnowledgeRevisionModel :=
  (started_run (processing_runs s !! run_id) run_id name version candidate_observation now,
   mkKnowledgeRevisionModel rev run_id (ea_observation_id candidate_observation) now).
Definition change_of (root : ObjectModel) (observation : EvidenceAnchor) (run_id : string) (rev now : Z)
  (facts : list string * list (string * string)) : KnowledgeChangeModel :=
  mkKnowledgeChangeModel (knowledge_id uuid5_url ("knowledge-change:" +:+ run_id)) rev
    (foldl append_new [object_id root] facts.2.*1) facts.1 facts.2.*2 run_id (ea_observation_id observation) now.

Lemma apply_fresh_Ok root_object_id source observation candidate name version origin run_id rev now s res s' :
  apply_fresh json_hash uuid5_url root_object_id source observation candidate name version origin run_id rev now s
    = (Ok res, s') →
  let '(run, r) := run_started observation name version run_id rev now s in
  (rev ∉ (kr_revision <$> revisions s)) ∧ is_Some (observations s !! ea_observation_id observation) ∧
  ∃ root s1 s2 s3 facts,
    resolve_root uuid5_url root_object_id candidate rev (started run r s) = (Ok root, s1) ∧
    upsert_identifiers uuid5_url (object_id root) (root_identifiers candidate) s1 = (Ok tt, s2) ∧
    validate_candidate_shapes candidate origin (object_type root) = Ok tt ∧
    write_facts json_hash uuid5_url source run_id observation candidate origin rev root s2 = (Ok facts, s3) ∧
    record_change uuid5_url (change_of root observation run_id rev now facts) (object_id root) run_id now s3 = (Ok tt, s') ∧
    res = normalization_result (change_of root observation run_id rev now facts) (ea_observation_id observation) run_id.
Proof.
  intros H. unfold apply_fresh in H. apply bind_Ok in H as (s0&s1&H0&H). apply get_store_Ok in H0 as [-> ->].
  apply bind_Ok in H as (u0&s1&H0&H). apply lift_Ok in H0 as [_ ->].
  apply bind_Ok in H as (u1&s1&H0&H). apply modify_Ok in H0 as ->.
  apply bind_Ok in H as (u2&s1&H0&H). apply check_Ok in H0 as [Hrev%bool_decide_eq_false ->].
  apply bind_Ok in H as (u3&s1&H0&H). apply check_Ok in H0 as [Hobs%bool_decide_eq_false ->]. simpl in Hrev, Hobs.
  apply bind_Ok in H as (u4&s1&H0&H). apply modify_Ok in H0 as ->. cbn [run_started].
  split; [done|]. split; [by apply not_eq_None_Some|].
  apply bind_Ok in H as (root&s1&H1&H). apply bind_Ok in H as (u5&s2&H2&H).
  apply bind_Ok in H as (u6&s3&H3&H). apply lift_Ok in H3 as [Hshapes ->].
  apply bind_Ok in H as (facts&s3&H3&H). cbv zeta in H.
  apply bind_Ok in H as (u7&s4&H4&H). apply ret_Ok in H as [-> ->]. destruct u5, u6, u7.
  by exists root, s1, s2, s3, facts.
Qed.

(** The store in which a run writes its facts. *)
Lemma apply_fresh_writing root_object_id observation candidate name version run_id rev now s root s1 s2 :
  knowledge_wf s → is_Some (observations s !! ea_observation_id observation) →
  let '(run, r) := run_started observation name version run_id rev now s in
  resolve_root uuid5_url root_object_id candidate rev (started run r s) = (Ok root, s1) →
  upsert_identifiers uuid5_url (object_id root) (root_identifiers candidate) s1 = (Ok tt, s2) →
  writing root observation rev s2 ∧ facts_grow (started run r s) s2.
Proof.
  intros Hwf Hobs. cbn [run_started]. set (run := started_run _ _ _ _ _ _). set (r := mkKnowledgeRevisionModel _ _ _ _).
  intros H1 H2. pose proof (facts_wf_started run r s (kw_facts _ _ Hwf)) as Hwf0.
  assert (revision_known (started run r s) rev) as Hrev0
    by (unfold revision_known, started; simpl; rewrite fmap_app; apply elem_of_app; right; apply list_elem_of_here).
  apply resolve_root_kept in H1 as [[Hwf1 Hg1] Hroot1]; [|done..].
  eapply upsert_identifiers_kept in H2 as [Hwf2 Hg2]; [|done|exact Hroot1].
  assert (facts_grow (started run r s) s2) as Hg02 by by etrans.
  split; [|done]. split; [done|by apply (object_typed_grow s1)| |].
  - unfold revision_known in *. by rewrite (fg_revisions _ _ Hg02).
  - by rewrite (fg_observations _ _ Hg02).
Qed.

Lemma apply_fresh_good root_object_id source observation candidate name version origin run_id rev now s res s' :
  knowledge_wf s → pr_status <$> (processing_runs s !! run_id) ≠ Some RUN_SUCCESS →
  apply_fresh json_hash uuid5_url root_object_id source observation candidate name version origin run_id rev now s
    = (Ok res, s') →
  knowledge_wf s' ∧ knowledge_step s s' ∧ ∃ change, change ∈ changes s' ∧ kc_cause_processing_run_id change = run_id ∧
    res = normalization_result change (ea_observation_id observation) run_id ∧ kc_revision change = rev.
Proof.
  intros Hwf Hst H. apply apply_fresh_Ok in H. pose proof (apply_fresh_writing root_object_id observation candidate name
    version run_id rev now s) as Hwriting. cbn [run_started] in *. set (run := started_run _ _ _ _ _ _) in *.
  set (r := mkKnowledgeRevisionModel _ _ _ _) in *. destruct H as (Hrev&Hobs&root&s1&s2&s3&facts&H1&H2&Hshapes&H3&H4&->).
  destruct (Hwriting root s1 s2 Hwf Hobs H1 H2) as [Hs2 Hg02].
  assert (pr_run_id run = run_id ∧ pr_status run = RUN_RUNNING) as [Hid Hrunning].
  { unfold run, started_run. destruct (processing_runs s !! run_id) as [old|] eqn:Hold; [|done].
    by rewrite (kw_runs _ _ Hwf _ _ Hold). }
  pose proof (write_facts_kept _ _ _ _ _ _ _ _ _ _ _ _ _ Hs2 Hshapes H3) as [Hwf3 Hg3].
  destruct (write_facts_ids _ _ _ _ _ _ _ _ _ _ _ _ _ Hs2 Hshapes H3) as (_&Hclaims&Hobjs&Hrels).
  assert (facts_grow (started run r s) s3) as Hg03 by by etrans.
  set (change := change_of _ _ _ _ _ _) in *. apply record_change_Ok in H4 as (run'&Hrun'&->).
  rewrite (fg_runs _ _ Hg03) in Hrun'. simpl in Hrun'. rewrite Hid, lookup_insert_eq in Hrun'. injection Hrun' as <-.
  assert (change_ok s3 change) as Hch.
  { split; simpl; [| |done|done].
    - unfold revision_known. rewrite (fg_revisions _ _ Hg3). by destruct Hs2.
    - intros id [->%list_elem_of_singleton|Hin]%elem_of_foldl_append_new; [|by apply Hobjs].
      exists (object_type root). eapply object_typed_grow; [exact Hg3|]. by destruct Hs2. }
  destruct (recorded_wf s s3 r run run_id now change (object_id root) Hwf Hst Hrev Hid Hrunning Hwf3 Hg03 Hch eq_refl)
    as [Hwf4 Hstep].
  split; [done|]. split; [done|]. exists change. split; [simpl; apply elem_of_app; right; apply list_elem_of_here|done].
Qed.

(** ** Histories of the knowledge base *)

(** What may happen to the knowledge base: another component stores an observation, or the writer runs. *)
Inductive knowledge_op :=
| Observe (id : string) (o : ObservationModel)
| Apply (root_object_id : option string) (source_id : string) (observation : EvidenceAnchor)
    (candidate : EnrichmentCandidate) (name version : string) (origin : KnowledgeOrigin) (revision now : Z).

Definition observe (id : string) (o : ObservationModel) : prog KnowledgeStore unit :=
  s ← get_store;
  check (bool_decide (is_Some (observations s !! id))) (IntegrityError "observations");;
  modify (λ s, mkKnowledgeStore (<[id := o]> (observations s)) (processing_runs s) (revisions s) (objects s)
                 (identifiers s) (claims s) (relations s) (links s) (changes s) (outbox s)).

Definition run_knowledge_op (op : knowledge_op) : prog KnowledgeStore unit :=
  atomic match op with
         | Observe id o => observe id o
         | Apply root source observation candidate name version origin revision now =>
             _ ← apply json_hash uuid5_url root source observation candidate name version origin revision now; mret tt
         end.
Definition run_knowledge_ops (ops : list knowledge_op) (s : KnowledgeStore) : KnowledgeStore :=
  foldl (λ s op, (run_knowledge_op op s).2) s ops.

Definition empty_knowledge : KnowledgeStore := mkKnowledgeStore ∅ ∅ [] [] [] [] [] [] [] [].

Lemma empty_knowledge_wf : knowledge_wf empty_knowledge.
Proof.
  split; simpl; try done; try by constructor.
  - split; simpl; try done; try (by constructor); by intros ? ?%elem_of_nil.
  - by intros ? ?%elem_of_nil.
  - intros id. rewrite lookup_empty. split; [done|]. by intros ?%elem_of_nil.
Qed.

Lemma observe_good id row s u s' : knowledge_wf s → observe id row s = (Ok u, s') → knowledge_wf s' ∧ knowledge_step s s'.
Proof.
  intros [K1 K2 K3 K4 K5 K6 K7] H. unfold observe in H. apply bind_Ok in H as (s0&s1&H0&H). apply get_store_Ok in H0 as [-> ->].
  apply bind_Ok in H as (u0&s1&H0&H). apply check_Ok in H0 as [Hid%bool_decide_eq_false ->].
  apply modify_Ok in H as ->. apply eq_None_not_Some in Hid. split.
  - split; simpl; try done.
    + apply (facts_wf_tables s); try done. simpl. intros id' [x Hx]. destruct (decide (id = id')) as [->|Hne].
      * rewrite lookup_insert_eq. by eexists.
      * rewrite lookup_insert_ne by done. by eexists.
    + intros c Hc. apply (change_ok_tables s); try done. by apply K5.
  - split; simpl; try done; grow_rest. by apply insert_subseteq.
Qed.

Lemma run_knowledge_op_good op s :
  knowledge_wf s → knowledge_wf (run_knowledge_op op s).2 ∧ knowledge_step s (run_knowledge_op op s).2.
Proof.
  intros Hwf. unfold run_knowledge_op.
  match goal with |- context [atomic ?m _] =>
    destruct (atomic_cases m s) as [(u&s'&Hm&->)|(e&s'&_&->)]; simpl; [|by split] end.
  destruct op as [id row|root source observation candidate name version origin revision now];
    [by eapply observe_good|].
  apply bind_Ok in Hm as (res&s1&Hm&H). apply ret_Ok in H as [_ ->]. unfold apply in Hm.
  apply bind_Ok in Hm as (seed&s2&H0&Hm). apply require_Ok in H0 as [_ ->]. cbv zeta in Hm.
  apply bind_Ok in Hm as (s0&s2&H0&Hm). apply get_store_Ok in H0 as [-> ->]. case_bool_decide as Hdone.
  - apply bind_Ok in Hm as (change&s2&H0&Hm). apply require_Ok in H0 as [_ ->]. apply ret_Ok in Hm as [_ ->]. by split.
  - apply apply_fresh_good in Hm as (?&?&_); done.
Qed.

Lemma run_knowledge_ops_good ops s :
  knowledge_wf s → knowledge_wf (run_knowledge_ops ops s) ∧ knowledge_step s (run_knowledge_ops ops s).
Proof.
  unfold run_knowledge_ops. revert s. induction ops as [|op ops IH]; intros s Hwf; simpl; [by split|].
  destruct (run_knowledge_op_good op s Hwf) as [Hwf1 H1]. destruct (IH _ Hwf1) as [Hwf2 H2]. split; [done|by etrans].
Qed.

(** A replay of a run that succeeded. *)
Lemma apply_replay root source observation candidate name version origin revision now seed change s :
  knowledge_wf s → root_seed root candidate = Some seed → change ∈ changes s →
  kc_cause_processing_run_id change = run_id_of uuid5_url name version seed observation →
  apply json_hash uuid5_url root source observation candidate name version origin revision now s =
    (Ok (normalization_result change (ea_observation_id observation) (run_id_of uuid5_url name version seed observation)), s).
Proof.
  intros Hwf Hseed Hin Hcause. unfold apply. rewrite Hseed. cbn [require]. set (run_id := run_id_of _ _ _ _ _) in *.
  assert (find (λ c, bool_decide (kc_cause_processing_run_id c = run_id)) (changes s) = Some change) as Hfind.
  { apply (find_NoDup kc_cause_processing_run_id); [by destruct Hwf| |done].
    intros y _. by rewrite bool_decide_eq_true, Hcause. }
  run_step. rewrite bool_decide_true; [|by apply (kw_success _ _ Hwf), list_elem_of_fmap; exists change].
  run_step. fold run_id. by rewrite Hfind.
Qed.

(** A run that returns leaves its change. *)
Lemma apply_leaves_change root source observation candidate name version origin revision now s res s' :
  knowledge_wf s →
  apply json_hash uuid5_url root source observation candidate name version origin revision now s = (Ok res, s') →
  knowledge_wf s' ∧ ∃ seed change, root_seed root candidate = Some seed ∧ change ∈ changes s' ∧
    kc_cause_processing_run_id change = run_id_of uuid5_url name version seed observation ∧
    res = normalization_result change (ea_observation_id observation) (run_id_of uuid5_url name version seed observation).
Proof.
  intros Hwf H. unfold apply in H.
  apply bind_Ok in H as (seed&s2&H0&H). apply require_Ok in H0 as [Hseed ->]. cbv zeta in H.
  apply bind_Ok in H as (s0&s2&H0&H). apply get_store_Ok in H0 as [-> ->]. case_bool_decide as Hdone.
  - apply bind_Ok in H as (change&s2&H0&H). apply require_Ok in H0 as [Hc ->]. apply ret_Ok in H as [-> ->].
    apply find_elem in Hc as [Hin Hc%bool_decide_eq_true]. split; [done|]. by exists seed, change.
  - apply apply_fresh_good in H as (?&_&change&?&?&->&_); [|done..]. split; [done|]. by exists seed, change.
Qed.

(** ** Which claims of a source are current *)

(** [id] is the current claim, or one of them, of the source about the predicate of the subject. *)
Definition current (s : KnowledgeStore) (subject source p id : string) : Prop :=
  ∃ c, c ∈ claims s ∧ claim_id c = id ∧ is_current_claim subject source p c = true.

(** A stored claim with the identity of a candidate's claim is a claim of the same source about the same thing. *)
Definition ids_faithful (s : KnowledgeStore) (subject source : string) (observation : EvidenceAnchor)
  (ks : list ClaimCandidate) : Prop :=
  ∀ c k, c ∈ claims s → k ∈ ks →
  claim_id c = claim_id_of json_hash uuid5_url subject (ea_observation_id observation) k →
  subject_id c = subject ∧ predicate c = cl_predicate k ∧
  dict_get "source_id" (cm_qualifier c) = Some (JStr source).

(** The claims of a candidate that survive their own run: with [replace_predicates] all of them, otherwise the last
    one of each predicate. *)
Definition survives (replaced : list string) (ks : list ClaimCandidate) (p : string) (k : ClaimCandidate) : Prop :=
  ∃ before after, ks = before ++ k :: after ∧ cl_predicate k = p ∧ (p ∈ replaced ∨ p ∉ cl_predicate <$> after).

Lemma survives_cons replaced k0 ks p k :
  survives replaced (k0 :: ks) p k ↔
  survives replaced ks p k ∨ k = k0 ∧ cl_predicate k0 = p ∧ (p ∈ replaced ∨ p ∉ cl_predicate <$> ks).
Proof.
  split.
  - intros (before&after&E&Hp&H). destruct before as [|k1 before]; simplify_eq/=; [by right|left]. by exists before, after.
  - intros [(before&after&->&Hp&H)|(->&Hp&H)]; [by exists (k0 :: before), after|by exists [], ks].
Qed.

Lemma current_supersede subject source p0 rev s u s' p id :
  supersede_source_claims subject p0 source rev s = (Ok u, s') →
  current s' subject source p id ↔ current s subject source p id ∧ p ≠ p0.
Proof.
  intros ->%modify_Ok. unfold current. simpl. split.
  - intros (c&(c0&Hc0&->)%elem_of_update_where&Hid&Hcur).
    destruct (is_current_claim subject source p0 c0) eqn:E0.
    + exfalso. apply is_current_claim_true in Hcur as (_&_&H&_). discriminate H.
    + split; [by exists c0|]. intros ->. congruence.
  - intros [(c&Hc&Hid&Hcur) Hne]. exists c. split; [|done]. apply elem_of_update_where. exists c. split; [done|].
    destruct (is_current_claim subject source p0 c) eqn:E0; [|done]. exfalso. apply Hne.
    apply is_current_claim_true in Hcur as (_&Hp&_). apply is_current_claim_true in E0 as (_&Hp0&_). congruence.
Qed.

Lemma faithful_update (f : ClaimModel → bool) n s subject source observation ks :
  ids_faithful s subject source observation ks →
  ids_faithful (set_claims (update_where f (set_claim_superseded n) (claims s)) s) subject source observation ks.
Proof.
  intros H c k (c0&Hc0&->)%elem_of_update_where Hk Hid.
  destruct (f c0); by apply (H c0 k).
Qed.

Lemma current_write_claim replaced root source run observation origin rev ks k s id' s' p id :
  facts_wf s → ids_faithful s (object_id root) source observation ks → k ∈ ks →
  (∀ k', k' ∈ ks → claim_id_of json_hash uuid5_url (object_id root) (ea_observation_id observation) k =
     claim_id_of json_hash uuid5_url (object_id root) (ea_observation_id observation) k' → cl_predicate k = cl_predicate k') →
  write_claim json_hash uuid5_url replaced root source run observation origin rev k s = (Ok id', s') →
  ids_faithful s' (object_id root) source observation ks ∧
  (current s' (object_id root) source p id ↔
   (cl_predicate k = p ∧ id = claim_id_of json_hash uuid5_url (object_id root) (ea_observation_id observation) k) ∨
   (current s (object_id root) source p id ∧ (cl_predicate k = p → p ∈ replaced))).
Proof.
  intros Hwf Hf Hk Hinj H. unfold write_claim in H. apply bind_Ok in H as (u&s1&H1&H).
  assert (ids_faithful s1 (object_id root) source observation ks ∧
    (∀ c, c ∈ claims s1 → cm_lifecycle c = "accepted"%string) ∧
    (∀ id, current s1 (object_id root) source p id ↔
       current s (object_id root) source p id ∧ (cl_predicate k = p → p ∈ replaced))) as (Hf1&Hl1&Hc1).
  { assert (∀ c, c ∈ claims s → cm_lifecycle c = "accepted"%string) as Hl
      by (intros c Hc; by destruct (fw_claims _ Hwf c Hc) as [[? _ _ _] _]).
    case_bool_decide as Hrep.
    - apply ret_Ok in H1 as [_ ->]. split; [done|]. split; [done|]. intros i. split; [|tauto]. intros ?.
      split; [done|]. by intros <-.
    - pose proof H1 as Hcur. apply modify_Ok in H1 as ->. split; [by apply faithful_update|]. split.
      + simpl. intros c (c0&Hc0%Hl&->)%elem_of_update_where. by destruct (is_current_claim _ _ _ _).
      + intros i. rewrite (current_supersede _ _ _ _ _ _ _ p i Hcur). split; [|naive_solver].
        intros [? Hne]. split; [done|]. by intros <-. }
  cbv zeta in H. apply bind_Ok in H as (s0&s2&H2&H). apply get_store_Ok in H2 as [-> ->].
  apply bind_Ok in H as (u1&s2&H2&H). apply ret_Ok in H as [_ ->].
  set (row := new_claim _ _ _ _ _ _ _ _ _) in *.
  assert (is_current_claim (object_id root) source (cl_predicate k) row = true) as Hrow.
  { unfold is_current_claim. rewrite !andb_true_iff, !bool_decide_eq_true. repeat split. apply stored_source_id. }
  rewrite <- Hc1. clear Hc1. case_bool_decide as Hin.
  - apply modify_Ok in H2 as ->. split; [by apply faithful_update|]. unfold current; simpl. split.
    + intros (c&(c0&Hc0&->)%elem_of_update_where&Hid&Hcur). case_bool_decide as E.
      * left. destruct (Hf1 c0 k Hc0 Hk E) as (_&Hp&_). apply is_current_claim_true in Hcur as (_&Hp'&_).
        simpl in Hid, Hp'. split; congruence.
      * right. by exists c0.
    + intros [[Hp ->]|(c&Hc&Hid&Hcur)].
      * apply list_elem_of_fmap in Hin as (c0&Hid&Hc0). exists (set_claim_superseded None c0).
        split; [apply elem_of_update_where; exists c0; split; [done|by rewrite bool_decide_true]|].
        split; [done|]. destruct (Hf1 c0 k Hc0 Hk (eq_sym Hid)) as (Hs0&Hp0&Hsrc).
        unfold is_current_claim. simpl. rewrite !andb_true_iff, !bool_decide_eq_true. rewrite <- Hp. by auto.
      * destruct (decide (claim_id c = claim_id row)) as [E|Hne].
        -- exists (set_claim_superseded None c). split; [|split; [done|]].
           ++ apply elem_of_update_where. exists c. split; [done|]. by rewrite bool_decide_true.
           ++ pose proof (is_current_claim_true _ _ _ _ Hcur) as (_&_&Hn&_). rewrite <- Hn, set_claim_superseded_id. done.
        -- exists c. split; [|done]. apply elem_of_update_where. exists c. split; [done|]. by rewrite bool_decide_false.
  - apply bind_Ok in H2 as (u2&s3&H2&H3). apply modify_Ok in H2 as ->. apply add_link_Ok in H3 as (->&_). simpl. split.
    + intros c k' [Hc| ->%list_elem_of_singleton]%elem_of_app Hk' Hid; [by apply (Hf1 c k')|].
      split; [done|]. split; [by apply Hinj|apply stored_source_id].
    + unfold current. simpl. split.
      * intros (c&[Hc| ->%list_elem_of_singleton]%elem_of_app&Hid&Hcur); [right; by exists c|left].
        apply is_current_claim_true in Hcur as (_&Hp&_). done.
      * intros [[<- ->]|(c&Hc&?)]; [exists row|exists c]; (split; [apply elem_of_app|done]).
        -- right. apply list_elem_of_here.
        -- by left.
Qed.

Lemma current_write_claims replaced root source run observation origin rev ks l s ids s' p id :
  writing root observation rev s → ids_faithful s (object_id root) source observation ks →
  (∀ k, k ∈ l → k ∈ ks ∧ classify_term K_CLAIM (cl_predicate k) origin (Some (object_type root)) None
     (Some (names_of (cl_qualifier k))) ≠ SC_UNREGISTERED) →
  (∀ k k', k ∈ ks → k' ∈ ks → claim_id_of json_hash uuid5_url (object_id root) (ea_observation_id observation) k =
     claim_id_of json_hash uuid5_url (object_id root) (ea_observation_id observation) k' → cl_predicate k = cl_predicate k') →
  for_each l (write_claim json_hash uuid5_url replaced root source run observation origin rev) s = (Ok ids, s') →
  current s' (object_id root) source p id ↔
   (∃ k, survives replaced l p k ∧ id = claim_id_of json_hash uuid5_url (object_id root) (ea_observation_id observation) k) ∨
   (current s (object_id root) source p id ∧ (p ∈ cl_predicate <$> l → p ∈ replaced)).
Proof.
  intros Hs Hf Hl Hinj. revert s ids Hs Hf. induction l as [|k l IH]; intros s ids Hs Hf H; cbn [for_each] in H.
  - apply ret_Ok in H as [_ ->]. csimpl. split.
    + intros ?. right. split; [done|]. by intros ?%elem_of_nil.
    + intros [(k&(before&after&E&_)&_)|[? _]]; [by destruct before|done].
  - apply bind_Ok in H as (i&s1&H1&H). apply bind_Ok in H as (rest&s2&H2&H). apply ret_Ok in H as [_ ->].
    destruct (Hl k (list_elem_of_here _ _)) as [Hk Hscope]. pose proof Hs as [Hwf Hroot Hrev Hobs].
    destruct (current_write_claim replaced root source run observation origin rev ks k s i s1 p id) as [Hf1 Hc1]; try done.
    { intros k' Hk'. by apply Hinj. }
    assert (writing root observation rev s1) as Hs1.
    { apply (writing_kept _ _ _ s); [done|]. by eapply write_claim_kept. }
    rewrite (IH (λ k' Hk', Hl k' (list_elem_of_further _ _ _ Hk')) s1 rest Hs1 Hf1 H2), Hc1.
    csimpl. setoid_rewrite survives_cons. setoid_rewrite elem_of_cons. split.
    + intros [(k'&?&?)|[[[Hp ->]|[? ?]] Hrep]].
      * left. exists k'. tauto.
      * left. exists k. split; [right|done]. split; [done|]. split; [done|].
        destruct (decide (p ∈ cl_predicate <$> l)); [left; by apply Hrep|by right].
      * right. split; [done|]. intros [->|?]; auto.
    + intros [(k'&[?|(->&Hp&Hor)]&Hid)|[? Hrep]].
      * left. by exists k'.
      * right. split; [by left|]. intros Hin. by destruct Hor.
      * right. split; [|by auto]. right. split; [done|]. intros <-. auto.
Qed.

Lemma current_supersede_all subject source rev ps s us s' p id :
  for_each ps (λ p, supersede_source_claims subject p source rev) s = (Ok us, s') →
  current s' subject source p id ↔ current s subject source p id ∧ p ∉ ps.
Proof.
  revert s us. induction ps as [|p0 ps IH]; intros s us H; cbn [for_each] in H.
  - apply ret_Ok in H as [_ ->]. split; [|tauto]. intros ?. split; [done|apply not_elem_of_nil].
  - apply bind_Ok in H as (i&s1&H1&H). apply bind_Ok in H as (rest&s2&H2&H). apply ret_Ok in H as [_ ->].
    rewrite (IH s1 rest H2), (current_supersede _ _ _ _ _ _ _ p id H1), not_elem_of_cons. tauto.
Qed.

Lemma faithful_supersede_all subject subject' source observation ks source' rev ps s us s' :
  for_each ps (λ p, supersede_source_claims subject' p source' rev) s = (Ok us, s') →
  ids_faithful s subject source observation ks → ids_faithful s' subject source observation ks.
Proof.
  revert s us. induction ps as [|p0 ps IH]; intros s us H Hf; cbn [for_each] in H.
  - by apply ret_Ok in H as [_ ->].
  - apply bind_Ok in H as (i&s1&H1&H). apply bind_Ok in H as (rest&s2&H2&H). apply ret_Ok in H as [_ ->].
    eapply IH; [exact H2|]. apply modify_Ok in H1 as ->. by apply faithful_update.
Qed.

(** *** The steps that leave the claims alone *)

Definition same_claims (s s' : KnowledgeStore) : Prop := claims s' = claims s.
#[local] Instance same_claims_preorder : PreOrder same_claims.
Proof. split; [done|]. intros x y z H1 H2. unfold same_claims in *. congruence. Qed.

Lemma upsert_identifier_claims id ns v s u s' : upsert_identifier uuid5_url id ns v s = (Ok u, s') → same_claims s s'.
Proof.
  intros H. unfold upsert_identifier in H. apply bind_Ok in H as (s0&s1&H0&H). apply get_store_Ok in H0 as [-> ->].
  destruct (find_identifier ns v s); prog_inv H; done.
Qed.
Lemma upsert_identifiers_claims id ids s u s' : upsert_identifiers uuid5_url id ids s = (Ok u, s') → same_claims s s'.
Proof.
  intros H. unfold upsert_identifiers in H. apply bind_Ok in H as (u0&s1&H0&H). apply ret_Ok in H as [_ ->].
  eapply (for_each_steps (λ _, True) same_claims) in H0 as [_ ?]; [done| |done].
  intros x s0 a s2 _ _ Hx. split; [done|]. by eapply upsert_identifier_claims.
Qed.
Lemma upsert_object_claims c rev s o s' : upsert_object uuid5_url c rev s = (Ok o, s') → same_claims s s'.
Proof.
  intros H. unfold upsert_object in H. apply bind_Ok in H as (s0&s1&H0&H). apply get_store_Ok in H0 as [-> ->].
  apply bind_Ok in H as (obj&s1&H0&H). apply bind_Ok in H as (u&s2&H1&H). apply ret_Ok in H as [_ ->].
  apply upsert_identifiers_claims in H1. etrans; [|exact H1].
  destruct (find_object _ _ s); [case_bool_decide|]; prog_inv H0; done.
Qed.
Lemma write_relation_claims root source run observation origin rev r s ids s' :
  write_relation json_hash uuid5_url root source run observation origin rev r s = (Ok ids, s') → same_claims s s'.
Proof.
  intros H. unfold write_relation in H. apply bind_Ok in H as (target&s1&H0&H). apply upsert_object_claims in H0.
  etrans; [exact H0|]. cbv zeta in H. apply bind_Ok in H as (s0&s2&H1&H). apply get_store_Ok in H1 as [-> ->].
  apply bind_Ok in H as (u&s2&H1&H). apply ret_Ok in H as [_ ->].
  case_bool_decide; [by apply modify_Ok in H1 as ->|]. apply bind_Ok in H1 as (u1&s3&H2&H1).
  apply modify_Ok in H2 as ->. by apply add_link_Ok in H1 as (->&_).
Qed.
Lemma resolve_root_claims root_object_id candidate rev s root s' :
  resolve_root uuid5_url root_object_id candidate rev s = (Ok root, s') → same_claims s s'.
Proof.
  intros H. unfold resolve_root in H. destruct root_object_id as [id|].
  - by prog_inv H.
  - destruct (root_object candidate); [by eapply upsert_object_claims|done].
Qed.

Lemma current_same s s' subject source p id :
  same_claims s s' → current s' subject source p id ↔ current s subject source p id.
Proof. intros E. unfold current. by rewrite E. Qed.
Lemma faithful_same s s' subject source observation ks :
  same_claims s s' → ids_faithful s subject source observation ks → ids_faithful s' subject source observation ks.
Proof. intros E. unfold ids_faithful. by rewrite E. Qed.

(** [c] is not a claim of the source about the subject. *)
Definition foreign (subject source : string) (c : ClaimModel) : Prop :=
  subject_id c ≠ subject ∨ dict_get "source_id" (cm_qualifier c) ≠ Some (JStr source).
Definition foreign_kept (subject source : string) (s s' : KnowledgeStore) : Prop :=
  ∀ c, c ∈ claims s → foreign subject source c → c ∈ claims s'.
#[local] Instance foreign_kept_preorder subject source : PreOrder (foreign_kept subject source).
Proof. split; [by intros s c|]. intros s1 s2 s3 H1 H2 c Hc Hf. apply H2; [by apply H1|done]. Qed.

Lemma foreign_supersede subject p source rev s u s' :
  supersede_source_claims subject p source rev s = (Ok u, s') → foreign_kept subject source s s'.
Proof.
  intros ->%modify_Ok c Hc Hf. apply elem_of_update_where. exists c. split; [done|].
  destruct (is_current_claim subject source p c) eqn:E; [|done].
  apply is_current_claim_true in E as (?&_&_&?). by destruct Hf.
Qed.

Lemma foreign_write_claim replaced root source run observation origin rev ks k s id s' :
  ids_faithful s (object_id root) source observation ks → k ∈ ks →
  write_claim json_hash uuid5_url replaced root source run observation origin rev k s = (Ok id, s') →
  foreign_kept (object_id root) source s s'.
Proof.
  intros Hf Hk H. unfold write_claim in H. apply bind_Ok in H as (u&s1&H1&H).
  assert (foreign_kept (object_id root) source s s1 ∧ ids_faithful s1 (object_id root) source observation ks) as [H01 Hf1].
  { case_bool_decide; [by apply ret_Ok in H1 as [_ ->]|]. split; [by eapply foreign_supersede|].
    apply modify_Ok in H1 as ->. by apply faithful_update. }
  etrans; [exact H01|]. clear H01 H1. cbv zeta in H. apply bind_Ok in H as (s0&s2&H2&H). apply get_store_Ok in H2 as [-> ->].
  apply bind_Ok in H as (u1&s2&H2&H). apply ret_Ok in H as [_ ->]. intros c Hc Hfor. case_bool_decide.
  - apply modify_Ok in H2 as ->. apply elem_of_update_where. exists c. split; [done|]. case_bool_decide as E; [|done].
    destruct (Hf1 c k Hc Hk E) as (?&_&?). by destruct Hfor.
  - apply bind_Ok in H2 as (u2&s3&H2&H3). apply modify_Ok in H2 as ->. apply add_link_Ok in H3 as (->&_). simpl.
    apply elem_of_app. by left.
Qed.

(** The claims of the candidate have identities of their own. *)
Definition ids_distinct (subject : string) (observation : EvidenceAnchor) (ks : list ClaimCandidate) : Prop :=
  ∀ k k', k ∈ ks → k' ∈ ks → claim_id_of json_hash uuid5_url subject (ea_observation_id observation) k =
    claim_id_of json_hash uuid5_url subject (ea_observation_id observation) k' → cl_predicate k = cl_predicate k'.

Lemma write_facts_current source run observation candidate origin rev root u s facts s' :
  writing root observation rev s → ids_faithful s (object_id root) source observation (ec_claims candidate) →
  ids_distinct (object_id root) observation (ec_claims candidate) →
  validate_candidate_shapes candidate origin (object_type root) = Ok u →
  write_facts json_hash uuid5_url source run observation candidate origin rev root s = (Ok facts, s') →
  foreign_kept (object_id root) source s s' ∧
  ∀ p id, current s' (object_id root) source p id ↔
   (∃ k, survives (replace_predicates candidate) (ec_claims candidate) p k ∧
      id = claim_id_of json_hash uuid5_url (object_id root) (ea_observation_id observation) k) ∨
   (current s (object_id root) source p id ∧ (p ∉ (replace_predicates candidate)) ∧
      (p ∉ (cl_predicate <$> ec_claims candidate))).
Proof.
  intros Hs Hf Hinj [Hc _]%validate_shapes_Ok H. unfold write_facts in H.
  apply bind_Ok in H as (u1&s1&H1&H). apply bind_Ok in H as (u2&s2&H2&H). apply bind_Ok in H as (ids&s3&H3&H).
  apply bind_Ok in H as (targets&s4&H4&H). apply ret_Ok in H as [_ ->].
  pose proof (faithful_supersede_all _ _ _ _ _ _ _ _ _ _ _ H1 Hf) as Hf1.
  pose proof (λ p id, current_supersede_all _ _ _ _ _ _ _ p id H1) as Hc1.
  apply (for_each_steps (writing root observation rev) (foreign_kept (object_id root) source)) in H1 as [Hs1 G1];
    [|clear; intros p s u s' _ Hs H; split; [apply writing_kept with s; [done|]; destruct Hs; by eapply supersede_claims_kept
                                            |by eapply foreign_supersede]|done].
  apply (for_each_steps (writing root observation rev) same_claims) in H2 as [Hs2 G2];
    [|clear; intros p s u s' _ Hs H; split; [apply writing_kept with s; [done|]; destruct Hs; by eapply supersede_relations_kept
                                            |by apply modify_Ok in H as ->]|done].
  pose proof (faithful_same _ _ _ _ _ _ G2 Hf1) as Hf2.
  assert (same_claims s3 s4) as G4.
  { eapply (for_each_steps (λ _, True) same_claims) in H4 as [_ ?]; [done| |done].
    intros r s5 a s6 _ _ Hr. split; [done|]. by eapply write_relation_claims. }
  split.
  - etrans; [exact G1|]. intros c Hin Hfor. rewrite G4. rewrite <- G2 in Hin.
    eapply (for_each_steps (λ s, writing root observation rev s ∧
      ids_faithful s (object_id root) source observation (ec_claims candidate)) (foreign_kept (object_id root) source))
      in H3 as [_ G3]; [by apply G3| |done].
    intros k s5 a s6 Hk [Hs5 Hf5] Hstep.
    assert (writing root observation rev s6) as Hs6.
    { apply writing_kept with s5; [done|]. destruct Hs5. eapply write_claim_kept; try done. by apply Hc. }
    split; [split; [done|]|by eapply foreign_write_claim].
    eapply (current_write_claim _ _ _ _ _ _ _ _ _ _ _ _ "" ""); [by destruct Hs5|done|done| |exact Hstep].
    intros k' Hk'. by apply Hinj.
  - intros p id. rewrite (current_same _ _ _ _ _ _ G4).
    rewrite (current_write_claims _ _ _ _ _ _ _ (ec_claims candidate) _ _ _ _ p id Hs2 Hf2
      ltac:(intros k Hk; split; [done|by apply Hc]) Hinj H3).
    rewrite (current_same _ _ _ _ _ _ G2), Hc1. split; [|naive_solver].
    intros [?|[[? Hn] Hrep]]; [by left|right]. split; [done|]. split; [done|]. intros ?. by apply Hn, Hrep.
Qed.

(** The claims a run leaves current, told from the store it starts in. *)
Lemma apply_fresh_current root_object_id source observation candidate name version origin run_id rev now s res s' :
  knowledge_wf s →
  apply_fresh json_hash uuid5_url root_object_id source observation candidate name version origin run_id rev now s
    = (Ok res, s') →
  ∃ root, head (nr_object_ids res) = Some root ∧
    (ids_faithful s root source observation (ec_claims candidate) → ids_distinct root observation (ec_claims candidate) →
     foreign_kept root source s s' ∧
     ∀ p id, current s' root source p id ↔
       (∃ k, survives (replace_predicates candidate) (ec_claims candidate) p k ∧
          id = claim_id_of json_hash uuid5_url root (ea_observation_id observation) k) ∨
       (current s root source p id ∧ (p ∉ replace_predicates candidate) ∧ p ∉ (cl_predicate <$> ec_claims candidate))).
Proof.
  intros Hwf H. apply apply_fresh_Ok in H. pose proof (apply_fresh_writing root_object_id observation candidate name
    version run_id rev now s) as Hwriting. cbn [run_started] in *. set (run := started_run _ _ _ _ _ _) in *.
  set (r := mkKnowledgeRevisionModel _ _ _ _) in *. destruct H as (Hrev&Hobs&root&s1&s2&s3&facts&H1&H2&Hshapes&H3&H4&->).
  destruct (Hwriting root s1 s2 Hwf Hobs H1 H2) as [Hs2 _]. exists (object_id root). split.
  { simpl. assert (∀ xs l x, head l = Some x → head (foldl append_new l xs) = Some x) as Hhead; [|by apply Hhead].
    induction xs as [|y xs IH]; intros l x Hl; [done|]. simpl. apply IH. unfold append_new. case_bool_decide; [done|].
    by destruct l. }
  intros Hf Hinj.
  assert (same_claims s s2) as E2.
  { etrans; [|by eapply upsert_identifiers_claims]. apply resolve_root_claims in H1. exact H1. }
  assert (same_claims s3 s') as E3.
  { apply record_change_Ok in H4 as (run'&_&->). done. }
  destruct (write_facts_current source run_id observation candidate origin rev root tt s2 facts s3 Hs2
    (faithful_same _ _ _ _ _ _ E2 Hf) Hinj Hshapes H3) as [Hfor Hcur].
  split.
  - intros c Hc Hfc. rewrite E3. apply Hfor; [by rewrite E2|done].
  - intros p id. by rewrite (current_same _ _ _ _ _ _ E3), Hcur, (current_same _ _ _ _ _ _ E2).
Qed.

(** Decision procedures for the two conditions on identities. *)
Lemma ids_faithful_true s subject source observation ks :
  forallb (λ c, forallb (λ k, implb (bool_decide (claim_id c = claim_id_of json_hash uuid5_url subject
     (ea_observation_id observation) k)) (bool_decide (subject_id c = subject) && bool_decide (predicate c = cl_predicate k)
       && bool_decide (dict_get "source_id" (cm_qualifier c) = Some (JStr source)))) ks) (claims s) = true →
  ids_faithful s subject source observation ks.
Proof.
  intros H c k Hc%list_elem_of_In Hk%list_elem_of_In Hid. apply (proj1 (forallb_forall _ _)) with (x := c) in H; [|done].
  apply (proj1 (forallb_forall _ _)) with (x := k) in H; [|done]. rewrite bool_decide_true in H by done. simpl in H.
  rewrite !andb_true_iff, !bool_decide_eq_true in H. by destruct H as [[? ?] ?].
Qed.
Lemma ids_distinct_true subject observation ks :
  forallb (λ k, forallb (λ k', implb (bool_decide (claim_id_of json_hash uuid5_url subject (ea_observation_id observation) k =
     claim_id_of json_hash uuid5_url subject (ea_observation_id observation) k'))
       (bool_decide (cl_predicate k = cl_predicate k'))) ks) ks = true →
  ids_distinct subject observation ks.
Proof.
  intros H k k' Hk%list_elem_of_In Hk'%list_elem_of_In Hid. apply (proj1 (forallb_forall _ _)) with (x := k) in H; [|done].
  apply (proj1 (forallb_forall _ _)) with (x := k') in H; [|done]. rewrite bool_decide_true in H by done. simpl in H.
  by apply bool_decide_eq_true in H.
Qed.
End writer_runs.

(** ** The properties *)

(** A concrete history: two observations of one source about one vulnerability. *)
Definition sample_hash (j : json) : string :=
  match j with JObj ((_, JStr v) :: _) => v | _ => "" end.
Definition sample_observation (source : string) : ObservationModel :=
  mkObservationModel source "CVE-2024-1" None None None 5 None.
Definition sample_root : ObjectCandidate := mkObjectCandidate "Vulnerability" "cve:CVE-2024-1" [] [("cve"%string, ["CVE-2024-1"%string])].
Definition sample_claim (p v : string) : ClaimCandidate := mkClaimCandidate p (JStr v) [] [].
Definition sample_weakness : RelationCandidate :=
  mkRelationCandidate "has-weakness" (mkObjectCandidate "Weakness" "cwe:CWE-79" [] []) [] [].
Definition sample_candidate (claims : list ClaimCandidate) (replaced : list string) : EnrichmentCandidate :=
  mkEnrichmentCandidate (Some sample_root) [] claims [sample_weakness] replaced [].
Definition sample_anchor (o : string) : EvidenceAnchor := mkEvidenceAnchor o None.
Definition sample_first : list knowledge_op :=
  [Observe "o1" (sample_observation "nvd"); Observe "o2" (sample_observation "nvd");
   Apply None "nvd" (sample_anchor "o1") (sample_candidate [sample_claim "title" "old"; sample_claim "cvss_score" "7.5"] [])
     "nvd" "1" SOURCE_ASSERTED 1 10].
(** The second candidate: two titles and two workarounds; only the titles are a set that replaces the earlier one. *)
Definition sample_second : EnrichmentCandidate :=
  sample_candidate [sample_claim "title" "new"; sample_claim "title" "newer";
                    sample_claim "workaround" "first"; sample_claim "workaround" "second"] ["title"%string].
Abbreviation same := (λ s : string, s).
Definition sample_subject : string := "secfusion:object:vulnerability:cve:CVE-2024-1".

(** C11. In every history of observations and writer runs, the knowledge base is well-typed and only grows.  Each claim
    and relation connects stored objects of types the vocabulary allows for its term (or is tagged exploratory), names
    its source and its scope, was created under a known revision and has an evidence link to a stored observation;
    object keys, identifiers, claims, relations and links are unique; each run that succeeded has exactly one change,
    naming stored rows, and one event that announces it.  Between any two points observations, revisions, changes,
    events, identifiers and links are only appended, objects only gain properties, and a fact only changes whether it
    is superseded. *)
Theorem knowledge_history json_hash uuid5_url before after :
  let s := run_knowledge_ops json_hash uuid5_url before empty_knowledge in
  let s' := run_knowledge_ops json_hash uuid5_url after s in
  knowledge_wf uuid5_url s' ∧ knowledge_step s s'.
Proof. intros s s'. apply run_knowledge_ops_good, run_knowledge_ops_good, empty_knowledge_wf. Qed.

(** A run is applied once: after an application returned, applying the same processor and version to the same
    root and observation (with any candidate, source, origin or clock) returns the same result and changes nothing,
    whatever other runs and observations came between. *)
Theorem apply_once json_hash uuid5_url before after root source observation candidate name version origin revision now
    res s1 source' candidate' origin' revision' now' :
  apply json_hash uuid5_url root source observation candidate name version origin revision now
    (run_knowledge_ops json_hash uuid5_url before empty_knowledge) = (Ok res, s1) →
  root_seed root candidate' = root_seed root candidate →
  let s2 := run_knowledge_ops json_hash uuid5_url after s1 in
  apply json_hash uuid5_url root source' observation candidate' name version origin' revision' now' s2 = (Ok res, s2).
Proof.
  intros H Hseed' s2.
  destruct (run_knowledge_ops_good json_hash uuid5_url before _ (empty_knowledge_wf uuid5_url)) as [Hwf _].
  apply apply_leaves_change in H as (Hwf1&seed&change&Hseed&Hin&Hcause&->); [|done].
  destruct (run_knowledge_ops_good json_hash uuid5_url after s1 Hwf1) as [Hwf2 Hstep].
  apply apply_replay; [done|by rewrite Hseed'| |done].
  destruct (ks_changes _ _ Hstep) as [more Hmore]. fold s2 in Hmore. rewrite Hmore. apply elem_of_app. by left.
Qed.

Definition sample_apply2 := apply sample_hash same None "nvd" (sample_anchor "o2") sample_second "nvd" "1" SOURCE_ASSERTED 2 20
  (run_knowledge_ops sample_hash same sample_first empty_knowledge).

Lemma apply_once_witness : ∃ res s1, sample_apply2 = (Ok res, s1) ∧ nr_claim_ids res ≠ [] ∧
  apply sample_hash same None "other" (sample_anchor "o2") (sample_candidate [] []) "nvd" "1" SEMANTIC_DERIVED 9 90 s1 = (Ok res, s1).
Proof.
  destruct sample_apply2 as [[res|e] s1] eqn:E; [|by vm_compute in E].
  exists res, s1. split; [done|]. split.
  - vm_compute in E. injection E as <- <-. discriminate.
  - apply (apply_once sample_hash same sample_first [] None "nvd" (sample_anchor "o2") sample_second "nvd" "1"
      SOURCE_ASSERTED 2 20 res s1); [exact E|reflexivity].
Defined.

(** C12. What a new run of a source leaves current about its subject: for a predicate in [replace_predicates] exactly
    the claims of the candidate; for any other predicate of the candidate only its last claim, also when the candidate
    has several; for every other predicate what was current before.  Claims of other sources or about other subjects
    stay as they are.  The two conditions say that uuid5 does not give claims of different predicates one identity. *)
Theorem claims_superseded json_hash uuid5_url ops root source observation candidate name version origin revision now
    res s' subject :
  let s := run_knowledge_ops json_hash uuid5_url ops empty_knowledge in
  apply json_hash uuid5_url root source observation candidate name version origin revision now s = (Ok res, s') →
  nr_processing_run_id res ∉ (kc_cause_processing_run_id <$> changes s) →
  head (nr_object_ids res) = Some subject →
  ids_faithful json_hash uuid5_url s subject source observation (ec_claims candidate) →
  ids_distinct json_hash uuid5_url subject observation (ec_claims candidate) →
  (∀ c, c ∈ claims s → foreign subject source c → c ∈ claims s') ∧
  ∀ p id, current s' subject source p id ↔
    (∃ k, survives (replace_predicates candidate) (ec_claims candidate) p k ∧
       id = claim_id_of json_hash uuid5_url subject (ea_observation_id observation) k) ∨
    (current s subject source p id ∧ (p ∉ replace_predicates candidate) ∧ p ∉ (cl_predicate <$> ec_claims candidate)).
Proof.
  intros s H Hfresh Hsubject Hf Hd.
  destruct (run_knowledge_ops_good json_hash uuid5_url ops _ (empty_knowledge_wf uuid5_url)) as [Hwf _]. fold s in Hwf.
  unfold apply in H. apply bind_Ok in H as (seed&s2&H0&H). apply require_Ok in H0 as [Hseed ->]. cbv zeta in H.
  apply bind_Ok in H as (s0&s2&H0&H). apply get_store_Ok in H0 as [-> ->]. case_bool_decide as Hdone.
  - exfalso. apply bind_Ok in H as (change&s2&H0&H). apply require_Ok in H0 as [Hc ->]. apply ret_Ok in H as [-> ->].
    apply Hfresh, (kw_success _ _ Hwf). done.
  - apply apply_fresh_current in H as (root'&Hhead&H); [|done]. rewrite Hhead in Hsubject. injection Hsubject as ->.
    by apply H.
Qed.

Lemma claims_superseded_witness : ∃ res s1, sample_apply2 = (Ok res, s1) ∧
  ∀ p id, current s1 sample_subject "nvd" p id ↔
    (∃ k, survives ["title"%string] (ec_claims sample_second) p k ∧
       id = claim_id_of sample_hash same sample_subject "o2" k) ∨
    (current (run_knowledge_ops sample_hash same sample_first empty_knowledge) sample_subject "nvd" p id ∧
     (p ∉ ["title"%string]) ∧ p ∉ (cl_predicate <$> ec_claims sample_second)).
Proof.
  destruct sample_apply2 as [[res|e] s1] eqn:E; [|by vm_compute in E].
  exists res, s1. split; [done|].
  assert ((nr_processing_run_id res ∉ (kc_cause_processing_run_id <$>
    changes (run_knowledge_ops sample_hash same sample_first empty_knowledge))) ∧ head (nr_object_ids res) = Some sample_subject)
    as [H1 H2].
  { assert (∃ res, sample_apply2.1 = Ok res ∧ bool_decide (nr_processing_run_id res ∉ (kc_cause_processing_run_id <$>
      changes (run_knowledge_ops sample_hash same sample_first empty_knowledge))) = true ∧
      head (nr_object_ids res) = Some sample_subject) as (r&Hr&Hn&Hh).
    { eexists. split; [vm_compute; reflexivity|]. split; vm_compute; reflexivity. }
    rewrite E in Hr. simpl in Hr. injection Hr as ->. split; [exact (proj1 (bool_decide_eq_true _) Hn)|exact Hh]. }
  apply (claims_superseded sample_hash same sample_first None "nvd" (sample_anchor "o2") sample_second "nvd" "1"
    SOURCE_ASSERTED 2 20 res s1 sample_subject E H1 H2).
  - apply ids_faithful_true. vm_compute. reflexivity.
  - apply ids_distinct_true. vm_compute. reflexivity.
Defined.

(** The two titles replace the old one; of the two workarounds of one run only the last is current. *)
Example second_run_current :
  (λ c, (predicate c, cm_value c)) <$>
    filter (λ c, cm_superseded_revision c = None) (claims sample_apply2.2) =
  [("cvss_score"%string, JStr "7.5"); ("title"%string, JStr "new"); ("title"%string, JStr "newer");
   ("workaround"%string, JStr "second")].
Proof. vm_compute. reflexivity. Qed.
