(* ===== verification/KnowledgeRead.v ===== *)
(** * KnowledgeRead: packages/intelligence/knowledge/read.py

    The read model of the knowledge base: what an object is, its current claims and relations, each with its
    evidence.  The rows are selected from [KnowledgeStore]; [order_by] is the order of (revision, identity), the
    identities compared as the C locale does; a select without [order_by] gives the rows in insertion order. *)

From S2P Require Import Prelude.
From S2P Require Import Effects.
From S2P Require Import TaskStore.
From S2P Require Import Outbox.
From S2P Require Import Vocabulary.
From S2P Require Import Knowledge.

(** ** The views *)

Record EvidenceRef := mkEvidenceRef {
  evidence_ref : string;
  ev_source_id : string;
  ev_observation_id : string;
  ev_artifact_id : option string;
  ev_external_object_id : string;
  ev_external_revision : option string;
  ev_published_at : option Z;
  ev_updated_at : option Z;
  ev_observed_at : Z;
  ev_canonical_url : option string;
  ev_locator : dict
}.

Record ClaimView := mkClaimView {
  cv_claim_id : string;
  cv_predicate : string;
  cv_value : json;
  cv_origin : KnowledgeOrigin;
  cv_qualifier : dict;
  cv_created_revision : Z;
  cv_evidence : list EvidenceRef
}.

Record RelationTargetView := mkRelationTargetView {
  tv_object_id : string;
  tv_object_type : string;
  tv_canonical_key : string;
  tv_properties : dict;
  tv_external_identifiers : list (string * list string)
}.

Record RelationView := mkRelationView {
  rv_relation_id : string;
  rv_relation_type : string;
  rv_origin : KnowledgeOrigin;
  rv_qualifier : dict;
  rv_created_revision : Z;
  rv_target : RelationTargetView;
  rv_evidence : list EvidenceRef
}.

Record KnowledgeObjectView := mkKnowledgeObjectView {
  kv_object_id : string;
  kv_object_type : string;
  kv_canonical_key : string;
  kv_properties : dict;
  kv_external_identifiers : list (string * list string);
  kv_claims : list ClaimView;
  kv_relations : list RelationView
}.

(** ** Orders *)

(** [order_by(created_revision, id)] *)
Definition row_le {A} (revision : A → Z) (id : A → string) (x y : A) : Prop :=
  revision x < revision y ∨ revision x = revision y ∧ String.le (id x) (id y).
#[export] Instance row_le_dec {A} revision id (x y : A) : Decision (row_le revision id x y).
Proof. unfold row_le. apply _. Defined.
#[export] Instance row_le_total {A} revision id : Total (@row_le A revision id).
Proof.
  intros x y. unfold row_le. destruct (Z.lt_trichotomy (revision x) (revision y)) as [?|[?|?]]; [left; auto| |right; auto].
  destruct (total String.le (id x) (id y)); [left|right]; auto.
Qed.
#[export] Instance row_le_trans {A} revision id : Transitive (@row_le A revision id).
Proof.
  intros x y z [?|[? ?]] [?|[? ?]]; try (left; lia). right. split; [congruence|]. by transitivity (id y).
Qed.

(** [key=lambda item: (item.observed_at, item.source_id, item.observation_id)] *)
Definition evidence_le (x y : EvidenceRef) : Prop :=
  ev_observed_at x < ev_observed_at y ∨ ev_observed_at x = ev_observed_at y ∧
    (ev_source_id x ≠ ev_source_id y ∧ String.le (ev_source_id x) (ev_source_id y) ∨
     ev_source_id x = ev_source_id y ∧ String.le (ev_observation_id x) (ev_observation_id y)).
#[export] Instance evidence_le_dec : RelDecision evidence_le.
Proof. unfold evidence_le. intros x y. apply _. Defined.

(** ** read.py *)

(** [d.setdefault(k, []).append(x)] *)
Definition push {K A} `{Countable K} (d : gmap K (list A)) (kx : K * A) : gmap K (list A) :=
  <[kx.1 := default [] (d !! kx.1) ++ [kx.2]]> d.

(** [_identifiers_for_objects] *)
Definition add_identifier (grouped : gmap string (list (string * list string))) (item : ExternalIdentifierModel)
  : gmap string (list (string * list string)) :=
  let namespaces := default [] (grouped !! xi_object_id item) in
  <[xi_object_id item :=
      dict_set (namespace item) (default [] (dict_get (namespace item) namespaces) ++ [xi_value item]) namespaces]> grouped.
Definition identifiers_for_objects (object_ids : list string) (s : KnowledgeStore)
  : gmap string (list (string * list string)) :=
  (λ namespaces : list (string * list string), (λ nv, (nv.1, py_sorted String.le nv.2)) <$> namespaces) <$>
    foldl add_identifier ∅ (filter (λ x, xi_object_id x ∈ object_ids) (identifiers s)).

(** [_evidence_for_targets] *)
Definition evidence_of_link (link : EvidenceLinkModel) (observation : ObservationModel) : EvidenceRef :=
  mkEvidenceRef ("evidence:" +:+ evidence_link_id link) (obs_source_id observation) (el_observation_id link)
    (el_artifact_id link) (obs_external_object_id observation) (obs_external_revision observation)
    (obs_published_at observation) (obs_updated_at observation) (obs_observed_at observation)
    (obs_canonical_url observation) (el_locator link).
Definition link_target (link : EvidenceLinkModel) : string * string :=
  (target_kind_value (el_target_kind link), el_target_id link).
Definition evidence_for_targets (targets : list (string * string)) (s : KnowledgeStore)
  : gmap (string * string) (list EvidenceRef) :=
  py_sorted evidence_le <$>
    foldl push ∅ (omap (λ link, (λ o, (link_target link, evidence_of_link link o)) <$> observations s !! el_observation_id link)
                    (filter (λ link, link_target link ∈ targets) (links s))).

Definition claim_target (c : ClaimModel) : string * string := ("claim"%string, claim_id c).
Definition relation_target (r : RelationModel) : string * string := ("relation"%string, relation_id r).

(** The selects of [get_object_by_id]. *)
Definition accepted_claim (id : string) (c : ClaimModel) : Prop :=
  subject_id c = id ∧ cm_lifecycle c = "accepted"%string ∧ cm_superseded_revision c = None.
Definition accepted_relation (id : string) (r : RelationModel) : Prop :=
  source_object_id r = id ∧ rm_lifecycle r = "accepted"%string ∧ rm_superseded_revision r = None.
#[export] Instance accepted_claim_dec id c : Decision (accepted_claim id c).
Proof. unfold accepted_claim. apply _. Defined.
#[export] Instance accepted_relation_dec id r : Decision (accepted_relation id r).
Proof. unfold accepted_relation. apply _. Defined.
Definition select_claims (id : string) (s : KnowledgeStore) : list ClaimModel :=
  merge_sort (row_le cm_created_revision claim_id) (filter (accepted_claim id) (claims s)).
Definition select_relations (id : string) (s : KnowledgeStore) : list RelationModel :=
  merge_sort (row_le rm_created_revision relation_id) (filter (accepted_relation id) (relations s)).

Definition claim_view (evidence : gmap (string * string) (list EvidenceRef)) (c : ClaimModel) : ClaimView :=
  mkClaimView (claim_id c) (predicate c) (cm_value c) (cm_origin c) (cm_qualifier c) (cm_created_revision c)
    (default [] (evidence !! claim_target c)).
Definition target_view (identifiers : gmap string (list (string * list string))) (target : ObjectModel) : RelationTargetView :=
  mkRelationTargetView (object_id target) (object_type target) (canonical_key target) (properties target)
    (default [] (identifiers !! object_id target)).
Definition relation_view (evidence : gmap (string * string) (list EvidenceRef))
  (identifiers : gmap string (list (string * list string))) (r : RelationModel) (target : ObjectModel) : RelationView :=
  mkRelationView (relation_id r) (relation_type r) (rm_origin r) (rm_qualifier r) (rm_created_revision r)
    (target_view identifiers target) (default [] (evidence !! relation_target r)).

(** [get_object_by_id] *)
Definition get_object_by_id (s : KnowledgeStore) (id : string) : option KnowledgeObjectView :=
  obj ← get_object id s;
  let claims := select_claims (object_id obj) s in
  let relations := select_relations (object_id obj) s in
  let target_ids := target_object_id <$> relations in
  let targets := dict_by object_id (filter (λ o, object_id o ∈ target_ids) (objects s)) in
  let identifiers := identifiers_for_objects (object_id obj :: target_ids) s in
  let evidence := evidence_for_targets ((claim_target <$> claims) ++ (relation_target <$> relations)) s in
  Some (mkKnowledgeObjectView (object_id obj) (object_type obj) (canonical_key obj) (properties obj)
    (default [] (identifiers !! object_id obj)) (claim_view evidence <$> claims)
    (omap (λ r, relation_view evidence identifiers r <$> targets !! target_object_id r) relations)).

(** [get_object_by_identifier], [get_vulnerability_by_cve] *)
Definition get_object_by_identifier (s : KnowledgeStore) (ns value : string) : option KnowledgeObjectView :=
  identifier ← find_identifier ns value s; get_object_by_id s (xi_object_id identifier).
Definition get_vulnerability_by_cve (s : KnowledgeStore) (cve_id : string) : option KnowledgeObjectView :=
  get_object_by_identifier s "cve" (upper cve_id).

(** ** What the selects return *)

Lemma foldl_push {K A} `{Countable K} (l : list (K * A)) (d : gmap K (list A)) k :
  default [] (foldl push d l !! k) = default [] (d !! k) ++ (filter (λ p, p.1 = k) l).*2.
Proof.
  revert d. induction l as [|[k0 x] l IH]; intros d; cbn [foldl]; [by rewrite app_nil_r|].
  rewrite IH, filter_cons. unfold push. simpl. destruct (decide (k0 = k)) as [->|Hne].
  - rewrite lookup_insert_eq. csimpl. by rewrite <- app_assoc.
  - by rewrite lookup_insert_ne by done.
Qed.

Lemma target_key_inj k k' (id id' : string) : (target_kind_value k, id) = (target_kind_value k', id') → k = k' ∧ id = id'.
Proof. by destruct k, k'; intros [= ->]. Qed.

(** The evidence of a fact: its links whose observation exists. *)
Definition evidence_of (s : KnowledgeStore) (k : target_kind) (id : string) (e : EvidenceRef) : Prop :=
  ∃ link o, link ∈ links s ∧ el_target_kind link = k ∧ el_target_id link = id ∧
    observations s !! el_observation_id link = Some o ∧ e = evidence_of_link link o.

Lemma elem_of_evidence targets s k id e :
  (target_kind_value k, id) ∈ targets →
  e ∈ default [] (evidence_for_targets targets s !! (target_kind_value k, id)) ↔ evidence_of s k id e.
Proof.
  intros Hk. unfold evidence_for_targets. rewrite lookup_fmap.
  set (pairs := omap _ _).
  assert (e ∈ default [] (py_sorted evidence_le <$> (foldl push ∅ pairs !! (target_kind_value k, id))) ↔
    e ∈ default [] (foldl push ∅ pairs !! (target_kind_value k, id))) as ->.
  { destruct (foldl push ∅ pairs !! _) as [l|]; simpl; [|done]. by rewrite py_sorted_Permutation. }
  rewrite foldl_push, lookup_empty. simpl. rewrite list_elem_of_fmap. unfold evidence_of. split.
  - intros ([k' e']&->&Hp). apply list_elem_of_filter in Hp as [Hk' Hp]. simpl in *.
    apply list_elem_of_omap in Hp as (link&Hl&Hp). apply list_elem_of_filter in Hl as [_ Hl].
    destruct (observations s !! el_observation_id link) as [o|] eqn:Ho; [|done]. injection Hp as <- <-.
    unfold link_target in Hk'. apply target_key_inj in Hk' as [? ?]. by exists link, o.
  - intros (link&o&Hl&Hkind&Hid&Ho&->). exists (link_target link, evidence_of_link link o). split; [done|].
    assert (link_target link = (target_kind_value k, id)) as E by (unfold link_target; congruence).
    apply list_elem_of_filter. split; [exact E|]. apply list_elem_of_omap. exists link. rewrite Ho.
    split; [|done]. apply list_elem_of_filter. split; [by rewrite E|done].
Qed.

Lemma evidence_nonempty targets s k id :
  (target_kind_value k, id) ∈ targets → evidenced s k id →
  default [] (evidence_for_targets targets s !! (target_kind_value k, id)) ≠ [].
Proof.
  intros Hk (link&Hl&Hkind&Hid&[o Ho]) E.
  assert (evidence_of_link link o ∈ default [] (evidence_for_targets targets s !! (target_kind_value k, id))) as Hin.
  { apply elem_of_evidence; [done|]. by exists link, o. }
  rewrite E in Hin. by apply elem_of_nil in Hin.
Qed.

(** An identifier in a dict of dicts. *)
Definition has_identifier (d : gmap string (list (string * list string))) (id ns v : string) : Prop :=
  ∃ vs, dict_get ns (default [] (d !! id)) = Some vs ∧ v ∈ vs.

Lemma has_add_identifier d x id ns v :
  has_identifier (add_identifier d x) id ns v ↔
  has_identifier d id ns v ∨ xi_object_id x = id ∧ namespace x = ns ∧ xi_value x = v.
Proof.
  unfold has_identifier, add_identifier. destruct (decide (xi_object_id x = id)) as [<-|Hne].
  - rewrite lookup_insert_eq. simpl. rewrite dict_get_set. set (old := default [] (d !! xi_object_id x)).
    destruct (decide (namespace x = ns)) as [<-|Hns].
    + rewrite decide_True by done. split.
      * intros (vs&[= <-]&[Hv| ->%list_elem_of_singleton]%elem_of_app); [left|by right].
        destruct (dict_get (namespace x) old) as [vs|] eqn:E; [by exists vs|by apply elem_of_nil in Hv].
      * intros [(vs&E&Hv)|(_&_&<-)]; eexists; (split; [done|]); apply elem_of_app; [left; by rewrite E|right].
        apply list_elem_of_here.
    + rewrite decide_False by done. split; [intros ?; by left|]. by intros [?|(_&?&_)].
  - rewrite lookup_insert_ne by done. split; [intros ?; by left|]. by intros [?|(?&_)].
Qed.

Lemma has_identifiers l d id ns v :
  has_identifier (foldl add_identifier d l) id ns v ↔
  has_identifier d id ns v ∨ ∃ x, x ∈ l ∧ xi_object_id x = id ∧ namespace x = ns ∧ xi_value x = v.
Proof.
  revert d. induction l as [|y l IH]; intros d; cbn [foldl].
  - split; [intros ?; by left|]. intros [?|(x&Hx&_)]; [done|by apply elem_of_nil in Hx].
  - rewrite IH, has_add_identifier. setoid_rewrite elem_of_cons. naive_solver.
Qed.

Lemma dict_get_fmap {A B} (f : A → B) k (d : list (string * A)) :
  dict_get k ((λ kv, (kv.1, f kv.2)) <$> d) = f <$> dict_get k d.
Proof. induction d as [|[k' x] d IH]; csimpl; [done|]. by case_decide. Qed.

(** [v] is a value of the namespace in the identifiers of a view. *)
Definition shows_identifier (identifiers : list (string * list string)) (ns v : string) : Prop :=
  ∃ vs, dict_get ns identifiers = Some vs ∧ v ∈ vs.

Lemma identifiers_spec ids s id ns v :
  id ∈ ids →
  shows_identifier (default [] (identifiers_for_objects ids s !! id)) ns v ↔
  ∃ x, x ∈ identifiers s ∧ xi_object_id x = id ∧ namespace x = ns ∧ xi_value x = v.
Proof.
  intros Hid. unfold shows_identifier, identifiers_for_objects. rewrite lookup_fmap.
  set (rows := filter _ _). trans (has_identifier (foldl add_identifier ∅ rows) id ns v).
  - unfold has_identifier. destruct (foldl add_identifier ∅ rows !! id) as [d|]; simpl; [|done].
    rewrite dict_get_fmap. destruct (dict_get ns d) as [vs|]; simpl; [|naive_solver].
    split; intros (?&[= <-]&Hv); eexists; (split; [done|]); by rewrite py_sorted_Permutation in *.
  - rewrite has_identifiers. unfold rows. setoid_rewrite list_elem_of_filter. split.
    + intros [(vs&E&_)|(x&[_ ?]&?)]; [by rewrite lookup_empty in E|by exists x].
    + intros (x&Hx&<-&?). right. by exists x.
Qed.

(** ** What a view shows *)

Definition identified (s : KnowledgeStore) (id ns v : string) : Prop :=
  ∃ x, x ∈ identifiers s ∧ xi_object_id x = id ∧ namespace x = ns ∧ xi_value x = v.

Definition claim_shows (s : KnowledgeStore) (c : ClaimModel) (v : ClaimView) : Prop :=
  v = mkClaimView (claim_id c) (predicate c) (cm_value c) (cm_origin c) (cm_qualifier c) (cm_created_revision c)
        (cv_evidence v) ∧
  cv_evidence v ≠ [] ∧ ∀ e, e ∈ cv_evidence v ↔ evidence_of s T_CLAIM (claim_id c) e.

Definition target_shows (s : KnowledgeStore) (o : ObjectModel) (v : RelationTargetView) : Prop :=
  v = mkRelationTargetView (object_id o) (object_type o) (canonical_key o) (properties o) (tv_external_identifiers v) ∧
  ∀ ns x, shows_identifier (tv_external_identifiers v) ns x ↔ identified s (object_id o) ns x.

Definition relation_shows (s : KnowledgeStore) (r : RelationModel) (v : RelationView) : Prop :=
  v = mkRelationView (relation_id r) (relation_type r) (rm_origin r) (rm_qualifier r) (rm_created_revision r)
        (rv_target v) (rv_evidence v) ∧
  (∃ o, o ∈ objects s ∧ object_id o = target_object_id r ∧ target_shows s o (rv_target v)) ∧
  rv_evidence v ≠ [] ∧ ∀ e, e ∈ rv_evidence v ↔ evidence_of s T_RELATION (relation_id r) e.

(** A fact of the object that nothing has superseded. *)
Definition current_claim (id : string) (c : ClaimModel) : Prop := subject_id c = id ∧ cm_superseded_revision c = None.
Definition current_relation (id : string) (r : RelationModel) : Prop :=
  source_object_id r = id ∧ rm_superseded_revision r = None.
#[export] Instance current_claim_dec id c : Decision (current_claim id c).
Proof. unfold current_claim. apply _. Defined.
#[export] Instance current_relation_dec id r : Decision (current_relation id r).
Proof. unfold current_relation. apply _. Defined.

(** Every current fact of the object, in order, with its evidence. *)
Definition object_shows (s : KnowledgeStore) (o : ObjectModel) (v : KnowledgeObjectView) : Prop :=
  v = mkKnowledgeObjectView (object_id o) (object_type o) (canonical_key o) (properties o) (kv_external_identifiers v)
        (kv_claims v) (kv_relations v) ∧
  (∀ ns x, shows_identifier (kv_external_identifiers v) ns x ↔ identified s (object_id o) ns x) ∧
  (∃ cs, cs ≡ₚ filter (current_claim (object_id o)) (claims s) ∧
     StronglySorted (row_le cm_created_revision claim_id) cs ∧ Forall2 (claim_shows s) cs (kv_claims v)) ∧
  (∃ rs, rs ≡ₚ filter (current_relation (object_id o)) (relations s) ∧
     StronglySorted (row_le rm_created_revision relation_id) rs ∧ Forall2 (relation_shows s) rs (kv_relations v)).

Lemma Forall2_fmap_same {A B} (P : A → B → Prop) (f : A → B) l : (∀ x, x ∈ l → P x (f x)) → Forall2 P l (f <$> l).
Proof. intros H. apply Forall2_fmap_r, Forall_Forall2_diag, Forall_forall, H. Qed.

Lemma Forall2_omap_same {A B} (P : A → B → Prop) (f : A → option B) l :
  (∀ x, x ∈ l → ∃ y, f x = Some y ∧ P x y) → Forall2 P l (omap f l).
Proof.
  induction l as [|x l IH]; intros H; csimpl; [constructor|].
  destruct (H x (list_elem_of_here _ _)) as (y&->&Hy). constructor; [done|]. apply IH. intros z Hz. apply H.
  by apply list_elem_of_further.
Qed.

Lemma filter_ext_elem {A} (P Q : A → Prop) `{!∀ x, Decision (P x), !∀ x, Decision (Q x)} (l : list A) :
  (∀ x, x ∈ l → P x ↔ Q x) → filter P l = filter Q l.
Proof.
  induction l as [|x l IH]; intros Hl; [done|].
  rewrite !filter_cons, IH by (intros y Hy; apply Hl; by apply list_elem_of_further).
  specialize (Hl x (list_elem_of_here _ _)). destruct (decide (P x)), (decide (Q x)); tauto.
Qed.

(** Every stored fact is accepted, so the accepted ones that are not superseded are the current ones. *)
Lemma accepted_claims_current s id : facts_wf s → filter (accepted_claim id) (claims s) = filter (current_claim id) (claims s).
Proof.
  intros Hwf. apply filter_ext_elem. intros c Hc. destruct (fw_claims _ Hwf c Hc) as [[Hl _ _ _] _].
  unfold accepted_claim, current_claim. tauto.
Qed.
Lemma accepted_relations_current s id :
  facts_wf s → filter (accepted_relation id) (relations s) = filter (current_relation id) (relations s).
Proof.
  intros Hwf. apply filter_ext_elem. intros r Hr. destruct (fw_relations _ Hwf r Hr) as [[Hl _ _ _] _].
  unfold accepted_relation, current_relation. tauto.
Qed.

Lemma get_object_by_id_shows s id v :
  facts_wf s → get_object_by_id s id = Some v → ∃ o, o ∈ objects s ∧ object_id o = id ∧ object_shows s o v.
Proof.
  intros Hwf H. unfold get_object_by_id in H. apply bind_Some in H as (o&Ho&[= <-]).
  apply find_elem in Ho as [Ho Hid%bool_decide_eq_true]. exists o. split; [done|]. split; [done|].
  set (cs := select_claims _ s). set (rs := select_relations _ s).
  assert (cs ≡ₚ filter (current_claim (object_id o)) (claims s)) as Hcs
    by (rewrite <- accepted_claims_current by done; apply merge_sort_Permutation).
  assert (rs ≡ₚ filter (current_relation (object_id o)) (relations s)) as Hrs
    by (rewrite <- accepted_relations_current by done; apply merge_sort_Permutation).
  split; [done|]. split; [intros ns x; simpl; apply identifiers_spec, list_elem_of_here|]. split.
  - exists cs. split; [done|]. split; [apply (StronglySorted_merge_sort _)|]. apply Forall2_fmap_same. intros c Hc.
    assert (claim_target c ∈ (claim_target <$> cs) ++ (relation_target <$> rs)) as Hin
      by (apply elem_of_app; left; by apply list_elem_of_fmap_2).
    rewrite Hcs in Hc. apply list_elem_of_filter in Hc as [_ Hc]. split; [done|]. simpl. split.
    + apply (evidence_nonempty _ s T_CLAIM (claim_id c)); [done|]. by apply (fw_claims _ Hwf).
    + intros e. by apply (elem_of_evidence _ s T_CLAIM (claim_id c)).
  - exists rs. split; [done|]. split; [apply (StronglySorted_merge_sort _)|]. apply Forall2_omap_same. intros r Hr.
    assert (relation_target r ∈ (claim_target <$> cs) ++ (relation_target <$> rs)) as Hin
      by (apply elem_of_app; right; by apply list_elem_of_fmap_2).
    assert (target_object_id r ∈ target_object_id <$> rs) as Htid by by apply list_elem_of_fmap_2.
    rewrite Hrs in Hr. apply list_elem_of_filter in Hr as [_ Hr].
    destruct (fw_relations _ Hwf r Hr) as [[_ (st&tt&_&(target&Ht&Htarget&_)&_) _ _] Hev].
    assert (dict_by object_id (filter (λ o, object_id o ∈ target_object_id <$> rs) (objects s)) !! target_object_id r
      = Some target) as ->.
    { rewrite <- Htarget. apply dict_by_NoDup.
      - eapply sublist_NoDup; [exact (fw_object_ids _ Hwf)|]. apply fmap_sublist, sublist_filter.
      - apply list_elem_of_filter. split; [by rewrite Htarget|done]. }
    eexists. split; [done|]. split; [done|]. simpl. split; [|split].
    + exists target. split; [done|]. split; [done|]. split; [done|]. intros ns x. simpl. apply identifiers_spec.
      rewrite Htarget. by apply list_elem_of_further.
    + by apply (evidence_nonempty _ s T_RELATION (relation_id r)).
    + intros e. by apply (elem_of_evidence _ s T_RELATION (relation_id r)).
Qed.

Lemma get_object_by_id_None s id : get_object_by_id s id = None → ∀ o, o ∈ objects s → object_id o ≠ id.
Proof.
  unfold get_object_by_id. intros H o Ho Hid. destruct (get_object id s) as [o'|] eqn:E; [done|].
  apply (find_None_elem _ _ o) in E; [|done]. by apply bool_decide_eq_false in E.
Qed.

(** C13. In every history of the knowledge base a read is complete: an object that exists is found by its identity and by
    each of its external identifiers; its view holds its properties, exactly its external identifiers, and, in the
    order of revision and identity, exactly its current claims and relations; no relation is left out for want of its
    target, and every claim and relation shows exactly its evidence, of which there is at least one. *)
Theorem object_read json_hash uuid5_url ops :
  let s := run_knowledge_ops json_hash uuid5_url ops empty_knowledge in
  (∀ id, match get_object_by_id s id with
         | Some v => ∃ o, o ∈ objects s ∧ object_id o = id ∧ object_shows s o v
         | None => ∀ o, o ∈ objects s → object_id o ≠ id
         end) ∧
  (∀ ns x v, get_object_by_identifier s ns x = Some v ↔
     ∃ id, identified s id ns x ∧ get_object_by_id s id = Some v) ∧
  ∀ id ns x, identified s id ns x → is_Some (get_object_by_identifier s ns x).
Proof.
  intros s. destruct (run_knowledge_ops_good json_hash uuid5_url ops _ (empty_knowledge_wf uuid5_url)) as [Hwf _].
  fold s in Hwf. apply kw_facts in Hwf.
  assert (∀ ns x row, row ∈ identifiers s → namespace row = ns → xi_value row = x → find_identifier ns x s = Some row)
    as Hfind.
  { intros ns x row Hrow Hns Hx. apply (find_NoDup identifier_key); [by apply fw_identifier_keys| |done].
    intros y _. rewrite andb_true_iff, !bool_decide_eq_true. unfold identifier_key. rewrite Hns, Hx. split; [intros [-> ->]; done|by intros [= ? ?]]. }
  split; [|split].
  - intros id. destruct (get_object_by_id s id) as [v|] eqn:E; [by apply get_object_by_id_shows|by apply get_object_by_id_None].
  - intros ns x v. unfold get_object_by_identifier. rewrite bind_Some. split.
    + intros (row&Hrow&Hv). apply find_elem in Hrow as [Hrow Hk]. rewrite andb_true_iff, !bool_decide_eq_true in Hk.
      exists (xi_object_id row). split; [by exists row|done].
    + intros (id&(row&Hrow&<-&Hns&Hx)&Hv). exists row. split; [by apply Hfind|done].
  - intros id ns x (row&Hrow&<-&Hns&Hx). unfold get_object_by_identifier. rewrite (Hfind ns x row) by done. simpl.
    destruct (get_object_by_id s (xi_object_id row)) as [v|] eqn:E; [by exists v|]. exfalso.
    destruct (fw_identifiers _ Hwf row Hrow) as [t (o&Ho&Hid&_)]. by apply (get_object_by_id_None s _ E o).
Qed.

(** The view of the vulnerability after the two runs: "title" has both new values, each with its evidence. *)
Example read_sample :
  (λ v, (kv_object_id v, kv_external_identifiers v,
         (λ c, (cv_predicate c, cv_value c, ev_observation_id <$> cv_evidence c)) <$> kv_claims v,
         (λ r, (rv_relation_type r, tv_canonical_key (rv_target r))) <$> kv_relations v)) <$>
    get_vulnerability_by_cve sample_apply2.2 "cve-2024-1" =
  Some (sample_subject, [("cve"%string, ["CVE-2024-1"%string])],
        [("cvss_score"%string, JStr "7.5", ["o1"%string]); ("title"%string, JStr "new", ["o2"%string]);
         ("title"%string, JStr "newer", ["o2"%string]); ("workaround"%string, JStr "second", ["o2"%string])],
        [("has-weakness"%string, "cwe:CWE-79"%string); ("has-weakness"%string, "cwe:CWE-79"%string)]).
Proof. vm_compute. reflexivity. Qed.
