(* ===== verification/Network.v ===== *)
(** * Network: packages/intelligence/knowledge/network.py

    The bounded subgraph around an object: the neighbours of a focus, ranked and paged by an opaque cursor, and the
    relations among everything loaded.  The cursor is URL-safe Base64 of a JSON object; the Base64 codec is modelled,
    the JSON codec is the parameters [json_dumps] and [json_loads] of the section. *)

From Stdlib Require Import Ascii.
From S2P Require Import Prelude.
From S2P Require Import Effects.
From S2P Require Import TaskStore.
From S2P Require Import Vocabulary.
From S2P Require Import Knowledge.
From S2P Require Import KnowledgeRead.

(** ** Base64 *)

Definition byte_value (c : ascii) : Z := Z.of_N (Ascii.N_of_ascii c).
Definition byte_char (z : Z) : ascii := Ascii.ascii_of_N (Z.to_N z).

(** The URL-safe alphabet. *)
Definition b64_char (v : Z) : ascii :=
  if v <? 26 then byte_char (65 + v) else if v <? 52 then byte_char (97 + (v - 26))
  else if v <? 62 then byte_char (48 + (v - 52)) else if v =? 62 then "-"%char else "_"%char.

(** The value of a character; [urlsafe_b64decode] turns [-] and [_] into [+] and [/] first, so both stand for 62
    and 63. *)
Definition b64_value (c : ascii) : option Z :=
  let v := byte_value c in
  if (65 <=? v) && (v <=? 90) then Some (v - 65)
  else if (97 <=? v) && (v <=? 122) then Some (v - 97 + 26)
  else if (48 <=? v) && (v <=? 57) then Some (v - 48 + 52)
  else if bool_decide (c = "+"%char ∨ c = "-"%char) then Some 62
  else if bool_decide (c = "/"%char ∨ c = "_"%char) then Some 63
  else None.

(** [urlsafe_b64encode] *)
Fixpoint b64encode (l : list ascii) : list ascii :=
  match l with
  | a :: b :: c :: l' =>
      b64_char (Z.shiftr (byte_value a) 2)
      :: b64_char (Z.lor (Z.shiftl (Z.land (byte_value a) 3) 4) (Z.shiftr (byte_value b) 4))
      :: b64_char (Z.lor (Z.shiftl (Z.land (byte_value b) 15) 2) (Z.shiftr (byte_value c) 6))
      :: b64_char (Z.land (byte_value c) 63) :: b64encode l'
  | [a; b] =>
      [b64_char (Z.shiftr (byte_value a) 2);
       b64_char (Z.lor (Z.shiftl (Z.land (byte_value a) 3) 4) (Z.shiftr (byte_value b) 4));
       b64_char (Z.shiftl (Z.land (byte_value b) 15) 2); "="%char]
  | [a] => [b64_char (Z.shiftr (byte_value a) 2); b64_char (Z.shiftl (Z.land (byte_value a) 3) 4); "="%char; "="%char]
  | [] => []
  end.

(** The decoder of [binascii.a2b_base64] in its non-strict mode: characters outside the alphabet are skipped, enough
    padding ends the input, and an input that ends inside a group is an error ([None]).  [quad] is the position in
    the group of four, [left] the bits of the group not yet given out. *)
Fixpoint a2b (l : list ascii) (quad pads : nat) (left : Z) : option (list ascii) :=
  match l with
  | [] => if bool_decide (quad = 0%nat) then Some [] else None
  | c :: l' =>
      if bool_decide (c = "="%char) then
        if (2 <=? quad)%nat then
          if (4 <=? quad + S pads)%nat then Some [] else a2b l' quad (S pads) left
        else a2b l' quad pads left
      else
        match b64_value c with
        | None => a2b l' quad pads left
        | Some v =>
            match quad with
            | O => a2b l' 1 0 v
            | 1%nat => cons (byte_char (Z.lor (Z.shiftl left 2) (Z.shiftr v 4))) <$> a2b l' 2 0 (Z.land v 15)
            | 2%nat => cons (byte_char (Z.lor (Z.shiftl left 4) (Z.shiftr v 2))) <$> a2b l' 3 0 (Z.land v 3)
            | _ => cons (byte_char (Z.lor (Z.shiftl left 6) v)) <$> a2b l' 0 0 0
            end
        end
  end.
Definition b64decode (l : list ascii) : option (list ascii) := a2b l 0 0 0.

(** ** The views *)

Record NetworkNodeView := mkNetworkNodeView {
  nn_object_id : string;
  nn_object_type : string;
  nn_label : string;
  nn_canonical_key : string;
  nn_created_revision : Z;
  nn_created_at : Z;
  nn_evidence_ref : option string;
  nn_canonical_object_id : option string;
  nn_event_time : option Z
}.

Record NetworkEdgeView := mkNetworkEdgeView {
  ne_relation_id : string;
  ne_source_id : string;
  ne_target_id : string;
  ne_relation_type : string;
  ne_origin : KnowledgeOrigin;
  ne_qualifier : dict;
  ne_created_revision : Z;
  ne_superseded_revision : option Z;
  ne_created_at : Z;
  ne_superseded_at : option Z;
  ne_evidence : list EvidenceRef
}.

Record NetworkView := mkNetworkView {
  center_id : string;
  revision_domain : string;
  nv_nodes : list NetworkNodeView;
  nv_edges : list NetworkEdgeView;
  snapshot_revision : Z;
  next_cursor : option string;
  remaining_count : Z
}.

(** What [_decode_cursor] keeps of the decoded dict: [snapshot], [score] and [newest] are checked with
    [isinstance(_, int)], which a [bool] passes. *)
Record CursorData := mkCursorData {
  cu_snapshot : json;
  cu_score : json;
  cu_newest : json;
  cu_id : string
}.

(** ** Ranking and paging *)

(** A row of the subquery [ranked]. *)
Record RankRow := mkRankRow {
  rr_neighbor : string;
  rr_score : Z;
  rr_newest : Z
}.

Definition string_lt (a b : string) : Prop := String.le a b ∧ a ≠ b.
#[export] Instance string_lt_dec a b : Decision (string_lt a b).
Proof. unfold string_lt. apply _. Defined.

(** The [where] of a page: the rows after ([score], [newest], [last_id]). *)
Definition after_row (score newest : Z) (last_id : string) (r : RankRow) : Prop :=
  rr_score r < score ∨ rr_score r = score ∧ rr_newest r < newest ∨
  rr_score r = score ∧ rr_newest r = newest ∧ string_lt last_id (rr_neighbor r).
#[export] Instance after_row_dec score newest last_id r : Decision (after_row score newest last_id r).
Proof. unfold after_row. apply _. Defined.

(** [order_by(score.desc(), newest.desc(), neighbor)] *)
Definition rank_le (x y : RankRow) : Prop :=
  rr_score y < rr_score x ∨ rr_score y = rr_score x ∧
    (rr_newest y < rr_newest x ∨ rr_newest y = rr_newest x ∧ String.le (rr_neighbor x) (rr_neighbor y)).
#[export] Instance rank_le_dec : RelDecision rank_le.
Proof. unfold rank_le. intros x y. apply _. Defined.

Definition maxZ (l : list Z) : Z := match l with [] => 0 | x :: l' => foldr Z.max x l' end.

Definition dict_get_truthy (k : string) (d : dict) : option json :=
  match dict_get k d with Some j => if truthy j then Some j else None | None => None end.

(** An integer bound to an INTEGER column: the driver rejects what does not fit 32 bits, and the comparison with a
    [bool] is rejected by the database. *)
Definition db_int (j : json) : result Z :=
  match j with
  | JInt z => if (- 2 ^ 31 <=? z) && (z <? 2 ^ 31) then Ok z else Err (OtherException "DBAPIError" "value out of int32 range")
  | _ => Err (OtherException "ProgrammingError" "operator does not exist: integer = boolean")
  end.

Section network.
Context (json_dumps : dict → string) (json_loads : list ascii → option json) (py_repr : json → string).

(** [_encode_cursor], [_decode_cursor] *)
Definition encode_cursor (data : dict) : string := of_chars (b64encode (chars (json_dumps data))).

Definition int_field (k : string) (d : dict) : option json :=
  match dict_get k d with Some (JInt z) => Some (JInt z) | Some (JBool b) => Some (JBool b) | _ => None end.
Definition json_int (j : json) : Z := match j with JInt z => z | JBool true => 1 | _ => 0 end.

Definition decode_cursor (cursor center focus : string) : result CursorData :=
  let invalid := ValueError "invalid network cursor" in
  if 2048 <? slen cursor then Err invalid
  else match b64decode (chars cursor) ≫= json_loads with
  | Some (JObj data) =>
      if bool_decide (dict_get "center" data = Some (JStr center)) && bool_decide (dict_get "focus" data = Some (JStr focus))
      then match int_field "snapshot" data, int_field "score" data, int_field "newest" data, dict_get "id" data with
           | Some snapshot, Some score, Some newest, Some (JStr id) =>
               if json_int snapshot <? 1 then Err invalid else Ok (mkCursorData snapshot score newest id)
           | _, _, _, _ => Err invalid
           end
      else Err invalid
  | _ => Err invalid
  end.

(** [int(str(after["snapshot"]))]: of a [bool] the text is no number. *)
Definition snapshot_of (after : CursorData) : result Z :=
  match cu_snapshot after with
  | JInt z => Ok z
  | _ => Err (ValueError "invalid literal for int() with base 10")
  end.

Definition cursor_fields (center focus : string) (snapshot : Z) (last : RankRow) : dict :=
  [("center"%string, JStr center); ("focus"%string, JStr focus); ("snapshot"%string, JInt snapshot);
   ("score"%string, JInt (rr_score last)); ("newest"%string, JInt (rr_newest last)); ("id"%string, JStr (rr_neighbor last))].

(** ** get_object_network *)

(** [RelationModel.lifecycle == "accepted"], [RelationModel.created_revision <= snapshot] *)
Definition accepted_at (snapshot : Z) (r : RelationModel) : Prop :=
  rm_lifecycle r = "accepted"%string ∧ rm_created_revision r ≤ snapshot.
#[export] Instance accepted_at_dec snapshot r : Decision (accepted_at snapshot r).
Proof. unfold accepted_at. apply _. Defined.

(** The rows of the subquery [adjacent]: the neighbour and the relation, a row for each direction. *)
Definition adjacent (s : KnowledgeStore) (focus : string) (snapshot : Z) : list (string * RelationModel) :=
  let accepted := filter (accepted_at snapshot) (relations s) in
  ((λ r, (target_object_id r, r)) <$> filter (λ r, source_object_id r = focus) accepted) ++
  ((λ r, (source_object_id r, r)) <$> filter (λ r, target_object_id r = focus) accepted).

(** [count(evidence_link_id)] of the rows the outer join gives a relation. *)
Definition link_count (s : KnowledgeStore) (r : RelationModel) : Z :=
  Z.of_nat (length (filter (λ l, el_target_kind l = T_RELATION ∧ el_target_id l = relation_id r) (links s))).

Definition object_at (s : KnowledgeStore) (snapshot : Z) (id : string) : Prop :=
  Exists (λ o, object_id o = id ∧ ob_created_revision o ≤ snapshot) (objects s).

(** The subquery [ranked]: one row per neighbour that exists and is not loaded. *)
Definition ranked_row (s : KnowledgeStore) (rows : list (string * RelationModel)) (neighbor : string) : RankRow :=
  let mine := (filter (λ row, row.1 = neighbor) rows).*2 in
  mkRankRow neighbor (sumZ (link_count s) mine) (maxZ (rm_created_revision <$> mine)).
Definition ranked (s : KnowledgeStore) (focus : string) (snapshot : Z) (loaded : list string) : list RankRow :=
  let rows := filter (λ row, object_at s snapshot row.1 ∧ row.1 ∉ loaded) (adjacent s focus snapshot) in
  ranked_row s rows <$> remove_dups rows.*1.

(** [page_query], with the cursor. *)
Definition page_query (after : option (Z * Z * string)) (rows : list RankRow) : list RankRow :=
  match after with
  | None => rows
  | Some (score, newest, last_id) => filter (after_row score newest last_id) rows
  end.
Definition ordered_rows (rows : list RankRow) : list RankRow := merge_sort rank_le rows.

Definition edge_rows (s : KnowledgeStore) (snapshot : Z) (loaded : list string) : list RelationModel :=
  merge_sort (row_le rm_created_revision relation_id)
    (filter (λ r, source_object_id r ∈ loaded ∧ target_object_id r ∈ loaded ∧ accepted_at snapshot r) (relations s)).

(** [timestamps]: [timestamps\[r\]] and [timestamps.get(r)] *)
Definition committed_at (s : KnowledgeStore) (r : Z) : option Z :=
  kr_committed_at <$> find (λ k, bool_decide (kr_revision k = r)) (revisions s).
Definition timestamp (s : KnowledgeStore) (r : Z) : result Z :=
  match committed_at s r with Some t => Ok t | None => Err (LookupError "KeyError" (str_of_Z r)) end.
Definition superseded_at (s : KnowledgeStore) (r : option Z) : option Z :=
  r ← r; if r =? 0 then None else committed_at s r.

(** [properties.get("display_name") or ... or canonical_key] *)
Definition node_label (o : ObjectModel) : string :=
  match first_some (λ k, dict_get_truthy k (properties o)) ["display_name"%string; "title"%string; "name"%string; "full_name"%string] with
  | Some j => py_str py_repr j
  | None => canonical_key o
  end.

Definition node_view (s : KnowledgeStore) (o : ObjectModel) : result NetworkNodeView :=
  at_ ← timestamp s (ob_created_revision o);
  Ok (mkNetworkNodeView (object_id o) (object_type o) (node_label o) (canonical_key o) (ob_created_revision o) at_ None None None).
Definition edge_view (s : KnowledgeStore) (evidence : gmap (string * string) (list EvidenceRef)) (r : RelationModel)
  : result NetworkEdgeView :=
  at_ ← timestamp s (rm_created_revision r);
  Ok (mkNetworkEdgeView (relation_id r) (source_object_id r) (target_object_id r) (relation_type r) (rm_origin r)
        (rm_qualifier r) (rm_created_revision r) (rm_superseded_revision r) at_ (superseded_at s (rm_superseded_revision r))
        (default [] (evidence !! relation_target r))).

Definition anchors_of (object_id focus : string) : list string := remove_dups [object_id; focus].

(** The objects a request loads before its page. *)
Definition loaded_rows (s : KnowledgeStore) (snapshot : Z) (ids : list string) : list ObjectModel :=
  filter (λ o, object_id o ∈ ids ∧ ob_created_revision o ≤ snapshot) (objects s).

Definition latest_revision (s : KnowledgeStore) : Z := maxZ (kr_revision <$> revisions s).

(** The snapshot a request reads at, and the place after which its page starts. *)
Definition snapshot_request (latest : Z) (revision : option Z) (after : option CursorData) : result Z :=
  match after with
  | Some a =>
      snapshot ← snapshot_of a;
      _ ← raise_when (match revision with Some r => negb (r =? snapshot) | None => false end)
            (ValueError "cursor revision does not match requested revision");
      Ok snapshot
  | None => Ok (default latest revision)
  end.
Definition after_request (after : option CursorData) : result (option (Z * Z * string)) :=
  match after with
  | Some a => score ← db_int (cu_score a); newest ← db_int (cu_newest a); Ok (Some (score, newest, cu_id a))
  | None => Ok None
  end.

(** The page of a request whose anchors are loaded: the rows of the page, and how many rows the query has. *)
Definition page_of (s : KnowledgeStore) (focus : string) (snapshot : Z) (loaded : list string)
  (after : option (Z * Z * string)) (page_size : Z) : list RankRow * Z :=
  let rows := page_query after (ranked s focus snapshot loaded) in
  (take (Z.to_nat page_size) (ordered_rows rows), Z.of_nat (length rows)).

(** The view of a page. *)
Definition build_view (s : KnowledgeStore) (id focus : string) (snapshot : Z) (anchors : list string)
  (rows : list ObjectModel) (page : list RankRow) (found : Z) : result NetworkView :=
  let new_ids := rr_neighbor <$> page in
  let rows := rows ++ filter (λ o, object_id o ∈ new_ids) (objects s) in
  let loaded := object_id <$> rows in
  let relations := edge_rows s snapshot loaded in
  let evidence := evidence_for_targets (relation_target <$> relations) s in
  let remaining := Z.max 0 (found - Z.of_nat (length page)) in
  let next := match last page with
              | Some row => if (0 <? remaining) && (length rows <? 200)%nat
                            then Some (encode_cursor (cursor_fields id focus snapshot row)) else None
              | None => None
              end in
  let order := id :: sorted_set (filter (λ a, a ≠ id) anchors) ++ new_ids ++
               sorted_set (filter (λ a, (a ∉ anchors) ∧ a ∉ new_ids) loaded) in
  nodes ← try_map (λ i, match find (λ o, bool_decide (object_id o = i)) rows with
                        | Some o => node_view s o
                        | None => Err (LookupError "KeyError" i)
                        end) order;
  edges ← try_map (edge_view s evidence) relations;
  Ok (mkNetworkView id "knowledge" nodes edges snapshot next remaining).

(** [get_object_network] *)
Definition get_object_network (s : KnowledgeStore) (id : string) (focus_id : option string)
  (existing_ids : option (list string)) (limit : Z) (revision : option Z) (cursor : option string)
  : result (option NetworkView) :=
  let focus := match focus_id with Some f => if bool_decide (f = ""%string) then id else f | None => id end in
  let existing := remove_dups (default [] existing_ids) in
  _ ← raise_when (negb ((2 <=? limit) && (limit <=? 80)) || (200 <? length existing)%nat)
        (ValueError "network limit must be 2..80 and existing_ids at most 200");
  _ ← raise_when (bool_decide (focus ≠ id) && (limit <? 3))
        (ValueError "expansion with a distinct focus requires limit >= 3");
  let latest := latest_revision s in
  after ← match cursor with
          | Some c => if bool_decide (c = ""%string) then Ok None else (a ← decode_cursor c id focus; Ok (Some a))
          | None => Ok None
          end;
  snapshot ← snapshot_request latest revision after;
  if (snapshot <? 1) || (latest <? snapshot) then
    if (latest =? 0) && bool_decide (revision = None) then Ok None
    else Err (ValueError "network revision is outside stored history")
  else
    let anchors := anchors_of id focus in
    let rows := loaded_rows s snapshot (anchors ++ existing) in
    let loaded := object_id <$> rows in
    if bool_decide (Exists (λ a, a ∉ loaded) anchors) then Ok None
    else
      _ ← raise_when (200 <? length rows)%nat
            (ValueError "network anchors and existing nodes must fit within 200 nodes");
      place ← after_request after;
      let page_size := Z.min (limit - Z.of_nat (length anchors)) (200 - Z.of_nat (length rows)) in
      let '(page, found) := page_of s focus snapshot loaded place page_size in
      view ← build_view s id focus snapshot anchors rows page found; Ok (Some view).
End network.

(** ** Base64 *)

Definition all_bytes : list ascii := (λ n, Ascii.ascii_of_nat n) <$> List.seq 0 256.

Lemma elem_of_all_bytes c : c ∈ all_bytes.
Proof.
  apply list_elem_of_fmap. exists (Ascii.nat_of_ascii c). rewrite Ascii.ascii_nat_embedding. split; [done|].
  apply elem_of_seq. pose proof (Ascii.nat_ascii_bounded c). lia.
Qed.

Lemma bytes_forall (p : ascii → bool) : forallb p all_bytes = true → ∀ c, p c = true.
Proof. intros H c. rewrite forallb_forall in H. apply H, list_elem_of_In, elem_of_all_bytes. Qed.

(** A sextet [v] is written as a character that is not the padding and reads back as [v]. *)
Definition sextet_ok (v : Z) : bool :=
  bool_decide (b64_value (b64_char v) = Some v) && negb (bool_decide (b64_char v = "="%char)).

Definition first_ok (a : ascii) : bool := sextet_ok (Z.shiftr (byte_value a) 2) && sextet_ok (Z.land (byte_value a) 63).
(** The two sextets over the end of [a] and the beginning of [b], and of [b] and [c]. *)
Definition high_ok (a b : ascii) : bool :=
  let v := Z.lor (Z.shiftl (Z.land (byte_value a) 3) 4) (Z.shiftr (byte_value b) 4) in
  sextet_ok v && bool_decide (Z.land v 15 = Z.shiftr (byte_value b) 4)
  && bool_decide (byte_char (Z.lor (Z.shiftl (Z.shiftr (byte_value a) 2) 2) (Z.shiftr v 4)) = a).
Definition low_ok (b c : ascii) : bool :=
  let v := Z.lor (Z.shiftl (Z.land (byte_value b) 15) 2) (Z.shiftr (byte_value c) 6) in
  sextet_ok v && bool_decide (Z.land v 3 = Z.shiftr (byte_value c) 6)
  && bool_decide (byte_char (Z.lor (Z.shiftl (Z.shiftr (byte_value b) 4) 4) (Z.shiftr v 2)) = b)
  && bool_decide (byte_char (Z.lor (Z.shiftl (Z.shiftr (byte_value c) 6) 6) (Z.land (byte_value c) 63)) = c).

Lemma first_sextet a : first_ok a = true.
Proof. apply bytes_forall. vm_compute. reflexivity. Qed.
Lemma high_sextet a b : high_ok a b = true.
Proof.
  assert (∀ a, forallb (high_ok a) all_bytes = true) as H by (apply bytes_forall; vm_compute; reflexivity).
  by apply bytes_forall.
Qed.
Lemma low_sextet b c : low_ok b c = true.
Proof.
  assert (∀ b, forallb (low_ok b) all_bytes = true) as H by (apply bytes_forall; vm_compute; reflexivity).
  by apply bytes_forall.
Qed.

Lemma a2b_sextet v l quad pads left :
  sextet_ok v = true →
  a2b (b64_char v :: l) quad pads left =
    match quad with
    | O => a2b l 1 0 v
    | 1%nat => cons (byte_char (Z.lor (Z.shiftl left 2) (Z.shiftr v 4))) <$> a2b l 2 0 (Z.land v 15)
    | 2%nat => cons (byte_char (Z.lor (Z.shiftl left 4) (Z.shiftr v 2))) <$> a2b l 3 0 (Z.land v 3)
    | _ => cons (byte_char (Z.lor (Z.shiftl left 6) v)) <$> a2b l 0 0 0
    end.
Proof.
  unfold sextet_ok. rewrite andb_true_iff, negb_true_iff. intros [E%bool_decide_eq_true Hp]. cbn [a2b]. by rewrite Hp, E.
Qed.

(** The first character of a group, the pair over [a] and [b], and the pair over [b] and [c]. *)
Lemma a2b_first a l : a2b (b64_char (Z.shiftr (byte_value a) 2) :: l) 0 0 0 = a2b l 1 0 (Z.shiftr (byte_value a) 2).
Proof. pose proof (first_sextet a) as H. unfold first_ok in H. apply andb_true_iff in H as [H _]. by rewrite a2b_sextet. Qed.
Lemma a2b_high a b l :
  a2b (b64_char (Z.lor (Z.shiftl (Z.land (byte_value a) 3) 4) (Z.shiftr (byte_value b) 4)) :: l) 1 0 (Z.shiftr (byte_value a) 2)
    = cons a <$> a2b l 2 0 (Z.shiftr (byte_value b) 4).
Proof.
  pose proof (high_sextet a b) as H. unfold high_ok in H. cbv zeta in H. rewrite !andb_true_iff, !bool_decide_eq_true in H.
  destruct H as [[H E1] E2]. rewrite a2b_sextet by done. by rewrite E1, E2.
Qed.
Lemma a2b_low b c l :
  a2b (b64_char (Z.lor (Z.shiftl (Z.land (byte_value b) 15) 2) (Z.shiftr (byte_value c) 6)) :: l) 2 0 (Z.shiftr (byte_value b) 4)
    = cons b <$> a2b l 3 0 (Z.shiftr (byte_value c) 6).
Proof.
  pose proof (low_sextet b c) as H. unfold low_ok in H. cbv zeta in H. rewrite !andb_true_iff, !bool_decide_eq_true in H.
  destruct H as [[[H E1] E2] _]. rewrite a2b_sextet by done. by rewrite E1, E2.
Qed.
Lemma a2b_last c l :
  a2b (b64_char (Z.land (byte_value c) 63) :: l) 3 0 (Z.shiftr (byte_value c) 6) = cons c <$> a2b l 0 0 0.
Proof.
  pose proof (first_sextet c) as H. unfold first_ok in H. apply andb_true_iff in H as [_ H].
  pose proof (low_sextet c c) as H1. unfold low_ok in H1. cbv zeta in H1. rewrite !andb_true_iff, !bool_decide_eq_true in H1.
  destruct H1 as [_ E]. rewrite a2b_sextet by done. by rewrite E.
Qed.

Lemma b64_roundtrip l : b64decode (b64encode l) = Some l.
Proof.
  unfold b64decode. revert l. fix IH 1. intros [|a [|b [|c l]]]; [done| | |].
  - pose proof (a2b_high a zero ["="%char; "="%char]) as H. change (Z.shiftr (byte_value zero) 4) with 0 in H.
    rewrite Z.lor_0_r in H. cbn [b64encode]. rewrite a2b_first, H. done.
  - pose proof (a2b_low b zero ["="%char]) as H. change (Z.shiftr (byte_value zero) 6) with 0 in H.
    rewrite Z.lor_0_r in H. cbn [b64encode]. rewrite a2b_first, a2b_high, H. done.
  - cbn [b64encode]. rewrite a2b_first, a2b_high, a2b_low, a2b_last, IH. done.
Qed.

(** The text is in the URL-safe alphabet and four characters for every three bytes. *)
Lemma b64encode_length l : Z.of_nat (length (b64encode l)) = 4 * ((Z.of_nat (length l) + 2) / 3).
Proof.
  revert l. fix IH 1. intros [|a [|b [|c l]]]; [done..|]. cbn [b64encode length]. rewrite !Nat2Z.inj_succ, IH.
  replace (Z.succ (Z.succ (Z.succ (Z.of_nat (length l)))) + 2) with (Z.of_nat (length l) + 2 + 1 * 3) by lia.
  rewrite Z.div_add by lia. lia.
Qed.

(** ** Ranking *)

#[export] Instance string_le_antisymm : AntiSymm (=) String.le.
Proof. apply _. Qed.

#[export] Instance rank_le_total : Total rank_le.
Proof.
  intros x y. unfold rank_le. destruct (Z.lt_trichotomy (rr_score x) (rr_score y)) as [?|[?|?]]; [right; auto| |left; auto].
  destruct (Z.lt_trichotomy (rr_newest x) (rr_newest y)) as [?|[?|?]]; [right; auto| |left; auto].
  destruct (total String.le (rr_neighbor x) (rr_neighbor y)); [left|right]; auto.
Qed.
#[export] Instance rank_le_trans : Transitive rank_le.
Proof.
  intros x y z. unfold rank_le. intros [?|[? [?|[? H1]]]] [?|[? [?|[? H2]]]]; try (left; lia);
    right; (split; [lia|]); try (left; lia). right. split; [lia|]. by transitivity (rr_neighbor y).
Qed.
#[export] Instance rank_le_antisymm : AntiSymm (=) rank_le.
Proof.
  intros [x1 x2 x3] [y1 y2 y3]. unfold rank_le. simpl. intros [?|[? [?|[? H1]]]] [?|[? [?|[? H2]]]]; try lia.
  pose proof (anti_symm String.le _ _ H1 H2). by subst.
Qed.

(** The rows after a row are those it is strictly before. *)
Lemma after_row_spec x y : after_row (rr_score x) (rr_newest x) (rr_neighbor x) y ↔ rank_le x y ∧ x ≠ y.
Proof.
  unfold after_row, rank_le, string_lt. destruct x as [x1 x2 x3], y as [y1 y2 y3]; simpl. split.
  - intros [?|[[??]|(?&?&?&?)]]; (split; [|intros [=]; by (lia || subst)]); [left; lia|right; split; [lia|left; lia]|].
    right. split; [lia|right]. by split; [lia|].
  - intros [[?|[? [?|[? ?]]]] Hne]; [by left|right; left; lia|]. right; right. subst. split; [lia|]. split; [lia|]. split; [done|].
    intros ->. by apply Hne.
Qed.

Lemma ordered_rows_unique l l' : StronglySorted rank_le l' → l ≡ₚ l' → ordered_rows l = l'.
Proof.
  intros Hs Hp. apply (StronglySorted_unique rank_le); [apply (StronglySorted_merge_sort _)|done|].
  unfold ordered_rows. by rewrite merge_sort_Permutation.
Qed.

Lemma StronglySorted_app_inv {A} (R : relation A) l1 l2 :
  StronglySorted R (l1 ++ l2) → StronglySorted R l1 ∧ StronglySorted R l2 ∧ ∀ x y, x ∈ l1 → y ∈ l2 → R x y.
Proof.
  induction l1 as [|a l1 IH]; intros H; simpl in *.
  - split; [constructor|]. split; [done|]. intros x y Hx. by apply elem_of_nil in Hx.
  - apply StronglySorted_inv in H as [H1 H2]. destruct (IH H1) as (K1&K2&K3). rewrite Forall_app in H2. destruct H2 as [H2 H3].
    split; [by constructor|]. split; [done|]. intros x y [->|Hx]%elem_of_cons Hy; [|by apply K3].
    rewrite Forall_forall in H3. by apply H3.
Qed.

Lemma StronglySorted_filter {A} (R : relation A) (P : A → Prop) `{!∀ x, Decision (P x)} l :
  StronglySorted R l → StronglySorted R (filter P l).
Proof.
  induction 1 as [|x l Hs IH Hall]; [constructor|]. rewrite filter_cons. case_decide; [|done]. constructor; [done|].
  apply Forall_forall. intros y [_ Hy]%list_elem_of_filter. rewrite Forall_forall in Hall. by apply Hall.
Qed.

Lemma filter_none {A} (P : A → Prop) `{!∀ x, Decision (P x)} (l : list A) : (∀ x, x ∈ l → ¬ P x) → filter P l = [].
Proof.
  intros HP. destruct (filter P l) as [|x l'] eqn:E; [done|]. exfalso.
  assert (x ∈ filter P l) as [Hx ?]%list_elem_of_filter by (rewrite E; apply list_elem_of_here). by apply (HP x).
Qed.
Lemma filter_every {A} (P : A → Prop) `{!∀ x, Decision (P x)} (l : list A) : (∀ x, x ∈ l → P x) → filter P l = l.
Proof.
  induction l as [|x l IH]; intros HP; [done|]. rewrite filter_cons, decide_True by apply HP, list_elem_of_here.
  f_equal. apply IH. intros y Hy. by apply HP, list_elem_of_further.
Qed.

(** A page that ends with [row], and the rows the cursor at [row] selects, are all the rows. *)
Lemma page_rest rows page row rest :
  NoDup rows → ordered_rows rows = (page ++ [row]) ++ rest →
  ordered_rows (page_query (Some (rr_score row, rr_newest row, rr_neighbor row)) rows) = rest.
Proof.
  intros Hnd E. assert (rows ≡ₚ (page ++ [row]) ++ rest) as Hp by (rewrite <- E; unfold ordered_rows; by rewrite merge_sort_Permutation).
  assert (StronglySorted rank_le ((page ++ [row]) ++ rest)) as Hs by (rewrite <- E; apply (StronglySorted_merge_sort _)).
  apply ordered_rows_unique; [by apply StronglySorted_app_inv in Hs as (_&?&_)|]. simpl.
  rewrite Hp in Hnd |- *. rewrite filter_app. apply StronglySorted_app_inv in Hs as (Hs1&Hs2&Hcross).
  apply NoDup_app in Hnd as (Hnd1&Hdisj&_).
  assert (row ∈ page ++ [row]) as Hrow by (apply elem_of_app; right; apply list_elem_of_here).
  assert (filter (after_row (rr_score row) (rr_newest row) (rr_neighbor row)) (page ++ [row]) = []) as ->.
  { apply filter_none. intros x Hx [Hle Hne]%after_row_spec. apply Hne.
    apply (anti_symm rank_le); [done|]. apply StronglySorted_app_inv in Hs1 as (_&_&H1).
    apply elem_of_app in Hx as [Hx| ->%list_elem_of_singleton]; [|done]. apply H1; [done|apply list_elem_of_here]. }
  simpl. rewrite filter_every; [done|].
  intros x Hx. apply after_row_spec. split; [by apply Hcross|]. intros ->. by apply (Hdisj _ Hrow).
Qed.

Lemma filter_or {A} (P Q R : A → Prop) `{!∀ x, Decision (P x), !∀ x, Decision (Q x), !∀ x, Decision (R x)} (l : list A) :
  (∀ x, x ∈ l → ¬ (P x ∧ Q x)) → (∀ x, x ∈ l → R x ↔ P x ∨ Q x) → filter P l ++ filter Q l ≡ₚ filter R l.
Proof.
  induction l as [|x l IH]; intros Hd Hr; [done|]. rewrite !filter_cons.
  specialize (IH ltac:(intros y Hy; by apply Hd, list_elem_of_further) ltac:(intros y Hy; by apply Hr, list_elem_of_further)).
  specialize (Hd x (list_elem_of_here _ _)). specialize (Hr x (list_elem_of_here _ _)).
  destruct (decide (P x)), (decide (Q x)), (decide (R x)); try tauto; simpl; rewrite <- ?IH; [done|].
  by rewrite Permutation_middle.
Qed.

Lemma filter_pair {A} (f : A → string) n l : (filter (λ row, row.1 = n) ((λ r, (f r, r)) <$> l)).*2 = filter (λ r, f r = n) l.
Proof.
  induction l as [|x l IH]; csimpl; [done|]. rewrite !filter_cons. simpl. destruct (decide (f x = n)); csimpl; by rewrite IH.
Qed.

Lemma maxZ_cons x y l : maxZ (x :: y :: l) = Z.max x (maxZ (y :: l)).
Proof. simpl. revert x y. induction l as [|z l IH]; intros x y; simpl; [lia|]. pose proof (IH x y). pose proof (IH x z). simpl in *. lia. Qed.
Lemma maxZ_elem l x : x ∈ l → x ≤ maxZ l.
Proof.
  intros Hx. induction l as [|y [|z l] IH]; [by apply elem_of_nil in Hx| |].
  - apply list_elem_of_singleton in Hx as ->. simpl. lia.
  - rewrite maxZ_cons. apply elem_of_cons in Hx as [->|Hx]; [lia|]. specialize (IH Hx). lia.
Qed.
Lemma maxZ_in l : l ≠ [] → maxZ l ∈ l.
Proof.
  induction l as [|y [|z l] IH]; intros H; [done|apply list_elem_of_here|]. rewrite maxZ_cons.
  destruct (Z.max_spec y (maxZ (z :: l))) as [[? ->]|[? ->]]; [apply list_elem_of_further, IH; done|apply list_elem_of_here].
Qed.
#[export] Instance maxZ_Permutation : Proper ((≡ₚ) ==> (=)) maxZ.
Proof.
  intros l l' H. destruct l as [|x l]; [by apply Permutation_nil_l in H as ->|].
  assert (l' ≠ []) as Hl' by (intros ->; by apply Permutation_nil_r in H). set (l0 := x :: l) in *.
  assert (l0 ≠ []) as Hl by done. apply Z.le_antisymm; apply maxZ_elem; [rewrite <- H|rewrite H]; by apply maxZ_in.
Qed.

Section ranking.
Context (s : KnowledgeStore) (focus : string) (snapshot : Z).
Hypothesis (facts : facts_wf s).

(** The relations the snapshot has between [focus] and [n], in either direction, and what the rank of [n] is made of:
    their evidence links and the revision of the newest. *)
Definition joining (n : string) : list RelationModel :=
  filter (λ r, (source_object_id r = focus ∧ target_object_id r = n ∨ source_object_id r = n ∧ target_object_id r = focus) ∧
               rm_created_revision r ≤ snapshot) (relations s).
Definition evidence_count (n : string) : Z :=
  Z.of_nat (length (filter (λ l, el_target_kind l = T_RELATION ∧ el_target_id l ∈ relation_id <$> joining n) (links s))).
Definition rank_of (n : string) : RankRow := mkRankRow n (evidence_count n) (maxZ (rm_created_revision <$> joining n)).
Definition neighbour (n : string) : Prop := joining n ≠ [] ∧ object_at s snapshot n.

Lemma link_counts rs : NoDup (relation_id <$> rs) →
  sumZ (link_count s) rs =
    Z.of_nat (length (filter (λ l, el_target_kind l = T_RELATION ∧ el_target_id l ∈ relation_id <$> rs) (links s))).
Proof.
  induction rs as [|r rs IH]; csimpl.
  - intros _. rewrite filter_none; [done|]. intros l _ [_ H]. by apply elem_of_nil in H.
  - intros [Hr Hnd]%NoDup_cons. unfold sumZ in *. simpl. rewrite IH by done. unfold link_count. rewrite <- Nat2Z.inj_add, <- length_app.
    f_equal. apply Permutation_length. apply filter_or.
    + intros l _ [[_ E] [_ H]]. apply Hr. by rewrite <- E.
    + intros l _. rewrite elem_of_cons. tauto.
Qed.

Lemma accepted_relations r : r ∈ relations s → rm_lifecycle r = "accepted"%string.
Proof. intros Hr. by destruct (fw_relations _ facts r Hr) as [[? _ _ _] _]. Qed.

Lemma adjacent_joining n : n ≠ focus → (filter (λ row, row.1 = n) (adjacent s focus snapshot)).*2 ≡ₚ joining n.
Proof.
  intros Hn. unfold adjacent. rewrite filter_app, fmap_app, !filter_pair, !list_filter_filter. unfold joining. apply filter_or.
  - intros r _ [H1 H2]. apply Hn. trans (source_object_id r); [symmetry|]; tauto.
  - intros r Hr. pose proof (accepted_relations r Hr). unfold accepted_at. tauto.
Qed.

Lemma adjacent_elem n : n ∈ (adjacent s focus snapshot).*1 ↔ ∃ r, r ∈ (filter (λ row, row.1 = n) (adjacent s focus snapshot)).*2.
Proof.
  setoid_rewrite list_elem_of_fmap. setoid_rewrite list_elem_of_filter. split.
  - intros ([m r]&->&H). exists r, (m, r). done.
  - intros (r&[m r']&_&Hm&H). simpl in *. exists (m, r'). done.
Qed.

Lemma ranked_row_spec (loaded : list string) n :
  object_at s snapshot n → n ≠ focus → n ∉ loaded →
  ranked_row s (filter (λ row, object_at s snapshot row.1 ∧ row.1 ∉ loaded) (adjacent s focus snapshot)) n = rank_of n.
Proof.
  intros Ho Hn Hl. unfold ranked_row. rewrite list_filter_filter.
  rewrite (filter_ext_elem _ (λ row : string * RelationModel, row.1 = n)).
  2: { intros [m r] _. simpl. split; [tauto|]. by intros ->. }
  pose proof (adjacent_joining n Hn) as Hp. unfold rank_of, evidence_count. f_equal.
  - rewrite Hp. apply link_counts. unfold joining. eapply sublist_NoDup; [exact (fw_relation_ids _ facts)|].
    apply fmap_sublist, sublist_filter.
  - by rewrite Hp.
Qed.

(** The rows of the subquery: one for every neighbour that is not loaded, with its rank. *)
Lemma elem_of_ranked (loaded : list string) row :
  focus ∈ loaded →
  row ∈ ranked s focus snapshot loaded ↔ row = rank_of (rr_neighbor row) ∧ neighbour (rr_neighbor row) ∧ rr_neighbor row ∉ loaded.
Proof.
  intros Hfocus. unfold ranked. rewrite list_elem_of_fmap. setoid_rewrite elem_of_remove_dups.
  assert (∀ n, n ∈ (filter (λ row : string * RelationModel, object_at s snapshot row.1 ∧ row.1 ∉ loaded)
      (adjacent s focus snapshot)).*1 ↔ neighbour n ∧ n ∉ loaded) as Hin.
  { intros n. trans (n ∈ (adjacent s focus snapshot).*1 ∧ object_at s snapshot n ∧ n ∉ loaded).
    - setoid_rewrite list_elem_of_fmap. setoid_rewrite list_elem_of_filter. naive_solver.
    - rewrite adjacent_elem. unfold neighbour. split.
      + intros ((r&Hr)&Ho&Hl). split; [|done]. split; [|done]. rewrite adjacent_joining in Hr by (intros ->; done).
        intros E. rewrite E in Hr. by apply elem_of_nil in Hr.
      + intros ((Hj&Ho)&Hl). split; [|done]. destruct (joining n) as [|r rs] eqn:E; [done|]. exists r.
        rewrite adjacent_joining by (intros ->; done). rewrite E. apply list_elem_of_here. }
  split.
  - intros (n&->&Hn). apply Hin in Hn as [[Hj Ho] Hl]. rewrite ranked_row_spec by (done || by intros ->). done.
  - intros (E&Hn&Hl). exists (rr_neighbor row). rewrite ranked_row_spec; [|by destruct Hn|intros E'; apply Hl; by rewrite E'|done].
    split; [done|]. by apply Hin.
Qed.

Lemma ranked_NoDup loaded : NoDup (rr_neighbor <$> ranked s focus snapshot loaded).
Proof.
  unfold ranked. rewrite <- list_fmap_compose. set (l := remove_dups _).
  rewrite (list_fmap_ext _ id), list_fmap_id by done. apply NoDup_remove_dups.
Qed.

(** Loading more objects takes their rows away. *)
Lemma ranked_loaded (loaded loaded' : list string) :
  focus ∈ loaded → (∀ i, i ∈ loaded → i ∈ loaded') →
  ordered_rows (ranked s focus snapshot loaded') = filter (λ row, rr_neighbor row ∉ loaded') (ordered_rows (ranked s focus snapshot loaded)).
Proof.
  intros Hf Hsub. apply ordered_rows_unique; [apply StronglySorted_filter, (StronglySorted_merge_sort _)|].
  apply NoDup_Permutation.
  - eapply NoDup_fmap_1, ranked_NoDup.
  - apply NoDup_filter. unfold ordered_rows. rewrite merge_sort_Permutation. eapply NoDup_fmap_1, ranked_NoDup.
  - intros row. rewrite list_elem_of_filter. unfold ordered_rows. rewrite merge_sort_Permutation, !elem_of_ranked by auto.
    naive_solver.
Qed.
End ranking.

(** ** The view of a page *)

Lemma committed_at_known s r :
  revision_known s r → ∃ k, k ∈ revisions s ∧ kr_revision k = r ∧ committed_at s r = Some (kr_committed_at k).
Proof.
  intros (k0&->&Hk0)%list_elem_of_fmap. unfold committed_at.
  destruct (find (λ k, bool_decide (kr_revision k = kr_revision k0)) (revisions s)) as [k|] eqn:E.
  - apply find_elem in E as [Hk Hr%bool_decide_eq_true]. by exists k.
  - apply (find_None_elem _ _ k0) in E; [|done]. by apply bool_decide_eq_false in E.
Qed.

Lemma object_at_elem s snapshot id :
  object_at s snapshot id ↔ ∃ o, o ∈ objects s ∧ object_id o = id ∧ ob_created_revision o ≤ snapshot.
Proof. unfold object_at. rewrite Exists_exists. naive_solver. Qed.

Lemma elem_of_loaded s snapshot ids i : i ∈ object_id <$> loaded_rows s snapshot ids ↔ i ∈ ids ∧ object_at s snapshot i.
Proof.
  unfold loaded_rows. rewrite list_elem_of_fmap, object_at_elem. setoid_rewrite list_elem_of_filter. naive_solver.
Qed.
Lemma loaded_NoDup s snapshot ids : facts_wf s → NoDup (object_id <$> loaded_rows s snapshot ids).
Proof. intros Hwf. eapply sublist_NoDup; [exact (fw_object_ids _ Hwf)|]. apply fmap_sublist, sublist_filter. Qed.

Lemma elem_of_anchors id focus i : i ∈ anchors_of id focus ↔ i = id ∨ i = focus.
Proof. unfold anchors_of. rewrite elem_of_remove_dups, !elem_of_cons, elem_of_nil. tauto. Qed.

(** A node shows a stored object and when it was recorded. *)
Definition node_shows (py_repr : json → string) (s : KnowledgeStore) (snapshot : Z) (n : NetworkNodeView) : Prop :=
  ∃ o k, o ∈ objects s ∧ k ∈ revisions s ∧ kr_revision k = ob_created_revision o ∧ ob_created_revision o ≤ snapshot ∧
    n = mkNetworkNodeView (object_id o) (object_type o) (node_label py_repr o) (canonical_key o) (ob_created_revision o)
          (kr_committed_at k) None None None.

(** An edge shows a stored relation, its lifetime and exactly its evidence. *)
Definition edge_shows (s : KnowledgeStore) (r : RelationModel) (e : NetworkEdgeView) : Prop :=
  (∃ k, k ∈ revisions s ∧ kr_revision k = rm_created_revision r ∧
     e = mkNetworkEdgeView (relation_id r) (source_object_id r) (target_object_id r) (relation_type r) (rm_origin r)
           (rm_qualifier r) (rm_created_revision r) (rm_superseded_revision r) (kr_committed_at k) (ne_superseded_at e)
           (ne_evidence e)) ∧
  match rm_superseded_revision r with
  | None => ne_superseded_at e = None
  | Some n => n ≠ 0 → ∃ k, k ∈ revisions s ∧ kr_revision k = n ∧ ne_superseded_at e = Some (kr_committed_at k)
  end ∧
  ne_evidence e ≠ [] ∧ ∀ x, x ∈ ne_evidence e ↔ evidence_of s T_RELATION (relation_id r) x.

Definition node_ids (v : NetworkView) : list string := nn_object_id <$> nv_nodes v.

(** A view: stored objects of the snapshot, the center first and none twice, and every relation the snapshot has among
    them, by revision and identity. *)
Record network_shows (py_repr : json → string) (s : KnowledgeStore) (id focus : string) (snapshot : Z) (v : NetworkView)
  : Prop := {
  ns_center : head (node_ids v) = Some id ∧ center_id v = id ∧ snapshot_revision v = snapshot;
  ns_focus : focus ∈ node_ids v;
  ns_NoDup : NoDup (node_ids v);
  ns_nodes : Forall (node_shows py_repr s snapshot) (nv_nodes v);
  ns_edges : ∃ rs,
    rs ≡ₚ filter (λ r, source_object_id r ∈ node_ids v ∧ target_object_id r ∈ node_ids v ∧ rm_created_revision r ≤ snapshot)
            (relations s) ∧
    StronglySorted (row_le rm_created_revision relation_id) rs ∧ Forall2 (edge_shows s) rs (nv_edges v)
}.

Section views.
Context (json_dumps : dict → string) (json_loads : list ascii → option json) (py_repr : json → string).
Context (s : KnowledgeStore) (facts : facts_wf s).

Lemma node_view_Ok o : o ∈ objects s →
  ∃ n k, node_view py_repr s o = Ok n ∧ k ∈ revisions s ∧ kr_revision k = ob_created_revision o ∧
    n = mkNetworkNodeView (object_id o) (object_type o) (node_label py_repr o) (canonical_key o) (ob_created_revision o)
          (kr_committed_at k) None None None.
Proof.
  intros Ho. destruct (committed_at_known s _ (fw_objects _ facts o Ho)) as (k&Hk&Hr&E).
  unfold node_view, timestamp. rewrite E. eexists _, k. done.
Qed.

Lemma edge_view_Ok rs r : r ∈ rs → r ∈ relations s →
  ∃ e, edge_view s (evidence_for_targets (relation_target <$> rs) s) r = Ok e ∧ edge_shows s r e.
Proof.
  intros Hrs Hr. destruct (fw_relations _ facts r Hr) as [[_ _ Hcreated Hsuper] Hev].
  destruct (committed_at_known s _ Hcreated) as (k&Hk&Hkr&E). unfold edge_view, timestamp. rewrite E.
  eexists. split; [done|].
  assert (relation_target r ∈ relation_target <$> rs) as Hin by by apply list_elem_of_fmap_2.
  split; [by exists k|]. split; [|split].
  - simpl. unfold superseded_at. destruct (rm_superseded_revision r) as [n|] eqn:En; simpl; [|done]. intros Hn.
    destruct (committed_at_known s n (Hsuper n eq_refl)) as (k'&Hk'&Hkr'&E'). exists k'. rewrite (proj2 (Z.eqb_neq n 0) Hn). done.
  - by apply (evidence_nonempty _ s T_RELATION (relation_id r)).
  - intros x. by apply (elem_of_evidence _ s T_RELATION (relation_id r)).
Qed.

(** The ids of a view: what was loaded before the page, and the page. *)
Definition view_order (id : string) (anchors loaded new_ids : list string) : list string :=
  id :: sorted_set (filter (λ a, a ≠ id) anchors) ++ new_ids ++
    sorted_set (filter (λ a, (a ∉ anchors) ∧ a ∉ new_ids) loaded).

Lemma view_order_spec id anchors loaded new_ids all :
  (∀ a, a ∈ all ↔ a ∈ loaded ∨ a ∈ new_ids) → NoDup loaded → NoDup new_ids → id ∈ anchors → (∀ a, a ∈ anchors → a ∈ loaded) → (∀ a, a ∈ new_ids → a ∉ loaded) →
  view_order id anchors all new_ids ≡ₚ loaded ++ new_ids.
Proof.
  intros Hall Hl Hn Hid Ha Hnew. assert (∀ a, a ∈ new_ids → a ∉ anchors) as Hna by (intros a H1 H2; by apply (Hnew a H1), Ha).
  unfold view_order. apply NoDup_Permutation.
  - apply NoDup_cons. split.
    + rewrite !elem_of_app, !elem_of_sorted_set, !list_elem_of_filter. intros [[??]|[H|[[? _] _]]]; [done| |done].
      by apply (Hna id).
    + apply NoDup_app. split; [apply sorted_set_NoDup|]. split.
      * intros a Hin. apply elem_of_sorted_set, list_elem_of_filter in Hin as [_ Hin].
        rewrite elem_of_app, elem_of_sorted_set, list_elem_of_filter. intros [H|[[? _] _]]; [by apply (Hna a)|done].
      * apply NoDup_app. split; [done|]. split; [|apply sorted_set_NoDup]. intros a H1.
        rewrite elem_of_sorted_set, list_elem_of_filter. by intros [[_ ?] _].
  - apply NoDup_app. split; [done|]. split; [|done]. intros a H1 H2. by apply (Hnew a).
  - intros a. rewrite elem_of_cons, !elem_of_app, !elem_of_sorted_set, !list_elem_of_filter, Hall.
    destruct (decide (a ∈ anchors)) as [H1|H1].
    + destruct (decide (a = id)) as [->|]; [|naive_solver]. split; [|by left]. intros _. left. by apply Ha.
    + destruct (decide (a ∈ new_ids)) as [H2|H2]; [naive_solver|]. split; [|naive_solver].
      intros [->|[[_ ?]|[?|[_ ?]]]]; naive_solver.
Qed.
Lemma view_order_fresh id (anchors loaded new_ids all : list string) :
  id ∈ loaded → (∀ a, a ∈ anchors → a ∈ loaded) → (∀ a, a ∈ new_ids → a ∉ loaded) →
  (∀ a, a ∈ all ↔ a ∈ loaded ∨ a ∈ new_ids) →
  filter (λ i, i ∉ loaded) (view_order id anchors all new_ids) = new_ids.
Proof.
  intros Hid Ha Hnew Hall. unfold view_order. rewrite filter_cons, decide_False by auto. rewrite !filter_app.
  rewrite (filter_none _ (sorted_set (filter (λ a, a ≠ id) anchors))).
  2: { intros a Hin Hn. rewrite elem_of_sorted_set in Hin. apply list_elem_of_filter in Hin as [_ Hin]. by apply Hn, Ha. }
  rewrite (filter_none _ (sorted_set _)), filter_every; [by rewrite app_nil_r|done|].
  intros a Hin Hn. rewrite elem_of_sorted_set in Hin. apply list_elem_of_filter in Hin as [[_ H1] H2]. apply Hall in H2 as [?|?]; auto.
Qed.

(** The rows of a page: distinct objects of the snapshot that were not loaded. *)
Definition page_ok (snapshot : Z) (loaded : list string) (page : list RankRow) : Prop :=
  NoDup (rr_neighbor <$> page) ∧ ∀ row, row ∈ page → object_at s snapshot (rr_neighbor row) ∧ rr_neighbor row ∉ loaded.

Lemma find_object_id (rows : list ObjectModel) i :
  i ∈ object_id <$> rows → ∃ o, find (λ o, bool_decide (object_id o = i)) rows = Some o ∧ o ∈ rows ∧ object_id o = i.
Proof.
  intros (o0&->&Ho)%list_elem_of_fmap. destruct (find _ rows) as [o|] eqn:E.
  - apply find_elem in E as [? E%bool_decide_eq_true]. by exists o.
  - apply (find_None_elem _ _ o0) in E; [|done]. by apply bool_decide_eq_false in E.
Qed.

(** [next_cursor] and [remaining_count] of a page. *)
Definition next_of (id focus : string) (snapshot : Z) (size : nat) (page : list RankRow) (remaining : Z) : option string :=
  match last page with
  | Some row => if (0 <? remaining) && (size <? 200)%nat
                then Some (encode_cursor json_dumps (cursor_fields id focus snapshot row)) else None
  | None => None
  end.

(** The edges and the nodes of a view. *)
Lemma edge_views_show snapshot loaded :
  let rs := edge_rows s snapshot loaded in
  ∃ edges, try_map (edge_view s (evidence_for_targets (relation_target <$> rs) s)) rs = Ok edges ∧
    rs ≡ₚ filter (λ r, source_object_id r ∈ loaded ∧ target_object_id r ∈ loaded ∧ rm_created_revision r ≤ snapshot)
            (relations s) ∧
    StronglySorted (row_le rm_created_revision relation_id) rs ∧ Forall2 (edge_shows s) rs edges.
Proof.
  intros rs. assert (rs ≡ₚ filter (λ r, source_object_id r ∈ loaded ∧ target_object_id r ∈ loaded ∧
    rm_created_revision r ≤ snapshot) (relations s)) as Hp.
  { unfold rs, edge_rows. rewrite merge_sort_Permutation. erewrite (filter_ext_elem _ _ (relations s)); [done|].
    intros r Hr. simpl. unfold accepted_at. pose proof (accepted_relations s facts r Hr). tauto. }
  assert (∀ r, r ∈ rs → r ∈ relations s) as Hrel by (intros r Hr; rewrite Hp in Hr; by apply list_elem_of_filter in Hr as [_ ?]).
  destruct (try_map_total (edge_view s (evidence_for_targets (relation_target <$> rs) s)) rs) as [edges Hedges].
  { intros r Hr. destruct (edge_view_Ok rs r Hr (Hrel r Hr)) as (e&?&_). by exists e. }
  exists edges. split; [done|]. split; [done|]. split; [apply (StronglySorted_merge_sort _)|].
  eapply Forall2_impl_elem; [exact (try_map_Forall2 _ _ _ Hedges)|]. intros r e Hr He.
  destruct (edge_view_Ok rs r Hr (Hrel r Hr)) as (e'&E&?). assert (Ok e' = Ok e) as [= ->] by (rewrite <- He, <- E; done). done.
Qed.

Lemma node_views_show snapshot rows order :
  (∀ o, o ∈ rows → o ∈ objects s ∧ ob_created_revision o ≤ snapshot) → (∀ i, i ∈ order → i ∈ object_id <$> rows) →
  ∃ nodes, try_map (λ i, match find (λ o, bool_decide (object_id o = i)) rows with
                         | Some o => node_view py_repr s o
                         | None => Err (LookupError "KeyError" i)
                         end) order = Ok nodes ∧
    nn_object_id <$> nodes = order ∧ Forall (node_shows py_repr s snapshot) nodes.
Proof.
  intros Hrows. induction order as [|i order IH]; intros Hin; [by exists []|].
  destruct IH as (nodes&Hnodes&Hids&Hshow); [intros j Hj; by apply Hin, list_elem_of_further|].
  destruct (find_object_id rows i (Hin i (list_elem_of_here _ _))) as (o&Hfind&Ho&<-). destruct (Hrows o Ho) as [Ho' Hsnap].
  destruct (node_view_Ok o Ho') as (n&k&Hn&Hk&Hr&->). eexists. simpl. rewrite Hfind, Hn. simpl. rewrite Hnodes.
  split; [done|]. csimpl. split; [by rewrite Hids|]. constructor; [by exists o, k|done].
Qed.

(** The rows of the page are added to the ones that were loaded. *)
Lemma rows_with_page snapshot ids page :
  let rows := loaded_rows s snapshot ids in
  let rows2 := rows ++ filter (λ o, object_id o ∈ rr_neighbor <$> page) (objects s) in
  page_ok snapshot (object_id <$> rows) page →
  (∀ o, o ∈ rows2 → o ∈ objects s ∧ ob_created_revision o ≤ snapshot) ∧
  (object_id <$> rows2) ≡ₚ (object_id <$> rows) ++ (rr_neighbor <$> page).
Proof.
  intros rows rows2 [Hnd Hpage].
  assert (∀ i, i ∈ rr_neighbor <$> page → i ∉ object_id <$> rows) as Hnew by (intros i (row&->&Hrow)%list_elem_of_fmap; by apply Hpage).
  split.
  - intros o [[[_ ?] ?]%list_elem_of_filter|[Hi Ho]%list_elem_of_filter]%elem_of_app; [done|]. split; [done|].
    apply list_elem_of_fmap in Hi as (row&Hi&Hrow). destruct (Hpage row Hrow) as [(o'&Ho'&Eo&?)%object_at_elem _].
    rewrite (NoDup_fmap_eq object_id (objects s) o o'); [done|by apply (fw_object_ids _ facts)|done|done|by rewrite Hi].
  - unfold rows2. rewrite fmap_app. f_equiv. apply NoDup_Permutation; [|done|].
    + eapply sublist_NoDup; [exact (fw_object_ids _ facts)|]. apply fmap_sublist, sublist_filter.
    + intros i. split; [by intros (o&->&[? _]%list_elem_of_filter)%list_elem_of_fmap|].
      intros Hi. pose proof Hi as (row&->&Hrow)%list_elem_of_fmap.
      destruct (Hpage row Hrow) as [(o&Ho&Eo&_)%object_at_elem _]. rewrite <- Eo. apply list_elem_of_fmap_2.
      apply list_elem_of_filter. by rewrite Eo.
Qed.

Lemma build_view_shows id focus snapshot ids page found :
  let rows := loaded_rows s snapshot ids in let loaded := object_id <$> rows in
  id ∈ loaded → focus ∈ loaded → page_ok snapshot loaded page →
  ∃ v, build_view json_dumps py_repr s id focus snapshot (anchors_of id focus) rows page found = Ok v ∧
    network_shows py_repr s id focus snapshot v ∧ node_ids v ≡ₚ loaded ++ (rr_neighbor <$> page) ∧
    remaining_count v = Z.max 0 (found - Z.of_nat (length page)) ∧
    next_cursor v = next_of id focus snapshot (length (node_ids v)) page (remaining_count v) ∧
    filter (λ i, i ∉ loaded) (node_ids v) = rr_neighbor <$> page.
Proof.
  intros rows loaded Hid Hfocus Hpage. destruct (rows_with_page snapshot ids page Hpage) as [Hrows2 Hids2].
  unfold build_view. cbv zeta. fold rows in Hrows2, Hids2. set (new_ids := rr_neighbor <$> page) in *. set (rows2 := rows ++ _) in *.
  set (order := id :: _).
  assert (order ≡ₚ object_id <$> rows2) as Horder.
  { rewrite Hids2. apply view_order_spec; [intros a; by rewrite Hids2, elem_of_app|by apply loaded_NoDup|by apply Hpage|
      apply elem_of_anchors; by left| |intros a (row&->&Hrow)%list_elem_of_fmap; by apply Hpage].
    intros a [->| ->]%elem_of_anchors; done. }
  destruct (node_views_show snapshot rows2 order Hrows2) as (nodes&->&Hids&Hnodes); [intros i; by rewrite Horder|].
  destruct (edge_views_show snapshot (object_id <$> rows2)) as (edges&->&Hp&Hsorted&Hedges). simpl.
  eexists. split; [done|]. unfold node_ids. simpl. rewrite Hids. split; [|split; [by rewrite Horder|split; [done|split]]].
  - split; unfold node_ids; simpl; rewrite ?Hids; try done.
    + rewrite Horder, Hids2, elem_of_app. by left.
    + rewrite Horder, Hids2. apply NoDup_app. split; [by apply loaded_NoDup|]. split; [|by apply Hpage].
      intros a H1 (row&->&Hrow)%list_elem_of_fmap. by apply (proj2 (proj2 Hpage row Hrow)).
    + exists (edge_rows s snapshot (object_id <$> rows2)). split; [|done]. rewrite Hp.
      erewrite (filter_ext_elem _ _ (relations s)); [done|]. intros r _. simpl. by rewrite Horder.
  - unfold next_of. rewrite (Permutation_length Horder), length_fmap. done.
  - unfold order. apply view_order_fresh; [done| |intros a (row&->&Hrow)%list_elem_of_fmap; by apply Hpage|].
    + intros a [->| ->]%elem_of_anchors; done.
    + intros a. by rewrite Hids2, elem_of_app.
Qed.

(** ** Requests *)

(** [focus_id or object_id]; [if cursor]. *)
Definition focus_of (id : string) (focus_id : option string) : string :=
  match focus_id with Some f => if bool_decide (f = ""%string) then id else f | None => id end.
Definition no_cursor (cursor : option string) : Prop := cursor = None ∨ cursor = Some ""%string.
Definition cursor_read (cursor : option string) (id focus : string) : result (option CursorData) :=
  match cursor with
  | Some c => if bool_decide (c = ""%string) then Ok None else (a ← decode_cursor json_loads c id focus; Ok (Some a))
  | None => Ok None
  end.

Definition limit_ok (id focus : string) (existing : list string) (limit : Z) : Prop :=
  2 ≤ limit ≤ 80 ∧ (length existing ≤ 200)%nat ∧ (focus = id ∨ 3 ≤ limit).

Abbreviation network := (get_object_network json_dumps json_loads py_repr).

(** The limits checked, the rest of the request. *)
Definition network_at (id focus : string) (existing : list string) (limit : Z) (revision : option Z)
  (after : option CursorData) (snapshot : Z) : result (option NetworkView) :=
  if (snapshot <? 1) || (latest_revision s <? snapshot) then
    if (latest_revision s =? 0) && bool_decide (revision = None) then Ok None
    else Err (ValueError "network revision is outside stored history")
  else
    let anchors := anchors_of id focus in
    let rows := loaded_rows s snapshot (anchors ++ existing) in
    let loaded := object_id <$> rows in
    if bool_decide (Exists (λ a, a ∉ loaded) anchors) then Ok None
    else
      _ ← raise_when (200 <? length rows)%nat
            (ValueError "network anchors and existing nodes must fit within 200 nodes");
      place ← after_request after;
      let page_size := Z.min (limit - Z.of_nat (length anchors)) (200 - Z.of_nat (length rows)) in
      let '(page, found) := page_of s focus snapshot loaded place page_size in
      view ← build_view json_dumps py_repr s id focus snapshot anchors rows page found; Ok (Some view).

Lemma network_limits id focus_id existing_ids limit revision cursor :
  let focus := focus_of id focus_id in let existing := remove_dups (default [] existing_ids) in
  limit_ok id focus existing limit →
  network s id focus_id existing_ids limit revision cursor =
    (after ← cursor_read cursor id focus;
     snapshot ← snapshot_request (latest_revision s) revision after;
     network_at id focus existing limit revision after snapshot).
Proof.
  intros focus existing (H1&H2&H3). unfold get_object_network. fold (focus_of id focus_id). fold focus existing.
  rewrite (proj2 (Z.leb_le 2 limit)), (proj2 (Z.leb_le limit 80)), (proj2 (Nat.ltb_ge 200 (length existing))) by lia. simpl.
  assert (bool_decide (focus ≠ id) && (limit <? 3) = false) as ->; [|done].
  apply andb_false_iff. rewrite bool_decide_eq_false, Z.ltb_ge. destruct H3 as [H3|H3]; [left; by intros ?|by right].
Qed.

Lemma network_bad_limits id focus_id existing_ids limit revision cursor :
  let focus := focus_of id focus_id in let existing := remove_dups (default [] existing_ids) in
  ¬ limit_ok id focus existing limit →
  ∃ msg, network s id focus_id existing_ids limit revision cursor = Err (ValueError msg).
Proof.
  intros focus existing H. unfold get_object_network. fold (focus_of id focus_id). fold focus existing.
  destruct (negb ((2 <=? limit) && (limit <=? 80)) || (200 <? length existing)%nat) eqn:E; [by eexists|]. simpl.
  destruct (bool_decide (focus ≠ id) && (limit <? 3)) eqn:E2; [by eexists|]. exfalso. apply H.
  apply orb_false_iff in E as [E E']. apply negb_false_iff, andb_true_iff in E as [E1 E3].
  apply andb_false_iff in E2. rewrite bool_decide_eq_false, Z.ltb_ge in E2. split; [lia|]. split; [apply Nat.ltb_ge in E'; lia|].
  destruct E2 as [E2|E2]; [left; by apply dec_stable|by right].
Qed.

(** The rows of the page a request shows. *)
Definition page_rows (focus : string) (snapshot : Z) (loaded : list string) (place : option (Z * Z * string)) (limit : Z)
  (anchors : nat) : list RankRow * Z :=
  page_of s focus snapshot loaded place (Z.min (limit - Z.of_nat anchors) (200 - Z.of_nat (length loaded))).

Lemma page_rows_ok focus snapshot loaded place limit anchors :
  focus ∈ loaded → page_ok snapshot loaded (page_rows focus snapshot loaded place limit anchors).1.
Proof.
  intros Hf. unfold page_rows, page_of. simpl. set (rows := page_query _ _).
  assert (∀ row, row ∈ rows → row ∈ ranked s focus snapshot loaded) as Hsub
    by (intros row; unfold rows, page_query; destruct place as [[[??]?]|]; [by intros [_ ?]%list_elem_of_filter|done]).
  assert (NoDup (rr_neighbor <$> ordered_rows rows)) as Hnd.
  { unfold ordered_rows. rewrite merge_sort_Permutation. unfold rows, page_query. destruct place as [[[??]?]|]; [|apply ranked_NoDup].
    eapply sublist_NoDup; [apply ranked_NoDup|apply fmap_sublist, sublist_filter]. }
  split.
  - eapply sublist_NoDup; [exact Hnd|]. apply fmap_sublist, sublist_take.
  - intros row (i&Hrow%list_elem_of_lookup_2&_)%elem_of_take. unfold ordered_rows in Hrow. rewrite merge_sort_Permutation in Hrow.
    apply Hsub, (elem_of_ranked s focus snapshot facts loaded row Hf) in Hrow as (_&[_ ?]&?). done.
Qed.

(** A request that is answered with a view: its page, and the view of it. *)
Lemma network_at_view id focus existing limit revision after snapshot place :
  let ids := anchors_of id focus ++ existing in
  let loaded := object_id <$> loaded_rows s snapshot ids in
  let page := page_rows focus snapshot loaded place limit (length (anchors_of id focus)) in
  1 ≤ snapshot ≤ latest_revision s → object_at s snapshot id → object_at s snapshot focus →
  (length loaded ≤ 200)%nat → after_request after = Ok place →
  ∃ v, network_at id focus existing limit revision after snapshot = Ok (Some v) ∧
    network_shows py_repr s id focus snapshot v ∧ node_ids v ≡ₚ loaded ++ (rr_neighbor <$> page.1) ∧
    remaining_count v = Z.max 0 (page.2 - Z.of_nat (length page.1)) ∧
    next_cursor v = next_of id focus snapshot (length (node_ids v)) page.1 (remaining_count v) ∧
    filter (λ i, i ∉ loaded) (node_ids v) = rr_neighbor <$> page.1.
Proof.
  intros ids loaded page Hsnap Hid Hfocus Hlen Hplace. unfold network_at. fold ids.
  assert ((snapshot <? 1) || (latest_revision s <? snapshot) = false) as -> by (apply orb_false_iff; rewrite !Z.ltb_ge; lia).
  cbv zeta. fold loaded.
  assert (∀ a, a ∈ anchors_of id focus → a ∈ loaded) as Hanchors.
  { intros a Ha. apply elem_of_loaded. split; [apply elem_of_app; by left|]. apply elem_of_anchors in Ha as [->| ->]; done. }
  rewrite bool_decide_eq_false_2; [|intros (a&Ha&Hn)%Exists_exists; by apply Hn, Hanchors].
  assert (length (loaded_rows s snapshot ids) = length loaded) as Hrows by (unfold loaded; by rewrite length_fmap).
  rewrite Hrows, (proj2 (Nat.ltb_ge 200 (length loaded))) by done.
  unfold raise_when, mbind, result_bind. cbv iota. rewrite Hplace. cbv iota beta.
  pose proof (page_rows_ok focus snapshot loaded place limit (length (anchors_of id focus))
    (Hanchors focus (proj2 (elem_of_anchors id focus focus) (or_intror eq_refl)))) as Hp.
  change (page_of s focus snapshot loaded place _) with (page_rows focus snapshot loaded place limit (length (anchors_of id focus))).
  subst page. destruct (page_rows _ _ _ _ _ _) as [rows found].
  destruct (build_view_shows id focus snapshot ids rows found) as (v&Hv&Hrest); [| |done|].
  - apply Hanchors, elem_of_anchors. by left.
  - apply Hanchors, elem_of_anchors. by right.
  - exists v. rewrite Hv. done.
Qed.

(** What a request without a cursor asks for. *)
Definition in_range (snapshot : Z) : Prop := 1 ≤ snapshot ≤ latest_revision s.
Definition present (snapshot : Z) (id focus : string) : Prop := object_at s snapshot id ∧ object_at s snapshot focus.
Definition loaded_count (snapshot : Z) (id focus : string) (existing : list string) : nat :=
  length (loaded_rows s snapshot (anchors_of id focus ++ existing)).

Lemma absent_anchor id focus existing snapshot :
  bool_decide (Exists (λ a, a ∉ object_id <$> loaded_rows s snapshot (anchors_of id focus ++ existing)) (anchors_of id focus)) = true ↔
  ¬ present snapshot id focus.
Proof.
  rewrite bool_decide_eq_true, Exists_exists. setoid_rewrite elem_of_loaded. setoid_rewrite elem_of_app. unfold present. split.
  - intros (a&Ha&Hn) [Hid Hf]. apply Hn. split; [by left|]. by apply elem_of_anchors in Ha as [->| ->].
  - intros H. destruct (decide (object_at s snapshot id)) as [Hid|Hid]; [|exists id; split; [apply elem_of_anchors; by left|tauto]].
    exists focus. split; [apply elem_of_anchors; by right|tauto].
Qed.

(** The four answers to a request whose limits are in order. *)
Lemma network_at_cases id focus existing limit revision after snapshot :
  (∃ v place, network_at id focus existing limit revision after snapshot = Ok (Some v) ∧ in_range snapshot ∧
     present snapshot id focus ∧ (loaded_count snapshot id focus existing ≤ 200)%nat ∧ after_request after = Ok place) ∨
  (network_at id focus existing limit revision after snapshot = Ok None ∧
     (¬ in_range snapshot ∧ latest_revision s = 0 ∧ revision = None ∨ in_range snapshot ∧ ¬ present snapshot id focus)) ∨
  (∃ msg, network_at id focus existing limit revision after snapshot = Err (ValueError msg)) ∧
     (¬ in_range snapshot ∧ ¬ (latest_revision s = 0 ∧ revision = None) ∨
      in_range snapshot ∧ present snapshot id focus ∧ (200 < loaded_count snapshot id focus existing)%nat) ∨
  (∃ e, after_request after = Err e ∧ network_at id focus existing limit revision after snapshot = Err e).
Proof.
  destruct (decide (1 ≤ snapshot ≤ latest_revision s)) as [Hr|Hr].
  - assert ((snapshot <? 1) || (latest_revision s <? snapshot) = false) as Hb by (apply orb_false_iff; rewrite !Z.ltb_ge; lia).
    destruct (bool_decide (Exists (λ a, a ∉ object_id <$> loaded_rows s snapshot (anchors_of id focus ++ existing))
      (anchors_of id focus))) eqn:Ha.
    { right; left. unfold network_at. cbv zeta. rewrite Hb, Ha. apply absent_anchor in Ha. split; [done|by right]. }
    assert (present snapshot id focus) as Hp by (apply dec_stable; rewrite <- absent_anchor; intros E; by rewrite Ha in E).
    destruct (decide (200 < loaded_count snapshot id focus existing)%nat) as [Hl|Hl].
    { right; right; left. unfold network_at. cbv zeta. rewrite Hb, Ha. unfold loaded_count in Hl.
      rewrite (proj2 (Nat.ltb_lt _ _) Hl). split; [by eexists|by right]. }
    destruct (after_request after) as [place|e] eqn:Hafter.
    + left. destruct Hp as [Hid Hf]. destruct (network_at_view id focus existing limit revision after snapshot place) as (v&Hv&_);
        [done|done|done|rewrite length_fmap; unfold loaded_count in Hl; lia|done|]. exists v, place.
      split_and!; try done. lia.
    + right; right; right. exists e. split; [done|]. unfold network_at. cbv zeta. rewrite Hb, Ha. unfold loaded_count in Hl.
      rewrite (proj2 (Nat.ltb_ge _ _)) by lia. unfold raise_when, mbind, result_bind. cbv iota. by rewrite Hafter.
  - assert ((snapshot <? 1) || (latest_revision s <? snapshot) = true) as Hb by (apply orb_true_iff; rewrite !Z.ltb_lt; lia).
    unfold network_at. rewrite Hb. destruct ((latest_revision s =? 0) && bool_decide (revision = None)) eqn:E.
    + right; left. split; [done|left]. apply andb_true_iff in E as [E1%Z.eqb_eq E2%bool_decide_eq_true]. done.
    + right; right; left. split; [by eexists|left]. split; [done|]. intros [E1 E2]. by rewrite E1, E2 in E.
Qed.

Lemma after_request_error after e : after_request after = Err e →
  after ≠ None ∧ (type_name e = "DBAPIError"%string ∨ type_name e = "ProgrammingError"%string).
Proof.
  destruct after as [[sn sc ne i]|]; [|done]. simpl. intros H. split; [done|]. unfold db_int in H.
  destruct sc; simpl in H; try (injection H as <-; by right). destruct (_ && _); simpl in H; [|injection H as <-; by left].
  destruct ne; simpl in H; try (injection H as <-; by right). destruct (_ && _); simpl in H; [done|injection H as <-; by left].
Qed.

Lemma decode_cursor_error c id focus e : decode_cursor json_loads c id focus = Err e → ∃ msg, e = ValueError msg.
Proof. unfold decode_cursor. intros H. repeat case_match; try done; injection H as <-; by eexists. Qed.

Lemma cursor_read_none cursor id focus : no_cursor cursor → cursor_read cursor id focus = Ok None.
Proof. by intros [->| ->]. Qed.

Lemma network_Ok id focus_id existing_ids limit revision cursor v :
  let focus := focus_of id focus_id in let existing := remove_dups (default [] existing_ids) in
  network s id focus_id existing_ids limit revision cursor = Ok (Some v) →
  limit_ok id focus existing limit ∧ ∃ after snapshot place,
    cursor_read cursor id focus = Ok after ∧ snapshot_request (latest_revision s) revision after = Ok snapshot ∧
    after_request after = Ok place ∧ in_range snapshot ∧ present snapshot id focus ∧
    (loaded_count snapshot id focus existing ≤ 200)%nat ∧
    network_at id focus existing limit revision after snapshot = Ok (Some v).
Proof.
  intros focus existing H. destruct (decide (limit_ok id focus existing limit)) as [Hl|Hl].
  2: { destruct (network_bad_limits id focus_id existing_ids limit revision cursor Hl) as [msg E]. by rewrite H in E. }
  rewrite network_limits in H by done. split; [done|]. apply result_bind_Ok in H as (after&Ha&H).
  apply result_bind_Ok in H as (snapshot&Hs&H). fold focus existing in H, Ha.
  destruct (network_at_cases id focus existing limit revision after snapshot) as [(v'&place&_&Hr&Hp&Hc&Hplace)|[[E _]|[[[msg E] _]|(e&_&E)]]];
    [|by rewrite H in E..]. by exists after, snapshot, place.
Qed.

(** How many nodes a page adds. *)
Lemma page_rows_length focus snapshot loaded place limit anchors :
  let page := page_rows focus snapshot loaded place limit anchors in
  (length page.1 + length loaded ≤ 200)%nat ∨ (200 ≤ length loaded)%nat ∧ page.1 = [].
Proof.
  unfold page_rows, page_of. cbn [fst]. rewrite length_take. destruct (decide (200 ≤ length loaded)%nat) as [H|H]; [right|left; lia].
  split; [done|]. replace (Z.to_nat _) with 0%nat by lia. done.
Qed.
End views.

(** Whatever the knowledge base went through, a network view shows what is stored: its nodes are objects of the
    snapshot, none twice and the center first, each with the time its revision was committed; its edges are exactly
    the relations the snapshot has among those nodes, each with its lifetime and its evidence, of which there is at
    least one; everything asked for that exists is in it, everything else in it is a neighbour of the focus; and it
    has at most 200 nodes, at most [limit] of them beyond those the request already had. *)
Theorem network_view json_hash uuid5_url json_dumps json_loads py_repr ops id focus_id existing_ids limit revision cursor v :
  let s := run_knowledge_ops json_hash uuid5_url ops empty_knowledge in
  let focus := focus_of id focus_id in
  let existing := remove_dups (default [] existing_ids) in
  get_object_network json_dumps json_loads py_repr s id focus_id existing_ids limit revision cursor = Ok (Some v) →
  network_shows py_repr s id focus (snapshot_revision v) v ∧
  1 ≤ snapshot_revision v ≤ latest_revision s ∧ (∀ r, revision = Some r → snapshot_revision v = r) ∧
  (∀ i, i ∈ existing → object_at s (snapshot_revision v) i → i ∈ node_ids v) ∧
  (∀ i, i ∈ node_ids v → i = id ∨ i = focus ∨ i ∈ existing ∨ neighbour s focus (snapshot_revision v) i) ∧
  (length (node_ids v) ≤ 200)%nat ∧ Z.of_nat (length (node_ids v)) ≤ Z.of_nat (length existing) + limit.
Proof.
  intros s focus existing H.
  destruct (run_knowledge_ops_good json_hash uuid5_url ops _ (empty_knowledge_wf uuid5_url)) as [Hwf _].
  fold s in Hwf. apply kw_facts in Hwf.
  apply network_Ok in H as [Hlimit (after&snapshot&place&Hafter&Hsnap&Hplace&Hrange&[Hid Hfocus]&Hcount&H)]; [|done].
  fold focus existing in Hlimit, Hafter, Hfocus, Hcount, H.
  destruct (network_at_view json_dumps py_repr s Hwf id focus existing limit revision after snapshot place) as (v'&E&Hshows&Hids&_);
    [done|done|done|rewrite length_fmap; exact Hcount|done|].
  rewrite E in H. injection H as ->. set (ids := anchors_of id focus ++ existing) in *.
  set (page := page_rows _ _ _ _ _ _ _) in *. assert (snapshot_revision v = snapshot) as -> by by destruct (ns_center _ _ _ _ _ _ Hshows) as (_&_&?).
  assert (focus ∈ object_id <$> loaded_rows s snapshot ids) as Hf.
  { apply elem_of_loaded. split; [apply elem_of_app; left; apply elem_of_anchors; by right|done]. }
  pose proof (page_rows_ok s Hwf focus snapshot _ place limit (length (anchors_of id focus)) Hf) as [_ Hpage]. fold page in Hpage.
  split; [done|]. split; [done|]. split; [|split; [|split]].
  - intros r ->. unfold snapshot_request in Hsnap. destruct after as [a|]; [|by injection Hsnap as <-].
    apply result_bind_Ok in Hsnap as (n&_&Hsnap). apply result_bind_Ok in Hsnap as (u&Hn%raise_when_Ok&[= <-]).
    apply negb_false_iff, Z.eqb_eq in Hn. done.
  - intros i Hi Hat. rewrite Hids, elem_of_app. left. apply elem_of_loaded. split; [apply elem_of_app; by right|done].
  - intros i. rewrite Hids, elem_of_app. intros [[Hi _]%elem_of_loaded|(row&->&Hrow)%list_elem_of_fmap].
    + unfold ids in Hi. rewrite elem_of_app, elem_of_anchors in Hi. tauto.
    + right; right; right. unfold page, page_rows, page_of in Hrow. cbn [fst] in Hrow.
      apply elem_of_take in Hrow as (k&Hrow%list_elem_of_lookup_2&_). unfold ordered_rows in Hrow.
      rewrite merge_sort_Permutation in Hrow. assert (row ∈ ranked s focus snapshot (object_id <$> loaded_rows s snapshot ids)) as Hin
        by (unfold page_query in Hrow; destruct place as [[[??]?]|]; [by apply list_elem_of_filter in Hrow as [_ ?]|done]).
      by apply (elem_of_ranked s focus snapshot Hwf _ row Hf) in Hin as (_&?&_).
  - rewrite (Permutation_length Hids), length_app, !length_fmap. unfold loaded_count in Hcount. fold ids in Hcount.
    destruct Hlimit as ([??]&_&Hl). split.
    + destruct (page_rows_length s focus snapshot (object_id <$> loaded_rows s snapshot ids) place limit (length (anchors_of id focus)))
        as [Hlen|[Hlen Hnil]]; rewrite length_fmap in Hlen; [fold page in Hlen; lia|].
      fold page in Hnil. rewrite Hnil. simpl. lia.
    + assert (length (loaded_rows s snapshot ids) ≤ length (anchors_of id focus) + length existing)%nat as Hrows.
      { rewrite <- (length_fmap object_id), <- length_app. apply submseteq_length, NoDup_submseteq; [by apply loaded_NoDup|].
        by intros i [? _]%elem_of_loaded. }
      unfold page, page_rows, page_of. cbn [fst]. rewrite length_take.
      assert (1 ≤ length (anchors_of id focus) ≤ 2)%nat as Ha.
      { unfold anchors_of. simpl. repeat case_decide; simpl; lia. }
      lia.
Qed.

(** The refusals of a network request.  Every failure is a [ValueError], which the route turns into a 422, except
    that the database rejects the numbers of a forged cursor; no stored object, relation or revision makes it fail.
    Without a cursor the answer is decided by the limits, the revision and the stored anchors alone: an error exactly when
    a limit is broken, the revision is outside the stored history (an empty history apart), or more than 200 objects are
    asked for; no view exactly when the history is empty or an anchor does not exist at the snapshot. *)
Theorem network_refused json_hash uuid5_url json_dumps json_loads py_repr ops id focus_id existing_ids limit revision cursor :
  let s := run_knowledge_ops json_hash uuid5_url ops empty_knowledge in
  let focus := focus_of id focus_id in
  let existing := remove_dups (default [] existing_ids) in
  let snapshot := default (latest_revision s) revision in
  let answer := get_object_network json_dumps json_loads py_repr s id focus_id existing_ids limit revision cursor in
  (∀ e, answer = Err e → (∃ msg, e = ValueError msg) ∨
     ¬ no_cursor cursor ∧ (type_name e = "DBAPIError"%string ∨ type_name e = "ProgrammingError"%string)) ∧
  (no_cursor cursor →
    ((∃ e, answer = Err e) ↔
       ¬ limit_ok id focus existing limit ∨
       ¬ in_range s snapshot ∧ ¬ (latest_revision s = 0 ∧ revision = None) ∨
       in_range s snapshot ∧ present s snapshot id focus ∧ (200 < loaded_count s snapshot id focus existing)%nat) ∧
    (answer = Ok None ↔
       limit_ok id focus existing limit ∧
       (¬ in_range s snapshot ∧ latest_revision s = 0 ∧ revision = None ∨
        in_range s snapshot ∧ ¬ present s snapshot id focus))).
Proof.
  intros s focus existing snapshot answer.
  destruct (run_knowledge_ops_good json_hash uuid5_url ops _ (empty_knowledge_wf uuid5_url)) as [Hwf _].
  fold s in Hwf. apply kw_facts in Hwf.
  destruct (decide (limit_ok id focus existing limit)) as [Hlimit|Hlimit].
  2: { destruct (network_bad_limits json_dumps json_loads py_repr s id focus_id existing_ids limit revision cursor Hlimit) as [msg E].
    fold answer in E. rewrite E. split; [intros e [= <-]; left; by eexists|]. intros _. split; [|naive_solver].
    split; [intros _; by left|intros _; by eexists]. }
  pose proof (network_limits json_dumps json_loads py_repr s id focus_id existing_ids limit revision cursor Hlimit) as E.
  fold answer focus existing in E. split.
  - intros e He. rewrite He in E. destruct (cursor_read json_loads cursor id focus) as [after|e'] eqn:Hread.
    + assert (after ≠ None → ¬ no_cursor cursor) as Hcur.
      { intros Ha Hn. rewrite cursor_read_none in Hread by done. by injection Hread as <-. }
      simpl in E. destruct (snapshot_request (latest_revision s) revision after) as [sn|e'] eqn:Hsn; simpl in E.
      * destruct (network_at_cases json_dumps py_repr s Hwf id focus existing limit revision after sn)
          as [(v&place&E'&_)|[[E' _]|[[[msg E'] _]|(e0&He0&E')]]]; rewrite E' in E; [done|done| |].
        -- injection E as ->. left. by eexists.
        -- injection E as ->. apply after_request_error in He0 as [? ?]. right. split; [by apply Hcur|done].
      * injection E as ->. left. unfold snapshot_request in Hsn. destruct after as [[[] sc ne i]|]; simpl in Hsn;
          try (injection Hsn as <-; by eexists); [|done]. destruct revision as [r|]; simpl in Hsn; [|done].
        destruct (r =? z); simpl in Hsn; [done|]. injection Hsn as <-. by eexists.
    + simpl in E. injection E as ->. left. unfold cursor_read in Hread. destruct cursor as [c|]; [|done].
      destruct (bool_decide (c = ""%string)); [done|]. destruct (decode_cursor json_loads c id focus) eqn:Hd; simpl in Hread; [done|].
      injection Hread as ->. by eapply decode_cursor_error.
  - intros Hnone. rewrite cursor_read_none in E by done. simpl in E. fold snapshot in E.
    destruct (network_at_cases json_dumps py_repr s Hwf id focus existing limit revision None snapshot)
      as [(v&place&E'&?&?&?&_)|[[E' ?]|[[[msg E'] ?]|(e0&He0&_)]]]; [| | |done]; rewrite E' in E; rewrite E.
    + split; [split; [by intros [e ?]|intros [?|[?|(_&_&?)]]; [done|tauto|lia]]|]. split; [done|tauto].
    + split; [split; [by intros [e ?]|]|split; [by split|done]]. intros [?|[?|(?&?&?)]]; [done|tauto|tauto].
    + split; [split; [intros _; by right|intros _; by eexists]|]. split; [done|]. intros [_ ?]. tauto.
Qed.

(** ** Browsing *)

Lemma chars_length l : slen (of_chars l) = Z.of_nat (length l).
Proof. unfold slen, of_chars. f_equal. induction l as [|c l IH]; simpl; [done|]. by f_equal. Qed.
Lemma length_chars t : Z.of_nat (length (chars t)) = slen t.
Proof. by rewrite <- chars_length, of_chars_chars. Qed.

(** What the cursor relies on of the JSON codec: it reads back the dict of a cursor, whose text is short enough (three
    bytes become four characters). *)
Definition codec_ok (json_dumps : dict → string) (json_loads : list ascii → option json) (d : dict) : Prop :=
  json_loads (chars (json_dumps d)) = Some (JObj d) ∧ 0 < slen (json_dumps d) ≤ 1536.

Lemma cursor_roundtrip json_dumps json_loads center focus snapshot row :
  codec_ok json_dumps json_loads (cursor_fields center focus snapshot row) → 1 ≤ snapshot →
  decode_cursor json_loads (encode_cursor json_dumps (cursor_fields center focus snapshot row)) center focus =
    Ok (mkCursorData (JInt snapshot) (JInt (rr_score row)) (JInt (rr_newest row)) (rr_neighbor row)).
Proof.
  intros [Hcodec [_ Hlen]] Hsnap. unfold decode_cursor, encode_cursor. rewrite chars_length, b64encode_length.
  rewrite (proj2 (Z.ltb_ge 2048 _)).
  2: { rewrite length_chars. pose proof (Z.div_le_mono (slen (json_dumps (cursor_fields center focus snapshot row)) + 2) 1538 3).
       change (1538 / 3) with 512 in *. lia. }
  rewrite chars_of_chars, b64_roundtrip. cbn [mbind option_bind]. rewrite Hcodec.
  rewrite !bool_decide_eq_true_2 by done. cbn [andb]. set (d := cursor_fields center focus snapshot row).
  change (int_field "snapshot" d) with (Some (JInt snapshot)). change (int_field "score" d) with (Some (JInt (rr_score row))).
  change (int_field "newest" d) with (Some (JInt (rr_newest row))). change (dict_get "id" d) with (Some (JStr (rr_neighbor row))).
  cbv iota beta. cbn [json_int]. by rewrite (proj2 (Z.ltb_ge snapshot 1)) by done.
Qed.

(** A client that asks for page after page, with what it has as [existing_ids], until there is no cursor: the ids it
    found, in order, and how many the last page left out. *)
Fixpoint browse (request : list string → option string → result (option NetworkView)) (fuel : nat) (known : list string)
  (cursor : option string) : result (list string * Z) :=
  match fuel with
  | O => Err (RuntimeError "out of fuel")
  | S fuel =>
      match request known cursor with
      | Ok (Some v) =>
          let fresh := filter (λ i, i ∉ known) (node_ids v) in
          match next_cursor v with
          | Some c => rest ← browse request fuel (node_ids v) (Some c); Ok (fresh ++ rest.1, rest.2)
          | None => Ok (fresh, remaining_count v)
          end
      | Ok None => Err (LookupError "network" "404")
      | Err e => Err e
      end
  end.

Lemma remove_dups_id (l : list string) : NoDup l → remove_dups l = l.
Proof. induction 1 as [|x l Hx _ IH]; simpl; [done|]. case_match; [done|by rewrite IH]. Qed.

Section browsing.
Context (json_dumps : dict → string) (json_loads : list ascii → option json) (py_repr : json → string).
Context (s : KnowledgeStore) (facts : facts_wf s) (id : string) (focus_id : option string) (limit snapshot : Z).
Abbreviation focus := (focus_of id focus_id).
Abbreviation rank := (rank_of s focus snapshot).
Abbreviation row_cursor row := (encode_cursor json_dumps (cursor_fields id focus snapshot row)).
Hypothesis (Hrange : in_range s snapshot) (Hpresent : present s snapshot id focus).
Hypothesis (Hlimit : 2 ≤ limit ≤ 80) (Hdistinct : focus = id ∨ 3 ≤ limit).
Hypothesis (Hcodec : ∀ n, neighbour s focus snapshot n → codec_ok json_dumps json_loads (cursor_fields id focus snapshot (rank n))).
Hypothesis (Hscore : Z.of_nat (length (links s)) < 2 ^ 31).
Hypothesis (Hrevisions : ∀ r, revision_known s r → 1 ≤ r < 2 ^ 31).

(** The rank of a neighbour fits the columns it is compared with. *)
Lemma rank_fits n : neighbour s focus snapshot n →
  after_request (Some (mkCursorData (JInt snapshot) (JInt (rr_score (rank n))) (JInt (rr_newest (rank n))) n))
    = Ok (Some (rr_score (rank n), rr_newest (rank n), n)).
Proof.
  intros [Hj _]. assert (0 ≤ rr_score (rank n) < 2 ^ 31) as Hs.
  { unfold rank_of, evidence_count. simpl. set (l := filter _ _). assert (length l ≤ length (links s))%nat by apply length_filter.
    lia. }
  assert (1 ≤ rr_newest (rank n) < 2 ^ 31) as Hn.
  { apply Hrevisions. unfold rank_of. simpl. assert (rm_created_revision <$> joining s focus snapshot n ≠ []) as Hne
      by (destruct (joining s focus snapshot n); done).
    apply maxZ_in, list_elem_of_fmap in Hne as (r&->&Hr). unfold joining in Hr. apply list_elem_of_filter in Hr as [_ Hr].
    by destruct (fw_relations _ facts r Hr) as [[_ _ ? _] _]. }
  unfold after_request, db_int. cbn [cu_score cu_newest cu_id].
  rewrite !(proj2 (Z.leb_le _ _)), !(proj2 (Z.ltb_lt _ _)) by lia. done.
Qed.

Lemma ordered_filter (P : RankRow → Prop) `{!∀ r, Decision (P r)} rows :
  ordered_rows (filter P rows) = filter P (ordered_rows rows).
Proof.
  apply ordered_rows_unique; [apply StronglySorted_filter, (StronglySorted_merge_sort _)|].
  unfold ordered_rows. by rewrite merge_sort_Permutation.
Qed.

(** A request for the page after [place], by a client that has [known]. *)
Abbreviation anchors := (anchors_of id focus).
Abbreviation request := (λ known cursor, get_object_network json_dumps json_loads py_repr s id focus_id (Some known) limit
  (Some snapshot) cursor).
Definition client_ok (known : list string) : Prop :=
  NoDup known ∧ (∀ a, a ∈ anchors → a ∈ known) ∧ (∀ i, i ∈ known → object_at s snapshot i) ∧ (length known ≤ 200)%nat.

Lemma page_answer known cursor after place rest :
  client_ok known → cursor_read json_loads cursor id focus = Ok after →
  snapshot_request (latest_revision s) (Some snapshot) after = Ok snapshot → after_request after = Ok place →
  ordered_rows (page_query place (ranked s focus snapshot known)) = rank <$> rest →
  ∃ v k, request known cursor = Ok (Some v) ∧ client_ok (node_ids v) ∧
    filter (λ i, i ∉ known) (node_ids v) = take k rest ∧ node_ids v ≡ₚ known ++ take k rest ∧
    remaining_count v = Z.of_nat (length (drop k rest)) ∧
    next_cursor v = next_of json_dumps id focus snapshot (length (node_ids v)) (rank <$> take k rest) (remaining_count v) ∧
    (rest = [] ∨ (1 ≤ k)%nat ∨ length known = 200%nat).
Proof.
  intros (Hnd&Hanchors&Hat&Hlen) Hread Hsnap Hplace Hrest. destruct Hpresent as [Hid Hf].
  assert (remove_dups known = known) as Hknown by by apply remove_dups_id.
  set (loaded := object_id <$> loaded_rows s snapshot (anchors ++ known)).
  assert (∀ i, i ∈ loaded ↔ i ∈ known) as Hloaded.
  { intros i. unfold loaded. rewrite elem_of_loaded, elem_of_app. naive_solver. }
  assert (loaded ≡ₚ known) as Hperm by (apply NoDup_Permutation; [by apply loaded_NoDup|done|done]).
  assert (ordered_rows (page_query place (ranked s focus snapshot loaded)) = rank <$> rest) as Hrest'.
  { assert (focus ∈ known) as Hfk by (apply Hanchors, elem_of_anchors; by right).
    assert (∀ l, ordered_rows (page_query place l) = page_query place (ordered_rows l)) as Hq
      by (intros l; destruct place as [[[??]?]|]; [apply ordered_filter|done]).
    rewrite <- Hrest, !Hq. f_equal. rewrite (ranked_loaded s focus snapshot facts known loaded); [|done|intros i; apply Hloaded].
    apply filter_every. intros row Hrow. unfold ordered_rows in Hrow. rewrite merge_sort_Permutation in Hrow.
    rewrite Hloaded. by apply (elem_of_ranked s focus snapshot facts known row Hfk) in Hrow as (_&_&?). }
  set (k := Z.to_nat (Z.min (limit - Z.of_nat (length anchors)) (200 - Z.of_nat (length loaded)))).
  assert (page_rows s focus snapshot loaded place limit (length anchors) = (rank <$> take k rest, Z.of_nat (length rest))) as Hpage.
  { unfold page_rows, page_of. rewrite Hrest', fmap_take. f_equal. rewrite <- (length_fmap rank rest), <- Hrest'.
    unfold ordered_rows. by rewrite merge_sort_Permutation. }
  destruct (network_at_view json_dumps py_repr s facts id focus known limit (Some snapshot) after snapshot place)
    as (v&Hv&Hshows&Hids&Hrem&Hnext&Hfresh); [done|done|done|fold loaded; by rewrite Hperm|done|].
  fold loaded in Hids, Hrem, Hnext, Hfresh. rewrite Hpage in Hids, Hrem, Hnext, Hfresh. cbn [fst snd] in *.
  rewrite <- list_fmap_compose in Hids, Hfresh. change (rr_neighbor ∘ rank) with (@Datatypes.id string) in *.
  rewrite list_fmap_id in Hids, Hfresh.
  exists v, k. split.
  { assert (limit_ok id focus (remove_dups (default [] (Some known))) limit) as Hl by (simpl; by rewrite Hknown).
    rewrite network_limits by done. simpl. rewrite Hread. simpl. rewrite Hsnap. simpl. by rewrite Hknown. }
  assert (length (take k rest) + length (drop k rest) = length rest)%nat as Hsplit by (by rewrite <- length_app, take_drop).
  split; [|split; [|split; [by rewrite <- Hperm|split; [|split; [done|]]]]].
  - split; [by destruct Hshows|]. split; [|split].
    + intros a Ha. rewrite Hids, elem_of_app. left. by apply Hloaded, Hanchors.
    + intros i (n&->&Hn)%list_elem_of_fmap. pose proof (ns_nodes _ _ _ _ _ _ Hshows) as Hall. rewrite Forall_forall in Hall.
      destruct (Hall n Hn) as (o&k0&Ho&_&_&?&->). apply object_at_elem. by exists o.
    + rewrite (Permutation_length Hids), length_app, Hperm, length_take. unfold k. rewrite Hperm. lia.
  - rewrite <- Hfresh. apply filter_ext_elem. intros i _. by rewrite Hloaded.
  - rewrite Hrem, length_fmap. lia.
  - assert (1 ≤ length anchors ≤ 2)%nat as Ha by (unfold anchors_of; simpl; repeat case_decide; simpl; lia).
    destruct (decide (length known = 200%nat)) as [|Hne]; [by right; right|right; left]. unfold k. rewrite Hperm.
    destruct Hdistinct as [E|?]; [|lia]. assert (length anchors = 1%nat) as ->; [|lia]. unfold anchors_of. rewrite E. simpl.
    case_match; [done|]. exfalso. eauto using list_elem_of_here.
Qed.

Lemma after_row_trans score newest last_id x y :
  after_row score newest last_id x → after_row (rr_score x) (rr_newest x) (rr_neighbor x) y → after_row score newest last_id y.
Proof.
  pose proof (after_row_spec (mkRankRow last_id score newest)) as H. simpl in H. rewrite !H, after_row_spec.
  intros [H1 N1] [H2 N2]. split; [by etrans|]. intros <-. apply N1. by apply (anti_symm rank_le).
Qed.

(** The rows after a row of a page are the rows after it altogether. *)
Lemma page_query_after place rows row :
  row ∈ page_query place rows →
  page_query (Some (rr_score row, rr_newest row, rr_neighbor row)) (page_query place rows) =
    page_query (Some (rr_score row, rr_newest row, rr_neighbor row)) rows.
Proof.
  intros Hrow. simpl. destruct place as [[[sc ne] li]|]; simpl; [|done]. simpl in Hrow. apply list_elem_of_filter in Hrow as [Hrow _].
  rewrite list_filter_filter. apply filter_ext_elem. intros y _. split; [tauto|]. intros H. split; [done|].
  by eapply after_row_trans.
Qed.

Lemma filter_comm {A} (P Q : A → Prop) `{!∀ x, Decision (P x), !∀ x, Decision (Q x)} (l : list A) :
  filter P (filter Q l) = filter Q (filter P l).
Proof. rewrite !list_filter_filter. apply filter_ext_elem. tauto. Qed.

(** The ranking after a page, once the page is loaded. *)
Lemma next_ranking known known' place rest k n :
  client_ok known → (∀ i, i ∈ known' ↔ i ∈ known ∨ i ∈ take k rest) → NoDup rest → (∀ i, i ∈ rest → i ∉ known) →
  ordered_rows (page_query place (ranked s focus snapshot known)) = rank <$> rest → last (take k rest) = Some n →
  ordered_rows (page_query (Some (rr_score (rank n), rr_newest (rank n), n)) (ranked s focus snapshot known')) =
    rank <$> drop k rest.
Proof.
  intros (_&Hanchors&_) Hknown' Hnd Hout Hrest (page&Hpage)%last_Some.
  assert (focus ∈ known) as Hf by (apply Hanchors, elem_of_anchors; by right).
  set (after := Some _). set (rows := ranked s focus snapshot known) in *.
  assert (∀ l, ordered_rows (page_query after l) = page_query after (ordered_rows l)) as Hq by (intros l; apply ordered_filter).
  rewrite <- (take_drop k rest), Hpage, fmap_app, fmap_app in Hrest. simpl in Hrest.
  assert (NoDup (page_query place rows)) as Hndq.
  { unfold page_query. destruct place as [[[??]?]|]; [apply NoDup_filter|]; eapply NoDup_fmap_1, ranked_NoDup. }
  assert (rank n ∈ page_query place rows) as Hn.
  { rewrite <- (merge_sort_Permutation rank_le). unfold ordered_rows in Hrest. rewrite Hrest.
    apply elem_of_app. left. apply elem_of_app. right. apply list_elem_of_here. }
  pose proof (page_rest _ _ _ _ Hndq Hrest) as Hnext. rewrite (page_query_after place rows (rank n) Hn) in Hnext.
  change (ordered_rows (page_query after rows) = rank <$> drop k rest) in Hnext.
  rewrite Hq, (ranked_loaded s focus snapshot facts known); [|done|intros i Hi; apply Hknown'; by left]. fold rows.
  trans (filter (λ row, rr_neighbor row ∉ known') (page_query after (ordered_rows rows))); [apply filter_comm|].
  rewrite <- Hq, Hnext.
  apply filter_every. intros row (i&->&Hi)%list_elem_of_fmap. simpl. rewrite Hknown'. intros [?|Ht].
  - apply (Hout i); [|done]. rewrite <- (take_drop k rest). apply elem_of_app. by right.
  - rewrite <- (take_drop k rest) in Hnd. apply NoDup_app in Hnd as (_&H1&_). by apply (H1 i).
Qed.

(** Browsing on finds, in order, all that is left of the ranking, unless the client has 200 nodes before. *)
Lemma browse_rest fuel known cursor after place rest :
  client_ok known → cursor_read json_loads cursor id focus = Ok after →
  snapshot_request (latest_revision s) (Some snapshot) after = Ok snapshot → after_request after = Ok place →
  ordered_rows (page_query place (ranked s focus snapshot known)) = rank <$> rest →
  NoDup rest → (∀ n, n ∈ rest → (n ∉ known) ∧ neighbour s focus snapshot n) → (200 < fuel + length known)%nat →
  ∃ found more, browse request fuel known cursor = Ok (found, Z.of_nat (length more)) ∧ rest = found ++ more ∧
    (more = [] ∨ (length known + length found = 200)%nat).
Proof.
  revert known cursor after place rest. induction fuel as [|fuel IH]; intros known cursor after place rest Hok Hread Hsnap
    Hplace Hrest Hnd Hin Hfuel; [destruct Hok as (_&_&_&?); lia|].
  destruct (page_answer known cursor after place rest Hok Hread Hsnap Hplace Hrest)
    as (v&k&Hv&Hok'&Hfresh&Hids&Hrem&Hnext&Hk). cbn [browse]. rewrite Hv, Hfresh.
  assert (length (node_ids v) = length known + length (take k rest))%nat as Hlen by by rewrite (Permutation_length Hids), length_app.
  unfold next_of in Hnext. rewrite fmap_last in Hnext. destruct (last (take k rest)) as [n|] eqn:Hlast; simpl in Hnext.
  - destruct ((0 <? remaining_count v) && (length (node_ids v) <? 200)%nat) eqn:Hmore; rewrite Hnext.
    + assert (n ∈ rest) as Hn.
      { apply last_Some in Hlast as [page Hpage]. rewrite <- (take_drop k rest), Hpage. apply elem_of_app. left.
        apply elem_of_app. right. apply list_elem_of_here. }
      destruct (Hcodec n (proj2 (Hin n Hn))) as [Hc1 Hc2]. destruct Hrange as [Hs1 Hs2].
      assert (cursor_read json_loads (Some (row_cursor (rank n))) id focus =
        Ok (Some (mkCursorData (JInt snapshot) (JInt (rr_score (rank n))) (JInt (rr_newest (rank n))) n))) as Hread'.
      { unfold cursor_read. rewrite bool_decide_eq_false_2.
        - rewrite cursor_roundtrip; [done|by split|done].
        - intros E. assert (slen (row_cursor (rank n)) = 0) as E0 by by rewrite E. unfold encode_cursor in E0.
          rewrite chars_length, b64encode_length, length_chars in E0.
          pose proof (Z.div_le_mono 3 (slen (json_dumps (cursor_fields id focus snapshot (rank n))) + 2) 3).
          change (3 / 3) with 1 in *. lia. }
      destruct (IH (node_ids v) (Some (row_cursor (rank n))) _
        (Some (rr_score (rank n), rr_newest (rank n), n)) (drop k rest) Hok' Hread') as (found&more&E&Erest&Hend).
      * simpl. by rewrite Z.eqb_refl.
      * by apply rank_fits, Hin.
      * apply (next_ranking known (node_ids v) place rest k n); try done.
        -- intros i. by rewrite Hids, elem_of_app.
        -- intros i Hi. by apply Hin.
      * rewrite <- (take_drop k rest) in Hnd. by apply NoDup_app in Hnd as (_&_&?).
      * intros i Hi. rewrite Hids, elem_of_app. split.
        -- intros [?|Ht]; [|rewrite <- (take_drop k rest) in Hnd; apply NoDup_app in Hnd as (_&H1&_); by apply (H1 i)].
           apply (proj1 (Hin i ltac:(rewrite <- (take_drop k rest); apply elem_of_app; by right))). done.
        -- apply Hin. rewrite <- (take_drop k rest). apply elem_of_app. by right.
      * assert (length (take k rest) ≠ 0)%nat by (intros E%length_zero_iff_nil; by rewrite E in Hlast). lia.
      * exists (take k rest ++ found), more. rewrite E. simpl. split; [done|].
        split; [by rewrite <- app_assoc, <- Erest, take_drop|]. rewrite length_app. destruct Hend; [by left|right; lia].
    + exists (take k rest), (drop k rest). rewrite Hrem. split; [done|]. split; [by rewrite take_drop|].
      apply andb_false_iff in Hmore as [Hz%Z.ltb_ge|Hz%Nat.ltb_ge].
      * left. apply length_zero_iff_nil. lia.
      * right. destruct Hok' as (_&_&_&?). lia.
  - rewrite Hnext. exists (take k rest), (drop k rest). rewrite Hrem. split; [done|]. split; [by rewrite take_drop|].
    apply last_None in Hlast. rewrite Hlast in Hlen |- *. simpl in *. destruct Hk as [->|[Hk|Hk]]; [left; by destruct k| |right; lia].
    left. destruct rest; [by destruct k|]. destruct k; [lia|done].
Qed.
End browsing.

Lemma StronglySorted_of_fmap {A B} (f : A → B) (R : relation B) (l : list A) :
  StronglySorted R (f <$> l) → StronglySorted (λ x y, R (f x) (f y)) l.
Proof.
  induction l as [|x l IH]; intros H; constructor; csimpl in *.
  - apply IH. by apply StronglySorted_inv in H as [? _].
  - apply StronglySorted_inv in H as [_ H]. by rewrite Forall_fmap in H.
Qed.

(** C15. Browsing is complete: over any stored history, a client that starts with the nodes it has and follows the
    cursors of one snapshot is never refused, gets every neighbour of the focus it did not have exactly once, in the
    order of evidence count, newest relation and identity, and is told how many are left; there are some only when it
    has all of the 200 nodes a view may have. *)
Theorem network_browse json_hash uuid5_url json_dumps json_loads py_repr ops id focus_id limit snapshot known :
  let s := run_knowledge_ops json_hash uuid5_url ops empty_knowledge in
  let focus := focus_of id focus_id in
  in_range s snapshot → present s snapshot id focus → 2 ≤ limit ≤ 80 → focus = id ∨ 3 ≤ limit →
  (∀ n, neighbour s focus snapshot n →
     codec_ok json_dumps json_loads (cursor_fields id focus snapshot (rank_of s focus snapshot n))) →
  Z.of_nat (length (links s)) < 2 ^ 31 → (∀ r, revision_known s r → 1 ≤ r < 2 ^ 31) →
  client_ok s id focus_id snapshot known →
  ∃ found more,
    browse (λ known cursor, get_object_network json_dumps json_loads py_repr s id focus_id (Some known) limit (Some snapshot) cursor)
      201 known None = Ok (found, Z.of_nat (length more)) ∧
    NoDup (found ++ more) ∧
    (∀ n, n ∈ found ++ more ↔ neighbour s focus snapshot n ∧ n ∉ known) ∧
    StronglySorted (λ m n, rank_le (rank_of s focus snapshot m) (rank_of s focus snapshot n)) (found ++ more) ∧
    (more = [] ∨ (length known + length found = 200)%nat).
Proof.
  intros s focus Hrange Hpresent Hlimit Hdistinct Hcodec Hlinks Hrevisions Hclient.
  destruct (run_knowledge_ops_good json_hash uuid5_url ops _ (empty_knowledge_wf uuid5_url)) as [Hwf _].
  fold s in Hwf. apply kw_facts in Hwf.
  assert (focus ∈ known) as Hf by (destruct Hclient as (_&Ha&_); apply Ha, elem_of_anchors; by right).
  set (rows := ordered_rows (ranked s focus snapshot known)).
  assert (∀ row, row ∈ rows ↔ row = rank_of s focus snapshot (rr_neighbor row) ∧ neighbour s focus snapshot (rr_neighbor row) ∧
    rr_neighbor row ∉ known) as Hrows.
  { intros row. unfold rows, ordered_rows. rewrite merge_sort_Permutation. by apply elem_of_ranked. }
  set (full := rr_neighbor <$> rows).
  assert (rank_of s focus snapshot <$> full = rows) as Efull.
  { unfold full. rewrite <- list_fmap_compose. trans (Datatypes.id <$> rows); [|by rewrite list_fmap_id].
    apply list_fmap_ext. intros i row Hrow. apply list_elem_of_lookup_2, Hrows in Hrow as [E _]. by symmetry. }
  assert (NoDup full) as Hnd.
  { unfold full, rows, ordered_rows. rewrite merge_sort_Permutation. apply ranked_NoDup. }
  assert (∀ n, n ∈ full ↔ neighbour s focus snapshot n ∧ n ∉ known) as Hin.
  { intros n. unfold full. rewrite list_elem_of_fmap. split.
    - by intros (row&->&[_ ?]%Hrows).
    - intros H. exists (rank_of s focus snapshot n). split; [done|]. apply Hrows. by split. }
  destruct (browse_rest json_dumps json_loads py_repr s Hwf id focus_id limit snapshot Hrange Hpresent Hlimit Hdistinct Hcodec
    Hlinks Hrevisions 201 known None None None full Hclient) as (found&more&E&Erest&Hend); try done; [by intros n [??]%Hin|lia|].
  exists found, more. rewrite <- Erest. split; [done|]. split; [done|]. split; [done|]. split; [|done].
  apply (StronglySorted_of_fmap (rank_of s focus snapshot) rank_le). rewrite Efull. apply (StronglySorted_merge_sort _).
Qed.

(** A vulnerability with three weaknesses, one of them stated twice, and a cursor text: every value quoted and ended by a
    bar, in the order of the fields. *)
Definition sample_cwe (cwe : string) (q : dict) : RelationCandidate :=
  mkRelationCandidate "has-weakness" (mkObjectCandidate "Weakness" cwe [("name"%string, JStr cwe)] []) q [].
Definition network_ops : list knowledge_op :=
  [Observe "o1" (sample_observation "nvd"); Observe "o2" (sample_observation "nvd");
   Apply None "nvd" (sample_anchor "o1")
     (mkEnrichmentCandidate (Some sample_root) [] [] [sample_cwe "cwe:CWE-22" []; sample_cwe "cwe:CWE-79" []; sample_cwe "cwe:CWE-89" []] [] [])
     "nvd" "1" SOURCE_ASSERTED 1 10;
   Apply None "nvd" (sample_anchor "o2") (mkEnrichmentCandidate (Some sample_root) [] [] [sample_cwe "cwe:CWE-89" []] [] [])
     "nvd" "1" SOURCE_ASSERTED 2 20].
Definition network_store : KnowledgeStore := run_knowledge_ops sample_hash same network_ops empty_knowledge.

Fixpoint quote_field (l : list ascii) : list ascii :=
  match l with
  | [] => ["|"%char]
  | c :: l => if bool_decide (c = "|"%char ∨ c = "~"%char) then "~"%char :: c :: quote_field l else c :: quote_field l
  end.
Fixpoint read_field (l : list ascii) : option (list ascii * list ascii) :=
  match l with
  | [] => None
  | c :: l =>
      if bool_decide (c = "|"%char) then Some ([], l)
      else if bool_decide (c = "~"%char) then
        match l with c' :: l' => (λ r, (c' :: r.1, r.2)) <$> read_field l' | [] => None end
      else (λ r, (c :: r.1, r.2)) <$> read_field l
  end.
Lemma read_quoted l r : read_field (quote_field l ++ r) = Some (l, r).
Proof.
  induction l as [|c l IH]; [done|]. cbn [quote_field]. case_bool_decide as E.
  - cbn. rewrite IH. done.
  - cbn [app read_field]. rewrite !bool_decide_eq_false_2 by tauto. by rewrite IH.
Qed.

Definition sample_dumps (d : dict) : string :=
  of_chars (mjoin ((λ kv : string * json, quote_field (chars (match kv.2 with JStr v => v | JInt z => str_of_Z z | _ => "" end))) <$> d)).
Definition sample_loads (l : list ascii) : option json :=
  '(center, l) ← read_field l; '(focus, l) ← read_field l; '(snapshot, l) ← read_field l;
  '(score, l) ← read_field l; '(newest, l) ← read_field l; '(id, l) ← read_field l;
  snapshot ← int_of_digits (of_chars snapshot); score ← int_of_digits (of_chars score);
  newest ← int_of_digits (of_chars newest);
  Some (JObj (cursor_fields (of_chars center) (of_chars focus) (Z.of_N snapshot)
    (mkRankRow (of_chars id) (Z.of_N score) (Z.of_N newest)))).
Lemma sample_codec center focus snapshot row :
  0 ≤ snapshot → 0 ≤ rr_score row → 0 ≤ rr_newest row →
  sample_loads (chars (sample_dumps (cursor_fields center focus snapshot row))) =
    Some (JObj (cursor_fields center focus snapshot row)).
Proof.
  intros H1 H2 H3. unfold sample_dumps, sample_loads, cursor_fields. csimpl. rewrite chars_of_chars.
  assert (∀ z, 0 ≤ z → int_of_digits (of_chars (chars (str_of_Z z))) = Some (Z.to_N z)) as Hz.
  { intros z Hz. unfold str_of_Z. rewrite (proj2 (Z.ltb_ge z 0)), of_chars_chars by done. apply int_of_digits_str. }
  do 6 (rewrite read_quoted; csimpl). rewrite !Hz by done. csimpl. rewrite !of_chars_chars, !Z2N.id by done. by destruct row.
Qed.

Definition sample_network (known : list string) (limit : Z) (cursor : option string) : result (option NetworkView) :=
  get_object_network sample_dumps sample_loads (λ _, ""%string) network_store sample_subject None (Some known) limit (Some 2) cursor.
Definition weakness (cwe : string) : string := "secfusion:object:Weakness:cwe:" +:+ cwe.

(** The weakness of the second run comes first, for its evidence of both observations; then the rest by identity. *)
Example sample_page :
  match sample_network [] 2 None with Ok (Some v) => Some (node_ids v, remaining_count v) | _ => None end =
  Some ([sample_subject; weakness "CWE-89"], 2).
Proof. vm_compute. reflexivity. Qed.
Example sample_browse :
  browse (λ known cursor, sample_network known 2 cursor) 201 [sample_subject] None =
    Ok ([weakness "CWE-89"; weakness "CWE-22"; weakness "CWE-79"], 0).
Proof. vm_compute. reflexivity. Qed.
Example sample_bad_cursor : sample_network [] 2 (Some "%%%"%string) = Err (ValueError "invalid network cursor").
Proof. vm_compute. reflexivity. Qed.

Lemma network_view_witness : ∃ v, sample_network ["gone"%string] 3 None = Ok (Some v) ∧ (length (node_ids v) ≤ 200)%nat.
Proof.
  destruct (sample_network ["gone"%string] 3 None) as [[v|]|e] eqn:E; [|by vm_compute in E|by vm_compute in E].
  exists v. split; [done|].
  by destruct (network_view sample_hash same sample_dumps sample_loads (λ _, ""%string) network_ops sample_subject None
    (Some ["gone"%string]) 3 (Some 2) None v E) as (_&_&_&_&_&?&_).
Defined.

(** The cursors of the sample fit. *)
Definition sample_cursor_ok (n : string) : bool :=
  let row := rank_of network_store sample_subject 2 n in
  let text := sample_dumps (cursor_fields sample_subject sample_subject 2 row) in
  (0 <=? rr_score row) && (0 <=? rr_newest row) && (0 <? slen text) && (slen text <=? 1536).
Lemma sample_cursors n : neighbour network_store sample_subject 2 n →
  codec_ok sample_dumps sample_loads (cursor_fields sample_subject sample_subject 2 (rank_of network_store sample_subject 2 n)).
Proof.
  intros [_ (o&Ho&<-&_)%object_at_elem].
  assert (forallb (λ o, sample_cursor_ok (object_id o)) (objects network_store) = true) as H by (vm_compute; reflexivity).
  rewrite forallb_forall in H. apply list_elem_of_In, H in Ho. unfold sample_cursor_ok in Ho. cbv zeta in Ho.
  rewrite !andb_true_iff, !Z.leb_le, Z.ltb_lt in Ho. destruct Ho as [[[H1 H2] H3] H4].
  split; [by apply sample_codec|done].
Qed.

Lemma network_browse_witness : ∃ found,
  browse (λ known cursor, sample_network known 2 cursor) 201 [sample_subject] None = Ok (found, 0) ∧ length found = 3%nat.
Proof.
  destruct (network_browse sample_hash same sample_dumps sample_loads (λ _, ""%string) network_ops sample_subject None 2 2
    [sample_subject]) as (found&more&E&_&_&_&Hend).
  - split; [discriminate|vm_compute; discriminate].
  - split; by_decide.
  - lia.
  - by left.
  - exact sample_cursors.
  - vm_compute. reflexivity.
  - intros r Hr. assert (forallb (λ r, (1 <=? r) && (r <? 2 ^ 31)) (kr_revision <$> revisions network_store) = true) as H
      by (vm_compute; reflexivity).
    rewrite forallb_forall in H. apply list_elem_of_In, H in Hr. apply andb_true_iff in Hr as [?%Z.leb_le ?%Z.ltb_lt]. done.
  - split; [apply NoDup_singleton|]. split; [intros a [->| ->]%elem_of_anchors; apply list_elem_of_here|]. split; [|simpl; lia].
    intros i ->%list_elem_of_singleton. by_decide.
  - exists found. pose proof sample_browse as E'.
    assert (Ok (found, Z.of_nat (length more)) = Ok ([weakness "CWE-89"; weakness "CWE-22"; weakness "CWE-79"], 0)) as [= -> _]
      by (rewrite <- E, <- E'; reflexivity).
    split; [exact E'|reflexivity].
Defined.
