(* ===== verification/CpeJoin.v ===== *)
(** * CpeJoin: packages/enrichment/assets (cpe_join.py and map_asset_observation of service.py)

    Which vulnerabilities an internet asset may be affected by: the CPE names an asset reports, parsed, matched against
    the stored NVD configurations, and what is written of it through the knowledge writer.  [unquote], the digest,
    [isoformat] and the text of an IPv6 address are parameters. *)

From Stdlib Require Import Ascii.
From S2P Require Import Prelude.
From S2P Require Import Effects.
From S2P Require Import PyNumbers.
From S2P Require Import TaskStore.
From S2P Require Import Monitoring.
From S2P Require Import Vocabulary.
From S2P Require Import Knowledge.

(** ** Data *)

(** [IngestEnvelope] *)
Record IngestEnvelope := mkIngestEnvelope {
  ie_acquisition_run_id : string;
  ie_trigger : AcquisitionTrigger;
  ie_source_id : string;
  ie_external_object_id : string;
  ie_canonical_url : option string;
  ie_published_at : option Z;
  ie_updated_at : option Z;
  ie_observed_at : Z;
  ie_external_revision : option string;
  ie_media_type : string;
  ie_payload : option dict;
  ie_body : option string;
  ie_content_hash : string;
  ie_request_metadata : dict;
  ie_idempotency_key : string
}.

Record AssetObservation := mkAssetObservation {
  ao_source_id : string;
  ao_provider : string;
  ao_acquisition_run_id : string;
  ao_query : string;
  ao_observed_at : Z;
  ao_external_object_id : string;
  ao_external_revision : option string;
  ao_ip : string;
  ao_port : Z;
  ao_transport : string;
  ao_hostnames : list string;
  ao_domains : list string;
  ao_product : option string;
  ao_version : option string;
  ao_organization : option string;
  ao_isp : option string;
  ao_asn : option string;
  ao_cpe : list string;
  ao_vulnerabilities : list string;
  ao_location : dict;
  ao_discovery_context : dict;
  ao_relation_context : dict
}.

Record ParsedCPE := mkParsedCPE {
  cpe_raw : string;
  cpe_part : string;
  cpe_vendor : string;
  cpe_product : string;
  cpe_version : string
}.
#[export] Instance ParsedCPE_eq_dec : EqDecision ParsedCPE.
Proof. solve_decision. Defined.

Record JoinMatch := mkJoinMatch {
  jm_vulnerability : ObjectModel;
  jm_relation : RelationModel;
  jm_matched_cpes : list string
}.

Definition SOURCE_SEMANTICS : string := "nvd_cpe_asset_join".
Definition PRODUCT_IDENTITY : string := "cpe23_product".
Definition PROCESSOR_NAME : string := "asset-nvd-cpe-applicability-join".
Definition PROCESSOR_VERSION : string := "1".

(** ** Versions *)

(** [_NUMERIC_VERSION.fullmatch]: groups of digits between dots; below code point 256 a digit is one of the ten. *)
Definition is_digits (s : string) : bool :=
  negb (bool_decide (s = ""%string)) && forallb (λ c, bool_decide (is_Some (digit_value c))) (chars s).
Definition numeric_text (s : string) : bool := forallb is_digits (split_on "." s).

(** [s.removeprefix(p)] *)
Definition removeprefix (p s : string) : string := default s (strip_prefix p s).

(** [_numeric_version] *)
Definition numeric_version (value : string) : result (option (list Z)) :=
  let normalized := removeprefix "v" (py_strip value) in
  if numeric_text normalized then (v ← try_map int_of_text (split_on "." normalized); Ok (Some v)) else Ok None.

(** [l + (0,) * (width - len(l))], and the comparison of two tuples of one length. *)
Definition pad (width : nat) (l : list Z) : list Z := l ++ replicate (width - length l) 0.
Fixpoint tuple_lt (l r : list Z) : bool :=
  match l, r with
  | _, [] => false
  | [], _ :: _ => true
  | x :: l', y :: r' => (x <? y) || (x =? y) && tuple_lt l' r'
  end.

(** [_compare_versions]: [(l > r) - (l < r)] *)
Definition compare_versions (left right : list Z) : Z :=
  let width := Nat.max (length left) (length right) in
  Z.b2z (tuple_lt (pad width right) (pad width left)) - Z.b2z (tuple_lt (pad width left) (pad width right)).

(** [_version_in_bounds] *)
Inductive bound_key := START_INCLUDING | START_EXCLUDING | END_INCLUDING | END_EXCLUDING.
Definition bound_key_value (k : bound_key) : string :=
  match k with
  | START_INCLUDING => "versionStartIncluding" | START_EXCLUDING => "versionStartExcluding"
  | END_INCLUDING => "versionEndIncluding" | END_EXCLUDING => "versionEndExcluding"
  end.
Definition bound_keys : list bound_key := [START_INCLUDING; START_EXCLUDING; END_INCLUDING; END_EXCLUDING].
Definition bounds_of (m : dict) : list (bound_key * string) :=
  omap (λ k, match dict_get (bound_key_value k) m with
             | Some (JStr value) => if bool_decide (value = ""%string) then None else Some (k, value)
             | _ => None
             end) bound_keys.
Definition outside (k : bound_key) (comparison : Z) : bool :=
  match k with
  | START_INCLUDING => comparison <? 0
  | START_EXCLUDING => comparison <=? 0
  | END_INCLUDING => 0 <? comparison
  | END_EXCLUDING => 0 <=? comparison
  end.
Fixpoint within (current : list Z) (bounds : list (bound_key * string)) : result bool :=
  match bounds with
  | [] => Ok true
  | (k, raw) :: bounds' =>
      bound ← numeric_version raw;
      match bound with
      | None => Ok false
      | Some bound => if outside k (compare_versions current bound) then Ok false else within current bounds'
      end
  end.
Definition version_in_bounds (version : string) (m : dict) : result bool :=
  let bounds := bounds_of m in
  if bool_decide (bounds = []) then Ok true
  else
    current ← numeric_version version;
    match current with None => Ok false | Some current => within current bounds end.

(** ** CPE names *)

(** [_split_escaped]: the fields between the colons that no backslash precedes, without the backslashes. *)
Fixpoint split_escaped (current : list ascii) (escaped : bool) (l : list ascii) : list string :=
  match l with
  | [] => [of_chars (if escaped then current ++ ["\"%char] else current)]
  | c :: l' =>
      if escaped then split_escaped (current ++ [c]) false l'
      else if bool_decide (c = "\"%char) then split_escaped current true l'
      else if bool_decide (c = ":"%char) then of_chars current :: split_escaped [] false l'
      else split_escaped (current ++ [c]) false l'
  end.

(** [any(f(x) for x in l)]: stops at the first that holds. *)
Fixpoint any_lazy {A} (f : A → result bool) (l : list A) : result bool :=
  match l with [] => Ok false | x :: l' => b ← f x; if b : bool then Ok true else any_lazy f l' end.

Definition json_dict (j : json) : option dict := match j with JObj d => Some d | _ => None end.
Definition dict_value (j : option json) : dict := match j with Some (JObj d) => d | _ => [] end.

Section join.
Context (unquote sha256_hex : string → string) (isoformat ipv6_text : Z → string).
Context (json_hash : json → string) (uuid5_url : string → string).

(** [parse_cpe] *)
Definition absent (s : string) : bool := bool_decide (s ∈ [""%string; "*"%string; "-"%string]).
Definition parsed (value part vendor product version : string) : option ParsedCPE :=
  if existsb absent [part; vendor; product] then None
  else Some (mkParsedCPE value (lower (unquote part)) (lower (unquote vendor)) (lower (unquote product)) (unquote version)).
Definition parse_cpe (value : string) : option ParsedCPE :=
  if startswith "cpe:2.3:" value then
    match split_escaped [] false (chars value) with
    | _ :: _ :: part :: vendor :: product :: version :: _ => parsed value part vendor product version
    | _ => None
    end
  else
    match strip_prefix "cpe:/" value with
    | Some rest =>
        match split_on ":" rest with
        | part :: vendor :: product :: more => parsed value part vendor product (default "*"%string (head more))
        | _ => None
        end
    | None => None
    end.

(** [ParsedCPE.product_key], [ParsedCPE.software_version_key] *)
Definition product_key (c : ParsedCPE) : result string :=
  cpe_product_canonical_key sha256_hex (cpe_part c) (cpe_vendor c) (cpe_product c).
Definition software_version_key (c : ParsedCPE) : option string :=
  if absent (cpe_version c) then None
  else Some ("software-version:cpe-sha256:" +:+
               sha256_hex (cpe_part c +:+ "|" +:+ cpe_vendor c +:+ "|" +:+ cpe_product c +:+ "|" +:+ cpe_version c)).

(** [_asset_cpes] *)
Definition cpe_key (c : ParsedCPE) : string * string * string * string :=
  (cpe_part c, cpe_vendor c, cpe_product c, cpe_version c).
Definition with_fallback (fallback_version : option string) (c : ParsedCPE) : ParsedCPE :=
  match fallback_version with
  | Some v =>
      if bool_decide (cpe_version c ∈ [""%string; "*"%string]) && negb (bool_decide (v = ""%string))
      then mkParsedCPE (cpe_raw c) (cpe_part c) (cpe_vendor c) (cpe_product c) v else c
  | None => c
  end.
Definition add_cpe (acc : list ParsedCPE) (c : ParsedCPE) : list ParsedCPE :=
  if bool_decide (cpe_key c ∈ cpe_key <$> acc) then acc else acc ++ [c].
Definition asset_cpes (values : list string) (fallback_version : option string) : list ParsedCPE :=
  foldl add_cpe [] (with_fallback fallback_version <$> omap parse_cpe values).

(** [_single_cpe_matches], [_cpe_match_satisfied] *)
Definition single_cpe_matches (m : dict) (asset : ParsedCPE) : result bool :=
  match dict_get "criteria" m with
  | Some (JStr criteria) =>
      match parse_cpe criteria with
      | None => Ok false
      | Some required =>
          if bool_decide ((cpe_part required, cpe_vendor required, cpe_product required) ≠
                          (cpe_part asset, cpe_vendor asset, cpe_product asset)) then Ok false
          else if negb (absent (cpe_version required)) && bool_decide (cpe_version required ≠ cpe_version asset) then Ok false
          else if bool_decide (cpe_version required = "-"%string) && bool_decide (cpe_version asset ≠ "-"%string) then Ok false
          else version_in_bounds (cpe_version asset) m
      end
  | _ => Ok false
  end.
Definition cpe_match_satisfied (cpes : list ParsedCPE) (m : dict) : result bool := any_lazy (single_cpe_matches m) cpes.

(** [configuration_matches]: the operands of a node are its matches and its nodes. *)
Definition combine (fields : dict) (operands : list bool) : bool :=
  if bool_decide (operands = []) then false
  else
    let value := if bool_decide (dict_get "operator" fields = Some (JStr "AND")) then forallb id operands
                 else existsb id operands in
    if bool_decide (dict_get "negate" fields = Some (JBool true)) then negb value else value.
Fixpoint configuration_matches (cpes : list ParsedCPE) (root : json) : result bool :=
  match root with
  | JObj fields =>
      matches ← match dict_get "cpeMatch" fields with
                | Some (JArr items) => try_map (cpe_match_satisfied cpes) (omap json_dict items)
                | _ => Ok []
                end;
      nodes ← (fix search (d : dict) :=
                 match d with
                 | [] => Ok []
                 | (k, v) :: d' =>
                     if decide ("nodes"%string = k) then
                       match v with
                       | JArr items =>
                           (fix each (items : list json) :=
                              match items with
                              | [] => Ok []
                              | item :: items' =>
                                  match item with
                                  | JObj _ => b ← configuration_matches cpes item; bs ← each items'; Ok (b :: bs)
                                  | _ => each items'
                                  end
                              end) items
                       | _ => Ok []
                       end
                     else search d'
                 end) fields;
      Ok (combine fields (matches ++ nodes))
  | _ => Ok false
  end.

(** ** _find_matches *)

(** The rows of the select: a current applicability statement with its product and its vulnerability. *)
Definition applicability (r : RelationModel) : Prop :=
  relation_type r = "applicability-status"%string ∧ rm_lifecycle r = "accepted"%string ∧ rm_superseded_revision r = None.
#[export] Instance applicability_dec r : Decision (applicability r).
Proof. unfold applicability. apply _. Defined.
Definition applicability_row (s : KnowledgeStore) (r : RelationModel) : option (RelationModel * ObjectModel * ObjectModel) :=
  target ← get_object (target_object_id r) s;
  vulnerability ← get_object (source_object_id r) s;
  if bool_decide (object_type target = "Product"%string) && bool_decide (object_type vulnerability = "Vulnerability"%string)
  then Some (r, target, vulnerability) else None.
Definition applicability_rows (s : KnowledgeStore) : list (RelationModel * ObjectModel * ObjectModel) :=
  omap (applicability_row s) (filter applicability (relations s)).

(** The raw names of the asset's CPEs the platform and range of a statement match. *)
Fixpoint matched_cpes (m : dict) (cpes : list ParsedCPE) : result (list string) :=
  match cpes with
  | [] => Ok []
  | c :: cpes' =>
      b ← single_cpe_matches m c; rest ← matched_cpes m cpes';
      Ok (if b : bool then cpe_raw c :: rest else rest)
  end.

(** The body of the loop: the match of a row, if there is one. *)
Definition join_row (product_keys : list string) (cpes : list ParsedCPE) (row : RelationModel * ObjectModel * ObjectModel)
  : result (option JoinMatch) :=
  let '(relation, product, vuln) := row in
  if bool_decide (canonical_key product ∉ product_keys) then Ok None
  else if bool_decide (dict_get "source_semantics" (rm_qualifier relation) ≠ Some (JStr "nvd_cpe")) then Ok None
  else match dict_get "platform" (rm_qualifier relation), dict_get "configuration" (rm_qualifier relation) with
  | Some (JStr platform), Some (JObj configuration) =>
      match dict_get "root_snapshot" configuration with
      | Some (JObj root) =>
          let target_match := dict_merge [("criteria"%string, JStr platform)]
                                (dict_value (dict_get "version_range" (rm_qualifier relation))) in
          matched ← matched_cpes target_match cpes;
          if bool_decide (matched = []) then Ok None
          else b ← configuration_matches cpes (JObj root);
               Ok (if b : bool then Some (mkJoinMatch vuln relation matched) else None)
      | _ => Ok None
      end
  | _, _ => Ok None
  end.
Definition find_matches (s : KnowledgeStore) (cpes : list ParsedCPE) : result (list JoinMatch) :=
  product_keys ← try_map product_key cpes;
  found ← try_map (join_row product_keys cpes) (applicability_rows s);
  Ok (omap (M:=list) (λ m : option JoinMatch, m) found).

(** ** service.py: map_asset_observation *)

Definition json_payload (e : IngestEnvelope) : result dict :=
  match ie_payload e with Some d => Ok d | None => Err (ValueError "envelope has no JSON payload") end.
Definition string_list (j : option json) : list string :=
  match j with Some (JArr l) => omap (λ x, match x with JStr s => Some s | _ => None end) l | _ => [] end.
Definition add_cve (acc : list string) (item : string) : list string :=
  let normalized := upper (py_strip item) in
  if startswith "CVE-" normalized && bool_decide (normalized ∉ acc) then acc ++ [normalized] else acc.
Definition cve_list (j : option json) : list string := foldl add_cve [] (string_list j).
Definition optional_string (j : option json) : option string :=
  match j with Some (JStr s) => if bool_decide (s = ""%string) then None else Some s | _ => None end.

(** [str(ip_address(n))] *)
Definition ip_text (n : Z) : result string :=
  if (0 <=? n) && (n <? 2 ^ 32) then
    Ok (str_of_Z (n / 2 ^ 24) +:+ "." +:+ str_of_Z (n / 2 ^ 16 mod 2 ^ 8) +:+ "." +:+ str_of_Z (n / 2 ^ 8 mod 2 ^ 8) +:+ "." +:+
        str_of_Z (n mod 2 ^ 8))
  else if (0 <=? n) && (n <? 2 ^ 128) then Ok (ipv6_text n)
  else Err (ValueError "does not appear to be an IPv4 or IPv6 address").

Definition map_asset_observation (envelope : IngestEnvelope) : result AssetObservation :=
  payload ← json_payload envelope;
  ip ← match dict_get "ip" payload with
       | Some (JInt n) => text ← ip_text n; Ok (JStr text)
       | Some j => Ok j
       | None => Ok JNull
       end;
  ip ← match ip with
       | JStr text => if bool_decide (text = ""%string) then Err (ValueError "asset observation requires normalized ip") else Ok text
       | _ => Err (ValueError "asset observation requires normalized ip")
       end;
  port ← match dict_get "port" payload with
         | Some (JInt n) => Ok n
         | _ => Err (ValueError "asset observation requires integer port")
         end;
  let transport := default "tcp"%string (optional_string (dict_get "transport" payload)) in
  query ← match dict_get "query" (ie_request_metadata envelope) with
          | Some (JStr q) => Ok q
          | _ => Err (ValueError "asset observation envelope has no query provenance")
          end;
  provider ← match dict_get "provider" (ie_request_metadata envelope) with
             | Some (JStr p) => Ok p
             | _ => Err (ValueError "asset observation envelope has no provider provenance")
             end;
  Ok (mkAssetObservation (ie_source_id envelope) provider (ie_acquisition_run_id envelope) query (ie_observed_at envelope)
        (ie_external_object_id envelope) (ie_external_revision envelope) ip port (lower transport)
        (string_list (dict_get "hostnames" payload)) (string_list (dict_get "domains" payload))
        (optional_string (dict_get "product" payload)) (optional_string (dict_get "version" payload))
        (optional_string (dict_get "org" payload)) (optional_string (dict_get "isp" payload))
        (optional_string (dict_get "asn" payload)) (string_list (dict_get "cpe" payload))
        (cve_list (dict_get "vulns" payload)) (dict_value (dict_get "location" payload))
        (dict_value (dict_get "discovery_context" (ie_request_metadata envelope)))
        (dict_value (dict_get "relation_context" (ie_request_metadata envelope)))).

(** ** _candidate_for_asset *)

Definition product_properties (c : ParsedCPE) : dict :=
  [("identity_scheme"%string, JStr PRODUCT_IDENTITY); ("cpe_part"%string, JStr (cpe_part c));
   ("vendor"%string, JStr (cpe_vendor c)); ("product"%string, JStr (cpe_product c))].
Definition cpe_qualifier (observed_at : Z) (c : ParsedCPE) : dict :=
  [("source_semantics"%string, JStr "asset_cpe"); ("asset_cpe"%string, JStr (cpe_raw c));
   ("observed_at"%string, JStr (isoformat observed_at))].
Definition cpe_locator (index : nat) : dict :=
  [("kind"%string, JStr "jsonpath"); ("path"%string, JStr ("$.cpe[" +:+ str_of_Z (Z.of_nat index) +:+ "]"))].

(** The first loop: [seen_products] and [seen_versions] are the keys that have a relation. *)
Fixpoint cpe_relations (observed_at : Z) (index : nat) (seen_products seen_versions : list string) (cpes : list ParsedCPE)
  : result (list RelationCandidate) :=
  match cpes with
  | [] => Ok []
  | c :: cpes' =>
      key ← product_key c;
      let products := if bool_decide (key ∈ seen_products) then [] else
        [mkRelationCandidate "asset-runs-product" (mkObjectCandidate "Product" key (product_properties c) [])
           (cpe_qualifier observed_at c) (cpe_locator index)] in
      let '(versions, seen_versions') :=
        match software_version_key c with
        | Some version_key =>
            if bool_decide (version_key ∈ seen_versions) then ([], seen_versions)
            else ([mkRelationCandidate "asset-version"
                     (mkObjectCandidate "SoftwareVersion" version_key
                        (dict_set "version" (JStr (cpe_version c)) (product_properties c)) [])
                     (cpe_qualifier observed_at c) (cpe_locator index)], version_key :: seen_versions)
        | None => ([], seen_versions)
        end in
      rest ← cpe_relations observed_at (S index) (key :: seen_products) seen_versions' cpes';
      Ok (products ++ versions ++ rest)
  end.

(** [_cve_from_key] *)
Definition cve_from_key (value : string) : option string :=
  if startswith "cve:CVE-" value then Some (removeprefix "cve:" value) else None.

(** [by_vulnerability] *)
Definition add_match (d : list (string * list JoinMatch)) (m : JoinMatch) : list (string * list JoinMatch) :=
  let key := object_id (jm_vulnerability m) in dict_set key (default [] (dict_get key d) ++ [m]) d.
Definition by_vulnerability (matches : list JoinMatch) : list (list JoinMatch) := (foldl add_match [] matches).*2.

Definition affected_relation (observed_at : Z) (asset : AssetObservation) (group : list JoinMatch) : option RelationCandidate :=
  (λ first : JoinMatch,
     let vulnerability := jm_vulnerability first in
     mkRelationCandidate "asset-potentially-affected"
       (mkObjectCandidate "Vulnerability" (canonical_key vulnerability) (properties vulnerability)
          match cve_from_key (canonical_key vulnerability) with Some cve_id => [("cve"%string, [cve_id])] | None => [] end)
       [("source_semantics"%string, JStr SOURCE_SEMANTICS);
        ("asset_cpes"%string, JArr (JStr <$> sorted_set (mjoin (jm_matched_cpes <$> group))));
        ("support_relation_ids"%string, JArr (JStr <$> sorted_set ((λ m, relation_id (jm_relation m)) <$> group)));
        ("observed_at"%string, JStr (isoformat observed_at)); ("asset_port"%string, JInt (ao_port asset));
        ("transport"%string, JStr (ao_transport asset))]
       [("kind"%string, JStr "jsonpath"); ("path"%string, JStr "$.cpe")]) <$> head group.

Definition service_name (asset : AssetObservation) : string :=
  ao_ip asset +:+ ":" +:+ str_of_Z (ao_port asset) +:+ "/" +:+ ao_transport asset.
Definition candidate_for_asset (envelope : IngestEnvelope) (cpes : list ParsedCPE) (matches : list JoinMatch)
  : result EnrichmentCandidate :=
  asset ← map_asset_observation envelope;
  relations ← cpe_relations (ie_observed_at envelope) 0 [] [] cpes;
  Ok (mkEnrichmentCandidate
        (Some (mkObjectCandidate "InternetAsset" ("internet-asset:service:" +:+ service_name asset)
                 [("ip"%string, JStr (ao_ip asset)); ("port"%string, JInt (ao_port asset));
                  ("transport"%string, JStr (ao_transport asset))]
                 [("internet_service"%string, [service_name asset])]))
        [] []
        (relations ++ omap (affected_relation (ie_observed_at envelope) asset) (by_vulnerability matches))
        [] ["asset-runs-product"%string; "asset-version"%string; "asset-potentially-affected"%string]).

(** ** _copy_support_evidence *)

(** One link of a supporting relation, copied to the new one. *)
Definition copy_link (relation_id : string) (link : EvidenceLinkModel) : prog KnowledgeStore unit :=
  s ← get_store;
  let row := new_link json_hash uuid5_url T_RELATION relation_id
               (mkEvidenceAnchor (el_observation_id link) (el_artifact_id link)) (el_locator link) in
  if bool_decide (evidence_link_id row ∈ evidence_link_id <$> links s) then mret tt else add_link row.
Definition copy_support (relation_id support_id : string) : prog KnowledgeStore unit :=
  s ← get_store;
  for_each (filter (λ l, el_target_kind l = T_RELATION ∧ el_target_id l = support_id) (links s)) (copy_link relation_id);;
  mret tt.
Definition support_ids (r : RelationCandidate) : list string :=
  if bool_decide (rc_relation_type r = "asset-potentially-affected"%string)
  then string_list (dict_get "support_relation_ids" (rc_qualifier r)) else [].
Definition copy_relation (p : RelationCandidate * string) : prog KnowledgeStore unit :=
  for_each (support_ids p.1) (copy_support p.2);; mret tt.

(** [zip(candidate.relations, result.relation_ids, strict=True)]: the loop runs over the pairs before the shorter list
    ends, then raises. *)
Definition copy_support_evidence (candidate : EnrichmentCandidate) (result : NormalizationResult)
  : prog KnowledgeStore unit :=
  for_each (zip (ec_relations candidate) (nr_relation_ids result)) copy_relation;;
  check (negb (bool_decide (length (ec_relations candidate) = length (nr_relation_ids result))))
    (ValueError "zip() arguments have different lengths").

(** [AssetCPEApplicabilityJoinService.enrich] *)
Definition enrich (source_id : string) (envelope : IngestEnvelope) (observation : EvidenceAnchor) (revision now : Z)
  : prog KnowledgeStore (option NormalizationResult) :=
  asset ← lift (map_asset_observation envelope);
  let cpes := asset_cpes (ao_cpe asset) (ao_version asset) in
  if bool_decide (cpes = []) then mret None
  else
    s ← get_store;
    matches ← lift (find_matches s cpes);
    candidate ← lift (candidate_for_asset envelope cpes matches);
    result ← apply json_hash uuid5_url None source_id observation candidate PROCESSOR_NAME PROCESSOR_VERSION
               DETERMINISTIC_DERIVED revision now;
    copy_support_evidence candidate result;;
    mret (Some result).
End join.

(** ** The order of versions

    Versions are compared as sequences of numbers that go on with zeros. *)

Definition digit (v : list Z) (i : nat) : Z := nth i v 0.
Definition version_lt (v w : list Z) : Prop := ∃ i, (∀ j, (j < i)%nat → digit v j = digit w j) ∧ digit v i < digit w i.
Definition version_eq (v w : list Z) : Prop := ∀ i, digit v i = digit w i.

Lemma digit_pad n v i : digit (pad n v) i = digit v i.
Proof.
  unfold digit, pad. destruct (decide (i < length v)%nat) as [H|H]; [by rewrite app_nth1|].
  rewrite app_nth2, (nth_overflow v) by lia. generalize (i - length v)%nat.
  induction (n - length v)%nat as [|k IH]; intros [|j]; simpl; [done..|by apply IH].
Qed.

Lemma length_pad n v : (length v ≤ n)%nat → length (pad n v) = n.
Proof. intros H. unfold pad. rewrite length_app, length_replicate. lia. Qed.

Lemma version_lt_cons x v y w : version_lt (x :: v) (y :: w) ↔ x < y ∨ x = y ∧ version_lt v w.
Proof.
  unfold version_lt. split.
  - intros ([|i]&Heq&Hlt); [by left|]. right. split; [apply (Heq 0%nat); lia|]. exists i. split; [|done].
    intros j Hj. apply (Heq (S j)). lia.
  - intros [H|(->&i&Heq&Hlt)]; [exists 0%nat; split; [lia|done]|]. exists (S i). split; [|done].
    intros [|j] Hj; [done|]. apply Heq. lia.
Qed.

Lemma tuple_lt_spec v w : length v = length w → tuple_lt v w = true ↔ version_lt v w.
Proof.
  revert w. induction v as [|x v IH]; intros [|y w] Hl; try done.
  - split; [done|]. intros (i&_&H). unfold digit in H. destruct i; simpl in H; lia.
  - injection Hl as Hl. cbn [tuple_lt]. rewrite version_lt_cons, orb_true_iff, andb_true_iff, Z.ltb_lt, Z.eqb_eq, IH by done. done.
Qed.

Lemma version_lt_pad n m v w : version_lt (pad n v) (pad m w) ↔ version_lt v w.
Proof. unfold version_lt. by setoid_rewrite digit_pad. Qed.

Lemma version_lt_irrefl v w : version_eq v w → ¬ version_lt v w.
Proof. intros H (i&_&Hi). rewrite H in Hi. lia. Qed.
Lemma version_lt_trans u v w : version_lt u v → version_lt v w → version_lt u w.
Proof.
  intros (i&Hi&Hlt) (j&Hj&Hlt'). destruct (Nat.lt_trichotomy i j) as [H|[->|H]].
  - exists i. split; [intros k Hk; rewrite Hi by done; apply Hj; lia|]. rewrite <- Hj by done. done.
  - exists j. split; [intros k Hk; rewrite Hi by done; by apply Hj|]. lia.
  - exists j. split; [intros k Hk; rewrite Hi by lia; by apply Hj|]. by rewrite Hi.
Qed.
Lemma version_lt_total v w : version_lt v w ∨ version_eq v w ∨ version_lt w v.
Proof.
  revert w. assert (∀ v, version_lt v [] ∨ version_eq v [] ∨ version_lt [] v) as Hnil.
  { clear v. intros v. induction v as [|x v IH]; [by right; left|].
    assert (∀ i, digit [] i = 0) as H0 by (intros []; done).
    destruct (Z.lt_trichotomy x 0) as [Hx|[->|Hx]].
    - left. exists 0%nat. split; [lia|]. rewrite H0. done.
    - destruct IH as [(i&Hi&Hlt)|[IH|(i&Hi&Hlt)]].
      + left. exists (S i). split; [|by rewrite H0 in *]. intros [|j] Hj; [done|]. rewrite H0. specialize (Hi j). rewrite H0 in Hi.
        apply Hi. lia.
      + right; left. intros [|i]; [done|]. rewrite H0. specialize (IH i). by rewrite H0 in IH.
      + right; right. exists (S i). split; [|by rewrite H0 in *]. intros [|j] Hj; [done|]. rewrite H0. specialize (Hi j). rewrite H0 in Hi.
        apply Hi. lia.
    - right; right. exists 0%nat. split; [lia|]. rewrite H0. done. }
  induction v as [|x v IH]; intros [|y w]; [by right; left| |by apply Hnil|].
  - destruct (Hnil (y :: w)) as [?|[H|?]]; [by right; right| |by left]. right; left. intros i. by rewrite H.
  - rewrite !version_lt_cons. destruct (Z.lt_trichotomy x y) as [?|[->|?]]; [auto| |auto].
    destruct (IH w) as [?|[H|?]]; [auto| |auto]. right; left. intros [|i]; [done|apply H].
Qed.

Lemma compare_versions_spec v w :
  (compare_versions v w < 0 ↔ version_lt v w) ∧ (compare_versions v w = 0 ↔ version_eq v w) ∧
  (0 < compare_versions v w ↔ version_lt w v).
Proof.
  unfold compare_versions. cbv zeta. set (n := Nat.max _ _).
  assert (tuple_lt (pad n v) (pad n w) = true ↔ version_lt v w) as H1
    by (rewrite tuple_lt_spec, version_lt_pad by (rewrite !length_pad; lia); done).
  assert (tuple_lt (pad n w) (pad n v) = true ↔ version_lt w v) as H2
    by (rewrite tuple_lt_spec, version_lt_pad by (rewrite !length_pad; lia); done).
  pose proof (version_lt_total v w) as Ht.
  assert (version_lt v w → ¬ version_lt w v) as Ha.
  { intros Ha Hb. apply (version_lt_irrefl v v); [done|]. by eapply version_lt_trans. }
  pose proof (version_lt_irrefl v w) as Hi.
  assert (version_eq v w → ¬ version_lt w v) as Hi' by (intros H; apply version_lt_irrefl; by intros i).
  destruct (tuple_lt (pad n v) (pad n w)), (tuple_lt (pad n w) (pad n v)); simpl;
    (split; [|split]; (split; [intros Hc; (lia || tauto)|intros Hc; (lia || tauto)])).
Qed.

(** What a bound asks of a version. *)
Definition inside (k : bound_key) (v bound : list Z) : Prop :=
  match k with
  | START_INCLUDING => ¬ version_lt v bound
  | START_EXCLUDING => version_lt bound v
  | END_INCLUDING => ¬ version_lt bound v
  | END_EXCLUDING => version_lt v bound
  end.

Lemma outside_spec k v w : outside k (compare_versions v w) = false ↔ inside k v w.
Proof.
  destruct (compare_versions_spec v w) as (H1&_&H3).
  destruct k; simpl; rewrite ?Z.ltb_ge, ?Z.leb_gt, <- ?H1, <- ?H3; lia.
Qed.

Definition bound_given (m : dict) (k : bound_key) (raw : string) : Prop :=
  dict_get (bound_key_value k) m = Some (JStr raw) ∧ raw ≠ ""%string.

Lemma elem_of_bounds m k raw : (k, raw) ∈ bounds_of m ↔ bound_given m k raw.
Proof.
  unfold bounds_of, bound_given. rewrite list_elem_of_omap. split.
  - intros (k'&_&H). destruct (dict_get (bound_key_value k') m) as [[]|] eqn:E; try done.
    case_bool_decide; [done|]. injection H as -> ->. done.
  - intros [E H]. exists k. rewrite E, bool_decide_eq_false_2 by done. split; [|done]. destruct k; set_solver.
Qed.

Lemma within_spec v bounds b : within v bounds = Ok b →
  b = true ↔ ∀ k raw, (k, raw) ∈ bounds → ∃ w, numeric_version raw = Ok (Some w) ∧ inside k v w.
Proof.
  induction bounds as [|[k raw] bounds IH]; cbn [within].
  - intros [= <-]. split; [|done]. intros _ k raw H. by apply elem_of_nil in H.
  - intros (bound&Hbound&H)%result_bind_Ok. destruct bound as [w|].
    + destruct (outside k (compare_versions v w)) eqn:E.
      * injection H as <-. split; [done|]. intros Hall. destruct (Hall k raw (list_elem_of_here _ _)) as (w'&E'&Hin).
        rewrite Hbound in E'. injection E' as <-. apply outside_spec in Hin. congruence.
      * apply outside_spec in E. rewrite (IH H). split.
        -- intros Hall k' raw' [[= -> ->]|Hin]%elem_of_cons; [by exists w|by apply Hall].
        -- intros Hall k' raw' Hin. by apply Hall, list_elem_of_further.
    + injection H as <-. split; [done|]. intros Hall. destruct (Hall k raw (list_elem_of_here _ _)) as (w&E&_). congruence.
Qed.

(** A version is in the range of a match exactly when every bound the match gives is a numeric version on the right
    side of it; versions are compared as sequences of numbers that go on with zeros, which is a total order, and a
    version that is not numeric is in no range but the one without bounds. *)
Theorem version_range version m b :
  version_in_bounds version m = Ok b →
  (b = true ↔
     (∀ k raw, ¬ bound_given m k raw) ∨
     ∃ v, numeric_version version = Ok (Some v) ∧
       ∀ k raw, bound_given m k raw → ∃ w, numeric_version raw = Ok (Some w) ∧ inside k v w) ∧
  (∀ u v w, version_lt u v → version_lt v w → version_lt u w) ∧
  (∀ v w, version_eq v w → ¬ version_lt v w) ∧ (∀ v w, version_lt v w ∨ version_eq v w ∨ version_lt w v).
Proof.
  intros H. split; [|split; [exact version_lt_trans|split; [exact version_lt_irrefl|exact version_lt_total]]].
  unfold version_in_bounds in H. cbv zeta in H. setoid_rewrite <- elem_of_bounds. case_bool_decide as Hb.
  { injection H as <-. split; [|done]. intros _. left. intros k raw Hin. rewrite Hb in Hin. by apply elem_of_nil in Hin. }
  assert (¬ ∀ k raw, (k, raw) ∉ bounds_of m) as Hne.
  { intros Hall. destruct (bounds_of m) as [|[k raw] l] eqn:E; [done|]. apply (Hall k raw). apply list_elem_of_here. }
  apply result_bind_Ok in H as (current&Hc&H). destruct current as [v|].
  - rewrite (within_spec _ _ _ H). split; [intros Hall; right; by exists v|]. intros [?|(v'&Hv'&Hall)]; [done|].
    rewrite Hc in Hv'. by injection Hv' as <-.
  - injection H as <-. split; [done|]. intros [?|(v&Hv&_)]; [done|congruence].
Qed.

Lemma version_range_witness :
  version_in_bounds "v1.10" [("versionStartIncluding"%string, JStr "1.9.5"); ("versionEndExcluding"%string, JStr "1.10.0.1")] = Ok true ∧
  version_in_bounds "1.10" [("versionEndExcluding"%string, JStr "1.10.0")] = Ok false.
Proof.
  assert (version_in_bounds "1.10" [("versionEndExcluding"%string, JStr "1.10.0")] = Ok false) as E by (vm_compute; reflexivity).
  split; [vm_compute; reflexivity|]. destruct (version_range _ _ _ E) as [_ _]. exact E.
Defined.

(** ** The relations a run writes *)

Definition live (x : RelationModel) : Prop := rm_superseded_revision x = None.
Definition target_key (rc : RelationCandidate) : string * string :=
  (oc_object_type (rc_target rc), oc_canonical_key (rc_target rc)).
Definition from_before (s : KnowledgeStore) (x : RelationModel) : Prop :=
  ∃ x0 n, x0 ∈ relations s ∧ x = set_relation_superseded n x0.

Lemma from_before_same s s' x : relations s' = relations s → x ∈ relations s' → from_before s x.
Proof. intros E Hx. exists x, (rm_superseded_revision x). rewrite set_relation_superseded_id. by rewrite <- E. Qed.

Section written.
Context (json_hash : json → string) (uuid5_url : string → string) (source root observation_id : string).

Definition target_of (s : KnowledgeStore) (rc : RelationCandidate) (o : ObjectModel) : Prop :=
  o ∈ objects s ∧ object_key o = target_key rc.

(** The id is the one of a relation to the target of one of [rcs], seen in the store [s]. *)
Definition named (rcs : list RelationCandidate) (s : KnowledgeStore) (id : string) : Prop :=
  ∃ rc o, rc ∈ rcs ∧ target_of s rc o ∧ id = relation_id_of json_hash uuid5_url root (object_id o) observation_id rc.
(** The relation is the one a run writes for one of [rcs]. *)
Definition written (rcs : list RelationCandidate) (s : KnowledgeStore) (x : RelationModel) : Prop :=
  ∃ rc o, rc ∈ rcs ∧ target_of s rc o ∧
    relation_id x = relation_id_of json_hash uuid5_url root (object_id o) observation_id rc ∧
    source_object_id x = root ∧ relation_type x = rc_relation_type rc ∧ target_object_id x = object_id o ∧
    dict_get "source_id" (rm_qualifier x) = Some (JStr source).

(** A step of a run that only writes relations of [rcs]: what is current after it was so before, or was written. *)
Record writes_only (rcs : list RelationCandidate) (s s' : KnowledgeStore) : Prop := {
  wo_grow : facts_grow s s';
  wo_rows : ∀ x, x ∈ relations s' → from_before s x ∨ written rcs s' x;
  wo_live : ∀ x, x ∈ relations s' → live x → x ∈ relations s ∨ named rcs s' (relation_id x)
}.
(** A step that supersedes nothing. *)
Definition revives (s s' : KnowledgeStore) : Prop :=
  ∀ x, x ∈ relations s → live x → ∃ x', x' ∈ relations s' ∧ relation_id x' = relation_id x ∧ live x'.

Lemma target_of_grow s s' rc o : facts_grow s s' → target_of s rc o → ∃ o', target_of s' rc o' ∧ object_id o' = object_id o.
Proof.
  intros Hg [Ho Hkey]. destruct (fg_objects _ _ Hg o Ho) as (o'&Ho'&E&_). exists o'. unfold target_of, object_key in *.
  split; [split; [done|]|]; by rewrite E.
Qed.

Lemma named_grow rcs s s' id : facts_grow s s' → named rcs s id → named rcs s' id.
Proof.
  intros Hg (rc&o&Hrc&Ho&->). destruct (target_of_grow _ _ _ _ Hg Ho) as (o'&Ho'&E). exists rc, o'. by rewrite E.
Qed.

Lemma written_grow rcs s s' x n : facts_grow s s' → written rcs s x → written rcs s' (set_relation_superseded n x).
Proof.
  intros Hg (rc&o&Hrc&Ho&H). destruct (target_of_grow _ _ _ _ Hg Ho) as (o'&Ho'&E). exists rc, o'. by rewrite E.
Qed.

#[export] Instance writes_only_preorder rcs : PreOrder (writes_only rcs).
Proof.
  split.
  - intros s. split; [done| |by left]. intros x Hx. left. by apply (from_before_same s s).
  - intros s1 s2 s3 [G1 H1 L1] [G2 H2 L2]. split; [by etrans|..].
    + intros x Hx. destruct (H2 x Hx) as [(x0&n&Hx0&->)|?]; [|by right].
      destruct (H1 x0 Hx0) as [(x1&m&Hx1&->)|Hw]; [left; by exists x1, n|right; by eapply written_grow].
    + intros x Hx Hl. destruct (L2 x Hx Hl) as [Hx2|?]; [|by right].
      destruct (L1 x Hx2 Hl) as [?|Hn]; [by left|right; by eapply named_grow].
Qed.
#[export] Instance revives_preorder : PreOrder revives.
Proof.
  split; [intros s x Hx Hl; by exists x|]. intros s1 s2 s3 H1 H2 x Hx Hl. destruct (H1 x Hx Hl) as (y&Hy&E&Hyl).
  destruct (H2 y Hy Hyl) as (z&Hz&E'&Hzl). exists z. by rewrite E'.
Qed.

Lemma writes_same rcs s s' : kept s s' → relations s' = relations s → writes_only rcs s s'.
Proof.
  intros [_ Hg] E. split; [done|..].
  - intros x Hx. left. by apply (from_before_same s s').
  - intros x Hx _. left. by rewrite <- E.
Qed.

(** One relation: its row is for the candidate, whose target exists, and is current. *)
Definition relation_of (s : KnowledgeStore) (r : RelationCandidate) (id : string) : Prop :=
  (∃ x, x ∈ relations s ∧ relation_id x = id ∧ live x) ∧
  ∃ o, target_of s r o ∧ id = relation_id_of json_hash uuid5_url root (object_id o) observation_id r.

Lemma relation_of_grow s s' r id : facts_grow s s' → revives s s' → relation_of s r id → relation_of s' r id.
Proof.
  intros Hg Hrev [(x&Hx&Hid&Hl) (o&Ho&->)]. destruct (Hrev x Hx Hl) as (x'&Hx'&E&Hl'). split; [exists x'; by rewrite E|].
  destruct (target_of_grow _ _ _ _ Hg Ho) as (o'&Ho'&E'). exists o'. by rewrite E'.
Qed.
End written.

Section facts.
Context (json_hash : json → string) (uuid5_url : string → string).

Lemma upsert_identifiers_relations id ids s u s' :
  upsert_identifiers uuid5_url id ids s = (Ok u, s') → relations s' = relations s.
Proof.
  unfold upsert_identifiers. intros (us&s1&H0&H)%bind_Ok. apply ret_Ok in H as [_ ->]. revert H0.
  generalize (mjoin ((λ nv : string * list string, (λ v, (nv.1, v)) <$> nv.2) <$> ids)). intros l.
  revert s us. induction l as [|[ns v] l IH]; intros s us H; cbn [for_each] in H; [by apply ret_Ok in H as [_ ->]|].
  apply bind_Ok in H as (a&s2&H1&H). apply bind_Ok in H as (b&s3&H2&H). apply ret_Ok in H as [_ ->].
  rewrite (IH _ _ H2). unfold upsert_identifier in H1. apply bind_Ok in H1 as (s0&s4&H0&H1). apply get_store_Ok in H0 as [-> ->].
  destruct (find_identifier _ _ _); [by apply check_Ok in H1 as [_ ->]|].
  apply bind_Ok in H1 as (u1&s5&H0&H1). apply check_Ok in H0 as [_ ->]. by apply modify_Ok in H1 as ->.
Qed.

Lemma upsert_object_relations cand rev s o s' :
  upsert_object uuid5_url cand rev s = (Ok o, s') → relations s' = relations s.
Proof.
  unfold upsert_object. intros (s0&s1&H0&H)%bind_Ok. apply get_store_Ok in H0 as [-> ->].
  apply bind_Ok in H as (obj&s1&H0&H). apply bind_Ok in H as (u&s2&H1&H). apply ret_Ok in H as [-> ->].
  rewrite (upsert_identifiers_relations _ _ _ _ _ H1). destruct (find_object _ _ _).
  - case_bool_decide; [by apply ret_Ok in H0 as [-> ->]|]. apply bind_Ok in H0 as (u0&s3&H2&H0).
    apply modify_Ok in H2 as ->. by apply ret_Ok in H0 as [-> ->].
  - apply bind_Ok in H0 as (id&s3&H2&H0). apply lift_Ok in H2 as [_ ->]. apply bind_Ok in H0 as (u0&s3&H2&H0).
    apply check_Ok in H2 as [_ ->]. apply bind_Ok in H0 as (u1&s3&H2&H0). apply modify_Ok in H2 as ->.
    by apply ret_Ok in H0 as [-> ->].
Qed.

Lemma write_claim_relations replaced root source run observation origin rev c s id s' :
  write_claim json_hash uuid5_url replaced root source run observation origin rev c s = (Ok id, s') → relations s' = relations s.
Proof.
  unfold write_claim. intros (u&s1&H0&H)%bind_Ok. assert (relations s1 = relations s) as <-.
  { case_bool_decide; [by apply ret_Ok in H0 as [_ ->]|by apply modify_Ok in H0 as ->]. }
  cbv zeta in H. apply bind_Ok in H as (s0&s2&H1&H). apply get_store_Ok in H1 as [-> ->].
  apply bind_Ok in H as (u1&s2&H1&H). apply ret_Ok in H as [_ ->].
  case_bool_decide; [by apply modify_Ok in H1 as ->|]. apply bind_Ok in H1 as (u2&s3&H2&H1). apply modify_Ok in H2 as ->.
  by apply add_link_Ok in H1 as (->&_).
Qed.

Lemma write_relation_writes root source run observation origin rev r s ids s' :
  writing root observation rev s →
  classify_term K_RELATION (rc_relation_type r) origin (Some (object_type root)) (Some (oc_object_type (rc_target r)))
    (Some (names_of (rc_qualifier r))) ≠ SC_UNREGISTERED →
  write_relation json_hash uuid5_url root source run observation origin rev r s = (Ok ids, s') →
  writes_only json_hash uuid5_url source (object_id root) (ea_observation_id observation) [r] s s' ∧ revives s s' ∧
  relation_of json_hash uuid5_url (object_id root) (ea_observation_id observation) s' r ids.2.
Proof.
  intros Hw Hscope H. pose proof Hw as [Hwf Hroot Hrev Hobs].
  destruct (write_relation_kept json_hash uuid5_url root source run observation origin rev r s ids s' Hwf Hroot Hrev Hobs Hscope H) as [Hwf' Hg].
  unfold write_relation in H. apply bind_Ok in H as (target&s1&H0&H).
  pose proof (upsert_object_relations _ _ _ _ _ H0) as Hrel. apply upsert_object_kept in H0 as (_&_&Hkey&o&Ho&Hid&Hok); [|done..].
  cbv zeta in H. apply bind_Ok in H as (s0&s2&H1&H). apply get_store_Ok in H1 as [-> ->].
  apply bind_Ok in H as (u1&s2&H1&H). apply ret_Ok in H as [-> ->]. set (row := new_relation _ _ _ _ _ _ _ _ _ _) in *.
  assert (row_id : relation_id row = relation_id_of json_hash uuid5_url (object_id root) (object_id o) (ea_observation_id observation) r)
    by (by rewrite Hid).
  assert (objects s2 = objects s1 ∧ (∀ x, x ∈ relations s2 → from_before s1 x ∨ x = row) ∧
    (∀ x, x ∈ relations s2 → live x → x ∈ relations s1 ∨ relation_id x = relation_id row) ∧ revives s1 s2 ∧
    ∃ x, x ∈ relations s2 ∧ relation_id x = relation_id row ∧ live x) as (Hobj&Hrows&Hlive&Hrevives&Hthere).
  { case_bool_decide as Hrow.
    - apply modify_Ok in H1 as ->. split; [done|]. cbn [relations set_relations].
      assert (∀ x0, x0 ∈ relations s1 → (if bool_decide (relation_id x0 = relation_id row) then set_relation_superseded None x0 else x0)
        ∈ update_where (λ x, bool_decide (relation_id x = relation_id row)) (set_relation_superseded None) (relations s1)) as Hupd
        by (intros x0 Hx0; apply elem_of_update_where; by exists x0).
      split; [|split; [|split]].
      + intros x (x0&Hx0&->)%elem_of_update_where. left.
        destruct (bool_decide _); [by exists x0, None|]. by apply (from_before_same s1 s1).
      + intros x (x0&Hx0&->)%elem_of_update_where _. case_bool_decide; [by right|by left].
      + intros x Hx Hl. eexists. split; [apply (Hupd x Hx)|]. by case_bool_decide.
      + apply list_elem_of_fmap in Hrow as (x0&E&Hx0). eexists. split; [apply (Hupd x0 Hx0)|].
        rewrite bool_decide_eq_true_2 by done. by split.
    - apply bind_Ok in H1 as (u2&s3&H2&H1). apply modify_Ok in H2 as ->. apply add_link_Ok in H1 as (->&_). split; [done|].
      cbn [relations set_relations set_links]. split; [|split; [|split]].
      + intros x [Hx| ->%list_elem_of_singleton]%elem_of_app; [left; by apply (from_before_same s1 s1)|by right].
      + intros x [Hx| ->%list_elem_of_singleton]%elem_of_app _; [by left|by right].
      + intros x Hx Hl. exists x. split; [apply elem_of_app; by left|by split].
      + exists row. split; [apply elem_of_app; right; apply list_elem_of_here|by split]. }
  assert (target_of s2 r o) as Htarget by (unfold target_of, target_key; by rewrite Hobj, Hok, Hkey).
  split; [split; [done|..]|split].
  - intros x Hx. destruct (Hrows x Hx) as [(x0&n&Hx0&->)| ->]; [left; exists x0, n; by rewrite <- Hrel|right].
    exists r, o. rewrite row_id. split; [apply list_elem_of_here|]. split_and!; try done. apply stored_source_id.
  - intros x Hx Hl. destruct (Hlive x Hx Hl) as [?|E]; [left; by rewrite <- Hrel|right].
    exists r, o. rewrite E. split; [apply list_elem_of_here|done].
  - intros x Hx. rewrite <- Hrel in Hx. by apply Hrevives.
  - split; [exact Hthere|]. by exists o.
Qed.

Lemma writes_only_mono source root oid rcs rcs' s s' : (∀ r, r ∈ rcs → r ∈ rcs') →
  writes_only json_hash uuid5_url source root oid rcs s s' → writes_only json_hash uuid5_url source root oid rcs' s s'.
Proof.
  intros Hsub [Hg H L]. split; [done|..].
  - intros x Hx. destruct (H x Hx) as [?|(rc&o&?&?)]; [by left|right]. exists rc, o. auto.
  - intros x Hx Hl. destruct (L x Hx Hl) as [?|(rc&o&?&?)]; [by left|right]. exists rc, o. auto.
Qed.

(** The relations of one source on one subject that a run replaces are not current any more. *)
Lemma supersede_relations_writes root source oid rcs rev ts s us s' observation :
  writing root observation rev s →
  for_each ts (λ t, supersede_source_relations (object_id root) t source rev) s = (Ok us, s') →
  writing root observation rev s' ∧ writes_only json_hash uuid5_url source (object_id root) oid rcs s s' ∧
  ∀ x, x ∈ relations s' → relation_type x ∈ ts → source_object_id x = object_id root → rm_lifecycle x = "accepted"%string →
    dict_get "source_id" (rm_qualifier x) = Some (JStr source) → ¬ live x.
Proof.
  intros Hs H.
  assert (∀ t s u s', supersede_source_relations (object_id root) t source rev s = (Ok u, s') → ∀ x, x ∈ relations s' → live x →
    x ∈ relations s ∧ is_current_relation (object_id root) source t x = false) as Hlive.
  { intros t s0 u s1 ->%modify_Ok x (x0&Hx0&->)%elem_of_update_where.
    by destruct (is_current_relation (object_id root) source t x0) eqn:E. }
  assert (∀ t s u s', writing root observation rev s → supersede_source_relations (object_id root) t source rev s = (Ok u, s') →
    writing root observation rev s' ∧ writes_only json_hash uuid5_url source (object_id root) oid rcs s s') as Hstep.
  { intros t s0 u s1 Ht H0. assert (kept s0 s1) as Hk by (destruct Ht; by eapply supersede_relations_kept).
    split; [by eapply writing_kept|]. split; [apply Hk|..].
    - apply modify_Ok in H0 as ->. intros x (x0&Hx0&->)%elem_of_update_where. left.
      destruct (is_current_relation _ _ _ _); [by exists x0, (Some rev)|]. by apply (from_before_same s0 s0).
    - intros x Hx Hl. left. by apply (Hlive _ _ _ _ H0). }
  revert s us Hs H. induction ts as [|t ts IH]; intros s us Hs H; cbn [for_each] in H.
  { apply ret_Ok in H as [_ ->]. split; [done|]. split; [done|]. intros x _ Ht. by apply elem_of_nil in Ht. }
  apply bind_Ok in H as (u&s1&H1&H). apply bind_Ok in H as (us'&s2&H2&H). apply ret_Ok in H as [_ ->].
  destruct (Hstep _ _ _ _ Hs H1) as [Hs1 W1]. destruct (IH s1 us' Hs1 H2) as (Hs2&W2&Hnot).
  split; [done|]. split; [by etrans|]. intros x Hx Ht Hsrc Hacc Hq Hl.
  assert (relation_type x ∈ ts ∨ relation_type x = t) as [Ht'|Ht'] by (apply elem_of_cons in Ht; tauto); [by apply (Hnot x)|].
  assert (x ∈ relations s1) as Hx1.
  { clear - H2 Hx Hl Hlive. revert s1 us' H2. induction ts as [|t' ts IH]; intros s1 us' H; cbn [for_each] in H.
    - by apply ret_Ok in H as [_ ->].
    - apply bind_Ok in H as (u&s3&H1&H). apply bind_Ok in H as (v&s4&H2&H). apply ret_Ok in H as [_ ->].
      apply (Hlive _ _ _ _ H1); [by apply (IH s3 v)|done]. }
  destruct (Hlive _ _ _ _ H1 x Hx1 Hl) as [_ Hcur]. unfold is_current_relation in Hcur. subst t.
  by rewrite !bool_decide_eq_true_2 in Hcur.
Qed.

Lemma write_facts_writes source run observation candidate origin rev root u s facts s' :
  writing root observation rev s → validate_candidate_shapes candidate origin (object_type root) = Ok u →
  write_facts json_hash uuid5_url source run observation candidate origin rev root s = (Ok facts, s') →
  writes_only json_hash uuid5_url source (object_id root) (ea_observation_id observation) (ec_relations candidate) s s' ∧
  Forall2 (relation_of json_hash uuid5_url (object_id root) (ea_observation_id observation) s') (ec_relations candidate) facts.2.*2 ∧
  ∀ x, x ∈ relations s' → relation_type x ∈ replace_relation_types candidate → source_object_id x = object_id root →
    rm_lifecycle x = "accepted"%string → dict_get "source_id" (rm_qualifier x) = Some (JStr source) → live x →
    named json_hash uuid5_url (object_id root) (ea_observation_id observation) (ec_relations candidate) s' (relation_id x).
Proof.
  intros Hs [Hc Hr]%validate_shapes_Ok H. unfold write_facts in H. set (rcs := ec_relations candidate) in *.
  set (W := writes_only json_hash uuid5_url source (object_id root) (ea_observation_id observation) rcs).
  apply bind_Ok in H as (u1&s1&H1&H). apply bind_Ok in H as (u2&s2&H2&H). apply bind_Ok in H as (ids&s3&H3&H).
  apply bind_Ok in H as (targets&s4&H4&H). apply ret_Ok in H as [-> ->]. cbn [snd].
  assert (∀ t t', writing root observation rev t → kept t t' → relations t' = relations t →
    writing root observation rev t' ∧ W t t' ∧ relations t' = relations t) as Hsame.
  { intros t t' Ht Hk E. split; [by eapply writing_kept|]. split; [by apply writes_same|done]. }
  assert (PreOrder (λ t t', W t t' ∧ relations t' = relations t)) as Hpre1
    by (split; [by split|]; intros t1 t2 t3 [A1 B1] [A2 B2]; split; [by etrans|congruence]).
  assert (PreOrder (λ t t', W t t' ∧ revives t t')) as Hpre2
    by (split; [by split|]; intros t1 t2 t3 [A1 B1] [A2 B2]; split; by etrans).
  apply (for_each_steps (writing root observation rev) W) in H1 as [Hs1 G1]; [| |done].
  2: { intros p t v t' _ Ht H. assert (kept t t') as Hk by (destruct Ht; by eapply supersede_claims_kept).
    destruct (Hsame t t' Ht Hk) as (?&?&_); [by apply modify_Ok in H as ->|done]. }
  destruct (supersede_relations_writes _ _ (ea_observation_id observation) rcs _ _ _ _ _ _ Hs1 H2) as (Hs2&G2&Hnot).
  apply (for_each_steps (writing root observation rev) (λ t t', W t t' ∧ relations t' = relations t)) in H3 as [Hs3 [G3 E3]]; [| |done].
  2: { intros c t v t' Hin Ht H. assert (kept t t') as Hk by (destruct Ht; eapply write_claim_kept; try done; by apply Hc).
    apply Hsame; [done|done|]. by eapply write_claim_relations. }
  assert (∀ r t v t', r ∈ rcs → writing root observation rev t →
    write_relation json_hash uuid5_url root source run observation origin rev r t = (Ok v, t') →
    writing root observation rev t' ∧ (W t t' ∧ revives t t') ∧
    relation_of json_hash uuid5_url (object_id root) (ea_observation_id observation) t' r v.2) as HR.
  { intros r t v t' Hin Ht H. destruct (write_relation_writes _ _ _ _ _ _ _ _ _ _ Ht (Hr r Hin) H) as (Hw&Hrev&Hof).
    split; [|split; [split; [|done]|done]].
    - eapply writing_kept; [exact Ht|]. destruct Ht. eapply write_relation_kept; try done. by apply Hr.
    - eapply writes_only_mono; [|exact Hw]. by intros ? ->%list_elem_of_singleton. }
  assert (W s3 s4) as G4.
  { apply (for_each_steps (writing root observation rev) W) in H4 as [_ ?]; [done| |done].
    intros r t v t' Hin Ht H. by destruct (HR r t v t' Hin Ht H) as (?&[? _]&_). }
  split; [by rewrite G1, G2, G3, G4|]. split.
  - apply Forall2_fmap_r. refine (for_each_values (writing root observation rev) (λ t t', W t t' ∧ revives t t')
      (λ r v t, relation_of json_hash uuid5_url (object_id root) (ea_observation_id observation) t r v.2) rcs _ s3 targets s4 HR _ Hs3 H4).
    intros r v t t' _ [[Hg _ _] Hrev]. by apply relation_of_grow.
  - intros x Hx Ht Hsrc Hacc Hq Hl. destruct (wo_live _ _ _ _ _ _ _ _ G4 x Hx Hl) as [Hx3|?]; [|done]. rewrite E3 in Hx3.
    by apply (Hnot x) in Hl.
Qed.
End facts.

(** ** What a run of the writer does to relations *)

(** A loop that returns: its invariant, the steps it made, and what it did for each element. *)
Lemma for_each_all {S A B} (P : S → Prop) (R : S → S → Prop) `{!PreOrder R} (Q : A → S → Prop) (l : list A)
  (m : A → prog S B) s ys s' :
  (∀ x s a s', x ∈ l → P s → m x s = (Ok a, s') → P s' ∧ R s s' ∧ Q x s') →
  (∀ x s s', P s → R s s' → Q x s → Q x s') →
  P s → for_each l m s = (Ok ys, s') → R s s' ∧ ∀ x, x ∈ l → Q x s'.
Proof.
  intros Hm HQ Hs H. split.
  - apply (for_each_steps P R) in H as [_ ?]; [done| |done]. intros x t a t' Hx Ht Hstep.
    by destruct (Hm x t a t' Hx Ht Hstep) as (?&?&_).
  - pose proof (for_each_values P R (λ x _, Q x) l m s ys s' Hm ltac:(intros x y; exact (HQ x)) Hs H) as Hall.
    intros x Hx. apply list_elem_of_lookup in Hx as [i Hi]. by destruct (Forall2_lookup_l _ _ _ _ _ Hall Hi) as (?&_&?).
Qed.

Section runs.
Context (json_hash : json → string) (uuid5_url : string → string).

Lemma apply_fresh_writes source observation candidate name version origin run_id rev now s res s' :
  knowledge_wf uuid5_url s →
  apply_fresh json_hash uuid5_url None source observation candidate name version origin run_id rev now s = (Ok res, s') →
  ∃ o root, root_object candidate = Some o ∧ root ∈ objects s' ∧ object_key root = (oc_object_type o, oc_canonical_key o) ∧
    head (nr_object_ids res) = Some (object_id root) ∧
    (∀ x, x ∈ relations s' → from_before s x ∨
      written json_hash uuid5_url source (object_id root) (ea_observation_id observation) (ec_relations candidate) s' x) ∧
    (∀ x, x ∈ relations s' → relation_type x ∈ replace_relation_types candidate → source_object_id x = object_id root →
      rm_lifecycle x = "accepted"%string → dict_get "source_id" (rm_qualifier x) = Some (JStr source) → live x →
      named json_hash uuid5_url (object_id root) (ea_observation_id observation) (ec_relations candidate) s' (relation_id x)) ∧
    Forall2 (relation_of json_hash uuid5_url (object_id root) (ea_observation_id observation) s')
      (ec_relations candidate) (nr_relation_ids res).
Proof.
  intros Hwf H. apply apply_fresh_Ok in H.
  pose proof (apply_fresh_writing uuid5_url None observation candidate name version run_id rev now s) as Hwriting.
  cbn [run_started] in *. set (run := started_run _ _ _ _ _ _) in *. set (r := mkKnowledgeRevisionModel _ _ _ _) in *.
  destruct H as (Hrev&Hobs&root&s1&s2&s3&facts&H1&H2&Hshapes&H3&H4&->).
  destruct (Hwriting root s1 s2 Hwf Hobs H1 H2) as [Hs2 _].
  destruct (write_facts_writes _ _ _ _ _ _ _ _ _ _ _ _ _ Hs2 Hshapes H3) as ([Hg Hrows _]&Hids&Hnamed).
  apply record_change_Ok in H4 as (run'&_&->). unfold resolve_root in H1.
  destruct (root_object candidate) as [o|]; [|done].
  assert (relations s2 = relations s) as E
    by (rewrite (upsert_identifiers_relations _ _ _ _ _ _ H2); by rewrite (upsert_object_relations _ _ _ _ _ _ H1)).
  assert (∃ a, a ∈ objects s2 ∧ object_id a = object_id root ∧ object_key a = (oc_object_type o, oc_canonical_key o)) as (a2&Ha2&Hid2&Hkey2).
  { assert (facts_wf (started run r s)) as Hwf0 by (apply facts_wf_started, Hwf).
    assert (revision_known (started run r s) rev) as Hrev0
      by (unfold revision_known, started; simpl; rewrite fmap_app; apply elem_of_app; right; apply list_elem_of_here).
    apply upsert_object_kept in H1 as ([Hwf1 _]&Ht&Hkey&a&Ha&Hid&Hka); [|done..].
    eapply upsert_identifiers_kept in H2 as [_ Hg2]; [|done|exact Ht].
    destruct (fg_objects _ _ Hg2 a Ha) as (a'&Ha'&Ea&_). exists a'. split; [done|]. rewrite Ea. unfold object_key in *. simpl.
    by rewrite <- Hkey, <- Hka. }
  destruct (fg_objects _ _ Hg a2 Ha2) as (a3&Ha3&Ea&_).
  assert (object_id a3 = object_id root) as Hid3 by (by rewrite Ea).
  exists o, a3. rewrite Hid3. split; [done|]. split; [done|]. split; [rewrite Ea; exact Hkey2|]. split; [|split; [|split]].
  - cbn [nr_object_ids normalization_result changed_objects change_of].
    assert (∀ l k x, head (foldl append_new (x :: k) l) = Some x) as Hhead.
    { clear. induction l as [|y l IH]; intros k x; [done|]. cbn [foldl]. unfold append_new at 2. case_bool_decide; [apply IH|].
      apply (IH (k ++ [y])). }
    apply Hhead.
  - intros x Hx. destruct (Hrows x Hx) as [(x0&n&Hx0&->)|Hw]; [left; exists x0, n; by rewrite <- E|by right].
  - exact Hnamed.
  - exact Hids.
Qed.

(** A copied link. *)
Definition copied (id : string) (link : EvidenceLinkModel) : EvidenceLinkModel :=
  new_link json_hash uuid5_url T_RELATION id (mkEvidenceAnchor (el_observation_id link) (el_artifact_id link)) (el_locator link).

(** The copying only adds links, each a copy of one that was there. *)
Record only_links (s s' : KnowledgeStore) : Prop := {
  ol_objects : objects s' = objects s;
  ol_relations : relations s' = relations s;
  ol_claims : claims s' = claims s;
  ol_runs : processing_runs s' = processing_runs s;
  ol_changes : changes s' = changes s;
  ol_links : links s `prefix_of` links s'
}.
#[export] Instance only_links_preorder : PreOrder only_links.
Proof.
  split; [by split|]. intros a b c [] []. split; try congruence. by etrans.
Qed.

Lemma copy_link_links id l s u s' : copy_link json_hash uuid5_url id l s = (Ok u, s') →
  only_links s s' ∧ evidence_link_id (copied id l) ∈ evidence_link_id <$> links s'.
Proof.
  unfold copy_link. intros (s0&s1&H0&H)%bind_Ok. apply get_store_Ok in H0 as [-> ->]. cbv zeta in H. case_bool_decide as E.
  - apply ret_Ok in H as [_ ->]. by split.
  - apply add_link_Ok in H as (->&_). split; [split; try done; simpl; by apply prefix_app_r|]. simpl. rewrite fmap_app.
    apply elem_of_app. right. apply list_elem_of_here.
Qed.

Lemma link_id_grow s s' id : only_links s s' → id ∈ evidence_link_id <$> links s → id ∈ evidence_link_id <$> links s'.
Proof. intros [_ _ _ _ _ [more ->]] H. rewrite fmap_app. apply elem_of_app. by left. Qed.

(** Every link of the support has its copy. *)
Definition supported (s : KnowledgeStore) (sup id : string) (s' : KnowledgeStore) : Prop :=
  ∀ l, l ∈ links s → el_target_kind l = T_RELATION → el_target_id l = sup →
    evidence_link_id (copied id l) ∈ evidence_link_id <$> links s'.

Lemma supported_before s t sup id s' : only_links s t → supported t sup id s' → supported s sup id s'.
Proof. intros [_ _ _ _ _ [more E]] H l Hl. apply H. rewrite E. apply elem_of_app. by left. Qed.

Lemma copy_support_links id sup s u s' : copy_support json_hash uuid5_url id sup s = (Ok u, s') →
  only_links s s' ∧ supported s sup id s'.
Proof.
  unfold copy_support. intros (s0&s1&H0&H)%bind_Ok. apply get_store_Ok in H0 as [-> ->].
  apply bind_Ok in H as (us&s2&H1&H). apply ret_Ok in H as [_ ->].
  apply (for_each_all (λ _, True) only_links (λ l t, evidence_link_id (copied id l) ∈ evidence_link_id <$> links t)) in H1
    as [Hg Hall]; [| | |done].
  - split; [done|]. intros l Hl Hk Ht. apply Hall. by apply list_elem_of_filter.
  - intros l t v t' _ _ H. split; [done|]. by apply (copy_link_links id l t v t').
  - intros l t t' _. apply link_id_grow.
Qed.

Lemma copy_relation_links p s u s' : copy_relation json_hash uuid5_url p s = (Ok u, s') →
  only_links s s' ∧ ∀ sup, sup ∈ support_ids p.1 → supported s sup p.2 s'.
Proof.
  unfold copy_relation. intros (us&s1&H0&H)%bind_Ok. apply ret_Ok in H as [_ ->].
  apply (for_each_all (only_links s) only_links (λ sup t, supported s sup p.2 t)) in H0; [done| | |done].
  - intros sup t v t' _ Ht H. apply copy_support_links in H as [Hg Hs]. split; [by etrans|]. split; [done|].
    by apply (supported_before s t).
  - intros sup t t' _ Hg Hs l Hl Hk Hsup. apply (link_id_grow _ _ _ Hg). by apply Hs.
Qed.

Lemma copy_support_evidence_links candidate res s u s' :
  copy_support_evidence json_hash uuid5_url candidate res s = (Ok u, s') →
  length (ec_relations candidate) = length (nr_relation_ids res) ∧ only_links s s' ∧
  ∀ rc id, (rc, id) ∈ zip (ec_relations candidate) (nr_relation_ids res) →
    ∀ sup, sup ∈ support_ids rc → supported s sup id s'.
Proof.
  unfold copy_support_evidence. intros (us&s1&H0&H)%bind_Ok. apply check_Ok in H as [Hlen%negb_false_iff ->].
  apply bool_decide_eq_true in Hlen. split; [done|].
  apply (for_each_all (only_links s) only_links (λ p t, ∀ sup, sup ∈ support_ids p.1 → supported s sup p.2 t)) in H0
    as [? Hall]; [split; [done|]; intros rc id Hin; exact (Hall (rc, id) Hin)| | |done].
  - intros p t v t' _ Ht H. apply copy_relation_links in H as [Hg Hs]. split; [by etrans|]. split; [done|].
    intros sup Hsup. apply (supported_before s t); [done|by apply Hs].
  - intros p t t' _ Hg Hs sup Hsup l Hl Hk Hid. apply (link_id_grow _ _ _ Hg). by apply (Hs sup).
Qed.
End runs.

(** ** What the join finds *)

Section found.
Context (unquote sha256_hex : string → string) (isoformat ipv6_text : Z → string).
Context (json_hash : json → string) (uuid5_url : string → string).

(** The match a statement asks for: its platform, and its range of versions. *)
Definition target_match (r : RelationModel) (platform : string) : dict :=
  dict_merge [("criteria"%string, JStr platform)] (dict_value (dict_get "version_range" (rm_qualifier r))).

(** The stored statement [r] justifies that an asset with [cpes] may be affected by [v]: it is current, it is about a
    product the asset runs, one of the asset's CPEs is in its range, and the whole configuration holds. *)
Definition justified (s : KnowledgeStore) (cpes : list ParsedCPE) (v : ObjectModel) (r : RelationModel) : Prop :=
  r ∈ relations s ∧ relation_type r = "applicability-status"%string ∧ rm_lifecycle r = "accepted"%string ∧
  rm_superseded_revision r = None ∧
  v ∈ objects s ∧ object_id v = source_object_id r ∧ object_type v = "Vulnerability"%string ∧
  dict_get "source_semantics" (rm_qualifier r) = Some (JStr "nvd_cpe") ∧
  ∃ product platform configuration root,
    product ∈ objects s ∧ object_id product = target_object_id r ∧ object_type product = "Product"%string ∧
    (∃ c, c ∈ cpes ∧ product_key sha256_hex c = Ok (canonical_key product)) ∧
    dict_get "platform" (rm_qualifier r) = Some (JStr platform) ∧
    dict_get "configuration" (rm_qualifier r) = Some (JObj configuration) ∧
    dict_get "root_snapshot" configuration = Some (JObj root) ∧
    (∃ c, c ∈ cpes ∧ single_cpe_matches unquote (target_match r platform) c = Ok true) ∧
    configuration_matches unquote cpes (JObj root) = Ok true.

Lemma matched_cpes_spec m cpes l : matched_cpes unquote m cpes = Ok l →
  ∀ raw, raw ∈ l ↔ ∃ c, c ∈ cpes ∧ cpe_raw c = raw ∧ single_cpe_matches unquote m c = Ok true.
Proof.
  revert l. induction cpes as [|c cpes IH]; intros l H raw; cbn [matched_cpes] in H.
  - injection H as <-. split; [by intros ?%elem_of_nil|by intros (c&?%elem_of_nil&_)].
  - apply result_bind_Ok in H as (b&Hb&H). apply result_bind_Ok in H as (rest&Hrest&[= <-]).
    specialize (IH rest Hrest raw). destruct b; setoid_rewrite elem_of_cons; rewrite IH; split.
    + intros [->|(c'&?&?&?)]; [exists c; auto|exists c'; auto].
    + intros (c'&[->|?]&<-&?); [by left|right; by exists c'].
    + intros (c'&?&?&?). exists c'. auto.
    + intros (c'&[->|?]&?&?); [congruence|by exists c'].
Qed.

Lemma get_object_find s id o : NoDup (object_id <$> objects s) → get_object id s = Some o ↔ o ∈ objects s ∧ object_id o = id.
Proof.
  intros Hnd. unfold get_object. split.
  - by intros [? ?%bool_decide_eq_true]%find_elem.
  - intros [Ho <-]. apply (find_NoDup object_id); [done| |done]. intros y _. by rewrite bool_decide_eq_true.
Qed.

Lemma elem_of_applicability_rows s r p v : facts_wf s →
  (r, p, v) ∈ applicability_rows s ↔
    r ∈ relations s ∧ applicability r ∧ p ∈ objects s ∧ object_id p = target_object_id r ∧ object_type p = "Product"%string ∧
    v ∈ objects s ∧ object_id v = source_object_id r ∧ object_type v = "Vulnerability"%string.
Proof.
  intros Hwf. pose proof (fw_object_ids _ Hwf) as Hnd. unfold applicability_rows. rewrite list_elem_of_omap. unfold applicability_row.
  setoid_rewrite list_elem_of_filter. split.
  - intros (r'&[Ha Hr]&H). apply bind_Some in H as (p'&Hp&H). apply bind_Some in H as (v'&Hv&H).
    apply get_object_find in Hp as [? ?]; [|done]. apply get_object_find in Hv as [? ?]; [|done].
    destruct (bool_decide _ && bool_decide _) eqn:E; [|done]. apply andb_true_iff in E as [?%bool_decide_eq_true ?%bool_decide_eq_true].
    injection H as -> -> ->. done.
  - intros (Hr&Ha&Hp&Hpid&Hpt&Hv&Hvid&Hvt). exists r. split; [done|].
    rewrite (proj2 (get_object_find s _ p Hnd) (conj Hp Hpid)). simpl.
    rewrite (proj2 (get_object_find s _ v Hnd) (conj Hv Hvid)). simpl. by rewrite !bool_decide_eq_true_2.
Qed.

(** The loop body decides whether the row is a match. *)
Lemma join_row_spec s cpes keys r p v o : facts_wf s →
  (r, p, v) ∈ applicability_rows s → (∀ k, k ∈ keys ↔ ∃ c, c ∈ cpes ∧ product_key sha256_hex c = Ok k) →
  join_row unquote keys cpes (r, p, v) = Ok o →
  (∀ m, o = Some m → jm_vulnerability m = v ∧ jm_relation m = r ∧ justified s cpes v r) ∧ (justified s cpes v r → is_Some o).
Proof.
  intros Hwf Hrow Hkeys H. apply elem_of_applicability_rows in Hrow as (Hr&(A1&A2&A3)&Hp&Hpid&Hpt&Hv&Hvid&Hvt); [|done].
  assert (∀ product, product ∈ objects s → object_id product = target_object_id r → product = p) as Huniq.
  { intros q Hq Hqid. apply (NoDup_fmap_eq object_id (objects s)); [by apply fw_object_ids|done|done|congruence]. }
  unfold join_row in H. case_bool_decide as H1.
  { injection H as <-. split; [done|]. intros (_&_&_&_&_&_&_&_&q&?&?&?&Hq&Hqid&_&Hc&_). rewrite (Huniq q Hq Hqid) in Hc.
    exfalso. by apply H1, Hkeys. }
  case_bool_decide as H2.
  { injection H as <-. split; [done|]. by intros (_&_&_&_&_&_&_&?&_). }
  destruct (dict_get "platform" (rm_qualifier r)) as [[| | | |platform| |]|] eqn:Eplat;
    try (injection H as <-; split; [done|]; intros (_&_&_&_&_&_&_&_&?&?&?&?&_&_&_&_&E&_); by rewrite Eplat in E).
  destruct (dict_get "configuration" (rm_qualifier r)) as [[| | | | | |configuration]|] eqn:Econf;
    try (injection H as <-; split; [done|]; intros (_&_&_&_&_&_&_&_&?&?&?&?&_&_&_&_&_&E&_); by rewrite Econf in E).
  destruct (dict_get "root_snapshot" configuration) as [[| | | | | |root]|] eqn:Eroot;
    try (injection H as <-; split; [done|]; intros (_&_&_&_&_&_&_&_&?&?&conf&?&_&_&_&_&_&E&E'&_); rewrite Econf in E;
         injection E as <-; by rewrite Eroot in E').
  cbv zeta in H. apply result_bind_Ok in H as (l&Hl&H). pose proof (matched_cpes_spec _ _ _ Hl) as Hspec.
  assert (l = [] → ¬ ∃ c, c ∈ cpes ∧ single_cpe_matches unquote (target_match r platform) c = Ok true) as Hnone.
  { intros -> (c&Hc&E). assert (cpe_raw c ∈ (@nil string)) as Hin by (apply Hspec; by exists c). by apply elem_of_nil in Hin. }
  case_bool_decide as H3.
  { injection H as <-. split; [done|]. intros (_&_&_&_&_&_&_&_&?&plat&?&?&_&_&_&_&E&_&_&Hc&_). rewrite Eplat in E.
    injection E as <-. by apply Hnone in Hc. }
  apply result_bind_Ok in H as (b&Hb&[= <-]). destruct b; (split; [|intros Hj]); try done.
  - intros m [= <-]. split; [done|]. split; [done|]. split_and!; try done. exists p, platform, configuration, root.
    split_and!; try done; [by apply Hkeys|]. destruct l as [|raw l]; [done|].
    destruct (proj1 (Hspec raw) (list_elem_of_here _ _)) as (c&?&_&?). by exists c.
  - destruct Hj as (_&_&_&_&_&_&_&_&?&?&conf&root'&_&_&_&_&_&E&E'&_&E2). rewrite Econf in E. injection E as <-.
    rewrite Eroot in E'. injection E' as <-. congruence.
Qed.

Lemma find_matches_spec s cpes ms : facts_wf s → find_matches unquote sha256_hex s cpes = Ok ms →
  ∀ v r, (∃ m, m ∈ ms ∧ jm_vulnerability m = v ∧ jm_relation m = r) ↔ justified s cpes v r.
Proof.
  intros Hwf H. unfold find_matches in H. apply result_bind_Ok in H as (keys&Hk&H). apply result_bind_Ok in H as (found&Hf&[= <-]).
  apply try_map_Forall2 in Hk, Hf.
  assert (∀ k, k ∈ keys ↔ ∃ c, c ∈ cpes ∧ product_key sha256_hex c = Ok k) as Hkeys.
  { intros k. split.
    - intros Hin. apply list_elem_of_lookup in Hin as [i Hi]. destruct (Forall2_lookup_r _ _ _ _ _ Hk Hi) as (c&Hc&E).
      exists c. split; [by eapply list_elem_of_lookup_2|done].
    - intros (c&Hc&E). apply list_elem_of_lookup in Hc as [i Hi]. destruct (Forall2_lookup_l _ _ _ _ _ Hk Hi) as (k'&Hk'&E').
      rewrite E in E'. injection E' as ->. by eapply list_elem_of_lookup_2. }
  intros v r. split.
  - intros (m&Hm&<-&<-). apply list_elem_of_omap in Hm as (o&Ho&->). apply list_elem_of_lookup in Ho as [i Hi].
    destruct (Forall2_lookup_r _ _ _ _ _ Hf Hi) as ([[r p] v]&Hrow&E). apply list_elem_of_lookup_2 in Hrow.
    by destruct (proj1 (join_row_spec s cpes keys r p v _ Hwf Hrow Hkeys E) m eq_refl) as (->&->&?).
  - intros Hj. pose proof Hj as (Hr&A1&A2&A3&Hv&Hvid&Hvt&_&p&_&_&_&Hp&Hpid&Hpt&_).
    assert ((r, p, v) ∈ applicability_rows s) as Hrow by by apply elem_of_applicability_rows.
    pose proof Hrow as Hrow'. apply list_elem_of_lookup in Hrow' as [i Hi]. destruct (Forall2_lookup_l _ _ _ _ _ Hf Hi) as (o&Ho&E).
    destruct (join_row_spec s cpes keys r p v o Hwf Hrow Hkeys E) as [H1 H2]. destruct (H2 Hj) as [m ->].
    exists m. split; [|by destruct (H1 m eq_refl) as (?&?&_)]. apply list_elem_of_omap. exists (Some m).
    split; [by eapply list_elem_of_lookup_2|done].
Qed.

(** ** The candidate *)

Lemma names_NoDup_set {A} k (x : A) d : NoDup d.*1 → NoDup (dict_set k x d).*1.
Proof.
  intros H. assert ((dict_set k x d).*1 = if bool_decide (k ∈ d.*1) then d.*1 else d.*1 ++ [k]) as ->.
  { clear H. induction d as [|[k' y] d IH]; csimpl; [done|]. destruct (decide (k = k')) as [->|Hne]; csimpl.
    - rewrite bool_decide_eq_true_2 by apply list_elem_of_here. done.
    - rewrite IH. destruct (decide (k ∈ d.*1)) as [Hin|Hin].
      + rewrite !bool_decide_eq_true_2 by (done || by apply list_elem_of_further). done.
      + rewrite !bool_decide_eq_false_2; try done. by intros [?|?]%elem_of_cons. }
  case_bool_decide; [done|]. by apply NoDup_snoc.
Qed.

Definition match_key (m : JoinMatch) : string := object_id (jm_vulnerability m).

Lemma group_matches ms d : NoDup d.*1 →
  NoDup (foldl add_match d ms).*1 ∧
  ∀ k, default [] (dict_get k (foldl add_match d ms)) = default [] (dict_get k d) ++ filter (λ m, match_key m = k) ms.
Proof.
  revert d. induction ms as [|m ms IH]; intros d Hnd; cbn [foldl]; [split; [done|]; intros k; by rewrite app_nil_r|].
  destruct (IH (add_match d m)) as [H1 H2]; [by apply names_NoDup_set|]. split; [done|]. intros k. rewrite H2, filter_cons.
  unfold add_match. rewrite dict_get_set. change (object_id (jm_vulnerability m)) with (match_key m).
  destruct (decide (match_key m = k)) as [<-|Hne].
  - rewrite !decide_True by done. simpl. by rewrite <- app_assoc.
  - by rewrite !decide_False by done.
Qed.

(** Every group is the matches of one vulnerability, and every match is in the group of its vulnerability. *)
Lemma elem_of_groups ms g :
  g ∈ by_vulnerability ms ↔ ∃ m, m ∈ ms ∧ g = filter (λ m', match_key m' = match_key m) ms.
Proof.
  destruct (group_matches ms []) as [Hnd Hget]; [constructor|]. simpl in Hget. unfold by_vulnerability.
  assert (∀ k, dict_get k (foldl add_match [] ms) ≠ Some []) as Hne.
  { assert (∀ d, (∀ k, dict_get k d ≠ Some []) → ∀ k, dict_get k (foldl add_match d ms) ≠ Some []) as H; [|by apply H].
    clear. induction ms as [|m ms IH]; intros d Hd k; [apply Hd|]. cbn [foldl]. apply IH. clear k. intros k. unfold add_match.
    rewrite dict_get_set. destruct (decide _); [|apply Hd]. intros [= E]. by apply app_nil in E as [_ ?]. }
  split.
  - intros ([k g']&->&Hin)%list_elem_of_fmap. apply dict_get_elem in Hin; [|done]. specialize (Hget k). rewrite Hin in Hget. simpl in Hget.
    simpl. destruct g' as [|m g']; [by apply Hne in Hin|].
    assert (m ∈ filter (λ m, match_key m = k) ms) as [Hk Hm]%list_elem_of_filter by (rewrite <- Hget; apply list_elem_of_here).
    exists m. split; [done|]. by rewrite Hk.
  - intros (m&Hm&->). specialize (Hget (match_key m)).
    assert (m ∈ filter (λ m', match_key m' = match_key m) ms) as Hin by by apply list_elem_of_filter.
    destruct (dict_get (match_key m) (foldl add_match [] ms)) as [g|] eqn:E; simpl in Hget.
    + rewrite <- Hget. apply dict_get_Some_elem in E. by apply (list_elem_of_fmap_2 snd) in E.
    + rewrite <- Hget in Hin. by apply elem_of_nil in Hin.
Qed.

Lemma cpe_relations_types observed i sp sv cpes l :
  cpe_relations sha256_hex isoformat observed i sp sv cpes = Ok l →
  ∀ r, r ∈ l → rc_relation_type r ≠ "asset-potentially-affected"%string.
Proof.
  revert i sp sv l. induction cpes as [|c cpes IH]; intros i sp sv l H r Hr; cbn [cpe_relations] in H.
  { injection H as <-. by apply elem_of_nil in Hr. }
  apply result_bind_Ok in H as (key&_&H). cbv zeta in H.
  destruct (match software_version_key sha256_hex c with Some _ => _ | None => _ end) as [versions sv'] eqn:Ev.
  apply result_bind_Ok in H as (rest&Hrest&[= <-]). apply elem_of_app in Hr as [Hr|Hr]; [|apply elem_of_app in Hr as [Hr|Hr]].
  - case_bool_decide; [by apply elem_of_nil in Hr|]. by apply list_elem_of_singleton in Hr as ->.
  - destruct (software_version_key sha256_hex c); [|injection Ev as <- _; by apply elem_of_nil in Hr].
    case_bool_decide; injection Ev as <- _; [by apply elem_of_nil in Hr|]. by apply list_elem_of_singleton in Hr as ->.
  - by eapply IH.
Qed.

(** The vulnerabilities the candidate names are the justified ones, each with all of its supports. *)
Lemma candidate_spec s cpes envelope ms candidate : facts_wf s →
  find_matches unquote sha256_hex s cpes = Ok ms →
  candidate_for_asset sha256_hex isoformat ipv6_text envelope cpes ms = Ok candidate →
  (∀ rc, rc ∈ ec_relations candidate → rc_relation_type rc = "asset-potentially-affected"%string →
     ∃ v r, justified s cpes v r ∧ (oc_object_type (rc_target rc), oc_canonical_key (rc_target rc)) = object_key v) ∧
  ∀ v r, justified s cpes v r → ∃ rc, rc ∈ ec_relations candidate ∧
    rc_relation_type rc = "asset-potentially-affected"%string ∧
    (oc_object_type (rc_target rc), oc_canonical_key (rc_target rc)) = object_key v ∧ relation_id r ∈ support_ids rc.
Proof.
  intros Hwf Hfind H. pose proof (find_matches_spec s cpes ms Hwf Hfind) as Hspec.
  unfold candidate_for_asset in H. apply result_bind_Ok in H as (asset&_&H). apply result_bind_Ok in H as (rels&Hrels&[= <-]).
  cbn [ec_relations].
  assert (∀ v r, justified s cpes v r → v ∈ objects s ∧ object_type v = "Vulnerability"%string) as Hjv
    by (intros v r (_&_&_&_&?&_&?&_); done).
  split.
  - intros rc [Hrc|Hrc]%elem_of_app Htype; [by eapply cpe_relations_types in Htype|].
    apply list_elem_of_omap in Hrc as (g&Hg&E). apply elem_of_groups in Hg as (m0&_&->).
    unfold affected_relation in E. apply fmap_Some in E as (m&Hm&->).
    assert (m ∈ filter (λ m', match_key m' = match_key m0) ms) as [_ Hin]%list_elem_of_filter.
    { destruct (filter _ _); [done|]. injection Hm as ->. apply list_elem_of_here. }
    assert (justified s cpes (jm_vulnerability m) (jm_relation m)) as Hj by (apply Hspec; by exists m).
    exists (jm_vulnerability m), (jm_relation m). split; [done|]. unfold object_key. simpl.
    by destruct (Hjv _ _ Hj) as [_ ->].
  - intros v r Hj. destruct (proj2 (Hspec v r) Hj) as (m0&Hm0&Hv0&Hr0). set (g := filter (λ m', match_key m' = match_key m0) ms).
    assert (m0 ∈ g) as Hin0 by by apply list_elem_of_filter.
    destruct g as [|m g'] eqn:Eg; [by apply elem_of_nil in Hin0|].
    assert (m ∈ g) as [Hk Hm]%list_elem_of_filter by (rewrite Eg; apply list_elem_of_here).
    assert (jm_vulnerability m = v) as Ev.
    { assert (justified s cpes (jm_vulnerability m) (jm_relation m)) as Hjm by (apply Hspec; by exists m).
      apply (NoDup_fmap_eq object_id (objects s)); [by apply fw_object_ids|by apply (Hjv _ _ Hjm)|by apply (Hjv _ _ Hj)|].
      unfold match_key in Hk. by rewrite Hk, Hv0. }
    assert (∃ rc, affected_relation isoformat (ie_observed_at envelope) asset (m :: g') = Some rc) as [rc Hrc] by by eexists.
    exists rc. split.
    { apply elem_of_app. right. apply list_elem_of_omap. exists (m :: g'). split; [|done]. apply elem_of_groups. exists m0.
      by rewrite <- Eg. }
    unfold affected_relation in Hrc. simpl in Hrc. injection Hrc as <-. cbn [rc_relation_type rc_target oc_object_type oc_canonical_key].
    split; [done|]. split; [unfold object_key; rewrite Ev; by destruct (Hjv _ _ Hj) as [_ ->]|].
    unfold support_ids. rewrite bool_decide_eq_true_2 by done. cbn [rc_qualifier].
    change (dict_get "support_relation_ids" _) with
      (Some (JArr (JStr <$> sorted_set ((λ m, relation_id (jm_relation m)) <$> (m :: g'))))).
    cbn [string_list]. apply list_elem_of_omap. exists (JStr (relation_id r)). split; [|done]. apply list_elem_of_fmap_2.
    apply elem_of_sorted_set. rewrite <- Hr0. by apply (list_elem_of_fmap_2 (λ m, relation_id (jm_relation m))).
Qed.
End found.

Lemma apply_first json_hash uuid5_url source observation candidate name version origin rev now s res s' :
  knowledge_wf uuid5_url s →
  apply json_hash uuid5_url None source observation candidate name version origin rev now s = (Ok res, s') →
  nr_processing_run_id res ∉ (kc_cause_processing_run_id <$> changes s) →
  ∃ run_id, pr_status <$> (processing_runs s !! run_id) ≠ Some RUN_SUCCESS ∧
    apply_fresh json_hash uuid5_url None source observation candidate name version origin run_id rev now s = (Ok res, s').
Proof.
  intros Hwf H Hnew. unfold apply in H. apply bind_Ok in H as (seed&s1&H0&H). apply require_Ok in H0 as [_ ->]. cbv zeta in H.
  apply bind_Ok in H as (s0&s1&H0&H). apply get_store_Ok in H0 as [-> ->]. case_bool_decide as Hst; [|by eexists].
  exfalso. apply bind_Ok in H as (change&s1&H0&H). apply require_Ok in H0 as [Hf ->]. apply ret_Ok in H as [-> ->].
  apply Hnew. simpl. by apply (kw_success _ _ Hwf).
Qed.

(** ** The relations of an asset after a join *)

Definition JOIN_RELATION_TYPES : list string :=
  ["asset-runs-product"%string; "asset-version"%string; "asset-potentially-affected"%string].

(** The digests keep apart what the relations of an observation are about: a relation that is already stored under the id of
    one is that relation, and two relations of the run have one id only when they have one type and one target. *)
Record ids_faithful (json_hash : json → string) (uuid5_url : string → string) (source root observation_id : string)
  (s s' : KnowledgeStore) : Prop := {
  if_stored : ∀ x rc target, x ∈ relations s → rc_relation_type rc ∈ JOIN_RELATION_TYPES → target ∈ object_id <$> objects s' →
    relation_id x = relation_id_of json_hash uuid5_url root target observation_id rc →
    source_object_id x = root ∧ relation_type x = rc_relation_type rc ∧ target_object_id x = target ∧
    dict_get "source_id" (rm_qualifier x) = Some (JStr source);
  if_run : ∀ rc rc' target target', rc_relation_type rc ∈ JOIN_RELATION_TYPES → rc_relation_type rc' ∈ JOIN_RELATION_TYPES →
    target ∈ object_id <$> objects s' → target' ∈ object_id <$> objects s' →
    relation_id_of json_hash uuid5_url root target observation_id rc =
      relation_id_of json_hash uuid5_url root target' observation_id rc' →
    target = target' ∧ rc_relation_type rc = rc_relation_type rc'
}.

(** The source says, as things stand, that the asset may be affected by the vulnerability. *)
Record declares (source : string) (s : KnowledgeStore) (asset vulnerability : ObjectModel) (x : RelationModel) : Prop := {
  dc_relation : x ∈ relations s;
  dc_type : relation_type x = "asset-potentially-affected"%string;
  dc_current : rm_lifecycle x = "accepted"%string ∧ rm_superseded_revision x = None;
  dc_source : dict_get "source_id" (rm_qualifier x) = Some (JStr source);
  dc_asset : source_object_id x = object_id asset;
  dc_target : ∃ o, o ∈ objects s ∧ object_id o = target_object_id x ∧ object_key o = object_key vulnerability
}.

Section declared.
Context (json_hash : json → string) (uuid5_url : string → string) (source root observation_id : string).
Context (s s' : KnowledgeStore) (rcs : list RelationCandidate).
Context (Hids : ids_faithful json_hash uuid5_url source root observation_id s s').
Context (Htypes : ∀ rc, rc ∈ rcs → rc_relation_type rc ∈ JOIN_RELATION_TYPES).
Context (Hrows : ∀ x, x ∈ relations s' → from_before s x ∨ written json_hash uuid5_url source root observation_id rcs s' x).

(** A stored relation with the id of a relation of the run is that relation. *)
Lemma named_row x rc o :
  x ∈ relations s' → rc ∈ rcs → target_of s' rc o →
  relation_id x = relation_id_of json_hash uuid5_url root (object_id o) observation_id rc →
  source_object_id x = root ∧ relation_type x = rc_relation_type rc ∧ target_object_id x = object_id o ∧
  dict_get "source_id" (rm_qualifier x) = Some (JStr source).
Proof.
  intros Hx Hrc [Ho Hkey] Hid. pose proof (list_elem_of_fmap_2 object_id _ _ Ho) as Hoid.
  destruct (Hrows x Hx) as [(x0&n&Hx0&->)|(rc'&o'&Hrc'&[Ho' Hkey']&Hid'&Hsrc&Htype&Htarget&Hq)].
  - exact (if_stored _ _ _ _ _ _ _ Hids x0 rc (object_id o) Hx0 (Htypes rc Hrc) Hoid Hid).
  - rewrite Hid' in Hid.
    destruct (if_run _ _ _ _ _ _ _ Hids rc' rc _ _ (Htypes _ Hrc') (Htypes _ Hrc) (list_elem_of_fmap_2 object_id _ _ Ho') Hoid Hid)
      as [E1 E2]. by rewrite <- E1, <- E2.
Qed.
End declared.

Lemma candidate_shape sha256_hex isoformat ipv6_text envelope cpes ms candidate asset :
  map_asset_observation ipv6_text envelope = Ok asset →
  candidate_for_asset sha256_hex isoformat ipv6_text envelope cpes ms = Ok candidate →
  replace_relation_types candidate = JOIN_RELATION_TYPES ∧
  (∀ rc, rc ∈ ec_relations candidate → rc_relation_type rc ∈ JOIN_RELATION_TYPES) ∧
  ∃ o, root_object candidate = Some o ∧ oc_object_type o = "InternetAsset"%string ∧
    oc_canonical_key o = "internet-asset:service:" +:+ ao_ip asset +:+ ":" +:+ str_of_Z (ao_port asset) +:+ "/" +:+ ao_transport asset.
Proof.
  intros Ha H. unfold candidate_for_asset in H. rewrite Ha in H. apply result_bind_Ok in H as (?&[= <-]&H).
  apply result_bind_Ok in H as (rels&Hrels&[= <-]).
  split; [done|]. split; [|by eexists]. cbn [ec_relations]. intros rc [Hrc|Hrc]%elem_of_app.
  - revert Hrc Hrels. generalize (@nil string) at 1. generalize (@nil string). generalize 0%nat. clear. revert rels.
    induction cpes as [|c cpes IH]; intros rels i sv sp Hrc H; cbn [cpe_relations] in H; [injection H as <-; by apply elem_of_nil in Hrc|].
    apply result_bind_Ok in H as (key&_&H). cbv zeta in H.
    destruct (match software_version_key sha256_hex c with Some _ => _ | None => _ end) as [versions sv'] eqn:Ev.
    apply result_bind_Ok in H as (rest&Hrest&[= <-]). apply elem_of_app in Hrc as [Hrc|Hrc]; [|apply elem_of_app in Hrc as [Hrc|Hrc]].
    + case_bool_decide; [by apply elem_of_nil in Hrc|]. apply list_elem_of_singleton in Hrc as ->. by left.
    + destruct (software_version_key sha256_hex c); [|injection Ev as <- _; by apply elem_of_nil in Hrc].
      case_bool_decide; injection Ev as <- _; [by apply elem_of_nil in Hrc|]. apply list_elem_of_singleton in Hrc as ->. right. by left.
    + by eapply IH.
  - apply list_elem_of_omap in Hrc as (g&_&E). unfold affected_relation in E. apply fmap_Some in E as (m&_&->).
    right. right. by left.
Qed.

(** C14. What the join declares of an asset.  When the join of an observation runs for the first time, over any history of the
    knowledge base, the asset of the observation - its address, port and transport - is stored, and the source then
    declares it, currently, to be potentially affected by a vulnerability exactly when a stored statement justifies it: the
    vulnerability has a current NVD statement about a product the asset runs, whose range holds a CPE of the asset and whose
    whole configuration holds.  What the source had declared of the asset before is superseded with it.  The relation
    names every such statement among its supports, and of every evidence link of the statement a copy is stored for it.
    (The digests are assumed to keep the relations of the observation apart.) *)
Theorem enrich_affected unquote sha256_hex isoformat ipv6_text json_hash uuid5_url ops source envelope observation rev now res s' :
  let s := run_knowledge_ops json_hash uuid5_url ops empty_knowledge in
  enrich unquote sha256_hex isoformat ipv6_text json_hash uuid5_url source envelope observation rev now s = (Ok (Some res), s') →
  nr_processing_run_id res ∉ (kc_cause_processing_run_id <$> changes s) →
  (∀ root, head (nr_object_ids res) = Some root → ids_faithful json_hash uuid5_url source root (ea_observation_id observation) s s') →
  ∃ asset a, map_asset_observation ipv6_text envelope = Ok asset ∧ a ∈ objects s' ∧
    object_key a = ("InternetAsset"%string,
      "internet-asset:service:" +:+ ao_ip asset +:+ ":" +:+ str_of_Z (ao_port asset) +:+ "/" +:+ ao_transport asset) ∧
    head (nr_object_ids res) = Some (object_id a) ∧
    let cpes := asset_cpes unquote (ao_cpe asset) (ao_version asset) in
    (∀ v x, declares source s' a v x → ∃ v' r, justified unquote sha256_hex s cpes v' r ∧ object_key v' = object_key v) ∧
    (∀ v r, justified unquote sha256_hex s cpes v r →
       ∃ x rc, declares source s' a v x ∧
         relation_id x = relation_id_of json_hash uuid5_url (object_id a) (target_object_id x) (ea_observation_id observation) rc ∧
         relation_id r ∈ support_ids rc ∧
         ∀ l, l ∈ links s → el_target_kind l = T_RELATION → el_target_id l = relation_id r →
           evidence_link_id (copied json_hash uuid5_url (relation_id x) l) ∈ evidence_link_id <$> links s').
Proof.
  intros s H Hnew Hdistinct. destruct (run_knowledge_ops_good json_hash uuid5_url ops _ (empty_knowledge_wf uuid5_url)) as [Hwf _].
  fold s in Hwf. pose proof (kw_facts _ _ Hwf) as Hfacts. unfold enrich in H.
  apply bind_Ok in H as (asset&s0&H0&H). apply lift_Ok in H0 as [Hasset ->]. cbv zeta in H.
  set (cpes := asset_cpes unquote _ _) in *. case_bool_decide as Hcpes; [done|].
  apply bind_Ok in H as (s0&s1&H0&H). apply get_store_Ok in H0 as [-> ->].
  apply bind_Ok in H as (ms&s0&H0&H). apply lift_Ok in H0 as [Hms ->].
  apply bind_Ok in H as (candidate&s0&H0&H). apply lift_Ok in H0 as [Hcand ->].
  apply bind_Ok in H as (res0&s1&Happly&H). apply bind_Ok in H as (u&s2&Hcopy&H). apply ret_Ok in H as [E ->].
  injection E as ->. destruct (candidate_spec unquote sha256_hex isoformat ipv6_text s cpes envelope ms candidate Hfacts Hms Hcand)
    as [Hsound Hcomplete].
  destruct (candidate_shape _ _ _ _ _ _ _ _ Hasset Hcand) as (Hreplaced&Htypes&o0&Ho0&Hot&Hok).
  destruct (apply_first _ _ _ _ _ _ _ _ _ _ _ _ _ Hwf Happly Hnew) as (run_id&Hst&Hfresh).
  destruct (apply_fresh_good _ _ _ _ _ _ _ _ _ _ _ _ _ _ _ Hwf Hst Hfresh) as (Hwf1&[_ _ _ _ _ Hlinks _ _ _ _]&_).
  destruct (apply_fresh_writes _ _ _ _ _ _ _ _ _ _ _ _ _ _ Hwf Hfresh) as (o1&a&Ho1&Ha&Hkey&Hhead&Hrows&Hnamed&Hids).
  destruct (copy_support_evidence_links _ _ _ _ _ _ _ Hcopy) as (_&[Eo Er _ _ _ _]&Hcopied).
  specialize (Hdistinct _ Hhead). rewrite Ho0 in Ho1. injection Ho1 as <-. rewrite Hot, Hok in Hkey.
  rewrite Hreplaced in Hnamed.
  assert (ids_faithful json_hash uuid5_url source (object_id a) (ea_observation_id observation) s s1) as Hfaith
    by (destruct Hdistinct as [D1 D2]; rewrite Eo in D1, D2; by split).
  assert (∀ x, x ∈ relations s1 → rm_lifecycle x = "accepted"%string) as Hacc
    by (intros x Hx; by apply (ro_lifecycle s1), (fw_relations _ (kw_facts _ _ Hwf1))).
  assert ("asset-potentially-affected"%string ∈ JOIN_RELATION_TYPES) as Hlast by (right; right; by left).
  exists asset, a. rewrite Eo. split; [done|]. split; [done|]. split; [done|]. split; [done|]. split.
  - intros v x [Hx Ht [Hl1 Hl2] Hq Hsrc (o&Ho&Hoid&Hov)]. rewrite Er in Hx. rewrite Eo in Ho.
    assert (relation_type x ∈ JOIN_RELATION_TYPES) as Htin by (by rewrite Ht).
    destruct (Hnamed x Hx Htin Hsrc Hl1 Hq Hl2) as (rc&o'&Hrc&Ho'&Hid).
    destruct (named_row _ _ _ _ _ _ _ _ Hfaith Htypes Hrows x rc o' Hx Hrc Ho' Hid) as (_&Hty&Htg&_).
    destruct (Hsound rc Hrc) as (v'&r&Hj&Hv'); [congruence|]. exists v', r. split; [done|]. rewrite <- Hv'.
    destruct Ho' as [Ho' Hk']. assert (o = o') as -> by (apply (NoDup_fmap_eq object_id (objects s1)); [apply Hwf1|done|done|congruence]).
    unfold target_key in Hk'. congruence.
  - intros v r Hj. destruct (Hcomplete v r Hj) as (rc&Hrc&Hrct&Hrck&Hsup).
    pose proof Hrc as Hrc'. apply list_elem_of_lookup in Hrc' as [i Hi].
    destruct (Forall2_lookup_l _ _ _ _ _ Hids Hi) as (id&Hid&(x&Hx&Hxid&Hxl)&o&Ho&Eid). subst id.
    destruct (named_row _ _ _ _ _ _ _ _ Hfaith Htypes Hrows x rc o Hx Hrc Ho Eid) as (Hsrc&Hty&Htg&Hq).
    exists x, rc. split; [|split; [by rewrite Htg|split; [done|]]].
    + split; rewrite ?Er, ?Eo; [done|congruence|split; [by apply Hacc|done]|done|done|].
      destruct Ho as [Ho Hk]. exists o. split; [done|]. split; [done|]. unfold target_key in Hk. congruence.
    + intros l Hl Hk Htid. apply (Hcopied rc (relation_id x)) with (sup := relation_id r); [|done| |done|done].
      * apply list_elem_of_lookup_2 with i. apply lookup_zip_Some. by split.
      * destruct Hlinks as [more ->]. apply elem_of_app. by left.
Qed.

(** ** A concrete join *)

Definition web_criteria : dict :=
  [("criteria"%string, JStr "cpe:2.3:a:acme:web:*"); ("versionEndExcluding"%string, JStr "1.3")].
Definition web_configuration : json :=
  JObj [("root_snapshot"%string, JObj [("operator"%string, JStr "AND");
     ("cpeMatch"%string, JArr [JObj web_criteria]);
     ("nodes"%string, JArr [JObj [("operator"%string, JStr "OR"); ("negate"%string, JBool true);
        ("cpeMatch"%string, JArr [JObj [("criteria"%string, JStr "cpe:/o:acme:os")]])]])])].
Definition web_statement : RelationCandidate :=
  mkRelationCandidate "applicability-status" (mkObjectCandidate "Product" "product:cpe23-sha256:a|acme|web" [] [])
    [("source_semantics"%string, JStr "nvd_cpe"); ("state"%string, JStr "affected");
     ("platform"%string, JStr "cpe:2.3:a:acme:web:*"); ("version_range"%string, JObj [("versionEndExcluding"%string, JStr "1.3")]);
     ("configuration"%string, web_configuration)] [].
Definition nvd_candidate (cve : string) : EnrichmentCandidate :=
  mkEnrichmentCandidate (Some (mkObjectCandidate "Vulnerability" ("cve:" +:+ cve) [] [("cve"%string, [cve])])) [] [] [web_statement] [] [].
Definition join_ops : list knowledge_op :=
  [Observe "o1" (sample_observation "nvd"); Observe "o2" (sample_observation "shodan"); Observe "o3" (sample_observation "nvd");
   Apply None "nvd" (sample_anchor "o1") (nvd_candidate "CVE-2024-1") "nvd" "1" DETERMINISTIC_DERIVED 1 10].
Definition join_store : KnowledgeStore := run_knowledge_ops sample_hash same join_ops empty_knowledge.

Definition asset_envelope (cpe : string) : IngestEnvelope :=
  mkIngestEnvelope "run" ON_DEMAND "shodan" "10.0.0.1" None None None 5 None "application/json"
    (Some [("ip"%string, JInt 167772161); ("port"%string, JInt 80); ("cpe"%string, JArr [JStr cpe])]) None "h"
    [("query"%string, JStr "q"); ("provider"%string, JStr "shodan")] "k".
Definition join_run (cpe : string) (revision : Z) : prog KnowledgeStore (option NormalizationResult) :=
  enrich same same str_of_Z str_of_Z sample_hash same "shodan" (asset_envelope cpe) (sample_anchor "o2") revision 20.
Definition affected_targets (s : KnowledgeStore) : list string :=
  target_object_id <$> filter (λ r, relation_type r = "asset-potentially-affected"%string) (relations s).

(** Version 1.2 is affected; 1.3 is outside the range; a version that is not numeric is in no range. *)
Example join_affected :
  (affected_targets (join_run "cpe:2.3:a:acme:web:1.2" 2 join_store).2,
   affected_targets (join_run "cpe:2.3:a:acme:web:1.3" 2 join_store).2,
   affected_targets (join_run "cpe:2.3:a:acme:web:beta" 2 join_store).2) =
  (["secfusion:object:vulnerability:cve:CVE-2024-1"%string], [], []).
Proof. vm_compute. reflexivity. Qed.

(** What was declared before is withdrawn: the asset is seen again with version 1.3. *)
Example join_withdraws :
  let after := (join_run "cpe:2.3:a:acme:web:1.2" 2 join_store).2 in
  let seen := run_knowledge_ops sample_hash same [Observe "o4" (sample_observation "shodan")] after in
  let again := (enrich same same str_of_Z str_of_Z sample_hash same "shodan" (asset_envelope "cpe:2.3:a:acme:web:1.3") (sample_anchor "o4")
                  3 30 seen).2 in
  (affected_targets after, rm_superseded_revision <$> filter (λ r, relation_type r = "asset-potentially-affected"%string) (relations again))
  = (["secfusion:object:vulnerability:cve:CVE-2024-1"%string], [Some 3]).
Proof. vm_compute. reflexivity. Qed.

(** Two strings that differ whatever follows them. *)
Fixpoint diverge (a b : string) : bool :=
  match a, b with
  | String c a', String d b' => negb (bool_decide (c = d)) || diverge a' b'
  | _, _ => false
  end.
Lemma diverge_ne a b x y : diverge a b = true → a +:+ x ≠ b +:+ y.
Proof.
  revert b. induction a as [|c a IH]; intros [|d b] H; try done. cbn in H. apply orb_true_iff in H as [H|H].
  - apply negb_true_iff, bool_decide_eq_false in H. by intros [= ? _].
  - intros [= _ E]. by apply (IH b).
Qed.

Definition relation_stem (root ty target oid : string) : string :=
  "secfusion:relation:" +:+ root +:+ ":" +:+ ty +:+ ":" +:+ target +:+ ":" +:+ oid +:+ ":".
Lemma relation_id_stem root target oid rc :
  relation_id_of sample_hash same root target oid rc =
  relation_stem root (rc_relation_type rc) target oid +:+ sample_hash (JObj (rc_qualifier rc)).
Proof.
  assert (∀ a b c : string, (a +:+ b) +:+ c = a +:+ (b +:+ c)) as Happ
    by (intros a b c; induction a as [|x a IH]; [done|]; change (String x ((a +:+ b) +:+ c) = String x (a +:+ (b +:+ c))); by rewrite IH).
  unfold relation_id_of, knowledge_id, relation_stem. by rewrite !Happ.
Qed.

(** The identities of the sample run are faithful, as its digests lose nothing. *)
Definition stems_apart (root oid : string) (stored targets : list string) : bool :=
  forallb (λ ty, forallb (λ t,
    forallb (λ id, diverge (relation_stem root ty t oid) id) stored &&
    forallb (λ ty', forallb (λ t',
      (bool_decide (ty = ty') && bool_decide (t = t')) || diverge (relation_stem root ty t oid) (relation_stem root ty' t' oid))
      targets) JOIN_RELATION_TYPES) targets) JOIN_RELATION_TYPES.

Lemma stems_apart_faithful source root oid s s' :
  stems_apart root oid (relation_id <$> relations s) (object_id <$> objects s') = true →
  ids_faithful sample_hash same source root oid s s'.
Proof.
  unfold stems_apart. intros H.
  assert (∀ ty t, ty ∈ JOIN_RELATION_TYPES → t ∈ object_id <$> objects s' →
    (∀ id, id ∈ relation_id <$> relations s → diverge (relation_stem root ty t oid) id = true) ∧
    ∀ ty' t', ty' ∈ JOIN_RELATION_TYPES → t' ∈ object_id <$> objects s' →
      ty = ty' ∧ t = t' ∨ diverge (relation_stem root ty t oid) (relation_stem root ty' t' oid) = true) as Hall.
  { intros ty t Hty Ht. rewrite forallb_forall in H. apply list_elem_of_In in Hty, Ht. specialize (H ty Hty).
    rewrite forallb_forall in H. apply H in Ht. apply andb_true_iff in Ht as [H1 H2]. split.
    - intros id Hid%list_elem_of_In. rewrite forallb_forall in H1. by apply H1.
    - intros ty' t' Hty'%list_elem_of_In Ht'%list_elem_of_In. rewrite forallb_forall in H2. specialize (H2 ty' Hty').
      rewrite forallb_forall in H2. apply H2 in Ht'. apply orb_true_iff in Ht' as [Ht'|?]; [left|by right].
      apply andb_true_iff in Ht' as [?%bool_decide_eq_true ?%bool_decide_eq_true]. done. }
  split.
  - intros x rc target Hx Hty Ht E. rewrite relation_id_stem in E. exfalso.
    destruct (Hall _ _ Hty Ht) as [Hd _]. specialize (Hd _ (list_elem_of_fmap_2 relation_id _ _ Hx)).
    apply (diverge_ne _ _ (sample_hash (JObj (rc_qualifier rc))) "" Hd). rewrite <- E.
    generalize (relation_id x). clear. intros w. induction w as [|c w IH]; [done|].
    change (String c w = String c (w +:+ "")). by rewrite <- IH.
  - intros rc rc' t t' Hty Hty' Ht Ht' E. rewrite !relation_id_stem in E.
    destruct (proj2 (Hall _ _ Hty Ht) _ _ Hty' Ht') as [[? ?]|Hd]; [done|]. by apply diverge_ne in E.
Qed.

Lemma join_sample_fresh :
  match join_run "cpe:2.3:a:acme:web:1.2" 2 join_store with
  | (Ok (Some res), s') => bool_decide (nr_processing_run_id res ∉ kc_cause_processing_run_id <$> changes join_store) &&
      match head (nr_object_ids res) with
      | Some root => stems_apart root "o2" (relation_id <$> relations join_store) (object_id <$> objects s')
      | None => true
      end
  | _ => false
  end = true.
Proof. vm_compute. reflexivity. Qed.

Lemma enrich_affected_witness : ∃ res s' a,
  join_run "cpe:2.3:a:acme:web:1.2" 2 join_store = (Ok (Some res), s') ∧
  ids_faithful sample_hash same "shodan" (object_id a) "o2" join_store s' ∧
  a ∈ objects s' ∧ object_key a = ("InternetAsset"%string, "internet-asset:service:10.0.0.1:80/tcp"%string).
Proof.
  pose proof join_sample_fresh as Hnew.
  destruct (join_run "cpe:2.3:a:acme:web:1.2" 2 join_store) as [[[res|]|e] s'] eqn:E; [|discriminate Hnew|discriminate Hnew].
  apply andb_true_iff in Hnew as [Hnew Hstems]. apply bool_decide_eq_true in Hnew.
  assert (∀ root, head (nr_object_ids res) = Some root → ids_faithful sample_hash same "shodan" root "o2" join_store s') as Hfaith
    by (intros root Hr; rewrite Hr in Hstems; by apply stems_apart_faithful).
  destruct (enrich_affected same same str_of_Z str_of_Z sample_hash same join_ops "shodan" (asset_envelope "cpe:2.3:a:acme:web:1.2")
    (sample_anchor "o2") 2 20 res s' E Hnew Hfaith) as (asset&a&Hasset&Ha&Hkey&Hroot&_).
  exists res, s', a. split; [reflexivity|]. split; [by apply Hfaith|]. split; [exact Ha|]. rewrite Hkey.
  vm_compute in Hasset. injection Hasset as <-. vm_compute. reflexivity.
Defined.

(** A second join of the same observation replays the writer's result, but computes its candidate anew: once NVD has
    stated another vulnerability of the product the candidate has more relations than the result, and [zip] raises. *)
Example join_replay_raises :
  let after := (join_run "cpe:2.3:a:acme:web:1.2" 2 join_store).2 in
  let later := run_knowledge_ops sample_hash same
    [Apply None "nvd" (sample_anchor "o3") (nvd_candidate "CVE-2024-2") "nvd" "1" DETERMINISTIC_DERIVED 3 30] after in
  is_ok (join_run "cpe:2.3:a:acme:web:1.2" 4 after).1 = true ∧
  (join_run "cpe:2.3:a:acme:web:1.2" 4 later).1 = Err (ValueError "zip() arguments have different lengths").
Proof. vm_compute. by split. Qed.

(** A blank vendor passes [parse_cpe], whose check is before the strip of [product_key]: the join of the asset raises. *)
Example blank_vendor_raises :
  (join_run "cpe:/a: :web:1.2" 2 join_store).1 = Err (ValueError "CPE product identity requires concrete part/vendor/product").
Proof. vm_compute. reflexivity. Qed.

(** ** Configurations *)

Section configurations.
Context (unquote : string → string).

Definition is_object (j : json) : bool := match j with JObj _ => true | _ => false end.
Definition nodes_of (fields : dict) : list json :=
  match dict_get "nodes" fields with Some (JArr items) => filter (λ j, is_object j) items | _ => [] end.
Definition matches_of (fields : dict) : list dict :=
  match dict_get "cpeMatch" fields with Some (JArr items) => omap json_dict items | _ => [] end.

(** The recursion without the search for the field. *)
Lemma configuration_matches_eq cpes fields :
  configuration_matches unquote cpes (JObj fields) =
    (matches ← try_map (cpe_match_satisfied unquote cpes) (matches_of fields);
     nodes ← try_map (configuration_matches unquote cpes) (nodes_of fields);
     Ok (combine fields (matches ++ nodes))).
Proof.
  cbn [configuration_matches]. unfold matches_of.
  assert (∀ items, (fix each (items : list json) : result (list bool) :=
      match items with
      | [] => Ok []
      | item :: items' =>
          match item with
          | JObj _ => b ← configuration_matches unquote cpes item; bs ← each items'; Ok (b :: bs)
          | _ => each items'
          end
      end) items = try_map (configuration_matches unquote cpes) (filter (λ j, is_object j) items)) as Heach.
  { induction items as [|item items IH]; [done|]. rewrite filter_cons. destruct item; simpl; first [exact IH|by rewrite IH]. }
  assert (∀ d, (fix search (d : dict) : result (list bool) :=
      match d with
      | [] => Ok []
      | (k, v) :: d' =>
          if decide ("nodes"%string = k) then
            match v with
            | JArr items =>
                (fix each (items : list json) : result (list bool) :=
                   match items with
                   | [] => Ok []
                   | item :: items' =>
                       match item with
                       | JObj _ => b ← configuration_matches unquote cpes item; bs ← each items'; Ok (b :: bs)
                       | _ => each items'
                       end
                   end) items
            | _ => Ok []
            end
          else search d'
      end) d = try_map (configuration_matches unquote cpes)
        match dict_get "nodes" d with Some (JArr items) => filter (λ j, is_object j) items | _ => [] end) as Hsearch.
  { induction d as [|[k v] d IH]; [done|]. cbn [dict_get]. destruct (decide ("nodes"%string = k)); [|exact IH].
    destruct v; first [exact (Heach _)|reflexivity]. }
  rewrite Hsearch. unfold nodes_of. destruct (dict_get "cpeMatch" fields) as [[]|]; reflexivity.
Qed.

Lemma any_lazy_true {A} (f : A → result bool) l : any_lazy f l = Ok true → ∃ x, x ∈ l ∧ f x = Ok true.
Proof.
  induction l as [|x l IH]; [done|]. cbn [any_lazy]. intros (b&Hb&H)%result_bind_Ok. destruct b.
  - exists x. split; [apply list_elem_of_here|done].
  - destruct (IH H) as (y&?&?). exists y. split; [by apply list_elem_of_further|done].
Qed.
Lemma any_lazy_false {A} (f : A → result bool) l : any_lazy f l = Ok false → ∀ x, x ∈ l → f x = Ok false.
Proof.
  induction l as [|x l IH]; [by intros _ x ?%elem_of_nil|]. cbn [any_lazy]. intros (b&Hb&H)%result_bind_Ok. destruct b; [done|].
  intros y [->|Hy]%elem_of_cons; [done|by apply IH].
Qed.

(** Operands that only get true. *)
Lemma combine_mono fields l l' :
  dict_get "negate" fields ≠ Some (JBool true) → Forall2 (λ b b' : bool, b = true → b' = true) l l' →
  combine fields l = true → combine fields l' = true.
Proof.
  unfold combine. intros Hneg Hl. rewrite (bool_decide_eq_false_2 (dict_get "negate" fields = _)) by done.
  destruct Hl as [|b b' l l' Hb Hl]; [done|].
  rewrite (bool_decide_eq_false_2 (b :: l = [])), (bool_decide_eq_false_2 (b' :: l' = [])) by done. cbv zeta iota.
  assert (Forall2 (λ b b' : bool, b = true → b' = true) (b :: l) (b' :: l')) as Hall by by constructor.
  case_bool_decide.
  - rewrite !forallb_forall. intros Hf y Hy%list_elem_of_In. apply list_elem_of_lookup in Hy as [i Hi].
    destruct (Forall2_lookup_r _ _ _ _ _ Hall Hi) as (x&Hx&Hxy). apply Hxy, Hf. by apply list_elem_of_In, list_elem_of_lookup_2 with i.
  - rewrite !existsb_exists. intros (x&Hx&Hxt). apply list_elem_of_In, list_elem_of_lookup in Hx as [i Hi].
    destruct (Forall2_lookup_l _ _ _ _ _ Hall Hi) as (y&Hy&Hxy). exists y. split; [|by apply Hxy].
    by apply list_elem_of_In, list_elem_of_lookup_2 with i.
Qed.

(** A configuration without negation. *)
Inductive positive : json → Prop :=
| positive_node fields :
    dict_get "negate" fields ≠ Some (JBool true) → (∀ j, j ∈ nodes_of fields → positive j) → positive (JObj fields).

Lemma try_map_mono {A} (f g : A → result bool) (l : list A) bs bs' :
  (∀ x b', x ∈ l → f x = Ok true → g x = Ok b' → b' = true) →
  try_map f l = Ok bs → try_map g l = Ok bs' → Forall2 (λ b b' : bool, b = true → b' = true) bs bs'.
Proof.
  revert bs bs'. induction l as [|x l IH]; intros bs bs' Hfg Hf Hg; simpl in Hf, Hg; [injection Hf as <-; injection Hg as <-; constructor|].
  apply result_bind_Ok in Hf as (b&Hb&Hf). apply result_bind_Ok in Hf as (l1&Hl1&[= <-]).
  apply result_bind_Ok in Hg as (b'&Hb'&Hg). apply result_bind_Ok in Hg as (l2&Hl2&[= <-]).
  constructor; [intros ->; by apply (Hfg x b' (list_elem_of_here _ _))|]. apply IH; [|done|done].
  intros y c Hy. by apply Hfg, list_elem_of_further.
Qed.
End configurations.

(** A configuration without negation is monotone: what holds of an asset still holds when more software is found
    on it. *)
Theorem configuration_monotone unquote cpes cpes' root :
  positive root → (∀ c, c ∈ cpes → c ∈ cpes') →
  configuration_matches unquote cpes root = Ok true → configuration_matches unquote cpes' root ≠ Ok false.
Proof.
  intros Hpos Hsub. induction Hpos as [fields Hneg Hnodes IH]; intros H1 H2.
  rewrite configuration_matches_eq in H1, H2.
  apply result_bind_Ok in H1 as (m1&Hm1&H1). apply result_bind_Ok in H1 as (n1&Hn1&[= H1]).
  apply result_bind_Ok in H2 as (m2&Hm2&H2). apply result_bind_Ok in H2 as (n2&Hn2&[= H2]).
  assert (combine fields (m2 ++ n2) = true) as H3; [|congruence].
  apply (combine_mono fields (m1 ++ n1)); [done| |done]. apply Forall2_app.
  - eapply try_map_mono; [|exact Hm1|exact Hm2]. intros m b' _ Ht Hb'. destruct b'; [done|].
    apply any_lazy_true in Ht as (c&Hc&E). pose proof (any_lazy_false _ _ Hb' c (Hsub c Hc)). congruence.
  - eapply try_map_mono; [|exact Hn1|exact Hn2]. intros j b' Hj Ht Hb'. destruct b'; [done|]. by destruct (IH j Hj Ht).
Qed.

Lemma configuration_monotone_witness :
  let root := JObj [("operator"%string, JStr "AND"); ("cpeMatch"%string, JArr [JObj web_criteria])] in
  let web := mkParsedCPE "cpe:2.3:a:acme:web:1.2" "a" "acme" "web" "1.2" in
  let os := mkParsedCPE "cpe:/o:acme:os" "o" "acme" "os" "*" in
  configuration_matches same [web; os] root ≠ Ok false.
Proof.
  intros root web os. apply (configuration_monotone same [web] [web; os] root).
  - constructor; [vm_compute; discriminate|]. intros j Hj. vm_compute in Hj. by apply elem_of_nil in Hj.
  - intros c ->%list_elem_of_singleton. apply list_elem_of_here.
  - vm_compute. reflexivity.
Defined.
