(* ===== verification/EnrichmentState.v ===== *)
(** * EnrichmentState: packages/enrichment/runtime/state.py and its tables (state_models.py)

    How much of a vulnerability the knowledge base knows.  Each [EnrichmentDimension] of the vocabulary is resolved,
    in conflict, explicitly unknown or missing; [build] evaluates the twelve of them over the current canonical facts
    of an object and the attempts that were made to enrich it, and stores the evaluation in one row per object and
    dimension.  [record_enrichment_attempt] keeps the attempts, which are immutable but for the world revision their
    round ends in (packages/enrichment/runtime/role.py, in EnrichmentRole).

    [blocked_reason] is the one column whose text comes from outside (the message of a provider's error), so its width
    is modelled; the other texts are identifiers and closed names.

    [EnrichmentDB] holds the two tables with those of the knowledge base and of the tasks they refer to.  uuid5, the
    decimal text of a finite float, [isoformat()] and the text of an instant in pydantic's JSON are parameters. *)

From S2P Require Import Prelude.
From S2P Require Import Effects.
From S2P Require Import TaskStore.
From S2P Require Import Vocabulary.
From S2P Require Import Knowledge.
From S2P Require Import KnowledgeRead.
From Stdlib Require Import Ascii.

(** ** The dimensions *)

#[export] Instance EnrichmentDimension_eq_dec : EqDecision EnrichmentDimension.
Proof. solve_decision. Defined.

Definition EnrichmentDimension_value (d : EnrichmentDimension) : string :=
  match d with
  | IDENTITY => "identity" | SEVERITY => "severity" | WEAKNESS => "weakness" | PRODUCT_PACKAGE => "product_package"
  | VERSION_APPLICABILITY => "version_applicability" | FIX_REMEDIATION => "fix_remediation"
  | EXPLOIT_STATE => "exploit_state" | EXPLOIT_LIKELIHOOD => "exploit_likelihood"
  | ADVISORY_REFERENCE => "advisory_reference" | ASSET_EXPOSURE => "asset_exposure"
  | RESEARCH_PAPER => "research_paper" | INCIDENT_CONTEXT => "incident_context"
  end.

(** [for dimension in EnrichmentDimension] *)
Definition dimensions : list EnrichmentDimension :=
  [IDENTITY; SEVERITY; WEAKNESS; PRODUCT_PACKAGE; VERSION_APPLICABILITY; FIX_REMEDIATION; EXPLOIT_STATE;
   EXPLOIT_LIKELIHOOD; ADVISORY_REFERENCE; ASSET_EXPOSURE; RESEARCH_PAPER; INCIDENT_CONTEXT].

(** [ApplicabilityState.UNKNOWN] *)
Definition APPLICABILITY_UNKNOWN : string := "unknown".

Inductive EnrichmentStatus := RESOLVED | CONFLICT | UNKNOWN | MISSING.
#[export] Instance EnrichmentStatus_eq_dec : EqDecision EnrichmentStatus.
Proof. solve_decision. Defined.

Inductive EnrichmentAttemptStatus := ATTEMPT_SUCCEEDED | ATTEMPT_BLOCKED | ATTEMPT_FAILED.
#[export] Instance EnrichmentAttemptStatus_eq_dec : EqDecision EnrichmentAttemptStatus.
Proof. solve_decision. Defined.
Definition EnrichmentAttemptStatus_value (s : EnrichmentAttemptStatus) : string :=
  match s with ATTEMPT_SUCCEEDED => "succeeded" | ATTEMPT_BLOCKED => "blocked" | ATTEMPT_FAILED => "failed" end.

Inductive EnrichmentSemanticOutcome := OUTCOME_RESOLVED | OUTCOME_UNKNOWN | OUTCOME_NO_CHANGE.
#[export] Instance EnrichmentSemanticOutcome_eq_dec : EqDecision EnrichmentSemanticOutcome.
Proof. solve_decision. Defined.
Definition EnrichmentSemanticOutcome_value (o : EnrichmentSemanticOutcome) : string :=
  match o with OUTCOME_RESOLVED => "resolved" | OUTCOME_UNKNOWN => "unknown" | OUTCOME_NO_CHANGE => "no_change" end.

Record EnrichmentDimensionSpec := mkEnrichmentDimensionSpec {
  sp_requirement_id : string;
  sp_vocabulary_revision : string;
  sp_target_object_type : string;
  sp_dimension : EnrichmentDimension;
  canonical_terms : list string;
  required : bool;
  acceptable_source_roles : list string;
  authority_requirement : option string;
  freshness_requirement : string;
  evidence_requirement : string;
  sp_completion_predicate : string
}.

Record EnrichmentDimensionState := mkEnrichmentDimensionState {
  st_target_object_id : string;
  st_target_object_type : string;
  st_target_object_key : string;
  st_requirement_id : string;
  st_vocabulary_revision : string;
  st_dimension : EnrichmentDimension;
  st_status : EnrichmentStatus;
  accepted_fact_refs : list string;
  conflict_refs : list string;
  missing_prerequisites : list string;
  attempted_operator_refs : list string;
  blocked_attempt_refs : list string;
  st_world_revision : Z
}.

Record EnrichmentStateSnapshot := mkEnrichmentStateSnapshot {
  sn_target_object_id : string;
  sn_target_object_type : string;
  sn_target_object_key : string;
  sn_vocabulary_revision : string;
  sn_world_revision : Z;
  sn_dimensions : list EnrichmentDimensionState
}.

(** [by_dimension().get(dimension)]: a later state of a dimension replaces an earlier one. *)
Definition by_dimension (self : EnrichmentStateSnapshot) (d : EnrichmentDimension) : option EnrichmentDimensionState :=
  find (λ st, bool_decide (st_dimension st = d)) (rev (sn_dimensions self)).

Record EnrichmentAttempt := mkEnrichmentAttempt {
  at_attempt_id : string;
  at_target_object_id : string;
  at_requirement_id : string;
  at_dimension : EnrichmentDimension;
  at_operator_id : string;
  at_task_run_id : option string;
  at_execution_status : EnrichmentAttemptStatus;
  at_semantic_outcome : option EnrichmentSemanticOutcome;
  at_blocked_reason : option string;
  at_evidence_refs : list string;
  at_output_refs : list string;
  at_world_revision_before : Z;
  at_world_revision_after : option Z;
  at_started_at : Z;
  at_finished_at : option Z
}.

(** The [ge=0] of the two world revisions. *)
Definition make_EnrichmentAttempt (a : EnrichmentAttempt) : result EnrichmentAttempt :=
  _ ← raise_when (at_world_revision_before a <? 0) (ValueError "world_revision_before");
  _ ← raise_when (match at_world_revision_after a with Some r => r <? 0 | None => false end)
        (ValueError "world_revision_after");
  Ok a.

(** ** The tables *)

Record EnrichmentDimensionStateModel := mkEnrichmentDimensionStateModel {
  dm_state_id : string;
  dm_target_object_id : string;
  dm_vocabulary_revision : string;
  dm_requirement_id : string;
  dm_dimension : EnrichmentDimension;
  dm_status : EnrichmentStatus;
  dm_accepted_fact_refs : list string;
  dm_conflict_refs : list string;
  dm_missing_prerequisites : list string;
  dm_attempted_operator_refs : list string;
  dm_blocked_attempt_refs : list string;
  dm_world_revision : Z;
  computed_at : Z
}.

(** A row of [enrichment_attempts] has the columns of the attempt it keeps. *)
Abbreviation EnrichmentAttemptModel := EnrichmentAttempt.

Record EnrichmentDB := mkEnrichmentDB {
  en_tasks : TaskDB;
  en_knowledge : KnowledgeStore;
  dimension_states : gmap string EnrichmentDimensionStateModel;
  en_attempts : list EnrichmentAttemptModel
}.

#[export] Program Instance enrichment_tasks : Embeds EnrichmentDB TaskDB := {|
  view := en_tasks;
  set_view := λ t s, mkEnrichmentDB t (en_knowledge s) (dimension_states s) (en_attempts s)
|}.
Solve Obligations with by intros; repeat match goal with s : EnrichmentDB |- _ => destruct s end.

#[export] Program Instance enrichment_knowledge : Embeds EnrichmentDB KnowledgeStore := {|
  view := en_knowledge;
  set_view := λ k s, mkEnrichmentDB (en_tasks s) k (dimension_states s) (en_attempts s)
|}.
Solve Obligations with by intros; repeat match goal with s : EnrichmentDB |- _ => destruct s end.

Definition put_dimension_state (r : EnrichmentDimensionStateModel) (s : EnrichmentDB) : EnrichmentDB :=
  mkEnrichmentDB (en_tasks s) (en_knowledge s) (<[dm_state_id r := r]> (dimension_states s)) (en_attempts s).
Definition set_attempts (l : list EnrichmentAttemptModel) (s : EnrichmentDB) : EnrichmentDB :=
  mkEnrichmentDB (en_tasks s) (en_knowledge s) (dimension_states s) l.

(** The columns of [uq_enrichment_dimension_state]. *)
Definition state_key (r : EnrichmentDimensionStateModel) : string * string * EnrichmentDimension :=
  (dm_target_object_id r, dm_vocabulary_revision r, dm_dimension r).

(** ** Dictionaries of dictionaries: [d.setdefault(k, {}).setdefault(v, []).append(x)] *)

(** [d[k] = f(d.get(k))], in insertion order. *)
Fixpoint dict_update {K A} `{EqDecision K} (k : K) (f : option A → A) (d : list (K * A)) : list (K * A) :=
  match d with
  | [] => [(k, f None)]
  | (k', a) :: d' => if decide (k = k') then (k', f (Some a)) :: d' else (k', a) :: dict_update k f d'
  end.
Definition add_to_group {K} `{EqDecision K} (d : list (K * list (string * list string))) (row : K * string * string)
  : list (K * list (string * list string)) :=
  let '(k, v, x) := row in
  dict_update k (λ vs, dict_update v (λ ids, default [] ids ++ [x]) (default [] vs)) d.

(** The references of the groups that hold more than one value. *)
Definition conflicting {K} `{EqDecision K} (kind : string) (d : list (K * list (string * list string))) : list string :=
  mjoin ((λ g : K * list (string * list string),
            if bool_decide (1 < length g.2)%nat then (λ x, kind +:+ x) <$> mjoin (snd <$> g.2) else []) <$> d).

(** ** [json.dumps(value, sort_keys=True, separators=(",", ":"), ensure_ascii=False)] *)

Definition double_quote : string := of_chars ["034"%char].
Definition hex_digit (n : nat) : ascii := if (n <? 10)%nat then ascii_of_nat (48 + n) else ascii_of_nat (87 + n).
Definition json_char (c : ascii) : string :=
  let n := nat_of_ascii c in
  if (n =? 34)%nat then "\" +:+ double_quote
  else if (n =? 92)%nat then "\\"
  else if (n =? 8)%nat then "\b" else if (n =? 12)%nat then "\f" else if (n =? 10)%nat then "\n"
  else if (n =? 13)%nat then "\r" else if (n =? 9)%nat then "\t"
  else if (n <? 32)%nat then "\u00" +:+ of_chars [hex_digit (n / 16); hex_digit (n mod 16)]
  else of_chars [c].
Definition json_string (s : string) : string :=
  double_quote +:+ String.concat "" (json_char <$> chars s) +:+ double_quote.

Definition key_le (x y : string * string) : Prop := String.le x.1 y.1.
#[export] Instance key_le_dec : RelDecision key_le.
Proof. unfold key_le. intros x y. apply _. Defined.

Section builder.
Context (uuid5_url : string → string) (float_repr : Z → Z → string) (isoformat dump_datetime : Z → string).

Definition json_float (f : pyfloat) : string :=
  match f with
  | Finite m e => float_repr m e | Infinite true => "-Infinity" | Infinite false => "Infinity" | NaN => "NaN"
  end.
Fixpoint json_text (v : json) : string :=
  match v with
  | JNull => "null"
  | JBool b => if b then "true" else "false"
  | JInt z => str_of_Z z
  | JFloat f => json_float f
  | JStr s => json_string s
  | JArr items => "[" +:+ String.concat "," (map json_text items) +:+ "]"
  | JObj fields =>
      "{" +:+ String.concat "," (map (λ kv, json_string kv.1 +:+ ":" +:+ kv.2)
                (py_sorted key_le (map (λ kv, match kv with (k, x) => (k, json_text x) end) fields))) +:+ "}"
  end.

(** ** Requirements *)

(** [_term_applies_to_object] *)
Definition term_applies_to_object (term : VocabularyTerm) (object_type : string) : bool :=
  bool_decide (term_name term = "external-identifier"%string) || bool_decide (object_type ∈ subject_types term)
  || bool_decide (object_type ∈ target_types term).

Definition terms_for (object_type : string) (d : EnrichmentDimension) : list string :=
  let terms := sorted_set (term_name <$> filter (λ t, dimension t = d ∧ term_applies_to_object t object_type = true)
                             CANONICAL_TERMS) in
  if bool_decide (d = IDENTITY) && bool_decide ("external-identifier"%string ∉ terms)
  then "external-identifier"%string :: terms else terms.

Definition requirement_for (object_type : string) (d : EnrichmentDimension) : EnrichmentDimensionSpec :=
  mkEnrichmentDimensionSpec
    (VOCABULARY_REVISION +:+ ":" +:+ object_type +:+ ":" +:+ EnrichmentDimension_value d) VOCABULARY_REVISION object_type d
    (terms_for object_type d) true [] None "current" "evidence_backed_canonical_fact" "any_supported_canonical_fact".

(** [EnrichmentStateBuilder.requirements_for] *)
Definition requirements_for (object_type : string) : result (list EnrichmentDimensionSpec) :=
  _ ← raise_when (bool_decide (object_type ≠ "Vulnerability"%string))
        (ValueError "enrichment-v1 state builder does not support this object type");
  Ok (requirement_for object_type <$> dimensions).

(** ** Evaluation *)

Definition is_canonical (qualifier : dict) : bool :=
  bool_decide (dict_get "vocabulary_scope" qualifier = Some (JStr "canonical")).

(** [_claim_conflicts] *)
Definition claim_conflicts (claims : list ClaimModel) : list string :=
  conflicting "claim:" (foldl add_to_group [] ((λ c, (predicate c, json_text (cm_value c), claim_id c)) <$> claims)).

(** [_applicability_scope_key] *)
Definition ignored_keys : list string :=
  ["state"%string; "source_id"%string; "source_semantics"%string; "source_status"%string; "csaf_status"%string;
   "status_changes"%string; "default_inferred"%string; "justification"%string; "vocabulary_revision"%string;
   "vocabulary_scope"%string].
Definition applicability_scope_key (qualifier : dict) : string :=
  json_text (JObj (filter (λ kv : string * json, kv.1 ∉ ignored_keys) qualifier)).

(** The group, the value and the identity of a relation [_relation_conflicts] compares. *)
Definition applicability_row (r : RelationModel) : option (string * string * string * string) :=
  if bool_decide (relation_type r ≠ "applicability-status"%string) then None
  else match dict_get "state" (rm_qualifier r) with
       | Some (JStr state) =>
           if bool_decide (state = APPLICABILITY_UNKNOWN) then None
           else Some ((target_object_id r, applicability_scope_key (rm_qualifier r)), state, relation_id r)
       | _ => None
       end.
(** [_relation_conflicts] *)
Definition relation_conflicts (relations : list RelationModel) : list string :=
  conflicting "relation:" (foldl add_to_group [] (omap applicability_row relations)).

(** [_relation_matches_target] *)
Definition relation_matches_target (r : RelationModel) (target_object_id' : string) : bool :=
  bool_decide (source_object_id r = target_object_id') || bool_decide (target_object_id r = target_object_id').

(** A relation that says the applicability is not known. *)
Definition says_unknown (r : RelationModel) : bool :=
  bool_decide (relation_type r = "applicability-status"%string)
  && bool_decide (dict_get "state" (rm_qualifier r) = Some (JStr APPLICABILITY_UNKNOWN)).

Definition attempt_says_unknown (a : EnrichmentAttemptModel) : bool :=
  bool_decide (at_execution_status a = ATTEMPT_SUCCEEDED) && bool_decide (at_semantic_outcome a = Some OUTCOME_UNKNOWN).

Definition identifier_le (x y : ExternalIdentifierModel) : Prop :=
  String.le (external_identifier_id x) (external_identifier_id y).
#[export] Instance identifier_le_dec : RelDecision identifier_le.
Proof. unfold identifier_le. intros x y. apply _. Defined.

(** The decision on a dimension. *)
Definition decide_status (conflicts facts : list string) (explicit_unknown : bool) : EnrichmentStatus :=
  if negb (bool_decide (conflicts = [])) then CONFLICT
  else if negb (bool_decide (facts = [])) then RESOLVED
  else if explicit_unknown then UNKNOWN
  else MISSING.

(** [_evaluate_requirement] *)
Definition evaluate_requirement (requirement : EnrichmentDimensionSpec) (target : ObjectModel) (world_revision : Z)
  (claims : list ClaimModel) (outgoing incoming : list RelationModel) (identifiers : list ExternalIdentifierModel)
  (attempts : list EnrichmentAttemptModel) : EnrichmentDimensionState :=
  let term_names := canonical_terms requirement in
  let identifier_refs :=
    if bool_decide (sp_dimension requirement = IDENTITY)
    then (λ x, "identifier:" +:+ external_identifier_id x) <$> py_sorted identifier_le identifiers else [] in
  let relevant_claims := filter (λ c, predicate c ∈ term_names ∧ is_canonical (cm_qualifier c) = true) claims in
  let relevant_relations :=
    filter (λ r, relation_type r ∈ term_names ∧ is_canonical (rm_qualifier r) = true ∧
                 relation_matches_target r (object_id target) = true) (outgoing ++ incoming) in
  let concrete_relations := filter (λ r, says_unknown r = false) relevant_relations in
  let fact_refs := identifier_refs ++ ((λ c, "claim:" +:+ claim_id c) <$> relevant_claims)
                     ++ ((λ r, "relation:" +:+ relation_id r) <$> concrete_relations) in
  let conflicts := claim_conflicts relevant_claims ++ relation_conflicts relevant_relations in
  let requirement_attempts := filter (λ a, at_requirement_id a = sp_requirement_id requirement) attempts in
  let explicit_unknown := existsb says_unknown relevant_relations || existsb attempt_says_unknown requirement_attempts in
  let status := decide_status conflicts fact_refs explicit_unknown in
  mkEnrichmentDimensionState (object_id target) (object_type target) (canonical_key target)
    (sp_requirement_id requirement) VOCABULARY_REVISION (sp_dimension requirement) status
    (sorted_set fact_refs) (sorted_set conflicts)
    (if bool_decide (status ≠ MISSING) then [] else ["canonical_fact"%string])
    (sorted_set (at_operator_id <$> requirement_attempts))
    (py_sorted String.le (at_attempt_id <$> filter (λ a, at_execution_status a = ATTEMPT_BLOCKED) requirement_attempts))
    world_revision.

(** ** Materialized states *)

Definition dimension_state_id (vocabulary_revision target : string) (d : EnrichmentDimension) : string :=
  uuid5_url ("secfusion:enrichment-state:" +:+ vocabulary_revision +:+ ":" +:+ target +:+ ":"
               +:+ EnrichmentDimension_value d).

Definition new_dimension_state (state_id : string) (st : EnrichmentDimensionState) (computed_at : Z)
  : EnrichmentDimensionStateModel :=
  mkEnrichmentDimensionStateModel state_id (st_target_object_id st) (st_vocabulary_revision st) (st_requirement_id st)
    (st_dimension st) (st_status st) (accepted_fact_refs st) (conflict_refs st) (missing_prerequisites st)
    (attempted_operator_refs st) (blocked_attempt_refs st) (st_world_revision st) computed_at.
(** What is written to a row that exists: all but its key. *)
Definition set_dimension_state (st : EnrichmentDimensionState) (computed_at : Z) (m : EnrichmentDimensionStateModel)
  : EnrichmentDimensionStateModel :=
  mkEnrichmentDimensionStateModel (dm_state_id m) (dm_target_object_id m) (dm_vocabulary_revision m) (st_requirement_id st)
    (dm_dimension m) (st_status st) (accepted_fact_refs st) (conflict_refs st) (missing_prerequisites st)
    (attempted_operator_refs st) (blocked_attempt_refs st) (st_world_revision st) computed_at.

(** [_materialize_state] *)
Definition materialize_state (st : EnrichmentDimensionState) (computed_at : Z) : prog EnrichmentDB unit :=
  let state_id := dimension_state_id (st_vocabulary_revision st) (st_target_object_id st) (st_dimension st) in
  s ← get_store;
  match dimension_states s !! state_id with
  | None =>
      let row := new_dimension_state state_id st computed_at in
      check (existsb (λ kv, bool_decide (state_key kv.2 = state_key row)) (map_to_list (dimension_states s)))
        (IntegrityError "enrichment_dimension_states");;
      modify (put_dimension_state row)
  | Some m => modify (put_dimension_state (set_dimension_state st computed_at m))
  end.

(** The selects of [build]. *)
Definition incoming_relation (id : string) (r : RelationModel) : Prop :=
  target_object_id r = id ∧ rm_lifecycle r = "accepted"%string ∧ rm_superseded_revision r = None.
#[export] Instance incoming_relation_dec id r : Decision (incoming_relation id r).
Proof. unfold incoming_relation. apply _. Defined.

(** [int(select(max(revision)) or 0)] *)
Definition world_revision (s : KnowledgeStore) : Z :=
  match kr_revision <$> revisions s with [] => 0 | r :: l => foldl Z.max r l end.

Definition evaluate_object (target : ObjectModel) (s : EnrichmentDB) (requirement : EnrichmentDimensionSpec)
  : EnrichmentDimensionState :=
  let k := en_knowledge s in
  let id := object_id target in
  evaluate_requirement requirement target (world_revision k)
    (filter (accepted_claim id) (claims k))
    (filter (accepted_relation id) (relations k))
    (filter (incoming_relation id) (relations k))
    (filter (λ x, xi_object_id x = id) (identifiers k))
    (filter (λ a, at_target_object_id a = id) (en_attempts s)).

(** [EnrichmentStateBuilder.build] *)
Definition build (target_object_id : string) (materialize : bool) (instant : Z)
  : prog EnrichmentDB EnrichmentStateSnapshot :=
  s ← get_store;
  target ← require (get_object target_object_id (en_knowledge s)) (LookupError "enrichment target object not found" target_object_id);
  requirements ← lift (requirements_for (object_type target));
  let states := evaluate_object target s <$> requirements in
  (if materialize then for_each states (λ st, materialize_state st instant);; mret tt else mret tt);;
  mret (mkEnrichmentStateSnapshot (object_id target) (object_type target) (canonical_key target) VOCABULARY_REVISION
          (world_revision (en_knowledge s)) states).

(** ** Attempts *)

Definition json_option {A} (f : A → json) (o : option A) : json := match o with Some a => f a | None => JNull end.
Definition json_strings (l : list string) : json := JArr (JStr <$> l).

(** The payload of an attempt whose instants are written by [text]: [model_dump(mode="json")] of the attempt with
    [dump_datetime], [_attempt_payload] of a row with [isoformat]. *)
Definition attempt_payload (text : Z → string) (m : EnrichmentAttemptModel) : dict :=
  [("attempt_id"%string, JStr (at_attempt_id m));
   ("target_object_id"%string, JStr (at_target_object_id m));
   ("requirement_id"%string, JStr (at_requirement_id m));
   ("dimension"%string, JStr (EnrichmentDimension_value (at_dimension m)));
   ("operator_id"%string, JStr (at_operator_id m));
   ("task_run_id"%string, json_option JStr (at_task_run_id m));
   ("execution_status"%string, JStr (EnrichmentAttemptStatus_value (at_execution_status m)));
   ("semantic_outcome"%string, json_option (JStr ∘ EnrichmentSemanticOutcome_value) (at_semantic_outcome m));
   ("blocked_reason"%string, json_option JStr (at_blocked_reason m));
   ("evidence_refs"%string, json_strings (at_evidence_refs m));
   ("output_refs"%string, json_strings (at_output_refs m));
   ("world_revision_before"%string, JInt (at_world_revision_before m));
   ("world_revision_after"%string, json_option JInt (at_world_revision_after m));
   ("started_at"%string, JStr (text (at_started_at m)));
   ("finished_at"%string, json_option (JStr ∘ text) (at_finished_at m))].

Definition record_enrichment_attempt (attempt : EnrichmentAttempt) : prog EnrichmentDB unit :=
  s ← get_store;
  match find (λ a, bool_decide (at_attempt_id a = at_attempt_id attempt)) (en_attempts s) with
  | Some existing =>
      check (bool_decide (attempt_payload isoformat existing ≠ attempt_payload dump_datetime attempt))
        (ValueError "enrichment attempt identity is immutable")
  | None =>
      check (match at_blocked_reason attempt with Some text => 128 <? slen text | None => false end)
        (OtherException "DataError" "value too long for type character varying(128)");;
      check (bool_decide (get_object (at_target_object_id attempt) (en_knowledge s) = None)) (IntegrityError "objects");;
      check (match at_task_run_id attempt with
             | Some run => bool_decide (task_runs (en_tasks s) !! run = None)
             | None => false
             end) (IntegrityError "task_runs");;
      modify (λ s, set_attempts (en_attempts s ++ [attempt]) s)
  end.
End builder.

(** ** Groups *)

Fixpoint assoc {K A} `{EqDecision K} (k : K) (d : list (K * A)) : option A :=
  match d with [] => None | (k', a) :: d' => if decide (k = k') then Some a else assoc k d' end.

Lemma assoc_update {K A} `{EqDecision K} (k k' : K) (f : option A → A) d :
  assoc k' (dict_update k f d) = if decide (k' = k) then Some (f (assoc k d)) else assoc k' d.
Proof.
  induction d as [|[k0 a] d IH]; cbn; [done|]. destruct (decide (k = k0)) as [->|Hne]; cbn.
  - by destruct (decide (k' = k0)).
  - destruct (decide (k' = k0)) as [->|?]; [by rewrite decide_False|done].
Qed.

Lemma assoc_elem {K A} `{EqDecision K} (k : K) (a : A) d : NoDup d.*1 → assoc k d = Some a ↔ (k, a) ∈ d.
Proof.
  induction d as [|[k0 a0] d IH]; cbn; intros Hnd; [split; [done|by intros ?%elem_of_nil]|].
  apply NoDup_cons in Hnd as [Hk0 Hnd]. rewrite elem_of_cons. destruct (decide (k = k0)) as [->|Hne].
  - split; [intros [= ->]; by left|]. intros [[= ->]|Hin]; [done|]. exfalso. apply Hk0, list_elem_of_fmap. by exists (k0, a).
  - rewrite IH by done. split; [by right|]. by intros [[= ? ?]|?].
Qed.

Lemma keys_update {K A} `{EqDecision K} (k : K) (f : option A → A) d :
  NoDup d.*1 → NoDup (dict_update k f d).*1 ∧ ∀ k', k' ∈ (dict_update k f d).*1 ↔ k' = k ∨ k' ∈ d.*1.
Proof.
  induction d as [|[k0 a0] d IH]; intros Hnd.
  - cbn. split; [apply NoDup_singleton|]. intros k'. rewrite list_elem_of_singleton. set_solver.
  - cbn in *. pose proof Hnd as [Hk0 Hnd']%NoDup_cons. destruct (decide (k = k0)) as [->|Hne]; cbn.
    + split; [done|]. intros k'. rewrite elem_of_cons. naive_solver.
    + destruct (IH Hnd') as [H1 H2]. split.
      * apply NoDup_cons. split; [|done]. rewrite H2. naive_solver.
      * intros k'. rewrite !elem_of_cons, H2. naive_solver.
Qed.

Section groups.
Context {K : Type} `{EqDecision K}.
Implicit Types (d : list (K * list (string * list string))) (l : list (K * string * string)).

(** [x] is in the group of [k] under the value [v]. *)
Definition in_group d (k : K) (v x : string) : Prop :=
  ∃ ids, assoc v (default [] (assoc k d)) = Some ids ∧ x ∈ ids.

(** The values of a group are distinct and none is empty. *)
Record groups_wf d : Prop := {
  gw_keys : NoDup d.*1;
  gw_values : ∀ k vs, (k, vs) ∈ d → NoDup vs.*1 ∧ ∀ v ids, (v, ids) ∈ vs → ids ≠ []
}.

Lemma add_to_group_wf d row : groups_wf d → groups_wf (add_to_group d row).
Proof.
  destruct row as [[k v] x]. intros [H1 H2]. destruct (keys_update k (λ vs, dict_update v (λ ids, default [] ids ++ [x])
    (default [] vs)) d H1) as [Hnd _]. split; [done|]. intros k' vs Hin. cbn [add_to_group] in Hin.
  apply assoc_elem in Hin; [|done]. rewrite assoc_update in Hin. destruct (decide (k' = k)) as [->|Hne].
  - injection Hin as <-. assert (NoDup (default [] (assoc k d)).*1 ∧ ∀ v ids, (v, ids) ∈ default [] (assoc k d) → ids ≠ [])
      as [Hvs Hids].
    { destruct (assoc k d) as [vs|] eqn:E; cbn; [apply assoc_elem in E; [by apply (H2 k)|done]|].
      split; [constructor|by intros ? ? ?%elem_of_nil]. }
    destruct (keys_update v (λ ids, default [] ids ++ [x]) (default [] (assoc k d)) Hvs) as [Hnd' _]. split; [done|].
    intros v' ids Hv. apply assoc_elem in Hv; [|done]. rewrite assoc_update in Hv. destruct (decide (v' = v)) as [->|Hv'].
    + injection Hv as <-. intros E. by apply app_eq_nil in E as [_ ?].
    + apply assoc_elem in Hv; [by apply (Hids v')|done].
  - apply assoc_elem in Hin; [by apply (H2 k')|done].
Qed.

Lemma in_add_to_group d row k v x : in_group (add_to_group d row) k v x ↔ in_group d k v x ∨ row = (k, v, x).
Proof.
  destruct row as [[k0 v0] x0]. unfold in_group, add_to_group. rewrite assoc_update.
  destruct (decide (k = k0)) as [->|Hk]; [|naive_solver]. cbn [default from_option id].
  rewrite assoc_update. destruct (decide (v = v0)) as [->|Hv]; [|naive_solver].
  split.
  - intros (ids&[= <-]&[Hx| ->%list_elem_of_singleton]%elem_of_app); [left|by right].
    destruct (assoc v0 _) as [ids|]; [by exists ids|by apply elem_of_nil in Hx].
  - intros [(ids&E&Hx)|[= ->]]; eexists; (split; [done|]); rewrite elem_of_app; [left; by rewrite E|right].
    apply list_elem_of_here.
Qed.

Lemma groups_spec l d : groups_wf d →
  groups_wf (foldl add_to_group d l) ∧
  ∀ k v x, in_group (foldl add_to_group d l) k v x ↔ in_group d k v x ∨ (k, v, x) ∈ l.
Proof.
  revert d. induction l as [|row l IH]; intros d Hd; cbn [foldl].
  - split; [done|]. intros k v x. rewrite elem_of_nil. naive_solver.
  - destruct (IH _ (add_to_group_wf d row Hd)) as [Hw Hin]. split; [done|]. intros k v x.
    rewrite Hin, in_add_to_group, elem_of_cons. naive_solver.
Qed.

Lemma two_values {A} (vs : list (string * A)) :
  NoDup vs.*1 → (1 < length vs)%nat ↔ ∃ p q, p ∈ vs ∧ q ∈ vs ∧ p.1 ≠ q.1.
Proof.
  intros Hnd. destruct vs as [|p [|q vs]]; cbn in *.
  - split; [lia|]. by intros (?&?&?%elem_of_nil&_).
  - split; [lia|]. by intros (?&?& ->%list_elem_of_singleton& ->%list_elem_of_singleton&?).
  - split; [|lia]. intros _. exists p, q. apply NoDup_cons in Hnd as [Hp _].
    split; [by left|]. split; [by right; left|]. intros E. apply Hp. rewrite E. by left.
Qed.

Lemma elem_of_conflicting kind d ref : groups_wf d →
  ref ∈ conflicting kind d ↔
  ∃ k v v' x x', in_group d k v x ∧ in_group d k v' x' ∧ v ≠ v' ∧ ref = kind +:+ x.
Proof.
  intros [H1 H2]. unfold conflicting. rewrite list_elem_of_join. split.
  - intros (refs&Href&((k&vs)&->&Hg)%list_elem_of_fmap). cbn in Href. case_bool_decide as Hl; [|by apply elem_of_nil in Href].
    apply list_elem_of_fmap in Href as (x&->&Hx). apply list_elem_of_join in Hx as (ids&Hx&((v&ids')&->&Hv)%list_elem_of_fmap).
    cbn in Hx. destruct (H2 k vs Hg) as [Hnd Hne]. apply two_values in Hl; [|done].
    destruct Hl as ([v1 i1]&[v2 i2]&Hp&Hq&Hd). cbn in Hd.
    assert (∃ v' ids, (v', ids) ∈ vs ∧ v' ≠ v) as (v'&ids2&Hv'&Hneq).
    { destruct (decide (v1 = v)) as [->|?]; [by exists v2, i2|by exists v1, i1]. }
    destruct ids2 as [|x' ids2]; [by apply (Hne v') in Hv'|].
    exists k, v, v', x, x'. unfold in_group. apply assoc_elem in Hg; [|done]. rewrite Hg. cbn [default].
    apply assoc_elem in Hv, Hv'; [|done|done]. split; [by exists ids'|]. split; [|done]. eexists. split; [done|by left].
  - intros (k&v&v'&x&x'&(ids&Ev&Hx)&(ids'&Ev'&Hx')&Hne&->). destruct (assoc k d) as [vs|] eqn:Hk; [|done]. cbn [default] in *.
    apply assoc_elem in Hk; [|done]. destruct (H2 k vs Hk) as [Hnd _].
    apply assoc_elem in Ev, Ev'; [|done|done]. eexists. split; [|apply list_elem_of_fmap; exists (k, vs); split; [done|done]].
    cbn. rewrite bool_decide_eq_true_2 by (apply two_values; [done|]; by exists (v, ids), (v', ids')).
    apply list_elem_of_fmap. exists x. split; [done|]. apply list_elem_of_join. exists ids. split; [done|].
    apply list_elem_of_fmap. by exists (v, ids).
Qed.

Lemma conflicting_spec kind l ref :
  ref ∈ conflicting kind (foldl add_to_group [] l) ↔
  ∃ k v v' x x', (k, v, x) ∈ l ∧ (k, v', x') ∈ l ∧ v ≠ v' ∧ ref = kind +:+ x.
Proof.
  assert (groups_wf []) as H0 by (split; [constructor|by intros ? ? ?%elem_of_nil]).
  destruct (groups_spec l [] H0) as [Hw Hin]. rewrite elem_of_conflicting by done. setoid_rewrite Hin.
  assert (∀ k v x, ¬ in_group [] k v x) as Hno by (intros k v x (ids&E&_); done). split.
  - intros (k&v&v'&x&x'&[[]%Hno|?]&[[]%Hno|?]&?&->). by exists k, v, v', x, x'.
  - intros (k&v&v'&x&x'&?&?&?&->). exists k, v, v', x, x'. auto.
Qed.
End groups.

(** ** What an evaluation shows *)

Definition requirement_id_of (d : EnrichmentDimension) : string := sp_requirement_id (requirement_for "Vulnerability" d).

(** The current canonical facts of the object in a dimension, and the attempts to find some. *)
Definition relevant_claim (s : EnrichmentDB) (id : string) (d : EnrichmentDimension) (c : ClaimModel) : Prop :=
  c ∈ claims (en_knowledge s) ∧ accepted_claim id c ∧ predicate c ∈ terms_for "Vulnerability" d ∧
  is_canonical (cm_qualifier c) = true.
Definition relevant_relation (s : EnrichmentDB) (id : string) (d : EnrichmentDimension) (r : RelationModel) : Prop :=
  r ∈ relations (en_knowledge s) ∧ (accepted_relation id r ∨ incoming_relation id r) ∧
  relation_type r ∈ terms_for "Vulnerability" d ∧ is_canonical (rm_qualifier r) = true.
Definition relevant_attempt (s : EnrichmentDB) (id : string) (d : EnrichmentDimension) (a : EnrichmentAttempt) : Prop :=
  a ∈ en_attempts s ∧ at_target_object_id a = id ∧ at_requirement_id a = requirement_id_of d.

(** The references to what supports an answer to a dimension. *)
Inductive supports (s : EnrichmentDB) (id : string) (d : EnrichmentDimension) : string → Prop :=
| supports_identifier x : d = IDENTITY → x ∈ identifiers (en_knowledge s) → xi_object_id x = id →
    supports s id d ("identifier:" +:+ external_identifier_id x)
| supports_claim c : relevant_claim s id d c → supports s id d ("claim:" +:+ claim_id c)
| supports_relation r : relevant_relation s id d r → says_unknown r = false →
    supports s id d ("relation:" +:+ relation_id r).

(** The references to facts that contradict one another: two values of a predicate, or two known applicability states of
    one target in one scope. *)
Inductive disputed (float_repr : Z → Z → string) (s : EnrichmentDB) (id : string) (d : EnrichmentDimension)
  : string → Prop :=
| disputed_claim c c' : relevant_claim s id d c → relevant_claim s id d c' → predicate c = predicate c' →
    json_text float_repr (cm_value c) ≠ json_text float_repr (cm_value c') →
    disputed float_repr s id d ("claim:" +:+ claim_id c)
| disputed_relation r r' scope v v' x' : relevant_relation s id d r → relevant_relation s id d r' →
    applicability_row float_repr r = Some (scope, v, relation_id r) → applicability_row float_repr r' = Some (scope, v', x') →
    v ≠ v' → disputed float_repr s id d ("relation:" +:+ relation_id r).

(** Something says that the answer is not known. *)
Inductive stated_unknown (s : EnrichmentDB) (id : string) (d : EnrichmentDimension) : Prop :=
| unknown_relation r : relevant_relation s id d r → says_unknown r = true → stated_unknown s id d
| unknown_attempt a : relevant_attempt s id d a → attempt_says_unknown a = true → stated_unknown s id d.

(** [st] is the evaluation of the dimension [d] of the object [o]. *)
Record evaluates (float_repr : Z → Z → string) (s : EnrichmentDB) (o : ObjectModel) (d : EnrichmentDimension)
  (st : EnrichmentDimensionState) : Prop := {
  ev_key : st_target_object_id st = object_id o ∧ st_target_object_type st = object_type o ∧
    st_target_object_key st = canonical_key o ∧ st_vocabulary_revision st = VOCABULARY_REVISION ∧
    st_dimension st = d ∧ st_requirement_id st = requirement_id_of d;
  ev_revision : st_world_revision st = world_revision (en_knowledge s);
  ev_accepted : ∀ ref, ref ∈ accepted_fact_refs st ↔ supports s (object_id o) d ref;
  ev_conflicts : ∀ ref, ref ∈ conflict_refs st ↔ disputed float_repr s (object_id o) d ref;
  ev_status : match st_status st with
              | CONFLICT => conflict_refs st ≠ []
              | RESOLVED => conflict_refs st = [] ∧ accepted_fact_refs st ≠ []
              | UNKNOWN => conflict_refs st = [] ∧ accepted_fact_refs st = [] ∧ stated_unknown s (object_id o) d
              | MISSING => conflict_refs st = [] ∧ accepted_fact_refs st = [] ∧ ¬ stated_unknown s (object_id o) d
              end;
  ev_missing : missing_prerequisites st = if decide (st_status st = MISSING) then ["canonical_fact"%string] else [];
  ev_operators : ∀ op, op ∈ attempted_operator_refs st ↔ ∃ a, relevant_attempt s (object_id o) d a ∧ at_operator_id a = op;
  ev_blocked : ∀ x, x ∈ blocked_attempt_refs st ↔
    ∃ a, relevant_attempt s (object_id o) d a ∧ at_execution_status a = ATTEMPT_BLOCKED ∧ at_attempt_id a = x;
  ev_sorted : StronglySorted String.le (accepted_fact_refs st) ∧ NoDup (accepted_fact_refs st) ∧
    StronglySorted String.le (conflict_refs st) ∧ NoDup (conflict_refs st)
}.

Section evaluation.
Context (float_repr : Z → Z → string).

Lemma elem_of_relevant_claims s id d c :
  c ∈ filter (λ c, predicate c ∈ terms_for "Vulnerability" d ∧ is_canonical (cm_qualifier c) = true)
        (filter (accepted_claim id) (claims (en_knowledge s))) ↔ relevant_claim s id d c.
Proof. unfold relevant_claim. rewrite !list_elem_of_filter. tauto. Qed.

Lemma elem_of_relevant_relations s o d r :
  r ∈ filter (λ r, relation_type r ∈ terms_for "Vulnerability" d ∧ is_canonical (rm_qualifier r) = true ∧
                relation_matches_target r (object_id o) = true)
        (filter (accepted_relation (object_id o)) (relations (en_knowledge s)) ++
         filter (incoming_relation (object_id o)) (relations (en_knowledge s))) ↔ relevant_relation s (object_id o) d r.
Proof.
  unfold relevant_relation. rewrite list_elem_of_filter, elem_of_app, !list_elem_of_filter.
  unfold relation_matches_target. rewrite orb_true_iff, !bool_decide_eq_true.
  unfold accepted_relation, incoming_relation. tauto.
Qed.

Lemma elem_of_claim_conflicts (l : list ClaimModel) ref :
  ref ∈ claim_conflicts float_repr l ↔ ∃ c c', c ∈ l ∧ c' ∈ l ∧ predicate c = predicate c' ∧
    json_text float_repr (cm_value c) ≠ json_text float_repr (cm_value c') ∧ ref = "claim:" +:+ claim_id c.
Proof.
  unfold claim_conflicts. rewrite conflicting_spec. setoid_rewrite list_elem_of_fmap. split.
  - intros (k&v&v'&x&x'&(c&[= -> -> ->]&Hc)&(c'&[= Hk -> ->]&Hc')&Hne&->). by exists c, c'.
  - intros (c&c'&Hc&Hc'&Hp&Hne&->). eexists (predicate c), _, _, (claim_id c), (claim_id c').
    split; [by exists c|]. split; [exists c'; by rewrite Hp|]. done.
Qed.

Lemma elem_of_relation_conflicts (l : list RelationModel) ref :
  ref ∈ relation_conflicts float_repr l ↔ ∃ r r' scope v v' x', r ∈ l ∧ r' ∈ l ∧
    applicability_row float_repr r = Some (scope, v, relation_id r) ∧ applicability_row float_repr r' = Some (scope, v', x') ∧
    v ≠ v' ∧ ref = "relation:" +:+ relation_id r.
Proof.
  unfold relation_conflicts. rewrite conflicting_spec. setoid_rewrite list_elem_of_omap. split.
  - intros (k&v&v'&x&x'&(r&Hr&E)&(r'&Hr'&E')&Hne&->).
    assert (x = relation_id r) as ->.
    { unfold applicability_row in E. case_bool_decide; [done|]. repeat case_match; try done. by simplify_eq. }
    by exists r, r', k, v, v', x'.
  - intros (r&r'&k&v&v'&x'&Hr&Hr'&E&E'&Hne&->). exists k, v, v', (relation_id r), x'.
    split; [by exists r|]. split; [by exists r'|done].
Qed.

Lemma decide_status_spec conflicts facts (unknown : bool) :
  match decide_status conflicts facts unknown with
  | CONFLICT => conflicts ≠ []
  | RESOLVED => conflicts = [] ∧ facts ≠ []
  | UNKNOWN => conflicts = [] ∧ facts = [] ∧ unknown = true
  | MISSING => conflicts = [] ∧ facts = [] ∧ unknown = false
  end.
Proof. unfold decide_status. do 2 (case_bool_decide; cbn; [|done]). by destruct unknown. Qed.

Lemma elem_of_requirement_attempts s id d a :
  a ∈ filter (λ a, at_requirement_id a = requirement_id_of d) (filter (λ a, at_target_object_id a = id) (en_attempts s)) ↔
  relevant_attempt s id d a.
Proof. unfold relevant_attempt. rewrite !list_elem_of_filter. tauto. Qed.

Lemma stated_unknown_spec s o d (rs : list RelationModel) (ats : list EnrichmentAttempt) :
  (∀ r, r ∈ rs ↔ relevant_relation s (object_id o) d r) → (∀ a, a ∈ ats ↔ relevant_attempt s (object_id o) d a) →
  existsb says_unknown rs || existsb attempt_says_unknown ats = true ↔ stated_unknown s (object_id o) d.
Proof.
  intros Hr Ha. rewrite orb_true_iff, !existsb_exists. setoid_rewrite <- list_elem_of_In. setoid_rewrite Hr.
  setoid_rewrite Ha. split.
  - intros [(r&?&?)|(a&?&?)]; [by eapply unknown_relation|by eapply unknown_attempt].
  - intros [r|a]; [left|right]; eauto.
Qed.

Lemma evaluate_object_evaluates o s d :
  object_type o = "Vulnerability"%string →
  evaluates float_repr s o d (evaluate_object float_repr o s (requirement_for (object_type o) d)).
Proof.
  intros Ht. rewrite Ht. unfold evaluate_object, evaluate_requirement. cbn [canonical_terms sp_dimension sp_requirement_id requirement_for].
  change (VOCABULARY_REVISION +:+ ":" +:+ "Vulnerability" +:+ ":" +:+ EnrichmentDimension_value d) with (requirement_id_of d).
  set (rc := filter (λ c, predicate c ∈ _ ∧ _) _). set (rr := filter (λ r, relation_type r ∈ _ ∧ _) _).
  set (ra := filter (λ a, at_requirement_id a = _) _).
  pose proof (elem_of_relevant_claims s (object_id o) d) as Hc. fold rc in Hc.
  pose proof (elem_of_relevant_relations s o d) as Hr. fold rr in Hr.
  pose proof (elem_of_requirement_attempts s (object_id o) d) as Ha. fold ra in Ha.
  set (facts := (if bool_decide (d = IDENTITY) then _ else _) ++ _). set (conflicts := claim_conflicts _ _ ++ _).
  assert (∀ ref, ref ∈ sorted_set facts ↔ supports s (object_id o) d ref) as Hfacts.
  { intros ref. rewrite elem_of_sorted_set. unfold facts. rewrite !elem_of_app, !list_elem_of_fmap.
    setoid_rewrite list_elem_of_filter. setoid_rewrite Hc. setoid_rewrite Hr. split.
    - intros [Hi|[(c&->&?)|(r&->&?&?)]]; [|by constructor|by constructor]. case_bool_decide; [|by apply elem_of_nil in Hi].
      apply list_elem_of_fmap in Hi as (x&->&Hx). rewrite py_sorted_Permutation in Hx.
      apply list_elem_of_filter in Hx as [? ?]. by constructor.
    - intros [x -> Hx Hid|c ?|r ? ?]; [left|right; left; by exists c|right; right; by exists r].
      rewrite bool_decide_eq_true_2 by done. apply list_elem_of_fmap. exists x. split; [done|].
      rewrite py_sorted_Permutation. by apply list_elem_of_filter. }
  assert (∀ ref, ref ∈ sorted_set conflicts ↔ disputed float_repr s (object_id o) d ref) as Hconf.
  { intros ref. rewrite elem_of_sorted_set. unfold conflicts. rewrite elem_of_app, elem_of_claim_conflicts, elem_of_relation_conflicts.
    setoid_rewrite Hc. setoid_rewrite Hr. split.
    - intros [(c&c'&?&?&?&?&->)|(r&r'&g&v&v'&x'&?&?&?&?&?&->)]; [by eapply disputed_claim|by eapply disputed_relation].
    - intros [c c' ? ? ? ?|r r' g v v' x' ? ? ? ? ?]; [left; by exists c, c'|right; by exists r, r', g, v, v', x']. }
  pose proof (decide_status_spec conflicts facts (existsb says_unknown rr || existsb attempt_says_unknown ra)) as Hs.
  pose proof (stated_unknown_spec s o d rr ra Hr Ha) as Hu.
  split; cbn [st_target_object_id st_target_object_type st_target_object_key st_vocabulary_revision st_dimension
    st_requirement_id st_world_revision accepted_fact_refs conflict_refs st_status missing_prerequisites
    attempted_operator_refs blocked_attempt_refs]; try done.
  - destruct (decide_status _ _ _); rewrite ?sorted_set_nil; rewrite <- ?Hu; try done.
    destruct Hs as (?&?&->). done.
  - case_bool_decide; [by rewrite decide_False|]. destruct (decide _); [done|tauto].
  - intros op. rewrite elem_of_sorted_set, list_elem_of_fmap. setoid_rewrite Ha. naive_solver.
  - intros x. rewrite py_sorted_Permutation, list_elem_of_fmap. setoid_rewrite list_elem_of_filter. setoid_rewrite Ha.
    naive_solver.
  - auto using sorted_set_sorted, sorted_set_NoDup.
Qed.

(** The world revision is the latest one, [0] before the first. *)
Lemma world_revision_spec s :
  (revisions s = [] ∧ world_revision s = 0) ∨
  (revision_known s (world_revision s) ∧ ∀ r, revision_known s r → r ≤ world_revision s).
Proof.
  unfold world_revision, revision_known. destruct (revisions s) as [|r0 l]; [by left|right]. cbn.
  assert (∀ (l : list Z) x, (foldl Z.max x l ∈ x :: l) ∧ ∀ r, r ∈ x :: l → r ≤ foldl Z.max x l) as H.
  { clear. induction l as [|y l IH]; intros x; cbn; [set_solver by lia|]. destruct (IH (Z.max x y)) as [H1 H2]. split.
    - apply elem_of_cons in H1 as [->|H1]; [|set_solver]. destruct (Z.max_spec x y) as [[_ ->]|[_ ->]]; set_solver.
    - intros r Hr. assert (Z.max x y ≤ foldl Z.max (Z.max x y) l) by (apply H2; by left).
      apply elem_of_cons in Hr as [->|Hr]; [lia|]. apply elem_of_cons in Hr as [->|Hr]; [lia|]. apply H2. by right. }
  apply H.
Qed.
End evaluation.

(** ** Materialized rows *)

Section rows.
Context (uuid5_url : string → string).

(** A row is stored under the identity of its object and dimension. *)
Definition rows_wf (s : EnrichmentDB) : Prop :=
  ∀ i row, dimension_states s !! i = Some row →
    dm_state_id row = i ∧ dm_vocabulary_revision row = VOCABULARY_REVISION ∧
    i = dimension_state_id uuid5_url VOCABULARY_REVISION (dm_target_object_id row) (dm_dimension row).

Definition state_id_of (st : EnrichmentDimensionState) : string :=
  dimension_state_id uuid5_url (st_vocabulary_revision st) (st_target_object_id st) (st_dimension st).
(** The row of an evaluation after it was stored. *)
Definition stored_state (s : EnrichmentDB) (st : EnrichmentDimensionState) (instant : Z) : EnrichmentDimensionStateModel :=
  match dimension_states s !! state_id_of st with
  | None => new_dimension_state (state_id_of st) st instant
  | Some m => set_dimension_state st instant m
  end.

Lemma materialize_state_Ok st instant s :
  rows_wf s → st_vocabulary_revision st = VOCABULARY_REVISION →
  materialize_state uuid5_url st instant s = (Ok tt, put_dimension_state (stored_state s st instant) s).
Proof.
  intros Hwf Hv. unfold materialize_state, stored_state. fold (state_id_of st). unfold mbind, prog_bind. cbn.
  destruct (dimension_states s !! state_id_of st) as [m|] eqn:E; [done|].
  destruct (existsb _ _) eqn:Hu; [|done]. exfalso.
  apply existsb_exists in Hu as ([i row]&Hin&Hk%bool_decide_eq_true). apply list_elem_of_In, elem_of_map_to_list in Hin.
  destruct (Hwf i row Hin) as (_&_&Hi). cbn in Hk. unfold state_key in Hk. cbn in Hk. injection Hk as Et Ev Ed.
  unfold state_id_of in E. rewrite <- Et, Hv, <- Ed, <- Hi, Hin in E. done.
Qed.

Lemma stored_state_id s st instant : rows_wf s → dm_state_id (stored_state s st instant) = state_id_of st.
Proof.
  intros Hwf. unfold stored_state. destruct (dimension_states s !! state_id_of st) as [m|] eqn:E; [|done].
  by destruct (Hwf _ _ E) as [<- _].
Qed.

Lemma put_row_wf s st instant :
  rows_wf s → st_vocabulary_revision st = VOCABULARY_REVISION → rows_wf (put_dimension_state (stored_state s st instant) s).
Proof.
  intros Hwf Hv i row. cbn. rewrite stored_state_id by done. rewrite lookup_insert_Some.
  intros [[<- <-]|[_ ?]]; [|by apply Hwf]. split; [by apply stored_state_id|]. unfold stored_state.
  destruct (dimension_states s !! state_id_of st) as [m|] eqn:E; [by destruct (Hwf _ _ E) as (_&?&?)|].
  cbn. split; [done|]. unfold state_id_of. by rewrite Hv.
Qed.

Definition put_states (s : EnrichmentDB) (states : list EnrichmentDimensionState) (instant : Z) : EnrichmentDB :=
  foldl (λ s st, put_dimension_state (stored_state s st instant) s) s states.

Lemma put_states_wf states instant s :
  rows_wf s → (∀ st, st ∈ states → st_vocabulary_revision st = VOCABULARY_REVISION) →
  rows_wf (put_states s states instant) ∧
  ∃ us, for_each states (λ st, materialize_state uuid5_url st instant) s = (Ok us, put_states s states instant).
Proof.
  revert s. induction states as [|st states IH]; intros s Hwf Hv; [split; [done|by exists []]|]. cbn [for_each].
  assert (st_vocabulary_revision st = VOCABULARY_REVISION) as Hst by (apply Hv; by left).
  destruct (IH _ (put_row_wf s st instant Hwf Hst)) as (Hwf'&us&E); [intros st' ?; apply Hv; by right|].
  split; [done|]. unfold mbind, prog_bind. rewrite materialize_state_Ok by done. rewrite E. by eexists.
Qed.

(** What storing evaluations of distinct rows leaves. *)
Lemma lookup_put_states states instant s i :
  rows_wf s → (∀ st, st ∈ states → st_vocabulary_revision st = VOCABULARY_REVISION) →
  NoDup (state_id_of <$> states) →
  (∀ st, st ∈ states → state_id_of st = i → dimension_states (put_states s states instant) !! i = Some (stored_state s st instant)) ∧
  (i ∉ state_id_of <$> states → dimension_states (put_states s states instant) !! i = dimension_states s !! i).
Proof.
  revert s. induction states as [|st states IH]; intros s Hwf Hv Hnd; [split; [by intros ? ?%elem_of_nil|done]|].
  apply NoDup_cons in Hnd as [Hst Hnd]. assert (st_vocabulary_revision st = VOCABULARY_REVISION) as Hr by (apply Hv; by left).
  destruct (IH _ (put_row_wf s st instant Hwf Hr)) as [IH1 IH2]; [intros st' ?; apply Hv; by right|done|].
  cbn [put_states foldl] in *. fold (put_states (put_dimension_state (stored_state s st instant) s) states instant) in *.
  cbn in IH2. rewrite stored_state_id in IH2 by done. split.
  - intros st' [->|Hin]%elem_of_cons Hi.
    + subst i. rewrite IH2 by done. by rewrite lookup_insert_eq.
    + rewrite (IH1 st') by done. f_equal. unfold stored_state at 1. cbn. rewrite stored_state_id by done.
      rewrite lookup_insert_ne; [done|]. intros E. apply Hst. rewrite E. by apply list_elem_of_fmap_2.
  - cbn [fmap list_fmap]. intros Hi. apply not_elem_of_cons in Hi as [Hi1 Hi2]. rewrite IH2 by done.
    by rewrite lookup_insert_ne.
Qed.

Lemma put_states_rest s states instant :
  en_tasks (put_states s states instant) = en_tasks s ∧ en_knowledge (put_states s states instant) = en_knowledge s ∧
  en_attempts (put_states s states instant) = en_attempts s.
Proof. revert s. induction states as [|st states IH]; intros s; [done|]. apply (IH (put_dimension_state _ s)). Qed.

Lemma dimension_value_no_colon d : rpartition ":" (EnrichmentDimension_value d) = None.
Proof. by destruct d. Qed.

(** The name of a row determines its object and dimension. *)
Lemma state_name_inj t t' d d' :
  "secfusion:enrichment-state:" +:+ VOCABULARY_REVISION +:+ ":" +:+ t +:+ ":" +:+ EnrichmentDimension_value d =
  "secfusion:enrichment-state:" +:+ VOCABULARY_REVISION +:+ ":" +:+ t' +:+ ":" +:+ EnrichmentDimension_value d' →
  t = t' ∧ d = d'.
Proof.
  intros E. unfold VOCABULARY_REVISION in E.
  assert (t +:+ String ":" (EnrichmentDimension_value d) = t' +:+ String ":" (EnrichmentDimension_value d')) as E'
    by (cbn in E; by injection E).
  pose proof (rpartition_app ":"%char t _ (dimension_value_no_colon d)) as H1.
  pose proof (rpartition_app ":"%char t' _ (dimension_value_no_colon d')) as H2.
  rewrite E', H2 in H1. injection H1 as <- Hd. split; [done|]. by destruct d, d'.
Qed.

Context `{!Inj (=) (=) uuid5_url}.

Lemma dimension_state_id_inj t t' d d' :
  dimension_state_id uuid5_url VOCABULARY_REVISION t d = dimension_state_id uuid5_url VOCABULARY_REVISION t' d' →
  t = t' ∧ d = d'.
Proof. intros E%(inj uuid5_url). by apply state_name_inj. Qed.

(** What is stored is the evaluation. *)
Lemma stored_state_new s st instant :
  rows_wf s → st_vocabulary_revision st = VOCABULARY_REVISION →
  stored_state s st instant = new_dimension_state (state_id_of st) st instant.
Proof.
  intros Hwf Hv. unfold stored_state. destruct (dimension_states s !! state_id_of st) as [m|] eqn:E; [|done].
  destruct (Hwf _ _ E) as (Hid&Hm&Hi). unfold state_id_of in Hi at 1. rewrite Hv in Hi.
  apply dimension_state_id_inj in Hi as [Ht Hd]. unfold set_dimension_state, new_dimension_state.
  by rewrite Hid, Hm, <- Ht, <- Hd, Hv.
Qed.
End rows.

(** ** Histories *)

Definition set_world_revision_after (revision : option Z) (a : EnrichmentAttempt) : EnrichmentAttempt :=
  mkEnrichmentAttempt (at_attempt_id a) (at_target_object_id a) (at_requirement_id a) (at_dimension a) (at_operator_id a)
    (at_task_run_id a) (at_execution_status a) (at_semantic_outcome a) (at_blocked_reason a) (at_evidence_refs a)
    (at_output_refs a) (at_world_revision_before a) revision (at_started_at a) (at_finished_at a).
(** The end of a round of the role: [attempt.world_revision_after = updated.world_revision] for its attempts. *)
Definition stamp_attempts (attempt_ids : list string) (revision : Z) : prog EnrichmentDB unit :=
  modify (λ s, set_attempts (update_where (λ a, bool_decide (at_attempt_id a ∈ attempt_ids))
                               (set_world_revision_after (Some revision)) (en_attempts s)) s).

(** What may happen to the tables: the knowledge base learns, the task tables change, an attempt is recorded, an object is
    evaluated, a round ends. *)
Inductive enrichment_op :=
| Learn (op : knowledge_op)
| ChangeTasks (m : prog TaskDB unit)
| RecordAttempt (a : EnrichmentAttempt)
| Evaluate (target_object_id : string) (materialize : bool) (instant : Z)
| EndRound (attempt_ids : list string) (revision : Z).

Section histories.
Context (json_hash : json → string) (uuid5_url : string → string) (float_repr : Z → Z → string)
  (isoformat dump_datetime : Z → string).

Definition run_enrichment_op (op : enrichment_op) : prog EnrichmentDB unit :=
  atomic match op with
         | Learn op => zoom (run_knowledge_op json_hash uuid5_url op)
         | ChangeTasks m => zoom m
         | RecordAttempt a => a ← lift (make_EnrichmentAttempt a); record_enrichment_attempt isoformat dump_datetime a
         | Evaluate id materialize instant => _ ← build uuid5_url float_repr id materialize instant; mret tt
         | EndRound ids revision => stamp_attempts ids revision
         end.
Definition run_enrichment_ops (ops : list enrichment_op) (s : EnrichmentDB) : EnrichmentDB :=
  foldl (λ s op, (run_enrichment_op op s).2) s ops.
Definition empty_enrichment : EnrichmentDB := mkEnrichmentDB empty_TaskDB empty_knowledge ∅ [].

(** ** The invariant *)

(** A reference to a fact that is stored with its evidence, or to an identifier. *)
Inductive fact_exists (k : KnowledgeStore) : string → Prop :=
| identifier_exists x : x ∈ identifiers k → fact_exists k ("identifier:" +:+ external_identifier_id x)
| claim_exists id : id ∈ claim_id <$> claims k → evidenced k T_CLAIM id → fact_exists k ("claim:" +:+ id)
| relation_exists id : id ∈ relation_id <$> relations k → evidenced k T_RELATION id → fact_exists k ("relation:" +:+ id).

Record row_ok (k : KnowledgeStore) (row : EnrichmentDimensionStateModel) : Prop := {
  rk_target : object_typed k (dm_target_object_id row) "Vulnerability";
  rk_status : match dm_status row with
              | CONFLICT => dm_conflict_refs row ≠ []
              | RESOLVED => dm_conflict_refs row = [] ∧ dm_accepted_fact_refs row ≠ []
              | UNKNOWN | MISSING => dm_conflict_refs row = [] ∧ dm_accepted_fact_refs row = []
              end;
  rk_refs : ∀ ref, ref ∈ dm_accepted_fact_refs row ∨ ref ∈ dm_conflict_refs row → fact_exists k ref;
  rk_revision : dm_world_revision row = 0 ∨ revision_known k (dm_world_revision row)
}.

Record enrichment_wf (s : EnrichmentDB) : Prop := {
  ew_knowledge : knowledge_wf uuid5_url (en_knowledge s);
  ew_rows : rows_wf uuid5_url s;
  ew_row_ok : ∀ i row, dimension_states s !! i = Some row → row_ok (en_knowledge s) row;
  ew_attempt_ids : NoDup (at_attempt_id <$> en_attempts s);
  ew_attempts : ∀ a, a ∈ en_attempts s → ∃ t, object_typed (en_knowledge s) (at_target_object_id a) t
}.

(** Attempts stay, and only the world revision they end in changes. *)
Definition attempts_kept (s s' : EnrichmentDB) : Prop :=
  ∀ a, a ∈ en_attempts s → ∃ a', a' ∈ en_attempts s' ∧ a' = set_world_revision_after (at_world_revision_after a') a.

#[export] Instance attempts_kept_preorder : PreOrder attempts_kept.
Proof.
  split; [intros s a Ha; exists a; by destruct a|]. intros s1 s2 s3 H1 H2 a (a2&Ha2&E2)%H1. apply H2 in Ha2 as (a3&Ha3&E3).
  exists a3. split; [done|]. rewrite E2 in E3. by rewrite E3.
Qed.

Lemma object_typed_later k k' id t : knowledge_step k k' → object_typed k id t → object_typed k' id t.
Proof.
  intros Hs (o&Ho&<-&<-). destruct (ks_objects _ _ Hs o Ho) as (o'&Ho'&E&_). exists o'. split; [done|]. by rewrite E.
Qed.
Lemma evidenced_later k k' kind id : knowledge_step k k' → evidenced k kind id → evidenced k' kind id.
Proof.
  intros Hs (l&Hl&?&?&[o Ho]). destruct (ks_links _ _ Hs) as [more E]. exists l. rewrite E. split; [apply elem_of_app; by left|].
  split; [done|]. split; [done|]. exists o. by apply (lookup_weaken _ _ _ _ Ho), (ks_observations _ _ Hs).
Qed.
Lemma revision_known_later k k' r : knowledge_step k k' → revision_known k r → revision_known k' r.
Proof.
  intros Hs. unfold revision_known. destruct (ks_revisions _ _ Hs) as [more E]. rewrite E, fmap_app, elem_of_app. by left.
Qed.
Lemma fact_exists_later k k' ref : knowledge_step k k' → fact_exists k ref → fact_exists k' ref.
Proof.
  intros Hs [x Hx|id (c&->&Hc)%list_elem_of_fmap He|id (r&->&Hr)%list_elem_of_fmap He].
  - constructor. destruct (ks_identifiers _ _ Hs) as [more E]. rewrite E. apply elem_of_app. by left.
  - constructor; [|by eapply evidenced_later]. destruct (ks_claims _ _ Hs c Hc) as [n Hn].
    apply list_elem_of_fmap. by exists (set_claim_superseded n c).
  - constructor; [|by eapply evidenced_later]. destruct (ks_relations _ _ Hs r Hr) as [n Hn].
    apply list_elem_of_fmap. by exists (set_relation_superseded n r).
Qed.
Lemma row_ok_later k k' row : knowledge_step k k' → row_ok k row → row_ok k' row.
Proof.
  intros Hs [H1 H2 H3 H4]. split; [by eapply object_typed_later|done| |].
  - intros ref Href. by eapply fact_exists_later, H3.
  - destruct H4; [by left|right; by eapply revision_known_later].
Qed.

(** What supports or disputes an answer is stored with its evidence. *)
Lemma supports_exists s id d ref : facts_wf (en_knowledge s) → supports s id d ref → fact_exists (en_knowledge s) ref.
Proof.
  intros Hwf [x _ Hx _|c (Hc&_)|r (Hr&_) _]; constructor; try done.
  - by apply list_elem_of_fmap_2.
  - by apply (fw_claims _ Hwf).
  - by apply list_elem_of_fmap_2.
  - by apply (fw_relations _ Hwf).
Qed.
Lemma disputed_exists s id d ref :
  facts_wf (en_knowledge s) → disputed float_repr s id d ref → fact_exists (en_knowledge s) ref.
Proof.
  intros Hwf [c c' (Hc&_) _ _ _|r r' g v v' x' (Hr&_) _ _ _ _]; constructor.
  - by apply list_elem_of_fmap_2.
  - by apply (fw_claims _ Hwf).
  - by apply list_elem_of_fmap_2.
  - by apply (fw_relations _ Hwf).
Qed.

Definition evaluations (o : ObjectModel) (s : EnrichmentDB) : list EnrichmentDimensionState :=
  evaluate_object float_repr o s <$> (requirement_for (object_type o) <$> dimensions).

Lemma evaluations_spec o s :
  object_type o = "Vulnerability"%string → Forall2 (evaluates float_repr s o) dimensions (evaluations o s).
Proof.
  intros Ht. unfold evaluations. rewrite <- list_fmap_compose. induction dimensions as [|d l IH]; [constructor|].
  constructor; [|done]. by apply evaluate_object_evaluates.
Qed.

Lemma evaluations_revision o s st : st ∈ evaluations o s → st_vocabulary_revision st = VOCABULARY_REVISION.
Proof. unfold evaluations. by intros (?&->&_)%list_elem_of_fmap. Qed.

(** [build] on every input. *)
Lemma build_cases s id materialize instant : rows_wf uuid5_url s →
  build uuid5_url float_repr id materialize instant s =
  match get_object id (en_knowledge s) with
  | None => (Err (LookupError "enrichment target object not found" id), s)
  | Some o =>
      if decide (object_type o = "Vulnerability"%string)
      then (Ok (mkEnrichmentStateSnapshot (object_id o) (object_type o) (canonical_key o) VOCABULARY_REVISION
                  (world_revision (en_knowledge s)) (evaluations o s)),
            if materialize then put_states uuid5_url s (evaluations o s) instant else s)
      else (Err (ValueError "enrichment-v1 state builder does not support this object type"), s)
  end.
Proof using float_repr uuid5_url.
  clear json_hash isoformat dump_datetime. intros Hwf. unfold build. unfold mbind at 1, prog_bind. cbn [get_store].
  destruct (get_object id (en_knowledge s)) as [o|] eqn:Ho; [|done]. unfold require, mbind at 1, prog_bind. cbn.
  unfold requirements_for. destruct (decide (object_type o = "Vulnerability"%string)) as [Ht|Ht]; cycle 1.
  { rewrite bool_decide_eq_true_2 by done. done. }
  rewrite bool_decide_eq_false_2 by tauto. cbn [raise_when]. unfold lift, mbind, result_bind, prog_bind.
  fold (evaluations o s). destruct materialize; [|done].
  destruct (put_states_wf uuid5_url (evaluations o s) instant s Hwf) as (_&us&E); [apply evaluations_revision|].
  by rewrite E.
Qed.
(** A step that leaves the invariant and keeps what was recorded. *)
Definition enrichment_step (s s' : EnrichmentDB) : Prop :=
  enrichment_wf s' ∧ attempts_kept s s' ∧ knowledge_step (en_knowledge s) (en_knowledge s').

(** Only the dimension states and the tasks differ. *)
Lemma enrichment_wf_states s s' :
  enrichment_wf s → en_knowledge s' = en_knowledge s → en_attempts s' = en_attempts s → rows_wf uuid5_url s' →
  (∀ i row, dimension_states s' !! i = Some row → row_ok (en_knowledge s) row) → enrichment_step s s'.
Proof.
  intros [H1 H2 H3 H4 H5] Ek Ea Hw Hr. split; [|split].
  - split; rewrite ?Ek, ?Ea; done.
  - intros a Ha. exists a. rewrite Ea. by destruct a.
  - by rewrite Ek.
Qed.

Lemma learn_step op s : enrichment_wf s → enrichment_step s (zoom (run_knowledge_op json_hash uuid5_url op) s).2.
Proof.
  intros [H1 H2 H3 H4 H5]. unfold zoom. pose proof (run_knowledge_op_good json_hash uuid5_url op _ H1) as [Hk Hs].
  cbn [view enrichment_knowledge]. destruct (run_knowledge_op _ _ _ _) as [r k]. cbn in *. split; [|split; [|done]].
  - split; cbn; try done.
    + intros i row Hrow. by eapply row_ok_later, H3.
    + intros a Ha. destruct (H5 a Ha) as [t Ht]. exists t. by eapply object_typed_later.
  - intros a Ha. exists a. by destruct a.
Qed.

Lemma record_step a s u s' :
  enrichment_wf s → record_enrichment_attempt isoformat dump_datetime a s = (Ok u, s') → enrichment_step s s'.
Proof.
  intros Hwf H. unfold record_enrichment_attempt in H. apply bind_Ok in H as (s0&s1&H0&H). apply get_store_Ok in H0 as [-> ->].
  destruct (find _ (en_attempts s)) as [x|] eqn:Hx.
  - apply check_Ok in H as [_ ->]. split; [done|]. by split.
  - apply bind_Ok in H as (ut&s1&H0&H). apply check_Ok in H0 as [_ ->].
    apply bind_Ok in H as (u0&s1&H0&H). apply check_Ok in H0 as [Ho%bool_decide_eq_false ->].
    apply bind_Ok in H as (u1&s1&H0&H). apply check_Ok in H0 as [_ ->]. apply modify_Ok in H as ->.
    destruct Hwf as [H1 H2 H3 H4 H5]. split; [|split; [|done]].
    + split; cbn; try done.
      * rewrite fmap_app. apply NoDup_snoc; [done|]. eapply find_None_key; [|exact Hx]. intros y. by rewrite bool_decide_eq_true.
      * intros y [?| ->%list_elem_of_singleton]%elem_of_app; [by apply H5|].
        destruct (get_object (at_target_object_id a) (en_knowledge s)) as [o|] eqn:E; [|done].
        apply find_elem in E as [E1 E2%bool_decide_eq_true]. by exists (object_type o), o.
    + intros y Hy. exists y. split; [apply elem_of_app; by left|by destruct y].
Qed.

Lemma evaluated_row_ok s o d st i instant :
  facts_wf (en_knowledge s) → o ∈ objects (en_knowledge s) → object_type o = "Vulnerability"%string →
  evaluates float_repr s o d st → row_ok (en_knowledge s) (new_dimension_state i st instant).
Proof.
  intros Hwf Ho Ht [(Hk&_) Hrev Ha Hc Hs _ _ _ _]. split; cbn.
  - rewrite Hk. by exists o.
  - destruct (st_status st); naive_solver.
  - intros ref [Href%Ha|Href%Hc]; [by eapply supports_exists|by eapply disputed_exists].
  - rewrite Hrev. destruct (world_revision_spec (en_knowledge s)) as [[_ ->]|[? _]]; [by left|by right].
Qed.

Lemma stored_row_ok k s st i instant :
  row_ok k (new_dimension_state i st instant) →
  (∀ m, dimension_states s !! state_id_of uuid5_url st = Some m → row_ok k m) →
  row_ok k (stored_state uuid5_url s st instant).
Proof.
  intros [H1 H2 H3 H4] Hm. unfold stored_state. destruct (dimension_states s !! _) as [m|]; [|by split].
  destruct (Hm m eq_refl) as [K1 _ _ _]. by split.
Qed.

Lemma put_states_row_ok k states instant s :
  rows_wf uuid5_url s → (∀ st, st ∈ states → st_vocabulary_revision st = VOCABULARY_REVISION) →
  (∀ st, st ∈ states → ∃ i, row_ok k (new_dimension_state i st instant)) →
  (∀ i row, dimension_states s !! i = Some row → row_ok k row) →
  ∀ i row, dimension_states (put_states uuid5_url s states instant) !! i = Some row → row_ok k row.
Proof.
  revert s. induction states as [|st states IH]; intros s Hwf Hv Hst Hs; [done|].
  assert (st_vocabulary_revision st = VOCABULARY_REVISION) as Hr by (apply Hv; by left).
  destruct (Hst st) as [j Hj]; [by left|].
  apply (IH (put_dimension_state (stored_state uuid5_url s st instant) s)); [by apply put_row_wf| | |].
  - intros st' ?. apply Hv. by right.
  - intros st' ?. apply Hst. by right.
  - intros i row. cbn. rewrite lookup_insert_Some. intros [[_ <-]|[_ Hrow]]; [|by eapply Hs].
    eapply stored_row_ok; [done|]. intros m. apply Hs.
Qed.

Lemma build_step s id materialize instant snap s' :
  enrichment_wf s → build uuid5_url float_repr id materialize instant s = (Ok snap, s') → enrichment_step s s'.
Proof.
  intros Hwf H. pose proof Hwf as [H1 H2 H3 H4 H5]. rewrite build_cases in H by done.
  destruct (get_object id (en_knowledge s)) as [o|] eqn:Ho; [|done]. destruct (decide _) as [Ht|]; [|done].
  injection H as _ <-. destruct materialize; [|split; [done|by split]].
  apply find_elem in Ho as [Ho _]. destruct (put_states_rest uuid5_url s (evaluations o s) instant) as (_&Ek&Ea).
  apply enrichment_wf_states; [done|done|done| |].
  - exact (proj1 (put_states_wf uuid5_url _ instant s H2 (evaluations_revision o s))).
  - apply (put_states_row_ok _ _ instant s H2 (evaluations_revision o s)); [|done]. intros st Hst.
    apply list_elem_of_lookup in Hst as [n Hn].
    destruct (Forall2_lookup_r _ _ _ _ _ (evaluations_spec o s Ht) Hn) as (d&_&Hev).
    exists ""%string. eapply evaluated_row_ok; [by destruct H1|done..].
Qed.

Lemma stamp_step ids revision s : enrichment_wf s → enrichment_step s (stamp_attempts ids revision s).2.
Proof.
  intros [H1 H2 H3 H4 H5]. cbn. split; [|split; [|done]].
  - split; cbn; try done.
    + by rewrite fmap_update_where.
    + intros a (a0&Ha0&->)%elem_of_update_where. destruct (H5 a0 Ha0) as [t Ht]. exists t. by case_bool_decide.
  - intros a Ha. exists (if bool_decide (at_attempt_id a ∈ ids) then set_world_revision_after (Some revision) a else a).
    split; [apply elem_of_update_where; by exists a|]. case_bool_decide; by destruct a.
Qed.

Lemma run_enrichment_op_step op s : enrichment_wf s → enrichment_step s (run_enrichment_op op s).2.
Proof.
  intros Hwf. assert (enrichment_step s s) as Hs by (split; [done|by split]).
  unfold run_enrichment_op. match goal with |- context [atomic ?m s] =>
    destruct (atomic_cases m s) as [(u&s'&Hm&->)|(e&s'&_&->)]; cbn; [|done] end.
  destruct op as [op|m|a|id materialize instant|ids revision].
  - pose proof (learn_step op s Hwf) as H. by rewrite Hm in H.
  - unfold zoom in Hm. cbn in Hm. destruct (m (en_tasks s)) as [r t]. injection Hm as _ <-.
    pose proof Hwf as [H1 H2 H3 H4 H5]. by apply enrichment_wf_states.
  - apply bind_Ok in Hm as (a'&s1&H0&H). apply lift_Ok in H0 as [_ ->]. by eapply record_step.
  - apply bind_Ok in Hm as (snap&s1&H0&H). apply ret_Ok in H as [_ ->]. by eapply build_step.
  - pose proof (stamp_step ids revision s Hwf) as H. by rewrite Hm in H.
Qed.

Lemma run_enrichment_ops_step ops s : enrichment_wf s → enrichment_step s (run_enrichment_ops ops s).
Proof.
  unfold run_enrichment_ops. revert s. induction ops as [|op ops IH]; intros s Hwf; cbn [foldl]; [split; [done|by split]|].
  destruct (run_enrichment_op_step op s Hwf) as (Hwf1&Ha1&Hk1). destruct (IH _ Hwf1) as (Hwf2&Ha2&Hk2).
  split; [done|]. split; by etrans.
Qed.

Lemma empty_enrichment_wf : enrichment_wf empty_enrichment.
Proof.
  split; cbn; try done.
  - apply empty_knowledge_wf.
  - constructor.
  - by intros a ?%elem_of_nil.
Qed.
End histories.

(** What a successful [build] returns, and what no [build] changes. *)
Lemma materialize_state_rest uuid5_url st instant s u s' :
  materialize_state uuid5_url st instant s = (Ok u, s') →
  en_tasks s' = en_tasks s ∧ en_knowledge s' = en_knowledge s ∧ en_attempts s' = en_attempts s.
Proof.
  intros H. unfold materialize_state in H. apply bind_Ok in H as (s0&s1&H0&H). apply get_store_Ok in H0 as [-> ->].
  destruct (dimension_states s !! _) as [m|]; [by apply modify_Ok in H as ->|].
  apply bind_Ok in H as (u0&s1&H0&H). apply check_Ok in H0 as [_ ->]. by apply modify_Ok in H as ->.
Qed.

Definition same_facts (s s' : EnrichmentDB) : Prop :=
  en_tasks s' = en_tasks s ∧ en_knowledge s' = en_knowledge s ∧ en_attempts s' = en_attempts s.
#[export] Instance same_facts_preorder : PreOrder same_facts.
Proof. split; [by intros s|]. intros s1 s2 s3 (?&?&?) (?&?&?). split_and!; congruence. Qed.

Lemma build_Ok uuid5_url float_repr id materialize instant s snap s' :
  build uuid5_url float_repr id materialize instant s = (Ok snap, s') →
  same_facts s s' ∧ ∃ o, get_object id (en_knowledge s) = Some o ∧ object_type o = "Vulnerability"%string ∧
    snap = mkEnrichmentStateSnapshot (object_id o) (object_type o) (canonical_key o) VOCABULARY_REVISION
             (world_revision (en_knowledge s)) (evaluations float_repr o s).
Proof.
  intros H. unfold build in H. apply bind_Ok in H as (s0&s1&H0&H). apply get_store_Ok in H0 as [-> ->].
  apply bind_Ok in H as (o&s1&H0&H). apply require_Ok in H0 as [Ho ->].
  apply bind_Ok in H as (rs&s1&H0&H). apply lift_Ok in H0 as [Hrs ->]. cbv zeta in H.
  apply result_bind_Ok in Hrs as (u&Ht%raise_when_Ok%bool_decide_eq_false%dec_stable&[= <-]).
  apply bind_Ok in H as (u'&s1&H0&H). apply ret_Ok in H as [-> ->]. split; [|by exists o].
  destruct materialize; [|by apply ret_Ok in H0 as [_ ->]].
  apply bind_Ok in H0 as (us&s2&H0&H1). apply ret_Ok in H1 as [_ ->].
  eapply (for_each_steps (λ _, True) same_facts) in H0 as [_ ?]; [done| |done].
  intros st s0 a s3 _ _ Hm. split; [done|]. by eapply materialize_state_rest.
Qed.

(** An evaluation depends on the knowledge base and the attempts only. *)
Lemma evaluates_same float_repr s s' o d st :
  en_knowledge s' = en_knowledge s → en_attempts s' = en_attempts s →
  evaluates float_repr s o d st → evaluates float_repr s' o d st.
Proof.
  destruct s as [t k ds a], s' as [t' k' ds' a']. cbn. intros -> -> [H1 H2 H3 H4 H5 H6 H7 H8 H9].
  assert (∀ ds ds' t t' id ref, supports (mkEnrichmentDB t k ds a) id d ref → supports (mkEnrichmentDB t' k ds' a) id d ref) as E1.
  { intros ? ? ? ? id ref [x ? ? ?|c ?|r ? ?]; [by apply supports_identifier|by apply supports_claim|by apply supports_relation]. }
  assert (∀ ds ds' t t' id ref, disputed float_repr (mkEnrichmentDB t k ds a) id d ref →
    disputed float_repr (mkEnrichmentDB t' k ds' a) id d ref) as E2.
  { intros ? ? ? ? id ref [c c' ? ? ? ?|r r' ? ? ? ? ? ? ? ? ?]; [by eapply disputed_claim|by eapply disputed_relation]. }
  assert (∀ ds ds' t t' id, stated_unknown (mkEnrichmentDB t k ds a) id d → stated_unknown (mkEnrichmentDB t' k ds' a) id d) as E3.
  { intros ? ? ? ? id [r ? ?|b ? ?]; [by eapply unknown_relation|by eapply unknown_attempt]. }
  split; try done.
  - intros ref. rewrite H3. split; apply E1.
  - intros ref. rewrite H4. split; apply E2.
  - destruct (st_status st); naive_solver.
Qed.

(** A recorded attempt is answered by an error when the two texts of an instant differ, as they do for the UTC instants
    of the role: pydantic writes them with [Z], [isoformat()] with [+00:00]. *)
Lemma record_again_raises isoformat dump_datetime a s :
  (∀ t t', isoformat t ≠ dump_datetime t') → at_attempt_id a ∈ at_attempt_id <$> en_attempts s →
  record_enrichment_attempt isoformat dump_datetime a s = (Err (ValueError "enrichment attempt identity is immutable"), s).
Proof.
  intros Htext Hin. unfold record_enrichment_attempt, mbind, prog_bind. cbn [get_store].
  destruct (find _ (en_attempts s)) as [x|] eqn:Hx.
  - unfold check. rewrite bool_decide_eq_true_2; [done|]. intros E. unfold attempt_payload in E. injection E. intros.
    by eapply Htext.
  - exfalso. apply list_elem_of_fmap in Hin as (y&E&Hy). apply (find_None_elem _ _ y Hx), bool_decide_eq_false in Hy. by apply Hy.
Qed.

(** ** A sample history *)

Definition sample_score : EnrichmentCandidate :=
  mkEnrichmentCandidate (Some sample_root) [] [sample_claim "cvss_score" "8.1"] [] [] [].
Definition sample_unknown : EnrichmentAttempt :=
  mkEnrichmentAttempt "attempt-1" sample_subject (requirement_id_of EXPLOIT_STATE) EXPLOIT_STATE "provider.cisa_kev" None
    ATTEMPT_SUCCEEDED (Some OUTCOME_UNKNOWN) None [] [] 2 None 30 (Some 31).
Definition sample_enrichment : list enrichment_op :=
  (Learn <$> sample_first) ++
  [Learn (Observe "o3" (sample_observation "vendor"));
   Learn (Apply None "vendor" (sample_anchor "o3") sample_score "vendor" "1" SOURCE_ASSERTED 2 20);
   RecordAttempt sample_unknown].
Definition sample_repr (m e : Z) : string := str_of_Z m +:+ "b" +:+ str_of_Z e.
Definition sample_iso (t : Z) : string := str_of_Z t +:+ "+00:00".
Definition sample_dump (t : Z) : string := str_of_Z t +:+ "Z".
Definition sample_state : EnrichmentDB :=
  run_enrichment_ops sample_hash same sample_repr sample_iso sample_dump sample_enrichment empty_enrichment.
Definition sample_build := build same sample_repr sample_subject true 40 sample_state.

(** Two sources give different scores, the weakness is known, the exploitation is said not to be known. *)
Example sample_statuses : match sample_build.1 with
  | Ok snap => (λ st, (st_dimension st, st_status st)) <$> sn_dimensions snap =
      [(IDENTITY, RESOLVED); (SEVERITY, CONFLICT); (WEAKNESS, RESOLVED); (PRODUCT_PACKAGE, MISSING);
       (VERSION_APPLICABILITY, MISSING); (FIX_REMEDIATION, MISSING); (EXPLOIT_STATE, UNKNOWN);
       (EXPLOIT_LIKELIHOOD, MISSING); (ADVISORY_REFERENCE, MISSING); (ASSET_EXPOSURE, MISSING); (RESEARCH_PAPER, MISSING);
       (INCIDENT_CONTEXT, MISSING)]
  | Err _ => False
  end.
Proof. vm_compute. reflexivity. Qed.

Example sample_json : json_text sample_repr
  (JObj [("b"%string, JArr [JInt (-2); JBool true; JNull]); ("a"%string, JStr (of_chars ["009"%char; "x"%char]))]) =
  "{" +:+ double_quote +:+ "a" +:+ double_quote +:+ ":" +:+ double_quote +:+ "\tx" +:+ double_quote +:+ ","
      +:+ double_quote +:+ "b" +:+ double_quote +:+ ":[-2,true,null]}".
Proof. vm_compute. reflexivity. Qed.

(** ** Properties *)

(** In every history of learning, attempts, evaluations and ends of rounds the stored evaluations are sound: there is
    one row per object and dimension, it belongs to a vulnerability, its status agrees with its references (a conflict
    cites the facts that disagree, a resolved dimension cites a fact, an unknown or missing one none) and every reference
    it ever cited is to an identifier or to a stored fact that has evidence; and no attempt is ever lost or changed but
    for the world revision its round ended in. *)
Theorem enrichment_history json_hash uuid5_url float_repr isoformat dump_datetime before after :
  let s := run_enrichment_ops json_hash uuid5_url float_repr isoformat dump_datetime before empty_enrichment in
  let s' := run_enrichment_ops json_hash uuid5_url float_repr isoformat dump_datetime after s in
  enrichment_wf uuid5_url s' ∧ attempts_kept s s' ∧
  ∀ i j r r', dimension_states s' !! i = Some r → dimension_states s' !! j = Some r' → state_key r = state_key r' → i = j.
Proof.
  intros s s'. destruct (run_enrichment_ops_step json_hash uuid5_url float_repr isoformat dump_datetime before _
    (empty_enrichment_wf uuid5_url)) as (Hwf&_&_).
  destruct (run_enrichment_ops_step json_hash uuid5_url float_repr isoformat dump_datetime after _ Hwf) as (Hwf'&Ha&_).
  split; [done|]. split; [done|]. intros i j r r' Hr Hr' Hk.
  destruct (ew_rows _ _ Hwf' _ _ Hr) as (_&_&->). destruct (ew_rows _ _ Hwf' _ _ Hr') as (_&_&->).
  unfold state_key in Hk. by injection Hk as -> _ ->.
Qed.

(** C18. After any history an evaluation of an object answers every dimension by what is known, and only that: a conflict
    exactly when two current canonical claims give a predicate different values or two current applicability statements
    give one target in one scope different states, citing all of them; else resolved exactly when some current canonical
    fact (or an identifier) supports the dimension; else unknown exactly when a relation or a successful attempt says so;
    else missing.  The stored rows are then the evaluation, every other row is untouched, nothing else changes; an unknown
    object and another type of object are refused and change nothing. *)
Theorem build_spec json_hash uuid5_url float_repr isoformat dump_datetime ops id materialize instant
  (Huuid : Inj (=) (=) uuid5_url) :
  let s := run_enrichment_ops json_hash uuid5_url float_repr isoformat dump_datetime ops empty_enrichment in
  match get_object id (en_knowledge s) with
  | None => build uuid5_url float_repr id materialize instant s =
              (Err (LookupError "enrichment target object not found" id), s)
  | Some o =>
      if decide (object_type o = "Vulnerability"%string) then
        ∃ snap s', build uuid5_url float_repr id materialize instant s = (Ok snap, s') ∧
          sn_target_object_id snap = id ∧ sn_world_revision snap = world_revision (en_knowledge s) ∧
          Forall2 (evaluates float_repr s o) dimensions (sn_dimensions snap) ∧
          en_tasks s' = en_tasks s ∧ en_knowledge s' = en_knowledge s ∧ en_attempts s' = en_attempts s ∧
          (materialize = true → ∀ st, st ∈ sn_dimensions snap →
             dimension_states s' !! state_id_of uuid5_url st = Some (new_dimension_state (state_id_of uuid5_url st) st instant)) ∧
          ∀ i, materialize = false ∨ i ∉ state_id_of uuid5_url <$> sn_dimensions snap →
             dimension_states s' !! i = dimension_states s !! i
      else build uuid5_url float_repr id materialize instant s =
             (Err (ValueError "enrichment-v1 state builder does not support this object type"), s)
  end.
Proof.
  intros s. destruct (run_enrichment_ops_step json_hash uuid5_url float_repr isoformat dump_datetime ops _
    (empty_enrichment_wf uuid5_url)) as ([_ Hrows _ _ _]&_&_). fold s in Hrows.
  rewrite (build_cases uuid5_url float_repr s id materialize instant Hrows).
  destruct (get_object id (en_knowledge s)) as [o|] eqn:Ho; [|done]. destruct (decide _) as [Ht|Ht]; [|done].
  apply find_elem in Ho as [_ Hid%bool_decide_eq_true]. pose proof (evaluations_spec float_repr o s Ht) as Hev.
  eexists _, _. split; [done|]. cbn [sn_target_object_id sn_world_revision sn_dimensions].
  split; [done|]. split; [done|]. split; [done|]. destruct materialize; [|by repeat (split; [done|])].
  destruct (put_states_rest uuid5_url s (evaluations float_repr o s) instant) as (?&?&?).
  do 3 (split; [done|]). pose proof (evaluations_revision float_repr o s) as Hrev.
  assert (NoDup (state_id_of uuid5_url <$> evaluations float_repr o s)) as Hnd.
  { assert (state_id_of uuid5_url <$> evaluations float_repr o s =
      dimension_state_id uuid5_url VOCABULARY_REVISION (object_id o) <$> dimensions) as ->.
    { unfold evaluations. by rewrite <- !list_fmap_compose. }
    apply NoDup_fmap_2_strong; [|by_decide]. intros d d' _ _ E. by apply dimension_state_id_inj in E as [_ ?]. }
  split.
  - intros _ st Hst. rewrite <- (stored_state_new uuid5_url s st instant Hrows (Hrev st Hst)).
    by apply (lookup_put_states uuid5_url).
  - intros i [?|Hi]; [done|]. by apply (lookup_put_states uuid5_url).
Qed.

Definition sample_object : ObjectModel := mkObjectModel sample_subject "Vulnerability" "cve:CVE-2024-1" [] 1.
Lemma sample_object_stored : get_object sample_subject (en_knowledge sample_state) = Some sample_object.
Proof. vm_compute. reflexivity. Qed.

Lemma build_spec_witness : ∃ snap s', sample_build = (Ok snap, s') ∧
  Forall2 (evaluates sample_repr sample_state sample_object) dimensions (sn_dimensions snap) ∧
  ∀ st, st ∈ sn_dimensions snap →
    dimension_states s' !! state_id_of same st = Some (new_dimension_state (state_id_of same st) st 40).
Proof.
  assert (Inj (=) (=) same) as Hinj by (intros x y E; exact E).
  pose proof (build_spec sample_hash same sample_repr sample_iso sample_dump sample_enrichment sample_subject true 40 Hinj) as H.
  pose proof sample_object_stored as Ho. unfold sample_state in Ho. cbv zeta in H. rewrite Ho in H. rewrite decide_True in H by reflexivity.
  destruct H as (snap&s'&E&_&_&Hev&_&_&_&Hrows&_). exists snap, s'.
  split; [exact E|]. split; [exact Hev|]. apply Hrows. reflexivity.
Defined.
