(* ===== verification/EnrichmentRole.v ===== *)
(** * EnrichmentRole: packages/enrichment/runtime (operators.py, executor.py, role.py)

    The role that enriches a vulnerability: a closed loop over the state of EnrichmentState.  Each round evaluates the
    object ([plan_frame]), plans the operators that could still answer a dimension ([plan]), executes them and commits
    their attempts ([commit_round]); the run ends when there is nothing left to plan, as completed when every required
    dimension has an answer and as blocked otherwise.  [parse_github_development_reference] is that of
    packages/enrichment/graph/github_references.py.

    The executor of operators is a program over the tables, [execute]; [default_execute] is the shipped one around the
    three services it calls.  The store of a run is [World]: the tables and the log of the operators that were called.
    uuid5, the digest, the dumps of a result, [unquote] and what [urlsplit] refuses of a host are parameters; the
    instants and the fresh event identities are functions of the place in the run where they are taken. *)

From S2P Require Import Prelude.
From S2P Require Import Effects.
From S2P Require Import TaskContracts.
From S2P Require Import TaskStore.
From S2P Require Import PyNumbers.
From S2P Require Import Vocabulary.
From S2P Require Import Knowledge.
From S2P Require Import KnowledgeRead.
From S2P Require Import EnrichmentState.
From Stdlib Require Import Ascii.

(** ** operators.py *)

Inductive EnrichmentOperatorKind := PROVIDER_QUERY | DETERMINISTIC_SERVICE.
#[export] Instance EnrichmentOperatorKind_eq_dec : EqDecision EnrichmentOperatorKind.
Proof. solve_decision. Defined.

Record EnrichmentOperatorSpec := mkEnrichmentOperatorSpec {
  os_operator_id : string;
  os_kind : EnrichmentOperatorKind;
  produces : list EnrichmentDimension;
  enables : list EnrichmentDimension;
  os_source_id : option string;
  prerequisite_terms : list string;
  supplemental_when_resolved : bool;
  cost_class : string
}.
Definition spec_dimensions (self : EnrichmentOperatorSpec) : list EnrichmentDimension := produces self ++ enables self.

(** [QuerySpec] of packages/sources/contracts.py *)
Record QuerySpec := mkQuerySpec { filters : dict }.

Record EnrichmentOperatorPlan := mkEnrichmentOperatorPlan {
  operator_id : string;
  op_kind : EnrichmentOperatorKind;
  op_source_id : option string;
  query : option QuerySpec;
  relevant_dimensions : list EnrichmentDimension;
  directly_produces : list EnrichmentDimension;
  op_reason : string
}.

Definition OPERATOR_SPECS : list EnrichmentOperatorSpec := [
  mkEnrichmentOperatorSpec "provider.cisa_kev" PROVIDER_QUERY [EXPLOIT_STATE] [] (Some "cisa-kev"%string) [] false "low";
  mkEnrichmentOperatorSpec "provider.first_epss" PROVIDER_QUERY [EXPLOIT_LIKELIHOOD] [] (Some "first-epss"%string) []
    false "low";
  mkEnrichmentOperatorSpec "provider.github_advisory" PROVIDER_QUERY [PRODUCT_PACKAGE]
    [WEAKNESS; VERSION_APPLICABILITY; FIX_REMEDIATION; ADVISORY_REFERENCE] (Some "github-global-advisories"%string) []
    false "low";
  mkEnrichmentOperatorSpec "provider.redhat_csaf_vex" PROVIDER_QUERY [VERSION_APPLICABILITY] []
    (Some "redhat-csaf-vex"%string) [] false "low";
  mkEnrichmentOperatorSpec "provider.osv" PROVIDER_QUERY [PRODUCT_PACKAGE] [VERSION_APPLICABILITY; FIX_REMEDIATION]
    (Some "osv-vulnerabilities"%string) [] false "low";
  mkEnrichmentOperatorSpec "graph.github_references" DETERMINISTIC_SERVICE [FIX_REMEDIATION] [] None
    ["references"%string; "github_references"%string] true "low";
  mkEnrichmentOperatorSpec "graph.osv_fix_boundary" DETERMINISTIC_SERVICE [FIX_REMEDIATION] [] None
    ["affects-package"%string] true "low"
].

(** [sorted(dimensions, key=lambda item: item.value)] of a set. *)
Definition dimension_le (d d' : EnrichmentDimension) : Prop :=
  String.le (EnrichmentDimension_value d) (EnrichmentDimension_value d').
#[export] Instance dimension_le_dec : RelDecision dimension_le.
Proof. unfold dimension_le. intros x y. apply _. Defined.
Definition sorted_dimensions (p : EnrichmentDimension → bool) : list EnrichmentDimension :=
  py_sorted dimension_le (filter (λ d, p d = true) dimensions).

(** [_claim_urls] *)
Definition claim_urls (value : json) : list string :=
  match value with
  | JStr s => [s]
  | JArr items => omap (λ x, match x with JStr s => Some s | _ => None end) items
  | _ => []
  end.

(** [_has_git_range]: the text of a value that is no string never is [GIT]. *)
Definition is_git_range (item : json) : bool :=
  match item with
  | JObj fields => match dict_get "type" fields with Some (JStr t) => bool_decide (upper t = "GIT"%string) | _ => false end
  | _ => false
  end.
Definition has_git_range (value : option json) : bool :=
  match value with Some (JArr items) => existsb is_git_range items | _ => false end.

(** [_prerequisites_met] *)
Definition prerequisites_met (spec : EnrichmentOperatorSpec) (view : KnowledgeObjectView) : bool :=
  if bool_decide (prerequisite_terms spec = []) then true
  else if bool_decide (os_operator_id spec = "graph.osv_fix_boundary"%string)
  then existsb (λ r, bool_decide (rv_relation_type r = "affects-package"%string)
                     && has_git_range (dict_get "ranges" (rv_qualifier r))) (kv_relations view)
  else existsb (λ t, bool_decide (t ∈ cv_predicate <$> kv_claims view)
                     || bool_decide (t ∈ rv_relation_type <$> kv_relations view)) (prerequisite_terms spec).

(** [_plan_reason] *)
Definition plan_reason (spec : EnrichmentOperatorSpec) (relevant : list EnrichmentDimension) (supplemental : bool) : string :=
  let mode := if supplemental then "supplement"%string
              else if bool_decide (enables spec = []) then "produce"%string else "produce_or_enable"%string in
  mode +:+ ":" +:+ String.concat "," (EnrichmentDimension_value <$> relevant).

(** ** github_references.py: [parse_github_development_reference] *)

Record GitHubDevelopmentReference := mkGitHubDevelopmentReference {
  gr_url : string;
  repo_full_name : string;
  gr_object_type : string;
  gr_filters : dict
}.

(** The index of a character. *)
Fixpoint char_index (p : ascii → bool) (l : list ascii) : option nat :=
  match l with [] => None | c :: l' => if p c then Some 0%nat else S <$> char_index p l' end.
Definition before (p : ascii → bool) (l : list ascii) : list ascii :=
  match char_index p l with Some i => take i l | None => l end.
Definition after (p : ascii → bool) (l : list ascii) : list ascii :=
  match char_index p l with Some i => drop i l | None => [] end.

Definition is_char (x c : ascii) : bool := bool_decide (c = x).
Definition ascii_alpha (c : ascii) : bool :=
  let n := nat_of_ascii c in ((65 <=? n) && (n <=? 90) || (97 <=? n) && (n <=? 122))%nat.
Definition ascii_digit (c : ascii) : bool := let n := nat_of_ascii c in ((48 <=? n) && (n <=? 57))%nat.
Definition scheme_char (c : ascii) : bool :=
  ascii_alpha c || ascii_digit c || is_char "+" c || is_char "-" c || is_char "." c.

(** [str.isdigit]: the superscripts are digits too. *)
Definition isdigit (s : string) : bool :=
  negb (bool_decide (s = ""%string))
  && forallb (λ c, ascii_digit c || bool_decide (nat_of_ascii c ∈ [178; 179; 185]%nat)) (chars s).

Section references.
Context (unquote : string → string) (netloc_refused : string → bool).

(** [urlparse(url)]: the scheme, the host and the path (of a scheme with parameters). *)
Definition split_scheme (l : list ascii) : string * list ascii :=
  match char_index (is_char ":") l, l with
  | Some (S i), c :: _ => if ascii_alpha c && forallb scheme_char (take (S i) l)
                          then (lower (of_chars (take (S i) l)), drop (S (S i)) l) else (""%string, l)
  | _, _ => (""%string, l)
  end.
Definition split_netloc (l : list ascii) : list ascii * list ascii :=
  match l with
  | "/"%char :: "/"%char :: l' =>
      let delimiter c := is_char "/" c || is_char "?" c || is_char "#" c in (before delimiter l', after delimiter l')
  | _ => ([], l)
  end.
(** The path without the parameters of its last segment. *)
Definition split_params (l : list ascii) : list ascii :=
  let last := rev (before (is_char "/") (rev l)) in
  take (length l - length last) l ++ before (is_char ";") last.
Definition urlparse (url : string) : result (string * string * string) :=
  let cleaned := filter (λ c, (c ∉ ["009"%char; "010"%char; "013"%char])) (drop_while (λ c, (nat_of_ascii c <=? 32)%nat) (chars url)) in
  let '(scheme, rest) := split_scheme cleaned in
  let '(netloc, rest) := split_netloc rest in
  _ ← raise_when (xorb (existsb (is_char "[") netloc) (existsb (is_char "]") netloc)) (ValueError "Invalid IPv6 URL");
  _ ← raise_when (netloc_refused (of_chars netloc)) (ValueError "netloc");
  Ok (scheme, of_chars netloc, of_chars (split_params (before (is_char "?") (before (is_char "#") rest)))).

Definition github_reference (url full_name object_type : string) (extra : string * json)
  : option GitHubDevelopmentReference :=
  Some (mkGitHubDevelopmentReference url full_name object_type
    [("repo_full_name"%string, JStr full_name); ("object_type"%string, JStr object_type); extra]).

Definition parse_github_development_reference (url : string) : result (option GitHubDevelopmentReference) :=
  parsed ← urlparse url;
  let '(scheme, netloc, path) := parsed in
  if bool_decide (scheme ∉ ["http"%string; "https"%string])
     || bool_decide (lower netloc ∉ ["github.com"%string; "www.github.com"%string]) then Ok None
  else
    match unquote <$> filter (λ item, item ≠ ""%string) (split_on "/" path) with
    | owner :: repo :: marker :: value :: rest =>
        let full_name := owner +:+ "/" +:+ repo in
        if bool_decide (marker = "issues"%string) && isdigit value
        then n ← int_of_text value; Ok (github_reference url full_name "issue" ("issue_number"%string, JInt n))
        else if bool_decide (marker = "pull"%string) && isdigit value
        then n ← int_of_text value; Ok (github_reference url full_name "pull_request" ("pull_number"%string, JInt n))
        else if bool_decide (marker = "commit"%string) && negb (bool_decide (value = ""%string))
        then Ok (github_reference url full_name "commit" ("commit_sha"%string, JStr value))
        else if bool_decide (marker = "releases"%string) && bool_decide (value = "tag"%string)
                && negb (bool_decide (rest = []))
        then Ok (github_reference url full_name "release" ("tag"%string, JStr (String.concat "/" rest)))
        else Ok None
    | _ => Ok None
    end.

(** ** The planner *)

(** [_supplemental_needed] *)
Definition supplemental_needed (spec : EnrichmentOperatorSpec) (view : KnowledgeObjectView) : result bool :=
  if bool_decide (os_operator_id spec = "graph.github_references"%string) then
    let urls := mjoin ((λ c, claim_urls (cv_value c)) <$>
                  filter (λ c, cv_predicate c ∈ ["references"%string; "github_references"%string]) (kv_claims view)) in
    references ← try_map parse_github_development_reference urls;
    let referenced := gr_url <$> omap (M:=list) id references in
    let materialized := omap (λ r, if bool_decide (rv_relation_type r = "references-development-object"%string)
                                   then match dict_get "reference_url" (rv_qualifier r) with
                                        | Some (JStr u) => Some u | _ => None end
                                   else None) (kv_relations view) in
    Ok (existsb (λ u, bool_decide (u ∉ materialized)) referenced)
  else if bool_decide (os_operator_id spec = "graph.osv_fix_boundary"%string)
  then Ok (bool_decide ("fixed-by"%string ∉ rv_relation_type <$> kv_relations view))
  else Ok false.

(** The dimensions an operator is wanted for: those that are missing, and the targets it can supplement. *)
Definition normal_relevant (spec : EnrichmentOperatorSpec) (missing : list EnrichmentDimension) (d : EnrichmentDimension)
  : bool := bool_decide (d ∈ missing) && bool_decide (d ∈ spec_dimensions spec).
Definition supplemental_relevant (spec : EnrichmentOperatorSpec) (view : KnowledgeObjectView)
  (target : list EnrichmentDimension) : result (EnrichmentDimension → bool) :=
  if supplemental_when_resolved spec && existsb (λ d, bool_decide (d ∈ target)) (spec_dimensions spec) then
    needed ← supplemental_needed spec view;
    Ok (λ d, needed && bool_decide (d ∈ spec_dimensions spec) && bool_decide (d ∈ target))
  else Ok (λ _, false).

(** The body of the loop of [plan]. *)
Definition plan_operator (view : KnowledgeObjectView) (cve_id : string) (target missing : list EnrichmentDimension)
  (attempted : list string) (spec : EnrichmentOperatorSpec) : result (option EnrichmentOperatorPlan) :=
  if bool_decide (os_operator_id spec ∈ attempted) then Ok None
  else
    supplemental ← supplemental_relevant spec view target;
    let relevant := sorted_dimensions (λ d, normal_relevant spec missing d || supplemental d) in
    if bool_decide (relevant = []) then Ok None
    else if negb (prerequisites_met spec view) then Ok None
    else Ok (Some (mkEnrichmentOperatorPlan (os_operator_id spec) (os_kind spec) (os_source_id spec)
      (if bool_decide (os_kind spec = PROVIDER_QUERY) then Some (mkQuerySpec [("cve_id"%string, JStr (upper cve_id))]) else None)
      relevant
      (filter (λ d, d ∈ produces spec ∧ normal_relevant spec missing d = true) relevant)
      (plan_reason spec relevant
         (existsb (λ d, supplemental d && negb (normal_relevant spec missing d)) dimensions)))).

(** [EnrichmentStatePlanner.plan] *)
Definition missing_dimensions (snapshot : EnrichmentStateSnapshot) (target refresh : list EnrichmentDimension)
  : list EnrichmentDimension :=
  st_dimension <$> filter (λ st, st_dimension st ∈ target ∧ (st_status st = MISSING ∨ st_dimension st ∈ refresh))
                     (sn_dimensions snapshot).
Definition plan (snapshot : EnrichmentStateSnapshot) (view : KnowledgeObjectView) (cve_id : string)
  (target_dimensions refresh_dimensions : list EnrichmentDimension) (attempted_operator_ids : list string)
  : result (list EnrichmentOperatorPlan) :=
  let target := if bool_decide (target_dimensions = []) then dimensions else target_dimensions in
  let missing := missing_dimensions snapshot target refresh_dimensions in
  plans ← try_map (plan_operator view cve_id target missing attempted_operator_ids) OPERATOR_SPECS;
  Ok (omap (M:=list) id plans).
End references.

(** ** executor.py *)

Record EnrichmentOperatorExecution := mkEnrichmentOperatorExecution {
  ex_operator_id : string;
  ex_status : EnrichmentAttemptStatus;
  semantic_outcomes : list (EnrichmentDimension * EnrichmentSemanticOutcome);
  ex_blocked_reason : option string;
  ex_evidence_refs : list string;
  ex_output_refs : list string
}.

(** [except (SourceFetchFailed, SourceRateLimited, SourceAuthFailed)] and [except SourceError]: the classes of
    packages/sources/errors.py. *)
Definition BLOCKING_ERRORS : list string := ["SourceFetchFailed"%string; "SourceRateLimited"%string; "SourceAuthFailed"%string].
Definition SOURCE_ERRORS : list string :=
  BLOCKING_ERRORS ++ ["SourceError"%string; "SourceAccessBlocked"%string; "SourceSchemaChanged"%string;
                      "SourceConfigurationError"%string].

(** [d[k] = v] *)
Definition outcome_of (plan : EnrichmentOperatorPlan) (results : list NormalizationResult) : EnrichmentSemanticOutcome :=
  if negb (bool_decide (results = [])) then OUTCOME_RESOLVED
  else if bool_decide (operator_id plan = "provider.cisa_kev"%string) then OUTCOME_UNKNOWN
  else OUTCOME_NO_CHANGE.

Definition succeeded_execution (plan : EnrichmentOperatorPlan) (results : list NormalizationResult)
  : EnrichmentOperatorExecution :=
  mkEnrichmentOperatorExecution (operator_id plan) ATTEMPT_SUCCEEDED
    (foldl (λ d k, dict_update k (λ _, outcome_of plan results) d) [] (directly_produces plan)) None
    (sorted_set ((λ r, "observation:" +:+ nr_observation_id r) <$> results))
    (sorted_set ((λ r, "knowledge-revision:" +:+ str_of_Z (Knowledge.knowledge_revision r)) <$> results)).

(** [str(exc)[:512]] *)
Definition error_text (cls msg : string) : string := cls +:+ ":" +:+ of_chars (take 512 (chars msg)).
Definition failed_execution (plan : EnrichmentOperatorPlan) (e : exn) : result EnrichmentOperatorExecution :=
  match e with
  | OtherException cls msg =>
      if bool_decide (cls ∈ BLOCKING_ERRORS)
      then Ok (mkEnrichmentOperatorExecution (operator_id plan) ATTEMPT_BLOCKED [] (Some cls) [] [])
      else if bool_decide (cls ∈ SOURCE_ERRORS)
      then Ok (mkEnrichmentOperatorExecution (operator_id plan) ATTEMPT_FAILED [] (Some (error_text cls msg)) [] [])
      else Err e
  | _ => Err e
  end.

Section executor.
(** The three services: a query of a provider, and the two graph services. *)
Context (execute_job : string → string → QuerySpec → string → list EnrichmentDimension → string →
                       prog EnrichmentDB (list NormalizationResult))
        (github_references fix_boundary : string → string → prog EnrichmentDB (list NormalizationResult)).

(** [DefaultEnrichmentOperatorExecutor._execute] *)
Definition execute_operator (plan : EnrichmentOperatorPlan) (cve_id parent_run_id : string)
  : prog EnrichmentDB (list NormalizationResult) :=
  if bool_decide (op_kind plan = PROVIDER_QUERY) then
    match op_source_id plan, query plan with
    | Some source_id, Some query =>
        execute_job cve_id source_id query (operator_id plan) (relevant_dimensions plan) parent_run_id
    | _, _ => raise (ValueError "provider enrichment operator requires source_id and query")
    end
  else if bool_decide (operator_id plan = "graph.github_references"%string) then github_references cve_id parent_run_id
  else if bool_decide (operator_id plan = "graph.osv_fix_boundary"%string) then fix_boundary cve_id parent_run_id
  else raise (ValueError "unsupported enrichment operator").

(** [DefaultEnrichmentOperatorExecutor.execute] *)
Definition default_execute (plan : EnrichmentOperatorPlan) (cve_id parent_run_id : string)
  : prog EnrichmentDB EnrichmentOperatorExecution :=
  try_catch (results ← execute_operator plan cve_id parent_run_id; mret (succeeded_execution plan results))
    (λ e, lift (failed_execution plan e)).
End executor.

(** ** role.py *)

Record EnrichmentTaskDesiredState := mkEnrichmentTaskDesiredState {
  ds_target_object_id : string;
  ds_cve_id : string;
  required_dimensions : list EnrichmentDimension;
  refresh_dimensions : list EnrichmentDimension;
  terminal_statuses : list EnrichmentStatus
}.

(** [EnrichmentTaskDesiredState.validate_contract_shape] *)
Definition validate_contract_shape (self : EnrichmentTaskDesiredState) : result EnrichmentTaskDesiredState :=
  _ ← raise_when (py_blank (ds_target_object_id self)) (ValueError "enrichment target_object_id cannot be empty");
  _ ← raise_when (negb (startswith "CVE-" (upper (ds_cve_id self)))) (ValueError "v1 EnrichmentRole requires a CVE identifier");
  _ ← raise_when (bool_decide (required_dimensions self = [])) (ValueError "enrichment task requires at least one dimension");
  _ ← raise_when (negb (forallb (λ d, bool_decide (d ∈ required_dimensions self)) (refresh_dimensions self)))
        (ValueError "refresh dimensions must be required by the enrichment task");
  _ ← raise_when (bool_decide (MISSING ∈ terminal_statuses self))
        (ValueError "missing cannot be a successful enrichment terminal status");
  Ok self.

Definition status_value (s : EnrichmentStatus) : string :=
  match s with RESOLVED => "resolved" | CONFLICT => "conflict" | UNKNOWN => "unknown" | MISSING => "missing" end.

(** [model_validate]: the fields of a JSON object. *)
Definition text_field (k : string) (d : dict) : result string :=
  match dict_get k d with Some (JStr s) => Ok s | _ => Err (ValueError "validation error") end.
Definition member_of {A} (value : A → string) (members : list A) (v : json) : result A :=
  match v with
  | JStr s => match find (λ x, bool_decide (value x = s)) members with
              | Some x => Ok x | None => Err (ValueError "validation error") end
  | _ => Err (ValueError "validation error")
  end.
Definition members_field {A} (value : A → string) (members : list A) (k : string) (default : option (list A)) (d : dict)
  : result (list A) :=
  match dict_get k d, default with
  | Some (JArr items), _ => try_map (member_of value members) items
  | None, Some l => Ok l
  | _, _ => Err (ValueError "validation error")
  end.

(** [_desired_state] *)
Definition desired_state_of (contract : TaskContract) : result EnrichmentTaskDesiredState :=
  let d := desired_state contract in
  target ← text_field "target_object_id" d;
  cve ← text_field "cve_id" d;
  required ← members_field EnrichmentDimension_value dimensions "required_dimensions" None d;
  refresh ← members_field EnrichmentDimension_value dimensions "refresh_dimensions" (Some []) d;
  terminal ← members_field status_value [RESOLVED; CONFLICT; UNKNOWN; MISSING] "terminal_statuses"
               (Some [RESOLVED; CONFLICT; UNKNOWN]) d;
  validate_contract_shape (mkEnrichmentTaskDesiredState target cve required refresh terminal).

Record EnrichmentTaskResult := mkEnrichmentTaskResult {
  er_task_run_id : string;
  er_target_object_id : string;
  er_cve_id : string;
  final_world_revision : Z;
  dimension_status : list (EnrichmentDimension * EnrichmentStatus);
  attempted_operators : list string;
  blocked_dimensions : list EnrichmentDimension;
  er_stop_reason : string
}.
Record EnrichmentRoleOutcome := mkEnrichmentRoleOutcome { run_status : TaskRunStatus; ro_result : EnrichmentTaskResult }.

(** [_PlanningFrame], [_ExecutionFrame] *)
Record PlanningFrame := mkPlanningFrame {
  fr_contract : TaskContract;
  desired : EnrichmentTaskDesiredState;
  snapshot : EnrichmentStateSnapshot;
  plans : list EnrichmentOperatorPlan;
  attempted_operator_ids : list string
}.
Record ExecutionFrame := mkExecutionFrame {
  xf_plan : EnrichmentOperatorPlan;
  execution : EnrichmentOperatorExecution;
  xf_started_at : Z;
  xf_finished_at : Z
}.

(** The tables, and the operators that were called. *)
Definition World : Type := EnrichmentDB * list string.

Definition ROLE_ID : string := "EnrichmentRole".

(** [_validate_enrichment_run] *)
Definition validate_enrichment_run (role_id : string) (contract : TaskContract) : result unit :=
  _ ← raise_when (bool_decide (role_id ≠ ROLE_ID)) (ValueError "TaskRun role mismatch: expected EnrichmentRole");
  _ ← raise_when (bool_decide (task_kind contract ≠ ENRICHMENT)) (ValueError "EnrichmentRole requires ENRICHMENT task");
  d ← desired_state_of contract;
  _ ← raise_when (bool_decide (("object:" +:+ ds_target_object_id d) ∉ target_resources contract))
        (ValueError "enrichment TaskContract must scope the target object");
  raise_when (bool_decide (dict_get "type" (completion_predicate contract) ≠ Some (JStr "enrichment_dimensions_terminal")))
    (ValueError "EnrichmentRole requires enrichment_dimensions_terminal completion predicate").

Section role.
Context (uuid5_url : string → string) (float_repr : Z → Z → string) (isoformat dump_datetime : Z → string)
  (sha256_hex : string → string) (result_json : EnrichmentTaskResult → string)
  (unquote : string → string) (netloc_refused : string → bool) (stream_name : string)
  (now : nat → string → Z) (fresh : string → string)
  (execute : EnrichmentOperatorPlan → string → string → prog EnrichmentDB EnrichmentOperatorExecution).

(** [_attempt_id] *)
Definition attempt_id_of (run_id operator : string) (d : EnrichmentDimension) : string :=
  uuid5_url ("secfusion:enrichment-attempt:" +:+ run_id +:+ ":" +:+ operator +:+ ":" +:+ EnrichmentDimension_value d).

(** [snapshot.by_dimension()[d]] *)
Definition state_of (snapshot : EnrichmentStateSnapshot) (d : EnrichmentDimension) : result EnrichmentDimensionState :=
  match by_dimension snapshot d with Some st => Ok st | None => Err (OtherException "KeyError" (EnrichmentDimension_value d)) end.

(** [_snapshot_signature] *)
Definition dimension_signature (snapshot : EnrichmentStateSnapshot) (d : EnrichmentDimension) : result string :=
  st ← state_of snapshot d;
  Ok (EnrichmentDimension_value d +:+ ":" +:+ status_value (st_status st) +:+ ":"
        +:+ String.concat "," (accepted_fact_refs st) +:+ ":" +:+ String.concat "," (conflict_refs st)).
Definition snapshot_signature (snapshot : EnrichmentStateSnapshot) (ds : list EnrichmentDimension) : result string :=
  parts ← try_map (dimension_signature snapshot) (sorted_dimensions (λ d, bool_decide (d ∈ ds)));
  Ok (sha256_hex (String.concat "|" parts)).

(** [_result_ref] *)
Definition result_ref_of (r : EnrichmentTaskResult) : string :=
  "enrichment-result:" +:+ er_task_run_id r +:+ ":" +:+ of_chars (take 24 (chars (sha256_hex (result_json r)))).

Definition transition (run_id : string) (target : TaskRunStatus) (payload_ref idempotency_key : string)
  (result stop : option string) (instant : Z) : prog EnrichmentDB TaskRun :=
  zoom (transition_task_run run_id target payload_ref idempotency_key stream_name ROLE_ID result stop
          (fresh idempotency_key) instant).

(** [_ensure_running] *)
Definition ensure_running (run_id : string) : prog EnrichmentDB unit := atomic (
  run ← zoom (get_task_run run_id);
  contract ← zoom (get_task_contract_for_run run_id);
  lift (validate_enrichment_run (tr_role_id run) contract);;
  run ← (if bool_decide (tr_status run = SUBMITTED)
         then transition run_id QUEUED "queue:enrichment" ("enrichment-queued:" +:+ run_id) None None (now 0 "queued");;
              zoom (get_task_run run_id)
         else mret run);
  if bool_decide (tr_status run = QUEUED)
  then transition run_id RUNNING ("role:" +:+ ROLE_ID) ("enrichment-started:" +:+ run_id) None None (now 0 "started");;
       mret tt
  else check (bool_decide (tr_status run ≠ RUNNING)) (ValueError "EnrichmentRole cannot execute TaskRun in this status")).

(** The distinct operators a run has attempted. *)
Definition attempted_by (run_id : string) (s : EnrichmentDB) : list string :=
  remove_dups (at_operator_id <$> filter (λ a, at_task_run_id a = Some run_id) (en_attempts s)).

(** [_plan_frame] *)
Definition plan_frame (run_id : string) (instant : Z) : prog EnrichmentDB PlanningFrame := atomic (
  contract ← zoom (get_task_contract_for_run run_id);
  d ← lift (desired_state_of contract);
  snapshot ← build uuid5_url float_repr (ds_target_object_id d) true instant;
  s ← get_store;
  view ← require (get_object_by_id (en_knowledge s) (ds_target_object_id d))
           (LookupError "enrichment target object not found" (ds_target_object_id d));
  check (bool_decide (upper (ds_cve_id d) ∉
                      upper <$> default [] (dict_get "cve" (kv_external_identifiers view))))
    (ValueError "enrichment target object does not match TaskContract cve_id");;
  let attempted := attempted_by run_id s in
  plans ← lift (plan unquote netloc_refused snapshot view (ds_cve_id d) (required_dimensions d) (refresh_dimensions d)
                  attempted);
  mret (mkPlanningFrame contract d snapshot plans attempted)).

(** [_completion_status] *)
Definition is_complete (frame : PlanningFrame) : result bool :=
  sts ← try_map (state_of (snapshot frame)) (required_dimensions (desired frame));
  Ok (forallb (λ st, bool_decide (st_status st ∈ terminal_statuses (desired frame))) sts).

(** [_finish] *)
Definition task_result (run_id : string) (frame : PlanningFrame) (stop_reason : string) : result EnrichmentTaskResult :=
  let d := desired frame in
  sts ← try_map (λ k, st ← state_of (snapshot frame) k; Ok (k, st_status st)) (required_dimensions d);
  Ok (mkEnrichmentTaskResult run_id (ds_target_object_id d) (ds_cve_id d) (sn_world_revision (snapshot frame))
        (foldl (λ m ks, dict_update ks.1 (λ _, ks.2) m) [] sts)
        (merge_sort String.le (attempted_operator_ids frame))
        (fst <$> filter (λ ks : EnrichmentDimension * EnrichmentStatus, ks.2 = MISSING) sts)
        stop_reason).
Definition finish (run_id : string) (frame : PlanningFrame) (target : TaskRunStatus) (stop_reason : string) (instant : Z)
  : prog EnrichmentDB EnrichmentRoleOutcome :=
  r ← lift (task_result run_id frame stop_reason);
  let result_ref := result_ref_of r in
  atomic (transition run_id target result_ref ("enrichment-terminal:" +:+ run_id +:+ ":" +:+ TaskRunStatus_value target)
            (Some result_ref) (Some stop_reason) instant);;
  mret (mkEnrichmentRoleOutcome target r).

(** [_fail_unexpected] *)
Definition fail_unexpected (run_id operator : string) (e : exn) (instant : Z) : prog EnrichmentDB unit := atomic (
  run ← zoom (get_task_run run_id);
  if bool_decide (tr_status run ≠ RUNNING) then mret tt
  else transition run_id FAILED ("enrichment-error:" +:+ operator +:+ ":" +:+ type_name e)
         ("enrichment-failed:" +:+ run_id +:+ ":" +:+ operator +:+ ":" +:+ type_name e) None
         (Some ("unexpected_operator_error:" +:+ type_name e)) instant;;
       mret tt).

(** The attempt of a round in one dimension. *)
Definition attempt_of (run_id : string) (frame : PlanningFrame) (item : ExecutionFrame) (d : EnrichmentDimension)
  : EnrichmentAttempt :=
  mkEnrichmentAttempt (attempt_id_of run_id (operator_id (xf_plan item)) d) (ds_target_object_id (desired frame))
    ("enrichment-v1:Vulnerability:" +:+ EnrichmentDimension_value d) d (operator_id (xf_plan item)) (Some run_id)
    (ex_status (execution item)) (assoc d (semantic_outcomes (execution item))) (ex_blocked_reason (execution item))
    (ex_evidence_refs (execution item)) (ex_output_refs (execution item)) (sn_world_revision (snapshot frame)) None
    (xf_started_at item) (Some (xf_finished_at item)).

(** The body of the loop of [_commit_round]. *)
Definition commit_execution (run_id : string) (frame : PlanningFrame) (round : nat) (item : ExecutionFrame)
  : prog EnrichmentDB (list string) :=
  let operator := operator_id (xf_plan item) in
  for_each (relevant_dimensions (xf_plan item)) (λ d,
    a ← lift (make_EnrichmentAttempt (attempt_of run_id frame item d));
    record_enrichment_attempt isoformat dump_datetime a);;
  run ← zoom (get_task_run run_id);
  zoom (append_task_event (fresh ("enrichment-attempt:" +:+ run_id +:+ ":" +:+ operator)) run_id PROGRESS ROLE_ID
          (tr_base_context_revision run)
          ("enrichment-attempt:" +:+ operator +:+ ":" +:+ EnrichmentAttemptStatus_value (ex_status (execution item))
             +:+ ":round-" +:+ str_of_Z (Z.of_nat round))
          ("enrichment-attempt:" +:+ run_id +:+ ":" +:+ operator) stream_name (now round "commit"));;
  mret (attempt_id_of run_id operator <$> relevant_dimensions (xf_plan item)).

(** [_commit_round] *)
Definition commit_round (run_id : string) (frame : PlanningFrame) (executions : list ExecutionFrame) (round : nat)
  : prog EnrichmentDB bool := atomic (
  ids ← for_each executions (commit_execution run_id frame round);
  updated ← build uuid5_url float_repr (ds_target_object_id (desired frame)) true (now round "commit");
  (if bool_decide (mjoin ids = []) then mret tt else stamp_attempts (mjoin ids) (sn_world_revision updated));;
  before ← lift (snapshot_signature (snapshot frame) (required_dimensions (desired frame)));
  after ← lift (snapshot_signature updated (required_dimensions (desired frame)));
  (if bool_decide (after = before) then mret tt
   else
     run ← zoom (get_task_run run_id);
     let key := "enrichment-state:" +:+ run_id +:+ ":" +:+ str_of_Z (sn_world_revision updated) +:+ ":"
                  +:+ of_chars (take 16 (chars after)) in
     zoom (append_task_event (fresh key) run_id ENRICHMENT_STATE_CHANGED ROLE_ID (tr_base_context_revision run)
             ("enrichment-state:" +:+ sn_target_object_id updated +:+ "@" +:+ str_of_Z (sn_world_revision updated))
             key stream_name (now round "commit"));;
     mret tt);;
  mret (negb (bool_decide (after = before)))).

(** [self._executor.execute(plan, cve_id=..., parent_run_id=run_id)] *)
Definition call_operator (plan : EnrichmentOperatorPlan) (cve_id run_id : string) : prog World EnrichmentOperatorExecution :=
  λ w, let '(r, s) := execute plan cve_id run_id w.1 in (r, (s, w.2 ++ [operator_id plan])).

(** The body of the loop over the plans of a frame. *)
Definition execute_plan (run_id : string) (frame : PlanningFrame) (round : nat) (plan : EnrichmentOperatorPlan)
  : prog World ExecutionFrame :=
  execution ← try_catch (call_operator plan (ds_cve_id (desired frame)) run_id)
    (λ e, zoom (fail_unexpected run_id (operator_id plan) e (now round "failed"));; raise e);
  mret (mkExecutionFrame plan execution (now round ("started:" +:+ operator_id plan)) (now round ("finished:" +:+ operator_id plan))).

(** The rounds of [run]: [n] are left, the next one is [round]. *)
Fixpoint run_rounds (run_id : string) (n round : nat) : prog World EnrichmentRoleOutcome :=
  frame ← zoom (plan_frame run_id (now round "plan"));
  match n with
  | O => zoom (finish run_id frame BLOCKED "enrichment_round_budget_exhausted" (now round "finish"))
  | S n' =>
      complete ← lift (is_complete frame);
      if bool_decide (plans frame = []) then
        if (complete : bool)
        then zoom (finish run_id frame COMPLETED "enrichment_goal_satisfied" (now round "finish"))
        else zoom (finish run_id frame BLOCKED "no_eligible_enrichment_operator" (now round "finish"))
      else
        executions ← for_each (plans frame) (execute_plan run_id frame round);
        _ ← zoom (commit_round run_id frame executions round);
        run_rounds run_id n' (S round)
  end.

(** [EnrichmentRoleRuntime.run], of a role made with [max_rounds]. *)
Definition run (max_rounds : nat) (run_id : string) : prog World EnrichmentRoleOutcome :=
  check (Nat.ltb max_rounds 1) (ValueError "max_rounds must be >= 1");;
  zoom (ensure_running run_id);;
  run_rounds run_id max_rounds 1.
End role.

(** ** The planner *)

Definition registry : list string := os_operator_id <$> OPERATOR_SPECS.

Lemma registry_NoDup : NoDup registry.
Proof. by_decide. Qed.

Lemma try_map_omap {A B} (f : A → result (option B)) l ys :
  try_map f l = Ok ys → ∀ y, y ∈ omap (M:=list) id ys ↔ ∃ x, x ∈ l ∧ f x = Ok (Some y).
Proof.
  intros H%try_map_Forall2 y. rewrite list_elem_of_omap. split.
  - intros ([z|]&Hz&E); [|done]. injection E as ->. apply list_elem_of_lookup in Hz as [i Hi].
    destruct (Forall2_lookup_r _ _ _ _ _ H Hi) as (x&Hx&E). exists x. split; [by eapply list_elem_of_lookup_2|done].
  - intros (x&Hx&E). apply list_elem_of_lookup in Hx as [i Hi].
    destruct (Forall2_lookup_l _ _ _ _ _ H Hi) as (z&Hz&E'). exists z. split; [by eapply list_elem_of_lookup_2|].
    rewrite E in E'. by injection E' as <-.
Qed.

Lemma sublist_omap_key {A B K} (f : A → result (option B)) (ka : A → K) (kb : B → K) l ys :
  (∀ x y, f x = Ok (Some y) → kb y = ka x) → try_map f l = Ok ys → sublist (kb <$> omap (M:=list) id ys) (ka <$> l).
Proof.
  intros Hk H%try_map_Forall2. induction H as [|x [y|] l ys E _ IH]; csimpl; [constructor| |by constructor].
  rewrite (Hk x y E). by constructor.
Qed.

Section planner.
Context (unquote : string → string) (netloc_refused : string → bool).

Lemma plan_operator_Some view cve target missing attempted spec p :
  plan_operator unquote netloc_refused view cve target missing attempted spec = Ok (Some p) →
  operator_id p = os_operator_id spec ∧ (os_operator_id spec ∉ attempted) ∧ relevant_dimensions p ≠ [] ∧
  prerequisites_met spec view = true.
Proof.
  unfold plan_operator. case_bool_decide as Ha; [done|]. unfold mbind, result_bind.
  destruct (supplemental_relevant _ _ _ _ _) as [supplemental|e]; [|done]. cbv zeta.
  case_bool_decide as Hr; [done|]. destruct (prerequisites_met spec view) eqn:Hp; [|done]. by intros [= <-].
Qed.

Lemma plan_operator_None view cve target missing attempted spec k :
  plan_operator unquote netloc_refused view cve target missing attempted spec = Ok None →
  k ∈ missing → k ∈ spec_dimensions spec → os_operator_id spec ∈ attempted ∨ prerequisites_met spec view = false.
Proof.
  unfold plan_operator. case_bool_decide as Ha; [by left|]. unfold mbind, result_bind.
  destruct (supplemental_relevant _ _ _ _ _) as [supplemental|e]; [|done]. cbv zeta. intros H Hm Hs.
  case_bool_decide as Hr; [exfalso|destruct (prerequisites_met spec view); [done|by right]].
  assert (k ∈ sorted_dimensions (λ d, normal_relevant spec missing d || supplemental d)) as Hk; [|rewrite Hr in Hk; by apply elem_of_nil in Hk].
  unfold sorted_dimensions. rewrite py_sorted_Permutation. apply list_elem_of_filter. split; [|by destruct k; set_solver].
  unfold normal_relevant. by rewrite !bool_decide_eq_true_2.
Qed.

Lemma plan_Ok sn view cve target refresh attempted ps :
  plan unquote netloc_refused sn view cve target refresh attempted = Ok ps →
  NoDup (operator_id <$> ps) ∧
  ∀ p, p ∈ ps → operator_id p ∈ registry ∧ (operator_id p ∉ attempted) ∧ relevant_dimensions p ≠ [].
Proof.
  unfold plan. cbv zeta. intros H. apply result_bind_Ok in H as (ys&Hys&[= <-]). split.
  - eapply sublist_NoDup; [exact registry_NoDup|]. eapply sublist_omap_key; [|exact Hys].
    by intros x y (?&_)%plan_operator_Some.
  - intros p. rewrite (try_map_omap _ _ _ Hys). intros (spec&Hspec&(->&?&?&_)%plan_operator_Some). split; [|done].
    by apply list_elem_of_fmap_2.
Qed.

(** When nothing is planned, every operator for a missing dimension was attempted or has no prerequisite. *)
Lemma plan_nil sn view cve target refresh attempted :
  target ≠ [] → plan unquote netloc_refused sn view cve target refresh attempted = Ok [] →
  ∀ st spec, st ∈ sn_dimensions sn → st_dimension st ∈ target → st_status st = MISSING → spec ∈ OPERATOR_SPECS →
    st_dimension st ∈ spec_dimensions spec → os_operator_id spec ∈ attempted ∨ prerequisites_met spec view = false.
Proof.
  unfold plan. cbv zeta. intros Hne H. rewrite bool_decide_eq_false_2 in H by done.
  apply result_bind_Ok in H as (ys&Hys&[= Hnil]).
  intros st spec Hst Ht Hm Hspec Hd. pose proof (try_map_Forall2 _ _ _ Hys) as Hall.
  apply list_elem_of_lookup in Hspec as [i Hi]. destruct (Forall2_lookup_l _ _ _ _ _ Hall Hi) as ([p|]&Hp&E).
  - exfalso. assert (p ∈ omap (M:=list) id ys) as Hin; [|rewrite Hnil in Hin; by apply elem_of_nil in Hin].
    apply list_elem_of_omap. exists (Some p). split; [by eapply list_elem_of_lookup_2|done].
  - eapply plan_operator_None; [exact E| |exact Hd]. unfold missing_dimensions. apply list_elem_of_fmap. exists st.
    split; [done|]. apply list_elem_of_filter. auto.
Qed.
End planner.

(** ** Steps of the role *)

Section steps.
Context (contract_digest : TaskContract → string) (manifest_digest : ContextManifest → string).

(** What every step of a run keeps: the attempts of the run, and the history of the tasks. *)
Record role_step (run_id : string) (s s' : EnrichmentDB) : Prop := {
  rs_attempted : ∀ op, op ∈ attempted_by run_id s → op ∈ attempted_by run_id s';
  rs_tasks : task_wf contract_digest manifest_digest (en_tasks s) →
    good_step contract_digest manifest_digest (en_tasks s) (en_tasks s')
}.

#[export] Instance role_step_preorder run_id : PreOrder (role_step run_id).
Proof.
  split; [by intros s; split|]. intros s1 s2 s3 [A1 T1] [A2 T2]. split; [auto|]. intros Hwf.
  destruct (T1 Hwf) as [Hwf2 He2]. destruct (T2 Hwf2) as [Hwf3 He3]. split; [done|by etrans].
Qed.

Lemma elem_of_attempted run_id s op :
  op ∈ attempted_by run_id s ↔ ∃ a, a ∈ en_attempts s ∧ at_task_run_id a = Some run_id ∧ at_operator_id a = op.
Proof.
  unfold attempted_by. rewrite elem_of_remove_dups, list_elem_of_fmap. setoid_rewrite list_elem_of_filter. naive_solver.
Qed.

Lemma same_facts_step run_id s s' : same_facts s s' → role_step run_id s s'.
Proof. intros (Et&_&Ea). split; [by intros op; rewrite !elem_of_attempted, Ea|]. rewrite Et. by split. Qed.

(** A program over the tasks. *)
Lemma zoom_tasks_step {A} run_id (m : prog TaskDB A) s a s' :
  (∀ db a db', task_wf contract_digest manifest_digest db → m db = (Ok a, db') → good_step contract_digest manifest_digest db db') →
  zoom m s = (Ok a, s') → role_step run_id s s' ∧ en_knowledge s' = en_knowledge s ∧ en_attempts s' = en_attempts s.
Proof.
  intros Hm (db&Hr&->)%zoom_Ok. split; [|done]. split; [by intros op; rewrite !elem_of_attempted|]. intros Hwf. by eapply Hm.
Qed.

Lemma append_good new_id id ty prod base payload key stream instant db r db' :
  task_wf contract_digest manifest_digest db →
  append_task_event new_id id ty prod base payload key stream instant db = (Ok r, db') →
  good_step contract_digest manifest_digest db db'.
Proof. intros Hwf H. split; [by eapply append_wf|by apply append_extends in H as [? _]]. Qed.

(** Reading a run changes nothing. *)
Lemma zoom_get_run id (s : EnrichmentDB) v s' :
  zoom (get_task_run id) s = (Ok v, s') → s' = s ∧ ∃ r, task_runs (en_tasks s) !! id = Some r ∧ task_run_view r = Ok v.
Proof. intros (db&(->&r&?&?&_)%get_task_run_Ok&->)%zoom_Ok. split; [by destruct s|by exists r]. Qed.
Lemma zoom_get_contract id (s : EnrichmentDB) c s' :
  zoom (get_task_contract_for_run id) s = (Ok c, s') → s' = s ∧ contract_of (en_tasks s) id = Some c.
Proof.
  intros (db&H&->)%zoom_Ok. unfold get_task_contract_for_run in H. apply bind_Ok in H as (r&s1&Hr&H).
  apply lookup_run_Ok in Hr as [Hr ->]. apply bind_Ok in H as (s0&s1&H0&H). apply get_store_Ok in H0 as [-> ->].
  apply bind_Ok in H as (c0&s1&H0&H). apply require_Ok in H0 as [Hc ->]. apply ret_Ok in H as [-> ->].
  split; [by destruct s|]. unfold contract_of. cbn [view enrichment_tasks] in *. rewrite Hr. cbn. by rewrite Hc.
Qed.
Context (uuid5_url : string → string) (float_repr : Z → Z → string) (isoformat dump_datetime : Z → string)
  (sha256_hex : string → string) (result_json : EnrichmentTaskResult → string)
  (unquote : string → string) (netloc_refused : string → bool) (stream_name : string)
  (now : nat → string → Z) (fresh : string → string).

Lemma record_Ok a s u s' :
  record_enrichment_attempt isoformat dump_datetime a s = (Ok u, s') →
  en_tasks s' = en_tasks s ∧ en_knowledge s' = en_knowledge s ∧
  (∀ x, x ∈ en_attempts s → x ∈ en_attempts s') ∧
  ∃ x, x ∈ en_attempts s' ∧ at_task_run_id x = at_task_run_id a ∧ at_operator_id x = at_operator_id a.
Proof.
  intros H. unfold record_enrichment_attempt in H. apply bind_Ok in H as (s0&s1&H0&H). apply get_store_Ok in H0 as [-> ->].
  destruct (find _ (en_attempts s)) as [x|] eqn:Hx.
  - apply check_Ok in H as [Hp%bool_decide_eq_false%dec_stable ->]. do 3 (split; [done|]). apply find_elem in Hx as [Hx _].
    exists x. split; [done|]. unfold attempt_payload in Hp. injection Hp. intros. split; [|done].
    by destruct (at_task_run_id x), (at_task_run_id a); simplify_eq/=.
  - do 3 (apply bind_Ok in H as (?&s1&H0&H); apply check_Ok in H0 as [_ ->]). apply modify_Ok in H as ->.
    split; [done|]. split; [done|]. cbn. setoid_rewrite elem_of_app. split; [by left|]. exists a.
    split; [right; apply list_elem_of_here|done].
Qed.

Lemma attempted_mono run_id s s' :
  (∀ x, x ∈ en_attempts s → x ∈ en_attempts s') → ∀ op, op ∈ attempted_by run_id s → op ∈ attempted_by run_id s'.
Proof. intros H op. rewrite !elem_of_attempted. intros (a&Ha&?&?). exists a. auto. Qed.

Lemma commit_execution_Ok run_id frame round item s ids s' :
  commit_execution uuid5_url isoformat dump_datetime stream_name now fresh run_id frame round item s = (Ok ids, s') →
  role_step run_id s s' ∧ en_knowledge s' = en_knowledge s ∧
  (relevant_dimensions (xf_plan item) ≠ [] → operator_id (xf_plan item) ∈ attempted_by run_id s').
Proof.
  intros H. unfold commit_execution in H. cbv zeta in H. apply bind_Ok in H as (us&s1&H0&H).
  assert (role_step run_id s s1 ∧ en_knowledge s1 = en_knowledge s ∧
    (relevant_dimensions (xf_plan item) ≠ [] → operator_id (xf_plan item) ∈ attempted_by run_id s1)) as (H1&H2&H3).
  { clear H. revert s us H0. induction (relevant_dimensions (xf_plan item)) as [|d l IH]; intros s us H.
    - apply ret_Ok in H as [_ ->]. done.
    - cbn [for_each] in H. apply bind_Ok in H as (y&s2&H0&H). apply bind_Ok in H as (ys&s3&H1&H). apply ret_Ok in H as [-> ->].
      apply bind_Ok in H0 as (a&s4&H0&H2). apply lift_Ok in H0 as [Ha ->].
      assert (a = attempt_of uuid5_url run_id frame item d) as ->.
      { unfold make_EnrichmentAttempt in Ha. apply result_bind_Ok in Ha as (?&_&Ha). apply result_bind_Ok in Ha as (?&_&Ha).
        by injection Ha. }
      apply record_Ok in H2 as (Et&Ek&Hmono&x&Hx&Hrun&Hop). destruct (IH s2 ys H1) as (IH1&IH2&_).
      assert (role_step run_id s s2) as Hs2.
      { split; [by apply attempted_mono|]. rewrite Et. by split. }
      split; [by etrans|]. split; [congruence|]. intros _. apply (rs_attempted _ _ _ IH1). apply elem_of_attempted.
      by exists x. }
  apply bind_Ok in H as (run&s2&H4&H). apply zoom_get_run in H4 as [-> _].
  apply bind_Ok in H as (v&s2&H4&H). apply ret_Ok in H as [_ ->].
  eapply (zoom_tasks_step run_id) in H4 as (H5&Ek&Ea); [|intros; by eapply append_good].
  split; [by etrans|]. split; [congruence|]. intros Hne. by apply (rs_attempted _ _ _ H5), H3.
Qed.

Lemma stamp_attempted run_id ids revision s :
  attempted_by run_id (stamp_attempts ids revision s).2 = attempted_by run_id s.
Proof.
  unfold attempted_by. cbn. f_equal. induction (en_attempts s) as [|a l IH]; [done|]. csimpl. rewrite !filter_cons.
  case_bool_decide; cbn; destruct (decide (at_task_run_id a = Some run_id)); csimpl; by rewrite ?IH.
Qed.

Lemma commit_round_Ok run_id frame executions round s b s' :
  commit_round uuid5_url float_repr isoformat dump_datetime sha256_hex stream_name now fresh run_id frame executions round s
    = (Ok b, s') →
  role_step run_id s s' ∧
  ∀ item, item ∈ executions → relevant_dimensions (xf_plan item) ≠ [] → operator_id (xf_plan item) ∈ attempted_by run_id s'.
Proof.
  unfold commit_round. intros H. match type of H with atomic ?m s = _ =>
    destruct (atomic_cases m s) as [(b'&s1&Hm&E)|(e&s1&_&E)]; rewrite E in H; [|done] end.
  injection H as -> ->. clear E. rename Hm into H. apply bind_Ok in H as (ids&s1&H0&H).
  assert (role_step run_id s s1) as Hs1.
  { eapply (for_each_steps (λ _, True) (role_step run_id)) in H0 as [_ ?]; [done| |done].
    intros item t a t' _ _ Hc. split; [done|]. by apply commit_execution_Ok in Hc as (?&_). }
  assert (∀ item, item ∈ executions → relevant_dimensions (xf_plan item) ≠ [] → operator_id (xf_plan item) ∈ attempted_by run_id s1)
    as Hops.
  { eapply (for_each_values (λ _, True) (role_step run_id) (λ item _ t,
      relevant_dimensions (xf_plan item) ≠ [] → operator_id (xf_plan item) ∈ attempted_by run_id t)) in H0; [| | |done].
    - intros item Hitem. apply list_elem_of_lookup in Hitem as [i Hi].
      by destruct (Forall2_lookup_l _ _ _ _ _ H0 Hi) as (?&_&?).
    - intros item t a t' _ _ Hc. split; [done|]. by apply commit_execution_Ok in Hc as (?&_&?).
    - intros item y t t' _ Hstep Hq Hne. by apply (rs_attempted _ _ _ Hstep), Hq. }
  apply bind_Ok in H as (updated&s2&H2&H). apply build_Ok in H2 as [Hsame2 _].
  pose proof (same_facts_step run_id _ _ Hsame2) as Hs2.
  apply bind_Ok in H as (u&s3&H3&H).
  assert (role_step run_id s2 s3) as Hs3.
  { case_bool_decide; [by apply ret_Ok in H3 as [_ ->]|].
    pose proof (stamp_attempted run_id (mjoin ids) (sn_world_revision updated) s2) as E. rewrite H3 in E. cbn in E.
    apply modify_Ok in H3 as ->. split; [by intros op; rewrite E|]. by split. }
  apply bind_Ok in H as (before&s4&H4&H). apply lift_Ok in H4 as [_ ->].
  apply bind_Ok in H as (after&s4&H4&H). apply lift_Ok in H4 as [_ ->].
  apply bind_Ok in H as (u4&s4&H4&H). apply ret_Ok in H as [_ ->].
  assert (role_step run_id s3 s4) as Hs4.
  { case_bool_decide; [by apply ret_Ok in H4 as [_ ->]|]. apply bind_Ok in H4 as (run&s5&H5&H4).
    apply zoom_get_run in H5 as [-> _]. cbv zeta in H4. apply bind_Ok in H4 as (v&s5&H5&H4). apply ret_Ok in H4 as [_ ->].
    eapply (zoom_tasks_step run_id) in H5 as [? _]; [done|]. intros; by eapply append_good. }
  assert (role_step run_id s1 s4) as Hs by (do 2 (etrans; [eassumption|]); done).
  split; [by etrans|]. intros item Hitem Hne. by apply (rs_attempted _ _ _ Hs), Hops.
Qed.

Lemma transition_step run_id id target payload key res stop instant s v s' :
  transition stream_name fresh id target payload key res stop instant s = (Ok v, s') →
  role_step run_id s s' ∧ en_knowledge s' = en_knowledge s ∧ en_attempts s' = en_attempts s ∧
  (task_wf contract_digest manifest_digest (en_tasks s) → ∃ r, task_runs (en_tasks s) !! id = Some r ∧
     task_runs (en_tasks s') !! id = Some (set_transition target res stop instant r) ∧ status r ≠ target).
Proof.
  unfold transition. intros H. pose proof H as H'.
  eapply (zoom_tasks_step run_id) in H as (?&?&?); cycle 1.
  { intros db a db' Hwf Ht. by eapply transition_good in Ht as (?&_). }
  split; [done|]. split; [done|]. split; [done|]. intros Hwf. apply zoom_Ok in H' as (db&Ht&->).
  pose proof Ht as Ht'. eapply transition_good in Ht as (_&_&r&Hr&E); [|exact Hwf]. exists r. split; [done|].
  cbn [en_tasks set_view enrichment_tasks]. rewrite E, lookup_insert_eq. split; [done|].
  unfold transition_task_run in Ht'. apply bind_Ok in Ht' as (u&s0&Hc0&Ht'). apply check_Ok in Hc0 as [_ ->].
  apply bind_Ok in Ht' as (r'&s1&Hr'&Ht'). apply lookup_run_Ok in Hr' as [Hr' ->]. cbn in Hr, Hr'. rewrite Hr in Hr'.
  injection Hr' as <-. apply bind_Ok in Ht' as (u1&s1&Hc1&Ht'). apply check_Ok in Hc1 as [_ ->].
  apply bind_Ok in Ht' as (u2&s1&Hc2&_). apply check_Ok in Hc2 as [Hc2%negb_false_iff _].
  intros <-. unfold can_transition_task_run in Hc2. by destruct (status r).
Qed.
Lemma plan_frame_Ok run_id instant s frame s' :
  plan_frame uuid5_url float_repr unquote netloc_refused run_id instant s = (Ok frame, s') →
  same_facts s s' ∧ contract_of (en_tasks s) run_id = Some (fr_contract frame) ∧
  desired_state_of (fr_contract frame) = Ok (desired frame) ∧
  attempted_operator_ids frame = attempted_by run_id s ∧
  ∃ o view, get_object (ds_target_object_id (desired frame)) (en_knowledge s) = Some o ∧
    object_type o = "Vulnerability"%string ∧
    snapshot frame = mkEnrichmentStateSnapshot (object_id o) (object_type o) (canonical_key o) VOCABULARY_REVISION
                       (world_revision (en_knowledge s)) (evaluations float_repr o s) ∧
    get_object_by_id (en_knowledge s) (ds_target_object_id (desired frame)) = Some view ∧
    plan unquote netloc_refused (snapshot frame) view (ds_cve_id (desired frame)) (required_dimensions (desired frame))
      (refresh_dimensions (desired frame)) (attempted_by run_id s) = Ok (plans frame).
Proof.
  unfold plan_frame. intros H. match type of H with atomic ?m s = _ =>
    destruct (atomic_cases m s) as [(b'&s1&Hm&E)|(e&s1&_&E)]; rewrite E in H; [|done] end.
  injection H as -> ->. clear E. rename Hm into H.
  apply bind_Ok in H as (contract&s2&H0&H). apply zoom_get_contract in H0 as [-> Hc].
  apply bind_Ok in H as (d&s2&H0&H). apply lift_Ok in H0 as [Hd ->].
  apply bind_Ok in H as (sn&s2&H0&H). apply build_Ok in H0 as [Hsame (o&Ho&Ht&Hsn)].
  apply bind_Ok in H as (s3&s4&H0&H). apply get_store_Ok in H0 as [-> ->].
  apply bind_Ok in H as (view&s3&H0&H). apply require_Ok in H0 as [Hview ->].
  apply bind_Ok in H as (u&s3&H0&H). apply check_Ok in H0 as [_ ->]. cbv zeta in H.
  apply bind_Ok in H as (ps&s3&H0&H). apply lift_Ok in H0 as [Hps ->]. apply ret_Ok in H as [-> ->].
  pose proof Hsame as (_&Ek&Ea).
  assert (attempted_by run_id s2 = attempted_by run_id s) as Hat by (unfold attempted_by; by rewrite Ea).
  rewrite Hat in *. rewrite Ek in Hview. cbn. split_and!; try done. by exists o, view.
Qed.

(** A rolled-back transaction leaves the tables alone. *)
Lemma plan_frame_Err run_id instant s e s' :
  plan_frame uuid5_url float_repr unquote netloc_refused run_id instant s = (Err e, s') → s' = s.
Proof.
  unfold plan_frame. intros H. match type of H with atomic ?m s = _ =>
    destruct (atomic_cases m s) as [(b'&s1&Hm&E)|(e'&s1&_&E)]; rewrite E in H; [done|] end. by injection H.
Qed.

Lemma finish_Ok run_id frame target reason instant s outcome s' :
  finish sha256_hex result_json stream_name fresh run_id frame target reason instant s = (Ok outcome, s') →
  role_step run_id s s' ∧ en_knowledge s' = en_knowledge s ∧ en_attempts s' = en_attempts s ∧
  run_status outcome = target ∧ task_result run_id frame reason = Ok (ro_result outcome) ∧
  (task_wf contract_digest manifest_digest (en_tasks s) → ∃ r, task_runs (en_tasks s) !! run_id = Some r ∧
     task_runs (en_tasks s') !! run_id =
       Some (set_transition target (Some (result_ref_of sha256_hex result_json (ro_result outcome))) (Some reason) instant r)).
Proof.
  unfold finish. intros H. apply bind_Ok in H as (res&s1&H0&H). apply lift_Ok in H0 as [Hres ->]. cbv zeta in H.
  apply bind_Ok in H as (v&s1&H0&H). apply ret_Ok in H as [-> ->].
  match type of H0 with atomic ?m s = _ =>
    destruct (atomic_cases m s) as [(b'&s2&Hm&E)|(e&s2&_&E)]; rewrite E in H0; [|done] end.
  injection H0 as -> ->. apply (transition_step run_id) in Hm as (?&?&?&Hrow). split_and!; try done.
  intros Hwf. destruct (Hrow Hwf) as (r&?&?&_). by exists r.
Qed.

(** ** The executor's promises *)

(** What the role asks of an executor: whatever it, and the transactions that run meanwhile, do to the tables, no attempt of
    the run is lost and the tasks change through the task store only. *)
Class OperatorExecutor (execute : EnrichmentOperatorPlan → string → string → prog EnrichmentDB EnrichmentOperatorExecution)
  (run_id : string) : Prop := {
  executor_step : ∀ plan cve s x s', execute plan cve run_id s = (Ok x, s') → role_step run_id s s'
}.

(** The shipped executor keeps them when its three services do. *)
#[export] Instance default_executor
  (execute_job : string → string → QuerySpec → string → list EnrichmentDimension → string →
                   prog EnrichmentDB (list NormalizationResult))
  (github_references fix_boundary : string → string → prog EnrichmentDB (list NormalizationResult)) run_id :
  (∀ cve source query operator ds s, role_step run_id s (execute_job cve source query operator ds run_id s).2) →
  (∀ cve s, role_step run_id s (github_references cve run_id s).2) →
  (∀ cve s, role_step run_id s (fix_boundary cve run_id s).2) →
  OperatorExecutor (default_execute execute_job github_references fix_boundary) run_id.
Proof.
  intros H1 H2 H3. split. intros plan cve s x s' H.
  assert (∀ s, role_step run_id s (execute_operator execute_job github_references fix_boundary plan cve run_id s).2) as Hop.
  { intros s0. unfold execute_operator. case_bool_decide; [destruct (op_source_id plan), (query plan); done|].
    case_bool_decide; [done|]. by case_bool_decide. }
  specialize (Hop s). unfold default_execute, try_catch, mbind, prog_bind in H.
  destruct (execute_operator _ _ _ _ _ _ s) as [[results|e] s1]; cbn in *; [by injection H as _ <-|].
  unfold lift in H. by injection H as _ <-.
Qed.

(** ** Rounds *)

Section rounds.
Context (execute : EnrichmentOperatorPlan → string → string → prog EnrichmentDB EnrichmentOperatorExecution) (run_id : string)
  `{!OperatorExecutor execute run_id}.

Abbreviation execute_plan' := (execute_plan stream_name now fresh execute run_id).
Abbreviation rounds := (run_rounds uuid5_url float_repr isoformat dump_datetime sha256_hex result_json unquote netloc_refused
                          stream_name now fresh execute run_id).

Lemma execute_plan_log frame round plan s log r s' log' :
  execute_plan' frame round plan (s, log) = (r, (s', log')) →
  log' = log ++ [operator_id plan] ∧ ∀ x, r = Ok x → xf_plan x = plan ∧ role_step run_id s s'.
Proof.
  unfold execute_plan, mbind, prog_bind, try_catch, call_operator. cbn [fst snd].
  destruct (execute plan _ run_id s) as [[x|e] s1] eqn:E.
  - intros [= <- <- <-]. split; [done|]. intros x' [= <-]. split; [done|]. by eapply executor_step.
  - unfold zoom, raise. cbn. destruct (fail_unexpected _ _ _ _ _ _ s1) as [[u|e'] s2]; intros [= <- <- <-]; done.
Qed.

Lemma execute_plans_log frame round ps s log r s' log' :
  for_each ps (execute_plan' frame round) (s, log) = (r, (s', log')) →
  (∃ k, log' = log ++ take k (operator_id <$> ps)) ∧
  ∀ xs, r = Ok xs → log' = log ++ (operator_id <$> ps) ∧ xf_plan <$> xs = ps ∧ role_step run_id s s'.
Proof.
  revert s log r s' log'. induction ps as [|p ps IH]; intros s log r s' log'.
  - intros [= <- <- <-]. split; [exists 0%nat; by rewrite app_nil_r|]. intros xs [= <-]. by rewrite app_nil_r.
  - cbn [for_each]. unfold mbind, prog_bind. destruct (execute_plan' frame round p (s, log)) as [[x|e] [s1 log1]] eqn:E1.
    + apply execute_plan_log in E1 as [-> Hx]. destruct (Hx x eq_refl) as [Hp Hs1].
      destruct (for_each ps _ _) as [[xs|e] [s2 log2]] eqn:E2; apply IH in E2 as [[k Hk] Hxs].
      * destruct (Hxs xs eq_refl) as (Hlog&Hps&Hs2). intros [= <- <- <-]. split.
        -- exists (S k). cbn. by rewrite Hk, <- app_assoc.
        -- intros xs' [= <-]. cbn. rewrite Hlog, <- app_assoc, Hp, Hps. split; [done|]. split; [done|by etrans].
      * intros [= <- <- <-]. split; [|done]. exists (S k). cbn. by rewrite Hk, <- app_assoc.
    + intros [= <- <- <-]. apply execute_plan_log in E1 as [-> _]. split; [|done]. by exists 1%nat.
Qed.

Lemma filter_shorter {A} (P Q : A → Prop) `{!∀ x, Decision (P x), !∀ x, Decision (Q x)} (l : list A) x :
  (∀ y, Q y → P y) → x ∈ l → P x → ¬ Q x → (length (filter Q l) < length (filter P l))%nat.
Proof.
  intros HQP Hx HP HQ. assert (∀ l, (length (filter Q l) ≤ length (filter P l))%nat) as Hle.
  { clear -HQP. induction l as [|y l IH]; [done|]. rewrite !filter_cons. repeat case_decide; csimpl; try lia.
    by exfalso; auto. }
  induction l as [|y l IH]; [by apply elem_of_nil in Hx|]. rewrite !filter_cons. apply elem_of_cons in Hx as [<-|Hx].
  - rewrite decide_False, decide_True by done. cbn. specialize (Hle l). lia.
  - specialize (IH Hx). repeat case_decide; csimpl; try lia. by exfalso; auto.
Qed.

(** The operators that are left, and operators that may be called. *)
Definition remaining (s : EnrichmentDB) : list string := filter (λ op, op ∉ attempted_by run_id s) registry.
Definition callable (s : EnrichmentDB) (ops : list string) : Prop :=
  NoDup ops ∧ ∀ op, op ∈ ops → op ∈ registry ∧ op ∉ attempted_by run_id s.

Lemma callable_nil s : callable s [].
Proof. split; [constructor|by intros ? ?%elem_of_nil]. Qed.

(** How a run ends in a frame, with [n] rounds left. *)
Inductive ends (n : nat) (frame : PlanningFrame) : TaskRunStatus → string → Prop :=
| ends_completed : n ≠ 0%nat → plans frame = [] → is_complete frame = Ok true →
    ends n frame COMPLETED "enrichment_goal_satisfied"
| ends_stuck : n ≠ 0%nat → plans frame = [] → is_complete frame = Ok false →
    ends n frame BLOCKED "no_eligible_enrichment_operator"
| ends_exhausted : n = 0%nat → ends n frame BLOCKED "enrichment_round_budget_exhausted".

(** A round whose frame plans something: every planned operator is called once, and recorded when the round commits. *)
Lemma round_calls n round frame s s1 log r w' shown :
  role_step run_id s s1 →
  plan unquote netloc_refused (snapshot frame) shown (ds_cve_id (desired frame)) (required_dimensions (desired frame))
    (refresh_dimensions (desired frame)) (attempted_by run_id s) = Ok (plans frame) →
  (executions ← for_each (plans frame) (execute_plan' frame round);
   _ ← zoom (commit_round uuid5_url float_repr isoformat dump_datetime sha256_hex stream_name now fresh run_id frame
               executions round);
   rounds n (S round)) (s1, log) = (r, w') →
  (∃ e called, r = Err e ∧ w'.2 = log ++ called ∧ callable s called) ∨
  (∃ s3, callable s (operator_id <$> plans frame) ∧ role_step run_id s s3 ∧
     (∀ op, op ∈ operator_id <$> plans frame → op ∈ attempted_by run_id s3) ∧
     rounds n (S round) (s3, log ++ (operator_id <$> plans frame)) = (r, w')).
Proof.
  intros Hs1 [Hnd Hplans]%plan_Ok. unfold mbind, prog_bind.
  assert (callable s (operator_id <$> plans frame)) as Hcall.
  { split; [done|]. intros op (p&->&Hp)%list_elem_of_fmap. by destruct (Hplans p Hp) as (?&?&_). }
  destruct (for_each (plans frame) _ _) as [[xs|e] [s2 log2]] eqn:Hex; apply execute_plans_log in Hex as [[k Hk] Hxs]; cycle 1.
  { intros [= <- <-]. left. exists e, (take k (operator_id <$> plans frame)). split; [done|]. split; [done|].
    split; [eapply sublist_NoDup; [exact Hnd|apply sublist_take]|].
    intros op Hop%elem_of_take. destruct Hop as (i&Hi&_). apply Hcall. by eapply list_elem_of_lookup_2. }
  destruct (Hxs xs eq_refl) as (->&Hplan&Hs2). unfold zoom at 1. cbn [view embeds_fst fst].
  destruct (commit_round _ _ _ _ _ _ _ _ _ _ _ _ s2) as [[b|e] s3] eqn:Hc; cbn [set_view embeds_fst snd]; cycle 1.
  { intros [= <- <-]. left. by exists e, (operator_id <$> plans frame). }
  apply commit_round_Ok in Hc as [Hs3 Hrec]. intros H. right. exists s3. split; [done|].
  split; [do 2 (etrans; [eassumption|]); done|]. split; [|done].
  intros op (p&->&Hp)%list_elem_of_fmap. pose proof (Hplans p Hp) as (_&_&Hne).
  rewrite <- Hplan in Hp. apply list_elem_of_fmap in Hp as (x&->&Hx). by apply Hrec.
Qed.

(** One round fails, ends the run, or makes progress. *)
Lemma rounds_cases n round s log r w' :
  rounds n round (s, log) = (r, w') →
  (∃ e called, r = Err e ∧ w'.2 = log ++ called ∧ callable s called) ∨
  (∃ s1 frame target reason instant, plan_frame uuid5_url float_repr unquote netloc_refused run_id (now round "plan") s = (Ok frame, s1) ∧
     finish sha256_hex result_json stream_name fresh run_id frame target reason instant s1 = (r, w'.1) ∧ w'.2 = log ∧
     ends n frame target reason) ∨
  (∃ n' ops s3, n = S n' ∧ ops ≠ [] ∧ callable s ops ∧ role_step run_id s s3 ∧ (∀ op, op ∈ ops → op ∈ attempted_by run_id s3) ∧
     rounds n' (S round) (s3, log ++ ops) = (r, w')).
Proof.
  intros H. assert (∃ m, rounds n round = (frame ← zoom (plan_frame uuid5_url float_repr unquote netloc_refused run_id (now round "plan")); m frame) ∧
    m = λ frame, match n with
      | O => zoom (finish sha256_hex result_json stream_name fresh run_id frame BLOCKED "enrichment_round_budget_exhausted" (now round "finish"))
      | S n' =>
          complete ← lift (is_complete frame);
          if bool_decide (plans frame = []) then
            if (complete : bool) then zoom (finish sha256_hex result_json stream_name fresh run_id frame COMPLETED "enrichment_goal_satisfied" (now round "finish"))
            else zoom (finish sha256_hex result_json stream_name fresh run_id frame BLOCKED "no_eligible_enrichment_operator" (now round "finish"))
          else
            executions ← for_each (plans frame) (execute_plan' frame round);
            _ ← zoom (commit_round uuid5_url float_repr isoformat dump_datetime sha256_hex stream_name now fresh run_id frame executions round);
            rounds n' (S round)
      end) as (m&Em&Hm) by (eexists; split; [by destruct n|done]).
  rewrite Em in H. unfold mbind at 1, prog_bind, zoom at 1 in H. cbn [view embeds_fst fst] in H.
  destruct (plan_frame _ _ _ _ _ _ s) as [[frame|e] s1] eqn:Hplan; cbn [set_view embeds_fst snd] in H; cycle 1.
  { injection H as <- <-. left. exists e, []. rewrite app_nil_r. split; [done|]. split; [done|apply callable_nil]. }
  assert (∀ target reason instant,
    zoom (finish sha256_hex result_json stream_name fresh run_id frame target reason instant) (s1, log) = (r, w') →
    finish sha256_hex result_json stream_name fresh run_id frame target reason instant s1 = (r, w'.1) ∧ w'.2 = log) as Hfin.
  { intros target reason instant. unfold zoom. cbn. destruct (finish _ _ _ _ _ _ _ _ _ s1) as [r1 s2]. by intros [= <- <-]. }
  subst m. destruct n as [|n].
  { apply Hfin in H as [H Hlog]. right; left. eexists s1, frame, _, _, _. split; [done|]. split; [exact H|]. split; [done|by constructor]. }
  unfold lift at 1, mbind at 1, prog_bind in H. destruct (is_complete frame) as [complete|e] eqn:Hc; cycle 1.
  { injection H as <- <-. left. exists e, []. rewrite app_nil_r. split; [done|]. split; [done|apply callable_nil]. }
  case_bool_decide as Hnil.
  { destruct complete; apply Hfin in H as [H Hlog]; right; left; eexists s1, frame, _, _, _; (split; [done|]);
      (split; [exact H|]); (split; [done|]); by constructor. }
  apply plan_frame_Ok in Hplan as (Hsame&_&_&_&o&shown&_&_&_&_&Hps).
  eapply round_calls in H as [?|(s3&?&?&?&?)]; [by left| |by eapply same_facts_step|exact Hps].
  right; right. eexists n, _, s3. split; [done|]. split; [|done]. by destruct (plans frame).
Qed.

Lemma finish_reason frame target reason instant s1 o s' :
  finish sha256_hex result_json stream_name fresh run_id frame target reason instant s1 = (Ok o, s') →
  er_stop_reason (ro_result o) = reason.
Proof.
  clear contract_digest manifest_digest OperatorExecutor0.
  unfold finish. intros H. apply bind_Ok in H as (res&s2&H0&H). apply lift_Ok in H0 as [Hres ->]. cbv zeta in H.
  apply bind_Ok in H as (v&s2&_&H). apply ret_Ok in H as [-> _]. cbn. unfold task_result in Hres. cbv zeta in Hres.
  by apply result_bind_Ok in Hres as (sts&_&[= <-]).
Qed.

Lemma rounds_calls n round s log r w' :
  rounds n round (s, log) = (r, w') →
  ∃ called, w'.2 = log ++ called ∧ callable s called ∧
    ∀ o, r = Ok o → (∀ op, op ∈ called → op ∈ attempted_by run_id w'.1) ∧ role_step run_id s w'.1 ∧
      ((length (remaining s) < n)%nat → er_stop_reason (ro_result o) ≠ "enrichment_round_budget_exhausted"%string).
Proof.
  revert round s log. induction n as [n IHn] using (well_founded_induction lt_wf). intros round s log H.
  apply rounds_cases in H as [(e&called&->&Hlog&Hcall)|[(s1&frame&target&reason&instant&Hplan&Hfin&Hlog&Hends)|
    (n'&ops&s3&->&Hne&[Hnd Hops]&Hs3&Hdone&H)]].
  - by exists called.
  - exists []. rewrite app_nil_r. split; [done|]. split; [apply callable_nil|]. intros o ->. split; [by intros ? ?%elem_of_nil|].
    rewrite (finish_reason _ _ _ _ _ _ _ Hfin). apply finish_Ok in Hfin as (Hstep&_). apply plan_frame_Ok in Hplan as (Hsame&_).
    split; [etrans; [by eapply same_facts_step|done]|]. intros Hlen. destruct Hends; [done|done|lia].
  - apply IHn in H as (called&Hlog&[Hnd' Hcalled]&Hok); [|lia]. exists (ops ++ called). split; [by rewrite app_assoc|].
    split; [split|].
    + apply NoDup_app. split; [done|]. split; [|done]. intros op Hop Hop'. by apply (Hcalled op Hop'), Hdone.
    + intros op [Hop|Hop]%elem_of_app; [by apply Hops|]. destruct (Hcalled op Hop) as [? Hn]. split; [done|].
      intros ?. by apply Hn, (rs_attempted _ _ _ Hs3).
    + intros o Ho. destruct (Hok o Ho) as (Hin&Hs4&Hstop). split; [|split; [by etrans|]].
      * intros op [Hop|Hop]%elem_of_app; [by apply (rs_attempted _ _ _ Hs4), Hdone|by apply Hin].
      * intros Hlen. apply Hstop. destruct ops as [|op ops]; [done|].
        assert (length (remaining s3) < length (remaining s))%nat; [|lia].
        destruct (Hops op (list_elem_of_here _ _)) as [H1 H2].
        apply (filter_shorter (λ op, op ∉ attempted_by run_id s) _ _ op); [|done|done|].
        -- intros op' Hop' Hin'. by apply Hop', (rs_attempted _ _ _ Hs3).
        -- intros Hno. apply Hno, Hdone. by left.
Qed.

(** The frame a run ends in, and what led to it. *)
Lemma rounds_end n round s log o w' :
  rounds n round (s, log) = (Ok o, w') →
  ∃ s1 frame s2 target reason instant m, role_step run_id s s1 ∧
    plan_frame uuid5_url float_repr unquote netloc_refused run_id instant s1 = (Ok frame, s2) ∧
    ends m frame target reason ∧
    ∃ instant', finish sha256_hex result_json stream_name fresh run_id frame target reason instant' s2 = (Ok o, w'.1).
Proof.
  revert round s log. induction n as [n IHn] using (well_founded_induction lt_wf). intros round s log H.
  apply rounds_cases in H as [(e&called&[=]&_)|[(s1&frame&target&reason&instant&Hplan&Hfin&_&Hends)|
    (n'&ops&s3&->&_&_&Hs3&_&H)]].
  - exists s, frame, s1, target, reason, (now round "plan"), n. split; [done|]. split; [done|]. split; [done|]. by exists instant.
  - apply IHn in H as (s1&frame&s2&target&reason&instant&m&Hs1&Hplan&Hends&instant'&Hfin); [|lia].
    exists s1, frame, s2, target, reason, instant, m. split; [by etrans|]. split; [done|]. split; [done|]. by exists instant'.
Qed.
End rounds.
End steps.

(** ** Whole runs *)

Lemma ensure_running_Ok contract_digest manifest_digest stream_name now fresh run_id s u s' :
  ensure_running stream_name now fresh run_id s = (Ok u, s') →
  role_step contract_digest manifest_digest run_id s s' ∧ attempted_by run_id s' = attempted_by run_id s ∧
  ∃ contract, contract_of (en_tasks s) run_id = Some contract.
Proof.
  unfold ensure_running. intros H. match type of H with atomic ?m s = _ =>
    destruct (atomic_cases m s) as [(b'&s1&Hm&E)|(e&s1&_&E)]; rewrite E in H; [|done] end.
  injection H as -> ->. clear E. rename Hm into H.
  apply bind_Ok in H as (run&s2&H0&H). apply zoom_get_run in H0 as [-> _].
  apply bind_Ok in H as (contract&s2&H0&H). apply zoom_get_contract in H0 as [-> Hc].
  apply bind_Ok in H as (u1&s2&H0&H). apply lift_Ok in H0 as [_ ->].
  apply bind_Ok in H as (run2&s3&H0&H).
  assert (role_step contract_digest manifest_digest run_id s s3 ∧ en_attempts s3 = en_attempts s) as [Hs3 Ha3].
  { destruct (bool_decide (tr_status run = SUBMITTED)); [|by apply ret_Ok in H0 as [_ ->]]. apply bind_Ok in H0 as (v&s4&H1&H0).
    apply zoom_get_run in H0 as [-> _]. by apply (transition_step contract_digest manifest_digest _ _ run_id) in H1 as (?&_&?&_). }
  assert (role_step contract_digest manifest_digest run_id s3 s' ∧ en_attempts s' = en_attempts s3) as [Hs1 Ha1].
  { destruct (bool_decide (tr_status run2 = QUEUED)); [|by apply check_Ok in H as [_ ->]]. apply bind_Ok in H as (v&s4&H1&H). apply ret_Ok in H as [_ ->].
    by apply (transition_step contract_digest manifest_digest _ _ run_id) in H1 as (?&_&?&_). }
  split; [by etrans|]. split; [unfold attempted_by; by rewrite Ha1, Ha3|]. by exists contract.
Qed.

Lemma state_of_Ok sn k st : state_of sn k = Ok st → st ∈ sn_dimensions sn ∧ st_dimension st = k.
Proof.
  unfold state_of, by_dimension. destruct (find _ _) as [x|] eqn:E; [|done]. intros [= ->].
  apply find_elem in E as [H1 H2%bool_decide_eq_true]. split; [|done]. apply list_elem_of_In, in_rev. by apply list_elem_of_In.
Qed.

Lemma evaluations_elem float_repr o s st :
  object_type o = "Vulnerability"%string → st ∈ evaluations float_repr o s →
  evaluates float_repr s o (st_dimension st) st.
Proof.
  intros Ht Hst. apply list_elem_of_lookup in Hst as [i Hi].
  destruct (Forall2_lookup_r _ _ _ _ _ (evaluations_spec float_repr o s Ht) Hi) as (d&_&Hev).
  destruct (ev_key _ _ _ _ _ Hev) as (_&_&_&_&E&_). by rewrite E.
Qed.

(** A dict that is filled from pairs. *)
Lemma elem_of_dict_fold {K A} `{EqDecision K} (l : list (K * A)) d k a :
  (k, a) ∈ foldl (λ m ks, dict_update ks.1 (λ _, ks.2) m) d l → (k, a) ∈ d ∨ (k, a) ∈ l.
Proof.
  revert d. induction l as [|[k0 a0] l IH]; intros d; cbn [foldl]; [by left|]. intros [H|H]%IH; [|right; by right].
  cbn in H. induction d as [|[k1 a1] d IHd]; cbn in H.
  - apply list_elem_of_singleton in H as [= -> ->]. right. by left.
  - destruct (decide (k0 = k1)) as [->|Hne]; apply elem_of_cons in H as [[= -> ->]|H].
    + right. by left.
    + left. by right.
    + left. by left.
    + destruct (IHd H) as [?|?]; [left; by right|by right].
Qed.
Lemma keys_dict_fold {K A} `{EqDecision K} (l : list (K * A)) d k :
  NoDup d.*1 → k ∈ d.*1 ∨ k ∈ l.*1 → k ∈ (foldl (λ m ks, dict_update ks.1 (λ _, ks.2) m) d l).*1.
Proof.
  revert d. induction l as [|[k0 a0] l IH]; intros d Hnd; cbn [foldl]; [by intros [?|?%elem_of_nil]|].
  destruct (keys_update k0 (λ _ : option A, a0) d Hnd) as [Hnd' Hin]. intros H. apply IH; [done|].
  rewrite Hin. csimpl in H. rewrite elem_of_cons in H. naive_solver.
Qed.

(** The statuses of a result are those of the frame. *)
Lemma task_result_statuses run_id frame reason res : task_result run_id frame reason = Ok res →
  (∀ k st, (k, st) ∈ dimension_status res → k ∈ required_dimensions (desired frame) ∧
     ∃ x, state_of (snapshot frame) k = Ok x ∧ st_status x = st) ∧
  (∀ k, k ∈ required_dimensions (desired frame) → ∃ st, (k, st) ∈ dimension_status res) ∧
  ∀ k, k ∈ blocked_dimensions res ↔ (k, MISSING) ∈ dimension_status res.
Proof.
  unfold task_result. cbv zeta. intros (sts&Hsts&[= <-])%result_bind_Ok. cbn.
  assert (∀ k st, (k, st) ∈ sts → k ∈ required_dimensions (desired frame) ∧
    ∃ x, state_of (snapshot frame) k = Ok x ∧ st_status x = st) as Hin.
  { intros k st Hk. apply list_elem_of_lookup in Hk as [i Hi].
    destruct (Forall2_lookup_r _ _ _ _ _ (try_map_Forall2 _ _ _ Hsts) Hi) as (k'&Hk'&E).
    apply result_bind_Ok in E as (x&Hx&[= <- <-]). split; [by eapply list_elem_of_lookup_2|by exists x]. }
  assert (∀ k, k ∈ required_dimensions (desired frame) → k ∈ sts.*1) as Hkeys.
  { intros k Hk. apply list_elem_of_lookup in Hk as [i Hi].
    destruct (Forall2_lookup_l _ _ _ _ _ (try_map_Forall2 _ _ _ Hsts) Hi) as (y&Hy&E).
    apply result_bind_Ok in E as (x&_&[= <-]). apply list_elem_of_fmap. exists (k, st_status x). split; [done|].
    by eapply list_elem_of_lookup_2. }
  assert (∀ k, k ∈ sts.*1 → ∃ st, (k, st) ∈ foldl (λ m ks, dict_update ks.1 (λ _, ks.2) m) [] sts) as Hdict.
  { intros k Hk. assert (k ∈ (foldl (λ m ks, dict_update ks.1 (λ _, ks.2) m) [] sts).*1) as Hk'
      by (apply keys_dict_fold; [constructor|by right]).
    apply list_elem_of_fmap in Hk' as ([k' st]&->&H). by exists st. }
  assert (∀ k st, (k, st) ∈ foldl (λ m ks, dict_update ks.1 (λ _, ks.2) m) [] sts → (k, st) ∈ sts) as Hback.
  { intros k st [?%elem_of_nil|?]%elem_of_dict_fold; done. }
  split; [by intros k st ?%Hback%Hin|]. split; [by intros k ?%Hkeys%Hdict|].
  intros k. rewrite list_elem_of_fmap. split.
  - intros ([k' st]&->&[Hm Hk]%list_elem_of_filter). cbn in *. subst st. destruct (Hdict k') as [st Hst].
    { apply list_elem_of_fmap. by exists (k', MISSING). }
    destruct (Hin _ _ (Hback _ _ Hst)) as (_&x&Hx&<-). destruct (Hin _ _ Hk) as (_&x'&Hx'&Hm').
    rewrite Hx in Hx'. injection Hx' as <-. by rewrite Hm' in Hst.
  - intros H%Hback. exists (k, MISSING). split; [done|]. by apply list_elem_of_filter.
Qed.

Lemma is_complete_spec frame b : is_complete frame = Ok b →
  ∃ f, (∀ k, k ∈ required_dimensions (desired frame) → state_of (snapshot frame) k = Ok (f k)) ∧
    (b = true ↔ ∀ k, k ∈ required_dimensions (desired frame) → st_status (f k) ∈ terminal_statuses (desired frame)).
Proof.
  unfold is_complete. intros (sts&Hsts&[= <-])%result_bind_Ok.
  exists (λ k, match state_of (snapshot frame) k with Ok x => x | Err _ => mkEnrichmentDimensionState "" "" "" "" "" k MISSING [] [] [] [] [] 0 end).
  assert (∀ k, k ∈ required_dimensions (desired frame) → ∃ x, state_of (snapshot frame) k = Ok x ∧ x ∈ sts) as H1.
  { intros k Hk. apply list_elem_of_lookup in Hk as [i Hi].
    destruct (Forall2_lookup_l _ _ _ _ _ (try_map_Forall2 _ _ _ Hsts) Hi) as (x&Hx&E). exists x.
    split; [done|by eapply list_elem_of_lookup_2]. }
  split; [intros k Hk; by destruct (H1 k Hk) as (x&->&_)|]. rewrite forallb_forall. setoid_rewrite bool_decide_eq_true. split.
  - intros H k Hk. destruct (H1 k Hk) as (x&->&Hx). apply H. by apply list_elem_of_In.
  - intros H x Hx. apply list_elem_of_In, list_elem_of_lookup in Hx as [i Hi].
    destruct (Forall2_lookup_r _ _ _ _ _ (try_map_Forall2 _ _ _ Hsts) Hi) as (k&Hk&E).
    specialize (H k). rewrite E in H. apply H. by eapply list_elem_of_lookup_2.
Qed.

(** The result of a complete frame has terminal statuses only, that of an incomplete one some other status. *)
Lemma complete_statuses run_id frame reason res :
  is_complete frame = Ok true → task_result run_id frame reason = Ok res →
  ∀ k st, (k, st) ∈ dimension_status res → st ∈ terminal_statuses (desired frame).
Proof.
  intros (f&Hf&[Hall _])%is_complete_spec (Hin&_&_)%task_result_statuses k st Hk.
  destruct (Hin k st Hk) as (Hreq&x&Hx&<-). rewrite (Hf k Hreq) in Hx. injection Hx as <-. by apply Hall.
Qed.

Lemma incomplete_status run_id frame reason res :
  is_complete frame = Ok false → task_result run_id frame reason = Ok res →
  ∃ k st, (k, st) ∈ dimension_status res ∧ st ∉ terminal_statuses (desired frame).
Proof.
  intros (f&Hf&[_ Hall])%is_complete_spec (Hin&Hkeys&_)%task_result_statuses.
  destruct (decide (Forall (λ k, st_status (f k) ∈ terminal_statuses (desired frame)) (required_dimensions (desired frame)))) as [HF|HF].
  { exfalso. assert (false = true) as [=]. apply Hall. by apply Forall_forall. }
  apply not_Forall_Exists, Exists_exists in HF as (k&Hk&Hbad); [|apply _]. destruct (Hkeys k Hk) as [st Hst]. exists k, st.
  split; [done|]. destruct (Hin k st Hst) as (_&x&Hx&<-). rewrite (Hf k Hk) in Hx. by injection Hx as <-.
Qed.

Lemma desired_state_Ok contract d :
  desired_state_of contract = Ok d → required_dimensions d ≠ [] ∧ MISSING ∉ terminal_statuses d.
Proof.
  unfold desired_state_of, validate_contract_shape. cbv zeta. intros H.
  repeat match type of H with (_ ≫= _) = Ok _ => apply result_bind_Ok in H as (?&?&H) end. injection H as <-.
  repeat match goal with H : raise_when _ _ = Ok _ |- _ => apply raise_when_Ok in H end.
  by repeat match goal with H : bool_decide _ = false |- _ => apply bool_decide_eq_false in H end.
Qed.

(** ** Properties *)

Section properties.
Context (contract_digest : TaskContract → string) (manifest_digest : ContextManifest → string)
  (uuid5_url : string → string) (float_repr : Z → Z → string) (isoformat dump_datetime : Z → string)
  (sha256_hex : string → string) (result_json : EnrichmentTaskResult → string)
  (unquote : string → string) (netloc_refused : string → bool) (stream_name : string)
  (now : nat → string → Z) (fresh : string → string)
  (execute : EnrichmentOperatorPlan → string → string → prog EnrichmentDB EnrichmentOperatorExecution).

Abbreviation enrich := (run uuid5_url float_repr isoformat dump_datetime sha256_hex result_json unquote netloc_refused
                          stream_name now fresh execute).

(** A run that started, and the store it entered its rounds with. *)
Lemma run_cases max_rounds run_id s log r w' :
  enrich max_rounds run_id (s, log) = (r, w') →
  (∃ e, r = Err e ∧ w'.2 = log) ∨
  ∃ s1, ensure_running stream_name now fresh run_id s = (Ok tt, s1) ∧
    run_rounds uuid5_url float_repr isoformat dump_datetime sha256_hex result_json unquote netloc_refused stream_name now fresh
      execute run_id max_rounds 1 (s1, log) = (r, w').
Proof.
  unfold run, check, mbind, prog_bind. destruct (Nat.ltb max_rounds 1); [intros [= <- <-]; left; by eexists|].
  unfold zoom at 1. cbn [view embeds_fst fst]. destruct (ensure_running stream_name now fresh run_id s) as [[[]|e] s1].
  - intros H. right. by exists s1.
  - intros [= <- <-]. left. by eexists.
Qed.

(** C16. A run of the enrichment role ends, and no operator is executed twice for it: whatever the operators answer or do to
    the tables, and however often the run is resumed, it calls each operator of the registry at most once, and none that an
    earlier part of the run has recorded; when it returns, every operator it called is recorded.  With the shipped bound of
    eight rounds (or more) it never runs out of rounds: it ends because the goal is satisfied or because nothing is left that
    could be executed. *)
Theorem role_run_ends run_id max_rounds s log r w'
  (Hexecutor : OperatorExecutor contract_digest manifest_digest execute run_id) :
  enrich max_rounds run_id (s, log) = (r, w') →
  ∃ called, w'.2 = log ++ called ∧ NoDup called ∧ (length called ≤ 7)%nat ∧
    (∀ op, op ∈ called → op ∈ registry ∧ op ∉ attempted_by run_id s) ∧
    ∀ o, r = Ok o → (∀ op, op ∈ called → op ∈ attempted_by run_id w'.1) ∧
      ((8 ≤ max_rounds)%nat → er_stop_reason (ro_result o) ∈ ["enrichment_goal_satisfied"%string; "no_eligible_enrichment_operator"%string]).
Proof.
  intros [(e&->&Hlog)|(s1&Hstart&H)]%run_cases.
  { exists []. rewrite app_nil_r. split; [done|]. split; [constructor|]. split; [cbn; lia|].
    split; [by intros ? ?%elem_of_nil|done]. }
  apply (ensure_running_Ok contract_digest manifest_digest) in Hstart as (_&Hsame&_). pose proof H as H'.
  eapply rounds_calls in H as (called&Hlog&[Hnd Hcalled]&Hok); [|exact Hexecutor].
  exists called. split; [done|]. split; [done|]. split.
  { apply (submseteq_length called registry), NoDup_submseteq; [done|]. intros op Hop. by apply Hcalled. }
  split; [by rewrite <- Hsame|]. intros o ->. destruct (Hok o eq_refl) as (Hin&_&Hstop). split; [done|]. intros Hrounds.
  eapply rounds_end in H' as (s2&frame&s3&target&reason&instant&m&_&_&Hends&instant'&Hfin); [|exact Hexecutor].
  assert (er_stop_reason (ro_result o) = reason) as Hr by (by eapply finish_reason). rewrite Hr in *. destruct Hends; [left|right; left|exfalso]. apply Hstop; [|done].
  assert (length (remaining run_id s1) ≤ length registry)%nat as Hlen
    by (unfold remaining; apply length_filter).
  assert (length registry = 7)%nat by done. lia.
Qed.

(** C17. What a finished run says is what the stored knowledge supports, and it is recorded.  The result gives each required
    dimension exactly its evaluation over the tables the run leaves; the row of the run has the same status, the reference
    of the result and its stop reason.  A run is completed only when every required dimension has one of the terminal
    statuses of its contract (never missing).  It is blocked as having no eligible operator only when some required
    dimension has none, and then every operator that produces or enables a missing dimension was attempted by the run or
    lacks its prerequisites in the current view of the object. *)
Theorem role_outcome run_id max_rounds s log o w'
  (Hexecutor : OperatorExecutor contract_digest manifest_digest execute run_id)
  (Hwf : task_wf contract_digest manifest_digest (en_tasks s)) :
  enrich max_rounds run_id (s, log) = (Ok o, w') →
  let s' := w'.1 in let res := ro_result o in
  ∃ contract d obj shown row,
    contract_of (en_tasks s) run_id = Some contract ∧ desired_state_of contract = Ok d ∧
    get_object (ds_target_object_id d) (en_knowledge s') = Some obj ∧
    get_object_by_id (en_knowledge s') (ds_target_object_id d) = Some shown ∧
    task_runs (en_tasks s') !! run_id = Some row ∧ status row = run_status o ∧
    result_ref row = Some (result_ref_of sha256_hex result_json res) ∧ stop_reason row = Some (er_stop_reason res) ∧
    (∀ k, k ∈ required_dimensions d → ∃ st, (k, st) ∈ dimension_status res) ∧
    (∀ k st, (k, st) ∈ dimension_status res → k ∈ required_dimensions d ∧
       ∃ x, evaluates float_repr s' obj k x ∧ st_status x = st) ∧
    (run_status o = COMPLETED ∧ er_stop_reason res = "enrichment_goal_satisfied"%string ∧
       (∀ k st, (k, st) ∈ dimension_status res → st ∈ terminal_statuses d ∧ st ≠ MISSING) ∨
     run_status o = BLOCKED ∧ er_stop_reason res = "no_eligible_enrichment_operator"%string ∧
       (∃ k st, (k, st) ∈ dimension_status res ∧ st ∉ terminal_statuses d) ∧
       (∀ k spec, (k, MISSING) ∈ dimension_status res → spec ∈ OPERATOR_SPECS → k ∈ spec_dimensions spec →
          os_operator_id spec ∈ attempted_by run_id s' ∨ prerequisites_met spec shown = false) ∨
     run_status o = BLOCKED ∧ er_stop_reason res = "enrichment_round_budget_exhausted"%string).
Proof.
  intros [(e&[=]&_)|(s1&Hstart&H)]%run_cases. cbv zeta.
  apply (ensure_running_Ok contract_digest manifest_digest) in Hstart as (Hs1&_&contract&Hcontract).
  eapply rounds_end in H as (s2&frame&s3&target&reason&instant&m&Hs2&Hplan&Hends&instant'&Hfin); [|exact Hexecutor].
  destruct (rs_tasks _ _ _ _ _ Hs1 Hwf) as [Hwf1 Hx1]. destruct (rs_tasks _ _ _ _ _ Hs2 Hwf1) as [Hwf2 Hx2].
  apply plan_frame_Ok in Hplan as ((Et&Ek&Ea)&Hc&Hd&Hat&obj&shown&Hobj&Htype&Hsn&Hshown&Hps).
  assert (fr_contract frame = contract) as Ec.
  { pose proof (contract_of_extends _ _ _ _ Hx2 (contract_of_extends _ _ _ _ Hx1 Hcontract)). congruence. }
  rewrite Ec in Hd.
  pose proof Hfin as Hreason. apply (finish_Ok contract_digest manifest_digest) in Hfin as (_&Ek'&Ea'&Hstatus&Hres&Hrow).
  rewrite Et in Hrow. destruct (Hrow Hwf2) as (r&_&Hr').
  assert (er_stop_reason (ro_result o) = reason) as Er by (by eapply finish_reason).
  destruct (task_result_statuses _ _ _ _ Hres) as (Hin&Hkeys&_). destruct (desired_state_Ok _ _ Hd) as [Hne Hterm].
  rewrite <- Ek, <- Ek' in Hobj, Hshown.
  assert (attempted_by run_id w'.1 = attempted_by run_id s2) as Hatt by (unfold attempted_by; by rewrite Ea', Ea).
  assert (∀ k x, state_of (snapshot frame) k = Ok x → evaluates float_repr w'.1 obj k x ∧ x ∈ sn_dimensions (snapshot frame)
    ∧ st_dimension x = k) as Hstate.
  { intros k x [Hx <-]%state_of_Ok. split; [|done]. rewrite Hsn in Hx. cbn in Hx. apply evaluations_elem in Hx; [|done].
    eapply evaluates_same; [| |exact Hx]; congruence. }
  eexists contract, (desired frame), obj, shown, _. split; [done|]. split; [done|]. split; [done|]. split; [done|].
  split; [exact Hr'|]. split; [by rewrite Hstatus|]. split; [done|]. split; [by rewrite Er|]. split; [exact Hkeys|]. split.
  { intros k st Hk. destruct (Hin k st Hk) as (Hreq&x&Hx&Hst). split; [done|]. exists x. by destruct (Hstate k x Hx). }
  rewrite Hstatus, Er. destruct Hends as [Hm Hnil Hcomplete|Hm Hnil Hcomplete|Hm].
  - left. split; [done|]. split; [done|]. intros k st Hk.
    pose proof (complete_statuses _ _ _ _ Hcomplete Hres k st Hk) as H. split; [done|]. by intros ->.
  - right; left. split; [done|]. split; [done|]. split; [by eapply incomplete_status|].
    intros k spec Hk Hspec Hdim. destruct (Hin k MISSING Hk) as (Hreq&x&Hx&Hst).
    destruct (Hstate k x Hx) as (_&Hxin&<-). rewrite Hatt. rewrite Hnil in Hps. by eapply (plan_nil _ _ _ _ _ _ _ _ Hne Hps).
  - by right; right.
Qed.
End properties.

(** ** A sample run

    The vulnerability of the sample history must have its weakness and its exploitation answered; the catalogue of known
    exploited vulnerabilities lists it. *)

Definition sample_contract : TaskContract :=
  mkTaskContract "enrich" 1 "user:alice" None ENRICHMENT ["object:" +:+ sample_subject]
    [("target_object_id"%string, JStr sample_subject); ("cve_id"%string, JStr "CVE-2024-1");
     ("required_dimensions"%string, JArr [JStr "exploit_state"; JStr "weakness"])]
    [] [] [] INTERNAL_STATE default_DelegationCeiling
    [("type"%string, JStr "enrichment_dimensions_terminal")] CANCELLABLE "policy-v1".
Definition sample_tasks : TaskDB :=
  run_ops same tc_id context_id
    [CreateTaskRun sample_contract (sample_manifest "ctx" "enrich@1" "EnrichmentRole@1" 1 None) EnrichmentRole "env" "events"
       None None (Some "run-1"%string) "" "e0" "task-runtime" 10] empty_TaskDB.
Definition sample_db : EnrichmentDB :=
  mkEnrichmentDB sample_tasks
    (run_knowledge_ops sample_hash same (sample_first ++ [Observe "o4" (sample_observation "cisa-kev")]) empty_knowledge) ∅ [].

Definition sample_job (cve source : string) (query : QuerySpec) (operator : string) (ds : list EnrichmentDimension)
  (run_id : string) : prog EnrichmentDB (list NormalizationResult) :=
  if bool_decide (source = "cisa-kev"%string)
  then r ← zoom (Knowledge.apply sample_hash same None source (sample_anchor "o4")
                   (mkEnrichmentCandidate (Some sample_root) [] [sample_claim "known_exploited" "yes"] [] [] [])
                   source "1" SOURCE_ASSERTED 3 30); mret [r]
  else mret [].
Definition sample_service (cve run_id : string) : prog EnrichmentDB (list NormalizationResult) := mret [].
Definition sample_execute := default_execute sample_job sample_service sample_service.
Definition sample_now (round : nat) (point : string) : Z := 100 + Z.of_nat round.
Definition sample_run (s : EnrichmentDB) (max_rounds : nat) :=
  run same sample_repr sample_iso sample_dump same er_stop_reason same (λ _, false) "events" sample_now same sample_execute
    max_rounds "run-1" (s, []).

Lemma sample_tasks_wf : task_wf tc_id context_id (en_tasks sample_db).
Proof. apply run_ops_good, empty_wf. Qed.

#[export] Instance sample_executor : OperatorExecutor tc_id context_id sample_execute "run-1".
Proof.
  apply default_executor; [|by intros|by intros]. intros cve source query operator ds s. unfold sample_job.
  case_bool_decide; [|done]. unfold mbind, prog_bind, zoom.
  destruct (Knowledge.apply _ _ _ _ _ _ _ _ _ _ _ _) as [[r|e] k]; (split; [by intros op|by split]).
Qed.

(** What a run leaves: how it ended, what the dimensions are, the operators it called, the status of its row, its events. *)
Definition summary (x : result EnrichmentRoleOutcome * World) :=
  match x with
  | (Ok o, w) => Some (run_status o, er_stop_reason (ro_result o), dimension_status (ro_result o), w.2,
                       status <$> task_runs (en_tasks w.1) !! "run-1"%string, event_type <$> task_events (en_tasks w.1))
  | (Err _, _) => None
  end.

Example sample_completes : summary (sample_run sample_db 8) =
  Some (COMPLETED, "enrichment_goal_satisfied"%string, [(EXPLOIT_STATE, RESOLVED); (WEAKNESS, RESOLVED)],
        ["provider.cisa_kev"%string], Some COMPLETED,
        [TASK_CREATED; TASK_PATCHED; TASK_STARTED; PROGRESS; ENRICHMENT_STATE_CHANGED; TASK_COMPLETED]).
Proof. vm_compute. reflexivity. Qed.

(** With one round the answer is found and the run still ends blocked. *)
Example one_round_is_blocked : summary (sample_run sample_db 1) =
  Some (BLOCKED, "enrichment_round_budget_exhausted"%string, [(EXPLOIT_STATE, RESOLVED); (WEAKNESS, RESOLVED)],
        ["provider.cisa_kev"%string], Some BLOCKED,
        [TASK_CREATED; TASK_PATCHED; TASK_STARTED; PROGRESS; ENRICHMENT_STATE_CHANGED; TASK_BLOCKED]).
Proof. vm_compute. reflexivity. Qed.

(** A reference whose address does not parse makes the planner raise, as does a number of superscripts, whose characters are
    digits for [isdigit] and not for [int]. *)
Example bad_address_raises :
  (parse_github_development_reference same (λ _, false) "https://github.com/a/b/pull/7" =
     Ok (github_reference "https://github.com/a/b/pull/7" "a/b" "pull_request" ("pull_number"%string, JInt 7))) ∧
  is_ok (parse_github_development_reference same (λ _, false) "https://[github.com/a/b/pull/7") = false ∧
  is_ok (parse_github_development_reference same (λ _, false)
           (of_chars (chars "https://github.com/a/b/pull/" ++ ["178"%char]))) = false.
Proof. vm_compute. auto. Qed.

(** A schema error with a long message is answered as a failed execution whose reason does not fit its column. *)
Definition schema_error : exn := OtherException "SourceSchemaChanged" (of_chars (repeat "x"%char 200)).
Example long_reason_raises :
  match failed_execution (mkEnrichmentOperatorPlan "provider.osv" PROVIDER_QUERY None None [PRODUCT_PACKAGE] [] "") schema_error with
  | Ok x => (record_enrichment_attempt sample_iso sample_dump
               (mkEnrichmentAttempt "a" sample_subject "r" PRODUCT_PACKAGE (ex_operator_id x) None (ex_status x) None
                  (ex_blocked_reason x) [] [] 0 None 0 None) sample_db).1
  | Err _ => Ok tt
  end = Err (OtherException "DataError" "value too long for type character varying(128)").
Proof. vm_compute. reflexivity. Qed.

Lemma role_run_ends_witness : ∃ o w' called, sample_run sample_db 8 = (Ok o, w') ∧ w'.2 = called ∧ NoDup called ∧
  (∀ op, op ∈ called → op ∈ attempted_by "run-1" w'.1) ∧
  er_stop_reason (ro_result o) ∈ ["enrichment_goal_satisfied"%string; "no_eligible_enrichment_operator"%string].
Proof.
  pose proof sample_completes as Hs. unfold summary in Hs.
  destruct (sample_run sample_db 8) as [[o|e] w'] eqn:E; [|discriminate Hs].
  destruct (role_run_ends tc_id context_id same sample_repr sample_iso sample_dump same er_stop_reason same (λ _, false)
    "events" sample_now same sample_execute "run-1" 8 sample_db [] (Ok o) w' sample_executor E) as (called&Hlog&Hnd&_&_&Hok).
  destruct (Hok o eq_refl) as [Hin Hstop]. exists o, w', called.
  split; [reflexivity|]. split; [exact Hlog|]. split; [exact Hnd|]. split; [exact Hin|]. apply Hstop. lia.
Defined.

Lemma role_outcome_witness : ∃ o w' row, sample_run sample_db 8 = (Ok o, w') ∧
  task_runs (en_tasks w'.1) !! "run-1"%string = Some row ∧ status row = run_status o ∧ run_status o = COMPLETED.
Proof.
  pose proof sample_completes as Hs. unfold summary in Hs.
  destruct (sample_run sample_db 8) as [[o|e] w'] eqn:E; [|discriminate Hs].
  destruct (role_outcome tc_id context_id same sample_repr sample_iso sample_dump same er_stop_reason same (λ _, false)
    "events" sample_now same sample_execute "run-1" 8 sample_db [] o w' sample_executor sample_tasks_wf E)
    as (contract&d&obj&shown&row&_&_&_&_&Hrow&Hstatus&_).
  exists o, w', row. split; [reflexivity|]. split; [exact Hrow|]. split; [exact Hstatus|]. injection Hs as Hc _ _ _ _ _. exact Hc.
Defined.
