(* ===== verification/Intent.v ===== *)
(** * Intent: packages/task_runtime/admission/parser.py

    The deterministic parser of requests: regular expressions as Python's [re] runs them (greedy, backtracking, first
    match from the left), the three expressions of the parser, and [TaskIntentParser.parse].

    An expression is a list of items; [match_items] is [re.match] at a position, [findall] is [re.findall].  The language
    of an expression is given independently of the search by [accepts]. *)

From S2P Require Import Prelude.
From S2P Require Import Effects.
From S2P Require Import TaskContracts.
From S2P Require Import Vocabulary.
From Stdlib Require Import Ascii.

(** ** re, with IGNORECASE *)

(** [\w] and [\d] on the code points below 256. *)
Definition digit_char (c : ascii) : bool := let n := nat_of_ascii c in ((48 <=? n) && (n <=? 57))%nat.
Definition letter_char (c : ascii) : bool :=
  let n := nat_of_ascii c in ((65 <=? n) && (n <=? 90) || (97 <=? n) && (n <=? 122))%nat.
Definition word_char (c : ascii) : bool :=
  let n := nat_of_ascii c in
  digit_char c || letter_char c || (n =? 95)%nat || (n =? 170)%nat || (n =? 178)%nat || (n =? 179)%nat || (n =? 181)%nat
  || (n =? 185)%nat || (n =? 186)%nat || (n =? 188)%nat || (n =? 189)%nat || (n =? 190)%nat
  || (192 <=? n)%nat && negb (n =? 215)%nat && negb (n =? 247)%nat.

(** [\b], [(?:a|b)] of texts in any case, and [[...]{least,most}]. *)
Inductive item :=
| Boundary
| Word (options : list (list ascii))
| Repeat (p : ascii → bool) (least : nat) (most : option nat).

Definition at_word (c : option ascii) : bool := match c with Some c => word_char c | None => false end.
Definition same_letters (w w' : list ascii) : Prop := lower_char <$> w = lower_char <$> w'.
#[export] Instance same_letters_dec w w' : Decision (same_letters w w').
Proof. unfold same_letters. apply _. Defined.

(** The character before the position after [m]. *)
Definition last_of (prev : option ascii) (m : list ascii) : option ascii :=
  match last m with Some c => Some c | None => prev end.

Fixpoint run_length (p : ascii → bool) (l : list ascii) : nat :=
  match l with c :: l' => if p c then S (run_length p l') else 0 | [] => 0 end.
(** The lengths a repetition tries, the longest first. *)
Definition counts (p : ascii → bool) (least : nat) (most : option nat) (l : list ascii) : list nat :=
  filter (λ n, least ≤ n)%nat
    (reverse (seq 0 (S (match most with Some m => Nat.min m (run_length p l) | None => run_length p l end)))).

Fixpoint match_items (items : list item) (prev : option ascii) (l : list ascii) : option (list ascii) :=
  match items with
  | [] => Some []
  | Boundary :: rest => if xorb (at_word prev) (at_word (head l)) then match_items rest prev l else None
  | Word options :: rest =>
      first_some (λ w, if decide (same_letters (take (length w) l) w)
                       then app (take (length w) l) <$> match_items rest (last_of prev (take (length w) l)) (drop (length w) l)
                       else None) options
  | Repeat p least most :: rest =>
      first_some (λ n, app (take n l) <$> match_items rest (last_of prev (take n l)) (drop n l)) (counts p least most l)
  end.

(** [findall] of an expression that matches no empty text; [skip] characters belong to the last match. *)
Fixpoint findall (items : list item) (skip : nat) (prev : option ascii) (l : list ascii) : list (list ascii) :=
  match l with
  | [] => []
  | c :: l' =>
      match skip with
      | S k => findall items k (Some c) l'
      | O => match match_items items prev l with
             | Some m => m :: findall items (pred (length m)) (Some c) l'
             | None => findall items 0 (Some c) l'
             end
      end
  end.
Definition findall_text (items : list item) (text : string) : list string := of_chars <$> findall items 0 None (chars text).

(** ** The expressions *)

Definition alnum_char (c : ascii) : bool := letter_char c || digit_char c.
Definition ref_char (c : ascii) : bool := alnum_char c || bool_decide (c ∈ chars "._/@:+-").

Definition CVE : list item :=
  [Boundary; Word [chars "CVE-"]; Repeat digit_char 4 (Some 4%nat); Word [chars "-"]; Repeat digit_char 4 (Some 7%nat); Boundary].
Definition GHSA : list item :=
  [Boundary; Word [chars "GHSA-"]; Repeat alnum_char 4 (Some 4%nat); Word [chars "-"]; Repeat alnum_char 4 (Some 4%nat);
   Word [chars "-"]; Repeat alnum_char 4 (Some 4%nat); Boundary].
Definition RESOURCE_REF : list item :=
  [Boundary;
   Word (chars <$> ["case"%string; "object"%string; "incident"%string; "repo"%string; "release"%string; "commit"%string; "cve"%string; "ghsa"%string]);
   Word [chars ":"]; Repeat ref_char 1 None; Boundary].

(** ** TaskIntentParser *)

(** [_unique] *)
Definition unique (values : list string) : list string := from_keys (filter (λ s, py_blank s = false) values).

Definition target_prefixes : list string := ["case:"%string; "object:"%string; "incident:"%string].
Definition is_target_ref (ref : string) : bool := existsb (λ p, startswith p (lower ref)) target_prefixes.

Definition parse (raw trigger : option string) (kind : option TaskKind) (targets : list string) (temporal : option string)
  (output : list (string * json)) (actions context_refs : list string) : result TaskIntent :=
  let text := default ""%string raw in
  let resource_refs := findall_text RESOURCE_REF text in
  let identifiers := (upper <$> findall_text CVE text) ++ (upper <$> findall_text GHSA text) ++ resource_refs in
  let explicit_targets := targets ++ filter (λ ref, is_target_ref ref = true) resource_refs in
  require_request_or_trigger
    (mkTaskIntent raw trigger (unique identifiers) kind (unique explicit_targets) temporal output (unique actions)
       (unique context_refs)).

(** ** What the search finds *)

(** [accepts items prev m rest]: [m] is a text of the expression where [prev] stands before it and [rest] follows. *)
Inductive accepts : list item → option ascii → list ascii → list ascii → Prop :=
| accepts_nil prev rest : accepts [] prev [] rest
| accepts_boundary items prev m rest :
    at_word prev ≠ at_word (head (m ++ rest)) → accepts items prev m rest → accepts (Boundary :: items) prev m rest
| accepts_word items options prev w w' m rest :
    w' ∈ options → same_letters w w' → accepts items (last_of prev w) m rest →
    accepts (Word options :: items) prev (w ++ m) rest
| accepts_repeat items p least most prev w m rest :
    Forall (λ c, p c = true) w → (least ≤ length w)%nat → (∀ k : nat, most = Some k → (length w ≤ k)%nat) →
    accepts items (last_of prev w) m rest →
    accepts (Repeat p least most :: items) prev (w ++ m) rest.

Lemma run_length_take p l n : (n ≤ run_length p l)%nat → Forall (λ c, p c = true) (take n l) ∧ (length (take n l) = n)%nat.
Proof.
  revert n. induction l as [|c l IH]; intros [|n]; simpl; try (split; [constructor|done]); [lia|].
  destruct (p c) eqn:E; [|lia]. intros H. destruct (IH n) as [H1 H2]; [lia|]. split; [by constructor|lia].
Qed.

Lemma run_length_app p w l : Forall (λ c, p c = true) w → (length w ≤ run_length p (w ++ l))%nat.
Proof. induction 1 as [|c w Hc Hw IH]; simpl; [lia|]. rewrite Hc. lia. Qed.

Lemma elem_of_counts p least most l n :
  n ∈ counts p least most l ↔ (least ≤ n)%nat ∧ (n ≤ run_length p l)%nat ∧ (∀ k, most = Some k → (n ≤ k)%nat).
Proof.
  unfold counts. rewrite list_elem_of_filter, elem_of_reverse, elem_of_seq. destruct most as [m|]; split.
  - intros [? ?]. split; [done|]. split; [lia|]. intros k [= <-]. lia.
  - intros (?&?&H). specialize (H m eq_refl). lia.
  - intros [? ?]. split; [done|]. split; [lia|done].
  - intros (?&?&_). lia.
Qed.

Lemma match_sound items prev l m :
  match_items items prev l = Some m → ∃ rest, l = m ++ rest ∧ accepts items prev m rest.
Proof.
  revert prev l m. induction items as [|[|options|p least most] items IH]; intros prev l m; simpl.
  - intros [= <-]. exists l. split; [done|constructor].
  - destruct (xorb _ _) eqn:E; [|done]. intros (rest&->&H)%IH. exists rest. split; [done|]. constructor; [|done].
    intros Heq. rewrite Heq in E. by destruct (at_word _).
  - intros (w&Hw&H)%first_some_Some. destruct (decide _) as [Hs|]; [|done].
    apply fmap_Some in H as (m'&(rest&Hd&Ha)%IH&->). exists rest. split; [|by eapply accepts_word].
    by rewrite <- (take_drop (length w) l) at 1; rewrite Hd, (assoc_L (++)).
  - intros (n&(?&Hn&?)%elem_of_counts&(m'&(rest&Hd&Ha)%IH&->)%fmap_Some)%first_some_Some.
    destruct (run_length_take p l n Hn) as [Hf Hl]. exists rest. split; [|constructor; try done; rewrite Hl; done].
    by rewrite <- (take_drop n l) at 1; rewrite Hd, (assoc_L (++)).
Qed.

Lemma match_complete items prev m rest : accepts items prev m rest → is_Some (match_items items prev (m ++ rest)).
Proof.
  induction 1 as [prev rest|items prev m rest Hb H IH|items options prev w w' m rest Hw Hs H IH
    |items p least most prev w m rest Hf Hle Hmost H IH]; simpl.
  - by eexists.
  - destruct (xorb _ _) eqn:E; [done|]. apply xorb_eq in E. done.
  - apply (first_some_is_Some _ _ w'); [done|].
    assert (length w' = length w) as Hl by (by rewrite <- (length_fmap lower_char w'), <- Hs, length_fmap).
    rewrite <- (assoc_L (++)), Hl, take_app_length, drop_app_length. rewrite decide_True by done. by apply fmap_is_Some.
  - apply (first_some_is_Some _ _ (length w)).
    + apply elem_of_counts. split; [done|]. split; [|done]. rewrite <- (assoc_L (++)). by apply run_length_app.
    + rewrite <- (assoc_L (++)), take_app_length, drop_app_length. by apply fmap_is_Some.
Qed.

Lemma last_of_cons prev c a : last_of prev (c :: a) = last_of (Some c) a.
Proof. unfold last_of. rewrite last_cons. by destruct (last a). Qed.

Lemma findall_sound items skip prev l w :
  w ∈ findall items skip prev l → ∃ a b, l = a ++ w ++ b ∧ accepts items (last_of prev a) w b.
Proof.
  revert skip prev. induction l as [|c l IH]; intros skip prev; simpl; [by intros ?%elem_of_nil|].
  assert (∀ k, w ∈ findall items k (Some c) l → ∃ a b, c :: l = a ++ w ++ b ∧ accepts items (last_of prev a) w b) as Hlater.
  { intros k (a&b&->&H)%IH. exists (c :: a), b. by rewrite last_of_cons. }
  destruct skip as [|k]; [|apply Hlater]. destruct (match_items _ _ _) as [m|] eqn:E; [|apply Hlater].
  intros [->|H]%elem_of_cons; [|by eapply Hlater]. apply match_sound in E as (rest&->&H). by exists [], rest.
Qed.

(** A text is found where it is the only one that matches and no match before it reaches into it. *)
Lemma findall_complete items skip prev a w b :
  w ≠ [] → match_items items (last_of prev a) (w ++ b) = Some w → (skip ≤ length a)%nat →
  (∀ a1 a2 m, a = a1 ++ a2 → a2 ≠ [] → match_items items (last_of prev a1) (a2 ++ w ++ b) = Some m → (length m ≤ length a2)%nat) →
  w ∈ findall items skip prev (a ++ w ++ b).
Proof.
  intros Hw. revert skip prev. induction a as [|c a IH]; intros skip prev Hm Hskip Hbefore.
  { destruct w as [|c w]; [done|]. assert (skip = 0%nat) as -> by (simpl in Hskip; lia).
    change (match_items items prev (c :: w ++ b) = Some (c :: w)) in Hm. simpl. rewrite Hm. left. }
  assert (∀ k, (k ≤ length a)%nat → w ∈ findall items k (Some c) (a ++ w ++ b)) as Hlater.
  { intros k Hk. apply IH; [by rewrite <- last_of_cons with (prev := prev)|done|]. intros a1 a2 m -> Hne H.
    apply (Hbefore (c :: a1) a2); [done|done|by rewrite last_of_cons]. }
  simpl in Hskip |- *. destruct skip as [|k]; [|apply Hlater; lia].
  destruct (match_items items prev (c :: a ++ w ++ b)) as [m|] eqn:E; [|apply Hlater; lia].
  right. apply Hlater. specialize (Hbefore [] (c :: a) m eq_refl). simpl in Hbefore. specialize (Hbefore ltac:(done) E). lia.
Qed.

(** ** The texts of an expression, from the left

    [At prev w b]: [w] stands between a text that ends in [prev] and [b].  [scan] says which texts are found, without the
    search: the first place from the left where one stands, there the longest, and on behind it. *)
Inductive scan (At : option ascii → list ascii → list ascii → Prop) : option ascii → list ascii → list (list ascii) → Prop :=
| scan_end prev l : (∀ s w b, l = s ++ w ++ b → ¬ At (last_of prev s) w b) → scan At prev l []
| scan_hit prev s w b ws :
    At (last_of prev s) w b →
    (∀ w' b', w ++ b = w' ++ b' → At (last_of prev s) w' b' → (length w' ≤ length w)%nat) →
    (∀ s1 s2 w' b', s = s1 ++ s2 → s2 ≠ [] → s2 ++ w ++ b = w' ++ b' → ¬ At (last_of prev s1) w' b') →
    scan At (last_of prev (s ++ w)) b ws → scan At prev (s ++ w ++ b) (w :: ws).

Lemma scan_cons At prev c l ws :
  (∀ w b, c :: l = w ++ b → ¬ At prev w b) → scan At (Some c) l ws → scan At prev (c :: l) ws.
Proof.
  intros Hno H. assert (last_of prev [] = prev) as Hnil by done.
  inversion H as [? ? Hend|? s w b ws' Hat Hlong Hfirst Hrest]; subst.
  - constructor. intros [|c' s] w b E; [rewrite Hnil; by apply Hno|].
    simpl in E. injection E as -> ->. rewrite last_of_cons. by apply Hend.
  - apply (scan_hit At prev (c :: s)).
    + by rewrite last_of_cons.
    + intros w' b' E. rewrite last_of_cons. by apply Hlong.
    + intros [|c1 s1] s2 w' b' E Hne E'; simpl in E.
      * subst s2. rewrite Hnil. by apply Hno.
      * injection E as <- ->. rewrite last_of_cons. by eapply Hfirst.
    + change ((c :: s) ++ w) with (c :: (s ++ w)). by rewrite last_of_cons.
Qed.

Lemma findall_skip items k prev l : (k ≤ length l)%nat →
  findall items k prev l = findall items 0 (last_of prev (take k l)) (drop k l).
Proof.
  revert k prev. induction l as [|c l IH]; intros [|k] prev Hk; simpl in *; try done.
  rewrite last_of_cons. apply IH. lia.
Qed.

(** The search finds what [scan] says, when a match is the longest text of [At] at its place. *)
Lemma findall_scan items At :
  (∀ prev w b, At prev w b → w ≠ []) →
  (∀ prev l w, match_items items prev l = Some w →
     ∃ b, l = w ++ b ∧ At prev w b ∧ ∀ w' b', l = w' ++ b' → At prev w' b' → (length w' ≤ length w)%nat) →
  (∀ prev w b, At prev w b → is_Some (match_items items prev (w ++ b))) →
  ∀ prev l, scan At prev l (findall items 0 prev l).
Proof.
  intros Hne Hsome Hnone prev l. remember (length l) as n eqn:Hn.
  revert prev l Hn. induction (lt_wf n) as [n _ IH]. intros prev l ->. destruct l as [|c l].
  { constructor. intros s w b E Hat. symmetry in E. apply app_nil in E as [_ E]. apply app_nil in E as [-> _]. by apply Hne in Hat. }
  cbn [findall]. destruct (match_items items prev (c :: l)) as [w|] eqn:E.
  - apply Hsome in E as (b&E&Hat&Hlong). pose proof (Hne _ _ _ Hat) as Hw. destruct w as [|c' w]; [done|].
    simpl in E. injection E as <- ->. rewrite findall_skip by (rewrite length_app; simpl; lia). cbn [length pred].
    rewrite take_app_length, drop_app_length.
    apply (scan_hit At prev [] (c :: w) b); [done|done|by intros [] [] ? ? [=]|].
    cbn [app]. rewrite last_of_cons. apply (IH (length b)); [simpl; rewrite length_app; lia|done].
  - apply scan_cons; [|apply (IH (length l)); [simpl; lia|done]].
    intros w b Ew Hat. apply Hnone in Hat. rewrite <- Ew, E in Hat. by apply is_Some_None in Hat.
Qed.

(** The longest length that works is taken. *)
Lemma first_count {A} (f : nat → option A) (P : nat → Prop) `{!∀ n, Decision (P n)} k y :
  first_some f (filter P (reverse (seq 0 k))) = Some y →
  ∃ n, f n = Some y ∧ ∀ n', (n' < k)%nat → P n' → is_Some (f n') → (n' ≤ n)%nat.
Proof.
  induction k as [|k IH]; [done|]. rewrite seq_S, reverse_snoc, filter_cons. simpl.
  destruct (decide (P k)) as [Hk|Hk].
  - simpl. destruct (f k) as [z|] eqn:Ef.
    + intros [= ->]. exists k. split; [done|]. intros n' Hn' _ _. lia.
    + intros (n&Hn&Hmax)%IH. exists n. split; [done|]. intros n' Hn' HP Hf. destruct (decide (n' = k)) as [->|].
      * rewrite Ef in Hf. by apply is_Some_None in Hf.
      * apply Hmax; [lia|done|done].
  - intros (n&Hn&Hmax)%IH. exists n. split; [done|]. intros n' Hn' HP Hf. destruct (decide (n' = k)) as [->|]; [done|].
    apply Hmax; [lia|done|done].
Qed.

Lemma repeat_longest p prev l w r b :
  match_items [Repeat p 1 None; Boundary] prev l = Some w →
  l = r ++ b → Forall (λ c, p c = true) r → r ≠ [] → at_word (last_of prev r) ≠ at_word (head b) → (length r ≤ length w)%nat.
Proof.
  intros H -> Hr Hne Hb. cbn [match_items] in H. unfold counts in H. apply first_count in H as (n&Hn&Hmax).
  apply fmap_Some in Hn as (w'&Hw'&->). rewrite length_app.
  assert (length r ≤ n)%nat as Hle.
  { apply Hmax; [pose proof (run_length_app p r b Hr); lia|destruct r; [done|simpl; lia]|].
    rewrite take_app_length, drop_app_length. clear Hw'.
    destruct (xorb (at_word (last_of prev r)) _) eqn:E; [by eexists|]. by apply xorb_eq in E. }
  rewrite length_take, length_app. lia.
Qed.

(** ** CVE identifiers *)

Definition digits (w : list ascii) : Prop := Forall (λ c, digit_char c = true) w.
Definition cve_text (w : list ascii) : Prop :=
  ∃ p y n, w = p ++ "-"%char :: y ++ "-"%char :: n ∧ same_letters p (chars "CVE") ∧
    digits y ∧ length y = 4%nat ∧ digits n ∧ (4 ≤ length n ≤ 7)%nat.

(** [w] is a CVE identifier and stands between [a] and [b] as a word. *)
Definition cve_at (a w b : list ascii) : Prop :=
  at_word (last a) = false ∧ cve_text w ∧ at_word (head b) = false.

Lemma lower_dash c : lower_char c = "-"%char → c = "-"%char.
Proof. destruct c as [[] [] [] [] [] [] [] []]; vm_compute; congruence. Qed.
Lemma lower_c_word c : lower_char c = "c"%char → word_char c = true.
Proof. destruct c as [[] [] [] [] [] [] [] []]; vm_compute; congruence. Qed.
Lemma digit_word c : digit_char c = true → word_char c = true.
Proof. unfold word_char. by intros ->. Qed.
Lemma digit_not_c c : digit_char c = true → lower_char c ≠ "c"%char.
Proof. destruct c as [[] [] [] [] [] [] [] []]; vm_compute; congruence. Qed.

Lemma same_letters_dash w : same_letters w (chars "-") → w = ["-"%char].
Proof.
  unfold same_letters. destruct w as [|c [|? ?]]; [done| |done]. intros [= H]. by rewrite (lower_dash c H).
Qed.
Lemma same_letters_CVE w : same_letters w (chars "CVE-") ↔ ∃ p, w = p ++ ["-"%char] ∧ same_letters p (chars "CVE").
Proof.
  unfold same_letters. split.
  - destruct w as [|c1 [|c2 [|c3 [|c4 [|? ?]]]]]; try done. intros [= H1 H2 H3 H4]. exists [c1; c2; c3].
    rewrite (lower_dash c4 H4). split; [done|]. simpl. by rewrite H1, H2, H3.
  - intros (p&->&H). by rewrite fmap_app, H.
Qed.

Lemma last_digits n prev : digits n → n ≠ [] → at_word (last_of prev n) = true.
Proof.
  intros Hn Hne. unfold last_of. destruct (last n) as [c|] eqn:E; [|by apply last_None in E].
  apply last_Some in E as [l ->]. apply Forall_app in Hn as [_ Hn]. apply Forall_cons in Hn as [Hn _].
  by apply digit_word.
Qed.

Lemma cve_text_head w : cve_text w → ∃ c t, w = c :: t ∧ lower_char c = "c"%char ∧ Forall (λ c, lower_char c ≠ "c"%char) t.
Proof.
  intros (p&y&n&->&Hp&Hy&_&Hn&_). unfold same_letters in Hp. destruct p as [|c1 [|c2 [|c3 [|? ?]]]]; try done.
  injection Hp as H1 H2 H3. exists c1, ([c2; c3] ++ "-"%char :: y ++ "-"%char :: n). split; [done|]. split; [done|].
  constructor; [by rewrite H2|]. constructor; [by rewrite H3|]. constructor; [done|]. apply Forall_app.
  split; [|constructor; [done|]]; eapply Forall_impl; eauto using digit_not_c.
Qed.

Lemma accepts_CVE prev w rest :
  accepts CVE prev w rest ↔ at_word prev = false ∧ cve_text w ∧ at_word (head rest) = false.
Proof.
  split.
  - intros H. inversion H as [|? ? ? ? Hb H1| |]; subst; clear H.
    inversion H1 as [| |? ? ? p ? m1 ? Hin Hp H2|]; subst; clear H1. apply list_elem_of_singleton in Hin as ->.
    apply same_letters_CVE in Hp as (p'&->&Hp).
    inversion H2 as [| | |? ? ? ? ? y m2 ? Hy Hy1 Hy2 H3]; subst; clear H2. specialize (Hy2 _ eq_refl).
    inversion H3 as [| |? ? ? d ? m3 ? Hin Hd H4|]; subst; clear H3. apply list_elem_of_singleton in Hin as ->.
    apply same_letters_dash in Hd as ->.
    inversion H4 as [| | |? ? ? ? ? n m4 ? Hn Hn1 Hn2 H5]; subst; clear H4. specialize (Hn2 _ eq_refl).
    inversion H5 as [|? ? ? ? Hb' H6| |]; subst; clear H5. inversion H6; subst; clear H6.
    rewrite app_nil_r in *. simpl in Hb'. rewrite last_digits in Hb' by (done || (intros ->; simpl in *; lia)).
    assert (cve_text ((p' ++ ["-"%char]) ++ y ++ ["-"%char] ++ n)) as Hw.
    { exists p', y, n. rewrite <- (assoc_L (++)). repeat split; try done; lia. }
    split; [|split; [done|]]; [|by destruct (at_word (head rest))].
    destruct (cve_text_head _ Hw) as (c&t&E&Hc&_). rewrite E in Hb. simpl in Hb. rewrite (lower_c_word c Hc) in Hb.
    by destruct (at_word prev).
  - intros (Hprev&Hw&Hrest). pose proof (cve_text_head _ Hw) as (c&t&E&Hc&_). constructor.
    { rewrite E. simpl. by rewrite (lower_c_word c Hc), Hprev. }
    destruct Hw as (p&y&n&->&Hp&Hy&Hy4&Hn&Hn4). change ("-"%char :: y ++ "-"%char :: n) with (["-"%char] ++ y ++ ["-"%char] ++ n).
    rewrite (assoc_L (++)). eapply accepts_word; [left|by apply same_letters_CVE; exists p|].
    constructor; [done|lia|by intros k [= <-]; lia|]. eapply accepts_word; [left|done|]. rewrite <- (app_nil_r n).
    constructor; [done|lia|intros k [= <-]; lia|]. constructor; [|constructor]. simpl.
    rewrite last_digits by (done || (intros ->; simpl in *; lia)). by rewrite Hrest.
Qed.

Lemma digits_end n n' r r' : digits n → digits n' → at_word (head r) = false → at_word (head r') = false →
  n ++ r = n' ++ r' → n = n'.
Proof.
  intros Hn. revert n'. induction Hn as [|c n Hc Hn IH]; intros n' Hn' Hr Hr' E.
  - destruct Hn' as [|c' n' Hc' Hn']; [done|]. simpl in E. subst r. simpl in Hr. by rewrite (digit_word _ Hc') in Hr.
  - destruct Hn' as [|c' n' Hc' Hn']; simpl in E; [subst r'; simpl in Hr'; by rewrite (digit_word _ Hc) in Hr'|].
    injection E as -> E. f_equal. by apply IH.
Qed.

Lemma cve_unique prev w w' rest rest' :
  accepts CVE prev w rest → accepts CVE prev w' rest' → w ++ rest = w' ++ rest' → w = w'.
Proof.
  intros (_&(p&y&n&->&Hp&Hy&Hy4&Hn&Hn4)&Hr)%accepts_CVE (_&(p'&y'&n'&->&Hp'&Hy'&Hy4'&Hn'&Hn4')&Hr')%accepts_CVE E.
  assert (length p = 3 ∧ length p' = 3)%nat as [H3 H3'].
  { unfold same_letters in *. by rewrite <- (length_fmap lower_char p), <- (length_fmap lower_char p'), Hp, Hp'. }
  rewrite <- !(assoc_L (++)) in E. apply app_inj_1 in E as [-> E]; [|congruence]. simpl in E. injection E as E.
  rewrite <- !(assoc_L (++)) in E. apply app_inj_1 in E as [-> E]; [|congruence]. simpl in E. injection E as E.
  by rewrite (digits_end n n' rest rest' Hn Hn' Hr Hr' E).
Qed.

Lemma elem_of_unique x l : x ∈ unique l ↔ x ∈ l ∧ py_blank x = false.
Proof. unfold unique. rewrite elem_of_from_keys, list_elem_of_filter. tauto. Qed.

(** Two identifiers of a text do not overlap, so every one is found. *)
Lemma findall_cves text w :
  w ∈ findall CVE 0 None text ↔ ∃ a b, text = a ++ w ++ b ∧ cve_at a w b.
Proof.
  assert (∀ a, last_of None a = last a) as Hlast by (intros a; unfold last_of; by destruct (last a)).
  split.
  - intros (a&b&E&H)%findall_sound. exists a, b. split; [done|]. rewrite Hlast in H. by apply accepts_CVE in H.
  - intros (a&b&->&Hat). apply accepts_CVE in Hat as Ha. destruct Hat as (_&Hw&_).
    destruct (cve_text_head _ Hw) as (c&t&E&Hc&_). apply findall_complete; [by subst| |simpl; lia|].
    + destruct (match_complete _ _ _ _ Ha) as [m Hm]. rewrite Hlast, Hm. apply match_sound in Hm as (rest&Erest&Hm).
      f_equal. symmetry. by eapply cve_unique.
    + intros a1 a2 m -> Hne Hm. apply match_sound in Hm as (rest&Erest&(_&(c'&t'&Em&_&Hno)%cve_text_head&_)%accepts_CVE).
      apply Nat.nlt_ge. intros Hlt. subst m w. destruct a2 as [|c2 a2]; [done|]. simpl in *. injection Erest as -> Et.
      assert (t' !! length a2 = Some c) as Hin.
      { rewrite <- (lookup_app_l t' rest) by lia. rewrite <- Et. by rewrite list_lookup_middle. }
      by apply (Forall_lookup_1 _ _ _ _ Hno Hin).
Qed.

Lemma upper_cve_not_blank w : cve_text w → py_blank (upper (of_chars w)) = false.
Proof.
  intros (c&t&->&Hc&_)%cve_text_head. unfold upper. rewrite chars_of_chars. simpl.
  assert (upper_char c = ["C"%char]) as ->.
  { revert Hc. destruct c as [[] [] [] [] [] [] [] []]; vm_compute; congruence. }
  by apply py_blank_cons.
Qed.

(** ** GHSA identifiers and references *)

Definition alnums (w : list ascii) : Prop := Forall (λ c, alnum_char c = true) w.
Definition ghsa_text (w : list ascii) : Prop :=
  ∃ p x y z, w = p ++ "-"%char :: x ++ "-"%char :: y ++ "-"%char :: z ∧ same_letters p (chars "GHSA") ∧
    (alnums x ∧ length x = 4%nat) ∧ (alnums y ∧ length y = 4%nat) ∧ alnums z ∧ length z = 4%nat.
Definition reference_kinds : list string :=
  ["case"%string; "object"%string; "incident"%string; "repo"%string; "release"%string; "commit"%string; "cve"%string; "ghsa"%string].
Definition ref_text (w : list ascii) : Prop :=
  ∃ kind k r, w = k ++ ":"%char :: r ∧ kind ∈ reference_kinds ∧ same_letters k (chars kind) ∧
    Forall (λ c, ref_char c = true) r ∧ r ≠ [].

(** An identifier stands as a word; a reference starts as a word and ends at the border of one. *)
Definition word_at (shape : list ascii → Prop) (prev : option ascii) (w b : list ascii) : Prop :=
  at_word prev = false ∧ shape w ∧ at_word (head b) = false.
Definition ref_at (prev : option ascii) (w b : list ascii) : Prop :=
  at_word prev = false ∧ ref_text w ∧ at_word (last w) ≠ at_word (head b).

Lemma letter_word c : letter_char c = true → word_char c = true.
Proof. unfold word_char. intros ->. by rewrite orb_true_r. Qed.
Lemma alnum_word c : alnum_char c = true → word_char c = true.
Proof. unfold alnum_char. intros [?|?]%orb_true_iff; [by apply letter_word|by apply digit_word]. Qed.
Lemma lower_letter c d : lower_char c = d → letter_char d = true → letter_char c = true.
Proof. intros <-. destruct c as [[] [] [] [] [] [] [] []]; vm_compute; congruence. Qed.
Lemma lower_colon c : lower_char c = ":"%char → c = ":"%char.
Proof. destruct c as [[] [] [] [] [] [] [] []]; vm_compute; congruence. Qed.

Lemma same_letters_length w w' : same_letters w w' → length w = length w'.
Proof. intros H. by rewrite <- (length_fmap lower_char w), H, length_fmap. Qed.

Lemma same_letters_letters w w' : same_letters w w' → Forall (λ c, letter_char c = true) (lower_char <$> w') →
  Forall (λ c, letter_char c = true) w.
Proof.
  unfold same_letters. intros <- H. apply Forall_fmap in H. eapply Forall_impl; [exact H|]. intros c Hc. by eapply lower_letter.
Qed.

Lemma same_letters_split w p q : same_letters w (p ++ q) → ∃ p' q', w = p' ++ q' ∧ same_letters p' p ∧ same_letters q' q.
Proof.
  unfold same_letters. rewrite fmap_app. intros H. apply fmap_app_inv in H as (p'&q'&->&->&->). by exists p', q'.
Qed.

Lemma last_of_words prev n : Forall (λ c, word_char c = true) n → n ≠ [] → at_word (last_of prev n) = true.
Proof.
  intros Hn Hne. unfold last_of. destruct (last n) as [c|] eqn:E; [|by apply last_None in E].
  apply last_Some in E as [l ->]. apply Forall_app in Hn as [_ Hn]. by apply Forall_cons in Hn as [Hn _].
Qed.

Lemma kind_letters kind k : kind ∈ reference_kinds → same_letters k (chars kind) →
  Forall (λ c, letter_char c = true) k ∧ k ≠ [].
Proof.
  intros Hin Hk. assert (Forall (λ kind, forallb letter_char (lower_char <$> chars kind) = true ∧ chars kind ≠ []) reference_kinds) as Hall
    by (by repeat constructor). rewrite Forall_forall in Hall. destruct (Hall _ Hin) as [H1 H2]. split.
  - apply (same_letters_letters _ _ Hk), Forall_forall. intros c Hc%list_elem_of_In. by apply (proj1 (forallb_forall _ _) H1).
  - intros ->. by apply same_letters_length in Hk; destruct (chars kind).
Qed.

Lemma elem_of_kinds w : w ∈ chars <$> reference_kinds → ∃ kind, w = chars kind ∧ kind ∈ reference_kinds.
Proof. apply list_elem_of_fmap. Qed.

Lemma head_letter k l : Forall (λ c, letter_char c = true) k → k ≠ [] → at_word (head (k ++ l)) = true.
Proof. intros Hk Hne. destruct Hk as [|c k Hc _]; [done|]. by apply letter_word. Qed.

Lemma accepts_ghsa prev w b : accepts GHSA prev w b ↔ word_at ghsa_text prev w b.
Proof.
  split.
  - intros H. inversion H as [|? ? ? ? Hb H1| |]; subst; clear H.
    inversion H1 as [| |? ? ? p ? m1 ? Hin Hp H2|]; subst; clear H1. apply list_elem_of_singleton in Hin as ->.
    apply (same_letters_split _ (chars "GHSA") (chars "-")) in Hp as (p'&d&->&Hp&Hd).
    apply same_letters_dash in Hd as ->.
    inversion H2 as [| | |? ? ? ? ? x m2 ? Hx Hx1 Hx2 H3]; subst; clear H2. specialize (Hx2 _ eq_refl).
    inversion H3 as [| |? ? ? d ? m3 ? Hin Hd H4|]; subst; clear H3. apply list_elem_of_singleton in Hin as ->.
    apply same_letters_dash in Hd as ->.
    inversion H4 as [| | |? ? ? ? ? y m4 ? Hy Hy1 Hy2 H5]; subst; clear H4. specialize (Hy2 _ eq_refl).
    inversion H5 as [| |? ? ? d ? m5 ? Hin Hd H6|]; subst; clear H5. apply list_elem_of_singleton in Hin as ->.
    apply same_letters_dash in Hd as ->.
    inversion H6 as [| | |? ? ? ? ? z m6 ? Hz Hz1 Hz2 H7]; subst; clear H6. specialize (Hz2 _ eq_refl).
    inversion H7 as [|? ? ? ? Hb' H8| |]; subst; clear H7. inversion H8; subst; clear H8.
    rewrite app_nil_r in *. simpl in Hb'.
    rewrite last_of_words in Hb' by (first [by eapply Forall_impl; [exact Hz|intros c; apply alnum_word]|by intros ->; simpl in Hz1; lia]).
    assert (Forall (λ c, letter_char c = true) p' ∧ p' ≠ []) as [Hl Hne].
    { split; [apply (same_letters_letters _ _ Hp); by repeat constructor|]. intros ->. by apply same_letters_length in Hp. }
    rewrite <- !(assoc_L (++)), head_letter in Hb by done.
    split; [by destruct (at_word prev)|]. split; [|by destruct (at_word (head b))].
    exists p', x, y, z. rewrite <- !(assoc_L (++)). split; [done|]. split; [done|]. split_and!; try done; lia.
  - intros (Hprev&(p&x&y&z&->&Hp&[Hx Hx4]&[Hy Hy4]&Hz&Hz4)&Hb).
    assert (Forall (λ c, letter_char c = true) p ∧ p ≠ []) as [Hl Hne].
    { split; [apply (same_letters_letters _ _ Hp); by repeat constructor|]. intros ->. by apply same_letters_length in Hp. }
    constructor; [rewrite <- !(assoc_L (++)), head_letter, Hprev by done; done|].
    assert (same_letters (p ++ ["-"%char]) (chars "GHSA-")) as Hp' by (unfold same_letters in *; by rewrite fmap_app, Hp).
    assert (∀ n : list ascii, length n = 4%nat → n ≠ []) as H4 by (by intros [] ?).
    change ("-"%char :: x ++ "-"%char :: y ++ "-"%char :: z) with (["-"%char] ++ x ++ ["-"%char] ++ y ++ ["-"%char] ++ z).
    rewrite (assoc_L (++) p). eapply accepts_word; [left|exact Hp'|].
    constructor; [done|lia|intros k [= <-]; lia|]. eapply accepts_word; [left|done|].
    constructor; [done|lia|intros k [= <-]; lia|]. eapply accepts_word; [left|done|]. rewrite <- (app_nil_r z).
    constructor; [done|lia|intros k [= <-]; lia|]. constructor; [|constructor]. simpl.
    rewrite last_of_words, Hb by (first [by apply H4|by eapply Forall_impl; [exact Hz|intros c; apply alnum_word]]). done.
Qed.

Lemma last_of_app prev a b : b ≠ [] → last_of prev (a ++ b) = last b.
Proof. intros Hb. unfold last_of. rewrite last_app. destruct (last b) eqn:E; [done|]. by apply last_None in E. Qed.
Lemma last_of_ne prev a : a ≠ [] → last_of prev a = last a.
Proof. intros Ha. unfold last_of. destruct (last a) eqn:E; [done|]. by apply last_None in E. Qed.

Lemma accepts_ref prev w b : accepts RESOURCE_REF prev w b ↔ ref_at prev w b.
Proof.
  split.
  - intros H. inversion H as [|? ? ? ? Hb H1| |]; subst; clear H.
    inversion H1 as [| |? ? ? k ? m1 ? Hin Hk H2|]; subst; clear H1. apply elem_of_kinds in Hin as (kind&->&Hin).
    inversion H2 as [| |? ? ? d ? m2 ? Hd Hd' H3|]; subst; clear H2. apply list_elem_of_singleton in Hd as ->.
    assert (d = [":"%char]) as ->.
    { unfold same_letters in Hd'. destruct d as [|c [|? ?]]; [done| |done]. injection Hd' as Hc. by rewrite (lower_colon c Hc). }
    inversion H3 as [| | |? ? ? ? ? r m3 ? Hr Hr1 _ H4]; subst; clear H3.
    inversion H4 as [|? ? ? ? Hb' H5| |]; subst; clear H4. inversion H5; subst; clear H5. rewrite app_nil_r in *. simpl in Hb'.
    destruct (kind_letters kind k Hin Hk) as [Hl Hne]. rewrite <- !(assoc_L (++)), head_letter in Hb by done.
    assert (r ≠ []) as Hrne by (intros ->; simpl in Hr1; lia).
    split; [by destruct (at_word prev)|]. split; [exists kind, k, r; by split_and!|].
    rewrite last_of_ne in Hb' by done.
    rewrite last_app. simpl. rewrite last_cons. destruct (last r) eqn:E; [done|]. by apply last_None in E.
  - intros (Hprev&(kind&k&r&->&Hin&Hk&Hr&Hne)&Hb). destruct (kind_letters kind k Hin Hk) as [Hl Hkne].
    constructor; [rewrite <- !(assoc_L (++)), head_letter, Hprev by done; done|].
    eapply accepts_word; [apply list_elem_of_fmap_2, Hin|exact Hk|]. change (":"%char :: r) with ([":"%char] ++ r).
    eapply accepts_word; [left|done|]. rewrite <- (app_nil_r r). constructor; [done|destruct r; [done|simpl; lia]|done|].
    constructor; [|constructor]. simpl. rewrite last_of_ne by done. rewrite last_app in Hb. simpl in Hb. rewrite last_cons in Hb.
    destruct (last r) eqn:E; [done|]. by apply last_None in E.
Qed.

Lemma colon_split k k' r r' : Forall (λ c, letter_char c = true) k → Forall (λ c, letter_char c = true) k' →
  k ++ ":"%char :: r = k' ++ ":"%char :: r' → k = k' ∧ r = r'.
Proof.
  intros Hk. revert k'. induction Hk as [|c k Hc Hk IH]; intros k' Hk' E; destruct Hk' as [|c' k' Hc' Hk']; simpl in E.
  - by injection E as ->.
  - injection E as <- _. done.
  - injection E as -> _. done.
  - injection E as -> E. by destruct (IH k' Hk' E) as [-> ->].
Qed.

(** A match of the reference expression is the longest reference at its place. *)
Lemma match_ref_longest prev l w w' b' :
  match_items RESOURCE_REF prev l = Some w → l = w' ++ b' → ref_at prev w' b' → (length w' ≤ length w)%nat.
Proof.
  intros H El (_&(kind'&k'&r'&->&Hin'&Hk'&Hr'&Hne')&Hb'). unfold RESOURCE_REF in H.
  cbn [match_items] in H. destruct (xorb _ _); [|done].
  apply first_some_Some in H as (k0&Hin&H). destruct (decide _) as [Hk|]; [|done].
  apply elem_of_kinds in Hin as (kind&->&Hin). apply fmap_Some in H as (m1&H&->). apply first_some_Some in H as (d&Hd&H).
  apply list_elem_of_singleton in Hd as ->. destruct (decide (same_letters _ (chars ":"))) as [Hd|]; [|done].
  apply fmap_Some in H as (m2&H&->).
  destruct (kind_letters _ _ Hin Hk) as [Hl _]. destruct (kind_letters _ _ Hin' Hk') as [Hl' _].
  set (n := length (chars kind)) in *. set (k := take n l) in *. set (l1 := drop n l) in *.
  change (length (chars ":")) with 1%nat in *. destruct l1 as [|c l2] eqn:E1; [done|]. simpl take in *. simpl drop in *.
  assert (c = ":"%char) as -> by (unfold same_letters in Hd; injection Hd as Hc; by apply lower_colon).
  assert (l = k ++ ":"%char :: l2) as El2 by (unfold k; rewrite <- E1; unfold l1; by rewrite take_drop).
  rewrite El2, <- (assoc_L (++)) in El. destruct (colon_split _ _ _ _ Hl Hl' El) as [-> ->].
  rewrite !length_app. simpl. rewrite last_of_ne in H by done.
  assert (length r' ≤ length m2)%nat; [|lia].
  apply (repeat_longest _ _ _ _ _ b' H eq_refl Hr' Hne'). rewrite last_of_ne by done.
  rewrite last_app in Hb'. simpl in Hb'. rewrite last_cons in Hb'. destruct (last r') eqn:E; [done|]. by apply last_None in E.
Qed.

Lemma scan_cve text : scan (word_at cve_text) None text (findall CVE 0 None text).
Proof.
  apply findall_scan.
  - intros prev w b (_&(c&t&->&_)%cve_text_head&_). done.
  - intros prev l w (b&->&Ha)%match_sound. exists b. split; [done|]. split; [by apply accepts_CVE|].
    intros w' b' E Ha'. apply accepts_CVE in Ha'. by rewrite (cve_unique _ _ _ _ _ Ha Ha' E).
  - intros prev w b Ha. by apply match_complete, accepts_CVE.
Qed.
Lemma ghsa_length w : ghsa_text w → length w = 19%nat.
Proof. intros (p&x&y&z&->&Hp%same_letters_length&[_ Hx]&[_ Hy]&_&Hz). simpl in Hp. rewrite !length_app; simpl. rewrite !length_app; simpl. rewrite length_app. simpl. lia. Qed.
Lemma scan_ghsa text : scan (word_at ghsa_text) None text (findall GHSA 0 None text).
Proof.
  apply findall_scan.
  - intros prev w b (_&Hw%ghsa_length&_) ->. done.
  - intros prev l w (b&->&Ha)%match_sound. apply accepts_ghsa in Ha. exists b. split; [done|]. split; [done|].
    intros w' b' E (_&Hw'%ghsa_length&_). destruct Ha as (_&Hw%ghsa_length&_). lia.
  - intros prev w b Ha. by apply match_complete, accepts_ghsa.
Qed.
Lemma scan_refs text : scan ref_at None text (findall RESOURCE_REF 0 None text).
Proof.
  apply findall_scan.
  - intros prev w b (_&(?&k&r&->&_)&_) E. by apply app_nil in E as [_ ?].
  - intros prev l w H. pose proof H as (b&->&Ha)%match_sound. exists b. split; [done|]. split; [by apply accepts_ref|].
    intros w' b' E Ha'. by eapply match_ref_longest.
  - intros prev w b Ha. by apply match_complete, accepts_ref.
Qed.

(** The first character of an identifier or a reference is not blank. *)
Lemma letter_not_space c : letter_char c = true →
  match upper_char c with d :: _ => negb (py_space d) | [] => false end = true ∧ py_space c = false.
Proof. destruct c as [[] [] [] [] [] [] [] []]; vm_compute; first [discriminate|by split]. Qed.

Lemma upper_not_blank c l : letter_char c = true → py_blank (upper (of_chars (c :: l))) = false.
Proof.
  intros [Hc _]%letter_not_space. unfold upper. rewrite chars_of_chars. cbn [mjoin list_join fmap list_fmap].
  csimpl. destruct (upper_char c) as [|d l']; [done|]. apply negb_true_iff in Hc. by apply py_blank_cons.
Qed.

Lemma scan_elem At prev l ws w : scan At prev l ws → w ∈ ws → ∃ p b, At p w b.
Proof. induction 1 as [|prev s w' b ws Hat _ _ _ IH]; [by intros ?%elem_of_nil|]. intros [->|H]%elem_of_cons; [by eexists _, _|auto]. Qed.

Lemma ref_not_blank w : ref_text w → py_blank (of_chars w) = false.
Proof.
  intros (kind&k&r&->&Hin&Hk&_). destruct (kind_letters _ _ Hin Hk) as [Hl Hne]. destruct Hl as [|c k [_ Hc]%letter_not_space]; [done|].
  by apply py_blank_cons.
Qed.
Lemma upper_ghsa_not_blank w : ghsa_text w → py_blank (upper (of_chars w)) = false.
Proof.
  intros (p&x&y&z&->&Hp&_).
  assert (Forall (λ c, letter_char c = true) p) as Hl by (apply (same_letters_letters _ _ Hp); by repeat constructor).
  destruct Hl as [|c p Hc]; [by apply same_letters_length in Hp|]. by apply upper_not_blank.
Qed.

(** The reference is to a case, an object or an incident, in any case. *)
Definition names_target (w : list ascii) : Prop :=
  ∃ kind k r, kind ∈ ["case"%string; "object"%string; "incident"%string] ∧ w = k ++ ":"%char :: r ∧ same_letters k (chars kind).

Lemma chars_append a b : chars (a +:+ b) = chars a ++ chars b.
Proof. induction a as [|c a IH]; [done|]. change (chars (String c a +:+ b)) with (c :: chars (a +:+ b)). by rewrite IH. Qed.

Lemma names_target_spec w : is_target_ref (of_chars w) = true ↔ names_target w.
Proof.
  assert (Forall (λ kind, lower_char <$> chars kind = chars kind) ["case"%string; "object"%string; "incident"%string]) as Hlow
    by by repeat constructor. rewrite Forall_forall in Hlow.
  assert (target_prefixes = (λ kind, kind +:+ ":") <$> ["case"%string; "object"%string; "incident"%string]) as Hp by done.
  unfold is_target_ref. rewrite existsb_exists, Hp. unfold lower. rewrite chars_of_chars. split.
  - intros (p&Hin&H). apply list_elem_of_In, list_elem_of_fmap in Hin as (kind&->&Hin). unfold startswith in H.
    destruct (strip_prefix _ _) as [rest|] eqn:E; [|done]. apply strip_prefix_Some in E. apply (f_equal chars) in E.
    rewrite chars_of_chars, !chars_append in E. apply fmap_app_inv in E as (k1&r&E1&_&->). symmetry in E1.
    rewrite <- (Hlow kind Hin) in E1. change (chars ":") with (lower_char <$> [":"%char]) in E1. rewrite <- fmap_app in E1.
    apply same_letters_split in E1 as (k&d&->&Hk&Hd). exists kind, k, r. split; [done|]. split; [|done].
    unfold same_letters in Hd. destruct d as [|c [|? ?]]; [done| |done]. injection Hd as Hc. rewrite (lower_colon c Hc).
    by rewrite <- (assoc_L (++)).
  - intros (kind&k&r&Hin&->&Hk). exists (kind +:+ ":"). split; [apply list_elem_of_In; by apply (list_elem_of_fmap_2 (λ kind, kind +:+ ":"))|].
    unfold startswith. rewrite fmap_app. unfold same_letters in Hk. rewrite Hk, (Hlow kind Hin).
    assert (of_chars (chars kind ++ (lower_char <$> ":"%char :: r)) = (kind +:+ ":") +:+ of_chars (lower_char <$> r)) as ->.
    { rewrite <- (of_chars_chars ((kind +:+ ":") +:+ _)). f_equal. rewrite !chars_append, chars_of_chars, <- (assoc_L (++)). done. }
    by rewrite strip_prefix_app.
Qed.

(** C21. What the parser of requests finds.  The text is read from the left, each time up to the longest text that stands at
    the first place where one stands, for CVE identifiers, for GHSA identifiers and for resource references; the parsed
    identifiers are exactly the identifiers so found, in capitals, and the references as they stand in the text, none
    twice; a CVE identifier that stands in the text as a word is always found.  The candidate targets are exactly the
    explicit ones that are not blank and the references to cases, objects and incidents among those found.  Blank
    and repeated actions and context references are dropped; nothing else of the request is changed. *)
Theorem parse_spec raw trigger kind targets temporal output actions context_refs intent :
  parse raw trigger kind targets temporal output actions context_refs = Ok intent →
  let text := chars (default ""%string raw) in
  (∃ cves ghsas refs, scan (word_at cve_text) None text cves ∧ scan (word_at ghsa_text) None text ghsas ∧ scan ref_at None text refs ∧
    (∀ i, i ∈ parsed_identifiers intent ↔
       (∃ w, w ∈ cves ∧ i = upper (of_chars w)) ∨ (∃ w, w ∈ ghsas ∧ i = upper (of_chars w)) ∨ ∃ w, w ∈ refs ∧ i = of_chars w) ∧
    (∀ t, t ∈ candidate_targets intent ↔
       t ∈ targets ∧ py_blank t = false ∨ ∃ w, w ∈ refs ∧ names_target w ∧ t = of_chars w)) ∧
  (∀ a w b, text = a ++ w ++ b → word_at cve_text (last a) w b → upper (of_chars w) ∈ parsed_identifiers intent) ∧
  (∀ x, x ∈ requested_actions intent ↔ x ∈ actions ∧ py_blank x = false) ∧
  (∀ x, x ∈ ti_context_refs intent ↔ x ∈ context_refs ∧ py_blank x = false) ∧
  NoDup (parsed_identifiers intent) ∧ NoDup (candidate_targets intent) ∧
  raw_request intent = raw ∧ trigger_ref intent = trigger ∧ candidate_task_kind intent = kind ∧
  temporal_expression intent = temporal ∧ requested_output intent = output ∧
  (falsy raw = false ∨ falsy trigger = false).
Proof.
  intros H. cbv zeta. unfold parse, require_request_or_trigger in H. cbn in H.
  destruct (falsy raw && falsy trigger) eqn:Hf; [done|]. injection H as <-. cbn [parsed_identifiers candidate_targets
    raw_request trigger_ref candidate_task_kind temporal_expression requested_output requested_actions ti_context_refs].
  set (text := chars (default ""%string raw)).
  pose proof (scan_cve text) as Hc. pose proof (scan_ghsa text) as Hg. pose proof (scan_refs text) as Hr.
  split; [|split; [|split; [intros x; apply elem_of_unique|split; [intros x; apply elem_of_unique|split; [apply from_keys_NoDup|split; [apply from_keys_NoDup|]]]]]].
  - exists (findall CVE 0 None text), (findall GHSA 0 None text), (findall RESOURCE_REF 0 None text).
    split; [done|]. split; [done|]. split; [done|]. unfold findall_text. fold text. split.
    + intros i. rewrite elem_of_unique, !elem_of_app, <- !list_fmap_compose, !list_elem_of_fmap. split.
      * intros [[(w&->&?)|[(w&->&?)|(w&->&?)]] _]; [left|right; left|right; right]; by exists w.
      * intros [(w&Hw&->)|[(w&Hw&->)|(w&Hw&->)]].
        -- destruct (scan_elem _ _ _ _ _ Hc Hw) as (?&?&_&Ht&_). split; [left; by exists w|by apply upper_cve_not_blank].
        -- destruct (scan_elem _ _ _ _ _ Hg Hw) as (?&?&_&Ht&_). split; [right; left; by exists w|by apply upper_ghsa_not_blank].
        -- destruct (scan_elem _ _ _ _ _ Hr Hw) as (?&?&_&Ht&_). split; [right; right; by exists w|by apply ref_not_blank].
    + intros t. rewrite elem_of_unique, elem_of_app, list_elem_of_filter, list_elem_of_fmap. split.
      * intros [[?|[Ht (w&->&?)]] ?]; [by left|right]. exists w. by rewrite <- names_target_spec.
      * intros [[? ?]|(w&Hw&Ht&->)]; [split; [by left|done]|]. apply names_target_spec in Ht.
        destruct (scan_elem _ _ _ _ _ Hr Hw) as (?&?&_&Hs&_). split; [right; split; [done|by exists w]|by apply ref_not_blank].
  - intros a w b E Hat. apply elem_of_unique. split; [|by apply upper_cve_not_blank, Hat]. apply elem_of_app; left.
    apply list_elem_of_fmap_2. unfold findall_text. apply list_elem_of_fmap_2. apply findall_cves. by exists a, b.
  - apply andb_false_iff in Hf. by repeat split.
Qed.

(** A request that names an identifier in small letters, one that is too long, a case and a reference at the end of a
    sentence. *)
Definition sample_request : string :=
  "Is cve-2024-12345 (not CVE-2024-12345678) fixed in case:C1? See GHSA-abcd-1234-zzzz, repo:a/b.".
Example sample_intent : parse (Some sample_request) None (Some LOOKUP) ["object:o1"%string; " "%string] None [] [] [] =
  Ok (mkTaskIntent (Some sample_request) None
        ["CVE-2024-12345"%string; "GHSA-ABCD-1234-ZZZZ"%string; "case:C1"%string; "repo:a/b"%string]
        (Some LOOKUP) ["object:o1"%string; "case:C1"%string] None [] [] []).
Proof. vm_compute. reflexivity. Qed.

Lemma parse_spec_witness : ∃ intent,
  parse (Some sample_request) None (Some LOOKUP) ["object:o1"%string; " "%string] None [] [] [] = Ok intent ∧
  "CVE-2024-12345"%string ∈ parsed_identifiers intent.
Proof.
  destruct (parse (Some sample_request) None (Some LOOKUP) ["object:o1"%string; " "%string] None [] [] []) as [intent|e] eqn:E;
    [|rewrite sample_intent in E; discriminate E].
  exists intent. split; [reflexivity|].
  apply (parse_spec _ _ _ _ _ _ _ _ _ E) with (a := chars "Is ") (w := chars "cve-2024-12345")
    (b := chars " (not CVE-2024-12345678) fixed in case:C1? See GHSA-abcd-1234-zzzz, repo:a/b."); [vm_compute; reflexivity|].
  split; [vm_compute; reflexivity|]. split; [|vm_compute; reflexivity].
  exists (chars "cve"), (chars "2024"), (chars "12345"). repeat split; try (vm_compute; reflexivity); try (vm_compute; lia);
    repeat constructor.
Defined.
