(* ===== verification/Admission.v ===== *)
(** * Admission: packages/task_runtime/admission (service.py, question.py), the contracts of
    packages/enrichment/runtime (admission.py, tasks.py) and packages/investigation/runtime (admission.py, tasks.py), and
    apps/task_admission.py

    How a request becomes a contract: [admit_request] looks up the compiler of the kind, compiles the intent into a contract,
    checks that the compiler kept what the request fixed, and asks the authorizer.  The class [CompilesContracts] is what
    the service expects of a compiler; the three compilers of the repository are its instances.  [build_...] are the
    builders of contracts, which roles read back with [model_validate] ([desired_state_of] of EnrichmentRole,
    [investigation_desired_state_of] here).  [ensure_background_vulnerability_enrichment_run] puts them together: a run of the
    enrichment role for a processing run of the knowledge base, created once.

    [sha256_hex] and [float_repr] are the digest and the digits of a float; [hexdigest] is the digest of a policy decision
    as in Policy. *)

From S2P Require Import Prelude.
From S2P Require Import Effects.
From S2P Require Import Policy.
From S2P Require Import TaskContracts.
From S2P Require Import TaskStore.
From S2P Require Import PyNumbers.
From S2P Require Import Vocabulary.
From S2P Require Import Knowledge.
From S2P Require Import EnrichmentState.
From S2P Require Import EnrichmentRole.
From S2P Require Import Intent.
From Stdlib Require Import Ascii.

(** ** Dumps: [model_dump(mode="json")] *)

Definition EffectCeiling_value (e : EffectCeiling) : string :=
  match e with READ_ONLY => "read_only" | INTERNAL_STATE => "internal_state" | EXTERNAL_SIDE_EFFECT => "external_side_effect" end.
Definition CancellationSemantics_value (c : CancellationSemantics) : string :=
  match c with
  | CANCELLABLE => "cancellable" | TERMINAL_ONLY => "terminal_only" | REQUIRES_RECONCILIATION => "requires_reconciliation"
  end.
Definition Authorization_value (a : Authorization) : string :=
  match a with PERMIT => "permit" | DENY => "deny" | INDETERMINATE => "indeterminate" end.

Definition dump_intent (i : TaskIntent) : json := JObj [
  ("raw_request"%string, json_option JStr (raw_request i));
  ("trigger_ref"%string, json_option JStr (trigger_ref i));
  ("parsed_identifiers"%string, json_strings (parsed_identifiers i));
  ("candidate_task_kind"%string, json_option (λ k, JStr (TaskKind_value k)) (candidate_task_kind i));
  ("candidate_targets"%string, json_strings (candidate_targets i));
  ("temporal_expression"%string, json_option JStr (temporal_expression i));
  ("requested_output"%string, JObj (requested_output i));
  ("requested_actions"%string, json_strings (requested_actions i));
  ("context_refs"%string, json_strings (ti_context_refs i))].

Definition dump_delegation (d : DelegationCeiling) : json := JObj [
  ("allowed"%string, JBool (dc_allowed d));
  ("max_depth"%string, JInt (max_depth d));
  ("allowed_task_kinds"%string, json_strings (TaskKind_value <$> allowed_task_kinds d));
  ("child_effect_ceiling"%string, JStr (EffectCeiling_value (child_effect_ceiling d)))].

Definition dump_contract (c : TaskContract) : json := JObj [
  ("task_contract_id"%string, JStr (tc_id c));
  ("contract_revision"%string, JInt (contract_revision c));
  ("principal"%string, JStr (tc_principal c));
  ("on_behalf_of"%string, json_option JStr (on_behalf_of c));
  ("task_kind"%string, JStr (TaskKind_value (task_kind c)));
  ("target_resources"%string, json_strings (target_resources c));
  ("desired_state"%string, JObj (desired_state c));
  ("evidence_contract"%string, JObj (evidence_contract c));
  ("output_contract"%string, JObj (output_contract c));
  ("temporal_contract"%string, JObj (temporal_contract c));
  ("effect_ceiling"%string, JStr (EffectCeiling_value (effect_ceiling c)));
  ("delegation_ceiling"%string, dump_delegation (delegation_ceiling c));
  ("completion_predicate"%string, JObj (completion_predicate c));
  ("cancellation_semantics"%string, JStr (CancellationSemantics_value (cancellation_semantics c)));
  ("policy_revision"%string, JStr (tc_policy_revision c))].

(** ** Fields of a JSON object, as [model_validate] reads them *)

Definition text_or_none (k : string) (d : dict) : result (option string) :=
  match dict_get k d with
  | None | Some JNull => Ok None
  | Some (JStr s) => Ok (Some s)
  | Some _ => Err (ValueError "validation error")
  end.
Definition string_of_json (v : json) : result string :=
  match v with JStr s => Ok s | _ => Err (ValueError "validation error") end.
Definition strings_field (k : string) (default : option (list string)) (d : dict) : result (list string) :=
  match dict_get k d, default with
  | Some (JArr items), _ => try_map string_of_json items
  | None, Some l => Ok l
  | _, _ => Err (ValueError "validation error")
  end.

(** A [bool] field: pydantic takes booleans, zero and one, and their usual names. *)
Definition true_names : list string := ["1"; "on"; "t"; "true"; "y"; "yes"]%string.
Definition false_names : list string := ["0"; "off"; "f"; "false"; "n"; "no"]%string.
Definition float_is_one (m e : Z) : bool := m * 2 ^ Z.max e 0 =? 2 ^ Z.max (- e) 0.
Definition bool_of_json (v : json) : result bool :=
  match v with
  | JBool b => Ok b
  | JInt 0 => Ok false
  | JInt 1 => Ok true
  | JFloat (Finite 0 _) => Ok false
  | JFloat (Finite m e) => if float_is_one m e then Ok true else Err (ValueError "validation error")
  | JStr s => if bool_decide (lower s ∈ true_names) then Ok true
              else if bool_decide (lower s ∈ false_names) then Ok false else Err (ValueError "validation error")
  | _ => Err (ValueError "validation error")
  end.
Definition bool_field (k : string) (default : bool) (d : dict) : result bool :=
  match dict_get k d with None => Ok default | Some v => bool_of_json v end.

(** ** enrichment/runtime/tasks.py *)

Definition dump_desired (d : EnrichmentTaskDesiredState) : dict := [
  ("target_object_id"%string, JStr (ds_target_object_id d));
  ("cve_id"%string, JStr (ds_cve_id d));
  ("required_dimensions"%string, json_strings (EnrichmentDimension_value <$> required_dimensions d));
  ("refresh_dimensions"%string, json_strings (EnrichmentDimension_value <$> refresh_dimensions d));
  ("terminal_statuses"%string, json_strings (status_value <$> terminal_statuses d))].

Definition default_terminal : list EnrichmentStatus := [RESOLVED; CONFLICT; UNKNOWN].

(** [sorted(set(l), key=lambda item: item.value)] *)
Definition sorted_members (l : list EnrichmentDimension) : list EnrichmentDimension :=
  sorted_dimensions (λ d, bool_decide (d ∈ l)).

Definition enrichment_desired (target_object_id cve_id : string) (required refresh : list EnrichmentDimension)
  : EnrichmentTaskDesiredState :=
  mkEnrichmentTaskDesiredState target_object_id (upper cve_id) (sorted_members required) (sorted_members refresh) default_terminal.

Definition build_vulnerability_enrichment_contract (task_contract_id principal target_object_id cve_id : string)
  (required refresh : list EnrichmentDimension) (policy_revision : string) (contract_revision : Z) (on_behalf_of : option string)
  : result TaskContract :=
  let dimension_values := json_strings (EnrichmentDimension_value <$> sorted_members required) in
  desired ← validate_contract_shape (enrichment_desired target_object_id cve_id required refresh);
  validate_execution_contract
    (mkTaskContract task_contract_id contract_revision principal on_behalf_of ENRICHMENT
       ["object:" +:+ target_object_id; "cve:" +:+ upper cve_id]
       (dump_desired desired)
       [("vocabulary_revision"%string, JStr VOCABULARY_REVISION); ("fact_authority"%string, JStr "m1_m3_evidence_world")]
       [("result_type"%string, JStr "EnrichmentTaskResult"); ("dimensions"%string, dimension_values)]
       [("scope"%string, JStr "current")]
       INTERNAL_STATE default_DelegationCeiling
       [("type"%string, JStr "enrichment_dimensions_terminal"); ("required_dimensions"%string, dimension_values);
        ("terminal_statuses"%string, json_strings (status_value <$> default_terminal))]
       CANCELLABLE policy_revision).

Definition default_background_vulnerability_dimensions : list EnrichmentDimension :=
  sorted_members (mjoin (produces <$> OPERATOR_SPECS)).

(** ** investigation/runtime/tasks.py *)

Record InvestigationTaskDesiredState := mkInvestigationTaskDesiredState {
  it_case_id : string;
  it_required_need_ids : list string;
  it_allow_wait : bool
}.

(** The [min_length=1] of [required_need_ids] and [validate_identity]. *)
Definition validate_identity (self : InvestigationTaskDesiredState) : result InvestigationTaskDesiredState :=
  _ ← raise_when (bool_decide (it_required_need_ids self = [])) (ValueError "validation error");
  _ ← raise_when (py_blank (it_case_id self)) (ValueError "Investigation task requires case_id");
  _ ← raise_when (negb (bool_decide (NoDup (it_required_need_ids self)))) (ValueError "required_need_ids must be unique");
  Ok self.

Definition dump_investigation_desired (d : InvestigationTaskDesiredState) : dict := [
  ("case_id"%string, JStr (it_case_id d));
  ("required_need_ids"%string, json_strings (it_required_need_ids d));
  ("allow_wait"%string, JBool (it_allow_wait d))].

(** [_desired_state] of investigation/runtime/role.py. *)
Definition investigation_desired_state_of (contract : TaskContract) : result InvestigationTaskDesiredState :=
  let d := desired_state contract in
  case_id ← text_field "case_id" d;
  needs ← strings_field "required_need_ids" None d;
  allow_wait ← bool_field "allow_wait" true d;
  validate_identity (mkInvestigationTaskDesiredState case_id needs allow_wait).

Definition investigation_kinds : list TaskKind :=
  [VERIFY_VERSION_FIX; RESOLVE_CONFLICT; INVESTIGATE_RELATION; INVESTIGATE_INCIDENT; WATCH_INCIDENT;
   ASSESS_NORMATIVE_APPLICABILITY; OBSERVE_LIVE_ASSET].

Definition build_investigation_contract (task_contract_id principal : string) (kind : TaskKind) (case_id : string)
  (target_object_ids required_need_ids : list string) (policy_revision : string) (contract_revision : Z)
  (on_behalf_of : option string) (allow_wait : bool) : result TaskContract :=
  _ ← raise_when (bool_decide (kind ∉ investigation_kinds)) (ValueError "InvestigationRole does not accept task kind");
  desired ← validate_identity (mkInvestigationTaskDesiredState case_id required_need_ids allow_wait);
  validate_execution_contract
    (mkTaskContract task_contract_id contract_revision principal on_behalf_of kind
       (("case:" +:+ case_id) :: (String.append "object:" <$> target_object_ids))
       (dump_investigation_desired desired)
       [("authority"%string, JStr "m1_m3_evidence_world")]
       [("result_type"%string, JStr "InvestigationTaskResult")]
       [("scope"%string, JStr "current")]
       INTERNAL_STATE (mkDelegationCeiling true 1 [ENRICHMENT] INTERNAL_STATE)
       [("type"%string, JStr "evidence_needs_resolved"); ("required_need_ids"%string, json_strings required_need_ids)]
       CANCELLABLE policy_revision).

(** ** question.py *)

Definition question_kinds : list TaskKind := [LOOKUP; RETRIEVE].

Definition build_question_contract (task_contract_id principal : string) (kind : TaskKind) (question : string)
  (target_object_ids : list string) (policy_revision : string) (contract_revision : Z) (on_behalf_of : option string)
  : result TaskContract :=
  validate_execution_contract
    (mkTaskContract task_contract_id contract_revision principal on_behalf_of kind
       (String.append "object:" <$> target_object_ids)
       [("question"%string, JStr question); ("target_object_ids"%string, json_strings target_object_ids)]
       [("authority"%string, JStr "m1_m3_evidence_world"); ("access"%string, JStr "read_only")]
       [("result_type"%string, JStr "DecisionResult|InvestigationView")]
       [("scope"%string, JStr "current")]
       READ_ONLY default_DelegationCeiling
       [("type"%string, JStr "decision_or_investigation_escalation")]
       CANCELLABLE policy_revision).

(** ** service.py *)

Record TaskAdmissionAuthorization := mkTaskAdmissionAuthorization {
  ta_allowed : bool;
  ta_authorization : string;
  ta_policy_decision_ref : option string;
  ta_denial_reason : option string;
  ta_fulfilled_obligations : list string
}.
(** [validate_authorization] *)
Definition validate_authorization (self : TaskAdmissionAuthorization) : result TaskAdmissionAuthorization :=
  _ ← raise_when (ta_allowed self && negb (bool_decide (ta_denial_reason self = None)))
        (ValueError "permitted task admission cannot carry denial_reason");
  _ ← raise_when (negb (ta_allowed self) && falsy (ta_denial_reason self))
        (ValueError "denied task admission requires denial_reason");
  Ok self.

Record TaskAdmissionRequest := mkTaskAdmissionRequest {
  rq_intent : TaskIntent;
  rq_principal : string;
  rq_policy_revision : string;
  rq_on_behalf_of : option string;
  rq_task_contract_id : option string;
  rq_contract_revision : Z;
  binding_context : dict
}.
(** The [ge=1] of [contract_revision], the nested [TaskIntent] and [TaskAdmissionRequest.validate_request]. *)
Definition validate_admission_request (self : TaskAdmissionRequest) : result TaskAdmissionRequest :=
  _ ← require_request_or_trigger (rq_intent self);
  _ ← raise_when (rq_contract_revision self <? 1) (ValueError "contract_revision must be greater than or equal to 1");
  _ ← raise_when (py_blank (rq_principal self) || py_blank (rq_policy_revision self))
        (ValueError "task admission principal/policy_revision cannot be empty");
  Ok self.

Record TaskAdmissionResult := mkTaskAdmissionResult {
  tr_intent_ref : string;
  tr_contract : TaskContract;
  tr_compiler_revision : string;
  tr_policy_decision_ref : option string;
  tr_policy_authorization : string;
  tr_replay_key : string
}.

Record TaskContractCompiler := mkTaskContractCompiler {
  co_task_kind : TaskKind;
  compiler_revision : string;
  (** intent, task_contract_id, contract_revision, principal, on_behalf_of, policy_revision, binding_context *)
  compile : TaskIntent → string → Z → string → option string → string → dict → result TaskContract
}.

(** [authorize(intent_ref, intent, candidate_contract)] *)
Definition TaskAdmissionAuthorizer : Type := string → TaskIntent → TaskContract → result TaskAdmissionAuthorization.

Record TaskContractService := mkTaskContractService {
  authorizer : TaskAdmissionAuthorizer;
  compilers : list TaskContractCompiler
}.
(** [TaskContractService.__init__] *)
Definition make_TaskContractService (compilers : list TaskContractCompiler) (authorizer : TaskAdmissionAuthorizer)
  : result TaskContractService :=
  _ ← raise_when (negb (bool_decide (NoDup (co_task_kind <$> compilers)))) (ValueError "duplicate TaskContract compiler");
  Ok (mkTaskContractService authorizer compilers).
(** [self._compilers.get(kind)] *)
Definition get_compiler (self : TaskContractService) (kind : TaskKind) : option TaskContractCompiler :=
  find (λ c, bool_decide (co_task_kind c = kind)) (compilers self).

(** [_validate_compiled_contract] *)
Definition validate_compiled_contract (request : TaskAdmissionRequest) (kind : TaskKind) (contract : TaskContract)
  (contract_id : string) : result unit :=
  _ ← raise_when (bool_decide (tc_id contract ≠ contract_id)) (ValueError "TaskContract compiler changed admission contract identity");
  _ ← raise_when (negb (contract_revision contract =? rq_contract_revision request))
        (ValueError "TaskContract compiler changed requested contract revision");
  _ ← raise_when (bool_decide (tc_principal contract ≠ rq_principal request) || bool_decide (on_behalf_of contract ≠ rq_on_behalf_of request))
        (ValueError "TaskContract compiler changed admission principal");
  _ ← raise_when (bool_decide (tc_policy_revision contract ≠ rq_policy_revision request))
        (ValueError "TaskContract compiler changed admission policy revision");
  raise_when (bool_decide (task_kind contract ≠ kind)) (ValueError "TaskContract compiler changed admitted task kind").

Section service.
Context (sha256_hex : string → string) (float_repr : Z → Z → string) (hexdigest : PolicyRequest → PolicyDecision → string).

(** [_digest], [_intent_ref], [_contract_id] *)
Definition digest_of (payload : json) : string := sha256_hex (json_text float_repr payload).
Definition intent_ref_of (intent : TaskIntent) : string := "task-intent:" +:+ str_take 32 (digest_of (dump_intent intent)).
Definition contract_id_of (request : TaskAdmissionRequest) (intent_ref compiler_revision : string) : string :=
  "task-contract:" +:+ str_take 32 (digest_of (JObj [
    ("intent_ref"%string, JStr intent_ref); ("principal"%string, JStr (rq_principal request));
    ("on_behalf_of"%string, json_option JStr (rq_on_behalf_of request));
    ("policy_revision"%string, JStr (rq_policy_revision request));
    ("contract_revision"%string, JInt (rq_contract_revision request));
    ("compiler_revision"%string, JStr compiler_revision)])).

(** [request.task_contract_id or _contract_id(...)] *)
Definition admission_contract_id (request : TaskAdmissionRequest) (compiler : TaskContractCompiler) : string :=
  if falsy (rq_task_contract_id request)
  then contract_id_of request (intent_ref_of (rq_intent request)) (compiler_revision compiler)
  else default ""%string (rq_task_contract_id request).
Definition admission_result (request : TaskAdmissionRequest) (compiler : TaskContractCompiler) (contract : TaskContract)
  (authorization : TaskAdmissionAuthorization) : TaskAdmissionResult :=
  let intent_ref := intent_ref_of (rq_intent request) in
  let replay_key := digest_of (JObj [
    ("intent_ref"%string, JStr intent_ref); ("contract"%string, dump_contract contract);
    ("compiler_revision"%string, JStr (compiler_revision compiler));
    ("policy_decision_ref"%string, json_option JStr (ta_policy_decision_ref authorization))]) in
  mkTaskAdmissionResult intent_ref contract (compiler_revision compiler) (ta_policy_decision_ref authorization)
    (ta_authorization authorization) ("task-admission:" +:+ str_take 32 replay_key).

(** [TaskContractService.admit] *)
Definition admit_request (self : TaskContractService) (request : TaskAdmissionRequest) : result TaskAdmissionResult :=
  kind ← match candidate_task_kind (rq_intent request) with
         | Some kind => Ok kind
         | None => Err (ValueError "TaskIntent is ambiguous: candidate_task_kind is required for admission")
         end;
  compiler ← match get_compiler self kind with
             | Some compiler => Ok compiler
             | None => Err (ValueError "no TaskContract compiler registered")
             end;
  let contract_id := admission_contract_id request compiler in
  contract ← compile compiler (rq_intent request) contract_id (rq_contract_revision request) (rq_principal request)
               (rq_on_behalf_of request) (rq_policy_revision request) (binding_context request);
  _ ← validate_compiled_contract request kind contract contract_id;
  authorization ← authorizer self (intent_ref_of (rq_intent request)) (rq_intent request) contract;
  _ ← raise_when (negb (ta_allowed authorization))
        (OtherException "TaskAdmissionDenied"
           (if falsy (ta_denial_reason authorization) then "task_admission_denied"
            else default ""%string (ta_denial_reason authorization)));
  Ok (admission_result request compiler contract authorization).

(** ** The compilers *)

(** [[item for item in intent.candidate_targets if item not in allowed]] must be empty. *)
Definition check_targets (intent : TaskIntent) (allowed : list string) (what : string) : result unit :=
  match filter (λ t, t ∉ allowed) (candidate_targets intent) with
  | [] => Ok tt
  | t :: _ => Err (ValueError (what +:+ " admission target is not bound: " +:+ t))
  end.

(** [QuestionAdmissionBinding.model_validate], then [QuestionTaskContractCompiler.compile]. *)
Definition compile_question (kind : TaskKind) (intent : TaskIntent) (task_contract_id : string) (contract_revision : Z)
  (principal : string) (on_behalf_of : option string) (policy_revision : string) (binding_context : dict) : result TaskContract :=
  question ← text_field "question" binding_context;
  _ ← raise_when (bool_decide (question = ""%string)) (ValueError "validation error");
  target_object_ids ← strings_field "target_object_ids" (Some []) binding_context;
  _ ← check_targets intent (target_object_ids ++ (String.append "object:" <$> target_object_ids)) "question";
  build_question_contract task_contract_id principal kind question target_object_ids policy_revision contract_revision on_behalf_of.
(** [QuestionTaskContractCompiler.__init__] *)
Definition QuestionTaskContractCompiler (kind : TaskKind) : result TaskContractCompiler :=
  _ ← raise_when (bool_decide (kind ∉ question_kinds)) (ValueError "unsupported question admission kind");
  Ok (mkTaskContractCompiler kind "question-admission-v1" (compile_question kind)).

(** [EnrichmentAdmissionBinding.model_validate], then [EnrichmentTaskContractCompiler.compile]. *)
Record EnrichmentAdmissionBinding := mkEnrichmentAdmissionBinding {
  eb_target_object_id : string;
  eb_cve_id : string;
  eb_required_dimensions : list EnrichmentDimension;
  eb_refresh_dimensions : list EnrichmentDimension;
  eb_trigger_ref : option string
}.
Definition enrichment_binding (d : dict) : result EnrichmentAdmissionBinding :=
  target ← text_field "target_object_id" d;
  cve ← text_field "cve_id" d;
  required ← members_field EnrichmentDimension_value dimensions "required_dimensions" None d;
  _ ← raise_when (bool_decide (required = [])) (ValueError "validation error");
  refresh ← members_field EnrichmentDimension_value dimensions "refresh_dimensions" (Some []) d;
  trigger ← text_or_none "trigger_ref" d;
  _ ← raise_when (py_blank target || py_blank cve) (ValueError "Enrichment admission object/CVE identity cannot be empty");
  Ok (mkEnrichmentAdmissionBinding target cve required refresh trigger).
Definition add_target_resource (resource : string) (c : TaskContract) : TaskContract :=
  mkTaskContract (tc_id c) (contract_revision c) (tc_principal c) (on_behalf_of c) (task_kind c)
    (target_resources c ++ [resource]) (desired_state c) (evidence_contract c) (output_contract c) (temporal_contract c)
    (effect_ceiling c) (delegation_ceiling c) (completion_predicate c) (cancellation_semantics c) (tc_policy_revision c).
Definition compile_enrichment (intent : TaskIntent) (task_contract_id : string) (contract_revision : Z)
  (principal : string) (on_behalf_of : option string) (policy_revision : string) (binding_context : dict) : result TaskContract :=
  b ← enrichment_binding binding_context;
  let cve := upper (eb_cve_id b) in
  _ ← check_targets intent [eb_target_object_id b; "object:" +:+ eb_target_object_id b; cve; "cve:" +:+ cve] "Enrichment";
  contract ← build_vulnerability_enrichment_contract task_contract_id principal (eb_target_object_id b) (eb_cve_id b)
               (eb_required_dimensions b) (eb_refresh_dimensions b) policy_revision contract_revision on_behalf_of;
  Ok (match eb_trigger_ref b with
      | Some ref => add_target_resource ("processing-run:" +:+ ref) contract
      | None => contract
      end).
Definition EnrichmentTaskContractCompiler : TaskContractCompiler :=
  mkTaskContractCompiler ENRICHMENT "enrichment-admission-v1" compile_enrichment.

(** [InvestigationAdmissionBinding.model_validate], then [InvestigationTaskContractCompiler.compile]. *)
Definition compile_investigation (kind : TaskKind) (intent : TaskIntent) (task_contract_id : string) (contract_revision : Z)
  (principal : string) (on_behalf_of : option string) (policy_revision : string) (binding_context : dict) : result TaskContract :=
  case_id ← text_field "case_id" binding_context;
  target_object_ids ← strings_field "target_object_ids" (Some []) binding_context;
  needs ← strings_field "required_need_ids" None binding_context;
  _ ← raise_when (bool_decide (needs = [])) (ValueError "validation error");
  allow_wait ← bool_field "allow_wait" true binding_context;
  _ ← raise_when (py_blank case_id) (ValueError "Investigation admission binding requires case_id");
  _ ← raise_when (negb (bool_decide (NoDup target_object_ids))) (ValueError "Investigation admission target_object_ids must be unique");
  _ ← raise_when (negb (bool_decide (NoDup needs))) (ValueError "Investigation admission required_need_ids must be unique");
  _ ← check_targets intent
        ([case_id; "case:" +:+ case_id] ++ target_object_ids ++ (String.append "object:" <$> target_object_ids)) "Investigation";
  build_investigation_contract task_contract_id principal kind case_id target_object_ids needs policy_revision
    contract_revision on_behalf_of allow_wait.
(** [InvestigationTaskContractCompiler.__init__] *)
Definition InvestigationTaskContractCompiler (kind : TaskKind) : result TaskContractCompiler :=
  _ ← raise_when (bool_decide (kind ∉ investigation_kinds)) (ValueError "unsupported Investigation admission kind");
  Ok (mkTaskContractCompiler kind "investigation-admission-v1" (compile_investigation kind)).

(** ** apps/task_admission.py *)

Definition admission_policy_request (intent_ref : string) (intent : TaskIntent) (c : TaskContract) : PolicyRequest :=
  mkPolicyRequest TASK_ADMISSION (tc_principal c) ("admit_" +:+ TaskKind_value (task_kind c))
    ("task-kind:" +:+ TaskKind_value (task_kind c))
    [("intent_ref"%string, JStr intent_ref); ("task_contract_id"%string, JStr (tc_id c));
     ("contract_revision"%string, JInt (contract_revision c));
     ("effect_ceiling"%string, JStr (EffectCeiling_value (effect_ceiling c)));
     ("target_resources"%string, json_strings (target_resources c));
     ("trigger_ref"%string, json_option JStr (trigger_ref intent))].

(** [RuntimeTaskAdmissionAuthorizer.authorize] *)
Definition runtime_authorize (policy : StaticPolicyEngine) (fulfilled : gset string) : TaskAdmissionAuthorizer :=
  λ intent_ref intent candidate,
    if bool_decide (engine_revision policy ≠ tc_policy_revision candidate)
    then validate_authorization
           (mkTaskAdmissionAuthorization false (Authorization_value INDETERMINATE) None (Some "policy_revision_mismatch"%string) [])
    else
      request ← validate_request (admission_policy_request intent_ref intent candidate);
      let decision := evaluate policy request in
      let ref := decision_ref hexdigest policy request decision in
      let value := Authorization_value (authorization decision) in
      if bool_decide (authorization decision ≠ PERMIT)
      then validate_authorization (mkTaskAdmissionAuthorization false value (Some ref) (Some ("policy_" +:+ value)) [])
      else if negb (obligations_satisfied decision fulfilled)
      then validate_authorization (mkTaskAdmissionAuthorization false value (Some ref) (Some "policy_obligation_unsatisfied"%string) [])
      else validate_authorization (mkTaskAdmissionAuthorization true value (Some ref) None (sorted_set (elements fulfilled))).

Definition create_task_contract_service (policy : StaticPolicyEngine) : result TaskContractService :=
  questions ← try_map QuestionTaskContractCompiler question_kinds;
  investigations ← try_map InvestigationTaskContractCompiler investigation_kinds;
  make_TaskContractService (EnrichmentTaskContractCompiler :: questions ++ investigations) (runtime_authorize policy ∅).

(** ** The background run: [ensure_background_vulnerability_enrichment_run] *)

Section background.
Context (uuid5_url : string → string) (contract_digest : TaskContract → string) (manifest_digest : ContextManifest → string).

Definition background_run_id (object_id trigger_ref : string) : string :=
  uuid5_url ("secfusion:background-enrichment:" +:+ object_id +:+ ":" +:+ trigger_ref).

(** [select(revision).where(cause_processing_run_id == trigger_ref).order_by(revision.desc()).limit(1)] *)
Definition trigger_revision (trigger_ref : string) (s : KnowledgeStore) : option Z :=
  match kr_revision <$> filter (λ r, kr_cause_processing_run_id r = trigger_ref) (revisions s) with
  | [] => None
  | r :: l => Some (foldl Z.max r l)
  end.
(** [int(trigger_revision or max(revision) or 0)] *)
Definition background_revision (trigger_ref : string) (s : KnowledgeStore) : Z :=
  match trigger_revision trigger_ref s with Some r => if r =? 0 then world_revision s else r | None => world_revision s end.

Definition background_request (object_id cve_id trigger_ref policy_revision : string) : TaskAdmissionRequest :=
  mkTaskAdmissionRequest
    (mkTaskIntent None (Some trigger_ref) [upper cve_id] (Some ENRICHMENT) [object_id; upper cve_id] None []
       ["enrich_vulnerability"%string] [])
    "system:background-enrichment" policy_revision None
    (Some ("background-enrichment:" +:+ object_id +:+ ":" +:+ trigger_ref)) 1
    [("target_object_id"%string, JStr object_id); ("cve_id"%string, JStr cve_id);
     ("required_dimensions"%string, json_strings (EnrichmentDimension_value <$> default_background_vulnerability_dimensions));
     ("trigger_ref"%string, JStr trigger_ref)].

Definition background_manifest (run_id object_id policy_revision : string) (knowledge_revision : Z) (contract : TaskContract)
  : ContextManifest :=
  mkContextManifest ("context:background-enrichment:" +:+ run_id) 1 None (task_contract_ref contract) "EnrichmentRole@1" None
    (Some knowledge_revision) None [] [] [object_id] [] [] None None None [] [] ("policy-context:" +:+ policy_revision)
    "capability:enrichment:v1" ("budget:" +:+ run_id) None.

Definition ensure_background_vulnerability_enrichment_run (service : TaskContractService)
  (object_id cve_id trigger_ref stream_name policy_revision uuid_run uuid_event : string) (instant : Z) : prog EnrichmentDB string :=
  let run_id := background_run_id object_id trigger_ref in
  s ← get_store;
  if bool_decide (is_Some (task_runs (en_tasks s) !! run_id)) then mret run_id
  else
    request ← lift (validate_admission_request (background_request object_id cve_id trigger_ref policy_revision));
    admission ← lift (admit_request service request);
    let contract := tr_contract admission in
    manifest ← lift (make_ContextManifest
      (background_manifest run_id object_id policy_revision (background_revision trigger_ref (en_knowledge s)) contract));
    role ← lift (match dict_get "EnrichmentRole" canonical_roles with
                 | Some role => Ok role | None => Err (OtherException "KeyError" "EnrichmentRole") end);
    zoom (create_task_run uuid5_url contract_digest manifest_digest contract manifest role ("execution:" +:+ run_id) stream_name
            None None (Some run_id) uuid_run uuid_event "task-runtime" instant);;
    mret run_id.
End background.
End service.

(** ** What the service expects of a compiler *)

(** The targets of an intent are resources of the contract, bare or with their prefix. *)
Definition target_bound (resources : list string) (t : string) : Prop :=
  ∃ prefix, prefix ∈ [""%string; "object:"%string; "case:"%string; "cve:"%string] ∧ prefix +:+ t ∈ resources.

Class CompilesContracts (compiler : TaskContractCompiler) := {
  compile_keeps intent id revision p behalf policy binding c :
    compile compiler intent id revision p behalf policy binding = Ok c →
    tc_id c = id ∧ contract_revision c = revision ∧ tc_principal c = p ∧ on_behalf_of c = behalf ∧
    tc_policy_revision c = policy ∧ task_kind c = co_task_kind compiler;
  compile_valid intent id revision p behalf policy binding c :
    compile compiler intent id revision p behalf policy binding = Ok c → validate_execution_contract c = Ok c;
  compile_binds intent id revision p behalf policy binding c :
    compile compiler intent id revision p behalf policy binding = Ok c →
    ∀ t, t ∈ candidate_targets intent → target_bound (target_resources c) t
}.

Lemma validate_execution_Ok c c' : validate_execution_contract c = Ok c' → c' = c.
Proof.
  unfold validate_execution_contract. destruct (_ <? _); [done|]. intros (?&_&H)%result_bind_Ok.
  repeat case_match; congruence.
Qed.

Lemma check_targets_Ok intent allowed what u :
  check_targets intent allowed what = Ok u → ∀ t, t ∈ candidate_targets intent → t ∈ allowed.
Proof.
  unfold check_targets. destruct (filter _ _) as [|x l] eqn:E; [|done]. intros _ t Ht.
  destruct (decide (t ∈ allowed)) as [?|Hn]; [done|]. assert (t ∈ filter (λ t, t ∉ allowed) (candidate_targets intent)) as H
    by by apply list_elem_of_filter. rewrite E in H. by apply not_elem_of_nil in H.
Qed.

(** Runs through the binds of a hypothesis [m = Ok c]. *)
Ltac binds H :=
  repeat match type of H with
  | (_ ≫= _) = Ok _ => let Hb := fresh "Hb" in apply result_bind_Ok in H as (?&Hb&H)
  end.

Lemma bound_object ids t :
  t ∈ ids ++ (String.append "object:" <$> ids) → target_bound (String.append "object:" <$> ids) t.
Proof.
  intros [Ht|Ht]%elem_of_app; [exists "object:"%string|exists ""%string]; (split; [set_solver|]); [|done].
  by apply list_elem_of_fmap_2.
Qed.

#[export] Instance question_compiles kind : CompilesContracts (mkTaskContractCompiler kind "question-admission-v1" (compile_question kind)).
Proof.
  split; intros intent id revision p behalf policy binding c H; cbn in H; unfold compile_question, build_question_contract in H;
    binds H; pose proof (validate_execution_Ok _ _ H); subst c; try done; try (by repeat split).
  intros t Ht. eapply check_targets_Ok in Ht; [|done]. by apply bound_object.
Qed.

#[export] Instance investigation_compiles kind :
  CompilesContracts (mkTaskContractCompiler kind "investigation-admission-v1" (compile_investigation kind)).
Proof.
  split; intros intent id revision p behalf policy binding c H; cbn in H; unfold compile_investigation, build_investigation_contract in H;
    binds H; pose proof (validate_execution_Ok _ _ H); subst c; try done; try (by repeat split).
  intros t Ht. eapply check_targets_Ok in Ht; [|done]. cbn [target_resources].
  apply elem_of_app in Ht as [Ht|(prefix&?&?)%bound_object]; [|exists prefix; split; [done|by right]].
  apply elem_of_cons in Ht as [->| ->%list_elem_of_singleton]; [exists "case:"%string|exists ""%string]; (split; [set_solver|left]).
Qed.

Lemma validate_shape_Ok d d' : validate_contract_shape d = Ok d' → d' = d.
Proof. unfold validate_contract_shape. intros H. binds H. by injection H as <-. Qed.

(** What a compiled enrichment contract is. *)
Lemma compile_enrichment_Ok intent id revision p behalf policy binding c :
  compile_enrichment intent id revision p behalf policy binding = Ok c →
  ∃ b c0, enrichment_binding binding = Ok b ∧
    let cve := upper (eb_cve_id b) in
    let desired := enrichment_desired (eb_target_object_id b) (eb_cve_id b) (eb_required_dimensions b) (eb_refresh_dimensions b) in
    (∀ t, t ∈ candidate_targets intent → t ∈ [eb_target_object_id b; "object:" +:+ eb_target_object_id b; cve; "cve:" +:+ cve]) ∧
    validate_contract_shape desired = Ok desired ∧ validate_execution_contract c0 = Ok c0 ∧
    tc_id c0 = id ∧ contract_revision c0 = revision ∧ tc_principal c0 = p ∧ on_behalf_of c0 = behalf ∧
    tc_policy_revision c0 = policy ∧ task_kind c0 = ENRICHMENT ∧
    target_resources c0 = ["object:" +:+ eb_target_object_id b; "cve:" +:+ cve] ∧
    desired_state c0 = dump_desired desired ∧
    dict_get "type" (completion_predicate c0) = Some (JStr "enrichment_dimensions_terminal") ∧
    effect_ceiling c0 = INTERNAL_STATE ∧ delegation_ceiling c0 = default_DelegationCeiling ∧
    c = match eb_trigger_ref b with Some ref => add_target_resource ("processing-run:" +:+ ref) c0 | None => c0 end.
Proof.
  unfold compile_enrichment, build_vulnerability_enrichment_contract. intros H. binds H. injection H as <-. binds Hb1.
  pose proof (validate_shape_Ok _ _ Hb2) as ->. pose proof (validate_execution_Ok _ _ Hb1) as ->. eexists _, _. cbv zeta.
  split; [done|]. split; [by eapply check_targets_Ok|]. split; [done|]. split; [exact Hb1|]. by repeat split.
Qed.

Lemma validate_add_target resource c :
  validate_execution_contract c = Ok c → validate_execution_contract (add_target_resource resource c) = Ok (add_target_resource resource c).
Proof.
  unfold validate_execution_contract. cbn. destruct (contract_revision c <? 1); [done|].
  intros (d&Hd&H)%result_bind_Ok. rewrite Hd. cbn.
  destruct (py_blank (tc_principal c)); [done|]. destruct (is_nil (desired_state c)); [done|].
  destruct (is_nil (completion_predicate c)); [done|]. destruct (py_blank (tc_policy_revision c)); [done|].
  by destruct (dc_allowed _ && _).
Qed.

#[export] Instance enrichment_compiles : CompilesContracts EnrichmentTaskContractCompiler.
Proof.
  split; intros intent id revision p behalf policy binding c H;
    apply compile_enrichment_Ok in H as (b&c0&_&Ht&_&Hv&H1&H2&H3&H4&H5&H6&Hres&_&_&_&_&->).
  - by destruct (eb_trigger_ref b).
  - destruct (eb_trigger_ref b); [by apply validate_add_target|done].
  - intros t Hin. assert (target_bound (target_resources c0) t) as (prefix&Hp&Hx).
    { apply Ht in Hin. rewrite Hres. unfold target_bound.
      repeat (apply elem_of_cons in Hin as [->|Hin]); [exists "object:"%string|exists ""%string|exists "cve:"%string|exists ""%string|
        by apply not_elem_of_nil in Hin]; (split; [set_solver|]); repeat ((by left) || right). }
    exists prefix. split; [done|]. destruct (eb_trigger_ref b); [|done]. cbn. apply elem_of_app. by left.
Qed.

(** ** Admission *)

Section admission.
Context (sha256_hex : string → string) (float_repr : Z → Z → string) (hexdigest : PolicyRequest → PolicyDecision → string).
Abbreviation admit_request' := (admit_request sha256_hex float_repr).
Abbreviation contract_id' := (admission_contract_id sha256_hex float_repr).

(** With compilers that keep what they are given, the checks after compilation never refuse anything: what is admitted is
    exactly what compiles and is allowed. *)
Lemma admit_Ok self request res :
  (∀ compiler, compiler ∈ compilers self → CompilesContracts compiler) →
  admit_request' self request = Ok res ↔
  ∃ kind compiler contract authorization, candidate_task_kind (rq_intent request) = Some kind ∧
    get_compiler self kind = Some compiler ∧
    compile compiler (rq_intent request) (contract_id' request compiler) (rq_contract_revision request) (rq_principal request)
      (rq_on_behalf_of request) (rq_policy_revision request) (binding_context request) = Ok contract ∧
    authorizer self (intent_ref_of sha256_hex float_repr (rq_intent request)) (rq_intent request) contract = Ok authorization ∧
    ta_allowed authorization = true ∧ res = admission_result sha256_hex float_repr request compiler contract authorization.
Proof.
  intros Hall. unfold admit_request. split.
  - intros H. binds H. injection H as <-. destruct (candidate_task_kind (rq_intent request)) as [kind|]; [|done].
    injection Hb as <-. destruct (get_compiler self kind) as [compiler|] eqn:Hc; [|done]. injection Hb0 as <-.
    apply raise_when_Ok, negb_false_iff in Hb4. by eexists _, compiler, _, _.
  - intros (kind&compiler&contract&auth&->&Hc&Hcompile&Hauth&Hallowed&->). cbn. rewrite Hc. cbn. rewrite Hcompile. cbn.
    apply find_elem in Hc as [Hin Hkind%bool_decide_eq_true].
    destruct (compile_keeps (CompilesContracts := Hall _ Hin) _ _ _ _ _ _ _ _ Hcompile) as (H1&H2&H3&H4&H5&H6).
    unfold validate_compiled_contract. rewrite H1, H2, H3, H4, H5, H6, Hkind, Z.eqb_refl.
    rewrite !bool_decide_eq_false_2 by (intros Hn; by apply Hn). cbn. rewrite Hauth. cbn. by rewrite Hallowed.
Qed.

(** The shipped service. *)
Definition shipped_compilers : list TaskContractCompiler :=
  EnrichmentTaskContractCompiler ::
  ((λ kind, mkTaskContractCompiler kind "question-admission-v1" (compile_question kind)) <$> question_kinds) ++
  ((λ kind, mkTaskContractCompiler kind "investigation-admission-v1" (compile_investigation kind)) <$> investigation_kinds).

Lemma create_service_Ok policy :
  create_task_contract_service hexdigest policy = Ok (mkTaskContractService (runtime_authorize hexdigest policy ∅) shipped_compilers).
Proof. reflexivity. Qed.

Lemma shipped_compile compiler : compiler ∈ shipped_compilers → CompilesContracts compiler.
Proof.
  unfold shipped_compilers. intros [->|[(kind&->&_)%list_elem_of_fmap|(kind&->&_)%list_elem_of_fmap]%elem_of_app]%elem_of_cons;
    apply _.
Qed.

(** The ceilings of a kind of task. *)
Definition kind_effect (kind : TaskKind) : EffectCeiling := if decide (kind ∈ question_kinds) then READ_ONLY else INTERNAL_STATE.
Definition kind_delegation (kind : TaskKind) : DelegationCeiling :=
  if decide (kind ∈ investigation_kinds) then mkDelegationCeiling true 1 [ENRICHMENT] INTERNAL_STATE else default_DelegationCeiling.

Lemma shipped_ceilings compiler intent id revision p behalf policy binding c :
  compiler ∈ shipped_compilers → compile compiler intent id revision p behalf policy binding = Ok c →
  effect_ceiling c = kind_effect (co_task_kind compiler) ∧ delegation_ceiling c = kind_delegation (co_task_kind compiler).
Proof.
  unfold shipped_compilers. intros [->|[(kind&->&Hk)%list_elem_of_fmap|(kind&->&Hk)%list_elem_of_fmap]%elem_of_app]%elem_of_cons H.
  - apply compile_enrichment_Ok in H as (b&c0&_&_&_&_&_&_&_&_&_&_&_&_&_&He&Hd&->). by destruct (eb_trigger_ref b).
  - cbn in H. unfold compile_question, build_question_contract in H. binds H. apply validate_execution_Ok in H as ->. cbn.
    unfold kind_effect, kind_delegation. rewrite decide_True by done. split; [done|]. rewrite decide_False; [done|].
    by repeat (apply elem_of_cons in Hk as [->|Hk]); [by_decide|by_decide|apply not_elem_of_nil in Hk].
  - cbn in H. unfold compile_investigation, build_investigation_contract in H. binds H. apply validate_execution_Ok in H as ->. cbn.
    unfold kind_effect, kind_delegation. rewrite (decide_True (P := kind ∈ investigation_kinds)) by done. split; [|done].
    rewrite decide_False; [done|]. intros Hq. clear - Hk Hq. revert Hk. unfold question_kinds in Hq.
    repeat (apply elem_of_cons in Hq as [->|Hq]); [by_decide|by_decide|by apply not_elem_of_nil in Hq].
Qed.

Lemma runtime_authorize_Ok policy fulfilled intent_ref intent c a :
  runtime_authorize hexdigest policy fulfilled intent_ref intent c = Ok a → ta_allowed a = true →
  engine_revision policy = tc_policy_revision c ∧
  let decision := evaluate policy (admission_policy_request intent_ref intent c) in
  authorization decision = PERMIT ∧ obligations_satisfied decision fulfilled = true ∧
  ta_policy_decision_ref a = Some (decision_ref hexdigest policy (admission_policy_request intent_ref intent c) decision).
Proof.
  unfold runtime_authorize, validate_authorization. case_bool_decide as Hr; [intros H; binds H; by injection H as <-|].
  intros (request&->%validate_request_Ok&H)%result_bind_Ok. cbv zeta in H.
  case_bool_decide as Hp; [binds H; by injection H as <-|].
  destruct (obligations_satisfied _ _) eqn:Ho; cbn [negb] in H; [|binds H; by injection H as <-].
  binds H. by injection H as <-.
Qed.

(** C19. A contract is admitted only as the request asked for it and only when the policy permits exactly this contract.  The
    contract keeps the kind, principal, delegator, policy revision, revision and identity of the request; it is valid;
    every candidate target of the intent is one of its resources; questions can only read, other tasks change internal
    state only, and only investigations may delegate, one level deep and to enrichment.  The policy engine has the
    revision of the contract, permits the admission and attaches no obligation, and the result carries the reference of
    this decision. *)
Theorem admission_authorized policy self request res :
  create_task_contract_service hexdigest policy = Ok self → admit_request' self request = Ok res →
  let c := tr_contract res in
  let policy_request := admission_policy_request (tr_intent_ref res) (rq_intent request) c in
  let decision := evaluate policy policy_request in
  candidate_task_kind (rq_intent request) = Some (task_kind c) ∧
  (task_kind c = ENRICHMENT ∨ task_kind c ∈ question_kinds ∨ task_kind c ∈ investigation_kinds) ∧
  contract_revision c = rq_contract_revision request ∧ tc_principal c = rq_principal request ∧
  on_behalf_of c = rq_on_behalf_of request ∧ tc_policy_revision c = rq_policy_revision request ∧
  (falsy (rq_task_contract_id request) = false → rq_task_contract_id request = Some (tc_id c)) ∧
  validate_execution_contract c = Ok c ∧
  (∀ t, t ∈ candidate_targets (rq_intent request) → target_bound (target_resources c) t) ∧
  effect_ceiling c = kind_effect (task_kind c) ∧ delegation_ceiling c = kind_delegation (task_kind c) ∧
  engine_revision policy = rq_policy_revision request ∧ authorization decision = PERMIT ∧ obligations decision = [] ∧
  tr_policy_decision_ref res = Some (decision_ref hexdigest policy policy_request decision).
Proof.
  rewrite create_service_Ok. intros [= <-] H. apply admit_Ok in H as (kind&compiler&c&a&Hk&Hc&Hcompile&Ha&Hallowed&->);
    [|apply shipped_compile].
  apply find_elem in Hc as [Hin Hkind%bool_decide_eq_true]. pose proof (shipped_compile _ Hin) as Hlaws.
  destruct (compile_keeps _ _ _ _ _ _ _ _ Hcompile) as (H1&H2&H3&H4&H5&H6).
  destruct (shipped_ceilings _ _ _ _ _ _ _ _ _ Hin Hcompile) as [He Hd].
  destruct (runtime_authorize_Ok _ _ _ _ _ _ Ha Hallowed) as (Hr&Hp&Ho&Href). cbn.
  rewrite Hk, H6, Hkind in *. split; [done|]. split.
  { subst kind. clear - Hin. unfold shipped_compilers in Hin.
    apply elem_of_cons in Hin as [->|[(k&->&Hk)%list_elem_of_fmap|(k&->&Hk)%list_elem_of_fmap]%elem_of_app]; auto. }
  split; [done|]. split; [done|]. split; [done|]. split; [done|]. split.
  { intros Hf. rewrite H1. unfold admission_contract_id. rewrite Hf. by destruct (rq_task_contract_id request). }
  split; [by eapply compile_valid|]. split; [by eapply compile_binds|]. split; [done|]. split; [done|].
  split; [congruence|]. split; [done|]. split; [|done].
  unfold obligations_satisfied in Ho. rewrite bool_decide_eq_false_2 in Ho by (rewrite Hp; by intros Hn).
  apply bool_decide_eq_true in Ho. destruct (obligations _) as [|o l]; [done|]. exfalso. cbn in Ho. set_solver.
Qed.

(** ** Contracts and the roles that execute them *)

Lemma member_of_value d : member_of EnrichmentDimension_value dimensions (JStr (EnrichmentDimension_value d)) = Ok d.
Proof. by destruct d. Qed.
Lemma status_of_value s : member_of status_value [RESOLVED; CONFLICT; UNKNOWN; MISSING] (JStr (status_value s)) = Ok s.
Proof. by destruct s. Qed.

Lemma try_map_values {A B} (f : A → B) (g : B → result A) l : (∀ x, g (f x) = Ok x) → try_map g (f <$> l) = Ok l.
Proof. intros H. induction l as [|x l IH]; [done|]. cbn. rewrite H. cbn. by rewrite IH. Qed.

(** [model_validate] after [model_dump]. *)
Lemma members_field_dump {A} (value : A → string) members k default d l :
  dict_get k d = Some (json_strings (value <$> l)) → (∀ x, member_of value members (JStr (value x)) = Ok x) →
  members_field value members k default d = Ok l.
Proof.
  unfold members_field, json_strings. intros -> H. rewrite <- list_fmap_compose. destruct default; by apply try_map_values.
Qed.
Lemma strings_field_dump k default d l : dict_get k d = Some (json_strings l) → strings_field k default d = Ok l.
Proof. unfold strings_field, json_strings. intros ->. destruct default; by apply try_map_values. Qed.

Lemma desired_of_dump c d :
  desired_state c = dump_desired d → validate_contract_shape d = Ok d → desired_state_of c = Ok d.
Proof.
  intros Hd Hv. unfold desired_state_of. rewrite Hd.
  rewrite (members_field_dump _ _ "required_dimensions" _ _ (required_dimensions d)) by (done || apply member_of_value).
  rewrite (members_field_dump _ _ "refresh_dimensions" _ _ (refresh_dimensions d)) by (done || apply member_of_value).
  rewrite (members_field_dump _ _ "terminal_statuses" _ _ (terminal_statuses d)) by (done || apply status_of_value). by destruct d.
Qed.

Lemma investigation_desired_of_dump c d :
  desired_state c = dump_investigation_desired d → validate_identity d = Ok d → investigation_desired_state_of c = Ok d.
Proof.
  intros Hd Hv. unfold investigation_desired_state_of. rewrite Hd.
  rewrite (strings_field_dump "required_need_ids" _ _ (it_required_need_ids d)) by done. by destruct d.
Qed.

(** The enrichment role accepts what the compiler makes. *)
Lemma enrichment_contract_accepted intent id revision p behalf policy binding c :
  compile_enrichment intent id revision p behalf policy binding = Ok c →
  ∃ b, enrichment_binding binding = Ok b ∧ validate_enrichment_run ROLE_ID c = Ok tt ∧
    desired_state_of c = Ok (enrichment_desired (eb_target_object_id b) (eb_cve_id b) (eb_required_dimensions b) (eb_refresh_dimensions b)).
Proof.
  intros (b&c0&Hb&_&Hshape&_&_&_&_&_&_&Hkind&Hres&Hdesired&Htype&_&_&->)%compile_enrichment_Ok. exists b. split; [done|].
  assert (desired_state_of c0 = Ok (enrichment_desired (eb_target_object_id b) (eb_cve_id b) (eb_required_dimensions b)
    (eb_refresh_dimensions b))) as Hd0 by by apply desired_of_dump.
  match goal with |- context [validate_enrichment_run _ ?x] => set (c := x) end.
  assert (task_kind c = ENRICHMENT ∧ desired_state_of c = desired_state_of c0 ∧ completion_predicate c = completion_predicate c0 ∧
    ("object:" +:+ eb_target_object_id b) ∈ target_resources c) as (Hk&Hd&Hp&Hin).
  { unfold c. destruct (eb_trigger_ref b); cbn; rewrite Hres; repeat split; try done; left. }
  rewrite Hd. split; [|done]. unfold validate_enrichment_run. rewrite Hk, Hd, Hd0, Hp, Htype. cbn.
  by rewrite !bool_decide_eq_false_2 by (intros Hn; by apply Hn).
Qed.

Lemma investigation_contract_read kind intent id revision p behalf policy binding c :
  compile_investigation kind intent id revision p behalf policy binding = Ok c →
  ∃ case_id needs allow_wait, text_field "case_id" binding = Ok case_id ∧
    strings_field "required_need_ids" None binding = Ok needs ∧ bool_field "allow_wait" true binding = Ok allow_wait ∧
    investigation_desired_state_of c = Ok (mkInvestigationTaskDesiredState case_id needs allow_wait).
Proof.
  unfold compile_investigation. intros (case_id&Hcase&H)%result_bind_Ok. apply result_bind_Ok in H as (targets&_&H).
  apply result_bind_Ok in H as (needs&Hneeds&H). apply result_bind_Ok in H as (?&_&H).
  apply result_bind_Ok in H as (wait&Hwait&H). exists case_id, needs, wait. split; [done|]. split; [done|]. split; [done|].
  unfold build_investigation_contract in H. binds H. apply validate_execution_Ok in H as ->.
  assert (∀ d d', validate_identity d = Ok d' → d' = d) as Hid
    by (unfold validate_identity; intros d d' H; binds H; by injection H as <-).
  match goal with Hv : validate_identity _ = Ok _ |- _ => pose proof (Hid _ _ Hv); subst; by apply investigation_desired_of_dump end.
Qed.

(** C20. What a request binds reaches the role unchanged.  The role reads from the stored contract of an admitted
    enrichment exactly the object, the CVE in capitals and the dimensions (each once, in the order of their names) of
    the binding, and accepts the contract; from that of an admitted investigation exactly the case, the needs and the
    permission to wait. *)
Theorem contracts_read_back policy self request res :
  create_task_contract_service hexdigest policy = Ok self → admit_request' self request = Ok res →
  let c := tr_contract res in let binding := binding_context request in
  (task_kind c = ENRICHMENT → ∃ b, enrichment_binding binding = Ok b ∧ validate_enrichment_run ROLE_ID c = Ok tt ∧
     desired_state_of c = Ok (mkEnrichmentTaskDesiredState (eb_target_object_id b) (upper (eb_cve_id b))
       (sorted_members (eb_required_dimensions b)) (sorted_members (eb_refresh_dimensions b)) [RESOLVED; CONFLICT; UNKNOWN])) ∧
  (task_kind c ∈ investigation_kinds → ∃ case_id needs allow_wait,
     text_field "case_id" binding = Ok case_id ∧ strings_field "required_need_ids" None binding = Ok needs ∧
     bool_field "allow_wait" true binding = Ok allow_wait ∧
     investigation_desired_state_of c = Ok (mkInvestigationTaskDesiredState case_id needs allow_wait)).
Proof.
  rewrite create_service_Ok. intros [= <-] H. apply admit_Ok in H as (kind&compiler&c&a&Hk&Hc&Hcompile&Ha&Hallowed&->);
    [|apply shipped_compile].
  apply find_elem in Hc as [Hin _]. pose proof (shipped_compile _ Hin) as Hlaws.
  destruct (compile_keeps _ _ _ _ _ _ _ _ Hcompile) as (_&_&_&_&_&Hkind). cbn [tr_contract admission_result] in *.
  clear Ha Hallowed Hk.
  rewrite Hkind. cbn [compilers] in Hin.
  unfold shipped_compilers in Hin.
  apply elem_of_cons in Hin as [->|[(k&->&Hq)%list_elem_of_fmap|(k&->&Hi)%list_elem_of_fmap]%elem_of_app]; cbn [co_task_kind compile EnrichmentTaskContractCompiler] in Hcompile |- *.
  - split; [intros _; by eapply enrichment_contract_accepted|]. intros Hi. by apply (bool_decide_pack _) in Hi.
  - clear - Hq. apply (bool_decide_pack _) in Hq. split; [by intros ->|]. intros Hi. apply (bool_decide_pack _) in Hi. by destruct k.
  - split; [intros ->; by apply (bool_decide_pack _) in Hi|]. intros _. by eapply investigation_contract_read.
Qed.
End admission.

(** ** The background run *)

(** A created run works under the contract it was given, unless a version of that contract was stored before. *)
Lemma created_contract uuid5 contract_digest manifest_digest c m role env stream case parent rid ur ue prod t db v db' :
  task_wf contract_digest manifest_digest db →
  create_task_run uuid5 contract_digest manifest_digest c m role env stream case parent rid ur ue prod t db = (Ok v, db') →
  ∃ r, task_runs db' !! (if falsy rid then ur else default ur rid) = Some r ∧ status r = SUBMITTED ∧ run_role_id r = role_id role ∧
    ((∃ old, old ∈ contract_versions db ∧ contract_key old = (tc_id c, contract_revision c)) ∨
     contract_of db' (if falsy rid then ur else default ur rid) = Some c).
Proof.
  intros Hwf H. eapply create_good in H as (_&r&cm&_&Hruns&Hst&_&Hcm&_&([d db1]&Hp&Hvers)&(<-&Hrole&Hkey)&_); [|done].
  exists r. rewrite Hruns, lookup_insert_eq. split; [done|]. split; [done|]. split; [done|].
  cbn in Hp, Hvers. apply persist_contract_Ok in Hp as (_&[(_&_&old&?&?&_)|(_&->&_&_)]); [left; by exists old|].
  unfold get_contract_version in Hcm. pose proof Hcm as [Hin _]%find_elem. rewrite Hvers in Hin. cbn in Hin.
  apply elem_of_app in Hin as [Hin| ->%list_elem_of_singleton]; [left; by exists cm|right].
  unfold contract_of. rewrite Hruns, lookup_insert_eq. cbn. unfold get_contract_version. by rewrite Hcm.
Qed.

Section background.
Context (sha256_hex : string → string) (float_repr : Z → Z → string) (hexdigest : PolicyRequest → PolicyDecision → string)
  (uuid5_url : string → string) (contract_digest : TaskContract → string) (manifest_digest : ContextManifest → string).
Abbreviation ensure := (ensure_background_vulnerability_enrichment_run sha256_hex float_repr uuid5_url contract_digest manifest_digest).

Lemma ensure_existing service object_id cve_id trigger stream policy ur ue t s :
  is_Some (task_runs (en_tasks s) !! background_run_id uuid5_url object_id trigger) →
  ensure service object_id cve_id trigger stream policy ur ue t s = (Ok (background_run_id uuid5_url object_id trigger), s).
Proof.
  intros H. unfold ensure_background_vulnerability_enrichment_run, mbind, prog_bind, get_store.
  by rewrite bool_decide_eq_true_2.
Qed.

Lemma background_binding object_id cve_id trigger revision b :
  enrichment_binding (binding_context (background_request object_id cve_id trigger revision)) = Ok b →
  b = mkEnrichmentAdmissionBinding object_id cve_id default_background_vulnerability_dimensions [] (Some trigger).
Proof.
  unfold enrichment_binding. intros H. change (text_field "target_object_id" _) with (Ok object_id) in H.
  change (text_field "cve_id" _) with (Ok cve_id) in H. change (text_or_none "trigger_ref" _) with (Ok (Some trigger)) in H.
  rewrite (members_field_dump _ _ "required_dimensions" _ _ default_background_vulnerability_dimensions) in H by (done || apply member_of_value).
  change (members_field EnrichmentDimension_value dimensions "refresh_dimensions" _ _) with (@Ok (list EnrichmentDimension) []) in H.
  binds H. repeat match goal with E : Ok _ = Ok _ |- _ => injection E; clear E; intros; subst end. done.
Qed.

Lemma background_admission policy object_id cve_id trigger revision res :
  admit_request sha256_hex float_repr (mkTaskContractService (runtime_authorize hexdigest policy ∅) shipped_compilers)
    (background_request object_id cve_id trigger revision) = Ok res →
  validate_enrichment_run ROLE_ID (tr_contract res) = Ok tt ∧
  desired_state_of (tr_contract res) = Ok (enrichment_desired object_id cve_id default_background_vulnerability_dimensions []).
Proof.
  intros (kind&compiler&c&a&[= <-]&[= <-]&Hcompile&_&_&->)%admit_Ok; [|apply shipped_compile].
  apply enrichment_contract_accepted in Hcompile as (b&->%background_binding&Hv&Hd). by split.
Qed.

(** The background enrichment of an object for a processing run is started once, and what is started can be executed.  A
    call that succeeds returns the identity of the run and leaves the run stored; it changed nothing when the run was
    there, and otherwise the run is new, submitted, of the enrichment role, and its contract is one the role accepts, for
    this object, this CVE and the dimensions that some operator produces (unless a version of that contract was stored
    before).  The knowledge base and the enrichment tables are untouched.  From then on, whatever happens to the task
    store, every further call for the same object and trigger returns the same identity and changes nothing. *)
Theorem background_run_once policy service object_id cve_id trigger stream revision ur ue t s id s'
  (Hwf : task_wf contract_digest manifest_digest (en_tasks s))
  (Huuid : background_run_id uuid5_url object_id trigger ≠ ""%string) :
  create_task_contract_service hexdigest policy = Ok service →
  ensure service object_id cve_id trigger stream revision ur ue t s = (Ok id, s') →
  id = background_run_id uuid5_url object_id trigger ∧
  (s' = s ∨
   task_runs (en_tasks s) !! id = None ∧ en_knowledge s' = en_knowledge s ∧ dimension_states s' = dimension_states s ∧
   en_attempts s' = en_attempts s ∧ ∃ row contract, task_runs (en_tasks s') !! id = Some row ∧ status row = SUBMITTED ∧
     validate_enrichment_run (run_role_id row) contract = Ok tt ∧
     desired_state_of contract = Ok (mkEnrichmentTaskDesiredState object_id (upper cve_id)
       [EXPLOIT_LIKELIHOOD; EXPLOIT_STATE; FIX_REMEDIATION; PRODUCT_PACKAGE; VERSION_APPLICABILITY] [] [RESOLVED; CONFLICT; UNKNOWN]) ∧
     ((∃ old, old ∈ contract_versions (en_tasks s) ∧ contract_key old = (tc_id contract, contract_revision contract)) ∨
      contract_of (en_tasks s') id = Some contract)) ∧
  (∀ s2 policy2 cve2 stream2 revision2 ur2 ue2 t2, db_extends (en_tasks s') (en_tasks s2) →
     ensure policy2 object_id cve2 trigger stream2 revision2 ur2 ue2 t2 s2 = (Ok id, s2)).
Proof.
  intros Hservice H.
  assert (is_Some (task_runs (en_tasks s') !! id) ∧ id = background_run_id uuid5_url object_id trigger →
    ∀ s2 policy2 cve2 stream2 revision2 ur2 ue2 t2, db_extends (en_tasks s') (en_tasks s2) →
    ensure policy2 object_id cve2 trigger stream2 revision2 ur2 ue2 t2 s2 = (Ok id, s2)) as Hagain.
  { intros [[r Hr] ->] s2 ??????? Hext. destruct (de_runs _ _ Hext _ _ Hr) as (r'&Hr'&_). apply ensure_existing. by exists r'. }
  unfold ensure_background_vulnerability_enrichment_run in H. cbv zeta in H.
  apply bind_Ok in H as (s0&s1&H0&H). apply get_store_Ok in H0 as [-> ->].
  case_bool_decide as Hnew.
  { apply ret_Ok in H as [-> ->]. split; [done|]. split; [by left|]. by apply Hagain. }
  apply bind_Ok in H as (request&s1&H0&H). apply lift_Ok in H0 as [Hrequest ->].
  apply bind_Ok in H as (res&s1&H0&H). apply lift_Ok in H0 as [Hadmit ->].
  apply bind_Ok in H as (manifest&s1&H0&H). apply lift_Ok in H0 as [_ ->].
  apply bind_Ok in H as (role&s1&H0&H). apply lift_Ok in H0 as [[= <-] ->].
  apply bind_Ok in H as (v&s1&H0&H). apply ret_Ok in H as [-> ->]. apply zoom_Ok in H0 as (db&Hcreate&->).
  eapply created_contract in Hcreate as (row&Hrow&Hst&Hrole&Hcontract); [|exact Hwf].
  assert (falsy (Some (background_run_id uuid5_url object_id trigger)) = false) as Hfalsy by (by apply bool_decide_eq_false_2).
  rewrite Hfalsy in Hrow, Hcontract. cbn [default] in Hrow, Hcontract.
  split; [done|]. split; [|apply Hagain; split; [by exists row|done]]. right.
  split; [by apply eq_None_not_Some|]. split; [done|]. split; [done|]. split; [done|].
  assert (request = background_request object_id cve_id trigger revision) as ->.
  { unfold validate_admission_request in Hrequest. binds Hrequest. by injection Hrequest as <-. }
  rewrite create_service_Ok in Hservice. injection Hservice as <-.
  destruct (background_admission _ _ _ _ _ _ Hadmit) as [Hvalid Hdesired]. exists row, (tr_contract res).
  split; [done|]. split; [done|]. rewrite Hrole. split; [exact Hvalid|]. split; [exact Hdesired|exact Hcontract].
Qed.
End background.

(** ** Samples *)

Definition sample_policy : StaticPolicyEngine := mkStaticPolicyEngine "policy-v1"
  [mkRuntimePolicyRule "admit_request-system" "policy-v1" [TASK_ADMISSION] ["system:*"%string; "user:*"%string] ["admit_*"%string]
     ["task-kind:*"%string] (Some PERMIT) [] [] []].
Definition sample_hexdigest (r : PolicyRequest) (d : PolicyDecision) : string := resource r.
Definition sample_service : TaskContractService :=
  mkTaskContractService (runtime_authorize sample_hexdigest sample_policy ∅) shipped_compilers.

Definition sample_investigation : TaskAdmissionRequest :=
  mkTaskAdmissionRequest
    (mkTaskIntent (Some "investigate case:C1"%string) None ["case:C1"%string] (Some INVESTIGATE_INCIDENT) ["case:C1"%string] None [] [] [])
    "user:alice" "policy-v1" None None 1
    [("case_id"%string, JStr "C1"); ("required_need_ids"%string, JArr [JStr "n1"; JStr "n2"]); ("allow_wait"%string, JStr "No")].

(** Admission answers, refusals and who refuses. *)
Example sample_admitted :
  match admit_request same sample_repr sample_service sample_investigation with
  | Ok r => (task_kind (tr_contract r), target_resources (tr_contract r), investigation_desired_state_of (tr_contract r))
  | Err _ => (LOOKUP, [], Err (ValueError ""))
  end = (INVESTIGATE_INCIDENT, ["case:C1"%string],
         Ok (mkInvestigationTaskDesiredState "C1" ["n1"%string; "n2"%string] false)).
Proof. vm_compute. reflexivity. Qed.
Example sample_unbound_target :
  admit_request same sample_repr sample_service
    (mkTaskAdmissionRequest
      (mkTaskIntent (Some "look at object:o2"%string) None [] (Some LOOKUP) ["object:o2"%string] None [] [] []) "user:alice" "policy-v1"
      None None 1 [("question"%string, JStr "what is it?"); ("target_object_ids"%string, JArr [JStr "o1"])])
  = Err (ValueError "question admission target is not bound: object:o2").
Proof. vm_compute. reflexivity. Qed.
Example sample_denied :
  admit_request same sample_repr sample_service
    (mkTaskAdmissionRequest (mkTaskIntent (Some "what?"%string) None [] (Some LOOKUP) [] None [] [] []) "guest" "policy-v1"
      None None 1 [("question"%string, JStr "what is it?")])
  = Err (OtherException "TaskAdmissionDenied" "policy_deny").
Proof. vm_compute. reflexivity. Qed.

(** A question whose text names a case is refused, whatever it binds: the parser makes the reference a candidate target and
    the compiler binds objects only. *)
Definition question_admission (text : string) : result TaskAdmissionResult :=
  intent ← parse (Some text) (Some "product-request:1"%string) (Some LOOKUP) ["o1"%string] None
             [("result_type"%string, JStr "DecisionResult")] ["answer_question"%string] [];
  admit_request same sample_repr sample_service
    (mkTaskAdmissionRequest intent "user:alice" "policy-v1" None None 1
       [("question"%string, JStr text); ("target_object_ids"%string, JArr [JStr "o1"])]).
Example case_question_refused :
  is_ok (question_admission "What changed since yesterday?") = true ∧
  question_admission "What changed in case:C1?" = Err (ValueError "question admission target is not bound: case:C1").
Proof. vm_compute. auto. Qed.

Lemma admission_authorized_witness : ∃ res, admit_request same sample_repr sample_service sample_investigation = Ok res ∧
  effect_ceiling (tr_contract res) = INTERNAL_STATE ∧ candidate_task_kind (rq_intent sample_investigation) = Some (task_kind (tr_contract res)).
Proof.
  pose proof sample_admitted as Hs. destruct (admit_request same sample_repr sample_service sample_investigation) as [res|e] eqn:E; [|discriminate Hs].
  destruct (admission_authorized same sample_repr sample_hexdigest sample_policy sample_service sample_investigation res eq_refl E)
    as (Hkind&_&_&_&_&_&_&_&_&He&_).
  exists res. split; [reflexivity|]. split; [|exact Hkind]. injection Hs as Hk _ _. rewrite He, Hk. reflexivity.
Defined.

Lemma contracts_read_back_witness : ∃ res, admit_request same sample_repr sample_service sample_investigation = Ok res ∧
  ∃ case_id needs allow_wait,
    investigation_desired_state_of (tr_contract res) = Ok (mkInvestigationTaskDesiredState case_id needs allow_wait).
Proof.
  pose proof sample_admitted as Hs. destruct (admit_request same sample_repr sample_service sample_investigation) as [res|e] eqn:E; [|discriminate Hs].
  destruct (contracts_read_back same sample_repr sample_hexdigest sample_policy sample_service sample_investigation res eq_refl E)
    as (_&Hinv).
  injection Hs as Hk _ _. destruct Hinv as (case_id&needs&wait&_&_&_&H).
  { rewrite Hk. apply (bool_decide_unpack _). reflexivity. }
  exists res. split; [reflexivity|]. exists case_id, needs, wait. exact H.
Defined.

(** The background run of the sample vulnerability, and the role executing it with the sample services. *)
Definition sample_ensure (s : EnrichmentDB) (t : Z) :=
  ensure_background_vulnerability_enrichment_run same sample_repr same tc_id context_id sample_service sample_subject "CVE-2024-1" "p1"
    "events" "policy-v1" "u0" "e9" t s.
Definition background_id : string := background_run_id same sample_subject "p1".
Definition run_background (s : EnrichmentDB) :=
  run same sample_repr sample_iso sample_dump same er_stop_reason same (λ _, false) "events" sample_now same sample_execute
    8 background_id (s, []).
Example sample_background :
  (sample_ensure sample_db 50).1 = Ok background_id ∧
  (status <$> task_runs (en_tasks (sample_ensure sample_db 50).2) !! background_id) = Some SUBMITTED ∧
  (run_background (sample_ensure sample_db 50).2).2.2 = ["provider.cisa_kev"; "provider.first_epss"; "provider.github_advisory"; "provider.redhat_csaf_vex"; "provider.osv"]%string ∧
  (run_status <$> match (run_background (sample_ensure sample_db 50).2).1 with Ok o => Some o | Err _ => None end) = Some BLOCKED.
Proof. vm_compute. auto. Qed.

Lemma background_id_not_empty : background_id ≠ ""%string.
Proof. vm_compute. discriminate. Qed.

Lemma background_run_once_witness :
  ∃ id s', sample_ensure sample_db 50 = (Ok id, s') ∧ sample_ensure s' 60 = (Ok id, s') ∧ id = background_id.
Proof.
  pose proof sample_background as [Hid _]. destruct (sample_ensure sample_db 50) as [[id|e] s'] eqn:E; [|discriminate Hid].
  unfold sample_ensure in E.
  destruct (background_run_once same sample_repr sample_hexdigest same tc_id context_id sample_policy sample_service sample_subject
    "CVE-2024-1" "p1" "events" "policy-v1" "u0" "e9" 50 sample_db id s' sample_tasks_wf background_id_not_empty
    (create_service_Ok sample_hexdigest sample_policy) E) as (Hname&_&Hagain).
  exists id, s'. split; [reflexivity|]. split; [|exact Hname]. unfold sample_ensure. apply Hagain. reflexivity.
Defined.
