(* ===== verification/Handoff.v ===== *)
(** * Handoff: packages/task_runtime/context/handoff.py

    Delegation of a task to a child run, and the envelope in which a finished run hands its result to the
    context it is used in.  [create_child_task_run] checks the parent's delegation ceiling and the depth of
    the chain of parents, derives the child's context from the parent's and creates the run in the task
    store; [evaluate_task_result_context] asks the revision gate of TaskContext.v whether a result is still
    usable.  The walk up the parent chain is a loop with a set of visited runs; its fuel, one more than the
    number of runs, is never used up. *)

From S2P Require Import Prelude.
From S2P Require Import Effects.
From S2P Require Import TaskContracts.
From S2P Require Import TaskStore.
From S2P Require Import TaskContext.

Record TaskResultEnvelope := mkTaskResultEnvelope {
  result_id : string;
  sender : string;
  re_task_run_id : string;
  re_parent_run_id : option string;
  re_status : TaskRunStatus;
  re_based_on_context_id : string;
  re_based_on_context_revision : Z;
  re_payload_ref : string;
  re_evidence_refs : list string;
  re_state_refs : list string;
  re_artifact_refs : list string;
  re_dependencies : ContextDependencySet
}.

(** The [ge=1] of [based_on_context_revision]. *)
Definition make_TaskResultEnvelope (self : TaskResultEnvelope) : result TaskResultEnvelope :=
  if re_based_on_context_revision self <? 1
  then Err (ValueError "Input should be greater than or equal to 1") else Ok self.

(** [TaskResultEnvelope.context_provenance] *)
Definition context_provenance (self : TaskResultEnvelope) : ContextResultProvenance :=
  mkContextResultProvenance (re_based_on_context_id self) (re_based_on_context_revision self)
    (re_dependencies self).

(** [_validate_child_delegation] *)
Definition validate_child_delegation (parent child : TaskContract) : result unit :=
  let ceiling := delegation_ceiling parent in
  _ ← raise_when (negb (dc_allowed ceiling)) (ValueError "parent task contract does not allow delegation");
  _ ← raise_when (bool_decide (task_kind child ∉ allowed_task_kinds ceiling))
        (ValueError "child task kind exceeds parent delegation ceiling");
  raise_when (negb (effect_within_ceiling (effect_ceiling child) (child_effect_ceiling ceiling)))
    (ValueError "child task effect exceeds parent delegation ceiling").

(** The loop of [_delegation_depth]; [None] when the fuel is used up. *)
Fixpoint depth_loop (fuel : nat) (db : TaskDB) (seen : gset string) (current : string) (depth : Z)
  : option (result Z) :=
  match fuel with
  | O => None
  | S fuel' =>
      if bool_decide (current ∈ seen) then Some (Err (RuntimeError "task parent chain contains a cycle"))
      else
        match task_runs db !! current with
        | None => Some (Err (LookupError "task run not found while computing delegation depth" current))
        | Some run =>
            match parent_run_id run with
            | None => Some (Ok depth)
            | Some parent => depth_loop fuel' db ({[current]} ∪ seen) parent (depth + 1)
            end
        end
  end.

Definition depth_fuel (db : TaskDB) : nat := S (size (task_runs db)).

(** [_delegation_depth] *)
Definition delegation_depth (id : string) : prog TaskDB Z :=
  db ← get_store;
  lift (default (Err (OtherException "OutOfFuel" id)) (depth_loop (depth_fuel db) db ∅ id 0)).

Section digests.
Context (uuid5 : string → string) (contract_digest : TaskContract → string)
  (manifest_digest : ContextManifest → string).

Definition create_child_task_run (parent_id : string) (child_contract : TaskContract)
  (child_role : RoleProfile) (context_spec : ChildContextSpec) (envelope stream_name : string)
  (run_id' : option string) (uuid_run uuid_event producer : string) (instant : Z) : prog TaskDB TaskRun :=
  db ← get_store;
  parent ← require (task_runs db !! parent_id) (LookupError "parent task run not found" parent_id);
  check (bool_decide (status parent ≠ RUNNING))
    (ValueError "child task can only be created from a running parent");;
  parent_contract ← get_task_contract_for_run parent_id;
  lift (validate_child_delegation parent_contract child_contract);;
  depth ← delegation_depth parent_id;
  check (depth + 1 >? max_depth (delegation_ceiling parent_contract))
    (ValueError "child task exceeds parent delegation depth ceiling");;
  parent_manifest ← get_task_context parent_id;
  child_manifest ← lift (derive_child_context parent_manifest child_contract child_role context_spec);
  create_task_run uuid5 contract_digest manifest_digest child_contract child_manifest child_role envelope
    stream_name (case_ref child_manifest) (Some parent_id) run_id' uuid_run uuid_event producer instant.
End digests.

Definition build_task_result_envelope (id result_id : string) (dependencies : ContextDependencySet)
  (payload_ref : option string) (evidence_refs state_refs artifact_refs : list string)
  : prog TaskDB TaskResultEnvelope :=
  run ← lookup_run id;
  check (negb (is_terminal (status run)))
    (ValueError "TaskResultEnvelope can only be built for a terminal TaskRun");;
  manifest ← get_task_context id;
  let resolved_payload := if falsy payload_ref then result_ref run else payload_ref in
  check (falsy resolved_payload) (ValueError "TaskResultEnvelope requires payload_ref or TaskRun.result_ref");;
  lift (make_TaskResultEnvelope
    (mkTaskResultEnvelope result_id (run_role_id run +:+ "@" +:+ run_role_version run) (run_id run)
       (parent_run_id run) (status run) (context_id manifest) (context_revision manifest)
       (default ""%string resolved_payload) (sorted_set evidence_refs) (sorted_set state_refs)
       (sorted_set artifact_refs) dependencies)).

Definition evaluate_task_result_context (res : TaskResultEnvelope) (current_context_ref : option string)
  : prog TaskDB ContextCompatibility :=
  base ← get_context_manifest (versioned_ref (re_based_on_context_id res) (re_based_on_context_revision res));
  current ← (match current_context_ref with
             | Some ref => get_context_manifest ref
             | None => get_task_context (re_task_run_id res)
             end);
  mret (gate_evaluate base current (context_provenance res)).

(** ** The chain of parents *)

(** [ancestors db id l]: [l] is the chain of parents of the run [id], nearest first, up to a root. *)
Inductive ancestors (db : TaskDB) : string → list string → Prop :=
| anc_root id r : task_runs db !! id = Some r → parent_run_id r = None → ancestors db id []
| anc_child id r p l :
    task_runs db !! id = Some r → parent_run_id r = Some p → ancestors db p l → ancestors db id (p :: l).

Lemma ancestors_det db id l1 l2 : ancestors db id l1 → ancestors db id l2 → l1 = l2.
Proof.
  intros H1. revert l2. induction H1 as [id r Hr Hp|id r p l Hr Hp _ IH]; intros l2 H2; inversion H2; simplify_eq.
  - done.
  - f_equal. by apply IH.
Qed.

(** The ancestors of an ancestor are the rest of the chain. *)
Lemma ancestors_suffix db id l p :
  ancestors db id l → p ∈ l → ∃ l1 l2, l = l1 ++ p :: l2 ∧ ancestors db p l2.
Proof.
  intros H. induction H as [|id r q l Hr Hq Hl IH]; [by intros ?%not_elem_of_nil|].
  intros [->|Hp]%elem_of_cons; [by exists [], l|]. destruct (IH Hp) as (l1&l2&->&H2). by exists (q :: l1), l2.
Qed.

Lemma ancestors_no_cycle db id l : ancestors db id l → id ∉ l.
Proof.
  intros H Hin. destruct (ancestors_suffix _ _ _ _ H Hin) as (l1&l2&->&H2).
  pose proof (ancestors_det _ _ _ _ H H2) as E. apply (f_equal length) in E. rewrite length_app in E.
  simpl in E. lia.
Qed.

Lemma ancestors_NoDup db id l : ancestors db id l → NoDup (id :: l).
Proof.
  intros H. constructor; [by eapply ancestors_no_cycle|]. induction H as [|id r p l Hr Hp Hl IH]; constructor; [|done].
  by eapply ancestors_no_cycle.
Qed.

Lemma ancestors_exist db id l : ancestors db id l → ∀ x, x ∈ id :: l → x ∈ dom (task_runs db).
Proof.
  intros H. induction H as [id r Hr Hp|id r p l Hr Hp Hl IH]; intros x [->|Hx]%elem_of_cons; try by apply elem_of_dom.
  - by apply not_elem_of_nil in Hx.
  - by apply IH.
Qed.

(** Along a chain, the loop returns its length. *)
Lemma depth_loop_ancestors db id l fuel seen depth :
  ancestors db id l → (∀ x, x ∈ id :: l → x ∉ seen) → (length l < fuel)%nat →
  depth_loop fuel db seen id depth = Some (Ok (depth + Z.of_nat (length l))).
Proof.
  intros H. revert fuel seen depth.
  induction H as [id r Hr Hp|id r p l Hr Hp Hl IH]; intros fuel seen depth Hseen Hfuel;
    destruct fuel as [|fuel]; simpl in *; try lia;
    rewrite bool_decide_eq_false_2 by (apply Hseen, list_elem_of_here); rewrite Hr, Hp.
  - do 2 f_equal. lia.
  - rewrite IH; [do 2 f_equal; lia| |lia].
    intros x Hx. rewrite elem_of_union, elem_of_singleton. intros [->|Hx'].
    + assert (ancestors db id (p :: l)) as Ha by by eapply anc_child.
      by apply (ancestors_no_cycle _ _ _ Ha).
    + apply (Hseen x); [|done]. by apply list_elem_of_further.
Qed.

(** On any store the loop ends within its fuel: every round visits another run. *)
Lemma depth_loop_total db fuel seen id depth :
  seen ⊆ dom (task_runs db) → (size (task_runs db) < fuel + size seen)%nat →
  is_Some (depth_loop fuel db seen id depth).
Proof.
  revert seen id depth. induction fuel as [|fuel IH]; intros seen id depth Hsub Hsize.
  - apply subseteq_size in Hsub. rewrite size_dom in Hsub. simpl in Hsize. lia.
  - cbn [depth_loop]. case_bool_decide as Hin; [done|]. destruct (task_runs db !! id) as [run|] eqn:Hrun; [|done].
    destruct (parent_run_id run) as [p|]; [|done]. apply IH.
    + apply union_least; [|done]. apply singleton_subseteq_l. by apply elem_of_dom.
    + rewrite size_union by set_solver. rewrite size_singleton. lia.
Qed.

(** ** Histories keep the chains finite *)

(** Every run has a chain of parents that ends in a root. *)
Definition rooted (db : TaskDB) : Prop := ∀ id, is_Some (task_runs db !! id) → ∃ l, ancestors db id l.

(** The runs of [db'] that are not in [db] have the parent [parent], a run of [db]. *)
Definition new_runs_below (parent : option string) (db db' : TaskDB) : Prop :=
  ∀ k r, task_runs db' !! k = Some r → is_Some (task_runs db !! k) ∨
    parent_run_id r = parent ∧ ∀ p, parent = Some p → is_Some (task_runs db !! p).

Lemma ancestors_extends db db' id l : db_extends db db' → ancestors db id l → ancestors db' id l.
Proof.
  intros Hext H. induction H as [id r Hr Hp|id r p l Hr Hp _ IH];
    destruct (de_runs _ _ Hext _ _ Hr) as (r'&Hr'&[Hid _ _]).
  - eapply anc_root; [done|]. congruence.
  - eapply anc_child; [done| |done]. congruence.
Qed.

Lemma rooted_step parent db db' : rooted db → db_extends db db' → new_runs_below parent db db' → rooted db'.
Proof.
  intros Hroot Hext Hnew id [r Hr]. destruct (Hnew id r Hr) as [Hold|[<- Hpar]].
  - destruct (Hroot id Hold) as [l Hl]. exists l. by eapply ancestors_extends.
  - destruct (parent_run_id r) as [p|] eqn:Hp; [|by exists []; eapply anc_root].
    destruct (Hroot p (Hpar p eq_refl)) as [l Hl]. exists (p :: l). eapply anc_child; [done|done|].
    by eapply ancestors_extends.
Qed.

Lemma new_runs_same parent db db' : task_runs db' = task_runs db → new_runs_below parent db db'.
Proof. intros E k r Hr. left. rewrite <- E. by exists r. Qed.

Lemma new_runs_insert parent db db' k r0 r' :
  task_runs db !! k = Some r0 → task_runs db' = <[k := r']> (task_runs db) → new_runs_below parent db db'.
Proof.
  intros H0 E k' r. rewrite E, lookup_insert_Some. intros [[<- _]|[_ Hr]]; left; by eexists.
Qed.

Section histories.
Context (uuid5 : string → string) (contract_digest : TaskContract → string)
  (manifest_digest : ContextManifest → string).

Lemma create_new_runs c m role env stream case parent rid ur ue prod t db v db' :
  task_wf contract_digest manifest_digest db →
  create_task_run uuid5 contract_digest manifest_digest c m role env stream case parent rid ur ue prod t db
    = (Ok v, db') → new_runs_below parent db db'.
Proof.
  intros Hwf H. destruct (create_good _ _ _ _ _ _ _ _ _ _ _ _ _ _ _ _ _ _ Hwf H)
    as (_&r&_&_&Hruns&_&Hpr&_&_&_&_&Hpar).
  intros k r'. rewrite Hruns, lookup_insert_Some. intros [[_ <-]|[_ Hr]]; [right|left; by eexists].
  split; [done|]. intros p Hp. destruct (Hpar p Hp) as (pr&_&Hpr'&_). by exists pr.
Qed.

(** The parent of the run an operation creates. *)
Definition op_parent (op : task_op) : option string :=
  match op with CreateTaskRun _ _ _ _ _ _ parent _ _ _ _ _ => parent | _ => None end.

Lemma run_op_new_runs op db :
  task_wf contract_digest manifest_digest db →
  new_runs_below (op_parent op) db (run_op uuid5 contract_digest manifest_digest op db).2.
Proof.
  intros Hwf. unfold run_op.
  match goal with |- context [atomic ?m _] =>
    destruct (atomic_cases m db) as [(u&s'&Hm&->)|(e&s'&_&->)]; simpl; [|by apply new_runs_same] end.
  destruct op; apply bind_Ok in Hm as (x&s1&Hm&Hret); apply ret_Ok in Hret as [_ ->].
  - apply persist_contract_Ok in Hm as (_&[(_&->&_)|(_&->&_)]); by apply new_runs_same.
  - apply persist_manifest_versions in Hm as [Hr _]. by apply new_runs_same.
  - by eapply create_new_runs.
  - apply (claim_good contract_digest manifest_digest) in Hm as (_&_&r0&Hr0&Hc); [|done].
    destruct x; destruct Hc as [_ E]; [by eapply new_runs_insert|by apply new_runs_same; rewrite E].
  - eapply (update_good uuid5 contract_digest manifest_digest) in Hm as (_&_&r0&r'&Hr0&_&_&_&Hruns); [|done].
    by eapply new_runs_insert.
  - apply (transition_good contract_digest manifest_digest) in Hm as (_&_&r0&Hr0&Hruns); [|done].
    by eapply new_runs_insert.
  - apply append_extends in Hm as (_&Hr&_&_). by apply new_runs_same.
Qed.

Lemma rooted_empty : rooted empty_TaskDB.
Proof. intros id [r Hr]. done. Qed.

Lemma run_ops_rooted ops db :
  task_wf contract_digest manifest_digest db → rooted db →
  rooted (run_ops uuid5 contract_digest manifest_digest ops db).
Proof.
  revert db. induction ops as [|op ops IH]; intros db Hwf Hroot; [done|]. simpl.
  destruct (run_op_good uuid5 contract_digest manifest_digest op db Hwf) as [Hwf1 Hext].
  apply IH; [done|]. eapply rooted_step; [done|done|]. by apply run_op_new_runs.
Qed.
End histories.

Lemma delegation_depth_run db id l :
  ancestors db id l → delegation_depth id db = (Ok (Z.of_nat (length l)), db).
Proof.
  intros H. unfold delegation_depth. run_step. rewrite (depth_loop_ancestors db id l); [done|done| |].
  - intros x _. set_solver.
  - unfold depth_fuel. rewrite <- size_dom.
    pose proof (ancestors_NoDup _ _ _ H) as Hnd. apply NoDup_cons in Hnd as [_ Hnd].
    assert (size (list_to_set l : gset string) ≤ size (dom (task_runs db)))%nat as Hle.
    { apply subseteq_size. intros x Hx%elem_of_list_to_set. apply (ancestors_exist _ _ _ H).
      by apply list_elem_of_further. }
    rewrite size_list_to_set in Hle by done. lia.
Qed.

(** The walk up the parent chain ends on every store, also one whose parents form a cycle; and in every
    history of the task store it returns, for every run, the number of its ancestors: the cycle check and the
    missing-parent error are never reached. *)
Theorem delegation_depth_total :
  (∀ db id, is_Some (depth_loop (depth_fuel db) db ∅ id 0)) ∧
  ∀ uuid5 contract_digest manifest_digest ops id,
    let db := run_ops uuid5 contract_digest manifest_digest ops empty_TaskDB in
    is_Some (task_runs db !! id) →
    ∃ l, ancestors db id l ∧ NoDup (id :: l) ∧ delegation_depth id db = (Ok (Z.of_nat (length l)), db).
Proof.
  split.
  - intros db id. apply depth_loop_total; [set_solver|]. unfold depth_fuel. rewrite size_empty. lia.
  - intros uuid5 contract_digest manifest_digest ops id db Hid.
    destruct (run_ops_rooted uuid5 contract_digest manifest_digest ops empty_TaskDB
      (empty_wf _ _) rooted_empty id Hid) as [l Hl].
    exists l. split; [done|]. split; [by eapply ancestors_NoDup|]. by apply delegation_depth_run.
Qed.

(** ** Delegation through the handoff *)

Section delegation.
Context (uuid5 : string → string) (contract_digest : TaskContract → string)
  (manifest_digest : ContextManifest → string).

Lemma get_task_contract_Ok id db c db' :
  get_task_contract_for_run id db = (Ok c, db') → db' = db ∧ contract_of db id = Some c.
Proof.
  unfold get_task_contract_for_run. intros H. apply bind_Ok in H as (r&s1&H0&H).
  apply lookup_run_Ok in H0 as [Hr ->]. prog_inv H. unfold contract_of. rewrite Hr. simpl.
  by rewrite Hreq.
Qed.

Lemma get_task_context_Ok id db m db' :
  get_task_context id db = (Ok m, db') → db' = db ∧ ∃ r row, task_runs db !! id = Some r ∧
    get_manifest_version (run_context_manifest_version_id r) db = Some row ∧ m = manifest_json row.
Proof.
  unfold get_task_context. intros H. apply bind_Ok in H as (r&s1&H0&H).
  apply lookup_run_Ok in H0 as [Hr ->]. prog_inv H. split; [done|]. exists r. eexists. done.
Qed.

(** A child that is created passed every check, and is created by the task store. *)
Lemma create_child_Ok parent_id c role spec env stream rid ur ue prod t db v db' :
  create_child_task_run uuid5 contract_digest manifest_digest parent_id c role spec env stream rid ur ue prod t db
    = (Ok v, db') →
  ∃ parent pc pm cm depth, task_runs db !! parent_id = Some parent ∧ status parent = RUNNING ∧
    contract_of db parent_id = Some pc ∧ validate_child_delegation pc c = Ok tt ∧
    delegation_depth parent_id db = (Ok depth, db) ∧ depth + 1 ≤ max_depth (delegation_ceiling pc) ∧
    get_task_context parent_id db = (Ok pm, db) ∧ derive_child_context pm c role spec = Ok cm ∧
    create_task_run uuid5 contract_digest manifest_digest c cm role env stream (case_ref cm) (Some parent_id) rid
      ur ue prod t db = (Ok v, db').
Proof.
  unfold create_child_task_run. intros H. apply bind_Ok in H as (s0&s1&H0&H). apply get_store_Ok in H0 as [-> ->].
  apply bind_Ok in H as (parent&s1&H0&H). apply require_Ok in H0 as [Hparent ->].
  apply bind_Ok in H as (u&s1&H0&H). apply check_Ok in H0 as [Hst ->]. apply bool_decide_eq_false, dec_stable in Hst.
  apply bind_Ok in H as (pc&s1&H0&H). apply get_task_contract_Ok in H0 as [-> Hpc].
  apply bind_Ok in H as ([]&s1&H0&H). apply lift_Ok in H0 as [Hval ->].
  apply bind_Ok in H as (depth&s1&H0&H). assert (s1 = db) as -> by (unfold delegation_depth in H0; by prog_inv H0).
  apply bind_Ok in H as (u2&s1&H1&H). apply check_Ok in H1 as [Hd ->].
  apply bind_Ok in H as (pm&s1&H1&H). pose proof H1 as Hpm. apply get_task_context_Ok in H1 as [-> _].
  apply bind_Ok in H as (cm&s1&H1&H). apply lift_Ok in H1 as [Hcm ->].
  exists parent, pc, pm, cm, depth. split_and!; try done. rewrite Z.gtb_ltb in Hd.
  destruct (Z.ltb_spec (max_depth (delegation_ceiling pc)) (depth + 1)); [done|lia].
Qed.

(** Histories in which every child run is created by the handoff. *)
Inductive handoff_op :=
| HTask (op : task_op)
| HChild (parent_id : string) (contract : TaskContract) (role : RoleProfile) (spec : ChildContextSpec)
    (envelope stream : string) (run_id : option string) (uuid_run uuid_event producer : string) (instant : Z).

Definition handoff_presents (presented : TaskContract → Prop) (op : handoff_op) : Prop :=
  match op with
  | HTask op => presents presented op ∧ op_parent op = None
  | HChild _ c _ _ _ _ _ _ _ _ _ => presented c
  end.

Definition run_handoff_op (op : handoff_op) (db : TaskDB) : TaskDB :=
  match op with
  | HTask op => (run_op uuid5 contract_digest manifest_digest op db).2
  | HChild parent_id c role spec env stream rid ur ue prod t =>
      (atomic (create_child_task_run uuid5 contract_digest manifest_digest parent_id c role spec env stream rid ur ue
         prod t) db).2
  end.
Definition run_handoff_ops (ops : list handoff_op) (db : TaskDB) : TaskDB := foldl (flip run_handoff_op) db ops.

(** A step of the handoff is a step of the task store; a child run it creates is one level deeper than its
    parent and within the [max_depth] of the parent's contract. *)
Lemma handoff_step presented op db :
  handoff_presents presented op →
  run_handoff_op op db = db ∨
  ∃ op', run_handoff_op op db = (run_op uuid5 contract_digest manifest_digest op' db).2 ∧ presents presented op' ∧
    ∀ p, op_parent op' = Some p → ∃ pc depth, contract_of db p = Some pc ∧
      delegation_depth p db = (Ok depth, db) ∧ depth + 1 ≤ max_depth (delegation_ceiling pc).
Proof.
  destruct op as [op|p c role spec env stream rid ur ue prod t]; simpl.
  - intros [Hp Hnone]. right. exists op. split_and!; [done|done|]. intros p Hp'. congruence.
  - intros Hp. destruct (atomic_cases (create_child_task_run uuid5 contract_digest manifest_digest p c role spec env
      stream rid ur ue prod t) db) as [(v&db'&H&->)|(e&db'&_&->)]; [right|by left].
    apply create_child_Ok in H as (parent&pc&pm&cm&depth&_&_&Hpc&_&Hdepth&Hmax&_&_&Hcreate).
    exists (CreateTaskRun c cm role env stream (case_ref cm) (Some p) rid ur ue prod t). split.
    + simpl. unfold run_op, atomic. unfold mbind, prog_bind. by rewrite Hcreate.
    + split; [done|]. intros p' [= <-]. by exists pc, depth.
Qed.

Context (presented : TaskContract → Prop).
Context (collision_free : ∀ c1 c2, presented c1 → presented c2 →
  contract_digest c1 = contract_digest c2 → c1 = c2).
Abbreviation delegation_ok := (delegation_ok contract_digest manifest_digest presented).

(** The depth of a child run is within the [max_depth] of its parent's contract. *)
Definition depth_within (db : TaskDB) : Prop :=
  ∀ id p l pc, ancestors db id (p :: l) → contract_of db p = Some pc →
    Z.of_nat (length (p :: l)) ≤ max_depth (delegation_ceiling pc).

Lemma depth_within_step db db' op :
  delegation_ok db → rooted db → depth_within db → db_extends db db' →
  new_runs_below (op_parent op) db db' →
  (∀ p, op_parent op = Some p → ∃ pc depth, contract_of db p = Some pc ∧
    delegation_depth p db = (Ok depth, db) ∧ depth + 1 ≤ max_depth (delegation_ceiling pc)) →
  depth_within db'.
Proof.
  intros Hok Hroot Hin Hext Hnew Hop id p l pc Hanc Hpc. inversion Hanc as [|? r ? ? Hr Hp Hl]; simplify_eq.
  destruct (Hnew id r Hr) as [Hold|[Hpar Hsome]].
  - destruct (Hroot id Hold) as [l0 Hl0].
    pose proof (ancestors_det _ _ _ _ Hanc (ancestors_extends _ _ _ _ Hext Hl0)) as <-.
    inversion Hl0 as [|? r0 ? ? Hr0 Hp0 _]; simplify_eq.
    destruct (do_parent _ _ _ _ Hok _ _ _ Hr0 Hp0) as (pc0&_&Hpc0&_).
    pose proof (contract_of_extends _ _ _ _ Hext Hpc0) as E. apply (Hin id p l); congruence.
  - destruct (Hop p) as (pc0&depth&Hpc0&Hdepth&Hmax); [congruence|].
    destruct (Hroot p) as [l0 Hl0]; [apply Hsome; congruence|].
    pose proof (ancestors_det _ _ _ _ Hl (ancestors_extends _ _ _ _ Hext Hl0)) as <-.
    rewrite (delegation_depth_run _ _ _ Hl0) in Hdepth. injection Hdepth as <-.
    pose proof (contract_of_extends _ _ _ _ Hext Hpc0) as E. assert (pc0 = pc) as -> by congruence.
    cbn [length]. lia.
Qed.

Lemma handoff_ops_good ops db :
  delegation_ok db → rooted db → depth_within db → Forall (handoff_presents presented) ops →
  delegation_ok (run_handoff_ops ops db) ∧ rooted (run_handoff_ops ops db) ∧ depth_within (run_handoff_ops ops db).
Proof.
  intros Hok Hroot Hin Hops. revert db Hok Hroot Hin. induction Hops as [|op ops Hop _ IH]; intros db Hok Hroot Hin; [done|].
  simpl. unfold flip. destruct (handoff_step presented op db Hop) as [->|(op'&->&Hp&Hpar)]; [by apply IH|].
  pose proof (do_wf _ _ _ _ Hok) as Hwf.
  destruct (run_op_good uuid5 contract_digest manifest_digest op' db Hwf) as [_ Hext].
  pose proof (run_op_new_runs uuid5 contract_digest manifest_digest op' db Hwf) as Hnew.
  apply IH; [by apply run_op_delegation_ok|by eapply rooted_step|by eapply depth_within_step].
Qed.

(** Up a chain every level of delegation costs the ceiling at least one. *)
Lemma chain_ceiling db id l root c :
  delegation_ok db → ancestors db id l → last l = Some root → contract_of db root = Some c →
  ∀ p pc, head l = Some p → contract_of db p = Some pc →
    max_depth (delegation_ceiling pc) + Z.of_nat (length l) - 1 ≤ max_depth (delegation_ceiling c).
Proof.
  intros Hok Hanc. induction Hanc as [|id r p l Hr Hp Hl IH]; [done|]. intros Hlast Hc p' pc [= <-] Hpc.
  destruct l as [|q l].
  - simpl in Hlast. injection Hlast as ->. simpl. assert (pc = c) as -> by congruence. lia.
  - inversion Hl as [|? rp ? ? Hrp Hpq _]; simplify_eq.
    destruct (do_parent _ _ _ _ Hok _ _ _ Hr Hp) as (pc'&cc&Hpc'&_&[Hallowed _]%child_allowed).
    assert (pc' = pc) as -> by congruence.
    destruct (do_parent _ _ _ _ Hok _ _ _ Hrp Hpq) as (qc&pc'&Hqc&Hpc''&(_&_&_&Hdec)%child_allowed).
    assert (pc' = pc) as -> by congruence. destruct (Hdec Hallowed) as (_&Hlt&_).
    pose proof (IH Hlast Hc q qc eq_refl Hqc) as Hle. cbn [length] in *. lia.
Qed.
End delegation.

(** C38. The handoff counts the depth of a delegation twice: it compares the child's depth below the root with the
    [max_depth] of its parent, which every level below the root already had to lower.  So when all child
    runs are created by it (from contracts that were validated and whose digests do not collide), a chain of
    delegations below a run of contract [c] has at most (max_depth c + 1) / 2 levels. *)
Theorem handoff_depth_halved uuid5 contract_digest manifest_digest presented ops id l root c :
  (∀ c1 c2, presented c1 → presented c2 → contract_digest c1 = contract_digest c2 → c1 = c2) →
  Forall (handoff_presents presented) ops →
  let db := run_handoff_ops uuid5 contract_digest manifest_digest ops empty_TaskDB in
  ancestors db id l → last l = Some root → contract_of db root = Some c →
  2 * Z.of_nat (length l) ≤ max_depth (delegation_ceiling c) + 1.
Proof.
  intros Hcoll Hops db Hanc Hlast Hc.
  destruct (handoff_ops_good uuid5 contract_digest manifest_digest presented Hcoll ops empty_TaskDB)
    as (Hok&_&Hin); [| |by intros ? ? ? ? H; inversion H|done|].
  { split; [apply empty_wf|by intros ? ?%not_elem_of_nil|done]. }
  { apply rooted_empty. }
  fold db in Hok, Hin. destruct l as [|p l]; [done|]. pose proof Hanc as Hanc'. inversion Hanc as [|? r ? ? Hr Hp _]; simplify_eq.
  destruct (do_parent _ _ _ _ Hok _ _ _ Hr Hp) as (pc&_&Hpc&_).
  pose proof (Hin _ _ _ _ Hanc' Hpc) as H1.
  pose proof (chain_ceiling _ _ _ db id (p :: l) root c Hok Hanc' Hlast Hc p pc eq_refl Hpc) as H2.
  lia.
Qed.

(** ** Results *)

Lemma get_context_manifest_elem contract_digest manifest_digest db row :
  task_wf contract_digest manifest_digest db → row ∈ manifest_versions db →
  cmv_context_id row ≠ ""%string → 0 ≤ cmv_context_revision row →
  get_context_manifest (versioned_ref (cmv_context_id row) (cmv_context_revision row)) db =
    (Ok (manifest_json row), db).
Proof.
  intros Hwf Hrow Hid Hrev. unfold get_context_manifest, context_from_ref. run_step.
  rewrite split_ref_versioned by done. simpl.
  rewrite (find_NoDup manifest_key _ _ row); [done|by eapply wf_manifest_keys| |done].
  intros y _. rewrite is_manifest_version_true. unfold manifest_key. split; [by intros [-> ->]|by intros [= -> ->]].
Qed.

Lemma get_task_context_elem db id r row :
  task_runs db !! id = Some r → get_manifest_version (run_context_manifest_version_id r) db = Some row →
  get_task_context id db = (Ok (manifest_json row), db).
Proof. intros Hr Hrow. unfold get_task_context, lookup_run. run_step. by rewrite Hr, Hrow. Qed.

Lemma gate_same m deps id rev :
  id = context_id m → rev = context_revision m →
  compat_status (gate_evaluate m m (mkContextResultProvenance id rev deps)) = VALID ∧
  reasons (gate_evaluate m m (mkContextResultProvenance id rev deps)) = [].
Proof.
  intros -> ->. assert (is_empty (diff_contexts m m) = true) as He by by apply diff_empty.
  unfold gate_evaluate. cbv zeta. cbn [based_on_context_id based_on_context_revision].
  rewrite !bool_decide_eq_false_2 by (intros ?; done). rewrite Z.eqb_refl, Z.ltb_irrefl, He. done.
Qed.

(** The envelope of a result is built only for an ended run and only with a payload; it names the context the
    run ended on, and whatever happens to the store later, evaluating it against its own run is valid with no
    reason: an ended run's context cannot move.  Only a context named explicitly can make it stale. *)
Theorem result_stays_valid uuid5 contract_digest manifest_digest db id rid deps payload ev st ar env db1 ops :
  task_wf contract_digest manifest_digest db →
  build_task_result_envelope id rid deps payload ev st ar db = (Ok env, db1) →
  re_based_on_context_id env ≠ ""%string →
  db1 = db ∧
  (∃ r, task_runs db !! id = Some r ∧ is_terminal (status r) = true ∧ re_status env = status r ∧
    re_task_run_id env = id ∧ re_parent_run_id env = parent_run_id r ∧
    re_based_on_context_id env = run_context_id r ∧ re_based_on_context_revision env = run_context_revision r ∧
    re_payload_ref env ≠ ""%string ∧ ∀ x, x ∈ re_evidence_refs env ↔ x ∈ ev) ∧
  let db2 := run_ops uuid5 contract_digest manifest_digest ops db in
  ∃ c, evaluate_task_result_context env None db2 = (Ok c, db2) ∧ compat_status c = VALID ∧ reasons c = [].
Proof.
  intros Hwf H Hid. unfold build_task_result_envelope in H.
  apply bind_Ok in H as (r&s1&H0&H). apply lookup_run_Ok in H0 as [Hr ->].
  apply bind_Ok in H as (u&s1&H0&H). apply check_Ok in H0 as [Hterm ->]. apply negb_false_iff in Hterm.
  apply bind_Ok in H as (m&s1&H0&H). apply get_task_context_Ok in H0 as (->&r'&row&Hr'&Hrow&->).
  assert (r' = r) as -> by congruence. cbv zeta in H.
  apply bind_Ok in H as (u2&s1&H0&H). apply check_Ok in H0 as [Hpay ->]. apply lift_Ok in H as [Henv ->].
  unfold make_TaskResultEnvelope in Henv. cbn [re_based_on_context_revision] in Henv.
  destruct (Z.ltb_spec (context_revision (manifest_json row)) 1) as [|Hrev]; [done|]. injection Henv as <-.
  cbn [re_based_on_context_id] in Hid.
  assert (row ∈ manifest_versions db) as Hin by by apply find_elem in Hrow as [? _].
  destruct (proj1 (Forall_forall _ _) (wf_manifests _ _ _ Hwf) row Hin) as [E1 E2 _].
  destruct (rro_manifest _ _ (wf_runs _ _ _ Hwf _ _ Hr)) as (row'&Hrow'&Hkey).
  assert (row' = row) as -> by congruence. injection Hkey as K1 K2.
  split; [done|]. split.
  { exists r. simpl. pose proof (wf_run_key _ _ _ Hwf _ _ Hr). split_and!; try congruence.
    - intros E. revert Hpay. destruct (if falsy payload then _ else _) as [p|]; [|done]. simpl in E. by subst p.
    - intros x. apply elem_of_sorted_set. }
  intros db2. destruct (run_ops_good uuid5 contract_digest manifest_digest ops db Hwf) as [Hwf2 Hext]. fold db2 in Hwf2, Hext.
  destruct (de_runs _ _ Hext _ _ Hr) as (r2&Hr2&[_ _ Hsame]). rewrite (Hsame Hterm) in Hr2.
  destruct (de_manifests _ _ Hext) as [more Hmore].
  assert (row ∈ manifest_versions db2) as Hin2 by (rewrite Hmore; apply elem_of_app; by left).
  assert (get_manifest_version (run_context_manifest_version_id r) db2 = Some row) as Hrow2.
  { unfold get_manifest_version in *. by rewrite Hmore, find_app, Hrow. }
  eexists. split.
  - unfold evaluate_task_result_context. simpl. unfold mbind, prog_bind.
    rewrite <- E1, <- E2, (get_context_manifest_elem contract_digest manifest_digest) by (done || lia || congruence).
    rewrite (wf_run_key _ _ _ Hwf _ _ Hr), (get_task_context_elem _ _ _ _ Hr2 Hrow2). done.
  - apply gate_same; simpl; congruence.
Qed.

(** ** A concrete delegation *)

Definition sample_spec (id : string) : ChildContextSpec :=
  mkChildContextSpec id "policy:1" "envelope:1" "budget:1" false false false [] [] [] [] [] [] None.

Definition start_run (id : string) (t : Z) : list handoff_op :=
  [HTask (TransitionTaskRun id QUEUED "submit" "k1" "events" "task-runtime" None None ("q-" +:+ id) t);
   HTask (ClaimQueuedTaskRun id "events" ("c-" +:+ id) "executor" (t + 1))].
Definition sample_delegation : list handoff_op :=
  HTask (CreateTaskRun sample_root (sample_manifest "ctx-root" "root@1" "InvestigationRole@1" 1 None)
           InvestigationRole "env-1" "events" None None (Some "r0"%string) "" "e0" "task-runtime" 10)
  :: start_run "r0" 20
  ++ HChild "r0" sample_child EnrichmentRole (sample_spec "ctx-child") "env-2" "events" (Some "r1"%string) "" "e3"
       "task-runtime" 30
  :: start_run "r1" 40
  ++ [HChild "r1" sample_grandchild EnrichmentRole (sample_spec "ctx-grandchild") "env-3" "events"
        (Some "r2"%string) "" "e6" "task-runtime" 50].
Definition delegated_store : TaskDB :=
  run_handoff_ops id_uuid5 tc_id context_id sample_delegation empty_TaskDB.

(** The root allows two levels and the contracts of both children pass the check of the task store, but the
    handoff refuses the second level. *)
Example second_level_refused :
  max_depth (delegation_ceiling sample_root) = 2 ∧
  check_allowed (validate_child_contract sample_root sample_child) = true ∧
  check_allowed (validate_child_contract sample_child sample_grandchild) = true ∧
  status <$> (task_runs delegated_store !! "r1"%string) = Some RUNNING ∧
  (task_runs delegated_store !! "r2"%string) = None ∧
  (create_child_task_run id_uuid5 tc_id context_id "r1" sample_grandchild EnrichmentRole
     (sample_spec "ctx-grandchild") "env-3" "events" (Some "r2"%string) "" "e6" "task-runtime" 50 delegated_store).1 =
    Err (ValueError "child task exceeds parent delegation depth ceiling").
Proof. split_and!; vm_compute; reflexivity. Qed.

Lemma child_of_root db id p :
  parent_run_id <$> (task_runs db !! id) = Some (Some p) → parent_run_id <$> (task_runs db !! p) = Some None →
  ancestors db id [p].
Proof.
  intros (r&Hr&Hp)%fmap_Some (r0&Hr0&Hp0)%fmap_Some. eapply anc_child; [done|done|]. by eapply anc_root.
Qed.

Lemma delegated_chain :
  ancestors (run_handoff_ops id_uuid5 tc_id context_id sample_delegation empty_TaskDB) "r1" ["r0"%string].
Proof. apply child_of_root; vm_compute; reflexivity. Qed.

Lemma delegation_depth_total_witness :
  ∃ l, ancestors sample_store "r1" l ∧ delegation_depth "r1" sample_store = (Ok (Z.of_nat (length l)), sample_store).
Proof.
  assert (bool_decide (is_Some (task_runs sample_store !! "r1"%string)) = true) as Hr by (vm_compute; reflexivity).
  apply bool_decide_eq_true in Hr.
  destruct (proj2 delegation_depth_total id_uuid5 tc_id context_id sample_ops "r1" Hr) as (l&Hl&_&Hd).
  exists l. split; [exact Hl|exact Hd].
Defined.

Lemma handoff_depth_halved_witness :
  2 * Z.of_nat (length ["r0"%string]) ≤ max_depth (delegation_ceiling sample_root) + 1.
Proof.
  apply (handoff_depth_halved id_uuid5 tc_id context_id
    (λ c, c = sample_root ∨ c = sample_child ∨ c = sample_grandchild) sample_delegation "r1" ["r0"%string] "r0").
  - intros c1 c2 [->|[->| ->]] [->|[->| ->]]; done.
  - unfold sample_delegation, start_run. simpl. rewrite !Forall_cons. simpl. auto 20.
  - exact delegated_chain.
  - reflexivity.
  - vm_compute; reflexivity.
Defined.

Definition ended_store : TaskDB :=
  run_ops id_uuid5 tc_id context_id
    (sample_ops ++ [TransitionTaskRun "r0" COMPLETED "done" "k9" "events" "role" (Some "artifact:9"%string) None "e9" 60])
    empty_TaskDB.

Lemma result_stays_valid_witness :
  ∃ env, build_task_result_envelope "r0" "result-1" no_dependencies None ["b"%string; "a"%string] [] [] ended_store =
      (Ok env, ended_store) ∧ re_payload_ref env = "artifact:9"%string ∧
    let later := run_ops id_uuid5 tc_id context_id
      [TransitionTaskRun "r1" CANCELLED "stop" "k5" "events" "role" None None "e12" 70] ended_store in
    ∃ c, evaluate_task_result_context env None later = (Ok c, later) ∧ compat_status c = VALID.
Proof.
  destruct (build_task_result_envelope "r0" "result-1" no_dependencies None ["b"%string; "a"%string] [] [] ended_store)
    as [[env|e] db1] eqn:Hrun; [|vm_compute in Hrun; discriminate].
  assert (match build_task_result_envelope "r0" "result-1" no_dependencies None ["b"%string; "a"%string] [] []
    ended_store with (Ok env, _) => (re_payload_ref env, re_based_on_context_id env) =
      ("artifact:9"%string, "ctx-root"%string) | _ => False end) as Hpay by (vm_compute; reflexivity).
  rewrite Hrun in Hpay. injection Hpay as Hpay Hctx.
  destruct (result_stays_valid id_uuid5 tc_id context_id ended_store "r0" "result-1" no_dependencies None
    ["b"%string; "a"%string] [] [] env db1 [TransitionTaskRun "r1" CANCELLED "stop" "k5" "events" "role" None None "e12" 70]
    (proj1 (run_ops_good _ _ _ _ _ (empty_wf _ _))) Hrun)
    as (->&_&c&Hc&Hvalid&_).
  - rewrite Hctx. discriminate.
  - exists env. split; [reflexivity|]. split; [exact Hpay|]. exists c. split; [exact Hc|exact Hvalid].
Defined.
