(* ===== verification/InvestigationState.v ===== *)
(** * InvestigationState: packages/investigation/state (contracts.py, service.py, world_change.py) and cases/service.py

    An investigation case is a log of events; its state is what the log says.  [InvestigationStateService]
    appends events under an optimistic revision check, rebuilds the stored projection after each change
    and can materialize any past revision from the log; [WorldChangeService] invalidates what a change of
    the knowledge base no longer supports; [CaseService] moves the life cycle.  The store [CaseDB] holds
    the tables of investigation/storage/models.py; the knowledge base that answers which references exist
    and what they support is the store [KnowledgeDB], which these operations only read.  Event ids are a
    function [fresh] of the revision, an operation reads the clock once ([now]). *)

From S2P Require Import Prelude.
From S2P Require Import Effects.
From Stdlib Require Import Ascii.

Abbreviation dict := (list (string * json)).

(** ** contracts.py *)

Inductive CaseLifecycle := LC_CREATED | LC_ACTIVE | LC_WAITING | LC_RESOLVED | LC_CLOSED | LC_CANCELLED.
Inductive ProposedState := CONFIRMED | TENTATIVE | CONFLICT | UNKNOWN | HYPOTHESIS.
Inductive PatchDisposition := SET | CLEAR.
Inductive ReasoningSemantics := DETERMINISTIC | INFERRED.
Inductive EvidenceNeedStatus := NEED_OPEN | NEED_RESOLVED | NEED_BLOCKED | NEED_ABANDONED.
Inductive CaseStateEventType :=
| FACT_CONFIRMED | FACT_RETRACTED | TENTATIVE_ADDED | TENTATIVE_REMOVED | CONFLICT_OPENED
| CONFLICT_RESOLVED | UNKNOWN_OPENED | UNKNOWN_RESOLVED | HYPOTHESIS_ADDED | HYPOTHESIS_REJECTED
| EVIDENCE_NEED_OPENED | EVIDENCE_NEED_RESOLVED | EVIDENCE_ATTACHED | DECISION_CHANGED
| PERCEPTION_RECORDED.

#[export] Instance CaseLifecycle_eq_dec : EqDecision CaseLifecycle.
Proof. solve_decision. Defined.
#[export] Instance ProposedState_eq_dec : EqDecision ProposedState.
Proof. solve_decision. Defined.
#[export] Instance PatchDisposition_eq_dec : EqDecision PatchDisposition.
Proof. solve_decision. Defined.
#[export] Instance ReasoningSemantics_eq_dec : EqDecision ReasoningSemantics.
Proof. solve_decision. Defined.
#[export] Instance EvidenceNeedStatus_eq_dec : EqDecision EvidenceNeedStatus.
Proof. solve_decision. Defined.
#[export] Instance CaseStateEventType_eq_dec : EqDecision CaseStateEventType.
Proof. solve_decision. Defined.

Definition CaseLifecycle_value (l : CaseLifecycle) : string :=
  match l with
  | LC_CREATED => "created" | LC_ACTIVE => "active" | LC_WAITING => "waiting"
  | LC_RESOLVED => "resolved" | LC_CLOSED => "closed" | LC_CANCELLED => "cancelled"
  end.
Definition ProposedState_value (s : ProposedState) : string :=
  match s with
  | CONFIRMED => "confirmed" | TENTATIVE => "tentative" | CONFLICT => "conflict"
  | UNKNOWN => "unknown" | HYPOTHESIS => "hypothesis"
  end.
Definition PatchDisposition_value (d : PatchDisposition) : string :=
  match d with SET => "set" | CLEAR => "clear" end.
Definition ReasoningSemantics_value (s : ReasoningSemantics) : string :=
  match s with DETERMINISTIC => "deterministic" | INFERRED => "inferred" end.

Record ReasoningRelation := mkReasoningRelation {
  relation_type : string;
  semantics : ReasoningSemantics;
  source_refs : list string
}.
Definition validate_relation (self : ReasoningRelation) : result ReasoningRelation :=
  if py_blank (relation_type self) then Err (ValueError "reasoning relation_type cannot be empty") else Ok self.

Record StatePatchOperation := mkStatePatchOperation {
  op_proposition : string;
  op_target_ref : option string;
  op_proposed_state : ProposedState;
  op_disposition : PatchDisposition;
  op_evidence_refs : list string;
  op_reasoning_relation : option ReasoningRelation;
  op_resolves_need_id : option string
}.
Definition validate_operation (self : StatePatchOperation) : result StatePatchOperation :=
  if py_blank (op_proposition self) then Err (ValueError "state patch proposition cannot be empty")
  else if bool_decide (op_proposed_state self ∈ [CONFIRMED; CONFLICT])
          && bool_decide (op_disposition self = SET) && bool_decide (op_evidence_refs self = [])
  then Err (ValueError "state requires evidence_refs")
  else Ok self.

Record StatePatch := mkStatePatch {
  sp_patch_id : string;
  sp_case_id : string;
  sp_base_case_revision : Z;
  sp_operations : list StatePatchOperation;
  sp_producer : string;
  sp_model_prompt_revision : option string
}.
(** Constructing a patch validates its operations, then its identity. *)
Definition validate_patch_model (self : StatePatch) : result StatePatch :=
  if existsb (λ o, negb (is_ok (validate_operation o))) (sp_operations self)
  then Err (ValueError "invalid StatePatchOperation")
  else if (sp_base_case_revision self <? 0) || bool_decide (sp_operations self = [])
  then Err (ValueError "invalid StatePatch")
  else if py_blank (sp_patch_id self) || py_blank (sp_case_id self) || py_blank (sp_producer self)
  then Err (ValueError "StatePatch identity/producer cannot be empty")
  else Ok self.

Record EvidenceNeedContract := mkEvidenceNeedContract {
  require_evidence : bool;
  required_source_roles : list string;
  min_independent_sources : Z;
  accepted_states : list ProposedState
}.
Definition default_contract : EvidenceNeedContract :=
  mkEvidenceNeedContract true [] 1 [CONFIRMED; CONFLICT; UNKNOWN].

Record DecisionCommit := mkDecisionCommit {
  dc_decision_id : string;
  dc_case_id : string;
  dc_base_case_revision : Z;
  dc_decision : dict;
  dc_producer : string
}.
(** [value == n] for a JSON value and an int: booleans and floats compare by value. *)
Definition json_equals_int (v : option json) (n : Z) : bool :=
  match v with
  | Some (JInt z) => z =? n
  | Some (JBool b) => (if b then 1 else 0) =? n
  | Some (JFloat (Finite m e)) => if 0 <=? e then m * 2 ^ e =? n else m =? n * 2 ^ (- e)
  | _ => false
  end.
Definition validate_commit (self : DecisionCommit) : result DecisionCommit :=
  if dc_base_case_revision self <? 0 then Err (ValueError "Input should be greater than or equal to 0")
  else if py_blank (dc_decision_id self) || py_blank (dc_case_id self) || py_blank (dc_producer self)
  then Err (ValueError "DecisionCommit identity/producer cannot be empty")
  else if bool_decide (dict_get "decision_id" (dc_decision self) ≠ Some (JStr (dc_decision_id self)))
          || bool_decide (dict_get "case_id" (dc_decision self) ≠ Some (JStr (dc_case_id self)))
  then Err (ValueError "DecisionCommit payload identity mismatch")
  else if negb (json_equals_int (dict_get "case_revision" (dc_decision self)) (dc_base_case_revision self))
  then Err (ValueError "DecisionCommit payload revision mismatch")
  else Ok self.

Record CaseStateEvent := mkCaseStateEvent {
  ce_event_id : string;
  ce_case_id : string;
  ce_case_revision : Z;
  ce_base_case_revision : Z;
  ce_event_type : CaseStateEventType;
  ce_proposition : option string;
  ce_target_ref : option string;
  ce_evidence_refs : list string;
  ce_writer : string;
  ce_reason_code : string;
  ce_payload : dict;
  ce_created_at : Z
}.

Record InvestigationStateItem := mkInvestigationStateItem {
  si_proposition : string;
  si_target_ref : option string;
  si_evidence_refs : list string;
  si_writer : string;
  si_reason_code : string;
  si_reasoning_relation : option ReasoningRelation;
  si_updated_revision : Z
}.

Record InvestigationState := mkInvestigationState {
  is_case_id : string;
  is_case_revision : Z;
  is_goal : string;
  is_targets : list string;
  is_confirmed : list InvestigationStateItem;
  is_tentative : list InvestigationStateItem;
  is_conflicts : list InvestigationStateItem;
  is_unknowns : list InvestigationStateItem;
  is_hypotheses : list InvestigationStateItem;
  is_open_questions : list string;
  is_decision_variables : list string;
  is_evidence_need_ids : list string;
  is_active_skills : list string;
  is_normative_context_refs : list string;
  is_unresolved_applicability : list string;
  is_current_decision : option dict;
  is_last_world_revision : option Z;
  is_last_perception_at : option Z;
  is_updated_at : Z
}.

(** ** storage/models.py *)

Record InvestigationCaseModel := mkInvestigationCaseModel {
  case_id : string;
  task_signature : string;
  target_object_ids : list string;
  goal : string;
  initial_knowledge_revision : option Z;
  case_constraints : dict;
  rubric : dict;
  case_status : string;
  current_revision : Z;
  case_created_at : Z;
  closed_at : option Z
}.

Record CaseStateEventModel := mkCaseStateEventModel {
  ev_event_id : string;
  ev_case_id : string;
  ev_case_revision : Z;
  ev_base_case_revision : Z;
  ev_event_type : CaseStateEventType;
  ev_patch_id : option string;
  ev_operation_index : option Z;
  ev_proposition : option string;
  ev_target_ref : option string;
  ev_evidence_refs : list string;
  ev_writer : string;
  ev_reason_code : string;
  ev_payload : dict;
  ev_created_at : Z
}.

Record EvidenceNeedModel := mkEvidenceNeedModel {
  need_id : string;
  need_case_id : string;
  derived_from_enrichment_requirement : option string;
  proposition_or_question : string;
  purpose : string;
  target_objects : list string;
  evidence_contract : EvidenceNeedContract;
  preferred_source_roles : list string;
  rejected_evidence_patterns : list string;
  freshness_requirement : dict;
  completion_predicate : dict;
  priority : Z;
  need_status : EvidenceNeedStatus;
  resolution_evidence_refs : list string;
  opened_revision : Z;
  updated_revision : Z;
  opened_at : Z;
  need_updated_at : Z
}.

(** An entry of a bucket, as the projection stores it. *)
Record StateItem := mkStateItem {
  it_proposition : string;
  it_target_ref : option string;
  it_evidence_refs : list string;
  it_writer : string;
  it_reason_code : string;
  it_reasoning_relation : json;
  it_updated_revision : Z
}.

Record InvestigationStateCurrentModel := mkInvestigationStateCurrentModel {
  cur_case_id : string;
  cur_case_revision : Z;
  cur_goal : string;
  cur_targets : list string;
  cur_confirmed : list StateItem;
  cur_tentative : list StateItem;
  cur_conflicts : list StateItem;
  cur_unknowns : list StateItem;
  cur_hypotheses : list StateItem;
  cur_open_questions : list string;
  cur_decision_variables : list string;
  cur_evidence_need_ids : list string;
  cur_active_skills : list string;
  cur_normative_context_refs : list string;
  cur_unresolved_applicability : list string;
  cur_current_decision : option dict;
  cur_last_world_revision : option Z;
  cur_last_perception_at : option Z;
  cur_updated_at : Z
}.

(** A row of [perception_events]; the projection reads the case, the revision and the end of a perception. *)
Record PerceptionEvent := mkPerceptionEvent {
  pe_perception_event_id : string;
  pe_case_id : string;
  pe_task_run_id : string;
  pe_request_id : string;
  pe_need_id : option string;
  pe_request_json : dict;
  pe_plan_json : dict;
  pe_percept_ref : string;
  pe_evidence_refs : list string;
  pe_observation_refs : list string;
  pe_cost : dict;
  pe_world_revision : Z;
  pe_status : string;
  pe_failure_class : option string;
  pe_started_at : Z;
  pe_finished_at : Z
}.

(** [trajectories]: the case and the status of each trajectory, which closing a case reads. *)
Record CaseDB := mkCaseDB {
  cases : gmap string InvestigationCaseModel;
  case_events : list CaseStateEventModel;
  evidence_needs : gmap string EvidenceNeedModel;
  state_current : gmap string InvestigationStateCurrentModel;
  perception_events : list PerceptionEvent;
  trajectories : list (string * string)
}.

Definition put_case (c : InvestigationCaseModel) (db : CaseDB) : CaseDB :=
  mkCaseDB (<[case_id c := c]> (cases db)) (case_events db) (evidence_needs db) (state_current db)
    (perception_events db) (trajectories db).
Definition add_case_event (e : CaseStateEventModel) (db : CaseDB) : CaseDB :=
  mkCaseDB (cases db) (case_events db ++ [e]) (evidence_needs db) (state_current db) (perception_events db)
    (trajectories db).
Definition put_need (n : EvidenceNeedModel) (db : CaseDB) : CaseDB :=
  mkCaseDB (cases db) (case_events db) (<[need_id n := n]> (evidence_needs db)) (state_current db)
    (perception_events db) (trajectories db).
Definition put_current (c : InvestigationStateCurrentModel) (db : CaseDB) : CaseDB :=
  mkCaseDB (cases db) (case_events db) (evidence_needs db) (<[cur_case_id c := c]> (state_current db))
    (perception_events db) (trajectories db).

(** ** intelligence/retrieval/validation.py

    The columns of the knowledge tables that tell whether a reference exists and what it supports. *)

Record EvidenceLink := mkEvidenceLink {
  evidence_link_id : string;
  link_observation_id : string;
  target_kind : string;
  target_id : string
}.
Record EvidenceSource := mkEvidenceSource {
  es_source_id : string;
  es_source_role : string;
  es_source_family : string;
  es_upstream_source : option string
}.
Record KnowledgeDB := mkKnowledgeDB {
  kb_objects : gset string;
  kb_incidents : gset string;
  evidence_links : gmap string EvidenceLink;
  observation_source : gmap string string;
  kb_sources : gmap string EvidenceSource;
  claim_subject : gmap string string;
  relation_ends : gmap string (string * string)
}.

Record EvidenceSupportSummary := mkEvidenceSupportSummary {
  sup_evidence_refs : list string;
  sup_source_roles : list string;
  independent_source_keys : list string;
  supported_object_ids : list string
}.

Record EvidenceDependency := mkEvidenceDependency {
  dep_evidence_ref : string;
  dep_target_kind : string;
  dep_target_id : string
}.

(** [s.partition(sep)]: the text before and after the first separator. *)
Fixpoint partition (sep : ascii) (s : string) : option (string * string) :=
  match s with
  | EmptyString => None
  | String c s' =>
      if ascii_dec c sep then Some (EmptyString, s')
      else '(l, r) ← partition sep s'; Some (String c l, r)
  end.

Definition link_id_of (evidence_ref : string) : string :=
  default evidence_ref (strip_prefix "evidence:" evidence_ref).

Definition validate_object_refs (kb : KnowledgeDB) (object_ids : list string) : list string :=
  filter (λ id, id ∉ kb_objects kb) object_ids.

Definition is_target_ref (kb : KnowledgeDB) (target_ref : string) : bool :=
  match partition ":"%char target_ref with
  | Some (kind, identity) =>
      negb (bool_decide (identity = ""%string))
      && (if bool_decide (kind = "object"%string) then bool_decide (identity ∈ kb_objects kb)
          else if bool_decide (kind = "incident"%string) then bool_decide (identity ∈ kb_incidents kb)
          else false)
  | None => false
  end.

(** The join of the links, their observations and their sources. *)
Definition support_rows (kb : KnowledgeDB) (evidence_refs : list string) : list (EvidenceLink * EvidenceSource) :=
  omap (λ id,
    link ← evidence_links kb !! id;
    source_id ← observation_source kb !! link_observation_id link;
    source ← kb_sources kb !! source_id;
    Some (link, source)) (remove_dups (link_id_of <$> evidence_refs)).

Definition source_key (s : EvidenceSource) : string :=
  match es_upstream_source s with
  | Some u => if bool_decide (u = ""%string)
              then if bool_decide (es_source_family s = ""%string) then "source:" +:+ es_source_id s
                   else "family:" +:+ es_source_family s
              else "upstream:" +:+ u
  | None => if bool_decide (es_source_family s = ""%string) then "source:" +:+ es_source_id s
            else "family:" +:+ es_source_family s
  end.

Definition supported_by (kb : KnowledgeDB) (link : EvidenceLink) : list string :=
  if bool_decide (target_kind link = "object"%string) then [target_id link]
  else if bool_decide (target_kind link = "claim"%string)
  then match claim_subject kb !! target_id link with Some id => [id] | None => [] end
  else if bool_decide (target_kind link = "relation"%string)
  then match relation_ends kb !! target_id link with Some (a, b) => [a; b] | None => [] end
  else [].

Definition evidence_support_summary (kb : KnowledgeDB) (evidence_refs : list string) : EvidenceSupportSummary :=
  let rows := support_rows kb evidence_refs in
  let found_ids := (λ p, evidence_link_id p.1) <$> rows in
  mkEvidenceSupportSummary
    (sorted_set (filter (λ ref, link_id_of ref ∈ found_ids) evidence_refs))
    (sorted_set ((λ p, es_source_role p.2) <$> rows))
    (sorted_set ((λ p, source_key p.2) <$> rows))
    (sorted_set (mjoin ((λ p, supported_by kb p.1) <$> rows))).

(** The first reference with a link id names the dependency. *)
Definition evidence_dependencies (kb : KnowledgeDB) (evidence_refs : list string) : list EvidenceDependency :=
  omap (λ id,
    link ← evidence_links kb !! id;
    Some (mkEvidenceDependency
            (default id (find (λ ref, bool_decide (link_id_of ref = id)) evidence_refs))
            (target_kind link) (target_id link)))
    (remove_dups (link_id_of <$> evidence_refs)).

(** ** Projection of the log: [_replay_event]

    A bucket is a dict from (proposition, target) to an item: setting a present key keeps its place. *)

Definition claim_key : Type := string * option string.
Abbreviation bucket := (list (claim_key * StateItem)).

Definition bucket_pop (k : claim_key) (b : bucket) : bucket := filter (λ p, p.1 ≠ k) b.
Definition bucket_set (k : claim_key) (v : StateItem) (b : bucket) : bucket :=
  if bool_decide (k ∈ b.*1) then (λ p, if bool_decide (p.1 = k) then (k, v) else p) <$> b else b ++ [(k, v)].

Inductive bucket_name := B_CONFIRMED | B_TENTATIVE | B_CONFLICTS | B_UNKNOWNS | B_HYPOTHESES.
#[export] Instance bucket_name_eq_dec : EqDecision bucket_name.
Proof. solve_decision. Defined.

Abbreviation buckets := (bucket_name → bucket).
Definition no_buckets : buckets := λ _, [].
Definition on_bucket (n : bucket_name) (f : bucket → bucket) (b : buckets) : buckets :=
  λ m, if bool_decide (m = n) then f (b m) else b m.

Definition additions (t : CaseStateEventType) : option bucket_name :=
  match t with
  | FACT_CONFIRMED => Some B_CONFIRMED | TENTATIVE_ADDED => Some B_TENTATIVE
  | CONFLICT_OPENED => Some B_CONFLICTS | UNKNOWN_OPENED => Some B_UNKNOWNS
  | HYPOTHESIS_ADDED => Some B_HYPOTHESES | _ => None
  end.
Definition removals (t : CaseStateEventType) : option bucket_name :=
  match t with
  | FACT_RETRACTED => Some B_CONFIRMED | TENTATIVE_REMOVED => Some B_TENTATIVE
  | CONFLICT_RESOLVED => Some B_CONFLICTS | UNKNOWN_RESOLVED => Some B_UNKNOWNS
  | HYPOTHESIS_REJECTED => Some B_HYPOTHESES | _ => None
  end.

Definition claim_buckets : list bucket_name := [B_CONFIRMED; B_TENTATIVE; B_CONFLICTS; B_UNKNOWNS].

Definition event_item (proposition : string) (e : CaseStateEventModel) : StateItem :=
  mkStateItem proposition (ev_target_ref e) (ev_evidence_refs e) (ev_writer e) (ev_reason_code e)
    (default JNull (dict_get "reasoning_relation" (ev_payload e))) (ev_case_revision e).

Definition replay_event (b : buckets) (e : CaseStateEventModel) : buckets :=
  match ev_proposition e with
  | None => b
  | Some proposition =>
      let key := (proposition, ev_target_ref e) in
      match additions (ev_event_type e) with
      | Some n =>
          let b := if bool_decide (n ≠ B_HYPOTHESES)
                   then foldl (λ b other, on_bucket other (bucket_pop key) b) b claim_buckets else b in
          on_bucket n (bucket_set key (event_item proposition e)) b
      | None =>
          match removals (ev_event_type e) with
          | Some n => on_bucket n (bucket_pop key) b
          | None => b
          end
      end
  end.

Definition replay (events : list CaseStateEventModel) : buckets := foldl replay_event no_buckets events.

(** [event.payload.get("decision")] of the last decision event, when it is an object. *)
Definition decision_step (d : option dict) (e : CaseStateEventModel) : option dict :=
  if bool_decide (ev_event_type e = DECISION_CHANGED)
  then match dict_get "decision" (ev_payload e) with Some (JObj fields) => Some fields | _ => None end
  else d.
Definition replay_decision (events : list CaseStateEventModel) : option dict := foldl decision_step None events.

Definition payload_need (e : CaseStateEventModel) : option string :=
  match dict_get "need_id" (ev_payload e) with Some (JStr id) => Some id | _ => None end.
Definition need_step (open : list string) (e : CaseStateEventModel) : list string :=
  match ev_event_type e, payload_need e with
  | EVIDENCE_NEED_OPENED, Some id => if bool_decide (id ∈ open) then open else open ++ [id]
  | EVIDENCE_NEED_RESOLVED, Some id => filter (λ x, x ≠ id) open
  | _, _ => open
  end.
Definition replay_needs (events : list CaseStateEventModel) : list string := foldl need_step [] events.

(** ** Queries *)

(** [where(case_id == ...).order_by(case_revision)] *)
Definition revision_le (e1 e2 : CaseStateEventModel) : Prop := ev_case_revision e1 ≤ ev_case_revision e2.
#[export] Instance revision_le_dec e1 e2 : Decision (revision_le e1 e2).
Proof. unfold revision_le. apply _. Defined.
Definition case_log (id : string) (db : CaseDB) : list CaseStateEventModel :=
  merge_sort revision_le (filter (λ e, ev_case_id e = id) (case_events db)).

(** [order_by(priority.desc(), need_id)] *)
Definition need_le (n1 n2 : EvidenceNeedModel) : Prop :=
  priority n2 < priority n1 ∨ priority n1 = priority n2 ∧ String.le (need_id n1) (need_id n2).
#[export] Instance need_le_dec n1 n2 : Decision (need_le n1 n2).
Proof. unfold need_le. apply _. Defined.
Definition needs_of (id : string) (db : CaseDB) : list EvidenceNeedModel :=
  filter (λ n, need_case_id n = id) (map_to_list (evidence_needs db)).*2.
Definition open_need_ids (id : string) (db : CaseDB) : list string :=
  need_id <$> merge_sort need_le (filter (λ n, need_status n ∈ [NEED_OPEN; NEED_BLOCKED]) (needs_of id db)).

(** The latest perception: [order_by(finished_at.desc(), perception_event_id.desc()).limit(1)]. *)
Definition perception_ge (p1 p2 : PerceptionEvent) : Prop :=
  pe_finished_at p2 < pe_finished_at p1 ∨
  pe_finished_at p1 = pe_finished_at p2 ∧ String.le (pe_perception_event_id p2) (pe_perception_event_id p1).
#[export] Instance perception_ge_dec p1 p2 : Decision (perception_ge p1 p2).
Proof. unfold perception_ge. apply _. Defined.
Definition latest_perception (id : string) (db : CaseDB) : option PerceptionEvent :=
  head (merge_sort perception_ge (filter (λ p, pe_case_id p = id) (perception_events db))).

(** ** Views *)

Definition relation_json (r : option ReasoningRelation) : json :=
  match r with
  | None => JNull
  | Some r => JObj [("relation_type"%string, JStr (relation_type r));
      ("semantics"%string, JStr (ReasoningSemantics_value (semantics r)));
      ("source_refs"%string, JArr (JStr <$> source_refs r))]
  end.

Definition str_of_json (v : json) : option string := match v with JStr s => Some s | _ => None end.

(** [ReasoningRelation.model_validate] *)
Definition relation_of_json (v : json) : result (option ReasoningRelation) :=
  match v with
  | JNull => Ok None
  | JObj d =>
      match dict_get "relation_type" d, dict_get "semantics" d, dict_get "source_refs" d with
      | Some (JStr t), Some (JStr s), refs =>
          match dict_get s [("deterministic"%string, DETERMINISTIC); ("inferred"%string, INFERRED)],
                match refs with Some (JArr l) => mapM str_of_json l | None => Some [] | _ => None end with
          | Some sem, Some refs => r ← validate_relation (mkReasoningRelation t sem refs); Ok (Some r)
          | _, _ => Err (ValueError "invalid ReasoningRelation")
          end
      | _, _, _ => Err (ValueError "invalid ReasoningRelation")
      end
  | _ => Err (ValueError "invalid ReasoningRelation")
  end.

(** [InvestigationStateItem.model_validate] *)
Definition item_view (i : StateItem) : result InvestigationStateItem :=
  relation ← relation_of_json (it_reasoning_relation i);
  if it_updated_revision i <? 1 then Err (ValueError "Input should be greater than or equal to 1")
  else Ok (mkInvestigationStateItem (it_proposition i) (it_target_ref i) (it_evidence_refs i) (it_writer i)
             (it_reason_code i) relation (it_updated_revision i)).

Fixpoint map_result {A B} (f : A → result B) (l : list A) : result (list B) :=
  match l with
  | [] => Ok []
  | x :: l' => y ← f x; ys ← map_result f l'; Ok (y :: ys)
  end.

(** The constructor of [InvestigationState]: every item and the two bounded numbers are validated. *)
Definition make_state (case_id : string) (revision : Z) (goal : string) (targets : list string)
  (b : bucket_name → list StateItem) (questions variables needs skills norms unresolved : list string)
  (decision : option dict) (world : option Z) (perceived : option Z) (updated : Z) : result InvestigationState :=
  confirmed ← map_result item_view (b B_CONFIRMED);
  tentative ← map_result item_view (b B_TENTATIVE);
  conflicts ← map_result item_view (b B_CONFLICTS);
  unknowns ← map_result item_view (b B_UNKNOWNS);
  hypotheses ← map_result item_view (b B_HYPOTHESES);
  if (revision <? 0) || match world with Some w => w <? 0 | None => false end
  then Err (ValueError "Input should be greater than or equal to 0")
  else Ok (mkInvestigationState case_id revision goal targets confirmed tentative conflicts unknowns hypotheses
             questions variables needs skills norms unresolved decision world perceived updated).

Definition cur_bucket (m : InvestigationStateCurrentModel) (n : bucket_name) : list StateItem :=
  match n with
  | B_CONFIRMED => cur_confirmed m | B_TENTATIVE => cur_tentative m | B_CONFLICTS => cur_conflicts m
  | B_UNKNOWNS => cur_unknowns m | B_HYPOTHESES => cur_hypotheses m
  end.

Definition state_view (m : InvestigationStateCurrentModel) : result InvestigationState :=
  make_state (cur_case_id m) (cur_case_revision m) (cur_goal m) (cur_targets m) (cur_bucket m)
    (cur_open_questions m) (cur_decision_variables m) (cur_evidence_need_ids m) (cur_active_skills m)
    (cur_normative_context_refs m) (cur_unresolved_applicability m) (cur_current_decision m)
    (cur_last_world_revision m) (cur_last_perception_at m) (cur_updated_at m).

Definition case_event_view (m : CaseStateEventModel) : CaseStateEvent :=
  mkCaseStateEvent (ev_event_id m) (ev_case_id m) (ev_case_revision m) (ev_base_case_revision m) (ev_event_type m)
    (ev_proposition m) (ev_target_ref m) (ev_evidence_refs m) (ev_writer m) (ev_reason_code m) (ev_payload m)
    (ev_created_at m).

(** [_need_view]: the constraints of [EvidenceNeed]; the fields are those of the row. *)
Definition need_view (m : EvidenceNeedModel) : result EvidenceNeedModel :=
  if (slen (purpose m) <? 1) || (256 <? slen (purpose m)) || (priority m <? 0) || (100 <? priority m)
     || (opened_revision m <? 0) || (updated_revision m <? 0)
  then Err (ValueError "invalid EvidenceNeed") else Ok m.

(** ** service.py *)

Record StatePatchApplyResult := mkStatePatchApplyResult {
  pa_state : InvestigationState; pa_events : list CaseStateEvent; pa_replay : bool }.
Record DecisionCommitResult := mkDecisionCommitResult {
  cr_state : InvestigationState; cr_event : CaseStateEvent; cr_replay : bool }.
Record EvidenceNeedOpenResult := mkEvidenceNeedOpenResult {
  no_need : EvidenceNeedModel; no_state : InvestigationState; no_event : CaseStateEvent; no_replay : bool }.

Definition IMMUTABLE_CASE_STATUSES : list string := ["closed"%string; "cancelled"%string].

Definition lock_case (id : string) : prog CaseDB InvestigationCaseModel :=
  db ← get_store;
  case ← require (cases db !! id) (LookupError "investigation case not found" id);
  _ ← check (bool_decide (case_status case ∈ IMMUTABLE_CASE_STATUSES))
        (StatePatchRejected "case state is immutable in this lifecycle");
  mret case.

Definition require_revision (case : InvestigationCaseModel) (base_revision : Z) : prog CaseDB unit :=
  check (negb (current_revision case =? base_revision)) (StateRevisionConflict base_revision (current_revision case)).

Definition advance_case (c : InvestigationCaseModel) : InvestigationCaseModel :=
  mkInvestigationCaseModel (case_id c) (task_signature c) (target_object_ids c) (goal c)
    (initial_knowledge_revision c) (case_constraints c) (rubric c)
    (if bool_decide (case_status c ∈ ["open"; "running"; "created"; "waiting"]%string) then "active" else case_status c)
    (current_revision c + 1) (case_created_at c) (closed_at c).

(** The three uniqueness constraints of the event table. *)
Definition event_key_taken (e : CaseStateEventModel) (db : CaseDB) : bool :=
  existsb (λ e', bool_decide (ev_event_id e' = ev_event_id e)
    || bool_decide (ev_case_id e' = ev_case_id e)
       && (bool_decide (ev_case_revision e' = ev_case_revision e)
           || bool_decide (is_Some (ev_patch_id e)) && bool_decide (is_Some (ev_operation_index e))
              && bool_decide (ev_patch_id e' = ev_patch_id e)
              && bool_decide (ev_operation_index e' = ev_operation_index e))) (case_events db).

Section service.
(** The event id of a revision, and the text form of an instant with its parser. *)
Context (fresh : string → Z → string) (isoformat : Z → string) (fromisoformat : string → result Z).

(** [_append_event]: the case row is the one the caller holds. *)
Definition append_event (id : string) (event_type : CaseStateEventType) (patch_id : option string)
  (operation_index : option Z) (proposition target_ref : option string) (evidence_refs : list string)
  (writer reason_code : string) (payload : dict) (created_at : Z) : prog CaseDB CaseStateEvent :=
  db ← get_store;
  case ← require (cases db !! id) (LookupError "investigation case not found" id);
  let base := current_revision case in
  let event := mkCaseStateEventModel (fresh id (base + 1)) id (base + 1) base event_type patch_id operation_index
                 proposition target_ref evidence_refs writer reason_code payload created_at in
  _ ← check (event_key_taken event db) (IntegrityError (ev_event_id event));
  _ ← modify (λ db, put_case (advance_case case) (add_case_event event db));
  mret (case_event_view event).

(** The projection of the whole log, beside what the other tables say. *)
Definition rebuilt (case : InvestigationCaseModel) (now : Z) (old : option InvestigationStateCurrentModel)
  (db : CaseDB) : InvestigationStateCurrentModel :=
  let events := case_log (case_id case) db in
  let b := replay events in
  let keep f := match old with Some c => f c | None => [] end in
  mkInvestigationStateCurrentModel (case_id case) (current_revision case) (goal case) (target_object_ids case)
    (b B_CONFIRMED).*2 (b B_TENTATIVE).*2 (b B_CONFLICTS).*2 (b B_UNKNOWNS).*2 (b B_HYPOTHESES).*2
    (keep cur_open_questions) (keep cur_decision_variables) (open_need_ids (case_id case) db)
    (keep cur_active_skills) (keep cur_normative_context_refs) (keep cur_unresolved_applicability)
    (replay_decision events)
    (match latest_perception (case_id case) db with
     | Some p => Some (pe_world_revision p) | None => initial_knowledge_revision case end)
    (pe_finished_at <$> latest_perception (case_id case) db) now.

Definition rebuild_current (id : string) (force : bool) (now : Z) : prog CaseDB InvestigationStateCurrentModel :=
  db ← get_store;
  case ← require (cases db !! id) (LookupError "investigation case not found" id);
  let fresh_row := _ ← modify (put_current (rebuilt case now (state_current db !! id) db));
                   mret (rebuilt case now (state_current db !! id) db) in
  match state_current db !! id with
  | Some c => if (cur_case_revision c =? current_revision case) && negb force then mret c else fresh_row
  | None => fresh_row
  end.

Definition get_state (id : string) (now : Z) : prog CaseDB InvestigationState :=
  db ← get_store;
  _ ← require (cases db !! id) (LookupError "investigation case not found" id);
  current ← match state_current db !! id with
            | Some c => mret c
            | None => rebuild_current id false now
            end;
  lift (state_view current).

Definition rebuild (id : string) (now : Z) : prog CaseDB InvestigationState :=
  db ← get_store;
  _ ← require (cases db !! id) (LookupError "investigation case not found" id);
  current ← rebuild_current id true now;
  lift (state_view current).
(** [_payload_datetime] *)
Definition payload_datetime (v : option json) : result (option Z) :=
  match v with Some (JStr text) => t ← fromisoformat text; Ok (Some t) | _ => Ok None end.

(** [value] when [isinstance(value, int)]: a bool is an int. *)
Definition as_int (v : option json) : option Z :=
  match v with Some (JInt z) => Some z | Some (JBool b) => Some (if b then 1 else 0) | _ => None end.

(** The perception coordinates the events of a log leave. *)
Fixpoint replay_perception (acc : option Z * option Z) (events : list CaseStateEventModel)
  : result (option Z * option Z) :=
  match events with
  | [] => Ok acc
  | e :: events' =>
      if bool_decide (ev_event_type e = PERCEPTION_RECORDED) then
        perceived_at ← payload_datetime (dict_get "perceived_at" (ev_payload e));
        replay_perception
          (match as_int (dict_get "world_revision" (ev_payload e)) with Some w => Some w | None => acc.1 end,
           match perceived_at with Some t => Some t | None => acc.2 end) events'
      else replay_perception acc events'
  end.

Definition get_state_at_revision (id : string) (revision : Z) : prog CaseDB InvestigationState :=
  db ← get_store;
  case ← require (cases db !! id) (LookupError "investigation case not found" id);
  _ ← check ((revision <? 0) || (current_revision case <? revision))
        (ValueError "historical case revision outside durable range");
  let events := filter (λ e, ev_case_revision e ≤ revision) (case_log id db) in
  _ ← check ((0 <? revision) && negb (match last events with
                                       | Some e => ev_case_revision e =? revision | None => false end))
        (RuntimeError "case event history is incomplete");
  perception ← lift (replay_perception (initial_knowledge_revision case, None) events);
  let b := replay events in
  lift (make_state (case_id case) revision (goal case) (target_object_ids case) (λ n, (b n).*2) [] []
          (replay_needs events) [] [] [] (replay_decision events) perception.1 perception.2
          (match last events with Some e => ev_created_at e | None => case_created_at case end)).

Definition get_evidence_need (id : string) : prog CaseDB EvidenceNeedModel :=
  db ← get_store;
  model ← require (evidence_needs db !! id) (LookupError "EvidenceNeed not found" id);
  lift (need_view model).

Definition status_in (statuses : option (list EvidenceNeedStatus)) (n : EvidenceNeedModel) : bool :=
  match statuses with
  | Some (s :: l) => bool_decide (need_status n ∈ s :: l)
  | _ => true
  end.

Definition list_evidence_needs (id : string) (statuses : option (list EvidenceNeedStatus))
  : prog CaseDB (list EvidenceNeedModel) :=
  db ← get_store;
  lift (map_result need_view (merge_sort need_le (filter (λ n, status_in statuses n) (needs_of id db)))).

(** The event of a patch at an operation index, of a given type. *)
Definition find_case_event (id patch_id : string) (event_type : CaseStateEventType) (db : CaseDB)
  : option CaseStateEventModel :=
  find (λ e, bool_decide (ev_case_id e = id) && bool_decide (ev_patch_id e = Some patch_id)
    && bool_decide (ev_operation_index e = Some 0) && bool_decide (ev_event_type e = event_type)) (case_events db).

Definition rebuilt_state (id : string) (now : Z) : prog CaseDB InvestigationState :=
  current ← rebuild_current id true now; lift (state_view current).

Definition mark_perception (id perception_event_id : string) (world_revision perceived_at now : Z)
  : prog CaseDB InvestigationState :=
  _ ← lock_case id;
  db ← get_store;
  let patch_id := "perception:" +:+ perception_event_id in
  _ ← match find_case_event id patch_id PERCEPTION_RECORDED db with
      | None =>
          _ ← append_event id PERCEPTION_RECORDED (Some patch_id) (Some 0) None None [] "perception-runtime"
                "perception_coordinate_advanced"
                [("perception_event_id"%string, JStr perception_event_id);
                 ("world_revision"%string, JInt world_revision);
                 ("perceived_at"%string, JStr (isoformat perceived_at))] now;
          mret tt
      | Some existing =>
          stored_perceived_at ← lift (payload_datetime (dict_get "perceived_at" (ev_payload existing)));
          check (bool_decide (dict_get "perception_event_id" (ev_payload existing) ≠ Some (JStr perception_event_id))
                 || negb (json_equals_int (dict_get "world_revision" (ev_payload existing)) world_revision)
                 || bool_decide (stored_perceived_at ≠ Some perceived_at))
            (ValueError "perception state replay identity changed payload")
      end;
  rebuilt_state id now.

Definition check_target_objects (kb : KnowledgeDB) (object_ids : list string) : prog CaseDB unit :=
  check (bool_decide (validate_object_refs kb object_ids ≠ [])) (StatePatchRejected "target object not found").

Definition open_result (need : EvidenceNeedModel) (state : InvestigationState) (event : CaseStateEventModel)
  (replay : bool) : prog CaseDB EvidenceNeedOpenResult :=
  view ← lift (need_view need); mret (mkEvidenceNeedOpenResult view state (case_event_view event) replay).

(** The arguments of [open_evidence_need] after their defaults. *)
Record NeedRequest := mkNeedRequest {
  nr_need_id : string;
  nr_proposition_or_question : string;
  nr_purpose : string;
  nr_target_objects : list string;
  nr_evidence_contract : EvidenceNeedContract;
  nr_derived_from_enrichment_requirement : option string;
  nr_preferred_source_roles : list string;
  nr_rejected_evidence_patterns : list string;
  nr_freshness_requirement : dict;
  nr_completion_predicate : dict;
  nr_priority : Z;
  nr_writer : string;
  nr_reason_code : string
}.

Definition new_need (id : string) (r : NeedRequest) (revision now : Z) : EvidenceNeedModel :=
  mkEvidenceNeedModel (nr_need_id r) id (nr_derived_from_enrichment_requirement r) (nr_proposition_or_question r)
    (nr_purpose r) (nr_target_objects r) (nr_evidence_contract r) (nr_preferred_source_roles r)
    (nr_rejected_evidence_patterns r) (nr_freshness_requirement r)
    (if bool_decide (nr_completion_predicate r = []) then [("type"%string, JStr "state_accepted")]
     else nr_completion_predicate r)
    (nr_priority r) NEED_OPEN [] revision revision now now.

Definition is_need_opened (id : string) (need : option string) (e : CaseStateEventModel) : bool :=
  bool_decide (ev_case_id e = id) && bool_decide (ev_event_type e = EVIDENCE_NEED_OPENED)
  && match need with Some n => bool_decide (dict_get "need_id" (ev_payload e) = Some (JStr n)) | None => true end.

Definition open_evidence_need (kb : KnowledgeDB) (id : string) (base_case_revision : Z) (r : NeedRequest) (now : Z)
  : prog CaseDB EvidenceNeedOpenResult :=
  case ← lock_case id;
  db ← get_store;
  match evidence_needs db !! nr_need_id r with
  | Some existing =>
      event ← require (find (is_need_opened id (Some (nr_need_id r))) (case_events db))
                (RuntimeError "evidence need exists without open event");
      state ← get_state id now;
      open_result existing state event true
  | None =>
      _ ← require_revision case base_case_revision;
      _ ← check (py_blank (nr_proposition_or_question r) || py_blank (nr_purpose r))
            (ValueError "EvidenceNeed proposition/purpose cannot be empty");
      _ ← check (256 <? slen (nr_purpose r)) (ValueError "EvidenceNeed purpose exceeds storage contract (256 characters)");
      _ ← check_target_objects kb (nr_target_objects r);
      event ← append_event id EVIDENCE_NEED_OPENED None None (Some (nr_proposition_or_question r)) None []
                (nr_writer r) (nr_reason_code r) [("need_id"%string, JStr (nr_need_id r))] now;
      let model := new_need id r (ce_case_revision event) now in
      _ ← modify (put_need model);
      state ← rebuilt_state id now;
      view ← lift (need_view model);
      mret (mkEvidenceNeedOpenResult view state event false)
  end.

Definition set_reopened (revision now : Z) (n : EvidenceNeedModel) : EvidenceNeedModel :=
  mkEvidenceNeedModel (need_id n) (need_case_id n) (derived_from_enrichment_requirement n)
    (proposition_or_question n) (purpose n) (target_objects n) (evidence_contract n) (preferred_source_roles n)
    (rejected_evidence_patterns n) (freshness_requirement n) (completion_predicate n) (priority n) NEED_OPEN []
    (opened_revision n) revision (opened_at n) now.

(** [order_by(case_revision.desc())], first. *)
Definition latest_open_event (id : string) (db : CaseDB) : option CaseStateEventModel :=
  last (merge_sort revision_le (filter (λ e, is_need_opened id None e) (case_events db))).

Definition reopen_evidence_need (need : string) (base_case_revision : Z) (reopen_key writer reason_code : string)
  (now : Z) : prog CaseDB EvidenceNeedOpenResult :=
  db0 ← get_store;
  n ← require (evidence_needs db0 !! need) (LookupError "EvidenceNeed not found" need);
  case ← lock_case (need_case_id n);
  db ← get_store;
  match find_case_event (need_case_id n) reopen_key EVIDENCE_NEED_OPENED db with
  | Some existing => state ← get_state (need_case_id n) now; open_result n state existing true
  | None =>
      if bool_decide (need_status n = NEED_OPEN) then
        original ← require (latest_open_event (need_case_id n) db)
                     (RuntimeError "open EvidenceNeed exists without open event");
        state ← get_state (need_case_id n) now;
        open_result n state original true
      else
        _ ← require_revision case base_case_revision;
        event ← append_event (need_case_id n) EVIDENCE_NEED_OPENED (Some reopen_key) (Some 0)
                  (Some (proposition_or_question n)) None [] writer reason_code
                  [("need_id"%string, JStr (need_id n)); ("reopened"%string, JBool true)] now;
        let model := set_reopened (ce_case_revision event) now n in
        _ ← modify (put_need model);
        state ← rebuilt_state (need_case_id n) now;
        view ← lift (need_view model);
        mret (mkEvidenceNeedOpenResult view state event false)
  end.

(** [_event_type_for] *)
Definition event_type_for (o : StatePatchOperation) : CaseStateEventType :=
  match op_proposed_state o, op_disposition o with
  | CONFIRMED, SET => FACT_CONFIRMED | CONFIRMED, CLEAR => FACT_RETRACTED
  | TENTATIVE, SET => TENTATIVE_ADDED | TENTATIVE, CLEAR => TENTATIVE_REMOVED
  | CONFLICT, SET => CONFLICT_OPENED | CONFLICT, CLEAR => CONFLICT_RESOLVED
  | UNKNOWN, SET => UNKNOWN_OPENED | UNKNOWN, CLEAR => UNKNOWN_RESOLVED
  | HYPOTHESIS, SET => HYPOTHESIS_ADDED | HYPOTHESIS, CLEAR => HYPOTHESIS_REJECTED
  end.

(** [_validate_need_resolution] *)
Definition validate_need_resolution (kb : KnowledgeDB) (need : EvidenceNeedModel) (o : StatePatchOperation)
  : result unit :=
  let contract := evidence_contract need in
  if negb (bool_decide (op_proposed_state o ∈ accepted_states contract))
  then Err (EvidenceNeedResolutionRejected "proposed state does not satisfy EvidenceNeed completion contract")
  else if bool_decide (dict_get "type" (completion_predicate need) ≠ Some (JStr "state_accepted"))
  then Err (EvidenceNeedResolutionRejected "unsupported EvidenceNeed completion predicate")
  else if require_evidence contract && bool_decide (op_evidence_refs o = [])
  then Err (EvidenceNeedResolutionRejected "EvidenceNeed resolution requires evidence")
  else if bool_decide (op_evidence_refs o = []) then Ok tt
  else
    let support := evidence_support_summary kb (op_evidence_refs o) in
    if existsb (λ role, negb (bool_decide (role ∈ sup_source_roles support))) (required_source_roles contract)
    then Err (EvidenceNeedResolutionRejected "required source role missing")
    else if Z.of_nat (length (independent_source_keys support)) <? min_independent_sources contract
    then Err (EvidenceNeedResolutionRejected "independent source requirement unsatisfied")
    else Ok tt.

(** The checks [_validate_patch] makes of one operation. *)
Definition validate_patch_operation (kb : KnowledgeDB) (id : string) (db : CaseDB) (o : StatePatchOperation)
  : result unit :=
  let is_set := bool_decide (op_disposition o = SET) in
  _ ← raise_when (match op_target_ref o with Some t => negb (is_target_ref kb t) | None => false end)
        (StatePatchRejected "invalid or missing target_ref");
  _ ← raise_when (negb (bool_decide (op_evidence_refs o ⊆ sup_evidence_refs (evidence_support_summary kb (op_evidence_refs o)))))
        (StatePatchRejected "unknown EvidenceRef");
  _ ← raise_when
        (match op_target_ref o ≫= strip_prefix "object:" with
         | Some target_object_id =>
             bool_decide (op_proposed_state o ∈ [CONFIRMED; CONFLICT]) && is_set
             && negb (bool_decide (target_object_id ∈
                        supported_object_ids (evidence_support_summary kb (op_evidence_refs o))))
         | None => false
         end) (StatePatchRejected "EvidenceRef does not support StatePatch target object");
  _ ← raise_when
        (match op_reasoning_relation o with
         | Some r => bool_decide (semantics r = INFERRED) && bool_decide (op_proposed_state o = CONFIRMED) && is_set
         | None => false
         end) (StatePatchRejected "inferred reasoning relation cannot write confirmed state");
  match op_resolves_need_id o with
  | None => Ok tt
  | Some need_id =>
      match evidence_needs db !! need_id with
      | None => Err (StatePatchRejected "resolves_need_id does not belong to this case")
      | Some need =>
          if bool_decide (need_case_id need ≠ id)
          then Err (StatePatchRejected "resolves_need_id does not belong to this case")
          else if bool_decide (need_status need ≠ NEED_OPEN)
          then Err (StatePatchRejected "only an open EvidenceNeed can be resolved")
          else validate_need_resolution kb need o
      end
  end.

Definition validate_patch (kb : KnowledgeDB) (patch : StatePatch) : prog CaseDB unit :=
  db ← get_store;
  _ ← lift (map_result (validate_patch_operation kb (sp_case_id patch) db) (sp_operations patch));
  mret tt.

Definition set_resolved (evidence_refs : list string) (revision now : Z) (n : EvidenceNeedModel) : EvidenceNeedModel :=
  mkEvidenceNeedModel (need_id n) (need_case_id n) (derived_from_enrichment_requirement n)
    (proposition_or_question n) (purpose n) (target_objects n) (evidence_contract n) (preferred_source_roles n)
    (rejected_evidence_patterns n) (freshness_requirement n) (completion_predicate n) (priority n) NEED_RESOLVED
    evidence_refs (opened_revision n) revision (opened_at n) now.

Definition resolve_need_from_operation (id writer : string) (o : StatePatchOperation) (now : Z)
  : prog CaseDB (option CaseStateEvent) :=
  match op_resolves_need_id o with
  | None => mret None
  | Some need_id =>
      db ← get_store;
      n ← require (evidence_needs db !! need_id) (RuntimeError "validated EvidenceNeed disappeared");
      event ← append_event id EVIDENCE_NEED_RESOLVED None None (Some (proposition_or_question n)) (op_target_ref o)
                (op_evidence_refs o) writer "evidence_need_completion_predicate_satisfied"
                [("need_id"%string, JStr need_id)] now;
      _ ← modify (put_need (set_resolved (op_evidence_refs o) (ce_case_revision event) now n));
      mret (Some event)
  end.

Definition operation_payload (patch : StatePatch) (o : StatePatchOperation) : dict :=
  [("proposed_state"%string, JStr (ProposedState_value (op_proposed_state o)));
   ("disposition"%string, JStr (PatchDisposition_value (op_disposition o)));
   ("reasoning_relation"%string, relation_json (op_reasoning_relation o));
   ("resolves_need_id"%string, match op_resolves_need_id o with Some n => JStr n | None => JNull end);
   ("model_prompt_revision"%string, match sp_model_prompt_revision patch with Some m => JStr m | None => JNull end)].

(** The body of the loop of [apply_patch]: the events of one operation. *)
Definition apply_operation (patch : StatePatch) (reason_code : string) (now : Z) (io : Z * StatePatchOperation)
  : prog CaseDB (list CaseStateEvent) :=
  let o := io.2 in
  event ← append_event (sp_case_id patch) (event_type_for o) (Some (sp_patch_id patch)) (Some io.1)
            (Some (op_proposition o)) (op_target_ref o) (op_evidence_refs o) (sp_producer patch) reason_code
            (operation_payload patch o) now;
  resolved ← resolve_need_from_operation (sp_case_id patch) (sp_producer patch) o now;
  mret (event :: match resolved with Some e => [e] | None => [] end).

(** [order_by(operation_index, case_revision)] *)
Definition index_le (e1 e2 : CaseStateEventModel) : Prop :=
  default 0 (ev_operation_index e1) < default 0 (ev_operation_index e2) ∨
  default 0 (ev_operation_index e1) = default 0 (ev_operation_index e2) ∧ ev_case_revision e1 ≤ ev_case_revision e2.
#[export] Instance index_le_dec e1 e2 : Decision (index_le e1 e2).
Proof. unfold index_le. apply _. Defined.

Definition patch_events (id patch_id : string) (db : CaseDB) : list CaseStateEventModel :=
  merge_sort index_le (filter (λ e, ev_case_id e = id ∧ ev_patch_id e = Some patch_id) (case_events db)).

Definition enumerate {A} (l : list A) : list (Z * A) := zip (seqZ 0 (Z.of_nat (length l))) l.

Definition apply_patch (kb : KnowledgeDB) (patch : StatePatch) (reason_code : string) (now : Z)
  : prog CaseDB StatePatchApplyResult :=
  case ← lock_case (sp_case_id patch);
  db ← get_store;
  match patch_events (sp_case_id patch) (sp_patch_id patch) db with
  | (_ :: _) as existing =>
      state ← get_state (sp_case_id patch) now;
      mret (mkStatePatchApplyResult state (case_event_view <$> existing) true)
  | [] =>
      _ ← require_revision case (sp_base_case_revision patch);
      _ ← validate_patch kb patch;
      events ← for_each (enumerate (sp_operations patch)) (apply_operation patch reason_code now);
      state ← rebuilt_state (sp_case_id patch) now;
      mret (mkStatePatchApplyResult state (mjoin events) false)
  end.

Definition commit_decision (commit : DecisionCommit) (now : Z) : prog CaseDB DecisionCommitResult :=
  case ← lock_case (dc_case_id commit);
  db ← get_store;
  match find_case_event (dc_case_id commit) (dc_decision_id commit) DECISION_CHANGED db with
  | Some existing =>
      state ← get_state (dc_case_id commit) now;
      mret (mkDecisionCommitResult state (case_event_view existing) true)
  | None =>
      _ ← require_revision case (dc_base_case_revision commit);
      event ← append_event (dc_case_id commit) DECISION_CHANGED (Some (dc_decision_id commit)) (Some 0) None None []
                (dc_producer commit) "decision_accepted" [("decision"%string, JObj (dc_decision commit))] now;
      state ← rebuilt_state (dc_case_id commit) now;
      mret (mkDecisionCommitResult state event false)
  end.
(** ** cases/service.py *)

Definition normalized_lifecycle (value : string) : result CaseLifecycle :=
  if bool_decide (value ∈ ["open"; "running"]%string) then Ok LC_ACTIVE
  else match dict_get value ((λ l, (CaseLifecycle_value l, l)) <$>
               [LC_CREATED; LC_ACTIVE; LC_WAITING; LC_RESOLVED; LC_CLOSED; LC_CANCELLED]) with
       | Some l => Ok l
       | None => Err (ValueError "not a valid CaseLifecycle")
       end.

Definition set_case_status (status : string) (closed : option Z) (c : InvestigationCaseModel)
  : InvestigationCaseModel :=
  mkInvestigationCaseModel (case_id c) (task_signature c) (target_object_ids c) (goal c)
    (initial_knowledge_revision c) (case_constraints c) (rubric c) status (current_revision c) (case_created_at c)
    closed.

(** [_case_view]: the row with its normalized status. *)
Definition case_view (c : InvestigationCaseModel) : result InvestigationCaseModel :=
  status ← normalized_lifecycle (case_status c);
  Ok (set_case_status (CaseLifecycle_value status) (closed_at c) c).

Definition create_case (id signature : string) (targets : list string) (goal : string) (knowledge_revision : option Z)
  (constraints rubric : dict) (now : Z) : prog CaseDB InvestigationCaseModel :=
  let model := mkInvestigationCaseModel id signature targets goal knowledge_revision constraints rubric
                 (CaseLifecycle_value LC_CREATED) 0 now None in
  db ← get_store;
  _ ← check (bool_decide (is_Some (cases db !! id))) (IntegrityError id);
  _ ← modify (put_case model);
  lift (case_view model).

Definition transition_case (id : string) (allowed : list CaseLifecycle) (target : CaseLifecycle)
  : prog CaseDB InvestigationCaseModel :=
  db ← get_store;
  model ← require (cases db !! id) (LookupError "investigation case not found" id);
  current ← lift (normalized_lifecycle (case_status model));
  if bool_decide (current = target) then lift (case_view model)
  else
    _ ← check (bool_decide (current ∉ allowed)) (ValueError "invalid investigation case transition");
    let model := set_case_status (CaseLifecycle_value target) (closed_at model) model in
    _ ← modify (put_case model);
    lift (case_view model).

Definition activate_case (id : string) := transition_case id [LC_CREATED; LC_WAITING] LC_ACTIVE.
Definition wait_case (id : string) := transition_case id [LC_ACTIVE] LC_WAITING.
Definition resolve_case (id : string) := transition_case id [LC_ACTIVE; LC_WAITING] LC_RESOLVED.
Definition cancel_case (id : string) := transition_case id [LC_CREATED; LC_ACTIVE; LC_WAITING] LC_CANCELLED.

Definition close_case (id : string) (now : Z) : prog CaseDB InvestigationCaseModel :=
  db ← get_store;
  model ← require (cases db !! id) (LookupError "investigation case not found" id);
  if bool_decide (case_status model = "closed"%string) then lift (case_view model)
  else
    _ ← check (bool_decide (case_status model = "cancelled"%string))
          (ValueError "cannot close a cancelled investigation case");
    _ ← check (bool_decide ((id, "running"%string) ∈ trajectories db))
          (ValueError "cannot close an investigation case with a running trajectory");
    let model := set_case_status "closed" (Some now) model in
    _ ← modify (put_case model);
    lift (case_view model).

(** ** world_change.py *)

Record KnowledgeChangeNotice := mkKnowledgeChangeNotice {
  kc_revision : Z;
  kc_object_ids : list string;
  kc_claim_ids : list string;
  kc_relation_ids : list string;
  kc_cause_observation_id : option string
}.
Record WorldChangeImpact := mkWorldChangeImpact {
  wi_case_id : string;
  wi_world_revision : Z;
  case_activated : bool;
  affected_propositions : list string;
  opened_or_reopened_need_ids : list string
}.

Definition target_ref_object_id (target_ref : option string) : option string :=
  t ← target_ref;
  '(kind, identity) ← partition ":"%char t;
  if bool_decide (kind = "object"%string) && negb (bool_decide (identity = ""%string)) then Some identity else None.

Definition evidence_refs_touch_change (kb : KnowledgeDB) (evidence_refs : list string)
  (change : KnowledgeChangeNotice) : bool :=
  existsb (λ d,
    bool_decide (dep_target_kind d = "claim"%string) && bool_decide (dep_target_id d ∈ kc_claim_ids change)
    || bool_decide (dep_target_kind d = "relation"%string) && bool_decide (dep_target_id d ∈ kc_relation_ids change)
    || bool_decide (dep_target_kind d = "object"%string) && bool_decide (dep_target_id d ∈ kc_object_ids change))
    (evidence_dependencies kb (sorted_set evidence_refs)).

Definition is_stale_item (kb : KnowledgeDB) (change : KnowledgeChangeNotice) (i : InvestigationStateItem) : bool :=
  match target_ref_object_id (si_target_ref i) with
  | Some o => bool_decide (o ∈ kc_object_ids change)
  | None => false
  end || evidence_refs_touch_change kb (si_evidence_refs i) change.

Definition is_stale_need (kb : KnowledgeDB) (change : KnowledgeChangeNotice) (n : EvidenceNeedModel) : bool :=
  existsb (λ o, bool_decide (o ∈ kc_object_ids change)) (target_objects n)
  || evidence_refs_touch_change kb (resolution_evidence_refs n) change.

Definition change_payload (change : KnowledgeChangeNotice) : dict :=
  [("world_revision"%string, JInt (kc_revision change));
   ("cause_observation_id"%string, match kc_cause_observation_id change with Some o => JStr o | None => JNull end)].

(** A confirmed claim the change no longer supports is retracted and becomes an unknown. *)
Definition retract_item (id : string) (change : KnowledgeChangeNotice) (now : Z) (i : InvestigationStateItem)
  : prog CaseDB unit :=
  _ ← append_event id FACT_RETRACTED None None (Some (si_proposition i)) (si_target_ref i) (si_evidence_refs i)
        "world-change-runtime" "world_change_stale"
        (change_payload change ++ [("stale_support"%string, JBool true)]) now;
  _ ← append_event id UNKNOWN_OPENED None None (Some (si_proposition i)) (si_target_ref i) []
        "world-change-runtime" "world_change_stale"
        (change_payload change ++ [("revalidate_required"%string, JBool true)]) now;
  mret tt.

Definition reopen_stale_need (id : string) (change : KnowledgeChangeNotice) (now : Z) (n : EvidenceNeedModel)
  : prog CaseDB string :=
  event ← append_event id EVIDENCE_NEED_OPENED None None (Some (proposition_or_question n))
            (match target_objects n with [o] => Some ("object:" +:+ o) | _ => None end) []
            "world-change-runtime" "world_change_reopen"
            ([("need_id"%string, JStr (need_id n)); ("reopened"%string, JBool true)] ++ change_payload change) now;
  _ ← modify (put_need (set_reopened (ce_case_revision event) now n));
  mret (need_id n).

Definition apply_case (kb : KnowledgeDB) (change : KnowledgeChangeNotice) (now : Z) (id : string)
  : prog CaseDB WorldChangeImpact :=
  case ← lock_case id;
  state ← get_state id now;
  db ← get_store;
  let stale_items := filter (λ i, is_stale_item kb change i) (is_confirmed state) in
  let stale_needs := filter (λ n, is_stale_need kb change n)
                       (filter (λ n, need_status n = NEED_RESOLVED) (needs_of id db)) in
  _ ← for_each stale_items (retract_item id change now);
  reopened ← for_each stale_needs (reopen_stale_need id change now);
  _ ← (if bool_decide (stale_items = []) && bool_decide (reopened = []) then mret tt
       else _ ← rebuild id now; mret tt);
  db ← get_store;
  activated ← (if bool_decide (case_status case ≠ "waiting"%string) then mret false
               else if bool_decide (case_status <$> cases db !! id = Some "active"%string) then mret true
               else _ ← activate_case id; mret true);
  mret (mkWorldChangeImpact id (kc_revision change) activated
          (merge_sort String.le (si_proposition <$> stale_items)) (merge_sort String.le reopened)).

(** The body of the loop of [relevant_case_ids]. *)
Definition is_relevant (kb : KnowledgeDB) (change : KnowledgeChangeNotice) (now : Z) (case : InvestigationCaseModel)
  : prog CaseDB bool :=
  if bool_decide (case_status case ∈ IMMUTABLE_CASE_STATUSES) then mret false
  else if existsb (λ o, bool_decide (o ∈ kc_object_ids change)) (target_object_ids case) then mret true
  else
    state ← get_state (case_id case) now;
    db ← get_store;
    let needs := needs_of (case_id case) db in
    mret (evidence_refs_touch_change kb (sorted_set (mjoin (si_evidence_refs <$> is_confirmed state))) change
          || existsb (λ n, existsb (λ o, bool_decide (o ∈ kc_object_ids change)) (target_objects n)) needs
          || evidence_refs_touch_change kb (mjoin (resolution_evidence_refs <$> needs)) change).

Definition relevant_case_ids (kb : KnowledgeDB) (change : KnowledgeChangeNotice) (now : Z)
  : prog CaseDB (list string) :=
  db ← get_store;
  let rows := (map_to_list (cases db)).*2 in
  flags ← for_each rows (is_relevant kb change now);
  mret (sorted_set ((λ p, case_id p.1) <$> filter (λ p, p.2 = true) (zip rows flags))).

Definition process_change (kb : KnowledgeDB) (change : KnowledgeChangeNotice) (now : Z)
  : prog CaseDB (list WorldChangeImpact) :=
  ids ← relevant_case_ids kb change now;
  impacts ← for_each ids (λ id,
    db ← get_store;
    match cases db !! id with
    | None => mret None
    | Some case => if bool_decide (case_status case ∈ IMMUTABLE_CASE_STATUSES) then mret None
                   else impact ← apply_case kb change now id; mret (Some impact)
    end);
  mret (omap id impacts).
End service.

(** ** Buckets *)

Lemma replay_snoc events e : replay (events ++ [e]) = replay_event (replay events) e.
Proof. unfold replay. by rewrite foldl_app. Qed.

Lemma elem_of_bucket_pop k b p : p ∈ bucket_pop k b ↔ p ∈ b ∧ p.1 ≠ k.
Proof. unfold bucket_pop. rewrite list_elem_of_filter. naive_solver. Qed.

Lemma keys_bucket_pop k b x : x ∈ (bucket_pop k b).*1 ↔ x ∈ b.*1 ∧ x ≠ k.
Proof.
  rewrite !list_elem_of_fmap. split.
  - intros (p&->&[Hp Hk]%elem_of_bucket_pop). split; [by exists p|done].
  - intros [(p&->&Hp) Hk]. exists p. split; [done|]. by apply elem_of_bucket_pop.
Qed.

Lemma keys_bucket_set k v b : (bucket_set k v b).*1 = if bool_decide (k ∈ b.*1) then b.*1 else b.*1 ++ [k].
Proof.
  unfold bucket_set. case_bool_decide; [|by rewrite fmap_app].
  rewrite <- list_fmap_compose. apply list_fmap_ext. intros i p _. simpl. by case_bool_decide.
Qed.

Lemma elem_of_bucket_set k v b p :
  p ∈ bucket_set k v b → p = (k, v) ∨ p ∈ b ∧ p.1 ≠ k.
Proof.
  unfold bucket_set. case_bool_decide as Hk.
  - intros (q&->&Hq)%list_elem_of_fmap. case_bool_decide; [by left|by right].
  - intros [Hp| ->%list_elem_of_singleton]%elem_of_app; [right|by left]. split; [done|].
    intros <-. apply Hk. by apply list_elem_of_fmap_2.
Qed.

Lemma NoDup_bucket_pop k b : NoDup b.*1 → NoDup (bucket_pop k b).*1.
Proof. intros H. eapply sublist_NoDup; [exact H|]. apply fmap_sublist, sublist_filter. Qed.

Lemma NoDup_bucket_set k v b : NoDup b.*1 → NoDup (bucket_set k v b).*1.
Proof.
  rewrite keys_bucket_set. case_bool_decide as Hk; [done|]. intros H.
  apply NoDup_app. split; [done|]. split; [|apply NoDup_singleton].
  by intros x Hx ->%list_elem_of_singleton.
Qed.

(** Popping a claim from the four claim buckets. *)
Lemma foldl_pop key b n :
  foldl (λ b other, on_bucket other (bucket_pop key) b) b claim_buckets n =
  if bool_decide (n = B_HYPOTHESES) then b n else bucket_pop key (b n).
Proof. destruct n; reflexivity. Qed.

(** One event seen from one bucket. *)
Lemma replay_event_bucket b e n :
  replay_event b e n =
  match ev_proposition e with
  | None => b n
  | Some p =>
      let key := (p, ev_target_ref e) in
      match additions (ev_event_type e) with
      | Some m =>
          if bool_decide (n = m)
          then bucket_set key (event_item p e) (if bool_decide (m = B_HYPOTHESES) then b n else bucket_pop key (b n))
          else if bool_decide (m = B_HYPOTHESES) || bool_decide (n = B_HYPOTHESES) then b n
          else bucket_pop key (b n)
      | None =>
          match removals (ev_event_type e) with
          | Some m => if bool_decide (n = m) then bucket_pop key (b n) else b n
          | None => b n
          end
      end
  end.
Proof.
  unfold replay_event. destruct (ev_proposition e) as [p|]; [|done]. cbv zeta.
  destruct (ev_event_type e); destruct n; reflexivity.
Qed.

Lemma NoDup_replay_event b e : (∀ n, NoDup (b n).*1) → ∀ n, NoDup (replay_event b e n).*1.
Proof.
  intros H n. rewrite replay_event_bucket. destruct (ev_proposition e); [|done]. cbv zeta.
  destruct (additions _) as [m|]; [|destruct (removals _)];
    repeat case_bool_decide; simpl; auto using NoDup_bucket_pop, NoDup_bucket_set.
Qed.

(** In every case log a claim - a proposition about a target - is in at most one of the
    confirmed, tentative, conflicting and unknown buckets, and at most once in each bucket: recording it
    anew takes it out of the bucket it was in.  Hypotheses are kept apart from the claims. *)
Theorem claims_exclusive events :
  (∀ n, NoDup (replay events n).*1) ∧
  (∀ n m k, n ∈ claim_buckets → m ∈ claim_buckets →
    k ∈ (replay events n).*1 → k ∈ (replay events m).*1 → n = m) ∧
  (∀ n p, p ∈ replay events n → p.1 = (it_proposition p.2, it_target_ref p.2)).
Proof.
  induction events as [|e events (IH1&IH2&IH3)] using rev_ind.
  { split; [intros n; constructor|]. split; [intros n m k _ _ []%not_elem_of_nil|intros n p []%not_elem_of_nil]. }
  rewrite replay_snoc. split; [by apply NoDup_replay_event|]. split.
  - intros n m k Hn Hm. rewrite !replay_event_bucket. destruct (ev_proposition e) as [p|]; [|by apply IH2].
    cbv zeta. set (key := (p, ev_target_ref e)).
    assert (∀ n, n ∈ claim_buckets → n ≠ B_HYPOTHESES) as Hc by (intros ? ? ->; set_solver).
    destruct (additions (ev_event_type e)) as [a|] eqn:Ha.
    + rewrite (bool_decide_eq_false_2 _ (Hc n Hn)), (bool_decide_eq_false_2 _ (Hc m Hm)), !orb_false_r.
      destruct (decide (a = B_HYPOTHESES)) as [->|Hah].
      { rewrite (bool_decide_eq_false_2 _ (Hc n Hn)), (bool_decide_eq_false_2 _ (Hc m Hm)). by apply IH2. }
      rewrite (bool_decide_eq_false_2 _ Hah).
      assert (∀ x, k ∈ (if bool_decide (x = a) then bucket_set key (event_item p e) (bucket_pop key (replay events x))
          else bucket_pop key (replay events x)).*1 → x = a ∧ k = key ∨ k ∈ (replay events x).*1 ∧ k ≠ key) as Hx.
      { intros x. case_bool_decide as Hxa; [|by intros [? ?]%keys_bucket_pop; right].
        rewrite keys_bucket_set. case_bool_decide as Hkey; [by intros [? ?]%keys_bucket_pop; right|].
        intros [[? ?]%keys_bucket_pop| ->%list_elem_of_singleton]%elem_of_app; [by right|by left]. }
      intros [[-> ->]|[Hk1 Hne]]%Hx [[-> H2]|[Hk2 H2]]%Hx; [done|done|done|]. by eapply IH2.
    + assert (∀ x, k ∈ (match removals (ev_event_type e) with
          | Some r => if bool_decide (x = r) then bucket_pop key (replay events x) else replay events x
          | None => replay events x end).*1 → k ∈ (replay events x).*1) as Hx.
      { intros x. destruct (removals _); [|done]. case_bool_decide; [|done]. by intros [? _]%keys_bucket_pop. }
      intros H1%Hx H2%Hx. by eapply IH2.
  - intros n p. rewrite replay_event_bucket. destruct (ev_proposition e) as [q|]; [|by apply IH3]. cbv zeta.
    assert (∀ p, p ∈ bucket_pop (q, ev_target_ref e) (replay events n) → p.1 = (it_proposition p.2, it_target_ref p.2))
      as Hpop by (intros ? [? _]%elem_of_bucket_pop; by apply (IH3 n)).
    destruct (additions _) as [a|]; [|destruct (removals _)]; repeat case_bool_decide; simpl; intros Hp;
      try (apply elem_of_bucket_set in Hp as [->|[Hp _]]; [done|]); first [exact (IH3 n p Hp)|exact (Hpop p Hp)].
Qed.

(** ** The log of a case *)

Definition log_of (id : string) (db : CaseDB) : list CaseStateEventModel :=
  filter (λ e, ev_case_id e = id) (case_events db).

(** A need is open: its row says so. *)
Definition open_need (id x : string) (db : CaseDB) : Prop :=
  ∃ n, evidence_needs db !! x = Some n ∧ need_case_id n = id ∧ need_status n = NEED_OPEN.

(** Confirmed and conflicting claims rest on evidence, confirmed ones on no inference. *)
Definition event_ok (e : CaseStateEventModel) : Prop :=
  (ev_event_type e ∈ [FACT_CONFIRMED; CONFLICT_OPENED] → ev_evidence_refs e ≠ []) ∧
  (ev_event_type e = FACT_CONFIRMED → ∃ r, dict_get "reasoning_relation" (ev_payload e) = Some (relation_json r) ∧
    ∀ q, r = Some q → semantics q ≠ INFERRED).

Record log_wf (db : CaseDB) : Prop := {
  lw_case : ∀ k c, cases db !! k = Some c → case_id c = k ∧ 0 ≤ current_revision c ∧
    ev_case_revision <$> log_of k db = seqZ 1 (current_revision c);
  lw_event : ∀ e, e ∈ case_events db → is_Some (cases db !! ev_case_id e) ∧
    ev_base_case_revision e = ev_case_revision e - 1 ∧ event_ok e;
  lw_ids : NoDup (ev_event_id <$> case_events db);
  lw_need : ∀ k n, evidence_needs db !! k = Some n → need_id n = k ∧ is_Some (cases db !! need_case_id n) ∧
    need_status n ∈ [NEED_OPEN; NEED_RESOLVED]
}.

(** The open needs are those the log opened last. *)
Definition needs_ok (id : string) (db : CaseDB) : Prop :=
  ∀ x, x ∈ replay_needs (log_of id db) ↔ open_need id x db.

(** The stored projection, when there is one, is the replay of the whole log. *)
Record projection_of (id : string) (db : CaseDB) (cur : InvestigationStateCurrentModel) : Prop := {
  pr_id : cur_case_id cur = id;
  pr_case : ∃ c, cases db !! id = Some c ∧ cur_case_revision cur = current_revision c ∧ cur_goal cur = goal c ∧
    cur_targets cur = target_object_ids c;
  pr_buckets : ∀ n, cur_bucket cur n = (replay (log_of id db) n).*2;
  pr_decision : cur_current_decision cur = replay_decision (log_of id db);
  pr_needs : ∀ x, x ∈ cur_evidence_need_ids cur ↔ open_need id x db
}.
Definition current_ok (id : string) (db : CaseDB) : Prop :=
  ∀ cur, state_current db !! id = Some cur → projection_of id db cur.

Record case_wf (db : CaseDB) : Prop := {
  cw_log : log_wf db;
  cw_needs : ∀ id, needs_ok id db;
  cw_current : ∀ id, current_ok id db
}.

(** During an operation on one case its stored projection may lag behind. *)
Record case_mid (id : string) (db : CaseDB) : Prop := {
  cm_log : log_wf db;
  cm_needs : ∀ k, needs_ok k db;
  cm_current : ∀ k, k ≠ id → current_ok k db;
  cm_key : ∀ cur, state_current db !! id = Some cur → cur_case_id cur = id;
  cm_open : ∃ c, cases db !! id = Some c ∧ case_status c ∉ IMMUTABLE_CASE_STATUSES
}.

Lemma case_wf_mid id db c :
  case_wf db → cases db !! id = Some c → case_status c ∉ IMMUTABLE_CASE_STATUSES → case_mid id db.
Proof.
  intros [H1 H2 H3] Hc Hs. split; [done|done|done| |by exists c]. intros cur Hcur. apply (H3 id cur Hcur).
Qed.

(** What a case is about never changes. *)
Record case_same (c c' : InvestigationCaseModel) : Prop := {
  sa_id : case_id c' = case_id c;
  sa_signature : task_signature c' = task_signature c;
  sa_targets : target_object_ids c' = target_object_ids c;
  sa_goal : goal c' = goal c;
  sa_knowledge : initial_knowledge_revision c' = initial_knowledge_revision c;
  sa_constraints : case_constraints c' = case_constraints c;
  sa_rubric : rubric c' = rubric c;
  sa_created : case_created_at c' = case_created_at c;
  sa_revision : current_revision c ≤ current_revision c'
}.
#[export] Instance case_same_preorder : PreOrder case_same.
Proof. split; [by intros c|]. intros c1 c2 c3 [] []. split; try congruence. lia. Qed.

(** What a need asks for never changes. *)
Record need_same (n n' : EvidenceNeedModel) : Prop := {
  ns_id : need_id n' = need_id n;
  ns_case : need_case_id n' = need_case_id n;
  ns_question : proposition_or_question n' = proposition_or_question n;
  ns_purpose : purpose n' = purpose n;
  ns_targets : target_objects n' = target_objects n;
  ns_contract : evidence_contract n' = evidence_contract n;
  ns_predicate : completion_predicate n' = completion_predicate n;
  ns_opened : opened_revision n' = opened_revision n
}.
#[export] Instance need_same_preorder : PreOrder need_same.
Proof. split; [by intros n|]. intros n1 n2 n3 [] []. split; congruence. Qed.

(** A history step: logs only grow, and a closed or cancelled case is frozen. *)
Record case_step (db db' : CaseDB) : Prop := {
  cs_cases : ∀ k c, cases db !! k = Some c → ∃ c', cases db' !! k = Some c' ∧ case_same c c' ∧
    (case_status c ∈ IMMUTABLE_CASE_STATUSES → c' = c);
  cs_events : case_events db `prefix_of` case_events db';
  cs_needs : ∀ k n, evidence_needs db !! k = Some n →
    ∃ n', evidence_needs db' !! k = Some n' ∧ need_same n n'
}.
#[export] Instance case_step_preorder : PreOrder case_step.
Proof.
  split; [intros db; split; [intros k c Hc; by exists c|done|intros k n Hn; by exists n]|].
  intros db1 db2 db3 [C1 E1 N1] [C2 E2 N2]. split; [|by etrans|].
  - intros k c (c2&H2&S2&F2)%C1. destruct (C2 k c2 H2) as (c3&H3&S3&F3). exists c3.
    split; [done|]. split; [by etrans|]. intros Hs. rewrite (F2 Hs) in *. auto.
  - intros k n (n2&H2&S2)%N1. destruct (N2 k n2 H2) as (n3&H3&S3). exists n3. split; [done|by etrans].
Qed.

Lemma open_need_ids_spec id db x : log_wf db → x ∈ open_need_ids id db ↔ open_need id x db.
Proof.
  intros Hwf. unfold open_need_ids, needs_of, open_need. rewrite list_elem_of_fmap.
  split.
  - intros (n&->&Hn). rewrite merge_sort_Permutation, !list_elem_of_filter in Hn.
    destruct Hn as (Hs&Hc&Hin). apply list_elem_of_fmap in Hin as ([k n']&->&Hin%elem_of_map_to_list).
    simpl in *. destruct (lw_need _ Hwf _ _ Hin) as (Hk&_&Hst). rewrite Hk. exists n'. split; [done|]. split; [done|].
    apply elem_of_cons in Hs as [Hs|Hs]; [done|]. apply list_elem_of_singleton in Hs. rewrite Hs in Hst.
    assert (NEED_BLOCKED ∉ [NEED_OPEN; NEED_RESOLVED]) by by_decide. done.
  - intros (n&Hn&Hc&Hs). destruct (lw_need _ Hwf _ _ Hn) as (Hk&_&_). exists n. split; [done|].
    rewrite merge_sort_Permutation, !list_elem_of_filter. split; [rewrite Hs; by_decide|]. split; [done|].
    apply list_elem_of_fmap. exists (x, n). split; [done|]. by apply elem_of_map_to_list.
Qed.

Lemma seqZ_sorted_log (l : list CaseStateEventModel) a n :
  ev_case_revision <$> l = seqZ a n → StronglySorted revision_le l.
Proof.
  revert a n. induction l as [|e l IH]; intros a n H; [constructor|].
  destruct (Z.le_gt_cases n 0) as [Hn|Hn]; [by rewrite seqZ_nil in H|].
  rewrite seqZ_cons in H by lia. csimpl in H. injection H as He Hl. constructor; [by eapply IH|].
  apply Forall_forall. intros e' He'. unfold revision_le.
  apply (list_elem_of_fmap_2 ev_case_revision) in He'. rewrite Hl in He'. apply elem_of_seqZ in He'. lia.
Qed.

Lemma seqZ_log_inj (l : list CaseStateEventModel) a n e1 e2 :
  ev_case_revision <$> l = seqZ a n → e1 ∈ l → e2 ∈ l → ev_case_revision e1 = ev_case_revision e2 → e1 = e2.
Proof. intros H. apply NoDup_fmap_eq. rewrite H. apply NoDup_seqZ. Qed.

(** Sorting the log by revision changes nothing. *)
Lemma case_log_of id db c :
  log_wf db → cases db !! id = Some c → case_log id db = log_of id db.
Proof.
  intros Hwf Hc. destruct (lw_case _ Hwf _ _ Hc) as (_&_&Hlog).
  unfold case_log. fold (log_of id db).
  assert (∀ l k : list CaseStateEventModel, StronglySorted revision_le l → StronglySorted revision_le k →
    l ≡ₚ k → (∀ e1 e2, e1 ∈ l → e2 ∈ l → ev_case_revision e1 = ev_case_revision e2 → e1 = e2) → l = k) as Huniq.
  { clear. intros l. induction l as [|x l IH]; intros k Hl Hk Hp Hinj.
    - apply Permutation_length in Hp. by destruct k.
    - destruct k as [|y k]; [by apply Permutation_length in Hp|].
      assert (x = y) as ->.
      { apply StronglySorted_inv in Hl as [_ Hl]. apply StronglySorted_inv in Hk as [_ Hk].
        assert (y ∈ x :: l) as Hy by (rewrite Hp; apply list_elem_of_here).
        assert (x ∈ y :: k) as Hx by (rewrite <- Hp; apply list_elem_of_here).
        apply Hinj; [apply list_elem_of_here|done|]. rewrite Forall_forall in Hl, Hk. unfold revision_le in *.
        apply elem_of_cons in Hy as [->|Hy]; [done|]. apply elem_of_cons in Hx as [->|Hx]; [done|].
        pose proof (Hl _ Hy). pose proof (Hk _ Hx). lia. }
      f_equal. apply IH.
      + by apply StronglySorted_inv in Hl as [? _].
      + by apply StronglySorted_inv in Hk as [? _].
      + by eapply Permutation_cons_inv.
      + intros e1 e2 H1 H2. apply Hinj; by apply elem_of_cons; right. }
  symmetry. apply Huniq.
  - by eapply seqZ_sorted_log.
  - assert (Total revision_le) by (intros e1 e2; unfold revision_le; lia).
    assert (Transitive revision_le) by (intros e1 e2 e3; unfold revision_le; lia).
    apply (StronglySorted_merge_sort revision_le).
  - symmetry. apply merge_sort_Permutation.
  - intros e1 e2. by eapply seqZ_log_inj.
Qed.

(** ** Appending events *)

(** The row [append_event] writes. *)
Definition appended_event (e : CaseStateEventModel) (c : InvestigationCaseModel) : Prop :=
  ev_case_id e = case_id c ∧ ev_case_revision e = current_revision c + 1 ∧
  ev_base_case_revision e = current_revision c.

Definition with_event (e : CaseStateEventModel) (c : InvestigationCaseModel) (db : CaseDB) : CaseDB :=
  put_case (advance_case c) (add_case_event e db).

Lemma append_event_Ok fresh id t patch idx prop target refs writer reason payload now db ev db' :
  append_event fresh id t patch idx prop target refs writer reason payload now db = (Ok ev, db') →
  ∃ c, let e := mkCaseStateEventModel (fresh id (current_revision c + 1)) id (current_revision c + 1)
                  (current_revision c) t patch idx prop target refs writer reason payload now in
    cases db !! id = Some c ∧ event_key_taken e db = false ∧ ev = case_event_view e ∧ db' = with_event e c db.
Proof.
  intros H. unfold append_event in H. apply bind_Ok in H as (s0&s1&H0&H). apply get_store_Ok in H0 as [-> ->].
  apply bind_Ok in H as (c&s1&H0&H). apply require_Ok in H0 as [Hc ->]. cbv zeta in H.
  apply bind_Ok in H as (u&s1&H0&H). apply check_Ok in H0 as [Hk ->].
  apply bind_Ok in H as (u1&s1&H0&H). apply modify_Ok in H0 as ->. apply ret_Ok in H as [-> ->].
  by exists c.
Qed.

Lemma log_of_add id e db : log_of id (add_case_event e db) =
  log_of id db ++ (if bool_decide (ev_case_id e = id) then [e] else []).
Proof.
  unfold log_of, add_case_event. simpl. rewrite filter_app. f_equal.
  rewrite filter_cons. case_decide; [by rewrite bool_decide_eq_true_2|by rewrite bool_decide_eq_false_2].
Qed.

Lemma with_event_log_wf db c e :
  log_wf db → cases db !! case_id c = Some c → appended_event e c → event_ok e → event_key_taken e db = false →
  log_wf (with_event e c db).
Proof.
  intros Hwf Hc (He&Hr&Hb) Hok Hkey. destruct (lw_case _ Hwf _ _ Hc) as (_&Hpos&Hlog). split.
  - intros k c'. simpl. destruct (decide (k = case_id c)) as [->|Hk].
    + rewrite lookup_insert_eq. intros [= <-]. simpl. split; [done|]. split; [lia|].
      change (log_of (case_id c) (with_event e c db)) with (log_of (case_id c) (add_case_event e db)).
      rewrite log_of_add, bool_decide_eq_true_2, fmap_app, Hlog by done. csimpl. by rewrite Hr, seqZ_snoc.
    + rewrite lookup_insert_ne by done. intros Hc'.
      change (log_of k (with_event e c db)) with (log_of k (add_case_event e db)).
      rewrite log_of_add, bool_decide_eq_false_2, app_nil_r by congruence. by apply (lw_case _ Hwf).
  - intros e' He'. simpl in He'. apply elem_of_app in He' as [He'| ->%list_elem_of_singleton].
    + destruct (lw_event _ Hwf _ He') as ([c' Hc']&?&?). split; [|done]. simpl.
      destruct (decide (ev_case_id e' = case_id c)) as [->|Hne]; [rewrite lookup_insert_eq; by eexists|].
      rewrite lookup_insert_ne by done. by eexists.
    + split; [simpl; rewrite He, lookup_insert_eq; by eexists|]. split; [lia|done].
  - simpl. rewrite fmap_app. apply NoDup_app. split; [apply (lw_ids _ Hwf)|].
    split; [|apply NoDup_singleton]. intros x (e'&->&He')%list_elem_of_fmap Hx%list_elem_of_singleton.
    apply not_true_iff_false in Hkey. apply Hkey, existsb_exists. exists e'.
    split; [by apply list_elem_of_In|]. by rewrite bool_decide_eq_true_2.
  - intros k n Hn. destruct (lw_need _ Hwf k n Hn) as (?&[c' Hc']&?). split; [done|]. split; [|done]. simpl.
    destruct (decide (need_case_id n = case_id c)) as [->|Hne]; [rewrite lookup_insert_eq; by eexists|].
    rewrite lookup_insert_ne by done. by eexists.
Qed.

Lemma replay_needs_snoc l e : replay_needs (l ++ [e]) = need_step (replay_needs l) e.
Proof. unfold replay_needs. by rewrite foldl_app. Qed.

(** The needs an event and the row written with it agree on. *)
Definition need_change (e : CaseStateEventModel) (db : CaseDB) (on : option EvidenceNeedModel) : Prop :=
  match on with
  | None => ev_event_type e ∉ [EVIDENCE_NEED_OPENED; EVIDENCE_NEED_RESOLVED]
  | Some n => need_case_id n = ev_case_id e ∧
      (∀ n0, evidence_needs db !! need_id n = Some n0 → need_same n0 n) ∧
      payload_need e = Some (need_id n) ∧
      (ev_event_type e = EVIDENCE_NEED_OPENED ∧ need_status n = NEED_OPEN ∨
       ev_event_type e = EVIDENCE_NEED_RESOLVED ∧ need_status n = NEED_RESOLVED)
  end.
Definition put_needs (on : option EvidenceNeedModel) (db : CaseDB) : CaseDB :=
  match on with Some n => put_need n db | None => db end.

Lemma need_change_step e db on id :
  need_change e db on → (∀ x, x ∈ replay_needs (log_of id db) ↔ open_need id x db) → ev_case_id e = id →
  ∀ x, x ∈ need_step (replay_needs (log_of id db)) e ↔ open_need id x (put_needs on db).
Proof.
  intros Hch IH He x. destruct on as [n|]; simpl in *.
  - destruct Hch as (Hc&Hold&Hp&Hst). unfold need_step. rewrite Hp.
    assert (open_need id x (put_need n db) ↔
      if bool_decide (x = need_id n) then need_status n = NEED_OPEN else open_need id x db) as ->.
    { unfold open_need. simpl. case_bool_decide as Hx.
      - subst x. rewrite lookup_insert_eq. split; [by intros (?&[= <-]&_&?)|]. intros ?. exists n. split; [done|].
        split; [congruence|done].
      - by rewrite lookup_insert_ne. }
    destruct (decide (x = need_id n)) as [->|Hx];
      [rewrite (bool_decide_eq_true_2 (need_id n = need_id n)) by done
      |rewrite (bool_decide_eq_false_2 (x = need_id n)), <- IH by done];
      destruct Hst as [[-> Hs]|[-> Hs]]; rewrite ?Hs.
    + split; [done|]. intros _. case_bool_decide as Hin; [done|].
      rewrite elem_of_app, list_elem_of_singleton. by right.
    + rewrite list_elem_of_filter. naive_solver.
    + case_bool_decide as Hin; [done|]. rewrite elem_of_app, list_elem_of_singleton. naive_solver.
    + rewrite list_elem_of_filter. naive_solver.
  - rewrite <- IH. unfold need_step. destruct (ev_event_type e); try done; exfalso; apply Hch; by_decide.
Qed.

Lemma event_mid id db c e on :
  case_mid id db → cases db !! id = Some c → case_status c ∉ IMMUTABLE_CASE_STATUSES →
  appended_event e c → event_ok e → event_key_taken e db = false → need_change e db on →
  case_mid id (put_needs on (with_event e c db)) ∧ case_step db (put_needs on (with_event e c db)).
Proof.
  intros [Hwf Hneeds Hcur Hkeyc _] Hc Hopen Hshape Hok Hkey Hch.
  destruct (lw_case _ Hwf _ _ Hc) as (Hid&_&_).
  assert (log_wf (with_event e c db)) as Hwf1 by (apply with_event_log_wf; congruence || done).
  destruct Hshape as (He&Hr&Hb). assert (ev_case_id e = id) as Heid by congruence.
  set (db1 := with_event e c db) in *. set (db2 := put_needs on db1).
  assert (cases db2 = <[id := advance_case c]> (cases db)) as Hcases.
  { unfold db2, db1. destruct on; simpl; by rewrite Hid. }
  assert (∀ k, log_of k db2 = log_of k db ++ (if bool_decide (id = k) then [e] else [])) as Hlog.
  { intros k. assert (log_of k db2 = log_of k (add_case_event e db)) as -> by (unfold db2, db1; by destruct on).
    by rewrite log_of_add, Heid. }
  assert (∀ k x, k ≠ id → open_need k x db2 ↔ open_need k x db) as Hother.
  { intros k x Hk. unfold open_need, db2, db1. destruct on as [n|]; [|done]. simpl in *.
    destruct Hch as (Hnc&Hold&_). destruct (decide (x = need_id n)) as [->|Hx]; [|by rewrite lookup_insert_ne].
    rewrite lookup_insert_eq. split.
    - intros (?&[= <-]&?&_). congruence.
    - intros (n0&Hn0&?&_). pose proof (ns_case _ _ (Hold n0 Hn0)). congruence. }
  split.
  - split.
    + destruct on as [n|]; [|exact Hwf1]. destruct Hwf1 as [W1 W2 W3 W4]. split; [exact W1|exact W2|exact W3|].
      intros k n'. simpl. destruct Hch as (Hnc&Hold&_&Hst). destruct (decide (k = need_id n)) as [->|Hk].
      * rewrite lookup_insert_eq. intros [= <-]. split; [done|]. split.
        -- rewrite Hnc, Heid, Hid, lookup_insert_eq. by eexists.
        -- destruct Hst as [[_ ->]|[_ ->]]; by_decide.
      * rewrite lookup_insert_ne by done. apply W4.
    + intros k x. rewrite Hlog. case_bool_decide as Hk.
      * subst k. rewrite replay_needs_snoc.
        assert (open_need id x db2 ↔ open_need id x (put_needs on db)) as ->.
        { unfold db2, db1, open_need. by destruct on. }
        apply need_change_step; [done|apply Hneeds|done].
      * rewrite app_nil_r, Hother by done. apply Hneeds.
    + intros k Hk cur Hcurk. assert (state_current db2 = state_current db) as Hsc by (unfold db2, db1; by destruct on).
      rewrite Hsc in Hcurk. destruct (Hcur k Hk cur Hcurk) as [P1 P2 P3 P4 P5].
      assert (log_of k db2 = log_of k db) as Hlk by by rewrite Hlog, bool_decide_eq_false_2, app_nil_r.
      split; [done| | | |].
      * by rewrite Hcases, lookup_insert_ne.
      * by rewrite Hlk.
      * by rewrite Hlk.
      * intros x. by rewrite Hother.
    + intros cur Hc2. apply Hkeyc. unfold db2, db1 in Hc2. by destruct on.
    + exists (advance_case c). rewrite Hcases, lookup_insert_eq. split; [done|]. simpl.
      case_bool_decide; [by_decide|done].
  - split.
    + intros k c'. rewrite Hcases. destruct (decide (k = id)) as [->|Hk].
      * intros Hc'. assert (c' = c) as -> by congruence. rewrite lookup_insert_eq. eexists. split; [done|].
        split; [split; simpl; (done || lia)|done].
      * intros Hc'. rewrite lookup_insert_ne by done. by exists c'.
    + unfold db2, db1. destruct on; simpl; by apply prefix_app_r.
    + intros k n0 Hn0. unfold db2, db1. destruct on as [n|]; [|by exists n0]. simpl.
      destruct (decide (k = need_id n)) as [->|Hk].
      * rewrite lookup_insert_eq. exists n. split; [done|]. by apply Hch.
      * rewrite lookup_insert_ne by done. by exists n0.
Qed.

(** ** Rebuilding the projection *)

(** Only the stored projections differ. *)
Record same_history (db db' : CaseDB) : Prop := {
  sh_cases : cases db' = cases db;
  sh_events : case_events db' = case_events db;
  sh_needs : evidence_needs db' = evidence_needs db
}.
#[export] Instance same_history_preorder : PreOrder same_history.
Proof. split; [by intros db|]. intros db1 db2 db3 [] []. split; congruence. Qed.

Lemma same_history_step db db' : same_history db db' → case_step db db'.
Proof.
  intros [H1 H2 H3]. split; [rewrite H1; intros k c Hc; by exists c|by rewrite H2|].
  rewrite H3. intros k n Hn. by exists n.
Qed.

Lemma put_current_history cur db : same_history db (put_current cur db).
Proof. by split. Qed.

Lemma same_history_log id db db' : same_history db db' → log_of id db' = log_of id db.
Proof. intros [_ H _]. unfold log_of. by rewrite H. Qed.

Lemma same_history_wf db db' : same_history db db' → log_wf db → log_wf db'.
Proof.
  intros Hs [W1 W2 W3 W4]. pose proof Hs as [H1 H2 H3]. split.
  - intros k c. rewrite H1, (same_history_log k _ _ Hs). apply W1.
  - intros e. rewrite H1, H2. apply W2.
  - by rewrite H2.
  - intros k n. rewrite H1, H3. apply W4.
Qed.

Lemma projection_history id db db' cur : same_history db db' → projection_of id db cur → projection_of id db' cur.
Proof.
  intros Hs [P1 P2 P3 P4 P5]. pose proof Hs as [H1 H2 H3]. split; [done|by rewrite H1| | |].
  - by rewrite (same_history_log id _ _ Hs).
  - by rewrite (same_history_log id _ _ Hs).
  - intros x. rewrite P5. unfold open_need. by rewrite H3.
Qed.

Lemma rebuilt_projection id db c now old :
  log_wf db → cases db !! id = Some c → projection_of id db (rebuilt c now old db).
Proof.
  intros Hwf Hc. destruct (lw_case _ Hwf _ _ Hc) as (Hid&_&_). unfold rebuilt.
  rewrite Hid, (case_log_of id db c Hwf Hc). split; simpl; [done|by exists c| |done|].
  - by intros [].
  - intros x. by apply open_need_ids_spec.
Qed.

Lemma put_rebuilt_wf id db c now old :
  log_wf db → (∀ k, needs_ok k db) → (∀ k, k ≠ id → current_ok k db) → cases db !! id = Some c →
  case_wf (put_current (rebuilt c now old db) db).
Proof.
  intros Hwf Hn Hk Hc. set (db' := put_current _ db). assert (same_history db db') as Hs by by split.
  pose proof (rebuilt_projection id db c now old Hwf Hc) as Hp. split.
  - by eapply same_history_wf.
  - intros k x. rewrite (same_history_log k _ _ Hs). unfold open_need. rewrite (sh_needs _ _ Hs). apply Hn.
  - intros k cur Hcur. eapply projection_history; [exact Hs|]. unfold put_current in Hcur. simpl in Hcur.
    destruct (lw_case _ Hwf _ _ Hc) as (Hid&_&_). rewrite Hid in Hcur.
    destruct (decide (k = id)) as [->|Hne]; [rewrite lookup_insert_eq in Hcur; by injection Hcur as <-|].
    rewrite lookup_insert_ne in Hcur by done. by apply (Hk k Hne).
Qed.

Lemma rebuild_current_Ok id now db cur db' :
  log_wf db → (∀ k, needs_ok k db) → (∀ k, k ≠ id → current_ok k db) →
  rebuild_current id true now db = (Ok cur, db') →
  case_wf db' ∧ same_history db db' ∧ projection_of id db' cur.
Proof.
  intros Hwf Hn Hk H. unfold rebuild_current in H. apply bind_Ok in H as (s0&s1&H0&H).
  apply get_store_Ok in H0 as [-> ->]. apply bind_Ok in H as (c&s1&H0&H). apply require_Ok in H0 as [Hc ->].
  cbv zeta in H.
  assert (cur = rebuilt c now (state_current db !! id) db ∧
    db' = put_current (rebuilt c now (state_current db !! id) db) db) as [-> ->].
  { destruct (state_current db !! id) as [x|]; [cbn [negb] in H; rewrite andb_false_r in H|];
      apply bind_Ok in H as (u&s1&H0&H); apply modify_Ok in H0 as ->; by apply ret_Ok in H as [-> ->]. }
  split; [by eapply put_rebuilt_wf|]. split; [by split|].
  eapply projection_history; [apply put_current_history|]. by apply rebuilt_projection.
Qed.

Lemma rebuilt_state_Ok id now db st db' :
  case_mid id db → rebuilt_state id now db = (Ok st, db') →
  case_wf db' ∧ same_history db db' ∧ ∃ cur, projection_of id db' cur ∧ state_view cur = Ok st.
Proof.
  intros [Hwf Hn Hk _ _] H. unfold rebuilt_state in H. apply bind_Ok in H as (cur&s1&H0&H).
  apply lift_Ok in H as [Hv ->]. destruct (rebuild_current_Ok _ _ _ _ _ Hwf Hn Hk H0) as (?&?&?). eauto 6.
Qed.

Lemma get_state_Ok id now db st db' :
  case_wf db → get_state id now db = (Ok st, db') →
  case_wf db' ∧ same_history db db' ∧ ∃ cur, projection_of id db' cur ∧ state_view cur = Ok st.
Proof.
  intros [Hwf Hn Hk] H. unfold get_state in H. apply bind_Ok in H as (s0&s1&H0&H).
  apply get_store_Ok in H0 as [-> ->]. apply bind_Ok in H as (c&s1&H0&H). apply require_Ok in H0 as [Hc ->].
  apply bind_Ok in H as (cur&s1&H0&H). apply lift_Ok in H as [Hv ->].
  destruct (state_current db !! id) as [x|] eqn:Hx.
  - apply ret_Ok in H0 as [-> ->]. split; [done|]. split; [done|]. exists x. split; [by apply Hk|done].
  - unfold rebuild_current in H0. apply bind_Ok in H0 as (s0&s2&H1&H0). apply get_store_Ok in H1 as [-> ->].
    apply bind_Ok in H0 as (c'&s2&H1&H0). apply require_Ok in H1 as [Hc' ->]. cbv zeta in H0. rewrite Hx in H0.
    apply bind_Ok in H0 as (u&s2&H1&H0). apply modify_Ok in H1 as ->. apply ret_Ok in H0 as [-> ->].
    split; [by eapply put_rebuilt_wf|]. split; [by split|]. eexists. split; [|done].
    eapply projection_history; [apply put_current_history|]. by apply rebuilt_projection.
Qed.

(** ** Every operation keeps the case history sound *)

Definition case_good (db db' : CaseDB) : Prop := case_wf db' ∧ case_step db db'.

Lemma case_good_refl db : case_wf db → case_good db db.
Proof. by split. Qed.

Lemma lock_case_Ok id db c db' :
  lock_case id db = (Ok c, db') →
  db' = db ∧ cases db !! id = Some c ∧ case_status c ∉ IMMUTABLE_CASE_STATUSES.
Proof.
  intros H. unfold lock_case in H. prog_inv H. split; [done|]. split; [done|].
  by apply bool_decide_eq_false in Hcheck.
Qed.

Section operations.
Context (fresh : string → Z → string) (isoformat : Z → string) (fromisoformat : string → result Z).

Lemma append_mid id t patch idx prop target refs writer reason payload now db ev db' on :
  case_mid id db →
  append_event fresh id t patch idx prop target refs writer reason payload now db = (Ok ev, db') →
  (∀ e, ev_case_id e = id → ev_event_type e = t → ev_evidence_refs e = refs → ev_payload e = payload →
    event_ok e ∧ need_change e db on) →
  case_mid id (put_needs on db') ∧ case_step db (put_needs on db').
Proof.
  intros Hmid H Hargs. apply append_event_Ok in H as (c&Hc&Hkey&->&->).
  destruct (cm_open _ _ Hmid) as (c'&Hc'&Hopen). assert (c' = c) as -> by congruence.
  destruct (lw_case _ (cm_log _ _ Hmid) _ _ Hc) as (Hid&_&_).
  eapply event_mid; [done|done|done| | |done|]; [by split|by apply Hargs|by apply Hargs].
Qed.

Lemma other_event_ok e : ev_event_type e ∉ [FACT_CONFIRMED; CONFLICT_OPENED] → event_ok e.
Proof. intros H. split; [done|]. intros E. exfalso. apply H. rewrite E. by_decide. Qed.

(** An event that is neither a claim on evidence nor about a need. *)
Definition plain_event (t : CaseStateEventType) : bool :=
  bool_decide (t ∉ [FACT_CONFIRMED; CONFLICT_OPENED; EVIDENCE_NEED_OPENED; EVIDENCE_NEED_RESOLVED]).

Lemma append_plain_mid id t patch idx prop target refs writer reason payload now db ev db' :
  case_mid id db → plain_event t = true →
  append_event fresh id t patch idx prop target refs writer reason payload now db = (Ok ev, db') →
  case_mid id db' ∧ case_step db db'.
Proof.
  intros Hmid Ht H. apply (append_mid _ _ _ _ _ _ _ _ _ _ _ _ _ _ None Hmid H).
  intros e _ He _ _. unfold plain_event in Ht. apply bool_decide_eq_true in Ht. rewrite <- He in Ht.
  split; [apply other_event_ok|simpl].
  - intros [E|[E|[]%not_elem_of_nil]%elem_of_cons]%elem_of_cons; apply Ht; rewrite E; by_decide.
  - intros [E|[E|[]%not_elem_of_nil]%elem_of_cons]%elem_of_cons; apply Ht; rewrite E; by_decide.
Qed.

Lemma rebuilt_good id now db0 db st db' :
  case_mid id db → case_step db0 db → rebuilt_state id now db = (Ok st, db') → case_good db0 db'.
Proof.
  intros Hmid Hstep H. destruct (rebuilt_state_Ok _ _ _ _ _ Hmid H) as (Hwf&Hsame&_).
  split; [done|]. etrans; [exact Hstep|]. by apply same_history_step.
Qed.

Lemma get_state_good id now db st db' : case_wf db → get_state id now db = (Ok st, db') → case_good db db'.
Proof.
  intros Hwf H. destruct (get_state_Ok _ _ _ _ _ Hwf H) as (?&?&_). split; [done|]. by apply same_history_step.
Qed.

Lemma rebuild_good id now db st db' : case_wf db → rebuild id now db = (Ok st, db') → case_good db db'.
Proof.
  intros [Hwf Hn Hk] H. unfold rebuild in H. apply bind_Ok in H as (s0&s1&H0&H). apply get_store_Ok in H0 as [-> ->].
  apply bind_Ok in H as (c&s1&H0&H). apply require_Ok in H0 as [Hc ->].
  apply bind_Ok in H as (cur&s1&H0&H). apply lift_Ok in H as [_ ->].
  apply rebuild_current_Ok in H0 as (?&?&_); [|done..]. split; [done|]. by apply same_history_step.
Qed.

Lemma mark_perception_good id pid world at_ now db st db' :
  case_wf db → mark_perception fresh isoformat fromisoformat id pid world at_ now db = (Ok st, db') →
  case_good db db'.
Proof.
  intros Hwf H. unfold mark_perception in H. apply bind_Ok in H as (c&s1&H0&H).
  apply lock_case_Ok in H0 as (->&Hc&Hopen). pose proof (case_wf_mid id db c Hwf Hc Hopen) as Hmid.
  apply bind_Ok in H as (s0&s1&H0&H). apply get_store_Ok in H0 as [-> ->]. cbv zeta in H.
  apply bind_Ok in H as (u&s1&H0&H).
  assert (case_mid id s1 ∧ case_step db s1) as [Hm1 Hs1]; [|by eapply rebuilt_good].
  destruct (find_case_event _ _ _ _) as [e|].
  - apply bind_Ok in H0 as (t&s2&H1&H0). apply lift_Ok in H1 as [_ ->]. by apply check_Ok in H0 as [_ ->].
  - apply bind_Ok in H0 as (ev&s2&H1&H0). apply ret_Ok in H0 as [_ ->].
    eapply append_plain_mid; [exact Hmid| |exact H1]. by vm_compute.
Qed.

Lemma open_result_Ok need state event replay db r db' :
  open_result need state event replay db = (Ok r, db') → db' = db ∧ no_replay r = replay.
Proof. intros H. unfold open_result in H. prog_inv H. done. Qed.

Lemma open_need_good kb id base r now db res db' :
  case_wf db → open_evidence_need fresh kb id base r now db = (Ok res, db') → case_good db db'.
Proof.
  intros Hwf H. unfold open_evidence_need in H. apply bind_Ok in H as (c&s1&H0&H).
  apply lock_case_Ok in H0 as (->&Hc&Hopen). pose proof (case_wf_mid id db c Hwf Hc Hopen) as Hmid.
  apply bind_Ok in H as (s0&s1&H0&H). apply get_store_Ok in H0 as [-> ->].
  destruct (evidence_needs db !! nr_need_id r) as [n|] eqn:Hn.
  - apply bind_Ok in H as (e&s1&H0&H). apply require_Ok in H0 as [_ ->].
    apply bind_Ok in H as (st&s1&H0&H). apply open_result_Ok in H as [-> _]. by eapply get_state_good.
  - apply bind_Ok in H as (u&s1&H0&H). apply check_Ok in H0 as [_ ->].
    apply bind_Ok in H as (u1&s1&H0&H). apply check_Ok in H0 as [_ ->].
    apply bind_Ok in H as (u2&s1&H0&H). apply check_Ok in H0 as [_ ->].
    apply bind_Ok in H as (u3&s1&H0&H). apply check_Ok in H0 as [_ ->].
    apply bind_Ok in H as (ev&s1&H0&H). cbv zeta in H.
    apply (append_mid _ _ _ _ _ _ _ _ _ _ _ _ _ _ (Some (new_need id r (ce_case_revision ev) now)) Hmid) in H0
      as [Hm1 Hs1].
    + apply bind_Ok in H as (u4&s2&H0&H). apply modify_Ok in H0 as ->.
      apply bind_Ok in H as (st&s2&H0&H). apply bind_Ok in H as (v&s3&H1&H). apply lift_Ok in H1 as [_ ->].
      apply ret_Ok in H as [_ ->]. exact (rebuilt_good _ _ _ _ _ _ Hm1 Hs1 H0).
    + intros e He Ht _ Hp. split.
      * apply other_event_ok. rewrite Ht. by_decide.
      * simpl. split; [done|]. split; [congruence|]. split; [|by left]. unfold payload_need. by rewrite Hp.
Qed.
Lemma set_reopened_change revision now n e db :
  evidence_needs db !! need_id n = Some n → ev_case_id e = need_case_id n → ev_event_type e = EVIDENCE_NEED_OPENED →
  payload_need e = Some (need_id n) → need_change e db (Some (set_reopened revision now n)).
Proof.
  intros Hn He Ht Hp. simpl. split; [done|]. split; [|split; [done|by left]].
  intros n0 Hn0. assert (n0 = n) as -> by congruence. by split.
Qed.

Lemma reopen_need_good need base key writer reason now db res db' :
  case_wf db → reopen_evidence_need fresh need base key writer reason now db = (Ok res, db') → case_good db db'.
Proof.
  intros Hwf H. unfold reopen_evidence_need in H. apply bind_Ok in H as (s0&s1&H0&H).
  apply get_store_Ok in H0 as [-> ->]. apply bind_Ok in H as (n&s1&H0&H). apply require_Ok in H0 as [Hn ->].
  destruct (lw_need _ (cw_log _ Hwf) _ _ Hn) as (Hid&_&_). subst need.
  apply bind_Ok in H as (c&s1&H0&H). apply lock_case_Ok in H0 as (->&Hc&Hopen).
  pose proof (case_wf_mid _ db c Hwf Hc Hopen) as Hmid.
  apply bind_Ok in H as (s0&s1&H0&H). apply get_store_Ok in H0 as [-> ->].
  destruct (find_case_event _ _ _ _) as [e|].
  { apply bind_Ok in H as (st&s1&H0&H). apply open_result_Ok in H as [-> _]. by eapply get_state_good. }
  destruct (bool_decide (need_status n = NEED_OPEN)).
  { apply bind_Ok in H as (e&s1&H0&H). apply require_Ok in H0 as [_ ->].
    apply bind_Ok in H as (st&s1&H0&H). apply open_result_Ok in H as [-> _]. by eapply get_state_good. }
  apply bind_Ok in H as (u&s1&H0&H). apply check_Ok in H0 as [_ ->].
  apply bind_Ok in H as (ev&s1&H0&H). cbv zeta in H.
  apply (append_mid _ _ _ _ _ _ _ _ _ _ _ _ _ _ (Some (set_reopened (ce_case_revision ev) now n)) Hmid) in H0
    as [Hm1 Hs1].
  - apply bind_Ok in H as (u4&s2&H0&H). apply modify_Ok in H0 as ->.
    apply bind_Ok in H as (st&s2&H0&H). apply bind_Ok in H as (v&s3&H1&H). apply lift_Ok in H1 as [_ ->].
    apply ret_Ok in H as [_ ->]. exact (rebuilt_good _ _ _ _ _ _ Hm1 Hs1 H0).
  - intros e He Ht _ Hp. split; [apply other_event_ok; rewrite Ht; by_decide|].
    apply set_reopened_change; [done|done|done|]. unfold payload_need. by rewrite Hp.
Qed.

Lemma commit_good commit now db res db' :
  case_wf db → commit_decision fresh commit now db = (Ok res, db') → case_good db db'.
Proof.
  intros Hwf H. unfold commit_decision in H. apply bind_Ok in H as (c&s1&H0&H).
  apply lock_case_Ok in H0 as (->&Hc&Hopen). pose proof (case_wf_mid _ db c Hwf Hc Hopen) as Hmid.
  apply bind_Ok in H as (s0&s1&H0&H). apply get_store_Ok in H0 as [-> ->].
  destruct (find_case_event _ _ _ _) as [e|].
  { apply bind_Ok in H as (st&s1&H0&H). apply ret_Ok in H as [_ ->]. by eapply get_state_good. }
  apply bind_Ok in H as (u&s1&H0&H). apply check_Ok in H0 as [_ ->].
  apply bind_Ok in H as (ev&s1&H0&H).
  apply append_plain_mid in H0 as [Hm1 Hs1]; [|done|by vm_compute].
  apply bind_Ok in H as (st&s2&H0&H). apply ret_Ok in H as [_ ->]. exact (rebuilt_good _ _ _ _ _ _ Hm1 Hs1 H0).
Qed.

(** What the checks on a patch leave of one of its operations. *)
Record operation_ok (kb : KnowledgeDB) (id : string) (db : CaseDB) (o : StatePatchOperation) : Prop := {
  oo_evidence : op_evidence_refs o ⊆ sup_evidence_refs (evidence_support_summary kb (op_evidence_refs o));
  oo_target : ∀ t, op_target_ref o = Some t → is_target_ref kb t = true;
  oo_support : ∀ t x, op_target_ref o = Some t → strip_prefix "object:" t = Some x →
    op_proposed_state o ∈ [CONFIRMED; CONFLICT] → op_disposition o = SET →
    x ∈ supported_object_ids (evidence_support_summary kb (op_evidence_refs o));
  oo_inferred : ∀ r, op_reasoning_relation o = Some r → op_proposed_state o = CONFIRMED →
    op_disposition o = SET → semantics r ≠ INFERRED;
  oo_need : ∀ x, op_resolves_need_id o = Some x → ∃ n, evidence_needs db !! x = Some n ∧ need_case_id n = id ∧
    need_status n = NEED_OPEN ∧ validate_need_resolution kb n o = Ok tt
}.

Lemma validate_patch_operation_Ok kb id db o u :
  validate_patch_operation kb id db o = Ok u → operation_ok kb id db o.
Proof.
  unfold validate_patch_operation. cbv zeta. intros H.
  apply result_bind_Ok in H as (u1&H1%raise_when_Ok&H). apply result_bind_Ok in H as (u2&H2%raise_when_Ok&H).
  apply result_bind_Ok in H as (u3&H3%raise_when_Ok&H). apply result_bind_Ok in H as (u4&H4%raise_when_Ok&H).
  apply negb_false_iff, bool_decide_eq_true in H2. split; [done| | | |].
  - intros t Ht. rewrite Ht in H1. by apply negb_false_iff in H1.
  - intros t x Ht Hx Hs Hd. rewrite Ht in H3. cbn [mbind option_bind] in H3. rewrite Hx, !bool_decide_eq_true_2 in H3 by done.
    cbn [andb] in H3. by apply negb_false_iff, bool_decide_eq_true in H3.
  - intros r Hr Hs Hd Hi. rewrite Hr, !bool_decide_eq_true_2 in H4 by done. done.
  - intros x Hx. rewrite Hx in H. destruct (evidence_needs db !! x) as [n|]; [|done].
    destruct (bool_decide (need_case_id n ≠ id)) eqn:Hc; [done|]. apply bool_decide_eq_false, dec_stable in Hc.
    destruct (bool_decide (need_status n ≠ NEED_OPEN)) eqn:Hs; [done|]. apply bool_decide_eq_false, dec_stable in Hs.
    destruct u. by exists n.
Qed.

Lemma map_result_Ok {A B} (f : A → result B) l k :
  map_result f l = Ok k → Forall2 (λ x y, f x = Ok y) l k.
Proof.
  revert k. induction l as [|x l IH]; intros k H; simpl in H; [by injection H as <-|].
  apply result_bind_Ok in H as (y&Hy&H). apply result_bind_Ok in H as (ys&Hys&[= <-]). constructor; auto.
Qed.

Lemma validate_patch_Ok kb patch db u db' :
  validate_patch kb patch db = (Ok u, db') →
  db' = db ∧ ∀ o, o ∈ sp_operations patch → operation_ok kb (sp_case_id patch) db o.
Proof.
  intros H. unfold validate_patch in H. apply bind_Ok in H as (s0&s1&H0&H). apply get_store_Ok in H0 as [-> ->].
  apply bind_Ok in H as (us&s1&H0&H). apply lift_Ok in H0 as [Hm ->]. apply ret_Ok in H as [_ ->].
  split; [done|]. intros o [i Hi]%list_elem_of_lookup. apply map_result_Ok in Hm.
  destruct (Forall2_lookup_l _ _ _ _ _ Hm Hi) as (v&_&Hv). by eapply validate_patch_operation_Ok.
Qed.

(** A valid operation that the checks let through writes a sound event. *)
Lemma patch_event_ok kb patch db o e :
  validate_operation o = Ok o → operation_ok kb (sp_case_id patch) db o →
  ev_event_type e = event_type_for o → ev_evidence_refs e = op_evidence_refs o →
  ev_payload e = operation_payload patch o → event_ok e.
Proof.
  intros Hv Hok Ht Hr Hp. split.
  - rewrite Ht, Hr. intros Hin Hnil. unfold validate_operation in Hv. destruct (py_blank _) in Hv; [done|].
    assert (op_proposed_state o ∈ [CONFIRMED; CONFLICT] ∧ op_disposition o = SET) as [Hs Hd].
    { unfold event_type_for in Hin. destruct (op_proposed_state o), (op_disposition o); (split; [by_decide|done]) || (exfalso; revert Hin; rewrite !elem_of_cons, elem_of_nil; naive_solver). }
    by rewrite !bool_decide_eq_true_2 in Hv.
  - rewrite Ht, Hp. intros Hc. exists (op_reasoning_relation o). split; [done|]. intros q Hq.
    eapply oo_inferred; [done|done|..]; unfold event_type_for in Hc; by destruct (op_proposed_state o), (op_disposition o).
Qed.

Lemma event_type_for_need o : event_type_for o ∉ [EVIDENCE_NEED_OPENED; EVIDENCE_NEED_RESOLVED].
Proof. unfold event_type_for. destruct (op_proposed_state o), (op_disposition o); by_decide. Qed.

Lemma apply_operation_mid kb patch reason now db0 io db evs db' :
  case_mid (sp_case_id patch) db → case_step db0 db →
  validate_operation io.2 = Ok io.2 → operation_ok kb (sp_case_id patch) db0 io.2 →
  apply_operation fresh patch reason now io db = (Ok evs, db') →
  case_mid (sp_case_id patch) db' ∧ case_step db db'.
Proof.
  intros Hmid Hstep Hv Hok H. unfold apply_operation in H. apply bind_Ok in H as (ev&s1&H0&H).
  apply (append_mid _ _ _ _ _ _ _ _ _ _ _ _ _ _ None Hmid) in H0 as [Hm1 Hs1].
  2: { intros e _ Ht Hr Hp. split; [by eapply patch_event_ok|]. simpl. rewrite Ht. apply event_type_for_need. }
  simpl in Hm1, Hs1. apply bind_Ok in H as (rs&s2&H0&H). apply ret_Ok in H as [_ ->].
  unfold resolve_need_from_operation in H0. destruct (op_resolves_need_id io.2) as [x|] eqn:Hx;
    [|by apply ret_Ok in H0 as [_ ->]].
  apply bind_Ok in H0 as (s0&s3&H1&H0). apply get_store_Ok in H1 as [-> ->].
  apply bind_Ok in H0 as (n&s3&H1&H0). apply require_Ok in H1 as [Hn ->].
  apply bind_Ok in H0 as (ev2&s3&H1&H0). apply bind_Ok in H0 as (u&s4&H2&H0). apply modify_Ok in H2 as ->.
  apply ret_Ok in H0 as [_ ->].
  destruct (oo_need _ _ _ _ Hok x Hx) as (n0&Hn0&Hcase&_&_).
  destruct (cs_needs _ _ Hstep x n0 Hn0) as (n1&Hn1&S1). destruct (cs_needs _ _ Hs1 x n1 Hn1) as (n2&Hn2&S2).
  assert (n2 = n) as -> by congruence.
  destruct (lw_need _ (cm_log _ _ Hm1) _ _ Hn) as (Hid&_&_).
  apply (append_mid _ _ _ _ _ _ _ _ _ _ _ _ _ _
    (Some (set_resolved (op_evidence_refs io.2) (ce_case_revision ev2) now n)) Hm1) in H1 as [Hm2 Hs2].
  - split; [exact Hm2|]. etrans; [exact Hs1|exact Hs2].
  - intros e He Ht _ Hp. split; [apply other_event_ok; rewrite Ht; by_decide|]. simpl.
    pose proof (ns_case _ _ S1). pose proof (ns_case _ _ S2). split; [congruence|]. split.
    + rewrite Hid. intros n3 Hn3. assert (n3 = n) as -> by congruence. by split.
    + split; [|by right]. unfold payload_need. rewrite Hp. simpl. by rewrite Hid.
Qed.

Lemma apply_operations_mid kb patch reason now db0 ios db evs db' :
  case_mid (sp_case_id patch) db → case_step db0 db →
  (∀ io, io ∈ ios → validate_operation io.2 = Ok io.2 ∧ operation_ok kb (sp_case_id patch) db0 io.2) →
  for_each ios (apply_operation fresh patch reason now) db = (Ok evs, db') →
  case_mid (sp_case_id patch) db' ∧ case_step db db'.
Proof.
  revert db evs. induction ios as [|io ios IH]; intros db evs Hmid Hstep Hios H; cbn [for_each] in H.
  { by apply ret_Ok in H as [_ ->]. }
  apply bind_Ok in H as (ev&s1&H1&H). apply bind_Ok in H as (evs'&s2&H&H2). apply ret_Ok in H2 as [_ ->].
  destruct (Hios io (list_elem_of_here _ _)) as [Hv Hok].
  destruct (apply_operation_mid _ _ _ _ _ _ _ _ _ Hmid Hstep Hv Hok H1) as [Hm1 Hs1].
  destruct (IH s1 evs' Hm1 ltac:(by etrans) ltac:(intros; apply Hios; by apply elem_of_cons; right) H) as [Hm2 Hs2].
  split; [done|by etrans].
Qed.

Lemma elem_of_enumerate {A} (l : list A) p : p ∈ enumerate l → p.2 ∈ l.
Proof. destruct p. apply elem_of_zip_r. Qed.
(** The operations of a validated patch are valid. *)
Definition patch_ok (patch : StatePatch) : Prop := validate_patch_model patch = Ok patch.

Lemma patch_ok_operations patch o : patch_ok patch → o ∈ sp_operations patch → validate_operation o = Ok o.
Proof.
  unfold patch_ok, validate_patch_model. destruct (existsb _ _) eqn:He; [done|]. intros _ Ho.
  apply not_true_iff_false in He. destruct (validate_operation o) as [o'|] eqn:Hv.
  - unfold validate_operation in Hv. repeat (case_match; [done|]). by injection Hv as <-.
  - exfalso. apply He, existsb_exists. exists o. split; [by apply list_elem_of_In|]. by rewrite Hv.
Qed.

Lemma apply_patch_steps kb patch reason now db res db' :
  case_wf db → (∀ o, o ∈ sp_operations patch → validate_operation o = Ok o) →
  apply_patch fresh kb patch reason now db = (Ok res, db') → case_good db db'.
Proof.
  intros Hwf Hp H. unfold apply_patch in H. apply bind_Ok in H as (c&s1&H0&H).
  apply lock_case_Ok in H0 as (->&Hc&Hopen). pose proof (case_wf_mid _ db c Hwf Hc Hopen) as Hmid.
  apply bind_Ok in H as (s0&s1&H0&H). apply get_store_Ok in H0 as [-> ->].
  destruct (patch_events _ _ _) as [|e l].
  - apply bind_Ok in H as (u&s1&H0&H). apply check_Ok in H0 as [_ ->].
    apply bind_Ok in H as (u1&s1&H0&H). apply validate_patch_Ok in H0 as [-> Hok].
    apply bind_Ok in H as (evs&s1&H0&H).
    apply (apply_operations_mid kb patch reason now db) in H0 as [Hm1 Hs1]; [|done|done|].
    + apply bind_Ok in H as (st&s2&H0&H). apply ret_Ok in H as [_ ->]. exact (rebuilt_good _ _ _ _ _ _ Hm1 Hs1 H0).
    + intros io Hio%elem_of_enumerate. split; [by apply Hp|by apply Hok].
  - apply bind_Ok in H as (st&s1&H0&H). apply ret_Ok in H as [_ ->]. by eapply get_state_good.
Qed.
Lemma apply_patch_good kb patch reason now db res db' :
  case_wf db → patch_ok patch → apply_patch fresh kb patch reason now db = (Ok res, db') → case_good db db'.
Proof. intros Hwf Hp. apply apply_patch_steps; [done|]. intros o. by apply patch_ok_operations. Qed.

(** *** The life cycle of a case *)

Lemma set_status_wf db id c st cl :
  case_wf db → cases db !! id = Some c → case_status c ∉ IMMUTABLE_CASE_STATUSES →
  case_good db (put_case (set_case_status st cl c) db).
Proof.
  intros Hwf Hc Hopen. destruct (lw_case _ (cw_log _ Hwf) _ _ Hc) as (Hid&Hpos&Hlog).
  set (db' := put_case _ db).
  assert (∀ k c', cases db' !! k = Some c' → ∃ c0, cases db !! k = Some c0 ∧ case_id c' = case_id c0 ∧
    current_revision c' = current_revision c0 ∧ goal c' = goal c0 ∧ target_object_ids c' = target_object_ids c0) as Hback.
  { intros k c'. unfold db'. simpl. rewrite Hid. destruct (decide (k = id)) as [->|Hk].
    - rewrite lookup_insert_eq. intros [= <-]. by exists c.
    - rewrite lookup_insert_ne by done. intros ?. by exists c'. }
  assert (∀ k, is_Some (cases db !! k) → is_Some (cases db' !! k)) as Hfwd.
  { intros k Hk. unfold db'. simpl. rewrite Hid. destruct (decide (k = id)) as [->|Hne];
      [rewrite lookup_insert_eq; by eexists|by rewrite lookup_insert_ne]. }
  split.
  - split.
    + destruct (cw_log _ Hwf) as [W1 W2 W3 W4]. split.
      * intros k c' (c0&H0&E1&E2&_)%Hback. rewrite E1, E2. by apply W1.
      * intros e He. destruct (W2 e He) as (?&?&?). split; [by apply Hfwd|done].
      * exact W3.
      * intros k n Hn. destruct (W4 k n Hn) as (?&?&?). split; [done|]. split; [by apply Hfwd|done].
    + intros k x. apply (cw_needs _ Hwf k x).
    + intros k cur Hcur. destruct (cw_current _ Hwf k cur Hcur) as [P1 (c0&H0&E1&E2&E3) P3 P4 P5].
      split; [done| |done|done|done]. destruct (Hfwd k ltac:(by eexists)) as [c' Hc'].
      destruct (Hback k c' Hc') as (c1&H1&F1&F2&F3&F4). exists c'. split; [done|].
      assert (c1 = c0) as -> by congruence. split; [congruence|]. split; congruence.
  - split; [|done|intros k n Hn; by exists n]. intros k c' Hc'. unfold db'. simpl. rewrite Hid.
    destruct (decide (k = id)) as [->|Hk].
    + rewrite lookup_insert_eq. assert (c' = c) as -> by congruence. eexists. split; [done|].
      split; [by split|done].
    + rewrite lookup_insert_ne by done. by exists c'.
Qed.

Lemma normalized_open value l allowed :
  normalized_lifecycle value = Ok l → l ∈ allowed → allowed ⊆ [LC_CREATED; LC_ACTIVE; LC_WAITING] →
  value ∉ IMMUTABLE_CASE_STATUSES.
Proof.
  intros H Hl Hsub Hin. apply Hsub in Hl. unfold IMMUTABLE_CASE_STATUSES in Hin.
  apply elem_of_cons in Hin as [->|Hin%list_elem_of_singleton]; [|subst value];
    vm_compute in H; injection H as <-; revert Hl; rewrite !elem_of_cons, elem_of_nil; naive_solver.
Qed.

Lemma transition_case_good id allowed target db res db' :
  case_wf db → allowed ⊆ [LC_CREATED; LC_ACTIVE; LC_WAITING] →
  transition_case id allowed target db = (Ok res, db') → case_good db db'.
Proof.
  intros Hwf Hall H. unfold transition_case in H. apply bind_Ok in H as (s0&s1&H0&H).
  apply get_store_Ok in H0 as [-> ->]. apply bind_Ok in H as (c&s1&H0&H). apply require_Ok in H0 as [Hc ->].
  apply bind_Ok in H as (l&s1&H0&H). apply lift_Ok in H0 as [Hl ->].
  destruct (bool_decide (l = target)); [apply lift_Ok in H as [_ ->]; by apply case_good_refl|].
  apply bind_Ok in H as (u&s1&H0&H). apply check_Ok in H0 as [Ha ->]. apply bool_decide_eq_false, dec_stable in Ha.
  cbv zeta in H. apply bind_Ok in H as (u1&s1&H0&H). apply modify_Ok in H0 as ->. apply lift_Ok in H as [_ ->].
  eapply set_status_wf; [done|exact Hc|by eapply normalized_open].
Qed.

Lemma close_case_good id now db res db' :
  case_wf db → close_case id now db = (Ok res, db') → case_good db db'.
Proof.
  intros Hwf H. unfold close_case in H. apply bind_Ok in H as (s0&s1&H0&H).
  apply get_store_Ok in H0 as [-> ->]. apply bind_Ok in H as (c&s1&H0&H). apply require_Ok in H0 as [Hc ->].
  destruct (bool_decide (case_status c = "closed"%string)) eqn:Hcl;
    [apply lift_Ok in H as [_ ->]; by apply case_good_refl|].
  apply bind_Ok in H as (u&s1&H0&H). apply check_Ok in H0 as [Hca ->].
  apply bind_Ok in H as (u1&s1&H0&H). apply check_Ok in H0 as [_ ->]. cbv zeta in H.
  apply bind_Ok in H as (u2&s1&H0&H). apply modify_Ok in H0 as ->. apply lift_Ok in H as [_ ->].
  apply bool_decide_eq_false in Hcl, Hca.
  eapply set_status_wf; [done|exact Hc|]. unfold IMMUTABLE_CASE_STATUSES.
  rewrite !elem_of_cons, elem_of_nil. naive_solver.
Qed.

Lemma create_case_good id sig targets g rev constr rub now db res db' :
  case_wf db → create_case id sig targets g rev constr rub now db = (Ok res, db') → case_good db db'.
Proof.
  intros [[W1 W2 W3 W4] Hn Hcur] H. unfold create_case in H. cbv zeta in H. apply bind_Ok in H as (s0&s1&H0&H).
  apply get_store_Ok in H0 as [-> ->]. apply bind_Ok in H as (u&s1&H0&H). apply check_Ok in H0 as [Hnew ->].
  apply bind_Ok in H as (u1&s1&H0&H). apply modify_Ok in H0 as ->. apply lift_Ok in H as [_ ->].
  apply bool_decide_eq_false in Hnew. rewrite <- eq_None_not_Some in Hnew.
  set (c := mkInvestigationCaseModel _ _ _ _ _ _ _ _ _ _ _). set (db' := put_case c db).
  assert (∀ k, k ≠ id → cases db' !! k = cases db !! k) as Hne.
  { intros k Hk. unfold db'. simpl. by rewrite lookup_insert_ne. }
  assert (∀ k, is_Some (cases db !! k) → is_Some (cases db' !! k)) as Hfwd.
  { intros k Hk. destruct (decide (k = id)) as [->|Hk']; [|by rewrite Hne]. unfold db'. simpl.
    rewrite lookup_insert_eq. by eexists. }
  assert (log_of id db = []) as Hnolog.
  { unfold log_of. destruct (filter _ _) as [|e l] eqn:Hf; [done|exfalso].
    assert (e ∈ filter (λ e, ev_case_id e = id) (case_events db)) as He by (rewrite Hf; apply list_elem_of_here).
    apply list_elem_of_filter in He as [He Hin]. destruct (W2 e Hin) as [[c0 Hc0] _]. congruence. }
  split.
  - split; [split|exact Hn|].
    + intros k c'. destruct (decide (k = id)) as [->|Hk].
      * unfold db'. simpl. rewrite lookup_insert_eq. intros [= <-]. split; [done|]. split; [done|].
        change (ev_case_revision <$> log_of id db = seqZ 1 0). by rewrite Hnolog.
      * rewrite Hne by done. apply W1.
    + intros e He. destruct (W2 e He) as (?&?&?). split; [by apply Hfwd|done].
    + exact W3.
    + intros k n Hk. destruct (W4 k n Hk) as (?&?&?). split; [done|]. split; [by apply Hfwd|done].
    + intros k cur Hk. destruct (Hcur k cur Hk) as [P1 (c0&H0&?) P3 P4 P5]. split; [done| |done|done|done].
      exists c0. split; [|done]. rewrite Hne; congruence.
  - split; [|done|intros k n Hk; by exists n]. intros k c0 Hc0. exists c0. rewrite Hne by congruence. done.
Qed.
(** *** Changes of the knowledge base *)

Lemma for_each_good {A B} (l : list A) (m : A → prog CaseDB B) db bs db' :
  (∀ x s b s', x ∈ l → case_wf s → m x s = (Ok b, s') → case_good s s') →
  case_wf db → for_each l m db = (Ok bs, db') → case_good db db'.
Proof.
  intros Hm. revert db bs. induction l as [|x l IH]; intros db bs Hwf H; cbn [for_each] in H.
  { apply ret_Ok in H as [_ ->]. by apply case_good_refl. }
  apply bind_Ok in H as (b&s1&H1&H). apply bind_Ok in H as (bs'&s2&H&H2). apply ret_Ok in H2 as [_ ->].
  destruct (Hm x db b s1 (list_elem_of_here _ _) Hwf H1) as [Hw1 Hs1].
  destruct (IH ltac:(intros; eapply Hm; [by apply elem_of_cons; right|done..]) s1 bs' Hw1 H) as [Hw2 Hs2].
  split; [done|by etrans].
Qed.

Lemma for_each_mid {A B} id (l : list A) (m : A → prog CaseDB B) db0 db bs db' :
  (∀ x s b s', x ∈ l → case_step db0 s → case_mid id s → m x s = (Ok b, s') → case_mid id s' ∧ case_step s s') →
  case_step db0 db → case_mid id db → for_each l m db = (Ok bs, db') → case_mid id db' ∧ case_step db0 db'.
Proof.
  intros Hm. revert db bs. induction l as [|x l IH]; intros db bs Hstep Hmid H; cbn [for_each] in H.
  { by apply ret_Ok in H as [_ ->]. }
  apply bind_Ok in H as (b&s1&H1&H). apply bind_Ok in H as (bs'&s2&H&H2). apply ret_Ok in H2 as [_ ->].
  destruct (Hm x db b s1 (list_elem_of_here _ _) Hstep Hmid H1) as [Hw1 Hs1].
  eapply (IH ltac:(intros; eapply Hm; [by apply elem_of_cons; right|done..]) s1 bs'); [by etrans|done|done].
Qed.

Lemma retract_item_mid id change now i db u db' :
  case_mid id db → retract_item fresh id change now i db = (Ok u, db') → case_mid id db' ∧ case_step db db'.
Proof.
  intros Hmid H. unfold retract_item in H. apply bind_Ok in H as (e1&s1&H1&H).
  apply append_plain_mid in H1 as [Hm1 Hs1]; [|done|by vm_compute].
  apply bind_Ok in H as (e2&s2&H2&H). apply append_plain_mid in H2 as [Hm2 Hs2]; [|done|by vm_compute].
  apply ret_Ok in H as [_ ->]. split; [done|by etrans].
Qed.

Lemma reopen_stale_need_mid id change now n db0 db x db' :
  case_step db0 db → evidence_needs db0 !! need_id n = Some n → need_case_id n = id → case_mid id db →
  reopen_stale_need fresh id change now n db = (Ok x, db') → case_mid id db' ∧ case_step db db'.
Proof.
  intros Hstep Hn Hc Hmid H. unfold reopen_stale_need in H. apply bind_Ok in H as (ev&s1&H0&H).
  apply (append_mid _ _ _ _ _ _ _ _ _ _ _ _ _ _ (Some (set_reopened (ce_case_revision ev) now n)) Hmid) in H0
    as [Hm1 Hs1].
  - apply bind_Ok in H as (u&s2&H0&H). apply modify_Ok in H0 as ->. by apply ret_Ok in H as [_ ->].
  - intros e He Ht _ Hp. split; [apply other_event_ok; rewrite Ht; by_decide|]. simpl. split; [congruence|].
    split; [|split; [|by left]].
    + intros n1 Hn1. destruct (cs_needs _ _ Hstep _ _ Hn) as (n2&Hn2&S). assert (n2 = n1) as -> by congruence.
      destruct S. split; simpl; congruence.
    + unfold payload_need. by rewrite Hp.
Qed.

Lemma elem_of_needs_of id db n :
  log_wf db → n ∈ needs_of id db ↔ evidence_needs db !! need_id n = Some n ∧ need_case_id n = id.
Proof.
  intros Hwf. unfold needs_of. rewrite list_elem_of_filter, list_elem_of_fmap. split.
  - intros (Hc&[k n']&->&Hin%elem_of_map_to_list). simpl in *. by rewrite (proj1 (lw_need _ Hwf _ _ Hin)).
  - intros [Hn Hc]. split; [done|]. exists (need_id n, n). split; [done|]. by apply elem_of_map_to_list.
Qed.

Lemma for_each_length {A B} (l : list A) (m : A → prog CaseDB B) db bs db' :
  for_each l m db = (Ok bs, db') → length bs = length l.
Proof.
  revert db bs. induction l as [|x l IH]; intros db bs H; cbn [for_each] in H; [by apply ret_Ok in H as [-> _]|].
  apply bind_Ok in H as (b&s1&H1&H). apply bind_Ok in H as (bs'&s2&H&H2). apply ret_Ok in H2 as [-> ->].
  simpl. by rewrite (IH _ _ H).
Qed.

Lemma apply_case_good kb change now id db res db' :
  case_wf db → apply_case fresh kb change now id db = (Ok res, db') → case_good db db'.
Proof.
  intros Hwf H. unfold apply_case in H. apply bind_Ok in H as (c&s1&H0&H).
  apply lock_case_Ok in H0 as (->&Hc&Hopen). apply bind_Ok in H as (st&s1&H0&H).
  destruct (get_state_Ok _ _ _ _ _ Hwf H0) as (Hwf1&Hsame&_).
  pose proof (same_history_step _ _ Hsame) as Hstep1.
  assert (case_mid id s1) as Hmid by (apply (case_wf_mid id s1 c Hwf1); [by rewrite (sh_cases _ _ Hsame)|done]).
  clear H0. apply bind_Ok in H as (s0&s2&H0&H). apply get_store_Ok in H0 as [-> ->]. cbv zeta in H.
  set (items := filter _ (is_confirmed st)) in H. set (needs := filter _ (filter _ _)) in H.
  apply bind_Ok in H as (us&s2&H1&H). apply bind_Ok in H as (reopened&s3&H2&H).
  assert (case_mid id s2 ∧ case_step s1 s2) as [Hm2 Hs2].
  { eapply for_each_mid; [|reflexivity|exact Hmid|exact H1]. intros i s u s' _ _ Hm Hr. by eapply retract_item_mid. }
  assert (case_mid id s3 ∧ case_step s1 s3) as [Hm3 Hs3].
  { eapply for_each_mid; [|exact Hs2|exact Hm2|exact H2]. intros n s x s' Hn Hst Hm Hr. unfold needs in Hn. rewrite !list_elem_of_filter, elem_of_needs_of in Hn by apply Hwf1.
    destruct Hn as (_&_&Hn&Hcase). eapply reopen_stale_need_mid; [exact Hst|done|done|done|exact Hr]. }
  apply bind_Ok in H as (u&s4&H3&H). assert (case_good db s4) as Hg.
  { destruct (bool_decide (items = []) && bool_decide (reopened = [])) eqn:Hnone.
    - apply andb_true_iff in Hnone as [Hi%bool_decide_eq_true Hr%bool_decide_eq_true].
      apply ret_Ok in H3 as [_ ->]. rewrite Hi in H1. apply ret_Ok in H1 as [_ ->].
      pose proof (for_each_length _ _ _ _ _ H2) as Hlen. rewrite Hr in Hlen. destruct needs; [|done].
      apply ret_Ok in H2 as [_ ->]. by split.
    - apply bind_Ok in H3 as (st'&s5&H3&H4). apply ret_Ok in H4 as [_ ->]. unfold rebuild in H3.
      apply bind_Ok in H3 as (s0&s6&H0&H3). apply get_store_Ok in H0 as [-> ->].
      apply bind_Ok in H3 as (c'&s6&H0&H3). apply require_Ok in H0 as [_ ->].
      apply bind_Ok in H3 as (cur&s6&H0&H3). apply lift_Ok in H3 as [_ ->].
      destruct Hm3 as [Q1 Q2 Q3 _ _]. destruct (rebuild_current_Ok _ _ _ _ _ Q1 Q2 Q3 H0) as (Hw&Hs&_).
      split; [done|]. etrans; [exact Hstep1|]. etrans; [exact Hs3|]. by apply same_history_step. }
  apply bind_Ok in H as (s0&s5&H0&H). apply get_store_Ok in H0 as [-> ->].
  apply bind_Ok in H as (activated&s5&H0&H). apply ret_Ok in H as [_ ->].
  destruct (bool_decide (case_status c ≠ "waiting"%string)); [by apply ret_Ok in H0 as [_ ->]|].
  destruct (bool_decide (_ <$> cases s4 !! id = _)); [by apply ret_Ok in H0 as [_ ->]|].
  apply bind_Ok in H0 as (cv&s6&H0&H). apply ret_Ok in H as [_ ->].
  apply transition_case_good in H0 as [Hw Hs]; [|apply Hg|].
  - split; [done|]. etrans; [apply Hg|exact Hs].
  - intros x. rewrite !elem_of_cons. tauto.
Qed.

Lemma process_change_good kb change now db res db' :
  case_wf db → process_change fresh kb change now db = (Ok res, db') → case_good db db'.
Proof.
  intros Hwf H. unfold process_change in H. apply bind_Ok in H as (ids&s1&H0&H).
  apply bind_Ok in H as (impacts&s2&H1&H). apply ret_Ok in H as [_ ->].
  assert (case_good db s1) as [Hw1 Hs1].
  { unfold relevant_case_ids in H0. apply bind_Ok in H0 as (s0&s3&H2&H0). apply get_store_Ok in H2 as [-> ->].
    cbv zeta in H0. apply bind_Ok in H0 as (flags&s3&H2&H0). apply ret_Ok in H0 as [_ ->].
    eapply for_each_good; [|exact Hwf|exact H2]. intros case s b s' _ Hw Hr. unfold is_relevant in Hr.
    destruct (bool_decide _); [apply ret_Ok in Hr as [_ ->]; by apply case_good_refl|].
    destruct (existsb _ _); [apply ret_Ok in Hr as [_ ->]; by apply case_good_refl|].
    apply bind_Ok in Hr as (st&s4&Hr&H). apply bind_Ok in H as (s0&s5&H3&H). apply get_store_Ok in H3 as [-> ->].
    cbv zeta in H. apply ret_Ok in H as [_ ->]. by eapply get_state_good. }
  cut (case_good s1 s2); [intros [Hw2 Hs2]; split; [done|by etrans]|].
  eapply for_each_good; [|exact Hw1|exact H1].
  intros id s b s' _ Hw Hr. cbv beta in Hr. apply bind_Ok in Hr as (s0&s3&H2&Hr). apply get_store_Ok in H2 as [-> ->].
  destruct (cases s !! id) as [c|]; [|apply ret_Ok in Hr as [_ ->]; by apply case_good_refl].
  destruct (bool_decide _); [apply ret_Ok in Hr as [_ ->]; by apply case_good_refl|].
  apply bind_Ok in Hr as (impact&s3&Hr&H). apply ret_Ok in H as [_ ->]. by eapply apply_case_good.
Qed.
End operations.

(** ** Histories *)

Inductive case_op :=
| OpCreateCase (id signature : string) (targets : list string) (goal : string) (knowledge_revision : option Z)
    (constraints rubric : dict) (now : Z)
| OpActivateCase (id : string) | OpWaitCase (id : string) | OpResolveCase (id : string) | OpCancelCase (id : string)
| OpCloseCase (id : string) (now : Z)
| OpGetState (id : string) (now : Z) | OpRebuild (id : string) (now : Z)
| OpMarkPerception (id perception_event_id : string) (world_revision perceived_at now : Z)
| OpOpenNeed (kb : KnowledgeDB) (id : string) (base : Z) (request : NeedRequest) (now : Z)
| OpReopenNeed (need : string) (base : Z) (reopen_key writer reason_code : string) (now : Z)
| OpApplyPatch (kb : KnowledgeDB) (patch : StatePatch) (reason_code : string) (now : Z)
| OpCommitDecision (commit : DecisionCommit) (now : Z)
| OpWorldChange (kb : KnowledgeDB) (change : KnowledgeChangeNotice) (now : Z)
| OpOtherTables (perceptions : list PerceptionEvent) (trajectories : list (string * string)).

Definition set_other_tables (p : list PerceptionEvent) (t : list (string * string)) (db : CaseDB) : CaseDB :=
  mkCaseDB (cases db) (case_events db) (evidence_needs db) (state_current db) p t.

Section histories.
Context (fresh : string → Z → string) (isoformat : Z → string) (fromisoformat : string → result Z).

(** Each operation is a transaction; a patch has been validated when it was constructed.  The tables the
    services only read change in any way. *)
Definition run_case_op (op : case_op) : prog CaseDB unit :=
  atomic match op with
  | OpCreateCase id sig targets g rev constr rub now => _ ← create_case id sig targets g rev constr rub now; mret tt
  | OpActivateCase id => _ ← activate_case id; mret tt
  | OpWaitCase id => _ ← wait_case id; mret tt
  | OpResolveCase id => _ ← resolve_case id; mret tt
  | OpCancelCase id => _ ← cancel_case id; mret tt
  | OpCloseCase id now => _ ← close_case id now; mret tt
  | OpGetState id now => _ ← get_state id now; mret tt
  | OpRebuild id now => _ ← rebuild id now; mret tt
  | OpMarkPerception id pid world at_ now =>
      _ ← mark_perception fresh isoformat fromisoformat id pid world at_ now; mret tt
  | OpOpenNeed kb id base request now => _ ← open_evidence_need fresh kb id base request now; mret tt
  | OpReopenNeed need base key writer reason now => _ ← reopen_evidence_need fresh need base key writer reason now; mret tt
  | OpApplyPatch kb patch reason now =>
      patch ← lift (validate_patch_model patch); _ ← apply_patch fresh kb patch reason now; mret tt
  | OpCommitDecision commit now =>
      commit ← lift (validate_commit commit); _ ← commit_decision fresh commit now; mret tt
  | OpWorldChange kb change now => _ ← process_change fresh kb change now; mret tt
  | OpOtherTables p t => modify (set_other_tables p t)
  end.

Definition run_case_ops (ops : list case_op) (db : CaseDB) : CaseDB :=
  foldl (λ s op, (run_case_op op s).2) db ops.

Lemma validate_patch_model_Ok patch p : validate_patch_model patch = Ok p → p = patch ∧ patch_ok patch.
Proof.
  intros H. assert (p = patch) as ->; [|done]. unfold validate_patch_model in H. repeat (case_match; [done|]).
  by injection H as <-.
Qed.

Lemma run_case_op_good op db : case_wf db → case_good db (run_case_op op db).2.
Proof.
  intros Hwf. unfold run_case_op.
  match goal with |- context [atomic ?m db] =>
    destruct (atomic_cases m db) as [([]&s'&Hm&->)|(e&s'&_&->)] end; simpl; [|by apply case_good_refl].
  destruct op; simpl in *; try (apply bind_Ok in Hm as (out&s1&H&Hm); try (apply ret_Ok in Hm as [_ ->])).
  - by eapply create_case_good.
  - eapply transition_case_good; [done| |exact H]. intros x. rewrite !elem_of_cons. tauto.
  - eapply transition_case_good; [done| |exact H]. intros x. rewrite !elem_of_cons. tauto.
  - eapply transition_case_good; [done| |exact H]. intros x. rewrite !elem_of_cons. tauto.
  - eapply transition_case_good; [done| |exact H]. done.
  - by eapply close_case_good.
  - by eapply get_state_good.
  - by eapply rebuild_good.
  - by eapply mark_perception_good.
  - by eapply open_need_good.
  - by eapply reopen_need_good.
  - apply lift_Ok in H as [[-> Hp]%validate_patch_model_Ok ->]. apply bind_Ok in Hm as (res&s1&H&Hm).
    apply ret_Ok in Hm as [_ ->]. by eapply apply_patch_good.
  - apply lift_Ok in H as [_ ->]. apply bind_Ok in Hm as (res&s1&H&Hm). apply ret_Ok in Hm as [_ ->].
    by eapply commit_good.
  - by eapply process_change_good.
  - apply modify_Ok in Hm as ->. destruct Hwf as [[W1 W2 W3 W4] Hn Hc]. split; [split; [by split|done|]|].
    + intros k cur Hcur. destruct (Hc k cur Hcur) as [P1 P2 P3 P4 P5]. by split.
    + split; [intros k c Hk; by exists c|done|intros k n Hk; by exists n].
Qed.

Lemma run_case_ops_good ops db : case_wf db → case_good db (run_case_ops ops db).
Proof.
  revert db. induction ops as [|op ops IH]; intros db Hwf; [by apply case_good_refl|]. simpl.
  destruct (run_case_op_good op db Hwf) as [Hw1 Hs1]. destruct (IH _ Hw1) as [Hw2 Hs2].
  split; [done|by etrans].
Qed.
End histories.

(** ** Reading a state *)

Lemma make_state_Ok id rev g targets b qs vs needs skills norms unres d w p u st :
  make_state id rev g targets b qs vs needs skills norms unres d w p u = Ok st →
  map_result item_view (b B_CONFIRMED) = Ok (is_confirmed st) ∧
  map_result item_view (b B_TENTATIVE) = Ok (is_tentative st) ∧
  map_result item_view (b B_CONFLICTS) = Ok (is_conflicts st) ∧
  map_result item_view (b B_UNKNOWNS) = Ok (is_unknowns st) ∧
  map_result item_view (b B_HYPOTHESES) = Ok (is_hypotheses st) ∧
  is_case_id st = id ∧ is_case_revision st = rev ∧ is_goal st = g ∧ is_targets st = targets ∧
  is_evidence_need_ids st = needs ∧ is_current_decision st = d ∧ 0 ≤ rev.
Proof.
  unfold make_state. intros H. apply result_bind_Ok in H as (x1&H1&H). apply result_bind_Ok in H as (x2&H2&H).
  apply result_bind_Ok in H as (x3&H3&H). apply result_bind_Ok in H as (x4&H4&H).
  apply result_bind_Ok in H as (x5&H5&H). destruct (_ || _) eqn:Hb in H; [done|]. injection H as <-.
  apply orb_false_iff in Hb as [Hb _]. simpl. repeat (split; [done|]). lia.
Qed.

(** The five buckets and what else two states must agree on to say the same about a case. *)
Record same_claims (s1 s2 : InvestigationState) : Prop := {
  sc_confirmed : is_confirmed s1 = is_confirmed s2;
  sc_tentative : is_tentative s1 = is_tentative s2;
  sc_conflicts : is_conflicts s1 = is_conflicts s2;
  sc_unknowns : is_unknowns s1 = is_unknowns s2;
  sc_hypotheses : is_hypotheses s1 = is_hypotheses s2;
  sc_decision : is_current_decision s1 = is_current_decision s2;
  sc_needs : ∀ x, x ∈ is_evidence_need_ids s1 ↔ x ∈ is_evidence_need_ids s2;
  sc_case : is_case_id s1 = is_case_id s2 ∧ is_case_revision s1 = is_case_revision s2 ∧
    is_goal s1 = is_goal s2 ∧ is_targets s1 = is_targets s2
}.

Definition up_to (r : Z) (events : list CaseStateEventModel) : list CaseStateEventModel :=
  filter (λ e, ev_case_revision e ≤ r) events.

Lemma up_to_all r (events : list CaseStateEventModel) : ev_case_revision <$> events = seqZ 1 r → up_to r events = events.
Proof.
  intros H. unfold up_to. assert (Forall (λ e, ev_case_revision e ≤ r) events) as Hall.
  { apply Forall_forall. intros e He. apply (list_elem_of_fmap_2 ev_case_revision) in He. rewrite H in He.
    apply elem_of_seqZ in He. lia. }
  clear H. induction Hall as [|e l He Hl IH]; [done|]. rewrite filter_cons, decide_True by done. by rewrite IH.
Qed.

(** The last event up to a revision of the log is the one of this revision. *)
Lemma last_up_to n r (events : list CaseStateEventModel) :
  ev_case_revision <$> events = seqZ 1 n → 0 < r ≤ n →
  ∃ e, last (up_to r events) = Some e ∧ ev_case_revision e = r.
Proof.
  intros H Hr. assert (ev_case_revision <$> up_to r events = seqZ 1 r) as Hf.
  { assert (∃ l1 l2, events = l1 ++ l2 ∧ ev_case_revision <$> l1 = seqZ 1 r ∧ ev_case_revision <$> l2 = seqZ (1 + r) (n - r))
      as (l1&l2&->&H1&H2).
    { replace n with (r + (n - r)) in H by lia. rewrite seqZ_app in H by lia.
      apply fmap_app_inv in H as (l1&l2&H1&H2&->). by exists l1, l2. }
    unfold up_to. rewrite filter_app. fold (up_to r l1). rewrite (up_to_all r l1 H1).
    assert (filter (λ e, ev_case_revision e ≤ r) l2 = []) as ->; [|by rewrite app_nil_r].
    destruct (filter _ l2) as [|e l] eqn:Hl; [done|exfalso].
    assert (e ∈ filter (λ e, ev_case_revision e ≤ r) l2) as He by (rewrite Hl; apply list_elem_of_here).
    apply list_elem_of_filter in He as [Hle He]. apply (list_elem_of_fmap_2 ev_case_revision) in He.
    rewrite H2 in He. apply elem_of_seqZ in He. lia. }
  assert (last (ev_case_revision <$> up_to r events) = Some r) as Hl.
  { rewrite Hf. replace r with ((r - 1) + 1) by lia. rewrite seqZ_snoc, last_snoc by lia. f_equal. }
  rewrite fmap_last in Hl. destruct (last (up_to r events)) as [e|]; [|done]. injection Hl as Hl. by exists e.
Qed.

Section readings.
Context (fromisoformat : string → result Z).

(** What reading a past revision computes from the log. *)
Definition past_state (c : InvestigationCaseModel) (revision : Z) (events : list CaseStateEventModel)
  : result InvestigationState :=
  perception ← replay_perception fromisoformat (initial_knowledge_revision c, None) events;
  make_state (case_id c) revision (goal c) (target_object_ids c) (λ n, (replay events n).*2) [] []
    (replay_needs events) [] [] [] (replay_decision events) perception.1 perception.2
    (match last events with Some e => ev_created_at e | None => case_created_at c end).

Lemma get_state_at_revision_run id revision db c :
  log_wf db → cases db !! id = Some c →
  get_state_at_revision fromisoformat id revision db =
  (if (revision <? 0) || (current_revision c <? revision)
   then Err (ValueError "historical case revision outside durable range")
   else past_state c revision (up_to revision (log_of id db)), db).
Proof.
  intros Hwf Hc. unfold get_state_at_revision. run_step. rewrite Hc. cbv beta iota.
  destruct (_ || _) eqn:Hb; [done|]. cbv zeta. rewrite (case_log_of id db c Hwf Hc). fold (up_to revision (log_of id db)).
  destruct (lw_case _ Hwf _ _ Hc) as (_&_&Hlog).
  assert ((0 <? revision) && negb (match last (up_to revision (log_of id db)) with
    | Some e => ev_case_revision e =? revision | None => false end) = false) as ->.
  { destruct (Z.ltb_spec 0 revision) as [Hpos|]; [|done]. simpl.
    destruct (last_up_to (current_revision c) revision (log_of id db) Hlog) as (e&->&->); [|by rewrite Z.eqb_refl].
    apply orb_false_iff in Hb as [_ Hb]. lia. }
  unfold past_state. destruct (replay_perception _ _ _); [|done]. done.
Qed.
End readings.

(** ** Properties *)

Definition empty_cases : CaseDB := mkCaseDB ∅ [] ∅ ∅ [] [].

Lemma empty_cases_wf : case_wf empty_cases.
Proof.
  split; [split|intros id x|intros id cur Hc].
  - intros k c Hc. simpl in Hc. by rewrite lookup_empty in Hc.
  - intros e []%not_elem_of_nil.
  - constructor.
  - intros k n Hn. simpl in Hn. by rewrite lookup_empty in Hn.
  - split; [intros []%not_elem_of_nil|]. intros (n&Hn&_). simpl in Hn. by rewrite lookup_empty in Hn.
  - simpl in Hc. by rewrite lookup_empty in Hc.
Qed.

(** C22. Every history of cases keeps the books: the events of a case are numbered from one without a
    gap and end at the case's revision, the stored projection of a case is the replay of its whole log,
    the open evidence needs are those the log opened last, confirmed and conflicting claims cite evidence;
    what a case is about, what a need asks for and every event written stay forever, and a closed or
    cancelled case is frozen. *)
Theorem case_history_sound fresh isoformat fromisoformat ops more :
  let db := run_case_ops fresh isoformat fromisoformat ops empty_cases in
  let db' := run_case_ops fresh isoformat fromisoformat more db in
  case_wf db' ∧ case_step db db' ∧
  (∀ id c, cases db !! id = Some c → case_status c ∈ IMMUTABLE_CASE_STATUSES → log_of id db' = log_of id db).
Proof.
  intros db db'. destruct (run_case_ops_good fresh isoformat fromisoformat ops _ empty_cases_wf) as [Hwf _].
  fold db in Hwf. destruct (run_case_ops_good fresh isoformat fromisoformat more _ Hwf) as [Hwf' Hstep].
  fold db' in Hwf', Hstep. split; [done|]. split; [done|]. intros id c Hc Hs.
  destruct (cs_cases _ _ Hstep id c Hc) as (c'&Hc'&_&Hsame). rewrite (Hsame Hs) in Hc'.
  destruct (lw_case _ (cw_log _ Hwf) _ _ Hc) as (_&_&L1). destruct (lw_case _ (cw_log _ Hwf') _ _ Hc') as (_&_&L2).
  destruct (cs_events _ _ Hstep) as [k Hk]. assert (log_of id db' = log_of id db ++ filter (λ e, ev_case_id e = id) k) as Hl.
  { unfold log_of. by rewrite Hk, filter_app. }
  apply (f_equal length) in L1, L2. rewrite length_fmap in L1, L2. rewrite Hl, length_app in L2.
  destruct (filter _ k); [by rewrite Hl, app_nil_r|]. simpl in L2. lia.
Qed.

(** C23. The stored projection and the event log tell the same story: the state a reader gets and the
    state rebuilt from the log at the current revision agree on every claim, on the decision, on the open
    needs and on the case itself.  Reading the log does not write, and it can only fail on a perception
    coordinate that is not one. *)
Theorem projection_matches_history fromisoformat id now db st db1 c :
  case_wf db → cases db !! id = Some c → get_state id now db = (Ok st, db1) →
  (get_state_at_revision fromisoformat id (current_revision c) db1).2 = db1 ∧
  match (get_state_at_revision fromisoformat id (current_revision c) db1).1 with
  | Ok past => same_claims past st
  | Err e => match replay_perception fromisoformat (initial_knowledge_revision c, None) (log_of id db) with
             | Ok p => ∃ w, p.1 = Some w ∧ w < 0
             | Err e' => e' = e
             end
  end.
Proof.
  intros Hwf Hc H. destruct (get_state_Ok _ _ _ _ _ Hwf H) as (Hwf1&Hsame&cur&[P1 P2 P3 P4 P5]&Hv).
  assert (cases db1 !! id = Some c) as Hc1 by by rewrite (sh_cases _ _ Hsame).
  destruct (lw_case _ (cw_log _ Hwf1) _ _ Hc1) as (Hid&Hpos&Hlog).
  rewrite (get_state_at_revision_run fromisoformat id _ db1 c (cw_log _ Hwf1) Hc1). split; [done|]. simpl.
  rewrite (proj2 (Z.ltb_ge _ _)), (proj2 (Z.ltb_ge _ _)) by lia. cbn [orb].
  rewrite (up_to_all _ _ Hlog). rewrite (same_history_log id _ _ Hsame) in *.
  unfold state_view in Hv. apply make_state_Ok in Hv as (V1&V2&V3&V4&V5&V6&V7&V8&V9&V10&V11&_).
  rewrite P3 in V1, V2, V3, V4, V5. unfold past_state.
  destruct (replay_perception _ _ _) as [p|e]; [|done]. cbn [mbind result_bind]. unfold make_state.
  rewrite V1, V2, V3, V4, V5. cbn [mbind result_bind]. rewrite (proj2 (Z.ltb_ge _ _)) by lia. cbn [orb].
  destruct P2 as (c'&Hc'&E1&E2&E3). assert (c' = c) as -> by congruence.
  destruct (match p.1 with Some w => w <? 0 | None => false end) eqn:Hw.
  - destruct (p.1) as [w|]; [|done]. exists w. split; [done|]. lia.
  - split; simpl; try done; [congruence| |].
    + intros x. rewrite V10, P5. destruct (cw_needs _ Hwf1 id x) as [Q1 Q2].
      rewrite (same_history_log id _ _ Hsame) in Q1, Q2. done.
    + split; [congruence|]. split; [congruence|]. split; congruence.
Qed.

(** The past does not change: whatever happens to the cases later, reading a case at a revision it
    has reached gives the same state as before. *)
Theorem history_immutable fresh isoformat fromisoformat ops db id revision st db' :
  case_wf db → get_state_at_revision fromisoformat id revision db = (Ok st, db') →
  (get_state_at_revision fromisoformat id revision (run_case_ops fresh isoformat fromisoformat ops db)).1 = Ok st.
Proof.
  intros Hwf H. destruct (cases db !! id) as [c|] eqn:Hc.
  2: { unfold get_state_at_revision in H. revert H. run_step. by rewrite Hc. }
  rewrite (get_state_at_revision_run _ _ _ _ _ (cw_log _ Hwf) Hc) in H.
  destruct (run_case_ops_good fresh isoformat fromisoformat ops _ Hwf) as [Hwf2 Hstep].
  set (db2 := run_case_ops _ _ _ _ _) in *.
  destruct (cs_cases _ _ Hstep id c Hc) as (c2&Hc2&[S1 S2 S3 S4 S5 S6 S7 S8 S9]&_).
  rewrite (get_state_at_revision_run _ _ _ _ _ (cw_log _ Hwf2) Hc2). simpl.
  destruct (_ || _) eqn:Hb in H; [done|]. injection H as H _.
  apply orb_false_iff in Hb as [Hb1 Hb2]. rewrite Hb1, (proj2 (Z.ltb_ge _ _)) by lia. cbn [orb].
  assert (up_to revision (log_of id db2) = up_to revision (log_of id db)) as ->.
  { destruct (cs_events _ _ Hstep) as [k Hk]. assert (log_of id db2 = log_of id db ++ filter (λ e, ev_case_id e = id) k) as Hl.
    { unfold log_of. by rewrite Hk, filter_app. }
    destruct (lw_case _ (cw_log _ Hwf) _ _ Hc) as (_&Hpos&L1). destruct (lw_case _ (cw_log _ Hwf2) _ _ Hc2) as (_&_&L2).
    unfold up_to. rewrite Hl, filter_app. set (new := filter _ k) in *.
    assert (ev_case_revision <$> new = seqZ (1 + current_revision c) (current_revision c2 - current_revision c)) as Hnew.
    { rewrite Hl, fmap_app, L1 in L2. replace (current_revision c2) with
        (current_revision c + (current_revision c2 - current_revision c)) in L2 by lia.
      rewrite seqZ_app in L2 by lia. by apply app_inv_head in L2. }
    destruct (filter (λ e, ev_case_revision e ≤ revision) new) as [|e l] eqn:Hf; [by rewrite app_nil_r|exfalso].
    assert (e ∈ filter (λ e, ev_case_revision e ≤ revision) new) as He by (rewrite Hf; apply list_elem_of_here).
    apply list_elem_of_filter in He as [Hle He]. apply (list_elem_of_fmap_2 ev_case_revision) in He.
    rewrite Hnew in He. apply elem_of_seqZ in He. lia. }
  unfold past_state in *. by rewrite S1, S3, S4, S5, S8.
Qed.

(** ** What the items of a state rest on *)

(** Every entry of a bucket was written by an event of the log. *)
Lemma elem_of_replay events n p :
  p ∈ replay events n →
  ∃ e q, e ∈ events ∧ additions (ev_event_type e) = Some n ∧ ev_proposition e = Some q ∧ p.2 = event_item q e.
Proof.
  induction events as [|e events IH] using rev_ind; [by intros ?%not_elem_of_nil|].
  rewrite replay_snoc, replay_event_bucket. intros Hp.
  assert (p ∈ replay events n → ∃ e' q, e' ∈ events ++ [e] ∧ additions (ev_event_type e') = Some n ∧
    ev_proposition e' = Some q ∧ p.2 = event_item q e') as Hold.
  { intros (e'&q&?&?&?&?)%IH. exists e', q. split; [|done]. apply elem_of_app. by left. }
  assert (∀ k, p ∈ bucket_pop k (replay events n) → p ∈ replay events n) as Hpop by by intros k [? _]%elem_of_bucket_pop.
  destruct (ev_proposition e) as [q|] eqn:Hq; [|by apply Hold]. cbv zeta in Hp.
  destruct (additions (ev_event_type e)) as [m|] eqn:Ha.
  - destruct (decide (n = m)) as [->|Hnm].
    + rewrite bool_decide_eq_true_2 in Hp by done. apply elem_of_bucket_set in Hp as [->|[Hp _]].
      * exists e, q. split; [|done]. apply elem_of_app. right. apply list_elem_of_here.
      * apply Hold. case_bool_decide; [done|by eapply Hpop].
    + rewrite (bool_decide_eq_false_2 (n = m)) in Hp by done. apply Hold. destruct (_ || _); [done|by eapply Hpop].
  - apply Hold. destruct (removals _); [|done]. case_bool_decide; [by eapply Hpop|done].
Qed.

Lemma relation_json_read r r' : relation_of_json (relation_json r) = Ok r' → r' = r.
Proof.
  destruct r as [[t s refs]|]; [|by intros [= <-]]. intros H.
  assert (mapM str_of_json (JStr <$> refs) = Some refs) as Hrefs.
  { apply mapM_Some. clear. induction refs; csimpl; by constructor. }
  assert (relation_of_json (relation_json (Some (mkReasoningRelation t s refs))) =
    match mapM str_of_json (JStr <$> refs) with
    | Some l => q ← validate_relation (mkReasoningRelation t s l); Ok (Some q)
    | None => Err (ValueError "invalid ReasoningRelation")
    end) as E by by destruct s.
  rewrite E, Hrefs in H. unfold validate_relation in H. simpl in H. by destruct (py_blank t); [|injection H as <-].
Qed.

Lemma item_view_Ok i v : item_view i = Ok v →
  si_evidence_refs v = it_evidence_refs i ∧ si_updated_revision v = it_updated_revision i ∧
  si_proposition v = it_proposition i ∧ si_target_ref v = it_target_ref i ∧
  relation_of_json (it_reasoning_relation i) = Ok (si_reasoning_relation v) ∧ 1 ≤ it_updated_revision i.
Proof.
  unfold item_view. intros H. apply result_bind_Ok in H as (r&Hr&H).
  destruct (_ <? 1) eqn:Hlt; [done|]. injection H as <-. simpl. repeat (split; [done|]). lia.
Qed.

(** The item of a state was written by an event of the case's log. *)
Lemma state_item_event id db cur st n items v :
  log_wf db → projection_of id db cur → map_result item_view (cur_bucket cur n) = Ok items → v ∈ items →
  ∃ e q, e ∈ log_of id db ∧ additions (ev_event_type e) = Some n ∧ item_view (event_item q e) = Ok v ∧
    event_ok e ∧ (state_view cur = Ok st → 1 ≤ ev_case_revision e ≤ is_case_revision st).
Proof.
  intros Hwf [_ (c&Hc&Hrev&_) Hb _ _] Hm [i Hi]%list_elem_of_lookup. apply map_result_Ok in Hm.
  destruct (Forall2_lookup_r _ _ _ _ _ Hm Hi) as (x&Hx&Hv). rewrite Hb in Hx.
  apply list_elem_of_lookup_2 in Hx. apply list_elem_of_fmap in Hx as (p&->&Hp).
  destruct (elem_of_replay _ _ _ Hp) as (e&q&He&Ha&_&Hpe). rewrite Hpe in Hv. exists e, q.
  split; [done|]. split; [done|]. split; [done|]. pose proof He as Hin. apply list_elem_of_filter in Hin as [_ Hin].
  split; [by apply (lw_event _ Hwf)|]. intros Hst. unfold state_view in Hst. apply make_state_Ok in Hst as (_&_&_&_&_&_&->&_).
  rewrite Hrev. destruct (lw_case _ Hwf _ _ Hc) as (_&_&Hlog).
  apply (list_elem_of_fmap_2 ev_case_revision) in He. rewrite Hlog in He. apply elem_of_seqZ in He. lia.
Qed.

(** In every state a reader gets after any history, a confirmed claim cites evidence, rests on no
    inferred relation and was written at one of the case's revisions, and so does every open conflict but
    for the relation. *)
Theorem confirmed_evidenced fresh isoformat fromisoformat ops id now :
  match (get_state id now (run_case_ops fresh isoformat fromisoformat ops empty_cases)).1 with
  | Ok st =>
      (∀ i, i ∈ is_confirmed st → si_evidence_refs i ≠ [] ∧
        (∀ r, si_reasoning_relation i = Some r → semantics r ≠ INFERRED) ∧
        1 ≤ si_updated_revision i ≤ is_case_revision st) ∧
      (∀ i, i ∈ is_conflicts st → si_evidence_refs i ≠ [] ∧ 1 ≤ si_updated_revision i ≤ is_case_revision st)
  | Err _ => True
  end.
Proof.
  destruct (run_case_ops_good fresh isoformat fromisoformat ops _ empty_cases_wf) as [Hwf _].
  set (db := run_case_ops _ _ _ _ _) in *. destruct (get_state id now db) as [[st|e] db'] eqn:H; [|done]. simpl.
  destruct (get_state_Ok _ _ _ _ _ Hwf H) as (Hwf'&_&cur&Hpr&Hv). pose proof Hv as Hm.
  unfold state_view in Hm. apply make_state_Ok in Hm as (M1&_&M3&_).
  split; intros i Hi.
  - destruct (state_item_event id db' cur st B_CONFIRMED _ i (cw_log _ Hwf') Hpr M1 Hi) as (e&q&_&Ha&Hvi&[Hev Hrel]&Hr).
    assert (ev_event_type e = FACT_CONFIRMED) as Ht by by destruct (ev_event_type e).
    apply item_view_Ok in Hvi as (->&->&_&_&Hri&_). split; [apply Hev; rewrite Ht; by_decide|]. split; [|by apply Hr].
    destruct (Hrel Ht) as (r0&Hr0&Hinf). simpl in Hri. rewrite Hr0 in Hri. simpl in Hri.
    apply relation_json_read in Hri as ->. done.
  - destruct (state_item_event id db' cur st B_CONFLICTS _ i (cw_log _ Hwf') Hpr M3 Hi) as (e&q&_&Ha&Hvi&[Hev _]&Hr).
    assert (ev_event_type e = CONFLICT_OPENED) as Ht by by destruct (ev_event_type e).
    apply item_view_Ok in Hvi as (->&->&_). split; [apply Hev; rewrite Ht; by_decide|by apply Hr].
Qed.

(** ** What a patch writes *)

(** The event of one operation of a patch. *)
Record operation_event (patch : StatePatch) (reason : string) (io : Z * StatePatchOperation)
    (e : CaseStateEventModel) : Prop := {
  oe_case : ev_case_id e = sp_case_id patch;
  oe_type : ev_event_type e = event_type_for io.2;
  oe_patch : ev_patch_id e = Some (sp_patch_id patch) ∧ ev_operation_index e = Some io.1;
  oe_claim : ev_proposition e = Some (op_proposition io.2) ∧ ev_target_ref e = op_target_ref io.2;
  oe_evidence : ev_evidence_refs e = op_evidence_refs io.2;
  oe_author : ev_writer e = sp_producer patch ∧ ev_reason_code e = reason;
  oe_payload : ev_payload e = operation_payload patch io.2
}.

(** All events of one operation: its own, then the closing of the need it resolves. *)
Definition operation_block (patch : StatePatch) (reason : string) (io : Z * StatePatchOperation)
    (block : list CaseStateEventModel) : Prop :=
  ∃ e rest, block = e :: rest ∧ operation_event patch reason io e ∧
    match op_resolves_need_id io.2 with
    | None => rest = []
    | Some x => ∃ e', rest = [e'] ∧ ev_case_id e' = sp_case_id patch ∧
        ev_event_type e' = EVIDENCE_NEED_RESOLVED ∧ ev_patch_id e' = None ∧
        payload_need e' = Some x ∧ ev_evidence_refs e' = op_evidence_refs io.2
    end.

(** A need is resolved on the given evidence. *)
Definition resolved_on (x : string) (refs : list string) (db : CaseDB) : Prop :=
  ∃ n, evidence_needs db !! x = Some n ∧ need_status n = NEED_RESOLVED ∧ resolution_evidence_refs n = refs.

Section patches.
Context (fresh : string → Z → string).

Lemma apply_operation_log patch reason now io db evs db' :
  apply_operation fresh patch reason now io db = (Ok evs, db') →
  ∃ block, case_events db' = case_events db ++ block ∧ operation_block patch reason io block ∧
    evs = case_event_view <$> block ∧
    match op_resolves_need_id io.2 with
    | None => evidence_needs db' = evidence_needs db
    | Some x => (∀ n, evidence_needs db !! x = Some n → need_id n = x) →
        resolved_on x (op_evidence_refs io.2) db' ∧
        ∀ y, y ≠ x → evidence_needs db' !! y = evidence_needs db !! y
    end.
Proof.
  intros H. unfold apply_operation in H. apply bind_Ok in H as (ev&s1&H0&H).
  apply append_event_Ok in H0 as (c&Hc&_&->&->). apply bind_Ok in H as (rs&s2&H0&H). apply ret_Ok in H as [-> ->].
  unfold resolve_need_from_operation in H0.
  match type of H0 with context [with_event ?e0 c db] => set (e := e0) in * end.
  assert (operation_event patch reason io e) as He by by split.
  destruct (op_resolves_need_id io.2) as [x|] eqn:Hx.
  - apply bind_Ok in H0 as (s0&s3&H1&H0). apply get_store_Ok in H1 as [-> ->].
    apply bind_Ok in H0 as (n&s3&H1&H0). apply require_Ok in H1 as [Hn ->].
    apply bind_Ok in H0 as (ev2&s3&H1&H0). apply append_event_Ok in H1 as (c2&Hc2&_&->&->).
    apply bind_Ok in H0 as (u&s4&H2&H0). apply modify_Ok in H2 as ->. apply ret_Ok in H0 as [-> ->].
    match goal with |- context [with_event ?e0 c2 _] => set (e2 := e0) in * end.
    exists [e; e2]. split; [by rewrite (assoc_L (++) _ [e] [e2])|]. split.
    + exists e, [e2]. split; [done|]. split; [done|]. rewrite Hx. exists e2. by repeat split.
    + split; [done|]. intros Hid. specialize (Hid n Hn). simpl.
      split.
      * exists (set_resolved (op_evidence_refs io.2) (ce_case_revision (case_event_view e2)) now n). simpl. rewrite Hid.
        by rewrite lookup_insert_eq.
      * intros y Hy. rewrite Hid. by rewrite lookup_insert_ne.
  - apply ret_Ok in H0 as [-> ->]. exists [e]. split; [done|]. split; [|done]. exists e, []. by rewrite Hx.
Qed.

Lemma apply_operations_log patch reason now ios db evs db' :
  for_each ios (apply_operation fresh patch reason now) db = (Ok evs, db') →
  (∀ k n, evidence_needs db !! k = Some n → need_id n = k) →
  ∃ blocks, case_events db' = case_events db ++ mjoin blocks ∧
    Forall2 (operation_block patch reason) ios blocks ∧ mjoin evs = case_event_view <$> mjoin blocks ∧
    (∀ x, x ∉ omap (λ io, op_resolves_need_id io.2) ios → evidence_needs db' !! x = evidence_needs db !! x) ∧
    (∀ x, x ∈ omap (λ io, op_resolves_need_id io.2) ios →
      ∃ io, io ∈ ios ∧ op_resolves_need_id io.2 = Some x ∧ resolved_on x (op_evidence_refs io.2) db').
Proof.
  revert db evs. induction ios as [|io ios IH]; intros db evs H Hid; cbn [for_each] in H.
  { apply ret_Ok in H as [-> ->]. exists []. rewrite app_nil_r. split; [done|]. split; [constructor|].
    split; [done|]. split; [done|]. intros x []%not_elem_of_nil. }
  apply bind_Ok in H as (ev&s1&H1&H). apply bind_Ok in H as (evs'&s2&H&H2). apply ret_Ok in H2 as [-> ->].
  destruct (apply_operation_log _ _ _ _ _ _ _ H1) as (block&Hlog&Hblock&->&Hneeds).
  assert (∀ k n, evidence_needs s1 !! k = Some n → need_id n = k) as Hid1.
  { clear H. unfold apply_operation in H1. apply bind_Ok in H1 as (e1&s3&H3&H1).
    apply append_event_Ok in H3 as (c&_&_&_&->). apply bind_Ok in H1 as (r&s4&H3&H1). apply ret_Ok in H1 as [_ ->].
    unfold resolve_need_from_operation in H3. destruct (op_resolves_need_id io.2); [|by apply ret_Ok in H3 as [_ ->]].
    apply bind_Ok in H3 as (s0&s5&H1&H3). apply get_store_Ok in H1 as [-> ->].
    apply bind_Ok in H3 as (n&s5&H1&H3). apply require_Ok in H1 as [Hn ->].
    apply bind_Ok in H3 as (ev2&s5&H1&H3). apply append_event_Ok in H1 as (c2&_&_&_&->).
    apply bind_Ok in H3 as (u&s6&H2&H3). apply modify_Ok in H2 as ->. apply ret_Ok in H3 as [_ ->].
    intros k m. simpl. rewrite lookup_insert. case_decide as Hk; [|apply Hid].
    intros [= <-]. simpl. by rewrite <- Hk. }
  destruct (IH s1 evs' H Hid1) as (blocks&Hlog'&Hblocks&Hviews&Hkeep&Hres).
  exists (block :: blocks). split; [by rewrite Hlog', Hlog, <- (assoc_L (++))|]. split; [by constructor|].
  split; [cbn [mjoin list_join]; rewrite fmap_app; by f_equal|]. clear H1 H.
  split.
  - intros x Hx. csimpl in Hx. destruct (op_resolves_need_id io.2) as [y|].
    + rewrite elem_of_cons in Hx. rewrite Hkeep by tauto. apply Hneeds; [by apply Hid|tauto].
    + by rewrite Hkeep, Hneeds.
  - intros x Hx. destruct (decide (x ∈ omap (λ io, op_resolves_need_id io.2) ios)) as [Hin|Hin].
    { destruct (Hres x Hin) as (io'&?&?&?). exists io'. split; [by apply elem_of_cons; right|done]. }
    csimpl in Hx. destruct (op_resolves_need_id io.2) as [y|] eqn:Hy; [|done].
    apply elem_of_cons in Hx as [->|Hx]; [|done]. exists io. split; [apply list_elem_of_here|]. split; [done|].
    destruct Hneeds as [(n&Hn&?&?) _]; [by apply Hid|]. exists n. by rewrite Hkeep.
Qed.
End patches.

Lemma fresh_patch_run fresh kb patch reason now db c :
  cases db !! sp_case_id patch = Some c → case_status c ∉ IMMUTABLE_CASE_STATUSES →
  patch_events (sp_case_id patch) (sp_patch_id patch) db = [] →
  current_revision c ≠ sp_base_case_revision patch →
  apply_patch fresh kb patch reason now db =
    (Err (StateRevisionConflict (sp_base_case_revision patch) (current_revision c)), db).
Proof.
  intros Hc Ho Hp Hr. unfold apply_patch, lock_case. run_step. rewrite Hc. cbv beta iota.
  rewrite bool_decide_eq_false_2 by done. cbv beta iota. rewrite Hp. unfold require_revision. run_step.
  by rewrite (proj2 (Z.eqb_neq _ _)).
Qed.

Lemma Forall2_blocks_cases patch reason ios blocks :
  Forall2 (operation_block patch reason) ios blocks → Forall (λ e, ev_case_id e = sp_case_id patch) (mjoin blocks).
Proof.
  induction 1 as [|io block ios blocks (e&rest&->&He&Hrest) _ IH]; [constructor|].
  cbn [mjoin list_join]. apply Forall_app. split; [|done]. constructor; [apply He|].
  destruct (op_resolves_need_id _); [|by subst]. destruct Hrest as (e'&->&?&_). by repeat constructor.
Qed.

(** A patch applied for the first time. *)
Lemma apply_patch_fresh fresh kb patch reason now db c res db' :
  case_wf db → patch_ok patch → cases db !! sp_case_id patch = Some c →
  case_status c ∉ IMMUTABLE_CASE_STATUSES →
  patch_events (sp_case_id patch) (sp_patch_id patch) db = [] →
  apply_patch fresh kb patch reason now db = (Ok res, db') →
  current_revision c = sp_base_case_revision patch ∧
  (∀ o, o ∈ sp_operations patch → operation_ok kb (sp_case_id patch) db o) ∧
  ∃ blocks, Forall2 (operation_block patch reason) (enumerate (sp_operations patch)) blocks ∧
    case_events db' = case_events db ++ mjoin blocks ∧
    pa_events res = case_event_view <$> mjoin blocks ∧ pa_replay res = false ∧
    is_case_revision (pa_state res) = sp_base_case_revision patch + Z.of_nat (length (mjoin blocks)) ∧
    ∀ x, if bool_decide (x ∈ omap op_resolves_need_id (sp_operations patch))
         then ∃ o, o ∈ sp_operations patch ∧ op_resolves_need_id o = Some x ∧ resolved_on x (op_evidence_refs o) db'
         else evidence_needs db' !! x = evidence_needs db !! x.
Proof.
  intros Hwf Hp Hc Ho Hnew H.
  pose proof (case_wf_mid _ db c Hwf Hc Ho) as Hmid.
  unfold apply_patch in H. apply bind_Ok in H as (c'&s1&H0&H).
  apply lock_case_Ok in H0 as (->&Hc'&_). assert (c' = c) as -> by congruence.
  apply bind_Ok in H as (s0&s1&H0&H). apply get_store_Ok in H0 as [-> ->]. rewrite Hnew in H.
  apply bind_Ok in H as (u&s1&H0&H). apply check_Ok in H0 as [Hrev ->].
  apply negb_false_iff, Z.eqb_eq in Hrev. split; [done|].
  apply bind_Ok in H as (u1&s1&H0&H). apply validate_patch_Ok in H0 as [-> Hok]. split; [done|].
  apply bind_Ok in H as (evs&s1&H0&H). pose proof H0 as Hmid1.
  apply (apply_operations_mid fresh kb patch reason now db) in Hmid1 as [Hm1 _]; [|done|done|].
  2: { intros io Hio%elem_of_enumerate. split; [by eapply patch_ok_operations|by apply Hok]. }
  apply apply_operations_log in H0 as (blocks&Hlog&Hblocks&Hviews&Hkeep&Hres);
    [|intros k n Hn; by apply (lw_need _ (cw_log _ Hwf))].
  apply bind_Ok in H as (st&s2&H0&H). apply ret_Ok in H as [-> ->]. cbn [pa_events pa_replay pa_state].
  destruct (rebuilt_state_Ok _ _ _ _ _ Hm1 H0) as (Hwf2&Hsame&cur&[_ (c2&Hc2&Hr2&_) _ _ _]&Hv).
  exists blocks. split; [done|]. rewrite (sh_events _ _ Hsame). split; [done|]. split; [done|]. split; [done|].
  split.
  - unfold state_view in Hv. apply make_state_Ok in Hv as (_&_&_&_&_&_&->&_). rewrite Hr2.
    destruct (lw_case _ (cw_log _ Hwf) _ _ Hc) as (_&?&L1). destruct (lw_case _ (cw_log _ Hwf2) _ _ Hc2) as (_&?&L2).
    assert (log_of (sp_case_id patch) s2 = log_of (sp_case_id patch) db ++ mjoin blocks) as Hl.
    { unfold log_of. rewrite (sh_events _ _ Hsame), Hlog, filter_app. f_equal.
      apply Forall2_blocks_cases in Hblocks. clear -Hblocks. induction Hblocks as [|e l He _ IH]; [done|].
      rewrite filter_cons, decide_True by done. by f_equal. }
    rewrite Hl in L2. apply (f_equal length) in L1, L2. rewrite length_fmap, length_seqZ in L1, L2.
    rewrite length_app in L2. lia.
  - assert (omap (λ io, op_resolves_need_id io.2) (enumerate (sp_operations patch)) =
      omap op_resolves_need_id (sp_operations patch)) as Homap.
    { unfold enumerate. generalize 0. generalize (sp_operations patch). clear. intros l.
      induction l as [|o l IH]; intros a; [done|]. rewrite length_cons, seqZ_cons by lia. csimpl.
      replace (Z.pred (Z.of_nat (S (length l)))) with (Z.of_nat (length l)) by lia. by rewrite IH. }
    rewrite Homap in *. intros x. rewrite (sh_needs _ _ Hsame). case_bool_decide as Hx; [|by apply Hkeep].
    destruct (Hres x Hx) as (io&Hio&?&n&?&?&?). exists io.2. split; [by apply elem_of_enumerate|]. split; [done|].
    exists n. by rewrite (sh_needs _ _ Hsame).
Qed.

(** C24. Applying a patch that has not been applied: it needs the revision it was drafted against, and
    raises a revision conflict otherwise without writing.  When it returns, every operation passed its
    checks, the log gains the events of the operations one after the other and nothing else, the returned
    events are these and the revision of the returned state counts them; the needs the patch resolves are
    resolved on an operation's evidence, and no other need changes. *)
Theorem apply_patch_spec fresh kb patch reason now db c :
  case_wf db → patch_ok patch → cases db !! sp_case_id patch = Some c →
  case_status c ∉ IMMUTABLE_CASE_STATUSES →
  patch_events (sp_case_id patch) (sp_patch_id patch) db = [] →
  (current_revision c ≠ sp_base_case_revision patch →
    apply_patch fresh kb patch reason now db =
      (Err (StateRevisionConflict (sp_base_case_revision patch) (current_revision c)), db)) ∧
  (∀ res db', apply_patch fresh kb patch reason now db = (Ok res, db') →
    current_revision c = sp_base_case_revision patch ∧
    (∀ o, o ∈ sp_operations patch → operation_ok kb (sp_case_id patch) db o) ∧
    ∃ blocks, Forall2 (operation_block patch reason) (enumerate (sp_operations patch)) blocks ∧
      case_events db' = case_events db ++ mjoin blocks ∧
      pa_events res = case_event_view <$> mjoin blocks ∧ pa_replay res = false ∧
      is_case_revision (pa_state res) = sp_base_case_revision patch + Z.of_nat (length (mjoin blocks)) ∧
      ∀ x, if bool_decide (x ∈ omap op_resolves_need_id (sp_operations patch))
           then ∃ o, o ∈ sp_operations patch ∧ op_resolves_need_id o = Some x ∧ resolved_on x (op_evidence_refs o) db'
           else evidence_needs db' !! x = evidence_needs db !! x).
Proof.
  intros Hwf Hp Hc Ho Hnew. split; [by apply fresh_patch_run|]. intros res db' H. by eapply apply_patch_fresh.
Qed.

(** A patch is applied at most once: after it has been applied, and whatever happens to the cases
    then, applying a patch with its identity writes nothing to the log or the needs, returns a replay and
    reports every event of the operations of the first application. *)
Theorem apply_patch_once fresh isoformat fromisoformat kb kb2 patch patch2 reason reason2 now now2 ops db res db1 res2 db3 :
  case_wf db → patch_ok patch → apply_patch fresh kb patch reason now db = (Ok res, db1) →
  sp_case_id patch2 = sp_case_id patch → sp_patch_id patch2 = sp_patch_id patch →
  let db2 := run_case_ops fresh isoformat fromisoformat ops db1 in
  apply_patch fresh kb2 patch2 reason2 now2 db2 = (Ok res2, db3) →
  pa_replay res2 = true ∧ same_history db2 db3 ∧
  ∀ e, e ∈ pa_events res → ce_event_type e = EVIDENCE_NEED_RESOLVED ∨ e ∈ pa_events res2.
Proof.
  intros Hwf Hp H Hcase Hid db2 H2.
  pose proof (apply_patch_good fresh kb patch reason now db res db1 Hwf Hp H) as [Hwf1 _].
  destruct (run_case_ops_good fresh isoformat fromisoformat ops db1 Hwf1) as [Hwf2 Hs2]. fold db2 in Hwf2, Hs2.
  assert (∃ evs, evs ≠ [] ∧ (∀ e, e ∈ evs → e ∈ patch_events (sp_case_id patch) (sp_patch_id patch) db1) ∧
    ∀ e, e ∈ pa_events res → ce_event_type e = EVIDENCE_NEED_RESOLVED ∨ ∃ e', e' ∈ evs ∧ e = case_event_view e')
    as (evs&Hne&Hevs&Hall).
  { pose proof H as H0'. unfold apply_patch in H. apply bind_Ok in H as (c&s1&H0&H).
    apply lock_case_Ok in H0 as (->&Hc&Ho). apply bind_Ok in H as (s0&s1&H0&H). apply get_store_Ok in H0 as [-> ->].
    destruct (patch_events _ _ db) as [|e0 l] eqn:Hnew.
    - apply (apply_patch_fresh _ _ _ _ _ _ c) in H0' as (_&_&blocks&Hblocks&Hlog&Hviews&_); [|done..].
      exists (filter (λ e, ev_patch_id e = Some (sp_patch_id patch)) (mjoin blocks)). split; [|split].
      + unfold patch_ok, validate_patch_model in Hp. destruct (sp_operations patch) as [|o os] eqn:Hops.
        { rewrite bool_decide_eq_true_2, orb_true_r in Hp by done. by destruct (existsb _ _). }
        unfold enumerate in Hblocks. rewrite length_cons, seqZ_cons in Hblocks by lia. simpl in Hblocks.
        inversion Hblocks as [|? ? ? ? (e&rest&->&He&_)]; subst. cbn [mjoin list_join app].
        rewrite filter_cons, decide_True by exact (proj1 (oe_patch _ _ _ _ He)). done.
      + intros e [Hpe He]%list_elem_of_filter. unfold patch_events. rewrite merge_sort_Permutation, list_elem_of_filter.
        rewrite Hlog, elem_of_app. apply Forall2_blocks_cases in Hblocks.
        rewrite Forall_forall in Hblocks. auto.
      + intros e He. rewrite Hviews in He. apply list_elem_of_fmap in He as (e'&->&He').
        apply list_elem_of_join in He' as (block&He'&Hb). apply list_elem_of_lookup in Hb as [i Hb].
        destruct (Forall2_lookup_r _ _ _ _ _ Hblocks Hb) as (io&_&e1&rest&->&He1&Hrest).
        assert (e1 :: rest ∈ blocks) as Hbl by by eapply list_elem_of_lookup_2.
        apply elem_of_cons in He' as [->|He'].
        * right. exists e1. split; [|done]. apply list_elem_of_filter. split; [exact (proj1 (oe_patch _ _ _ _ He1))|].
          apply list_elem_of_join. exists (e1 :: rest). split; [apply list_elem_of_here|done].
        * left. destruct (op_resolves_need_id io.2); [|by subst; apply not_elem_of_nil in He'].
          destruct Hrest as (e2&->&_&Ht&_). apply list_elem_of_singleton in He' as ->. done.
    - apply bind_Ok in H as (st&s1&H0&H). apply ret_Ok in H as [-> ->]. cbn [pa_events].
      destruct (get_state_Ok _ _ _ _ _ Hwf H0) as (_&Hsame&_).
      exists (e0 :: l). split; [done|]. split.
      + intros e He. unfold patch_events. rewrite (sh_events _ _ Hsame). fold (patch_events (sp_case_id patch) (sp_patch_id patch) db).
        by rewrite Hnew.
      + intros e (e'&->&He')%list_elem_of_fmap. right. by exists e'. }
  assert (∀ e, e ∈ evs → e ∈ patch_events (sp_case_id patch) (sp_patch_id patch) db2) as Hevs2.
  { intros e He%Hevs. unfold patch_events in *. rewrite merge_sort_Permutation, list_elem_of_filter in *.
    destruct He as [? He]. split; [done|]. destruct (cs_events _ _ Hs2) as [k ->]. apply elem_of_app. by left. }
  unfold apply_patch in H2. rewrite Hcase, Hid in H2. apply bind_Ok in H2 as (c&s1&H0&H2).
  apply lock_case_Ok in H0 as (->&_). apply bind_Ok in H2 as (s0&s1&H0&H2). apply get_store_Ok in H0 as [-> ->].
  destruct (patch_events _ _ db2) as [|e0 l] eqn:Hex.
  { destruct evs as [|e l]; [done|]. exfalso. by eapply not_elem_of_nil, (Hevs2 e), list_elem_of_here. }
  apply bind_Ok in H2 as (st&s1&H0&H2). apply ret_Ok in H2 as [-> ->]. cbn [pa_events pa_replay].
  destruct (get_state_Ok _ _ _ _ _ Hwf2 H0) as (_&Hsame&_). split; [done|]. split; [done|].
  intros e [He|(e'&He'&->)]%Hall; [by left|right]. by apply list_elem_of_fmap_2, Hevs2.
Qed.

(** ** What a change of the knowledge base invalidates *)

Definition item_key (i : InvestigationStateItem) : claim_key := (si_proposition i, si_target_ref i).

Lemma NoDup_replay events n : NoDup (replay events n).*1.
Proof.
  revert n. induction events as [|e events IH] using rev_ind; intros n; [constructor|].
  rewrite replay_snoc. by apply NoDup_replay_event.
Qed.

(** The item of a bucket that an item of the state shows. *)
Lemma viewed_item events n items v :
  map_result item_view (replay events n).*2 = Ok items → v ∈ items →
  ∃ p, p ∈ replay events n ∧ item_view p.2 = Ok v.
Proof.
  intros Hm [i Hi]%list_elem_of_lookup. apply map_result_Ok in Hm.
  destruct (Forall2_lookup_r _ _ _ _ _ Hm Hi) as (x&Hx&Hv). apply list_elem_of_lookup_2 in Hx.
  apply list_elem_of_fmap in Hx as (p&->&Hp). by exists p.
Qed.
Lemma item_viewed events n items p :
  map_result item_view (replay events n).*2 = Ok items → p ∈ replay events n →
  ∃ v, v ∈ items ∧ item_view p.2 = Ok v.
Proof.
  intros Hm Hp. apply (list_elem_of_fmap_2 snd), list_elem_of_lookup in Hp as [i Hi]. apply map_result_Ok in Hm.
  destruct (Forall2_lookup_l _ _ _ _ _ Hm Hi) as (v&Hv&Hpv). exists v. split; [by eapply list_elem_of_lookup_2|done].
Qed.

Lemma replay_key events n p : p ∈ replay events n → p.1 = (it_proposition p.2, it_target_ref p.2).
Proof.
  revert n p. induction events as [|e events IH] using rev_ind; [by intros n p ?%not_elem_of_nil|].
  intros n p. rewrite replay_snoc, replay_event_bucket. destruct (ev_proposition e) as [q|]; [|by apply IH]. cbv zeta.
  assert (∀ p, p ∈ bucket_pop (q, ev_target_ref e) (replay events n) → p.1 = (it_proposition p.2, it_target_ref p.2))
    as Hpop by (intros ? [? _]%elem_of_bucket_pop; by apply (IH n)).
  destruct (additions _) as [a|]; [|destruct (removals _)]; repeat case_bool_decide; simpl; intros Hp;
    try (apply elem_of_bucket_set in Hp as [->|[Hp _]]; [done|]); first [exact (IH n p Hp)|exact (Hpop p Hp)].
Qed.

(** The events of a log that do not speak of claims. *)
Lemma replay_silent events e :
  additions (ev_event_type e) = None → removals (ev_event_type e) = None →
  ∀ n, replay (events ++ [e]) n = replay events n.
Proof.
  intros Ha Hr n. rewrite replay_snoc, replay_event_bucket, Ha, Hr. by destruct (ev_proposition e).
Qed.

Section world_change.
Context (fresh : string → Z → string).

Lemma retract_item_log id change now i db u db' :
  (∀ c, cases db !! id = Some c → case_id c = id) →
  retract_item fresh id change now i db = (Ok u, db') →
  (∀ c, cases db' !! id = Some c → case_id c = id) ∧ evidence_needs db' = evidence_needs db ∧
  (∀ p, p ∈ replay (log_of id db') B_CONFIRMED → p ∈ replay (log_of id db) B_CONFIRMED ∧ p.1 ≠ item_key i) ∧
  (∀ k, k = item_key i ∨ k ∈ (replay (log_of id db) B_UNKNOWNS).*1 → k ∈ (replay (log_of id db') B_UNKNOWNS).*1).
Proof.
  intros Hid H. unfold retract_item in H. apply bind_Ok in H as (e1&s1&H1&H).
  apply append_event_Ok in H1 as (c1&Hc1&_&_&->). apply bind_Ok in H as (e2&s2&H2&H).
  apply append_event_Ok in H2 as (c2&Hc2&_&_&->). apply ret_Ok in H as [_ ->].
  assert (case_id c2 = id) as Hid2.
  { unfold with_event, put_case in Hc2. simpl in Hc2. rewrite (Hid _ Hc1), lookup_insert_eq in Hc2. injection Hc2 as <-.
    simpl. by apply Hid. }
  split. { intros c. simpl. rewrite Hid2, lookup_insert_eq. intros [= <-]. exact Hid2. }
  split; [done|]. unfold with_event at 1 3. change (log_of id (put_case ?c ?d)) with (log_of id d).
  rewrite !log_of_add. cbn [ev_case_id]. rewrite bool_decide_eq_true_2 by done.
  unfold with_event. change (log_of id (put_case ?c ?d)) with (log_of id d). rewrite log_of_add. cbn [ev_case_id].
  rewrite bool_decide_eq_true_2 by done. rewrite !replay_snoc. split.
  - intros p Hp.
    change (p ∈ bucket_pop (item_key i) (bucket_pop (item_key i) (replay (log_of id db) B_CONFIRMED))) in Hp.
    by apply elem_of_bucket_pop in Hp as [[? ?]%elem_of_bucket_pop _].
  - intros k Hk. set (b := bucket_pop (item_key i) (replay (log_of id db) B_UNKNOWNS)).
    match goal with |- _ ∈ (replay_event _ ?e B_UNKNOWNS).*1 =>
      change (k ∈ (bucket_set (item_key i) (event_item (si_proposition i) e) b).*1) end.
    rewrite keys_bucket_set. destruct (decide (k = item_key i)) as [->|Hne].
    + case_bool_decide; [done|]. apply elem_of_app. right. apply list_elem_of_here.
    + destruct Hk as [?|Hk]; [done|]. assert (k ∈ b.*1) by by apply keys_bucket_pop.
      case_bool_decide; [done|]. apply elem_of_app. by left.
Qed.

Lemma retract_items_log id change now items db us db' :
  (∀ c, cases db !! id = Some c → case_id c = id) →
  for_each items (retract_item fresh id change now) db = (Ok us, db') →
  (∀ c, cases db' !! id = Some c → case_id c = id) ∧ evidence_needs db' = evidence_needs db ∧
  (∀ p, p ∈ replay (log_of id db') B_CONFIRMED → p ∈ replay (log_of id db) B_CONFIRMED ∧ p.1 ∉ item_key <$> items) ∧
  (∀ k, k ∈ item_key <$> items ∨ k ∈ (replay (log_of id db) B_UNKNOWNS).*1 → k ∈ (replay (log_of id db') B_UNKNOWNS).*1).
Proof.
  revert db us. induction items as [|i items IH]; intros db us Hid H; cbn [for_each] in H.
  { apply ret_Ok in H as [_ ->]. split; [done|]. split; [done|]. split; [intros p Hp; split; [done|apply not_elem_of_nil]|].
    by intros k [[]%not_elem_of_nil|?]. }
  apply bind_Ok in H as (u&s1&H1&H). apply bind_Ok in H as (us'&s2&H&H2). apply ret_Ok in H2 as [_ ->].
  destruct (retract_item_log _ _ _ _ _ _ _ Hid H1) as (Hid1&En1&Hc1&Hu1).
  destruct (IH s1 us' Hid1 H) as (Hid2&En2&Hc2&Hu2). split; [done|]. split; [congruence|]. split.
  - intros p [[? ?]%Hc1 ?]%Hc2. split; [done|]. csimpl. by rewrite not_elem_of_cons.
  - intros k Hk. apply Hu2. csimpl in Hk. rewrite elem_of_cons in Hk. destruct Hk as [[->|Hk]|Hk]; [|by left|].
    + right. apply Hu1. by left.
    + right. apply Hu1. by right.
Qed.

Lemma reopen_stale_need_log id change now n db x db' :
  reopen_stale_need fresh id change now n db = (Ok x, db') →
  x = need_id n ∧ (∀ b, replay (log_of id db') b = replay (log_of id db) b) ∧
  ∃ n', need_status n' = NEED_OPEN ∧ evidence_needs db' = <[need_id n := n']> (evidence_needs db).
Proof.
  intros H. unfold reopen_stale_need in H. apply bind_Ok in H as (e1&s1&H1&H).
  apply append_event_Ok in H1 as (c1&Hc1&_&->&->). apply bind_Ok in H as (u&s2&H2&H). apply modify_Ok in H2 as ->.
  apply ret_Ok in H as [-> ->]. split; [done|]. split.
  - intros b. change (log_of id (put_need ?m ?d)) with (log_of id d). unfold with_event.
    change (log_of id (put_case ?c ?d)) with (log_of id d). rewrite log_of_add. cbn [ev_case_id].
    rewrite bool_decide_eq_true_2 by done. by apply replay_silent.
  - eexists. split; [|reflexivity]. done.
Qed.

Lemma reopen_stale_needs_log id change now needs db xs db' :
  for_each needs (reopen_stale_need fresh id change now) db = (Ok xs, db') →
  xs = need_id <$> needs ∧ (∀ b, replay (log_of id db') b = replay (log_of id db) b) ∧
  (∀ x, x ∉ need_id <$> needs → evidence_needs db' !! x = evidence_needs db !! x) ∧
  (∀ x, x ∈ need_id <$> needs → ∃ n, evidence_needs db' !! x = Some n ∧ need_status n = NEED_OPEN).
Proof.
  revert db xs. induction needs as [|n needs IH]; intros db xs H; cbn [for_each] in H.
  { apply ret_Ok in H as [-> ->]. split; [done|]. split; [done|]. split; [done|]. by intros x ?%not_elem_of_nil. }
  apply bind_Ok in H as (u&s1&H1&H). apply bind_Ok in H as (us'&s2&H&H2). apply ret_Ok in H2 as [-> ->].
  apply reopen_stale_need_log in H1 as (->&Hb1&n'&Hn'&E1). destruct (IH s1 us' H) as (->&Hb2&Hk&Ho).
  split; [done|]. split; [intros b; by rewrite Hb2|]. csimpl. split.
  - intros x. rewrite not_elem_of_cons. intros [? ?]. rewrite Hk, E1, lookup_insert_ne by done. done.
  - intros x Hx. destruct (decide (x ∈ need_id <$> needs)) as [Hin|Hin]; [by apply Ho|].
    apply elem_of_cons in Hx as [->|?]; [|done]. exists n'. by rewrite Hk, E1, lookup_insert_eq.
Qed.
End world_change.

Lemma transition_case_tables id allowed target db c db' :
  transition_case id allowed target db = (Ok c, db') →
  case_events db' = case_events db ∧ evidence_needs db' = evidence_needs db.
Proof.
  intros H. unfold transition_case in H. apply bind_Ok in H as (s0&s1&H0&H). apply get_store_Ok in H0 as [-> ->].
  apply bind_Ok in H as (m&s1&H0&H). apply require_Ok in H0 as [_ ->].
  apply bind_Ok in H as (l&s1&H0&H). apply lift_Ok in H0 as [_ ->].
  destruct (bool_decide _); [by apply lift_Ok in H as [_ ->]|].
  apply bind_Ok in H as (u&s1&H0&H). apply check_Ok in H0 as [_ ->]. cbv zeta in H.
  apply bind_Ok in H as (u1&s1&H0&H). apply modify_Ok in H0 as ->. by apply lift_Ok in H as [_ ->].
Qed.

(** What a run of [apply_case] leaves behind, whatever it did with the projection and the case row. *)
Lemma apply_case_tables fresh kb change now id db impact db' :
  case_wf db → apply_case fresh kb change now id db = (Ok impact, db') →
  ∃ st s1 cur us s2 reopened s3, same_history db s1 ∧ case_wf s1 ∧ projection_of id s1 cur ∧ state_view cur = Ok st ∧
    for_each (filter (λ i, is_stale_item kb change i) (is_confirmed st)) (retract_item fresh id change now) s1 = (Ok us, s2) ∧
    for_each (filter (λ n, is_stale_need kb change n) (filter (λ n, need_status n = NEED_RESOLVED) (needs_of id s1)))
      (reopen_stale_need fresh id change now) s2 = (Ok reopened, s3) ∧
    case_events db' = case_events s3 ∧ evidence_needs db' = evidence_needs s3 ∧
    affected_propositions impact = merge_sort String.le (si_proposition <$>
      filter (λ i, is_stale_item kb change i) (is_confirmed st)) ∧
    opened_or_reopened_need_ids impact = merge_sort String.le reopened.
Proof.
  intros Hwf H. unfold apply_case in H. apply bind_Ok in H as (c&s1&H0&H).
  apply lock_case_Ok in H0 as (->&Hc&Hopen). apply bind_Ok in H as (st&s1&H0&H).
  destruct (get_state_Ok _ _ _ _ _ Hwf H0) as (Hwf1&Hsame&cur&Hpr&Hv). clear H0.
  apply bind_Ok in H as (s0&s2&H0&H). apply get_store_Ok in H0 as [-> ->]. cbv zeta in H.
  apply bind_Ok in H as (us&s2&H1&H). apply bind_Ok in H as (reopened&s3&H2&H).
  apply bind_Ok in H as (u&s4&H3&H). apply bind_Ok in H as (s0&s5&H0&H). apply get_store_Ok in H0 as [-> ->].
  apply bind_Ok in H as (activated&s5&H0&H). apply ret_Ok in H as [-> ->].
  exists st, s1, cur, us, s2, reopened, s3. do 6 (split; [done|]).
  assert (case_events s4 = case_events s3 ∧ evidence_needs s4 = evidence_needs s3) as [E1 N1].
  { destruct (_ && _); [by apply ret_Ok in H3 as [_ ->]|]. apply bind_Ok in H3 as (st'&s6&H3&H4).
    apply ret_Ok in H4 as [_ ->]. unfold rebuild in H3. apply bind_Ok in H3 as (s0&s7&H4&H3).
    apply get_store_Ok in H4 as [-> ->]. apply bind_Ok in H3 as (c'&s7&H4&H3). apply require_Ok in H4 as [_ ->].
    apply bind_Ok in H3 as (cur'&s7&H4&H3). apply lift_Ok in H3 as [_ ->]. unfold rebuild_current in H4.
    apply bind_Ok in H4 as (s0&s8&H5&H4). apply get_store_Ok in H5 as [-> ->].
    apply bind_Ok in H4 as (c2&s8&H5&H4). apply require_Ok in H5 as [_ ->]. cbv zeta in H4.
    destruct (state_current s3 !! id); [destruct (_ && _); [by apply ret_Ok in H4 as [_ ->]|]|];
      apply bind_Ok in H4 as (u2&s8&H5&H4); apply modify_Ok in H5 as ->; by apply ret_Ok in H4 as [_ ->]. }
  assert (case_events s5 = case_events s4 ∧ evidence_needs s5 = evidence_needs s4) as [E2 N2].
  { destruct (bool_decide (case_status c ≠ "waiting"%string)); [by apply ret_Ok in H0 as [_ ->]|].
    destruct (bool_decide (_ <$> cases s4 !! id = _)); [by apply ret_Ok in H0 as [_ ->]|].
    apply bind_Ok in H0 as (cv&s6&H0&H). apply ret_Ok in H as [_ ->]. by eapply transition_case_tables. }
  split; [congruence|]. split; [congruence|]. done.
Qed.

(** C25. After a change of the knowledge base has been applied to a case, no confirmed claim of the case
    is about a changed object or rests on changed knowledge, every claim that did is an unknown now, and no
    resolved evidence need is touched by the change: those that were are open again and reported. *)
Theorem world_change_invalidates fresh kb change now now' id db impact db1 st db2 :
  case_wf db → apply_case fresh kb change now id db = (Ok impact, db1) → get_state id now' db1 = (Ok st, db2) →
  (∀ i, i ∈ is_confirmed st → is_stale_item kb change i = false) ∧
  (∀ x, x ∈ affected_propositions impact → ∃ i, i ∈ is_unknowns st ∧ si_proposition i = x) ∧
  (∀ n, n ∈ needs_of id db1 → need_status n = NEED_RESOLVED → is_stale_need kb change n = false) ∧
  (∀ x, x ∈ opened_or_reopened_need_ids impact → open_need id x db1).
Proof.
  intros Hwf H Hst. destruct (apply_case_good _ (λ _, ""%string) (λ _, Ok 0) _ _ _ _ _ _ _ Hwf H) as [Hwf' Hstep].
  destruct (apply_case_tables _ _ _ _ _ _ _ _ Hwf H)
    as (st0&s1&cur0&us&s2&reopened&s3&Hsame&Hwf1&Hpr0&Hv0&H1&H2&Hev&Hne&Haff&Hopen). clear H.
  set (items := filter _ (is_confirmed st0)) in *. set (needs := filter _ (filter _ _)) in *.
  destruct (get_state_Ok _ _ _ _ _ Hwf' Hst) as (_&Hsame2&cur&Hpr&Hv).
  unfold state_view in Hv, Hv0. apply make_state_Ok in Hv as (V1&_&_&V4&_). apply make_state_Ok in Hv0 as (M1&_).
  rewrite !(pr_buckets _ _ _ Hpr) in V1, V4. rewrite (pr_buckets _ _ _ Hpr0) in M1.
  rewrite (same_history_log id _ _ Hsame2) in V1, V4.
  apply (retract_items_log fresh) in H1 as (_&N1&Hconf&Hunk); [|intros c Hc; by apply (lw_case _ (cw_log _ Hwf1))].
  apply (reopen_stale_needs_log fresh) in H2 as (Hids&Hrep&Hkeep&Hre).
  assert (∀ b, replay (log_of id db1) b = replay (log_of id s2) b) as Hfin.
  { intros b. rewrite <- Hrep. unfold log_of. by rewrite Hev. }
  rewrite Hfin in V1, V4. split; [|split; [|split]].
  - intros i Hi. destruct (viewed_item _ _ _ _ V1 Hi) as (p&[Hp Hk]%Hconf&Hpi).
    destruct (item_viewed _ _ _ _ M1 Hp) as (i'&Hi'&Hpi'). assert (i' = i) as -> by congruence.
    apply not_true_is_false. intros Hs. apply Hk. assert (item_key i = p.1) as <-.
    { etrans; [|symmetry; exact (replay_key _ _ _ Hp)]. destruct (item_view_Ok _ _ Hpi) as (_&_&E1&E2&_).
      unfold item_key. by rewrite E1, E2. }
    apply (list_elem_of_fmap_2 item_key), list_elem_of_filter. split; [by apply Is_true_true|done].
  - intros x Hx. rewrite Haff, merge_sort_Permutation in Hx. apply list_elem_of_fmap in Hx as (i&->&Hi).
    assert (item_key i ∈ (replay (log_of id s2) B_UNKNOWNS).*1) as Hk by (apply Hunk; left; by apply list_elem_of_fmap_2).
    apply list_elem_of_fmap in Hk as (p&Hkp&Hp). destruct (item_viewed _ _ _ _ V4 Hp) as (i'&Hi'&Hpi).
    exists i'. split; [done|]. pose proof (eq_trans Hkp (replay_key _ _ _ Hp)) as Hkey.
    destruct (item_view_Ok _ _ Hpi) as (_&_&->&_). by injection Hkey.
  - intros n Hn Hs. apply elem_of_needs_of in Hn as [Hn Hc]; [|apply Hwf'].
    destruct (decide (need_id n ∈ need_id <$> needs)) as [Hin|Hin].
    { destruct (Hre _ Hin) as (n'&Hn'&Ho). rewrite <- Hne, Hn in Hn'. injection Hn' as <-. by rewrite Hs in Ho. }
    apply not_true_is_false. intros Hstale. apply Hin, list_elem_of_fmap_2. apply list_elem_of_filter.
    split; [by apply Is_true_true|]. apply list_elem_of_filter. split; [done|].
    apply elem_of_needs_of; [apply Hwf1|]. split; [|done]. rewrite Hne, Hkeep in Hn by done. by rewrite <- N1.
  - intros x Hx. rewrite Hopen, merge_sort_Permutation, Hids in Hx. destruct (Hre x Hx) as (n&Hn&Ho).
    exists n. rewrite Hne. split; [done|]. split; [|done].
    apply list_elem_of_fmap in Hx as (n0&->&Hn0). unfold needs in Hn0. rewrite !list_elem_of_filter in Hn0.
    destruct Hn0 as (_&_&[Hn0 Hc0]%elem_of_needs_of); [|apply Hwf1].
    rewrite (sh_needs _ _ Hsame) in Hn0. destruct (cs_needs _ _ Hstep _ _ Hn0) as (n1&Hn1&S).
    rewrite Hne, Hn in Hn1. injection Hn1 as <-. by rewrite (ns_case _ _ S).
Qed.

(** ** Witnesses *)

Definition sample_fresh (id : string) (revision : Z) : string := id +:+ "#" +:+ str_of_Z revision.
Definition sample_iso (t : Z) : string := str_of_Z t.
Definition sample_parse (s : string) : result Z := Ok 0.

Definition sample_kb : KnowledgeDB := mkKnowledgeDB {["o1"%string; "o2"%string]} ∅
  {["l1"%string := mkEvidenceLink "l1" "obs1" "object" "o1"]} {["obs1"%string := "src1"%string]}
  {["src1"%string := mkEvidenceSource "src1" "vendor" "vendor-family" None]} ∅ ∅.

Definition sample_request (need : string) : NeedRequest :=
  mkNeedRequest need "is o1 affected" "triage" ["o1"%string] default_contract None [] [] [] [] 50 "planner" "evidence_gap".
Definition sample_operation : StatePatchOperation :=
  mkStatePatchOperation "o1 is affected" (Some "object:o1"%string) CONFIRMED SET ["evidence:l1"%string] None
    (Some "n1"%string).
Definition sample_patch : StatePatch := mkStatePatch "p1" "c1" 1 [sample_operation] "investigator" None.
Definition sample_change : KnowledgeChangeNotice := mkKnowledgeChangeNotice 7 ["o1"%string] [] [] None.

(** A case with one open need, before and after the patch that answers it. *)
Definition asked : CaseDB :=
  run_case_ops sample_fresh sample_iso sample_parse
    [OpCreateCase "c1" "sig" ["o1"%string] "triage o1" (Some 3) [] [] 10; OpActivateCase "c1";
     OpOpenNeed sample_kb "c1" 0 (sample_request "n1") 20] empty_cases.
Definition answered : CaseDB :=
  run_case_ops sample_fresh sample_iso sample_parse [OpApplyPatch sample_kb sample_patch "evidence" 30] asked.

Lemma asked_wf : case_wf asked.
Proof. apply run_case_ops_good, empty_cases_wf. Qed.

Lemma answered_wf : case_wf answered.
Proof. apply run_case_ops_good, asked_wf. Qed.

Example sample_answer :
  match apply_patch sample_fresh sample_kb sample_patch "evidence" 30 asked with
  | (Ok res, _) => (ce_event_type <$> pa_events res, si_proposition <$> is_confirmed (pa_state res),
                    is_evidence_need_ids (pa_state res), is_case_revision (pa_state res))
                   = ([FACT_CONFIRMED; EVIDENCE_NEED_RESOLVED], ["o1 is affected"%string], [], 3)
  | _ => False
  end.
Proof. by vm_compute. Qed.

(** Two needs, the first opened still open: reopening it reports the opening of the other one. *)
Definition asked_twice : CaseDB :=
  run_case_ops sample_fresh sample_iso sample_parse
    [OpOpenNeed sample_kb "c1" 1 (sample_request "n2") 25] asked.
Example reopen_reports_other_need :
  match reopen_evidence_need sample_fresh "n1" 2 "k1" "planner" "evidence_gap" 30 asked_twice with
  | (Ok res, _) => (need_id (no_need res), dict_get "need_id" (ce_payload (no_event res)))
                   = ("n1"%string, Some (JStr "n2"))
  | _ => False
  end.
Proof. by vm_compute. Qed.

Lemma projection_matches_history_witness : ∃ st db1 c,
  get_state "c1" 40 answered = (Ok st, db1) ∧ is_case_revision st = 3 ∧
  (get_state_at_revision sample_parse "c1" (current_revision c) db1).2 = db1 ∧
  match (get_state_at_revision sample_parse "c1" (current_revision c) db1).1 with
  | Ok past => same_claims past st | Err _ => False end.
Proof.
  destruct (get_state "c1" 40 answered) as [[st|e] db1] eqn:H; [|by vm_compute in H].
  destruct (cases answered !! "c1"%string) as [c|] eqn:Hc; [|by vm_compute in Hc].
  exists st, db1, c. split; [done|].
  destruct (projection_matches_history sample_parse "c1" 40 answered st db1 c answered_wf Hc H) as [H1 H2].
  assert (match get_state "c1" 40 answered, cases answered !! "c1"%string with
    | (Ok st, db1), Some c => is_ok (get_state_at_revision sample_parse "c1" (current_revision c) db1).1 = true ∧
        is_case_revision st = 3
    | _, _ => False end) as Hrun by (vm_compute; split; reflexivity).
  rewrite H, Hc in Hrun. destruct Hrun as [Hok Hr].
  split; [exact Hr|]. split; [exact H1|].
  destruct (get_state_at_revision sample_parse "c1" (current_revision c) db1).1; [exact H2|discriminate Hok].
Defined.

Lemma history_immutable_witness : ∃ st db1,
  get_state_at_revision sample_parse "c1" 1 asked = (Ok st, db1) ∧
  (get_state_at_revision sample_parse "c1" 1
     (run_case_ops sample_fresh sample_iso sample_parse [OpApplyPatch sample_kb sample_patch "evidence" 30] asked)).1 = Ok st.
Proof.
  destruct (get_state_at_revision sample_parse "c1" 1 asked) as [[st|e] db1] eqn:H; [|by vm_compute in H].
  exists st, db1. split; [done|]. exact (history_immutable _ _ _ _ _ _ _ _ _ asked_wf H).
Defined.

Lemma apply_patch_spec_witness : ∃ res db' blocks,
  apply_patch sample_fresh sample_kb sample_patch "evidence" 30 asked = (Ok res, db') ∧
  case_events db' = case_events asked ++ mjoin blocks ∧ length (mjoin blocks) = 2%nat ∧
  resolved_on "n1" ["evidence:l1"%string] db'.
Proof.
  destruct (apply_patch sample_fresh sample_kb sample_patch "evidence" 30 asked) as [[res|e] db'] eqn:H; [|by vm_compute in H].
  destruct (cases asked !! "c1"%string) as [c|] eqn:Hc; [|by vm_compute in Hc].
  assert (case_status c ∉ IMMUTABLE_CASE_STATUSES) as Ho.
  { vm_compute in Hc. injection Hc as <-. by_decide. }
  destruct (apply_patch_spec sample_fresh sample_kb sample_patch "evidence" 30 asked c asked_wf eq_refl Hc Ho
    ltac:(by vm_compute)) as [_ Hspec].
  destruct (Hspec res db' H) as (_&_&blocks&_&Hlog&_&_&Hrev&Hneeds). exists res, db', blocks.
  split; [done|]. split; [done|]. split.
  - assert (match apply_patch sample_fresh sample_kb sample_patch "evidence" 30 asked with
      | (Ok res, _) => is_case_revision (pa_state res) = 3 | _ => False end) as E by by vm_compute.
    rewrite H in E. rewrite E in Hrev. simpl in Hrev. lia.
  - destruct (Hneeds "n1"%string) as (o&Ho1&_&Hr). apply list_elem_of_singleton in Ho1 as ->. exact Hr.
Defined.

Lemma apply_patch_once_witness : ∃ res db1 res2 db3,
  apply_patch sample_fresh sample_kb sample_patch "evidence" 30 asked = (Ok res, db1) ∧
  apply_patch sample_fresh sample_kb sample_patch "evidence" 50
    (run_case_ops sample_fresh sample_iso sample_parse [OpWorldChange sample_kb sample_change 40] db1) = (Ok res2, db3) ∧
  pa_replay res2 = true.
Proof.
  destruct (apply_patch sample_fresh sample_kb sample_patch "evidence" 30 asked) as [[res|e] db1] eqn:H; [|by vm_compute in H].
  assert (match apply_patch sample_fresh sample_kb sample_patch "evidence" 30 asked with
    | (Ok _, db1) => is_ok (apply_patch sample_fresh sample_kb sample_patch "evidence" 50
        (run_case_ops sample_fresh sample_iso sample_parse [OpWorldChange sample_kb sample_change 40] db1)).1 = true
    | _ => False end) as Hrun by by vm_compute.
  rewrite H in Hrun.
  destruct (apply_patch sample_fresh sample_kb sample_patch "evidence" 50
    (run_case_ops sample_fresh sample_iso sample_parse [OpWorldChange sample_kb sample_change 40] db1))
    as [[res2|e] db3] eqn:H2; [|done].
  exists res, db1, res2, db3. split; [done|]. split; [done|].
  exact (proj1 (apply_patch_once _ _ _ _ _ sample_patch sample_patch _ _ _ _ _ _ _ _ _ _ asked_wf eq_refl H eq_refl eq_refl H2)).
Defined.

Lemma world_change_invalidates_witness : ∃ impact db1 st db2,
  apply_case sample_fresh sample_kb sample_change 40 "c1" answered = (Ok impact, db1) ∧
  get_state "c1" 50 db1 = (Ok st, db2) ∧ affected_propositions impact = ["o1 is affected"%string] ∧
  (∀ i, i ∈ is_confirmed st → is_stale_item sample_kb sample_change i = false).
Proof.
  destruct (apply_case sample_fresh sample_kb sample_change 40 "c1" answered) as [[impact|e] db1] eqn:H; [|by vm_compute in H].
  assert (match apply_case sample_fresh sample_kb sample_change 40 "c1" answered with
    | (Ok impact, db1) => is_ok (get_state "c1" 50 db1).1 = true ∧ affected_propositions impact = ["o1 is affected"%string]
    | _ => False end) as Hrun by (vm_compute; split; reflexivity).
  rewrite H in Hrun. destruct Hrun as [Hok Haff].
  destruct (get_state "c1" 50 db1) as [[st|e] db2] eqn:H2; [|discriminate Hok].
  exists impact, db1, st, db2. split; [reflexivity|]. split; [exact H2|]. split; [exact Haff|].
  exact (proj1 (world_change_invalidates _ _ _ _ _ _ _ _ _ _ _ answered_wf H H2)).
Defined.
