(* ===== verification/Retrieval.v ===== *)
(** * Retrieval: packages/intelligence/retrieval (contracts.py, operators.py)

    The reads an investigation perceives the knowledge base through: objects by identifier, current projections, the
    chunks of an object's documents, full-text and vector search, relations and evidence, each as a list of
    [RetrievedCandidate]s.  [RetrievalDB] holds the columns the operators select, one list per table in insertion order;
    a join looks its rows up by primary key.  The text search and the distance of PostgreSQL are parameters.  Texts are
    ordered as the C locale does. *)

From S2P Require Import Prelude.
From S2P Require Import Effects.
From S2P Require Import TaskStore.
From S2P Require Import PyNumbers.
From Stdlib Require Import Ascii.

Abbreviation dict := (list (string * json)).

(** ** contracts.py *)

Inductive CandidateKind := KIND_OBJECT | KIND_PROJECTION | KIND_DOCUMENT_CHUNK | KIND_RELATION | KIND_EVIDENCE.
#[export] Instance CandidateKind_eq_dec : EqDecision CandidateKind.
Proof. solve_decision. Defined.

(** [str | int] *)
Inductive Revision := RevText (text : string) | RevNumber (n : Z).
#[export] Instance Revision_eq_dec : EqDecision Revision.
Proof. solve_decision. Defined.

Record RetrievedCandidate := mkRetrievedCandidate {
  candidate_id : string;
  candidate_kind : CandidateKind;
  rc_object_id : option string;
  rc_relation_id : option string;
  rc_evidence_ref : option string;
  rc_document_chunk_id : option string;
  rc_source_id : option string;
  rc_source_role : option string;
  rc_source_family : option string;
  rc_upstream_source : option string;
  rc_revision : option Revision;
  rc_observed_at : option Z;
  rc_valid_time : option Z;
  score_channels : list (string * pyfloat);
  rc_locator : dict;
  rc_payload : dict
}.
#[export] Instance RetrievedCandidate_eq_dec : EqDecision RetrievedCandidate.
Proof. solve_decision. Defined.

(** ** The tables *)

Record ObjectRow := mkObjectRow {
  or_object_id : string;
  or_object_type : string;
  or_canonical_key : string;
  or_properties : dict;
  or_created_revision : Z;
  or_superseded_revision : option Z
}.

Record IdentifierRow := mkIdentifierRow {
  ir_namespace : string;
  ir_value : string;
  ir_object_id : string
}.

Record RelationRow := mkRelationRow {
  rr_relation_id : string;
  rr_source_object_id : string;
  rr_relation_type : string;
  rr_target_object_id : string;
  rr_qualifier : dict;
  rr_origin : string;
  rr_lifecycle : string;
  rr_created_revision : Z;
  rr_superseded_revision : option Z
}.

Record EvidenceLinkRow := mkEvidenceLinkRow {
  lr_evidence_link_id : string;
  lr_target_kind : string;
  lr_target_id : string;
  lr_observation_id : string;
  lr_artifact_id : option string;
  lr_locator : dict
}.

Record ObservationRow := mkObservationRow {
  ob_observation_id : string;
  ob_source_id : string;
  ob_external_object_id : string;
  ob_external_revision : option string;
  ob_canonical_url : option string;
  ob_published_at : option Z;
  ob_updated_at : option Z;
  ob_observed_at : Z;
  ob_content_hash : string
}.

Record ArtifactRow := mkArtifactRow {
  ar_artifact_id : string;
  ar_storage_uri : string
}.

Record SourceRow := mkSourceRow {
  sr_source_id : string;
  sr_source_role : string;
  sr_source_family : string;
  sr_upstream_source : option string
}.

Record ProjectionRow := mkProjectionRow {
  pj_projection_id : string;
  pj_projection_type : string;
  pj_subject_id : string;
  pj_projection_key : string;
  pj_data : dict;
  pj_upstream_revision : Z;
  pj_updated_at : Z
}.

Record DocumentRow := mkDocumentRow {
  dr_document_id : string;
  dr_object_id : string;
  dr_external_object_id : string;
  dr_canonical_url : option string
}.

Record DocumentRevisionRow := mkDocumentRevisionRow {
  vr_document_revision_id : string;
  vr_document_id : string;
  vr_observation_id : string;
  vr_title : option string;
  vr_published_at : option Z;
  vr_updated_at : option Z;
  vr_created_at : Z
}.

Record ChunkRow := mkChunkRow {
  ch_chunk_id : string;
  ch_document_revision_id : string;
  ch_ordinal : Z;
  ch_section : option string;
  ch_page_number : option Z;
  ch_text : string;
  ch_locator : dict;
  ch_index_status : string;
  ch_embedding : option (list pyfloat);
  ch_embedding_model : option string;
  ch_embedding_version : option string
}.

Record RetrievalDB := mkRetrievalDB {
  object_rows : list ObjectRow;
  identifier_rows : list IdentifierRow;
  relation_rows : list RelationRow;
  link_rows : list EvidenceLinkRow;
  observation_rows : list ObservationRow;
  artifact_rows : list ArtifactRow;
  source_rows : list SourceRow;
  projection_rows : list ProjectionRow;
  document_rows : list DocumentRow;
  revision_rows : list DocumentRevisionRow;
  chunk_rows : list ChunkRow
}.

(** The primary keys the database enforces; the identity of a chunk is a uuid. *)
Record retrieval_wf (db : RetrievalDB) : Prop := {
  rw_revisions : NoDup (vr_document_revision_id <$> revision_rows db);
  rw_chunks : NoDup (ch_chunk_id <$> chunk_rows db);
  rw_chunk_ids : Forall (λ c, ch_chunk_id c ≠ ""%string) (chunk_rows db);
  rw_relations : NoDup (rr_relation_id <$> relation_rows db);
  rw_links : NoDup (lr_evidence_link_id <$> link_rows db);
  rw_documents : NoDup (dr_document_id <$> document_rows db);
  rw_observations : NoDup (ob_observation_id <$> observation_rows db);
  rw_sources : NoDup (sr_source_id <$> source_rows db);
  rw_artifacts : NoDup (ar_artifact_id <$> artifact_rows db)
}.

(** ** SQL *)

(** The row with a primary key. *)
Definition row_by {A} (key : A → string) (id : string) (rows : list A) : option A :=
  find (λ x, bool_decide (key x = id)) rows.

(** [ORDER BY f, g]: the order of the first column, then of the second. *)
Definition lex_le {A} (R S : A → A → Prop) (x y : A) : Prop := R x y ∧ (R y x → S x y).
(** An order on the values of a column. *)
Definition on_le {A B} (f : A → B) (R : B → B → Prop) (x y : A) : Prop := R (f x) (f y).
(** [DESC] *)
Definition desc_le {A} (R : A → A → Prop) (x y : A) : Prop := R y x.

#[export] Instance lex_le_dec {A} (R S : A → A → Prop) `{!RelDecision R, !RelDecision S} : RelDecision (lex_le R S).
Proof. intros x y. unfold lex_le. apply _. Defined.
#[export] Instance on_le_dec {A B} (f : A → B) R `{!RelDecision R} : RelDecision (on_le f R).
Proof. intros x y. unfold on_le. apply _. Defined.
#[export] Instance desc_le_dec {A} (R : A → A → Prop) `{!RelDecision R} : RelDecision (desc_le R).
Proof. intros x y. unfold desc_le. apply _. Defined.

#[global] Typeclasses Opaque lex_le on_le desc_le.

(** [.limit(n)]: a count PostgreSQL does not take is an error of the driver. *)
Definition DBAPIError : exn := OtherException "DBAPIError" "LIMIT must be a 64-bit natural number".
Definition sql_limit {A} (n : Z) (rows : list A) : result (list A) :=
  if (n <? 0) || (2 ^ 63 <=? n) then Err DBAPIError else Ok (take (Z.to_nat n) rows).
Definition sql_offset {A} (n : Z) (rows : list A) : result (list A) :=
  if (n <? 0) || (2 ^ 63 <=? n) then Err DBAPIError else Ok (drop (Z.to_nat n) rows).

(** A column that may be null, as a value of a payload. *)
Definition text_json (o : option string) : json := match o with Some s => JStr s | None => JNull end.
Definition int_json (o : option Z) : json := match o with Some n => JInt n | None => JNull end.

(** [a or b] for instants. *)
Definition or_instant (a b : option Z) : option Z := match a with Some _ => a | None => b end.

(** ** ExactRetrievalOperator *)

Definition object_fields (o : ObjectRow) : dict :=
  [("object_type"%string, JStr (or_object_type o)); ("canonical_key"%string, JStr (or_canonical_key o));
   ("properties"%string, JObj (or_properties o))].

Definition object_candidate (o : ObjectRow) (payload : dict) : RetrievedCandidate :=
  mkRetrievedCandidate ("object:" +:+ or_object_id o) KIND_OBJECT (Some (or_object_id o)) None None None None None None None
    (Some (RevNumber (or_created_revision o))) None None [("exact"%string, Finite 1 0)] [] payload.

Definition by_identifier (ns val : string) (db : RetrievalDB) : list RetrievedCandidate :=
  let rows := omap (M:=list) (λ i, o ← row_by or_object_id (ir_object_id i) (object_rows db);
                       if bool_decide (ir_namespace i = ns ∧ ir_value i = val ∧ or_superseded_revision o = None)
                       then Some (i, o) else None) (identifier_rows db) in
  match head rows with
  | None => []
  | Some (i, o) =>
      [object_candidate o (object_fields o ++ [("matched_namespace"%string, JStr (ir_namespace i));
                                               ("matched_value"%string, JStr (ir_value i))])]
  end.

Definition by_canonical_key (key : string) (type : option string) (db : RetrievalDB) : list RetrievedCandidate :=
  (λ o, object_candidate o (object_fields o)) <$>
    py_sorted (on_le or_object_type String.le)
      (filter (λ o, or_canonical_key o = key ∧ or_superseded_revision o = None ∧
                    from_option (λ t, bool_decide (or_object_type o = t)) true type = true) (object_rows db)).

(** ** StructuredRetrievalOperator *)

Definition projection_candidate (p : ProjectionRow) : RetrievedCandidate :=
  mkRetrievedCandidate ("projection:" +:+ pj_projection_id p) KIND_PROJECTION (Some (pj_subject_id p)) None None None None
    None None None (Some (RevNumber (pj_upstream_revision p))) None (Some (pj_updated_at p))
    [("structured"%string, Finite 1 0); ("freshness"%string, Finite 1 0)] []
    [("projection_type"%string, JStr (pj_projection_type p)); ("projection_key"%string, JStr (pj_projection_key p));
     ("data"%string, JObj (pj_data p))].

Definition structured_current (subject key : option string) (types : list string) (db : RetrievalDB)
  : result (list RetrievedCandidate) :=
  _ ← raise_when (bool_decide (subject = None ∧ key = None))
        (ValueError "structured retrieval requires subject_id or projection_key");
  Ok (projection_candidate <$>
        py_sorted (lex_le (on_le pj_projection_type String.le) (on_le pj_projection_id String.le))
          (filter (λ p, (subject = Some (pj_subject_id p) ∨ key = Some (pj_projection_key p)) ∧
                        (types = [] ∨ pj_projection_type p ∈ types)) (projection_rows db))).

(** ** The chunks of documents *)

(** A row of the join of a chunk with its revision, document, observation and source. *)
Record ChunkHit := mkChunkHit {
  hit_chunk : ChunkRow;
  hit_revision : DocumentRevisionRow;
  hit_document : DocumentRow;
  hit_observation : ObservationRow;
  hit_source : SourceRow
}.

Definition join_chunk (db : RetrievalDB) (c : ChunkRow) : option ChunkHit :=
  v ← row_by vr_document_revision_id (ch_document_revision_id c) (revision_rows db);
  d ← row_by dr_document_id (vr_document_id v) (document_rows db);
  o ← row_by ob_observation_id (vr_observation_id v) (observation_rows db);
  s ← row_by sr_source_id (ob_source_id o) (source_rows db);
  Some (mkChunkHit c v d o s).
Definition chunk_hits (db : RetrievalDB) : list ChunkHit := omap (M:=list) (join_chunk db) (chunk_rows db).

(** [_is_current_document_revision] *)
Definition newer_revision (newer v : DocumentRevisionRow) : bool :=
  bool_decide (vr_document_id newer = vr_document_id v) &&
  ((vr_created_at v <? vr_created_at newer) ||
   (vr_created_at newer =? vr_created_at v) &&
   negb (bool_decide (String.le (vr_document_revision_id newer) (vr_document_revision_id v)))).
Definition is_current_document_revision (db : RetrievalDB) (v : DocumentRevisionRow) : bool :=
  negb (existsb (λ newer, newer_revision newer v) (revision_rows db)).

(** [row_number().over(partition_by=document_id, order_by=(created_at.desc(), document_revision_id.desc()))] *)
Definition newest_first : DocumentRevisionRow → DocumentRevisionRow → Prop :=
  lex_le (desc_le (on_le vr_created_at Z.le)) (desc_le (on_le vr_document_revision_id String.le)).
#[export] Instance newest_first_dec : RelDecision newest_first.
Proof. unfold newest_first. apply _. Defined.
Definition revision_partition (db : RetrievalDB) (document_id : string) : list DocumentRevisionRow :=
  py_sorted newest_first (filter (λ v, vr_document_id v = document_id) (revision_rows db)).
Definition row_number (db : RetrievalDB) (v : DocumentRevisionRow) : option nat :=
  (λ iv, S iv.1) <$> list_find (λ w, vr_document_revision_id w = vr_document_revision_id v)
                       (revision_partition db (vr_document_id v)).

(** [_document_candidate] *)
Definition document_candidate (h : ChunkHit) (channels : list (string * pyfloat)) : RetrievedCandidate :=
  let '(mkChunkHit c v d o s) := h in
  mkRetrievedCandidate ("chunk:" +:+ ch_chunk_id c) KIND_DOCUMENT_CHUNK (Some (dr_object_id d)) None None
    (Some (ch_chunk_id c)) (Some (sr_source_id s)) (Some (sr_source_role s)) (Some (sr_source_family s))
    (sr_upstream_source s) (Some (RevText (vr_document_revision_id v))) (Some (ob_observed_at o))
    (or_instant (vr_updated_at v) (vr_published_at v)) channels (ch_locator c)
    [("document_id"%string, JStr (dr_document_id d));
     ("document_revision_id"%string, JStr (vr_document_revision_id v));
     ("external_object_id"%string, JStr (dr_external_object_id d));
     ("canonical_url"%string, text_json (dr_canonical_url d));
     ("title"%string, text_json (vr_title v));
     ("ordinal"%string, JInt (ch_ordinal c));
     ("section"%string, text_json (ch_section c));
     ("page_number"%string, int_json (ch_page_number c));
     ("text"%string, JStr (ch_text c));
     ("index_status"%string, JStr (ch_index_status c));
     ("embedding_model"%string, text_json (ch_embedding_model c));
     ("embedding_version"%string, text_json (ch_embedding_version c))].

(** [model_copy(update={"evidence_ref": ref})] *)
Definition with_evidence_ref (ref : option string) (c : RetrievedCandidate) : RetrievedCandidate :=
  mkRetrievedCandidate (candidate_id c) (candidate_kind c) (rc_object_id c) (rc_relation_id c) ref (rc_document_chunk_id c)
    (rc_source_id c) (rc_source_role c) (rc_source_family c) (rc_upstream_source c) (rc_revision c) (rc_observed_at c)
    (rc_valid_time c) (score_channels c) (rc_locator c) (rc_payload c).

(** The scalar subquery [support] of a document and an observation. *)
Definition support (db : RetrievalDB) (object_id observation_id : string) : option string :=
  head (py_sorted String.le
          (lr_evidence_link_id <$>
             filter (λ l, lr_target_kind l = "object"%string ∧ lr_target_id l = object_id ∧
                          lr_observation_id l = observation_id) (link_rows db))).

(** ** DocumentRetrievalOperator *)

(** [refs] of [bind_evidence]: the key of a joined chunk and its support. *)
Definition evidence_row (db : RetrievalDB) (c : ChunkRow) : option ((string * Revision * string) * option string) :=
  v ← row_by vr_document_revision_id (ch_document_revision_id c) (revision_rows db);
  d ← row_by dr_document_id (vr_document_id v) (document_rows db);
  Some ((ch_chunk_id c, RevText (ch_document_revision_id c), dr_object_id d),
        support db (dr_object_id d) (vr_observation_id v)).
Definition truthy_text (o : option string) : option string := s ← o; if bool_decide (s = ""%string) then None else Some s.
Definition chunk_ids (candidates : list RetrievedCandidate) : list string :=
  omap (M:=list) (λ c, truthy_text (rc_document_chunk_id c)) candidates.
Definition evidence_refs (db : RetrievalDB) (ids : list string) : list ((string * Revision * string) * option string) :=
  omap (M:=list) (evidence_row db) (filter (λ c, ch_chunk_id c ∈ ids) (chunk_rows db)).
Definition refs_get (refs : list ((string * Revision * string) * option string)) (c : RetrievedCandidate) : option string :=
  row ← find (λ row, bool_decide (Some row.1.1.1 = rc_document_chunk_id c ∧ Some row.1.1.2 = rc_revision c ∧
                                  Some row.1.2 = rc_object_id c)) (reverse refs);
  row.2.
Definition bind_evidence (db : RetrievalDB) (candidates : list RetrievedCandidate) : list RetrievedCandidate :=
  let ids := chunk_ids candidates in
  if bool_decide (ids = []) then candidates
  else let refs := evidence_refs db ids in
       (λ c, match truthy_text (rc_document_chunk_id c) with
             | Some _ => with_evidence_ref (refs_get refs c) c
             | None => c
             end) <$> candidates.

Definition document_order : ChunkHit → ChunkHit → Prop :=
  lex_le (on_le (λ h, dr_document_id (hit_document h)) String.le) (on_le (λ h, ch_ordinal (hit_chunk h)) Z.le).
#[export] Instance document_order_dec : RelDecision document_order.
Proof. unfold document_order. apply _. Defined.

(** The rows [for_object] pages through. *)
Definition object_hits (db : RetrievalDB) (object_id : string) : list ChunkHit :=
  py_sorted document_order
    (filter (λ h, dr_object_id (hit_document h) = object_id ∧ row_number db (hit_revision h) = Some 1%nat) (chunk_hits db)).
Definition supported_candidate (db : RetrievalDB) (h : ChunkHit) : RetrievedCandidate :=
  with_evidence_ref (support db (dr_object_id (hit_document h)) (ob_observation_id (hit_observation h)))
    (document_candidate h [("document"%string, Finite 1 0)]).
Definition for_object (db : RetrievalDB) (object_id : string) (limit offset : Z) : result (list RetrievedCandidate) :=
  later ← sql_offset (Z.max 0 offset) (object_hits db object_id);
  page ← sql_limit (Z.max 0 (Z.min limit 100)) later;
  Ok (fmap (M:=list) (supported_candidate db) page).

(** ** LexicalRetrievalOperator and DenseRetrievalOperator *)

Section search.
(** [to_tsvector('simple', coalesce(text, '')) @@ plainto_tsquery('simple', query)], its [ts_rank_cd], and the distance of
    pgvector, which raises for vectors it does not compare, those of different dimensions among them. *)
Context (ts_match : string → string → bool) (ts_rank_cd : string → string → pyfloat)
  (cosine_distance : list pyfloat → list pyfloat → result pyfloat).

(** A hit with the value of the computed column. *)
Definition ScoredHit : Type := ChunkHit * pyfloat.
Definition by_source (source_ids : list string) (h : ChunkHit) : Prop :=
  source_ids = [] ∨ ob_source_id (hit_observation h) ∈ source_ids.
#[export] Instance by_source_dec source_ids h : Decision (by_source source_ids h).
Proof. unfold by_source. apply _. Defined.

Definition rank_order : ScoredHit → ScoredHit → Prop :=
  lex_le (desc_le (on_le snd float_le)) (on_le (λ r, ch_chunk_id (hit_chunk r.1)) String.le).
#[export] Instance rank_order_dec : RelDecision rank_order.
Proof. unfold rank_order. apply _. Defined.

(** The statement of [build_lexical_search_statement] and its rows. *)
Definition lexical_rows (db : RetrievalDB) (query : string) (source_ids : list string) : list ScoredHit :=
  py_sorted rank_order
    ((λ h, (h, ts_rank_cd (ch_text (hit_chunk h)) query)) <$>
       filter (λ h, ts_match (ch_text (hit_chunk h)) query = true ∧
                    is_current_document_revision db (hit_revision h) = true ∧ by_source source_ids h) (chunk_hits db)).
Definition lexical_search_statement (db : RetrievalDB) (query : string) (limit : Z) (source_ids : list string)
  : result (list ScoredHit) :=
  let normalized := py_strip query in
  _ ← raise_when (bool_decide (normalized = ""%string))
        (ValueError "lexical search statement requires a non-empty query");
  sql_limit limit (lexical_rows db normalized source_ids).

Definition lexical_search (db : RetrievalDB) (query : string) (limit : Z) (source_ids : list string)
  : result (list RetrievedCandidate) :=
  let normalized := py_strip query in
  if bool_decide (normalized = ""%string) then Ok []
  else rows ← lexical_search_statement db normalized limit source_ids;
       Ok (fmap (M:=list) (λ r : ScoredHit, document_candidate r.1 [("lexical"%string, r.2)]) rows).

(** [character.lower()] of an ASCII letter or digit; [None] for any other character. *)
Definition ascii_alnum_lower (c : ascii) : option ascii :=
  let n := nat_of_ascii c in
  if ((48 <=? n) && (n <=? 57) || (97 <=? n) && (n <=? 122))%nat then Some c
  else if ((65 <=? n) && (n <=? 90))%nat then Some (ascii_of_nat (n + 32)) else None.
(** [folded], and [regexp_replace(lower(text), '[^a-z0-9]+', '', 'g')] *)
Definition compact (s : string) : string := of_chars (omap (M:=list) ascii_alnum_lower (chars s)).

Definition compact_order (folded : string) : ChunkHit → ChunkHit → Prop :=
  lex_le (on_le (λ h, default O (String.index 0 folded (compact (ch_text (hit_chunk h))))) le)
    (lex_le (on_le (λ h, ch_ordinal (hit_chunk h)) Z.le) (on_le (λ h, ch_chunk_id (hit_chunk h)) String.le)).
#[export] Instance compact_order_dec folded : RelDecision (compact_order folded).
Proof. unfold compact_order. apply _. Defined.

Definition search_compact_name (db : RetrievalDB) (query : string) (limit : Z) : result (list RetrievedCandidate) :=
  let folded := compact query in
  if (slen folded <? 6) || (64 <? slen folded) then Ok []
  else
    rows ← sql_limit limit
      (py_sorted (compact_order folded)
         (filter (λ h, is_Some (String.index 0 folded (compact (ch_text (hit_chunk h)))) ∧
                       is_current_document_revision db (hit_revision h) = true) (chunk_hits db)));
    Ok (fmap (M:=list) (λ h, document_candidate h [("compact_name"%string, Finite 1 0)]) rows).

(** The refs of [by_chunk_refs] and the chunks they name. *)
Definition parse_chunk_ref (ref : string) : result (string * string) :=
  match strip_prefix "document-chunk:" ref with
  | None => Err (ValueError "invalid document chunk ref")
  | Some rest =>
      match rpartition "@" rest with
      | Some (ident, revision_id) =>
          if bool_decide (ident = ""%string ∨ revision_id = ""%string)
          then Err (ValueError "invalid document chunk ref") else Ok (ident, revision_id)
      | None => Err (ValueError "invalid document chunk ref")
      end
  end.
Definition by_chunk_refs (db : RetrievalDB) (refs : list string) : result (list RetrievedCandidate) :=
  parsed ← try_map parse_chunk_ref refs;
  let rows := filter (λ h, ch_chunk_id (hit_chunk h) ∈ parsed.*1) (chunk_hits db) in
  Ok (omap (M:=list) (λ k : string * string,
        h ← find (λ h, bool_decide ((ch_chunk_id (hit_chunk h), vr_document_revision_id (hit_revision h)) = k))
              (reverse rows);
        Some (document_candidate h [("reused"%string, Finite 1 0)])) parsed).

Definition distance_order : ScoredHit → ScoredHit → Prop :=
  lex_le (on_le snd float_le) (on_le (λ r, ch_chunk_id (hit_chunk r.1)) String.le).
#[export] Instance distance_order_dec : RelDecision distance_order.
Proof. unfold distance_order. apply _. Defined.

(** [max(0.0, 1.0 - float(raw_distance or 0.0))] *)
Definition dense_score (distance : pyfloat) : pyfloat := float_max (Finite 0 0) (one_minus distance).
Definition embedded_hits (db : RetrievalDB) (source_ids : list string) : list (ChunkHit * list pyfloat) :=
  omap (M:=list) (λ h, e ← ch_embedding (hit_chunk h);
                       if bool_decide (is_current_document_revision db (hit_revision h) = true ∧ by_source source_ids h)
                       then Some (h, e) else None) (chunk_hits db).
(** The distance of every selected row is computed, for the order: one that raises makes the statement raise. *)
Definition scored (vector : list pyfloat) (he : ChunkHit * list pyfloat) : result ScoredHit :=
  distance ← cosine_distance he.2 vector; Ok (he.1, distance).
Definition dense_rows (db : RetrievalDB) (vector : list pyfloat) (source_ids : list string) : result (list ScoredHit) :=
  rows ← try_map (scored vector) (embedded_hits db source_ids);
  Ok (py_sorted distance_order rows).
Definition dense_search (db : RetrievalDB) (vector : list pyfloat) (limit : Z) (source_ids : list string)
  : result (list RetrievedCandidate) :=
  _ ← raise_when (bool_decide (vector = [])) (ValueError "dense retrieval requires a non-empty query vector");
  rows ← dense_rows db vector source_ids;
  rows ← sql_limit limit rows;
  Ok (fmap (M:=list) (λ r : ScoredHit, document_candidate r.1 [("dense"%string, dense_score r.2)]) rows).
End search.

(** ** GraphRetrievalOperator *)

Definition object_payload (o : option ObjectRow) : dict :=
  match o with
  | None => []
  | Some o => ("object_id"%string, JStr (or_object_id o)) :: object_fields o
  end.
Definition relation_candidate (db : RetrievalDB) (r : RelationRow) : RetrievedCandidate :=
  mkRetrievedCandidate ("relation:" +:+ rr_relation_id r) KIND_RELATION None (Some (rr_relation_id r)) None None None None
    None None (Some (RevNumber (rr_created_revision r))) None None [("graph"%string, Finite 1 0)] []
    [("relation_type"%string, JStr (rr_relation_type r)); ("origin"%string, JStr (rr_origin r));
     ("qualifier"%string, JObj (rr_qualifier r));
     ("source"%string, JObj (object_payload (row_by or_object_id (rr_source_object_id r) (object_rows db))));
     ("target"%string, JObj (object_payload (row_by or_object_id (rr_target_object_id r) (object_rows db))))].

Definition relation_order : RelationRow → RelationRow → Prop :=
  lex_le (on_le rr_created_revision Z.le) (on_le rr_relation_id String.le).
#[export] Instance relation_order_dec : RelDecision relation_order.
Proof. unfold relation_order. apply _. Defined.

(** An edge at the object in the direction, accepted and current, of one of the types. *)
Definition touches (object_id direction : string) (r : RelationRow) : Prop :=
  if bool_decide (direction = "out"%string) then rr_source_object_id r = object_id
  else if bool_decide (direction = "in"%string) then rr_target_object_id r = object_id
  else rr_source_object_id r = object_id ∨ rr_target_object_id r = object_id.
#[export] Instance touches_dec id direction r : Decision (touches id direction r).
Proof. unfold touches. repeat case_match; apply _. Defined.
Definition neighbor_rows (db : RetrievalDB) (object_id direction : string) (types : list string) : list RelationRow :=
  py_sorted relation_order
    (filter (λ r, rr_lifecycle r = "accepted"%string ∧ rr_superseded_revision r = None ∧ touches object_id direction r ∧
                  (types = [] ∨ rr_relation_type r ∈ types)) (relation_rows db)).
Definition neighbors (db : RetrievalDB) (object_id direction : string) (types : list string) (limit : Z)
  : result (list RetrievedCandidate) :=
  _ ← raise_when (bool_decide (direction ∉ ["out"; "in"; "both"]%string))
        (ValueError "graph direction must be out, in, or both");
  rows ← sql_limit limit (neighbor_rows db object_id direction types);
  Ok (fmap (M:=list) (relation_candidate db) rows).

(** ** EvidenceRetrievalOperator *)

Record EvidenceHit := mkEvidenceHit {
  eh_link : EvidenceLinkRow;
  eh_observation : ObservationRow;
  eh_artifact : option ArtifactRow;
  eh_source : SourceRow
}.
Definition join_link (db : RetrievalDB) (l : EvidenceLinkRow) : option EvidenceHit :=
  o ← row_by ob_observation_id (lr_observation_id l) (observation_rows db);
  s ← row_by sr_source_id (ob_source_id o) (source_rows db);
  Some (mkEvidenceHit l o (id ← lr_artifact_id l; row_by ar_artifact_id id (artifact_rows db)) s).

Definition evidence_candidate (h : EvidenceHit) : RetrievedCandidate :=
  let '(mkEvidenceHit l o a s) := h in
  mkRetrievedCandidate ("evidence:" +:+ lr_evidence_link_id l) KIND_EVIDENCE None None (Some (lr_evidence_link_id l)) None
    (Some (sr_source_id s)) (Some (sr_source_role s)) (Some (sr_source_family s)) (sr_upstream_source s)
    (RevText <$> ob_external_revision o) (Some (ob_observed_at o)) (or_instant (ob_updated_at o) (ob_published_at o))
    [("evidence"%string, Finite 1 0); ("freshness"%string, Finite 1 0)] (lr_locator l)
    [("target_kind"%string, JStr (lr_target_kind l)); ("target_id"%string, JStr (lr_target_id l));
     ("observation_id"%string, JStr (ob_observation_id o)); ("artifact_id"%string, text_json (lr_artifact_id l));
     ("artifact_uri"%string, text_json (ar_storage_uri <$> a));
     ("external_object_id"%string, JStr (ob_external_object_id o));
     ("canonical_url"%string, text_json (ob_canonical_url o)); ("content_hash"%string, JStr (ob_content_hash o))].

Definition observed_order (latest_first : bool) : EvidenceHit → EvidenceHit → Prop :=
  lex_le (λ x y, if latest_first then ob_observed_at (eh_observation y) ≤ ob_observed_at (eh_observation x)
                 else ob_observed_at (eh_observation x) ≤ ob_observed_at (eh_observation y))
    (on_le (λ h, lr_evidence_link_id (eh_link h)) String.le).
#[export] Instance observed_order_dec b : RelDecision (observed_order b).
Proof. intros x y. unfold observed_order, lex_le, on_le. destruct b; apply _. Defined.

Definition target_hits (db : RetrievalDB) (target_kind target_id : string) (latest_first : bool) : list EvidenceHit :=
  py_sorted (observed_order latest_first)
    (omap (M:=list) (join_link db)
       (filter (λ l, lr_target_kind l = target_kind ∧ lr_target_id l = target_id) (link_rows db))).
Definition for_target (db : RetrievalDB) (target_kind target_id : string) (limit : option Z)
  : result (list RetrievedCandidate) :=
  rows ← match limit with
         | Some n => sql_limit n (target_hits db target_kind target_id true)
         | None => Ok (target_hits db target_kind target_id false)
         end;
  Ok (fmap (M:=list) evidence_candidate rows).

(** ** Lemmas on orders *)

Section orders.
Context {A B : Type}.
Implicit Types (R S : A → A → Prop) (f : B → A).

#[export] Instance lex_le_total R S `{!RelDecision R, !Total R, !Total S} : Total (lex_le R S).
Proof.
  intros x y. unfold lex_le. pose proof (total R x y). pose proof (total S x y).
  destruct (decide (R x y)), (decide (R y x)); tauto.
Qed.
#[export] Instance lex_le_trans R S `{!Transitive R, !Transitive S} : Transitive (lex_le R S).
Proof.
  intros x y z [H1 H2] [H3 H4]. split; [by transitivity y|]. intros H.
  transitivity y; [apply H2|apply H4]; [by transitivity z|by transitivity x].
Qed.
#[export] Instance on_le_total f R `{!Total R} : Total (on_le f R).
Proof. intros x y. apply (total R). Qed.
#[export] Instance on_le_trans f R `{!Transitive R} : Transitive (on_le f R).
Proof. intros x y z. unfold on_le. by transitivity (f y). Qed.
#[export] Instance desc_le_total R `{!Total R} : Total (desc_le R).
Proof. intros x y. unfold desc_le. destruct (total R x y); auto. Qed.
#[export] Instance desc_le_trans R `{!Transitive R} : Transitive (desc_le R).
Proof. intros x y z. unfold desc_le. by etransitivity. Qed.
End orders.

#[export] Instance observed_order_total b : Total (observed_order b).
Proof.
  intros x y. unfold observed_order, lex_le, on_le.
  destruct (total String.le (lr_evidence_link_id (eh_link x)) (lr_evidence_link_id (eh_link y))); destruct b;
    destruct (Z.lt_trichotomy (ob_observed_at (eh_observation x)) (ob_observed_at (eh_observation y))) as [?|[?|?]];
    (left; split; [lia|]; intros; first [done|lia]) || (right; split; [lia|]; intros; first [done|lia]).
Qed.
#[export] Instance observed_order_trans b : Transitive (observed_order b).
Proof. apply lex_le_trans; intros ???; [destruct b; lia|apply on_le_trans, _]. Qed.

(** The rows of a sorted select: in order, and exactly those selected. *)
Lemma py_sorted_spec {A} (R : A → A → Prop) `{!RelDecision R, !Total R, !Transitive R} (l : list A) :
  StronglySorted R (py_sorted R l) ∧ py_sorted R l ≡ₚ l.
Proof. split; [by apply StronglySorted_py_sorted|apply py_sorted_Permutation]. Qed.

(** ** Lemmas on joins *)

Lemma row_by_Some {A} (key : A → string) id rows x : row_by key id rows = Some x → x ∈ rows ∧ key x = id.
Proof. intros [? ?%bool_decide_eq_true]%find_elem. done. Qed.

Lemma row_by_key {A} (key : A → string) rows x : NoDup (key <$> rows) → x ∈ rows → row_by key (key x) rows = Some x.
Proof. intros Hnd Hx. apply (find_NoDup key); [done| |done]. intros y Hy. by rewrite bool_decide_eq_true. Qed.

Lemma join_chunk_Some db c h :
  join_chunk db c = Some h →
  hit_chunk h = c ∧ hit_revision h ∈ revision_rows db ∧ vr_document_revision_id (hit_revision h) = ch_document_revision_id c ∧
  hit_document h ∈ document_rows db ∧ dr_document_id (hit_document h) = vr_document_id (hit_revision h) ∧
  hit_observation h ∈ observation_rows db ∧ ob_observation_id (hit_observation h) = vr_observation_id (hit_revision h) ∧
  hit_source h ∈ source_rows db ∧ sr_source_id (hit_source h) = ob_source_id (hit_observation h).
Proof.
  intros Hj. unfold join_chunk in Hj. apply bind_Some in Hj as (v&[Hv Hv']%row_by_Some&Hj).
  apply bind_Some in Hj as (d&[Hd Hd']%row_by_Some&Hj). apply bind_Some in Hj as (o&[Ho Ho']%row_by_Some&Hj).
  apply bind_Some in Hj as (s&[Hs Hs']%row_by_Some&Hj). by injection Hj as <-.
Qed.

Lemma elem_of_chunk_hits db h : h ∈ chunk_hits db ↔ hit_chunk h ∈ chunk_rows db ∧ join_chunk db (hit_chunk h) = Some h.
Proof.
  unfold chunk_hits. rewrite list_elem_of_omap. split.
  - intros (c&Hc&Hj). by destruct (join_chunk_Some db c h Hj) as [-> _].
  - intros [? ?]. by exists (hit_chunk h).
Qed.

Lemma NoDup_omap_key {A B K} (f : A → option B) (key : A → K) (key' : B → K) (l : list A) :
  (∀ x y, x ∈ l → f x = Some y → key' y = key x) → NoDup (key <$> l) → NoDup (key' <$> omap (M:=list) f l).
Proof.
  intros Hf. induction l as [|x l IH]; csimpl; [done|]. intros [Hx Hl]%NoDup_cons.
  specialize (IH ltac:(intros; apply Hf; set_solver) Hl). destruct (f x) as [y|] eqn:E; csimpl; [|done].
  apply NoDup_cons. split; [|done]. rewrite (Hf x y) by (done || set_solver).
  intros (z&Hz&(w&Hw&Hwz)%list_elem_of_omap)%list_elem_of_fmap. apply Hx. rewrite Hz, (Hf w z) by (done || set_solver).
  by apply list_elem_of_fmap_2.
Qed.

Lemma chunk_hits_NoDup db : retrieval_wf db → NoDup ((λ h, ch_chunk_id (hit_chunk h)) <$> chunk_hits db).
Proof.
  intros Hwf. apply (NoDup_omap_key _ ch_chunk_id); [|apply Hwf]. intros c h _ Hj.
  by destruct (join_chunk_Some db c h Hj) as [-> _].
Qed.

(** ** The current revision of a document *)

Lemma newer_revision_spec n v :
  newer_revision n v = true ↔ vr_document_id n = vr_document_id v ∧ ¬ newest_first v n.
Proof.
  unfold newer_revision, newest_first, lex_le, desc_le, on_le.
  rewrite andb_true_iff, bool_decide_eq_true, orb_true_iff, andb_true_iff, negb_true_iff, bool_decide_eq_false, Z.ltb_lt,
    Z.eqb_eq.
  apply and_iff_compat_l. split.
  - intros [?|[? Hn]] [? Himp]; [lia|]. apply Hn, Himp. lia.
  - intros Hn. destruct (Z.lt_trichotomy (vr_created_at v) (vr_created_at n)) as [?|[?|?]]; [by left| |].
    + right. split; [lia|]. intros Hle. apply Hn. split; [lia|done].
    + exfalso. apply Hn. split; lia.
Qed.

(** [v] is current exactly when it stands first among the revisions of its document. *)
Lemma is_current_spec db v :
  is_current_document_revision db v = true ↔
  ∀ n, n ∈ revision_rows db → vr_document_id n = vr_document_id v → newest_first v n.
Proof.
  unfold is_current_document_revision. rewrite negb_true_iff, <- not_true_iff_false, existsb_exists. split.
  - intros H n Hn Hd. destruct (decide (newest_first v n)) as [|Hno]; [done|]. exfalso. apply H. exists n.
    rewrite newer_revision_spec. by rewrite <- list_elem_of_In.
  - intros H (n&Hn%list_elem_of_In&(Hd&Hno)%newer_revision_spec). by apply Hno, H.
Qed.

Lemma newest_first_antisym v w :
  newest_first v w → newest_first w v → vr_document_revision_id v = vr_document_revision_id w.
Proof.
  intros [H1 H2] [H3 H4]. apply (anti_symm String.le); [by apply H4|by apply H2].
Qed.

(** The two selects of the current revision of a document agree: none is newer, or its row number is 1. *)
Lemma row_number_one db v :
  retrieval_wf db → v ∈ revision_rows db →
  is_current_document_revision db v = true ↔ row_number db v = Some 1%nat.
Proof.
  intros Hwf Hv. rewrite is_current_spec. unfold row_number.
  assert (∀ w, w ∈ revision_partition db (vr_document_id v) ↔ w ∈ revision_rows db ∧ vr_document_id w = vr_document_id v) as Hin.
  { intros w. unfold revision_partition. rewrite py_sorted_Permutation, list_elem_of_filter. tauto. }
  assert (StronglySorted newest_first (revision_partition db (vr_document_id v))) as Hs.
  { apply (StronglySorted_py_sorted _); unfold newest_first; apply _. }
  destruct (revision_partition db (vr_document_id v)) as [|w l] eqn:E.
  { exfalso. by apply (not_elem_of_nil v), Hin. }
  apply StronglySorted_inv in Hs as [_ Hall]. rewrite Forall_forall in Hall. simpl. split.
  - intros Hfirst. destruct (proj1 (Hin w)) as [Hw Hd]; [by left|].
    assert (v = w ∨ v ∈ l) as Hvl by (apply elem_of_cons, Hin; done).
    rewrite decide_True; [done|]. destruct Hvl as [->|Hvl]; [done|].
    apply newest_first_antisym; [by apply Hall|by apply Hfirst].
  - case_decide as Hid.
    + intros _. assert (w = v) as ->.
      { apply (NoDup_fmap_eq vr_document_revision_id (revision_rows db)); [apply Hwf|apply Hin; by left|done..]. }
      intros n Hn Hd. assert (n = v ∨ n ∈ l) as [->|Hnl] by (apply elem_of_cons, Hin; done); [|by apply Hall].
      by destruct (total newest_first v v).
    + destruct (list_find _ l) as [[i x]|]; simpl; [|done]. by intros [= ?].
Qed.

(** The chunks of an object are those of the current revisions of its documents. *)
Lemma elem_of_object_hits db id h :
  retrieval_wf db →
  h ∈ object_hits db id ↔
  h ∈ chunk_hits db ∧ dr_object_id (hit_document h) = id ∧ is_current_document_revision db (hit_revision h) = true.
Proof.
  intros Hwf. unfold object_hits. rewrite py_sorted_Permutation, list_elem_of_filter.
  split; intros H; destruct_and!; split_and!; try done.
  - apply (row_number_one db); try done. by eapply join_chunk_Some, (elem_of_chunk_hits db).
  - apply (row_number_one db); try done. by eapply join_chunk_Some, (elem_of_chunk_hits db).
Qed.

(** ** What a limited select returns

    The [n] first of the selected rows in an order: whatever is left out stands behind all that is returned. *)
Record top_k {A} (R : A → A → Prop) (n : nat) (selected : A → Prop) (rows : list A) : Prop := {
  tk_sorted : StronglySorted R rows;
  tk_NoDup : NoDup rows;
  tk_length : (length rows ≤ n)%nat;
  tk_selected : ∀ x, x ∈ rows → selected x;
  tk_complete : ∀ x, selected x → x ∈ rows ∨ length rows = n ∧ ∀ y, y ∈ rows → R y x
}.

Lemma StronglySorted_app_cross {A} (R : A → A → Prop) l1 l2 x y :
  StronglySorted R (l1 ++ l2) → x ∈ l1 → y ∈ l2 → R x y.
Proof.
  induction l1 as [|z l1 IH]; simpl; intros Hs Hx Hy; [by apply not_elem_of_nil in Hx|].
  apply StronglySorted_inv in Hs as [Hs Hall]. rewrite Forall_forall in Hall.
  apply elem_of_cons in Hx as [->|Hx]; [apply Hall; set_solver|by apply IH].
Qed.

Lemma sorted_take_top_k {A} (R : A → A → Prop) `{!RelDecision R, !Total R, !Transitive R} n (selected : A → Prop) l :
  NoDup l → (∀ x, x ∈ l ↔ selected x) → top_k R n selected (take n (py_sorted R l)).
Proof.
  intros Hnd Hsel. destruct (py_sorted_spec R l) as [Hs Hp]. constructor.
  - by apply StronglySorted_take.
  - eapply sublist_NoDup; [|apply sublist_take]. by rewrite Hp.
  - rewrite length_take. lia.
  - intros x Hx. apply Hsel. rewrite <- Hp. eapply elem_of_sublist; [done|apply sublist_take].
  - intros x Hx. apply Hsel in Hx. rewrite <- Hp, <- (take_drop n (py_sorted R l)) in Hx.
    apply elem_of_app in Hx as [Hx|Hx]; [by left|right]. split.
    + assert (0 < length (drop n (py_sorted R l)))%nat as Hlen by (destruct (drop _ _); [set_solver|simpl; lia]).
      rewrite length_drop in Hlen. rewrite length_take. lia.
    + intros y Hy. eapply StronglySorted_app_cross; [|done..]. by rewrite take_drop.
Qed.

Lemma NoDup_fmap_filter {A B} (f : A → B) (P : A → Prop) `{!∀ x, Decision (P x)} (l : list A) :
  NoDup (f <$> l) → NoDup (f <$> filter P l).
Proof.
  induction l as [|x l IH]; csimpl; [done|]. intros [Hx Hl]%NoDup_cons. rewrite filter_cons.
  destruct (decide (P x)); [|by apply IH]. csimpl. apply NoDup_cons. split; [|by apply IH].
  intros (y&Hy&[_ Hin]%list_elem_of_filter)%list_elem_of_fmap. apply Hx. rewrite Hy. by apply list_elem_of_fmap_2.
Qed.

Lemma sql_limit_Ok {A} n (rows : list A) : 0 ≤ n < 2 ^ 63 → sql_limit n rows = Ok (take (Z.to_nat n) rows).
Proof. intros ?. unfold sql_limit. by rewrite (proj2 (Z.ltb_ge n 0)), (proj2 (Z.leb_gt _ _)) by lia. Qed.

Lemma sql_offset_Ok {A} n (rows : list A) : 0 ≤ n < 2 ^ 63 → sql_offset n rows = Ok (drop (Z.to_nat n) rows).
Proof. intros ?. unfold sql_offset. by rewrite (proj2 (Z.ltb_ge n 0)), (proj2 (Z.leb_gt _ _)) by lia. Qed.

Lemma top_k_ext {A} (R R' : A → A → Prop) n (P P' : A → Prop) rows :
  (∀ x y, R x y → R' x y) → (∀ x, P x ↔ P' x) → top_k R n P rows → top_k R' n P' rows.
Proof.
  intros HR HP [Hs Hnd Hl Hsel Hc]. split; [|done|done|intros x Hx; by apply HP, Hsel|].
  - clear -Hs HR. induction Hs as [|x l Hs IH Hall]; constructor; [done|]. eapply Forall_impl; [exact Hall|]. auto.
  - intros x Hx%HP. destruct (Hc x Hx) as [?|[? Hr]]; [by left|right]. split; [done|]. auto.
Qed.

(** *** Which rows a read selects, and in which order, from the tables *)

(** The hit puts together a chunk, its revision, the document and the observation of the revision, and the source. *)
Record joined (db : RetrievalDB) (h : ChunkHit) : Prop := {
  jn_chunk : hit_chunk h ∈ chunk_rows db;
  jn_revision : hit_revision h ∈ revision_rows db ∧ vr_document_revision_id (hit_revision h) = ch_document_revision_id (hit_chunk h);
  jn_document : hit_document h ∈ document_rows db ∧ dr_document_id (hit_document h) = vr_document_id (hit_revision h);
  jn_observation : hit_observation h ∈ observation_rows db ∧ ob_observation_id (hit_observation h) = vr_observation_id (hit_revision h);
  jn_source : hit_source h ∈ source_rows db ∧ sr_source_id (hit_source h) = ob_source_id (hit_observation h)
}.

(** No revision of the document was created later, nor at the same instant with a greater identity. *)
Definition newest (db : RetrievalDB) (v : DocumentRevisionRow) : Prop :=
  ∀ w, w ∈ revision_rows db → vr_document_id w = vr_document_id v →
    vr_created_at w < vr_created_at v ∨
    vr_created_at w = vr_created_at v ∧ String.le (vr_document_revision_id w) (vr_document_revision_id v).

Lemma row_by_joined {A} (key : A → string) id rows x : NoDup (key <$> rows) → row_by key id rows = Some x ↔ x ∈ rows ∧ key x = id.
Proof. intros Hnd. split; [apply row_by_Some|]. intros [Hx <-]. by apply row_by_key. Qed.

Lemma elem_of_joined db h : retrieval_wf db → h ∈ chunk_hits db ↔ joined db h.
Proof.
  intros Hwf. rewrite elem_of_chunk_hits. split.
  - intros [Hc Hj]. apply join_chunk_Some in Hj as (_&?&?&?&?&?&?&?&?). by split.
  - intros [Hc Hv Hd Ho Hs]. split; [done|]. unfold join_chunk.
    rewrite (proj2 (row_by_joined _ _ _ _ (rw_revisions _ Hwf)) Hv). simpl.
    rewrite (proj2 (row_by_joined _ _ _ _ (rw_documents _ Hwf)) Hd). simpl.
    rewrite (proj2 (row_by_joined _ _ _ _ (rw_observations _ Hwf)) Ho). simpl.
    rewrite (proj2 (row_by_joined _ _ _ _ (rw_sources _ Hwf)) Hs). simpl. by destruct h.
Qed.

Lemma is_current_newest db v : is_current_document_revision db v = true ↔ newest db v.
Proof.
  rewrite is_current_spec. unfold newest, newest_first, lex_le, desc_le, on_le.
  split; intros H w Hw Hd; specialize (H w Hw Hd).
  - destruct H as [H1 H2]. destruct (decide (vr_created_at w < vr_created_at v)); [by left|right]. split; [lia|]. apply H2. lia.
  - destruct H as [?|[? ?]]; split; try lia; try done; intros; lia.
Qed.

Definition lexical_selected (ts_match : string → string → bool) (ts_rank_cd : string → string → pyfloat) (db : RetrievalDB)
  (query : string) (source_ids : list string) (r : ScoredHit) : Prop :=
  joined db r.1 ∧ newest db (hit_revision r.1) ∧ ts_match (ch_text (hit_chunk r.1)) query = true ∧
  (source_ids = [] ∨ ob_source_id (hit_observation r.1) ∈ source_ids) ∧ r.2 = ts_rank_cd (ch_text (hit_chunk r.1)) query.
(** The higher rank first; of equal ranks the smaller chunk id. *)
Definition higher_rank_first (x y : ScoredHit) : Prop :=
  float_le y.2 x.2 ∧ (float_le x.2 y.2 → String.le (ch_chunk_id (hit_chunk x.1)) (ch_chunk_id (hit_chunk y.1))).

Definition dense_selected (cosine_distance : list pyfloat → list pyfloat → result pyfloat) (db : RetrievalDB)
  (vector : list pyfloat) (source_ids : list string) (r : ScoredHit) : Prop :=
  joined db r.1 ∧ newest db (hit_revision r.1) ∧ (source_ids = [] ∨ ob_source_id (hit_observation r.1) ∈ source_ids) ∧
  ∃ e, ch_embedding (hit_chunk r.1) = Some e ∧ cosine_distance e vector = Ok r.2.
(** The smaller distance first; of equal distances the smaller chunk id. *)
Definition nearer_first (x y : ScoredHit) : Prop :=
  float_le x.2 y.2 ∧ (float_le y.2 x.2 → String.le (ch_chunk_id (hit_chunk x.1)) (ch_chunk_id (hit_chunk y.1))).

(** The current relations that leave the object, arrive at it, or either. *)
Definition relation_selected (db : RetrievalDB) (object_id direction : string) (types : list string) (r : RelationRow) : Prop :=
  r ∈ relation_rows db ∧ rr_lifecycle r = "accepted"%string ∧ rr_superseded_revision r = None ∧
  (direction = "out"%string ∧ rr_source_object_id r = object_id ∨
   direction = "in"%string ∧ rr_target_object_id r = object_id ∨
   direction = "both"%string ∧ (rr_source_object_id r = object_id ∨ rr_target_object_id r = object_id)) ∧
  (types = [] ∨ rr_relation_type r ∈ types).
Definition older_first (x y : RelationRow) : Prop :=
  rr_created_revision x ≤ rr_created_revision y ∧
  (rr_created_revision y ≤ rr_created_revision x → String.le (rr_relation_id x) (rr_relation_id y)).

Definition evidence_selected (db : RetrievalDB) (kind id : string) (h : EvidenceHit) : Prop :=
  eh_link h ∈ link_rows db ∧ lr_target_kind (eh_link h) = kind ∧ lr_target_id (eh_link h) = id ∧
  (eh_observation h ∈ observation_rows db ∧ ob_observation_id (eh_observation h) = lr_observation_id (eh_link h)) ∧
  (eh_source h ∈ source_rows db ∧ sr_source_id (eh_source h) = ob_source_id (eh_observation h)) ∧
  match eh_artifact h with
  | Some a => a ∈ artifact_rows db ∧ lr_artifact_id (eh_link h) = Some (ar_artifact_id a)
  | None => ∀ a, a ∈ artifact_rows db → lr_artifact_id (eh_link h) ≠ Some (ar_artifact_id a)
  end.
Definition latest_first (x y : EvidenceHit) : Prop :=
  ob_observed_at (eh_observation y) ≤ ob_observed_at (eh_observation x) ∧
  (ob_observed_at (eh_observation x) ≤ ob_observed_at (eh_observation y) →
   String.le (lr_evidence_link_id (eh_link x)) (lr_evidence_link_id (eh_link y))).

(** The rows each operator selects. *)
Section selected.
Context (ts_match : string → string → bool) (ts_rank_cd : string → string → pyfloat)
  (cosine_distance : list pyfloat → list pyfloat → result pyfloat) (db : RetrievalDB).

Lemma lexical_rows_top_k n query source_ids :
  retrieval_wf db →
  top_k higher_rank_first n (lexical_selected ts_match ts_rank_cd db query source_ids)
    (take n (lexical_rows ts_match ts_rank_cd db query source_ids)).
Proof.
  intros Hwf. assert (Total rank_order) by (unfold rank_order; apply _).
  assert (Transitive rank_order) by (unfold rank_order; apply _).
  apply (top_k_ext rank_order _ _ (lexical_selected ts_match ts_rank_cd db query source_ids)); [done|done|].
  apply (sorted_take_top_k rank_order).
  - apply (NoDup_fmap_1 (λ r : ScoredHit, ch_chunk_id (hit_chunk r.1))). rewrite <- list_fmap_compose.
    by apply NoDup_fmap_filter, chunk_hits_NoDup.
  - intros [h f]. rewrite list_elem_of_fmap. setoid_rewrite list_elem_of_filter. unfold lexical_selected. simpl.
    rewrite <- is_current_newest, <- elem_of_joined by done.
    split; [intros (h'&[= -> ->]&?); unfold by_source in *; tauto|]. intros (?&?&?&?&->). by exists h.
Qed.

Lemma elem_of_embedded_hits source_ids h e : retrieval_wf db →
  (h, e) ∈ embedded_hits db source_ids ↔
  joined db h ∧ newest db (hit_revision h) ∧ (source_ids = [] ∨ ob_source_id (hit_observation h) ∈ source_ids) ∧
  ch_embedding (hit_chunk h) = Some e.
Proof.
  intros Hwf. unfold embedded_hits. rewrite list_elem_of_omap, <- is_current_newest, <- elem_of_joined by done. split.
  - intros (h'&Hh&(e'&He&Hr)%bind_Some). case_bool_decide as Hc; [|done]. destruct Hc. by injection Hr as -> ->.
  - intros (Hh&Hc&Hs&He). exists h. rewrite He. simpl. by rewrite bool_decide_eq_true_2.
Qed.

Lemma scored_Ok vector he r : scored cosine_distance vector he = Ok r ↔ r.1 = he.1 ∧ cosine_distance he.2 vector = Ok r.2.
Proof.
  unfold scored. split; [by intros (d&Hd&[= <-])%result_bind_Ok|]. intros [E Hd]. rewrite Hd. simpl. rewrite <- E. by destruct r.
Qed.

Lemma dense_rows_top_k n vector source_ids rows :
  retrieval_wf db → dense_rows cosine_distance db vector source_ids = Ok rows →
  top_k nearer_first n (dense_selected cosine_distance db vector source_ids) (take n rows).
Proof.
  intros Hwf (l&Hl%try_map_Forall2&[= <-])%result_bind_Ok. assert (Total distance_order) by (unfold distance_order; apply _).
  assert (Transitive distance_order) by (unfold distance_order; apply _).
  apply (top_k_ext distance_order _ _ (dense_selected cosine_distance db vector source_ids)); [done|done|].
  apply (sorted_take_top_k distance_order).
  - apply (NoDup_fmap_1 (λ r : ScoredHit, ch_chunk_id (hit_chunk r.1))).
    assert ((λ r : ScoredHit, ch_chunk_id (hit_chunk r.1)) <$> l =
      (λ he : ChunkHit * list pyfloat, ch_chunk_id (hit_chunk he.1)) <$> embedded_hits db source_ids) as ->.
    { revert Hl. generalize (embedded_hits db source_ids). clear. intros hits Hl.
      induction Hl as [|he r hits l [E _]%scored_Ok Hl IH]; csimpl; [done|]. by rewrite E, IH. }
    apply (NoDup_omap_key _ (λ h, ch_chunk_id (hit_chunk h))); [|by apply chunk_hits_NoDup].
    intros h r _ (e&_&He)%bind_Some. case_bool_decide; [|done]. by injection He as <-.
  - intros r. unfold dense_selected. split.
    + intros Hr%list_elem_of_lookup. destruct Hr as [i Hi]. destruct (Forall2_lookup_r _ _ _ _ _ Hl Hi) as ([h e]&Hhe&[E Hd]%scored_Ok).
      apply list_elem_of_lookup_2, elem_of_embedded_hits in Hhe as (?&?&?&?); [|done]. rewrite E. split_and!; try done. by exists e.
    + intros (Hj&Hn&Hs&e&He&Hd). assert ((r.1, e) ∈ embedded_hits db source_ids) as Hin by by apply elem_of_embedded_hits.
      apply list_elem_of_lookup in Hin as [i Hi]. destruct (Forall2_lookup_l _ _ _ _ _ Hl Hi) as (r'&Hr'&[E Hd']%scored_Ok).
      apply list_elem_of_lookup_2 in Hr'. simpl in *. rewrite Hd in Hd'. injection Hd' as Hd'.
      by rewrite (injective_projections r r') by done.
Qed.

(** The statement raises exactly when the distance of a selected row does. *)
Lemma dense_rows_total vector source_ids :
  (∀ c e, c ∈ chunk_rows db → ch_embedding c = Some e → ∃ d, cosine_distance e vector = Ok d) →
  ∃ rows, dense_rows cosine_distance db vector source_ids = Ok rows.
Proof.
  intros Hall. unfold dense_rows.
  assert (∃ l, try_map (scored cosine_distance vector) (embedded_hits db source_ids) = Ok l) as [l ->]; [|by eexists].
  assert (∀ he, he ∈ embedded_hits db source_ids → ∃ d, cosine_distance he.2 vector = Ok d) as H.
  { intros he Hhe. unfold embedded_hits in Hhe. apply list_elem_of_omap in Hhe as (h&[Hc _]%elem_of_chunk_hits&(e&He&E)%bind_Some).
    case_bool_decide; [|done]. injection E as <-. by apply (Hall (hit_chunk h)). }
  revert H. generalize (embedded_hits db source_ids). clear. induction l as [|he l IH]; intros H; [by exists []|].
  destruct (H he) as [d Hd]; [by left|]. destruct IH as [l' Hl']; [intros; apply H; by right|].
  exists ((he.1, d) :: l'). cbn [try_map].
  assert (scored cosine_distance vector he = Ok (he.1, d)) as -> by (by apply scored_Ok). simpl. by rewrite Hl'.
Qed.
Lemma dense_rows_Err vector source_ids x : retrieval_wf db →
  dense_rows cosine_distance db vector source_ids = Err x →
  ∃ h e x', joined db h ∧ newest db (hit_revision h) ∧ (source_ids = [] ∨ ob_source_id (hit_observation h) ∈ source_ids) ∧
    ch_embedding (hit_chunk h) = Some e ∧ cosine_distance e vector = Err x'.
Proof.
  intros Hwf H. assert (∃ he x', he ∈ embedded_hits db source_ids ∧ cosine_distance he.2 vector = Err x') as ([h e]&x'&Hin&Hx).
  { unfold dense_rows in H. destruct (try_map _ _) as [l|x'] eqn:E; [discriminate H|]. clear H. revert E.
    generalize (embedded_hits db source_ids). clear. intros l. induction l as [|he l IH]; [done|]. cbn [try_map].
    destruct (scored cosine_distance vector he) as [r|x0] eqn:Er; simpl.
    2: { intros _. unfold scored in Er. destruct (cosine_distance he.2 vector) as [d|x1] eqn:Ed; [done|].
         exists he, x1. split; [by left|done]. }
    destruct (try_map _ l) as [l'|x1]; simpl; [done|]. intros [= ->]. destruct (IH eq_refl) as (he'&x2&?&?).
    exists he', x2. split; [by right|done]. }
  apply elem_of_embedded_hits in Hin as (?&?&?&?); [|done]. by exists h, e, x'.
Qed.
Lemma dense_rows_raises vector source_ids h e x : retrieval_wf db →
  joined db h → newest db (hit_revision h) → (source_ids = [] ∨ ob_source_id (hit_observation h) ∈ source_ids) →
  ch_embedding (hit_chunk h) = Some e → cosine_distance e vector = Err x →
  ∃ x', dense_rows cosine_distance db vector source_ids = Err x'.
Proof.
  intros Hwf Hj Hn Hs He Hx. destruct (dense_rows cosine_distance db vector source_ids) as [rows|x'] eqn:E; [|by exists x'].
  exfalso. apply result_bind_Ok in E as (l&Hl%try_map_Forall2&_).
  assert ((h, e) ∈ embedded_hits db source_ids) as Hin by by apply elem_of_embedded_hits.
  apply list_elem_of_lookup in Hin as [i Hi]. destruct (Forall2_lookup_l _ _ _ _ _ Hl Hi) as (r&_&[_ Hd]%scored_Ok).
  simpl in Hd. congruence.
Qed.

Lemma neighbor_rows_top_k n object_id direction types :
  retrieval_wf db → direction ∈ ["out"; "in"; "both"]%string →
  top_k older_first n (relation_selected db object_id direction types) (take n (neighbor_rows db object_id direction types)).
Proof.
  intros Hwf Hd. assert (Total relation_order) by (unfold relation_order; apply _).
  assert (Transitive relation_order) by (unfold relation_order; apply _).
  apply (top_k_ext relation_order _ _ (relation_selected db object_id direction types)); [done|done|].
  apply (sorted_take_top_k relation_order).
  - apply NoDup_filter. eapply (NoDup_fmap_1 rr_relation_id), Hwf.
  - intros r. rewrite list_elem_of_filter. unfold relation_selected, touches.
    repeat (apply elem_of_cons in Hd as [->|Hd]; [repeat case_bool_decide; naive_solver|]). by apply elem_of_nil in Hd.
Qed.

Lemma elem_of_join_link kind id h : retrieval_wf db →
  (∃ l, (lr_target_kind l = kind ∧ lr_target_id l = id) ∧ l ∈ link_rows db ∧ join_link db l = Some h) ↔ evidence_selected db kind id h.
Proof.
  intros Hwf. unfold evidence_selected, join_link. split.
  - intros (l&[Hk Ht]&Hl&Hj). apply bind_Some in Hj as (o&[Ho Ho']%row_by_Some&Hj). apply bind_Some in Hj as (s&[Hs Hs']%row_by_Some&Hj).
    injection Hj as <-. cbn. split_and!; try done. destruct (lr_artifact_id l) as [a|] eqn:Ea; simpl; [|done].
    destruct (row_by ar_artifact_id a (artifact_rows db)) as [row|] eqn:Er.
    + apply row_by_Some in Er as [? <-]. by split.
    + intros a' Ha' [= ->]. rewrite row_by_key in Er; [done|apply Hwf|done].
  - intros (Hl&Hk&Ht&[Ho Ho']&[Hs Hs']&Ha). exists (eh_link h). split; [done|]. split; [done|].
    rewrite (proj2 (row_by_joined _ _ _ _ (rw_observations _ Hwf)) (conj Ho Ho')). simpl.
    rewrite (proj2 (row_by_joined _ _ _ _ (rw_sources _ Hwf)) (conj Hs Hs')). simpl.
    destruct h as [l o a s]. simpl in *. f_equal. f_equal. destruct a as [a|].
    + destruct Ha as [Ha ->]. simpl. apply row_by_key; [apply Hwf|done].
    + destruct (lr_artifact_id l) as [a|]; [|done]. simpl. destruct (row_by _ _ _) as [row|] eqn:Er; [|done].
      apply row_by_Some in Er as [Hrow <-]. by apply Ha in Hrow.
Qed.

Lemma join_link_Some l h : join_link db l = Some h → eh_link h = l.
Proof. unfold join_link. intros (o&_&(s&_&[= <-])%bind_Some)%bind_Some. done. Qed.

Lemma target_hits_top_k n kind id :
  retrieval_wf db →
  top_k latest_first n (evidence_selected db kind id) (take n (target_hits db kind id true)).
Proof.
  intros Hwf. apply (top_k_ext (observed_order true) _ _ (evidence_selected db kind id)); [done|done|].
  apply (sorted_take_top_k (observed_order true)).
  - apply (NoDup_fmap_1 (λ h, lr_evidence_link_id (eh_link h))). apply (NoDup_omap_key _ lr_evidence_link_id).
    + intros l h _ Hh. by rewrite (join_link_Some _ _ Hh).
    + apply NoDup_fmap_filter, Hwf.
  - intros h. rewrite <- elem_of_join_link by done. rewrite list_elem_of_omap. setoid_rewrite list_elem_of_filter.
    split; [intros (l&[? ?]&?); by exists l|intros (l&?&?&?); by exists l].
Qed.
End selected.

(** ** The support of retrieved passages *)

Lemma document_candidate_chunk h channels :
  rc_document_chunk_id (document_candidate h channels) = Some (ch_chunk_id (hit_chunk h)) ∧
  rc_revision (document_candidate h channels) = Some (RevText (vr_document_revision_id (hit_revision h))) ∧
  rc_object_id (document_candidate h channels) = Some (dr_object_id (hit_document h)).
Proof. by destruct h. Qed.

Lemma chunk_id_truthy db h :
  retrieval_wf db → h ∈ chunk_hits db → truthy_text (Some (ch_chunk_id (hit_chunk h))) = Some (ch_chunk_id (hit_chunk h)).
Proof.
  intros Hwf [Hc _]%elem_of_chunk_hits. pose proof (rw_chunk_ids _ Hwf) as Hids. rewrite Forall_forall in Hids.
  specialize (Hids _ Hc). unfold truthy_text. simpl. by rewrite bool_decide_eq_false_2.
Qed.

Lemma evidence_row_hit db h :
  h ∈ chunk_hits db →
  evidence_row db (hit_chunk h) =
    Some ((ch_chunk_id (hit_chunk h), RevText (vr_document_revision_id (hit_revision h)), dr_object_id (hit_document h)),
          support db (dr_object_id (hit_document h)) (ob_observation_id (hit_observation h))).
Proof.
  intros [_ Hj]%elem_of_chunk_hits. pose proof (join_chunk_Some _ _ _ Hj) as (_&_&Hv&_&_&_&Ho&_).
  unfold join_chunk in Hj. unfold evidence_row. destruct (row_by vr_document_revision_id _ _) as [v|]; [|done].
  simpl in *. destruct (row_by dr_document_id _ _) as [d|]; [|done]. simpl in *.
  apply bind_Some in Hj as (o&_&Hj). apply bind_Some in Hj as (s&_&Hj). injection Hj as Hh.
  assert (hit_document h = d) as -> by (by rewrite <- Hh). rewrite Ho, Hv.
  assert (hit_revision h = v) as -> by (by rewrite <- Hh). done.
Qed.

Lemma evidence_row_key db c row : evidence_row db c = Some row → row.1.1.1 = ch_chunk_id c.
Proof. unfold evidence_row. intros (v&_&(d&_&[= <-])%bind_Some)%bind_Some. done. Qed.

Lemma refs_get_hit db ids h channels :
  retrieval_wf db → h ∈ chunk_hits db → ch_chunk_id (hit_chunk h) ∈ ids →
  refs_get (evidence_refs db ids) (document_candidate h channels) =
    support db (dr_object_id (hit_document h)) (ob_observation_id (hit_observation h)).
Proof.
  intros Hwf Hh Hid. unfold refs_get. destruct (document_candidate_chunk h channels) as (-> & -> & ->).
  pose proof (proj1 (elem_of_chunk_hits db h) Hh) as [Hc _].
  assert (∀ row, row ∈ evidence_refs db ids → row.1.1.1 = ch_chunk_id (hit_chunk h) →
                 evidence_row db (hit_chunk h) = Some row) as Hrow.
  { intros row (c&[_ Hc']%list_elem_of_filter&Hr)%list_elem_of_omap Hk. rewrite (evidence_row_key _ _ _ Hr) in Hk.
    by rewrite (NoDup_fmap_eq ch_chunk_id (chunk_rows db) (hit_chunk h) c (rw_chunks _ Hwf) Hc Hc' (eq_sym Hk)). }
  destruct (find _ _) as [row|] eqn:E; simpl.
  - apply find_elem in E as [Hin (Hk&_&_)%bool_decide_eq_true]. rewrite elem_of_reverse in Hin.
    specialize (Hrow row Hin ltac:(congruence)). rewrite (evidence_row_hit _ _ Hh) in Hrow. by injection Hrow as <-.
  - assert (∃ row, evidence_row db (hit_chunk h) = Some row) as [row Hr] by (rewrite evidence_row_hit by done; eauto).
    pose proof (find_None_elem _ _ row E) as Hno. rewrite bool_decide_eq_false in Hno. exfalso. apply Hno.
    + rewrite elem_of_reverse. apply list_elem_of_omap. exists (hit_chunk h). split; [|done]. by apply list_elem_of_filter.
    + rewrite evidence_row_hit in Hr by done. by injection Hr as <-.
Qed.

Lemma bind_evidence_hits db (rows : list ScoredHit) (channels : ScoredHit → list (string * pyfloat)) :
  retrieval_wf db → (∀ r, r ∈ rows → r.1 ∈ chunk_hits db) →
  bind_evidence db ((λ r, document_candidate r.1 (channels r)) <$> rows) =
    (λ r, with_evidence_ref (support db (dr_object_id (hit_document r.1)) (ob_observation_id (hit_observation r.1)))
            (document_candidate r.1 (channels r))) <$> rows.
Proof.
  intros Hwf Hrows. unfold bind_evidence.
  assert (chunk_ids ((λ r, document_candidate r.1 (channels r)) <$> rows) = (λ r, ch_chunk_id (hit_chunk r.1)) <$> rows) as ->.
  { unfold chunk_ids. induction rows as [|r rows IH]; csimpl; [done|].
    destruct (document_candidate_chunk r.1 (channels r)) as (-> & _). rewrite (chunk_id_truthy db) by (done || set_solver).
    rewrite IH by set_solver. done. }
  case_bool_decide as Hnil; [by destruct rows|]. rewrite <- list_fmap_compose. apply list_fmap_ext.
  intros i r Hr%list_elem_of_lookup_2. simpl. pose proof (document_candidate_chunk r.1 (channels r)) as (-> & _).
  rewrite (chunk_id_truthy db) by auto. rewrite refs_get_hit; [done|done|by apply Hrows|].
  by apply (list_elem_of_fmap_2 (λ r : ScoredHit, ch_chunk_id (hit_chunk r.1))).
Qed.

(** C34. Every ranked read is exact, whatever the order of the stored rows.  Each returns the [n] best of all the rows it
    selects, no row twice, and leaves one out only when [n] rows that rank no lower are returned.  Text search selects the
    chunks of the newest revision of a document that match, from the sources asked for, and puts the highest rank first;
    vector search selects the embedded chunks likewise and puts the smallest distance first; the edges are the accepted,
    current relations that leave the object, arrive at it, or either, the earliest first; the evidence of a target comes
    with its observation, source and artifact, the latest first.  Vector search raises exactly when the distance of a
    selected chunk does, as for an embedding of another dimension. *)
Theorem retrieval_top_k ts_match ts_rank_cd cosine_distance db n :
  retrieval_wf db → 0 ≤ n < 2 ^ 63 →
  (∀ query sources, py_strip query ≠ ""%string → ∃ rows,
     lexical_search ts_match ts_rank_cd db query n sources =
       Ok ((λ r, document_candidate r.1 [("lexical"%string, r.2)]) <$> rows) ∧
     top_k higher_rank_first (Z.to_nat n) (lexical_selected ts_match ts_rank_cd db (py_strip query) sources) rows) ∧
  (∀ vector sources, vector ≠ [] →
     (∃ rows, dense_search cosine_distance db vector n sources =
        Ok ((λ r, document_candidate r.1 [("dense"%string, dense_score r.2)]) <$> rows) ∧
        top_k nearer_first (Z.to_nat n) (dense_selected cosine_distance db vector sources) rows) ∨
     (∃ x h e x', dense_search cosine_distance db vector n sources = Err x ∧ joined db h ∧ newest db (hit_revision h) ∧
        (sources = [] ∨ ob_source_id (hit_observation h) ∈ sources) ∧
        ch_embedding (hit_chunk h) = Some e ∧ cosine_distance e vector = Err x')) ∧
  (∀ vector sources h e x', joined db h → newest db (hit_revision h) →
     (sources = [] ∨ ob_source_id (hit_observation h) ∈ sources) →
     ch_embedding (hit_chunk h) = Some e → cosine_distance e vector = Err x' →
     ∃ x, dense_search cosine_distance db vector n sources = Err x) ∧
  (∀ object_id direction types, direction ∈ ["out"; "in"; "both"]%string → ∃ rows,
     neighbors db object_id direction types n = Ok (relation_candidate db <$> rows) ∧
     top_k older_first (Z.to_nat n) (relation_selected db object_id direction types) rows) ∧
  (∀ kind id, ∃ rows,
     for_target db kind id (Some n) = Ok (evidence_candidate <$> rows) ∧
     top_k latest_first (Z.to_nat n) (evidence_selected db kind id) rows).
Proof.
  intros Hwf Hn. split_and!.
  - intros query sources Hq. exists (take (Z.to_nat n) (lexical_rows ts_match ts_rank_cd db (py_strip query) sources)).
    split; [|by apply lexical_rows_top_k]. unfold lexical_search, lexical_search_statement.
    rewrite py_strip_idem, !bool_decide_eq_false_2 by done. simpl. by rewrite sql_limit_Ok.
  - intros vector sources Hv. unfold dense_search. rewrite bool_decide_eq_false_2 by done. simpl.
    destruct (dense_rows cosine_distance db vector sources) as [rows|x] eqn:E.
    + left. exists (take (Z.to_nat n) rows). split; [simpl; by rewrite sql_limit_Ok|by apply dense_rows_top_k].
    + right. destruct (dense_rows_Err _ _ _ _ _ Hwf E) as (h&e&x'&?&?&?&?&?). by exists x, h, e, x'.
  - intros vector sources h e x' Hj Hnew Hs He Hx. destruct (dense_rows_raises _ _ vector sources h e x' Hwf Hj Hnew Hs He Hx) as [x Hr].
    unfold dense_search. destruct (raise_when _ _); simpl; [|by eexists]. rewrite Hr. simpl. by eexists.
  - intros object_id direction types Hd. exists (take (Z.to_nat n) (neighbor_rows db object_id direction types)).
    split; [|by apply neighbor_rows_top_k]. unfold neighbors. rewrite bool_decide_eq_false_2 by (intros []; done). simpl.
    by rewrite sql_limit_Ok.
  - intros kind id. exists (take (Z.to_nat n) (target_hits db kind id true)).
    split; [|by apply target_hits_top_k]. unfold for_target. by rewrite sql_limit_Ok.
Qed.

(** The two ways of reading passages agree: paging through an object visits exactly the chunks of the revisions that
    search calls current, and search followed by [bind_evidence] gives each passage the evidence reference that paging
    computes in its own select, the first link of its document from the observation of its very revision. *)
Theorem passages_agree db :
  retrieval_wf db →
  (∀ id h, h ∈ object_hits db id ↔
     h ∈ chunk_hits db ∧ dr_object_id (hit_document h) = id ∧ is_current_document_revision db (hit_revision h) = true) ∧
  (∀ hits channel, (∀ h, h ∈ hits → h ∈ chunk_hits db) →
     bind_evidence db ((λ h, document_candidate h (channel h)) <$> hits) =
       (λ h, with_evidence_ref (rc_evidence_ref (supported_candidate db h)) (document_candidate h (channel h))) <$> hits).
Proof.
  intros Hwf. split; [intros id h; by apply elem_of_object_hits|]. intros hits channel Hh.
  pose proof (bind_evidence_hits db ((λ h, (h, NaN)) <$> hits) (λ r, channel r.1) Hwf) as Hb.
  rewrite <- !list_fmap_compose in Hb. unfold compose in Hb. simpl in Hb. apply Hb.
  intros r (h&->&?)%list_elem_of_fmap. by apply Hh.
Qed.

(** ** Samples: an advisory with two revisions, the newer one of ten chunks, and an evidenced relation. *)

Definition sample_chunk (n : nat) : ChunkRow :=
  mkChunkRow ("c" +:+ str_of_N (N.of_nat n)) "v2" (Z.of_nat n) None None "remote code execution fixed in 2.17" [] "pending"
    (Some [Finite 1 0; Finite (Z.of_nat n) 0]) None None.
Definition sample_retrieval : RetrievalDB :=
  mkRetrievalDB
    [mkObjectRow "cve" "vulnerability" "CVE-2021-44228" [] 1 None; mkObjectRow "pkg" "package" "log4j" [] 2 None]
    [mkIdentifierRow "cve" "CVE-2021-44228" "cve"]
    [mkRelationRow "r1" "cve" "affects_package" "pkg" [] "source" "accepted" 2 None;
     mkRelationRow "r2" "pkg" "fixed_by" "cve" [] "source" "proposed" 2 None]
    [mkEvidenceLinkRow "l2" "object" "cve" "o2" None []; mkEvidenceLinkRow "l1" "object" "cve" "o2" None [];
     mkEvidenceLinkRow "l3" "relation" "r1" "o1" (Some "a1") []; mkEvidenceLinkRow "l4" "relation" "r1" "o2" None []]
    [mkObservationRow "o1" "nvd" "x1" None None None None 10 "h1"; mkObservationRow "o2" "vendor" "x1" None None None None 20 "h2"]
    [mkArtifactRow "a1" "s3://a1"]
    [mkSourceRow "nvd" "authority" "nist" None; mkSourceRow "vendor" "vendor" "apache" (Some "apache")]
    [mkProjectionRow "p1" "vulnerability_summary" "cve" "CVE-2021-44228" [] 2 30]
    [mkDocumentRow "d" "cve" "x1" None]
    [mkDocumentRevisionRow "v1" "d" "o1" None None None 10; mkDocumentRevisionRow "v2" "d" "o2" None None (Some 15) 20]
    (mkChunkRow "c" "v1" 0 None None "remote code execution" [] "pending" None None None :: (sample_chunk <$> List.seq 0 10)).

Lemma sample_retrieval_wf : retrieval_wf sample_retrieval.
Proof. constructor; by_decide. Qed.

(** A distance that is zero between vectors of one dimension, and raises between others. *)
Definition sample_distance (e v : list pyfloat) : result pyfloat :=
  if bool_decide (length e = length v) then Ok (Finite 0 0) else Err (OtherException "DBAPIError" "different vector dimensions").

(** The embeddings of the sample have two dimensions: a query vector of three fails the whole search. *)
Example dimensions_differ :
  is_ok (dense_search sample_distance sample_retrieval [Finite 1 0; Finite 2 0] 3 []) = true ∧
  dense_search sample_distance sample_retrieval [Finite 1 0; Finite 2 0; Finite 3 0] 3 []
    = Err (OtherException "DBAPIError" "different vector dimensions").
Proof. by vm_compute. Qed.

(** The old revision is neither searched nor paged through, and both give the link of its successor. *)
Example sample_reads :
  candidate_id <$> default [] (match lexical_search (λ _ _, true) (λ _ _, Finite 1 0) sample_retrieval " remote " 2 [] with
                               | Ok l => Some l | Err _ => None end) = ["chunk:c0"; "chunk:c1"]%string ∧
  match for_object sample_retrieval "cve" 2 9 with
  | Ok l => (λ c, (candidate_id c, rc_evidence_ref c)) <$> l = [("chunk:c9", Some "l1")]%string
  | Err _ => False
  end ∧
  match neighbors sample_retrieval "cve" "both" [] 20 with
  | Ok l => candidate_id <$> l = ["relation:r1"]%string
  | Err _ => False
  end ∧
  neighbors sample_retrieval "cve" "both" [] (-1) = Err DBAPIError.
Proof. by vm_compute. Qed.

Lemma retrieval_top_k_witness :
  retrieval_wf sample_retrieval ∧ ∃ rows,
    for_target sample_retrieval "relation" "r1" (Some 1) = Ok (evidence_candidate <$> rows) ∧
    top_k latest_first 1 (evidence_selected sample_retrieval "relation" "r1") rows ∧
    (λ h, lr_evidence_link_id (eh_link h)) <$> take 1 (target_hits sample_retrieval "relation" "r1" true) = ["l4"%string].
Proof.
  split; [exact sample_retrieval_wf|].
  destruct (retrieval_top_k (λ _ _, true) (λ _ _, Finite 1 0) sample_distance sample_retrieval 1 sample_retrieval_wf
              ltac:(lia)) as (_ & _ & _ & _ & H).
  destruct (H "relation"%string "r1"%string) as (rows & Hr & Hk). exists rows. split; [exact Hr|]. split; [exact Hk|by vm_compute].
Defined.

Lemma passages_agree_witness :
  retrieval_wf sample_retrieval ∧
  bind_evidence sample_retrieval ((λ h, document_candidate h [("lexical"%string, Finite 1 0)]) <$> chunk_hits sample_retrieval) =
    (λ h, with_evidence_ref (rc_evidence_ref (supported_candidate sample_retrieval h))
            (document_candidate h [("lexical"%string, Finite 1 0)])) <$> chunk_hits sample_retrieval ∧
  length (object_hits sample_retrieval "cve") = 10%nat.
Proof.
  split; [exact sample_retrieval_wf|]. split; [|by vm_compute].
  apply (proj2 (passages_agree sample_retrieval sample_retrieval_wf) (chunk_hits sample_retrieval)
           (λ _, [("lexical"%string, Finite 1 0)])). auto.
Defined.
