(* ===== verification/Capability.v ===== *)
(** * Capability: packages/runtime/capability (contracts.py, registry.py, observations.py, broker.py)

    A capability is what a role may ask for; a binding ties it to a tool implementation.
    [CapabilityRegistry] holds the three kinds of records and answers which capabilities a task sees and
    which binding serves one; [CapabilityBroker.invoke] is the only way from a role to a tool: it checks the
    execution envelope, the contract and the policy, reserves budget, records the invocation, calls the tool
    and settles both.  The store of the broker ([BrokerStore]) is the budget ledger of Budget.v, the table of
    invocations, and the calls made to tools, which no rollback undoes.  The tool is an argument of an
    invocation (any answer or exception); sha256 of JSON, uuid5 and the policy's decision digest are
    parameters.  Instants are microseconds of an aware clock. *)

From S2P Require Import Prelude.
From S2P Require Import Effects.
From S2P Require Import Budget.
From S2P Require Import Policy.
From S2P Require Import TaskContracts.

Abbreviation jdict := (list (string * json)).

(** ** contracts.py *)

Inductive EffectSemantics := ES_OBSERVATION | ES_INTERNAL_STATE | ES_EXTERNAL_SIDE_EFFECT.
#[export] Instance EffectSemantics_eq_dec : EqDecision EffectSemantics.
Proof. solve_decision. Defined.
Definition EffectSemantics_value (e : EffectSemantics) : string :=
  match e with
  | ES_OBSERVATION => "observation" | ES_INTERNAL_STATE => "internal_state"
  | ES_EXTERNAL_SIDE_EFFECT => "external_side_effect"
  end.

(** [_EFFECT_TO_CEILING] *)
Definition EFFECT_TO_CEILING (e : EffectSemantics) : EffectCeiling :=
  match e with
  | ES_OBSERVATION => READ_ONLY | ES_INTERNAL_STATE => INTERNAL_STATE
  | ES_EXTERNAL_SIDE_EFFECT => EXTERNAL_SIDE_EFFECT
  end.

Inductive ImplementationKind :=
| LOCAL_FUNCTION | RETRIEVAL_OPERATOR | PROVIDER_API | MCP_TOOL | OPENAPI_OPERATION | CLI | BROWSER
| COMPUTER_USE | SANDBOX_PROGRAM | CHILD_TASK.
Definition ImplementationKind_value (k : ImplementationKind) : string :=
  match k with
  | LOCAL_FUNCTION => "local_function" | RETRIEVAL_OPERATOR => "retrieval_operator"
  | PROVIDER_API => "provider_api" | MCP_TOOL => "mcp_tool" | OPENAPI_OPERATION => "openapi_operation"
  | CLI => "cli" | BROWSER => "browser" | COMPUTER_USE => "computer_use"
  | SANDBOX_PROGRAM => "sandbox_program" | CHILD_TASK => "child_task"
  end.

Inductive ExecutionClass :=
| TRUSTED_LOCAL_READ | PROXIED_PROVIDER_READ | RESTRICTED_PROCESS | OCI_CONTAINER | MICROVM | FULLVM_BROWSER.
#[export] Instance ExecutionClass_eq_dec : EqDecision ExecutionClass.
Proof. solve_decision. Defined.

Record ToolImplementation := mkToolImplementation {
  tool_impl_id : string;
  implementation_revision : Z;
  implementation_kind : ImplementationKind;
  native_name : string;
  transport : string;
  native_input_schema : jdict;
  native_output_schema : jdict;
  server_identity : option string;
  server_origin : option string;
  auth_class : string;
  network_destinations : list string;
  execution_backend : option string;
  health_ref : string;
  ti_native_schema_hash : string;
  implementation_metadata : jdict
}.

Record CapabilityContract := mkCapabilityContract {
  cc_capability_id : string;
  cc_contract_revision : Z;
  cc_action : string;
  applicable_resource_types : list string;
  canonical_input_schema : jdict;
  canonical_output_schema : jdict;
  observation_semantics : string;
  effect_semantics : EffectSemantics;
  authority_semantics : list string;
  preconditions : list string;
  postconditions : list string;
  idempotency : string;
  reversibility : string;
  compensation : option string;
  data_ingress_class : string;
  data_egress_class : string;
  failure_semantics : list string;
  risk_class : string
}.

(** [CapabilityContract.validate_contract_identity], after the [ge=1] of the revision. *)
Definition validate_contract_identity (self : CapabilityContract) : result CapabilityContract :=
  if cc_contract_revision self <? 1 then Err (ValueError "Input should be greater than or equal to 1")
  else if py_blank (cc_capability_id self) || py_blank (cc_action self)
  then Err (ValueError "CapabilityContract requires non-empty capability_id and action")
  else if bool_decide (applicable_resource_types self = [])
  then Err (ValueError "CapabilityContract requires applicable_resource_types")
  else Ok self.

(** [CapabilityContract.required_effect_ceiling] *)
Definition required_effect_ceiling (self : CapabilityContract) : EffectCeiling :=
  EFFECT_TO_CEILING (effect_semantics self).

Record CapabilityBinding := mkCapabilityBinding {
  binding_id : string;
  binding_revision : Z;
  cb_capability_id : string;
  cb_contract_revision : Z;
  cb_tool_impl_id : string;
  cb_implementation_revision : Z;
  canonical_to_native_args : list (string * string);
  native_to_canonical_result : list (string * string);
  resource_resolver : string;
  effect_resolver : string;
  authority_mapper : string;
  execution_class : ExecutionClass;
  credential_profile : string;
  network_profile : string;
  sandbox_profile : string;
  health_requirement : string;
  cost_class : string;
  latency_class : string;
  fallback_rank : Z;
  cb_native_schema_hash : string
}.

(** [CapabilityBinding.validate_binding_identity], after the bounds of its fields. *)
Definition validate_binding_identity (self : CapabilityBinding) : result CapabilityBinding :=
  if (binding_revision self <? 1) || (cb_contract_revision self <? 1) || (cb_implementation_revision self <? 1)
     || (fallback_rank self <? 0)
  then Err (ValueError "invalid CapabilityBinding")
  else
    _ ← reject_blank "CapabilityBinding" [(binding_id self, "binding_id"%string);
          (cb_capability_id self, "capability_id"%string); (cb_tool_impl_id self, "tool_impl_id"%string);
          (resource_resolver self, "resource_resolver"%string); (effect_resolver self, "effect_resolver"%string);
          (authority_mapper self, "authority_mapper"%string);
          (health_requirement self, "health_requirement"%string);
          (cb_native_schema_hash self, "native_schema_hash"%string)];
    mret self.

Record CapabilityCard := mkCapabilityCard {
  card_capability_id : string;
  card_contract_revision : Z;
  card_action : string;
  card_purpose : string;
  card_applicable_resource_types : list string;
  card_observation_semantics : string;
  card_effect_semantics : EffectSemantics;
  card_authority_semantics : list string;
  card_limitations : list string;
  card_risk_class : string;
  card_cost_class : string;
  card_latency_class : string
}.

Record CapabilitySchemaView := mkCapabilitySchemaView {
  csv_capability_id : string;
  csv_contract_revision : Z;
  csv_canonical_input_schema : jdict;
  csv_canonical_output_schema : jdict;
  csv_relevant_preconditions : list string;
  csv_failure_semantics : list string;
  csv_obligation_hints : list string
}.

Record CapabilityRequest := mkCapabilityRequest {
  rq_request_id : string;
  rq_task_contract_id : string;
  rq_task_run_id : string;
  rq_case_id : option string;
  rq_principal : string;
  rq_capability_id : string;
  rq_contract_revision : Z;
  rq_action : string;
  rq_resource : string;
  rq_resource_type : string;
  canonical_arguments : jdict;
  intended_effect : EffectSemantics;
  evidence_purpose : option string;
  execution_context : jdict
}.

Record InvocationPlan := mkInvocationPlan {
  ip_invocation_plan_id : string;
  capability_request_ref : string;
  ip_binding_id : string;
  ip_binding_revision : Z;
  resolved_resource : string;
  resolved_effect : EffectSemantics;
  canonical_arguments_digest : string;
  native_arguments_ref : string;
  ip_execution_class : ExecutionClass;
  credential_requirement : string;
  network_requirement : string;
  sandbox_requirement : string;
  ip_deadline_at : datetime;
  budget_reservation_ref : string
}.

(** [InvocationPlan.validate_deadline] *)
Definition validate_deadline (self : InvocationPlan) : result InvocationPlan :=
  if negb (dt_aware (ip_deadline_at self))
  then Err (ValueError "InvocationPlan deadline_at must be timezone-aware") else Ok self.

Record CapabilityInvocation := mkCapabilityInvocation {
  ci_invocation_id : string;
  ci_invocation_plan_id : string;
  ci_policy_decision_ref : string;
  ci_credential_grant_ref : option string;
  ci_network_grant_ref : option string;
  ci_sandbox_instance_ref : option string;
  ci_started_at : Z
}.

Inductive CapabilityResultStatus := RS_SUCCEEDED | RS_PARTIAL | RS_FAILED | RS_BLOCKED | RS_TIMED_OUT.
#[export] Instance CapabilityResultStatus_eq_dec : EqDecision CapabilityResultStatus.
Proof. solve_decision. Defined.
Definition CapabilityResultStatus_value (s : CapabilityResultStatus) : string :=
  match s with
  | RS_SUCCEEDED => "succeeded" | RS_PARTIAL => "partial" | RS_FAILED => "failed" | RS_BLOCKED => "blocked"
  | RS_TIMED_OUT => "timed_out"
  end.

Record CapabilityResult := mkCapabilityResult {
  cr_invocation_id : string;
  cr_status : CapabilityResultStatus;
  canonical_output_ref : option string;
  raw_artifact_ref : option string;
  effect_receipt_ref : option string;
  observation_class : string;
  cr_provenance : jdict;
  cr_latency : jdict;
  cr_cost : jdict;
  failure_code : option string;
  failure_detail : option string
}.

Record CapabilityDescriptor := mkCapabilityDescriptor {
  purpose : string; limitations : list string; obligation_hints : list string }.

Definition capability_visible_for_task (task : TaskContract) (capability : CapabilityContract) : bool :=
  effect_within_ceiling (required_effect_ceiling capability) (effect_ceiling task).

Definition validate_capability_request (task : TaskContract) (capability : CapabilityContract)
  (request : CapabilityRequest) : list string :=
  (if bool_decide (rq_task_contract_id request ≠ tc_id task) then ["task_contract_mismatch"%string] else [])
  ++ (if bool_decide (rq_principal request ≠ tc_principal task) then ["principal_mismatch"%string] else [])
  ++ (if bool_decide (rq_capability_id request ≠ cc_capability_id capability)
      then ["capability_id_mismatch"%string] else [])
  ++ (if negb (rq_contract_revision request =? cc_contract_revision capability)
      then ["capability_revision_mismatch"%string] else [])
  ++ (if bool_decide (rq_action request ≠ cc_action capability) then ["action_mismatch"%string] else [])
  ++ (if bool_decide (rq_resource_type request ∉ applicable_resource_types capability)
      then ["resource_type_not_applicable"%string] else [])
  ++ (if bool_decide (intended_effect request ≠ effect_semantics capability)
      then ["intended_effect_mismatch"%string] else [])
  ++ (if negb (capability_visible_for_task task capability) then ["exceeds_task_effect_ceiling"%string] else []).

Section schema_hash.
(** [_json_hash]: sha256 of the canonical JSON text. *)
Context (json_hash : json → string).

Definition native_schema_hash (input_schema output_schema : jdict) : string :=
  json_hash (JObj [("input"%string, JObj input_schema); ("output"%string, JObj output_schema)]).
Definition arguments_digest (arguments : jdict) : string := json_hash (JObj arguments).

(** [ToolImplementation.validate_implementation], after the [ge=1] of the revision. *)
Definition validate_implementation (self : ToolImplementation) : result ToolImplementation :=
  if implementation_revision self <? 1 then Err (ValueError "Input should be greater than or equal to 1")
  else
    _ ← reject_blank "ToolImplementation" [(tool_impl_id self, "tool_impl_id"%string);
          (native_name self, "native_name"%string); (transport self, "transport"%string);
          (health_ref self, "health_ref"%string); (ti_native_schema_hash self, "native_schema_hash"%string)];
    if bool_decide (ti_native_schema_hash self ≠
                    native_schema_hash (native_input_schema self) (native_output_schema self))
    then Err (ValueError "ToolImplementation native_schema_hash does not match native schemas")
    else Ok self.
End schema_hash.

(** ** registry.py *)

Record VisibleCapabilitySet := mkVisibleCapabilitySet {
  registry_revision : string;
  cards : list CapabilityCard;
  hidden_reasons : list (string * list string)
}.

Record CapabilityRegistry := mkCapabilityRegistry {
  reg_revision : string;
  reg_contracts : gmap (string * Z) CapabilityContract;
  reg_descriptors : gmap string CapabilityDescriptor;
  reg_implementations : gmap (string * Z) ToolImplementation;
  reg_bindings : list CapabilityBinding
}.

Definition contract_key (c : CapabilityContract) : string * Z := (cc_capability_id c, cc_contract_revision c).
Definition implementation_key (i : ToolImplementation) : string * Z := (tool_impl_id i, implementation_revision i).

(** [CapabilityRegistry.contract], [CapabilityRegistry.implementation] *)
Definition registry_contract (reg : CapabilityRegistry) (capability_id : string) (revision : Z)
  : result CapabilityContract :=
  match reg_contracts reg !! (capability_id, revision) with
  | Some c => Ok c | None => Err (LookupError "capability contract not found" capability_id) end.
Definition registry_implementation (reg : CapabilityRegistry) (id : string) (revision : Z)
  : result ToolImplementation :=
  match reg_implementations reg !! (id, revision) with
  | Some i => Ok i | None => Err (LookupError "tool implementation not found" id) end.

(** [CapabilityRegistry._validate_registry]: the loop over the bindings. *)
Fixpoint validate_bindings (reg : CapabilityRegistry) (bindings : list CapabilityBinding) : result unit :=
  match bindings with
  | [] => Ok tt
  | b :: rest =>
      contract ← registry_contract reg (cb_capability_id b) (cb_contract_revision b);
      impl ← registry_implementation reg (cb_tool_impl_id b) (cb_implementation_revision b);
      _ ← raise_when (bool_decide (cb_native_schema_hash b ≠ ti_native_schema_hash impl))
            (ValueError "stale CapabilityBinding: native schema hash mismatch");
      _ ← raise_when (bool_decide (cc_capability_id contract ≠ cb_capability_id b))
            (ValueError "binding capability mismatch");
      validate_bindings reg rest
  end.
Definition validate_registry (reg : CapabilityRegistry) : result unit :=
  _ ← raise_when (existsb (λ k, bool_decide (reg_descriptors reg !! k.1 = None)) (map_to_list (reg_contracts reg)).*1)
        (ValueError "capability descriptor missing");
  validate_bindings reg (reg_bindings reg).

(** [CapabilityRegistry.__init__] *)
Definition make_registry (revision : string) (contracts : list CapabilityContract)
  (descriptors : gmap string CapabilityDescriptor) (implementations : list ToolImplementation)
  (bindings : list CapabilityBinding) : result CapabilityRegistry :=
  if py_blank revision then Err (ValueError "capability registry revision cannot be empty")
  else
    let reg := mkCapabilityRegistry revision (dict_by contract_key contracts) descriptors
                 (dict_by implementation_key implementations) bindings in
    _ ← validate_registry reg; Ok reg.

(** [CapabilityRegistry.combine]: a later registry's descriptor replaces an earlier one's. *)
Definition combine_registries (revision : string) (registries : list CapabilityRegistry)
  : result CapabilityRegistry :=
  let contracts := mjoin ((λ r, (map_to_list (reg_contracts r)).*2) <$> registries) in
  let implementations := mjoin ((λ r, (map_to_list (reg_implementations r)).*2) <$> registries) in
  if bool_decide (¬ NoDup (contract_key <$> contracts))
  then Err (ValueError "combined capability registry contains duplicate contracts")
  else if bool_decide (¬ NoDup (implementation_key <$> implementations))
  then Err (ValueError "combined capability registry contains duplicate implementations")
  else make_registry revision contracts (foldl (λ d r, reg_descriptors r ∪ d) ∅ registries) implementations
         (mjoin (reg_bindings <$> registries)).

Definition schema_view (reg : CapabilityRegistry) (capability_id : string) (revision : Z)
  : result CapabilitySchemaView :=
  contract ← registry_contract reg capability_id revision;
  match reg_descriptors reg !! capability_id with
  | None => Err (LookupError "KeyError" capability_id)
  | Some d =>
      Ok (mkCapabilitySchemaView (cc_capability_id contract) (cc_contract_revision contract)
            (canonical_input_schema contract) (canonical_output_schema contract) (preconditions contract)
            (failure_semantics contract) (obligation_hints d))
  end.

(** The order of [_eligible_bindings]. *)
Definition binding_le (b1 b2 : CapabilityBinding) : Prop :=
  fallback_rank b1 < fallback_rank b2 ∨
  fallback_rank b1 = fallback_rank b2 ∧ String.le (binding_id b1) (binding_id b2).
#[export] Instance binding_le_dec : RelDecision binding_le.
Proof. intros b1 b2. unfold binding_le. apply _. Defined.

(** The body of the loop of [_eligible_bindings]. *)
Definition is_eligible (reg : CapabilityRegistry) (contract : CapabilityContract)
  (healthy_refs : option (gset string)) (available : option (list ExecutionClass)) (b : CapabilityBinding)
  : result bool :=
  if bool_decide (cb_capability_id b ≠ cc_capability_id contract)
     || negb (cb_contract_revision b =? cc_contract_revision contract) then Ok false
  else
    impl ← registry_implementation reg (cb_tool_impl_id b) (cb_implementation_revision b);
    Ok (bool_decide (cb_native_schema_hash b = ti_native_schema_hash impl)
        && match healthy_refs with Some h => bool_decide (health_ref impl ∈ h) | None => true end
        && match available with Some l => bool_decide (execution_class b ∈ l) | None => true end).

Fixpoint filter_result {A} (p : A → result bool) (l : list A) : result (list A) :=
  match l with
  | [] => Ok []
  | x :: l' => keep ← p x; rest ← filter_result p l'; Ok (if keep : bool then x :: rest else rest)
  end.

Definition eligible_bindings (reg : CapabilityRegistry) (contract : CapabilityContract)
  (healthy_refs : option (gset string)) (available : option (list ExecutionClass))
  : result (list CapabilityBinding) :=
  l ← filter_result (is_eligible reg contract healthy_refs available) (reg_bindings reg);
  Ok (py_sorted binding_le l).

Definition resolve_binding (reg : CapabilityRegistry) (contract : CapabilityContract)
  (healthy_refs : option (gset string)) (available : option (list ExecutionClass))
  : result (CapabilityBinding * ToolImplementation) :=
  bindings ← eligible_bindings reg contract healthy_refs available;
  match bindings with
  | [] => Err (LookupError "no healthy capability binding" (cc_capability_id contract))
  | binding :: _ =>
      implementation ← registry_implementation reg (cb_tool_impl_id binding) (cb_implementation_revision binding);
      if bool_decide (cb_native_schema_hash binding ≠ ti_native_schema_hash implementation)
      then Err (RuntimeError "capability binding is stale after native schema change")
      else Ok (binding, implementation)
  end.

(** The order in which [visible_capabilities] goes through the contracts. *)
Definition contract_le (c1 c2 : CapabilityContract) : Prop :=
  cc_capability_id c1 ≠ cc_capability_id c2 ∧ String.le (cc_capability_id c1) (cc_capability_id c2) ∨
  cc_capability_id c1 = cc_capability_id c2 ∧ cc_contract_revision c1 ≤ cc_contract_revision c2.
#[export] Instance contract_le_dec : RelDecision contract_le.
Proof. intros c1 c2. unfold contract_le. apply _. Defined.

Definition visibility_request (task : TaskContract) (task_run_id : string) (contract : CapabilityContract)
  : PolicyRequest :=
  mkPolicyRequest CAPABILITY_VISIBILITY (tc_principal task) (cc_action contract)
    ("capability:" +:+ cc_capability_id contract)
    [("task_contract_id"%string, JStr (tc_id task)); ("task_run_id"%string, JStr task_run_id);
     ("capability_id"%string, JStr (cc_capability_id contract))].

(** The loop body of [visible_capabilities]: the reasons to hide a contract, or its card. *)
Definition visibility (reg : CapabilityRegistry) (task : TaskContract) (task_run_id : string)
  (policy_engine : StaticPolicyEngine) (scope : option (gset string)) (healthy_refs : option (gset string))
  (available : option (list ExecutionClass)) (satisfiable : gset string) (contract : CapabilityContract)
  : result (list string + CapabilityCard) :=
  eligible ← eligible_bindings reg contract healthy_refs available;
  request ← validate_request (visibility_request task task_run_id contract);
  let decision := evaluate policy_engine request in
  let reasons :=
    (if match scope with Some s => bool_decide (cc_capability_id contract ∉ s) | None => false end
     then ["outside_execution_capability_scope"%string] else [])
    ++ (if negb (capability_visible_for_task task contract) then ["exceeds_task_effect_ceiling"%string] else [])
    ++ (if bool_decide (eligible = []) then ["no_healthy_binding"%string] else [])
    ++ (if bool_decide (authorization decision ≠ PERMIT) then ["visibility_policy_denied"%string]
        else if negb (obligations_satisfied decision satisfiable) then ["visibility_obligation_unsatisfied"%string]
        else []) in
  match reasons, eligible with
  | [], chosen :: _ =>
      match reg_descriptors reg !! cc_capability_id contract with
      | None => Err (LookupError "KeyError" (cc_capability_id contract))
      | Some d =>
          Ok (inr (mkCapabilityCard (cc_capability_id contract) (cc_contract_revision contract)
                (cc_action contract) (purpose d) (applicable_resource_types contract)
                (observation_semantics contract) (effect_semantics contract) (authority_semantics contract)
                (limitations d) (risk_class contract) (cost_class chosen) (latency_class chosen)))
      end
  | _, _ => Ok (inl (sorted_set reasons))
  end.

Fixpoint visible_loop (view : CapabilityContract → result (list string + CapabilityCard))
  (contracts : list CapabilityContract) (acc : VisibleCapabilitySet) : result VisibleCapabilitySet :=
  match contracts with
  | [] => Ok acc
  | c :: rest =>
      v ← view c;
      visible_loop view rest
        match v with
        | inl reasons =>
            mkVisibleCapabilitySet (registry_revision acc) (cards acc)
              (dict_set (cc_capability_id c +:+ "@" +:+ str_of_Z (cc_contract_revision c)) reasons
                 (hidden_reasons acc))
        | inr card => mkVisibleCapabilitySet (registry_revision acc) (cards acc ++ [card]) (hidden_reasons acc)
        end
  end.

Definition visible_capabilities (reg : CapabilityRegistry) (task : TaskContract) (task_run_id : string)
  (policy_engine : StaticPolicyEngine) (scope healthy_refs : option (gset string))
  (available : option (list ExecutionClass)) (satisfiable : gset string) : result VisibleCapabilitySet :=
  visible_loop (visibility reg task task_run_id policy_engine scope healthy_refs available satisfiable)
    (merge_sort contract_le (map_to_list (reg_contracts reg)).*2)
    (mkVisibleCapabilitySet (reg_revision reg) [] []).

(** ** observations.py *)

Record EphemeralObservation := mkEphemeralObservation {
  eo_observation_id : string;
  eo_request_id : string;
  eo_capability_id : string;
  eo_source : string;
  eo_provenance : jdict;
  eo_observed_at : Z;
  raw_result_ref : string;
  extracted_candidates : list json;
  trust_label : string;
  ttl_seconds : Z
}.

(** [EphemeralObservation.validate_observation], after the [gt=0] of the time to live. *)
Definition validate_observation (self : EphemeralObservation) : result EphemeralObservation :=
  if ttl_seconds self <=? 0 then Err (ValueError "Input should be greater than 0")
  else
    _ ← reject_blank "EphemeralObservation" [(eo_observation_id self, "observation_id"%string);
          (eo_request_id self, "request_id"%string); (eo_capability_id self, "capability_id"%string);
          (eo_source self, "source"%string); (raw_result_ref self, "raw_result_ref"%string);
          (trust_label self, "trust_label"%string)];
    mret self.

(** ** broker.py *)

Record NativeExecutionResult := mkNativeExecutionResult {
  nr_status : CapabilityResultStatus;
  nr_canonical_output_ref : option string;
  nr_raw_artifact_ref : option string;
  nr_effect_receipt_ref : option string;
  nr_observation_class : string;
  nr_provenance : jdict;
  nr_latency : jdict;
  nr_cost : jdict;
  consumed_budget : gmap string Z;
  nr_failure_code : option string;
  nr_failure_detail : option string;
  nr_extracted_candidates : list json;
  nr_trust_label : string;
  observation_ttl_seconds : Z
}.

Record InvocationGrants := mkInvocationGrants {
  fulfilled_obligation_kinds : gset string;
  credential_grant_ref : option string;
  network_grant_ref : option string;
  sandbox_instance_ref : option string
}.

Record CapabilityInvocationOutcome := mkCapabilityInvocationOutcome {
  co_invocation : CapabilityInvocation;
  co_plan : InvocationPlan;
  co_policy_decision : PolicyDecision;
  co_result : CapabilityResult;
  co_observation : option EphemeralObservation;
  co_replay : bool
}.

(** The table [capability_invocations]; the JSON columns hold the objects. *)
Record CapabilityInvocationModel := mkCapabilityInvocationModel {
  iv_invocation_id : string;
  iv_task_run_id : string;
  iv_case_id : option string;
  iv_request_id : string;
  iv_capability_id : string;
  iv_contract_revision : Z;
  iv_binding_id : string;
  iv_binding_revision : Z;
  iv_tool_impl_id : string;
  iv_implementation_revision : Z;
  request_json : CapabilityRequest;
  plan_json : InvocationPlan;
  iv_policy_decision_ref : string;
  policy_decision_json : PolicyDecision;
  iv_arguments_digest : string;
  result_json : option CapabilityResult;
  observation_json : option EphemeralObservation;
  iv_status : string;
  iv_started_at : Z;
  iv_finished_at : option Z;
  iv_failure_code : option string;
  iv_failure_detail : option string
}.

(** A call to a tool: what was called, with which arguments and which timeout (microseconds). *)
Record ExecutorCall := mkExecutorCall {
  call_implementation : ToolImplementation;
  call_arguments : jdict;
  call_timeout : Z
}.

Record BrokerStore := mkBrokerStore {
  bs_budget : BudgetDB;
  bs_invocations : list CapabilityInvocationModel;
  bs_executed : list ExecutorCall
}.

Definition set_bs_budget (db : BudgetDB) (s : BrokerStore) : BrokerStore :=
  mkBrokerStore db (bs_invocations s) (bs_executed s).
Definition set_bs_invocations (l : list CapabilityInvocationModel) (s : BrokerStore) : BrokerStore :=
  mkBrokerStore (bs_budget s) l (bs_executed s).

#[export] Program Instance broker_budget : Embeds BrokerStore BudgetDB := {|
  view := bs_budget; set_view := set_bs_budget |}.
Solve Obligations with by intros; repeat match goal with s : BrokerStore |- _ => destruct s end.

Definition denied_with (why : string) : exn := OtherException "CapabilityDenied" why.

(** [_map_native_arguments] *)
Definition map_native_arguments (canonical : jdict) (mapping : list (string * string)) : jdict :=
  foldl (λ r kv, dict_set (default kv.1 (dict_get kv.1 mapping)) kv.2 r) [] canonical.

Definition find_invocation (task_run_id request_id : string) (s : BrokerStore) : option CapabilityInvocationModel :=
  find (λ m, bool_decide (iv_task_run_id m = task_run_id) && bool_decide (iv_request_id m = request_id))
    (bs_invocations s).

(** [_replay_outcome] *)
Definition replay_outcome (model : CapabilityInvocationModel) : result CapabilityInvocationOutcome :=
  match result_json model, iv_finished_at model with
  | Some res, Some _ =>
      Ok (mkCapabilityInvocationOutcome
            (mkCapabilityInvocation (iv_invocation_id model) (ip_invocation_plan_id (plan_json model))
               (iv_policy_decision_ref model) None None None (iv_started_at model))
            (plan_json model) (policy_decision_json model) res (observation_json model) true)
  | _, _ => Err (RuntimeError "capability invocation is already running and cannot be replayed yet")
  end.

(** [_finish_audit] *)
Definition finish_audit (res : CapabilityResult) (observation : option EphemeralObservation) (finished_at : Z)
  (m : CapabilityInvocationModel) : CapabilityInvocationModel :=
  mkCapabilityInvocationModel (iv_invocation_id m) (iv_task_run_id m) (iv_case_id m) (iv_request_id m)
    (iv_capability_id m) (iv_contract_revision m) (iv_binding_id m) (iv_binding_revision m) (iv_tool_impl_id m)
    (iv_implementation_revision m) (request_json m) (plan_json m) (iv_policy_decision_ref m)
    (policy_decision_json m) (iv_arguments_digest m) (Some res) observation
    (CapabilityResultStatus_value (cr_status res)) (iv_started_at m) (Some finished_at) (failure_code res)
    (failure_detail res).

(** The instants the broker and the budget governor read, in this order. *)
Record InvocationClock := mkInvocationClock {
  checked_at : Z; reserved_at : Z; started_at : Z; committed_at : Z; observed_at : Z; finished_at : Z }.

Section broker.
Context (json_hash : json → string) (uuid5_url : string → string)
  (hexdigest : PolicyRequest → PolicyDecision → string).

(** The checks of [invoke] on the execution envelope. *)
Definition check_envelope (policy : StaticPolicyEngine) (envelope : ExecutionEnvelope)
  (request : CapabilityRequest) (now : Z) : result unit :=
  if bool_decide (ee_task_run_id envelope ≠ rq_task_run_id request)
  then Err (denied_with "execution_envelope_task_run_mismatch")
  else if bool_decide (ee_task_contract_id envelope ≠ rq_task_contract_id request)
  then Err (denied_with "execution_envelope_task_contract_mismatch")
  else if bool_decide (ee_case_id envelope ≠ rq_case_id request)
  then Err (denied_with "execution_envelope_case_mismatch")
  else if bool_decide (ee_policy_revision envelope ≠ engine_revision policy)
  then Err (denied_with "execution_envelope_policy_revision_mismatch")
  else if bool_decide (rq_capability_id request ∉ capability_scope envelope)
  then Err (denied_with "capability_outside_execution_envelope_scope")
  else if negb (dt_aware (deadline_at envelope))
  then Err (TypeError "can't compare offset-naive and offset-aware datetimes")
  else if now >=? dt_us (deadline_at envelope) then Err (denied_with "execution_deadline_reached")
  else Ok tt.

Definition invocation_policy_request (envelope : ExecutionEnvelope) (request : CapabilityRequest)
  : PolicyRequest :=
  mkPolicyRequest CAPABILITY_INVOCATION (rq_principal request) (rq_action request) (rq_resource request)
    [("task_contract_id"%string, JStr (rq_task_contract_id request));
     ("task_run_id"%string, JStr (rq_task_run_id request));
     ("capability_id"%string, JStr (rq_capability_id request));
     ("arguments_digest"%string, JStr (arguments_digest json_hash (canonical_arguments request)));
     ("intended_effect"%string, JStr (EffectSemantics_value (intended_effect request)));
     ("evidence_purpose"%string, match evidence_purpose request with Some p => JStr p | None => JNull end);
     ("budget_ref"%string, JStr (ee_budget_ref envelope))].

(** The kinds of the constraints and obligations of a decision, and those a caller did not fulfil. *)
Definition required_grants (decision : PolicyDecision) : list string :=
  po_kind <$> constraints decision ++ obligations decision.
Definition missing_grants (decision : PolicyDecision) (grants : InvocationGrants) : list string :=
  sorted_set (filter (λ k, k ∉ fulfilled_obligation_kinds grants) (required_grants decision)).

Definition check_policy (decision : PolicyDecision) (grants : InvocationGrants) : result unit :=
  if bool_decide (authorization decision ≠ PERMIT)
  then Err (denied_with (match authorization decision with
                         | PERMIT => "policy_permit" | DENY => "policy_deny" | INDETERMINATE => "policy_indeterminate"
                         end))
  else if bool_decide (missing_grants decision grants ≠ [])
  then Err (denied_with ("policy_obligation_unsatisfied:" +:+ String.concat "," (missing_grants decision grants)))
  else Ok tt.

Definition reservation_group (request : CapabilityRequest) : string :=
  "capability:" +:+ rq_task_run_id request +:+ ":" +:+ rq_request_id request.

Definition plan_of (envelope : ExecutionEnvelope) (request : CapabilityRequest) (contract : CapabilityContract)
  (binding : CapabilityBinding) : InvocationPlan :=
  let digest := arguments_digest json_hash (canonical_arguments request) in
  mkInvocationPlan
    (stable_id uuid5_url ("invocation-plan:" +:+ rq_task_run_id request +:+ ":" +:+ rq_request_id request
                            +:+ ":" +:+ binding_id binding))
    ("capability-request:" +:+ rq_request_id request) (binding_id binding) (binding_revision binding)
    (rq_resource request) (effect_semantics contract) digest
    ("native-args:" +:+ rq_request_id request +:+ ":" +:+ str_take 24 digest)
    (execution_class binding) (credential_profile binding) (network_profile binding) (sandbox_profile binding)
    (deadline_at envelope) ("budget-reservation:" +:+ reservation_group request).

Definition invocation_id_of (request : CapabilityRequest) : string :=
  stable_id uuid5_url ("capability-invocation:" +:+ rq_task_run_id request +:+ ":" +:+ rq_request_id request).

(** The row of a running invocation. *)
Definition new_invocation (request : CapabilityRequest) (contract : CapabilityContract)
  (binding : CapabilityBinding) (implementation : ToolImplementation) (plan : InvocationPlan)
  (decision_ref : string) (decision : PolicyDecision) (started : Z) : CapabilityInvocationModel :=
  mkCapabilityInvocationModel (invocation_id_of request) (rq_task_run_id request) (rq_case_id request)
    (rq_request_id request) (cc_capability_id contract) (cc_contract_revision contract) (binding_id binding)
    (binding_revision binding) (tool_impl_id implementation) (implementation_revision implementation) request plan
    decision_ref decision (arguments_digest json_hash (canonical_arguments request)) None None "running" started
    None None None.

Definition add_invocation (row : CapabilityInvocationModel) : prog BrokerStore unit :=
  s ← get_store;
  check (existsb (λ m, bool_decide (iv_invocation_id m = iv_invocation_id row)
                       || bool_decide (iv_task_run_id m = iv_task_run_id row)
                          && bool_decide (iv_request_id m = iv_request_id row)) (bs_invocations s))
    (IntegrityError "capability_invocations");;
  modify (λ s, set_bs_invocations (bs_invocations s ++ [row]) s).

(** Assignments to the row object of an invocation. *)
Definition update_invocation (id : string) (f : CapabilityInvocationModel → CapabilityInvocationModel)
  : prog BrokerStore unit :=
  modify (λ s, set_bs_invocations
    (update_where (λ m, bool_decide (iv_invocation_id m = id)) f (bs_invocations s)) s).

(** [_ephemeral_observation] *)
Definition ephemeral_observation (request : CapabilityRequest) (implementation : ToolImplementation)
  (res : CapabilityResult) (native_result : NativeExecutionResult) (observed : Z)
  : result (option EphemeralObservation) :=
  if bool_decide (cr_status res ∉ [RS_SUCCEEDED; RS_PARTIAL]) then Ok None
  else
    match (if falsy (raw_artifact_ref res) then canonical_output_ref res else raw_artifact_ref res) with
    | None => Ok None
    | Some raw_ref =>
        o ← validate_observation (mkEphemeralObservation
              (stable_id uuid5_url ("ephemeral-observation:" +:+ rq_task_run_id request +:+ ":" +:+ rq_request_id request))
              (rq_request_id request) (rq_capability_id request)
              ("tool:" +:+ tool_impl_id implementation +:+ "@" +:+ str_of_Z (implementation_revision implementation))
              (foldl (λ d kv, dict_set kv.1 kv.2 d)
                 [("implementation_kind"%string, JStr (ImplementationKind_value (implementation_kind implementation)));
                  ("server_identity"%string, match server_identity implementation with
                                             | Some i => JStr i | None => JNull end)]
                 (nr_provenance native_result))
              observed raw_ref (nr_extracted_candidates native_result) "untrusted_tool_output"
              (observation_ttl_seconds native_result));
        Ok (Some o)
    end.

(** A tool: its answer, or the exception it raises, for one call. *)
Abbreviation CapabilityExecutor := (ToolImplementation → jdict → Z → result NativeExecutionResult).

Definition call_executor (executor : CapabilityExecutor) (call : ExecutorCall)
  : prog BrokerStore (result NativeExecutionResult) :=
  modify (λ s, mkBrokerStore (bs_budget s) (bs_invocations s) (bs_executed s ++ [call]));;
  mret (executor (call_implementation call) (call_arguments call) (call_timeout call)).

Definition result_of (invocation_id : string) (n : NativeExecutionResult) : CapabilityResult :=
  mkCapabilityResult invocation_id (nr_status n) (nr_canonical_output_ref n) (nr_raw_artifact_ref n)
    (nr_effect_receipt_ref n) (nr_observation_class n) (nr_provenance n) (nr_latency n) (nr_cost n)
    (nr_failure_code n) (nr_failure_detail n).
Definition failed_result (invocation_id : string) (exc : exn) : CapabilityResult :=
  mkCapabilityResult invocation_id RS_FAILED None None None "none" [] [] [] (Some "executor_exception"%string)
    (Some (type_name exc)).

(** What [invoke] does once the tool has answered. *)
Definition settle (envelope : ExecutionEnvelope) (request : CapabilityRequest) (implementation : ToolImplementation)
  (estimated_budget : list (string * Z)) (clock : InvocationClock) (answer : result NativeExecutionResult)
  : prog BrokerStore (CapabilityResult * option EphemeralObservation) :=
  let id := invocation_id_of request in
  match answer with
  | Err exc =>
      zoom (commit (committed_at clock) (ee_budget_ref envelope) (reservation_group request)
              (dict_of estimated_budget) false);;
      update_invocation id (finish_audit (failed_result id exc) None (observed_at clock));;
      mret (failed_result id exc, None)
  | Ok native_result =>
      zoom (commit (committed_at clock) (ee_budget_ref envelope) (reservation_group request)
              (consumed_budget native_result) false);;
      let res := result_of id native_result in
      observation ← lift (ephemeral_observation request implementation res native_result (observed_at clock));
      update_invocation id (finish_audit res observation (finished_at clock));;
      mret (res, observation)
  end.

(** [CapabilityBroker.invoke] *)
Definition invoke (registry : CapabilityRegistry) (policy : StaticPolicyEngine) (task : TaskContract)
  (envelope : ExecutionEnvelope) (request : CapabilityRequest) (executor : CapabilityExecutor)
  (estimated_budget : list (string * Z)) (grants : InvocationGrants) (healthy_refs : option (gset string))
  (available : option (list ExecutionClass)) (action_timeout : Z) (clock : InvocationClock)
  : prog BrokerStore CapabilityInvocationOutcome :=
  s ← get_store;
  match find_invocation (rq_task_run_id request) (rq_request_id request) s with
  | Some existing => lift (replay_outcome existing)
  | None =>
      lift (check_envelope policy envelope request (checked_at clock));;
      contract ← lift (registry_contract registry (rq_capability_id request) (rq_contract_revision request));
      check (bool_decide (validate_capability_request task contract request ≠ []))
        (denied_with (String.concat "," (merge_sort String.le (validate_capability_request task contract request))));;
      resolved ← lift (resolve_binding registry contract healthy_refs available);
      let binding := resolved.1 in
      let implementation := resolved.2 in
      let native_arguments := map_native_arguments (canonical_arguments request) (canonical_to_native_args binding) in
      policy_request ← lift (validate_request (invocation_policy_request envelope request));
      let decision := evaluate policy policy_request in
      lift (check_policy decision grants);;
      zoom (reserve uuid5_url (reserved_at clock) (ee_budget_ref envelope) (reservation_group request)
              estimated_budget None);;
      plan ← lift (validate_deadline (plan_of envelope request contract binding));
      let policy_decision_ref := decision_ref hexdigest policy policy_request decision in
      let invocation := mkCapabilityInvocation (invocation_id_of request) (ip_invocation_plan_id plan)
                          policy_decision_ref (credential_grant_ref grants) (network_grant_ref grants)
                          (sandbox_instance_ref grants) (started_at clock) in
      add_invocation (new_invocation request contract binding implementation plan policy_decision_ref decision
                        (started_at clock));;
      timeout ← lift (bounded_timeout_seconds envelope (mkDatetime (started_at clock) true) action_timeout);
      answer ← call_executor executor (mkExecutorCall implementation native_arguments timeout);
      settled ← settle envelope request implementation estimated_budget clock answer;
      mret (mkCapabilityInvocationOutcome invocation plan decision settled.1 settled.2 false)
  end.

(** The transaction of a caller: an exception undoes the rows, not the calls to tools. *)
Definition transaction {A} (m : prog BrokerStore A) : prog BrokerStore A := λ s,
  match m s with
  | (Ok a, s') => (Ok a, s')
  | (Err e, s') => (Err e, mkBrokerStore (bs_budget s) (bs_invocations s) (bs_executed s'))
  end.
End broker.

(** ** The registry *)

(** What the constructor has checked. *)
Record registry_wf (reg : CapabilityRegistry) : Prop := {
  rw_contract : ∀ k c, reg_contracts reg !! k = Some c → contract_key c = k ∧ is_Some (reg_descriptors reg !! k.1);
  rw_implementation : ∀ k i, reg_implementations reg !! k = Some i → implementation_key i = k;
  rw_binding : ∀ b, b ∈ reg_bindings reg → ∃ c i,
    reg_contracts reg !! (cb_capability_id b, cb_contract_revision b) = Some c ∧
    reg_implementations reg !! (cb_tool_impl_id b, cb_implementation_revision b) = Some i ∧
    cb_native_schema_hash b = ti_native_schema_hash i
}.

Lemma validate_bindings_Ok reg l u b :
  validate_bindings reg l = Ok u → b ∈ l → ∃ c i,
    reg_contracts reg !! (cb_capability_id b, cb_contract_revision b) = Some c ∧
    reg_implementations reg !! (cb_tool_impl_id b, cb_implementation_revision b) = Some i ∧
    cb_native_schema_hash b = ti_native_schema_hash i.
Proof.
  induction l as [|b' l IH]; intros H Hb; [by apply not_elem_of_nil in Hb|]. cbn [validate_bindings] in H.
  apply result_bind_Ok in H as (c&Hc&H). apply result_bind_Ok in H as (i&Hi&H).
  apply result_bind_Ok in H as (u1&H1%raise_when_Ok&H). apply result_bind_Ok in H as (u2&_&H).
  apply elem_of_cons in Hb as [->|Hb]; [|by apply IH]. exists c, i.
  unfold registry_contract in Hc. unfold registry_implementation in Hi.
  destruct (reg_contracts reg !! _); [|done]. destruct (reg_implementations reg !! _); [|done].
  injection Hc as ->. injection Hi as ->. split; [done|]. split; [done|].
  by apply bool_decide_eq_false, dec_stable in H1.
Qed.

Lemma make_registry_Ok revision contracts descriptors implementations bindings reg :
  make_registry revision contracts descriptors implementations bindings = Ok reg →
  registry_wf reg ∧ reg_revision reg = revision ∧ reg_bindings reg = bindings ∧ reg_descriptors reg = descriptors ∧
  reg_contracts reg = dict_by contract_key contracts ∧
  reg_implementations reg = dict_by implementation_key implementations.
Proof.
  unfold make_registry. destruct (py_blank revision); [done|]. cbv zeta. intros H.
  apply result_bind_Ok in H as (u&H&[= <-]). split; [|done]. unfold validate_registry in H.
  apply result_bind_Ok in H as (u1&H1%raise_when_Ok&H). split; simpl.
  - intros k c Hc. split; [by apply dict_by_lookup in Hc as [? _]|].
    destruct (descriptors !! k.1) eqn:Hd; [done|exfalso]. apply not_true_iff_false in H1. apply H1, existsb_exists.
    exists k. split; [|by apply bool_decide_eq_true_2]. apply list_elem_of_In, list_elem_of_fmap.
    exists (k, c). split; [done|]. by apply elem_of_map_to_list.
  - intros k i Hi. by apply dict_by_lookup in Hi as [? _].
  - intros b Hb. eapply validate_bindings_Ok in H; [|exact Hb]. exact H.
Qed.

Lemma validate_bindings_complete reg l :
  (∀ b, b ∈ l → ∃ c i, reg_contracts reg !! (cb_capability_id b, cb_contract_revision b) = Some c ∧
    reg_implementations reg !! (cb_tool_impl_id b, cb_implementation_revision b) = Some i ∧
    cb_native_schema_hash b = ti_native_schema_hash i ∧ cc_capability_id c = cb_capability_id b) →
  validate_bindings reg l = Ok tt.
Proof.
  induction l as [|b l IH]; intros Hl; [done|]. destruct (Hl b (list_elem_of_here _ _)) as (c&i&Hc&Hi&Hh&Hid).
  cbn [validate_bindings]. unfold registry_contract, registry_implementation. rewrite Hc, Hi. cbn [mbind result_bind].
  rewrite !bool_decide_eq_false_2 by (intros ?; done). cbn [mbind result_bind raise_when].
  apply IH. intros b' Hb'. apply Hl. by apply list_elem_of_further.
Qed.

(** A registry its constructor made. *)
Definition constructed (reg : CapabilityRegistry) : Prop :=
  ∃ revision contracts descriptors implementations bindings,
    make_registry revision contracts descriptors implementations bindings = Ok reg.

Lemma constructed_wf reg : constructed reg → registry_wf reg.
Proof. intros (?&?&?&?&?&[H _]%make_registry_Ok). done. Qed.

(** The values of the registries, in one dict. *)
Lemma joined_lookup {A} (key : A → string * Z) (f : CapabilityRegistry → gmap (string * Z) A) registries k x :
  (∀ r k x, r ∈ registries → f r !! k = Some x → key x = k) →
  NoDup (key <$> mjoin ((λ r, (map_to_list (f r)).*2) <$> registries)) →
  dict_by key (mjoin ((λ r, (map_to_list (f r)).*2) <$> registries)) !! k = Some x ↔
  ∃ r, r ∈ registries ∧ f r !! k = Some x.
Proof.
  intros Hkey Hnd. assert (∀ x, x ∈ mjoin ((λ r, (map_to_list (f r)).*2) <$> registries) ↔
    ∃ r, r ∈ registries ∧ f r !! key x = Some x) as Hin.
  { clear k x. intros x. rewrite list_elem_of_join. split.
    - intros (l&Hx&(r&->&Hr)%list_elem_of_fmap). apply list_elem_of_fmap in Hx as ([k x']&->&Hx%elem_of_map_to_list).
      exists r. split; [done|]. simpl. by rewrite (Hkey _ _ _ Hr Hx).
    - intros (r&Hr&Hx). exists ((map_to_list (f r)).*2). split; [|by apply (list_elem_of_fmap_2 (λ r, (map_to_list (f r)).*2))].
      apply list_elem_of_fmap. exists (key x, x). split; [done|]. by apply elem_of_map_to_list. }
  split.
  - intros [<- Hx%Hin]%dict_by_lookup. done.
  - intros (r&Hr&Hx). pose proof (Hkey _ _ _ Hr Hx) as Hk. rewrite <- Hk in *. apply dict_by_NoDup; [done|]. apply Hin.
    by exists r.
Qed.

Lemma joined_descriptors registries id (d : gmap string CapabilityDescriptor) :
  (is_Some (d !! id) ∨ ∃ r, r ∈ registries ∧ is_Some (reg_descriptors r !! id)) →
  is_Some (foldl (λ d r, reg_descriptors r ∪ d) d registries !! id).
Proof.
  revert d. induction registries as [|r registries IH]; intros d H; simpl.
  - by destruct H as [?|(r&?%not_elem_of_nil&_)].
  - apply IH. destruct H as [H|(r'&[->|Hr]%elem_of_cons&H)].
    + left. by apply lookup_union_is_Some; right.
    + left. by apply lookup_union_is_Some; left.
    + right. by exists r'.
Qed.

(** Combining registries that were constructed gives a registry that is well-formed, with exactly the
    contracts and implementations of its parts and their bindings in order; it raises only for a blank
    revision or a key that occurs twice, never for a dangling or stale reference. *)
Theorem combine_registries_wf revision registries :
  Forall constructed registries →
  match combine_registries revision registries with
  | Ok reg => registry_wf reg ∧ reg_revision reg = revision ∧
      (∀ k c, reg_contracts reg !! k = Some c ↔ ∃ r, r ∈ registries ∧ reg_contracts r !! k = Some c) ∧
      (∀ k i, reg_implementations reg !! k = Some i ↔ ∃ r, r ∈ registries ∧ reg_implementations r !! k = Some i) ∧
      reg_bindings reg = mjoin (reg_bindings <$> registries)
  | Err e =>
      e = ValueError "combined capability registry contains duplicate contracts" ∧
        ¬ NoDup (contract_key <$> mjoin ((λ r, (map_to_list (reg_contracts r)).*2) <$> registries)) ∨
      e = ValueError "combined capability registry contains duplicate implementations" ∧
        ¬ NoDup (implementation_key <$> mjoin ((λ r, (map_to_list (reg_implementations r)).*2) <$> registries)) ∨
      e = ValueError "capability registry revision cannot be empty" ∧ py_blank revision = true
  end.
Proof.
  intros Hall. assert (∀ r, r ∈ registries → registry_wf r) as Hwf.
  { intros r Hr. apply constructed_wf. by apply (proj1 (Forall_forall _ _) Hall). }
  unfold combine_registries. case_bool_decide as Hc; [by left|]. case_bool_decide as Hi; [by right; left|].
  pose proof (λ k c, joined_lookup contract_key reg_contracts registries k c
    ltac:(intros r k' x Hr Hx; by apply (rw_contract _ (Hwf r Hr)) in Hx as [? _]) Hc) as Hcs.
  pose proof (λ k i, joined_lookup implementation_key reg_implementations registries k i
    ltac:(intros r k' x Hr Hx; by apply (rw_implementation _ (Hwf r Hr)) in Hx) Hi) as His.
  destruct (make_registry _ _ _ _ _) as [reg|e] eqn:Hmake.
  - apply make_registry_Ok in Hmake as (H1&H2&H3&H4&H5&H6). rewrite H5, H6. done.
  - right; right. unfold make_registry in Hmake. destruct (py_blank revision); [by injection Hmake as <-|exfalso].
    cbv zeta in Hmake. set (reg := mkCapabilityRegistry _ _ _ _ _) in *.
    assert (validate_registry reg = Ok tt) as Hok; [|by rewrite Hok in Hmake]. unfold validate_registry.
    match goal with |- context [raise_when ?b _] => assert (b = false) as -> end.
    { apply not_true_iff_false. intros (k&Hk%list_elem_of_In&Hd%bool_decide_eq_true)%existsb_exists.
      apply list_elem_of_fmap in Hk as ([k' c]&->&Hk%elem_of_map_to_list). apply Hcs in Hk as (r&Hr&Hk).
      destruct (joined_descriptors registries k'.1 ∅) as [d Hd']; [|simpl in *; by rewrite Hd in Hd'].
      right. exists r. split; [done|]. by apply (rw_contract _ (Hwf r Hr)) in Hk as [_ ?]. }
    apply validate_bindings_complete. intros b Hb.
    apply list_elem_of_join in Hb as (l&Hb&(r&->&Hr)%list_elem_of_fmap).
    destruct (rw_binding _ (Hwf r Hr) b Hb) as (c&i&Hbc&Hbi&Hh). exists c, i.
    split; [apply Hcs; by exists r|]. split; [apply His; by exists r|]. split; [done|].
    destruct (rw_contract _ (Hwf r Hr) _ _ Hbc) as [Hk _]. by injection Hk.
Qed.

(** A binding serves a contract under the given health and execution classes. *)
Record eligible (reg : CapabilityRegistry) (contract : CapabilityContract) (healthy_refs : option (gset string))
    (available : option (list ExecutionClass)) (b : CapabilityBinding) : Prop := {
  el_binding : b ∈ reg_bindings reg;
  el_capability : cb_capability_id b = cc_capability_id contract;
  el_revision : cb_contract_revision b = cc_contract_revision contract;
  el_implementation : ∃ i, reg_implementations reg !! (cb_tool_impl_id b, cb_implementation_revision b) = Some i ∧
    cb_native_schema_hash b = ti_native_schema_hash i ∧ ∀ h, healthy_refs = Some h → health_ref i ∈ h;
  el_class : ∀ l, available = Some l → execution_class b ∈ l
}.

#[export] Instance binding_le_total : Total binding_le.
Proof.
  intros b1 b2. unfold binding_le. destruct (Z.lt_trichotomy (fallback_rank b1) (fallback_rank b2)) as [?|[E|?]];
    [by left; left| |by right; left]. destruct (total String.le (binding_id b1) (binding_id b2));
    [left|right]; right; by split.
Qed.
#[export] Instance binding_le_trans : Transitive binding_le.
Proof.
  intros b1 b2 b3. unfold binding_le. intros [?|[? ?]] [?|[? ?]]; [left; lia|left; lia|left; lia|].
  right. split; [lia|]. by etrans.
Qed.

Lemma filter_result_spec {A} (p : A → result bool) (P : A → Prop) l :
  (∀ x, x ∈ l → ∃ v, p x = Ok v ∧ (v = true ↔ P x)) →
  ∃ k, filter_result p l = Ok k ∧ ∀ x, x ∈ k ↔ x ∈ l ∧ P x.
Proof.
  induction l as [|x l IH]; intros Hp.
  { exists []. split; [done|]. intros x. split; [by intros ?%not_elem_of_nil|by intros [?%not_elem_of_nil _]]. }
  destruct IH as (k&Hk&Hin); [intros y Hy; apply Hp; by apply elem_of_cons; right|].
  destruct (Hp x (list_elem_of_here _ _)) as (v&Hv&Hx). simpl. rewrite Hv, Hk. simpl. eexists. split; [done|].
  intros y. rewrite elem_of_cons. destruct v.
  - rewrite elem_of_cons, Hin. split; [intros [->|[? ?]]|intros [[->|?] ?]]; [split; [by left|by apply Hx]|by split; [right|]|by left|by right].
  - rewrite Hin. split; [intros [? ?]; by split; [right|]|]. intros [[->|?] HP]; [|done]. by apply Hx in HP.
Qed.

Lemma eligible_bindings_spec reg contract h a :
  registry_wf reg → ∃ l, eligible_bindings reg contract h a = Ok l ∧ StronglySorted binding_le l ∧
    ∀ b, b ∈ l ↔ eligible reg contract h a b.
Proof.
  intros Hwf.
  destruct (filter_result_spec (is_eligible reg contract h a) (eligible reg contract h a) (reg_bindings reg))
    as (k&Hk&Hin).
  { intros b Hb. destruct (rw_binding _ Hwf b Hb) as (c&i&_&Hi&Hh). unfold is_eligible, registry_implementation.
    destruct (decide (cb_capability_id b = cc_capability_id contract)) as [E1|E1].
    2: { rewrite bool_decide_eq_true_2 by done. exists false. split; [done|]. split; [done|]. by intros []. }
    rewrite bool_decide_eq_false_2 by (intros ?; done). cbn [orb].
    destruct (Z.eqb_spec (cb_contract_revision b) (cc_contract_revision contract)) as [E2|E2]; cbn [negb].
    2: { exists false. split; [done|]. split; [done|]. by intros []. }
    rewrite Hi. cbn [mbind result_bind]. rewrite bool_decide_eq_true_2 by done. cbn [andb]. eexists. split; [done|].
    rewrite andb_true_iff. split.
    - intros [H1 H2]. split; [done|done|done| |].
      + exists i. split; [done|]. split; [done|]. intros h' ->. by apply bool_decide_eq_true in H1.
      + intros l ->. by apply bool_decide_eq_true in H2.
    - intros [_ _ _ (i'&Hi'&_&Hh') Hcl]. assert (i' = i) as -> by congruence. split.
      + destruct h; [|done]. by apply bool_decide_eq_true_2, Hh'.
      + destruct a; [|done]. by apply bool_decide_eq_true_2, Hcl. }
  exists (py_sorted binding_le k). unfold eligible_bindings. rewrite Hk. split; [done|].
  split; [apply (StronglySorted_py_sorted binding_le)|]. intros b. rewrite py_sorted_Permutation, Hin.
  split; [by intros [_ ?]|]. intros H. split; [apply H|done].
Qed.

(** In a registry that was constructed, resolving the binding of a contract never meets a missing or stale
    implementation: it returns the least eligible binding in the order of fallback rank and identity, with
    its implementation, and raises exactly when no binding is eligible. *)
Theorem resolve_binding_spec revision contracts descriptors implementations bindings reg contract h a :
  make_registry revision contracts descriptors implementations bindings = Ok reg →
  match resolve_binding reg contract h a with
  | Ok (b, i) =>
      eligible reg contract h a b ∧
      reg_implementations reg !! (cb_tool_impl_id b, cb_implementation_revision b) = Some i ∧
      ∀ b', eligible reg contract h a b' → binding_le b b'
  | Err e => e = LookupError "no healthy capability binding" (cc_capability_id contract) ∧
      ∀ b, ¬ eligible reg contract h a b
  end.
Proof.
  intros [Hwf _]%make_registry_Ok. destruct (eligible_bindings_spec reg contract h a Hwf) as (l&Hl&Hs&Hin).
  unfold resolve_binding. rewrite Hl. cbn [mbind result_bind]. destruct l as [|b l].
  - split; [done|]. intros b Hb%Hin. by apply not_elem_of_nil in Hb.
  - pose proof (proj1 (Hin b) (list_elem_of_here _ _)) as Hb. destruct (el_implementation _ _ _ _ _ Hb) as (i&Hi&Hh&_).
    unfold registry_implementation. rewrite Hi. cbn [mbind result_bind].
    rewrite bool_decide_eq_false_2 by (intros ?; done). split; [done|]. split; [done|].
    intros b' Hb'%Hin. apply elem_of_cons in Hb' as [->|Hb']; [by destruct (total binding_le b b)|].
    apply StronglySorted_inv in Hs as [_ Hs]. rewrite Forall_forall in Hs. by apply Hs.
Qed.

(** ** What a task sees *)

Lemma resolve_first reg contract h a b l :
  registry_wf reg → eligible_bindings reg contract h a = Ok (b :: l) →
  ∃ i, resolve_binding reg contract h a = Ok (b, i).
Proof.
  intros Hwf Hl. destruct (eligible_bindings_spec reg contract h a Hwf) as (l'&Hl'&_&Hin).
  rewrite Hl in Hl'. injection Hl' as <-.
  destruct (el_implementation _ _ _ _ _ (proj1 (Hin b) (list_elem_of_here _ _))) as (i&Hi&Hh&_).
  exists i. unfold resolve_binding. rewrite Hl. cbn [mbind result_bind]. unfold registry_implementation. rewrite Hi.
  cbn [mbind result_bind]. by rewrite bool_decide_eq_false_2 by (intros ?; done).
Qed.

(** What stands behind a card. *)
Record card_of (reg : CapabilityRegistry) (task : TaskContract) (task_run_id : string) (policy : StaticPolicyEngine)
    (scope h : option (gset string)) (a : option (list ExecutionClass)) (satisfiable : gset string)
    (c : CapabilityContract) (card : CapabilityCard) : Prop := {
  cd_identity : (card_capability_id card, card_contract_revision card) = contract_key c;
  cd_action : card_action card = cc_action c;
  cd_resources : card_applicable_resource_types card = applicable_resource_types c;
  cd_effect : card_effect_semantics card = effect_semantics c;
  cd_scope : ∀ s, scope = Some s → cc_capability_id c ∈ s;
  cd_ceiling : capability_visible_for_task task c = true;
  cd_policy : obligations_satisfied (evaluate policy (visibility_request task task_run_id c)) satisfiable = true;
  cd_binding : ∃ b i, resolve_binding reg c h a = Ok (b, i) ∧ card_cost_class card = cost_class b ∧
    card_latency_class card = latency_class b
}.

Lemma visibility_spec reg task run policy scope h a sat c v :
  registry_wf reg → visibility reg task run policy scope h a sat c = Ok v →
  match v with
  | inl reasons => reasons ≠ []
  | inr card => card_of reg task run policy scope h a sat c card
  end.
Proof.
  intros Hwf H. unfold visibility in H. apply result_bind_Ok in H as (l&Hl&H).
  apply result_bind_Ok in H as (r&->%validate_request_Ok&H). cbv zeta in H.
  set (d := evaluate policy _) in *.
  set (reasons := _ ++ _) in H. destruct reasons as [|x rs] eqn:Hr; [|injection H as <-; by rewrite sorted_set_nil].
  subst reasons. apply app_nil in Hr as [Hscope Hr]. apply app_nil in Hr as [Hceil Hr]. apply app_nil in Hr as [Hel Hpol].
  destruct l as [|b l]; [done|]. destruct (reg_descriptors reg !! _) as [desc|]; [|done]. injection H as <-.
  destruct (resolve_first _ _ _ _ _ _ Hwf Hl) as [i Hi].
  split; simpl; try done.
  - intros s ->. destruct (decide (cc_capability_id c ∈ s)) as [|Hs]; [done|]. by rewrite (bool_decide_eq_true_2 _ Hs) in Hscope.
  - destruct (capability_visible_for_task task c); done.
  - fold d. destruct (obligations_satisfied d sat); [done|]. by destruct (bool_decide (authorization d ≠ PERMIT)).
  - by exists b, i.
Qed.

Definition shown_as (c : CapabilityContract) : string :=
  cc_capability_id c +:+ "@" +:+ str_of_Z (cc_contract_revision c).

Lemma visible_loop_spec (view : CapabilityContract → result (list string + CapabilityCard))
  (P : CapabilityContract → CapabilityCard → Prop) l acc vs :
  (∀ c v, view c = Ok v → match v with inl reasons => reasons ≠ [] | inr card => P c card end) →
  visible_loop view l acc = Ok vs →
  (∀ card, card ∈ cards vs ↔ card ∈ cards acc ∨ ∃ c, c ∈ l ∧ view c = Ok (inr card)) ∧
  (∀ k reasons, dict_get k (hidden_reasons acc) = Some reasons → ∃ reasons',
     dict_get k (hidden_reasons vs) = Some reasons' ∧ (reasons ≠ [] → reasons' ≠ [])) ∧
  (∀ c, c ∈ l → (∃ card, view c = Ok (inr card) ∧ card ∈ cards vs) ∨
     ∃ reasons, dict_get (shown_as c) (hidden_reasons vs) = Some reasons ∧ reasons ≠ []) ∧
  registry_revision vs = registry_revision acc.
Proof.
  intros Hview. revert acc. induction l as [|c l IH]; intros acc H; cbn [visible_loop] in H.
  { injection H as <-. split; [|split; [|split; [|done]]].
    - intros card. split; [by left|]. intros [?|(c&[]%not_elem_of_nil&_)]. done.
    - intros k reasons Hk. by exists reasons.
    - by intros c ?%not_elem_of_nil. }
  apply result_bind_Ok in H as (v&Hv&H). specialize (Hview c v Hv) as Hc.
  destruct (IH _ H) as (H1&H2&H3&H4). clear H IH. split; [|split; [|split]].
  - intros card. rewrite H1. destruct v as [reasons|card0]; cbn [cards].
    + setoid_rewrite elem_of_cons. split; [intros [?|(c'&?&?)]; [by left|right; exists c'; auto]|].
      intros [?|(c'&[->|?]&?)]; [by left|congruence|right; by exists c'].
    + rewrite elem_of_app, list_elem_of_singleton. setoid_rewrite elem_of_cons. split.
      * intros [[?| ->]|(c'&?&?)]; [by left|right; exists c; auto|right; exists c'; auto].
      * intros [?|(c'&[->|?]&Hc')]; [by left; left|rewrite Hv in Hc'; injection Hc' as ->; by left; right|right; by exists c'].
  - intros k reasons Hk. destruct v as [rs|card0]; cbn [hidden_reasons] in H2; [|by apply H2].
    destruct (decide (k = shown_as c)) as [->|Hne].
    + destruct (H2 (shown_as c) rs) as (rs'&?&?); [rewrite dict_get_set; by rewrite decide_True|].
      exists rs'. split; [done|]. auto.
    + apply H2. rewrite dict_get_set, decide_False by done. done.
  - intros c' [->|Hc']%elem_of_cons; [|by apply H3]. destruct v as [rs|card].
    + right. destruct (H2 (shown_as c) rs) as (rs'&?&?); [cbn [hidden_reasons]; rewrite dict_get_set; by rewrite decide_True|].
      exists rs'. auto.
    + left. exists card. split; [done|]. apply H1. left. cbn [cards]. apply elem_of_app. right. apply list_elem_of_here.
  - rewrite H4. by destruct v.
Qed.

(** What a task sees it may invoke: a visible capability is in the task's scope and under its effect
    ceiling, its visibility policy is satisfied, a binding resolves under the same health and
    execution classes and gives the card its costs, and every request that states what the card states
    passes the broker's validation.  Every other contract is hidden with a reason. *)
Theorem visible_invocable revision contracts descriptors implementations bindings reg task run policy scope h a sat vs :
  make_registry revision contracts descriptors implementations bindings = Ok reg →
  visible_capabilities reg task run policy scope h a sat = Ok vs →
  (∀ card, card ∈ cards vs → ∃ c, reg_contracts reg !! (card_capability_id card, card_contract_revision card) = Some c ∧
    card_of reg task run policy scope h a sat c card ∧
    ∀ request, rq_task_contract_id request = tc_id task → rq_principal request = tc_principal task →
      rq_capability_id request = card_capability_id card → rq_contract_revision request = card_contract_revision card →
      rq_action request = card_action card → rq_resource_type request ∈ card_applicable_resource_types card →
      intended_effect request = card_effect_semantics card → validate_capability_request task c request = []) ∧
  (∀ k c, reg_contracts reg !! k = Some c →
    (∃ card, card ∈ cards vs ∧ (card_capability_id card, card_contract_revision card) = k) ∨
    ∃ reasons, dict_get (shown_as c) (hidden_reasons vs) = Some reasons ∧ reasons ≠ []).
Proof.
  intros [Hwf _]%make_registry_Ok H. unfold visible_capabilities in H.
  set (P := card_of reg task run policy scope h a sat).
  destruct (visible_loop_spec _ P _ _ _ ltac:(intros c v Hv; by apply (visibility_spec _ _ _ _ _ _ _ _ _ _ Hwf Hv)) H)
    as (H1&_&H3&_).
  assert (∀ c, c ∈ merge_sort contract_le (map_to_list (reg_contracts reg)).*2 ↔ reg_contracts reg !! contract_key c = Some c)
    as Hin.
  { intros c. rewrite merge_sort_Permutation, list_elem_of_fmap. split.
    - intros ([k c']&->&Hc%elem_of_map_to_list). simpl. by destruct (rw_contract _ Hwf _ _ Hc) as [-> _].
    - intros Hc. exists (contract_key c, c). split; [done|]. by apply elem_of_map_to_list. }
  split.
  - intros card [Hn|(c&Hc%Hin&Hv)]%H1; [by apply not_elem_of_nil in Hn|].
    pose proof (visibility_spec _ _ _ _ _ _ _ _ _ _ Hwf Hv) as Hcard. exists c.
    split; [by rewrite (cd_identity _ _ _ _ _ _ _ _ _ _ Hcard)|]. split; [done|].
    intros request E1 E2 E3 E4 E5 E6 E7. destruct Hcard as [Hid Ha Hr He _ Hceil _ _]. unfold contract_key in Hid.
    injection Hid as Hid1 Hid2. rewrite Hid1 in E3. rewrite Hid2 in E4. rewrite Ha in E5. rewrite Hr in E6.
    rewrite He in E7. unfold validate_capability_request.
    rewrite E1, E2, E3, E4, E5, E7, Hceil, Z.eqb_refl.
    repeat (rewrite bool_decide_eq_false_2 by (intros ?; done)). done.
  - intros k c Hc. destruct (rw_contract _ Hwf _ _ Hc) as [Hk _].
    destruct (H3 c) as [(card&Hv&Hin')|?]; [by apply Hin; rewrite Hk|left|by right].
    exists card. split; [done|]. pose proof (visibility_spec _ _ _ _ _ _ _ _ _ _ Hwf Hv) as Hcard.
    by rewrite (cd_identity _ _ _ _ _ _ _ _ _ _ Hcard).
Qed.

(** ** Invocations *)

Lemma zoom_frame {A} (m : prog BudgetDB A) s :
  bs_executed (zoom m s).2 = bs_executed s ∧ bs_invocations (zoom m s).2 = bs_invocations s ∧
  bs_budget (zoom m s).2 = (m (bs_budget s)).2.
Proof. unfold zoom. simpl. by destruct (m (bs_budget s)). Qed.

Lemma wp_zoom {A} (m : prog BudgetDB A) s (Q : result A → BrokerStore → Prop) :
  (∀ r db, m (bs_budget s) = (r, db) → Q r (set_bs_budget db s)) → wp (zoom m) s Q.
Proof. intros H. unfold wp, zoom. simpl. destruct (m (bs_budget s)) as [r db] eqn:E. by apply H. Qed.

Section invocations.
Context (json_hash : json → string) (uuid5_url : string → string)
  (hexdigest : PolicyRequest → PolicyDecision → string).

Lemma settle_executed envelope request implementation estimated clock answer s :
  bs_executed (settle uuid5_url envelope request implementation estimated clock answer s).2 = bs_executed s.
Proof.
  apply (preserves_wp (λ s', bs_executed s' = bs_executed s)); [|done]. intros s' Hs. unfold settle, update_invocation.
  destruct answer; wp_step; apply wp_zoom; intros r db _; destruct r; try done; cbn beta iota; wp_go; done.
Qed.

(** What has been checked when a tool is called. *)
Record authorized (registry : CapabilityRegistry) (policy : StaticPolicyEngine) (task : TaskContract)
    (envelope : ExecutionEnvelope) (request : CapabilityRequest) (grants : InvocationGrants)
    (healthy_refs : option (gset string)) (available : option (list ExecutionClass)) (now : Z)
    (contract : CapabilityContract) (binding : CapabilityBinding) (implementation : ToolImplementation) : Prop := {
  az_envelope : ee_task_run_id envelope = rq_task_run_id request ∧
    ee_task_contract_id envelope = rq_task_contract_id request ∧ ee_case_id envelope = rq_case_id request ∧
    ee_policy_revision envelope = engine_revision policy;
  az_scope : rq_capability_id request ∈ capability_scope envelope;
  az_deadline : now < dt_us (deadline_at envelope);
  az_contract : reg_contracts registry !! (rq_capability_id request, rq_contract_revision request) = Some contract;
  az_task : rq_task_contract_id request = tc_id task ∧ rq_principal request = tc_principal task;
  az_request : rq_action request = cc_action contract ∧
    rq_resource_type request ∈ applicable_resource_types contract ∧
    intended_effect request = effect_semantics contract;
  az_effect : EFFECT_RANK (required_effect_ceiling contract) ≤ EFFECT_RANK (effect_ceiling task);
  az_binding : resolve_binding registry contract healthy_refs available = Ok (binding, implementation);
  az_permit : authorization (evaluate policy (invocation_policy_request json_hash envelope request)) = PERMIT;
  az_grants : ∀ o, o ∈ constraints (evaluate policy (invocation_policy_request json_hash envelope request)) ∨
    o ∈ obligations (evaluate policy (invocation_policy_request json_hash envelope request)) →
    po_kind o ∈ fulfilled_obligation_kinds grants
}.

Lemma check_envelope_Ok policy envelope request now u :
  check_envelope policy envelope request now = Ok u →
  (ee_task_run_id envelope = rq_task_run_id request ∧ ee_task_contract_id envelope = rq_task_contract_id request ∧
   ee_case_id envelope = rq_case_id request ∧ ee_policy_revision envelope = engine_revision policy) ∧
  rq_capability_id request ∈ capability_scope envelope ∧ now < dt_us (deadline_at envelope) ∧
  dt_aware (deadline_at envelope) = true.
Proof.
  unfold check_envelope. case_bool_decide as H1; [done|]. case_bool_decide as H2; [done|].
  case_bool_decide as H3; [done|]. case_bool_decide as H4; [done|]. case_bool_decide as H5; [done|].
  destruct (dt_aware _); [|done]. simpl.
  destruct (Z.geb_spec now (dt_us (deadline_at envelope))); [done|]. done.
Qed.

Lemma if_nil (b : bool) (x : string) : (if b then [x] else []) = [] → b = false.
Proof. by destruct b. Qed.

Lemma validate_capability_request_nil task contract request :
  validate_capability_request task contract request = [] →
  (rq_task_contract_id request = tc_id task ∧ rq_principal request = tc_principal task) ∧
  (rq_action request = cc_action contract ∧ rq_resource_type request ∈ applicable_resource_types contract ∧
   intended_effect request = effect_semantics contract) ∧
  EFFECT_RANK (required_effect_ceiling contract) ≤ EFFECT_RANK (effect_ceiling task).
Proof.
  unfold validate_capability_request. intros H. apply app_nil in H as [H1%if_nil H].
  apply app_nil in H as [H2%if_nil H]. apply app_nil in H as [_ H]. apply app_nil in H as [_ H].
  apply app_nil in H as [H5%if_nil H]. apply app_nil in H as [H6%if_nil H]. apply app_nil in H as [H7%if_nil H8%if_nil].
  apply bool_decide_eq_false, dec_stable in H1, H2, H5, H6, H7. apply negb_false_iff in H8.
  unfold capability_visible_for_task, effect_within_ceiling in H8. apply Z.leb_le in H8. done.
Qed.

Lemma check_policy_Ok decision grants u :
  check_policy decision grants = Ok u →
  authorization decision = PERMIT ∧
  ∀ o, o ∈ constraints decision ∨ o ∈ obligations decision → po_kind o ∈ fulfilled_obligation_kinds grants.
Proof.
  unfold check_policy. case_bool_decide as H1; [done|]. case_bool_decide as H2; [done|]. intros _.
  split; [done|]. intros o Ho. unfold missing_grants in H2. rewrite sorted_set_nil in H2.
  destruct (decide (po_kind o ∈ fulfilled_obligation_kinds grants)) as [|Hn]; [done|exfalso].
  eapply not_elem_of_nil. rewrite <- H2. apply list_elem_of_filter. split; [exact Hn|].
  apply list_elem_of_fmap_2. by apply elem_of_app.
Qed.

(** A tool has been called, and was allowed to be. *)
Definition called_with_authority registry policy task envelope request estimated grants healthy available
  action_timeout clock (s s' : BrokerStore) : Prop :=
  ∃ contract binding implementation timeout grp db,
    bs_executed s' = bs_executed s ++ [mkExecutorCall implementation
      (map_native_arguments (canonical_arguments request) (canonical_to_native_args binding)) timeout] ∧
    find_invocation (rq_task_run_id request) (rq_request_id request) s = None ∧
    authorized registry policy task envelope request grants healthy available (checked_at clock) contract binding
      implementation ∧
    reserve uuid5_url (reserved_at clock) (ee_budget_ref envelope) (reservation_group request) estimated None
      (bs_budget s) = (Ok grp, db) ∧
    (0 ≤ action_timeout → 0 ≤ timeout ≤ action_timeout) ∧
    timeout ≤ Z.max 0 (dt_us (deadline_at envelope) - started_at clock).

Lemma invoke_called registry policy task envelope request executor estimated grants healthy available
  action_timeout clock s :
  let s' := (invoke json_hash uuid5_url hexdigest registry policy task envelope request executor estimated grants
               healthy available action_timeout clock s).2 in
  bs_executed s' = bs_executed s ∨
  called_with_authority registry policy task envelope request estimated grants healthy available action_timeout clock
    s s'.
Proof.
  cbv zeta. set (called := called_with_authority _ _ _ _ _ _ _ _ _ _ _ s).
  change (wp (invoke json_hash uuid5_url hexdigest registry policy task envelope request executor estimated grants
    healthy available action_timeout clock) s (λ _ s', bs_executed s' = bs_executed s ∨ called s')).
  unfold invoke. wp_step. wp_step. cbv beta iota. destruct (find_invocation _ _ s) eqn:Hfind; [wp_step; by left|].
  wp_step. wp_step. destruct (check_envelope _ _ _ _) as [u|] eqn:Henv; [|by left].
  wp_step. wp_step. destruct (registry_contract _ _ _) as [contract|] eqn:Hcon; [|by left].
  wp_step. wp_step; [by left|]. wp_step. wp_step.
  destruct (resolve_binding _ _ _ _) as [[binding impl]|] eqn:Hres; [|by left].
  cbv beta iota zeta. cbn [fst snd]. wp_step. wp_step. destruct (validate_request _) as [pr|] eqn:Hpr; [|by left].
  apply validate_request_Ok in Hpr as ->.
  wp_step. wp_step. destruct (check_policy _ _) as [u2|] eqn:Hpol; [|by left].
  wp_step. apply wp_zoom. intros r db Hreserve. destruct r as [grp|]; [|by left].
  wp_step. wp_step. destruct (validate_deadline _) as [plan|]; [|by left]. cbv beta iota.
  wp_step. unfold add_invocation. wp_step. wp_step. cbv beta iota. wp_step. wp_step; [by left|]. wp_step. cbv beta iota.
  wp_step. wp_step. destruct (bounded_timeout_seconds _ _ _) as [timeout|] eqn:Htime; [|by left].
  unfold call_executor. wp_step. wp_step. wp_step. cbv beta iota. wp_step. cbv beta iota. wp_step.
  match goal with |- wp (settle ?u ?e ?r ?i ?es ?c ?a) ?s1 _ => pose proof (settle_executed e r i es c a s1) as Hset;
    unfold wp; destruct (settle u e r i es c a s1) as [settled s2] eqn:Hs end.
  assert (bs_executed s2 = bs_executed s ∨ called s2) as Hgoal; [|by destruct settled].
  right. exists contract, binding, impl, timeout, grp, db.
  destruct (bounded_timeout_range _ _ _ _ Htime) as [Ht1 Ht2].
  split; [exact Hset|]. split; [done|]. split; [|done].
  destruct (check_envelope_Ok _ _ _ _ _ Henv) as (He1&He2&He3&_).
  match goal with H : bool_decide (validate_capability_request _ _ _ ≠ []) = false |- _ =>
    apply bool_decide_eq_false, dec_stable, validate_capability_request_nil in H as (Hv1&Hv2&Hv3) end.
  destruct (check_policy_Ok _ _ _ Hpol) as [Hp1 Hp2].
  split; try done. unfold registry_contract in Hcon. destruct (reg_contracts registry !! _); [|done].
  by injection Hcon as ->.
Qed.

(** C3. No tool is called without authority: an invocation calls at most one tool, once, with the mapped
    arguments of its request; when it does, the request was new, the envelope, the task's contract and
    effect ceiling, the policy and its obligations all allowed it, the tool is the one the registry
    resolves, its budget was reserved, and its timeout does not outlive the envelope's deadline. *)
Theorem invoke_authorized registry policy task envelope request executor estimated grants healthy available
  action_timeout clock s :
  let s' := (invoke json_hash uuid5_url hexdigest registry policy task envelope request executor estimated grants
               healthy available action_timeout clock s).2 in
  bs_executed s' = bs_executed s ∨
  called_with_authority registry policy task envelope request estimated grants healthy available action_timeout clock
    s s'.
Proof. apply invoke_called. Qed.
End invocations.

(** ** What an invocation leaves behind *)

Definition invocation_key (m : CapabilityInvocationModel) : string * string := (iv_task_run_id m, iv_request_id m).
Definition invocation_group (m : CapabilityInvocationModel) : string :=
  "capability:" +:+ iv_task_run_id m +:+ ":" +:+ iv_request_id m.

(** A row holds the outcome of its invocation. *)
Record row_of_outcome (m : CapabilityInvocationModel) (out : CapabilityInvocationOutcome) : Prop := {
  ro_result : result_json m = Some (co_result out);
  ro_finished : is_Some (iv_finished_at m);
  ro_status : iv_status m = CapabilityResultStatus_value (cr_status (co_result out));
  ro_observation : observation_json m = co_observation out;
  ro_plan : plan_json m = co_plan out;
  ro_decision : policy_decision_json m = co_policy_decision out;
  ro_invocation : cr_invocation_id (co_result out) = iv_invocation_id m ∧
    ci_invocation_id (co_invocation out) = iv_invocation_id m;
  ro_trust : ∀ o, co_observation out = Some o → trust_label o = "untrusted_tool_output"%string ∧
    cr_status (co_result out) ∈ [RS_SUCCEEDED; RS_PARTIAL] ∧ 0 < ttl_seconds o
}.

Section outcomes.
Context (json_hash : json → string) (uuid5_url : string → string)
  (hexdigest : PolicyRequest → PolicyDecision → string).

Lemma update_invocation_last (f : CapabilityInvocationModel → CapabilityInvocationModel) l m :
  (∀ m', m' ∈ l → iv_invocation_id m' ≠ iv_invocation_id m) →
  update_where (λ m', bool_decide (iv_invocation_id m' = iv_invocation_id m)) f (l ++ [m]) = l ++ [f m].
Proof.
  intros Hl. apply (update_where_last iv_invocation_id). intros (m'&E&Hm')%list_elem_of_fmap. by apply (Hl m').
Qed.

Lemma zoom_Ok_budget {A} (m : prog BudgetDB A) s a s' :
  zoom m s = (Ok a, s') → ∃ db, m (bs_budget s) = (Ok a, db) ∧ s' = set_bs_budget db s.
Proof. exact (zoom_Ok m s a s'). Qed.

Lemma ephemeral_observation_Ok request implementation res n at_ o :
  ephemeral_observation uuid5_url request implementation res n at_ = Ok (Some o) →
  trust_label o = "untrusted_tool_output"%string ∧ cr_status res ∈ [RS_SUCCEEDED; RS_PARTIAL] ∧ 0 < ttl_seconds o.
Proof.
  unfold ephemeral_observation. case_bool_decide as Hs; [done|]. destruct (if falsy _ then _ else _) as [ref|]; [|done].
  intros H. apply result_bind_Ok in H as (o'&Ho&[= ->]). unfold validate_observation in Ho.
  destruct (Z.leb_spec (ttl_seconds (mkEphemeralObservation
    (stable_id uuid5_url ("ephemeral-observation:" +:+ rq_task_run_id request +:+ ":" +:+ rq_request_id request))
    (rq_request_id request) (rq_capability_id request)
    ("tool:" +:+ tool_impl_id implementation +:+ "@" +:+ str_of_Z (implementation_revision implementation))
    (foldl (λ d kv, dict_set kv.1 kv.2 d)
       [("implementation_kind"%string, JStr (ImplementationKind_value (implementation_kind implementation)));
        ("server_identity"%string, match server_identity implementation with Some i => JStr i | None => JNull end)]
       (nr_provenance n)) at_ ref (nr_extracted_candidates n) "untrusted_tool_output" (observation_ttl_seconds n))) 0)
    as [|Ht] in Ho; [done|].
  apply result_bind_Ok in Ho as (u&_&Ho). injection Ho as <-. done.
Qed.

Lemma settle_Ok envelope request implementation estimated clock answer s res obs s' :
  settle uuid5_url envelope request implementation estimated clock answer s = (Ok (res, obs), s') →
  ∃ consumed grp db at_, commit (committed_at clock) (ee_budget_ref envelope) (reservation_group request) consumed false
      (bs_budget s) = (Ok grp, db) ∧
    s' = mkBrokerStore db (update_where (λ m, bool_decide (iv_invocation_id m = invocation_id_of uuid5_url request))
           (finish_audit res obs at_) (bs_invocations s)) (bs_executed s) ∧
    cr_invocation_id res = invocation_id_of uuid5_url request ∧
    ∀ o, obs = Some o → trust_label o = "untrusted_tool_output"%string ∧
      cr_status res ∈ [RS_SUCCEEDED; RS_PARTIAL] ∧ 0 < ttl_seconds o.
Proof.
  intros H. unfold settle in H. destruct answer as [n|exc].
  - apply bind_Ok in H as (grp&s1&H1&H). apply zoom_Ok_budget in H1 as (db&Hdb&->).
    apply bind_Ok in H as (o&s1&H1&H). apply lift_Ok in H1 as [Ho ->].
    apply bind_Ok in H as (u&s1&H1&H). apply modify_Ok in H1 as ->. apply ret_Ok in H as [[= -> ->] ->].
    exists (consumed_budget n), grp, db, (finished_at clock). split; [done|]. split; [done|]. split; [done|].
    intros o' ->. by apply ephemeral_observation_Ok in Ho.
  - apply bind_Ok in H as (grp&s1&H1&H). apply zoom_Ok_budget in H1 as (db&Hdb&->).
    apply bind_Ok in H as (u&s1&H1&H). apply modify_Ok in H1 as ->. apply ret_Ok in H as [[= -> ->] ->].
    exists (dict_of estimated), grp, db, (observed_at clock). by repeat (split; [done|]).
Qed.

Lemma find_invocation_Some run req s m :
  find_invocation run req s = Some m → m ∈ bs_invocations s ∧ invocation_key m = (run, req).
Proof.
  intros H. unfold find_invocation in H. apply find_some in H as [Hin Hk]. apply list_elem_of_In in Hin.
  apply andb_true_iff in Hk as [H1%bool_decide_eq_true H2%bool_decide_eq_true]. split; [done|].
  unfold invocation_key. by rewrite H1, H2.
Qed.

(** A returning invocation is a replay, or adds one settled row. *)
Lemma invoke_Ok registry policy task envelope request executor estimated grants healthy available action_timeout clock
  s out s' :
  invoke json_hash uuid5_url hexdigest registry policy task envelope request executor estimated grants healthy
    available action_timeout clock s = (Ok out, s') →
  (∃ m, find_invocation (rq_task_run_id request) (rq_request_id request) s = Some m ∧ replay_outcome m = Ok out ∧ s' = s) ∨
  ∃ m consumed grp db grp' call,
    find_invocation (rq_task_run_id request) (rq_request_id request) s = None ∧
    reserve uuid5_url (reserved_at clock) (ee_budget_ref envelope) (reservation_group request) estimated None
      (bs_budget s) = (Ok grp, db) ∧
    commit (committed_at clock) (ee_budget_ref envelope) (reservation_group request) consumed false db =
      (Ok grp', bs_budget s') ∧
    bs_invocations s' = bs_invocations s ++ [m] ∧ bs_executed s' = bs_executed s ++ [call] ∧
    invocation_key m = (rq_task_run_id request, rq_request_id request) ∧
    (∀ m', m' ∈ bs_invocations s → iv_invocation_id m' ≠ iv_invocation_id m ∧ invocation_key m' ≠ invocation_key m) ∧
    row_of_outcome m out ∧ co_replay out = false.
Proof.
  intros H. unfold invoke in H. apply bind_Ok in H as (s0&s1&H0&H). apply get_store_Ok in H0 as [-> ->].
  destruct (find_invocation _ _ s) as [m|] eqn:Hfind; [left; apply lift_Ok in H as [Hr ->]; by exists m|right].
  apply bind_Ok in H as (u&s1&H0&H). apply lift_Ok in H0 as [_ ->].
  apply bind_Ok in H as (contract&s1&H0&H). apply lift_Ok in H0 as [Hc ->].
  apply bind_Ok in H as (u1&s1&H0&H). apply check_Ok in H0 as [_ ->].
  apply bind_Ok in H as (resolved&s1&H0&H). apply lift_Ok in H0 as [_ ->]. cbv zeta in H.
  apply bind_Ok in H as (pr&s1&H0&H). apply lift_Ok in H0 as [_ ->].
  apply bind_Ok in H as (u2&s1&H0&H). apply lift_Ok in H0 as [_ ->].
  apply bind_Ok in H as (grp&s1&H0&H). apply zoom_Ok_budget in H0 as (db&Hres&->).
  apply bind_Ok in H as (plan&s1&H0&H). apply lift_Ok in H0 as [_ ->].
  apply bind_Ok in H as (u3&s1&H0&H). unfold add_invocation in H0.
  apply bind_Ok in H0 as (s0&s2&H1&H0). apply get_store_Ok in H1 as [-> ->].
  apply bind_Ok in H0 as (u4&s2&H1&H0). apply check_Ok in H1 as [Hnew ->]. apply modify_Ok in H0 as ->.
  apply bind_Ok in H as (timeout&s1&H0&H). apply lift_Ok in H0 as [_ ->].
  apply bind_Ok in H as (answer&s1&H0&H). unfold call_executor in H0.
  apply bind_Ok in H0 as (u5&s2&H1&H0). apply modify_Ok in H1 as ->. apply ret_Ok in H0 as [_ ->].
  apply bind_Ok in H as ([res obs]&s1&H0&H). apply ret_Ok in H as [-> ->].
  apply settle_Ok in H0 as (consumed&grp'&db'&at_&Hcommit&->&Hid&Htrust). cbn [bs_budget set_bs_invocations set_bs_budget] in Hcommit.
  set (row := new_invocation _ _ _ _ _ _ _ _ _ _) in *.
  assert (∀ m', m' ∈ bs_invocations s → iv_invocation_id m' ≠ iv_invocation_id row ∧ invocation_key m' ≠ invocation_key row) as Hfresh.
  { intros m' Hm'. cbn [bs_invocations set_bs_budget] in Hnew. apply not_true_iff_false in Hnew. split; intros E; apply Hnew, existsb_exists; exists m';
      (split; [by apply list_elem_of_In|]); apply orb_true_iff.
    - left. by apply bool_decide_eq_true_2.
    - right. unfold invocation_key in E. injection E as E1 E2. by rewrite !bool_decide_eq_true_2. }
  exists (finish_audit res obs at_ row), consumed, grp, db, grp'. eexists. split; [done|]. split; [done|].
  split; [exact Hcommit|]. split.
  { cbn [bs_invocations set_bs_invocations set_bs_budget]. apply (update_invocation_last (finish_audit res obs at_) _ row).
    intros m' Hm'. by apply Hfresh. }
  split; [reflexivity|]. split; [done|]. split; [exact Hfresh|]. split; [|done].
  by split.
Qed.
End outcomes.

(** ** Histories *)

(** An invocation with the tool's answer, or any call to the budget governor by others. *)
Inductive broker_op :=
| OpInvoke (registry : CapabilityRegistry) (policy : StaticPolicyEngine) (task : TaskContract)
    (envelope : ExecutionEnvelope) (request : CapabilityRequest)
    (executor : ToolImplementation → jdict → Z → result NativeExecutionResult)
    (estimated : list (string * Z)) (grants : InvocationGrants) (healthy : option (gset string))
    (available : option (list ExecutionClass)) (action_timeout : Z) (clock : InvocationClock)
| OpLedger (op : budget_op).

(** Dicts have distinct keys. *)
Definition broker_op_wf (op : broker_op) : Prop :=
  match op with
  | OpInvoke _ _ _ _ _ _ estimated _ _ _ _ _ => NoDup estimated.*1
  | OpLedger op => op_wf op
  end.

Record broker_inv (s : BrokerStore) : Prop := {
  bi_budget : budget_inv (bs_budget s);
  bi_ids : NoDup (iv_invocation_id <$> bs_invocations s);
  bi_keys : NoDup (invocation_key <$> bs_invocations s);
  bi_outcome : ∀ m, m ∈ bs_invocations s → ∃ out, row_of_outcome m out;
  bi_settled : ∀ m, m ∈ bs_invocations s → ∃ account row, row ∈ reservations (bs_budget s) ∧
    in_group account (invocation_group m) row ∧ res_status row = COMMITTED
}.

(** Invocations and calls to tools are only added. *)
Record broker_step (s s' : BrokerStore) : Prop := {
  bp_invocations : bs_invocations s `prefix_of` bs_invocations s';
  bp_executed : bs_executed s `prefix_of` bs_executed s'
}.
#[export] Instance broker_step_preorder : PreOrder broker_step.
Proof. split; [by intros s|]. intros s1 s2 s3 [] []. split; by etrans. Qed.

Definition no_calls : BrokerStore := mkBrokerStore empty_db [] [].
Lemma no_calls_inv : broker_inv no_calls.
Proof.
  split; simpl; [apply inv_empty|constructor|constructor|by intros m ?%not_elem_of_nil|by intros m ?%not_elem_of_nil].
Qed.

Section histories.
Context (json_hash : json → string) (uuid5_url : string → string)
  (hexdigest : PolicyRequest → PolicyDecision → string).

Definition run_broker_op (op : broker_op) (s : BrokerStore) : BrokerStore :=
  match op with
  | OpInvoke registry policy task envelope request executor estimated grants healthy available action_timeout clock =>
      (transaction (invoke json_hash uuid5_url hexdigest registry policy task envelope request executor estimated
         grants healthy available action_timeout clock) s).2
  | OpLedger op => set_bs_budget (run_op uuid5_url op (bs_budget s)) s
  end.
Definition run_broker_ops (ops : list broker_op) (s : BrokerStore) : BrokerStore := foldl (flip run_broker_op) s ops.

Lemma invoke_good registry policy task envelope request executor estimated grants healthy available action_timeout clock
  s out s' :
  broker_inv s → NoDup estimated.*1 →
  invoke json_hash uuid5_url hexdigest registry policy task envelope request executor estimated grants healthy
    available action_timeout clock s = (Ok out, s') →
  broker_inv s' ∧ broker_step s s' ∧
  ∃ m, m ∈ bs_invocations s' ∧ invocation_key m = (rq_task_run_id request, rq_request_id request) ∧
    row_of_outcome m out.
Proof.
  intros [B1 B2 B3 B4 B5] Hest H.
  apply invoke_Ok in H as [(m&Hfind&Hrep&->)|(m&consumed&grp&db&grp'&call&_&Hres&Hcom&Hinv&Hex&Hkey&Hfresh&Hrow&_)].
  - split; [done|]. split; [done|]. apply find_invocation_Some in Hfind as [Hin Hkey]. exists m. split; [done|].
    split; [done|]. destruct (B4 m Hin) as (out'&[R1 R2 R3 R4 R5 R6 R7 R8]). unfold replay_outcome in Hrep.
    destruct R2 as [t R2]. rewrite R1, R2 in Hrep. injection Hrep as <-. split; simpl; try done.
    + by split; [apply R7|].
    + intros o Ho. rewrite R4 in Ho. by apply R8.
  - assert (budget_inv db) as Hdb by by eapply inv_reserve.
    assert (broker_step s s') as Hstep by (split; [rewrite Hinv|rewrite Hex]; by eexists).
    split; [|split; [done|]].
    2: { exists m. rewrite Hinv. split; [apply elem_of_app; right; apply list_elem_of_here|done]. }
    split.
    + by eapply inv_commit.
    + rewrite Hinv. apply NoDup_fmap_snoc; [done|]. intros y Hy. by apply Hfresh.
    + rewrite Hinv. apply NoDup_fmap_snoc; [done|]. intros y Hy. by apply Hfresh.
    + rewrite Hinv. intros m' [Hm'| ->%list_elem_of_singleton]%elem_of_app; [by apply B4|by exists out].
    + rewrite Hinv. intros m' [Hm'| ->%list_elem_of_singleton]%elem_of_app.
      * destruct (B5 m' Hm') as (account&row&Hr1&Hr2&Hr3). exists account, row. split; [|done].
        eapply commit_keeps_committed; [exact Hdb| |exact Hr3|exact Hcom]. by eapply reserve_keeps_rows.
      * destruct (commit_committed _ _ _ _ _ _ _ _ Hdb Hcom) as (row&Hr1&Hr2&Hr3).
        exists (ee_budget_ref envelope), row. split; [done|]. split; [|done].
        assert (invocation_group m = reservation_group request) as ->; [|done].
        unfold invocation_key in Hkey. injection Hkey as E1 E2. unfold invocation_group. by rewrite E1, E2.
Qed.

Lemma invoke_executed registry policy task envelope request executor estimated grants healthy available action_timeout
  clock s :
  bs_executed s `prefix_of` bs_executed (invoke json_hash uuid5_url hexdigest registry policy task envelope request
    executor estimated grants healthy available action_timeout clock s).2.
Proof.
  destruct (invoke_called json_hash uuid5_url hexdigest registry policy task envelope request executor estimated grants
    healthy available action_timeout clock s) as [->|(?&?&?&?&?&?&->&_)]; [done|by eexists].
Qed.

Lemma run_broker_op_good op s : broker_op_wf op → broker_inv s → broker_inv (run_broker_op op s) ∧ broker_step s (run_broker_op op s).
Proof.
  intros Hwf Hinv. destruct op as [registry policy task envelope request executor estimated grants healthy available
    action_timeout clock|op]; simpl.
  - unfold transaction. pose proof (invoke_executed registry policy task envelope request executor estimated grants
      healthy available action_timeout clock s) as Hex.
    destruct (invoke _ _ _ _ _ _ _ _ _ _ _ _ _ _ _ s) as [[out|e] s'] eqn:H.
    + by destruct (invoke_good _ _ _ _ _ _ _ _ _ _ _ _ _ _ _ Hinv Hwf H) as (?&?&_).
    + split; [|by split]. by destruct Hinv; split.
  - destruct Hinv as [B1 B2 B3 B4 B5]. split; [|by split]. split; try done.
    + by apply inv_run_op.
    + intros m Hm. destruct (B5 m Hm) as (account&row&?&?&?). exists account, row. split; [|done].
      simpl. by apply committed_stable.
Qed.

Lemma run_broker_ops_good ops s :
  Forall broker_op_wf ops → broker_inv s → broker_inv (run_broker_ops ops s) ∧ broker_step s (run_broker_ops ops s).
Proof.
  revert s. induction ops as [|op ops IH]; intros s Hwf Hinv; [by split|]. apply Forall_cons in Hwf as [Hop Hops].
  destruct (run_broker_op_good op s Hop Hinv) as [H1 S1]. destruct (IH _ Hops H1) as [H2 S2].
  split; [done|by etrans].
Qed.
End histories.

(** C5. Histories of the broker, interleaved with any use of the budget ledger by others, keep both
    books: an account never holds more than its limit but for committed overruns, invocations are
    unique per run and request, every recorded invocation is finished with an outcome whose
    observation is labelled untrusted, and its budget reservation is settled and stays settled;
    invocations and calls to tools are only ever added. *)
Theorem broker_history json_hash uuid5_url hexdigest ops more a r :
  Forall broker_op_wf ops → Forall broker_op_wf more →
  let s := run_broker_ops json_hash uuid5_url hexdigest ops no_calls in
  let s' := run_broker_ops json_hash uuid5_url hexdigest more s in
  broker_inv s' ∧ broker_step s s' ∧
  reserved_of (bs_budget s') a r + committed_of (bs_budget s') a r
    ≤ limit_of (bs_budget s') a r + overrun_of (bs_budget s') a r.
Proof.
  intros Hops Hmore s s'. destruct (run_broker_ops_good json_hash uuid5_url hexdigest ops _ Hops no_calls_inv) as [H1 _].
  destruct (run_broker_ops_good json_hash uuid5_url hexdigest more _ Hmore H1) as [H2 S2].
  split; [done|]. split; [done|]. pose proof (inv_solvent _ (bi_budget _ H2) a r) as Hs. fold s s' in Hs.
  rewrite spent_eq in Hs. lia.
Qed.

(** C4. A request is served at most once: after an invocation has returned and its transaction has
    committed, and whatever other invocations and ledger calls follow, invoking with the same run and
    request - with any envelope, policy or tool - calls no tool, changes nothing, and returns the recorded
    plan, decision, result and observation. *)
Theorem invoke_exactly_once json_hash uuid5_url hexdigest registry policy task envelope request executor estimated
  grants healthy available action_timeout clock s out s1 more
  registry' policy' task' envelope' request' executor' estimated' grants' healthy' available' action_timeout' clock' :
  broker_inv s → NoDup estimated.*1 → Forall broker_op_wf more →
  transaction (invoke json_hash uuid5_url hexdigest registry policy task envelope request executor estimated grants
    healthy available action_timeout clock) s = (Ok out, s1) →
  rq_task_run_id request' = rq_task_run_id request → rq_request_id request' = rq_request_id request →
  let s2 := run_broker_ops json_hash uuid5_url hexdigest more s1 in
  ∃ out', transaction (invoke json_hash uuid5_url hexdigest registry' policy' task' envelope' request' executor'
      estimated' grants' healthy' available' action_timeout' clock') s2 = (Ok out', s2) ∧
    co_replay out' = true ∧ co_plan out' = co_plan out ∧ co_policy_decision out' = co_policy_decision out ∧
    co_result out' = co_result out ∧ co_observation out' = co_observation out.
Proof.
  intros Hinv Hest Hmore H Erun Ereq s2. unfold transaction in H.
  destruct (invoke _ _ _ _ _ _ _ _ _ _ _ _ _ _ _ s) as [[out0|e] s0] eqn:Hrun; [|done]. injection H as -> ->.
  destruct (invoke_good _ _ _ _ _ _ _ _ _ _ _ _ _ _ _ _ _ _ Hinv Hest Hrun) as (Hinv1&_&m&Hm&Hkey&Hrow).
  destruct (run_broker_ops_good json_hash uuid5_url hexdigest more s1 Hmore Hinv1) as [Hinv2 [[k Hk] _]]. fold s2 in Hinv2, Hk.
  assert (m ∈ bs_invocations s2) as Hm2 by (rewrite Hk; apply elem_of_app; by left).
  assert (find_invocation (rq_task_run_id request') (rq_request_id request') s2 = Some m) as Hfind.
  { destruct (find_invocation _ _ s2) as [m'|] eqn:Hf.
    - apply find_invocation_Some in Hf as [Hm' Hkey']. f_equal.
      eapply (NoDup_fmap_eq invocation_key); [apply Hinv2|done|done|]. by rewrite Hkey', Hkey, Erun, Ereq.
    - exfalso. unfold find_invocation in Hf. apply find_none with (x := m) in Hf; [|by apply list_elem_of_In].
      unfold invocation_key in Hkey. injection Hkey as E1 E2. rewrite E1, E2, Erun, Ereq in Hf.
      by rewrite !bool_decide_eq_true_2 in Hf. }
  destruct Hrow as [R1 [t R2] _ R4 R5 R6 _ _].
  eexists. unfold transaction, invoke. run_step. rewrite Hfind. unfold replay_outcome. rewrite R1, R2. split; [done|].
  simpl. by rewrite R4, R5, R6.
Qed.

(** ** A concrete registry and broker *)

Definition sample_hash (j : json) : string := "h".
Definition sample_capability : CapabilityContract :=
  mkCapabilityContract "asset.lookup" 1 "invoke:read" ["asset"%string] [] [] "lookup" ES_OBSERVATION [] [] [] "idempotent"
    "none" None "internal" "none" [] "low".
Definition sample_tool : ToolImplementation :=
  mkToolImplementation "local-lookup" 1 LOCAL_FUNCTION "lookup" "inproc" [] [] None None "none" [] None "health:lookup"
    "h" [].
Definition sample_binding (id : string) (rank : Z) : CapabilityBinding :=
  mkCapabilityBinding id 1 "asset.lookup" 1 "local-lookup" 1 [("cpe"%string, "query"%string)] [] "resolver" "effect"
    "authority" TRUSTED_LOCAL_READ "none" "none" "none" "healthy" "free" "fast" rank "h".
Definition sample_descriptors : gmap string CapabilityDescriptor :=
  {["asset.lookup"%string := mkCapabilityDescriptor "find assets" [] []]}.
Definition sample_registry_of (bindings : list CapabilityBinding) : result CapabilityRegistry :=
  make_registry "registry-1" [sample_capability] sample_descriptors [sample_tool] bindings.
Definition sample_registry : CapabilityRegistry :=
  mkCapabilityRegistry "registry-1" (dict_by contract_key [sample_capability]) sample_descriptors
    (dict_by implementation_key [sample_tool]) [sample_binding "b-2" 1; sample_binding "b-1" 1; sample_binding "b-0" 2].

Lemma resolve_binding_spec_witness :
  resolve_binding sample_registry sample_capability None None = Ok (sample_binding "b-1" 1, sample_tool) ∧
  eligible sample_registry sample_capability None None (sample_binding "b-1" 1) ∧
  resolve_binding sample_registry sample_capability (Some ∅) None =
    Err (LookupError "no healthy capability binding" "asset.lookup").
Proof.
  assert (make_registry "registry-1" [sample_capability] sample_descriptors [sample_tool]
    [sample_binding "b-2" 1; sample_binding "b-1" 1; sample_binding "b-0" 2] = Ok sample_registry) as Hreg
    by (vm_compute; reflexivity).
  assert (resolve_binding sample_registry sample_capability None None = Ok (sample_binding "b-1" 1, sample_tool)) as Hrun
    by (vm_compute; reflexivity).
  split; [exact Hrun|]. split; [|vm_compute; reflexivity].
  pose proof (resolve_binding_spec "registry-1" [sample_capability] sample_descriptors [sample_tool]
    [sample_binding "b-2" 1; sample_binding "b-1" 1; sample_binding "b-0" 2] sample_registry sample_capability None None
    Hreg) as H.
  rewrite Hrun in H. exact (proj1 H).
Defined.

Definition sample_second : CapabilityContract :=
  mkCapabilityContract "asset.lookup" 2 "invoke:read" ["asset"%string] [] [] "lookup" ES_OBSERVATION [] [] [] "idempotent"
    "none" None "internal" "none" [] "low".
Definition sample_other : CapabilityRegistry :=
  mkCapabilityRegistry "registry-2" (dict_by contract_key [sample_second]) sample_descriptors ∅ [].

Lemma combine_registries_wf_witness :
  is_ok (combine_registries "all" [sample_registry; sample_registry]) = false ∧
  ∃ reg, combine_registries "all" [sample_registry; sample_other] = Ok reg ∧ registry_wf reg ∧
    size (reg_contracts reg) = 2%nat.
Proof.
  split; [vm_compute; reflexivity|].
  assert (Forall constructed [sample_registry; sample_other]) as Hall.
  { constructor; [|constructor; [|constructor]].
    - exists "registry-1"%string, [sample_capability], sample_descriptors, [sample_tool],
        [sample_binding "b-2" 1; sample_binding "b-1" 1; sample_binding "b-0" 2]. vm_compute; reflexivity.
    - exists "registry-2"%string, [sample_second], sample_descriptors, [], []. vm_compute; reflexivity. }
  pose proof (combine_registries_wf "all" _ Hall) as H.
  assert (match combine_registries "all" [sample_registry; sample_other] with
    | Ok reg => size (reg_contracts reg) = 2%nat | _ => False end) as Hsize by (vm_compute; reflexivity).
  destruct (combine_registries "all" [sample_registry; sample_other]) as [reg|e]; [|destruct Hsize].
  exists reg. split; [reflexivity|]. split; [exact (proj1 H)|exact Hsize].
Defined.

Definition sample_task : TaskContract := sample_contract "task" INVESTIGATE_INCIDENT READ_ONLY default_DelegationCeiling.
Definition sample_policy : StaticPolicyEngine :=
  mkStaticPolicyEngine "policy-1"
    [mkRuntimePolicyRule "allow-read" "policy-1" [CAPABILITY_VISIBILITY; CAPABILITY_INVOCATION] ["*"%string]
       ["invoke:*"%string] ["*"%string] (Some PERMIT) [] [mkPolicyObligation "audit" []] []].

Definition sample_card : CapabilityCard :=
  mkCapabilityCard "asset.lookup" 1 "invoke:read" "find assets" ["asset"%string] "lookup" ES_OBSERVATION [] [] "low"
    "free" "fast".

Lemma visible_invocable_witness :
  visible_capabilities sample_registry sample_task "run" sample_policy None None None {["audit"%string]} =
    Ok (mkVisibleCapabilitySet "registry-1" [sample_card] []) ∧
  visible_capabilities sample_registry sample_task "run" sample_policy None None None ∅ =
    Ok (mkVisibleCapabilitySet "registry-1" [] [("asset.lookup@1"%string, ["visibility_obligation_unsatisfied"%string])]) ∧
  ∃ c, reg_contracts sample_registry !! ("asset.lookup"%string, 1) = Some c ∧
    card_of sample_registry sample_task "run" sample_policy None None None {["audit"%string]} c sample_card.
Proof.
  assert (make_registry "registry-1" [sample_capability] sample_descriptors [sample_tool]
    [sample_binding "b-2" 1; sample_binding "b-1" 1; sample_binding "b-0" 2] = Ok sample_registry) as Hreg
    by (vm_compute; reflexivity).
  assert (visible_capabilities sample_registry sample_task "run" sample_policy None None None {["audit"%string]} =
    Ok (mkVisibleCapabilitySet "registry-1" [sample_card] [])) as Hrun by (vm_compute; reflexivity).
  split; [exact Hrun|]. split; [vm_compute; reflexivity|].
  destruct (visible_invocable _ _ _ _ _ _ _ _ _ _ _ _ _ _ Hreg Hrun) as [Hcards _].
  destruct (Hcards sample_card (list_elem_of_here _ _)) as (c&Hc&Hcard&_). exists c. split; [exact Hc|exact Hcard].
Defined.

Definition sample_invocation : CapabilityRequest :=
  mkCapabilityRequest "req-1" "task" "run" None "user:1" "asset.lookup" 1 "invoke:read" "host-7" "asset"
    [("cpe"%string, JStr "x")] ES_OBSERVATION None [].
Definition sample_caller : ExecutionEnvelope :=
  mkExecutionEnvelope "e0" None "task" "run" None "InvestigationRole@1" 1 PROFILE_INVESTIGATE ["asset.lookup"%string]
    (mkDatetime 1000 true) "root" "policy-1" ["id:1"%string] "none" "none" "sandbox@1" [].
Definition sample_grants : InvocationGrants := mkInvocationGrants {["audit"%string]} None None None.
Definition sample_clock (t : Z) : InvocationClock := mkInvocationClock t (t + 1) (t + 2) (t + 3) (t + 4) (t + 5).
Definition sample_answer (consumed : Z) : NativeExecutionResult :=
  mkNativeExecutionResult RS_SUCCEEDED None (Some "artifact:1"%string) None "lookup" [] [] []
    {["tool_calls"%string := consumed]} None None [] "trusted" 60.
Definition sample_run (consumed : Z) : prog BrokerStore CapabilityInvocationOutcome :=
  transaction (invoke sample_hash id (λ _ _, "d"%string) sample_registry sample_policy sample_task sample_caller
    sample_invocation (λ _ _ _, Ok (sample_answer consumed)) [("tool_calls"%string, 2000000)] sample_grants None None 500
    (sample_clock 10)).
Definition sample_broker_op : broker_op :=
  OpInvoke sample_registry sample_policy sample_task sample_caller sample_invocation
    (λ _ _ _, Ok (sample_answer 1000000)) [("tool_calls"%string, 2000000)] sample_grants None None 500 (sample_clock 10).
Definition sample_account : list broker_op := [OpLedger (OpCreate 1 "root" sample_limits None None)].

Lemma sample_ops_wf : Forall broker_op_wf (sample_account ++ [sample_broker_op]).
Proof. repeat constructor; by_decide. Qed.

Lemma broker_history_witness :
  let s := run_broker_ops sample_hash id (λ _ _, "d"%string) sample_account no_calls in
  let s' := run_broker_ops sample_hash id (λ _ _, "d"%string) [sample_broker_op] s in
  length (bs_executed s') = 1%nat ∧ (iv_status <$> bs_invocations s') = ["succeeded"%string] ∧
  committed_of (bs_budget s') "root" "tool_calls" = 1000000 ∧ broker_inv s'.
Proof.
  split; [vm_compute; reflexivity|]. split; [vm_compute; reflexivity|]. split; [vm_compute; reflexivity|].
  apply (broker_history sample_hash id (λ _ _, "d"%string) sample_account [sample_broker_op] "root" "tool_calls").
  - apply (Forall_app broker_op_wf sample_account [sample_broker_op]), sample_ops_wf.
  - apply (Forall_app broker_op_wf sample_account [sample_broker_op]), sample_ops_wf.
Defined.

Definition sample_broker : BrokerStore := run_broker_ops sample_hash id (λ _ _, "d"%string) sample_account no_calls.

Lemma sample_broker_inv : broker_inv sample_broker.
Proof.
  apply run_broker_ops_good; [|apply no_calls_inv].
  apply (Forall_app broker_op_wf sample_account [sample_broker_op]), sample_ops_wf.
Qed.

(** The second call may come from another envelope, deadline passed, with another tool: it is answered from
    the record. *)
Lemma invoke_exactly_once_witness :
  let s1 := (sample_run 1000000 sample_broker).2 in
  ∃ out', transaction (invoke sample_hash id (λ _ _, "d"%string) sample_registry sample_policy sample_task sample_caller
      sample_invocation (λ _ _ _, Err (OtherException "ToolError" "down")) [] sample_grants None None 500
      (sample_clock 5000)) s1 = (Ok out', s1) ∧
    co_replay out' = true ∧ cr_status (co_result out') = RS_SUCCEEDED.
Proof.
  intros s1. destruct (sample_run 1000000 sample_broker) as [[out|e] s1'] eqn:Hrun;
    [|vm_compute in Hrun; discriminate].
  assert (match sample_run 1000000 sample_broker with
    | (Ok out, _) => cr_status (co_result out) = RS_SUCCEEDED | _ => False end) as Hst by (vm_compute; reflexivity).
  rewrite Hrun in Hst. assert (s1 = s1') as -> by reflexivity.
  destruct (invoke_exactly_once sample_hash id (λ _ _, "d"%string) sample_registry sample_policy sample_task
    sample_caller sample_invocation (λ _ _ _, Ok (sample_answer 1000000)) [("tool_calls"%string, 2000000)] sample_grants
    None None 500 (sample_clock 10) sample_broker out s1' []
    sample_registry sample_policy sample_task sample_caller sample_invocation
    (λ _ _ _, Err (OtherException "ToolError" "down")) [] sample_grants None None 500 (sample_clock 5000)
    sample_broker_inv ltac:(by_decide) (Forall_nil_2 _) Hrun eq_refl eq_refl) as (out'&H1&H2&_&_&H3&_).
  exists out'. split; [exact H1|]. split; [exact H2|]. by rewrite H3.
Defined.

(** A tool that reports more than was estimated has run, but settling its reservation raises: the caller's
    transaction loses the invocation's row and the reservation, and the request can call the tool again. *)
Example overconsumption_is_lost :
  match sample_run 2500000 sample_broker with
  | (Err (ValueError _), s') =>
      length (bs_executed s') = 1%nat ∧ bs_invocations s' = [] ∧ reservations (bs_budget s') = [] ∧
      length (bs_executed (sample_run 1000000 s').2) = 2%nat
  | _ => False
  end.
Proof. vm_compute. repeat split. Qed.
