(* ===== verification/Sandbox.v ===== *)
(** * Sandbox: packages/runtime/sandbox (contracts.py, broker.py)

    The broker that gives an execution a sandbox: profiles and their selection, the leases it grants, the programs
    it runs in them, exports and destruction.  The backends (containers, virtual machines) are parameters: what each
    of their methods answers is an argument of the operation that calls it, and every call is recorded in
    [ss_calls], which no rollback undoes.  The rows are those of [sandbox_instances] and [sandbox_executions] in
    runtime/storage/models.py beside the execution table ([Execution]); the foreign key on the task run holds because
    the execution's row has it.  Timeouts are microseconds. *)

From S2P Require Import Prelude.
From S2P Require Import Effects.
From S2P Require Import Policy.
From S2P Require Import TaskContracts.
From S2P Require Import TaskStore.
From S2P Require Import Execution.
From Stdlib Require Import Ascii.

(** ** contracts.py *)

Inductive IsolationClass := ISO_NONE | PROCESS_RESTRICTED | CONTAINER_STANDARD | MICROVM_UNTRUSTED | FULLVM_BROWSER.
#[export] Instance IsolationClass_eq_dec : EqDecision IsolationClass.
Proof. solve_decision. Defined.

(** [_ISOLATION_RANK], [isolation_satisfies] *)
Definition ISOLATION_RANK (c : IsolationClass) : Z :=
  match c with
  | ISO_NONE => 0 | PROCESS_RESTRICTED => 1 | CONTAINER_STANDARD => 2 | MICROVM_UNTRUSTED => 3 | FULLVM_BROWSER => 4
  end.
Definition isolation_satisfies (actual required : IsolationClass) : bool := ISOLATION_RANK actual >=? ISOLATION_RANK required.

(** [cpu_limit], a float, in millionths. *)
Record SandboxProfile := mkSandboxProfile {
  profile_id : string;
  sp_revision : string;
  isolation_class : IsolationClass;
  sp_backend : string;
  image_ref_or_digest : option string;
  run_as_uid_gid : option string;
  cpu_limit : option Z;
  memory_limit : option Z;
  pids_limit : option Z;
  wall_timeout_seconds : option Z;
  rootfs : string;
  sp_writable_paths : list string;
  readonly_mounts : list string;
  seccomp_profile : option string;
  landlock_profile : option string;
  linux_capabilities : list string;
  no_new_privs : bool;
  network_mode : string;
  allowed_destinations : list string;
  credential_injection : string;
  artifact_export_policy : string;
  teardown_policy : string;
  require_hardware_virtualization : bool;
  fallback : string
}.
#[export] Instance SandboxProfile_eq_dec : EqDecision SandboxProfile.
Proof. solve_decision. Defined.

(** [sub in s] *)
Fixpoint contains (sub s : string) : bool :=
  match strip_prefix sub s with
  | Some _ => true
  | None => match s with EmptyString => false | String _ s' => contains sub s' end
  end.

Definition positive_or_none (v : option Z) : bool := match v with Some n => 0 <? n | None => true end.

(** The [gt=0] of the limits and [SandboxProfile.enforce_v1_security_shape]. *)
Definition enforce_v1_security_shape (self : SandboxProfile) : result SandboxProfile :=
  if negb (positive_or_none (cpu_limit self) && positive_or_none (memory_limit self) && positive_or_none (pids_limit self)
           && positive_or_none (wall_timeout_seconds self)) then Err (ValueError "greater than 0")
  else if py_blank (profile_id self) || py_blank (sp_revision self) || py_blank (sp_backend self)
  then Err (ValueError "SandboxProfile identity/backend cannot be empty")
  else if bool_decide (rootfs self ∉ ["read_only"%string; "overlay"%string])
  then Err (ValueError "SandboxProfile rootfs must be read_only or overlay")
  else if bool_decide (network_mode self ∉ ["deny"%string; "allowlist"%string; "proxied"%string])
  then Err (ValueError "SandboxProfile network_mode is invalid")
  else if bool_decide (credential_injection self ∉ ["none"%string; "gateway"%string])
  then Err (ValueError "SandboxProfile credential_injection is invalid")
  else if bool_decide (linux_capabilities self ≠ [])
  then Err (ValueError "v1 Agent sandbox profiles must drop Linux capabilities")
  else if negb (no_new_privs self) then Err (ValueError "v1 Agent sandbox profiles require no_new_privs")
  else if match image_ref_or_digest self with
          | Some image => negb (bool_decide (image = ""%string)) && negb (contains "@sha256:" image)
          | None => false
          end
  then Err (ValueError "sandbox image must be pinned by digest")
  else if bool_decide (isolation_class self = MICROVM_UNTRUSTED) then
    if bool_decide (sp_backend self ≠ "firecracker"%string)
    then Err (ValueError "microvm_untrusted requires Firecracker")
    else if negb (require_hardware_virtualization self)
    then Err (ValueError "microvm_untrusted requires hardware virtualization")
    else if bool_decide (fallback self ≠ "deny"%string) then Err (ValueError "microvm_untrusted fallback must be deny")
    else Ok self
  else Ok self.

Record SandboxSelection := mkSandboxSelection {
  sel_profile : option SandboxProfile;
  sel_available : bool;
  sel_reason : option string
}.

Definition default_profile (id : string) (c : IsolationClass) (backend : string) (writable : list string)
  (network credentials : string) (hardware : bool) : SandboxProfile :=
  mkSandboxProfile id "1" c backend None None None None None None "read_only" writable [] None None [] true network []
    credentials "explicit" "destroy" hardware "deny".

(** [default_sandbox_profiles]; a dict by isolation class. *)
Definition default_sandbox_profiles : list (IsolationClass * SandboxProfile) := [
  (PROCESS_RESTRICTED, default_profile "process_restricted" PROCESS_RESTRICTED "openshell" [] "deny" "none" false);
  (CONTAINER_STANDARD, default_profile "container_standard" CONTAINER_STANDARD "openshell+docker"
     ["/workspace"%string; "/tmp"%string] "proxied" "gateway" false);
  (MICROVM_UNTRUSTED, default_profile "microvm_untrusted" MICROVM_UNTRUSTED "firecracker" [] "deny" "none" true)].

(** [profiles or default_sandbox_profiles()] and [dict.get] *)
Definition configured (profiles : option (list (IsolationClass * SandboxProfile))) : list (IsolationClass * SandboxProfile) :=
  match profiles with Some (p :: ps) => p :: ps | _ => default_sandbox_profiles end.
Definition profile_for (c : IsolationClass) (profiles : list (IsolationClass * SandboxProfile)) : option SandboxProfile :=
  snd <$> find (λ p, bool_decide (p.1 = c)) profiles.

Definition backend_candidates (p : SandboxProfile) : list string := split_on "+" (sp_backend p).

(** [select_sandbox_profile] *)
Definition select_sandbox_profile (minimum : IsolationClass) (available_backends : gset string)
  (profiles : option (list (IsolationClass * SandboxProfile))) : SandboxSelection :=
  if bool_decide (minimum = ISO_NONE) then mkSandboxSelection None true None
  else match profile_for minimum (configured profiles) with
       | None => mkSandboxSelection None false (Some "sandbox_profile_unavailable"%string)
       | Some profile =>
           if bool_decide ((list_to_set (backend_candidates profile) : gset string) ⊆ available_backends)
           then mkSandboxSelection (Some profile) true None
           else mkSandboxSelection None false (Some "sandbox_unavailable"%string)
       end.

(** ** broker.py: the messages *)

Definition SandboxUnavailable (why : string) : exn := OtherException "SandboxUnavailable" why.

(** [PurePosixPath(path).parts] without the root: empty and "." components are dropped. *)
Definition path_parts (path : string) : list string :=
  filter (λ p, p ≠ ""%string ∧ p ≠ "."%string) (split_on "/" path).
Definition is_absolute (path : string) : bool := startswith "/" path.

(** [_validate_absolute_sandbox_path], [_validate_relative_export_path] *)
Definition validate_absolute_sandbox_path (path : string) : result unit :=
  if negb (is_absolute path) || bool_decide (".."%string ∈ path_parts path)
  then Err (ValueError "sandbox writable path must be normalized absolute sandbox path") else Ok tt.
Definition validate_relative_export_path (path : string) : result unit :=
  if is_absolute path || bool_decide (".."%string ∈ path_parts path) || py_blank path
  then Err (ValueError "sandbox export path must be normalized relative path") else Ok tt.

Definition is_artifact_ref (ref : string) : bool := startswith "artifact:" ref.

Record SandboxCreateRequest := mkSandboxCreateRequest {
  sc_request_id : string;
  minimum_isolation : IsolationClass;
  sc_workspace_artifact_refs : list string;
  sc_readonly_artifact_refs : list string;
  requested_writable_paths : list string;
  sc_network_destinations : list string;
  sc_credential_scope : list string
}.

(** [for path in paths: check(path)] *)
Fixpoint check_all {A} (f : A → result unit) (l : list A) : result unit :=
  match l with [] => Ok tt | x :: l' => _ ← f x; check_all f l' end.

(** [SandboxCreateRequest.validate_refs] *)
Definition validate_refs (self : SandboxCreateRequest) : result SandboxCreateRequest :=
  if existsb (λ ref, negb (is_artifact_ref ref)) (sc_workspace_artifact_refs self ++ sc_readonly_artifact_refs self)
  then Err (ValueError "sandbox mounts must use ArtifactRef, not host paths")
  else _ ← check_all validate_absolute_sandbox_path (requested_writable_paths self); Ok self.

Record SandboxGrants := mkSandboxGrants {
  sg_fulfilled_obligation_kinds : list string;
  sg_network_grant_ref : option string;
  sg_credential_grant_ref : option string
}.

Record SandboxLeaseSpec := mkSandboxLeaseSpec {
  sl_execution_id : string;
  sl_task_run_id : string;
  sl_profile : SandboxProfile;
  sl_workspace_artifact_refs : list string;
  sl_readonly_artifact_refs : list string;
  sl_writable_paths : list string;
  sl_network_destinations : list string;
  sl_network_grant_ref : option string;
  sl_credential_scope : list string;
  sl_credential_grant_ref : option string
}.

(** [SandboxLeaseSpec.model_validate]: its profile is validated again. *)
Definition make_SandboxLeaseSpec (self : SandboxLeaseSpec) : result SandboxLeaseSpec :=
  _ ← enforce_v1_security_shape (sl_profile self); Ok self.

Inductive SandboxStatus := SB_ACTIVE | SB_DESTROYED | SB_FAILED.
#[export] Instance SandboxStatus_eq_dec : EqDecision SandboxStatus.
Proof. solve_decision. Defined.

Record SandboxInstance := mkSandboxInstance {
  si_instance_id : string;
  si_execution_id : string;
  si_task_run_id : string;
  si_profile_id : string;
  si_profile_revision : string;
  si_backend : string;
  si_backend_handle_ref : string;
  si_status : SandboxStatus;
  si_created_at : Z
}.

Record SandboxExecRequest := mkSandboxExecRequest {
  operation_id : string;
  program_ref : string;
  sx_arguments : list (string * json);
  input_artifact_refs : list string;
  requested_timeout_seconds : Z
}.

(** The [gt=0] of the timeout and [SandboxExecRequest.validate_program]. *)
Definition validate_program (self : SandboxExecRequest) : result SandboxExecRequest :=
  if negb (0 <? requested_timeout_seconds self) then Err (ValueError "greater than 0")
  else if negb (startswith "program:" (program_ref self) || startswith "artifact:" (program_ref self))
  then Err (ValueError "sandbox execution requires program/artifact reference")
  else if existsb (λ ref, negb (is_artifact_ref ref)) (input_artifact_refs self)
  then Err (ValueError "sandbox execution inputs must use ArtifactRef")
  else Ok self.

Record SandboxBackendExecResult := mkSandboxBackendExecResult {
  bx_status : string;
  bx_exit_code : option Z;
  bx_stdout_artifact_ref : option string;
  bx_stderr_artifact_ref : option string;
  bx_failure_code : option string
}.

Record SandboxExecResult := mkSandboxExecResult {
  sandbox_execution_id : string;
  er_operation_id : string;
  er_status : string;
  exit_code : option Z;
  stdout_artifact_ref : option string;
  stderr_artifact_ref : option string;
  timeout_seconds : Z;
  er_started_at : Z;
  er_finished_at : Z;
  er_failure_code : option string;
  er_replay : bool
}.

(** ** The rows *)

Record SandboxInstanceModel := mkSandboxInstanceModel {
  sm_instance_id : string;
  sm_execution_id : string;
  sm_task_run_id : string;
  sm_request_id : string;
  sm_profile_id : string;
  sm_profile_revision : string;
  sm_backend : string;
  sm_backend_handle_ref : option string;
  sm_request_json : SandboxCreateRequest;
  lease_json : SandboxLeaseSpec;
  sm_policy_decision_ref : string;
  sm_policy_decision_json : PolicyDecision;
  sm_status : SandboxStatus;
  sm_created_at : Z;
  destroyed_at : option Z;
  sm_failure_code : option string
}.

(** [status] is "running" or what the backend reports. *)
Record SandboxExecutionModel := mkSandboxExecutionModel {
  xm_sandbox_execution_id : string;
  xm_instance_id : string;
  xm_operation_id : string;
  xm_request_json : SandboxExecRequest;
  xm_result_json : option SandboxExecResult;
  xm_status : string;
  xm_timeout_seconds : Z;
  xm_started_at : Z;
  xm_finished_at : option Z;
  xm_failure_code : option string
}.

Inductive BackendCall :=
| CreateCall (backend : string) (lease : SandboxLeaseSpec)
| ExecCall (backend handle : string) (request : SandboxExecRequest) (timeout : Z)
| ExportCall (backend handle : string) (paths : list string)
| DestroyCall (backend handle : string).

Record SandboxStore := mkSandboxStore {
  ss_executions : ExecutionTable;
  ss_instances : list SandboxInstanceModel;
  ss_operations : list SandboxExecutionModel;
  ss_calls : list BackendCall
}.
Definition set_ss_executions (t : ExecutionTable) (s : SandboxStore) : SandboxStore :=
  mkSandboxStore t (ss_instances s) (ss_operations s) (ss_calls s).
Definition set_ss_instances (l : list SandboxInstanceModel) (s : SandboxStore) : SandboxStore :=
  mkSandboxStore (ss_executions s) l (ss_operations s) (ss_calls s).
Definition set_ss_operations (l : list SandboxExecutionModel) (s : SandboxStore) : SandboxStore :=
  mkSandboxStore (ss_executions s) (ss_instances s) l (ss_calls s).
Definition set_ss_calls (l : list BackendCall) (s : SandboxStore) : SandboxStore :=
  mkSandboxStore (ss_executions s) (ss_instances s) (ss_operations s) l.

#[export] Program Instance sandbox_executions : Embeds SandboxStore ExecutionTable := {|
  view := ss_executions; set_view := set_ss_executions |}.
Solve Obligations with by intros; repeat match goal with s : SandboxStore |- _ => destruct s end.

(** A [SandboxBackend]: what its methods answer. *)
Record SandboxBackend := mkSandboxBackend {
  be_create : SandboxLeaseSpec → result string;
  be_exec : string → SandboxExecRequest → Z → result SandboxBackendExecResult;
  be_export : string → list string → result (list string);
  be_destroy : string → result unit
}.
Definition call_backend {A} (call : BackendCall) (answer : result A) : prog SandboxStore A :=
  modify (λ s, set_ss_calls (ss_calls s ++ [call]) s);; lift answer.

(** ** broker.py: the broker *)

(** [detect_available_backend_components]; [kvm] is whether /dev/kvm exists. *)
Definition detect_available_backend_components (which : string → option string) (kvm : bool) : gset string :=
  list_to_set (filter (λ name, which name ≠ None) ["openshell"%string; "docker"%string; "podman"%string]
               ++ (if negb (bool_decide (which "firecracker"%string = None)) && kvm then ["firecracker"%string] else [])).

Record SandboxBroker := mkSandboxBroker {
  sb_policy : StaticPolicyEngine;
  sb_backends : list (string * SandboxBackend);
  sb_profiles : option (list (IsolationClass * SandboxProfile));
  sb_available : gset string
}.

Definition subset_of_list (l l' : list string) : bool := forallb (λ x, bool_decide (x ∈ l')) l.
Definition find_backend (name : string) (self : SandboxBroker) : option SandboxBackend := dict_get name (sb_backends self).

(** [_validate_request_against_profile] *)
Definition validate_request_against_profile (request : SandboxCreateRequest) (profile : SandboxProfile)
  (grants : SandboxGrants) : result unit :=
  if negb (subset_of_list (requested_writable_paths request) (sp_writable_paths profile))
  then Err (ValueError "sandbox writable path exceeds profile")
  else if bool_decide (network_mode profile = "deny"%string) && negb (bool_decide (sc_network_destinations request = []))
  then Err (ValueError "sandbox profile denies network")
  else if bool_decide (network_mode profile = "allowlist"%string)
          && negb (subset_of_list (sc_network_destinations request) (allowed_destinations profile))
  then Err (ValueError "sandbox destination exceeds profile allowlist")
  else if bool_decide (network_mode profile = "proxied"%string) && negb (bool_decide (sc_network_destinations request = []))
          && bool_decide (sg_network_grant_ref grants = None)
  then Err (ValueError "proxied sandbox network requires NetworkGrant")
  else if negb (bool_decide (sc_credential_scope request = [])) then
    if negb (bool_decide (credential_injection profile = "gateway"%string))
    then Err (ValueError "sandbox profile does not allow credential injection")
    else if bool_decide (sg_credential_grant_ref grants = None)
    then Err (ValueError "sandbox credential scope requires CredentialGrant")
    else Ok tt
  else Ok tt.

Definition authorization_value (a : Authorization) : string :=
  match a with PERMIT => "permit" | DENY => "deny" | INDETERMINATE => "indeterminate" end.

(** [_enforce_policy_decision] *)
Definition missing_obligations (decision : PolicyDecision) (fulfilled : list string) : list string :=
  sorted_set (filter (λ k, k ∉ fulfilled) (po_kind <$> constraints decision ++ obligations decision)).
Definition enforce_policy_decision (decision : PolicyDecision) (fulfilled : list string) : result unit :=
  if bool_decide (authorization decision ≠ PERMIT)
  then Err (SandboxUnavailable ("sandbox_policy_" +:+ authorization_value (authorization decision)))
  else if bool_decide (missing_obligations decision fulfilled ≠ [])
  then Err (SandboxUnavailable ("sandbox_policy_obligation_unsatisfied:"
                                  +:+ String.concat "," (missing_obligations decision fulfilled)))
  else Ok tt.

(** [failure_code or "sandbox_instance_unavailable"] *)
Definition failure_or_unavailable (code : option string) : string :=
  match code with Some (String c s) => String c s | _ => "sandbox_instance_unavailable" end.

(** [_instance_view] *)
Definition instance_view (model : SandboxInstanceModel) : result SandboxInstance :=
  match sm_backend_handle_ref model with
  | None => Err (SandboxUnavailable (failure_or_unavailable (sm_failure_code model)))
  | Some handle =>
      Ok (mkSandboxInstance (sm_instance_id model) (sm_execution_id model) (sm_task_run_id model) (sm_profile_id model)
            (sm_profile_revision model) (sm_backend model) handle (sm_status model) (sm_created_at model))
  end.

(** [_finish_exec_audit] *)
Definition finish_exec_audit (res : SandboxExecResult) (m : SandboxExecutionModel) : SandboxExecutionModel :=
  mkSandboxExecutionModel (xm_sandbox_execution_id m) (xm_instance_id m) (xm_operation_id m) (xm_request_json m)
    (Some res) (er_status res) (xm_timeout_seconds m) (xm_started_at m) (Some (er_finished_at res)) (er_failure_code res).
Definition update_operation (id : string) (f : SandboxExecutionModel → SandboxExecutionModel) : prog SandboxStore unit :=
  modify (λ s, set_ss_operations (update_where (λ m, bool_decide (xm_sandbox_execution_id m = id)) f (ss_operations s)) s).

(** [_validate_backend_artifact_refs] *)
Definition bad_ref (ref : option string) : bool := match ref with Some r => negb (is_artifact_ref r) | None => false end.
Definition validate_backend_artifact_refs (res : SandboxExecResult) : result unit :=
  if bad_ref (stdout_artifact_ref res) || bad_ref (stderr_artifact_ref res)
  then Err (RuntimeError "sandbox backend output must be ArtifactRef") else Ok tt.

Definition find_sandbox (execution_id request_id : string) (s : SandboxStore) : option SandboxInstanceModel :=
  find (λ m, bool_decide (sm_execution_id m = execution_id) && bool_decide (sm_request_id m = request_id)) (ss_instances s).
Definition get_sandbox (id : string) (s : SandboxStore) : option SandboxInstanceModel :=
  find (λ m, bool_decide (sm_instance_id m = id)) (ss_instances s).
Definition find_operation (instance_id operation : string) (s : SandboxStore) : option SandboxExecutionModel :=
  find (λ m, bool_decide (xm_instance_id m = instance_id) && bool_decide (xm_operation_id m = operation)) (ss_operations s).

(** The handle of an active instance. *)
Definition active_handle (m : SandboxInstanceModel) : option string :=
  if bool_decide (sm_status m = SB_ACTIVE) then sm_backend_handle_ref m else None.
Definition set_destroyed (now : Z) (m : SandboxInstanceModel) : SandboxInstanceModel :=
  mkSandboxInstanceModel (sm_instance_id m) (sm_execution_id m) (sm_task_run_id m) (sm_request_id m) (sm_profile_id m)
    (sm_profile_revision m) (sm_backend m) (sm_backend_handle_ref m) (sm_request_json m) (lease_json m)
    (sm_policy_decision_ref m) (sm_policy_decision_json m) SB_DESTROYED (sm_created_at m) (Some now) (sm_failure_code m).

Section broker.
Context (uuid5_url : string → string) (hexdigest : PolicyRequest → PolicyDecision → string).

Definition sandbox_id (value : string) : string := uuid5_url ("secfusion:" +:+ value).

Definition profile_ref (p : SandboxProfile) : string := profile_id p +:+ "@" +:+ sp_revision p.

(** The policy request of a creation. *)
Definition sandbox_policy_request (task : TaskContract) (envelope : ExecutionEnvelope) (profile : SandboxProfile)
  : PolicyRequest :=
  mkPolicyRequest SANDBOX_SELECTION (tc_principal task) "sandbox.create" ("sandbox-profile:" +:+ profile_id profile)
    [("task_contract_id"%string, JStr (tc_id task)); ("task_run_id"%string, JStr (ee_task_run_id envelope));
     ("execution_id"%string, JStr (execution_id envelope)); ("sandbox_profile"%string, JStr (profile_ref profile))].

Definition lease_of (envelope : ExecutionEnvelope) (request : SandboxCreateRequest) (profile : SandboxProfile)
  (grants : SandboxGrants) : SandboxLeaseSpec :=
  mkSandboxLeaseSpec (execution_id envelope) (ee_task_run_id envelope) profile (sc_workspace_artifact_refs request)
    (sc_readonly_artifact_refs request) (requested_writable_paths request) (sc_network_destinations request)
    (sg_network_grant_ref grants) (sc_credential_scope request) (sg_credential_grant_ref grants).

Definition new_instance (envelope : ExecutionEnvelope) (request : SandboxCreateRequest) (profile : SandboxProfile)
  (lease : SandboxLeaseSpec) (handle : string) (decision_ref : string) (decision : PolicyDecision) (now : Z)
  : SandboxInstanceModel :=
  mkSandboxInstanceModel
    (sandbox_id ("sandbox-instance:" +:+ execution_id envelope +:+ ":" +:+ sc_request_id request))
    (execution_id envelope) (ee_task_run_id envelope) (sc_request_id request) (profile_id profile) (sp_revision profile)
    (sp_backend profile) (Some handle) request lease decision_ref decision SB_ACTIVE now None None.

(** The profile of a creation, with the checks that come before the policy. *)
Definition select_profile (self : SandboxBroker) (envelope : ExecutionEnvelope) (request : SandboxCreateRequest)
  (grants : SandboxGrants) : result SandboxProfile :=
  let selection := select_sandbox_profile (minimum_isolation request) (sb_available self) (sb_profiles self) in
  match sel_available selection, sel_profile selection with
  | true, Some profile =>
      _ ← raise_when (bool_decide (sandbox_profile_revision envelope ≠ profile_ref profile))
            (SandboxUnavailable "sandbox_profile_revision_mismatch");
      _ ← raise_when (bool_decide (find_backend (sp_backend profile) self = None :> option SandboxBackend))
            (SandboxUnavailable "sandbox_backend_adapter_unavailable");
      _ ← raise_when (negb (subset_of_list (sc_credential_scope request) (identity_scope envelope)))
            (SandboxUnavailable "sandbox_credential_scope_exceeds_execution_identity");
      _ ← validate_request_against_profile request profile grants;
      Ok profile
  | _, _ => Err (SandboxUnavailable (match sel_reason selection with
                                     | Some (String c r) => String c r | _ => "sandbox_unavailable" end))
  end.

(** [SandboxBroker.create] *)
Definition create_sandbox (self : SandboxBroker) (task : TaskContract) (envelope : ExecutionEnvelope)
  (request : SandboxCreateRequest) (grants : SandboxGrants) (now : Z) : prog SandboxStore SandboxInstance :=
  s ← get_store;
  match find_sandbox (execution_id envelope) (sc_request_id request) s with
  | Some existing =>
      check (bool_decide (active_handle existing = None))
        (SandboxUnavailable (failure_or_unavailable (sm_failure_code existing)));;
      lift (instance_view existing)
  | None =>
      persisted ← zoom (get_execution (execution_id envelope));
      check (bool_decide (persisted ≠ envelope)) (SandboxUnavailable "sandbox_execution_envelope_mismatch");;
      profile ← lift (select_profile self envelope request grants);
      backend ← require (find_backend (sp_backend profile) self) (SandboxUnavailable "sandbox_backend_adapter_unavailable");
      policy_request ← lift (validate_request (sandbox_policy_request task envelope profile));
      let decision := evaluate (sb_policy self) policy_request in
      lift (enforce_policy_decision decision (sg_fulfilled_obligation_kinds grants));;
      let lease := lease_of envelope request profile grants in
      handle ← call_backend (CreateCall (sp_backend profile) lease) (be_create backend lease);
      let model := new_instance envelope request profile lease handle
                     (decision_ref hexdigest (sb_policy self) policy_request decision) decision now in
      check (bool_decide (sm_instance_id model ∈ sm_instance_id <$> ss_instances s)) (IntegrityError "sandbox_instances");;
      modify (λ s, set_ss_instances (ss_instances s ++ [model]) s);;
      lift (instance_view model)
  end.

(** The three readings of the clock in [exec]. *)
Record SandboxClock := mkSandboxClock { bounded_at : Z; started_at : Z; finished_at : Z }.

(** The time a program gets. *)
Definition exec_timeout (envelope : ExecutionEnvelope) (profile : SandboxProfile) (request : SandboxExecRequest) (now : Z)
  : result Z :=
  timeout ← bounded_timeout_seconds envelope (mkDatetime now true) (requested_timeout_seconds request);
  Ok (match wall_timeout_seconds profile with Some w => Z.min timeout (w * 1000000) | None => timeout end).

Definition new_operation (instance_id : string) (request : SandboxExecRequest) (timeout now : Z) : SandboxExecutionModel :=
  mkSandboxExecutionModel (sandbox_id ("sandbox-exec:" +:+ instance_id +:+ ":" +:+ operation_id request)) instance_id
    (operation_id request) request None "running" timeout now None None.

Definition timed_out_result (audit : SandboxExecutionModel) (clock : SandboxClock) : SandboxExecResult :=
  mkSandboxExecResult (xm_sandbox_execution_id audit) (xm_operation_id audit) "timed_out" None None None 0
    (started_at clock) (finished_at clock) (Some "execution_deadline_reached"%string) false.
Definition native_result (audit : SandboxExecutionModel) (native : SandboxBackendExecResult) (timeout : Z)
  (clock : SandboxClock) : SandboxExecResult :=
  mkSandboxExecResult (xm_sandbox_execution_id audit) (xm_operation_id audit) (bx_status native) (bx_exit_code native)
    (bx_stdout_artifact_ref native) (bx_stderr_artifact_ref native) timeout (started_at clock) (finished_at clock)
    (bx_failure_code native) false.

Definition as_replay (res : SandboxExecResult) : SandboxExecResult :=
  mkSandboxExecResult (sandbox_execution_id res) (er_operation_id res) (er_status res) (exit_code res)
    (stdout_artifact_ref res) (stderr_artifact_ref res) (timeout_seconds res) (er_started_at res) (er_finished_at res)
    (er_failure_code res) true.

(** The run of an operation that is new. *)
Definition exec_fresh (self : SandboxBroker) (envelope : ExecutionEnvelope) (instance : SandboxInstanceModel)
  (handle : string) (request : SandboxExecRequest) (clock : SandboxClock) : prog SandboxStore SandboxExecResult :=
  lease ← lift (make_SandboxLeaseSpec (lease_json instance));
  timeout ← lift (exec_timeout envelope (sl_profile lease) request (bounded_at clock));
  let audit := new_operation (sm_instance_id instance) request timeout (started_at clock) in
  s ← get_store;
  check (bool_decide (xm_sandbox_execution_id audit ∈ xm_sandbox_execution_id <$> ss_operations s))
    (IntegrityError "sandbox_executions");;
  modify (λ s, set_ss_operations (ss_operations s ++ [audit]) s);;
  res ← (if timeout <=? 0 then mret (timed_out_result audit clock)
         else
           backend ← require (find_backend (sm_backend instance) self)
                       (SandboxUnavailable "sandbox_backend_adapter_unavailable");
           native ← call_backend (ExecCall (sm_backend instance) handle request timeout)
                      (be_exec backend handle request timeout);
           let res := native_result audit native timeout clock in
           lift (validate_backend_artifact_refs res);;
           mret res);
  update_operation (xm_sandbox_execution_id audit) (finish_exec_audit res);;
  mret res.

(** The active instance an operation works on. *)
Definition require_active (instance_id : string) : prog SandboxStore SandboxInstanceModel :=
  s ← get_store; require (get_sandbox instance_id s) (LookupError "sandbox instance not found" instance_id).

(** [SandboxBroker.exec] *)
Definition exec_sandbox (self : SandboxBroker) (envelope : ExecutionEnvelope) (instance_id : string)
  (request : SandboxExecRequest) (clock : SandboxClock) : prog SandboxStore SandboxExecResult :=
  instance ← require_active instance_id;
  check (bool_decide (sm_execution_id instance ≠ execution_id envelope))
    (ValueError "sandbox instance escapes ExecutionEnvelope");;
  handle ← require (active_handle instance) (SandboxUnavailable "sandbox_instance_not_active");
  s ← get_store;
  match find_operation instance_id (operation_id request) s with
  | Some existing =>
      match xm_result_json existing, xm_finished_at existing with
      | Some res, Some _ => mret (as_replay res)
      | _, _ => raise (RuntimeError "sandbox operation is already running")
      end
  | None => exec_fresh self envelope instance handle request clock
  end.

(** [SandboxBroker.export] *)
Definition export_sandbox (self : SandboxBroker) (instance_id : string) (relative_paths : list string)
  : prog SandboxStore (list string) :=
  instance ← require_active instance_id;
  handle ← require (active_handle instance) (SandboxUnavailable "sandbox_instance_not_active");
  lease ← lift (make_SandboxLeaseSpec (lease_json instance));
  check (bool_decide (artifact_export_policy (sl_profile lease) ≠ "explicit"%string))
    (SandboxUnavailable "sandbox_artifact_export_disabled");;
  lift (check_all validate_relative_export_path relative_paths);;
  backend ← require (find_backend (sm_backend instance) self) (SandboxUnavailable "sandbox_backend_adapter_unavailable");
  refs ← call_backend (ExportCall (sm_backend instance) handle relative_paths) (be_export backend handle relative_paths);
  check (existsb (λ ref, negb (is_artifact_ref ref)) refs)
    (RuntimeError "sandbox backend returned non-ArtifactRef export");;
  mret refs.

(** [SandboxBroker.destroy] *)
Definition destroy_sandbox (self : SandboxBroker) (instance_id : string) (now : Z) : prog SandboxStore unit :=
  instance ← require_active instance_id;
  if bool_decide (sm_status instance = SB_DESTROYED) then mret tt
  else
    match sm_backend_handle_ref instance with
    | Some handle =>
        backend ← require (find_backend (sm_backend instance) self)
                    (SandboxUnavailable "sandbox_backend_adapter_unavailable");
        call_backend (DestroyCall (sm_backend instance) handle) (be_destroy backend handle)
    | None => mret tt
    end;;
    modify (λ s, set_ss_instances (update_where (λ m, bool_decide (sm_instance_id m = instance_id)) (set_destroyed now)
                                     (ss_instances s)) s).

(** The transaction of a caller: an exception undoes the rows, not the calls of the backends. *)
Definition sandbox_transaction {A} (m : prog SandboxStore A) : prog SandboxStore A := λ s,
  match m s with
  | (Ok a, s') => (Ok a, s')
  | (Err e, s') => (Err e, set_ss_calls (ss_calls s') s)
  end.

(** What happens to the store: another component adds or changes an execution row, or the broker is called. *)
Inductive sandbox_op :=
| PutExecution (m : ExecutionRunModel)
| CreateSandbox (self : SandboxBroker) (task : TaskContract) (envelope : ExecutionEnvelope)
    (request : SandboxCreateRequest) (grants : SandboxGrants) (now : Z)
| ExecSandbox (self : SandboxBroker) (envelope : ExecutionEnvelope) (instance_id : string)
    (request : SandboxExecRequest) (clock : SandboxClock)
| ExportSandbox (self : SandboxBroker) (instance_id : string) (paths : list string)
| DestroySandbox (self : SandboxBroker) (instance_id : string) (now : Z).

Definition run_sandbox_op (op : sandbox_op) : prog SandboxStore unit :=
  sandbox_transaction
    match op with
    | PutExecution m => modify (λ s, set_ss_executions (<[xr_execution_id m := m]> (ss_executions s)) s)
    | CreateSandbox self task envelope request grants now =>
        request' ← lift (validate_refs request); _ ← create_sandbox self task envelope request' grants now; mret tt
    | ExecSandbox self envelope id request clock =>
        request' ← lift (validate_program request); _ ← exec_sandbox self envelope id request' clock; mret tt
    | ExportSandbox self id paths => _ ← export_sandbox self id paths; mret tt
    | DestroySandbox self id now => destroy_sandbox self id now
    end.
Definition run_sandbox_ops (ops : list sandbox_op) (s : SandboxStore) : SandboxStore :=
  foldl (λ s op, (run_sandbox_op op s).2) s ops.
Definition empty_sandbox : SandboxStore := mkSandboxStore ∅ [] [] [].
End broker.

(** ** What a creation checks *)

Lemma subset_of_list_true l l' : subset_of_list l l' = true ↔ l ⊆ l'.
Proof.
  unfold subset_of_list. split.
  - intros H x Hx%list_elem_of_In. by apply (proj1 (forallb_forall _ _) H), bool_decide_eq_true in Hx.
  - intros H. apply forallb_forall. intros x Hx%list_elem_of_In. apply bool_decide_eq_true. by apply H.
Qed.

(** The lease stays within its profile. *)
Record lease_within (l : SandboxLeaseSpec) : Prop := {
  lw_writable : sl_writable_paths l ⊆ sp_writable_paths (sl_profile l);
  lw_deny : network_mode (sl_profile l) = "deny"%string → sl_network_destinations l = [];
  lw_allowlist : network_mode (sl_profile l) = "allowlist"%string →
    sl_network_destinations l ⊆ allowed_destinations (sl_profile l);
  lw_proxied : network_mode (sl_profile l) = "proxied"%string → sl_network_destinations l ≠ [] →
    is_Some (sl_network_grant_ref l);
  lw_credentials : sl_credential_scope l ≠ [] →
    credential_injection (sl_profile l) = "gateway"%string ∧ is_Some (sl_credential_grant_ref l)
}.

Lemma validate_request_Ok_within envelope request profile grants u :
  validate_request_against_profile request profile grants = Ok u → lease_within (lease_of envelope request profile grants).
Proof.
  unfold validate_request_against_profile. intros H.
  destruct (subset_of_list (requested_writable_paths request) _) eqn:H1; [|done]. apply subset_of_list_true in H1.
  destruct (bool_decide (network_mode profile = "deny"%string) && _) eqn:H2; [done|].
  destruct (bool_decide (network_mode profile = "allowlist"%string) && _) eqn:H3; [done|].
  destruct (bool_decide (network_mode profile = "proxied"%string) && _ && _) eqn:H4; [done|].
  split; simpl.
  - done.
  - intros Hm. rewrite bool_decide_true in H2 by done. simpl in H2. by apply negb_false_iff, bool_decide_eq_true in H2.
  - intros Hm. rewrite (bool_decide_true (_ = "allowlist"%string)) in H3 by done. simpl in H3.
    by apply negb_false_iff, subset_of_list_true in H3.
  - intros Hm Hd. rewrite (bool_decide_true (_ = "proxied"%string)), bool_decide_false in H4 by done. simpl in H4.
    apply bool_decide_eq_false in H4. by apply not_eq_None_Some.
  - intros Hc. rewrite (bool_decide_false (sc_credential_scope request = [])) in H by done. simpl in H.
    destruct (bool_decide (credential_injection profile = "gateway"%string)) eqn:H5; [|done].
    apply bool_decide_eq_true in H5. split; [done|]. simpl in H. case_bool_decide; [done|]. by apply not_eq_None_Some.
Qed.

Lemma enforce_policy_decision_Ok decision fulfilled u :
  enforce_policy_decision decision fulfilled = Ok u →
  authorization decision = PERMIT ∧ ∀ o, o ∈ constraints decision ++ obligations decision → po_kind o ∈ fulfilled.
Proof.
  unfold enforce_policy_decision. intros H. case_bool_decide as H1; [done|]. case_bool_decide as H2; [done|].
  split; [done|]. intros o Ho. destruct (decide (po_kind o ∈ fulfilled)) as [|Hn]; [done|exfalso].
  unfold missing_obligations in H2. rewrite sorted_set_nil in H2. rename H2 into Hm.
  assert (po_kind o ∈ filter (λ k, k ∉ fulfilled) (po_kind <$> constraints decision ++ obligations decision)) as Hin.
  { apply list_elem_of_filter. split; [done|]. by apply list_elem_of_fmap_2. }
  rewrite Hm in Hin. by apply elem_of_nil in Hin.
Qed.

Lemma select_sandbox_profile_Some minimum available profiles p :
  sel_available (select_sandbox_profile minimum available profiles) = true →
  sel_profile (select_sandbox_profile minimum available profiles) = Some p →
  minimum ≠ ISO_NONE ∧ profile_for minimum (configured profiles) = Some p ∧
  ∀ b, b ∈ backend_candidates p → b ∈ available.
Proof.
  unfold select_sandbox_profile. case_bool_decide; [done|]. destruct (profile_for _ _) as [q|]; [|done].
  case_bool_decide as Hb; [|done]. intros _ [= <-]. split; [done|]. split; [done|]. intros b Hin.
  apply Hb. by apply elem_of_list_to_set.
Qed.

Lemma default_profile_class c p : profile_for c (configured None) = Some p → isolation_class p = c.
Proof. by destruct c; intros [= <-]. Qed.

(** What has been checked when a sandbox is created. *)
Record sandbox_authorized (self : SandboxBroker) (task : TaskContract) (envelope : ExecutionEnvelope)
  (request : SandboxCreateRequest) (grants : SandboxGrants) (profile : SandboxProfile) (s : SandboxStore) : Prop := {
  sa_new : find_sandbox (execution_id envelope) (sc_request_id request) s = None;
  sa_envelope : ∃ m, ss_executions s !! execution_id envelope = Some m ∧ envelope_json m = envelope;
  sa_profile : profile_for (minimum_isolation request) (configured (sb_profiles self)) = Some profile;
  sa_isolation : minimum_isolation request ≠ ISO_NONE ∧
    (sb_profiles self = None → isolation_class profile = minimum_isolation request);
  sa_backend : ∀ b, b ∈ backend_candidates profile → b ∈ sb_available self;
  sa_revision : sandbox_profile_revision envelope = profile_ref profile;
  sa_identity : sc_credential_scope request ⊆ identity_scope envelope;
  sa_lease : lease_within (lease_of envelope request profile grants);
  sa_policy : authorization (evaluate (sb_policy self) (sandbox_policy_request task envelope profile)) = PERMIT;
  sa_obligations : ∀ o, o ∈ constraints (evaluate (sb_policy self) (sandbox_policy_request task envelope profile)) ++
      obligations (evaluate (sb_policy self) (sandbox_policy_request task envelope profile)) →
    po_kind o ∈ sg_fulfilled_obligation_kinds grants
}.

Lemma select_profile_Ok self envelope request grants p :
  select_profile self envelope request grants = Ok p →
  (minimum_isolation request ≠ ISO_NONE ∧ profile_for (minimum_isolation request) (configured (sb_profiles self)) = Some p ∧
   ∀ b, b ∈ backend_candidates p → b ∈ sb_available self) ∧
  sandbox_profile_revision envelope = profile_ref p ∧ sc_credential_scope request ⊆ identity_scope envelope ∧
  lease_within (lease_of envelope request p grants).
Proof.
  unfold select_profile. intros H. destruct (sel_available _) eqn:Ha; [|done]. destruct (sel_profile _) as [q|] eqn:Hq; [|done].
  apply result_bind_Ok in H as (u1&H1%raise_when_Ok&H). apply result_bind_Ok in H as (u2&_&H).
  apply result_bind_Ok in H as (u3&H3%raise_when_Ok&H). apply result_bind_Ok in H as (u4&H4&H). injection H as ->.
  split; [by apply select_sandbox_profile_Some|]. split; [by apply bool_decide_eq_false, dec_stable in H1|].
  split; [by apply negb_false_iff, subset_of_list_true in H3|by eapply validate_request_Ok_within].
Qed.

Lemma get_execution_Ok id t envelope t' :
  get_execution id t = (Ok envelope, t') → t' = t ∧ ∃ m, t !! id = Some m ∧ envelope_json m = envelope.
Proof.
  unfold get_execution, lock_execution. intros H. prog_inv H. split; [done|]. eexists. split; [done|].
  by apply validate_envelope_Ok in Hlift.
Qed.

Section creations.
Context (uuid5_url : string → string) (hexdigest : PolicyRequest → PolicyDecision → string).

(** What a creation leaves, however it ends. *)
Definition created (self : SandboxBroker) (task : TaskContract) (envelope : ExecutionEnvelope)
  (request : SandboxCreateRequest) (grants : SandboxGrants) (now : Z) (s : SandboxStore)
  (r : result SandboxInstance) (s' : SandboxStore) : Prop :=
  (ss_calls s' = ss_calls s ∧ ∀ i, r = Ok i → s' = s ∧ ∃ m,
     find_sandbox (execution_id envelope) (sc_request_id request) s = Some m ∧ sm_status m = SB_ACTIVE ∧
     instance_view m = Ok i) ∨
  ∃ profile, sandbox_authorized self task envelope request grants profile s ∧
    let lease := lease_of envelope request profile grants in
    ss_calls s' = ss_calls s ++ [CreateCall (sp_backend profile) lease] ∧
    ∀ i, r = Ok i → ∃ handle ref decision,
      let model := new_instance uuid5_url envelope request profile lease handle ref decision now in
      authorization decision = PERMIT ∧
      (sm_instance_id model ∉ (sm_instance_id <$> ss_instances s)) ∧ instance_view model = Ok i ∧
      s' = mkSandboxStore (ss_executions s) (ss_instances s ++ [model]) (ss_operations s)
             (ss_calls s ++ [CreateCall (sp_backend profile) lease]).

Lemma create_sandbox_created self task envelope request grants now s :
  wp (create_sandbox uuid5_url hexdigest self task envelope request grants now) s (created self task envelope request grants now s).
Proof.
  unfold create_sandbox. wp_step. wp_step. cbv beta iota.
  destruct (find_sandbox _ _ s) as [existing|] eqn:Hfind.
  - wp_step. wp_step; [by left|]. wp_step. left. split; [done|]. intros i Hi. split; [done|]. exists existing.
    split; [done|]. split; [|done]. match goal with H : bool_decide (active_handle _ = None) = false |- _ =>
      apply bool_decide_eq_false in H; unfold active_handle in H end. by case_bool_decide.
  - wp_step. apply wp_zoom_view. intros r t Hget. destruct r as [persisted|e].
    2: { left. split; [by destruct s|done]. }
    apply get_execution_Ok in Hget as (->&m&Hm&Henv).
    assert (set_view (view s) s = s) as -> by by destruct s.
    wp_step. wp_step; [by left|]. match goal with H : bool_decide (persisted ≠ envelope) = false |- _ =>
      apply bool_decide_eq_false, dec_stable in H as -> end.
    wp_step. wp_step. destruct (select_profile _ _ _ _) as [profile|] eqn:Hprof; [|by left].
    apply select_profile_Ok in Hprof as ((Hiso&Hpf&Hback)&Hrev&Hcred&Hlease).
    wp_step. wp_step; [by left|]. wp_step. wp_step. destruct (validate_request _) as [pr|] eqn:Hpr; [|by left].
    apply validate_request_Ok in Hpr as ->. wp_step. wp_step.
    destruct (enforce_policy_decision _ _) as [u|] eqn:Hpol; [|by left].
    apply enforce_policy_decision_Ok in Hpol as [Hpermit Hobl].
    assert (sandbox_authorized self task envelope request grants profile s) as Hauth.
    { split; try done; [by exists m|]. split; [done|]. intros Hnone. rewrite Hnone in Hpf. by apply default_profile_class. }
    unfold call_backend. wp_step. wp_step. wp_step. cbv beta iota. wp_step. cbv beta iota.
    destruct (be_create _ _) as [handle|] eqn:Hh; [|by right; exists profile].
    wp_step. wp_step; [by right; exists profile|]. wp_step. wp_step. cbv beta iota. wp_step.
    right. exists profile. split; [done|]. split; [done|]. intros i Hi. eexists handle, _, _. split; [exact Hpermit|].
    match goal with H : bool_decide (_ ∈ _) = false |- _ => apply bool_decide_eq_false in H end. done.
Qed.

(** C6. No sandbox is created without authority: a creation calls at most one backend, once, with the lease of its
    request; when it does, the request was new, the envelope is the stored one of the execution and names the profile,
    the profile is the configured one for the isolation that was asked for (of that very class, for the default
    profiles) and its components are available, the lease stays within the profile's paths, network and credentials
    and within the identity of the execution, and the policy permits it with every constraint and obligation
    fulfilled.  A creation that calls no backend and succeeds returns the active instance of the same request. *)
Theorem sandbox_created_authorized self task envelope request grants now s :
  let out := create_sandbox uuid5_url hexdigest self task envelope request grants now s in
  (ss_calls out.2 = ss_calls s ∧ ∀ i, out.1 = Ok i → out.2 = s ∧ ∃ m,
     find_sandbox (execution_id envelope) (sc_request_id request) s = Some m ∧ sm_status m = SB_ACTIVE ∧
     instance_view m = Ok i) ∨
  ∃ profile, sandbox_authorized self task envelope request grants profile s ∧
    ss_calls out.2 = ss_calls s ++ [CreateCall (sp_backend profile) (lease_of envelope request profile grants)].
Proof.
  destruct (create_sandbox_created self task envelope request grants now s) as [H|(profile&Hauth&Hcalls&_)];
    [by left|right]. by exists profile.
Qed.
End creations.

(** ** What an execution leaves *)

Section executions.
Context (uuid5_url : string → string).

(** The program a backend may run for an operation. *)
Record exec_allowed (envelope : ExecutionEnvelope) (id : string) (request : SandboxExecRequest) (clock : SandboxClock)
  (m : SandboxInstanceModel) (handle : string) (timeout : Z) (s : SandboxStore) : Prop := {
  xa_instance : get_sandbox id s = Some m;
  xa_execution : sm_execution_id m = execution_id envelope;
  xa_active : active_handle m = Some handle;
  xa_new : find_operation id (operation_id request) s = None;
  xa_timeout : 0 < timeout ≤ requested_timeout_seconds request;
  xa_deadline : bounded_at clock + timeout ≤ dt_us (deadline_at envelope);
  xa_wall : ∀ w, wall_timeout_seconds (sl_profile (lease_json m)) = Some w → timeout ≤ w * 1000000
}.

(** The result of an operation, as its row keeps it. *)
Record result_of_operation (row : SandboxExecutionModel) (res : SandboxExecResult) : Prop := {
  rr_id : sandbox_execution_id res = xm_sandbox_execution_id row;
  rr_operation : er_operation_id res = xm_operation_id row;
  rr_replay : er_replay res = false;
  rr_timeout : timeout_seconds res = Z.max 0 (xm_timeout_seconds row);
  rr_started : er_started_at res = xm_started_at row;
  rr_stdout : bad_ref (stdout_artifact_ref res) = false;
  rr_stderr : bad_ref (stderr_artifact_ref res) = false
}.

Definition executed (envelope : ExecutionEnvelope) (id : string)
  (request : SandboxExecRequest) (clock : SandboxClock) (s : SandboxStore) (r : result SandboxExecResult)
  (s' : SandboxStore) : Prop :=
  (ss_calls s' = ss_calls s ∨ ∃ m handle timeout, exec_allowed envelope id request clock m handle timeout s ∧
     ss_calls s' = ss_calls s ++ [ExecCall (sm_backend m) handle request timeout]) ∧
  ∀ res, r = Ok res →
    (s' = s ∧ ∃ row res0, find_operation id (operation_id request) s = Some row ∧ xm_result_json row = Some res0 ∧
       is_Some (xm_finished_at row) ∧ res = as_replay res0) ∨
    (∃ m handle timeout, get_sandbox id s = Some m ∧ sm_execution_id m = execution_id envelope ∧
       active_handle m = Some handle ∧ find_operation id (operation_id request) s = None ∧
       exec_timeout envelope (sl_profile (lease_json m)) request (bounded_at clock) = Ok timeout ∧
       let audit := new_operation uuid5_url id request timeout (started_at clock) in
       result_of_operation audit res ∧ er_finished_at res = finished_at clock ∧
       (xm_sandbox_execution_id audit ∉ (xm_sandbox_execution_id <$> ss_operations s)) ∧
       s' = mkSandboxStore (ss_executions s) (ss_instances s) (ss_operations s ++ [finish_exec_audit res audit]) (ss_calls s')).

Lemma make_lease_Ok l l' :
  make_SandboxLeaseSpec l = Ok l' → l' = l ∧ ∀ w, wall_timeout_seconds (sl_profile l) = Some w → 0 < w.
Proof.
  unfold make_SandboxLeaseSpec. intros (p&H&[= <-])%result_bind_Ok. split; [done|]. intros w Hw.
  unfold enforce_v1_security_shape in H. rewrite Hw in H. simpl in H. destruct (positive_or_none _ && _ && _ && _) eqn:E; [|done].
  rewrite !andb_true_iff in E. lia.
Qed.

Lemma exec_timeout_range envelope profile request now t :
  exec_timeout envelope profile request now = Ok t → 0 < t →
  t ≤ requested_timeout_seconds request ∧ now + t ≤ dt_us (deadline_at envelope) ∧
  ∀ w, wall_timeout_seconds profile = Some w → t ≤ w * 1000000.
Proof.
  unfold exec_timeout, bounded_timeout_seconds. simpl.
  destruct (Z.leb_spec (dt_us (deadline_at envelope) - now) 0); simpl; destruct (wall_timeout_seconds profile) as [w|];
    intros [= <-] Ht; (split; [lia|]); (split; [lia|]); intros w' [= <-]; lia.
Qed.

Lemma exec_fresh_executed self envelope instance handle request clock s :
  get_sandbox (sm_instance_id instance) s = Some instance → sm_execution_id instance = execution_id envelope →
  active_handle instance = Some handle → find_operation (sm_instance_id instance) (operation_id request) s = None →
  wp (exec_fresh uuid5_url self envelope instance handle request clock) s
    (executed envelope (sm_instance_id instance) request clock s).
Proof.
  intros Hget Hex Hact Hnew. set (id := sm_instance_id instance) in *. unfold exec_fresh.
  assert (∀ e s', ss_calls s' = ss_calls s → executed envelope id request clock s (Err e) s') as Herr
    by (intros e s' ?; split; [by left|done]).
  wp_step. wp_step. destruct (make_SandboxLeaseSpec _) as [lease|] eqn:Hlease; [|by apply Herr].
  apply make_lease_Ok in Hlease as [-> _]. wp_step. wp_step. destruct (exec_timeout _ _ _ _) as [timeout|] eqn:Ht; [|by apply Herr].
  fold id. set (audit := new_operation _ _ _ _ _). wp_step. wp_step. wp_step. wp_step; [by apply Herr|].
  match goal with H : bool_decide (_ ∈ _) = false |- _ => apply bool_decide_eq_false in H as Hid end.
  wp_step. wp_step. cbv beta iota. wp_step.
  set (s1 := set_ss_operations _ s).
  (* the row is finished in whatever store the calls have left *)
  assert (∀ res calls, result_of_operation audit res → er_finished_at res = finished_at clock →
    (calls = ss_calls s ∨ ∃ m handle timeout, exec_allowed envelope id request clock m handle timeout s ∧
       calls = ss_calls s ++ [ExecCall (sm_backend m) handle request timeout]) →
    wp (update_operation (xm_sandbox_execution_id audit) (finish_exec_audit res);; mret res) (set_ss_calls calls s1)
      (executed envelope id request clock s)) as Hend.
  { intros res calls Hres Hfin Hcalls. unfold update_operation. wp_step. wp_step. cbv beta iota. wp_step.
    split; [exact Hcalls|]. intros res' [= <-]. right. exists instance, handle, timeout. do 5 (split; [done|]). cbv zeta.
    do 3 (split; [done|]).
    pose proof (update_where_last xm_sandbox_execution_id (finish_exec_audit res) (ss_operations s) audit Hid) as Hlast.
    unfold set_ss_operations. cbn [ss_operations ss_executions ss_instances ss_calls set_ss_calls s1]. f_equal. exact Hlast. }
  destruct (timeout <=? 0) eqn:Hpos.
  - wp_step. apply (Hend _ (ss_calls s)); [|done|by left]. split; try done. simpl. lia.
  - apply Z.leb_gt in Hpos. destruct (exec_timeout_range _ _ _ _ _ Ht Hpos) as (Hreq&Hdl&Hwall).
    assert (exec_allowed envelope id request clock instance handle timeout s) as Hallowed by by split.
    wp_step. wp_step; [by apply Herr|]. wp_step. unfold call_backend. wp_step. wp_step. cbv beta iota. wp_step.
    destruct (be_exec _ _ _ _) as [native|]; [|split; [right; by exists instance, handle, timeout|done]].
    wp_step. wp_step. destruct (validate_backend_artifact_refs _) as [u|] eqn:Hrefs;
      [|split; [right; by exists instance, handle, timeout|done]].
    unfold validate_backend_artifact_refs in Hrefs. destruct (_ || _) eqn:Hbad; [done|]. apply orb_false_iff in Hbad as [Hb1 Hb2].
    wp_step. apply (Hend _ (ss_calls s ++ [ExecCall (sm_backend instance) handle request timeout])); [|done|].
    + split; try done. simpl. lia.
    + right. by exists instance, handle, timeout.
Qed.

Lemma exec_sandbox_executed self envelope id request clock s :
  wp (exec_sandbox uuid5_url self envelope id request clock) s (executed envelope id request clock s).
Proof.
  assert (∀ e, executed envelope id request clock s (Err e) s) as Herr by (intros e; split; [by left|done]).
  unfold exec_sandbox, require_active. wp_step. wp_step. wp_step. wp_step; [apply Herr|].
  match goal with H : get_sandbox id s = Some _ |- _ => rename H into Hget end.
  pose proof Hget as Hid. apply find_elem in Hid as [_ Hid%bool_decide_eq_true]. subst id.
  wp_step. wp_step; [apply Herr|].
  match goal with H : bool_decide (_ ≠ _) = false |- _ => apply bool_decide_eq_false, dec_stable in H as Hex end.
  wp_step. wp_step; [apply Herr|]. wp_step. wp_step. cbv beta iota.
  destruct (find_operation _ _ s) as [row|] eqn:Hfind; [|by apply exec_fresh_executed].
  destruct (xm_result_json row) as [res|] eqn:Hres; [|apply Herr]. destruct (xm_finished_at row) as [t|] eqn:Hfin; [|apply Herr].
  wp_step. split; [by left|]. intros res' [= <-]. left. split; [done|]. exists row, res. rewrite Hfin. by split_and!.
Qed.
End executions.

(** ** The invariant of the store *)

Section histories.
Context (uuid5_url : string → string) (hexdigest : PolicyRequest → PolicyDecision → string).

Definition instance_key (m : SandboxInstanceModel) : string * string := (sm_execution_id m, sm_request_id m).
Definition operation_key (x : SandboxExecutionModel) : string * string := (xm_instance_id x, xm_operation_id x).

Record instance_ok (m : SandboxInstanceModel) : Prop := {
  io_handle : is_Some (sm_backend_handle_ref m);
  io_status : (sm_status m = SB_ACTIVE ∧ destroyed_at m = None) ∨ (sm_status m = SB_DESTROYED ∧ is_Some (destroyed_at m));
  io_lease : lease_within (lease_json m);
  io_execution : sl_execution_id (lease_json m) = sm_execution_id m ∧ sl_task_run_id (lease_json m) = sm_task_run_id m;
  io_profile : sm_profile_id m = profile_id (sl_profile (lease_json m)) ∧
    sm_profile_revision m = sp_revision (sl_profile (lease_json m)) ∧ sm_backend m = sp_backend (sl_profile (lease_json m));
  io_permit : authorization (sm_policy_decision_json m) = PERMIT
}.

(** An operation is stored with its result, which never names anything but artifacts. *)
Record operation_ok (s : SandboxStore) (row : SandboxExecutionModel) : Prop := {
  oo_instance : is_Some (get_sandbox (xm_instance_id row) s);
  oo_result : ∃ res, xm_result_json row = Some res ∧ result_of_operation row res ∧ xm_status row = er_status res ∧
    xm_finished_at row = Some (er_finished_at res) ∧ xm_failure_code row = er_failure_code res
}.

(** A call that was allowed. *)
Definition call_ok (s : SandboxStore) (call : BackendCall) : Prop :=
  match call with
  | CreateCall backend lease => backend = sp_backend (sl_profile lease) ∧ lease_within lease
  | ExecCall backend handle request timeout =>
      0 < timeout ≤ requested_timeout_seconds request ∧ ∃ id m, get_sandbox id s = Some m ∧ sm_backend m = backend ∧
      sm_backend_handle_ref m = Some handle ∧
      ∀ w, wall_timeout_seconds (sl_profile (lease_json m)) = Some w → timeout ≤ w * 1000000
  | ExportCall backend handle paths =>
      (∀ p, p ∈ paths → validate_relative_export_path p = Ok tt) ∧ ∃ id m, get_sandbox id s = Some m ∧
      sm_backend m = backend ∧ sm_backend_handle_ref m = Some handle ∧
      artifact_export_policy (sl_profile (lease_json m)) = "explicit"%string
  | DestroyCall backend handle =>
      ∃ id m, get_sandbox id s = Some m ∧ sm_backend m = backend ∧ sm_backend_handle_ref m = Some handle
  end.

Record sandbox_wf (s : SandboxStore) : Prop := {
  sw_instance_ids : NoDup (sm_instance_id <$> ss_instances s);
  sw_instance_keys : NoDup (instance_key <$> ss_instances s);
  sw_instances : ∀ m, m ∈ ss_instances s → instance_ok m;
  sw_operation_ids : NoDup (xm_sandbox_execution_id <$> ss_operations s);
  sw_operation_keys : NoDup (operation_key <$> ss_operations s);
  sw_operations : ∀ row, row ∈ ss_operations s → operation_ok s row;
  sw_calls : ∀ call, call ∈ ss_calls s → call_ok s call
}.

(** An instance changes only by its destruction, once. *)
Definition instance_step (m m' : SandboxInstanceModel) : Prop :=
  m' = m ∨ sm_status m ≠ SB_DESTROYED ∧ ∃ now, m' = set_destroyed now m.
Record sandbox_step (s s' : SandboxStore) : Prop := {
  st_instances : ∀ id m, get_sandbox id s = Some m → ∃ m', get_sandbox id s' = Some m' ∧ instance_step m m';
  st_operations : ss_operations s `prefix_of` ss_operations s';
  st_calls : ss_calls s `prefix_of` ss_calls s'
}.

#[export] Instance sandbox_step_preorder : PreOrder sandbox_step.
Proof.
  split.
  - intros s. split; [|done|done]. intros id m Hm. exists m. split; [done|by left].
  - intros s1 s2 s3 [A1 A2 A3] [B1 B2 B3]. split; [|by etrans|by etrans]. intros id m Hm.
    destruct (A1 id m Hm) as (m2&H2&S2). destruct (B1 id m2 H2) as (m3&H3&S3). exists m3. split; [done|].
    destruct S2 as [->|[Hne [now ->]]]; [done|]. destruct S3 as [->|[[] _]]; [|done]. right. split; [done|by exists now].
Qed.

Lemma get_sandbox_elem id m s : get_sandbox id s = Some m → m ∈ ss_instances s ∧ sm_instance_id m = id.
Proof. intros [? ?%bool_decide_eq_true]%find_elem. done. Qed.
Lemma get_sandbox_NoDup m s : NoDup (sm_instance_id <$> ss_instances s) → m ∈ ss_instances s →
  get_sandbox (sm_instance_id m) s = Some m.
Proof. intros Hnd Hm. apply (find_NoDup sm_instance_id); [done| |done]. intros y _. apply bool_decide_eq_true. Qed.
Lemma find_operation_elem id op row s :
  find_operation id op s = Some row → row ∈ ss_operations s ∧ operation_key row = (id, op).
Proof.
  intros [Hin H]%find_elem. rewrite andb_true_iff, !bool_decide_eq_true in H. destruct H as [<- <-]. done.
Qed.
Lemma find_operation_None_key id op s : find_operation id op s = None → (id, op) ∉ (operation_key <$> ss_operations s).
Proof.
  intros H (row&E&Hin)%list_elem_of_fmap. apply (find_None_elem _ _ row) in H; [|done].
  unfold operation_key in E. injection E as -> ->. by rewrite !bool_decide_true in H.
Qed.
Lemma find_operation_NoDup row s : NoDup (operation_key <$> ss_operations s) → row ∈ ss_operations s →
  find_operation (xm_instance_id row) (xm_operation_id row) s = Some row.
Proof.
  intros Hnd Hin. apply (find_NoDup operation_key); [done| |done]. intros y _.
  rewrite andb_true_iff, !bool_decide_eq_true. unfold operation_key. split; [by intros [-> ->]|by intros [= -> ->]].
Qed.
Lemma find_sandbox_None_key ex req s : find_sandbox ex req s = None → (ex, req) ∉ (instance_key <$> ss_instances s).
Proof.
  intros H (m&E&Hin)%list_elem_of_fmap. apply (find_None_elem _ _ m) in H; [|done].
  unfold instance_key in E. injection E as -> ->. by rewrite !bool_decide_true in H.
Qed.
Lemma find_sandbox_NoDup m s : NoDup (instance_key <$> ss_instances s) → m ∈ ss_instances s →
  find_sandbox (sm_execution_id m) (sm_request_id m) s = Some m.
Proof.
  intros Hnd Hin. apply (find_NoDup instance_key); [done| |done]. intros y _.
  rewrite andb_true_iff, !bool_decide_eq_true. unfold instance_key. split; [by intros [-> ->]|by intros [= -> ->]].
Qed.

Lemma call_ok_step s s' call : sandbox_step s s' → call_ok s call → call_ok s' call.
Proof.
  intros Hst. assert (∀ id m, get_sandbox id s = Some m → ∃ m', get_sandbox id s' = Some m' ∧
    sm_backend m' = sm_backend m ∧ sm_backend_handle_ref m' = sm_backend_handle_ref m ∧ lease_json m' = lease_json m) as Hm.
  { intros id m Hid. destruct (st_instances _ _ Hst id m Hid) as (m'&Hm'&[->|[_ [now ->]]]); [by exists m|].
    by exists (set_destroyed now m). }
  destruct call as [b l|b h req t|b h ps|b h]; simpl; [done|..].
  - intros [? (id&m&Hid&<-&Hh&Hw)]. destruct (Hm id m Hid) as (m'&Hm'&E1&E2&E3). split; [done|]. exists id, m'.
    by rewrite E1, E2, E3.
  - intros [? (id&m&Hid&<-&Hh&Hw)]. destruct (Hm id m Hid) as (m'&Hm'&E1&E2&E3). split; [done|]. exists id, m'.
    by rewrite E1, E2, E3.
  - intros (id&m&Hid&<-&Hh). destruct (Hm id m Hid) as (m'&Hm'&E1&E2&E3). exists id, m'. by rewrite E1, E2.
Qed.
Lemma operation_ok_step s s' row : sandbox_step s s' → operation_ok s row → operation_ok s' row.
Proof.
  intros Hst [[m Hm] Hres]. split; [|done]. destruct (st_instances _ _ Hst _ m Hm) as (m'&Hm'&_). by exists m'.
Qed.

(** Only calls are added, and all were allowed. *)
Lemma calls_good s calls :
  sandbox_wf s → (∀ call, call ∈ calls → call_ok s call) →
  sandbox_wf (set_ss_calls (ss_calls s ++ calls) s) ∧ sandbox_step s (set_ss_calls (ss_calls s ++ calls) s).
Proof.
  intros [W1 W2 W3 W4 W5 W6 W7] Hc. set (s' := set_ss_calls _ s).
  assert (sandbox_step s s') as Hst.
  { split; simpl; [|done|by exists calls]. intros id m Hm. exists m. split; [exact Hm|by left]. }
  split; [|done]. split; try done.
  - intros row Hrow. eapply operation_ok_step; [exact Hst|by apply W6].
  - simpl. intros call [Hin|Hin]%elem_of_app; (eapply call_ok_step; [exact Hst|]); auto.
Qed.

(** What an export and a destruction leave. *)
Lemma export_sandbox_spec self id paths s :
  wp (export_sandbox self id paths) s (λ r s',
    s' = s ∨ ∃ m handle, get_sandbox id s = Some m ∧ active_handle m = Some handle ∧
      call_ok s (ExportCall (sm_backend m) handle paths) ∧
      s' = set_ss_calls (ss_calls s ++ [ExportCall (sm_backend m) handle paths]) s).
Proof.
  unfold export_sandbox, require_active. wp_step. wp_step. wp_step. wp_step; [by left|]. wp_step. wp_step; [by left|].
  match goal with H : get_sandbox id s = Some _, H' : active_handle _ = Some _ |- _ => rename H into Hget, H' into Hact end.
  wp_step. wp_step. destruct (make_SandboxLeaseSpec _) as [l|] eqn:Hl; [|by left]. apply make_lease_Ok in Hl as [-> _].
  wp_step. wp_step; [by left|]. match goal with H : bool_decide (_ ≠ _) = false |- _ =>
    apply bool_decide_eq_false, dec_stable in H as Hpol end.
  wp_step. wp_step. destruct (check_all _ _) as [u|] eqn:Hpaths; [|by left]. wp_step. wp_step; [by left|].
  wp_step. unfold call_backend. wp_step. wp_step. cbv beta iota. wp_step.
  match type of Hget with _ = Some ?m => match type of Hact with _ = Some ?h =>
    assert (call_ok s (ExportCall (sm_backend m) h paths)) as Hok end end.
  { split.
    - clear -Hpaths. revert Hpaths. induction paths as [|p ps IH]; [by intros _ ? ?%elem_of_nil|].
      simpl. destruct (validate_relative_export_path p) as [[]|] eqn:E; [|done]. intros H q [->|Hq]%elem_of_cons; [done|by apply IH].
    - eexists _, _. split; [exact Hget|]. split; [done|]. split; [|done]. unfold active_handle in Hact. by case_bool_decide. }
  destruct (be_export _ _ _) as [refs|]; [|right; eexists _, _; done]. wp_step. wp_step; [right; eexists _, _; done|].
  wp_step. right. eexists _, _. done.
Qed.

Lemma destroy_sandbox_spec self id now s :
  wp (destroy_sandbox self id now) s (λ r s',
    (s' = s ∧ ∀ u, r = Ok u → ∃ m, get_sandbox id s = Some m ∧ sm_status m = SB_DESTROYED) ∨
    ∃ m calls, get_sandbox id s = Some m ∧ sm_status m ≠ SB_DESTROYED ∧ (∀ c, c ∈ calls → call_ok s c) ∧
      ss_calls s' = ss_calls s ++ calls ∧ ∀ u, r = Ok u →
      s' = set_ss_instances (update_where (λ m, bool_decide (sm_instance_id m = id)) (set_destroyed now) (ss_instances s))
             (set_ss_calls (ss_calls s ++ calls) s)).
Proof.
  unfold destroy_sandbox, require_active. wp_step. wp_step. wp_step. wp_step; [by left|].
  match goal with H : get_sandbox id s = Some ?x |- _ => rename H into Hget; rename x into m end.
  case_bool_decide as Hst.
  - wp_step. left. split; [done|]. intros _ _. by exists m.
  - wp_step. destruct (sm_backend_handle_ref m) as [handle|] eqn:Hh.
    + wp_step. wp_step; [by left|]. unfold call_backend. wp_step. wp_step. cbv beta iota. wp_step.
      assert (∀ c, c ∈ [DestroyCall (sm_backend m) handle] → call_ok s c) as Hok.
      { intros c ->%list_elem_of_singleton. by exists id, m. }
      destruct (be_destroy _ _) as [[]|].
      * wp_step. right. exists m, [DestroyCall (sm_backend m) handle]. done.
      * right. exists m, [DestroyCall (sm_backend m) handle]. done.
    + wp_step. wp_step. right. exists m, []. split; [done|]. split; [done|]. split; [by intros ? ?%elem_of_nil|].
      simpl. rewrite app_nil_r. split; [done|]. intros _ _. by destruct s.
Qed.

(** ** Every operation is a good step *)

Definition good (s s' : SandboxStore) : Prop := sandbox_wf s' ∧ sandbox_step s s'.

Lemma good_same_rows s s' call : sandbox_wf s → call_ok s call → ss_calls s' = ss_calls s ++ [call] →
  good s (set_ss_calls (ss_calls s') s).
Proof. intros Hwf Hc ->. apply calls_good; [done|]. by intros c ->%list_elem_of_singleton. Qed.

Lemma good_no_call s s' : sandbox_wf s → ss_calls s' = ss_calls s → good s (set_ss_calls (ss_calls s') s).
Proof. intros Hwf ->. by destruct s; split. Qed.

Lemma get_sandbox_snoc id m l s :
  get_sandbox id s = Some m → get_sandbox id (set_ss_instances (ss_instances s ++ l) s) = Some m.
Proof.
  unfold get_sandbox. simpl. induction (ss_instances s) as [|y ys IH]; [done|]. simpl. by case_bool_decide.
Qed.

(** A new instance. *)
Lemma add_instance_good m s :
  sandbox_wf s → instance_ok m → sm_instance_id m ∉ (sm_instance_id <$> ss_instances s) →
  instance_key m ∉ (instance_key <$> ss_instances s) → good s (set_ss_instances (ss_instances s ++ [m]) s).
Proof.
  intros [W1 W2 W3 W4 W5 W6 W7] Hm Hid Hkey. set (s' := set_ss_instances _ s).
  assert (sandbox_step s s') as Hst.
  { split; simpl; [|done|done]. intros id x Hx. exists x. split; [by apply get_sandbox_snoc|by left]. }
  split; [|done]. split; simpl; try done.
  - rewrite fmap_app. by apply NoDup_snoc.
  - rewrite fmap_app. by apply NoDup_snoc.
  - intros x [Hx| ->%list_elem_of_singleton]%elem_of_app; auto.
  - intros row Hrow. eapply operation_ok_step; [exact Hst|by apply W6].
  - intros call Hc. eapply call_ok_step; [exact Hst|by apply W7].
Qed.

(** A finished operation. *)
Lemma add_operation_good row s :
  sandbox_wf s → operation_ok s row → xm_sandbox_execution_id row ∉ (xm_sandbox_execution_id <$> ss_operations s) →
  operation_key row ∉ (operation_key <$> ss_operations s) → good s (set_ss_operations (ss_operations s ++ [row]) s).
Proof.
  intros [W1 W2 W3 W4 W5 W6 W7] Hrow Hid Hkey. set (s' := set_ss_operations _ s).
  assert (sandbox_step s s') as Hst.
  { split; simpl; [|by exists [row]|done]. intros id x Hx. exists x. split; [exact Hx|by left]. }
  split; [|done]. split; simpl; try done.
  - rewrite fmap_app. by apply NoDup_snoc.
  - rewrite fmap_app. by apply NoDup_snoc.
  - intros x [Hx| ->%list_elem_of_singleton]%elem_of_app; (eapply operation_ok_step; [exact Hst|]); auto.
Qed.

(** A destruction. *)
Lemma destroy_good id m now s :
  sandbox_wf s → get_sandbox id s = Some m → sm_status m ≠ SB_DESTROYED →
  good s (set_ss_instances (update_where (λ m, bool_decide (sm_instance_id m = id)) (set_destroyed now) (ss_instances s)) s).
Proof.
  intros Hwf Hget Hne. pose proof Hwf as [W1 W2 W3 W4 W5 W6 W7]. set (s' := set_ss_instances _ s).
  assert (sm_instance_id <$> ss_instances s' = sm_instance_id <$> ss_instances s) as Eid
    by (simpl; by rewrite fmap_update_where).
  assert (instance_key <$> ss_instances s' = instance_key <$> ss_instances s) as Ekey
    by (simpl; by rewrite fmap_update_where).
  assert (sandbox_step s s') as Hst.
  { split; [|done|done]. intros i x Hx. apply get_sandbox_elem in Hx as [Hx <-].
    set (x' := if bool_decide (sm_instance_id x = id) then set_destroyed now x else x).
    assert (x' ∈ ss_instances s') as Hx' by (apply elem_of_update_where; by exists x).
    assert (sm_instance_id x' = sm_instance_id x) as Ei by (unfold x'; by case_bool_decide).
    exists x'. split; [rewrite <- Ei; apply get_sandbox_NoDup; [by rewrite Eid|done]|].
    unfold x'. case_bool_decide as E; [right|by left]. split; [|by exists now].
    apply get_sandbox_elem in Hget as [Hm Hid]. assert (x = m) as ->; [|done].
    apply (NoDup_fmap_eq sm_instance_id (ss_instances s)); [done|done|done|congruence]. }
  split; [|done]. split; rewrite ?Eid, ?Ekey; try done.
  - intros x (x0&Hx0&->)%elem_of_update_where. case_bool_decide; [|by apply W3].
    destruct (W3 x0 Hx0) as [I1 I2 I3 I4 I5 I6]. split; try done. right. by split.
  - intros row Hrow. eapply operation_ok_step; [exact Hst|by apply W6].
  - intros call Hc. eapply call_ok_step; [exact Hst|by apply W7].
Qed.

Lemma create_sandbox_good self task envelope request grants now s i s' :
  sandbox_wf s → create_sandbox uuid5_url hexdigest self task envelope request grants now s = (Ok i, s') → good s s'.
Proof.
  intros Hwf H. pose proof (wp_run _ _ _ _ _ (create_sandbox_created uuid5_url hexdigest self task envelope request grants now s) H) as Hc. destruct Hc as [[_ Hc]|(profile&Hauth&_&Hc)].
  - destruct (Hc i eq_refl) as [-> _]. split; [done|reflexivity].
  - destruct (Hc i eq_refl) as (handle&ref&decision&Hpermit&Hid&_&->). clear Hc.
    set (model := new_instance _ _ _ _ _ _ _ _ _) in *. set (lease := lease_of _ _ _ _) in *.
    destruct (calls_good s [CreateCall (sp_backend profile) lease] Hwf) as [Hwf1 Hst1].
    { intros c ->%list_elem_of_singleton. split; [done|]. by destruct Hauth. }
    destruct (add_instance_good model (set_ss_calls (ss_calls s ++ [CreateCall (sp_backend profile) lease]) s)) as [Hwf2 Hst2];
      [done| |done| |split; [done|by etrans]].
    + split; try done; [by left|by destruct Hauth].
    + simpl. by apply find_sandbox_None_key, (sa_new _ _ _ _ _ _ _ Hauth).
Qed.

Lemma exec_call_ok envelope id request clock m handle timeout s :
  exec_allowed envelope id request clock m handle timeout s → call_ok s (ExecCall (sm_backend m) handle request timeout).
Proof.
  intros [X1 X2 X3 X4 X5 X6 X7]. split; [done|]. exists id, m. split_and!; try done.
  unfold active_handle in X3. by case_bool_decide.
Qed.

Lemma exec_sandbox_good self envelope id request clock s res s' :
  sandbox_wf s → exec_sandbox uuid5_url self envelope id request clock s = (Ok res, s') → good s s'.
Proof.
  intros Hwf H. pose proof (wp_run _ _ _ _ _ (exec_sandbox_executed uuid5_url self envelope id request clock s) H) as Hc. destruct Hc as [Hcalls Hc].
  assert (good s (set_ss_calls (ss_calls s') s)) as [Hwf1 Hst1].
  { destruct Hcalls as [?|(m&handle&timeout&Hx&Hcalls)]; [by apply good_no_call|].
    eapply good_same_rows; [done|by eapply exec_call_ok|done]. }
  destruct (Hc res eq_refl) as [[-> _]|(m&handle&timeout&Hget&_&_&Hnew&_&Hres&Hfin&Hid&E)]; [split; [done|reflexivity]|].
  cbv zeta in *. set (audit := new_operation _ _ _ _ _) in *.
  destruct (add_operation_good (finish_exec_audit res audit) (set_ss_calls (ss_calls s') s)) as [Hwf2 Hst2]; [done| |done| |].
  - split; [by exists m|]. exists res. split; [done|]. split; [by destruct Hres|done].
  - simpl. by apply find_operation_None_key.
  - rewrite E. split; [exact Hwf2|by etrans].
Qed.

Lemma put_execution_good t s : sandbox_wf s → good s (set_ss_executions t s).
Proof.
  intros [W1 W2 W3 W4 W5 W6 W7]. assert (sandbox_step s (set_ss_executions t s)) as Hst.
  { split; [|done|done]. intros id x Hx. exists x. split; [exact Hx|by left]. }
  split; [|done]. split; try done.
  - intros row Hrow. eapply operation_ok_step; [exact Hst|by apply W6].
Qed.

Lemma rolled_back_good {A} (m : prog SandboxStore A) s :
  sandbox_wf s →
  (∀ e s', m s = (Err e, s') → good s (set_ss_calls (ss_calls s') s)) → (∀ a s', m s = (Ok a, s') → good s s') →
  good s (sandbox_transaction m s).2.
Proof. intros Hwf He Ho. unfold sandbox_transaction. destruct (m s) as [[a|e] s'] eqn:E; simpl; eauto. Qed.

Lemma run_sandbox_op_good op s : sandbox_wf s → good s (run_sandbox_op uuid5_url hexdigest op s).2.
Proof.
  intros Hwf. apply rolled_back_good; [done|..].
  - intros e s' H. destruct op as [m|self task envelope request grants now|self envelope id request clock|self id paths|self id now].
    + done.
    + unfold mbind, prog_bind, lift in H. destruct (validate_refs request) as [request'|]; [|injection H as _ <-; by apply good_no_call].
      destruct (create_sandbox _ _ _ _ _ _ _ _ s) as [[i|e'] s1] eqn:E; [done|]. injection H as _ <-.
      pose proof (wp_run _ _ _ _ _ (create_sandbox_created uuid5_url hexdigest self task envelope request' grants now s) E) as Hc. destruct Hc as [[? _]|(profile&Hauth&Hcalls&_)]; [by apply good_no_call|].
      eapply good_same_rows; [done| |exact Hcalls]. split; [done|]. by destruct Hauth.
    + unfold mbind, prog_bind, lift in H. destruct (validate_program request) as [request'|]; [|injection H as _ <-; by apply good_no_call].
      destruct (exec_sandbox _ _ _ _ _ _ s) as [[i|e'] s1] eqn:E; [done|]. injection H as _ <-.
      pose proof (wp_run _ _ _ _ _ (exec_sandbox_executed uuid5_url self envelope id request' clock s) E) as Hc. destruct Hc as [[?|(m&handle&timeout&Hx&Hcalls)] _]; [by apply good_no_call|].
      eapply good_same_rows; [done|by eapply exec_call_ok|done].
    + unfold mbind, prog_bind in H. destruct (export_sandbox self id paths s) as [[i|e'] s1] eqn:E; [done|]. injection H as _ <-.
      pose proof (wp_run _ _ _ _ _ (export_sandbox_spec self id paths s) E) as Hc.
      destruct Hc as [->|(m&handle&_&_&Hok&->)]; [by apply good_no_call|]. by eapply good_same_rows.
    + pose proof (wp_run _ _ _ _ _ (destroy_sandbox_spec self id now s) H) as Hc.
      destruct Hc as [[-> _]|(m&calls&_&_&Hok&Hcalls&_)]; [by apply good_no_call|]. simpl in Hcalls. rewrite Hcalls. by apply calls_good.
  - intros u s' H. destruct op as [m|self task envelope request grants now|self envelope id request clock|self id paths|self id now].
    + apply modify_Ok in H as ->. by apply put_execution_good.
    + apply bind_Ok in H as (request'&s1&H1&H). apply lift_Ok in H1 as [_ ->].
      apply bind_Ok in H as (i&s1&H1&H). apply ret_Ok in H as [_ ->]. by eapply create_sandbox_good.
    + apply bind_Ok in H as (request'&s1&H1&H). apply lift_Ok in H1 as [_ ->].
      apply bind_Ok in H as (i&s1&H1&H). apply ret_Ok in H as [_ ->]. by eapply exec_sandbox_good.
    + apply bind_Ok in H as (i&s1&H1&H). apply ret_Ok in H as [_ ->].
      pose proof (wp_run _ _ _ _ _ (export_sandbox_spec self id paths s) H1) as Hc.
      destruct Hc as [->|(m&handle&_&_&Hok&->)]; [split; [done|reflexivity]|]. apply calls_good; [done|]. by intros c ->%list_elem_of_singleton.
    + pose proof (wp_run _ _ _ _ _ (destroy_sandbox_spec self id now s) H) as Hc.
      destruct Hc as [[-> _]|(m&calls&Hget&Hne&Hok&_&Hs)]; [split; [done|reflexivity]|]. rewrite (Hs u eq_refl).
      destruct (calls_good s calls Hwf Hok) as [Hwf1 Hst1].
      destruct (destroy_good id m now (set_ss_calls (ss_calls s ++ calls) s) Hwf1 Hget Hne) as [Hwf2 Hst2].
      split; [exact Hwf2|by etrans].
Qed.

Lemma run_sandbox_ops_good ops s :
  sandbox_wf s → good s (run_sandbox_ops uuid5_url hexdigest ops s).
Proof.
  unfold run_sandbox_ops. revert s. induction ops as [|op ops IH]; intros s Hwf; simpl; [by split|].
  destruct (run_sandbox_op_good op s Hwf) as [Hwf1 H1]. destruct (IH _ Hwf1) as [Hwf2 H2]. split; [done|by etrans].
Qed.

Lemma empty_sandbox_wf : sandbox_wf empty_sandbox.
Proof. split; simpl; try by constructor. all: by intros ? ?%elem_of_nil. Qed.

Lemma run_from_empty ops : sandbox_wf (run_sandbox_ops uuid5_url hexdigest ops empty_sandbox).
Proof. apply run_sandbox_ops_good, empty_sandbox_wf. Qed.

(** C7. In every history of the broker (with transactions that undo the rows of a call that raised, but not what the
    backends were told) the store is consistent: instances are unique by identity and by request of an execution,
    hold a handle, a lease within their profile and a permitting decision, and are active or destroyed; operations are
    unique, belong to an instance and hold their result, which names only artifacts; and every backend call ever
    made was allowed: a lease within its profile, a program with a positive timeout within what was requested and
    within the profile's wall clock, an export of normalized relative paths where the profile exports, all on the
    handle of a stored instance.  Between two points operations and calls are only appended and an instance changes
    only by its destruction, once. *)
Theorem sandbox_history before after :
  let s := run_sandbox_ops uuid5_url hexdigest before empty_sandbox in
  let s' := run_sandbox_ops uuid5_url hexdigest after s in
  sandbox_wf s' ∧ sandbox_step s s'.
Proof. intros s s'. apply run_sandbox_ops_good, run_from_empty. Qed.

(** The row of an operation that returned. *)
Lemma exec_leaves_row self envelope id request clock s res s1 :
  sandbox_wf s → exec_sandbox uuid5_url self envelope id request clock s = (Ok res, s1) →
  ∃ m row res0, get_sandbox id s = Some m ∧ sm_execution_id m = execution_id envelope ∧
    row ∈ ss_operations s1 ∧ operation_key row = (id, operation_id request) ∧ xm_result_json row = Some res0 ∧
    is_Some (xm_finished_at row) ∧ as_replay res0 = as_replay res.
Proof.
  intros Hwf H. pose proof (wp_run _ _ _ _ _ (exec_sandbox_executed uuid5_url self envelope id request clock s) H) as Hc.
  destruct Hc as [_ Hc]. destruct (Hc res eq_refl) as [(->&row&res0&Hrow&Hres&Hfin&->)|(m&handle&timeout&Hget&Hex&_&_&_&_&_&_&E)].
  - pose proof Hrow as [Hin Hkey]%find_operation_elem. destruct (sw_operations _ Hwf row Hin) as [[m Hm] _].
    unfold operation_key in Hkey. injection Hkey as Hk1 Hk2. rewrite Hk1 in Hm. exists m, row, res0.
    assert (sm_execution_id m = execution_id envelope) as Hex.
    { unfold exec_sandbox, require_active in H. apply bind_Ok in H as (m'&s2&H0&H).
      apply bind_Ok in H0 as (s3&s4&H1&H0). apply get_store_Ok in H1 as [-> ->]. apply require_Ok in H0 as [Hm' ->].
      apply bind_Ok in H as (u&s2&H0&_). apply check_Ok in H0 as [He%bool_decide_eq_false%dec_stable _]. congruence. }
    unfold operation_key. rewrite Hk1, Hk2. by split_and!.
  - cbv zeta in E. set (audit := new_operation _ _ _ _ _) in *.
    exists m, (finish_exec_audit res audit), res. split; [done|]. split; [done|]. split.
    + rewrite E. simpl. apply elem_of_app. right. apply list_elem_of_here.
    + do 2 (split; [done|]). split; [by eexists|done].
Qed.

(** An operation runs once: after an operation of an instance returned, the same operation on it (with any
    program, arguments, timeout, clock or backends) returns the same result, marked as a replay, and neither calls a
    backend nor changes the store, as long as the instance is active; whatever happened in between. *)
Theorem exec_once before after self envelope id request clock res s1 m self' envelope' request' clock' :
  exec_sandbox uuid5_url self envelope id request clock (run_sandbox_ops uuid5_url hexdigest before empty_sandbox)
    = (Ok res, s1) →
  let s2 := run_sandbox_ops uuid5_url hexdigest after s1 in
  get_sandbox id s2 = Some m → sm_status m = SB_ACTIVE →
  execution_id envelope' = execution_id envelope → operation_id request' = operation_id request →
  exec_sandbox uuid5_url self' envelope' id request' clock' s2 = (Ok (as_replay res), s2).
Proof.
  intros H s2 Hm Hact Henv Hop. pose proof (run_from_empty before) as Hwf.
  destruct (exec_sandbox_good _ _ _ _ _ _ _ _ Hwf H) as [Hwf1 Hst1].
  apply exec_leaves_row in H as (m0&row&res0&Hget&Hex&Hin&Hkey&Hres&Hfin&Hrep); [|done].
  destruct (run_sandbox_ops_good after s1 Hwf1) as [Hwf2 Hst2]. fold s2 in Hwf2, Hst2.
  assert (row ∈ ss_operations s2) as Hin2.
  { destruct (st_operations _ _ Hst2) as [more ->]. apply elem_of_app. by left. }
  assert (sm_execution_id m = execution_id envelope') as Hex2.
  { destruct (st_instances _ _ (transitivity Hst1 Hst2) id m0 Hget) as (m'&Hm'&Hstep). assert (m' = m) as -> by congruence.
    destruct Hstep as [->|[_ [now ->]]]; simpl; congruence. }
  assert (find_operation id (operation_id request') s2 = Some row) as Hfind.
  { unfold operation_key in Hkey. injection Hkey as <- Hk2. rewrite Hop, <- Hk2.
    apply find_operation_NoDup; [by destruct Hwf2|done]. }
  destruct (io_handle _ (sw_instances _ Hwf2 m ltac:(by apply get_sandbox_elem in Hm as [? _]))) as [handle Hh].
  assert (active_handle m = Some handle) as Hah by (unfold active_handle; by rewrite bool_decide_true).
  destruct Hfin as [t Hfin]. unfold exec_sandbox, require_active. run_step. rewrite Hm. run_step.
  rewrite bool_decide_false by (intros Hne; by apply Hne). run_step. rewrite Hah. run_step. rewrite Hfind, Hres, Hfin.
  run_step. by rewrite Hrep.
Qed.

(** A destroyed sandbox is gone: after its destruction, whatever follows, no program runs in it, nothing is exported
    from it, no instance is created for its request again, and destroying it again does nothing; none of these calls a
    backend. *)
Theorem destroyed_for_good before after self id now s1 self' envelope request clock paths task create_request grants now' :
  destroy_sandbox self id now (run_sandbox_ops uuid5_url hexdigest before empty_sandbox) = (Ok tt, s1) →
  let s2 := run_sandbox_ops uuid5_url hexdigest after s1 in
  ∃ m, get_sandbox id s2 = Some m ∧ sm_status m = SB_DESTROYED ∧
    (∃ e, exec_sandbox uuid5_url self' envelope id request clock s2 = (Err e, s2)) ∧
    export_sandbox self' id paths s2 = (Err (SandboxUnavailable "sandbox_instance_not_active"), s2) ∧
    destroy_sandbox self' id now' s2 = (Ok tt, s2) ∧
    (execution_id envelope = sm_execution_id m → sc_request_id create_request = sm_request_id m →
     ∃ e, create_sandbox uuid5_url hexdigest self' task envelope create_request grants now' s2 = (Err e, s2)).
Proof.
  intros H s2. pose proof (run_from_empty before) as Hwf. set (s := run_sandbox_ops uuid5_url hexdigest before empty_sandbox) in *.
  pose proof (wp_run _ _ _ _ _ (destroy_sandbox_spec self id now s) H) as Hc.
  assert (∃ m1, get_sandbox id s1 = Some m1 ∧ sm_status m1 = SB_DESTROYED ∧ sandbox_wf s1) as (m1&Hm1&Hd1&Hwf1).
  { destruct Hc as [[-> Hc]|(m&calls&Hget&Hne&Hok&_&Hs)].
    - destruct (Hc tt eq_refl) as (m&?&?). by exists m.
    - rewrite (Hs tt eq_refl). destruct (calls_good s calls Hwf Hok) as [Hwfc _].
      destruct (destroy_good id m now (set_ss_calls (ss_calls s ++ calls) s) Hwfc Hget Hne) as [Hwf1 _].
      pose proof Hget as [Hin Hid]%get_sandbox_elem. exists (set_destroyed now m). split; [|split; [done|exact Hwf1]].
      pose proof (get_sandbox_NoDup (set_destroyed now m) _ (sw_instance_ids _ Hwf1)) as Hg. simpl in Hg. rewrite Hid in Hg.
      apply Hg, elem_of_update_where. exists m. split; [done|]. by rewrite bool_decide_true. }
  destruct (run_sandbox_ops_good after s1 Hwf1) as [Hwf2 Hst2]. fold s2 in Hwf2, Hst2.
  destruct (st_instances _ _ Hst2 id m1 Hm1) as (m&Hm&[->|[? _]]); [|done]. exists m1.
  assert (active_handle m1 = None) as Hah by (unfold active_handle; by rewrite bool_decide_false by (by rewrite Hd1)).
  split; [done|]. split; [done|]. split; [|split; [|split]].
  - unfold exec_sandbox, require_active. run_step. rewrite Hm. run_step. destruct (bool_decide (_ ≠ _)); [by eexists|].
    rewrite Hah. by eexists.
  - unfold export_sandbox, require_active. run_step. rewrite Hm. run_step. by rewrite Hah.
  - unfold destroy_sandbox, require_active. run_step. rewrite Hm. run_step. by rewrite bool_decide_true.
  - intros He Hr. unfold create_sandbox. run_step. rewrite He, Hr.
    rewrite (find_sandbox_NoDup m1 s2); [|by destruct Hwf2|by apply get_sandbox_elem in Hm as [? _]].
    run_step. rewrite bool_decide_true by done. by eexists.
Qed.
End histories.

(** ** A concrete history *)

Definition sandbox_envelope : ExecutionEnvelope :=
  mkExecutionEnvelope "e0" None "task" "run" None "InvestigationRole@1" 1 PROFILE_INVESTIGATE ["asset.lookup"%string]
    (mkDatetime 1000 true) "root" "policy-1" ["id:1"%string] "none" "none" "process_restricted@1" [].
Definition sandbox_policy : StaticPolicyEngine :=
  mkStaticPolicyEngine "r1" [sample_rule "sandbox" [SANDBOX_SELECTION] ["sandbox.*"%string] (Some PERMIT) []].
Definition answering : SandboxBackend :=
  mkSandboxBackend (λ _, Ok "handle-1"%string)
    (λ _ _ _, Ok (mkSandboxBackendExecResult "completed" (Some 0) (Some "artifact:out"%string) None None))
    (λ _ paths, Ok ((λ p, "artifact:" +:+ p) <$> paths)) (λ _, Ok tt).
Definition sandbox_broker : SandboxBroker :=
  mkSandboxBroker sandbox_policy [("openshell"%string, answering)] None {["openshell"%string]}.
Definition sandbox_request : SandboxCreateRequest := mkSandboxCreateRequest "r1" PROCESS_RESTRICTED ["artifact:in"%string] [] [] [] [].
Definition sandbox_program (op : string) : SandboxExecRequest := mkSandboxExecRequest op "program:scan" [] [] 300.
Definition sandbox_clock (t : Z) : SandboxClock := mkSandboxClock t (t + 1) (t + 2).
Definition sandbox_setup : list sandbox_op :=
  [PutExecution (mkExecutionRunModel "e0" None "run" sandbox_envelope EX_RUNNING None 0 (Some 0) None);
   CreateSandbox sandbox_broker (sample_contract "task" INVESTIGATE_INCIDENT READ_ONLY default_DelegationCeiling)
     sandbox_envelope sandbox_request (mkSandboxGrants [] None None) 10].
Abbreviation sandbox_uuid := (λ s : string, s).
Abbreviation sandbox_digest := (λ (_ : PolicyRequest) (_ : PolicyDecision), "d"%string).
Definition sandbox_instance_id : string := "secfusion:sandbox-instance:e0:r1".
Definition sandbox_exec (t : Z) : prog SandboxStore SandboxExecResult :=
  exec_sandbox sandbox_uuid sandbox_broker sandbox_envelope sandbox_instance_id (sandbox_program "op") (sandbox_clock t).

Lemma exec_once_witness : ∃ res s1,
  sandbox_exec 900 (run_sandbox_ops sandbox_uuid sandbox_digest sandbox_setup empty_sandbox) = (Ok res, s1) ∧
  timeout_seconds res = 100 ∧ sandbox_exec 950 s1 = (Ok (as_replay res), s1).
Proof.
  destruct (sandbox_exec 900 (run_sandbox_ops sandbox_uuid sandbox_digest sandbox_setup empty_sandbox)) as [[res|e] s1] eqn:E;
    [|by vm_compute in E].
  exists res, s1. split; [done|].
  assert (∃ m, get_sandbox sandbox_instance_id s1 = Some m ∧ sm_status m = SB_ACTIVE ∧ timeout_seconds res = 100)
    as (m&Hm&Hact&Ht).
  { vm_compute in E. injection E as <- <-. eexists. split; [vm_compute; reflexivity|]. split; vm_compute; reflexivity. }
  split; [done|].
  apply (exec_once sandbox_uuid sandbox_digest sandbox_setup [] sandbox_broker sandbox_envelope sandbox_instance_id
    (sandbox_program "op") (sandbox_clock 900) res s1 m sandbox_broker sandbox_envelope (sandbox_program "op")
    (sandbox_clock 950) E Hm Hact eq_refl eq_refl).
Defined.

Lemma destroyed_for_good_witness : ∃ s1,
  destroy_sandbox sandbox_broker sandbox_instance_id 20
    (run_sandbox_ops sandbox_uuid sandbox_digest sandbox_setup empty_sandbox) = (Ok tt, s1) ∧
  ss_calls s1 = [CreateCall "openshell" (lease_of sandbox_envelope sandbox_request
                   (default_profile "process_restricted" PROCESS_RESTRICTED "openshell" [] "deny" "none" false)
                   (mkSandboxGrants [] None None)); DestroyCall "openshell" "handle-1"] ∧
  export_sandbox sandbox_broker sandbox_instance_id ["out.txt"%string] s1 =
    (Err (SandboxUnavailable "sandbox_instance_not_active"), s1).
Proof.
  destruct (destroy_sandbox sandbox_broker sandbox_instance_id 20
    (run_sandbox_ops sandbox_uuid sandbox_digest sandbox_setup empty_sandbox)) as [[[]|e] s1] eqn:E; [|by vm_compute in E].
  exists s1. split; [done|]. split; [vm_compute in E; injection E as <-; vm_compute; reflexivity|].
  destruct (destroyed_for_good sandbox_uuid sandbox_digest sandbox_setup [] sandbox_broker sandbox_instance_id 20 s1
    sandbox_broker sandbox_envelope (sandbox_program "op") (sandbox_clock 30) ["out.txt"%string]
    (sample_contract "task" INVESTIGATE_INCIDENT READ_ONLY default_DelegationCeiling) sandbox_request
    (mkSandboxGrants [] None None) 40 E) as (m&_&_&_&H&_).
  exact H.
Defined.

(** The isolation that is asked for selects a profile of a caller's configuration by its key only. *)
Example weaker_isolation_served :
  let weak := default_profile "weak" PROCESS_RESTRICTED "openshell" [] "deny" "none" false in
  let selection := select_sandbox_profile CONTAINER_STANDARD {["openshell"%string]} (Some [(CONTAINER_STANDARD, weak)]) in
  sel_profile selection = Some weak ∧ isolation_satisfies (isolation_class weak) CONTAINER_STANDARD = false.
Proof. split; vm_compute; reflexivity. Qed.
