(* ===== verification/Perception.v ===== *)
(** * Perception: packages/investigation/perception (contracts, planner, assembly, runtime, audit)

    How an investigation looks at the world: a [PerceptionRequest] is planned into physical steps ([plan]), the steps read
    through the operators of [Retrieval] or the external port ([execute]), the candidates are merged, ranked and checked
    against the evidence requirement ([assemble]), and the [Percept] is recorded with its request and plan ([record]).
    A step reads the tables as they are when it runs: the session's store [S] holds them ([tables]) beside whatever the port
    changes.  [repr] of a container and the port are parameters. *)

From S2P Require Import Prelude.
From S2P Require Import Effects.
From S2P Require Import PyNumbers.
From S2P Require Import TaskContracts.
From S2P Require Import TaskStore.
From S2P Require Import InvestigationState.
From S2P Require Import Retrieval.
From Stdlib Require Import Ascii.

Abbreviation dict := (list (string * json)).

(** ** contracts.py *)

Inductive PerceptionOperation :=
| INSPECT | EXPAND | TRACE | ZOOM | SEARCH | CORROBORATE | CONTRAST | REFRESH | OBSERVE_EXTERNAL | WATCH.
#[export] Instance PerceptionOperation_eq_dec : EqDecision PerceptionOperation.
Proof. solve_decision. Defined.
Definition PerceptionOperation_value (o : PerceptionOperation) : string :=
  match o with
  | INSPECT => "inspect" | EXPAND => "expand" | TRACE => "trace" | ZOOM => "zoom" | SEARCH => "search"
  | CORROBORATE => "corroborate" | CONTRAST => "contrast" | REFRESH => "refresh" | OBSERVE_EXTERNAL => "observe_external"
  | WATCH => "watch"
  end.

Record IdentifierTarget := mkIdentifierTarget { it_namespace : string; it_value : string }.
Record EvidenceTarget := mkEvidenceTarget { et_target_kind : string; et_target_id : string }.

Record PerceptionTarget := mkPerceptionTarget {
  pt_identifier : option IdentifierTarget;
  pt_object_id : option string;
  pt_document_offset : Z;
  pt_query_text : option string;
  pt_query_vector : option (list pyfloat);
  pt_projection_types : list string;
  pt_relation_types : list string;
  pt_evidence_targets : list EvidenceTarget;
  pt_source_ids : list string;
  pt_verification_intent : option string
}.

Record EvidenceRequirement := mkEvidenceRequirement {
  er_required_source_roles : list string;
  er_min_independent_sources : Z;
  max_candidates : Z
}.
Definition default_requirement : EvidenceRequirement := mkEvidenceRequirement [] 0 20.

Record PerceptionRequest := mkPerceptionRequest {
  pr_request_id : string;
  pr_case_id : option string;
  pr_need_id : option string;
  pr_operation : PerceptionOperation;
  pr_target : PerceptionTarget;
  pr_desired_observation : option string;
  evidence_requirement : EvidenceRequirement;
  pr_time_scope : dict;
  pr_current_context_refs : list string;
  pr_budget_ref : option string
}.

(** The bounds of [Field(ge=0, le=1000)]. *)
Definition validate_target (t : PerceptionTarget) : result PerceptionTarget :=
  _ ← raise_when ((pt_document_offset t <? 0) || (1000 <? pt_document_offset t)) (ValueError "validation error"); Ok t.

Inductive PhysicalOperator :=
| EXACT | STRUCTURED | DOCUMENT | LEXICAL | DENSE | GRAPH | EVIDENCE | EXTERNAL | SANDBOX.
#[export] Instance PhysicalOperator_eq_dec : EqDecision PhysicalOperator.
Proof. solve_decision. Defined.
Definition PhysicalOperator_value (o : PhysicalOperator) : string :=
  match o with
  | EXACT => "exact" | STRUCTURED => "structured" | DOCUMENT => "document" | LEXICAL => "lexical" | DENSE => "dense"
  | GRAPH => "graph" | EVIDENCE => "evidence" | EXTERNAL => "external" | SANDBOX => "sandbox"
  end.

Record PhysicalPerceptionStep := mkPhysicalPerceptionStep {
  step_id : string;
  operator : PhysicalOperator;
  step_input : dict;
  dependency : option string;
  expected_output_type : string;
  capability_requirement : string;
  estimated_cost : string
}.

Record PhysicalPerceptionPlan := mkPhysicalPerceptionPlan {
  pp_request_id : string;
  pp_steps : list PhysicalPerceptionStep;
  stop_condition : string;
  fallback_order : list string;
  planner_revision : string
}.

Record ObservedProposition := mkObservedProposition {
  op_statement : string;
  op_support_refs : list string;
  op_refute_refs : list string;
  op_source_groups : list string;
  op_freshness : dict
}.

Record PerceptionStepResult := mkPerceptionStepResult {
  sr_candidates : list RetrievedCandidate;
  sr_observed_propositions : list ObservedProposition;
  sr_observation_handles : list string;
  sr_unresolved : list string;
  sr_cost : dict
}.
(** [PerceptionStepResult(candidates=..., unresolved=...)] *)
Definition step_result (candidates : list RetrievedCandidate) (unresolved : list string) : PerceptionStepResult :=
  mkPerceptionStepResult candidates [] [] unresolved [].

Record CandidateAssemblyResult := mkCandidateAssemblyResult {
  ca_candidates : list RetrievedCandidate;
  ca_independent_source_keys : list string;
  ca_source_roles : list string;
  requirements_satisfied : bool;
  ca_unresolved : list string
}.

Record Percept := mkPercept {
  percept_id : string;
  pc_request_id : string;
  target_refs : list string;
  observed_propositions : list ObservedProposition;
  pc_relations : list dict;
  timeline_slice : list dict;
  candidate_evidence : list RetrievedCandidate;
  evidence_handles : list string;
  observation_handles : list string;
  pc_independent_source_keys : list string;
  pc_source_roles : list string;
  pc_unresolved : list string;
  operator_counts : list (string * Z);
  pc_cost : dict;
  assembler_revision : string
}.

(** ** planner.py *)

Definition PLANNER_REVISION : string := "perception-planner-v3".
Definition DOCUMENT_PAGE_SIZE : Z := 8.

Definition texts_json (l : list string) : json := JArr (JStr <$> l).
Definition local_step (id : string) (op : PhysicalOperator) (input : dict) (dep : option string) (output : string)
  : PhysicalPerceptionStep := mkPhysicalPerceptionStep id op input dep output "local_read" "low".

Definition exact_steps (t : PerceptionTarget) : list PhysicalPerceptionStep :=
  match pt_identifier t with
  | Some i => [local_step "exact:0" EXACT [("namespace"%string, JStr (it_namespace i)); ("value"%string, JStr (it_value i))]
                 None "object"]
  | None => []
  end.
Definition exact_step_id (t : PerceptionTarget) : option string :=
  match pt_identifier t with Some _ => Some "exact:0"%string | None => None end.

(** The step that a step on the object depends on: none when the object is named. *)
Definition object_dependency (t : PerceptionTarget) : option string :=
  match pt_object_id t with Some _ => None | None => exact_step_id t end.
Definition has_object (t : PerceptionTarget) : bool :=
  bool_decide (pt_object_id t ≠ None) || bool_decide (exact_step_id t ≠ None).

Definition inspect_steps (r : PerceptionRequest) : list PhysicalPerceptionStep :=
  let t := pr_target r in
  if bool_decide (pr_operation r = INSPECT) && has_object t then
    [local_step "structured:0" STRUCTURED
       (("projection_types"%string, texts_json (pt_projection_types t)) ::
        match pt_object_id t with Some id => [("subject_id"%string, JStr id)] | None => [] end)
       (object_dependency t) "projection";
     local_step "document:0" DOCUMENT
       [("subject_id"%string, text_json (pt_object_id t));
        ("limit"%string, JInt (Z.max 1 (Z.min (max_candidates (evidence_requirement r)) DOCUMENT_PAGE_SIZE)));
        ("offset"%string, JInt (pt_document_offset t))]
       (object_dependency t) "document_chunk"]
  else [].

Definition graph_steps (r : PerceptionRequest) : list PhysicalPerceptionStep :=
  let t := pr_target r in
  if bool_decide (pr_operation r ∈ [EXPAND; TRACE]) && has_object t then
    [local_step "graph:0" GRAPH
       ([("direction"%string, JStr (if bool_decide (pr_operation r = TRACE) then "both" else "out"));
         ("relation_types"%string, texts_json (pt_relation_types t));
         ("limit"%string, JInt (Z.min (max_candidates (evidence_requirement r)) 20))] ++
        match pt_object_id t with Some id => [("object_id"%string, JStr id)] | None => [] end)
       (object_dependency t) "relation";
     local_step "graph-evidence:0" EVIDENCE [("target_kind"%string, JStr "relation")] (Some "graph:0"%string) "evidence"]
  else [].

Definition search_steps (r : PerceptionRequest) : list PhysicalPerceptionStep :=
  let t := pr_target r in
  let limit := JInt (max_candidates (evidence_requirement r)) in
  if bool_decide (pr_operation r ∈ [SEARCH; CORROBORATE; CONTRAST]) then
    match truthy_text (pt_query_text t) with
    | Some q => [local_step "lexical:0" LEXICAL [("query"%string, JStr q); ("source_ids"%string, texts_json (pt_source_ids t));
                                                 ("limit"%string, limit)] None "document_chunk"]
    | None => []
    end ++
    match pt_query_vector t with
    | Some (x :: v) => [local_step "dense:0" DENSE [("query_vector"%string, JArr (JFloat <$> (x :: v)));
                                                    ("source_ids"%string, texts_json (pt_source_ids t));
                                                    ("limit"%string, limit)] None "document_chunk"]
    | _ => []
    end
  else [].

Definition evidence_steps (t : PerceptionTarget) : list PhysicalPerceptionStep :=
  imap (λ index e, local_step ("evidence:" +:+ str_of_N (N.of_nat index)) EVIDENCE
                     [("target_kind"%string, JStr (et_target_kind e)); ("target_id"%string, JStr (et_target_id e))]
                     None "evidence") (pt_evidence_targets t).

Definition external_steps (r : PerceptionRequest) : list PhysicalPerceptionStep :=
  let t := pr_target r in
  if bool_decide (pr_operation r = OBSERVE_EXTERNAL) then
    [mkPhysicalPerceptionStep "external:0" EXTERNAL
       [("identifier"%string, match pt_identifier t with
                              | Some i => JObj [("namespace"%string, JStr (it_namespace i)); ("value"%string, JStr (it_value i))]
                              | None => JNull
                              end);
        ("object_id"%string, text_json (pt_object_id t)); ("query_text"%string, text_json (pt_query_text t));
        ("source_ids"%string, texts_json (pt_source_ids t));
        ("desired_observation"%string, text_json (pr_desired_observation r)); ("time_scope"%string, JObj (pr_time_scope r))]
       None "ephemeral_observation" "external_observation" "medium"]
  else [].

Definition plan (r : PerceptionRequest) : PhysicalPerceptionPlan :=
  mkPhysicalPerceptionPlan (pr_request_id r)
    (exact_steps (pr_target r) ++ inspect_steps r ++ graph_steps r ++ search_steps r ++ evidence_steps (pr_target r) ++
     external_steps r)
    "local_plan_exhausted" [] PLANNER_REVISION.

(** ** assembly.py *)

Definition ASSEMBLER_REVISION : string := "candidate-assembler-v1".

(** [model_copy] with other scores. *)
Definition with_scores (scores : list (string * pyfloat)) (c : RetrievedCandidate) : RetrievedCandidate :=
  mkRetrievedCandidate (candidate_id c) (candidate_kind c) (rc_object_id c) (rc_relation_id c) (rc_evidence_ref c)
    (rc_document_chunk_id c) (rc_source_id c) (rc_source_role c) (rc_source_family c) (rc_upstream_source c) (rc_revision c)
    (rc_observed_at c) (rc_valid_time c) scores (rc_locator c) (rc_payload c).

(** [scores[channel] = max(scores.get(channel, -inf), value)] *)
Definition raise_score (scores : list (string * pyfloat)) (cv : string * pyfloat) : list (string * pyfloat) :=
  dict_set cv.1 (float_max (default (Infinite true) (dict_get cv.1 scores)) cv.2) scores.

(** One round of the loop over the candidates; [merged] is the dictionary. *)
Definition merge_candidate (merged : list (string * RetrievedCandidate)) (c : RetrievedCandidate)
  : list (string * RetrievedCandidate) :=
  match dict_get (candidate_id c) merged with
  | None => dict_set (candidate_id c) c merged
  | Some current =>
      dict_set (candidate_id c) (with_scores (foldl raise_score (score_channels current) (score_channels c)) current) merged
  end.
Definition merge_candidates (candidates : list RetrievedCandidate) : list (string * RetrievedCandidate) :=
  foldl merge_candidate [] candidates.

(** [_independence_key] *)
Definition independence_key (c : RetrievedCandidate) : option string :=
  match truthy_text (rc_upstream_source c) with
  | Some u => Some ("upstream:" +:+ u)
  | None => match truthy_text (rc_source_family c) with
            | Some f => Some ("family:" +:+ f)
            | None => match truthy_text (rc_source_id c) with Some s => Some ("source:" +:+ s) | None => None end
            end
  end.

(** [_candidate_sort_key]: the negated scores of the channels in this order, then the identity. *)
Definition ranked_channels : list string :=
  ["exact"; "structured"; "evidence"; "graph"; "lexical"; "dense"; "freshness"]%string.
Definition channel_key (channel : string) (c : RetrievedCandidate) : pyfloat :=
  float_neg (default (Finite 0 0) (dict_get channel (score_channels c))).
Definition candidate_le : RetrievedCandidate → RetrievedCandidate → Prop :=
  foldr (λ channel rest, lex_le (on_le (channel_key channel) float_le) rest) (on_le candidate_id String.le) ranked_channels.
#[export] Instance candidate_le_dec : RelDecision candidate_le.
Proof. unfold candidate_le. simpl. apply _. Defined.

Definition source_roles_of (l : list RetrievedCandidate) : list string :=
  sorted_set (omap (M:=list) (λ c, truthy_text (rc_source_role c)) l).
Definition independent_keys (l : list RetrievedCandidate) : list string := sorted_set (omap (M:=list) independence_key l).

Definition assemble (candidates : list RetrievedCandidate) (requirement : EvidenceRequirement) : CandidateAssemblyResult :=
  let ordered := py_sorted candidate_le (merge_candidates candidates).*2 in
  let limited := py_take (max_candidates requirement) ordered in
  let source_roles := source_roles_of limited in
  let independent := independent_keys limited in
  let found := Z.of_nat (length independent) in
  let unresolved :=
    ((λ role, "required_source_role_missing:" +:+ role) <$>
       filter (λ role, role ∉ source_roles) (er_required_source_roles requirement)) ++
    (if found <? er_min_independent_sources requirement
     then ["independent_source_requirement_unsatisfied:" +:+ str_of_Z found +:+ "/"
           +:+ str_of_Z (er_min_independent_sources requirement)] else []) ++
    (if bool_decide (limited = []) then ["no_candidates"%string] else []) in
  mkCandidateAssemblyResult limited independent source_roles (bool_decide (unresolved = [])) unresolved.

(** ** runtime.py *)

Definition KeyError (key : string) : exn := OtherException "KeyError" key.

(** [int(value)] *)
Definition py_int (v : json) : result Z :=
  match v with
  | JBool b => Ok (if b then 1 else 0)
  | _ => match int_of_number v with Some r => r | None => Err (TypeError "int() argument must be a string or a number") end
  end.
(** [float(item)] of an [int]: the nearest float. *)
Definition float_of_int (z : Z) : result pyfloat :=
  if 2 ^ 1024 - 2 ^ 970 <=? Z.abs z then Err (OverflowError "int too large to convert to float") else Ok (round_float z 0).

(** [_string_list], [_float_list] *)
Definition string_list (v : option json) : list string :=
  match v with Some (JArr l) => omap (M:=list) (λ x, match x with JStr s => Some s | _ => None end) l | _ => [] end.
Definition float_items (x : json) : result (list pyfloat) :=
  match x with
  | JBool b => Ok [Finite (if b then 1 else 0) 0]
  | JInt z => f ← float_of_int z; Ok [f]
  | JFloat f => Ok [f]
  | _ => Ok []
  end.
Definition float_list (v : option json) : result (list pyfloat) :=
  match v with Some (JArr l) => fs ← try_map float_items l; Ok (concat fs) | _ => Ok [] end.

(** [_subject_ids]: [payload.get("subject_id") or payload.get("object_id")], else the objects of the step depended on. *)
Definition subject_ids (payload : dict) (dependency : list RetrievedCandidate) : list string :=
  let direct := match dict_get "subject_id" payload with
                | Some v => if truthy v then Some v else dict_get "object_id" payload
                | None => dict_get "object_id" payload
                end in
  let others := from_keys (omap (M:=list) rc_object_id dependency) in
  match direct with
  | Some (JStr s) => if bool_decide (s = ""%string) then others else [s]
  | _ => others
  end.

(** [int(payload.get(key, default))] *)
Definition int_option (key : string) (default_value : Z) (payload : dict) : result Z :=
  match dict_get key payload with Some v => py_int v | None => Ok default_value end.

Section runtime.
Context (py_repr : json → string) (ts_match : string → string → bool) (ts_rank_cd : string → string → pyfloat)
  (cosine_distance : list pyfloat → list pyfloat → result pyfloat).
Context {S : Type} (tables : S → RetrievalDB).

(** [PhysicalObservationPort.execute] *)
Definition ObservationPort : Type := string → PerceptionRequest → PhysicalPerceptionStep → prog S PerceptionStepResult.
Context (port : option ObservationPort).

(** A read of the tables as they are now. *)
Definition read {A} (f : RetrievalDB → result A) : prog S A := s ← get_store; lift (f (tables s)).

(** [payload[key]], as a text. *)
Definition text_field (key : string) (payload : dict) : prog S string :=
  v ← require (dict_get key payload) (KeyError key); mret (py_str py_repr v).

Definition structured_step (step : PhysicalPerceptionStep) (dependency : list RetrievedCandidate)
  : prog S PerceptionStepResult :=
  found ← for_each (subject_ids (step_input step) dependency) (λ id,
    read (structured_current (Some id) None (string_list (dict_get "projection_types" (step_input step)))));
  mret (step_result (concat found) []).

(** A page of one object: what is kept of one chunk more than the limit, and whether there was one more. *)
Definition document_page (db : RetrievalDB) (limit offset : Z) (id : string) : result (list RetrievedCandidate * list string) :=
  page ← for_object db id (limit + 1) offset;
  Ok (py_take limit page,
      if limit <? Z.of_nat (length page)
      then ["more_document_chunks:" +:+ id +:+ ":offset=" +:+ str_of_Z (offset + limit)] else []).
Definition document_step (step : PhysicalPerceptionStep) (dependency : list RetrievedCandidate)
  : prog S PerceptionStepResult :=
  limit ← lift (int_option "limit" 20 (step_input step));
  offset ← lift (int_option "offset" 0 (step_input step));
  pages ← for_each (subject_ids (step_input step) dependency) (λ id, read (λ db, document_page db limit offset id));
  mret (step_result (concat (fst <$> pages)) (concat (snd <$> pages))).

Definition lexical_step (step : PhysicalPerceptionStep) : prog S PerceptionStepResult :=
  query ← text_field "query" (step_input step);
  limit ← lift (int_option "limit" 20 (step_input step));
  candidates ← read (λ db, lexical_search ts_match ts_rank_cd db query limit (string_list (dict_get "source_ids" (step_input step))));
  bound ← read (λ db, Ok (bind_evidence db candidates));
  mret (step_result bound []).

Definition dense_step (step : PhysicalPerceptionStep) : prog S PerceptionStepResult :=
  vector ← lift (float_list (dict_get "query_vector" (step_input step)));
  limit ← lift (int_option "limit" 20 (step_input step));
  candidates ← read (λ db, dense_search cosine_distance db vector limit (string_list (dict_get "source_ids" (step_input step))));
  bound ← read (λ db, Ok (bind_evidence db candidates));
  mret (step_result bound []).

Definition graph_step (step : PhysicalPerceptionStep) (dependency : list RetrievedCandidate) : prog S PerceptionStepResult :=
  let payload := step_input step in
  found ← for_each (subject_ids payload dependency) (λ id,
    limit ← lift (int_option "limit" 20 payload);
    read (λ db, neighbors db id (match dict_get "direction" payload with Some v => py_str py_repr v | None => "out" end)
                  (string_list (dict_get "relation_types" payload)) limit));
  mret (step_result (concat found) []).

(** The number of links read for each target: the budget is divided among the targets. *)
Definition evidence_budget (r : PerceptionRequest) : Z := Z.min (Z.max (max_candidates (evidence_requirement r)) 1) 100.
Definition evidence_share (budget : Z) (targets : nat) (index : nat) : Z :=
  budget / Z.of_nat targets + (if Z.of_nat index <? budget mod Z.of_nat targets then 1 else 0).
Definition evidence_targets (r : PerceptionRequest) (payload : dict) (dependency : list RetrievedCandidate) : list string :=
  let ids := match dict_get "target_id" payload with
             | Some v => if truthy v then [py_str py_repr v] else from_keys (omap (M:=list) (λ c, truthy_text (rc_relation_id c)) dependency)
             | None => from_keys (omap (M:=list) (λ c, truthy_text (rc_relation_id c)) dependency)
             end in
  py_take (evidence_budget r) ids.
Definition evidence_read (db : RetrievalDB) (kind id : string) (limit : Z) : result (list RetrievedCandidate * list string) :=
  candidates ← for_target db kind id (Some (limit + 1));
  Ok (py_take limit candidates,
      if limit <? Z.of_nat (length candidates) then ["evidence_candidates_truncated:" +:+ id] else []).
Definition evidence_step (r : PerceptionRequest) (step : PhysicalPerceptionStep) (dependency : list RetrievedCandidate)
  : prog S PerceptionStepResult :=
  let ids := evidence_targets r (step_input step) dependency in
  reads ← for_each (imap pair ids) (λ '(index, id),
    kind ← text_field "target_kind" (step_input step);
    read (λ db, evidence_read db kind id (evidence_share (evidence_budget r) (length ids) index)));
  let warnings := concat (snd <$> reads) in
  mret (mkPerceptionStepResult (concat (fst <$> reads)) [] [] warnings
          [("read_queries"%string, JInt (Z.of_nat (length ids)));
           ("truncated_targets"%string, JInt (Z.of_nat (length warnings)))]).

(** [_execute_step] *)
Definition execute_step (r : PerceptionRequest) (step : PhysicalPerceptionStep)
    (outputs : list (string * PerceptionStepResult)) (task_run_id : option string) : prog S PerceptionStepResult :=
  let payload := step_input step in
  let depended := match dict_get (default ""%string (dependency step)) outputs with Some o => sr_candidates o | None => [] end in
  match operator step with
  | EXACT =>
      ns ← text_field "namespace" payload;
      val ← text_field "value" payload;
      candidates ← read (λ db, Ok (by_identifier ns val db));
      mret (step_result candidates [])
  | STRUCTURED => structured_step step depended
  | DOCUMENT => document_step step depended
  | LEXICAL => lexical_step step
  | DENSE => dense_step step
  | GRAPH => graph_step step depended
  | EVIDENCE => evidence_step r step depended
  | EXTERNAL | SANDBOX =>
      match port with
      | None => mret (step_result [] ["physical_operator_unavailable:" +:+ PhysicalOperator_value (operator step)])
      | Some execute_external =>
          run ← require task_run_id (ValueError "perception requires task_run_id execution context");
          execute_external run r step
      end
  end.

(** What the loop over the steps has gathered. *)
Record Gathered := mkGathered {
  ga_outputs : list (string * PerceptionStepResult);
  ga_counts : list (string * Z);
  ga_warnings : list string;
  ga_propositions : list ObservedProposition;
  ga_handles : list string;
  ga_cost : dict
}.
Definition gather (step : PhysicalPerceptionStep) (output : PerceptionStepResult) (g : Gathered) : Gathered :=
  let op := PhysicalOperator_value (operator step) in
  mkGathered (dict_set (step_id step) output (ga_outputs g))
    (dict_set op (default 0 (dict_get op (ga_counts g)) + 1) (ga_counts g))
    (ga_warnings g ++ sr_unresolved output ++
     (if bool_decide (operator step = DENSE ∧ sr_candidates output = [])
      then ["dense_no_candidates_or_embeddings_unavailable"%string] else []))
    (ga_propositions g ++ sr_observed_propositions output) (ga_handles g ++ sr_observation_handles output)
    (foldl (λ d kv, dict_set (step_id step +:+ ":" +:+ kv.1) kv.2 d) (ga_cost g) (sr_cost output)).
Fixpoint run_steps (r : PerceptionRequest) (task_run_id : option string) (steps : list PhysicalPerceptionStep) (g : Gathered)
  : prog S Gathered :=
  match steps with
  | [] => mret g
  | step :: rest =>
      output ← execute_step r step (ga_outputs g) task_run_id;
      run_steps r task_run_id rest (gather step output g)
  end.

Definition all_candidates (p : PhysicalPerceptionPlan) (g : Gathered) : list RetrievedCandidate :=
  concat ((λ step, match dict_get (step_id step) (ga_outputs g) with Some o => sr_candidates o | None => [] end) <$> pp_steps p).

(** [{"relation_id": candidate.relation_id, **candidate.payload}] *)
Definition relation_edge (c : RetrievedCandidate) : dict :=
  foldl (λ d kv, dict_set kv.1 kv.2 d) [("relation_id"%string, text_json (rc_relation_id c))] (rc_payload c).

(** The percept of what was gathered. *)
Definition percept_of (r : PerceptionRequest) (p : PhysicalPerceptionPlan) (g : Gathered) : Percept :=
  let candidates := all_candidates p g in
  let assembled := assemble candidates (evidence_requirement r) in
  mkPercept ("percept:" +:+ pr_request_id r) (pr_request_id r)
    (sorted_set (omap (M:=list) rc_object_id (ca_candidates assembled)))
    (ga_propositions g)
    (py_take (max_candidates (evidence_requirement r))
       (relation_edge <$> filter (λ c, candidate_kind c = KIND_RELATION) candidates))
    []
    (ca_candidates assembled)
    (sorted_set (omap (M:=list) rc_evidence_ref (ca_candidates assembled)))
    (sorted_set (ga_handles g))
    (ca_independent_source_keys assembled)
    (ca_source_roles assembled)
    (from_keys (ca_unresolved assembled ++ ga_warnings g))
    (ga_counts g)
    (foldl (λ d kv, dict_set kv.1 kv.2 d) [("operator_calls"%string, JInt (sumZ snd (ga_counts g)))] (ga_cost g))
    ASSEMBLER_REVISION.

Definition execute (r : PerceptionRequest) (p : PhysicalPerceptionPlan) (task_run_id : option string) : prog S Percept :=
  _ ← check (bool_decide (pr_request_id r ≠ pp_request_id p)) (ValueError "perception request and plan request_id differ");
  g ← run_steps r task_run_id (pp_steps p) (mkGathered [] [] [] [] [] []);
  mret (percept_of r p g).
End runtime.

(** ** audit.py *)

Definition dump_target (t : PerceptionTarget) : json := JObj [
  ("identifier"%string, match pt_identifier t with
                        | Some i => JObj [("namespace"%string, JStr (it_namespace i)); ("value"%string, JStr (it_value i))]
                        | None => JNull
                        end);
  ("object_id"%string, text_json (pt_object_id t));
  ("document_offset"%string, JInt (pt_document_offset t));
  ("query_text"%string, text_json (pt_query_text t));
  ("query_vector"%string, match pt_query_vector t with Some v => JArr (JFloat <$> v) | None => JNull end);
  ("projection_types"%string, texts_json (pt_projection_types t));
  ("relation_types"%string, texts_json (pt_relation_types t));
  ("evidence_targets"%string,
     JArr ((λ e, JObj [("target_kind"%string, JStr (et_target_kind e)); ("target_id"%string, JStr (et_target_id e))])
             <$> pt_evidence_targets t));
  ("source_ids"%string, texts_json (pt_source_ids t));
  ("verification_intent"%string, text_json (pt_verification_intent t))].
Definition dump_requirement (q : EvidenceRequirement) : json := JObj [
  ("required_source_roles"%string, texts_json (er_required_source_roles q));
  ("min_independent_sources"%string, JInt (er_min_independent_sources q));
  ("max_candidates"%string, JInt (max_candidates q))].
Definition dump_request (r : PerceptionRequest) : dict := [
  ("request_id"%string, JStr (pr_request_id r));
  ("case_id"%string, text_json (pr_case_id r));
  ("need_id"%string, text_json (pr_need_id r));
  ("operation"%string, JStr (PerceptionOperation_value (pr_operation r)));
  ("target"%string, dump_target (pr_target r));
  ("desired_observation"%string, text_json (pr_desired_observation r));
  ("evidence_requirement"%string, dump_requirement (evidence_requirement r));
  ("time_scope"%string, JObj (pr_time_scope r));
  ("current_context_refs"%string, texts_json (pr_current_context_refs r));
  ("budget_ref"%string, text_json (pr_budget_ref r))].
Definition dump_step (s : PhysicalPerceptionStep) : json := JObj [
  ("step_id"%string, JStr (step_id s));
  ("operator"%string, JStr (PhysicalOperator_value (operator s)));
  ("input"%string, JObj (step_input s));
  ("dependency"%string, text_json (dependency s));
  ("expected_output_type"%string, JStr (expected_output_type s));
  ("capability_requirement"%string, JStr (capability_requirement s));
  ("estimated_cost"%string, JStr (estimated_cost s))].
Definition dump_plan (p : PhysicalPerceptionPlan) : dict := [
  ("request_id"%string, JStr (pp_request_id p));
  ("steps"%string, JArr (dump_step <$> pp_steps p));
  ("stop_condition"%string, JStr (stop_condition p));
  ("fallback_order"%string, texts_json (fallback_order p));
  ("planner_revision"%string, JStr (planner_revision p))].

Record PerceptionEventRecord := mkPerceptionEventRecord {
  rec_perception_event_id : string;
  rec_case_id : string;
  rec_task_run_id : string;
  rec_request_id : string;
  rec_world_revision : Z;
  rec_percept_ref : string;
  rec_replay : bool
}.
Definition event_record (m : PerceptionEvent) (replay : bool) : PerceptionEventRecord :=
  mkPerceptionEventRecord (pe_perception_event_id m) (pe_case_id m) (pe_task_run_id m) (pe_request_id m)
    (pe_world_revision m) (pe_percept_ref m) replay.

Definition put_perception (m : PerceptionEvent) (db : CaseDB) : CaseDB :=
  mkCaseDB (cases db) (case_events db) (evidence_needs db) (state_current db) (perception_events db ++ [m]) (trajectories db).

(** The recorded perception of a request of a run. *)
Definition find_perception (run_id request_id : string) (db : CaseDB) : option PerceptionEvent :=
  find (λ m, bool_decide (pe_task_run_id m = run_id ∧ pe_request_id m = request_id)) (perception_events db).

(** [_require_replay_match] *)
Definition replay_matches (m : PerceptionEvent) (r : PerceptionRequest) (p : PhysicalPerceptionPlan) (c : Percept) : bool :=
  json_same (JObj (pe_request_json m)) (JObj (dump_request r)) && json_same (JObj (pe_plan_json m)) (JObj (dump_plan p)) &&
  bool_decide (pe_percept_ref m = "percept:" +:+ percept_id c).

(** The tables of runs and of cases, in one session. *)
Definition AuditDB : Type := TaskDB * CaseDB.

Section audit.
Context (fresh : string → Z → string) (isoformat : Z → string) (fromisoformat : string → result Z).

(** The checks of [record], and the case of the run. *)
Definition check_perception (run_id : string) (r : PerceptionRequest) (p : PhysicalPerceptionPlan) (c : Percept)
  : prog AuditDB string :=
  _ ← check (bool_decide (pr_request_id r ≠ pp_request_id p) || bool_decide (pr_request_id r ≠ pc_request_id c))
        (ValueError "Perception request/plan/percept identities must match");
  s ← get_store;
  run ← require (task_runs s.1 !! run_id) (LookupError "task run not found" run_id);
  case ← require (run_case_id run) (ValueError "PerceptionEvent requires a Case-bound TaskRun");
  _ ← check (bool_decide (pr_case_id r ≠ None ∧ pr_case_id r ≠ Some case))
        (ValueError "PerceptionRequest case_id escapes TaskRun Case");
  _ ← require (cases s.2 !! case) (RuntimeError "TaskRun references missing Investigation Case");
  _ ← check (match pr_need_id r with
             | None => false
             | Some need => match evidence_needs s.2 !! need with
                            | Some n => bool_decide (need_case_id n ≠ case)
                            | None => true
                            end
             end) (ValueError "PerceptionRequest need_id does not belong to TaskRun Case");
  mret case.

(** [event_id] is the uuid4 of a new event, [knowledge_revision] the [current_knowledge_revision] of the session. *)
Definition record (run_id : string) (r : PerceptionRequest) (p : PhysicalPerceptionPlan) (c : Percept)
    (started_at finished_at : Z) (event_status : string) (failure_class : option string) (event_id : string)
    (knowledge_revision now : Z)
  : prog AuditDB PerceptionEventRecord :=
  case ← check_perception run_id r p c;
  s ← get_store;
  match find_perception run_id (pr_request_id r) s.2 with
  | Some existing =>
      _ ← check (negb (replay_matches existing r p c)) (ValueError "PerceptionEvent replay identity changed payload");
      _ ← zoom (mark_perception fresh isoformat fromisoformat (pe_case_id existing) (pe_perception_event_id existing)
                  (pe_world_revision existing) (pe_finished_at existing) now);
      mret (event_record existing true)
  | None =>
      let model := mkPerceptionEvent event_id case run_id (pr_request_id r) (pr_need_id r) (dump_request r) (dump_plan p)
                     ("percept:" +:+ percept_id c) (sorted_set (evidence_handles c)) (sorted_set (observation_handles c))
                     (pc_cost c) knowledge_revision event_status failure_class started_at finished_at in
      _ ← check (bool_decide (event_id ∈ pe_perception_event_id <$> perception_events s.2)) (IntegrityError event_id);
      _ ← modify (λ s, (s.1, put_perception model s.2));
      _ ← zoom (mark_perception fresh isoformat fromisoformat case event_id knowledge_revision finished_at now);
      mret (event_record model false)
  end.
End audit.

(** ** Plans *)

Lemma str_of_N_inj m n : str_of_N m = str_of_N n → m = n.
Proof. intros H. apply (f_equal int_of_digits) in H. rewrite !int_of_digits_str in H. by injection H. Qed.

(** Every dependency is the identity of an earlier step. *)
Fixpoint dependencies_met (seen : list string) (steps : list PhysicalPerceptionStep) : Prop :=
  match steps with
  | [] => True
  | s :: rest => match dependency s with Some d => d ∈ seen | None => True end ∧ dependencies_met (seen ++ [step_id s]) rest
  end.

Lemma dependencies_met_app seen l k :
  dependencies_met seen (l ++ k) ↔ dependencies_met seen l ∧ dependencies_met (seen ++ (step_id <$> l)) k.
Proof.
  revert seen. induction l as [|s l IH]; intros seen; csimpl; [by rewrite app_nil_r; tauto|].
  rewrite IH, <- app_assoc. csimpl. tauto.
Qed.

Lemma dependencies_met_free seen l : Forall (λ s, dependency s = None) l → dependencies_met seen l.
Proof. intros Hl. revert seen. induction Hl as [|s l Hs Hl IH]; intros seen; simpl; [done|]. by rewrite Hs. Qed.

(** What every step of a part of the plan is like. *)
Record part_ok (r : PerceptionRequest) (s : PhysicalPerceptionStep) : Prop := {
  po_external : operator s = EXTERNAL → pr_operation r = OBSERVE_EXTERNAL ∧ capability_requirement s = "external_observation"%string;
  po_local : operator s ≠ EXTERNAL → operator s ≠ SANDBOX ∧ capability_requirement s = "local_read"%string
}.

Lemma evidence_step_elem t s :
  s ∈ evidence_steps t → ∃ i e, pt_evidence_targets t !! i = Some e ∧
    s = local_step ("evidence:" +:+ str_of_N (N.of_nat i)) EVIDENCE
          [("target_kind"%string, JStr (et_target_kind e)); ("target_id"%string, JStr (et_target_id e))] None "evidence".
Proof.
  unfold evidence_steps. intros [i Hi]%list_elem_of_lookup. rewrite list_lookup_imap in Hi.
  destruct (pt_evidence_targets t !! i) as [e|] eqn:E; simplify_eq/=. by exists i, e.
Qed.

Lemma evidence_step_ids t : NoDup (step_id <$> evidence_steps t).
Proof.
  unfold evidence_steps. apply NoDup_alt. intros i j x. rewrite !list_lookup_fmap, !list_lookup_imap.
  destruct (pt_evidence_targets t !! i), (pt_evidence_targets t !! j); simpl; try done.
  intros [= <-] [= H]. symmetry. by apply Nat2N.inj, str_of_N_inj.
Qed.

Lemma step_ids_fixed r :
  NoDup (step_id <$> exact_steps (pr_target r) ++ inspect_steps r ++ graph_steps r ++ search_steps r) ∧
  (∀ s, s ∈ exact_steps (pr_target r) ++ inspect_steps r ++ graph_steps r ++ search_steps r →
        step_id s ∈ ["exact:0"; "structured:0"; "document:0"; "graph:0"; "graph-evidence:0"; "lexical:0"; "dense:0"]%string).
Proof.
  unfold exact_steps, inspect_steps, graph_steps, search_steps.
  destruct (pt_identifier _), (has_object _), (truthy_text _), (pt_query_vector _) as [[|]|], (pr_operation r); simpl;
    (split; [by_decide|]); intros x Hx;
    repeat (apply elem_of_cons in Hx as [->|Hx]; [by_decide|]); by apply not_elem_of_nil in Hx.
Qed.

Lemma plan_dependencies r : dependencies_met [] (pp_steps (plan r)).
Proof.
  unfold plan. cbn [pp_steps]. assert (Forall (λ s, dependency s = None) (evidence_steps (pr_target r) ++ external_steps r)) as Hfree.
  { apply Forall_app. split; [|unfold external_steps; case_bool_decide; repeat constructor].
    apply Forall_forall. by intros s (i&e&_&->)%evidence_step_elem. }
  assert (∀ seen, dependencies_met seen (exact_steps (pr_target r) ++ inspect_steps r ++ graph_steps r ++ search_steps r)) as Hfixed.
  { intros seen. unfold exact_steps, inspect_steps, graph_steps, search_steps, has_object, object_dependency, exact_step_id.
    destruct (pt_identifier _), (pt_object_id _), (truthy_text _), (pt_query_vector _) as [[|]|], (pr_operation r); simpl;
      set_solver. }
  rewrite !(assoc_L (++)). rewrite <- (assoc_L (++)). apply dependencies_met_app. split.
  - rewrite <- !(assoc_L (++)). apply Hfixed.
  - by apply dependencies_met_free.
Qed.

Lemma plan_step_ids r : NoDup (step_id <$> pp_steps (plan r)).
Proof.
  unfold plan. cbn [pp_steps]. destruct (step_ids_fixed r) as [Hnd Hin]. rewrite !(assoc_L (++)) in *.
  rewrite !fmap_app in *. apply NoDup_app. split; [|split].
  - apply NoDup_app. split; [done|]. split; [|apply evidence_step_ids].
    intros x Hx (s&->&(i&e&_&->)%evidence_step_elem)%list_elem_of_fmap. rewrite <- !fmap_app in Hx.
    apply list_elem_of_fmap in Hx as (s&Hx&Hs). apply Hin in Hs. rewrite <- Hx in Hs. simpl in Hs.
    repeat (apply elem_of_cons in Hs as [?|Hs]; [done|]). by apply not_elem_of_nil in Hs.
  - intros x Hx Hext. assert (x = "external:0"%string) as ->.
    { unfold external_steps in Hext. case_bool_decide; csimpl in Hext; set_solver. }
    apply elem_of_app in Hx as [Hx|Hx].
    + rewrite <- !fmap_app in Hx. apply list_elem_of_fmap in Hx as (s&Hx&Hs). apply Hin in Hs. rewrite <- Hx in Hs.
      repeat (apply elem_of_cons in Hs as [?|Hs]; [done|]). by apply not_elem_of_nil in Hs.
    + apply list_elem_of_fmap in Hx as (s&Hx&(i&e&_&->)%evidence_step_elem). done.
  - unfold external_steps. case_bool_decide; csimpl; [apply NoDup_singleton|constructor].
Qed.

(** Only an external observation leaves the local tables, and no plan uses the sandbox. *)
Lemma plan_operators r s :
  s ∈ pp_steps (plan r) →
  operator s ≠ SANDBOX ∧
  (operator s = EXTERNAL → pr_operation r = OBSERVE_EXTERNAL ∧ capability_requirement s = "external_observation"%string) ∧
  (operator s ≠ EXTERNAL → capability_requirement s = "local_read"%string).
Proof.
  unfold plan, exact_steps, inspect_steps, graph_steps, search_steps, external_steps. cbn [pp_steps].
  rewrite !elem_of_app. intros Hs.
  destruct Hs as [Hs|[Hs|[Hs|[Hs|[(i&e&_&->)%evidence_step_elem|Hs]]]]].
  - destruct (pt_identifier _); [|by apply not_elem_of_nil in Hs]. by apply list_elem_of_singleton in Hs as ->.
  - case_match; [|by apply not_elem_of_nil in Hs]. rewrite !elem_of_cons in Hs.
    by destruct Hs as [->|[->|?%not_elem_of_nil]].
  - case_match; [|by apply not_elem_of_nil in Hs]. rewrite !elem_of_cons in Hs.
    by destruct Hs as [->|[->|?%not_elem_of_nil]].
  - case_bool_decide; [|by apply not_elem_of_nil in Hs]. apply elem_of_app in Hs as [Hs|Hs].
    + destruct (truthy_text _); [|by apply not_elem_of_nil in Hs]. by apply list_elem_of_singleton in Hs as ->.
    + destruct (pt_query_vector _) as [[|]|]; try by apply not_elem_of_nil in Hs. by apply list_elem_of_singleton in Hs as ->.
  - done.
  - case_bool_decide; [|by apply not_elem_of_nil in Hs]. by apply list_elem_of_singleton in Hs as ->.
Qed.

(** ** Executing a plan *)

(** The requests whose numbers the database takes. *)
Definition request_in_range (r : PerceptionRequest) : Prop :=
  0 ≤ max_candidates (evidence_requirement r) < 2 ^ 63 ∧ pt_document_offset (pr_target r) ≤ 1000.

Lemma for_each_reads {S A B} (l : list A) (m : A → prog S B) s :
  (∀ x, x ∈ l → ∃ y, m x s = (Ok y, s)) → ∃ ys, for_each l m s = (Ok ys, s).
Proof.
  induction l as [|x l IH]; intros H; [by exists []|]. destruct (H x) as [y Hy]; [by left|].
  destruct IH as [ys Hys]; [intros; apply H; by right|]. exists (y :: ys).
  change (for_each (x :: l) m s) with ((y ← m x; ys ← for_each l m; mret (y :: ys)) s).
  unfold mbind, prog_bind. by rewrite Hy, Hys.
Qed.

Lemma for_object_total db id limit offset :
  offset ≤ 1000 → ∃ page, for_object db id limit offset = Ok page.
Proof.
  intros Ho. unfold for_object. rewrite sql_offset_Ok by lia. simpl. rewrite sql_limit_Ok by lia. simpl. by eexists.
Qed.

Lemma for_target_total db kind id n : 0 ≤ n < 2 ^ 63 → ∃ l, for_target db kind id (Some n) = Ok l.
Proof. intros ?. unfold for_target. rewrite sql_limit_Ok by done. by eexists. Qed.

Lemma evidence_share_bounds budget n i : 0 ≤ budget → (0 < n)%nat → 0 ≤ evidence_share budget n i ≤ budget.
Proof.
  intros Hb Hn. unfold evidence_share. assert (0 < Z.of_nat n) by lia.
  pose proof (Z.div_pos budget (Z.of_nat n) Hb ltac:(lia)).
  pose proof (Z.div_mod budget (Z.of_nat n) ltac:(lia)). pose proof (Z.mod_pos_bound budget (Z.of_nat n) ltac:(lia)).
  destruct (Z.ltb_spec (Z.of_nat i) (budget mod Z.of_nat n)); nia.
Qed.

Lemma evidence_budget_bounds r : 1 ≤ evidence_budget r ≤ 100.
Proof. unfold evidence_budget. lia. Qed.

Lemma float_list_floats l : float_list (Some (JArr (JFloat <$> l))) = Ok l.
Proof.
  unfold float_list. assert (try_map float_items (JFloat <$> l) = Ok ((λ f, [f]) <$> l)) as ->.
  { induction l as [|f l IH]; csimpl; [done|]. rewrite IH. done. }
  simpl. f_equal. induction l as [|f l IH]; csimpl; [done|]. by rewrite IH.
Qed.

Lemma string_list_texts l : string_list (Some (texts_json l)) = l.
Proof. unfold string_list, texts_json. induction l as [|s l IH]; csimpl; [done|]. by rewrite IH. Qed.

(** Every stored embedding has a distance from the query vector of the request: pgvector raises for vectors of different
    dimensions, and the column has none. *)
Definition comparable (cosine_distance : list pyfloat → list pyfloat → result pyfloat) (db : RetrievalDB) (r : PerceptionRequest)
  : Prop :=
  ∀ v c e, pt_query_vector (pr_target r) = Some v → c ∈ chunk_rows db → ch_embedding c = Some e →
    ∃ d, cosine_distance e v = Ok d.

Section execution.
Context (py_repr : json → string) (ts_match : string → string → bool) (ts_rank_cd : string → string → pyfloat)
  (cosine_distance : list pyfloat → list pyfloat → result pyfloat).
Context {S : Type} (tables : S → RetrievalDB) (port : option (ObservationPort (S:=S))).

Abbreviation run_step := (execute_step py_repr ts_match ts_rank_cd cosine_distance tables port).

(** Every operator but the external port only reads. *)
Lemma execute_step_reads r step outputs run : operator step ∉ [EXTERNAL; SANDBOX] → reads (run_step r step outputs run).
Proof.
  intros Hop. unfold execute_step, structured_step, document_step, lexical_step, dense_step, graph_step, evidence_step, text_field, read.
  destruct (operator step); try (exfalso; apply Hop; by_decide); cbv zeta; repeat (intros; case_match); eauto 12 with reading.
Qed.

Lemma structured_step_total step depended s : ∃ o, structured_step tables step depended s = (Ok o, s).
Proof.
  unfold structured_step. destruct (for_each_reads (subject_ids (step_input step) depended)
    (λ id, read tables (structured_current (Some id) None (string_list (dict_get "projection_types" (step_input step))))) s)
    as [ys Hys]; [intros id _; by eexists|]. unfold mbind, prog_bind. rewrite Hys. by eexists.
Qed.

Lemma document_step_total step depended limit offset s :
  int_option "limit" 20 (step_input step) = Ok limit → int_option "offset" 0 (step_input step) = Ok offset → offset ≤ 1000 →
  ∃ o, document_step tables step depended s = (Ok o, s).
Proof.
  intros Hl Ho Hoff. unfold document_step. rewrite Hl, Ho. unfold mbind, prog_bind. cbn [lift].
  destruct (for_each_reads (subject_ids (step_input step) depended)
    (λ id, read tables (λ db, document_page db limit offset id)) s) as [ys Hys].
  { intros id _. unfold read, mbind, prog_bind. cbn [get_store lift]. unfold document_page.
    destruct (for_object_total (tables s) id (limit + 1) offset Hoff) as [page ->]. by eexists. }
  rewrite Hys. by eexists.
Qed.

Lemma graph_step_total step depended limit s :
  int_option "limit" 20 (step_input step) = Ok limit → 0 ≤ limit < 2 ^ 63 →
  (dict_get "direction" (step_input step) = Some (JStr "both") ∨ dict_get "direction" (step_input step) = Some (JStr "out")) →
  ∃ o, graph_step py_repr tables step depended s = (Ok o, s).
Proof.
  intros Hl Hlim Hdir. unfold graph_step. unfold mbind, prog_bind.
  match goal with |- context [for_each ?l ?m s] => destruct (for_each_reads l m s) as [ys Hys] end.
  { intros id _. rewrite Hl. unfold read, mbind, prog_bind. cbn [lift get_store]. unfold neighbors.
    destruct Hdir as [-> | ->]; cbn [py_str]; rewrite bool_decide_eq_false_2 by (intros []; set_solver); simpl;
      rewrite sql_limit_Ok by done; by eexists. }
  rewrite Hys. by eexists.
Qed.

Lemma evidence_step_total r step depended kind s :
  dict_get "target_kind" (step_input step) = Some kind → ∃ o, evidence_step py_repr tables r step depended s = (Ok o, s).
Proof.
  intros Hk. unfold evidence_step. unfold mbind, prog_bind. set (ids := evidence_targets _ _ _ _).
  match goal with |- context [for_each ?l ?m s] => destruct (for_each_reads l m s) as [ys Hys] end.
  { intros [i id] [j Hj]%list_elem_of_lookup. rewrite list_lookup_imap in Hj.
    destruct (ids !! j) as [id'|] eqn:E; simplify_eq/=. unfold text_field, read, mbind, prog_bind. rewrite Hk.
    cbn [require get_store lift mret prog_ret]. unfold evidence_read. pose proof (evidence_budget_bounds r).
    pose proof (evidence_share_bounds (evidence_budget r) (length ids) i ltac:(lia) ltac:(by apply lookup_lt_Some in E; lia)).
    edestruct (for_target_total (tables s)) as [l ->]; [|by eexists]. lia. }
  rewrite Hys. by eexists.
Qed.

Lemma lexical_step_total step q limit sources s :
  dict_get "query" (step_input step) = Some (JStr q) → int_option "limit" 20 (step_input step) = Ok limit →
  dict_get "source_ids" (step_input step) = Some (texts_json sources) → 0 ≤ limit < 2 ^ 63 →
  ∃ o, lexical_step py_repr ts_match ts_rank_cd tables step s = (Ok o, s).
Proof.
  intros Hq Hl Hs Hlim. unfold lexical_step, text_field, read, mbind, prog_bind. rewrite Hq, Hl, Hs, string_list_texts.
  cbn [require lift mret prog_ret get_store py_str]. unfold lexical_search, lexical_search_statement.
  case_bool_decide as Hb; [by eexists|]. rewrite py_strip_idem, bool_decide_eq_false_2 by done. simpl.
  rewrite sql_limit_Ok by done. by eexists.
Qed.

Lemma dense_step_total step v limit sources s :
  dict_get "query_vector" (step_input step) = Some (JArr (JFloat <$> v)) → v ≠ [] →
  int_option "limit" 20 (step_input step) = Ok limit →
  dict_get "source_ids" (step_input step) = Some (texts_json sources) → 0 ≤ limit < 2 ^ 63 →
  (∀ c e, c ∈ chunk_rows (tables s) → ch_embedding c = Some e → ∃ d, cosine_distance e v = Ok d) →
  ∃ o, dense_step cosine_distance tables step s = (Ok o, s).
Proof.
  intros Hv Hne Hl Hs Hlim Hdist. unfold dense_step, read, mbind, prog_bind. rewrite Hv, float_list_floats, Hl, Hs, string_list_texts.
  cbn [lift get_store]. unfold dense_search. rewrite bool_decide_eq_false_2 by done. simpl.
  destruct (dense_rows_total cosine_distance (tables s) v sources Hdist) as [rows Hrows].
  destruct v as [|x v]; [done|]. cbn [mret result_ret]. rewrite Hrows. cbn. rewrite sql_limit_Ok by done. by eexists.
Qed.

Lemma planned_step_total r step outputs run s :
  request_in_range r → comparable cosine_distance (tables s) r → pr_operation r ≠ OBSERVE_EXTERNAL → step ∈ pp_steps (plan r) →
  ∃ o, run_step r step outputs run s = (Ok o, s).
Proof.
  intros [Hmax Hoff] Hdist Hop. unfold plan. cbn [pp_steps]. rewrite !elem_of_app.
  intros [Hs|[Hs|[Hs|[Hs|[(i&e&_&->)%evidence_step_elem|Hs]]]]]; unfold execute_step.
  - unfold exact_steps in Hs. destruct (pt_identifier _); [|by apply not_elem_of_nil in Hs].
    apply list_elem_of_singleton in Hs as ->. by eexists.
  - unfold inspect_steps in Hs. case_match; [|by apply not_elem_of_nil in Hs]. rewrite !elem_of_cons in Hs.
    destruct Hs as [->|[->|?%not_elem_of_nil]]; [apply structured_step_total| |done].
    cbn [operator local_step]. by eapply document_step_total; [| |exact Hoff].
  - unfold graph_steps in Hs. case_match; [|by apply not_elem_of_nil in Hs]. rewrite !elem_of_cons in Hs.
    destruct Hs as [->|[->|?%not_elem_of_nil]]; [| |done]; cbn [operator local_step].
    + eapply graph_step_total; [done| |]; [lia|]. simpl. destruct (bool_decide (pr_operation r = TRACE)); auto.
    + by eapply evidence_step_total.
  - unfold search_steps in Hs. case_bool_decide; [|by apply not_elem_of_nil in Hs]. apply elem_of_app in Hs as [Hs|Hs].
    + destruct (truthy_text _); [|by apply not_elem_of_nil in Hs]. apply list_elem_of_singleton in Hs as ->.
      by eapply lexical_step_total.
    + destruct (pt_query_vector _) as [[|x v]|] eqn:Ev; try by apply not_elem_of_nil in Hs.
      apply list_elem_of_singleton in Hs as ->. eapply (dense_step_total _ (x :: v) _ (pt_source_ids (pr_target r))); try done.
      intros c e. by apply Hdist.
  - by eapply evidence_step_total.
  - unfold external_steps in Hs. rewrite bool_decide_eq_false_2 in Hs by done. by apply not_elem_of_nil in Hs.
Qed.

Lemma run_steps_total r run steps g s :
  (∀ step outputs, step ∈ steps → ∃ o, run_step r step outputs run s = (Ok o, s)) →
  ∃ g', run_steps py_repr ts_match ts_rank_cd cosine_distance tables port r run steps g s = (Ok g', s) ∧
        sumZ snd (ga_counts g') = sumZ snd (ga_counts g) + Z.of_nat (length steps).
Proof.
  revert g. induction steps as [|step steps IH]; intros g H; [exists g; split; [done|simpl; lia]|].
  destruct (H step (ga_outputs g)) as [o Ho]; [by left|]. cbn [run_steps]. unfold mbind at 1, prog_bind at 1. rewrite Ho.
  destruct (IH (gather step o g)) as (g'&Hg&Hsum); [intros; apply H; by right|]. exists g'. split; [done|].
  rewrite Hsum. cbn [ga_counts gather]. set (op := PhysicalOperator_value (operator step)).
  assert (∀ d, sumZ snd (dict_set op (default 0 (dict_get op d) + 1) d) = sumZ snd d + 1) as ->.
  { induction d as [|[k v] d IHd]; simpl; [done|]. destruct (decide (op = k)) as [->|]; simpl; [lia|].
    rewrite IHd. lia. }
  simpl length. lia.
Qed.

Lemma length_py_take {A} n (l : list A) : 0 ≤ n → (length (py_take n l) ≤ Z.to_nat n)%nat.
Proof. intros Hn. unfold py_take. rewrite (proj2 (Z.ltb_ge n 0)) by lia. rewrite length_take. lia. Qed.
End execution.

Lemma py_take_nonneg {A} n (l : list A) : 0 ≤ n → py_take n l = take (Z.to_nat n) l.
Proof. intros Hn. unfold py_take. by rewrite (proj2 (Z.ltb_ge n 0)) by lia. Qed.

(** C32. A planned perception runs.  The plan of a request whose bounds are in range has distinct step identifiers, each
    step depends on earlier ones only, and every step is a local read (no external call, no sandbox).  Executing it over
    any tables whose embeddings can be compared with the query vector, if the request has one, returns a percept of the
    request and leaves the store as it was; the percept has at most [max_candidates] pieces of candidate evidence and as
    many relations, and its operator counts add up to the number of the steps planned, so no step is skipped or run
    twice. *)
Theorem planned_perception py_repr ts_match ts_rank_cd cosine_distance {S : Type} (tables : S → RetrievalDB) port r run s :
  request_in_range r → comparable cosine_distance (tables s) r → pr_operation r ≠ OBSERVE_EXTERNAL →
  NoDup (step_id <$> pp_steps (plan r)) ∧ dependencies_met [] (pp_steps (plan r)) ∧
  (∀ step, step ∈ pp_steps (plan r) → (operator step ∉ [EXTERNAL; SANDBOX]) ∧
     capability_requirement step = "local_read"%string) ∧
  ∃ c, execute py_repr ts_match ts_rank_cd cosine_distance tables port r (plan r) run s = (Ok c, s) ∧
    pc_request_id c = pr_request_id r ∧
    (length (candidate_evidence c) ≤ Z.to_nat (max_candidates (evidence_requirement r)))%nat ∧
    (length (pc_relations c) ≤ Z.to_nat (max_candidates (evidence_requirement r)))%nat ∧
    sumZ snd (operator_counts c) = Z.of_nat (length (pp_steps (plan r))).
Proof.
  intros Hr Hdist Hop. split; [apply plan_step_ids|]. split; [apply plan_dependencies|]. split.
  { intros step (Hsand&Hext&Hloc)%plan_operators. assert (operator step ≠ EXTERNAL) as Hne by (intros ?%Hext; tauto).
    split; [|by apply Hloc]. by intros [?|[?|?%not_elem_of_nil]%elem_of_cons]%elem_of_cons. }
  destruct (run_steps_total py_repr ts_match ts_rank_cd cosine_distance tables port r run (pp_steps (plan r))
              (mkGathered [] [] [] [] [] []) s) as (g&Hg&Hsum).
  { intros step outputs Hs. by apply planned_step_total. }
  exists (percept_of r (plan r) g). unfold execute. rewrite bool_decide_eq_false_2 by (intros []; done).
  unfold mbind, prog_bind. cbn [check]. rewrite Hg. split; [done|]. split; [done|].
  destruct Hr as [[Hmax _] _]. split; [by apply length_py_take|]. split; [by apply length_py_take|done].
Qed.

(** ** Assembly *)

(** Scores that are numbers, one per channel. *)
Definition scores_ok (c : RetrievedCandidate) : Prop :=
  NoDup (score_channels c).*1 ∧ Forall (λ cv, is_nan cv.2 = false) (score_channels c).

Lemma dict_set_keys {A} k (v : A) d : NoDup d.*1 → NoDup (dict_set k v d).*1 ∧ ∀ x, x ∈ (dict_set k v d).*1 ↔ x = k ∨ x ∈ d.*1.
Proof.
  induction d as [|[k' v'] d IH]; intros Hnd; csimpl.
  - split; [apply NoDup_singleton|]. intros x. by rewrite list_elem_of_singleton, elem_of_nil; intuition.
  - apply NoDup_cons in Hnd as [Hk Hnd]. destruct (IH Hnd) as [IH1 IH2]. destruct (decide (k = k')) as [->|Hne]; csimpl.
    + split; [by apply NoDup_cons|]. intros x. rewrite elem_of_cons. tauto.
    + split; [apply NoDup_cons; split; [|done]; rewrite IH2; intros [?|?]; [congruence|done]|].
      intros x. rewrite !elem_of_cons, IH2. tauto.
Qed.

Lemma elem_of_dict_set {A} k (v : A) d p : NoDup d.*1 → p ∈ dict_set k v d ↔ p = (k, v) ∨ p ∈ d ∧ p.1 ≠ k.
Proof.
  induction d as [|[k' v'] d IH]; intros Hnd; csimpl.
  - rewrite list_elem_of_singleton. split; [by left|]. by intros [?|[?%not_elem_of_nil _]].
  - apply NoDup_cons in Hnd as [Hk Hnd]. specialize (IH Hnd). destruct (decide (k = k')) as [->|Hne].
    + rewrite !elem_of_cons. split.
      * intros [->|Hp]; [by left|]. right. split; [by right|]. intros E. apply Hk. change (k' ∈ d.*1). rewrite <- E. by apply list_elem_of_fmap_2.
      * intros [->|[[->|Hp] Hp']]; [by left|done|by right].
    + rewrite !elem_of_cons, IH. split.
      * intros [->|[->|[? ?]]]; [right; split; [by left|simpl; congruence]|by left|right; split; [by right|done]].
      * intros [->|[[->|Hp] Hp']]; [right; by left|by left|right; right; by split].
Qed.

(** The greatest of two scores that are numbers. *)
Lemma float_max_spec f g :
  is_nan f = false → is_nan g = false →
  is_nan (float_max f g) = false ∧ float_le f (float_max f g) ∧ float_le g (float_max f g) ∧
  (float_max f g = f ∨ float_max f g = g).
Proof.
  intros Hf Hg. split; [by destruct (float_max_is_one f g) as [->| ->]|]. split; [apply float_max_le_l|].
  split; [|apply float_max_is_one]. by destruct (float_max_le_r f g Hg) as [?|?]; [|congruence].
Qed.

Lemma float_max_bottom g : is_nan g = false → float_max (Infinite true) g = g.
Proof. by destruct g as [m e|[]|]. Qed.

(** [w] is the score of the channel that the candidates of a list amount to: the greatest. *)
Definition best_score (channel : string) (l : list RetrievedCandidate) (w : option pyfloat) : Prop :=
  match w with
  | None => ∀ c, c ∈ l → dict_get channel (score_channels c) = None
  | Some w => (∃ c, c ∈ l ∧ dict_get channel (score_channels c) = Some w) ∧ is_nan w = false ∧
              ∀ c v, c ∈ l → dict_get channel (score_channels c) = Some v → float_le v w
  end.

Lemma foldl_raise_score (scores : list (string * pyfloat)) new channel :
  NoDup new.*1 →
  dict_get channel (foldl raise_score scores new) =
    match dict_get channel new with
    | Some v => Some (float_max (default (Infinite true) (dict_get channel scores)) v)
    | None => dict_get channel scores
    end.
Proof.
  revert scores. induction new as [|[k v] new IH]; intros scores Hnd; [done|].
  apply NoDup_cons in Hnd as [Hk Hnd]. cbn [foldl dict_get]. rewrite IH by done. unfold raise_score. cbn [fst snd].
  rewrite dict_get_set. destruct (decide (channel = k)) as [->|]; [|done]. by rewrite (dict_get_None k new) by done.
Qed.

Lemma scores_ok_get c channel v : scores_ok c → dict_get channel (score_channels c) = Some v → is_nan v = false.
Proof.
  intros [_ Hf] Hv%dict_get_Some_elem. rewrite Forall_forall in Hf. by apply (Hf _ Hv).
Qed.

Lemma best_score_snoc channel l w c :
  scores_ok c → best_score channel l w →
  best_score channel (l ++ [c])
    match dict_get channel (score_channels c) with
    | Some v => Some (float_max (default (Infinite true) w) v)
    | None => w
    end.
Proof.
  intros Hok Hw. destruct (dict_get channel (score_channels c)) as [v|] eqn:Hv.
  - pose proof (scores_ok_get _ _ _ Hok Hv) as Hnan. destruct w as [w|]; simpl in *.
    + destruct Hw as ((c0&Hc0&Hw0)&Hnw&Hle). destruct (float_max_spec w v Hnw Hnan) as (Hn&Hl1&Hl2&Hone).
      split; [|split; [done|]].
      * destruct Hone as [-> | ->]; [exists c0|exists c]; set_solver.
      * intros c' v' [Hc'|Hc']%elem_of_app Hv'; [transitivity w; eauto|].
        apply list_elem_of_singleton in Hc' as ->. rewrite Hv in Hv'. by injection Hv' as <-.
    + rewrite float_max_bottom by done. split; [exists c; set_solver|]. split; [done|].
      intros c' v' [Hc'|Hc']%elem_of_app Hv'; [by rewrite (Hw c' Hc') in Hv'|].
      apply list_elem_of_singleton in Hc' as ->. rewrite Hv in Hv'. injection Hv' as <-. reflexivity.
  - destruct w as [w|]; simpl in *.
    + destruct Hw as ((c0&Hc0&Hw0)&Hnw&Hle). split; [exists c0; set_solver|]. split; [done|].
      intros c' v' [Hc'|Hc']%elem_of_app Hv'; [eauto|]. apply list_elem_of_singleton in Hc' as ->. congruence.
    + intros c' [Hc'|Hc']%elem_of_app; [auto|]. by apply list_elem_of_singleton in Hc' as ->.
Qed.

Lemma best_score_one channel c : scores_ok c → best_score channel [c] (dict_get channel (score_channels c)).
Proof.
  intros Hok. destruct (dict_get channel (score_channels c)) as [v|] eqn:Hv; simpl.
  - split; [exists c; set_solver|]. split; [by eapply scores_ok_get|].
    intros c' v' Hc' Hv'. apply list_elem_of_singleton in Hc' as ->. rewrite Hv in Hv'. injection Hv' as <-. reflexivity.
  - intros c' Hc'. by apply list_elem_of_singleton in Hc' as ->.
Qed.

(** A merged candidate: the first with its identity, with the greatest score of every channel. *)
Record merged_from (l : list RetrievedCandidate) (c : RetrievedCandidate) : Prop := {
  mf_first : ∃ first, find (λ x, bool_decide (candidate_id x = candidate_id c)) l = Some first ∧
                      c = with_scores (score_channels c) first;
  mf_scores : ∀ channel, best_score channel (filter (λ x, candidate_id x = candidate_id c) l)
                           (dict_get channel (score_channels c))
}.

(** What the dictionary of the loop holds after some candidates. *)
Record merged_inv (l : list RetrievedCandidate) (m : list (string * RetrievedCandidate)) : Prop := {
  mi_keys : NoDup m.*1;
  mi_ids : ∀ k, k ∈ m.*1 ↔ k ∈ candidate_id <$> l;
  mi_entries : ∀ k c, (k, c) ∈ m → candidate_id c = k ∧ merged_from l c
}.

Lemma find_snoc {A} (p : A → bool) l x :
  find p (l ++ [x]) = match find p l with Some y => Some y | None => if p x then Some x else None end.
Proof. induction l as [|y l IH]; simpl; [done|]. by destruct (p y). Qed.

Lemma find_id_None l id : id ∉ candidate_id <$> l → find (λ x, bool_decide (candidate_id x = id)) l = None.
Proof.
  intros H. destruct (find _ l) as [x|] eqn:E; [|done]. apply find_elem in E as [Hx Hid%bool_decide_eq_true].
  exfalso. apply H. rewrite <- Hid. by apply list_elem_of_fmap_2.
Qed.

Lemma merged_from_other l c x : candidate_id x ≠ candidate_id c → merged_from l c → merged_from (l ++ [x]) c.
Proof.
  intros Hne [(first&Hf&Hc) Hs]. split.
  - exists first. by rewrite find_snoc, Hf.
  - intros channel. rewrite filter_app, (filter_cons_False _ x) by done. rewrite app_nil_r. apply Hs.
Qed.

Lemma merge_candidate_inv l m c : scores_ok c → merged_inv l m → merged_inv (l ++ [c]) (merge_candidate m c).
Proof.
  intros Hok [Hk Hids Hent]. unfold merge_candidate. destruct (dict_get (candidate_id c) m) as [current|] eqn:Hget.
  - pose proof (Hent _ _ (dict_get_Some_elem _ _ _ Hget)) as [Hid [(first&Hf&Hc) Hs]]. split.
    + by apply dict_set_keys.
    + intros k. rewrite (proj2 (dict_set_keys _ _ _ Hk)), fmap_app, elem_of_app, list_fmap_singleton, list_elem_of_singleton, Hids. tauto.
    + intros k c' Hin. rewrite elem_of_dict_set in Hin by done. destruct Hin as [Hin|[Hin Hne]].
      * injection Hin as -> ->. split; [done|]. split; simpl.
        { exists first. rewrite find_snoc, Hf. split; [done|]. by rewrite Hc at 2. }
        intros channel. rewrite filter_app, (filter_cons_True _ c) by done. rewrite filter_nil.
        rewrite foldl_raise_score by apply Hok. apply best_score_snoc; [done|]. apply Hs.
      * simpl in Hne. destruct (Hent _ _ Hin) as [<- Hm]. split; [done|]. by apply merged_from_other.
  - assert (candidate_id c ∉ m.*1) as Hnew.
    { intros ([k x]&Hkx&Hin)%list_elem_of_fmap. simpl in Hkx. subst k.
      by rewrite (dict_get_elem _ _ _ Hk Hin) in Hget. }
    split.
    + by apply dict_set_keys.
    + intros k. rewrite (proj2 (dict_set_keys _ _ _ Hk)), fmap_app, elem_of_app, list_fmap_singleton, list_elem_of_singleton, Hids. tauto.
    + intros k c' Hin. rewrite elem_of_dict_set in Hin by done. destruct Hin as [Hin|[Hin Hne]].
      * injection Hin as -> ->. split; [done|]. rewrite Hids in Hnew. split.
        { exists c. rewrite find_snoc, find_id_None by done. rewrite bool_decide_eq_true_2 by done. split; [done|].
          by destruct c. }
        intros channel. rewrite filter_app, (filter_cons_True _ c) by done. rewrite filter_nil.
        assert (filter (λ x, candidate_id x = candidate_id c) l = []) as ->; [|by apply best_score_one].
        apply elem_of_nil_inv. intros x [Hx Hxl]%list_elem_of_filter. apply Hnew. rewrite <- Hx.
        by apply list_elem_of_fmap_2.
      * simpl in Hne. destruct (Hent _ _ Hin) as [<- Hm]. split; [done|]. by apply merged_from_other.
Qed.

Lemma merge_candidates_inv l : Forall scores_ok l → merged_inv l (merge_candidates l).
Proof.
  unfold merge_candidates. intros Hl. assert (merged_inv [] (@nil (string * RetrievedCandidate))) as Hnil.
  { split; [constructor|done|]. by intros k c ?%not_elem_of_nil. }
  assert (∀ k pre m, merged_inv pre m → Forall scores_ok k → merged_inv (pre ++ k) (foldl merge_candidate m k)) as Hgen.
  { induction k as [|c k IH]; intros pre m Hm Hk; simpl; [by rewrite app_nil_r|]. inversion_clear Hk.
    rewrite cons_middle, (assoc_L (++)). apply IH; [|done]. by apply merge_candidate_inv. }
  by apply (Hgen l [] []).
Qed.

#[export] Instance candidate_le_total : Total candidate_le.
Proof. unfold candidate_le. simpl. apply _. Qed.
#[export] Instance candidate_le_trans : Transitive candidate_le.
Proof. unfold candidate_le. simpl. apply _. Qed.

(** Assembly does what it promises, for scores that are numbers: the candidates are merged by identity, each the first
    of its identity with the greatest score seen on every channel; the best [max_candidates] of them are kept in order,
    none twice; the independent sources are exactly the upstreams, families or sources of what is kept; and the
    requirement counts as satisfied exactly when every required role is among the kept candidates, there are as many
    independent sources as required, and there is a candidate at all. *)
Theorem assemble_spec candidates requirement :
  Forall scores_ok candidates → 0 ≤ max_candidates requirement →
  let kept := ca_candidates (assemble candidates requirement) in
  (∃ merged, NoDup (candidate_id <$> merged) ∧
     (∀ id, id ∈ candidate_id <$> merged ↔ id ∈ candidate_id <$> candidates) ∧
     (∀ c, c ∈ merged → merged_from candidates c) ∧
     top_k candidate_le (Z.to_nat (max_candidates requirement)) (λ c, c ∈ merged) kept) ∧
  (NoDup (ca_independent_source_keys (assemble candidates requirement)) ∧
   ∀ key, key ∈ ca_independent_source_keys (assemble candidates requirement) ↔
          ∃ c, c ∈ kept ∧ independence_key c = Some key) ∧
  (requirements_satisfied (assemble candidates requirement) = true ↔
   (∀ role, role ∈ er_required_source_roles requirement →
      ∃ c, c ∈ kept ∧ rc_source_role c = Some role ∧ role ≠ ""%string) ∧
   er_min_independent_sources requirement ≤ Z.of_nat (length (ca_independent_source_keys (assemble candidates requirement))) ∧
   kept ≠ []).
Proof.
  intros Hok Hmax. cbv zeta. pose proof (merge_candidates_inv _ Hok) as [Hk Hids Hent].
  assert (∀ c, c ∈ (merge_candidates candidates).*2 → (candidate_id c, c) ∈ merge_candidates candidates) as Hsnd.
  { intros c ([k c']&->&Hin)%list_elem_of_fmap. destruct (Hent _ _ Hin) as [<- _]. done. }
  assert (candidate_id <$> (merge_candidates candidates).*2 = (merge_candidates candidates).*1) as Hfst.
  { clear -Hent. induction (merge_candidates candidates) as [|[k c] m IH]; [done|]. csimpl.
    rewrite IH by (intros; apply Hent; by right). f_equal. by apply (Hent k c); left. }
  split; [|split].
  - exists (merge_candidates candidates).*2. rewrite Hfst. split; [done|]. split; [apply Hids|].
    split; [intros c Hc; apply Hsnd, Hent in Hc; by destruct Hc|]. unfold assemble. cbn [ca_candidates]. rewrite py_take_nonneg by done.
    apply (sorted_take_top_k candidate_le); [|reflexivity]. apply (NoDup_fmap_1 candidate_id). by rewrite Hfst.
  - unfold assemble, independent_keys. cbn [ca_independent_source_keys ca_candidates]. split; [apply sorted_set_NoDup|].
    intros key. by rewrite elem_of_sorted_set, list_elem_of_omap.
  - unfold assemble. cbn [requirements_satisfied ca_candidates ca_independent_source_keys].
    set (kept := py_take _ _). rewrite bool_decide_eq_true. rewrite !app_nil.
    assert (∀ (f : string → string) l, f <$> l = [] ↔ l = []) as Hmap by (by intros f [|]). rewrite Hmap.
    set (n := Z.of_nat (length (independent_keys kept))).
    assert ((if n <? er_min_independent_sources requirement then
               ["independent_source_requirement_unsatisfied:" +:+ str_of_Z n +:+ "/"
                +:+ str_of_Z (er_min_independent_sources requirement)] else []) = [] ↔
            er_min_independent_sources requirement ≤ n) as ->.
    { destruct (Z.ltb_spec n (er_min_independent_sources requirement)); split; intros; try done; lia. }
    assert ((if bool_decide (kept = []) then ["no_candidates"%string] else []) = [] ↔ kept ≠ []) as ->.
    { case_bool_decide; split; intros; try done; congruence. }
    assert (filter (λ role, role ∉ source_roles_of kept) (er_required_source_roles requirement) = [] ↔
            ∀ role, role ∈ er_required_source_roles requirement →
              ∃ c, c ∈ kept ∧ rc_source_role c = Some role ∧ role ≠ ""%string) as ->; [|done].
    assert (∀ role, role ∈ source_roles_of kept ↔ ∃ c, c ∈ kept ∧ rc_source_role c = Some role ∧ role ≠ ""%string) as Hroles.
    { intros role. unfold source_roles_of. rewrite elem_of_sorted_set, list_elem_of_omap. apply exist_proper. intros c.
      apply and_iff_compat_l. unfold truthy_text. destruct (rc_source_role c) as [s|]; simpl; [|naive_solver].
      case_bool_decide; naive_solver. }
    setoid_rewrite <- Hroles. split.
    + intros Hnil role Hrole. destruct (decide (role ∈ source_roles_of kept)) as [|Hno]; [done|]. exfalso.
      apply (not_elem_of_nil role). rewrite <- Hnil. by apply list_elem_of_filter.
    + intros Hall. apply elem_of_nil_inv. intros role [Hno Hrole]%list_elem_of_filter. by apply Hno, Hall.
Qed.

(** ** Reading documents page by page *)

Lemma document_page_run db limit offset id :
  1 ≤ limit ≤ 99 → 0 ≤ offset < 2 ^ 63 →
  document_page db limit offset id =
    Ok (supported_candidate db <$> take (Z.to_nat limit) (drop (Z.to_nat offset) (object_hits db id)),
        if offset + limit <? Z.of_nat (length (object_hits db id))
        then ["more_document_chunks:" +:+ id +:+ ":offset=" +:+ str_of_Z (offset + limit)] else []).
Proof.
  intros Hl Ho. unfold document_page, for_object. rewrite Z.max_r, Z.min_l, Z.max_r, sql_offset_Ok by lia. simpl.
  rewrite sql_limit_Ok by lia. simpl. rewrite py_take_nonneg, <- fmap_take, take_take by lia. rewrite Nat.min_l by lia.
  rewrite length_fmap, length_take, length_drop.
  assert ((limit <? Z.of_nat (Z.to_nat (limit + 1) `min` (length (object_hits db id) - Z.to_nat offset))) =
          (offset + limit <? Z.of_nat (length (object_hits db id)))) as ->; [|done].
  apply eq_true_iff_eq. rewrite !Z.ltb_lt. lia.
Qed.

(** The offset that a [more_document_chunks] message names, read from its text. *)
Definition reported_offset (id message : string) : option Z :=
  Z.of_N <$> (strip_prefix ("more_document_chunks:" +:+ id +:+ ":offset=") message ≫= int_of_digits).

(** A reader of the pages, who goes on at the offset the message of a page names; one above 1000 is not a valid target. *)
Fixpoint read_pages (fuel : nat) (db : RetrievalDB) (limit offset : Z) (id : string) : result (list RetrievedCandidate) :=
  match fuel with
  | O => Ok []
  | S fuel' =>
      _ ← raise_when (1000 <? offset) (ValueError "validation error");
      '(kept, warnings) ← document_page db limit offset id;
      match warnings with
      | [] => Ok kept
      | message :: _ =>
          match reported_offset id message with
          | Some next => rest ← read_pages fuel' db limit next id; Ok (kept ++ rest)
          | None => Err (ValueError "no offset")
          end
      end
  end.

Lemma reported_offset_message id n : 0 ≤ n →
  reported_offset id ("more_document_chunks:" +:+ id +:+ ":offset=" +:+ str_of_Z n) = Some n.
Proof.
  intros Hn. unfold reported_offset.
  assert (∀ a b c : string, (a +:+ b) +:+ c = a +:+ (b +:+ c)) as Happ
    by (intros a b c; induction a as [|x a IH]; [done|]; change (String x ((a +:+ b) +:+ c) = String x (a +:+ (b +:+ c))); by rewrite IH).
  assert ("more_document_chunks:" +:+ id +:+ ":offset=" +:+ str_of_Z n =
          ("more_document_chunks:" +:+ id +:+ ":offset=") +:+ str_of_Z n) as -> by by rewrite !Happ.
  rewrite strip_prefix_app. simpl. unfold str_of_Z. rewrite (proj2 (Z.ltb_ge n 0)) by lia.
  rewrite int_of_digits_str. simpl. f_equal. lia.
Qed.

Lemma read_pages_from db limit id fuel k :
  1 ≤ limit ≤ 99 → 0 ≤ k → k = 0 ∨ k * limit < Z.of_nat (length (object_hits db id)) →
  Z.of_nat (length (object_hits db id)) - k * limit < Z.of_nat fuel →
  read_pages fuel db limit (k * limit) id =
    if Z.of_nat (length (object_hits db id)) <=? limit * (1000 / limit + 1)
    then Ok (supported_candidate db <$> drop (Z.to_nat (k * limit)) (object_hits db id))
    else Err (ValueError "validation error").
Proof.
  intros Hl. set (hits := object_hits db id). set (n := Z.of_nat (length hits)).
  pose proof (Z.div_mod 1000 limit ltac:(lia)) as Hdiv. pose proof (Z.mod_pos_bound 1000 limit ltac:(lia)) as Hmod.
  revert k. induction fuel as [|fuel IH]; intros k Hk Hin Hfuel.
  { destruct Hin as [->|?]; lia. }
  cbn [read_pages]. destruct (Z.ltb_spec 1000 (k * limit)) as [Hbig|Hsmall]; simpl.
  { destruct Hin as [->|Hin]; [lia|]. destruct (Z.leb_spec n (limit * (1000 / limit + 1))); [|done].
    exfalso. assert (1000 / limit + 1 ≤ k) by nia. nia. }
  rewrite document_page_run by nia. cbn [mbind result_bind]. fold hits. fold n.
  destruct (Z.ltb_spec (k * limit + limit) n) as [Hmore|Hlast].
  - rewrite reported_offset_message by nia. replace (k * limit + limit) with ((k + 1) * limit) by lia.
    rewrite IH by (lia || (right; lia)). destruct (Z.leb_spec n (limit * (1000 / limit + 1))); [|done]. simpl. f_equal.
    rewrite <- fmap_app. f_equal.
    replace (Z.to_nat ((k + 1) * limit)) with (Z.to_nat (k * limit) + Z.to_nat limit)%nat by lia.
    by rewrite <- drop_drop, take_drop.
  - destruct (Z.leb_spec n (limit * (1000 / limit + 1))) as [|Hgt].
    + rewrite take_ge; [done|]. rewrite length_drop. fold hits. lia.
    + exfalso. assert (k ≤ 1000 / limit) by nia. nia.
Qed.

Lemma document_step_run {S} (tables : S → RetrievalDB) step depended limit offset id kept warnings s :
  int_option "limit" 20 (step_input step) = Ok limit → int_option "offset" 0 (step_input step) = Ok offset →
  subject_ids (step_input step) depended = [id] → document_page (tables s) limit offset id = Ok (kept, warnings) →
  document_step tables step depended s = (Ok (step_result kept warnings), s).
Proof.
  intros Hl Ho Hid Hp. unfold document_step. rewrite Hl, Ho, Hid. unfold mbind, prog_bind. cbn [lift for_each].
  unfold read, mbind, prog_bind. cbn [get_store lift mret prog_ret]. rewrite Hp. cbn. by rewrite !app_nil_r.
Qed.

(** The document step of a plan for a named object. *)
Definition inspect_document_step (r : PerceptionRequest) (id : string) : PhysicalPerceptionStep :=
  local_step "document:0" DOCUMENT
    [("subject_id"%string, JStr id);
     ("limit"%string, JInt (Z.max 1 (Z.min (max_candidates (evidence_requirement r)) DOCUMENT_PAGE_SIZE)));
     ("offset"%string, JInt (pt_document_offset (pr_target r)))] None "document_chunk".

(** C33. The document steps page through an object.  The document step of an inspection reads, from the offset of the request,
    one page of at most eight of the chunks of the object's current revisions, in their order; when chunks are left it
    reports exactly one message, which names the offset of the first of them.  So the steps of a reader that goes on at the
    offset it reads in the message give every chunk exactly once, in order - until the offset named is above 1000, which is
    not a valid target: of a longer text only the first 1000 chunks and one page can be read.  (This is what the steps
    read; of it a percept keeps no more than its [max_candidates], [document_chunks_skipped].) *)
Theorem document_walk db limit id :
  1 ≤ limit ≤ DOCUMENT_PAGE_SIZE →
  (∀ fuel, (length (object_hits db id) < fuel)%nat →
     read_pages fuel db limit 0 id =
       if Z.of_nat (length (object_hits db id)) <=? limit * (1000 / limit + 1)
       then Ok (supported_candidate db <$> object_hits db id)
       else Err (ValueError "validation error")) ∧
  (∀ r py_repr ts_match ts_rank_cd cosine_distance port outputs run,
     pr_operation r = INSPECT → pt_object_id (pr_target r) = Some id → id ≠ ""%string →
     validate_target (pr_target r) = Ok (pr_target r) →
     limit = Z.max 1 (Z.min (max_candidates (evidence_requirement r)) DOCUMENT_PAGE_SIZE) →
     let offset := pt_document_offset (pr_target r) in
     inspect_document_step r id ∈ pp_steps (plan r) ∧
     ∃ page warnings, document_page db limit offset id = Ok (supported_candidate db <$> page, warnings) ∧
       execute_step py_repr ts_match ts_rank_cd cosine_distance (λ db, db) port r (inspect_document_step r id) outputs run db =
         (Ok (step_result (supported_candidate db <$> page) warnings), db) ∧
       (length page ≤ 8)%nat ∧ page `prefix_of` drop (Z.to_nat offset) (object_hits db id) ∧
       (warnings = [] ∧ page = drop (Z.to_nat offset) (object_hits db id) ∨
        ∃ message next, warnings = [message] ∧ reported_offset id message = Some next ∧
          drop (Z.to_nat next) (object_hits db id) ≠ [] ∧
          page ++ drop (Z.to_nat next) (object_hits db id) = drop (Z.to_nat offset) (object_hits db id))).
Proof.
  unfold DOCUMENT_PAGE_SIZE. intros Hl. split.
  - intros fuel Hf. pose proof (read_pages_from db limit id fuel 0 ltac:(lia) ltac:(lia) (or_introl eq_refl) ltac:(lia)) as H.
    rewrite Z.mul_0_l in H. by rewrite H.
  - intros r py_repr ts_match ts_rank_cd cosine_distance port outputs run Hop Hid Hne Hval Hlim. set (offset := pt_document_offset (pr_target r)).
    assert (0 ≤ offset ≤ 1000) as Hoff.
    { subst offset. unfold validate_target in Hval. destruct (Z.ltb_spec (pt_document_offset (pr_target r)) 0); [done|].
      destruct (Z.ltb_spec 1000 (pt_document_offset (pr_target r))); [done|lia]. }
    set (hits := object_hits db id).
    pose proof (document_page_run db limit offset id ltac:(lia) ltac:(lia)) as Hpage. fold hits in Hpage.
    split.
    { unfold plan, inspect_steps, has_object, object_dependency, inspect_document_step, DOCUMENT_PAGE_SIZE. cbn [pp_steps].
      rewrite Hop, Hid. simpl. set_solver. }
    exists (take (Z.to_nat limit) (drop (Z.to_nat offset) hits)). eexists. split; [exact Hpage|]. split; [|split; [|split]].
    + unfold execute_step. cbn [operator inspect_document_step local_step]. apply document_step_run with (limit := limit)
        (offset := offset) (id := id).
      * rewrite Hlim. reflexivity.
      * reflexivity.
      * unfold subject_ids. simpl. rewrite (bool_decide_eq_false_2 _ Hne) by done. simpl.
        by rewrite bool_decide_eq_false_2 by done.
      * exact Hpage.
    + rewrite length_take. lia.
    + apply prefix_take.
    + destruct (Z.ltb_spec (offset + limit) (Z.of_nat (length hits))) as [Hmore|Hlast].
      * right. eexists _, (offset + limit). split; [done|]. split; [apply reported_offset_message; lia|].
        replace (Z.to_nat (offset + limit)) with (Z.to_nat offset + Z.to_nat limit)%nat by lia. split.
        -- intros E. apply (f_equal length) in E. rewrite length_drop in E. simpl in E. lia.
        -- by rewrite <- drop_drop, take_drop.
      * left. split; [done|]. apply take_ge. rewrite length_drop. lia.
Qed.

(** ** The evidence budget *)

Lemma sumZ_below m n : 0 ≤ m → sumZ (λ i, if Z.of_nat i <? m then 1 else 0) (List.seq 0 n) = Z.min m (Z.of_nat n).
Proof.
  intros Hm. induction n as [|n IH]; [simpl; lia|]. rewrite List.seq_S, sumZ_app, IH. simpl.
  destruct (Z.ltb_spec (Z.of_nat n) m); lia.
Qed.

Lemma evidence_share_sum budget n : 0 ≤ budget → (0 < n)%nat → sumZ (evidence_share budget n) (List.seq 0 n) = budget.
Proof.
  intros Hb Hn. unfold evidence_share. rewrite sumZ_plus, sumZ_below by (apply Z.mod_pos_bound; lia).
  pose proof (Z.mod_pos_bound budget (Z.of_nat n) ltac:(lia)). pose proof (Z.div_mod budget (Z.of_nat n) ltac:(lia)).
  assert (∀ q k, sumZ (λ _ : nat, q) (List.seq k n) = Z.of_nat n * q) as ->; [|lia].
  intros q. clear. induction n as [|n IH]; intros k; simpl; [lia|]. rewrite IH. lia.
Qed.

Lemma for_each_reads_eq {S A B} (l : list A) (m : A → prog S B) f s :
  (∀ x, x ∈ l → m x s = (Ok (f x), s)) → for_each l m s = (Ok (f <$> l), s).
Proof.
  induction l as [|x l IH]; intros H; [done|].
  change (for_each (x :: l) m s) with ((y ← m x; ys ← for_each l m; mret (y :: ys)) s).
  unfold mbind, prog_bind. rewrite (H x) by (by left). rewrite IH by (intros; apply H; by right). done.
Qed.

(** The part of the evidence that the target at an index gets. *)
Definition evidence_part (db : RetrievalDB) (kind : string) (budget : Z) (ids : list string) (index : nat) (id : string)
  : list RetrievedCandidate :=
  evidence_candidate <$> take (Z.to_nat (evidence_share budget (length ids) index)) (target_hits db kind id true).
Definition evidence_truncated (db : RetrievalDB) (kind : string) (budget : Z) (ids : list string) (index : nat) (id : string)
  : list string :=
  if evidence_share budget (length ids) index <? Z.of_nat (length (target_hits db kind id true))
  then ["evidence_candidates_truncated:" +:+ id] else [].

Lemma evidence_read_run db kind id limit :
  0 ≤ limit ≤ 100 →
  evidence_read db kind id limit =
    Ok (evidence_candidate <$> take (Z.to_nat limit) (target_hits db kind id true),
        if limit <? Z.of_nat (length (target_hits db kind id true)) then ["evidence_candidates_truncated:" +:+ id] else []).
Proof.
  intros Hl. unfold evidence_read, for_target. rewrite sql_limit_Ok by lia. simpl.
  rewrite py_take_nonneg, <- fmap_take, take_take, Nat.min_l, length_fmap, length_take by lia.
  assert ((limit <? Z.of_nat (Z.to_nat (limit + 1) `min` length (target_hits db kind id true))) =
          (limit <? Z.of_nat (length (target_hits db kind id true)))) as ->; [|done].
  apply eq_true_iff_eq. rewrite !Z.ltb_lt. lia.
Qed.

Lemma length_parts (parts : nat → string → list RetrievedCandidate) (share : nat → Z) ids k :
  (∀ i id, Z.of_nat (length (parts i id)) ≤ share i) →
  Z.of_nat (length (concat (imap (λ i, parts (k + i)%nat) ids))) ≤ sumZ share (List.seq k (length ids)).
Proof.
  intros H. revert k. induction ids as [|id ids IH]; intros k; simpl; [lia|].
  rewrite length_app, Nat2Z.inj_add, Nat.add_0_r. pose proof (H k id) as H1. specialize (IH (S k)).
  assert (imap ((λ i, parts (k + i)%nat) ∘ S) ids = imap (λ i, parts (S k + i)%nat) ids) as ->; [|lia].
  apply imap_ext. intros i x _. simpl. by rewrite Nat.add_succ_r.
Qed.

(** The evidence of several targets is shared out fairly: the budget, between 1 and 100 links, is divided among the
    targets so that the shares add up to it, differ by at most one and are never zero; each target gets its most recent
    links up to its share, and the targets with more are named. *)
Theorem evidence_shared py_repr {S} (tables : S → RetrievalDB) r step depended kind s :
  dict_get "target_kind" (step_input step) = Some (JStr kind) →
  let ids := evidence_targets py_repr r (step_input step) depended in
  let budget := evidence_budget r in
  (∃ o, evidence_step py_repr tables r step depended s = (Ok o, s) ∧
     sr_candidates o = concat (imap (evidence_part (tables s) kind budget ids) ids) ∧
     sr_unresolved o = concat (imap (evidence_truncated (tables s) kind budget ids) ids) ∧
     Z.of_nat (length (sr_candidates o)) ≤ budget) ∧
  1 ≤ budget ≤ 100 ∧ Z.of_nat (length ids) ≤ budget ∧
  (ids ≠ [] → sumZ (evidence_share budget (length ids)) (List.seq 0 (length ids)) = budget) ∧
  (∀ i j, (i < length ids)%nat → 1 ≤ evidence_share budget (length ids) i ≤ evidence_share budget (length ids) j + 1).
Proof.
  intros Hk. cbv zeta. set (ids := evidence_targets _ _ _ _). set (budget := evidence_budget r).
  pose proof (evidence_budget_bounds r) as Hb. fold budget in Hb.
  assert (Z.of_nat (length ids) ≤ budget) as Hids.
  { unfold ids, evidence_targets. fold budget. pose proof (length_py_take budget
      match dict_get "target_id" (step_input step) with
      | Some v => if truthy v then [py_str py_repr v] else from_keys (omap (M:=list) (λ c, truthy_text (rc_relation_id c)) depended)
      | None => from_keys (omap (M:=list) (λ c, truthy_text (rc_relation_id c)) depended)
      end ltac:(lia)). lia. }
  assert (ids ≠ [] → sumZ (evidence_share budget (length ids)) (List.seq 0 (length ids)) = budget) as Hsum.
  { intros Hne. apply evidence_share_sum; [lia|]. by destruct ids; [|simpl; lia]. }
  split; [|split; [done|split; [done|split; [done|]]]].
  - set (f := λ x : nat * string, (evidence_part (tables s) kind budget ids x.1 x.2, evidence_truncated (tables s) kind budget ids x.1 x.2)).
    assert (∀ {B} (g : nat → string → B), (λ x : nat * string, g x.1 x.2) <$> imap pair ids = imap g ids) as Himap.
    { intros B g. rewrite fmap_imap. by apply imap_ext. }
    unfold evidence_step. fold ids. fold budget. unfold mbind, prog_bind. rewrite (for_each_reads_eq _ _ f).
    + eexists. split; [done|]. cbn [sr_candidates sr_unresolved]. rewrite <- !list_fmap_compose. unfold f, compose. cbn [fst snd].
      rewrite !Himap. split; [done|]. split; [done|]. destruct (decide (ids = [])) as [E|Hne]; [rewrite E; simpl; lia|].
      rewrite <- (Hsum Hne) at 2. apply (length_parts (evidence_part (tables s) kind budget ids) _ ids 0).
      intros i id. unfold evidence_part. rewrite length_fmap, length_take.
      pose proof (evidence_share_bounds budget (length ids) i ltac:(lia) ltac:(destruct ids; [done|simpl; lia])). lia.
    + intros [i id] [j Hj]%list_elem_of_lookup. rewrite list_lookup_imap in Hj.
      destruct (ids !! j) as [id'|] eqn:E; simplify_eq/=. unfold text_field, read, mbind, prog_bind. rewrite Hk.
      cbn [require get_store lift mret prog_ret py_str].
      pose proof (evidence_share_bounds budget (length ids) i ltac:(lia) ltac:(by apply lookup_lt_Some in E; lia)).
      by rewrite evidence_read_run by lia.
  - intros i j Hi. unfold evidence_share. pose proof (Z.mod_pos_bound budget (Z.of_nat (length ids)) ltac:(lia)).
    pose proof (Z.div_le_lower_bound budget (Z.of_nat (length ids)) 1 ltac:(lia) ltac:(lia)).
    destruct (Z.ltb_spec (Z.of_nat i) (budget mod Z.of_nat (length ids))),
      (Z.ltb_spec (Z.of_nat j) (budget mod Z.of_nat (length ids))); lia.
Qed.

(** ** Recording perceptions *)

(** Rebuilding a projection again only changes the time it was rebuilt. *)
Lemma make_state_time id rev g ts b q v n sk nr ua d w p u u' st :
  make_state id rev g ts b q v n sk nr ua d w p u = Ok st → ∃ st', make_state id rev g ts b q v n sk nr ua d w p u' = Ok st'.
Proof.
  unfold make_state. intros H. do 5 (apply result_bind_Ok in H as (?&->&H); simpl). case_match; [done|by eexists].
Qed.

Lemma rebuilt_state_run id now db c :
  cases db !! id = Some c →
  rebuilt_state id now db =
    (state_view (rebuilt c now (state_current db !! id) db), put_current (rebuilt c now (state_current db !! id) db) db).
Proof.
  intros Hc. unfold rebuilt_state, rebuild_current, mbind, prog_bind. cbn [get_store]. rewrite Hc. cbn [require].
  destruct (state_current db !! id) as [cur|]; cbn [negb]; [rewrite andb_false_r|]; done.
Qed.

Lemma rebuilt_state_again id now now2 db st db2 :
  (∀ c, cases db !! id = Some c → case_id c = id) →
  rebuilt_state id now db = (Ok st, db2) →
  (cases db2 = cases db ∧ case_events db2 = case_events db ∧ evidence_needs db2 = evidence_needs db ∧
   perception_events db2 = perception_events db) ∧
  ∃ st2 db3, rebuilt_state id now2 db2 = (Ok st2, db3) ∧ perception_events db3 = perception_events db.
Proof.
  intros Hid H. destruct (cases db !! id) as [c|] eqn:Hc.
  - rewrite (rebuilt_state_run id now db c Hc) in H. injection H as Hv <-. split; [done|].
    rewrite (rebuilt_state_run id now2 _ c) by done. cbn [state_current put_current].
    assert (cur_case_id (rebuilt c now (state_current db !! id) db) = id) as Hcur by (by apply Hid).
    rewrite Hcur, lookup_insert_eq.
    unfold state_view in *. eapply make_state_time in Hv as [st2 Hv]. exists st2. eexists.
    split; [apply (f_equal2 pair); [exact Hv|reflexivity]|done].
  - unfold rebuilt_state, rebuild_current, mbind, prog_bind in H. cbn [get_store] in H. rewrite Hc in H. done.
Qed.

Section audit_lemmas.
Context (fresh : string → Z → string) (isoformat : Z → string) (fromisoformat : string → result Z).
Context (isoformat_read : ∀ t, fromisoformat (isoformat t) = Ok t).

Abbreviation mark := (mark_perception fresh isoformat fromisoformat).

(** A marked perception can be marked again, with no further event. *)
Lemma mark_perception_again id pid w at_ now now2 db st db1 :
  case_wf db → mark id pid w at_ now db = (Ok st, db1) →
  (evidence_needs db1 = evidence_needs db ∧ perception_events db1 = perception_events db ∧
   (∀ k, is_Some (cases db !! k) → is_Some (cases db1 !! k))) ∧
  ∃ st2 db2, mark id pid w at_ now2 db1 = (Ok st2, db2) ∧ perception_events db2 = perception_events db1 ∧
             case_events db2 = case_events db1.
Proof.
  intros Hwf H. pose proof H as H0. unfold mark_perception in H. apply bind_Ok in H as (c&s1&H1&H).
  apply lock_case_Ok in H1 as (->&Hc&Hopen). destruct (lw_case _ (cw_log _ Hwf) _ _ Hc) as [Hcid _].
  apply bind_Ok in H as (s0&s1&H1&H). apply get_store_Ok in H1 as [-> ->]. cbv zeta in H.
  apply bind_Ok in H as (u&s1&H1&H).
  set (found := λ d, ∃ e, find_case_event id ("perception:" +:+ pid) PERCEPTION_RECORDED d = Some e ∧
    payload_datetime fromisoformat (dict_get "perceived_at" (ev_payload e)) = Ok (Some at_) ∧
    dict_get "perception_event_id" (ev_payload e) = Some (JStr pid) ∧
    json_equals_int (dict_get "world_revision" (ev_payload e)) w = true).
  assert (found s1 ∧ evidence_needs s1 = evidence_needs db ∧ perception_events s1 = perception_events db ∧
          (∃ c', cases s1 !! id = Some c' ∧ case_id c' = id ∧ case_status c' ∉ IMMUTABLE_CASE_STATUSES) ∧
          (∀ k, is_Some (cases db !! k) → is_Some (cases s1 !! k))) as (Hf&Hn&Hp&(c'&Hc'&Hid'&Hopen')&Hdom).
  { destruct (find_case_event _ _ _ _) as [e|] eqn:He.
    - apply bind_Ok in H1 as (t&s2&H2&H1). apply lift_Ok in H2 as [Ht ->]. apply check_Ok in H1 as [Hchk ->].
      apply orb_false_iff in Hchk as [[H2%bool_decide_eq_false H3%negb_false_iff]%orb_false_iff H4%bool_decide_eq_false].
      split; [|by eauto 8]. exists e. split; [done|]. apply dec_stable in H2, H4. by subst t.
    - apply bind_Ok in H1 as (ev&s2&H2&H1). apply ret_Ok in H1 as [_ ->].
      apply append_event_Ok in H2 as (c2&Hc2&_&_&->). rewrite Hc in Hc2. injection Hc2 as <-. split_and!; try done.
      + eexists. split; [|split; [|split]].
        * unfold find_case_event in *. cbn [case_events with_event put_case add_case_event]. rewrite find_snoc, He.
          cbn [ev_case_id ev_patch_id ev_operation_index ev_event_type]. by rewrite !bool_decide_eq_true_2.
        * change (payload_datetime fromisoformat (Some (JStr (isoformat at_))) = Ok (Some at_)). simpl. by rewrite isoformat_read.
        * done.
        * apply Z.eqb_refl.
      + exists (advance_case c). cbn. rewrite Hcid, lookup_insert_eq. split; [done|]. split; [done|].
        case_bool_decide; [by_decide|done].
      + intros k Hk. cbn. rewrite Hcid. destruct (decide (k = id)) as [->|]; [rewrite lookup_insert_eq; by eexists|].
        by rewrite lookup_insert_ne. }
  assert (∀ x, cases s1 !! id = Some x → case_id x = id) as Hids by (intros x Hx; congruence).
  destruct (rebuilt_state_again id now now2 s1 st db1 Hids H) as ((E1&E2&E3&E4)&st2&db2&Hr&E5).
  split. { rewrite E3, E4. split; [done|]. split; [done|]. rewrite E1. done. }
  destruct (rebuilt_state_again id now2 now2 db1 st2 db2 ltac:(rewrite E1; exact Hids) Hr) as ((_&F2&_&_)&_).
  exists st2, db2. split; [|split; [by rewrite E5, E4|done]].
  unfold mark_perception, lock_case, mbind, prog_bind. cbn [get_store]. rewrite E1, Hc'. cbn [require].
  rewrite bool_decide_eq_false_2 by done. cbn [check mret prog_ret].
  destruct Hf as (e&He&Ht&H2&H3). unfold find_case_event in *. rewrite E2, He. cbn [lift]. rewrite Ht. cbn [check].
  rewrite H2, H3, !bool_decide_eq_false_2 by (intros X; by apply X). exact Hr.
Qed.
End audit_lemmas.

(** The checks of [record] only read, and hold again when the run, the case and its needs are still there. *)
Lemma check_perception_store run r p c s : (check_perception run r p c s).2 = s.
Proof.
  unfold check_perception, mbind, prog_bind, check, require, get_store, mret, prog_ret. repeat (case_match; simplify_eq/=; try done).
Qed.

Lemma check_perception_again run r p c s s' case s1 :
  check_perception run r p c s = (Ok case, s1) → s'.1 = s.1 → evidence_needs s'.2 = evidence_needs s.2 →
  (∀ k, is_Some (cases s.2 !! k) → is_Some (cases s'.2 !! k)) →
  check_perception run r p c s' = (Ok case, s').
Proof.
  unfold check_perception, mbind, prog_bind, check, require, get_store, mret, prog_ret. intros H E1 E2 E3.
  cbv beta iota in *. destruct (bool_decide _ || bool_decide _); [done|]. rewrite E1, E2.
  destruct (task_runs s.1 !! run) as [row|]; [|done].
  destruct (run_case_id row) as [k|]; [|done]. destruct (bool_decide (_ ∧ _)); [done|].
  destruct (cases s.2 !! k) as [x|] eqn:Ek; [|done]. destruct (E3 k) as [x' ->]; [by rewrite Ek; eexists|].
  destruct (match pr_need_id r with Some _ => _ | None => _ end); [done|]. by injection H as <- _.
Qed.

Lemma check_perception_case run r p c s case s1 :
  check_perception run r p c s = (Ok case, s1) → ∃ row, task_runs s.1 !! run = Some row ∧ run_case_id row = Some case.
Proof.
  unfold check_perception, mbind, prog_bind, check, require, get_store, mret, prog_ret. intros H. cbv beta iota in *.
  destruct (bool_decide _ || bool_decide _); [done|]. destruct (task_runs s.1 !! run) as [row|]; [|done]. exists row.
  split; [done|]. destruct (run_case_id row) as [k|]; [|done]. destruct (bool_decide (_ ∧ _)); [done|].
  destruct (cases s.2 !! k); [|done]. destruct (match pr_need_id r with Some _ => _ | None => _ end); [done|].
  by injection H as <- _.
Qed.

Lemma replay_matches_self r p c event case run need refs obs cost w st fc t0 t1 :
  json_plain (JObj (dump_request r)) = true → json_plain (JObj (dump_plan p)) = true →
  replay_matches (mkPerceptionEvent event case run (pr_request_id r) need (dump_request r) (dump_plan p)
                    ("percept:" +:+ percept_id c) refs obs cost w st fc t0 t1) r p c = true.
Proof.
  intros Hr Hp. unfold replay_matches. cbn [pe_request_json pe_plan_json pe_percept_ref].
  by rewrite (json_same_refl _ Hr), (json_same_refl _ Hp), bool_decide_eq_true_2.
Qed.

(** The columns of a new row. *)
Record recorded_row (run case : string) (r : PerceptionRequest) (p : PhysicalPerceptionPlan) (c : Percept) (world : Z)
    (m : PerceptionEvent) : Prop := {
  rr_case : pe_case_id m = case;
  rr_run : pe_task_run_id m = run;
  rr_request : pe_request_id m = pr_request_id r ∧ pe_request_json m = dump_request r;
  rr_plan : pe_plan_json m = dump_plan p;
  rr_percept : pe_percept_ref m = "percept:" +:+ percept_id c;
  rr_evidence : ∀ ref, ref ∈ pe_evidence_refs m ↔ ref ∈ evidence_handles c;
  rr_world : pe_world_revision m = world
}.

Lemma find_perception_found run id db m : find_perception run id db = Some m → pe_request_id m = id ∧ m ∈ perception_events db.
Proof. unfold find_perception. intros [? [_ ?]%bool_decide_eq_true]%find_elem. done. Qed.

Lemma put_perception_good m db : case_wf db → case_good db (put_perception m db).
Proof.
  intros [[W1 W2 W3 W4] Hn Hc]. split; [split; [by split|done|]|].
  - intros id cur Hcur. destruct (Hc id cur Hcur) as [? ? ? ? ?]. by split.
  - split; [intros k x Hx; by exists x|done|intros k n Hn'; by exists n].
Qed.

(** What a call of [record] that returns did: it marked the case of the row of the request, the stored one or a new one. *)
Lemma perception_record_Ok fresh isoformat fromisoformat run r p c t0 t1 st fc event world now s rec s' :
  record fresh isoformat fromisoformat run r p c t0 t1 st fc event world now s = (Ok rec, s') →
  ∃ row case m db0 st1, task_runs s.1 !! run = Some row ∧ run_case_id row = Some case ∧ s'.1 = s.1 ∧ pe_task_run_id m = run ∧
    (db0 = s.2 ∧ m ∈ perception_events s.2 ∨ db0 = put_perception m s.2 ∧ pe_case_id m = case) ∧
    mark_perception fresh isoformat fromisoformat (pe_case_id m) (pe_perception_event_id m) (pe_world_revision m)
      (pe_finished_at m) now db0 = (Ok st1, s'.2).
Proof.
  unfold record. intros H. apply bind_Ok in H as (case&s1&Hchk&H).
  assert (s1 = s) as -> by (by rewrite <- (check_perception_store run r p c s), Hchk).
  destruct (check_perception_case _ _ _ _ _ _ _ Hchk) as (row&Hrow&Hcase).
  apply bind_Ok in H as (s0&s1&H0&H). apply get_store_Ok in H0 as [-> ->].
  destruct (find_perception run (pr_request_id r) s.2) as [m|] eqn:Hf.
  - apply bind_Ok in H as (u&s1&H0&H). apply check_Ok in H0 as [_ ->].
    apply bind_Ok in H as (st1&s1&H0&H). apply ret_Ok in H as [-> ->]. apply zoom_Ok in H0 as (db'&Hmark&->).
    unfold find_perception in Hf. apply find_elem in Hf as [Hin [Hr _]%bool_decide_eq_true].
    exists row, case, m, s.2, st1. split_and!; try done. by left.
  - apply bind_Ok in H as (u&s1&H0&H). apply check_Ok in H0 as [_ ->].
    apply bind_Ok in H as (u1&s1&H0&H). apply modify_Ok in H0 as ->.
    apply bind_Ok in H as (st1&s1&H0&H). apply ret_Ok in H as [-> ->]. apply zoom_Ok in H0 as (db'&Hmark&->).
    set (m := mkPerceptionEvent _ _ _ _ _ _ _ _ _ _ _ _ _ _ _ _) in *. exists row, case, m, (put_perception m s.2), st1.
    split_and!; try done. by right.
Qed.

(** A perception is recorded once.  A call of [record] that returns has the row of the request of this run in the table:
    a new one, with the request, plan, percept and knowledge revision of the call, or the one that was there and says the
    same; the case log stays sound and the runs are untouched.  Whatever is called next with this run and request, a
    different request, plan or percept is refused and changes nothing; and the same call again returns the same record as
    a replay, with no further row and no further event of the case. *)
Theorem perception_recorded_once fresh isoformat fromisoformat run r p c t0 t1 st fc event world now s rec s' :
  (∀ t, fromisoformat (isoformat t) = Ok t) → case_wf s.2 →
  json_plain (JObj (dump_request r)) = true → json_plain (JObj (dump_plan p)) = true →
  record fresh isoformat fromisoformat run r p c t0 t1 st fc event world now s = (Ok rec, s') →
  ∃ m, find_perception run (pr_request_id r) s'.2 = Some m ∧ replay_matches m r p c = true ∧
    rec = event_record m (rec_replay rec) ∧
    perception_events s'.2 = perception_events s.2 ++ (if rec_replay rec then [] else [m]) ∧
    (rec_replay rec = false → ∃ row case, task_runs s.1 !! run = Some row ∧ run_case_id row = Some case ∧
                                         recorded_row run case r p c world m) ∧
    case_good s.2 s'.2 ∧ s'.1 = s.1 ∧
    (∀ r2 p2 c2 t2 t3 st2 fc2 event2 world2 now2, pr_request_id r2 = pr_request_id r → replay_matches m r2 p2 c2 = false →
       ∃ e, record fresh isoformat fromisoformat run r2 p2 c2 t2 t3 st2 fc2 event2 world2 now2 s' = (Err e, s')) ∧
    (∀ t2 t3 st2 fc2 event2 world2 now2, ∃ s2,
       record fresh isoformat fromisoformat run r p c t2 t3 st2 fc2 event2 world2 now2 s' = (Ok (event_record m true), s2) ∧
       perception_events s2.2 = perception_events s'.2 ∧ case_events s2.2 = case_events s'.2).
Proof.
  intros Hiso Hwf Hpr Hpp H. unfold record in H. apply bind_Ok in H as (case&s1&Hchk&H).
  pose proof (check_perception_store run r p c s) as Hst. rewrite Hchk in Hst. simpl in Hst. subst s1.
  apply bind_Ok in H as (s0&s1&H0&H). apply get_store_Ok in H0 as [-> ->].
  assert (∃ m db0 st1, find_perception run (pr_request_id r) db0 = Some m ∧ replay_matches m r p c = true ∧
    rec = event_record m (rec_replay rec) ∧ perception_events db0 = perception_events s.2 ++ (if rec_replay rec then [] else [m]) ∧
    (rec_replay rec = false → recorded_row run case r p c world m) ∧
    case_good s.2 db0 ∧ evidence_needs db0 = evidence_needs s.2 ∧ cases db0 = cases s.2 ∧
    mark_perception fresh isoformat fromisoformat (pe_case_id m) (pe_perception_event_id m) (pe_world_revision m)
      (pe_finished_at m) now db0 = (Ok st1, s'.2) ∧ s'.1 = s.1)
    as (m&db0&st1&Hf&Hm&Hrec&Hrows&Hcols&Hg0&Hn0&Hc0&Hmark&Htasks).
  { destruct (find_perception run (pr_request_id r) s.2) as [m|] eqn:Hf.
    - apply bind_Ok in H as (u&s1&H0&H). apply check_Ok in H0 as [Hm%negb_false_iff ->].
      apply bind_Ok in H as (st1&s1&H0&H). apply ret_Ok in H as [-> ->]. apply zoom_Ok in H0 as (db'&Hmark&->).
      exists m, s.2, st1. cbn [rec_replay event_record]. rewrite app_nil_r. split_and!; done.
    - apply bind_Ok in H as (u&s1&H0&H). apply check_Ok in H0 as [_ ->].
      apply bind_Ok in H as (u1&s1&H0&H). apply modify_Ok in H0 as ->.
      apply bind_Ok in H as (st1&s1&H0&H). apply ret_Ok in H as [-> ->]. apply zoom_Ok in H0 as (db'&Hmark&->).
      set (m := mkPerceptionEvent _ _ _ _ _ _ _ _ _ _ _ _ _ _ _ _) in *. exists m, (put_perception m s.2), st1.
      cbn [rec_replay event_record]. split_and!; try done.
      + unfold find_perception in *. cbn [perception_events put_perception]. rewrite find_snoc, Hf.
        by rewrite bool_decide_eq_true_2.
      + by apply replay_matches_self.
      + intros _. split; try done. intros ref. apply elem_of_sorted_set.
      + by apply put_perception_good. }
  exists m. destruct (mark_perception_again fresh isoformat fromisoformat Hiso _ _ _ _ now now _ _ _ (proj1 Hg0) Hmark)
    as ((Hn1&Hp1&Hc1)&_).
  assert (find_perception run (pr_request_id r) s'.2 = Some m) as Hf'.
  { unfold find_perception in *. by rewrite Hp1. }
  split; [done|]. split; [done|]. split; [done|]. split; [by rewrite Hp1|]. split.
  { intros Hr. destruct (check_perception_case _ _ _ _ _ _ _ Hchk) as (row&?&?). exists row, case. auto. }
  split. { destruct Hg0 as [Hw0 Hs0]. destruct (mark_perception_good _ _ _ _ _ _ _ _ _ _ _ Hw0 Hmark) as [Hw1 Hs1].
           split; [done|by etrans]. }
  split; [done|]. split.
  - intros r2 p2 c2 t2 t3 st2 fc2 event2 world2 now2 Hid Hno. unfold record, mbind, prog_bind.
    pose proof (check_perception_store run r2 p2 c2 s') as Hst. destruct (check_perception run r2 p2 c2 s') as [[k|e] s2];
      simpl in Hst; subst s2; [|by eexists]. cbn [get_store]. rewrite Hid, Hf', Hno. by eexists.
  - intros t2 t3 st2 fc2 event2 world2 now2.
    destruct (mark_perception_again fresh isoformat fromisoformat Hiso _ _ _ _ now now2 _ _ _ (proj1 Hg0) Hmark)
      as (_&st3&db2&Hmark2&Hp2&He2).
    exists (s'.1, db2). split; [|split; [exact Hp2|exact He2]].
    unfold record, mbind, prog_bind. rewrite (check_perception_again run r p c s s' case s Hchk).
    + cbn [get_store]. rewrite Hf', Hm. cbn [negb check]. unfold zoom. cbn [view set_view embeds_snd]. rewrite Hmark2. done.
    + done.
    + by rewrite Hn1.
    + intros k Hk. apply Hc1. by rewrite Hc0.
Qed.

(** ** Samples and witnesses *)

Definition sample_target (offset : Z) : PerceptionTarget :=
  mkPerceptionTarget (Some (mkIdentifierTarget "cve" "CVE-2021-44228")) (Some "cve"%string) offset None None [] [] [] [] None.
Definition sample_request (offset limit : Z) : PerceptionRequest :=
  mkPerceptionRequest "q1" (Some "c1"%string) None INSPECT (sample_target offset) None (mkEvidenceRequirement [] 0 limit) [] [] None.

Definition sample_execute (r : PerceptionRequest) : result Percept * RetrievalDB :=
  execute (λ _, ""%string) (λ _ _, true) (λ _ _, Finite 1 0) sample_distance (λ db, db) None r (plan r) None sample_retrieval.

(** The ten chunks of the sample are read in two pages, but a requirement of eight candidates keeps six of the first eight,
    beside the object and its projection, while the message says to go on after the eighth: a reader that does so never
    sees the other two. *)
Example document_chunks_skipped :
  match (sample_execute (sample_request 0 8)).1, (sample_execute (sample_request 8 8)).1 with
  | Ok first, Ok second =>
      candidate_id <$> candidate_evidence first =
        ["object:cve"; "projection:p1"; "chunk:c0"; "chunk:c1"; "chunk:c2"; "chunk:c3"; "chunk:c4"; "chunk:c5"]%string ∧
      pc_unresolved first = ["more_document_chunks:cve:offset=8"%string] ∧
      candidate_id <$> candidate_evidence second = ["object:cve"; "projection:p1"; "chunk:c8"; "chunk:c9"]%string ∧
      pc_unresolved second = []
  | _, _ => False
  end.
Proof. by vm_compute. Qed.

(** A requirement with a negative bound fails a search in the database; an inspection takes it. *)
Example negative_bound_fails :
  (execute (λ _, ""%string) (λ _ _, true) (λ _ _, Finite 1 0) sample_distance (λ db, db) None
     (mkPerceptionRequest "q2" None None SEARCH
        (mkPerceptionTarget None None 0 (Some "log4j"%string) None [] [] [] [] None) None (mkEvidenceRequirement [] 0 (-1)) [] [] None)
     (plan (mkPerceptionRequest "q2" None None SEARCH
        (mkPerceptionTarget None None 0 (Some "log4j"%string) None [] [] [] [] None) None (mkEvidenceRequirement [] 0 (-1)) [] [] None))
     None sample_retrieval).1 = Err DBAPIError ∧
  is_ok (sample_execute (sample_request 0 (-1))).1 = true.
Proof. by vm_compute. Qed.

(** A search with a query vector runs over embeddings of its dimension, and fails over those of another. *)
Definition vector_request (v : list pyfloat) : PerceptionRequest :=
  mkPerceptionRequest "q3" None None SEARCH (mkPerceptionTarget None None 0 None (Some v) [] [] [] [] None) None
    (mkEvidenceRequirement [] 0 3) [] [] None.
Example dimensions_differ_fail :
  is_ok (sample_execute (vector_request [Finite 1 0; Finite 2 0])).1 = true ∧
  (sample_execute (vector_request [Finite 1 0])).1 = Err (OtherException "DBAPIError" "different vector dimensions").
Proof. by vm_compute. Qed.

Lemma planned_perception_witness :
  request_in_range (sample_request 0 8) ∧
  ∃ c, sample_execute (sample_request 0 8) = (Ok c, sample_retrieval) ∧ sumZ snd (operator_counts c) = 3.
Proof.
  assert (request_in_range (sample_request 0 8)) as Hr by (unfold request_in_range; simpl; lia). split; [exact Hr|].
  destruct (planned_perception (λ _, ""%string) (λ _ _, true) (λ _ _, Finite 1 0) sample_distance (λ db, db) None
              (sample_request 0 8) None sample_retrieval Hr ltac:(by intros v c e [=]) ltac:(discriminate)) as (_&_&_&c&Hc&_&_&_&Hsum).
  exists c. split; [exact Hc|exact Hsum].
Defined.

Definition sample_candidate (id source : string) (scores : list (string * pyfloat)) : RetrievedCandidate :=
  mkRetrievedCandidate id KIND_DOCUMENT_CHUNK None None None None (Some source) (Some "vendor"%string) None None None None None
    scores [] [].
Definition sample_candidates : list RetrievedCandidate :=
  [sample_candidate "a" "s1" [("lexical"%string, Finite 1 0)]; sample_candidate "b" "s2" [("dense"%string, Finite 1 (-1))];
   sample_candidate "a" "s3" [("dense"%string, Finite 3 0); ("lexical"%string, Finite 1 (-3))]].

Lemma assemble_spec_witness :
  Forall scores_ok sample_candidates ∧
  (λ c, (candidate_id c, score_channels c)) <$> ca_candidates (assemble sample_candidates (mkEvidenceRequirement ["vendor"%string] 1 1)) =
    [("a", [("lexical", Finite 1 0); ("dense", Finite 3 0)])]%string ∧
  (requirements_satisfied (assemble sample_candidates (mkEvidenceRequirement ["vendor"%string] 1 1)) = true) ∧
  NoDup (ca_independent_source_keys (assemble sample_candidates (mkEvidenceRequirement ["vendor"%string] 1 1))).
Proof.
  assert (Forall scores_ok sample_candidates) as Hok by (repeat constructor; by_decide).
  split; [exact Hok|]. split; [by vm_compute|]. split; [by vm_compute|].
  apply (assemble_spec sample_candidates (mkEvidenceRequirement ["vendor"%string] 1 1) Hok). simpl. lia.
Defined.

Lemma document_walk_witness :
  read_pages 11 sample_retrieval 8 0 "cve" = Ok (supported_candidate sample_retrieval <$> object_hits sample_retrieval "cve") ∧
  length (object_hits sample_retrieval "cve") = 10%nat.
Proof.
  assert (length (object_hits sample_retrieval "cve") = 10%nat) as Hlen by by vm_compute. split; [|exact Hlen].
  pose proof (proj1 (document_walk sample_retrieval 8 "cve" ltac:(unfold DOCUMENT_PAGE_SIZE; lia)) 11%nat) as H.
  rewrite Hlen in H. apply H. lia.
Defined.

Lemma evidence_shared_witness :
  let step := local_step "graph-evidence:0" EVIDENCE [("target_kind"%string, JStr "relation")] (Some "graph:0"%string) "evidence" in
  let edges := relation_candidate sample_retrieval <$> relation_rows sample_retrieval in
  evidence_targets (λ _, ""%string) (sample_request 0 3) (step_input step) edges = ["r1"; "r2"]%string ∧
  sumZ (evidence_share 3 2) (List.seq 0 2) = 3 ∧
  ∃ o, evidence_step (λ _, ""%string) (λ db, db) (sample_request 0 3) step edges sample_retrieval = (Ok o, sample_retrieval) ∧
       Z.of_nat (length (sr_candidates o)) ≤ 3.
Proof.
  cbv zeta. split; [by vm_compute|]. split; [by vm_compute|].
  destruct (evidence_shared (λ _, ""%string) (λ db, db) (sample_request 0 3)
    (local_step "graph-evidence:0" EVIDENCE [("target_kind"%string, JStr "relation")] (Some "graph:0"%string) "evidence")
    (relation_candidate sample_retrieval <$> relation_rows sample_retrieval) "relation" sample_retrieval eq_refl)
    as ((o&Ho&_&_&Hlen)&_). exists o. split; [exact Ho|exact Hlen].
Defined.

(** A parser of the sample text of instants. *)
Definition sample_read (s : string) : result Z :=
  match int_of_digits s, strip_prefix "-" s with
  | Some n, _ => Ok (Z.of_N n)
  | None, Some rest => match int_of_digits rest with Some n => Ok (- Z.of_N n) | None => Err (ValueError "not an instant") end
  | None, None => Err (ValueError "not an instant")
  end.
Lemma sample_read_iso t : sample_read (sample_iso t) = Ok t.
Proof.
  unfold sample_read, sample_iso, str_of_Z. destruct (Z.ltb_spec t 0).
  - change (String.append "-" (str_of_N (Z.to_N (- t)))) with (String "-"%char (str_of_N (Z.to_N (- t)))).
    rewrite int_of_digits_minus. cbn [strip_prefix]. destruct (ascii_dec _ _); [|done]. rewrite int_of_digits_str. f_equal. lia.
  - rewrite int_of_digits_str. f_equal. lia.
Qed.

Definition sample_run : TaskRunModel :=
  mkTaskRunModel "run" "cv" "contract" 1 "mv" "ctx" 1 (Some "c1"%string) None "InvestigationRole" "1" RUNNING 1 "env" None None
    0 0 None.
Definition sample_audit : AuditDB := (mkTaskDB [] [] {["run"%string := sample_run]} [] [], asked).
Definition sample_percept : Percept :=
  match (sample_execute (sample_request 0 8)).1 with
  | Ok c => c
  | Err _ => mkPercept "" "" [] [] [] [] [] [] [] [] [] [] [] [] ""
  end.
Definition sample_record (event : string) (c : Percept) (s : AuditDB) : result PerceptionEventRecord * AuditDB :=
  record sample_fresh sample_iso sample_read "run" (sample_request 0 8) (plan (sample_request 0 8)) c 10 20 "completed" None event 7 30 s.
Example sample_recorded :
  match sample_record "e1" sample_percept sample_audit with
  | (Ok rec, s') => rec_replay rec = false ∧ length (perception_events s'.2) = 1%nat
  | _ => False
  end.
Proof. by vm_compute. Qed.

Lemma perception_recorded_once_witness : ∃ rec s' m,
  sample_record "e1" sample_percept sample_audit = (Ok rec, s') ∧
  find_perception "run" "q1" s'.2 = Some m ∧
  ∃ s2, sample_record "e2" sample_percept s' = (Ok (event_record m true), s2) ∧ perception_events s2.2 = perception_events s'.2.
Proof.
  pose proof sample_recorded as Hrun. destruct (sample_record "e1" sample_percept sample_audit) as [[rec|e] s'] eqn:E; [|destruct Hrun].
  unfold sample_record in E.
  destruct (perception_recorded_once sample_fresh sample_iso sample_read "run" (sample_request 0 8) (plan (sample_request 0 8))
              sample_percept 10 20 "completed" None "e1" 7 30 sample_audit rec s' sample_read_iso asked_wf
              ltac:(by vm_compute) ltac:(by vm_compute) E) as (m&Hf&_&_&_&_&_&_&_&Hagain).
  exists rec, s', m. split; [reflexivity|]. split; [exact Hf|].
  destruct (Hagain 10 20 "completed"%string None "e2"%string 7 30) as (s2&H2&H3&_). exists s2. split; [exact H2|exact H3].
Defined.
