(* ===== verification/InvestigationRole.v ===== *)
(** * InvestigationRole: packages/investigation/runtime (contracts.py, role.py and the answers of planner.py)

    The role that investigates a case: a bounded loop in which a planner chooses the next action and the role carries it out
    through the components that guard the stores.  [InvestigationRoleRuntime] is the object of role.py with the collaborators
    its constructor takes, [run] its method; a perception goes through [Perception], a patch through the state gate of
    [InvestigationState], every change of the run through [TaskStore].  The planner, the delegation of enrichment, the
    execution boundary and the external observations are programs over the tables; the shipped planner is
    [ModelInvestigationPlanner] around the decision of the model, which it binds to the frame ([normalize_action]).

    The store of a run is [World]: the tables of a session, and the trace of the run, which no code reads: the iterations the
    planner was asked in and what came of each answer ([Observation]: the percept, or the states before and after a patch).
    A session reads the knowledge base through [ss_knowledge] (what a reference
    supports) and [ss_retrieval] (what a perception finds).  The text of an exception, the JSON text, the digests and the
    clock are parameters ([Library]); a fresh identity of a task event is a function of the key of the event. *)

From S2P Require Import Prelude.
From S2P Require Import Effects.
From S2P Require Import PyNumbers.
From S2P Require Import TaskContracts.
From S2P Require Import TaskStore.
From S2P Require Import TaskContext.
From S2P Require Import Vocabulary.
From S2P Require Import EnrichmentState.
From S2P Require Import Admission.
From S2P Require Import InvestigationState.
From S2P Require Import Retrieval.
From S2P Require Import Perception.
From Stdlib Require Import Ascii.

(** ** contracts.py *)

Record EnrichmentDelegationRequest := mkEnrichmentDelegationRequest {
  delegation_id : string;
  dr_target_object_id : string;
  dr_cve_id : string;
  dr_required_dimensions : list EnrichmentDimension;
  dr_reason : string
}.
Record DelegationResult := mkDelegationResult {
  child_run_id : string;
  child_context_ref : string;
  child_execution_ref : string;
  child_status : option TaskRunStatus;
  child_stop_reason : option string
}.

(** [InvestigationAction], a union discriminated by its kind. *)
Inductive InvestigationAction :=
| PerceptionAction (request : PerceptionRequest)
| DelegationAction (request : EnrichmentDelegationRequest)
| StatePatchAction (patch : StatePatch)
| WaitAction (reason : string)
| StopAction (reason : string).

Record InvestigationFrame := mkInvestigationFrame {
  fr_task_run_id : string;
  fr_task_contract : TaskContract;
  fr_state : InvestigationState;
  selected_need : option EvidenceNeedModel;
  fr_iteration : Z;
  fr_last_percept : option Percept;
  fr_recent_percepts : list Percept
}.

(** ** The session of a run

    [ss_budget_limits] is the column [limits] of the budget accounts by identity, [ss_model_requests] the columns
    [task_run_id] and [purpose] of the recorded model requests, [ss_world_revision] the current knowledge revision. *)
Record Session := mkSession {
  ss_audit : AuditDB;
  ss_knowledge : KnowledgeDB;
  ss_retrieval : RetrievalDB;
  ss_world_revision : Z;
  ss_budget_limits : gmap string (list (string * string));
  ss_model_requests : list (option string * string)
}.
Definition ss_tasks (s : Session) : TaskDB := (ss_audit s).1.
Definition ss_cases (s : Session) : CaseDB := (ss_audit s).2.
Definition set_audit (a : AuditDB) (s : Session) : Session :=
  mkSession a (ss_knowledge s) (ss_retrieval s) (ss_world_revision s) (ss_budget_limits s) (ss_model_requests s).

#[export] Program Instance session_audit : Embeds Session AuditDB := {| view := ss_audit; set_view := set_audit |}.
Solve Obligations with by intros; repeat match goal with s : Session |- _ => destruct s end.
#[export] Program Instance session_tasks : Embeds Session TaskDB := {|
  view := ss_tasks; set_view := λ t s, set_audit (t, ss_cases s) s |}.
Solve Obligations with by intros; repeat match goal with s : Session |- _ => destruct s as [[]] end.
#[export] Program Instance session_cases : Embeds Session CaseDB := {|
  view := ss_cases; set_view := λ c s, set_audit (ss_tasks s, c) s |}.
Solve Obligations with by intros; repeat match goal with s : Session |- _ => destruct s as [[]] end.

(** What came of an answer of the planner, when the loop goes on: the percept of a perception or a delegation; a patch that
    was rejected, and the percept that says so; a patch applied without its resolutions, and the percept that says so; a patch
    that was applied; the last two with the states before and after. *)
Inductive Observation :=
| Saw (p : Percept)
| PatchRejected (p : Percept)
| PatchDeferred (p : Percept) (before after : InvestigationState)
| PatchApplied (before after : InvestigationState).

(** The trace of a run: the iterations in which the planner was asked, and what came of its answers. *)
Inductive Entry := Asked (iteration : Z) | Observed (o : Observation).
Definition World : Type := Session * list Entry.

(** ** runtime/read.py *)

Definition budget_limits (account_id : string) (s : Session) : option (list (string * string)) := ss_budget_limits s !! account_id.
Definition model_request_count (task_run_id request_purpose : string) (s : Session) : Z :=
  Z.of_nat (length (filter (λ r : option string * string, r.1 = Some task_run_id ∧ r.2 = request_purpose) (ss_model_requests s))).

(** ** role.py: results *)

Record InvestigationTaskResult := mkInvestigationTaskResult {
  ir_task_run_id : string;
  ir_case_id : string;
  final_case_revision : Z;
  resolved_need_ids : list string;
  blocked_need_ids : list string;
  ir_open_need_ids : list string;
  ir_iterations : Z;
  ir_stop_reason : string
}.
Record InvestigationRoleOutcome := mkInvestigationRoleOutcome { run_status : TaskRunStatus; ro_result : InvestigationTaskResult }.

(** The functions of libraries, the clock and the fresh identities.  [lib_now] and [lib_fresh] give the instant and the
    identity taken at a point of an iteration; [lib_case_event] the identity of the event of a case at a revision;
    [lib_response_status] the status code of a [ModelProviderResponseError]. *)
Record Library := mkLibrary {
  lib_uuid5 : string → string;
  lib_manifest_digest : ContextManifest → string;
  lib_sha256_hex : string → string;
  lib_json_dumps : json → string;
  lib_result_json : InvestigationTaskResult → string;
  lib_exn_text : exn → string;
  lib_response_status : exn → option Z;
  lib_isoformat : Z → string;
  lib_fromisoformat : string → result Z;
  lib_py_repr : json → string;
  lib_ts_match : string → string → bool;
  lib_ts_rank_cd : string → string → pyfloat;
  lib_cosine_distance : list pyfloat → list pyfloat → result pyfloat;
  lib_now : Z → string → Z;
  lib_fresh : string → string;
  lib_case_event : string → Z → string
}.

(** ** The collaborators of the role *)

Record InvestigationRoleRuntime := mkInvestigationRoleRuntime {
  next_action : InvestigationFrame → prog Session InvestigationAction;
  observation_port : option (ObservationPort (S:=Session));
  delegate_enrichment : option (string → EnrichmentDelegationRequest → prog Session DelegationResult);
  blocking_reason : option (string → prog Session (option string));
  stream_name : string;
  max_iterations : Z;
  no_progress_limit : Z
}.
(** The check of [__init__]. *)
Definition make_runtime (self : InvestigationRoleRuntime) : result InvestigationRoleRuntime :=
  if (max_iterations self <? 1) || (no_progress_limit self <? 1)
  then Err (ValueError "investigation loop bounds must be positive") else Ok self.

Definition ROLE_ID : string := "InvestigationRole".
Definition PLAN_PURPOSE : string := "m5.investigation_plan".

(** What the loop of [_run_loop] carries from one iteration to the next. *)
Record LoopState := mkLoopState {
  last_percept : option Percept;
  recent_percepts : list Percept;
  seen_percept_signals : list string;
  no_progress : Z
}.
Definition first_loop : LoopState := mkLoopState None [] [] 0.

(** [Percept(percept_id=..., request_id=..., target_refs=..., unresolved=...)] *)
Definition notice (id request : string) (targets unresolved : list string) : Percept :=
  mkPercept id request targets [] [] [] [] [] [] [] [] unresolved [] [] ASSEMBLER_REVISION.

(** [[*recent, percept][-4:]] *)
Definition last_four (l : list Percept) : list Percept := drop (length l - 4) l.

Section role.
Context (lib : Library).

(** [_state_progress_signature] *)
Definition progress_item (i : InvestigationStateItem) : string :=
  lib_json_dumps lib (JObj [
    ("proposition"%string, JStr (si_proposition i));
    ("target_ref"%string, text_json (si_target_ref i));
    ("evidence_refs"%string, JArr (JStr <$> si_evidence_refs i));
    ("reasoning_relation"%string, relation_json (si_reasoning_relation i))]).
Definition progress_bucket (items : list InvestigationStateItem) : json :=
  JArr (JStr <$> merge_sort String.le (progress_item <$> items)).
Definition state_progress_signature (state : InvestigationState) : string :=
  lib_sha256_hex lib (lib_json_dumps lib (JObj [
    ("buckets"%string, JObj [
       ("confirmed"%string, progress_bucket (is_confirmed state));
       ("tentative"%string, progress_bucket (is_tentative state));
       ("conflicts"%string, progress_bucket (is_conflicts state));
       ("unknowns"%string, progress_bucket (is_unknowns state));
       ("hypotheses"%string, progress_bucket (is_hypotheses state))]);
    ("evidence_need_ids"%string, JArr (JStr <$> merge_sort String.le (is_evidence_need_ids state)));
    ("current_decision"%string, match is_current_decision state with Some d => JObj d | None => JNull end)])).

(** [_percept_signal] *)
Definition percept_signal (p : Percept) : string :=
  lib_sha256_hex lib (String.concat "|" (
    merge_sort String.le (evidence_handles p) ++ merge_sort String.le (pc_independent_source_keys p) ++
    merge_sort String.le (candidate_id <$> candidate_evidence p) ++ merge_sort String.le (pc_unresolved p))).

(** [_no_progress_stop_reason] *)
Definition has_unresolved (prefix : string) (p : Percept) : bool := existsb (startswith prefix) (pc_unresolved p).
Definition no_progress_stop_reason (last : option Percept) : string :=
  match last with
  | Some p =>
      if has_unresolved "resolution_deferred:" p then "evidence_contract_unmet"
      else if has_unresolved "state_patch_rejected:" p then "state_patch_rejected"
      else if has_unresolved "delegated_enrichment_" p then "delegated_enrichment_unavailable"
      else "no_progress"
  | None => "no_progress"
  end.

(** [_patch_rejection_percept] *)
Definition patch_rejection_percept (patch_id : string) (e : exn) : Percept :=
  notice ("percept:state-patch-rejected:" +:+ patch_id) ("state-patch:" +:+ patch_id) []
    ["state_patch_rejected:" +:+ lib_exn_text lib e].

(** [_result_ref] *)
Definition result_ref_of (r : InvestigationTaskResult) : string :=
  "investigation-result:" +:+ ir_task_run_id r +:+ ":" +:+ str_take 24 (lib_sha256_hex lib (lib_result_json lib r)).

(** *** Reading the run *)

Context (self : InvestigationRoleRuntime).

Definition transition (run_id : string) (target : TaskRunStatus) (payload_ref idempotency_key : string)
  (result stop : option string) (instant : Z) : prog Session TaskRun :=
  zoom (transition_task_run run_id target payload_ref idempotency_key (stream_name self) ROLE_ID result stop
          (lib_fresh lib idempotency_key) instant).

(** An event of the run, at its context revision. *)
Definition append_run_event (run_id : string) (event_type : TaskEventType) (payload_ref idempotency_key : string) (instant : Z)
  : prog Session unit :=
  run ← zoom (get_task_run run_id);
  _ ← zoom (append_task_event (lib_fresh lib idempotency_key) run_id event_type ROLE_ID (tr_base_context_revision run)
              payload_ref idempotency_key (stream_name self) instant);
  mret tt.

(** [_ensure_running] *)
Definition ensure_running (run_id : string) : prog Session unit := atomic (
  run ← zoom (get_task_run run_id);
  contract ← zoom (get_task_contract_for_run run_id);
  desired ← lift (investigation_desired_state_of contract);
  _ ← check (bool_decide (tr_role_id run ≠ ROLE_ID)) (ValueError "TaskRun role mismatch");
  _ ← check (bool_decide (tr_case_id run ≠ Some (it_case_id desired)))
        (ValueError "TaskRun case_id does not match TaskContract desired state");
  run ← (if bool_decide (tr_status run ∈ [WAITING_DEPENDENCY; WAITING_INPUT])
         then transition run_id QUEUED "queue:investigation-resume"
                ("investigation-resume:" +:+ run_id +:+ ":" +:+ TaskRunStatus_value (tr_status run)) None None
                (lib_now lib 0 "resume");;
              zoom (get_task_run run_id)
         else mret run);
  run ← (if bool_decide (tr_status run = SUBMITTED)
         then transition run_id QUEUED "queue:investigation" ("investigation-queued:" +:+ run_id) None None (lib_now lib 0 "queued");;
              zoom (get_task_run run_id)
         else mret run);
  if bool_decide (tr_status run = QUEUED)
  then transition run_id RUNNING ("role:" +:+ ROLE_ID)
         ("investigation-started:" +:+ run_id +:+ ":" +:+ str_of_Z (tr_base_context_revision run)) None None
         (lib_now lib 0 "started");;
       mret tt
  else check (bool_decide (tr_status run ≠ RUNNING)) (ValueError "InvestigationRole cannot run in this status")).

(** [_iteration_window] *)
Definition iteration_window (run_id : string) : prog Session (Z * Z) :=
  manifest ← zoom (get_task_context run_id);
  s ← get_store;
  budget_turns ← lift (match budget_limits (cm_budget_ref manifest) s with
                       | Some limits => int_of_text (default "8"%string (dict_get "agent_turns" limits))
                       | None => Ok 8
                       end);
  mret (model_request_count run_id PLAN_PURPOSE s + 1, Z.min (max_iterations self) budget_turns).

(** [_load_frame] *)
Definition load_frame (run_id : string) (iteration : Z) (last : option Percept) (recent : list Percept)
  : prog Session InvestigationFrame := atomic (
  contract ← zoom (get_task_contract_for_run run_id);
  desired ← lift (investigation_desired_state_of contract);
  state ← zoom (get_state (it_case_id desired) (lib_now lib iteration "frame"));
  needs ← zoom (list_evidence_needs (it_case_id desired) (Some [NEED_OPEN; NEED_BLOCKED]));
  let selected := find (λ n, bool_decide (need_id n ∈ it_required_need_ids desired) && bool_decide (need_status n = NEED_OPEN)) needs in
  mret (mkInvestigationFrame run_id contract state selected iteration last recent)).

Definition state_ref (state : InvestigationState) : string :=
  "case:" +:+ is_case_id state +:+ "@" +:+ str_of_Z (is_case_revision state).

(** [_refresh_context_for_frame] *)
Definition refresh_context_for_frame (run_id : string) (frame : InvestigationFrame) : prog Session unit := atomic (
  manifest ← zoom (get_task_context run_id);
  s ← get_store;
  let discovered := match fr_last_percept frame with Some p => evidence_handles p | None => [] end in
  if bool_decide (knowledge_revision manifest = Some (ss_world_revision s))
     && bool_decide (investigation_state_ref manifest = Some (state_ref (fr_state frame)))
     && bool_decide (discovered ⊆ TaskContracts.evidence_refs manifest)
  then mret tt
  else
    refresh ← lift (make_ContextRefresh (mkContextRefresh (context_revision manifest + 1) (Some (ss_world_revision s))
                      (Some (state_ref (fr_state frame))) discovered [] [] [] [] [] None));
    refreshed ← lift (refresh_context manifest refresh);
    _ ← zoom (update_task_context (lib_uuid5 lib) (lib_manifest_digest lib) run_id refreshed (stream_name self)
                (lib_fresh lib ("context-updated:" +:+ context_manifest_ref refreshed)) ROLE_ID
                (lib_now lib (fr_iteration frame) "refresh"));
    mret tt).

(** The needs a contract requires, in its order. *)
Definition required_needs (desired : InvestigationTaskDesiredState) : prog Session (list EvidenceNeedModel) :=
  for_each (it_required_need_ids desired) (λ id, zoom (get_evidence_need id)).

Definition ids_with (st : EvidenceNeedStatus) (needs : list EvidenceNeedModel) : list string :=
  need_id <$> filter (λ n, need_status n = st) needs.

(** [_result] *)
Definition task_result (frame : InvestigationFrame) (run_id : string) (iteration : Z) (reason : string)
  : prog Session InvestigationTaskResult :=
  desired ← lift (investigation_desired_state_of (fr_task_contract frame));
  needs ← required_needs desired;
  mret (mkInvestigationTaskResult run_id (it_case_id desired) (is_case_revision (fr_state frame))
          (ids_with NEED_RESOLVED needs) (ids_with NEED_BLOCKED needs) (ids_with NEED_OPEN needs) iteration reason).

(** [_finish] *)
Definition finish (run_id : string) (frame : InvestigationFrame) (target : TaskRunStatus) (reason : string) (iteration : Z)
  : prog Session InvestigationRoleOutcome :=
  r ← task_result frame run_id iteration reason;
  atomic (transition run_id target (result_ref_of r)
            ("investigation-terminal:" +:+ run_id +:+ ":" +:+ TaskRunStatus_value target +:+ ":" +:+ reason)
            (Some (result_ref_of r)) (Some reason) (lib_now lib iteration "finish"));;
  mret (mkInvestigationRoleOutcome target r).

(** [_park_watch_episode] *)
Definition park_watch_episode (run_id : string) (frame : InvestigationFrame) (reason : string) (iteration : Z)
  : prog Session InvestigationRoleOutcome :=
  r ← task_result frame run_id iteration reason;
  atomic (
    zoom (activate_case (is_case_id (fr_state frame)));;
    zoom (wait_case (is_case_id (fr_state frame)));;
    transition run_id COMPLETED (result_ref_of r)
      ("watch-parked:" +:+ run_id +:+ ":" +:+ str_of_Z (is_case_revision (fr_state frame)))
      (Some (result_ref_of r)) (Some reason) (lib_now lib iteration "park"));;
  mret (mkInvestigationRoleOutcome COMPLETED r).

Definition WORLD_UPDATE : string := "waiting_for_world_update".

(** [_wait] *)
Definition wait (run_id : string) (frame : InvestigationFrame) (reason : string) (iteration : Z)
  : prog Session InvestigationRoleOutcome :=
  if bool_decide (task_kind (fr_task_contract frame) = WATCH_INCIDENT) && bool_decide (reason = WORLD_UPDATE)
  then park_watch_episode run_id frame reason iteration
  else
    r ← task_result frame run_id iteration reason;
    atomic (transition run_id WAITING_DEPENDENCY ("investigation-wait:" +:+ reason)
              ("investigation-wait:" +:+ run_id +:+ ":" +:+ str_of_Z (is_case_revision (fr_state frame)) +:+ ":" +:+ reason)
              None (Some reason) (lib_now lib iteration "wait"));;
    mret (mkInvestigationRoleOutcome WAITING_DEPENDENCY r).

(** [_completion] *)
Definition completion (run_id : string) (frame : InvestigationFrame) : prog Session (option InvestigationRoleOutcome) :=
  desired ← lift (investigation_desired_state_of (fr_task_contract frame));
  needs ← required_needs desired;
  if forallb (λ n, bool_decide (need_status n = NEED_RESOLVED)) needs
  then o ← finish run_id frame COMPLETED "evidence_sufficient" (fr_iteration frame); mret (Some o)
  else if negb (existsb (λ n, bool_decide (need_status n = NEED_OPEN)) needs)
  then o ← finish run_id frame BLOCKED "required_evidence_need_unavailable" (fr_iteration frame); mret (Some o)
  else mret None.

(** [_execution_boundary] *)
Definition execution_boundary (run_id : string) (frame : InvestigationFrame) (iteration : Z)
  : prog Session (option InvestigationRoleOutcome) :=
  match blocking_reason self with
  | None => mret None
  | Some port =>
      reason ← port run_id;
      match reason with
      | Some reason => o ← finish run_id frame BLOCKED reason iteration; mret (Some o)
      | None => mret None
      end
  end.

(** *** Actions *)

(** [request.model_copy(update={"case_id": ..., "need_id": ...})] *)
Definition bind_request (frame : InvestigationFrame) (r : PerceptionRequest) : PerceptionRequest :=
  mkPerceptionRequest (pr_request_id r) (Some (is_case_id (fr_state frame))) (need_id <$> selected_need frame) (pr_operation r)
    (pr_target r) (pr_desired_observation r) (evidence_requirement r) (pr_time_scope r) (pr_current_context_refs r)
    (pr_budget_ref r).

(** The two checks of [_execute_perception]. *)
Definition perception_escapes (frame : InvestigationFrame) (r : PerceptionRequest) : result unit :=
  _ ← raise_when (bool_decide (pr_case_id r ∉ [None; Some (is_case_id (fr_state frame))]))
        (ValueError "PerceptionRequest case_id escapes Investigation Case");
  raise_when (match selected_need frame with
              | Some n => bool_decide (pr_need_id r ∉ [None; Some (need_id n)])
              | None => false
              end) (ValueError "PerceptionRequest need_id escapes selected EvidenceNeed").

(** [_execute_perception] *)
Definition execute_perception (run_id : string) (frame : InvestigationFrame) (action : PerceptionRequest) : prog Session Percept :=
  lift (perception_escapes frame action);;
  let request := bind_request frame action in
  let p := plan request in
  percept ← execute (lib_py_repr lib) (lib_ts_match lib) (lib_ts_rank_cd lib) (lib_cosine_distance lib) ss_retrieval
              (observation_port self) request p (Some run_id);
  _ ← atomic (
    s ← get_store;
    _ ← zoom (record (lib_case_event lib) (lib_isoformat lib) (lib_fromisoformat lib) run_id request p percept
                (lib_now lib (fr_iteration frame) "started") (lib_now lib (fr_iteration frame) "finished") "completed" None
                (lib_fresh lib ("perception:" +:+ run_id +:+ ":" +:+ pr_request_id request)) (ss_world_revision s)
                (lib_now lib (fr_iteration frame) "record"));
    append_run_event run_id EVIDENCE_FOUND ("percept:" +:+ percept_id percept)
      ("percept:" +:+ run_id +:+ ":" +:+ pr_request_id request) (lib_now lib (fr_iteration frame) "record"));
  mret percept.

(** The perception of the target of a delegation that completed. *)
Definition post_delegation_request (child target : string) : PerceptionRequest :=
  mkPerceptionRequest ("post-delegation:" +:+ child) None None INSPECT
    (mkPerceptionTarget None (Some target) 0 None None [] [] [mkEvidenceTarget "object" target] [] None)
    (Some "Read current canonical evidence after enrichment completed"%string) default_requirement [] [] None.

(** [_delegate] *)
Definition delegate (run_id : string) (frame : InvestigationFrame) (action : EnrichmentDelegationRequest) (iteration : Z)
  : prog Session (InvestigationRoleOutcome + Percept) :=
  let target := dr_target_object_id action in
  check (bool_decide (target ∉ is_targets (fr_state frame)))
    (ValueError "delegated enrichment target escapes Investigation Case");;
  match delegate_enrichment self with
  | None =>
      mret (inr (notice ("percept:delegation-unavailable:" +:+ delegation_id action) ("delegation:" +:+ delegation_id action)
                   [target] ["delegated_enrichment_unavailable"%string]))
  | Some port =>
      r ← port run_id action;
      _ ← atomic (append_run_event run_id PROGRESS ("child-task:" +:+ child_run_id r)
                    ("investigation-delegated:" +:+ run_id +:+ ":" +:+ delegation_id action) (lib_now lib iteration "delegated"));
      match child_status r with
      | Some COMPLETED =>
          percept ← execute_perception run_id frame (post_delegation_request (child_run_id r) target);
          mret (inr percept)
      | Some ((BLOCKED | FAILED | CANCELLED | TIMED_OUT) as st) =>
          mret (inr (notice ("percept:delegation:" +:+ child_run_id r +:+ ":" +:+ TaskRunStatus_value st)
                       ("delegation:" +:+ delegation_id action) [target]
                       (("delegated_enrichment_" +:+ TaskRunStatus_value st) ::
                        match child_stop_reason r with
                        | Some reason => if bool_decide (reason = ""%string) then [] else ["child_stop_reason:" +:+ reason]
                        | None => []
                        end)))
      | _ =>
          reason ← lift (task_dependency_reason (child_run_id r));
          o ← wait run_id frame reason iteration;
          mret (inl o)
      end
  end.

(** The two checks of [_apply_patch]. *)
Definition patch_escapes (frame : InvestigationFrame) (patch : StatePatch) : result unit :=
  _ ← raise_when (bool_decide (sp_case_id patch ≠ is_case_id (fr_state frame)))
        (ValueError "StatePatch case_id escapes Investigation Case");
  raise_when (negb (sp_base_case_revision patch =? is_case_revision (fr_state frame)))
    (ValueError "Planner emitted StatePatch against stale frame revision").

(** [_apply_patch] *)
Definition apply_state_patch (run_id : string) (frame : InvestigationFrame) (patch : StatePatch)
  : prog Session StatePatchApplyResult :=
  lift (patch_escapes frame patch);;
  atomic (
    s ← get_store;
    r ← zoom (apply_patch (lib_case_event lib) (ss_knowledge s) patch "state_patch_accepted" (lib_now lib (fr_iteration frame) "patch"));
    append_run_event run_id INVESTIGATION_STATE_CHANGED
      ("investigation-state:" +:+ is_case_id (fr_state frame) +:+ "@" +:+ str_of_Z (is_case_revision (pa_state r)))
      ("investigation-state:" +:+ run_id +:+ ":" +:+ sp_patch_id patch) (lib_now lib (fr_iteration frame) "patch");;
    mret r).

(** [_record_deferred_resolution] *)
Definition record_deferred_resolution (run_id patch_id : string) (reason : exn) (instant : Z) : prog Session unit := atomic (
  append_run_event run_id PROGRESS ("evidence-need-resolution-deferred:" +:+ type_name reason)
    ("investigation-partial:" +:+ run_id +:+ ":" +:+ patch_id) instant).

(** The patch without its resolutions. *)
Definition unresolving (o : StatePatchOperation) : StatePatchOperation :=
  mkStatePatchOperation (op_proposition o) (op_target_ref o) (op_proposed_state o) (op_disposition o) (op_evidence_refs o)
    (op_reasoning_relation o) None.
Definition deferred_patch (patch : StatePatch) : StatePatch :=
  mkStatePatch (sp_patch_id patch +:+ ":partial") (sp_case_id patch) (sp_base_case_revision patch)
    (unresolving <$> sp_operations patch) (sp_producer patch) (sp_model_prompt_revision patch).

(** [try: ... except cls as exc: ...]: the exceptions of the classes asked for are values. *)
Definition attempt {A} (caught : exn → bool) (m : prog Session A) : prog Session (A + exn) :=
  try_catch (a ← m; mret (inl a)) (λ e, if caught e then mret (inr e) else raise e).
Definition is_patch_rejection (e : exn) : bool :=
  match e with StatePatchRejected _ | EvidenceNeedResolutionRejected _ => true | _ => false end.
Definition is_resolution_rejection (e : exn) : bool :=
  match e with EvidenceNeedResolutionRejected _ => true | _ => false end.

(** *** The loop *)

(** A percept the planner has not seen the like of is progress. *)
Definition see_percept (p : Percept) (ls : LoopState) : LoopState :=
  if bool_decide (percept_signal p ∈ seen_percept_signals ls)
  then mkLoopState (Some p) (recent_percepts ls) (seen_percept_signals ls) (no_progress ls + 1)
  else mkLoopState (Some p) (last_four (recent_percepts ls ++ [p])) (seen_percept_signals ls ++ [percept_signal p]) 0.
Definition patch_rejected (p : Percept) (ls : LoopState) : LoopState :=
  mkLoopState (Some p) (recent_percepts ls) (seen_percept_signals ls) (no_progress ls + 1).
Definition patch_deferred (p : Percept) (changed : bool) (ls : LoopState) : LoopState :=
  if changed then mkLoopState (Some p) (recent_percepts ls) [] 0
  else mkLoopState (Some p) (recent_percepts ls) (seen_percept_signals ls) (no_progress ls + 1).
Definition patch_applied (changed : bool) (ls : LoopState) : LoopState :=
  if changed then mkLoopState None [] [] 0
  else mkLoopState None (recent_percepts ls) (seen_percept_signals ls) (no_progress ls + 1).

Definition changed_state (before after : InvestigationState) : bool :=
  negb (bool_decide (state_progress_signature after = state_progress_signature before)).

(** What the loop remembers after an iteration. *)
Definition advance (o : Observation) (ls : LoopState) : LoopState :=
  match o with
  | Saw p => see_percept p ls
  | PatchRejected p => patch_rejected p ls
  | PatchDeferred p before after => patch_deferred p (changed_state before after) ls
  | PatchApplied before after => patch_applied (changed_state before after) ls
  end.

(** The branch of a [StatePatchAction]. *)
Definition patch_step (run_id : string) (frame : InvestigationFrame) (patch : StatePatch) : prog Session Observation :=
  applied ← attempt is_patch_rejection (apply_state_patch run_id frame patch);
  match applied with
  | inl r => mret (PatchApplied (fr_state frame) (pa_state r))
  | inr e =>
      if is_resolution_rejection e then
        let deferred := deferred_patch patch in
        retried ← attempt is_patch_rejection (apply_state_patch run_id frame deferred);
        match retried with
        | inr retry_e => mret (PatchRejected (patch_rejection_percept (sp_patch_id patch) retry_e))
        | inl r =>
            record_deferred_resolution run_id (sp_patch_id deferred) e (lib_now lib (fr_iteration frame) "deferred");;
            mret (PatchDeferred
                    (notice ("percept:resolution-deferred:" +:+ sp_patch_id deferred) ("state-patch:" +:+ sp_patch_id deferred) []
                       ["resolution_deferred:" +:+ lib_exn_text lib e]) (fr_state frame) (pa_state r))
        end
      else mret (PatchRejected (patch_rejection_percept (sp_patch_id patch) e))
  end.

(** The reason of a [StopAction] that claims success, whose predicate was evaluated and did not hold. *)
Definition stop_reason_of (reason : string) : string :=
  if bool_decide (reason ∈ ["goal_satisfied"; "evidence_sufficient"]%string)
  then "completion_predicate_unsatisfied:" +:+ reason else reason.

(** Carrying out an action: the run ends or the loop goes on. *)
Definition act (run_id : string) (frame : InvestigationFrame) (action : InvestigationAction) (iteration : Z)
  : prog Session (InvestigationRoleOutcome + Observation) :=
  match action with
  | PerceptionAction request => p ← execute_perception run_id frame request; mret (inr (Saw p))
  | DelegationAction request =>
      delegated ← delegate run_id frame request iteration;
      match delegated with inl o => mret (inl o) | inr p => mret (inr (Saw p)) end
  | StatePatchAction patch => o ← patch_step run_id frame patch; mret (inr o)
  | WaitAction reason =>
      desired ← lift (investigation_desired_state_of (fr_task_contract frame));
      o ← (if it_allow_wait desired then wait run_id frame reason iteration
           else finish run_id frame BLOCKED "waiting_not_allowed" iteration);
      mret (inl o)
  | StopAction reason => o ← finish run_id frame BLOCKED (stop_reason_of reason) iteration; mret (inl o)
  end.

(** [await self._planner.next_action(frame)] *)
Definition ask_planner (frame : InvestigationFrame) : prog World InvestigationAction :=
  λ w, let '(r, s) := next_action self frame w.1 in (r, (s, w.2 ++ [Asked (fr_iteration frame)])).
Definition observe (o : Observation) : prog World unit := λ w, (Ok tt, (w.1, w.2 ++ [Observed o])).

(** One iteration of [_run_loop]. *)
Definition iterate (run_id : string) (iteration : Z) (ls : LoopState) : prog World (InvestigationRoleOutcome + LoopState) :=
  frame ← zoom (load_frame run_id iteration (last_percept ls) (recent_percepts ls));
  zoom (refresh_context_for_frame run_id frame);;
  complete ← zoom (completion run_id frame);
  match complete with
  | Some o => mret (inl o)
  | None =>
      boundary ← zoom (execution_boundary run_id frame iteration);
      match boundary with
      | Some o => mret (inl o)
      | None =>
          action ← ask_planner frame;
          step ← zoom (act run_id frame action iteration);
          match step with
          | inl o => mret (inl o)
          | inr observation =>
              observe observation;;
              let ls' := advance observation ls in
              if no_progress_limit self <=? no_progress ls' then
                refreshed ← zoom (load_frame run_id iteration (last_percept ls') (recent_percepts ls'));
                o ← zoom (finish run_id refreshed BLOCKED (no_progress_stop_reason (last_percept ls')) iteration);
                mret (inl o)
              else mret (inr ls')
          end
      end
  end.

(** The iterations of [_run_loop]: [n] are left, the next is [iteration], the last of them [last]. *)
Fixpoint run_iterations (run_id : string) (last : Z) (n : nat) (iteration : Z) (ls : LoopState)
  : prog World InvestigationRoleOutcome :=
  match n with
  | O =>
      frame ← zoom (load_frame run_id last (last_percept ls) (recent_percepts ls));
      zoom (finish run_id frame BLOCKED "budget_exhausted" last)
  | S n' =>
      step ← iterate run_id iteration ls;
      match step with
      | inl o => mret o
      | inr ls' => run_iterations run_id last n' (iteration + 1) ls'
      end
  end.

(** [_run_loop]: [range(first_iteration, last_iteration + 1)]. *)
Definition run_loop (run_id : string) : prog World InvestigationRoleOutcome :=
  window ← zoom (iteration_window run_id);
  run_iterations run_id window.2 (Z.to_nat (window.2 + 1 - window.1)) window.1 first_loop.

(** The stop reason of [_fail_unexpected]. *)
Definition failure_reason (e : exn) : string :=
  if bool_decide (type_name e = "ModelProviderResponseError"%string) && bool_decide (lib_response_status lib e = Some 402)
  then "model_provider_payment_required" else "unexpected_runtime_error:" +:+ type_name e.
Definition failure_key (run_id : string) (e : exn) : string := "investigation-failed:" +:+ run_id +:+ ":" +:+ type_name e.

(** [_fail_unexpected] *)
Definition fail_unexpected (run_id : string) (e : exn) : prog Session unit := atomic (
  run ← zoom (get_task_run run_id);
  if bool_decide (tr_status run ≠ RUNNING) then mret tt
  else transition run_id FAILED ("investigation-error:" +:+ type_name e) (failure_key run_id e) None (Some (failure_reason e))
         (lib_now lib 0 "failed");;
       mret tt).

(** [InvestigationRoleRuntime.run] *)
Definition run (run_id : string) : prog World InvestigationRoleOutcome :=
  zoom (ensure_running run_id);;
  try_catch (run_loop run_id) (λ e, zoom (fail_unexpected run_id e);; raise e).
End role.

(** ** planner.py: the answers of the model *)

(** [aliases.setdefault(k, v)] *)
Definition set_default {A} (k : string) (v : A) (d : list (string * A)) : list (string * A) :=
  match dict_get k d with Some _ => d | None => d ++ [(k, v)] end.

(** The text under a key, when there is one that is not empty. *)
Definition text_under (k : string) (fields : list (string * json)) : option string :=
  match dict_get k fields with Some (JStr s) => if bool_decide (s = ""%string) then None else Some s | _ => None end.

(** The body of [_collect_object_ref_aliases] for one object. *)
Definition object_aliases (fields : list (string * json)) (aliases : list (string * string)) : list (string * string) :=
  match text_under "object_id" fields with
  | None => aliases
  | Some object_id =>
      let stable_ref := "object:" +:+ object_id in
      let aliases := set_default stable_ref stable_ref (set_default object_id stable_ref aliases) in
      match text_under "canonical_key" fields with
      | Some key => set_default key stable_ref aliases
      | None => aliases
      end
  end.

(** [_collect_object_ref_aliases] *)
Fixpoint collect_object_ref_aliases (value : json) (aliases : list (string * string)) : list (string * string) :=
  match value with
  | JObj fields => fold_left (λ a kv, collect_object_ref_aliases kv.2 a) fields (object_aliases fields aliases)
  | JArr items => fold_left (λ a child, collect_object_ref_aliases child a) items aliases
  | _ => aliases
  end.

(** [_visible_object_ref_aliases]: the contents of the fragments. *)
Definition visible_object_ref_aliases (contents : list json) : list (string * string) :=
  foldl (λ a content, collect_object_ref_aliases content a) [] contents.

(** [_normalize_patch_target_ref] *)
Definition normalize_patch_target_ref (targets : list string) (aliases : list (string * string)) (target_ref : option string)
  : option string :=
  match target_ref with
  | None => None
  | Some ref =>
      if bool_decide (ref ∈ targets) then Some ("object:" +:+ ref)
      else Some (default ref (dict_get ref aliases))
  end.

(** [fullmatch(r"[a-z][a-z0-9_.:-]{0,89}", reason)] *)
Definition lower_letter (c : ascii) : bool := let n := nat_of_ascii c in ((97 <=? n) && (n <=? 122))%nat.
Definition code_char (c : ascii) : bool :=
  let n := nat_of_ascii c in lower_letter c || ((48 <=? n) && (n <=? 57))%nat || bool_decide (c ∈ ["_"; "."; ":"; "-"]%char).
Definition is_reason_code (s : string) : bool :=
  match chars s with
  | c :: l => lower_letter c && forallb code_char l && (length l <=? 89)%nat
  | [] => false
  end.
Definition reason_code (fallback reason : string) : string :=
  let stripped := py_strip reason in if is_reason_code stripped then stripped else fallback.

(** What [next_action] of [ModelInvestigationPlanner] has when the model answers: the decision, the digest of the prompt, the
    budget of the manifest, and the contents that were visible. *)
Record PlannerDecision := mkPlannerDecision {
  decision : InvestigationAction;
  assembly_hash : string;
  pd_budget_ref : string;
  visible_contents : list json
}.

Section planner.
Context (sha256_hex : string → string) (provider_ref : string).

(** [_normalize_action] *)
Definition normalize_action (frame : InvestigationFrame) (hash budget_ref : string) (aliases : list (string * string))
  (action : InvestigationAction) : InvestigationAction :=
  let case := is_case_id (fr_state frame) in
  let place := fr_task_run_id frame +:+ ":" +:+ str_of_Z (fr_iteration frame) +:+ ":" +:+ str_take 16 hash in
  match action with
  | PerceptionAction r =>
      PerceptionAction (mkPerceptionRequest ("perception:" +:+ place) (Some case) (need_id <$> selected_need frame)
        (pr_operation r) (pr_target r) (pr_desired_observation r) (evidence_requirement r) (pr_time_scope r)
        (pr_current_context_refs r) (Some budget_ref))
  | StatePatchAction patch =>
      StatePatchAction (mkStatePatch ("patch:" +:+ place) case (is_case_revision (fr_state frame))
        ((λ o, mkStatePatchOperation (op_proposition o)
                 (normalize_patch_target_ref (is_targets (fr_state frame)) aliases (op_target_ref o)) (op_proposed_state o)
                 (op_disposition o) (op_evidence_refs o) (op_reasoning_relation o) (op_resolves_need_id o))
           <$> sp_operations patch)
        ("InvestigationRole:model:" +:+ provider_ref) (Some hash))
  | DelegationAction r =>
      let identity := str_take 24 (sha256_hex (fr_task_run_id frame +:+ "|" +:+ dr_target_object_id r +:+ "|" +:+ dr_cve_id r +:+
        "|" +:+ String.concat "," (merge_sort String.le (EnrichmentDimension_value <$> dr_required_dimensions r)))) in
      DelegationAction (mkEnrichmentDelegationRequest ("delegation:" +:+ identity) (dr_target_object_id r) (dr_cve_id r)
        (dr_required_dimensions r) (dr_reason r))
  | StopAction reason => StopAction (reason_code "planner_stop_unstructured_reason" reason)
  | WaitAction reason => WaitAction (reason_code "waiting_for_evidence" reason)
  end.

(** [ModelInvestigationPlanner.next_action]: [decide] is what it does up to the answer of the model. *)
Definition model_next_action (decide : InvestigationFrame → prog Session PlannerDecision) (frame : InvestigationFrame)
  : prog Session InvestigationAction :=
  d ← decide frame;
  mret (normalize_action frame (assembly_hash d) (pd_budget_ref d) (visible_object_ref_aliases (visible_contents d)) (decision d)).
End planner.

(** ** What leaves the other cases alone *)

(** Every row is under its key. *)
Definition keyed (db : CaseDB) : Prop :=
  (∀ k c, cases db !! k = Some c → case_id c = k) ∧ (∀ k n, evidence_needs db !! k = Some n → need_id n = k).

(** [confined id db db']: only the case [id], its log and its needs differ. *)
Record confined (id : string) (db db' : CaseDB) : Prop := {
  cf_cases : ∀ k, k ≠ id → cases db' !! k = cases db !! k;
  cf_log : ∀ k, k ≠ id → log_of k db' = log_of k db;
  cf_needs : ∀ x n, need_case_id n ≠ id → evidence_needs db' !! x = Some n ↔ evidence_needs db !! x = Some n;
  cf_perceptions : ∃ new, perception_events db' = perception_events db ++ new ∧ Forall (λ m, pe_case_id m = id) new
}.
#[export] Instance confined_preorder id : PreOrder (confined id).
Proof.
  split.
  - intros db. split; [done..|]. exists []. by rewrite app_nil_r.
  - intros a b c [A1 A2 A3 (x&A4&A5)] [B1 B2 B3 (y&B4&B5)]. split.
    + intros k Hk. by rewrite B1, A1.
    + intros k Hk. by rewrite B2, A2.
    + intros z n Hn. by rewrite B3, A3.
    + exists (x ++ y). rewrite B4, A4, (assoc_L (++)). split; [done|]. by apply Forall_app.
Qed.
Lemma confined_same id db db' :
  (∀ k, k ≠ id → cases db' !! k = cases db !! k) → (∀ k, k ≠ id → log_of k db' = log_of k db) →
  (∀ x n, need_case_id n ≠ id → evidence_needs db' !! x = Some n ↔ evidence_needs db !! x = Some n) →
  perception_events db' = perception_events db → confined id db db'.
Proof. intros H1 H2 H3 H4. split; [done..|]. exists []. by rewrite app_nil_r. Qed.

Lemma keyed_wf db : case_wf db → keyed db.
Proof.
  intros [Hwf _ _]. split; [intros k c Hc; by apply (lw_case _ Hwf)|intros k n Hn; by apply (lw_need _ Hwf)].
Qed.

(** Nothing but stored projections differs. *)
Definition same_records (db db' : CaseDB) : Prop := same_history db db' ∧ perception_events db' = perception_events db.
Lemma same_records_confined id db db' : same_records db db' → keyed db → keyed db' ∧ confined id db db'.
Proof.
  intros [Hs Hp] Hk. pose proof Hs as [H1 H2 H3]. unfold keyed. rewrite H1, H3. split; [done|]. apply confined_same; [..|done].
  - intros k _. by rewrite H1.
  - intros k _. by apply same_history_log.
  - intros x n _. by rewrite H3.
Qed.
Lemma rebuild_current_same id force now db r db' : rebuild_current id force now db = (r, db') → same_records db db'.
Proof.
  unfold rebuild_current, mbind, prog_bind, require, get_store, modify, mret, prog_ret. cbv beta iota zeta.
  destruct (cases db !! id); [|by intros [= _ <-]].
  destruct (state_current db !! id); [destruct (_ && _)|]; intros [= _ <-]; done.
Qed.
Lemma get_state_same id now db r db' : get_state id now db = (r, db') → same_records db db'.
Proof.
  unfold get_state, mbind, prog_bind, require, get_store, lift, mret, prog_ret. destruct (cases db !! id); [|by intros [= _ <-]].
  destruct (state_current db !! id); [by intros [= _ <-]|].
  destruct (rebuild_current _ _ _ _) as [[c|e] db1] eqn:E; intros [= _ <-]; by eapply rebuild_current_same.
Qed.
Lemma rebuilt_state_same id now db r db' : rebuilt_state id now db = (r, db') → same_records db db'.
Proof.
  unfold rebuilt_state, mbind, prog_bind, lift. destruct (rebuild_current _ _ _ _) as [[c|e] db1] eqn:E; intros [= _ <-];
    by eapply rebuild_current_same.
Qed.

Section confinement.
Context (fresh : string → Z → string) (isoformat : Z → string) (fromisoformat : string → result Z).

Lemma append_event_confined id t patch idx prop target refs writer reason payload now db ev db' :
  keyed db → append_event fresh id t patch idx prop target refs writer reason payload now db = (Ok ev, db') →
  keyed db' ∧ confined id db db'.
Proof.
  intros [Hk1 Hk2] (c&Hc&_&_&->)%append_event_Ok. pose proof (Hk1 _ _ Hc) as Hid. split; [split; [|done]|apply confined_same].
  - intros k c'. cbn. rewrite Hid. destruct (decide (k = id)) as [->|]; [rewrite lookup_insert_eq; by intros [= <-]|].
    rewrite lookup_insert_ne by done. apply Hk1.
  - intros k Hne. cbn. by rewrite Hid, lookup_insert_ne.
  - intros k Hne. change (log_of k (with_event ?e c db)) with (log_of k (add_case_event e db)).
    rewrite log_of_add, bool_decide_eq_false_2 by (by intros ?). apply app_nil_r.
  - done.
  - done.
Qed.

Lemma put_need_confined id n n0 db :
  keyed db → evidence_needs db !! need_id n = Some n0 → need_case_id n0 = id → need_case_id n = id →
  keyed (put_need n db) ∧ confined id db (put_need n db).
Proof.
  intros [Hk1 Hk2] Hn0 H0 H1. split; [split; [done|]|apply confined_same; [done|done| |done]].
  - intros k m. cbn. destruct (decide (k = need_id n)) as [->|]; [rewrite lookup_insert_eq; by intros [= <-]|].
    rewrite lookup_insert_ne by done. apply Hk2.
  - intros x m Hm. cbn. destruct (decide (x = need_id n)) as [->|]; [|by rewrite lookup_insert_ne].
    rewrite lookup_insert_eq, Hn0. split; intros [= <-]; congruence.
Qed.

Lemma apply_operation_confined patch reason now io db evs db' :
  keyed db →
  (∀ x n, op_resolves_need_id io.2 = Some x → evidence_needs db !! x = Some n → need_case_id n = sp_case_id patch) →
  apply_operation fresh patch reason now io db = (Ok evs, db') → keyed db' ∧ confined (sp_case_id patch) db db'.
Proof.
  intros Hk Hown H. unfold apply_operation in H. apply bind_Ok in H as (ev&s1&H0&H).
  pose proof H0 as (c&Hc&_&_&Es)%append_event_Ok. apply append_event_confined in H0 as [Hk1 Hc1]; [|done].
  apply bind_Ok in H as (rs&s2&H0&H). apply ret_Ok in H as [_ ->]. unfold resolve_need_from_operation in H0.
  destruct (op_resolves_need_id io.2) as [x|] eqn:Ex; [|by apply ret_Ok in H0 as [_ ->]].
  apply bind_Ok in H0 as (s0&s3&H1&H0). apply get_store_Ok in H1 as [-> ->].
  apply bind_Ok in H0 as (n&s3&H1&H0). apply require_Ok in H1 as [Hn ->].
  apply bind_Ok in H0 as (ev2&s3&H1&H0). pose proof H1 as (c2&Hc2&_&_&Es2)%append_event_Ok.
  apply append_event_confined in H1 as [Hk2 Hc2']; [|done].
  apply bind_Ok in H0 as (u&s4&H1&H0). apply modify_Ok in H1 as ->. apply ret_Ok in H0 as [_ ->].
  assert (need_case_id n = sp_case_id patch) as Hcase by (apply (Hown x n eq_refl); by rewrite Es in Hn).
  assert (need_id n = x) as Hx by (by apply (proj2 Hk1)).
  destruct (put_need_confined (sp_case_id patch) (set_resolved (op_evidence_refs io.2) (ce_case_revision ev2) now n) n s3)
    as [Hk3 Hc3]; [done| |done|done|].
  - cbn. rewrite Hx, Es2. done.
  - split; [done|]. by do 2 (etrans; [done|]).
Qed.

Lemma apply_patch_confined kb patch reason now db r db' :
  keyed db → apply_patch fresh kb patch reason now db = (Ok r, db') → keyed db' ∧ confined (sp_case_id patch) db db'.
Proof.
  intros Hk H. unfold apply_patch in H. apply bind_Ok in H as (c&s1&H0&H). apply lock_case_Ok in H0 as (->&Hc&Hopen).
  apply bind_Ok in H as (s0&s1&H0&H). apply get_store_Ok in H0 as [-> ->].
  destruct (patch_events _ _ _) as [|e l].
  - apply bind_Ok in H as (u&s1&H0&H). apply check_Ok in H0 as [_ ->].
    apply bind_Ok in H as (u1&s1&H0&H). apply validate_patch_Ok in H0 as [-> Hok].
    apply bind_Ok in H as (evs&s1&H0&H). apply bind_Ok in H as (st&s2&H1&H). apply ret_Ok in H as [_ ->].
    set (owned := λ d, keyed d ∧ ∀ io x n, io ∈ enumerate (sp_operations patch) → op_resolves_need_id io.2 = Some x →
                       evidence_needs d !! x = Some n → need_case_id n = sp_case_id patch).
    assert (owned s1 ∧ confined (sp_case_id patch) db s1) as [[Hk1 _] Hc1].
    { eapply (for_each_steps owned (confined (sp_case_id patch)) _ _ db evs s1); [|split; [done|]|exact H0].
      - intros io d a d' Hio [Hkd Hod] Ha. apply apply_operation_confined in Ha as [Hk' Hc']; [|done|by eauto].
        split; [split; [done|]|done]. intros io2 x n Hio2 Hx Hn. destruct (decide (need_case_id n = sp_case_id patch)) as [|Hne]; [done|].
        apply (cf_needs _ _ _ Hc' x n Hne) in Hn. by eapply Hod.
      - intros io x n Hio%elem_of_enumerate Hx Hn. destruct (Hok _ Hio) as [_ _ _ _ Hneed].
        destruct (Hneed x Hx) as (n0&Hn0&Hcase&_). rewrite Hn in Hn0. by injection Hn0 as ->. }
    apply rebuilt_state_same in H1. destruct (same_records_confined (sp_case_id patch) _ _ H1 Hk1) as [Hk2 Hc2].
    split; [done|by etrans].
  - apply bind_Ok in H as (st&s1&H0&H). apply ret_Ok in H as [_ ->]. apply get_state_same in H0. by apply same_records_confined.
Qed.

(** Neither a patch nor a mark records a perception. *)
#[local] Instance same_perceptions_preorder : PreOrder (λ db db', perception_events db' = perception_events db).
Proof. split; [by intros db|]. intros a b c H1 H2. congruence. Qed.
Lemma append_event_perceptions id t patch idx prop target refs writer reason payload now db ev db' :
  append_event fresh id t patch idx prop target refs writer reason payload now db = (Ok ev, db') →
  perception_events db' = perception_events db.
Proof. by intros (c&_&_&_&->)%append_event_Ok. Qed.
Lemma apply_operation_perceptions patch reason now io db evs db' :
  apply_operation fresh patch reason now io db = (Ok evs, db') → perception_events db' = perception_events db.
Proof.
  intros H. unfold apply_operation in H. apply bind_Ok in H as (ev&s1&H0&H). apply append_event_perceptions in H0.
  apply bind_Ok in H as (rs&s2&H1&H). apply ret_Ok in H as [_ ->]. unfold resolve_need_from_operation in H1.
  destruct (op_resolves_need_id io.2) as [x|]; [|apply ret_Ok in H1 as [_ ->]; done].
  apply bind_Ok in H1 as (s0&s3&H2&H1). apply get_store_Ok in H2 as [-> ->].
  apply bind_Ok in H1 as (n&s3&H2&H1). apply require_Ok in H2 as [_ ->].
  apply bind_Ok in H1 as (ev2&s3&H2&H1). apply append_event_perceptions in H2.
  apply bind_Ok in H1 as (u&s4&H3&H1). apply modify_Ok in H3 as ->. apply ret_Ok in H1 as [_ ->]. cbn. congruence.
Qed.
Lemma apply_patch_perceptions kb patch reason now db r db' :
  apply_patch fresh kb patch reason now db = (Ok r, db') → perception_events db' = perception_events db.
Proof.
  intros H. unfold apply_patch in H. apply bind_Ok in H as (c&s1&H0&H). apply lock_case_Ok in H0 as (->&_&_).
  apply bind_Ok in H as (s0&s1&H0&H). apply get_store_Ok in H0 as [-> ->]. destruct (patch_events _ _ _) as [|e l].
  - apply bind_Ok in H as (u&s1&H0&H). apply check_Ok in H0 as [_ ->].
    apply bind_Ok in H as (u1&s1&H0&H). apply validate_patch_Ok in H0 as [-> _].
    apply bind_Ok in H as (evs&s1&H0&H). apply bind_Ok in H as (st&s2&H1&H). apply ret_Ok in H as [_ ->].
    apply rebuilt_state_same in H1 as [_ ->].
    eapply (for_each_steps (λ _, True) (λ db db', perception_events db' = perception_events db)) in H0 as [_ H0]; [done| |done].
    intros io s a s' _ _ Ha. split; [done|]. by eapply apply_operation_perceptions.
  - apply bind_Ok in H as (st&s1&H0&H). apply ret_Ok in H as [_ ->]. by apply get_state_same in H0 as [_ ->].
Qed.
Lemma mark_perception_perceptions id pid world at_ now db st db' :
  mark_perception fresh isoformat fromisoformat id pid world at_ now db = (Ok st, db') →
  perception_events db' = perception_events db.
Proof.
  intros H. unfold mark_perception in H. apply bind_Ok in H as (c&s1&H0&H). apply lock_case_Ok in H0 as (->&_&_).
  apply bind_Ok in H as (s0&s1&H0&H). apply get_store_Ok in H0 as [-> ->]. cbv zeta in H.
  apply bind_Ok in H as (u&s1&H0&H). apply rebuilt_state_same in H as [_ ->].
  destruct (find_case_event _ _ _ _) as [e|].
  - apply bind_Ok in H0 as (t&s2&H1&H0). apply lift_Ok in H1 as [_ ->]. by apply check_Ok in H0 as [_ ->].
  - apply bind_Ok in H0 as (ev&s2&H1&H0). apply ret_Ok in H0 as [_ ->]. by eapply append_event_perceptions.
Qed.

Lemma mark_perception_confined id pid world at_ now db st db' :
  keyed db → mark_perception fresh isoformat fromisoformat id pid world at_ now db = (Ok st, db') →
  keyed db' ∧ confined id db db'.
Proof.
  intros Hk H. unfold mark_perception in H. apply bind_Ok in H as (c&s1&H0&H). apply lock_case_Ok in H0 as (->&_&_).
  apply bind_Ok in H as (s0&s1&H0&H). apply get_store_Ok in H0 as [-> ->]. cbv zeta in H.
  apply bind_Ok in H as (u&s1&H0&H).
  assert (keyed s1 ∧ confined id db s1) as [Hk1 Hc1].
  { destruct (find_case_event _ _ _ _) as [e|].
    - apply bind_Ok in H0 as (t&s2&H1&H0). apply lift_Ok in H1 as [_ ->]. by apply check_Ok in H0 as [_ ->].
    - apply bind_Ok in H0 as (ev&s2&H1&H0). apply ret_Ok in H0 as [_ ->]. by eapply append_event_confined. }
  apply rebuilt_state_same in H. destruct (same_records_confined id _ _ H Hk1) as [Hk2 Hc2]. split; [done|by etrans].
Qed.
End confinement.

Lemma transition_case_confined id allowed target db c db' :
  keyed db → transition_case id allowed target db = (Ok c, db') → keyed db' ∧ confined id db db'.
Proof.
  intros Hk H. unfold transition_case in H. apply bind_Ok in H as (s0&s1&H0&H). apply get_store_Ok in H0 as [-> ->].
  apply bind_Ok in H as (m&s1&H0&H). apply require_Ok in H0 as [Hm ->]. apply bind_Ok in H as (l&s1&H0&H).
  apply lift_Ok in H0 as [_ ->]. case_bool_decide as Hcur; [by apply lift_Ok in H as [_ ->]|].
  apply bind_Ok in H as (u&s1&H0&H). apply check_Ok in H0 as [_ ->]. apply bind_Ok in H as (u1&s1&H0&H).
  apply modify_Ok in H0 as ->. apply lift_Ok in H as [_ ->].
  pose proof (proj1 Hk _ _ Hm) as Hid. split; [split; [|apply Hk]|apply confined_same; [|done..]].
  - intros k c'. cbn. rewrite Hid. destruct (decide (k = id)) as [->|]; [rewrite lookup_insert_eq; by intros [= <-]|].
    rewrite lookup_insert_ne by done. apply Hk.
  - intros k Hne. cbn. by rewrite Hid, lookup_insert_ne.
Qed.

(** ** Steps of the role *)

(** The stores are sound, and a recorded perception belongs to the case of its run. *)
Record session_wf (contract_digest : TaskContract → string) (manifest_digest : ContextManifest → string) (s : Session) : Prop := {
  sw_tasks : task_wf contract_digest manifest_digest (ss_tasks s);
  sw_cases : case_wf (ss_cases s);
  sw_perceptions : ∀ m, m ∈ perception_events (ss_cases s) →
    ∃ row, task_runs (ss_tasks s) !! pe_task_run_id m = Some row ∧ run_case_id row = Some (pe_case_id m)
}.

(** What a step may change: histories only grow, and the cases change along [K]. *)
Record session_extends (K : CaseDB → CaseDB → Prop) (s s' : Session) : Prop := {
  se_tasks : db_extends (ss_tasks s) (ss_tasks s');
  se_cases : case_step (ss_cases s) (ss_cases s');
  se_other : K (ss_cases s) (ss_cases s')
}.
#[export] Instance session_extends_preorder K `{!PreOrder K} : PreOrder (session_extends K).
Proof.
  split; [by intros s; split|]. intros a b c [A1 A2 A3] [B1 B2 B3]. split; by etrans.
Qed.

(** Whatever it answers, the program leaves the stores sound. *)
Definition keeps contract_digest manifest_digest (K : CaseDB → CaseDB → Prop) {A} (m : prog Session A) : Prop :=
  ∀ s r s', session_wf contract_digest manifest_digest s → m s = (r, s') →
    session_wf contract_digest manifest_digest s' ∧ session_extends K s s'.

(** What the role asks of its collaborators: whatever they, and the transactions that run meanwhile, do to the tables, goes
    through the task store and the state gate and changes the cases along [K] only; and a patch of the planner is one that
    its class accepts. *)
Class Collaborators contract_digest manifest_digest (K : CaseDB → CaseDB → Prop) (self : InvestigationRoleRuntime) : Prop := {
  planner_keeps : ∀ frame, keeps contract_digest manifest_digest K (next_action self frame);
  planner_patches : ∀ frame s patch s', next_action self frame s = (Ok (StatePatchAction patch), s') →
    ∀ o, o ∈ sp_operations patch → validate_operation o = Ok o;
  observation_keeps : ∀ port, observation_port self = Some port →
    ∀ id r step, keeps contract_digest manifest_digest K (port id r step);
  delegation_keeps : ∀ port, delegate_enrichment self = Some port →
    ∀ id r, keeps contract_digest manifest_digest K (port id r);
  boundary_keeps : ∀ port, blocking_reason self = Some port → ∀ id, keeps contract_digest manifest_digest K (port id)
}.

Section steps.
Context (contract_digest : TaskContract → string) (lib : Library) (self : InvestigationRoleRuntime).
Context (run_id : string) (contract : TaskContract) (d : InvestigationTaskDesiredState).
Context (K : CaseDB → CaseDB → Prop) `{!PreOrder K}.
Context (Hd : investigation_desired_state_of contract = Ok d) (HK : ∀ db db', confined (it_case_id d) db db' → K db db').

Abbreviation wf := (session_wf contract_digest (lib_manifest_digest lib)).
Abbreviation X := (session_extends K).

(** The run is bound to its contract and its case. *)
Record bound (s : Session) : Prop := {
  bo_wf : wf s;
  bo_case : ∃ row, task_runs (ss_tasks s) !! run_id = Some row ∧ run_case_id row = Some (it_case_id d);
  bo_contract : contract_of (ss_tasks s) run_id = Some contract
}.

Lemma bound_extends s s' : bound s → wf s' → X s s' → bound s'.
Proof.
  intros [_ (row&Hrow&Hcase) Hc] Hwf [Ht _ _]. split; [done| |by eapply contract_of_extends].
  destruct (de_runs _ _ Ht _ _ Hrow) as (row'&Hrow'&Hid). exists row'. split; [done|]. pose proof (re_identity _ _ Hid). congruence.
Qed.

(** Programs that return, and programs whatever they do. *)
Definition returns {A} (P : Session → Prop) (m : prog Session A) (Q : A → Session → Prop) : Prop :=
  ∀ s a s', bound s → P s → m s = (Ok a, s') → bound s' ∧ X s s' ∧ Q a s'.
Definition safe {A} (P : Session → Prop) (m : prog Session A) (Q : A → Session → Prop) : Prop :=
  returns P m Q ∧ ∀ s e s', bound s → P s → m s = (Err e, s') → bound s' ∧ X s s'.

Lemma returns_ret {A} (P : Session → Prop) (a : A) (Q : A → Session → Prop) : (∀ s, P s → Q a s) → returns P (mret a) Q.
Proof. intros H s b s' Hb HP [-> ->]%ret_Ok. split; [done|]. split; [done|]. by apply H. Qed.
Lemma returns_bind {A B} P (m : prog Session A) (k : A → prog Session B) R Q :
  returns P m R → (∀ a, returns (R a) (k a) Q) → returns P (m ≫= k) Q.
Proof.
  intros Hm Hk s b s' Hb HP (a&s1&H1&H2)%bind_Ok. destruct (Hm _ _ _ Hb HP H1) as (Hb1&X1&HR).
  destruct (Hk a _ _ _ Hb1 HR H2) as (Hb2&X2&HQ). split; [done|]. split; [by etrans|done].
Qed.
Lemma returns_weaken {A} (P P' : Session → Prop) (m : prog Session A) (Q Q' : A → Session → Prop) :
  returns P' m Q' → (∀ s, P s → P' s) → (∀ a s, Q' a s → Q a s) → returns P m Q.
Proof. intros H HP HQ s a s' Hb Hs Hm. destruct (H _ _ _ Hb (HP _ Hs) Hm) as (?&?&?). auto. Qed.

Lemma safe_reads {A} (P : Session → Prop) (m : prog Session A) : reads m → safe P m (λ a s, P s ∧ m s = (Ok a, s)).
Proof.
  intros Hr. split.
  - intros s a s' Hb HP Hm. pose proof (Hr s) as Hs. rewrite Hm in Hs. cbn in Hs. subst s'. done.
  - intros s e s' Hb HP Hm. pose proof (Hr s) as Hs. rewrite Hm in Hs. cbn in Hs. by subst s'.
Qed.

Lemma safe_bind {A B} P (m : prog Session A) (k : A → prog Session B) R Q :
  safe P m R → (∀ a, safe (R a) (k a) Q) → safe P (m ≫= k) Q.
Proof.
  intros [Hm He] Hk. split; [eapply returns_bind; [done|apply Hk]|].
  intros s e s' Hb HP H. unfold mbind, prog_bind in H. destruct (m s) as [[a|e'] s1] eqn:E.
  - destruct (Hm _ _ _ Hb HP E) as (Hb1&X1&HR). destruct (proj2 (Hk a) _ _ _ Hb1 HR H) as [Hb2 X2]. split; [done|by etrans].
  - injection H as _ <-. by eapply He.
Qed.
Lemma safe_then {A B} P (m : prog Session A) (k : A → prog Session B) Q :
  safe P m (λ _ _, True) → (∀ a, safe (λ _, True) (k a) Q) → safe P (m ≫= k) Q.
Proof. intros Hm Hk. eapply safe_bind; [exact Hm|exact Hk]. Qed.
Lemma safe_ret {A} (P : Session → Prop) (a : A) (Q : A → Session → Prop) : (∀ s, P s → Q a s) → safe P (mret a) Q.
Proof. intros H. split; [by apply returns_ret|]. done. Qed.
Lemma safe_weaken {A} (P P' : Session → Prop) (m : prog Session A) (Q Q' : A → Session → Prop) :
  safe P' m Q' → (∀ s, P s → P' s) → (∀ a s, Q' a s → Q a s) → safe P m Q.
Proof. intros [H1 H2] HP HQ. split; [by eapply returns_weaken|]. intros s e s' Hb Hs. apply H2; auto. Qed.
Lemma safe_atomic {A} (P : Session → Prop) (m : prog Session A) (Q : A → Session → Prop) : returns P m Q → safe P (atomic m) Q.
Proof.
  intros H. split.
  - intros s a s' Hb HP Hm. unfold atomic in Hm. destruct (m s) as [[a'|e] s1] eqn:E; [|done]. injection Hm as -> ->. by eapply H.
  - intros s e s' Hb HP Hm. unfold atomic in Hm. destruct (m s) as [[a'|e'] s1] eqn:E; [done|]. by injection Hm as _ <-.
Qed.
Lemma safe_keeps {A} (P : Session → Prop) (m : prog Session A) : keeps contract_digest (lib_manifest_digest lib) K m → safe P m (λ _ _, True).
Proof.
  intros H. split; intros s r s' Hb _ Hm; destruct (H _ _ _ (bo_wf _ Hb) Hm) as [Hwf HX]; split_and?; try done;
    by eapply bound_extends.
Qed.
Lemma safe_lift {A} (P : Session → Prop) (r : result A) : safe P (lift r) (λ a s, P s ∧ r = Ok a).
Proof. split; [|by intros s e s' Hb HP [= _ <-]]. by intros s a s' Hb HP [-> ->]%lift_Ok. Qed.
Lemma safe_lift_Ok {A B} (P : Session → Prop) (a : A) (k : A → prog Session B) Q : safe P (k a) Q → safe P (lift (Ok a) ≫= k) Q.
Proof. done. Qed.
Lemma safe_check (P : Session → Prop) c e : safe P (check c e) (λ _ s, P s ∧ c = false).
Proof. split; [|by intros s e' s' Hb HP; unfold check; destruct c; intros [= _ <-]]. by intros s a s' Hb HP [-> ->]%check_Ok. Qed.

(** A change of the tasks, and one of the cases. *)
Lemma tasks_step s t : bound s → good_step contract_digest (lib_manifest_digest lib) (ss_tasks s) t →
  bound (set_audit (t, ss_cases s) s) ∧ X s (set_audit (t, ss_cases s) s).
Proof.
  intros Hb [Hwf Hext]. pose proof (bo_wf _ Hb) as [_ Hc Hp].
  assert (X s (set_audit (t, ss_cases s) s)) as HX by by split.
  split; [|done]. eapply bound_extends; [done| |done]. split; [done|done|]. intros m Hm.
  destruct (Hp m Hm) as (row&Hrow&Hcase). destruct (de_runs _ _ Hext _ _ Hrow) as (row'&Hrow'&Hid). exists row'.
  split; [done|]. pose proof (re_identity _ _ Hid). congruence.
Qed.

Lemma cases_step s c : bound s → case_good (ss_cases s) c → confined (it_case_id d) (ss_cases s) c →
  (∀ m, m ∈ perception_events c → m ∈ perception_events (ss_cases s) ∨ pe_task_run_id m = run_id ∧ pe_case_id m = it_case_id d) →
  bound (set_audit (ss_tasks s, c) s) ∧ X s (set_audit (ss_tasks s, c) s).
Proof.
  intros Hb [Hwf Hstep] Hconf Hnew. pose proof (bo_wf _ Hb) as [Ht _ Hp].
  assert (X s (set_audit (ss_tasks s, c) s)) as HX by (split; [done|done|by apply HK]).
  split; [|done]. eapply bound_extends; [done| |done]. split; [done|done|]. intros m Hm.
  destruct (Hnew m Hm) as [Hold|[-> Hcase]]; [by apply Hp|]. destruct (bo_case _ Hb) as (row&Hrow&Hrc). exists row.
  split; [done|]. by rewrite Hrc, Hcase.
Qed.

Abbreviation transition' := (transition lib self run_id).

Lemma transition_returns (N : CaseDB → Prop) target payload key result stop t :
  returns (λ s, N (ss_cases s)) (transition' target payload key result stop t)
    (λ _ s, N (ss_cases s) ∧ ∃ r, task_runs (ss_tasks s) !! run_id = Some (set_transition target result stop t r)).
Proof.
  intros s a s' Hb HN (db&H&->)%zoom_Ok. eapply transition_good in H as (Hg&_&r&_&Hruns); [|by apply Hb].
  destruct (tasks_step s db Hb Hg) as [Hb' HX]. split; [done|]. split; [done|]. split; [done|]. exists r.
  cbn. by rewrite Hruns, lookup_insert_eq.
Qed.

Lemma append_run_event_returns (N : CaseDB → Prop) ty payload key t :
  returns (λ s, N (ss_cases s)) (append_run_event lib self run_id ty payload key t) (λ _ s, N (ss_cases s)).
Proof.
  intros s u s' Hb HN H. unfold append_run_event in H. apply bind_Ok in H as (run&s1&H0&H).
  apply zoom_Ok in H0 as (db&(->&_)%get_task_run_Ok&->).
  apply bind_Ok in H as (a&s1&H0&H). apply ret_Ok in H as [_ ->]. apply zoom_Ok in H0 as (db&H0&->).
  replace (set_view (view s) s) with s in * by (symmetry; apply set_view_view).
  apply (tasks_step s db) in Hb as [Hb' HX]; [done|].
  split; [by eapply append_wf; [apply Hb|exact H0]|by apply append_extends in H0 as [? _]].
Qed.

(** The frame of the run. *)
Record frame_ok (frame : InvestigationFrame) : Prop := {
  fo_run : fr_task_run_id frame = run_id;
  fo_contract : fr_task_contract frame = contract;
  fo_case : is_case_id (fr_state frame) = it_case_id d
}.

Lemma reads_needs desired : reads (required_needs desired).
Proof. unfold required_needs, get_evidence_need. eauto 8 with reading. Qed.
Lemma required_needs_Ok desired s needs s' : required_needs desired s = (Ok needs, s') →
  Forall2 (λ id n, evidence_needs (ss_cases s) !! id = Some n) (it_required_need_ids desired) needs.
Proof.
  unfold required_needs. generalize (it_required_need_ids desired) as ids. revert needs s'.
  intros needs s' ids. revert needs. induction ids as [|id ids IH]; intros needs H; cbn [for_each] in H.
  { apply ret_Ok in H as [-> _]. constructor. }
  apply bind_Ok in H as (n&s1&H0&H). apply bind_Ok in H as (ns&s2&H1&H). apply ret_Ok in H as [-> ->].
  apply zoom_Ok in H0 as (db&H0&->). unfold get_evidence_need in H0.
  apply bind_Ok in H0 as (s0&s3&H2&H0). apply get_store_Ok in H2 as [-> ->].
  apply bind_Ok in H0 as (m&s3&H2&H0). apply require_Ok in H2 as [Hm ->]. apply lift_Ok in H0 as [Hv ->].
  unfold need_view in Hv. destruct (_ || _) in Hv; [done|]. injection Hv as ->.
  replace (set_view (view s) s) with s in * by (symmetry; apply set_view_view). constructor; [done|by apply IH].
Qed.

(** The result says what the stored needs say. *)
Record told (r : InvestigationTaskResult) (db : CaseDB) : Prop := {
  to_run : ir_task_run_id r = run_id ∧ ir_case_id r = it_case_id d;
  to_needs : ∃ needs, Forall2 (λ id n, evidence_needs db !! id = Some n) (it_required_need_ids d) needs ∧
    resolved_need_ids r = ids_with NEED_RESOLVED needs ∧ blocked_need_ids r = ids_with NEED_BLOCKED needs ∧
    ir_open_need_ids r = ids_with NEED_OPEN needs
}.

Lemma task_result_safe (N : CaseDB → Prop) frame iteration reason : frame_ok frame →
  safe (λ s, N (ss_cases s)) (task_result frame run_id iteration reason)
    (λ r s, N (ss_cases s) ∧ told r (ss_cases s) ∧ ir_stop_reason r = reason ∧ ir_iterations r = iteration).
Proof.
  intros [Hr Hc Hs]. eapply safe_weaken; [apply (safe_reads (λ s, N (ss_cases s)))|done|].
  - unfold task_result. pose proof reads_needs. eauto with reading.
  - intros r s [HN H]. split; [done|]. unfold task_result in H. apply bind_Ok in H as (d'&s1&H0&H).
    apply lift_Ok in H0 as [Hd' ->]. rewrite Hc in Hd'. assert (d' = d) as -> by congruence.
    apply bind_Ok in H as (needs&s1&H0&H). apply ret_Ok in H as [-> _]. apply required_needs_Ok in H0.
    split; [|done]. split; [done|]. by exists needs.
Qed.

(** A run that ended, or was parked. *)
Record ended (o : InvestigationRoleOutcome) (s : Session) : Prop := {
  en_row : ∃ row, task_runs (ss_tasks s) !! run_id = Some row ∧ status row = run_status o ∧
    stop_reason row = Some (ir_stop_reason (ro_result o)) ∧
    result_ref row = (if bool_decide (run_status o = WAITING_DEPENDENCY) then None else Some (result_ref_of lib (ro_result o)));
  en_told : told (ro_result o) (ss_cases s)
}.

(** The result is read, the run makes its last transition, and the run is over. *)
Lemma conclude_safe (N : CaseDB → Prop) frame iteration reason target payload key res t : frame_ok frame →
  (∀ r, res r = if bool_decide (target = WAITING_DEPENDENCY) then None else Some (result_ref_of lib r)) →
  safe (λ s, N (ss_cases s))
    (r ← task_result frame run_id iteration reason;
     atomic (transition' target (payload r) (key r) (res r) (Some reason) t);;
     mret (mkInvestigationRoleOutcome target r))
    (λ o s, N (ss_cases s) ∧ ended o s ∧ run_status o = target ∧ ir_stop_reason (ro_result o) = reason).
Proof.
  intros Hf Hres. eapply safe_bind; [by apply task_result_safe|]. intros r. eapply safe_bind.
  - apply safe_atomic. eapply returns_weaken;
      [apply (transition_returns (λ db, N db ∧ told r db ∧ ir_stop_reason r = reason ∧ ir_iterations r = iteration))|done|].
    intros v s H. exact H.
  - intros v. apply safe_ret. intros s ((HN&Htold&Hr&Hi)&row&Hrow). split; [done|]. split; [|done].
    split; [|done]. eexists. split; [exact Hrow|]. cbn. by rewrite Hres, Hr.
Qed.

Lemma finish_safe (N : CaseDB → Prop) frame target reason iteration : frame_ok frame → target ≠ WAITING_DEPENDENCY →
  safe (λ s, N (ss_cases s)) (finish lib self run_id frame target reason iteration)
    (λ o s, N (ss_cases s) ∧ ended o s ∧ run_status o = target ∧ ir_stop_reason (ro_result o) = reason).
Proof. intros Hf Ht. apply conclude_safe; [done|]. intros r. by rewrite bool_decide_eq_false_2. Qed.

(** How a run can end. *)
Inductive ending (o : InvestigationRoleOutcome) (db : CaseDB) : Prop :=
| ending_sufficient : run_status o = COMPLETED → ir_stop_reason (ro_result o) = "evidence_sufficient"%string →
    resolved_need_ids (ro_result o) = it_required_need_ids d → ending o db
| ending_parked c : run_status o = COMPLETED → ir_stop_reason (ro_result o) = WORLD_UPDATE → task_kind contract = WATCH_INCIDENT →
    it_allow_wait d = true → cases db !! it_case_id d = Some c → case_status c = CaseLifecycle_value LC_WAITING → ending o db
| ending_waiting : run_status o = WAITING_DEPENDENCY →
    it_allow_wait d = true ∨ (∃ child, task_dependency_reason child = Ok (ir_stop_reason (ro_result o))) → ending o db
| ending_blocked : run_status o = BLOCKED → ending o db.

(** The post-condition of a run that is over. *)
Definition over (o : InvestigationRoleOutcome) (s : Session) : Prop := ended o s ∧ ending o (ss_cases s).

Lemma finish_blocked frame reason iteration P : frame_ok frame →
  safe P (finish lib self run_id frame BLOCKED reason iteration) over.
Proof.
  intros Hf. eapply safe_weaken; [by apply (finish_safe (λ _, True))|done|]. intros o s (_&He&Hs&_). split; [done|].
  by apply ending_blocked.
Qed.

(** A life cycle that moved to a state is in it. *)
Lemma transition_case_status id allowed target db c db' :
  keyed db → transition_case id allowed target db = (Ok c, db') →
  ∃ m, cases db' !! id = Some m ∧ normalized_lifecycle (case_status m) = Ok target ∧
       evidence_needs db' = evidence_needs db ∧ perception_events db' = perception_events db ∧
       (∀ m0, cases db !! id = Some m0 → normalized_lifecycle (case_status m0) ≠ Ok target → case_status m = CaseLifecycle_value target).
Proof.
  intros Hk H. unfold transition_case in H. apply bind_Ok in H as (s0&s1&H0&H). apply get_store_Ok in H0 as [-> ->].
  apply bind_Ok in H as (m&s1&H0&H). apply require_Ok in H0 as [Hm ->]. apply bind_Ok in H as (l&s1&H0&H).
  apply lift_Ok in H0 as [Hl ->]. case_bool_decide as Hcur.
  - apply lift_Ok in H as [_ ->]. subst l. exists m. split_and!; try done. intros m0 Hm0 Hne. congruence.
  - apply bind_Ok in H as (u&s1&H0&H). apply check_Ok in H0 as [_ ->]. apply bind_Ok in H as (u1&s1&H0&H).
    apply modify_Ok in H0 as ->. apply lift_Ok in H as [Hv ->]. eexists. cbn.
    rewrite (proj1 Hk _ _ Hm), lookup_insert_eq. split_and!; try done. by destruct target.
Qed.

Lemma park_safe frame iteration P : frame_ok frame → task_kind contract = WATCH_INCIDENT → it_allow_wait d = true →
  safe P (park_watch_episode lib self run_id frame WORLD_UPDATE iteration) over.
Proof.
  intros Hf Hkind Hallow. unfold park_watch_episode. eapply safe_bind.
  { eapply safe_weaken; [by apply (task_result_safe (λ _, True))|done|]. intros r s H; exact H. }
  intros r. eapply safe_bind; [apply safe_atomic|].
  - rewrite (fo_case _ Hf). intros s v s' Hb (_&Htold&Hr&_) H. apply bind_Ok in H as (c1&s1&H0&H). apply zoom_Ok in H0 as (db1&H1&->).
    assert (case_good (ss_cases s) db1) as Hg1.
    { eapply transition_case_good; [apply Hb| |exact H1]. set_solver. }
    pose proof (keyed_wf _ (sw_cases _ _ _ (bo_wf _ Hb))) as Hk.
    destruct (transition_case_confined _ _ _ _ _ _ Hk H1) as [Hk1 Hc1].
    destruct (transition_case_status _ _ _ _ _ _ Hk H1) as (m1&Hm1&Hl1&En1&Ep1&_).
    destruct (cases_step s db1 Hb Hg1 Hc1) as [Hb1 X1]; [intros m; rewrite Ep1; auto|].
    change (set_view db1 s) with (set_audit (ss_tasks s, db1) s) in H. set (t1 := set_audit _ s) in *.
    apply bind_Ok in H as (c2&s2&H0&H). apply zoom_Ok in H0 as (db2&H2&->). change (view t1) with db1 in H2.
    assert (case_good db1 db2) as Hg2.
    { eapply transition_case_good; [apply Hg1| |exact H2]. set_solver. }
    destruct (transition_case_confined _ _ _ _ _ _ Hk1 H2) as [Hk2 Hc2].
    destruct (transition_case_status _ _ _ _ _ _ Hk1 H2) as (m2&Hm2&Hl2&En2&Ep2&Hst).
    destruct (cases_step t1 db2 Hb1 Hg2 Hc2) as [Hb2 X2]; [intros m Hm; left; change (ss_cases t1) with db1; congruence|].
    apply (transition_returns (λ db, db = db2)) in H as (Hb3&X3&HN&Hrow); [|done|done].
    split; [done|]. split; [by do 2 (etrans; [done|])|].
    instantiate (1 := λ v s', ir_stop_reason r = WORLD_UPDATE ∧ told r (ss_cases s') ∧
      (∃ c, cases (ss_cases s') !! it_case_id d = Some c ∧ case_status c = CaseLifecycle_value LC_WAITING) ∧
      (∃ row, task_runs (ss_tasks s') !! run_id = Some (set_transition COMPLETED (Some (result_ref_of lib r)) (Some WORLD_UPDATE)
                (lib_now lib iteration "park") row))).
    cbn beta. split; [done|]. rewrite HN. split.
    { destruct Htold as [Ht1 (needs&Hneeds&Hrest)]. split; [done|]. exists needs. split; [|done]. by rewrite En2, En1. }
    split; [|done]. exists m2. split; [done|]. eapply Hst; [exact Hm1|]. by rewrite Hl1.
  - intros v. apply safe_ret. intros s (Hr&Htold&(c&Hc&Hst)&row&Hrow). split; [split; [|done]|].
    + eexists. split; [exact Hrow|]. cbn. by rewrite Hr.
    + by eapply ending_parked.
Qed.

Lemma wait_safe frame reason iteration P : frame_ok frame →
  it_allow_wait d = true ∨ (∃ child, task_dependency_reason child = Ok reason) →
  safe P (wait lib self run_id frame reason iteration) over.
Proof.
  intros Hf Hwhy. unfold wait. rewrite (fo_contract _ Hf).
  destruct (bool_decide (task_kind contract = WATCH_INCIDENT) && bool_decide (reason = WORLD_UPDATE)) eqn:Hpark.
  - apply andb_true_iff in Hpark as [Hkind%bool_decide_eq_true Hr%bool_decide_eq_true]. subst reason.
    destruct Hwhy as [Hallow|[child Hchild]]; [by apply park_safe|]. exfalso.
    unfold task_dependency_reason in Hchild. cbv zeta in Hchild. case_bool_decide; [done|]. by injection Hchild.
  - eapply safe_weaken; [by apply (conclude_safe (λ _, True) frame iteration reason WAITING_DEPENDENCY _ _ (λ _, None))|done|].
    intros o s (_&He&Hs&Hr). split; [done|]. apply ending_waiting; [done|]. by rewrite Hr.
Qed.

Lemma completion_safe frame P : frame_ok frame →
  safe P (completion lib self run_id frame) (λ o s, match o with Some o => over o s | None => True end).
Proof.
  intros Hf. unfold completion. rewrite (fo_contract _ Hf), Hd. eapply safe_bind; [apply safe_lift|]. intros d'. cbn beta.
  eapply safe_bind; [apply safe_reads, reads_needs|]. intros needs.
  destruct (forallb _ needs) eqn:Hall.
  - eapply safe_bind.
    + eapply safe_weaken.
      * apply (finish_safe (λ db, Forall2 (λ id n, evidence_needs db !! id = Some n) (it_required_need_ids d) needs)); done.
      * intros s ((_&[= <-])&Hneeds). by apply required_needs_Ok in Hneeds.
      * intros o s H. exact H.
    + intros o. split; [|by intros s e s' _ _ [= _ <-]]. intros s r s' Hb (Hneeds&He&Hs&Hr) [-> ->]%ret_Ok.
      split; [done|]. split; [done|]. split; [done|]. apply ending_sufficient; [done|done|].
      destruct (to_needs _ _ (en_told _ _ He)) as (needs'&Hneeds'&->&_).
      assert (needs' = needs) as ->.
      { clear -Hneeds Hneeds'. revert needs Hneeds. induction Hneeds' as [|id n ids ns Hn _ IH]; intros needs Hneeds;
          inversion Hneeds; subst; [done|]. f_equal; [congruence|by apply IH]. }
      assert (∀ n, n ∈ needs → need_status n = NEED_RESOLVED) as Hres.
      { intros n Hn%list_elem_of_In. rewrite forallb_forall in Hall. by apply Hall, bool_decide_eq_true in Hn. }
      pose proof (proj2 (keyed_wf _ (sw_cases _ _ _ (bo_wf _ Hb)))) as Hkey. clear -Hneeds Hres Hkey. unfold ids_with.
      induction Hneeds as [|id n ids ns Hn _ IH]; [done|]. rewrite filter_cons_True by (apply Hres; by left). csimpl.
      rewrite (Hkey _ _ Hn). f_equal. apply IH. intros m Hm. apply Hres. by right.
  - destruct (negb _).
    + eapply safe_bind; [by apply finish_blocked|]. intros o. by apply safe_ret.
    + by apply safe_ret.
Qed.

Context (Hself : Collaborators contract_digest (lib_manifest_digest lib) K self).

Lemma boundary_safe frame iteration P : frame_ok frame →
  safe P (execution_boundary lib self run_id frame iteration) (λ o s, match o with Some o => over o s | None => True end).
Proof.
  intros Hf. unfold execution_boundary. destruct (blocking_reason self) as [port|] eqn:Hp; [|by apply safe_ret].
  eapply safe_bind; [apply safe_keeps; by eapply boundary_keeps|]. intros [reason|]; [|by apply safe_ret].
  eapply safe_bind; [by apply finish_blocked|]. intros o. by apply safe_ret.
Qed.

(** Reading a run changes nothing. *)
Lemma session_get_run (s : Session) v s' :
  zoom (get_task_run run_id) s = (Ok v, s') → s' = s ∧ ∃ r, task_runs (ss_tasks s) !! run_id = Some r ∧ task_run_view r = Ok v.
Proof. intros (db&(->&r&?&?&_)%get_task_run_Ok&->)%zoom_Ok. split; [apply set_view_view|by exists r]. Qed.
Lemma session_get_contract (s : Session) c s' :
  zoom (get_task_contract_for_run run_id) s = (Ok c, s') → s' = s ∧ contract_of (ss_tasks s) run_id = Some c.
Proof.
  intros (db&H&->)%zoom_Ok. unfold get_task_contract_for_run in H. apply bind_Ok in H as (r&s1&Hr&H).
  apply lookup_run_Ok in Hr as [Hr ->]. apply bind_Ok in H as (s0&s1&H0&H). apply get_store_Ok in H0 as [-> ->].
  apply bind_Ok in H as (c0&s1&H0&H). apply require_Ok in H0 as [Hc ->]. apply ret_Ok in H as [-> ->].
  split; [apply set_view_view|]. unfold contract_of. cbn [view session_tasks] in *. rewrite Hr. cbn. by rewrite Hc.
Qed.

Lemma load_frame_safe iteration last recent P :
  safe P (load_frame lib run_id iteration last recent) (λ frame _, frame_ok frame).
Proof.
  apply safe_atomic. intros s frame s' Hb _ H. apply bind_Ok in H as (c&s1&H0&H). apply session_get_contract in H0 as [-> Hc].
  assert (c = contract) as -> by (pose proof (bo_contract _ Hb); congruence).
  apply bind_Ok in H as (d'&s1&H0&H). apply lift_Ok in H0 as [Hd' ->]. assert (d' = d) as -> by congruence.
  apply bind_Ok in H as (st&s1&Hget&H). apply zoom_Ok in Hget as (db&Hget&->).
  pose proof (get_state_same _ _ _ _ _ Hget) as [Hsame Hper].
  destruct (get_state_Ok _ _ _ _ _ (sw_cases _ _ _ (bo_wf _ Hb)) Hget) as (Hwf&_&cur&Hcur&Hview).
  destruct (cases_step s db Hb) as [Hb1 X1]; [split; [done|by apply same_history_step]| | |].
  { by apply same_records_confined; [|apply keyed_wf, Hb]. }
  { intros m. change (view s) with (ss_cases s) in Hper. rewrite Hper. auto. }
  change (set_view db s) with (set_audit (ss_tasks s, db) s) in H.
  apply bind_Ok in H as (needs&s1&H0&H). apply ret_Ok in H as [-> ->].
  assert (reads (zoom (S:=Session) (list_evidence_needs (it_case_id d) (Some [NEED_OPEN; NEED_BLOCKED])))) as Hr.
  { unfold list_evidence_needs. eauto with reading. }
  pose proof (Hr (set_audit (ss_tasks s, db) s)) as E. rewrite H0 in E. cbn in E. subst s1.
  split; [done|]. split; [done|]. split; [done|done|]. cbn. unfold state_view in Hview. apply make_state_Ok in Hview.
  destruct Hview as (_&_&_&_&_&->&_). apply Hcur.
Qed.

Lemma refresh_safe frame P : safe P (refresh_context_for_frame lib self run_id frame) (λ _ _, True).
Proof.
  apply safe_atomic. intros s u s' Hb _ H. apply bind_Ok in H as (m&s1&H0&H).
  assert (reads (zoom (S:=Session) (get_task_context run_id))) as Hr.
  { unfold get_task_context, lookup_run. eauto 6 with reading. }
  pose proof (Hr s) as E. rewrite H0 in E. cbn in E. subst s1.
  apply bind_Ok in H as (s0&s1&H1&H). apply get_store_Ok in H1 as [-> ->]. cbv zeta in H.
  destruct (_ && _ && _); [by apply ret_Ok in H as [_ ->]|].
  apply bind_Ok in H as (rf&s1&H1&H). apply lift_Ok in H1 as [_ ->].
  apply bind_Ok in H as (m'&s1&H1&H). apply lift_Ok in H1 as [_ ->].
  apply bind_Ok in H as (v&s1&H1&H). apply ret_Ok in H as [_ ->]. apply zoom_Ok in H1 as (db&H1&->).
  eapply update_good in H1 as (Hg&_); [|by apply Hb]. by destruct (tasks_step s db Hb Hg).
Qed.

Lemma execute_safe request steps g P :
  safe P (run_steps (lib_py_repr lib) (lib_ts_match lib) (lib_ts_rank_cd lib) (lib_cosine_distance lib) ss_retrieval
            (observation_port self) request (Some run_id) steps g) (λ _ _, True).
Proof.
  revert g P. induction steps as [|step steps IH]; intros g P; [by apply safe_ret|]. cbn [run_steps].
  apply safe_then; [|intros o; apply IH].
  destruct (decide (operator step ∈ [EXTERNAL; SANDBOX])) as [Hext|Hloc].
  - unfold execute_step. assert (operator step = EXTERNAL ∨ operator step = SANDBOX) as [-> | ->] by set_solver;
      (destruct (observation_port self) as [port|] eqn:Hp; [|by apply safe_ret]);
      (eapply safe_bind; [apply safe_reads, reads_require|]; intros run; apply safe_keeps; by eapply observation_keeps).
  - eapply safe_weaken; [apply safe_reads, execute_step_reads, Hloc|intros s Hs; exact Hs|done].
Qed.

Lemma record_returns request p c t0 t1 st fc event world now P :
  returns P (zoom (record (lib_case_event lib) (lib_isoformat lib) (lib_fromisoformat lib) run_id request p c t0 t1 st fc event
                     world now)) (λ _ _, True).
Proof.
  intros s rec s' Hb _ (db&H&->)%zoom_Ok. apply perception_record_Ok in H as (row&case&m&db0&st1&Hrow&Hcase&Ht&Hrun&Hdb0&Hmark).
  destruct (bo_case _ Hb) as (row'&Hrow'&Hcase'). change (task_runs (view s).1) with (task_runs (ss_tasks s)) in Hrow.
  assert (case = it_case_id d) as -> by congruence. change (view s).2 with (ss_cases s) in *. pose proof (bo_wf _ Hb) as [_ Hwf Hper].
  assert (pe_case_id m = it_case_id d) as Hm.
  { destruct Hdb0 as [[_ Hin]|[_ ?]]; [|done]. destruct (Hper m Hin) as (row2&Hrow2&Hcase2). congruence. }
  rewrite Hm in Hmark. assert (case_good (ss_cases s) db0 ∧ confined (it_case_id d) (ss_cases s) db0 ∧
    (∀ x, x ∈ perception_events db0 → x ∈ perception_events (ss_cases s) ∨ x = m)) as (Hg0&Hc0&Hp0).
  { destruct Hdb0 as [[-> _]|[-> _]]; [split; [by apply case_good_refl|]; split; [done|auto]|].
    split; [by apply put_perception_good|]. split; [split; [done..|]; exists [m]; split; [done|by apply Forall_singleton]|].
    intros x. cbn. rewrite elem_of_app, list_elem_of_singleton. done. }
  pose proof (mark_perception_good _ _ _ _ _ _ _ _ _ _ _ (proj1 Hg0) Hmark) as [Hwf1 Hs1].
  pose proof (mark_perception_confined _ _ _ _ _ _ _ _ _ _ _ (keyed_wf _ (proj1 Hg0)) Hmark) as [_ Hc1].
  pose proof (mark_perception_perceptions _ _ _ _ _ _ _ _ _ _ _ Hmark) as Hp1.
  destruct (cases_step s db.2 Hb) as [Hb' X'].
  - split; [done|]. by etrans; [apply Hg0|].
  - by etrans.
  - intros x. rewrite Hp1. intros [Hx| ->]%Hp0; auto.
  - assert (set_view db s = set_audit (ss_tasks s, db.2) s) as ->; [|done].
    destruct db as [t db2]. cbn in *. by subst t.
Qed.

Lemma execute_perception_safe frame request P : frame_ok frame →
  safe P (execute_perception lib self run_id frame request) (λ _ _, True).
Proof.
  intros Hf. unfold execute_perception. cbv zeta. eapply safe_bind; [apply safe_lift|]. intros u.
  apply safe_then.
  { unfold execute. eapply safe_bind; [apply safe_check|]. intros u1. eapply safe_bind; [apply execute_safe|].
    intros g. by apply safe_ret. }
  intros c. apply safe_then; [|intros v; by apply safe_ret]. apply safe_atomic.
  intros s v s' Hb _ H. apply bind_Ok in H as (s0&s1&H0&H). apply get_store_Ok in H0 as [-> ->].
  apply bind_Ok in H as (rec&s1&H0&H). destruct (record_returns _ _ _ _ _ _ _ _ _ _ (λ _, True) _ _ _ Hb I H0) as (Hb1&X1&_).
  destruct (append_run_event_returns (λ _, True) _ _ _ _ _ _ _ Hb1 I H) as (Hb2&X2&_). split; [done|]. split; [by etrans|done].
Qed.

Lemma delegate_safe frame request iteration P : frame_ok frame →
  safe P (delegate lib self run_id frame request iteration) (λ r s, match r with inl o => over o s | inr _ => True end).
Proof.
  intros Hf. unfold delegate. cbv zeta. eapply safe_bind; [apply safe_check|]. intros u.
  destruct (delegate_enrichment self) as [port|] eqn:Hp; [|by apply safe_ret].
  eapply safe_bind; [apply safe_keeps; by eapply delegation_keeps|]. intros r.
  apply safe_then; [apply safe_atomic; eapply returns_weaken; [apply (append_run_event_returns (λ _, True))|done|done]|]. intros u1.
  assert (safe (λ _, True) (reason ← lift (task_dependency_reason (child_run_id r));
            o ← wait lib self run_id frame reason iteration; mret (inl (B:=Percept) o))
            (λ r s, match r with inl o => over o s | inr _ => True end)) as Hwait.
  { eapply safe_bind; [apply safe_lift|]. intros reason. eapply safe_bind; [|intros o; apply safe_ret; intros s H; exact H].
    split; intros s a s' Hb [_ Hr]; eapply wait_safe; eauto. }
  destruct (child_status r) as [[]|]; try exact Hwait; try by apply safe_ret.
  apply safe_then; [by apply execute_perception_safe|]. intros c. by apply safe_ret.
Qed.

Lemma apply_state_patch_safe frame patch P : frame_ok frame → (∀ o, o ∈ sp_operations patch → validate_operation o = Ok o) →
  safe P (apply_state_patch lib self run_id frame patch) (λ _ _, True).
Proof.
  intros Hf Hops. unfold apply_state_patch. eapply safe_bind; [apply safe_lift|]. intros u.
  destruct (decide (patch_escapes frame patch = Ok u)) as [Hesc|Hesc].
  2: { split; intros s r s' _ [_ H]; done. }
  apply safe_atomic. intros s r s' Hb _ H. apply bind_Ok in H as (s0&s1&H0&H). apply get_store_Ok in H0 as [-> ->].
  apply bind_Ok in H as (r0&s1&H0&H). apply zoom_Ok in H0 as (db&H0&->). change (view s) with (ss_cases s) in H0.
  assert (sp_case_id patch = it_case_id d) as Hcase.
  { unfold patch_escapes in Hesc. apply result_bind_Ok in Hesc as (u1&Hesc%raise_when_Ok&_).
    apply bool_decide_eq_false, dec_stable in Hesc. by rewrite Hesc, (fo_case _ Hf). }
  pose proof (apply_patch_steps _ _ _ _ _ _ _ _ (sw_cases _ _ _ (bo_wf _ Hb)) Hops H0) as Hg.
  pose proof (apply_patch_confined _ _ _ _ _ _ _ _ (keyed_wf _ (sw_cases _ _ _ (bo_wf _ Hb))) H0) as [_ Hc]. rewrite Hcase in Hc.
  pose proof (apply_patch_perceptions _ _ _ _ _ _ _ _ H0) as Hper.
  destruct (cases_step s db Hb Hg Hc) as [Hb1 X1]; [intros m; rewrite Hper; auto|].
  change (set_view db s) with (set_audit (ss_tasks s, db) s) in H.
  apply bind_Ok in H as (v&s1&H1&H). apply ret_Ok in H as [-> ->].
  destruct (append_run_event_returns (λ _, True) _ _ _ _ _ _ _ Hb1 I H1) as (Hb2&X2&_). split; [done|]. split; [by etrans|done].
Qed.

Lemma attempt_safe {A} caught (m : prog Session A) P : safe P m (λ _ _, True) → safe P (attempt caught m) (λ _ _, True).
Proof.
  intros [H1 H2]. unfold attempt, try_catch. split.
  - intros s r s' Hb HP H. unfold mbind, prog_bind in H. destruct (m s) as [[a|e] s1] eqn:E; cbn in H.
    + injection H as _ <-. by apply (H1 _ _ _ Hb HP E).
    + destruct (H2 _ _ _ Hb HP E) as [Hb1 X1]. destruct (caught e); [|done]. by injection H as _ <-.
  - intros s r s' Hb HP H. unfold mbind, prog_bind in H. destruct (m s) as [[a|e] s1] eqn:E; cbn in H; [done|].
    destruct (caught e); [done|]. injection H as _ <-. by apply (H2 _ _ _ Hb HP E).
Qed.

Lemma patch_step_safe frame patch P : frame_ok frame → (∀ o, o ∈ sp_operations patch → validate_operation o = Ok o) →
  safe P (patch_step lib self run_id frame patch) (λ _ _, True).
Proof.
  intros Hf Hops. unfold patch_step. apply safe_then; [by apply attempt_safe, apply_state_patch_safe|]. intros [r|e]; [by apply safe_ret|].
  destruct (is_resolution_rejection e); [|by apply safe_ret]. cbv zeta.
  apply safe_then; [apply attempt_safe, apply_state_patch_safe; [done|]|].
  { intros o (o0&->&Ho0)%list_elem_of_fmap. apply Hops in Ho0. unfold validate_operation in *.
    cbn [op_proposition op_proposed_state op_disposition op_evidence_refs unresolving] in *.
    destruct (py_blank _); [done|]. by destruct (_ && _ && _). }
  intros [r|e']; [|by apply safe_ret]. apply safe_then; [|intros u; by apply safe_ret].
  apply safe_atomic. eapply returns_weaken; [apply (append_run_event_returns (λ _, True))|done|done].
Qed.

Lemma act_safe frame action iteration P : frame_ok frame →
  (∀ patch, action = StatePatchAction patch → ∀ o, o ∈ sp_operations patch → validate_operation o = Ok o) →
  safe P (act lib self run_id frame action iteration) (λ r s, match r with inl o => over o s | inr _ => True end).
Proof.
  intros Hf Hpatch. destruct action as [request|request|patch|reason|reason]; cbn [act].
  - apply safe_then; [by apply execute_perception_safe|]. intros p. by apply safe_ret.
  - eapply safe_bind; [by apply delegate_safe|]. intros [o|p]; apply safe_ret; intros s H; [exact H|done].
  - apply safe_then; [by apply patch_step_safe; [|apply Hpatch]|]. intros o. by apply safe_ret.
  - rewrite (fo_contract _ Hf), Hd. apply safe_lift_Ok. eapply (safe_bind _ _ _ (λ o s, over o s)); [|intros o; by apply safe_ret].
    destruct (it_allow_wait d) eqn:Hallow; [apply wait_safe; auto|by apply finish_blocked].
  - eapply safe_bind; [by apply finish_blocked|]. intros o. by apply safe_ret.
Qed.

(** *** With the log of the planner *)

Definition world_safe {A} (P : Session → Prop) (m : prog World A) (Q : A → Session → Prop) : Prop :=
  ∀ w r w', bound w.1 → P w.1 → m w = (r, w') → bound w'.1 ∧ X w.1 w'.1 ∧ ∀ a, r = Ok a → Q a w'.1.

Lemma world_zoom {A} P (m : prog Session A) Q : safe P m Q → world_safe P (zoom m) Q.
Proof.
  intros [H1 H2] [s log] r w' Hb HP H. unfold zoom in H. cbn [view set_view embeds_fst fst snd] in *.
  destruct (m s) as [[a|e] s1] eqn:E; injection H as <- <-.
  - destruct (H1 _ _ _ Hb HP E) as (?&?&?). split; [done|]. split; [done|]. by intros a' [= <-].
  - destruct (H2 _ _ _ Hb HP E) as (?&?). done.
Qed.
Lemma world_bind {A B} P (m : prog World A) (k : A → prog World B) R Q :
  world_safe P m R → (∀ a, world_safe (R a) (k a) Q) → world_safe P (m ≫= k) Q.
Proof.
  intros Hm Hk w r w' Hb HP H. unfold mbind, prog_bind in H. destruct (m w) as [[a|e] w1] eqn:E.
  - destruct (Hm _ _ _ Hb HP E) as (Hb1&X1&HR). destruct (Hk a _ _ _ Hb1 (HR a eq_refl) H) as (Hb2&X2&HQ).
    split; [done|]. split; [by etrans|done].
  - injection H as <- <-. by destruct (Hm _ _ _ Hb HP E) as (Hb1&X1&_).
Qed.
Lemma world_ret {A} (P : Session → Prop) (a : A) (Q : A → Session → Prop) : (∀ s, P s → Q a s) → world_safe P (mret a) Q.
Proof. intros H w r w' Hb HP [= <- <-]. split; [done|]. split; [done|]. intros a' [= <-]. by apply H. Qed.

Lemma world_pure {A} (F : Prop) (m : prog World A) Q : (F → world_safe (λ _, True) m Q) → world_safe (λ _, F) m Q.
Proof. intros H w r w' Hb HF. by apply H. Qed.

Lemma ask_planner_safe frame P : world_safe P (ask_planner self frame)
  (λ action _, ∀ patch, action = StatePatchAction patch → ∀ o, o ∈ sp_operations patch → validate_operation o = Ok o).
Proof.
  intros [s log] r w' Hb _ H. unfold ask_planner in H. cbn [fst snd] in *. destruct (next_action self frame s) as [r' s'] eqn:E.
  injection H as <- <-. destruct (planner_keeps frame s r' s' (bo_wf _ Hb) E) as [Hwf HX]. split; [by eapply bound_extends|].
  split; [done|]. intros action -> patch ->. by eapply planner_patches.
Qed.

Lemma observe_safe o (P : Session → Prop) : world_safe P (observe o) (λ _ _, True).
Proof. intros [s log] r w' Hb _ [= <- <-]. by split. Qed.

Lemma iterate_safe iteration ls P :
  world_safe P (iterate lib self run_id iteration ls) (λ r s, match r with inl o => over o s | inr _ => True end).
Proof.
  unfold iterate. eapply world_bind; [apply world_zoom, load_frame_safe|]. intros frame.
  apply (world_pure (frame_ok frame)). intros Hf. eapply world_bind; [apply world_zoom, refresh_safe|]. intros u.
  eapply world_bind; [by apply world_zoom, completion_safe|]. intros [o|]; [by apply world_ret|].
  eapply world_bind; [by apply world_zoom, boundary_safe|]. intros [o|]; [by apply world_ret|].
  eapply world_bind; [apply ask_planner_safe|]. intros action. cbn beta. apply world_pure. intros Hpatch.
  eapply world_bind; [by apply world_zoom, act_safe|]. intros [o|obs]; [by apply world_ret|].
  eapply world_bind; [apply observe_safe|]. intros u2. cbv zeta. destruct (_ <=? _); [|by apply world_ret]. eapply world_bind; [apply world_zoom, load_frame_safe|]. intros refreshed.
  apply (world_pure (frame_ok refreshed)). intros Hf'. eapply world_bind; [by apply world_zoom, finish_blocked|]. intros o.
  by apply world_ret.
Qed.

Lemma run_iterations_safe last n iteration ls P :
  world_safe P (run_iterations lib self run_id last n iteration ls) over.
Proof.
  revert iteration ls P. induction n as [|n IH]; intros iteration ls P; cbn [run_iterations].
  - eapply world_bind; [apply world_zoom, load_frame_safe|]. intros frame.
    apply (world_pure (frame_ok frame)). intros Hf. by apply world_zoom, finish_blocked.
  - eapply world_bind; [apply iterate_safe|]. intros [o|ls']; [by apply world_ret|apply IH].
Qed.

Lemma run_loop_safe P : world_safe P (run_loop lib self run_id) over.
Proof.
  unfold run_loop. eapply world_bind; [|intros window; apply run_iterations_safe]. apply world_zoom, safe_reads.
  unfold iteration_window, get_task_context, lookup_run. eauto 9 with reading.
Qed.

(** *** A failure of the run *)

(** The stop reason a failure is recorded under: a provider that wants to be paid has its own. *)
Definition failed_for (e : exn) (reason : string) : Prop :=
  if decide (type_name e = "ModelProviderResponseError"%string ∧ lib_response_status lib e = Some 402)
  then reason = "model_provider_payment_required"%string
  else reason = "unexpected_runtime_error:" +:+ type_name e.

(** The running run of [s] failed: its row says so and why, and the failure is the next event of the log. *)
Record failure_recorded (e : exn) (s s' : Session) : Prop := {
  fa_row : ∃ row row' reason, task_runs (ss_tasks s) !! run_id = Some row ∧ status row = RUNNING ∧
    task_runs (ss_tasks s') !! run_id = Some row' ∧ status row' = FAILED ∧ failed_for e reason ∧
    stop_reason row' = Some reason ∧ result_ref row' = None ∧ is_Some (finished_at row');
  fa_event : find_event run_id ("investigation-failed:" +:+ run_id +:+ ":" +:+ type_name e) (ss_tasks s) = None →
    ∃ ev, task_events (ss_tasks s') = task_events (ss_tasks s) ++ [ev] ∧ task_run_id ev = run_id ∧ event_type ev = TASK_FAILED ∧
      payload_ref ev = "investigation-error:" +:+ type_name e
}.

(** Why a failure cannot be recorded: the row is not readable, the reason does not fit its column, or the key or the identity
    of its event is taken. *)
Definition failure_unrecordable (e : exn) (s : Session) : Prop :=
  (∃ row e', task_runs (ss_tasks s) !! run_id = Some row ∧ task_run_view row = Err e') ∨
  (∃ reason, failed_for e reason ∧ 128 < slen reason) ∨
  (let key := "investigation-failed:" +:+ run_id +:+ ":" +:+ type_name e in
   is_Some (find_event run_id key (ss_tasks s)) ∨ lib_fresh lib key ∈ event_id <$> task_events (ss_tasks s)).

Lemma failure_reason_for e : failed_for e (failure_reason lib e).
Proof.
  unfold failed_for, failure_reason. destruct (decide _) as [[H1 H2]|Hn]; [by rewrite !bool_decide_eq_true_2|].
  destruct (bool_decide (type_name e = _)) eqn:E1, (bool_decide (lib_response_status lib e = _)) eqn:E2; try done.
  apply bool_decide_eq_true in E1, E2. tauto.
Qed.

(** A transition under a fresh key appends its event. *)
Lemma transition_event id target payload key stream prod result stop ue t db v db' :
  transition_task_run id target payload key stream prod result stop ue t db = (Ok v, db') → find_event id key db = None →
  ∃ ev, task_events db' = task_events db ++ [ev] ∧ task_run_id ev = id ∧ event_type ev = event_for_transition target ∧
    payload_ref ev = payload.
Proof.
  unfold transition_task_run. intros H Hkey. prog_inv H. apply lookup_run_Ok in Hrun as [_ ->].
  match goal with H : append_task_event _ _ _ _ _ _ _ _ _ _ = _ |- _ =>
    apply append_Ok in H as (run0&_&[(_&_&e&He&_)|(_&_&_&_&->)]) end.
  - unfold find_event in *. cbn in He. congruence.
  - by eexists.
Qed.

(** A running run whose failure can be recorded: the transition succeeds. *)
Lemma fail_transition_runs e s row : bound s → task_runs (ss_tasks s) !! run_id = Some row → status row = RUNNING →
  1 ≤ base_context_revision row → slen (failure_reason lib e) ≤ 128 →
  find_event run_id (failure_key run_id e) (ss_tasks s) = None →
  lib_fresh lib (failure_key run_id e) ∉ event_id <$> task_events (ss_tasks s) →
  is_ok (transition' FAILED ("investigation-error:" +:+ type_name e) (failure_key run_id e) None (Some (failure_reason lib e))
           (lib_now lib 0 "failed") s).1.
Proof.
  intros Hb Hrow Hst Hbase Hlen Hkey Hid. pose proof (sw_tasks _ _ _ (bo_wf _ Hb)) as Hwf.
  pose proof (rro_base _ _ (wf_runs _ _ _ Hwf _ _ Hrow)) as Hrev. unfold transition, zoom.
  edestruct (transition_run (ss_tasks s) run_id FAILED ("investigation-error:" +:+ type_name e) (failure_key run_id e)
    (stream_name self) ROLE_ID None (Some (failure_reason lib e)) (lib_fresh lib (failure_key run_id e))
    (lib_now lib 0 "failed") row) as (v&E&_); try done.
  - by apply (wf_run_key _ _ _ Hwf).
  - by rewrite Hst.
  - by rewrite Hst.
  - lia.
  - by apply py_blank_cons.
  - by apply py_blank_cons.
  - cbn [view session_tasks]. erewrite max_seq_count by exact Hwf. lia.
  - cbn [view session_tasks]. by rewrite E.
Qed.
Lemma fail_unexpected_cases e s r s' : bound s → fail_unexpected lib self run_id e s = (r, s') →
  (r = Ok tt ∧ s' = s ∧ ∃ row, task_runs (ss_tasks s) !! run_id = Some row ∧ status row ≠ RUNNING) ∨
  (r = Ok tt ∧ bound s' ∧ X s s' ∧ failure_recorded e s s') ∨
  (∃ e', r = Err e' ∧ s' = s ∧ failure_unrecordable e s).
Proof.
  intros Hb H. unfold fail_unexpected, atomic, mbind, prog_bind in H. destruct (bo_case _ Hb) as (row&Hrow&_).
  assert (zoom (get_task_run run_id) s = (task_run_view row, s)) as Hget.
  { unfold zoom, get_task_run, lookup_run, mbind, prog_bind, get_store, require, lift.
    change (task_runs (view s)) with (task_runs (ss_tasks s)). rewrite Hrow. cbn. f_equal. by destruct s as [[]]. }
  rewrite Hget in H. destruct (task_run_view row) as [run|e'] eqn:Hview.
  2: { injection H as <- <-. right; right. exists e'. split; [done|]. split; [done|]. left. by exists row, e'. }
  assert (tr_status run = status row ∧ 1 ≤ base_context_revision row) as [Hst Hbase].
  { clear -Hview. unfold task_run_view, make_TaskRun in Hview. cbn in Hview. destruct (Z.ltb_spec (base_context_revision row) 1); [done|].
    destruct (match stop_reason row with Some _ => _ | None => _ end); [done|]. by injection Hview as <-. }
  rewrite Hst in H. case_bool_decide as Hrun; [injection H as <- <-; left; by eauto|].
  right. set (tr := transition' _ _ _ _ _ _) in H.
  pose proof (fail_transition_runs e s row Hb Hrow Hrun Hbase) as Hok. fold tr in Hok.
  destruct (tr s) as [[v|e'] s1] eqn:E; injection H as <- <-.
  - left. split; [done|]. apply zoom_Ok in E as (db&E&->). pose proof E as Hev.
    eapply transition_good in E as (Hg&_&r0&Hr0&Hruns); [|by apply Hb].
    change (view s) with (ss_tasks s) in *. assert (r0 = row) as -> by congruence.
    destruct (tasks_step s db Hb Hg) as [Hb' HX]. split; [done|]. split; [done|]. split.
    + exists row, (set_transition FAILED None (Some (failure_reason lib e)) (lib_now lib 0 "failed") row), (failure_reason lib e).
      split; [done|]. split; [done|]. split; [cbn; by rewrite Hruns, lookup_insert_eq|]. split; [done|].
      split; [apply failure_reason_for|done].
    + intros Hkey. by apply (transition_event _ _ _ _ _ _ _ _ _ _ _ _ _ Hev).
  - right. exists e'. split; [done|]. split; [done|]. cbn [fst is_ok] in Hok.
    destruct (decide (slen (failure_reason lib e) ≤ 128)) as [Hlen|Hlen];
      [|right; left; exists (failure_reason lib e); split; [apply failure_reason_for|lia]].
    right; right. cbv zeta. change ("investigation-failed:" +:+ run_id +:+ ":" +:+ type_name e) with (failure_key run_id e).
    destruct (find_event run_id (failure_key run_id e) (ss_tasks s)) eqn:Hkey; [left; by eexists|right].
    destruct (decide (lib_fresh lib (failure_key run_id e) ∈ event_id <$> task_events (ss_tasks s))) as [Hin|Hnin]; [done|].
    exfalso. by apply Hok.
Qed.

(** *** Starting the run *)

Lemma requeue_returns (N : CaseDB → Prop) (c : bool) run target payload key t :
  returns (λ s, N (ss_cases s))
    (if c then transition' target payload key None None t;; zoom (get_task_run run_id) else mret run) (λ _ s, N (ss_cases s)).
Proof.
  destruct c; [|by apply returns_ret]. eapply returns_bind; [apply transition_returns|]. intros v s a s' Hb [HN _] H.
  by apply session_get_run in H as [-> _].
Qed.

Lemma ensure_running_returns (N : CaseDB → Prop) :
  returns (λ s, N (ss_cases s)) (ensure_running lib self run_id) (λ _ s, N (ss_cases s)).
Proof.
  apply safe_atomic. intros s u s' Hb HN H. apply bind_Ok in H as (run&s1&H0&H). apply session_get_run in H0 as [-> _].
  apply bind_Ok in H as (c&s1&H0&H). apply session_get_contract in H0 as [-> _].
  apply bind_Ok in H as (d'&s1&H0&H). apply lift_Ok in H0 as [_ ->].
  apply bind_Ok in H as (u1&s1&H0&H). apply check_Ok in H0 as [_ ->].
  apply bind_Ok in H as (u2&s1&H0&H). apply check_Ok in H0 as [_ ->].
  revert s u s' Hb HN H. change (returns (λ s, N (ss_cases s)) (
    run0 ← (if bool_decide (tr_status run ∈ [WAITING_DEPENDENCY; WAITING_INPUT])
            then transition' QUEUED "queue:investigation-resume"
                   ("investigation-resume:" +:+ run_id +:+ ":" +:+ TaskRunStatus_value (tr_status run)) None None
                   (lib_now lib 0 "resume");; zoom (get_task_run run_id)
            else mret run);
    run1 ← (if bool_decide (tr_status run0 = SUBMITTED)
            then transition' QUEUED "queue:investigation" ("investigation-queued:" +:+ run_id) None None (lib_now lib 0 "queued");;
                 zoom (get_task_run run_id)
            else mret run0);
    if bool_decide (tr_status run1 = QUEUED)
    then transition' RUNNING ("role:" +:+ ROLE_ID)
           ("investigation-started:" +:+ run_id +:+ ":" +:+ str_of_Z (tr_base_context_revision run1)) None None
           (lib_now lib 0 "started");; mret tt
    else check (bool_decide (tr_status run1 ≠ RUNNING)) (ValueError "InvestigationRole cannot run in this status"))
    (λ _ s, N (ss_cases s))).
  eapply returns_bind; [apply requeue_returns|]. intros run0. eapply returns_bind; [apply requeue_returns|]. intros run1.
  case_bool_decide.
  - eapply returns_bind; [apply transition_returns|]. intros v. apply returns_ret. by intros s [HN _].
  - eapply returns_weaken; [apply safe_check|intros s HN; exact HN|]. by intros v s [HN _].
Qed.
End steps.

Lemma ensure_running_bound contract_digest lib self run_id s s' :
  session_wf contract_digest (lib_manifest_digest lib) s → ensure_running lib self run_id s = (Ok tt, s') →
  ∃ contract d row, investigation_desired_state_of contract = Ok d ∧ contract_of (ss_tasks s) run_id = Some contract ∧
    task_runs (ss_tasks s) !! run_id = Some row ∧ run_case_id row = Some (it_case_id d) ∧
    bound contract_digest lib run_id contract d s.
Proof.
  intros Hwf H. unfold ensure_running, atomic in H.
  match type of H with (let '(r, s') := ?m s in _) = _ => destruct (m s) as [[u|e] s1] eqn:E end; [|done]. clear H.
  apply bind_Ok in E as (run&s2&H0&H). apply session_get_run in H0 as (->&row&Hrow&Hview).
  apply bind_Ok in H as (c&s2&H0&H). apply session_get_contract in H0 as [-> Hc].
  apply bind_Ok in H as (d&s2&H0&H). apply lift_Ok in H0 as [Hd ->].
  apply bind_Ok in H as (u1&s2&H0&H). apply check_Ok in H0 as [_ ->].
  apply bind_Ok in H as (u2&s2&H0&H). apply check_Ok in H0 as [Hcase%bool_decide_eq_false%dec_stable ->].
  assert (run_case_id row = Some (it_case_id d)) as Hrc.
  { rewrite <- Hcase. unfold task_run_view, make_TaskRun in Hview. cbn in Hview. destruct (_ <? _); [done|].
    destruct (match stop_reason row with Some _ => _ | None => _ end); [done|]. by injection Hview as <-. }
  exists c, d, row. split_and!; try done. split; [done|by exists row|done].
Qed.

(** ** Properties of a run *)

Section properties.
Context (contract_digest : TaskContract → string) (lib : Library) (self : InvestigationRoleRuntime).

(** A run that did not start, and one that did. *)
Lemma investigation_run_cases run_id s log r w' :
  run lib self run_id (s, log) = (r, w') →
  (∃ e, r = Err e ∧ w' = (s, log) ∧ ensure_running lib self run_id s = (Err e, s)) ∨
  ∃ s1 r1 w1, ensure_running lib self run_id s = (Ok tt, s1) ∧ run_loop lib self run_id (s1, log) = (r1, w1) ∧
    ((∃ o, r1 = Ok o ∧ r = Ok o ∧ w' = w1) ∨
     ∃ e, r1 = Err e ∧ (zoom (fail_unexpected lib self run_id e);; raise (A:=InvestigationRoleOutcome) e) w1 = (r, w')).
Proof.
  unfold run, mbind, prog_bind. unfold zoom at 1. cbn [view set_view embeds_fst fst snd].
  destruct (ensure_running lib self run_id s) as [[[]|e] s1] eqn:E.
  - intros H. right. unfold try_catch in H. destruct (run_loop lib self run_id (s1, log)) as [[o|e] w1] eqn:El.
    + injection H as <- <-. exists s1, (Ok o), w1. split; [done|]. split; [done|]. left. by exists o.
    + exists s1, (Err e), w1. split; [done|]. split; [done|]. right. by exists e.
  - intros [= <- <-]. left. exists e. split; [done|]. assert (s1 = s) as ->; [|done]. unfold ensure_running, atomic in E.
    match type of E with (let '(r, s') := ?m s in _) = _ => destruct (m s) as [[u|e'] s2] end; [done|]. by injection E as _ <-.
Qed.

(** The tables do not hold the trace. *)
Lemma zoom_log {A} (m : prog Session A) (w : World) r w' : zoom m w = (r, w') → w'.2 = w.2 ∧ m w.1 = (r, w'.1).
Proof. unfold zoom. destruct w as [s log]. cbn. destruct (m s) as [a t]. by intros [= -> <-]. Qed.

(** A run that started in [s] and raised [e], and left [s']: its loop had raised in a state [sf].  If the run was not running
    any more, that is all; if it was, the failure of the loop is recorded; if that is not possible, the run raised what
    recording it raised. *)
Definition raised (run_id : string) (s s' : Session) (e : exn) : Prop :=
  ∃ s1 sf e0 log log', ensure_running lib self run_id s = (Ok tt, s1) ∧ run_loop lib self run_id (s1, log) = (Err e0, (sf, log')) ∧
    (e = e0 ∧ s' = sf ∧ (∃ row, task_runs (ss_tasks sf) !! run_id = Some row ∧ status row ≠ RUNNING) ∨
     e = e0 ∧ failure_recorded lib run_id e0 sf s' ∨
     s' = sf ∧ failure_unrecordable lib run_id e0 sf).

(** What a run leaves, whatever [K] the collaborators keep to. *)
Lemma run_safe K `{!PreOrder K} run_id s log r w' :
  (∀ contract d, contract_of (ss_tasks s) run_id = Some contract → investigation_desired_state_of contract = Ok d →
     ∀ db db', confined (it_case_id d) db db' → K db db') →
  Collaborators contract_digest (lib_manifest_digest lib) K self → session_wf contract_digest (lib_manifest_digest lib) s →
  run lib self run_id (s, log) = (r, w') →
  (∃ e, r = Err e ∧ w' = (s, log) ∧ ensure_running lib self run_id s = (Err e, s)) ∨
  ∃ contract d row, contract_of (ss_tasks s) run_id = Some contract ∧ investigation_desired_state_of contract = Ok d ∧
    task_runs (ss_tasks s) !! run_id = Some row ∧ run_case_id row = Some (it_case_id d) ∧
    bound contract_digest lib run_id contract d w'.1 ∧ session_extends K s w'.1 ∧
    match r with
    | Ok o => over lib run_id contract d o w'.1
    | Err e => raised run_id s w'.1 e
    end.
Proof.
  intros HK Hself Hwf [Hno|(s1&r1&w1&Hstart&Hloop&Hend)]%investigation_run_cases; [by left|right].
  destruct (ensure_running_bound _ _ _ _ _ _ Hwf Hstart) as (contract&d&row&Hd&Hc&Hrow&Hcase&Hb).
  exists contract, d, row. split; [done|]. split; [done|]. split; [done|]. split; [done|]. specialize (HK contract d Hc Hd).
  destruct (ensure_running_returns contract_digest lib self run_id contract d K (λ _, True) _ _ _ Hb I Hstart)
    as (Hb1&X1&_).
  destruct (run_loop_safe contract_digest lib self run_id contract d K Hd HK Hself (λ _, True) (s1, log) _ _ Hb1 I Hloop)
    as (Hb2&X2&Hover). cbn [fst] in X2.
  destruct Hend as [(o&->&->&->)|(e&->&Hfail)].
  { split; [done|]. split; [by etrans|]. by apply Hover. }
  unfold mbind, prog_bind in Hfail. destruct (zoom _ w1) as [[u|e'] w2] eqn:E; apply zoom_log in E as [El E].
  - unfold raise in Hfail. injection Hfail as <- <-.
    destruct (fail_unexpected_cases contract_digest lib self run_id contract d K e _ _ _ Hb2 E)
      as [(_&Es&Hrow')|[(_&Hb3&X3&Hrec)|(e'&?&_)]]; [..|done].
    + rewrite Es. split; [done|]. split; [by etrans|]. exists s1, w1.1, e, log, w1.2.
      split; [done|]. split; [by rewrite <- surjective_pairing|]. left. done.
    + split; [done|]. split; [by do 2 (etrans; [done|])|]. exists s1, w1.1, e, log, w1.2.
      split; [done|]. split; [by rewrite <- surjective_pairing|]. right; left. done.
  - injection Hfail as <- <-.
    destruct (fail_unexpected_cases contract_digest lib self run_id contract d K e _ _ _ Hb2 E)
      as [(?&_)|[(?&_)|(e''&_&Es&Hun)]]; [done..|].
    rewrite Es. split; [done|]. split; [by etrans|]. exists s1, w1.1, e, log, w1.2. split; [done|].
    split; [by rewrite <- surjective_pairing|]. right; right. done.
Qed.

(** The needs of a result, one by one. *)
Lemma told_needs run_id d r db id : case_wf db → told run_id d r db →
  blocked_need_ids r = [] ∧
  (id ∈ resolved_need_ids r ↔ id ∈ it_required_need_ids d ∧ ∃ n, evidence_needs db !! id = Some n ∧ need_status n = NEED_RESOLVED) ∧
  (id ∈ ir_open_need_ids r ↔ id ∈ it_required_need_ids d ∧ ∃ n, evidence_needs db !! id = Some n ∧ need_status n = NEED_OPEN) ∧
  (id ∈ it_required_need_ids d → id ∈ resolved_need_ids r ∨ id ∈ ir_open_need_ids r).
Proof.
  intros Hwf [_ (needs&Hneeds&->&->&->)]. pose proof (proj2 (keyed_wf _ Hwf)) as Hkey.
  assert (∀ n, n ∈ needs → n.(need_status) ∈ [NEED_OPEN; NEED_RESOLVED]) as Hst.
  { intros n [i Hi]%list_elem_of_lookup. destruct (Forall2_lookup_r _ _ _ _ _ Hneeds Hi) as (k&_&Hk).
    by apply (lw_need _ (cw_log _ Hwf) _ _ Hk). }
  assert (∀ st, id ∈ ids_with st needs ↔ id ∈ it_required_need_ids d ∧ ∃ n, evidence_needs db !! id = Some n ∧ need_status n = st) as Hids.
  { intros st. unfold ids_with. rewrite list_elem_of_fmap. setoid_rewrite list_elem_of_filter. split.
    - intros (n&->&Hn&[i Hi]%list_elem_of_lookup). destruct (Forall2_lookup_r _ _ _ _ _ Hneeds Hi) as (k&Hk&Hr).
      rewrite (Hkey _ _ Hr). split; [by eapply list_elem_of_lookup_2|by exists n].
    - intros ([i Hi]%list_elem_of_lookup&n&Hn&Hs). destruct (Forall2_lookup_l _ _ _ _ _ Hneeds Hi) as (m&Hm&Hr).
      assert (m = n) as -> by congruence. exists n. split; [by rewrite (Hkey _ _ Hr)|]. split; [done|by eapply list_elem_of_lookup_2]. }
  split; [|split; [apply Hids|split; [apply Hids|]]].
  - apply elem_of_nil_inv. intros x Hx. unfold ids_with in Hx. apply list_elem_of_fmap in Hx as (n&_&[Hb Hn]%list_elem_of_filter).
    specialize (Hst n Hn). rewrite Hb in Hst. set_solver.
  - intros Hin. rewrite !Hids. pose proof Hin as [i Hi]%list_elem_of_lookup.
    destruct (Forall2_lookup_l _ _ _ _ _ Hneeds Hi) as (n&Hn&Hr). specialize (Hst n (list_elem_of_lookup_2 _ _ _ Hn)).
    apply elem_of_cons in Hst as [Hs|Hs%list_elem_of_singleton]; [right|left]; (split; [done|by exists n]).
Qed.

(** C26. What an investigation returns is what is stored, and a failure of its loop is recorded.  Whatever the planner
    answers and the collaborators do (as long as they go through the stores), a run that returns leaves its row with the
    status, the stop reason and the reference of the result it returns, and the result tells each required need as resolved
    or open exactly as it is stored.  A run is completed only when every required need is resolved, or when it watches an
    incident, may wait, was told to wait for a change of the world and its case is waiting; it waits only when its contract
    allows it or for a child run it names; else it is blocked.  A run that raises before it started has changed nothing;
    when its loop raises while the run is running, the run is failed, under the reason that names the class of the exception
    (a model provider that wants to be paid has its own), without a result, and the failure is an event; a run that had
    left the running state is not touched; and only a failure that cannot be recorded - the row is unreadable, the
    reason longer than its column, its event's key or identity taken - leaves a running run behind. *)
Theorem investigation_outcome run_id s log r w'
  (Hself : Collaborators contract_digest (lib_manifest_digest lib) any_step self)
  (Hwf : session_wf contract_digest (lib_manifest_digest lib) s) :
  run lib self run_id (s, log) = (r, w') →
  let s' := w'.1 in
  match r with
  | Ok o => let res := ro_result o in ∃ contract d row,
      contract_of (ss_tasks s) run_id = Some contract ∧ investigation_desired_state_of contract = Ok d ∧
      task_runs (ss_tasks s') !! run_id = Some row ∧ status row = run_status o ∧ stop_reason row = Some (ir_stop_reason res) ∧
      result_ref row = (if bool_decide (run_status o = WAITING_DEPENDENCY) then None else Some (result_ref_of lib res)) ∧
      (∀ id, blocked_need_ids res = [] ∧
         (id ∈ resolved_need_ids res ↔ id ∈ it_required_need_ids d ∧
            ∃ n, evidence_needs (ss_cases s') !! id = Some n ∧ need_status n = NEED_RESOLVED) ∧
         (id ∈ ir_open_need_ids res ↔ id ∈ it_required_need_ids d ∧
            ∃ n, evidence_needs (ss_cases s') !! id = Some n ∧ need_status n = NEED_OPEN) ∧
         (id ∈ it_required_need_ids d → id ∈ resolved_need_ids res ∨ id ∈ ir_open_need_ids res)) ∧
      (run_status o = COMPLETED ∧ ir_stop_reason res = "evidence_sufficient"%string ∧
         resolved_need_ids res = it_required_need_ids d ∨
       run_status o = COMPLETED ∧ ir_stop_reason res = WORLD_UPDATE ∧ task_kind contract = WATCH_INCIDENT ∧
         it_allow_wait d = true ∧
         (∃ c, cases (ss_cases s') !! it_case_id d = Some c ∧ case_status c = CaseLifecycle_value LC_WAITING) ∨
       run_status o = WAITING_DEPENDENCY ∧
         (it_allow_wait d = true ∨ ∃ child, task_dependency_reason child = Ok (ir_stop_reason res)) ∨
       run_status o = BLOCKED)
  | Err e => ensure_running lib self run_id s = (Err e, s) ∧ s' = s ∨ raised run_id s s' e
  end.
Proof.
  intros H. cbv zeta. apply (run_safe any_step) in H as [(e&->&->&Hno)|(contract&d&row&Hc&Hd&_&_&Hb&_&Hend)];
    [by left| |by intros|done|done].
  destruct r as [o|e]; [|by right]. destruct Hend as [[(row'&Hrow&Hst&Hstop&Hres) Htold] Hending].
  exists contract, d, row'. split; [done|]. split; [done|]. split; [done|]. split; [done|]. split; [done|]. split; [done|].
  split. { intros id. apply (told_needs run_id); [apply Hb|done]. }
  destruct Hending as [H1 H2 H3|c H1 H2 H3 H4 H5 H6|H1 H2|H1]; [by left|right; left|right; right; left|by right; right; right].
  - split_and!; try done. by exists c.
  - done.
Qed.

(** No case changes. *)
Definition untouched (db db' : CaseDB) : Prop := ∀ id, confined id db db'.
#[export] Instance untouched_preorder : PreOrder untouched.
Proof. split; [by intros db id|]. intros a b c H1 H2 id. transitivity b; [apply H1|apply H2]. Qed.

Lemma collaborators_weaken cd md (K K' : CaseDB → CaseDB → Prop) :
  (∀ a b, K a b → K' a b) → Collaborators cd md K self → Collaborators cd md K' self.
Proof.
  intros HK [H1 H2 H3 H4 H5]. assert (∀ A (m : prog Session A), keeps cd md K m → keeps cd md K' m) as Hm.
  { intros A m Hm s r s' Hs Hr. destruct (Hm s r s' Hs Hr) as [? []]. split; [done|]. split; auto. }
  split; [|exact H2|..]; eauto.
Qed.

(** C27. An investigation stays in its case.  Whatever the planner answers, when the collaborators do not change the cases:
    after a run, whether it returned or raised, the stores are sound, the histories of tasks and cases have only grown, and
    every other case is as it was: its row, its log, its needs and its perceptions. *)
Theorem investigation_confined run_id s log r w'
  (Hself : Collaborators contract_digest (lib_manifest_digest lib) untouched self)
  (Hwf : session_wf contract_digest (lib_manifest_digest lib) s) :
  run lib self run_id (s, log) = (r, w') →
  session_wf contract_digest (lib_manifest_digest lib) w'.1 ∧ db_extends (ss_tasks s) (ss_tasks w'.1) ∧
  case_step (ss_cases s) (ss_cases w'.1) ∧
  (w'.1 = s ∨ ∃ row case, task_runs (ss_tasks s) !! run_id = Some row ∧ run_case_id row = Some case ∧
     (∀ k, k ≠ case → cases (ss_cases w'.1) !! k = cases (ss_cases s) !! k ∧ log_of k (ss_cases w'.1) = log_of k (ss_cases s)) ∧
     (∀ x n, need_case_id n ≠ case →
        evidence_needs (ss_cases w'.1) !! x = Some n ↔ evidence_needs (ss_cases s) !! x = Some n) ∧
     ∃ new, perception_events (ss_cases w'.1) = perception_events (ss_cases s) ++ new ∧ Forall (λ m, pe_case_id m = case) new).
Proof.
  intros H. destruct (ensure_running lib self run_id s) as [[[]|e] s1] eqn:E.
  - destruct (ensure_running_bound _ _ _ _ _ _ Hwf E) as (contract&d&_&Hd&Hc&_).
    apply (run_safe (confined (it_case_id d))) in H as [(e&->&->&_)|(contract'&d'&row&Hc'&Hd'&Hrow&Hcase&Hb&HX&_)].
    + split; [done|]. split; [done|]. split; [done|by left].
    + assert (contract' = contract) as -> by congruence. assert (d' = d) as -> by congruence.
      split; [apply Hb|]. destruct HX as [X1 X2 [C1 C2 C3 C4]]. split; [done|]. split; [done|]. right.
      exists row, (it_case_id d). split; [done|]. split; [done|]. split; [|done]. intros k Hk. split; [by apply C1|by apply C2].
    + intros contract' d' Hc' Hd'. assert (contract' = contract) as -> by congruence. assert (d' = d) as -> by congruence. done.
    + eapply collaborators_weaken; [|exact Hself]. intros a b Hab. apply Hab.
    + done.
  - unfold run, mbind, prog_bind in H. unfold zoom at 1 in H. cbn [view set_view embeds_fst fst snd] in H. rewrite E in H.
    assert (s1 = s) as ->.
    { unfold ensure_running, atomic in E. match type of E with (let '(r, s') := ?m s in _) = _ => destruct (m s) as [[u|e'] s2] end; [done|].
      by injection E as _ <-. }
    injection H as _ <-. split; [done|]. split; [done|]. split; [done|by left].
Qed.

(** *** How often the planner is asked *)

(** What the planner was asked for, and what came of it. *)
Definition asked_in (trace : list Entry) : list Z := omap (λ x, match x with Asked i => Some i | Observed _ => None end) trace.
Definition observed_in (trace : list Entry) : list Observation :=
  omap (λ x, match x with Asked _ => None | Observed o => Some o end) trace.

(** An observation that changed the state of the case, as the progress signature tells. *)
Definition changes (o : Observation) : Prop :=
  match o with
  | PatchDeferred _ before after | PatchApplied before after =>
      state_progress_signature lib after ≠ state_progress_signature lib before
  | _ => False
  end.

(** A percept with this signal was seen since the state of the case last changed. *)
Definition seen_before (past : list Observation) (signal : string) : Prop :=
  ∃ pre p post, past = pre ++ Saw p :: post ∧ percept_signal lib p = signal ∧ Forall (λ o, ¬ changes o) post.

(** Progress is a change of the state, or a percept whose like was not seen since the last change. *)
Definition progress (past : list Observation) (o : Observation) : Prop :=
  changes o ∨ ∃ p, o = Saw p ∧ ¬ seen_before past (percept_signal lib p).

(** The observations end with exactly [n] that made no progress. *)
Definition stalled (all : list Observation) (n : Z) : Prop := ∃ past rest,
  all = past ++ rest ∧ n = Z.of_nat (length rest) ∧
  (∀ a o b, rest = a ++ o :: b → ¬ progress (past ++ a) o) ∧
  (past = [] ∨ ∃ before o, past = before ++ [o] ∧ progress before o).

(** What the last observation tells the planner. *)
Definition shown (all : list Observation) : option Percept :=
  match last all with Some (Saw p | PatchRejected p | PatchDeferred p _ _) => Some p | _ => None end.

Lemma stalled_progress all o : progress all o → stalled (all ++ [o]) 0.
Proof. intros H. exists (all ++ [o]), []. rewrite app_nil_r. split; [done|]. split; [done|]. split; [by intros [|]|]. right. eauto. Qed.
Lemma stalled_more all o n : stalled all n → ¬ progress all o → stalled (all ++ [o]) (n + 1).
Proof.
  intros (past&rest&->&->&Hquiet&Hpast) Ho. exists past, (rest ++ [o]). rewrite <- app_assoc. split; [done|].
  rewrite length_app. cbn [length]. split; [lia|]. split; [|done]. intros a o' b Hab.
  destruct b as [|x b _] using rev_ind.
  - apply app_inj_tail in Hab as [<- <-]. done.
  - rewrite app_comm_cons, (assoc_L (++)) in Hab. apply app_inj_tail in Hab as [-> _]. by eapply Hquiet.
Qed.

Lemma seen_before_snoc all o signal :
  seen_before (all ++ [o]) signal ↔
  (¬ changes o ∧ seen_before all signal) ∨ ∃ p, o = Saw p ∧ percept_signal lib p = signal.
Proof.
  split.
  - intros (pre&p&post&E&Hs&Hpost). destruct post as [|x post _] using rev_ind.
    + apply app_inj_tail in E as [-> ->]. right. by exists p.
    + rewrite app_comm_cons, (assoc_L (++)) in E. apply app_inj_tail in E as [-> ->]. left.
      apply Forall_app in Hpost as [Hpost Hx%Forall_cons_1]. split; [apply Hx|]. by exists pre, p, post.
  - intros [[Ho (pre&p&post&->&Hs&Hpost)]|(p&->&Hs)].
    + exists pre, p, (post ++ [o]). rewrite <- app_assoc. split; [done|]. split; [done|]. apply Forall_app. auto.
    + exists all, p, []. auto.
Qed.

(** What the loop remembers is what it observed. *)
Record remembers (ls : LoopState) (all : list Observation) : Prop := {
  rm_progress : stalled all (no_progress ls);
  rm_seen : ∀ signal, signal ∈ seen_percept_signals ls ↔ seen_before all signal;
  rm_last : last_percept ls = shown all
}.
Lemma first_remembers : remembers first_loop [].
Proof.
  split; [|intros signal|done].
  - exists [], []. split; [done|]. split; [done|]. split; [by intros [|]|by left].
  - split; [by intros ?%elem_of_nil|]. by intros ([|]&p&post&?&_).
Qed.

Lemma changed_state_spec before after :
  changed_state lib before after = true ↔ state_progress_signature lib after ≠ state_progress_signature lib before.
Proof. unfold changed_state. rewrite negb_true_iff. apply bool_decide_eq_false. Qed.

(** An observation that changes the state starts everything again; one that does not, and is no percept, only counts. *)
Lemma remembers_change ls' all o : changes o → no_progress ls' = 0 → seen_percept_signals ls' = [] →
  last_percept ls' = shown (all ++ [o]) → remembers ls' (all ++ [o]).
Proof.
  intros Ho H1 H2 H3. split; [rewrite H1; apply stalled_progress; by left| |done]. intros signal.
  rewrite H2, seen_before_snoc. split; [by intros ?%elem_of_nil|]. intros [[? _]|(p&->&_)]; done.
Qed.
Lemma remembers_stall ls ls' all o : remembers ls all → ¬ changes o → (∀ p, o ≠ Saw p) →
  no_progress ls' = no_progress ls + 1 → seen_percept_signals ls' = seen_percept_signals ls →
  last_percept ls' = shown (all ++ [o]) → remembers ls' (all ++ [o]).
Proof.
  intros [Hn Hs _] Ho Hp H1 H2 H3. split; [| |done].
  - rewrite H1. apply stalled_more; [done|]. intros [?|(p&->&_)]; [done|by eapply Hp].
  - intros signal. rewrite H2, Hs, seen_before_snoc. split; [auto|]. intros [[_ ?]|(p&->&_)]; [done|by destruct (Hp p)].
Qed.
Lemma advance_remembers ls all o : remembers ls all → remembers (advance lib o ls) (all ++ [o]).
Proof.
  intros Hr. assert (∀ x, last (all ++ [x]) = Some x) as Hlast by (intros; apply last_snoc).
  destruct o as [p|p|p before after|before after]; cbn [advance].
  - pose proof Hr as [Hn Hs _]. unfold see_percept. case_bool_decide as Hin.
    + split; cbn; [|intros signal; rewrite seen_before_snoc|unfold shown; by rewrite Hlast].
      * apply stalled_more; [done|]. intros [[]|(q&[= <-]&Hnew)]. by apply Hnew, Hs.
      * rewrite Hs. split; [intros H; left; split; [by intros []|done]|]. intros [[_ ?]|(q&[= <-]&<-)]; [done|by apply Hs].
    + split; cbn; [|intros signal; rewrite seen_before_snoc|unfold shown; by rewrite Hlast].
      * apply stalled_progress. right. exists p. split; [done|]. by rewrite <- Hs.
      * rewrite elem_of_app, Hs, list_elem_of_singleton. split.
        -- intros [H| ->]; [left; split; [by intros []|done]|right; by exists p].
        -- intros [[_ ?]|(q&[= <-]&<-)]; auto.
  - eapply remembers_stall; [exact Hr|by intros []|done|done|done|]. unfold shown. by rewrite Hlast.
  - unfold patch_deferred. destruct (changed_state lib before after) eqn:E.
    + apply remembers_change; [by apply changed_state_spec|done|done|]. unfold shown. by rewrite Hlast.
    + eapply remembers_stall; [exact Hr| |done|done|done|unfold shown; by rewrite Hlast].
      intros H%changed_state_spec. congruence.
  - unfold patch_applied. destruct (changed_state lib before after) eqn:E.
    + apply remembers_change; [by apply changed_state_spec|done|done|]. unfold shown. by rewrite Hlast.
    + eapply remembers_stall; [exact Hr| |done|done|done|unfold shown; by rewrite Hlast].
      intros H%changed_state_spec. congruence.
Qed.

Lemma load_frame_iteration run_id iteration last recent s frame s' :
  load_frame lib run_id iteration last recent s = (Ok frame, s') → fr_iteration frame = iteration.
Proof.
  unfold load_frame, atomic. match goal with |- (let '(r, s') := ?m s in _) = _ → _ => destruct (m s) as [[f|e] s1] eqn:E end; [|done].
  intros [= -> _]. apply bind_Ok in E as (c&s2&_&E). apply bind_Ok in E as (d&s3&_&E). apply bind_Ok in E as (st&s4&_&E).
  apply bind_Ok in E as (needs&s5&_&E). by apply ret_Ok in E as [-> _].
Qed.

Lemma investigation_finish_Ok run_id frame target reason iteration s o s' :
  finish lib self run_id frame target reason iteration s = (Ok o, s') →
  run_status o = target ∧ ir_stop_reason (ro_result o) = reason.
Proof.
  unfold finish, task_result. intros H. apply bind_Ok in H as (r&s1&H0&H). apply bind_Ok in H as (u&s2&_&H).
  apply ret_Ok in H as [-> _]. apply bind_Ok in H0 as (d&s3&_&H0). apply bind_Ok in H0 as (needs&s4&_&H0).
  by apply ret_Ok in H0 as [-> _].
Qed.

(** Where an observation of an iteration comes from: the planner answered, in the frame that was read, with a perception or a
    delegation that found the percept, or with a patch that the state gate applied to the state of the frame, refused, or
    applied only without its resolutions. *)
Definition came_from (run_id : string) (iteration : Z) (o : Observation) : Prop :=
  ∃ frame action last recent s0 s1 s2 s3 s s' s'',
    load_frame lib run_id iteration last recent s0 = (Ok frame, s1) ∧ next_action self frame s2 = (Ok action, s3) ∧
    match o, action with
    | Saw p, PerceptionAction q => execute_perception lib self run_id frame q s = (Ok p, s')
    | Saw p, DelegationAction q => delegate lib self run_id frame q iteration s = (Ok (inr p), s')
    | PatchApplied before after, StatePatchAction patch =>
        ∃ r, apply_state_patch lib self run_id frame patch s = (Ok r, s') ∧ before = fr_state frame ∧ after = pa_state r
    | PatchDeferred p before after, StatePatchAction patch =>
        ∃ e r, apply_state_patch lib self run_id frame patch s = (Err e, s') ∧ is_resolution_rejection e = true ∧
          apply_state_patch lib self run_id frame (deferred_patch patch) s' = (Ok r, s'') ∧
          before = fr_state frame ∧ after = pa_state r
    | PatchRejected p, StatePatchAction patch =>
        ∃ e tried, apply_state_patch lib self run_id frame tried s = (Err e, s') ∧ is_patch_rejection e = true ∧
          (tried = patch ∨ tried = deferred_patch patch) ∧ p = patch_rejection_percept lib (sp_patch_id patch) e
    | _, _ => False
    end.

Lemma attempt_Ok {A} caught (m : prog Session A) s x s' : attempt caught m s = (Ok x, s') →
  match x with inl a => m s = (Ok a, s') | inr e => m s = (Err e, s') ∧ caught e = true end.
Proof.
  unfold attempt, try_catch, mbind, prog_bind. destruct (m s) as [[a|e] s1]; cbn; [by intros [= <- <-]|].
  destruct (caught e) eqn:E; [by intros [= <- <-]|done].
Qed.

Lemma act_observation run_id frame action iteration last recent s0 s1 s2 s3 s o s' :
  load_frame lib run_id iteration last recent s0 = (Ok frame, s1) → next_action self frame s2 = (Ok action, s3) →
  act lib self run_id frame action iteration s = (Ok (inr o), s') → came_from run_id iteration o.
Proof.
  intros Hf Ha H. exists frame, action, last, recent, s0, s1, s2, s3.
  destruct action as [q|q|patch|reason|reason]; cbn [act] in H; apply bind_Ok in H as (x&t1&Hx&H).
  - apply ret_Ok in H as [[= ->] _]. by exists s, t1, s.
  - destruct x as [x|p]; apply ret_Ok in H as [H _]; [done|]. injection H as ->. by exists s, t1, s.
  - apply ret_Ok in H as [[= ->] _]. unfold patch_step in Hx. apply bind_Ok in Hx as (y&t2&Hy&Hx). apply attempt_Ok in Hy.
    destruct y as [r|e].
    { apply ret_Ok in Hx as [-> _]. exists s, t2, s. split; [done|]. split; [done|]. by exists r. }
    destruct Hy as [Hy He]. destruct (is_resolution_rejection e) eqn:Hres.
    2: { apply ret_Ok in Hx as [-> _]. exists s, t2, s. split; [done|]. split; [done|]. exists e, patch. auto. }
    cbv zeta in Hx. apply bind_Ok in Hx as (z&t3&Hz&Hx). apply attempt_Ok in Hz. destruct z as [r|e'].
    + apply bind_Ok in Hx as (u&t4&_&Hx). apply ret_Ok in Hx as [-> _]. exists s, t2, t3. split; [done|]. split; [done|].
      by exists e, r.
    + destruct Hz as [Hz He']. apply ret_Ok in Hx as [-> _]. exists t2, t3, s. split; [done|]. split; [done|].
      exists e', (deferred_patch patch). auto.
  - apply bind_Ok in H as (o'&t2&_&H). by apply ret_Ok in H as [? _].
  - by apply ret_Ok in H as [? _].
Qed.

Lemma iterate_log run_id iteration ls w r w' :
  iterate lib self run_id iteration ls w = (r, w') →
  (w'.2 = w.2 ∧ ∀ ls', r ≠ Ok (inr ls')) ∨
  (w'.2 = w.2 ++ [Asked iteration] ∧ ∀ ls', r ≠ Ok (inr ls')) ∨
  ∃ o, w'.2 = w.2 ++ [Asked iteration; Observed o] ∧ came_from run_id iteration o ∧
    if no_progress_limit self <=? no_progress (advance lib o ls)
    then (∀ ls', r ≠ Ok (inr ls')) ∧ ∀ x, r = Ok (inl x) →
           run_status x = BLOCKED ∧ ir_stop_reason (ro_result x) = no_progress_stop_reason (last_percept (advance lib o ls))
    else r = Ok (inr (advance lib o ls)).
Proof.
  assert (∀ A B (m : prog Session A) (k : A → prog World B) (w : World) r w', (zoom m ≫= k) w = (r, w') →
    (∃ e, r = Err e ∧ w'.2 = w.2) ∨ ∃ a w1, m w.1 = (Ok a, w1.1) ∧ w1.2 = w.2 ∧ k a w1 = (r, w')) as Hzoom.
  { intros A B m k w0 r0 w0' H. unfold mbind, prog_bind in H. destruct (zoom m w0) as [[a|e] w1] eqn:E; apply zoom_log in E as [E1 E2].
    - right. by exists a, w1.
    - left. exists e. by injection H as <- <-. }
  unfold iterate. intros H. apply Hzoom in H as [(e&->&Hl)|(frame&w1&Hf&Hl1&H)]; [by left|].
  apply Hzoom in H as [(e&->&Hl)|(u&w2&_&Hl2&H)]; [left; split; [congruence|done]|].
  apply Hzoom in H as [(e&->&Hl)|(complete&w3&_&Hl3&H)]; [left; split; [congruence|done]|].
  destruct complete as [o|]; [injection H as <- <-; left; split; [congruence|done]|].
  apply Hzoom in H as [(e&->&Hl)|(boundary&w4&_&Hl4&H)]; [left; split; [congruence|done]|].
  destruct boundary as [o|]; [injection H as <- <-; left; split; [congruence|done]|].
  right. pose proof Hf as Hframe. apply load_frame_iteration in Hf. unfold mbind at 1, prog_bind at 1 in H. unfold ask_planner at 1 in H.
  destruct (next_action self frame w4.1) as [[action|e] s5] eqn:Hnext; [|injection H as <- <-; left; cbn; split; [congruence|done]].
  apply Hzoom in H as [(e&->&Hl)|(step&w6&Hact&Hl6&H)]; cbn [fst snd] in *; [left; split; [congruence|done]|].
  destruct step as [o|obs]; [injection H as <- <-; left; split; [congruence|done]|]. right. exists obs.
  unfold mbind at 1, prog_bind at 1 in H. unfold observe at 1 in H. cbv zeta in H.
  assert (w6.2 ++ [Observed obs] = w.2 ++ [Asked iteration; Observed obs]) as Hlog by (by rewrite Hl6, Hf, Hl4, Hl3, Hl2, Hl1, <- app_assoc).
  assert (came_from run_id iteration obs) as Hcame by (by eapply act_observation).
  destruct (_ <=? _); [|injection H as <- <-; done].
  apply Hzoom in H as [(e&->&Hl)|(refreshed&w7&_&Hl7&H)]; cbn [fst snd] in *; [split; [congruence|done]|].
  apply Hzoom in H as [(e&->&Hl)|(o&w8&Ho&Hl8&H)]; [split; [congruence|done]|]. injection H as <- <-.
  split; [congruence|]. split; [done|]. split; [done|]. intros x [= <-]. by apply investigation_finish_Ok in Ho.
Qed.

(** The trace of at most [n] iterations from [i] on, after the observations [past], of a run that ends with [r]: the planner is
    asked in these iterations in turn, each time after every earlier answer was observed and with fewer observations
    without progress behind it than the limit; an observation is what came of the answer of its iteration; there are never more; when there are as many, the run gives up, and its
    reason tells what it was last shown; and when there is progress to the end of the iterations, they are what ran out. *)
Record walks (run_id : string) (past : list Observation) (n : nat) (i : Z) (trace : list Entry)
  (r : result InvestigationRoleOutcome) : Prop := {
  wa_asked : asked_in trace = seqZ i (Z.of_nat (length (asked_in trace)));
  wa_within : (length (asked_in trace) ≤ n)%nat;
  wa_call : ∀ pre j post, trace = pre ++ Asked j :: post →
    Z.of_nat (length (observed_in pre)) = j - i ∧ ∃ k, stalled (past ++ observed_in pre) k ∧ k < no_progress_limit self;
  wa_observed : ∀ pre j o post, trace = pre ++ Asked j :: Observed o :: post → came_from run_id j o;
  wa_end : ∃ k, stalled (past ++ observed_in trace) k ∧ k ≤ no_progress_limit self ∧
    ∀ o, r = Ok o →
      (k = no_progress_limit self →
         run_status o = BLOCKED ∧ ir_stop_reason (ro_result o) = no_progress_stop_reason (shown (past ++ observed_in trace))) ∧
      (k < no_progress_limit self → length (observed_in trace) = n →
         run_status o = BLOCKED ∧ ir_stop_reason (ro_result o) = "budget_exhausted"%string)
}.

Lemma walks_nil run_id past n i r k : stalled past k → k < no_progress_limit self →
  (∀ o, r = Ok o → n = 0%nat → run_status o = BLOCKED ∧ ir_stop_reason (ro_result o) = "budget_exhausted"%string) →
  walks run_id past n i [] r.
Proof.
  intros Hk Hlim Hr. split; cbn; [done|lia|by intros [] ?|by intros []|]. exists k. rewrite app_nil_r. split; [done|]. split; [lia|].
  intros o Ho. split; [lia|]. intros _ Hn. by apply Hr.
Qed.
Lemma walks_asked run_id past n i r k : stalled past k → k < no_progress_limit self → walks run_id past (S n) i [Asked i] r.
Proof.
  intros Hk Hlim. split; cbn; [done|lia| |by intros [|x []]|].
  - intros [|x [|]] j post [= <-]; [|done..]. cbn. split; [lia|]. exists k. by rewrite app_nil_r.
  - exists k. rewrite app_nil_r. split; [done|]. split; [lia|]. intros o _. split; [lia|done].
Qed.
Lemma walks_step run_id past n i o trace r k : stalled past k → k < no_progress_limit self → came_from run_id i o →
  walks run_id (past ++ [o]) n (i + 1) trace r → walks run_id past (S n) i (Asked i :: Observed o :: trace) r.
Proof.
  intros Hk Hlim Ho [Hasked Hwithin Hcall Hobs Hend]. split; cbn [asked_in observed_in omap list_omap].
  - change (i :: asked_in trace = seqZ i (Z.of_nat (S (length (asked_in trace))))).
    rewrite Hasked at 1. rewrite Nat2Z.inj_succ, (seqZ_cons i) by lia. by rewrite Z.pred_succ.
  - change (S (length (asked_in trace)) ≤ S n)%nat. lia.
  - intros [|x [|y pre]] j post E; [injection E as <- <-|done|injection E as <- <- E].
    + cbn. split; [lia|]. exists k. by rewrite app_nil_r.
    + destruct (Hcall _ _ _ E) as [Hlen Hst]. rewrite <- app_assoc in Hst.
      change (observed_in (Asked i :: Observed o :: pre)) with (o :: observed_in pre). cbn [length]. split; [lia|done].
  - intros [|x [|y pre]] j o' post E; [by injection E as <- <- <-|done|injection E as <- <- E]. by eapply Hobs.
  - rewrite <- app_assoc in Hend. destruct Hend as (k'&Hst&Hle&Hr). exists k'. split; [done|]. split; [done|].
    intros x Hx. destruct (Hr x Hx) as [H1 H2]. split; [done|]. intros Hlt Hn. apply H2; [done|].
    change (S (length (observed_in trace)) = S n) in Hn. lia.
Qed.
Lemma advance_next o ls : no_progress (advance lib o ls) = 0 ∨ no_progress (advance lib o ls) = no_progress ls + 1.
Proof.
  destruct o; cbn [advance]; unfold see_percept, patch_deferred, patch_applied; repeat case_match; cbn; auto.
Qed.
Lemma walks_given_up run_id past n i o ls r : came_from run_id i o → remembers ls past → 1 ≤ no_progress_limit self → no_progress ls < no_progress_limit self →
  no_progress_limit self ≤ no_progress (advance lib o ls) →
  (∀ x, r = Ok x → run_status x = BLOCKED ∧
     ir_stop_reason (ro_result x) = no_progress_stop_reason (last_percept (advance lib o ls))) →
  walks run_id past (S n) i [Asked i; Observed o] r.
Proof.
  intros Ho Hr H1 Hlim Hge Hx. destruct (advance_remembers ls past o Hr) as [Hst _ Hlast].
  assert (no_progress (advance lib o ls) = no_progress_limit self) as Heq by (pose proof (advance_next o ls); lia).
  eapply walks_step; [apply Hr|done|done|]. split; cbn; [done|lia|by intros [] ?|by intros []|].
  exists (no_progress_limit self). rewrite app_nil_r, <- Heq, <- Hlast. split; [done|]. split; [lia|].
  intros x Hres. split; [auto|lia].
Qed.

Lemma run_iterations_walks run_id last n iteration ls past w r w' :
  1 ≤ no_progress_limit self → remembers ls past → no_progress ls < no_progress_limit self →
  run_iterations lib self run_id last n iteration ls w = (r, w') →
  ∃ trace, w'.2 = w.2 ++ trace ∧ walks run_id past n iteration trace r.
Proof.
  intros H1. revert iteration ls past w. induction n as [|n IH]; intros iteration ls past w Hr Hnp H; cbn [run_iterations] in H.
  - exists []. rewrite app_nil_r. unfold mbind, prog_bind in H.
    destruct (zoom _ w) as [[frame|e] w1] eqn:E; apply zoom_log in E as [E1 _].
    + apply zoom_log in H as [E2 H]. split; [congruence|]. eapply walks_nil; [apply Hr|done|]. intros o -> _.
      by apply investigation_finish_Ok in H.
    + injection H as <- <-. split; [done|]. by eapply walks_nil; [apply Hr|done|].
  - unfold mbind, prog_bind in H. destruct (iterate lib self run_id iteration ls w) as [[step|e] w1] eqn:E; apply iterate_log in E.
    + destruct E as [[Hl Hno]|[[Hl Hno]|(obs&Hl&Hcame&Hlim)]].
      * destruct step as [o|ls']; [|by destruct (Hno ls')]. injection H as <- <-. exists []. rewrite app_nil_r. split; [done|].
        by eapply walks_nil; [apply Hr|done|].
      * destruct step as [o|ls']; [|by destruct (Hno ls')]. injection H as <- <-. eexists. split; [exact Hl|].
        by eapply walks_asked; [apply Hr|].
      * pose proof (advance_remembers ls past obs Hr) as Hr'. destruct (Z.leb_spec (no_progress_limit self) (no_progress (advance lib obs ls))).
        -- destruct Hlim as [Hno Hx]. destruct step as [o|ls']; [|by destruct (Hno ls')]. injection H as <- <-.
           eexists. split; [exact Hl|]. eapply walks_given_up; [done|exact Hr|done..|]. intros x [= ->]. by apply Hx.
        -- injection Hlim as ->. destruct (IH _ _ _ _ Hr' H0 H) as (trace&Ht&Hw). eexists. split; [rewrite Ht, Hl, <- app_assoc; reflexivity|].
           by eapply walks_step; [apply Hr|done|done|].
    + injection H as <- <-. destruct E as [[Hl _]|[[Hl _]|(obs&Hl&Hcame&Hlim)]].
      * exists []. rewrite app_nil_r. split; [done|]. by eapply walks_nil; [apply Hr|done|].
      * eexists. split; [exact Hl|]. by eapply walks_asked; [apply Hr|].
      * eexists. split; [exact Hl|]. destruct (Z.leb_spec (no_progress_limit self) (no_progress (advance lib obs ls))); [|done].
        by eapply walks_given_up.
Qed.

Lemma walks_result run_id past n i trace r r' : (∀ o, r' = Ok o → r = Ok o) →
  walks run_id past n i trace r → walks run_id past n i trace r'.
Proof.
  intros Hr [H1 H2 H3 H4 (k&Hk&Hle&Hend)]. split; [done..|]. exists k. split; [done|]. split; [done|]. intros o Ho. by apply Hend, Hr.
Qed.

(** The turns a budget leaves: the [agent_turns] of its account, eight when there is no account or it names none. *)
Definition allowed_turns (account : option (list (string * string))) (turns : Z) : Prop :=
  match account with
  | Some limits => match dict_get "agent_turns" limits with Some text => int_of_text text = Ok turns | None => turns = 8 end
  | None => turns = 8
  end.

Lemma iteration_window_Ok run_id s first last s' : iteration_window self run_id s = (Ok (first, last), s') →
  s' = s ∧ first = model_request_count run_id PLAN_PURPOSE s + 1 ∧
  ∃ manifest turns, get_task_context run_id (ss_tasks s) = (Ok manifest, ss_tasks s) ∧
    allowed_turns (ss_budget_limits s !! cm_budget_ref manifest) turns ∧ last = Z.min (max_iterations self) turns.
Proof.
  intros H. unfold iteration_window in H. apply bind_Ok in H as (m&s2&H0&H).
  assert (reads (get_task_context run_id)) as Hr.
  { unfold get_task_context, lookup_run. eauto 6 with reading. }
  apply zoom_Ok in H0 as (db&H0&->). pose proof (Hr (ss_tasks s)) as Hs. cbn [view session_tasks] in H0. rewrite H0 in Hs.
  cbn in Hs. subst db.
  replace (set_view (ss_tasks s) s) with s in H by (by destruct s as [[]]).
  apply bind_Ok in H as (s3&s4&H1&H). apply get_store_Ok in H1 as [-> ->].
  apply bind_Ok in H as (turns&s5&H1&H). apply lift_Ok in H1 as [Ht ->]. apply ret_Ok in H as [[= -> ->] ->].
  split; [done|]. split; [done|]. exists m, turns. split; [done|]. split; [|done]. unfold allowed_turns, budget_limits in *.
  destruct (ss_budget_limits s !! cm_budget_ref m) as [limits|]; [|by injection Ht].
  destruct (dict_get "agent_turns" limits) as [text|]; [done|]. change (int_of_text "8" = Ok turns) in Ht.
  assert (int_of_text "8" = Ok 8) as E8 by reflexivity. congruence.
Qed.

(** C28. An investigation asks its planner within its turns, and gives up when it does not get on.  Whatever the planner and the
    collaborators do, the calls of a run are numbered on from the model requests already recorded for it, one after the other,
    up to the smaller of the bound of the role and the [agent_turns] of the budget account its manifest names (eight, when
    there is none), so a resumed run cannot exceed them.  Progress is a patch that changed the state of the case, or a
    percept unlike all that were seen since the last such patch.  Each call is made with fewer observations without progress
    behind it than the limit of the role, and a run that returns after as many without progress in a row ends blocked, with
    a reason that tells what it was last shown - and not before: one that gets on until its turns are used ends blocked
    for want of turns. *)
Theorem investigation_bounded run_id s log r w' :
  make_runtime self = Ok self → run lib self run_id (s, log) = (r, w') →
  ∃ trace, w'.2 = log ++ trace ∧
    ((∃ e, r = Err e) ∧ trace = [] ∨
     ∃ s1 manifest turns first last,
       ensure_running lib self run_id s = (Ok tt, s1) ∧
       first = 1 + Z.of_nat (length (filter (λ m : option string * string, m.1 = Some run_id ∧ m.2 = "m5.investigation_plan"%string)
                                       (ss_model_requests s1))) ∧
       get_task_context run_id (ss_tasks s1) = (Ok manifest, ss_tasks s1) ∧
       allowed_turns (ss_budget_limits s1 !! cm_budget_ref manifest) turns ∧ last = Z.min (max_iterations self) turns ∧
       Forall (λ i, first ≤ i ≤ last) (asked_in trace) ∧
       walks run_id [] (Z.to_nat (last + 1 - first)) first trace r).
Proof.
  unfold make_runtime. destruct (_ || _) eqn:Hlim; [done|]. intros _. apply orb_false_iff in Hlim as [_ Hlim%Z.ltb_ge].
  intros [(e&->&->&_)|(s1&r1&w1&Hstart&Hloop&Hend)]%investigation_run_cases.
  { exists []. cbn. rewrite app_nil_r. split; [done|]. left. by split; [exists e|]. }
  assert (w'.2 = w1.2 ∧ ∀ o, r = Ok o → r1 = Ok o) as [Hlog Hres].
  { destruct Hend as [(o&->&->&->)|(e&->&H)]; [done|]. unfold mbind, prog_bind in H.
    destruct (zoom _ w1) as [[u|e'] w2] eqn:E; apply zoom_log in E as [E _]; [unfold raise in H|]; by injection H as <- <-. }
  rewrite Hlog. unfold run_loop, mbind, prog_bind in Hloop.
  destruct (zoom (iteration_window self run_id) _) as [[[first last]|e] w2] eqn:E; apply zoom_log in E as [E1 E2]; cbn [fst snd] in *.
  2: { injection Hloop as <- <-. exists []. rewrite app_nil_r. split; [done|]. left. split; [|done].
       destruct r as [o|e']; [by specialize (Hres o eq_refl)|by exists e']. }
  apply iteration_window_Ok in E2 as (_&Hfirst&manifest&turns&Hm&Hturns&Hlast).
  apply (run_iterations_walks _ _ _ _ _ []) in Hloop as (trace&Htrace&Hwalks); [|done|apply first_remembers|cbn; lia].
  exists trace. rewrite Htrace, E1. split; [done|]. right. exists s1, manifest, turns, first, last.
  split; [done|]. split; [rewrite Hfirst; unfold model_request_count; apply Z.add_comm|]. split; [done|]. split; [done|].
  split; [done|]. split; [|by eapply walks_result].
  rewrite (wa_asked _ _ _ _ _ _ Hwalks). apply Forall_forall. intros i Hi%elem_of_seqZ. pose proof (wa_within _ _ _ _ _ _ Hwalks). lia.
Qed.
End properties.

(** ** The planner's answers *)

(** An object is visible in a content when the content names it somewhere. *)
Inductive visible (id : string) : json → Prop :=
| visible_here fields : text_under "object_id" fields = Some id → visible id (JObj fields)
| visible_field fields k v : (k, v) ∈ fields → visible id v → visible id (JObj fields)
| visible_item items v : v ∈ items → visible id v → visible id (JArr items).

Definition stable_visible (content : json) (ref : string) : Prop := ∃ id, ref = "object:" +:+ id ∧ visible id content.

Lemma elem_of_set_default {A} k (v : A) d x : x ∈ set_default k v d → x ∈ d ∨ x.2 = v.
Proof.
  unfold set_default. destruct (dict_get k d); [by left|]. intros [?| ->%list_elem_of_singleton]%elem_of_app; auto.
Qed.

Lemma object_aliases_visible fields aliases x :
  x ∈ object_aliases fields aliases → x ∈ aliases ∨ stable_visible (JObj fields) x.2.
Proof.
  unfold object_aliases. destruct (text_under "object_id" fields) as [id|] eqn:E; [|by left]. cbv zeta.
  assert (stable_visible (JObj fields) ("object:" +:+ id)) as Hs by (exists id; split; [done|by constructor]).
  intros Hx. assert (x ∈ aliases ∨ x.2 = "object:" +:+ id) as [?| ->]; [|by left|by right].
  destruct (text_under "canonical_key" fields); repeat (apply elem_of_set_default in Hx as [Hx|Hx]; [|by right]); by left.
Qed.

Lemma collect_visible : ∀ v aliases x, x ∈ collect_object_ref_aliases v aliases → x ∈ aliases ∨ stable_visible v x.2.
Proof.
  fix IH 1. intros [| b | z | f | s | items | fields] aliases x Hx; cbn [collect_object_ref_aliases] in Hx; try by left.
  - assert (∀ l aliases, (∀ v, v ∈ l → v ∈ items) →
      x ∈ fold_left (λ a child, collect_object_ref_aliases child a) l aliases → x ∈ aliases ∨ stable_visible (JArr items) x.2) as H.
    2: { apply (H items aliases); [done|exact Hx]. }
    clear Hx. intros l. induction l as [|v l IHl]; intros a Hin Hx; [by left|]. cbn [fold_left] in Hx.
    apply IHl in Hx as [Hx|?]; [|by right|intros w Hw; apply Hin; by right].
    apply (IH v) in Hx as [?|(id&Hr&Hv)]; [by left|]. right. exists id. split; [done|].
    eapply visible_item; [|exact Hv]. apply Hin. by left.
  - assert (∀ l aliases, (∀ kv, kv ∈ l → kv ∈ fields) →
      x ∈ fold_left (λ a (kv : string * json), collect_object_ref_aliases kv.2 a) l aliases →
      x ∈ aliases ∨ stable_visible (JObj fields) x.2) as H.
    2: { apply (H fields _ (λ _ h, h)) in Hx as [Hx|?]; [by apply object_aliases_visible|by right]. }
    clear Hx. intros l. induction l as [|[k v] l IHl]; intros a Hin Hx; [by left|]. cbn [fold_left] in Hx.
    apply IHl in Hx as [Hx|?]; [|by right|intros w Hw; apply Hin; by right].
    apply (IH v) in Hx as [?|(id&Hr&Hv)]; [by left|]. right. exists id. split; [done|].
    eapply (visible_field _ _ k); [|exact Hv]. apply Hin. by left.
Qed.

Lemma aliases_visible contents k r :
  dict_get k (visible_object_ref_aliases contents) = Some r → ∃ content, content ∈ contents ∧ stable_visible content r.
Proof.
  intros H. assert ((k, r) ∈ visible_object_ref_aliases contents) as Hin.
  { revert H. generalize (visible_object_ref_aliases contents) as d. induction d as [|[k' v'] d IH]; [done|]. simpl.
    case_decide; [intros [= ->]; subst; by left|intros ?; right; by apply IH]. }
  revert Hin. unfold visible_object_ref_aliases.
  assert (∀ l aliases, (k, r) ∈ foldl (λ a content, collect_object_ref_aliases content a) aliases l →
            (k, r) ∈ aliases ∨ ∃ content, content ∈ l ∧ stable_visible content r) as Hl.
  { induction l as [|c l IH]; intros aliases; simpl; [by left|]. intros [Hc|(c'&Hc'&Hv)]%IH.
    - apply collect_visible in Hc as [?|?]; [by left|right; exists c; split; [by left|done]].
    - right. exists c'. split; [by right|done]. }
  intros [Hnil|?]%Hl; [by apply elem_of_nil in Hnil|done].
Qed.

(** The reference of an operation after normalization: absent, the stable reference of a target of the case or of an object
    the model was shown, or what the model wrote. *)
Definition bound_ref (targets : list string) (contents : list json) (written final : option string) : Prop :=
  match written, final with
  | None, None => True
  | Some w, Some f => (w ∈ targets ∧ f = "object:" +:+ w) ∨
                      ((w ∉ targets) ∧ (f = w ∨ ∃ content, content ∈ contents ∧ stable_visible content f))
  | _, _ => False
  end.

Lemma normalize_ref_bound targets contents written :
  bound_ref targets contents written (normalize_patch_target_ref targets (visible_object_ref_aliases contents) written).
Proof.
  destruct written as [w|]; [|done]. simpl. case_bool_decide as Hw; [by left|right]. split; [done|].
  destruct (dict_get w _) as [r|] eqn:E; [right; by eapply aliases_visible|by left].
Qed.

Lemma string_length_chars s : length (chars s) = String.length s.
Proof. induction s as [|c s IH]; [done|]. simpl. by rewrite IH. Qed.
Lemma reason_code_ok fallback reason : is_reason_code fallback = true → is_reason_code (reason_code fallback reason) = true.
Proof. intros H. unfold reason_code. by destruct (is_reason_code (py_strip reason)) eqn:E. Qed.
Lemma reason_code_short reason : is_reason_code reason = true → slen (stop_reason_of reason) ≤ 128.
Proof.
  unfold is_reason_code. destruct (chars reason) as [|c l] eqn:E; [done|]. intros [_ Hl%Nat.leb_le]%andb_true_iff.
  assert (slen reason ≤ 90) as Hs by (unfold slen; rewrite <- string_length_chars, E; simpl; lia).
  unfold stop_reason_of. case_bool_decide; [|lia]. rewrite slen_app.
  assert (slen "completion_predicate_unsatisfied:" = 33) as -> by done. lia.
Qed.

(** What the model answers is bound to the frame it was asked in.  Whatever the decision of the model says, the action the
    shipped planner returns is of the same kind and passes the guards of the role: a perception asks for the case and the
    selected need of the frame, with the target and the operation the model chose; a patch is for the case and the revision
    of the frame, with the operations the model wrote, valid exactly when they were, whose target references are the model's
    own, a target of the case, or an object the model was shown; a stop or wait reason is a code that fits its column; and
    the identity of a delegation depends on the run, the target and the set of dimensions asked for only. *)
Theorem planner_answers_bound sha256_hex provider_ref decide frame s action s' :
  model_next_action sha256_hex provider_ref decide frame s = (Ok action, s') →
  ∃ d, decide frame s = (Ok d, s') ∧
  match decision d, action with
  | PerceptionAction r0, PerceptionAction r =>
      perception_escapes frame r = Ok tt ∧ bind_request frame r = r ∧ pr_operation r = pr_operation r0 ∧ pr_target r = pr_target r0
  | StatePatchAction p0, StatePatchAction p =>
      patch_escapes frame p = Ok tt ∧
      Forall2 (λ o0 o, (op_proposition o, op_proposed_state o, op_disposition o, op_evidence_refs o, op_reasoning_relation o,
                        op_resolves_need_id o) =
                       (op_proposition o0, op_proposed_state o0, op_disposition o0, op_evidence_refs o0, op_reasoning_relation o0,
                        op_resolves_need_id o0) ∧
                       (validate_operation o = Ok o ↔ validate_operation o0 = Ok o0) ∧
                       bound_ref (is_targets (fr_state frame)) (visible_contents d) (op_target_ref o0) (op_target_ref o))
        (sp_operations p0) (sp_operations p)
  | WaitAction _, WaitAction reason | StopAction _, StopAction reason =>
      is_reason_code reason = true ∧ slen (stop_reason_of reason) ≤ 128
  | DelegationAction r0, DelegationAction r =>
      dr_target_object_id r = dr_target_object_id r0 ∧ dr_required_dimensions r = dr_required_dimensions r0 ∧
      (∀ d2 r2, decision d2 = DelegationAction r2 → dr_target_object_id r2 = dr_target_object_id r0 → dr_cve_id r2 = dr_cve_id r0 →
         dr_required_dimensions r2 ≡ₚ dr_required_dimensions r0 → ∀ hash budget aliases r3,
         normalize_action sha256_hex provider_ref frame hash budget aliases (decision d2) = DelegationAction r3 →
         delegation_id r3 = delegation_id r)
  | _, _ => False
  end.
Proof.
  unfold model_next_action. intros H. apply bind_Ok in H as (d&s1&Hd&H). apply ret_Ok in H as [-> ->]. exists d. split; [done|].
  destruct (decision d) as [r|r|p|reason|reason] eqn:Ed; cbn [normalize_action].
  - unfold perception_escapes, bind_request. cbn. rewrite bool_decide_eq_false_2 by set_solver. cbn.
    destruct (selected_need frame) as [n|]; cbn; [rewrite bool_decide_eq_false_2 by set_solver|]; done.
  - split; [done|]. split; [done|]. intros d2 r2 Ed2 Ht Hc Hp hash budget aliases r3. rewrite Ed2. cbn [normalize_action].
    intros [= <-]. cbn. rewrite Ht, Hc. do 9 f_equal. f_equal.
    apply (StronglySorted_unique String.le); [apply (StronglySorted_merge_sort _)..|]. by rewrite !merge_sort_Permutation, Hp.
  - split; [unfold patch_escapes; cbn; by rewrite bool_decide_eq_false_2, Z.eqb_refl by tauto|].
    apply Forall2_fmap_r, Forall_Forall2_diag, Forall_forall. intros o Ho. cbn. split; [done|]. split; [|apply normalize_ref_bound].
    unfold validate_operation. cbn. destruct (py_blank _); [done|]. by destruct (_ && _ && _).
  - pose proof (reason_code_ok "waiting_for_evidence" reason eq_refl). split; [done|by apply reason_code_short].
  - pose proof (reason_code_ok "planner_stop_unstructured_reason" reason eq_refl). split; [done|by apply reason_code_short].
Qed.

(** The shipped planner keeps to what the role asks when what it does up to the answer of the model does. *)
#[export] Instance model_planner cd md K sha256_hex provider_ref (decide : InvestigationFrame → prog Session PlannerDecision)
  port deleg boundary stream max limit :
  (∀ frame, keeps cd md K (decide frame)) →
  (∀ frame s d patch s', decide frame s = (Ok d, s') → decision d = StatePatchAction patch →
     ∀ o, o ∈ sp_operations patch → validate_operation o = Ok o) →
  (∀ p, port = Some p → ∀ id r step, keeps cd md K (p id r step)) →
  (∀ p, deleg = Some p → ∀ id r, keeps cd md K (p id r)) →
  (∀ p, boundary = Some p → ∀ id, keeps cd md K (p id)) →
  Collaborators cd md K (mkInvestigationRoleRuntime (model_next_action sha256_hex provider_ref decide) port deleg boundary
                           stream max limit).
Proof.
  intros H1 H2 H3 H4 H5. split; cbn [next_action observation_port delegate_enrichment blocking_reason]; [| |exact H3|exact H4|exact H5].
  - intros frame s r s' Hs H. unfold model_next_action, mbind, prog_bind in H. destruct (decide frame s) as [[d|e] s1] eqn:E;
      injection H as _ <-; by eapply H1.
  - intros frame s patch s' H o Ho. unfold model_next_action in H. apply bind_Ok in H as (d&s1&Hd&H). apply ret_Ok in H as [H _].
    destruct (decision d) as [r|r|p|reason|reason] eqn:Ed; try discriminate H. injection H as ->. cbn in Ho.
    apply list_elem_of_fmap in Ho as (o0&->&Ho0). specialize (H2 _ _ _ _ _ Hd Ed o0 Ho0). unfold validate_operation in *. cbn.
    destruct (py_blank _); [done|]. by destruct (_ && _ && _).
Qed.

(** ** A sample run

    The sample case asks whether an object is affected; the planner looks at the knowledge base, then records the finding that
    answers the need. *)

Definition sample_lib : Library :=
  mkLibrary (λ s, s) context_id (λ s, s) (λ j, match j with JObj [(_, JStr s); _; _; _] => s | _ => ""%string end) (λ r, ir_stop_reason r)
    type_name (λ _, None) sample_iso sample_read (λ _, ""%string) (λ _ _, true) (λ _ _, Finite 1 0) (λ _ _, Ok (Finite 0 0))
    (λ i _, 100 + i) (λ key, "event:" +:+ key) sample_fresh.

Definition sample_contract : TaskContract :=
  match build_investigation_contract "root" "user:alice" INVESTIGATE_INCIDENT "c1" ["o1"%string] ["n1"%string] "policy-v1" 1 None true with
  | Ok c => c
  | Err _ => mkTaskContract "" 0 "" None LOOKUP [] [] [] [] [] INTERNAL_STATE default_DelegationCeiling [] CANCELLABLE ""
  end.
Definition sample_tasks : TaskDB :=
  run_ops (λ s, s) tc_id context_id
    [CreateTaskRun sample_contract (sample_manifest "ctx" "root@1" "InvestigationRole@1" 1 None) InvestigationRole "env" "events"
       (Some "c1"%string) None (Some "run"%string) "" "e0" "task-runtime" 10] empty_TaskDB.
Definition sample_session (turns : string) : Session :=
  mkSession (sample_tasks, asked) sample_kb sample_retrieval 7 {["budget:1"%string := [("agent_turns"%string, turns)]]} [].

Definition sample_decide (frame : InvestigationFrame) : prog Session PlannerDecision :=
  mret (mkPlannerDecision
    (if bool_decide (fr_iteration frame = 1) then PerceptionAction (Perception.sample_request 0 8)
     else StatePatchAction sample_patch) "hash" "budget:1" []).
Definition sample_runtime : InvestigationRoleRuntime :=
  mkInvestigationRoleRuntime (model_next_action (λ s, s) "model@1" sample_decide) None None None "events" 64 2.
Definition sample_investigation (turns : string) := run sample_lib sample_runtime "run" (sample_session turns, []).

(** What a run leaves: how it ended, its needs, the calls of the planner, the status of its row, its events, those of the case. *)
Definition summary (x : result InvestigationRoleOutcome * World) :=
  match x with
  | (Ok o, w) => Some (run_status o, ir_stop_reason (ro_result o), resolved_need_ids (ro_result o), asked_in w.2,
                       status <$> task_runs (ss_tasks w.1) !! "run"%string, event_type <$> task_events (ss_tasks w.1),
                       ev_event_type <$> case_events (ss_cases w.1))
  | (Err _, _) => None
  end.

Lemma sample_session_wf turns : session_wf tc_id context_id (sample_session turns).
Proof.
  split; [apply run_ops_good, empty_wf|exact asked_wf|]. intros m Hm.
  assert (perception_events asked = []) as Hnil by by vm_compute. change (ss_cases (sample_session turns)) with asked in Hm.
  rewrite Hnil in Hm. by apply not_elem_of_nil in Hm.
Qed.

#[export] Instance sample_collaborators K `{!PreOrder K} : Collaborators tc_id context_id K sample_runtime.
Proof.
  apply model_planner; try done.
  - intros frame s r s' Hs [= _ <-]. split; [done|]. split; reflexivity.
  - intros frame s d patch s' [= <- _]. cbn. case_bool_decide; [done|]. intros [= <-] o Ho%list_elem_of_singleton. by subst o.
Qed.

Example investigation_completes : summary (sample_investigation "4") =
  Some (COMPLETED, "evidence_sufficient"%string, ["n1"%string], [1; 2], Some COMPLETED,
        [TASK_CREATED; TASK_PATCHED; TASK_STARTED; CONTEXT_UPDATED; EVIDENCE_FOUND; CONTEXT_UPDATED; INVESTIGATION_STATE_CHANGED;
         CONTEXT_UPDATED; TASK_COMPLETED],
        [EVIDENCE_NEED_OPENED; PERCEPTION_RECORDED; FACT_CONFIRMED; EVIDENCE_NEED_RESOLVED]).
Proof. vm_compute. reflexivity. Qed.

(** With two turns the last one answers the need, and the run ends blocked for want of turns: the needs are looked at before
    the planner is asked, and not after the last action. *)
Example answered_and_blocked : summary (sample_investigation "2") =
  Some (BLOCKED, "budget_exhausted"%string, ["n1"%string], [1; 2], Some BLOCKED,
        [TASK_CREATED; TASK_PATCHED; TASK_STARTED; CONTEXT_UPDATED; EVIDENCE_FOUND; CONTEXT_UPDATED; INVESTIGATION_STATE_CHANGED;
         TASK_BLOCKED],
        [EVIDENCE_NEED_OPENED; PERCEPTION_RECORDED; FACT_CONFIRMED; EVIDENCE_NEED_RESOLVED]).
Proof. vm_compute. reflexivity. Qed.

(** A planner that looks at the same thing over and over: the first percept is progress, and two more are not. *)
Definition staring_runtime : InvestigationRoleRuntime :=
  mkInvestigationRoleRuntime (model_next_action (λ s, s) "model@1" (λ _, mret (mkPlannerDecision
    (PerceptionAction (Perception.sample_request 0 8)) "hash" "budget:1" []))) None None None "events" 64 2.
Definition stared := run sample_lib staring_runtime "run" (sample_session "9", []).
Example gives_up : summary stared =
  Some (BLOCKED, "no_progress"%string, [], [1; 2; 3], Some BLOCKED,
        [TASK_CREATED; TASK_PATCHED; TASK_STARTED; CONTEXT_UPDATED; EVIDENCE_FOUND; CONTEXT_UPDATED; EVIDENCE_FOUND; CONTEXT_UPDATED;
         EVIDENCE_FOUND; TASK_BLOCKED],
        [EVIDENCE_NEED_OPENED; PERCEPTION_RECORDED; PERCEPTION_RECORDED; PERCEPTION_RECORDED]).
Proof. vm_compute. reflexivity. Qed.

(** A planner whose call raises: the run is failed and says what was raised. *)
Definition failing_runtime : InvestigationRoleRuntime :=
  mkInvestigationRoleRuntime (λ _, raise (OtherException "TimeoutError" "no answer")) None None None "events" 64 2.
Example raises_and_fails : let x := run sample_lib failing_runtime "run" (sample_session "9", []) in
  (match x.1 with Err e => Some (type_name e) | Ok _ => None end, asked_in x.2.2,
   (λ r, (status r, stop_reason r)) <$> task_runs (ss_tasks x.2.1) !! "run"%string, last (payload_ref <$> task_events (ss_tasks x.2.1)))
  = (Some "TimeoutError"%string, [1], Some (FAILED, Some "unexpected_runtime_error:TimeoutError"%string),
     Some "investigation-error:TimeoutError"%string).
Proof. vm_compute. reflexivity. Qed.

Lemma investigation_outcome_witness : ∃ o w' row,
  sample_investigation "2" = (Ok o, w') ∧ task_runs (ss_tasks w'.1) !! "run"%string = Some row ∧ status row = BLOCKED ∧
  stop_reason row = Some "budget_exhausted"%string ∧
  ("n1"%string ∈ resolved_need_ids (ro_result o) → ∃ n, evidence_needs (ss_cases w'.1) !! "n1"%string = Some n ∧ need_status n = NEED_RESOLVED).
Proof.
  pose proof answered_and_blocked as Hsum. destruct (sample_investigation "2") as [[o|e] w'] eqn:E; [|discriminate Hsum].
  unfold sample_investigation in E.
  destruct (investigation_outcome tc_id sample_lib sample_runtime "run" (sample_session "2") [] (Ok o) w'
              (sample_collaborators any_step) (sample_session_wf "2") E) as (c&d&row&_&_&Hrow&Hst&Hstop&_&Hneeds&_).
  cbn [summary] in Hsum. injection Hsum as H1 H2 _ _ _ _ _. exists o, w', row. split; [reflexivity|]. split; [exact Hrow|].
  split; [rewrite Hst; exact H1|]. split; [rewrite Hstop, H2; reflexivity|].
  intros Hin. destruct (Hneeds "n1"%string) as (_&Hres&_). by apply Hres in Hin as [_ ?].
Defined.

Lemma investigation_confined_witness : ∃ r w',
  sample_investigation "4" = (r, w') ∧ session_wf tc_id context_id w'.1 ∧
  (w'.1 = sample_session "4" ∨ ∃ new, perception_events (ss_cases w'.1) = perception_events asked ++ new).
Proof.
  destruct (sample_investigation "4") as [r w'] eqn:E. unfold sample_investigation in E. exists r, w'. split; [reflexivity|].
  destruct (investigation_confined tc_id sample_lib sample_runtime "run" (sample_session "4") [] r w'
              (sample_collaborators untouched) (sample_session_wf "4") E) as (Hwf&_&_&H).
  split; [exact Hwf|]. destruct H as [H|(row&case&_&_&_&_&new&Hnew&_)]; [left; exact H|right; exists new; exact Hnew].
Defined.

Lemma investigation_bounded_witness : ∃ r w',
  stared = (r, w') ∧ asked_in w'.2 = [1; 2; 3] ∧ walks sample_lib staring_runtime "run" [] 9 1 w'.2 r.
Proof.
  pose proof gives_up as Hsum. destruct stared as [r w'] eqn:E. unfold stared in E.
  destruct (investigation_bounded sample_lib staring_runtime "run" (sample_session "9") [] r w' eq_refl E)
    as (trace&Htrace&[[[e He] _]|(s1&manifest&turns&first&last&Hs1&Hfirst&Hm&Hturns&Hlast&_&Hwalks)]).
  { rewrite He in Hsum. discriminate Hsum. }
  exists r, w'. split; [reflexivity|]. cbn [app] in Htrace. rewrite Htrace in *.
  destruct r as [o|e]; [|discriminate Hsum]. cbn [summary] in Hsum. injection Hsum as _ _ _ H4 _ _ _. rewrite Htrace in H4.
  split; [exact H4|].
  assert (s1 = (ensure_running sample_lib staring_runtime "run" (sample_session "9")).2) as Es1 by (rewrite Hs1; reflexivity).
  assert (first = 1) as -> by (rewrite Hfirst, Es1; vm_compute; reflexivity).
  assert (cm_budget_ref manifest = "budget:1"%string) as Hbudget.
  { assert (Ok manifest = (get_task_context "run" (ss_tasks s1)).1) as Hm' by (rewrite Hm; reflexivity).
    rewrite Es1 in Hm'. vm_compute in Hm'. injection Hm' as ->. reflexivity. }
  rewrite Hbudget, Es1 in Hturns. vm_compute in Hturns. injection Hturns as <-. rewrite Hlast in Hwalks. exact Hwalks.
Defined.

Lemma planner_answers_bound_witness : ∃ frame action s',
  load_frame sample_lib "run" 2 None [] (sample_session "4") = (Ok frame, s') ∧
  model_next_action (λ s, s) "model@1" sample_decide frame s' = (Ok action, s') ∧
  match action with StatePatchAction p => patch_escapes frame p = Ok tt | _ => False end.
Proof.
  destruct (load_frame sample_lib "run" 2 None [] (sample_session "4")) as [[frame|e] s'] eqn:E; [|vm_compute in E; discriminate E].
  assert (fr_iteration frame = 2) as Hit by (by eapply load_frame_iteration).
  exists frame, (normalize_action (λ s, s) "model@1" frame "hash" "budget:1" [] (StatePatchAction sample_patch)), s'.
  assert (model_next_action (λ s, s) "model@1" sample_decide frame s' =
    (Ok (normalize_action (λ s, s) "model@1" frame "hash" "budget:1" [] (StatePatchAction sample_patch)), s')) as H.
  { unfold model_next_action, sample_decide, mbind, prog_bind. cbn [mret prog_ret]. rewrite Hit. reflexivity. }
  split; [reflexivity|]. split; [exact H|].
  destruct (planner_answers_bound (λ s, s) "model@1" sample_decide frame s' _ s' H) as (d&Hd&Hb).
  unfold sample_decide in Hd. injection Hd as <-. cbn [decision] in Hb. rewrite Hit in Hb. cbn in Hb. exact (proj1 Hb).
Defined.

