(* ===== verification/Watch.v ===== *)
(** * Watch: packages/investigation/runtime/watch.py, apps/watch_runtime.py and the reaction of apps/worker/tasks.py

    How a parked watch goes on.  An investigation that watches an incident parks: its run is completed with the stop reason
    [waiting_for_world_update] and its case waits ([park_watch_episode] of InvestigationRole).  A change of the knowledge base
    that touches the case activates it ([process_change] of InvestigationState); [spawn_for_world_change] then makes a fresh
    run from the last run that watched the case, its template, when an admission port permits; [runtime_admit] is the port
    that is shipped, over the policy engine, the budget ledger and the execution table.  [react_to_knowledge_change] is the
    part of the handler of [knowledge.changed] that does both in one transaction.

    The tables are [WatchDB].  The columns [task_run_id] of the budget accounts and of the executions are foreign keys to the
    runs, checked when a row is flushed.  The clock, uuid4 and the digests are parameters. *)

From S2P Require Import Prelude.
From S2P Require Import Effects.
From S2P Require Import Budget.
From S2P Require Import Policy.
From S2P Require Import TaskContracts.
From S2P Require Import TaskStore.
From S2P Require Import Execution.
From S2P Require Import Knowledge.
From S2P Require Import Admission.
From S2P Require Import InvestigationState.
From S2P Require Import Retrieval.
From S2P Require Import Perception.
From S2P Require Import InvestigationRole.

(** ** Data *)

Inductive WatchWakeDisposition :=
| WAKE_QUEUED | WAKE_REPLAY | NOT_ACTIVATED | NO_WATCH_TEMPLATE | TEMPLATE_NOT_TERMINAL | TEMPLATE_NOT_WAITING
| POLICY_DENIED | POLICY_OBLIGATION_UNSATISFIED | POLICY_INDETERMINATE.

Record WatchWakeResult := mkWatchWakeResult {
  wr_case_id : string;
  wr_trigger_ref : string;
  disposition : WatchWakeDisposition;
  wr_run_id : option string;
  wr_policy_decision_ref : option string;
  wr_policy_authorization : option string
}.

Record WatchWakeAdmission := mkWatchWakeAdmission {
  wa_allowed : bool;
  denial_reason : option WatchWakeDisposition;
  wa_policy_decision_ref : option string;
  wa_policy_authorization : option string;
  wa_budget_ref : option string;
  wa_execution_envelope_ref : option string;
  wa_capability_envelope_ref : option string
}.

(** The tables a wake touches. *)
Record WatchDB := mkWatchDB {
  wd_audit : AuditDB;
  wd_executions : gmap string ExecutionRunModel;
  wd_budget : BudgetDB
}.
Definition wd_tasks (s : WatchDB) : TaskDB := (wd_audit s).1.
Definition wd_cases (s : WatchDB) : CaseDB := (wd_audit s).2.

#[export] Program Instance watch_tasks : Embeds WatchDB TaskDB := {|
  view := wd_tasks; set_view := λ t s, mkWatchDB (t, wd_cases s) (wd_executions s) (wd_budget s) |}.
Solve Obligations with by intros; repeat match goal with s : WatchDB |- _ => destruct s as [[]] end.
#[export] Program Instance watch_cases : Embeds WatchDB CaseDB := {|
  view := wd_cases; set_view := λ c s, mkWatchDB (wd_tasks s, c) (wd_executions s) (wd_budget s) |}.
Solve Obligations with by intros; repeat match goal with s : WatchDB |- _ => destruct s as [[]] end.
#[export] Program Instance watch_executions : Embeds WatchDB (gmap string ExecutionRunModel) := {|
  view := wd_executions; set_view := λ x s, mkWatchDB (wd_audit s) x (wd_budget s) |}.
Solve Obligations with by intros; repeat match goal with s : WatchDB |- _ => destruct s end.
#[export] Program Instance watch_runs : Embeds WatchDB (TaskDB * gmap string ExecutionRunModel) := {|
  view := λ s, (wd_tasks s, wd_executions s); set_view := λ x s, mkWatchDB (x.1, wd_cases s) x.2 (wd_budget s) |}.
Solve Obligations with by intros; repeat match goal with s : WatchDB |- _ => destruct s as [[]] | x : _ * _ |- _ => destruct x end.
#[export] Program Instance watch_budget : Embeds WatchDB BudgetDB := {|
  view := wd_budget; set_view := λ b s, mkWatchDB (wd_audit s) (wd_executions s) b |}.
Solve Obligations with by intros; repeat match goal with s : WatchDB |- _ => destruct s end.

(** [WatchWakeAdmissionPort.admit]: the contract, the run and the execution of the template, its context, the case, the
    trigger, the run to make and the revision of the knowledge base. *)
Definition WatchWakeAdmissionPort : Type :=
  TaskContract → string → string → ContextManifest → string → string → string → Z → prog WatchDB WatchWakeAdmission.

Definition WATCH_PRODUCER : string := "watch-wake-runtime".

(** [order_by(created_at.desc(), run_id.desc())] *)
Definition newer (r1 r2 : TaskRunModel) : Prop :=
  created_at r2 < created_at r1 ∨ created_at r1 = created_at r2 ∧ String.le (TaskStore.run_id r2) (TaskStore.run_id r1).
#[export] Instance newer_dec : RelDecision newer.
Proof. intros r1 r2. unfold newer. apply _. Defined.

(** The join and the condition of the query: runs of the case whose contract watches an incident. *)
Definition watches (case : string) (db : TaskDB) (r : TaskRunModel) : bool :=
  bool_decide (run_case_id r = Some case)
  && match get_contract_version (run_contract_version_id r) db with
     | Some m => bool_decide (tcv_task_kind m = WATCH_INCIDENT)
     | None => false
     end.
Definition watch_template (case : string) (db : TaskDB) : option TaskRunModel :=
  head (merge_sort newer (filter (λ r, watches case db r) (map_to_list (task_runs db)).*2)).

Section wake.
(** [uuid5_url] is [uuid5(NAMESPACE_URL, text)]; [now] and [fresh] give the instants and the event identities of a wake. *)
Context (uuid5_url : string → string) (contract_digest : TaskContract → string) (manifest_digest : ContextManifest → string)
  (now : string → Z) (fresh : string → string).

(** [_watch_wake_run_id] *)
Definition watch_wake_run_id (case trigger_ref : string) : string :=
  uuid5_url ("secfusion:watch-wake:" +:+ case +:+ ":" +:+ trigger_ref).

Section service.
Context (port : WatchWakeAdmissionPort) (stream_name : string).

(** The context of the fresh run. *)
Definition wake_manifest (run_id case capability budget : string) (previous : ContextManifest) (world_revision case_revision : Z)
  : ContextManifest :=
  mkContextManifest ("context:watch-wake:" +:+ run_id) 1 (Some (context_id previous)) (cm_task_contract_ref previous)
    (role_ref previous) (case_ref previous) (Some world_revision)
    (Some ("case:" +:+ case +:+ "@" +:+ str_of_Z case_revision)) []
    (TaskContracts.evidence_refs previous) (object_refs previous) (relation_refs previous) [] None None
    (trajectory_checkpoint_ref previous) [] [] (policy_context_ref previous) capability budget None.

(** The end of [spawn_for_world_change]: the run is created and queued. *)
Definition spawn_run (impact : WorldChangeImpact) (trigger_ref run_id budget execution capability : string)
  (contract : TaskContract) (previous : ContextManifest) : prog WatchDB unit :=
  state ← zoom (get_state (wi_case_id impact) (now "state"));
  manifest ← lift (make_ContextManifest (wake_manifest run_id (wi_case_id impact) capability budget previous
                     (wi_world_revision impact) (is_case_revision state)));
  role ← lift (match dict_get "InvestigationRole" canonical_roles with
               | Some role => Ok role | None => Err (OtherException "KeyError" "InvestigationRole") end);
  zoom (create_task_run uuid5_url contract_digest manifest_digest contract manifest role execution stream_name
          (Some (wi_case_id impact)) None (Some run_id) (fresh "run") (fresh "created") WATCH_PRODUCER (now "created"));;
  zoom (transition_task_run run_id QUEUED ("watch-wake:" +:+ trigger_ref) ("watch-wake-queued:" +:+ trigger_ref) stream_name
          WATCH_PRODUCER None None (fresh "queued") (now "queued"));;
  mret tt.

(** From the template on: the admission and the run. *)
Definition spawn_from (impact : WorldChangeImpact) (trigger_ref run_id : string) (template : TaskRunModel)
  : prog WatchDB WatchWakeResult :=
  s ← get_store;
  contract_model ← require (get_contract_version (run_contract_version_id template) (wd_tasks s))
    (RuntimeError "WATCH template references missing contract/context version");
  context_model ← require (get_manifest_version (run_context_manifest_version_id template) (wd_tasks s))
    (RuntimeError "WATCH template references missing contract/context version");
  let contract := contract_json contract_model in
  let previous := manifest_json context_model in
  admission ← port contract (TaskStore.run_id template) (execution_envelope_ref template) previous (wi_case_id impact) trigger_ref
                run_id (wi_world_revision impact);
  let answer d := mkWatchWakeResult (wi_case_id impact) trigger_ref d (Some run_id) (wa_policy_decision_ref admission)
                    (wa_policy_authorization admission) in
  if negb (wa_allowed admission) then mret (answer (default POLICY_DENIED (denial_reason admission)))
  else
    match wa_budget_ref admission, wa_execution_envelope_ref admission, wa_capability_envelope_ref admission with
    | Some budget, Some execution, Some capability =>
        spawn_run impact trigger_ref run_id budget execution capability contract previous;;
        mret (answer WAKE_QUEUED)
    | _, _, _ => raise (RuntimeError "WATCH admission permitted without execution-control refs")
    end.

(** [WatchWakeService.spawn_for_world_change] *)
Definition spawn_for_world_change (impact : WorldChangeImpact) (trigger_ref : string) : prog WatchDB WatchWakeResult :=
  let answer d run := mkWatchWakeResult (wi_case_id impact) trigger_ref d run None None in
  if negb (case_activated impact) then mret (answer NOT_ACTIVATED None)
  else
    s ← get_store;
    case ← require (cases (wd_cases s) !! wi_case_id impact) (LookupError "investigation case not found" (wi_case_id impact));
    if bool_decide (case_status case ≠ "active"%string) then mret (answer NOT_ACTIVATED None)
    else
      let run_id := watch_wake_run_id (wi_case_id impact) trigger_ref in
      if bool_decide (is_Some (task_runs (wd_tasks s) !! run_id)) then mret (answer WAKE_REPLAY (Some run_id))
      else
        match watch_template (wi_case_id impact) (wd_tasks s) with
        | None => mret (answer NO_WATCH_TEMPLATE None)
        | Some template =>
            if negb (is_terminal (status template)) then mret (answer TEMPLATE_NOT_TERMINAL (Some (TaskStore.run_id template)))
            else if bool_decide (stop_reason template ≠ Some WORLD_UPDATE)
            then mret (answer TEMPLATE_NOT_WAITING (Some (TaskStore.run_id template)))
            else spawn_from impact trigger_ref run_id template
        end.

(** The handler of [knowledge.changed] after the projections: the change is applied to the cases, and every case it activated
    may wake its watch, all in one transaction. *)
Definition react_to_knowledge_change (case_event : string → Z → string) (kb : KnowledgeDB) (background_llm_enabled : bool)
  (change : KnowledgeChangeNotice) : prog WatchDB (list WorldChangeImpact) := atomic (
  impacts ← zoom (process_change case_event kb change (now "change"));
  (if background_llm_enabled
   then for_each impacts (λ impact,
          spawn_for_world_change impact ("knowledge-revision:" +:+ str_of_Z (kc_revision change)));; mret tt
   else mret tt);;
  mret impacts).
End service.

(** ** The shipped admission *)

Record RuntimeWatchWakeAdmission := mkRuntimeWatchWakeAdmission {
  rw_policy : StaticPolicyEngine;
  rw_episode_timeout_seconds : Z;
  rw_fulfilled_obligation_kinds : gset string
}.
Definition make_watch_admission (self : RuntimeWatchWakeAdmission) : result RuntimeWatchWakeAdmission :=
  if rw_episode_timeout_seconds self <=? 0 then Err (ValueError "episode_timeout_seconds must be positive") else Ok self.

(** [BudgetGovernor.create_account] for a run, with the foreign key of the row. *)
Definition create_run_account (account_id task_run_id : string) (limits : BudgetLimits) (instant : Z)
  : prog WatchDB BudgetAccountView :=
  s ← get_store;
  check (bool_decide (accounts (wd_budget s) !! account_id = None)
         && bool_decide (task_runs (wd_tasks s) !! task_run_id = None)) (IntegrityError task_run_id);;
  zoom (create_account uuid5_url instant account_id limits (Some task_run_id) None).

Section admission.
Context (hexdigest : PolicyRequest → PolicyDecision → string) (self : RuntimeWatchWakeAdmission).

Definition watch_request (contract : TaskContract) (template_run_id case trigger_ref run_id : string) (world_revision : Z)
  : PolicyRequest :=
  mkPolicyRequest WATCH_RESUME (tc_principal contract) "resume_watch" ("case:" +:+ case)
    [("task_contract_id"%string, JStr (tc_id contract)); ("task_run_id"%string, JStr run_id); ("case_id"%string, JStr case);
     ("template_run_id"%string, JStr template_run_id); ("trigger_ref"%string, JStr trigger_ref);
     ("world_revision"%string, JInt world_revision)].

Definition watch_envelope (contract : TaskContract) (template_run_id case trigger_ref run_id decision : string)
  (previous : ContextManifest) (template : ExecutionEnvelope) : ExecutionEnvelope :=
  mkExecutionEnvelope ("execution:" +:+ run_id) None (tc_id contract) run_id (Some case) (role_ref previous) 1 PROFILE_WATCH
    (capability_scope template) (mkDatetime (now "deadline" + rw_episode_timeout_seconds self * 1000000) true) ("budget:" +:+ run_id)
    (tc_policy_revision contract) (identity_scope template) (network_policy template) (side_effect_policy template)
    (sandbox_profile_revision template)
    (dict_set "watch_policy_decision_ref" (JStr decision)
       (dict_set "watch_previous_run_id" (JStr template_run_id)
          (dict_set "watch_trigger_ref" (JStr trigger_ref) (trace_context template)))).

(** [RuntimeWatchWakeAdmission.admit] *)
Definition runtime_admit : WatchWakeAdmissionPort :=
  λ contract template_run_id template_execution previous case trigger_ref run_id world_revision,
  if bool_decide (engine_revision (rw_policy self) ≠ tc_policy_revision contract)
  then mret (mkWatchWakeAdmission false (Some POLICY_INDETERMINATE) None (Some (Authorization_value INDETERMINATE)) None None None)
  else
    request ← lift (validate_request (watch_request contract template_run_id case trigger_ref run_id world_revision));
    let decision := evaluate (rw_policy self) request in
    let ref := decision_ref hexdigest (rw_policy self) request decision in
    let refused why := mkWatchWakeAdmission false (Some why) (Some ref) (Some (Authorization_value (authorization decision)))
                         None None None in
    if bool_decide (authorization decision ≠ PERMIT)
    then mret (refused (if bool_decide (authorization decision = INDETERMINATE) then POLICY_INDETERMINATE else POLICY_DENIED))
    else if negb (obligations_satisfied decision (rw_fulfilled_obligation_kinds self))
    then mret (refused POLICY_OBLIGATION_UNSATISFIED)
    else
      budget ← zoom (snapshot (cm_budget_ref previous));
      execution ← zoom (get_execution template_execution);
      limits ← lift (make_BudgetLimits (snap_limits budget));
      create_run_account ("budget:" +:+ run_id) run_id limits (now "account");;
      envelope ← lift (validate_envelope (watch_envelope contract template_run_id case trigger_ref run_id ref previous execution));
      zoom (create_execution envelope (now "execution"));;
      mret (mkWatchWakeAdmission true None (Some ref) (Some (Authorization_value (authorization decision)))
              (Some ("budget:" +:+ run_id)) (Some ("execution:" +:+ run_id)) (Some ("capability:watch:" +:+ run_id))).
End admission.
End wake.

(** ** The template *)

#[export] Instance newer_trans : Transitive newer.
Proof. intros a b c [H1|[H1 L1]] [H2|[H2 L2]]; unfold newer; [left; lia..|]. right. split; [lia|by etrans]. Qed.
#[export] Instance newer_total : Total newer.
Proof.
  intros a b. unfold newer. destruct (Z.lt_trichotomy (created_at a) (created_at b)) as [?|[E|?]]; [right; by left| |left; by left].
  destruct (total String.le (TaskStore.run_id a) (TaskStore.run_id b)); [right|left]; right; split; done || lia.
Qed.

Lemma elem_of_rows {A} (m : gmap string A) x : x ∈ (map_to_list m).*2 ↔ ∃ k, m !! k = Some x.
Proof.
  rewrite list_elem_of_fmap. split.
  - intros ([k y]&->&H%elem_of_map_to_list). by exists k.
  - intros [k H]. exists (k, x). split; [done|by apply elem_of_map_to_list].
Qed.

(** A run that watches a case: it is a run of the case, under a contract that watches an incident. *)
Definition watch_run (case : string) (db : TaskDB) (r : TaskRunModel) : Prop :=
  run_case_id r = Some case ∧ ∃ m, get_contract_version (run_contract_version_id r) db = Some m ∧ tcv_task_kind m = WATCH_INCIDENT.

Lemma watches_true case db r : watches case db r = true ↔ watch_run case db r.
Proof.
  unfold watches, watch_run. rewrite andb_true_iff, bool_decide_eq_true. destruct (get_contract_version _ _) as [m|].
  - rewrite bool_decide_eq_true. naive_solver.
  - naive_solver.
Qed.

Lemma watch_template_Some case db t :
  watch_template case db = Some t ↔
  ∃ l, merge_sort newer (filter (λ r, watches case db r) (map_to_list (task_runs db)).*2) = t :: l.
Proof. unfold watch_template. destruct (merge_sort _ _) as [|x l]; simpl; [naive_solver|]. split; [intros [= ->]; by exists l|naive_solver]. Qed.

(** The template is the latest run that watches the case. *)
Record latest_watch (case : string) (db : TaskDB) (t : TaskRunModel) : Prop := {
  lt_stored : ∃ k, task_runs db !! k = Some t;
  lt_watch : watch_run case db t;
  lt_latest : ∀ k r, task_runs db !! k = Some r → watch_run case db r →
    r = t ∨ created_at r < created_at t ∨ created_at r = created_at t ∧ String.le (TaskStore.run_id r) (TaskStore.run_id t)
}.

Lemma newer_spec r t : newer t r ↔
  created_at r < created_at t ∨ created_at r = created_at t ∧ String.le (TaskStore.run_id r) (TaskStore.run_id t).
Proof. unfold newer. naive_solver. Qed.

Lemma watch_template_latest case db t : watch_template case db = Some t → latest_watch case db t.
Proof.
  intros [l Hl]%watch_template_Some.
  assert (∀ r, r ∈ t :: l ↔ watches case db r = true ∧ ∃ k, task_runs db !! k = Some r) as Hin.
  { intros r. rewrite <- Hl, merge_sort_Permutation, list_elem_of_filter, elem_of_rows, Is_true_true. done. }
  pose proof (StronglySorted_merge_sort newer (filter (λ r, watches case db r) (map_to_list (task_runs db)).*2)) as Hs.
  rewrite Hl in Hs. apply StronglySorted_inv in Hs as [_ Hs]. rewrite Forall_forall in Hs.
  destruct (proj1 (Hin t) (list_elem_of_here _ _)) as [Hw Hk]. split; [done|by apply watches_true|]. intros k r Hr Hwr%watches_true.
  assert (r ∈ t :: l) as [->|H]%elem_of_cons by (apply Hin; eauto); [by left|right]. by apply newer_spec, Hs.
Qed.

Lemma watch_template_None case db : watch_template case db = None → ∀ k r, task_runs db !! k = Some r → ¬ watch_run case db r.
Proof.
  intros H k r Hr Hw%watches_true. unfold watch_template in H.
  assert (r ∈ merge_sort newer (filter (λ r, watches case db r) (map_to_list (task_runs db)).*2)) as Hin.
  { rewrite merge_sort_Permutation, list_elem_of_filter, elem_of_rows, Hw. eauto. }
  destruct (merge_sort _ _); [by apply elem_of_nil in Hin|done].
Qed.

(** The order of two different runs is strict, so there is one latest. *)
Lemma latest_watch_template case db t :
  (∀ k r, task_runs db !! k = Some r → TaskStore.run_id r = k) → latest_watch case db t → watch_template case db = Some t.
Proof.
  intros Hkey [[k Hk] Hw Hmax]. destruct (watch_template case db) as [t'|] eqn:E.
  - destruct (watch_template_latest _ _ _ E) as [[k' Hk'] Hw' Hmax']. f_equal.
    destruct (Hmax _ _ Hk' Hw') as [?|H1]; [done|]. destruct (Hmax' _ _ Hk Hw) as [?|H2]; [done|].
    assert (TaskStore.run_id t' = TaskStore.run_id t) as Hid.
    { destruct H1 as [?|[? ?]], H2 as [?|[? ?]]; try lia. by apply (anti_symm String.le). }
    pose proof (Hkey _ _ Hk) as <-. pose proof (Hkey _ _ Hk') as <-. rewrite Hid in Hk'. congruence.
  - by destruct (watch_template_None _ _ E _ _ Hk).
Qed.

(** ** What a wake expects of its admission

    The port decides over its own tables: the runs and the cases are as they were, and a refusal says why. *)
Class Admits (port : WatchWakeAdmissionPort) : Prop := {
  admits_audit c t x m case trigger run rev s r s' : port c t x m case trigger run rev s = (r, s') → wd_audit s' = wd_audit s;
  admits_refusal c t x m case trigger run rev s adm s' :
    port c t x m case trigger run rev s = (Ok adm, s') → wa_allowed adm = false →
    default POLICY_DENIED (denial_reason adm) ∈ [POLICY_DENIED; POLICY_OBLIGATION_UNSATISFIED; POLICY_INDETERMINATE]
}.

(** A program that leaves the runs and the cases alone. *)
Definition spares {A} (m : prog WatchDB A) : Prop := ∀ s, wd_audit (m s).2 = wd_audit s.

Lemma spares_bind {A B} (m : prog WatchDB A) (k : A → prog WatchDB B) : spares m → (∀ a, spares (k a)) → spares (m ≫= k).
Proof.
  intros Hm Hk s. unfold mbind, prog_bind. specialize (Hm s). destruct (m s) as [[a|e] s1]; cbn in *; [|done].
  rewrite <- Hm. apply Hk.
Qed.
Lemma spares_reads {A} (m : prog WatchDB A) : reads m → spares m.
Proof. intros Hm s. by rewrite Hm. Qed.
Lemma spares_budget {A} (m : prog BudgetDB A) : spares (zoom m).
Proof. intros s. unfold zoom. by destruct (m (view s)). Qed.
Lemma spares_executions {A} (m : prog (gmap string ExecutionRunModel) A) : spares (zoom m).
Proof. intros s. unfold zoom. by destruct (m (view s)). Qed.

(** A new execution is a row of its own table. *)
Lemma create_execution_tasks envelope t tasks : preserves (λ db : RunDB, db.1 = tasks) (create_execution envelope t).
Proof.
  unfold create_execution. apply preserves_bind; [apply preserves_get_store|intros db]. destruct (db.2 !! execution_id envelope).
  - apply preserves_bind; [apply preserves_check|intros _; apply preserves_lift].
  - apply preserves_bind; [destruct (parent_execution_id envelope); [apply preserves_check|apply preserves_ret]|intros _].
    apply preserves_bind; [apply preserves_check|intros _]. apply preserves_bind; [by apply preserves_zoom|intros _; apply preserves_ret].
Qed.
Lemma spares_create_execution envelope t : spares (zoom (create_execution envelope t)).
Proof.
  intros s. unfold zoom. pose proof (create_execution_tasks envelope t (wd_tasks s) (view s) eq_refl) as E.
  destruct (create_execution envelope t (view s)) as [r x]. cbn in E |- *. rewrite E. unfold wd_audit, wd_tasks, wd_cases. by destruct s as [[tasks cases] ex bu].
Qed.
Create HintDb sparing.
#[export] Hint Resolve spares_bind spares_budget spares_executions spares_create_execution : sparing.
#[export] Hint Extern 1 (spares (lift _)) => (apply spares_reads, reads_lift) : sparing.
#[export] Hint Extern 1 (spares (check _ _)) => (apply spares_reads, reads_check) : sparing.
#[export] Hint Extern 1 (spares (mret _)) => (apply spares_reads, reads_ret) : sparing.
#[export] Hint Extern 1 (spares get_store) => (apply spares_reads, reads_get_store) : sparing.

#[export] Instance runtime_admits uuid5_url now hexdigest self : Admits (runtime_admit uuid5_url now hexdigest self).
Proof.
  split.
  - intros c t x m case trigger run rev s r s' H. assert (spares (runtime_admit uuid5_url now hexdigest self c t x m case trigger run rev)) as Hs.
    { unfold runtime_admit. destruct (bool_decide _); [auto with sparing|]. apply spares_bind; [auto with sparing|intros request].
      destruct (bool_decide _); [auto with sparing|]. destruct (negb _); [auto with sparing|]. unfold create_run_account. eauto 20 with sparing. }
    specialize (Hs s). by rewrite H in Hs.
  - intros c t x m case trigger run rev s adm s' H Hno. unfold runtime_admit in H.
    destruct (bool_decide _); [apply ret_Ok in H as [-> _]; cbn; set_solver|]. apply bind_Ok in H as (request&s1&_&H). cbv zeta in H.
    destruct (bool_decide _); [apply ret_Ok in H as [-> _]; cbn; destruct (bool_decide _); set_solver|].
    destruct (negb _); [apply ret_Ok in H as [-> _]; cbn; set_solver|].
    repeat (apply bind_Ok in H as (?&?&_&H)). apply ret_Ok in H as [-> _]. done.
Qed.

(** ** What a wake does *)

(** A wake is due: the change activated the case, the run of the trigger does not exist, and the latest watch of the case is
    parked.  [c] and [m] are the contract and the context the template worked under. *)
Record wake_due (uuid5_url : string → string) (impact : WorldChangeImpact) (trigger_ref : string) (s : WatchDB)
  (t : TaskRunModel) (c : TaskContract) (m : ContextManifest) : Prop := {
  due_activated : case_activated impact = true;
  due_case : ∃ k, cases (wd_cases s) !! wi_case_id impact = Some k ∧ case_status k = "active"%string;
  due_fresh : task_runs (wd_tasks s) !! watch_wake_run_id uuid5_url (wi_case_id impact) trigger_ref = None;
  due_template : latest_watch (wi_case_id impact) (wd_tasks s) t;
  due_terminal : is_terminal (status t) = true;
  due_parked : stop_reason t = Some WORLD_UPDATE;
  due_contract : contract_json <$> get_contract_version (run_contract_version_id t) (wd_tasks s) = Some c;
  due_context : manifest_json <$> get_manifest_version (run_context_manifest_version_id t) (wd_tasks s) = Some m
}.

(** A fresh run was made of the template: queued, for the role, the case and the contract of the watch, under the controls
    that were admitted and a first context at the revisions of the knowledge base and the case; nothing else changed. *)
Record watch_run_made (contract_digest : TaskContract → string) (manifest_digest : ContextManifest → string)
  (impact : WorldChangeImpact) (run : string) (c : TaskContract) (m : ContextManifest) (adm : WatchWakeAdmission)
  (s s' : WatchDB) (row : TaskRunModel) : Prop := {
  made_only : task_runs (wd_tasks s') = <[run := row]> (task_runs (wd_tasks s));
  made_row : (TaskStore.run_id row, status row, run_role_id row, run_case_id row, parent_run_id row) =
             (run, QUEUED, "InvestigationRole"%string, Some (wi_case_id impact), None);
  made_execution : wa_execution_envelope_ref adm = Some (execution_envelope_ref row);
  made_contract : contract_of (wd_tasks s') run = Some c;
  made_context : ∃ budget capability k mm, wa_budget_ref adm = Some budget ∧ wa_capability_envelope_ref adm = Some capability ∧
    cases (wd_cases s) !! wi_case_id impact = Some k ∧
    get_manifest_version (run_context_manifest_version_id row) (wd_tasks s') = Some mm ∧
    cmv_content_hash mm = manifest_digest (wake_manifest run (wi_case_id impact) capability budget m
                            (wi_world_revision impact) (current_revision k));
  made_history : good_step contract_digest manifest_digest (wd_tasks s) (wd_tasks s');
  made_cases : same_history (wd_cases s) (wd_cases s') ∧ case_wf (wd_cases s')
}.

Section spawn.
Context (uuid5_url : string → string) (contract_digest : TaskContract → string) (manifest_digest : ContextManifest → string)
  (now : string → Z) (fresh : string → string) (port : WatchWakeAdmissionPort) (stream : string).
Abbreviation spawn := (spawn_for_world_change uuid5_url contract_digest manifest_digest now fresh port stream).
Abbreviation from := (spawn_from uuid5_url contract_digest manifest_digest now fresh port stream).
Abbreviation wake_id := (watch_wake_run_id uuid5_url).

(** The contract of the template is the contract of its latest version row with that key. *)
Lemma stored_contract db v c v' c' :
  task_wf contract_digest manifest_digest db → get_contract_version v db = Some c → get_contract_version v' db = Some c' →
  contract_key c' = (tc_id (contract_json c), contract_revision (contract_json c)) → c' = c.
Proof.
  intros Hwf [Hc _]%find_elem [Hc' _]%find_elem Hk.
  pose proof (proj1 (Forall_forall _ _) (wf_contracts _ _ _ Hwf) c Hc) as [E1 E2 _ _].
  eapply NoDup_fmap_eq; [exact (wf_contract_keys _ _ _ Hwf)|done|done|]. unfold contract_key at 2. by rewrite Hk, E1, E2.
Qed.

(** The end of a wake makes the run. *)
Lemma spawn_run_made impact trigger run budget execution capability v c m s u s' :
  run ≠ ""%string → task_wf contract_digest manifest_digest (wd_tasks s) → case_wf (wd_cases s) →
  get_contract_version v (wd_tasks s) = Some c →
  spawn_run uuid5_url contract_digest manifest_digest now fresh stream impact trigger run budget execution capability
    (contract_json c) m s = (Ok u, s') →
  ∃ row, watch_run_made contract_digest manifest_digest impact run (contract_json c) m
    (mkWatchWakeAdmission true None None None (Some budget) (Some execution) (Some capability)) s s' row.
Proof.
  intros Hne Hwf Hcw Hv H. unfold spawn_run in H. apply bind_Ok in H as (st&s1&H0&H).
  apply zoom_Ok in H0 as (cs&H0&->). cbn [view watch_cases] in H0.
  destruct (get_state_Ok _ _ _ _ _ Hcw H0) as (Hcw1&Hsame&cur&Hpr&Hview).
  unfold state_view in Hview. apply make_state_Ok in Hview as (_&_&_&_&_&_&Hrev&_).
  destruct (pr_case _ _ _ Hpr) as (k&Hk&Hk1&_). rewrite (sh_cases _ _ Hsame) in Hk.
  apply bind_Ok in H as (manifest&s1&H1&H). apply lift_Ok in H1 as [Hm ->].
  apply bind_Ok in H as (role&s1&H1&H). apply lift_Ok in H1 as [Hrole ->]. injection Hrole as <-.
  apply bind_Ok in H as (v1&s1&H1&H). apply zoom_Ok in H1 as (db1&H1&->). cbn [view watch_tasks set_view watch_cases] in H1.
  apply bind_Ok in H as (v2&s2&H2&H). apply ret_Ok in H as [_ ->]. apply zoom_Ok in H2 as (db2&H2&->).
  cbn [view watch_tasks set_view watch_cases wd_tasks wd_cases wd_audit fst snd] in *.
  pose proof H1 as Hcols. eapply create_columns in Hcols as (r0&mm&Hr0&Hcols&Hmm&_&Hhash); [|exact Hwf].
  eapply create_good in H1 as ((Hwf1&Hext1)&r&cm&_&Hruns&Hst&Hpar&Hcm&_&_&(Hid&Hrid&Hkey)&_); [|exact Hwf].
  assert ((if falsy (Some run) then fresh "run" else default (fresh "run") (Some run)) = run) as Hrun.
  { unfold falsy. cbn. destruct (decide (run = ""%string)); [done|]. by rewrite bool_decide_eq_false_2. }
  rewrite Hrun in *. rewrite Hruns, Hid, lookup_insert_eq in Hr0. injection Hr0 as <-.
  eapply transition_good in H2 as ((Hwf2&Hext2)&Hvers&r'&Hr'&Hruns2); [|exact Hwf1].
  rewrite Hruns, Hid, lookup_insert_eq in Hr'. injection Hr' as <-.
  injection Hcols as E1 E2 _ _ _.
  assert (manifest = wake_manifest run (wi_case_id impact) capability budget m (wi_world_revision impact) (is_case_revision st)) as ->.
  { unfold make_ContextManifest in Hm. repeat case_match; congruence. }
  exists (set_transition QUEUED None None (now "queued") r). split; cbn.
  - by rewrite Hruns2, Hruns, Hid, insert_insert_eq.
  - by rewrite Hid, Hrid, E1, Hpar.
  - by rewrite E2.
  - unfold contract_of. rewrite Hruns2, lookup_insert_eq. cbn. unfold get_contract_version in *. rewrite Hvers, Hcm. cbn. do 2 f_equal.
    eapply (stored_contract db1); [done| |exact Hcm|exact Hkey].
    destruct (de_contracts _ _ Hext1) as [more Hmore]. unfold get_contract_version. rewrite Hmore, find_app.
    match goal with |- match find ?p _ with _ => _ end = _ => by erewrite (Hv : find _ _ = _) end.
  - exists budget, capability, k, mm. split; [done|]. split; [done|]. split; [done|].
    rewrite <- Hk1, <- Hrev. split; [|done]. destruct (de_manifests _ _ Hext2) as [more Hmore]. unfold get_manifest_version in *.
    by rewrite Hmore, find_app, Hmm.
  - split; [done|by etrans].
  - done.
Qed.

Lemma watch_run_made_from impact run c m adm adm' s s0 s' row :
  wd_audit s0 = wd_audit s → wa_budget_ref adm' = wa_budget_ref adm → wa_execution_envelope_ref adm' = wa_execution_envelope_ref adm →
  wa_capability_envelope_ref adm' = wa_capability_envelope_ref adm →
  watch_run_made contract_digest manifest_digest impact run c m adm s s' row →
  watch_run_made contract_digest manifest_digest impact run c m adm' s0 s' row.
Proof.
  intros E E1 E2 E3 []. assert (wd_tasks s0 = wd_tasks s) as Ht by (unfold wd_tasks; by rewrite E).
  assert (wd_cases s0 = wd_cases s) as Hc by (unfold wd_cases; by rewrite E). split; rewrite ?Ht, ?Hc, ?E1, ?E2, ?E3; done.
Qed.

(** From the template on: refused, or the run is made. *)
Lemma spawn_from_Ok impact trigger run t s r s' `{!Admits port} :
  run ≠ ""%string → task_wf contract_digest manifest_digest (wd_tasks s) → case_wf (wd_cases s) →
  from impact trigger run t s = (Ok r, s') →
  ∃ c m adm s1, contract_json <$> get_contract_version (run_contract_version_id t) (wd_tasks s) = Some c ∧
    manifest_json <$> get_manifest_version (run_context_manifest_version_id t) (wd_tasks s) = Some m ∧
    port c (TaskStore.run_id t) (execution_envelope_ref t) m (wi_case_id impact) trigger run (wi_world_revision impact) s = (Ok adm, s1) ∧
    (wr_case_id r, wr_trigger_ref r, wr_run_id r) = (wi_case_id impact, trigger, Some run) ∧
    ((wa_allowed adm = false ∧ s' = s1 ∧ wd_audit s' = wd_audit s ∧
      disposition r ∈ [POLICY_DENIED; POLICY_OBLIGATION_UNSATISFIED; POLICY_INDETERMINATE]) ∨
     (wa_allowed adm = true ∧ disposition r = WAKE_QUEUED ∧
      ∃ row, watch_run_made contract_digest manifest_digest impact run c m adm s s' row)).
Proof.
  intros Hne Hwf Hcw H. unfold spawn_from in H. apply bind_Ok in H as (s0&s1&H0&H). apply get_store_Ok in H0 as [-> ->].
  apply bind_Ok in H as (c&s1&H0&H). apply require_Ok in H0 as [Hc ->]. apply bind_Ok in H as (m&s1&H0&H). apply require_Ok in H0 as [Hm ->].
  cbv zeta in H. apply bind_Ok in H as (adm&s1&Hadm&H). pose proof (admits_audit (port := port) _ _ _ _ _ _ _ _ _ _ _ Hadm) as Haudit.
  exists (contract_json c), (manifest_json m), adm, s1. rewrite Hc, Hm. split; [done|]. split; [done|]. split; [done|].
  destruct (wa_allowed adm) eqn:Hallow; cbn [negb] in H.
  - destruct (wa_budget_ref adm) as [budget|] eqn:E1; [|done]. destruct (wa_execution_envelope_ref adm) as [execution|] eqn:E2; [|done].
    destruct (wa_capability_envelope_ref adm) as [capability|] eqn:E3; [|done].
    apply bind_Ok in H as (u&s2&H0&H). apply ret_Ok in H as [-> ->]. split; [done|]. right. split; [done|]. split; [done|].
    assert (wd_tasks s1 = wd_tasks s) as Ht by (unfold wd_tasks; by rewrite Haudit).
    assert (wd_cases s1 = wd_cases s) as Hcs by (unfold wd_cases; by rewrite Haudit).
    eapply (spawn_run_made _ _ _ _ _ _ (run_contract_version_id t)) in H0 as [row Hrow]; [|done|by rewrite Ht|by rewrite Hcs|by rewrite Ht].
    exists row. by eapply watch_run_made_from; [done| | | |exact Hrow].
  - apply ret_Ok in H as [-> ->]. split; [done|]. left. split; [done|]. split; [done|]. split; [done|].
    by eapply admits_refusal.
Qed.

(** C30. When a watch goes on.  Whatever the admission, as long as it decides over its own tables: a change wakes the watch of a
    case exactly when it activated the case, the run of this trigger does not exist yet, and the latest run that watched the
    case has ended parked, waiting for a change of the world, and is admitted.  Then a fresh run is queued for the
    investigation role, under the contract of the template and the controls that were admitted, with a first context at
    the new revisions, and no other run and no case changes.  Otherwise the answer says which of these did not hold,
    and no run and no case changes. *)
Theorem watch_wakes impact trigger s r s' (Hadmit : Admits port)
  (Hid : wake_id (wi_case_id impact) trigger ≠ ""%string)
  (Htasks : task_wf contract_digest manifest_digest (wd_tasks s)) (Hcases : case_wf (wd_cases s)) :
  spawn impact trigger s = (Ok r, s') →
  let case := wi_case_id impact in
  let run := wake_id case trigger in
  (wr_case_id r, wr_trigger_ref r) = (case, trigger) ∧
  match disposition r with
  | NOT_ACTIVATED =>
      s' = s ∧ (case_activated impact = false ∨ ∃ k, cases (wd_cases s) !! case = Some k ∧ case_status k ≠ "active"%string)
  | WAKE_REPLAY => s' = s ∧ wr_run_id r = Some run ∧ is_Some (task_runs (wd_tasks s) !! run)
  | NO_WATCH_TEMPLATE => s' = s ∧ ∀ k t, task_runs (wd_tasks s) !! k = Some t → ¬ watch_run case (wd_tasks s) t
  | TEMPLATE_NOT_TERMINAL =>
      s' = s ∧ ∃ t, latest_watch case (wd_tasks s) t ∧ wr_run_id r = Some (TaskStore.run_id t) ∧ is_terminal (status t) = false
  | TEMPLATE_NOT_WAITING =>
      s' = s ∧ ∃ t, latest_watch case (wd_tasks s) t ∧ wr_run_id r = Some (TaskStore.run_id t) ∧
        is_terminal (status t) = true ∧ stop_reason t ≠ Some WORLD_UPDATE
  | WAKE_QUEUED =>
      wr_run_id r = Some run ∧ ∃ t c m adm s1 row, wake_due uuid5_url impact trigger s t c m ∧
        port c (TaskStore.run_id t) (execution_envelope_ref t) m case trigger run (wi_world_revision impact) s = (Ok adm, s1) ∧
        wa_allowed adm = true ∧ watch_run_made contract_digest manifest_digest impact run c m adm s s' row
  | _ =>
      wd_audit s' = wd_audit s ∧ wr_run_id r = Some run ∧ ∃ t c m adm, wake_due uuid5_url impact trigger s t c m ∧
        port c (TaskStore.run_id t) (execution_envelope_ref t) m case trigger run (wi_world_revision impact) s = (Ok adm, s') ∧
        wa_allowed adm = false
  end.
Proof.
  intros H. cbv zeta. unfold spawn_for_world_change in H. destruct (case_activated impact) eqn:Hact; cbn [negb] in H.
  2: { apply ret_Ok in H as [-> ->]. split; [done|]. split; [done|by left]. }
  apply bind_Ok in H as (s0&s1&H0&H). apply get_store_Ok in H0 as [-> ->]. apply bind_Ok in H as (k&s1&H0&H).
  apply require_Ok in H0 as [Hk ->]. case_bool_decide as Hst.
  { apply ret_Ok in H as [-> ->]. split; [done|]. split; [done|right; by exists k]. }
  cbv zeta in H. case_bool_decide as Hrun.
  { apply ret_Ok in H as [-> ->]. by split. }
  destruct (watch_template _ _) as [t|] eqn:Ht.
  2: { apply ret_Ok in H as [-> ->]. split; [done|]. split; [done|]. by apply watch_template_None. }
  apply watch_template_latest in Ht.
  destruct (is_terminal (status t)) eqn:Hterm; cbn [negb] in H.
  2: { apply ret_Ok in H as [-> ->]. split; [done|]. split; [done|]. by exists t. }
  case_bool_decide as Hpark.
  { apply ret_Ok in H as [-> ->]. split; [done|]. split; [done|]. by exists t. }
  apply eq_None_not_Some in Hrun.
  apply spawn_from_Ok in H as (c&m&adm&s1&Hc&Hm&Hadm&Hans&Hend); [|done..]. injection Hans as E1 E2 E3.
  assert (wake_due uuid5_url impact trigger s t c m) as Hdue by (split; eauto). split; [by rewrite E1, E2|].
  destruct Hend as [(Hno&->&Haudit&Hd)|(Hyes&->&row&Hrow)]; [|split; [done|]; by exists t, c, m, adm, s1, row].
  assert (wd_audit s1 = wd_audit s ∧ wr_run_id r = Some (wake_id (wi_case_id impact) trigger) ∧ ∃ t c m adm,
    wake_due uuid5_url impact trigger s t c m ∧
    port c (TaskStore.run_id t) (execution_envelope_ref t) m (wi_case_id impact) trigger
      (wake_id (wi_case_id impact) trigger) (wi_world_revision impact) s = (Ok adm, s1) ∧ wa_allowed adm = false) as Href
    by (split; [done|]; split; [done|]; by exists t, c, m, adm).
  rewrite !elem_of_cons in Hd. destruct Hd as [->|[->|[->|[]%not_elem_of_nil]]]; exact Href.
Qed.

(** A change wakes a watch at most once: when it has, every later wake of the case for the same trigger, after any other
    operations of the task store and under any admission, finds the run it made and changes nothing. *)
Theorem watch_woken_once impact trigger s r s' port' stream' impact' s2 r2 s3 (Hadmit : Admits port)
  (Hid : wake_id (wi_case_id impact) trigger ≠ ""%string)
  (Htasks : task_wf contract_digest manifest_digest (wd_tasks s)) (Hcases : case_wf (wd_cases s)) :
  spawn impact trigger s = (Ok r, s') → disposition r = WAKE_QUEUED →
  db_extends (wd_tasks s') (wd_tasks s2) → wi_case_id impact' = wi_case_id impact →
  spawn_for_world_change uuid5_url contract_digest manifest_digest now fresh port' stream' impact' trigger s2 = (r2, s3) →
  s3 = s2 ∧ match r2 with
            | Ok x => disposition x = NOT_ACTIVATED ∨ disposition x = WAKE_REPLAY ∧ wr_run_id x = wr_run_id r
            | Err e => cases (wd_cases s2) !! wi_case_id impact = None
            end.
Proof.
  intros H Hq Hext Hcase H2. unfold spawn_for_world_change in H. destruct (case_activated impact); cbn [negb] in H;
    [|apply ret_Ok in H as [-> ->]; done].
  apply bind_Ok in H as (s0&s1&H0&H). apply get_store_Ok in H0 as [-> ->]. apply bind_Ok in H as (k&s1&H0&H).
  apply require_Ok in H0 as [Hk ->]. case_bool_decide; [apply ret_Ok in H as [-> ->]; done|]. cbv zeta in H.
  case_bool_decide; [apply ret_Ok in H as [-> ->]; done|]. destruct (watch_template _ _) as [t|]; [|apply ret_Ok in H as [-> ->]; done].
  destruct (is_terminal (status t)); cbn [negb] in H; [|apply ret_Ok in H as [-> ->]; done].
  case_bool_decide; [apply ret_Ok in H as [-> ->]; done|].
  apply spawn_from_Ok in H as (c&m&adm&s1&_&_&_&Hans&[(_&_&_&Hd)|(_&_&row&Hrow)]); [by rewrite Hq in Hd; set_solver| |done..].
  injection Hans as _ _ E3. destruct (de_runs _ _ Hext (wake_id (wi_case_id impact) trigger) row) as (row'&Hrow'&_).
  { rewrite (made_only _ _ _ _ _ _ _ _ _ _ Hrow). by rewrite lookup_insert_eq. }
  unfold spawn_for_world_change in H2. rewrite Hcase in H2. destruct (case_activated impact'); cbn [negb] in H2;
    [|injection H2 as <- <-; split; [done|by left]].
  unfold mbind, prog_bind, get_store in H2. unfold require at 1 in H2.
  destruct (cases (wd_cases s2) !! wi_case_id impact) as [k2|]; [|by injection H2 as <- <-].
  case_bool_decide; [injection H2 as <- <-; split; [done|by left]|]. cbv zeta in H2.
  rewrite bool_decide_eq_true_2 in H2 by by exists row'. injection H2 as <- <-. split; [done|right; by rewrite E3].
Qed.
End spawn.

(** ** The shipped admission *)

Section shipped.
Context (uuid5_url : string → string) (contract_digest : TaskContract → string) (manifest_digest : ContextManifest → string)
  (now : string → Z) (fresh : string → string) (hexdigest : PolicyRequest → PolicyDecision → string)
  (self : RuntimeWatchWakeAdmission) (stream : string).
Abbreviation shipped_admit := (runtime_admit uuid5_url now hexdigest self).
Abbreviation shipped_spawn := (spawn_for_world_change uuid5_url contract_digest manifest_digest now fresh shipped_admit stream).

(** The foreign key of the accounts. *)
Definition accounts_refer (s : WatchDB) : Prop :=
  ∀ id a run, accounts (wd_budget s) !! id = Some a → acc_task_run_id a = Some run → is_Some (task_runs (wd_tasks s) !! run).

(** What the shipped admission asks of a wake that is due: the policy in force permits it, its obligations are met, and the
    controls of the template are stored. *)
Record wake_permitted (impact : WorldChangeImpact) (trigger_ref : string) (s : WatchDB) (t : TaskRunModel) (c : TaskContract)
  (m : ContextManifest) : Prop := {
  pm_revision : engine_revision (rw_policy self) = tc_policy_revision c;
  pm_request : let request := watch_request c (TaskStore.run_id t) (wi_case_id impact) trigger_ref
                   (watch_wake_run_id uuid5_url (wi_case_id impact) trigger_ref) (wi_world_revision impact) in
    validate_request request = Ok request ∧ authorization (evaluate (rw_policy self) request) = PERMIT ∧
    obligations_satisfied (evaluate (rw_policy self) request) (rw_fulfilled_obligation_kinds self) = true;
  pm_budget : ∃ a l, accounts (wd_budget s) !! cm_budget_ref m = Some a ∧ make_BudgetLimits (acc_limits a) = Ok l;
  pm_execution : ∃ x e, wd_executions s !! execution_envelope_ref t = Some x ∧ validate_envelope (envelope_json x) = Ok e
}.

(** A run that does not exist is not admitted: its account would refer to it. *)
Lemma runtime_admit_fresh c x t m case trigger run rev s adm s' :
  task_runs (wd_tasks s) !! run = None → accounts_refer s →
  shipped_admit c x t m case trigger run rev s = (Ok adm, s') → wa_allowed adm = false.
Proof.
  intros Hrun Hrefer H. unfold runtime_admit in H. destruct (bool_decide _); [by apply ret_Ok in H as [-> _]|].
  apply bind_Ok in H as (request&s1&H0&H). apply lift_Ok in H0 as [_ ->]. cbv zeta in H.
  destruct (bool_decide _); [by apply ret_Ok in H as [-> _]|]. destruct (negb _); [by apply ret_Ok in H as [-> _]|]. exfalso.
  apply bind_Ok in H as (budget&s1&H0&H).
  assert (s1 = s) as -> by (eapply (f_equal snd) in H0; cbn in H0; rewrite <- H0; apply reads_zoom; unfold snapshot; eauto 9 with reading).
  apply bind_Ok in H as (execution&s1&H1&H).
  assert (s1 = s) as -> by (eapply (f_equal snd) in H1; cbn in H1; rewrite <- H1; apply reads_zoom; unfold get_execution, lock_execution; eauto 9 with reading).
  apply bind_Ok in H as (limits&s1&H2&H). apply lift_Ok in H2 as [_ ->]. apply bind_Ok in H as (a&s1&H2&_).
  unfold create_run_account in H2. apply bind_Ok in H2 as (s0&s2&H3&H2). apply get_store_Ok in H3 as [-> ->].
  apply bind_Ok in H2 as (u&s2&H3&H2). apply check_Ok in H3 as [Hfk ->]. rewrite Hrun, (bool_decide_eq_true_2 (None = None)), andb_true_r in Hfk by done.
  apply bool_decide_eq_false in Hfk. apply zoom_Ok in H2 as (db&H2&_). cbn [view watch_budget] in H2.
  unfold create_account in H2. apply bind_Ok in H2 as (s0&s3&H3&H2). apply get_store_Ok in H3 as [-> ->].
  destruct (accounts (wd_budget s) !! _) as [existing|] eqn:E; [|done]. apply bind_Ok in H2 as (u2&s3&H3&_). apply check_Ok in H3 as [Hsame _].
  apply orb_false_iff in Hsame as [Hsame _]. apply orb_false_iff in Hsame as [_ Hsame]. apply bool_decide_eq_false, dec_stable in Hsame.
  destruct (Hrefer _ _ _ E Hsame) as [r Hr]. congruence.
Qed.

(** A permitted wake reaches the account of a run that does not exist. *)
Lemma runtime_admit_permitted impact trigger s t c m :
  wake_due uuid5_url impact trigger s t c m → wake_permitted impact trigger s t c m →
  accounts (wd_budget s) !! ("budget:" +:+ watch_wake_run_id uuid5_url (wi_case_id impact) trigger) = None →
  shipped_admit c (TaskStore.run_id t) (execution_envelope_ref t) m (wi_case_id impact) trigger
    (watch_wake_run_id uuid5_url (wi_case_id impact) trigger) (wi_world_revision impact) s =
  (Err (IntegrityError (watch_wake_run_id uuid5_url (wi_case_id impact) trigger)), s).
Proof.
  intros Hdue [Hrev (Hreq&Hauth&Hobl) (a&l&Ha&Hl) (x&e&Hx&He)] Hnone. pose proof (due_fresh _ _ _ _ _ _ _ Hdue) as Hfresh.
  unfold runtime_admit. rewrite bool_decide_eq_false_2 by (rewrite Hrev; tauto). unfold mbind, prog_bind, lift.
  rewrite Hreq. cbv beta iota zeta. rewrite Hauth, Hobl. rewrite bool_decide_eq_false_2 by tauto. cbn [negb].
  assert (∀ A T (E : Embeds WatchDB T) (m : prog T A) r, m (view s) = (r, view s) → zoom m s = (r, s)) as Hzoom.
  { intros A T E m0 r H. unfold zoom. by rewrite H, set_view_view. }
  erewrite (Hzoom _ _ _ (snapshot _)) by (unfold snapshot, mbind, prog_bind, get_store, require; cbn [view watch_budget]; by rewrite Ha).
  erewrite (Hzoom _ _ _ (get_execution _)) by (unfold get_execution, lock_execution, mbind, prog_bind, get_store, require, lift;
    cbn [view watch_executions]; by rewrite Hx, He).
  cbn [snap_limits]. rewrite Hl. unfold create_run_account, mbind, prog_bind, get_store, check.
  by rewrite Hnone, Hfresh, !bool_decide_eq_true_2.
Qed.

Lemma spawn_due port impact trigger s t c m :
  task_wf contract_digest manifest_digest (wd_tasks s) → wake_due uuid5_url impact trigger s t c m →
  spawn_for_world_change uuid5_url contract_digest manifest_digest now fresh port stream impact trigger s =
  spawn_from uuid5_url contract_digest manifest_digest now fresh port stream impact trigger
    (watch_wake_run_id uuid5_url (wi_case_id impact) trigger) t s.
Proof.
  intros Hwf [H1 (k&H2&H3) H4 H5%latest_watch_template H6 H7 _ _]; [|apply (wf_run_key _ _ _ Hwf)]. unfold spawn_for_world_change. rewrite H1. cbn [negb]. unfold mbind, prog_bind, get_store, require.
  rewrite H2. rewrite bool_decide_eq_false_2 by (rewrite H3; tauto). cbv zeta. rewrite H4, bool_decide_eq_false_2 by (intros [? ?]; done).
  rewrite H5, H6. cbn [negb]. rewrite bool_decide_eq_false_2 by (rewrite H7; tauto). done.
Qed.

(** C31. With the admission that is shipped no watch ever goes on.  The account and the execution of the fresh run are written
    before the run they refer to, so a wake that is due and permitted violates a foreign key and raises; no wake ever queues
    a run.  When it raises, the change that should have woken the watch is lost for every case: the transaction of the
    handler is rolled back. *)
Theorem shipped_watch_stuck impact trigger s (Hrefer : accounts_refer s)
  (Htasks : task_wf contract_digest manifest_digest (wd_tasks s)) :
  (∀ r s', case_wf (wd_cases s) →
     watch_wake_run_id uuid5_url (wi_case_id impact) trigger ≠ ""%string →
     shipped_spawn impact trigger s = (Ok r, s') → disposition r ≠ WAKE_QUEUED ∧ wd_audit s' = wd_audit s) ∧
  ∀ t c m, wake_due uuid5_url impact trigger s t c m → wake_permitted impact trigger s t c m →
    let run := watch_wake_run_id uuid5_url (wi_case_id impact) trigger in
    accounts (wd_budget s) !! ("budget:" +:+ run) = None →
    shipped_spawn impact trigger s = (Err (IntegrityError run), s) ∧
    ∀ case_event kb change rest s0, trigger = "knowledge-revision:" +:+ str_of_Z (kc_revision change) →
      zoom (process_change case_event kb change (now "change")) s0 = (Ok (impact :: rest), s) →
      react_to_knowledge_change uuid5_url contract_digest manifest_digest now fresh shipped_admit stream case_event kb true change s0 =
      (Err (IntegrityError run), s0).
Proof.
  split.
  - intros r s' Hcases Hid H. unfold spawn_for_world_change in H. destruct (case_activated impact); cbn [negb] in H;
      [|by apply ret_Ok in H as [-> ->]].
    apply bind_Ok in H as (s0&s1&H0&H). apply get_store_Ok in H0 as [-> ->]. apply bind_Ok in H as (k&s1&H0&H).
    apply require_Ok in H0 as [Hk ->]. case_bool_decide; [by apply ret_Ok in H as [-> ->]|]. cbv zeta in H.
    case_bool_decide as Hrun; [by apply ret_Ok in H as [-> ->]|]. destruct (watch_template _ _) as [t|]; [|by apply ret_Ok in H as [-> ->]].
    destruct (is_terminal (status t)); cbn [negb] in H; [|by apply ret_Ok in H as [-> ->]].
    case_bool_decide; [by apply ret_Ok in H as [-> ->]|].
    apply eq_None_not_Some in Hrun.
    apply (spawn_from_Ok uuid5_url contract_digest manifest_digest now fresh shipped_admit stream) in H
      as (c&m&adm&s1&_&_&Hadm&_&[(_&_&Haudit&Hd)|(Hyes&_)]); [| |first [done|apply _]..].
    + split; [|done]. intros Hq. rewrite Hq in Hd. set_solver.
    + apply runtime_admit_fresh in Hadm; [congruence|done..].
  - intros t c m Hdue Hperm run Hnone. pose proof (runtime_admit_permitted _ _ _ _ _ _ Hdue Hperm Hnone) as Hadm.
    assert (shipped_spawn impact trigger s = (Err (IntegrityError run), s)) as Hspawn.
    { rewrite (spawn_due _ _ _ _ _ _ _ Htasks Hdue). pose proof (due_contract _ _ _ _ _ _ _ Hdue) as Hc. pose proof (due_context _ _ _ _ _ _ _ Hdue) as Hm.
      apply fmap_Some in Hc as (cm&Hc&->). apply fmap_Some in Hm as (mm&Hm&->).
      unfold spawn_from, mbind, prog_bind, get_store, require. rewrite Hc, Hm. cbv zeta. by rewrite Hadm. }
    split; [done|]. intros case_event kb change rest s0 -> Hp. unfold react_to_knowledge_change, atomic, mbind, prog_bind. rewrite Hp.
    cbn [for_each]. unfold mbind, prog_bind. by rewrite Hspawn.
Qed.
End shipped.

(** ** A parked investigation waits for its change *)

(** A case that waits stays so, or is active, while a change is applied to it. *)
Definition waits_or_acts (id : string) (db : CaseDB) : Prop :=
  ∃ k, cases db !! id = Some k ∧ case_id k = id ∧ case_status k ∈ ["waiting"; "active"]%string.

Lemma waits_append fresh id ty pid oi p t refs w rc payload at_ db ev db' :
  waits_or_acts id db → append_event fresh id ty pid oi p t refs w rc payload at_ db = (Ok ev, db') → waits_or_acts id db'.
Proof.
  intros (k&Hk&Hid&Hst) (c&Hc&_&_&->)%append_event_Ok. assert (c = k) as -> by congruence. exists (advance_case k). cbn.
  rewrite Hid, lookup_insert_eq. split; [done|]. split; [done|].
  apply elem_of_cons in Hst as [->| ->%list_elem_of_singleton]; apply (bool_decide_unpack _); done.
Qed.

Lemma rebuild_cases id now db st db' : rebuild id now db = (Ok st, db') → cases db' = cases db.
Proof.
  unfold rebuild, rebuild_current. intros H. prog_inv H. destruct (state_current db !! id); [destruct (_ && _)|]; by prog_inv Hrun.
Qed.

(** A waiting case that a change is applied to is active afterwards. *)
Lemma apply_case_activates fresh kb change now id db impact db' k :
  case_wf db → cases db !! id = Some k → case_status k = "waiting"%string → apply_case fresh kb change now id db = (Ok impact, db') →
  wi_case_id impact = id ∧ case_activated impact = true ∧ ∃ k', cases db' !! id = Some k' ∧ case_status k' = "active"%string.
Proof.
  intros Hwf Hk Hst H. unfold apply_case in H. apply bind_Ok in H as (c&s1&H0&H).
  apply lock_case_Ok in H0 as (->&Hc&_). assert (c = k) as -> by congruence. apply bind_Ok in H as (st&s1&H0&H).
  destruct (get_state_Ok _ _ _ _ _ Hwf H0) as (Hwf1&Hsame&_).
  assert (waits_or_acts id s1) as W1.
  { exists k. rewrite (sh_cases _ _ Hsame). split; [done|]. split; [by eapply (proj1 (keyed_wf _ Hwf))|]. rewrite Hst. by left. }
  clear H0. apply bind_Ok in H as (s0&s2&H0&H). apply get_store_Ok in H0 as [-> ->]. cbv zeta in H.
  apply bind_Ok in H as (us&s2&H1&H). apply bind_Ok in H as (reopened&s3&H2&H). apply bind_Ok in H as (u&s4&H3&H).
  apply (for_each_steps (waits_or_acts id) any_step) in H1 as [W2 _]; [| |exact W1].
  2: { intros i s a s' _ W Hr. split; [|done]. unfold retract_item in Hr. apply bind_Ok in Hr as (e1&s5&E1&Hr).
       apply bind_Ok in Hr as (e2&s6&E2&Hr). apply ret_Ok in Hr as [_ ->]. do 2 (eapply waits_append; [|done]). done. }
  apply (for_each_steps (waits_or_acts id) any_step) in H2 as [W3 _]; [| |exact W2].
  2: { intros n s a s' _ W Hr. split; [|done]. unfold reopen_stale_need in Hr. apply bind_Ok in Hr as (e1&s5&E1&Hr).
       apply bind_Ok in Hr as (u1&s6&E2&Hr). apply modify_Ok in E2 as ->. apply ret_Ok in Hr as [_ ->].
       eapply waits_append in E1; [|done]. exact E1. }
  assert (waits_or_acts id s4) as (k4&Hk4&Hid4&Hst4).
  { destruct (_ && _); [by apply ret_Ok in H3 as [_ ->]|]. apply bind_Ok in H3 as (st'&s5&H3&H4). apply ret_Ok in H4 as [_ ->].
    apply rebuild_cases in H3. unfold waits_or_acts. by rewrite H3. }
  apply bind_Ok in H as (s0&s5&H0&H). apply get_store_Ok in H0 as [-> ->]. apply bind_Ok in H as (b&s5&H0&H).
  apply ret_Ok in H as [-> ->]. rewrite bool_decide_eq_false_2 in H0 by (rewrite Hst; tauto). split; [done|].
  case_bool_decide as Hact.
  - apply ret_Ok in H0 as [-> ->]. split; [done|]. exists k4. split; [done|]. rewrite Hk4 in Hact. by injection Hact.
  - apply bind_Ok in H0 as (cv&s6&H0&H). apply ret_Ok in H as [-> ->]. split; [done|].
    assert (case_status k4 = "waiting"%string) as Hw.
    { rewrite Hk4 in Hact. cbn in Hact. apply elem_of_cons in Hst4 as [?|E%list_elem_of_singleton]; [done|]. rewrite E in Hact. done. }
    unfold activate_case, transition_case in H0. prog_inv H0. assert (v = k4) as -> by congruence. rewrite Hw in Hlift.
    injection Hlift as <-. rewrite bool_decide_eq_false_2 in H0 by done. prog_inv H0. eexists. cbn. rewrite Hid4, lookup_insert_eq. done.
Qed.

(** A change that is applied to a case that does not wait activates nothing. *)
Lemma apply_case_passive fresh kb change now id db impact db' k :
  case_wf db → cases db !! id = Some k → case_status k ≠ "waiting"%string → apply_case fresh kb change now id db = (Ok impact, db') →
  wi_case_id impact = id ∧ case_activated impact = false.
Proof.
  intros Hwf Hk Hst H. unfold apply_case in H. apply bind_Ok in H as (c&s1&H0&H).
  apply lock_case_Ok in H0 as (->&Hc&_). assert (c = k) as -> by congruence. do 6 (apply bind_Ok in H as (?&?&_&H)).
  cbv zeta in H. apply bind_Ok in H as (b&?&Hb&H). rewrite bool_decide_eq_true_2 in Hb by done.
  apply ret_Ok in Hb as [-> _]. by apply ret_Ok in H as [-> _].
Qed.

Section parked.
Context (contract_digest : TaskContract → string) (lib : Library) (self : InvestigationRoleRuntime).

(** The rows of a run that parked. *)
Lemma parked_row run_id s log o w' :
  Collaborators contract_digest (lib_manifest_digest lib) any_step self → session_wf contract_digest (lib_manifest_digest lib) s →
  run lib self run_id (s, log) = (Ok o, w') → ir_stop_reason (ro_result o) = WORLD_UPDATE → run_status o = COMPLETED →
  ∃ contract d row, contract_of (ss_tasks s) run_id = Some contract ∧ investigation_desired_state_of contract = Ok d ∧
    task_kind contract = WATCH_INCIDENT ∧ task_runs (ss_tasks w'.1) !! run_id = Some row ∧
    run_case_id row = Some (it_case_id d) ∧ status row = COMPLETED ∧ stop_reason row = Some WORLD_UPDATE ∧
    contract_of (ss_tasks w'.1) run_id = Some contract ∧
    ∃ c, cases (ss_cases w'.1) !! it_case_id d = Some c ∧ case_status c = "waiting"%string.
Proof.
  intros Hself Hwf H Hstop Hst.
  apply (run_safe contract_digest lib self any_step) in H as [(e&?&_)|(contract&d&row&Hc&Hd&_&_&Hb&_&[[(row'&Hrow&Hst'&Hstop'&_) _] Hend])]; try done.
  exists contract, d, row'. destruct (bo_case _ _ _ _ _ _ Hb) as (row2&Hrow2&Hcase). assert (row2 = row') as -> by congruence.
  split; [done|]. split; [done|]. destruct Hend as [_ E _|c _ _ Hk _ Hcc Hcs|E _|E]; [by rewrite Hstop in E| |congruence|congruence].
  split; [done|]. split; [done|]. split; [done|]. split; [congruence|]. split; [congruence|]. split; [apply Hb|]. by exists c.
Qed.

(** C29. A parked watch gets one wake.  When an investigation parks - it ends completed, waiting for a change of the world -
    then in whatever way the stores go on, as long as its case still waits and no later run watches the case, the next change
    that is applied to the case activates it and makes a wake due: its template is the parked run, under the contract it
    worked under, whatever the trigger, unless the run of this trigger exists.  What comes of that wake is the admission's
    answer ([watch_wakes]); the case is active from then on, and while it is, every further change that is applied to it is
    answered [NOT_ACTIVATED] and changes nothing: a wake that was refused or skipped is not made up for. *)
Theorem parked_watch_due run_id s log o w' (Hself : Collaborators contract_digest (lib_manifest_digest lib) any_step self)
  (Hwf : session_wf contract_digest (lib_manifest_digest lib) s) :
  run lib self run_id (s, log) = (Ok o, w') → run_status o = COMPLETED → ir_stop_reason (ro_result o) = WORLD_UPDATE →
  ∃ contract d row, contract_of (ss_tasks s) run_id = Some contract ∧ investigation_desired_state_of contract = Ok d ∧
    task_runs (ss_tasks w'.1) !! run_id = Some row ∧
    (∃ c, cases (ss_cases w'.1) !! it_case_id d = Some c ∧ case_status c = "waiting"%string) ∧
    ∀ W k uuid5_url case_event kb change instant impact db1 trigger,
      task_wf contract_digest (lib_manifest_digest lib) (wd_tasks W) → case_wf (wd_cases W) →
      db_extends (ss_tasks w'.1) (wd_tasks W) →
      (∀ id r, task_runs (wd_tasks W) !! id = Some r → watch_run (it_case_id d) (wd_tasks W) r →
         r = row ∨ created_at r < created_at row ∨ created_at r = created_at row ∧ String.le (TaskStore.run_id r) (TaskStore.run_id row)) →
      cases (wd_cases W) !! it_case_id d = Some k → case_status k = "waiting"%string →
      apply_case case_event kb change instant (it_case_id d) (wd_cases W) = (Ok impact, db1) →
      task_runs (wd_tasks W) !! watch_wake_run_id uuid5_url (it_case_id d) trigger = None →
      (∃ m, wake_due uuid5_url impact trigger (mkWatchDB (wd_tasks W, db1) (wd_executions W) (wd_budget W)) row contract m) ∧
      (∃ k', cases db1 !! it_case_id d = Some k' ∧ case_status k' = "active"%string) ∧
      ∀ W2 k2 change2 instant2 impact2 db2 manifest_digest now fresh port stream trigger2,
        case_wf (wd_cases W2) → cases (wd_cases W2) !! it_case_id d = Some k2 → case_status k2 ≠ "waiting"%string →
        apply_case case_event kb change2 instant2 (it_case_id d) (wd_cases W2) = (Ok impact2, db2) →
        let applied := mkWatchDB (wd_tasks W2, db2) (wd_executions W2) (wd_budget W2) in
        spawn_for_world_change uuid5_url contract_digest manifest_digest now fresh port stream impact2 trigger2 applied
        = (Ok (mkWatchWakeResult (it_case_id d) trigger2 NOT_ACTIVATED None None None), applied).
Proof.
  intros H Hst Hstop. destruct (parked_row _ _ _ _ _ Hself Hwf H Hstop Hst)
    as (contract&d&row&Hc&Hd&Hkind&Hrow&Hcase&Hrst&Hrstop&Hc'&Hwait).
  exists contract, d, row. split; [done|]. split; [done|]. split; [done|]. split; [done|].
  intros W k uuid5_url case_event kb change instant impact db1 trigger Htasks Hcases Hext Hlatest Hk Hks Happly Hfresh.
  destruct (apply_case_activates _ _ _ _ _ _ _ _ _ Hcases Hk Hks Happly) as (Hid&Hact&Hactive).
  destruct (de_runs _ _ Hext _ _ Hrow) as (row'&Hrow'&Hre). assert (row' = row) as -> by (apply (re_terminal _ _ Hre); by rewrite Hrst).
  pose proof (contract_of_extends _ _ _ _ Hext Hc') as Hcw. unfold contract_of in Hcw. rewrite Hrow' in Hcw. cbn in Hcw.
  apply bind_Some in Hcw as (cm&Hcm&[= <-]). destruct (rro_manifest _ _ (wf_runs _ _ _ Htasks _ _ Hrow')) as (mm&Hmm&_).
  split; [|split; [done|]].
  2: { intros W2 k2 change2 instant2 impact2 db2 md now fresh port stream trigger2 Hwf2 Hk2 Hks2 Happly2 applied.
       destruct (apply_case_passive _ _ _ _ _ _ _ _ _ Hwf2 Hk2 Hks2 Happly2) as [<- Hpass].
       unfold spawn_for_world_change. by rewrite Hpass. }
  exists (manifest_json mm). split; cbn [wd_tasks wd_cases wd_audit fst snd]; rewrite ?Hid; try done.
  - split; [by exists run_id| |exact Hlatest]. split; [done|]. exists cm. split; [done|].
    pose proof (proj1 (find_elem _ _ _ Hcm)) as Hin. by rewrite (cro_kind _ _ (proj1 (Forall_forall _ _) (wf_contracts _ _ _ Htasks) _ Hin)).
  - by rewrite Hrst.
  - unfold wd_tasks in *. cbn. by rewrite Hcm.
  - unfold wd_tasks in *. cbn. by rewrite Hmm.
Qed.
End parked.

(** ** A sample watch

    The sample case is watched and its run parks; a change of its object then wakes it, and the shipped admission stops it. *)

Definition sample_watch_contract : TaskContract :=
  match build_investigation_contract "root" "user:alice" WATCH_INCIDENT "c1" ["o1"%string] ["n1"%string] "policy-v1" 1 None true with
  | Ok c => c
  | Err _ => mkTaskContract "" 0 "" None LOOKUP [] [] [] [] [] INTERNAL_STATE default_DelegationCeiling [] CANCELLABLE ""
  end.
Definition sample_watch_session : Session :=
  mkSession
    (run_ops (λ s, s) tc_id context_id
       [CreateTaskRun sample_watch_contract (sample_manifest "ctx" "root@1" "InvestigationRole@1" 1 None) InvestigationRole "env" "events"
          (Some "c1"%string) None (Some "run"%string) "" "e0" "task-runtime" 10] empty_TaskDB, asked)
    sample_kb sample_retrieval 7 {["budget:1"%string := [("agent_turns"%string, "4"%string)]]} [].
Definition sample_watcher : InvestigationRoleRuntime :=
  mkInvestigationRoleRuntime (λ _, mret (WaitAction WORLD_UPDATE)) None None None "events" 64 2.
Definition parked_watch := run sample_lib sample_watcher "run" (sample_watch_session, []).

Definition sample_envelope : ExecutionEnvelope :=
  mkExecutionEnvelope "env" None "root" "run" (Some "c1"%string) "InvestigationRole@1" 1 PROFILE_WATCH ["search"%string]
    (mkDatetime 1000 true) "budget:1" "policy-v1" [] "deny_all" "none" "sandbox@1" [].
Definition sample_watch_db : WatchDB :=
  mkWatchDB (ss_audit parked_watch.2.1)
    {["env"%string := mkExecutionRunModel "env" None "run" sample_envelope EX_COMPLETED None 10 None None]}
    (mkBudgetDB {["budget:1"%string := mkBudgetAccountModel "budget:1" None (Some "run"%string) [] "active" 10 None]} []).
Definition sample_change : KnowledgeChangeNotice := mkKnowledgeChangeNotice 8 ["o1"%string] [] [] None.

Definition sample_watch_policy : RuntimeWatchWakeAdmission :=
  mkRuntimeWatchWakeAdmission (mkStaticPolicyEngine "policy-v1"
    [mkRuntimePolicyRule "watch" "policy-v1" [WATCH_RESUME] ["*"%string] ["resume_watch"%string] ["case:*"%string] (Some PERMIT) [] [] []])
    300 ∅.
(** An admission that permits and has the controls made elsewhere. *)
Definition open_admit : WatchWakeAdmissionPort := λ _ _ _ _ _ _ _ _,
  mret (mkWatchWakeAdmission true None None None (Some "budget:2"%string) (Some "env:2"%string) (Some "capability:2"%string)).

Definition sample_react (port : WatchWakeAdmissionPort) (llm : bool) :=
  react_to_knowledge_change (λ s, s) tc_id context_id (λ _, 200) (λ s, s) port "events" sample_fresh sample_kb llm sample_change
    sample_watch_db.

#[export] Instance sample_watcher_collaborates : Collaborators tc_id context_id any_step sample_watcher.
Proof.
  split; cbn; try done.
  - intros frame s r s' Hs [= <- <-]. split; [done|]. split; done.
Qed.
#[export] Instance open_admits : Admits open_admit.
Proof. split; unfold open_admit; [by intros ????????? r s' [= _ <-]|by intros ????????? adm s' [= <- _]]. Qed.

Lemma sample_watch_session_wf : session_wf tc_id context_id sample_watch_session.
Proof.
  split; [apply run_ops_good, empty_wf|exact asked_wf|]. intros m Hm.
  assert (perception_events asked = []) as Hnil by by vm_compute. change (ss_cases sample_watch_session) with asked in Hm.
  rewrite Hnil in Hm. by apply not_elem_of_nil in Hm.
Qed.

Example watch_parks : match parked_watch with
  | (Ok o, w) => Some (run_status o, ir_stop_reason (ro_result o), case_status <$> cases (ss_cases w.1) !! "c1"%string)
  | _ => None
  end = Some (COMPLETED, WORLD_UPDATE, Some "waiting"%string).
Proof. vm_compute. reflexivity. Qed.

Lemma sample_watch_db_wf : task_wf tc_id context_id (wd_tasks sample_watch_db) ∧ case_wf (wd_cases sample_watch_db).
Proof.
  assert (session_wf tc_id context_id parked_watch.2.1) as [Ht Hc _].
  { destruct parked_watch as [r w'] eqn:E. pose proof watch_parks as Hp. rewrite E in Hp. destruct r as [o|e]; [|discriminate Hp].
    eapply (run_safe tc_id sample_lib sample_watcher any_step) in E as [(e&?&_)|(c&d&row&_&_&_&_&Hb&_)]; [done|apply Hb|..];
      [by intros|apply sample_watcher_collaborates|apply sample_watch_session_wf]. }
  by split.
Qed.

(** The stores when the change of the object was applied to the cases. *)
Definition sample_impact : WorldChangeImpact := mkWorldChangeImpact "c1" 8 true [] [].
Definition sample_changed : WatchDB :=
  (zoom (S:=WatchDB) (process_change sample_fresh sample_kb sample_change 200) sample_watch_db).2.

Lemma sample_change_applied :
  zoom (S:=WatchDB) (process_change sample_fresh sample_kb sample_change 200) sample_watch_db = (Ok [sample_impact], sample_changed).
Proof.
  unfold sample_changed. assert ((zoom (S:=WatchDB) (process_change sample_fresh sample_kb sample_change 200) sample_watch_db).1 = Ok [sample_impact])
    as E by by vm_compute. revert E. by destruct (zoom _ _) as [r s]; intros [= ->].
Qed.
Lemma sample_changed_wf : task_wf tc_id context_id (wd_tasks sample_changed) ∧ case_wf (wd_cases sample_changed).
Proof.
  destruct sample_watch_db_wf as [Ht Hc]. pose proof sample_change_applied as (db&H&->)%zoom_Ok. split; [exact Ht|].
  cbn in H |- *. eapply (process_change_good _ sample_iso sample_read) in H; [|exact Hc]. by apply H.
Qed.

Definition sample_trigger : string := "knowledge-revision:8".
Definition sample_wake (port : WatchWakeAdmissionPort) :=
  spawn_for_world_change (λ s, s) tc_id context_id (λ _, 200) (λ s, s) port "events" sample_impact sample_trigger.
Definition sample_shipped : WatchWakeAdmissionPort := runtime_admit (λ s, s) (λ _, 200) (λ _ _, "digest"%string) sample_watch_policy.

(** An open admission wakes the watch; the shipped one loses the change. *)
Example watch_goes_on : match sample_wake open_admit sample_changed with
  | (Ok r, s) => Some (disposition r, wr_run_id r, status <$> task_runs (wd_tasks s) !! "secfusion:watch-wake:c1:knowledge-revision:8"%string)
  | _ => None
  end = Some (WAKE_QUEUED, Some "secfusion:watch-wake:c1:knowledge-revision:8"%string, Some QUEUED).
Proof. vm_compute. reflexivity. Qed.
Example change_lost :
  (sample_react sample_shipped true).1 = Err (IntegrityError "secfusion:watch-wake:c1:knowledge-revision:8") ∧
  (sample_react sample_shipped false).1 = Ok [sample_impact].
Proof. split; vm_compute; reflexivity. Qed.

Lemma watch_wakes_witness : ∃ r s' t c m, sample_wake open_admit sample_changed = (Ok r, s') ∧ disposition r = WAKE_QUEUED ∧
  wake_due (λ s, s) sample_impact sample_trigger sample_changed t c m.
Proof.
  pose proof watch_goes_on as Hd. destruct (sample_wake open_admit sample_changed) as [[r|e] s'] eqn:E; [|discriminate Hd].
  injection Hd as Hd _ _. destruct sample_changed_wf as [Ht Hc]. unfold sample_wake in E.
  destruct (watch_wakes (λ s, s) tc_id context_id (λ _, 200) (λ s, s) open_admit "events" sample_impact sample_trigger sample_changed r s'
              open_admits ltac:(done) Ht Hc E) as [_ H].
  rewrite Hd in H. destruct H as (_&t&c&m&adm&s1&row&Hdue&_). exists r, s', t, c, m.
  split; [reflexivity|]. split; [exact Hd|exact Hdue].
Defined.

Lemma watch_woken_once_witness : ∃ r s' r2, sample_wake open_admit sample_changed = (Ok r, s') ∧
  sample_wake sample_shipped s' = (r2, s') ∧ match r2 with Ok x => disposition x = WAKE_REPLAY | Err _ => False end.
Proof.
  pose proof watch_goes_on as Hd. destruct (sample_wake open_admit sample_changed) as [[r|e] s'] eqn:E; [|discriminate Hd].
  injection Hd as Hd _ _. destruct sample_changed_wf as [Ht Hc].
  assert ((sample_wake sample_shipped s').1 = Ok (mkWatchWakeResult "c1" sample_trigger WAKE_REPLAY
    (Some "secfusion:watch-wake:c1:knowledge-revision:8"%string) None None)) as Hr.
  { replace s' with (sample_wake open_admit sample_changed).2 by by rewrite E. vm_compute. reflexivity. }
  destruct (sample_wake sample_shipped s') as [r2 s3] eqn:E2. unfold sample_wake in E, E2. cbn in Hr.
  destruct (watch_woken_once (λ s, s) tc_id context_id (λ _, 200) (λ s, s) open_admit "events" sample_impact sample_trigger sample_changed r s'
              sample_shipped "events" sample_impact s' r2 s3 open_admits ltac:(done) Ht Hc E Hd (reflexivity _) eq_refl E2) as [-> _].
  exists r, s', r2. split; [reflexivity|]. split; [exact E2|]. cbn in Hr. rewrite Hr. reflexivity.
Defined.

(** The template of the sample and the context it worked under. *)
Definition sample_template : TaskRunModel :=
  default (new_run "" (new_contract_version (λ s, s) tc_id sample_watch_contract 0)
             (new_manifest_version (λ s, s) context_id (new_contract_version (λ s, s) tc_id sample_watch_contract 0)
                (sample_manifest "ctx" "root@1" "InvestigationRole@1" 1 None) 0) sample_watch_contract
             (sample_manifest "ctx" "root@1" "InvestigationRole@1" 1 None) InvestigationRole "env" None None 0)
    (watch_template "c1" (wd_tasks sample_changed)).
Definition sample_context : ContextManifest :=
  default (sample_manifest "ctx" "root@1" "InvestigationRole@1" 1 None)
    (manifest_json <$> get_manifest_version (run_context_manifest_version_id sample_template) (wd_tasks sample_changed)).

Lemma sample_due : wake_due (λ s, s) sample_impact sample_trigger sample_changed sample_template sample_watch_contract sample_context.
Proof.
  split; try (by vm_compute).
  2: { apply watch_template_latest. vm_compute. reflexivity. }
  - destruct (cases (wd_cases sample_changed) !! "c1"%string) as [k|] eqn:E; [exists k; split; [exact E|]|by vm_compute in E].
    assert (case_status <$> cases (wd_cases sample_changed) !! "c1"%string = Some "active"%string) as H by by vm_compute.
    rewrite E in H. by injection H.
Qed.

Lemma shipped_watch_stuck_witness :
  wake_due (λ s, s) sample_impact sample_trigger sample_changed sample_template sample_watch_contract sample_context ∧
  sample_react sample_shipped true = (Err (IntegrityError "secfusion:watch-wake:c1:knowledge-revision:8"), sample_watch_db).
Proof.
  split; [exact sample_due|].
  assert (accounts_refer sample_changed) as Hrefer.
  { intros id a run H Hrun. assert (accounts (wd_budget sample_changed) = {["budget:1"%string := mkBudgetAccountModel "budget:1" None (Some "run"%string) [] "active" 10 None]})
      as E by by vm_compute. rewrite E in H. apply lookup_singleton_Some in H as [_ <-]. injection Hrun as <-. vm_compute. by eexists. }
  destruct (shipped_watch_stuck (λ s, s) tc_id context_id (λ _, 200) (λ s, s) (λ _ _, "digest"%string) sample_watch_policy "events"
              sample_impact sample_trigger sample_changed Hrefer (proj1 sample_changed_wf)) as [_ H].
  destruct (H _ _ _ sample_due) as [_ Hlost].
  - split; [by vm_compute|by vm_compute| |].
    + eexists _, _. split; vm_compute; reflexivity.
    + eexists _, _. split; vm_compute; reflexivity.
  - by vm_compute.
  - exact (Hlost sample_fresh sample_kb sample_change [] sample_watch_db eq_refl sample_change_applied).
Defined.

Lemma parked_watch_due_witness : ∃ o w' db1 t c m, parked_watch = (Ok o, w') ∧ run_status o = COMPLETED ∧
  apply_case sample_fresh sample_kb sample_change 200 "c1" (wd_cases sample_watch_db) = (Ok sample_impact, db1) ∧
  wake_due (λ s, s) sample_impact sample_trigger
    (mkWatchDB (wd_tasks sample_watch_db, db1) (wd_executions sample_watch_db) (wd_budget sample_watch_db)) t c m.
Proof.
  pose proof watch_parks as Hp. destruct parked_watch as [[o|e] w'] eqn:E; [|discriminate Hp]. injection Hp as H1 H2 H3.
  assert (wd_audit sample_watch_db = ss_audit w'.1) as HW by (unfold sample_watch_db; rewrite E; reflexivity).
  destruct (parked_watch_due tc_id sample_lib sample_watcher "run" sample_watch_session [] o w' sample_watcher_collaborates
              sample_watch_session_wf E H1 H2) as (contract&d&row&Hc&Hd&Hrow&_&Hdue).
  assert (contract_of (ss_tasks sample_watch_session) "run" = Some sample_watch_contract) as Ec by (vm_compute; reflexivity).
  assert (investigation_desired_state_of sample_watch_contract = Ok (mkInvestigationTaskDesiredState "c1" ["n1"%string] true)) as Ed
    by (vm_compute; reflexivity).
  assert (contract = sample_watch_contract) as -> by congruence. assert (d = mkInvestigationTaskDesiredState "c1" ["n1"%string] true) as ->
    by congruence.
  assert ((apply_case sample_fresh sample_kb sample_change 200 "c1" (wd_cases sample_watch_db)).1 = Ok sample_impact) as Ha by (vm_compute; reflexivity).
  destruct (apply_case sample_fresh sample_kb sample_change 200 "c1" (wd_cases sample_watch_db)) as [ra db1] eqn:Eapply.
  cbn [fst] in Ha. subst ra. assert (case_status <$> cases (wd_cases sample_watch_db) !! "c1"%string = Some "waiting"%string) as Hk by (vm_compute; reflexivity).
  apply fmap_Some in Hk as (k&Hk&Hks). destruct sample_watch_db_wf as [Ht Hcs].
  assert ((map_to_list (task_runs (wd_tasks sample_watch_db))).*1 = ["run"%string]) as Hkeys by (vm_compute; reflexivity).
  destruct (Hdue sample_watch_db k (λ s, s) sample_fresh sample_kb sample_change 200 sample_impact db1 sample_trigger Ht Hcs) as [[m Hm] _].
  - unfold wd_tasks, ss_tasks. rewrite HW. reflexivity.
  - intros id r Hr _. left. assert (id ∈ (map_to_list (task_runs (wd_tasks sample_watch_db))).*1) as Hin.
    { apply list_elem_of_fmap. exists (id, r). split; [reflexivity|]. apply elem_of_map_to_list, Hr. }
    rewrite Hkeys in Hin. apply list_elem_of_singleton in Hin. subst id. unfold wd_tasks in Hr. rewrite HW in Hr. unfold ss_tasks in Hrow. congruence.
  - exact Hk.
  - symmetry. exact Hks.
  - exact Eapply.
  - vm_compute. reflexivity.
  - exists o, w', db1, row, sample_watch_contract, m. split; [reflexivity|]. split; [exact H1|]. split; [reflexivity|exact Hm].
Defined.
